(* ===== verification/_CoqProject ===== *)
-Q . S2P
Prelude.v
Memory.v
MqttPacket.v
MqttWire.v
MqttConnect.v
MqttPublish.v
MqttSubscribe.v
Words.v
Sha256.v
Sha256Spec.v
Hmac.v
Kdf.v
Base64.v
Der.v
DerSpec.v
Big.v
BigSpec.v
Primes.v
Ecc.v
EccSpec.v
EcdsaSpec.v
CurveSpec.v
X509.v
Aes.v
AesSpec.v
RiotCrypt.v
Dice.v
RiotCore.v
DiceRiot.v
OtaSha.v
OtaStaging.v
OtaFormat.v
OtaTrace.v
OtaSim.v
OtaComplete.v
OtaSpec.v
Float32.v
SensorBus.v
Lsm6dslRegs.v
Lsm6dsl.v
Lsm6dslSpec.v
Lsm6dslSensor.v
SensorMachine.v
SensorSpec.v
Hts221.v
Hts221Spec.v
Lps22hb.v
Lps22hbSpec.v
