(* ===== verification/Prelude.v ===== *)
(** * A model of the MXChip DevKit SDK in Rocq

    The development models the parts of the firmware that have logic of their own, as
    pure functions translated from the C and C++ code under src/, and proves what they
    compute, when they stay inside their buffers, and where they go wrong. Paths below
    are relative to src/; D stands for
    tools/provisioning/dice_device_enrollment/src/dice_device_enrollment.

    ** How code becomes definitions

    - A result is an [outcome] (this file): [Ok a], or [Ub u] where C has undefined
      behaviour (an access outside an object, a null pointer, an overflow of a signed
      integer, an uninitialised value) or where a loop with fuel has run out of it.
    - A pointer is an offset into the list of the bytes of its object (Memory.v). An
      access is checked against the length of the list. Output parameters are part of
      the result; what a local variable holds before it is assigned is an argument
      wherever the code reads it or leaves it in memory.
    - Integers are [Z] with the wrap-around of their type written out ([u8], [u16],
      [u32], [u64], [s16], [s32]; this file). The host is little-endian and [size_t] has
      64 bits, which the loads and stores of Words.v say. A C enumeration is a set of
      integers where the code does arithmetic on it or reads it from a device, an
      inductive type otherwise.
    - The variables of a file are a record that its functions thread. Code that is not
      in the repository is an argument: the platform operations of the OTA engine, the
      bus under a sensor driver.
    - Floats are the IEEE binary32 numbers of the Standard Library (Float32.v).

    ** The parts, and the files that model them

    The MQTT packet library, libraries/MQTT/src/MQTTPacket: MqttPacket.v (MQTTPacket.c,
    MQTTPacket.h: header byte, remaining length, primitive readers and writers),
    MqttWire.v (the contract serializers share), MqttConnect.v (MQTTConnectClient.c,
    MQTTConnectServer.c, MQTTConnect.h), MqttPublish.v (MQTTSerializePublish.c,
    MQTTDeserializePublish.c) and MqttSubscribe.v (the four files of SUBSCRIBE and
    UNSUBSCRIBE). The three packet files use MqttPacket.v as the code does.

    The cryptography and the identity of a device, D/RIoT and D/DICE: Words.v, Sha256.v
    and Sha256Spec.v (RiotSha256.c and the copy DiceSha256.c), Hmac.v (RiotHmac.c),
    Kdf.v (RiotKdf.c), Aes.v and AesSpec.v (RiotAes128.c, RiotAesTables.c), Base64.v
    (RiotBase64.c), Big.v and Ecc.v (RiotEcc.c) with BigSpec.v, EccSpec.v, EcdsaSpec.v,
    CurveSpec.v and Primes.v, Der.v and DerSpec.v (RiotDerEnc.c, def.c), X509.v
    (RiotX509Bldr.c), RiotCrypt.v (RiotCrypt.c), Dice.v (DiceCore.c), RiotCore.v
    (RiotCore.c) and DiceRiot.v (DiceRIoT.cpp). They build on each other in this order:
    DiceRIoTStart measures the core with the hash, derives the identifier with HMAC, and
    calls RiotStart, which derives keys with the KDF and the curve and writes the
    certificates with the DER builder.

    The OTA staging engine, libraries/OTA/src/OTAStaging.cpp: OtaSha.v (hash and CRC),
    OtaStaging.v (the engine over a record of platform operations, with the variables of
    the file as the record [ota]), OtaFormat.v (what the header parsers accept),
    OtaTrace.v (the specification: a transition system over the calls the engine makes),
    OtaSim.v (the simulation), OtaComplete.v (a working platform) and OtaSpec.v.

    The sensors, libraries/Sensors/src: SensorBus.v (the bus, what a device promises, a
    calculus of weakest preconditions), Float32.v, Lsm6dslRegs.v and Lsm6dsl.v
    (utility/LSM6DSL_acc_gyro_driver.h and .c) with Lsm6dslSpec.v, Lsm6dslSensor.v
    (LSM6DSLSensor.cpp) with SensorMachine.v and SensorSpec.v, Hts221.v
    (utility/HTS221_driver.c, HTS221Sensor.cpp) with Hts221Spec.v, Lps22hb.v
    (utility/LPS22HB_driver.c, LPS22HBSensor.cpp) with Lps22hbSpec.v.

    ** Interfaces

    [Bus] and [Registers] (SensorBus.v) are the interface between drivers and devices:
    the theorems about a driver hold for every device whose registers are bytes, that
    changes no stored register on its own and keeps what a successful write stored; they
    are instantiated with a device in memory ([chip]) and with a cut bus. [content] and
    [lawful] (OtaComplete.v) do the same for Flash and the clock under the OTA engine.
    The serializers of MQTT share one contract (MqttWire.v), the builder calls of DER
    one judgement (DerSpec.v).

    ** What the theorems show

    - MQTT: the remaining length and the PUBLISH and SUBSCRIBE packets are recovered by
      the other side as they were written, and so are the CONNECT packets the server
      accepts, which are not all that MQTT 3.1.1 allows; parsing arbitrary bytes of a
      PUBLISH stays inside a buffer that holds two bytes more than its length field
      declares.
    - Hashes and ciphers equal their standards written as functions of the whole input:
      FIPS 180-4 for every division of a message into updates, RFC 2104, FIPS 197 and
      counter mode, Base64, and the CRC as a polynomial remainder.
    - The curve: the word-level arithmetic computes modulo the prime and the order
      (proved prime) and its divisions terminate; the Jacobian operations implement the
      chord-and-tangent law and stay on the curve; point multiplication is double-and-add
      over the base-4 digits; verification accepts exactly the ECDSA equation. Key
      generation and signing draw on a constant in the place of randomness: one
      signature reveals the private key, and an encryption can be opened by anyone.
    - Certificates: the builder appends the DER encoding of an ASN.1 tree, the alias and
      device certificates are the encodings of their descriptions, and the whole start
      leaves the keys and certificates of secret, core and firmware.
    - OTA: for every platform and every sequence of calls the engine terminates inside
      its buffers and its calls are a trace of the specification; Flash is touched only
      inside the payload range of the package of the current session and after its
      signature was verified with the key of that session, a session is activated only
      for an image that was read back with the signed digest, every error says which
      condition failed, every success what it required and did, and on a working
      platform a good package is staged however it is cut into chunks.
    - Sensors: all register fields of the LSM6DSL are read back as written, and no field
      changes another but for two pairs of the same bits; its class
      implements an abstract machine of rates, scales and event routing for every
      sequence of calls, reports exactly the routed events and scales its axes with a
      bounded error; the configuration, the humidity and the pressure of the other two
      are what the claims of their files say, with the cases in which they are not what
      was meant.

    ** Fuel

    A loop whose bound is not structural carries fuel, and the theorems about it give the
    amount or quantify over it: five rounds for a remaining length (the decoder stops
    at four bytes, a 32-bit length needs five), the number of bytes or blocks for the
    loops over data, 514 rounds for a modular division (each round removes a bit from
    one of two numbers of at most 257) with 288 halvings in each, three, two and one
    steps in the loops of a precise reduction, the chunks of a range for the Flash loops
    of the OTA engine. That these are enough is part of the theorems about the functions,
    which state that a result is returned. The loops that can run forever
    (retrying with the same random numbers, waiting for a sensor) take fuel as an
    argument; the theorems say when one round is enough and when no fuel is. A failed
    HTS221_assert_param loops forever and is [Ub OutOfFuel].

    ** Assumptions

    Callbacks and platform operations do not call back into the OTA engine, and a
    function does not run while another of the same component runs: the code takes no
    locks. Pointer arguments of a call do not overlap unless a definition says so. A shift
    into the sign bit and the conversion of an out-of-range integer to a narrower signed
    type behave as the project's compilers define them.

    ** What is not modelled

    MQTTPacket_toString (printing); the implementation of the OTA platform operations
    and the older downloader, which forward to the MiCO library; the MQTT client class
    templates; the remaining sensor, audio, display, network, file system, HTTP, console,
    EEPROM and Arduino classes, which are straight sequences of calls into mbed OS, the
    STM32 HAL, MiCO or the Azure SDK, or code taken over from elsewhere (the HTTP parser
    of Node.js, the Marvell web server, the Arduino core); and the tools, tests, sketches
    and documents of the repository. The interrupts of the sensors' pins and the wait of
    ten milliseconds in resetStepCounter have no counterpart in the model. *)
From stdpp Require Export base numbers list option sets strings.
From Stdlib Require Export ZArith Lia.

#[global] Open Scope Z_scope.

(** * Outcomes of C code

    [Ok a] is a defined result, [Ub u] undefined behaviour with its cause. *)
Inductive ub : Type :=
| OutOfBounds
| NullDeref
| IntOverflow
| Uninitialised
| OutOfFuel.

#[export] Instance ub_eq_dec : EqDecision ub.
Proof. solve_decision. Defined.

Inductive outcome (A : Type) : Type :=
| Ok (a : A)
| Ub (u : ub).
Arguments Ok {A} a.
Arguments Ub {A} u.

#[export] Instance outcome_ret : MRet outcome := @Ok.
#[export] Instance outcome_bind : MBind outcome := λ A B f m,
  match m with Ok a => f a | Ub u => Ub u end.
#[export] Instance outcome_fmap : FMap outcome := λ A B f m,
  match m with Ok a => Ok (f a) | Ub u => Ub u end.

Definition is_ok {A} (m : outcome A) : bool :=
  match m with Ok _ => true | Ub _ => false end.

(** A null-pointer check turned into the behaviour of dereferencing it. *)
Definition deref {A} (p : option A) : outcome A :=
  match p with Some a => Ok a | None => Ub NullDeref end.

Section outcome_laws.
Context {A B C : Type}.

Lemma bind_Ok (a : A) (f : A → outcome B) : (Ok a ≫= f) = f a.
Proof. done. Qed.

Lemma bind_Ub u (f : A → outcome B) : (Ub u ≫= f) = Ub u.
Proof. done. Qed.

Lemma bind_assoc (m : outcome A) (f : A → outcome B) (g : B → outcome C) :
  ((m ≫= f) ≫= g) = (m ≫= λ a, f a ≫= g).
Proof. by destruct m. Qed.

Lemma bind_Ok_inv (m : outcome A) (f : A → outcome B) b :
  (m ≫= f) = Ok b → ∃ a, m = Ok a ∧ f a = Ok b.
Proof. destruct m as [a|u]; simpl; [by exists a|done]. Qed.
End outcome_laws.

Ltac bind_inv H :=
  let a := fresh "a" in let H1 := fresh "H" in
  apply bind_Ok_inv in H as (a & H1 & H).

(** * Machine integers

    An integer of C is a [Z]; a conversion to a [w]-bit type is written out. *)
Definition u8 (x : Z) : Z := x mod 256.
Definition u16 (x : Z) : Z := x mod 65536.
Definition u32 (x : Z) : Z := x mod 4294967296.
Definition u64 (x : Z) : Z := x mod 18446744073709551616.
Definition s8 (x : Z) : Z := (x + 128) mod 256 - 128.
Definition s16 (x : Z) : Z := (x + 32768) mod 65536 - 32768.
Definition s32 (x : Z) : Z := (x + 2147483648) mod 4294967296 - 2147483648.

Definition INT_MAX : Z := 2147483647.
Definition INT_MIN : Z := -2147483648.

(** Signed 32-bit arithmetic: a result out of range is undefined behaviour. *)
Definition int32 (x : Z) : outcome Z :=
  if (INT_MIN <=? x) && (x <=? INT_MAX) then Ok x else Ub IntOverflow.

Definition is_u8 (x : Z) : Prop := 0 ≤ x < 256.
Definition is_u16 (x : Z) : Prop := 0 ≤ x < 65536.
Definition is_u32 (x : Z) : Prop := 0 ≤ x < 4294967296.

(** A list of bytes: every element is an [unsigned char] value. *)
Abbreviation bytes := (Forall is_u8).

#[export] Instance is_u8_dec x : Decision (is_u8 x).
Proof. unfold is_u8. apply _. Defined.
#[export] Instance is_u16_dec x : Decision (is_u16 x).
Proof. unfold is_u16. apply _. Defined.
#[export] Instance is_u32_dec x : Decision (is_u32 x).
Proof. unfold is_u32. apply _. Defined.

(** Linear arithmetic with [/], [mod], [Z.quot] and [Z.rem] by constants. *)
Ltac dlia := zify; Z.to_euclidean_division_equations; lia.

Lemma u8_range x : is_u8 (u8 x).
Proof. unfold is_u8, u8. dlia. Qed.
Lemma u16_range x : is_u16 (u16 x).
Proof. unfold is_u16, u16. dlia. Qed.
Lemma u32_range x : is_u32 (u32 x).
Proof. unfold is_u32, u32. dlia. Qed.
Lemma u8_id x : is_u8 x → u8 x = x.
Proof. unfold is_u8, u8. dlia. Qed.
Lemma u16_id x : is_u16 x → u16 x = x.
Proof. unfold is_u16, u16. dlia. Qed.
Lemma u32_id x : is_u32 x → u32 x = x.
Proof. unfold is_u32, u32. dlia. Qed.
Lemma u8_idemp x : u8 (u8 x) = u8 x.
Proof. apply u8_id, u8_range. Qed.
Lemma int32_Ok x : INT_MIN ≤ x ≤ INT_MAX → int32 x = Ok x.
Proof. intros ?. unfold int32. by rewrite !(proj2 (Z.leb_le _ _)) by lia. Qed.

Create HintDb c_int.
Create Rewrite HintDb c_int.
#[export] Hint Resolve u8_range u16_range u32_range : c_int.
#[export] Hint Rewrite u8_idemp : c_int.

(** * Lists indexed by C integers *)
Definition zlen {A} (l : list A) : Z := Z.of_nat (length l).
Definition ztake {A} (n : Z) (l : list A) : list A := take (Z.to_nat n) l.
Definition zdrop {A} (n : Z) (l : list A) : list A := drop (Z.to_nat n) l.

Arguments zlen {A} l : simpl never.
Arguments ztake {A} n l : simpl never.
Arguments zdrop {A} n l : simpl never.
#[global] Arguments Nat.modulo : simpl never.
#[global] Arguments Nat.div : simpl never.
Arguments u8 x : simpl never.
Arguments u16 x : simpl never.
Arguments u32 x : simpl never.
Arguments u64 x : simpl never.
Arguments s8 x : simpl never.
Arguments s32 x : simpl never.
Arguments int32 x : simpl never.

Lemma zlen_nonneg {A} (l : list A) : 0 ≤ zlen l.
Proof. unfold zlen. lia. Qed.
Lemma zlen_nil {A} : zlen (@nil A) = 0.
Proof. done. Qed.
Lemma zlen_cons {A} (x : A) l : zlen (x :: l) = 1 + zlen l.
Proof. unfold zlen. simpl. lia. Qed.
Lemma zlen_app {A} (l k : list A) : zlen (l ++ k) = zlen l + zlen k.
Proof. unfold zlen. rewrite length_app. lia. Qed.
Lemma zlen_take {A} n (l : list A) : 0 ≤ n ≤ zlen l → zlen (ztake n l) = n.
Proof. unfold zlen, ztake. rewrite length_take. lia. Qed.
Lemma zlen_drop {A} n (l : list A) : 0 ≤ n ≤ zlen l → zlen (zdrop n l) = zlen l - n.
Proof. unfold zlen, zdrop. rewrite length_drop. lia. Qed.
Lemma zlen_fmap {A B} (f : A → B) l : zlen (f <$> l) = zlen l.
Proof. unfold zlen. by rewrite length_fmap. Qed.
Lemma zlen_replicate {A} n (x : A) : zlen (replicate n x) = Z.of_nat n.
Proof. unfold zlen. by rewrite length_replicate. Qed.

Create Rewrite HintDb zlen.
#[export] Hint Rewrite @zlen_nil @zlen_cons @zlen_app @zlen_fmap @zlen_replicate : zlen.

(** Solves bounds on lengths of concatenations. *)
Ltac zlen_lia :=
  autorewrite with zlen in *;
  repeat match goal with
  | |- context [zlen ?l] =>
    lazymatch goal with H : 0 ≤ zlen l |- _ => fail | _ => pose proof (zlen_nonneg l) end
  | _ : context [zlen ?l] |- _ =>
    lazymatch goal with H : 0 ≤ zlen l |- _ => fail | _ => pose proof (zlen_nonneg l) end
  end;
  lia.

Lemma ztake_zdrop {A} n (l : list A) : ztake n l ++ zdrop n l = l.
Proof. unfold ztake, zdrop. apply take_drop. Qed.
Lemma ztake_app_exact {A} n (l k : list A) : n = zlen l → ztake n (l ++ k) = l.
Proof. intros ->. unfold ztake, zlen. rewrite Nat2Z.id. apply take_app_length. Qed.
Lemma zdrop_app_exact {A} n (l k : list A) : n = zlen l → zdrop n (l ++ k) = k.
Proof. intros ->. unfold zdrop, zlen. rewrite Nat2Z.id. apply drop_app_length. Qed.
Lemma zdrop_zdrop {A} n m (l : list A) :
  0 ≤ n → 0 ≤ m → zdrop n (zdrop m l) = zdrop (m + n) l.
Proof. intros. unfold zdrop. rewrite drop_drop. f_equal. lia. Qed.
Lemma zdrop_0 {A} (l : list A) : zdrop 0 l = l.
Proof. done. Qed.
Lemma zdrop_all {A} n (l : list A) : zlen l ≤ n → zdrop n l = [].
Proof. unfold zlen, zdrop. intros. apply drop_ge. lia. Qed.

(** The bytes of a string literal, without its terminator. *)
Fixpoint bytes_of_string (s : string) : list Z :=
  match s with
  | EmptyString => []
  | String c s => Z.of_N (Ascii.N_of_ascii c) :: bytes_of_string s
  end.

Arguments bytes_of_string s : simpl never.

(** Decides a property of every integer of a range by evaluation. *)
Lemma forallb_seqZ (P : Z → bool) (n : Z) :
  forallb P (seqZ 0 n) = true → ∀ x, 0 ≤ x < n → P x = true.
Proof.
  intros H x Hx. rewrite forallb_forall in H. apply H.
  apply list_elem_of_In, elem_of_seqZ. lia.
Qed.

(** * Bit operations stay in range *)
Section bits_range.
Context (k : Z) (Hk : 0 ≤ k).

Lemma lor_range a b : 0 ≤ a < 2 ^ k → 0 ≤ b < 2 ^ k → 0 ≤ Z.lor a b < 2 ^ k.
Proof.
  intros [? Ha] [? Hb]. assert (0 ≤ Z.lor a b) by (apply Z.lor_nonneg; lia).
  split; [done|]. apply Z.bounded_iff_bits_nonneg; [done..|]. intros l Hl.
  rewrite Z.lor_spec, (proj1 (Z.bounded_iff_bits_nonneg k a Hk ltac:(done)) Ha l Hl).
  by rewrite (proj1 (Z.bounded_iff_bits_nonneg k b Hk ltac:(done)) Hb l Hl).
Qed.

Lemma lxor_range a b : 0 ≤ a < 2 ^ k → 0 ≤ b < 2 ^ k → 0 ≤ Z.lxor a b < 2 ^ k.
Proof.
  intros [? Ha] [? Hb]. assert (0 ≤ Z.lxor a b) by (apply Z.lxor_nonneg; lia).
  split; [done|]. apply Z.bounded_iff_bits_nonneg; [done..|]. intros l Hl.
  rewrite Z.lxor_spec, (proj1 (Z.bounded_iff_bits_nonneg k a Hk ltac:(done)) Ha l Hl).
  by rewrite (proj1 (Z.bounded_iff_bits_nonneg k b Hk ltac:(done)) Hb l Hl).
Qed.

Lemma land_range a b : 0 ≤ b < 2 ^ k → 0 ≤ Z.land a b < 2 ^ k.
Proof.
  intros [? Hb]. assert (0 ≤ Z.land a b) by (apply Z.land_nonneg; lia).
  split; [done|]. apply Z.bounded_iff_bits_nonneg; [done..|]. intros l Hl.
  rewrite Z.land_spec, (proj1 (Z.bounded_iff_bits_nonneg k b Hk ltac:(done)) Hb l Hl).
  apply andb_false_r.
Qed.

(** A bit field of a [k]-bit word. *)
Lemma field_range a b n : 0 ≤ n ≤ k → 0 ≤ b < 2 ^ (k - n) →
  0 ≤ Z.shiftl (Z.land a b) n < 2 ^ k.
Proof.
  intros Hn [? Hb]. rewrite Z.shiftl_mul_pow2 by lia.
  assert (0 ≤ Z.land a b < 2 ^ (k - n)) as Hl.
  { assert (0 ≤ Z.land a b) by (apply Z.land_nonneg; lia). split; [done|].
    apply Z.bounded_iff_bits_nonneg; [lia|done|]. intros l Hl.
    rewrite Z.land_spec.
    rewrite (proj1 (Z.bounded_iff_bits_nonneg (k - n) b ltac:(lia) ltac:(done)) Hb l Hl).
    apply andb_false_r. }
  replace (2 ^ k) with (2 ^ (k - n) * 2 ^ n)
    by (rewrite <-Z.pow_add_r by lia; f_equal; lia).
  pose proof (Z.pow_pos_nonneg 2 n ltac:(lia) ltac:(lia)). nia.
Qed.

Lemma shiftr_range a n : 0 ≤ n → 0 ≤ a < 2 ^ k → 0 ≤ Z.shiftr a n < 2 ^ k.
Proof.
  intros ? [? Ha]. rewrite Z.shiftr_div_pow2 by done.
  pose proof (Z.pow_pos_nonneg 2 n ltac:(lia) ltac:(lia)). split.
  - apply Z.div_pos; lia.
  - apply Z.le_lt_trans with a; [|done]. apply Z.div_le_upper_bound; nia.
Qed.
End bits_range.
