(* ===== verification/Memory.v ===== *)
(** Byte memory: the object a C pointer points into is the list of its bytes,
    a pointer is an offset in it, and every access is checked against the
    object's size, so an access out of range is [Ub OutOfBounds].

    [emits] and [has] are the two judgements the serializers and the parsers
    are specified with: what a writer leaves in memory, and what memory holds
    from an offset on. *)
From S2P Require Export Prelude.

Definition rd {A} (m : list A) (p : Z) : outcome A :=
  if p <? 0 then Ub OutOfBounds
  else match m !! Z.to_nat p with Some v => Ok v | None => Ub OutOfBounds end.

Definition wr {A} (m : list A) (p : Z) (v : A) : outcome (list A) :=
  if (0 <=? p) && (p <? zlen m) then Ok (<[Z.to_nat p := v]> m)
  else Ub OutOfBounds.

(** [n] bytes read from [p] on, as [memcpy], [memcmp] and the like do. *)
Definition rd_bytes (m : list Z) (p n : Z) : outcome (list Z) :=
  if (0 <=? p) && (0 <=? n) && (p + n <=? zlen m)
  then Ok (ztake n (zdrop p m)) else Ub OutOfBounds.

(** [m] with the bytes from [p] on replaced by [bs]. *)
Definition splice {A} (m : list A) (p : Z) (bs : list A) : list A :=
  ztake p m ++ bs ++ zdrop (p + zlen bs) m.

(** [bs] copied to [p], as [memcpy], [memset] and the like do. *)
Definition wr_bytes (m : list Z) (p : Z) (bs : list Z) : outcome (list Z) :=
  if (0 <=? p) && (p + zlen bs <=? zlen m) then Ok (splice m p bs)
  else Ub OutOfBounds.

Arguments rd {A} m p : simpl never.
Arguments wr {A} m p v : simpl never.
Arguments rd_bytes m p n : simpl never.
Arguments wr_bytes m p bs : simpl never.
Arguments splice {A} m p bs : simpl never.

Lemma rd_Ok {A} (m : list A) p : 0 ≤ p < zlen m → ∃ v, rd m p = Ok v.
Proof.
  intros Hp. unfold rd. rewrite (proj2 (Z.ltb_ge _ _)) by lia.
  destruct (lookup_lt_is_Some_2 m (Z.to_nat p)) as [v ->]; [|by eexists].
  unfold zlen in Hp. lia.
Qed.

Lemma rd_Forall {A} (P : A → Prop) m p v : Forall P m → rd m p = Ok v → P v.
Proof.
  unfold rd. intros Hm Hv. destruct (p <? 0); [done|].
  destruct (m !! Z.to_nat p) eqn:Hl; simplify_eq. by eapply Forall_lookup_1.
Qed.

Section splice.
Context {A : Type}.
Implicit Types (m a b : list A) (p : Z).

Lemma zlen_splice m p a :
  0 ≤ p → p + zlen a ≤ zlen m → zlen (splice m p a) = zlen m.
Proof.
  intros. pose proof (zlen_nonneg a). unfold splice.
  rewrite !zlen_app, zlen_take, zlen_drop; lia.
Qed.

Lemma splice_nil m p : splice m p [] = m.
Proof. unfold splice. simpl. rewrite zlen_nil, Z.add_0_r. apply ztake_zdrop. Qed.

Lemma zdrop_splice m p a :
  0 ≤ p → p + zlen a ≤ zlen m → zdrop p (splice m p a) = a ++ zdrop (p + zlen a) m.
Proof.
  intros. pose proof (zlen_nonneg a). unfold splice.
  apply zdrop_app_exact. rewrite zlen_take; lia.
Qed.

Lemma ztake_splice m p a :
  0 ≤ p → p + zlen a ≤ zlen m → ztake p (splice m p a) = ztake p m.
Proof.
  intros. pose proof (zlen_nonneg a). unfold splice.
  apply ztake_app_exact. rewrite zlen_take; lia.
Qed.

Lemma zdrop_past_splice m p a :
  0 ≤ p → p + zlen a ≤ zlen m → zdrop (p + zlen a) (splice m p a) = zdrop (p + zlen a) m.
Proof.
  intros. pose proof (zlen_nonneg a).
  rewrite <-(zdrop_zdrop (zlen a) p), zdrop_splice by lia. by apply zdrop_app_exact.
Qed.

(** Overwriting with as many bytes. *)
Lemma splice_over m p a b :
  0 ≤ p → p + zlen a ≤ zlen m → zlen a = zlen b →
  splice (splice m p a) p b = splice m p b.
Proof.
  intros Hp Hm Hl. unfold splice at 1 3.
  by rewrite ztake_splice, <-Hl, zdrop_past_splice by done.
Qed.

Lemma splice_splice m p a b :
  0 ≤ p → p + zlen a + zlen b ≤ zlen m →
  splice (splice m p a) (p + zlen a) b = splice m p (a ++ b).
Proof.
  intros. pose proof (zlen_nonneg a). pose proof (zlen_nonneg b).
  unfold splice at 1 3. rewrite <-!app_assoc, zlen_app.
  assert (ztake (p + zlen a) (splice m p a) = ztake p m ++ a) as ->.
  { unfold splice. rewrite app_assoc. apply ztake_app_exact.
    rewrite zlen_app, zlen_take; lia. }
  assert (zdrop (p + zlen a + zlen b) (splice m p a)
          = zdrop (p + (zlen a + zlen b)) m) as ->.
  { rewrite <-(zdrop_zdrop (zlen a + zlen b) p) by lia.
    rewrite <-Z.add_assoc, <-(zdrop_zdrop (zlen a + zlen b) p) by lia.
    rewrite zdrop_splice by lia.
    rewrite <-(zdrop_zdrop (zlen b) (zlen a) (a ++ _)) by lia.
    rewrite zdrop_app_exact, !zdrop_zdrop by lia. f_equal. lia. }
  by rewrite <-app_assoc.
Qed.

Lemma splice_cons m p v b :
  0 ≤ p → p + 1 + zlen b ≤ zlen m →
  splice (splice m p [v]) (p + 1) b = splice m p (v :: b).
Proof. intros. by apply (splice_splice m p [v] b). Qed.

Lemma wr_splice m p v : 0 ≤ p →
  wr m p v = if p + 1 <=? zlen m then Ok (splice m p [v]) else Ub OutOfBounds.
Proof.
  intros. unfold wr. rewrite (proj2 (Z.leb_le 0 p)) by lia. simpl.
  destruct (Z.ltb_spec p (zlen m)), (Z.leb_spec (p + 1) (zlen m)); try lia; [|done].
  f_equal. unfold splice, ztake, zdrop, zlen in *. simpl.
  rewrite insert_take_drop by lia. repeat f_equal. lia.
Qed.

End splice.

Lemma wr_bytes_splice (m : list Z) p a : 0 ≤ p →
    wr_bytes m p a
    = if p + zlen a <=? zlen m then Ok (splice m p a) else Ub OutOfBounds.
  Proof. intros. unfold wr_bytes. by rewrite (proj2 (Z.leb_le 0 p)) by lia. Qed.

(** * Writers *)

(** A write cursor: the object and the offset the next byte goes to. *)
Abbreviation wstate := (list Z * Z)%type.
Abbreviation writer := (wstate → outcome wstate).

Definition wskip : writer := Ok.
Definition wseq (f g : writer) : writer := λ s, f s ≫= g.
Notation "f ;;; g" := (wseq f g) (at level 100, right associativity).

Definition wput (v : Z) : writer := λ '(m, p), m' ← wr m p v; Ok (m', p + 1).
Definition wcopy (bs : list Z) : writer :=
  λ '(m, p), m' ← wr_bytes m p bs; Ok (m', p + zlen bs).

(** [f] appends exactly [bs] at the cursor when it fits, and is undefined
    behaviour (an overrun) when it does not. *)
Definition emits (f : writer) (bs : list Z) : Prop :=
  ∀ m p, 0 ≤ p ≤ zlen m →
    f (m, p) = if p + zlen bs <=? zlen m then Ok (splice m p bs, p + zlen bs)
               else Ub OutOfBounds.

Section emits.
Implicit Types (f g : writer) (a b bs : list Z).

Lemma emits_skip : emits wskip [].
Proof.
  intros m p ?. rewrite splice_nil, zlen_nil, Z.add_0_r.
  by rewrite (proj2 (Z.leb_le p (zlen m))) by lia.
Qed.

Lemma emits_seq f g a b : emits f a → emits g b → emits (f ;;; g) (a ++ b).
Proof.
  intros Hf Hg m p ?. pose proof (zlen_nonneg a). pose proof (zlen_nonneg b).
  unfold wseq. rewrite Hf, zlen_app by lia.
  destruct (Z.leb_spec (p + zlen a) (zlen m)) as [Ha|Ha]; simpl.
  - rewrite Hg by (rewrite zlen_splice; lia). rewrite zlen_splice by lia.
    rewrite <-Z.add_assoc.
    destruct (Z.leb_spec (p + (zlen a + zlen b)) (zlen m)); [|done].
    by rewrite splice_splice by lia.
  - by rewrite (proj2 (Z.leb_gt _ _)) by lia.
Qed.

Lemma emits_put v : emits (wput v) [v].
Proof.
  intros m p ?. unfold wput. rewrite wr_splice by lia.
  change (zlen [v]) with 1. by destruct (p + 1 <=? zlen m).
Qed.

Lemma emits_copy bs : emits (wcopy bs) bs.
Proof.
  intros m p ?. unfold wcopy. rewrite wr_bytes_splice by lia.
  by destruct (p + zlen bs <=? zlen m).
Qed.

Lemma emits_if (c : bool) f g a b :
  emits f a → emits g b → emits (if c then f else g) (if c then a else b).
Proof. intros. by destruct c. Qed.

Lemma emits_ext f g a : (∀ s, f s = g s) → emits f a → emits g a.
Proof. intros Heq Hf m p Hp. rewrite <-Heq. by apply Hf. Qed.

Lemma emits_eq f a b : emits f a → a = b → emits f b.
Proof. by intros ? <-. Qed.

(** Running a serializer from the start of the buffer. *)
Lemma run_emits f bs buf : emits f bs →
  (f (buf, 0) ≫= λ '(buf, ptr), Ok (ptr, buf))
  = if zlen bs <=? zlen buf then Ok (zlen bs, splice buf 0 bs) else Ub OutOfBounds.
Proof.
  intros Hf. pose proof (zlen_nonneg buf). rewrite Hf, Z.add_0_l by lia.
  by destruct (zlen bs <=? zlen buf).
Qed.
End emits.

Create HintDb emits.
#[export] Hint Resolve emits_skip emits_put emits_copy : emits.
#[export] Hint Resolve emits_seq emits_if : emits.

(** * Parsers *)

(** From offset [p] on, [m] holds [bs]. *)
Definition has {A} (m : list A) (p : Z) (bs : list A) : Prop :=
  0 ≤ p ∧ ∃ rest, zdrop p m = bs ++ rest.

Section has.
Context {A : Type}.
Implicit Types (m a b : list A) (p : Z).

Lemma has_app m p a b : has m p (a ++ b) ↔ has m p a ∧ has m (p + zlen a) b.
Proof.
  pose proof (zlen_nonneg a). split.
  - intros (? & rest & Hr). rewrite <-app_assoc in Hr. split; split; [lia|eauto|lia|].
    exists rest. rewrite <-(zdrop_zdrop (zlen a) p) by lia.
    rewrite Hr. by apply zdrop_app_exact.
  - intros [(? & rest & Hr) (? & rest' & Hr')]. split; [done|]. exists rest'.
    rewrite <-(zdrop_zdrop (zlen a) p), Hr, zdrop_app_exact in Hr' by lia.
    by rewrite Hr, Hr', app_assoc.
Qed.

Lemma has_cons m p v a : has m p (v :: a) ↔ has m p [v] ∧ has m (p + 1) a.
Proof. apply (has_app m p [v] a). Qed.

Lemma has_nil m p : 0 ≤ p → has m p [].
Proof. split; [done|]. by eexists. Qed.

Lemma has_bound m p a : has m p a → p ≤ zlen m → p + zlen a ≤ zlen m.
Proof.
  intros (? & rest & Hr) ?. apply (f_equal zlen) in Hr.
  rewrite zlen_drop, zlen_app in Hr by lia. pose proof (zlen_nonneg rest). lia.
Qed.

Lemma has_splice m p a : 0 ≤ p → p + zlen a ≤ zlen m → has (splice m p a) p a.
Proof. intros. split; [done|]. rewrite zdrop_splice by lia. by eexists. Qed.

Lemma has_whole a b : has (a ++ b) 0 a.
Proof. split; [done|]. by exists b. Qed.

Lemma has_self a : has a 0 a.
Proof. split; [done|]. exists []. by rewrite app_nil_r. Qed.

Lemma has_at a b : has (a ++ b) (zlen a) b.
Proof.
  split; [apply zlen_nonneg|]. exists []. rewrite app_nil_r. by apply zdrop_app_exact.
Qed.

Lemma rd_has m p v a : has m p (v :: a) → rd m p = Ok v.
Proof.
  intros (? & rest & Hr). unfold rd.
  rewrite (proj2 (Z.ltb_ge _ _)) by lia.
  assert (m !! Z.to_nat p = Some v) as ->; [|done].
  rewrite <-(Nat.add_0_r (Z.to_nat p)), <-lookup_drop.
  unfold zdrop in Hr. by rewrite Hr.
Qed.

End has.

Lemma rd_bytes_has (m : list Z) p a : has m p a → p ≤ zlen m → rd_bytes m p (zlen a) = Ok a.
Proof.
  intros Ha ?. pose proof (has_bound _ _ _ Ha). pose proof (zlen_nonneg a).
  destruct Ha as (? & rest & Hr). unfold rd_bytes.
  rewrite !(proj2 (Z.leb_le _ _)) by lia. simpl. rewrite Hr. f_equal.
  by apply ztake_app_exact.
Qed.

Lemma rd_cons {A} (m : list A) p v a : has m p (v :: a) → rd m p = Ok v ∧ has m (p + 1) a.
Proof. intros H. split; [by eapply rd_has|]. by apply has_cons in H as [_ ?]. Qed.

Lemma has_extend {A} (m a b : list A) :
  has m 0 a → zlen a + zlen b ≤ zlen m → has (splice m (zlen a) b) 0 (a ++ b).
Proof.
  intros (_ & r & Hr) Hle. rewrite zdrop_0 in Hr. subst m. split; [done|].
  unfold splice. rewrite zdrop_0, ztake_app_exact by done. rewrite app_assoc. by eexists.
Qed.

(** Overwriting the middle of what memory holds. *)
Lemma has_patch {A} (m a b b' c : list A) :
  has m 0 (a ++ b ++ c) → zlen b = zlen b' → has (splice m (zlen a) b') 0 (a ++ b' ++ c).
Proof.
  intros (_ & r & Hr) Hb. rewrite zdrop_0 in Hr. subst m. split; [done|].
  exists r. rewrite zdrop_0. unfold splice. rewrite <-!app_assoc.
  rewrite ztake_app_exact, <-Hb by done.
  assert (zdrop (zlen a + zlen b) (a ++ b ++ c ++ r) = c ++ r) as ->; [|done].
  rewrite app_assoc. apply zdrop_app_exact. by rewrite zlen_app.
Qed.

(** ** Fields of a byte object *)
Definition field (m : list Z) (p n : Z) : list Z := ztake n (zdrop p m).

Section fields.
Context (m : list Z) (p n : Z) (Hp : 0 ≤ p) (Hn : 0 ≤ n) (Hm : p + n ≤ zlen m).

Lemma zlen_field : zlen (field m p n) = n.
Proof using Hp Hn Hm. unfold field. rewrite zlen_take; [done|]. rewrite zlen_drop; lia. Qed.

Lemma has_field : has m p (field m p n).
Proof using Hp. split; [done|]. exists (zdrop n (zdrop p m)). unfold field. by rewrite ztake_zdrop. Qed.

Lemma rd_bytes_field : rd_bytes m p n = Ok (field m p n).
Proof using Hp Hn Hm. unfold rd_bytes. by rewrite !(proj2 (Z.leb_le _ _)) by lia. Qed.

Lemma field_bytes : bytes m → bytes (field m p n).
Proof using. intros H. unfold field, ztake, zdrop. by apply Forall_take, Forall_drop. Qed.
End fields.

Lemma field_all m : field m 0 (zlen m) = m.
Proof. unfold field, ztake, zlen. rewrite zdrop_0, Nat2Z.id. by apply take_ge. Qed.

Lemma has_field_eq m p bs : has m p bs → field m p (zlen bs) = bs.
Proof. intros (? & r & Hr). unfold field. rewrite Hr. by apply ztake_app_exact. Qed.

Lemma wr_bytes_ok (m : list Z) p a : 0 ≤ p → p + zlen a ≤ zlen m → wr_bytes m p a = Ok (splice m p a).
Proof. intros ? Hl. rewrite wr_bytes_splice by done. by rewrite (proj2 (Z.leb_le _ _) Hl). Qed.
