(* ===== verification/MqttPacket.v ===== *)
(** MQTTPacket.c and MQTTPacket.h: the header byte, the remaining-length field,
    the primitive readers and writers of the wire format and [MQTTPacket_read].

    A buffer argument is its memory (a list of bytes) with the pointer as an
    offset; a cursor [unsigned char **pptr] is the offset passed in and
    returned. Plain [char] is unsigned, as the target's ABI has it. *)
From S2P Require Export Memory.

(** enum errors *)
Definition MQTTPACKET_BUFFER_TOO_SHORT : Z := -2.
Definition MQTTPACKET_READ_ERROR : Z := -1.
Definition MQTTPACKET_READ_COMPLETE : Z := 0.

(** enum msgTypes *)
Definition CONNECT : Z := 1.
Definition CONNACK : Z := 2.
Definition PUBLISH : Z := 3.
Definition PUBACK : Z := 4.
Definition PUBREC : Z := 5.
Definition PUBREL : Z := 6.
Definition PUBCOMP : Z := 7.
Definition SUBSCRIBE : Z := 8.
Definition SUBACK : Z := 9.
Definition UNSUBSCRIBE : Z := 10.
Definition UNSUBACK : Z := 11.
Definition PINGREQ : Z := 12.
Definition PINGRESP : Z := 13.
Definition DISCONNECT : Z := 14.

(** The bit-field view of the header byte (the layout of the branch without
    REVERSED); a value assigned to a field keeps the field's low bits. *)
Record MQTTHeader := mkHeader { type : Z; dup : Z; qos : Z; retain : Z }.

Definition header_byte (h : MQTTHeader) : Z :=
  Z.lor (Z.shiftl (Z.land (type h) 15) 4)
    (Z.lor (Z.shiftl (Z.land (dup h) 1) 3)
      (Z.lor (Z.shiftl (Z.land (qos h) 3) 1) (Z.land (retain h) 1))).

Definition header_of_byte (b : Z) : MQTTHeader :=
  mkHeader (Z.land (Z.shiftr b 4) 15) (Z.land (Z.shiftr b 3) 1)
    (Z.land (Z.shiftr b 1) 3) (Z.land b 1).

(** An MQTTString: a C string, by its bytes before the terminator, or a
    length with a pointer, by the memory the pointer can read. *)
Record MQTTString := mkMQTTString {
  cstring : option (list Z);
  lenstring_len : Z;
  lenstring_data : option (list Z) }.

Definition MQTTString_initializer : MQTTString := mkMQTTString None 0 None.

(** * The remaining-length field *)

Fixpoint encode_loop (fuel : nat) (buf : list Z) (p rc length : Z)
    : outcome (Z * list Z) :=
  match fuel with
  | O => Ub OutOfFuel
  | S fuel =>
    let d := Z.rem length 128 in
    let length := Z.quot length 128 in
    let d := if 0 <? length then Z.lor d 128 else d in
    buf ← wr buf (p + rc) (u8 d);
    let rc := rc + 1 in
    if 0 <? length then encode_loop fuel buf p rc length else Ok (rc, buf)
  end.

(** Five rounds are enough for every [int]: 128^5 exceeds 2^31. *)
Definition MQTTPacket_encode (buf : list Z) (p length : Z) : outcome (Z * list Z) :=
  encode_loop 5 buf p 0 length.

Definition MAX_NO_OF_REMAINING_LENGTH_BYTES : Z := 4.

(** What a call [getfn(&c, 1)] leaves in [c]. *)
Definition store_char (c : option Z) (bs : list Z) : outcome (option Z) :=
  match bs with
  | [] => Ok c
  | [b] => Ok (Some b)
  | _ => Ub OutOfBounds
  end.

Section getfn.
  (** The callback [getfn] of type int from a pointer and a count, with the
      state of its data source: asked for a count, it returns its result and the bytes it
      stored from the pointer on. *)
Context {S : Type} (getcharfn : S → Z → outcome (Z * list Z * S)).

Fixpoint decode_loop (fuel : nat) (s : S) (c : option Z)
      (multiplier len value : Z) : outcome (Z * Z * S) :=
    match fuel with
    | O => Ub OutOfFuel
    | Datatypes.S fuel =>
      let len := len + 1 in
      if MAX_NO_OF_REMAINING_LENGTH_BYTES <? len then Ok (len, value, s) else
      '(rc, bs, s) ← getcharfn s 1;
      c ← store_char c bs;
      if negb (rc =? 1) then Ok (len, value, s) else
      c' ← match c with Some c => Ok c | None => Ub Uninitialised end;
      let value := value + Z.land c' 127 * multiplier in
      let multiplier := multiplier * 128 in
      if negb (Z.land c' 128 =? 0)
      then decode_loop fuel s c multiplier len value
      else Ok (len, value, s)
    end.

  (** The result and [*value]; the fifth round always leaves the loop. *)
Definition MQTTPacket_decode (s : S) : outcome (Z * Z * S) :=
    decode_loop 5 s None 1 0 0.

Definition MQTTPacket_read (buf : list Z) (buflen : Z) (s : S)
      : outcome (Z * list Z * S) :=
    '(n, bs, s) ← getcharfn s 1;
    buf ← wr_bytes buf 0 bs;
    if negb (n =? 1) then Ok (-1, buf, s) else
    let len := 1 in
    '(_, rem_len, s) ← MQTTPacket_decode s;
    '(rc, buf) ← MQTTPacket_encode buf 1 rem_len;
    let len := len + rc in
    '(n, bs, s) ← getcharfn s rem_len;
    buf ← wr_bytes buf len bs;
    if negb (n =? rem_len) then Ok (-1, buf, s) else
    b ← rd buf 0;
    Ok (type (header_of_byte b), buf, s).
End getfn.

(** bufchar reads through the static [bufptr], here the state. *)
Fixpoint bufchar_loop (i : nat) (buf : list Z) (bufptr : Z) (c : list Z)
    : outcome (list Z * Z) :=
  match i with
  | O => Ok (c, bufptr)
  | S i => v ← rd buf bufptr; bufchar_loop i buf (bufptr + 1) [v]
  end.

Definition bufchar (buf : list Z) (bufptr : Z) (count : Z)
    : outcome (Z * list Z * Z) :=
  '(c, bufptr) ← bufchar_loop (Z.to_nat count) buf bufptr [];
  Ok (count, c, bufptr).

Definition MQTTPacket_decodeBuf (buf : list Z) (p : Z) : outcome (Z * Z) :=
  '(len, value, _) ← MQTTPacket_decode (bufchar buf) p;
  Ok (len, value).

Definition MQTTPacket_len (rem_len : Z) : outcome Z :=
  rem_len ← int32 (rem_len + 1);
  if rem_len <? 128 then int32 (rem_len + 1)
  else if rem_len <? 16384 then int32 (rem_len + 2)
  else if rem_len <? 2097151 then int32 (rem_len + 3)
  else int32 (rem_len + 4).

(** * Primitive readers and writers *)

Definition readInt (m : list Z) (ptr : Z) : outcome (Z * Z) :=
  a ← rd m ptr;
  b ← rd m (ptr + 1);
  Ok (256 * a + b, ptr + 2).

Definition readChar (m : list Z) (ptr : Z) : outcome (Z * Z) :=
  c ← rd m ptr;
  Ok (c, ptr + 1).

Definition writeChar (c : Z) : writer := λ '(m, p),
  m ← wr m p (u8 c);
  Ok (m, p + 1).

Definition writeInt (anInt : Z) : writer := λ '(m, p),
  m ← wr m p (u8 (Z.quot anInt 256));
  let p := p + 1 in
  m ← wr m p (u8 (Z.rem anInt 256));
  Ok (m, p + 1).

(** [ptr += MQTTPacket_encode(ptr, n)] as a writer. *)
Definition putRemLen (n : Z) : writer := λ '(m, p),
  '(rc, m) ← MQTTPacket_encode m p n;
  Ok (m, p + rc).

Definition writeCString (string : list Z) : writer :=
  let len := zlen string in
  writeInt len ;;; wcopy string.

Definition getLenStringLen (m : list Z) (ptr : Z) : outcome Z :=
  a ← rd m ptr;
  b ← rd m (ptr + 1);
  Ok (256 * a + b).

Definition writeMQTTString (mqttstring : MQTTString) : writer := λ s,
  if 0 <? lenstring_len mqttstring then
    s ← writeInt (lenstring_len mqttstring) s;
    data ← deref (lenstring_data mqttstring);
    bs ← rd_bytes data 0 (lenstring_len mqttstring);
    wcopy bs s
  else match cstring mqttstring with
  | Some c => writeCString c s
  | None => writeInt 0 s
  end.

Definition readMQTTLenString (m : list Z) (mqttstring : MQTTString)
    (ptr enddata : Z) : outcome (Z * MQTTString * Z) :=
  '(rc, s, ptr) ←
    (if 1 <? enddata - ptr then
      '(len, ptr) ← readInt m ptr;
      if ptr + len <=? enddata
      then Ok (1, mkMQTTString (cstring mqttstring) len (Some (zdrop ptr m)),
               ptr + len)
      else Ok (0, mkMQTTString (cstring mqttstring) len
                    (lenstring_data mqttstring), ptr)
    else Ok (0, mqttstring, ptr));
  Ok (rc, mkMQTTString None (lenstring_len s) (lenstring_data s), ptr).

Definition MQTTstrlen (mqttstring : MQTTString) : Z :=
  match cstring mqttstring with
  | Some c => zlen c
  | None => lenstring_len mqttstring
  end.

(** [strncmp(a, b, n) == 0] on the memory the two pointers can read. *)
Fixpoint strncmp_eq (n : nat) (a b : list Z) : outcome bool :=
  match n with
  | O => Ok true
  | S n =>
    match a, b with
    | x :: a, y :: b =>
      if negb (x =? y) then Ok false
      else if x =? 0 then Ok true else strncmp_eq n a b
    | _, _ => Ub OutOfBounds
    end
  end.

Definition MQTTPacket_equals (a : MQTTString) (bptr : list Z) : outcome bool :=
  let '(aptr, alen) :=
    match cstring a with
    | Some c => (Some (c ++ [0]), zlen c)
    | None => (lenstring_data a, lenstring_len a)
    end in
  let blen := zlen bptr in
  if alen =? blen then
    aptr ← deref aptr;
    strncmp_eq (Z.to_nat alen) aptr (bptr ++ [0])
  else Ok false.

Arguments MQTTPacket_encode : simpl never.
Arguments MQTTPacket_decode : simpl never.
Arguments MQTTPacket_decodeBuf : simpl never.
Arguments MQTTPacket_len : simpl never.
Arguments MQTTPacket_read : simpl never.
Arguments putRemLen : simpl never.
Arguments readInt : simpl never.
Arguments readChar : simpl never.
Arguments writeChar : simpl never.
Arguments writeInt : simpl never.
Arguments header_byte : simpl never.
Arguments header_of_byte : simpl never.

(** * Specification of the wire format (MQTT 3.1.1, sections 2.2.3 and 1.5) *)

(** The remaining-length field of [n]: base-128 digits, least significant
    first, the top bit set on every digit but the last. *)
Definition remlen_bytes (n : Z) : list Z :=
  if n <? 128 then [n]
  else if n <? 16384 then [n mod 128 + 128; n / 128]
  else if n <? 2097152 then
    [n mod 128 + 128; n / 128 mod 128 + 128; n / 16384]
  else if n <? 268435456 then
    [n mod 128 + 128; n / 128 mod 128 + 128; n / 16384 mod 128 + 128; n / 2097152]
  else
    [n mod 128 + 128; n / 128 mod 128 + 128; n / 16384 mod 128 + 128;
     n / 2097152 mod 128 + 128; n / 268435456].

(** A two-byte big-endian integer and a length-prefixed string. *)
Definition int_bytes (n : Z) : list Z := [u8 (Z.quot n 256); u8 (Z.rem n 256)].
Definition str_bytes (s : list Z) : list Z := int_bytes (zlen s) ++ s.

(** The bytes an MQTTString stands for when it can be written. *)
Definition mqttstring_bytes (s : MQTTString) : option (list Z) :=
  if 0 <? lenstring_len s then
    match lenstring_data s with
    | Some d => if lenstring_len s <=? zlen d
                then Some (ztake (lenstring_len s) d) else None
    | None => None
    end
  else match cstring s with Some c => Some c | None => Some [] end.

Arguments remlen_bytes : simpl never.
Arguments int_bytes : simpl never.
Arguments str_bytes : simpl never.

(** * Header byte *)

#[export] Instance MQTTHeader_eq_dec : EqDecision MQTTHeader.
Proof. solve_decision. Defined.

Lemma header_of_byte_byte t d q r :
  0 ≤ t < 16 → 0 ≤ d < 2 → 0 ≤ q < 4 → 0 ≤ r < 2 →
  header_of_byte (header_byte (mkHeader t d q r)) = mkHeader t d q r.
Proof.
  intros Ht Hd Hq Hr.
  assert (∀ t, 0 ≤ t < 16 → forallb (λ d, forallb (λ q, forallb (λ r, bool_decide
    (header_of_byte (header_byte (mkHeader t d q r)) = mkHeader t d q r))
    (seqZ 0 2)) (seqZ 0 4)) (seqZ 0 2) = true) as H.
  { apply forallb_seqZ. by vm_compute. }
  pose proof (forallb_seqZ _ _ (forallb_seqZ _ _ (forallb_seqZ _ _ (H t Ht) d Hd) q Hq) r Hr).
  by eapply bool_decide_eq_true.
Qed.

Lemma header_byte_range h : is_u8 (header_byte h).
Proof.
  unfold header_byte, is_u8. change 256 with (2 ^ 8).
  repeat apply lor_range; try apply field_range; try apply land_range; lia.
Qed.

(** * Primitive writers and readers *)

Lemma int_bytes_u8 n : bytes (int_bytes n).
Proof. repeat constructor; apply u8_range. Qed.

Lemma emits_writeChar c : is_u8 c → emits (writeChar c) [c].
Proof.
  intros Hc. eapply emits_ext; [|apply emits_put]. intros [m p].
  unfold wput, writeChar. by rewrite u8_id.
Qed.

Lemma emits_writeInt n : emits (writeInt n) (int_bytes n).
Proof.
  eapply emits_ext;
    [|apply (emits_seq _ _ _ _ (emits_put (u8 (Z.quot n 256)))
                               (emits_put (u8 (Z.rem n 256))))].
  intros [m p]. unfold wseq, wput, writeInt. by destruct (wr m p _).
Qed.

#[export] Hint Resolve emits_writeInt : emits.

Lemma emits_writeCString s : emits (writeCString s) (str_bytes s).
Proof. unfold writeCString. apply emits_seq; auto with emits. Qed.

Lemma emits_writeMQTTString s bs :
  mqttstring_bytes s = Some bs → emits (writeMQTTString s) (str_bytes bs).
Proof.
  unfold mqttstring_bytes, writeMQTTString. intros Hs.
  destruct (Z.ltb_spec 0 (lenstring_len s)) as [Hl|Hl].
  - destruct (lenstring_data s) as [d|]; [|done].
    destruct (Z.leb_spec (lenstring_len s) (zlen d)); [|done]. simplify_eq.
    unfold str_bytes. rewrite zlen_take by lia.
    eapply emits_ext; [|apply (emits_seq _ _ _ _
      (emits_writeInt (lenstring_len s)) (emits_copy (ztake (lenstring_len s) d)))].
    intros st. unfold wseq. destruct (writeInt _ st) as [st'|]; simpl; [|done].
    unfold rd_bytes. by rewrite !(proj2 (Z.leb_le _ _)) by lia.
  - destruct (cstring s) as [c|]; simplify_eq.
    + apply emits_writeCString.
    + unfold str_bytes. rewrite app_nil_r. apply emits_writeInt.
Qed.

Lemma readChar_has m p v a : has m p (v :: a) → readChar m p = Ok (v, p + 1).
Proof. intros H. unfold readChar. by rewrite (rd_has _ _ _ _ H). Qed.

Lemma readInt_has m p n a :
  is_u16 n → has m p (int_bytes n ++ a) → readInt m p = Ok (n, p + 2).
Proof.
  intros Hn H. unfold int_bytes in H.
  apply rd_cons in H as [H1 H]. apply rd_cons in H as [H2 _].
  unfold readInt. rewrite H1. simpl. rewrite H2. simpl. repeat f_equal.
  unfold u8, is_u16 in *. dlia.
Qed.

(** A well-formed string field is read whole, up to any [enddata] past it. *)
Lemma readMQTTLenString_has m s0 p bs a enddata :
  zlen bs < 65536 → has m p (str_bytes bs ++ a) → p + 2 + zlen bs ≤ enddata →
  readMQTTLenString m s0 p enddata
  = Ok (1, mkMQTTString None (zlen bs) (Some (zdrop (p + 2) m)), p + 2 + zlen bs).
Proof.
  intros Hl H He. pose proof (zlen_nonneg bs). unfold str_bytes in H.
  rewrite <-app_assoc in H. unfold readMQTTLenString.
  rewrite (proj2 (Z.ltb_lt 1 (enddata - p))) by lia.
  rewrite (readInt_has _ _ (zlen bs) (bs ++ a)) by (try done; unfold is_u16; lia).
  simpl. by rewrite (proj2 (Z.leb_le _ enddata)) by lia.
Qed.

(** Fewer bytes than the string needs: refused. *)
Lemma readMQTTLenString_short m s0 p n a enddata :
  is_u16 n → has m p (int_bytes n ++ a) → enddata < p + 2 + n →
  ∃ s' p', readMQTTLenString m s0 p enddata = Ok (0, s', p').
Proof.
  intros Hn H He. unfold readMQTTLenString.
  destruct (Z.ltb_spec 1 (enddata - p)); simpl; [|by eauto].
  rewrite (readInt_has _ _ n a) by done. simpl.
  rewrite (proj2 (Z.leb_gt _ _)) by lia. simpl. eauto.
Qed.

(** * Remaining length: encoding *)

Fixpoint digits (fuel : nat) (n : Z) : list Z :=
  match fuel with
  | O => []
  | S fuel => if n <? 128 then [n] else (n mod 128 + 128) :: digits fuel (n / 128)
  end.

Lemma digits_remlen n : 0 ≤ n < 2 ^ 31 → digits 5 n = remlen_bytes n.
Proof.
  intros Hn. unfold remlen_bytes. simpl digits.
  rewrite !Z.div_div by lia. simpl.
  repeat match goal with
  | |- context [?a <? ?b] => destruct (Z.ltb_spec a b); try dlia
  end; try done.
Qed.

Lemma lor_128 d : 0 ≤ d < 128 → Z.lor d 128 = d + 128.
Proof.
  intros Hd. apply Z.eqb_eq. revert d Hd. apply forallb_seqZ. by vm_compute.
Qed.

Lemma encode_loop_digits fuel : ∀ m p rc n,
  (0 < fuel)%nat → 0 ≤ p → 0 ≤ rc → p + rc ≤ zlen m →
  0 ≤ n < 128 ^ Z.of_nat fuel →
  encode_loop fuel m p rc n
  = if p + rc + zlen (digits fuel n) <=? zlen m
    then Ok (rc + zlen (digits fuel n), splice m (p + rc) (digits fuel n))
    else Ub OutOfBounds.
Proof.
  induction fuel as [|fuel IH]; intros m p rc n Hf Hp Hrc Hm Hn; [lia|].
  rewrite Nat2Z.inj_succ, Z.pow_succ_r in Hn by lia. simpl.
  assert (Z.quot n 128 = n / 128) as -> by dlia.
  assert (Z.rem n 128 = n mod 128) as -> by dlia.
  rewrite wr_splice by lia.
  destruct (Z.ltb_spec n 128) as [Hs|Hs].
  - rewrite !(proj2 (Z.ltb_ge 0 (n / 128))) by dlia.
    change (zlen [n]) with 1.
    destruct (p + rc + 1 <=? zlen m); simpl; [|done].
    repeat f_equal. unfold u8. dlia.
  - rewrite !(proj2 (Z.ltb_lt 0 (n / 128))) by dlia.
    rewrite lor_128 by dlia. rewrite zlen_cons.
    assert (u8 (n mod 128 + 128) = n mod 128 + 128) as -> by (unfold u8; dlia).
    pose proof (zlen_nonneg (digits fuel (n / 128))).
    destruct (Z.leb_spec (p + rc + 1) (zlen m)); simpl.
    + assert (0 < fuel)%nat by (destruct fuel; [simpl in Hn|]; lia).
      rewrite IH; [|lia|lia|lia|rewrite zlen_splice; change (zlen [n mod 128 + 128]) with 1; lia|dlia].
      rewrite zlen_splice by (change (zlen [n mod 128 + 128]) with 1; lia).
      rewrite !Z.add_assoc.
      destruct (Z.leb_spec (p + rc + 1 + zlen (digits fuel (n / 128))) (zlen m)); [|done].
      by rewrite splice_cons by lia.
    + by rewrite (proj2 (Z.leb_gt _ _)) by lia.
Qed.

Lemma emits_putRemLen n : 0 ≤ n < 2 ^ 31 → emits (putRemLen n) (remlen_bytes n).
Proof.
  intros Hn m p Hp. unfold putRemLen, MQTTPacket_encode.
  rewrite encode_loop_digits by lia. rewrite digits_remlen by lia.
  rewrite Z.add_0_r, Z.add_0_l. by destruct (p + zlen (remlen_bytes n) <=? zlen m).
Qed.

(** * Remaining length: decoding *)

Section decode.
Context {S : Type} (getfn : S → Z → outcome (Z * list Z * S)).

(** The source delivers [bs] one character at a time, going from [s] to [s']. *)
Fixpoint yields (s : S) (bs : list Z) (s' : S) : Prop :=
  match bs with
  | [] => s = s'
  | b :: bs => ∃ s1, getfn s 1 = Ok (1, [b], s1) ∧ yields s1 bs s'
  end.

Lemma decode_loop_last f s s1 c mult len value d :
  len < 4 → 0 ≤ d < 128 → getfn s 1 = Ok (1, [d], s1) →
  decode_loop getfn (Datatypes.S f) s c mult len value
  = Ok (len + 1, value + d * mult, s1).
Proof.
  intros Hl Hd Hg. simpl. unfold MAX_NO_OF_REMAINING_LENGTH_BYTES.
  rewrite (proj2 (Z.ltb_ge _ _)) by lia. rewrite Hg. simpl.
  assert (Z.land d 127 = d) as -> by (rewrite (Z.land_ones _ 7) by lia; dlia).
  assert ((Z.land d 128 =? 0) = true) as ->; [|done].
  revert d Hd Hg. intros d Hd _. revert d Hd. apply forallb_seqZ. by vm_compute.
Qed.

Lemma decode_loop_more f s s1 c mult len value d :
  len < 4 → 0 ≤ d < 128 → getfn s 1 = Ok (1, [d + 128], s1) →
  decode_loop getfn (Datatypes.S f) s c mult len value
  = decode_loop getfn f s1 (Some (d + 128)) (mult * 128) (len + 1) (value + d * mult).
Proof.
  intros Hl Hd Hg. simpl. unfold MAX_NO_OF_REMAINING_LENGTH_BYTES.
  rewrite (proj2 (Z.ltb_ge _ _)) by lia. rewrite Hg. simpl.
  assert (Z.land (d + 128) 127 = d) as -> by (rewrite (Z.land_ones _ 7) by lia; dlia).
  assert ((Z.land (d + 128) 128 =? 0) = false) as ->; [|done].
  apply negb_true_iff. revert d Hd Hg. intros d Hd _. revert d Hd.
  apply (forallb_seqZ (λ d, negb (Z.land (d + 128) 128 =? 0))). by vm_compute.
Qed.

Lemma decode_loop_digits k : ∀ f s s' c mult len value n,
  (0 < k ≤ f)%nat → len + Z.of_nat k ≤ 4 → 0 ≤ n < 128 ^ Z.of_nat k →
  yields s (digits k n) s' →
  decode_loop getfn f s c mult len value
  = Ok (len + zlen (digits k n), value + n * mult, s').
Proof.
  induction k as [|k IH]; intros f s s' c mult len value n Hk Hl Hn Hy; [lia|].
  destruct f as [|f]; [lia|]. rewrite Nat2Z.inj_succ, Z.pow_succ_r in Hn by lia.
  cbn [digits] in *. destruct (Z.ltb_spec n 128) as [Hs|Hs].
  - destruct Hy as (s1 & Hg & ->). apply decode_loop_last; [lia|lia|done].
  - destruct Hy as (s1 & Hg & Hy).
    assert (0 < k)%nat by (destruct k; [simpl in Hn|]; lia).
    rewrite (decode_loop_more _ _ s1 _ _ _ _ (n mod 128)); [|lia|dlia|done].
    rewrite (IH _ _ s' _ _ _ _ (n / 128)); [|lia|lia|dlia|done]. rewrite zlen_cons.
    f_equal. f_equal. f_equal; [lia|].
    rewrite (Z.div_mod n 128) at 3 by lia. ring.
Qed.

Lemma decode_yields s s' n :
  0 ≤ n < 2 ^ 28 → yields s (remlen_bytes n) s' →
  MQTTPacket_decode getfn s = Ok (zlen (remlen_bytes n), n, s').
Proof.
  intros Hn Hy. rewrite <-digits_remlen in Hy |- * by lia.
  assert (digits 5 n = digits 4 n) as Hd.
  { cbn [digits]. rewrite !Z.div_div by lia. simpl.
    repeat match goal with
    | |- context [?a <? ?b] => destruct (Z.ltb_spec a b); try done; try dlia
    end. }
  rewrite Hd in *. unfold MQTTPacket_decode.
  rewrite (decode_loop_digits 4 _ _ s' _ _ _ _ n) by (done || lia).
  rewrite Z.add_0_l, Z.mul_1_r. done.
Qed.
End decode.

Lemma bufchar_1 m p v : rd m p = Ok v → bufchar m p 1 = Ok (1, [v], p + 1).
Proof. intros H. unfold bufchar. simpl. by rewrite H. Qed.

Lemma bufchar_yields m bs : ∀ p a,
  has m p (bs ++ a) → yields (bufchar m) p bs (p + zlen bs).
Proof.
  induction bs as [|b bs IH]; intros p a H; simpl.
  { by rewrite zlen_nil, Z.add_0_r. }
  simpl in H. apply rd_cons in H as [Hb H].
  exists (p + 1). split; [by apply bufchar_1|].
  rewrite zlen_cons, Z.add_assoc. eapply IH; eauto.
Qed.

Lemma decodeBuf_remlen m p n a :
  0 ≤ n < 2 ^ 28 → has m p (remlen_bytes n ++ a) →
  MQTTPacket_decodeBuf m p = Ok (zlen (remlen_bytes n), n).
Proof.
  intros Hn H. unfold MQTTPacket_decodeBuf.
  by rewrite (decode_yields _ _ _ n Hn (bufchar_yields _ _ _ _ H)).
Qed.

Lemma zlen_remlen_bytes n : 1 ≤ zlen (remlen_bytes n) ≤ 5.
Proof. unfold remlen_bytes. repeat case_match; unfold zlen; simpl; lia. Qed.

Lemma remlen_bytes_u8 n : 0 ≤ n < 2 ^ 31 → bytes (remlen_bytes n).
Proof.
  intros Hn. unfold remlen_bytes.
  repeat match goal with
  | |- context [?a <? ?b] => destruct (Z.ltb_spec a b)
  end; repeat constructor; unfold is_u8; dlia.
Qed.

(** * Correctness *)

(** Encoding leaves exactly the field in memory, or overruns the buffer. *)
Lemma MQTTPacket_encode_spec m p n :
  0 ≤ n < 2 ^ 31 → 0 ≤ p ≤ zlen m →
  MQTTPacket_encode m p n
  = if p + zlen (remlen_bytes n) <=? zlen m
    then Ok (zlen (remlen_bytes n), splice m p (remlen_bytes n))
    else Ub OutOfBounds.
Proof.
  intros Hn Hp. unfold MQTTPacket_encode. rewrite encode_loop_digits by lia.
  by rewrite digits_remlen, Z.add_0_r by lia.
Qed.

(** C12: for every length the MQTT format allows (below 2^28) and every buffer
    with room for it, MQTTPacket_encode writes a field of one to four bytes,
    changes nothing outside it, and MQTTPacket_decodeBuf reads back the same
    length and the same number of bytes. *)
Theorem encode_decode_roundtrip m p n :
  0 ≤ n < 2 ^ 28 → 0 ≤ p → p + 4 ≤ zlen m →
  ∃ k m', MQTTPacket_encode m p n = Ok (k, m') ∧ 1 ≤ k ≤ 4 ∧
    MQTTPacket_decodeBuf m' p = Ok (k, n) ∧
    ztake p m' = ztake p m ∧ zdrop (p + k) m' = zdrop (p + k) m ∧
    zlen m' = zlen m.
Proof.
  intros Hn Hp Hm.
  assert (1 ≤ zlen (remlen_bytes n) ≤ 4) as Hk.
  { unfold remlen_bytes.
    repeat match goal with
    | |- context [?a <? ?b] => destruct (Z.ltb_spec a b)
    end; unfold zlen; simpl; lia. }
  exists (zlen (remlen_bytes n)), (splice m p (remlen_bytes n)).
  rewrite MQTTPacket_encode_spec, (proj2 (Z.leb_le _ _)) by lia.
  split_and!; [done|lia|lia| | | |].
  - apply (decodeBuf_remlen _ _ _ []); [done|]. rewrite app_nil_r.
    apply has_splice; lia.
  - apply ztake_splice; lia.
  - rewrite <-(zdrop_zdrop (zlen (remlen_bytes n)) p), zdrop_splice by lia.
    by apply zdrop_app_exact.
  - apply zlen_splice; lia.
Qed.

Lemma encode_decode_roundtrip_witness :
  ∃ k m', MQTTPacket_encode (replicate 6 0) 1 321 = Ok (k, m') ∧ 1 ≤ k ≤ 4 ∧
    MQTTPacket_decodeBuf m' 1 = Ok (k, 321) ∧
    ztake 1 m' = ztake 1 (replicate 6 0) ∧
    zdrop (1 + k) m' = zdrop (1 + k) (replicate 6 0) ∧ zlen m' = zlen (replicate 6 0).
Proof. apply encode_decode_roundtrip; [lia|lia|vm_compute; discriminate]. Defined.

Lemma land_127_range c : 0 ≤ Z.land c 127 < 128.
Proof. change 127 with (Z.ones 7). rewrite Z.land_ones by lia. apply Z.mod_pos_bound. lia. Qed.

Lemma decode_loop_bounds m p : 0 ≤ p → p + 4 ≤ zlen m →
  ∀ f c mult len value, (0 < f)%nat → 0 ≤ len → Z.of_nat f + len = 5 →
  0 ≤ value < mult → mult = 128 ^ len →
  ∃ len' v s, decode_loop (bufchar m) f (p + len) c mult len value = Ok (len', v, s) ∧
    1 ≤ len' ≤ 5 ∧ 0 ≤ v < 2 ^ 28.
Proof.
  intros Hp Hm. induction f as [|f IH]; intros c mult len value Hf Hl Hfl Hv Hmult; [lia|].
  assert (mult ≤ 2 ^ 28) as Hm28.
  { rewrite Hmult. change (2 ^ 28) with (128 ^ 4). apply Z.pow_le_mono_r; lia. }
  cbn [decode_loop]. unfold MAX_NO_OF_REMAINING_LENGTH_BYTES.
  destruct (Z.ltb_spec 4 (len + 1)); [by eexists _, _, _; split_and!; [done|lia..]|].
  destruct (rd_Ok m (p + len)) as [v Hr]; [lia|]. rewrite (bufchar_1 _ _ v) by done.
  cbn. pose proof (land_127_range v).
  assert (128 ^ (len + 1) = mult * 128) as Heq.
  { rewrite Z.pow_add_r, <-Hmult by lia. done. }
  assert (128 ^ (len + 1) ≤ 2 ^ 28).
  { change (2 ^ 28) with (128 ^ 4). apply Z.pow_le_mono_r; lia. }
  assert (0 ≤ value + Z.land v 127 * mult < mult * 128) by nia.
  destruct (negb (Z.land v 128 =? 0)).
  - rewrite <-Z.add_assoc. apply IH; lia.
  - eexists _, _, _. split_and!; [done|lia..].
Qed.

Lemma decodeBuf_total m p :
  0 ≤ p → p + 4 ≤ zlen m →
  ∃ len v, MQTTPacket_decodeBuf m p = Ok (len, v) ∧ 1 ≤ len ≤ 5 ∧ 0 ≤ v < 2 ^ 28.
Proof.
  intros Hp Hm. unfold MQTTPacket_decodeBuf, MQTTPacket_decode.
  destruct (decode_loop_bounds m p Hp Hm 5 None 1 0 0) as (len & v & s & H & ?);
    [lia..|done|]. rewrite Z.add_0_r in H. rewrite H. by exists len, v.
Qed.

Lemma decodeBuf_range m p len v :
  0 ≤ p → p + 4 ≤ zlen m → MQTTPacket_decodeBuf m p = Ok (len, v) →
  1 ≤ len ≤ 5 ∧ 0 ≤ v < 2 ^ 28.
Proof.
  intros Hp Hm H. destruct (decodeBuf_total m p Hp Hm) as (len' & v' & H' & ?).
  rewrite H in H'. by simplify_eq.
Qed.

(** Whatever the bytes are, MQTTPacket_decodeBuf reads at most four of
    them, terminates, reports between one and five, and the length it stores
    is below 2^28: a malformed field cannot make the computation overflow. *)
Theorem decodeBuf_bounds m p :
  0 ≤ p → p + 4 ≤ zlen m →
  ∃ len v, MQTTPacket_decodeBuf m p = Ok (len, v) ∧ 1 ≤ len ≤ 5 ∧ 0 ≤ v < 2 ^ 28.
Proof. apply decodeBuf_total. Qed.

Lemma decodeBuf_bounds_witness :
  ∃ len v, MQTTPacket_decodeBuf (replicate 4 255) 0 = Ok (len, v)
    ∧ 1 ≤ len ≤ 5 ∧ 0 ≤ v < 2 ^ 28.
Proof. apply decodeBuf_bounds; [lia|vm_compute; discriminate]. Defined.

Lemma MQTTPacket_len_exact n :
  0 ≤ n < 2 ^ 28 →
  MQTTPacket_len n
  = Ok (1 + zlen (remlen_bytes n) + n
        + (if bool_decide (n ∈ [127; 16383; 2097150; 2097151]) then 1 else 0)).
Proof.
  intros Hn. unfold MQTTPacket_len, INT_MIN, INT_MAX in *.
  rewrite int32_Ok by (unfold INT_MIN, INT_MAX; lia). rewrite bind_Ok.
  assert (bool_decide (n ∈ [127; 16383; 2097150; 2097151])
    = (n =? 127) || (n =? 16383) || (n =? 2097150) || (n =? 2097151)) as ->.
  { apply eq_true_iff_eq. rewrite bool_decide_eq_true, !orb_true_iff, !Z.eqb_eq.
    rewrite !elem_of_cons, elem_of_nil. tauto. }
  unfold remlen_bytes.
  repeat match goal with
  | |- context [?a <? ?b] => destruct (Z.ltb_spec a b); try lia
  end; rewrite int32_Ok by (unfold INT_MIN, INT_MAX; lia); f_equal;
  unfold zlen; simpl length;
  repeat match goal with
  | |- context [?a =? ?b] => destruct (Z.eqb_spec a b); simpl; try lia
  end.
Qed.


(** The size the serializers check against is enough for the packet. *)
Lemma MQTTPacket_len_bounds n :
  0 ≤ n < 2 ^ 28 → ∃ plen, MQTTPacket_len n = Ok plen ∧
    1 + zlen (remlen_bytes n) + n ≤ plen ≤ 2 + zlen (remlen_bytes n) + n.
Proof.
  intros Hn. rewrite MQTTPacket_len_exact by done. eexists. split; [done|].
  case_match; lia.
Qed.

(** MQTTPacket_len is the size of the packet whose remaining length is
    [n], except at four boundaries, where it is one more: the thresholds are
    compared with the length after the header byte was added to it. *)
Theorem MQTTPacket_len_spec n :
  0 ≤ n < 2 ^ 28 →
  MQTTPacket_len n
  = Ok (1 + zlen (remlen_bytes n) + n
        + (if bool_decide (n ∈ [127; 16383; 2097150; 2097151]) then 1 else 0)).
Proof. apply MQTTPacket_len_exact. Qed.

Lemma MQTTPacket_len_spec_witness :
  MQTTPacket_len 127 = Ok (1 + zlen (remlen_bytes 127) + 127
    + (if bool_decide (127 ∈ [127; 16383; 2097150; 2097151]) then 1 else 0)) ∧
  MQTTPacket_len 127 = Ok 130.
Proof. split; [apply MQTTPacket_len_spec; lia|reflexivity]. Defined.

(** When the transport delivers a well-formed packet (header byte [b0], the
    remaining length of [body], then [body]), MQTTPacket_read stores it at the
    start of the buffer and returns the packet type; [buflen] plays no part:
    a packet larger than the buffer overruns it whatever [buflen] says. *)
Theorem MQTTPacket_read_spec {S} (getfn : S → Z → outcome (Z * list Z * S))
    buf buflen s s1 s2 s3 b0 body :
  is_u8 b0 → zlen body < 2 ^ 28 →
  getfn s 1 = Ok (1, [b0], s1) →
  yields getfn s1 (remlen_bytes (zlen body)) s2 →
  getfn s2 (zlen body) = Ok (zlen body, body, s3) →
  let pkt := b0 :: remlen_bytes (zlen body) ++ body in
  MQTTPacket_read getfn buf buflen s
  = if zlen pkt <=? zlen buf
    then Ok (type (header_of_byte b0), splice buf 0 pkt, s3)
    else Ub OutOfBounds.
Proof.
  intros Hb0 Hbody H1 Hy H3 pkt. pose proof (zlen_nonneg body).
  pose proof (zlen_remlen_bytes (zlen body)).
  assert (zlen pkt = 1 + zlen (remlen_bytes (zlen body)) + zlen body) as Hpkt
    by (unfold pkt; autorewrite with zlen; lia).
  unfold MQTTPacket_read. rewrite H1. simpl. rewrite !wr_bytes_splice by lia.
  change (zlen [b0]) with 1.
  destruct (Z.leb_spec (0 + 1) (zlen buf)) as [Hl|Hl]; simpl;
    [|by rewrite (proj2 (Z.leb_gt _ _)) by lia].
  rewrite (decode_yields getfn s1 s2 (zlen body)) by (done || lia). simpl.
  assert (zlen (splice buf 0 [b0]) = zlen buf) as Hz by (apply zlen_splice; done).
  rewrite MQTTPacket_encode_spec by lia. rewrite Hz.
  destruct (Z.leb_spec (1 + zlen (remlen_bytes (zlen body))) (zlen buf)); simpl;
    [|by rewrite (proj2 (Z.leb_gt _ _)) by lia].
  rewrite (splice_cons buf 0) by lia. rewrite H3. simpl.
  rewrite wr_bytes_splice by lia.
  rewrite zlen_splice by (rewrite ?zlen_cons; lia).
  rewrite <-Hpkt. destruct (Z.leb_spec (zlen pkt) (zlen buf)); simpl; [|done].
  rewrite Z.eqb_refl. simpl.
  assert (splice (splice buf 0 (b0 :: remlen_bytes (zlen body)))
    (1 + zlen (remlen_bytes (zlen body))) body = splice buf 0 pkt) as ->.
  { pose proof (splice_splice buf 0 (b0 :: remlen_bytes (zlen body)) body) as Hs.
    rewrite zlen_cons in Hs. rewrite Z.add_0_l in Hs. rewrite Hs by lia. done. }
  rewrite (rd_has _ 0 b0 (remlen_bytes (zlen body) ++ body)); [done|].
  apply has_splice; [lia|rewrite Z.add_0_l; fold pkt; lia].
Qed.

(** A transport that delivers a list of bytes, for evaluating the reader. *)
Definition list_getfn (s : list Z) (count : Z) : outcome (Z * list Z * list Z) :=
  Ok (zlen (ztake count s), ztake count s, zdrop count s).

Lemma MQTTPacket_read_spec_witness :
  MQTTPacket_read list_getfn (replicate 4 0) 4 [64; 2; 0; 7; 99]
  = Ok (4, [64; 2; 0; 7], [99]) ∧
  MQTTPacket_read list_getfn (replicate 3 0) 3 [64; 2; 0; 7; 99] = Ub OutOfBounds.
Proof.
  split; (etrans; [apply (MQTTPacket_read_spec list_getfn _ _ _ [2; 0; 7; 99]
    [0; 7; 99] [99] 64 [0; 7])|vm_compute; reflexivity]); try done;
    by exists [0; 7; 99].
Defined.

Lemma strncmp_eq_spec n : ∀ a b a' b',
  length a = n → length b = n → Forall (λ x, x ≠ 0) b →
  strncmp_eq n (a ++ a') (b ++ b') = Ok (bool_decide (a = b)).
Proof.
  induction n as [|n IH]; intros a b a' b' Ha Hb Hnz.
  { by destruct a, b. }
  destruct a as [|x a], b as [|y b]; try done. simpl.
  apply Forall_cons in Hnz as [Hy Hnz].
  destruct (Z.eqb_spec x y) as [->|Hne]; simpl.
  - rewrite (proj2 (Z.eqb_neq y 0)) by done.
    rewrite IH; [|by simplify_eq/=..|done].
    f_equal. apply bool_decide_ext. split; congruence.
  - f_equal. symmetry. apply bool_decide_eq_false_2. congruence.
Qed.

(** MQTTPacket_equals decides whether an MQTTString stands for a given C
    string, for both representations of the MQTTString. *)
Theorem MQTTPacket_equals_spec a bs b :
  (match cstring a with Some c => c = bs
   | None => ∃ rest, lenstring_data a = Some (bs ++ rest) ∧ lenstring_len a = zlen bs
   end) →
  Forall (λ x, x ≠ 0) b →
  MQTTPacket_equals a b = Ok (bool_decide (bs = b)).
Proof.
  intros Ha Hb. unfold MQTTPacket_equals.
  assert (∀ rest, (if zlen bs =? zlen b
    then strncmp_eq (Z.to_nat (zlen bs)) (bs ++ rest) (b ++ [0]) else Ok false)
    = Ok (bool_decide (bs = b))) as Hcmp.
  { intros rest. destruct (Z.eqb_spec (zlen bs) (zlen b)) as [Heq|Hne].
    - unfold zlen in *. rewrite Nat2Z.id. apply strncmp_eq_spec; [done|lia|done].
    - f_equal. symmetry. apply bool_decide_eq_false_2. by intros ->. }
  destruct (cstring a) as [c|].
  - subst c. apply Hcmp.
  - destruct Ha as (rest & -> & ->). apply Hcmp.
Qed.

Lemma MQTTPacket_equals_spec_witness :
  MQTTPacket_equals (mkMQTTString None 2 (Some [104; 105; 33])) [104; 105] = Ok true.
Proof.
  apply (MQTTPacket_equals_spec _ [104; 105]); [by exists [33]|].
  repeat constructor; discriminate.
Defined.
