(* ===== verification/MqttWire.v ===== *)
(** What the MQTT serializers and deserializers share: the contents of an
    MQTTString, the serializer contract and the packet prefix. *)
From S2P Require Export MqttPacket.

(** The content of an MQTTString, when it has one representation only. *)
Definition denotes (s : MQTTString) (bs : list Z) : Prop :=
  (cstring s = Some bs ∧ lenstring_len s ≤ 0) ∨
  (cstring s = None ∧ lenstring_len s = zlen bs ∧
   (∃ rest, lenstring_data s = Some (bs ++ rest)) ).


(** [s.cstring || s.lenstring.data] *)
Definition supplied (s : MQTTString) : bool :=
  match cstring s, lenstring_data s with None, None => false | _, _ => true end.

Definition denotes_opt (s : MQTTString) (bs : option (list Z)) : Prop :=
  match bs with
  | Some bs => supplied s = true ∧ denotes s bs
  | None => supplied s = false
  end.

Lemma denotes_bytes s bs : denotes s bs → mqttstring_bytes s = Some bs.
Proof.
  pose proof (zlen_nonneg bs). unfold mqttstring_bytes.
  intros [[-> ?]|(-> & -> & rest & ->)].
  - by rewrite (proj2 (Z.ltb_ge _ _)) by lia.
  - destruct (Z.ltb_spec 0 (zlen bs)).
    + pose proof (zlen_nonneg rest).
      rewrite (proj2 (Z.leb_le _ _)) by (rewrite zlen_app; lia).
      by rewrite ztake_app_exact.
    + destruct bs; [done|]. rewrite zlen_cons in *. pose proof (zlen_nonneg bs). lia.
Qed.

Lemma denotes_strlen s bs : denotes s bs → MQTTstrlen s = zlen bs.
Proof. unfold MQTTstrlen. by intros [[-> ?]|(-> & -> & _)]. Qed.

Lemma emits_denotes s bs : denotes s bs → emits (writeMQTTString s) (str_bytes bs).
Proof. intros. by apply emits_writeMQTTString, denotes_bytes. Qed.

Lemma zlen_str_bytes s : zlen (str_bytes s) = zlen s + 2.
Proof. unfold str_bytes, int_bytes. autorewrite with zlen. lia. Qed.
Lemma zlen_int_bytes n : zlen (int_bytes n) = 2.
Proof. done. Qed.
#[export] Hint Rewrite zlen_str_bytes zlen_int_bytes : zlen.

Lemma emits_seq_eq f g a b c :
  emits f a → emits g b → a ++ b = c → emits (f ;;; g) c.
Proof. intros ? ? <-. by apply emits_seq. Qed.

(** What every serializer does: it refuses a [buflen] below the packet's
    length, and otherwise writes the packet if the buffer has room for it. *)
Definition serialized (r : outcome (Z * list Z)) (buf : list Z) (buflen plen : Z)
    (pkt : list Z) : Prop :=
  r = if buflen <? plen then Ok (MQTTPACKET_BUFFER_TOO_SHORT, buf)
      else if zlen pkt <=? zlen buf then Ok (zlen pkt, splice buf 0 pkt)
      else Ub OutOfBounds.

(** The common shape of the serializers: MQTTPacket_len of the remaining length
    guards the writes of header, remaining length and body. *)
Lemma serialized_lemma f h body buf buflen :
  zlen body < 2 ^ 28 →
  emits f (h :: remlen_bytes (zlen body) ++ body) →
  let pkt := h :: remlen_bytes (zlen body) ++ body in
  ∃ plen, zlen pkt ≤ plen ≤ zlen pkt + 1 ∧
    serialized (plen ← MQTTPacket_len (zlen body);
                if buflen <? plen then Ok (MQTTPACKET_BUFFER_TOO_SHORT, buf) else
                '(buf, ptr) ← f (buf, 0);
                Ok (ptr, buf)) buf buflen plen pkt.
Proof.
  intros Hlen Hf pkt.
  destruct (MQTTPacket_len_bounds (zlen body)) as (plen & Hpl & Hb);
    [split; [apply zlen_nonneg|done]|].
  exists plen. assert (zlen pkt = 1 + zlen (remlen_bytes (zlen body)) + zlen body) as Hz
    by (unfold pkt; autorewrite with zlen; lia).
  split; [lia|]. unfold serialized. rewrite Hpl, bind_Ok.
  destruct (buflen <? plen); [done|]. by apply run_emits.
Qed.

(** With a truthful [buflen] the serializer never overruns the buffer. *)
Lemma serialized_in_bounds r buf buflen plen pkt :
  serialized r buf buflen plen pkt → zlen pkt ≤ plen → buflen ≤ zlen buf →
  r = if buflen <? plen then Ok (MQTTPACKET_BUFFER_TOO_SHORT, buf)
      else Ok (zlen pkt, splice buf 0 pkt).
Proof.
  unfold serialized. intros -> Hp Hb. destruct (Z.ltb_spec buflen plen); [done|].
  by rewrite (proj2 (Z.leb_le _ _)) by lia.
Qed.

(** What a successful serializer leaves for a reader. *)
Lemma serialized_has s buf buflen plen pkt r buf' :
  serialized s buf buflen plen pkt → s = Ok (r, buf') → 0 < r →
  r = zlen pkt ∧ has buf' 0 (pkt ++ []).
Proof.
  unfold serialized. intros -> Hser Hr. rewrite app_nil_r.
  destruct (buflen <? plen); [by simplify_eq|].
  destruct (Z.leb_spec (zlen pkt) (zlen buf)); simplify_eq.
  split; [done|]. by apply has_splice.
Qed.

(** A packet of a one-byte remaining length, written from the buffer's start. *)
Lemma emits_short_packet h n f bs : is_u8 h → 0 ≤ n < 128 → emits f bs →
  emits (writeChar h ;;; putRemLen n ;;; f) (h :: n :: bs).
Proof.
  intros Hh Hn Hf. assert (remlen_bytes n = [n]) as Hr.
  { unfold remlen_bytes. by rewrite (proj2 (Z.ltb_lt n 128)) by lia. }
  change (h :: n :: bs) with ([h] ++ [n] ++ bs). rewrite <-Hr.
  apply emits_seq; [by apply emits_writeChar|].
  apply emits_seq; [apply emits_putRemLen; lia|done].
Qed.

Lemma decodeBuf_short m p n a : 0 ≤ n < 128 → has m p (n :: a) →
  MQTTPacket_decodeBuf m p = Ok (1, n).
Proof.
  intros Hn H. assert (remlen_bytes n = [n]) as Hr.
  { unfold remlen_bytes. by rewrite (proj2 (Z.ltb_lt n 128)) by lia. }
  rewrite (decodeBuf_remlen m p n a); [by rewrite Hr|lia|by rewrite Hr].
Qed.

Lemma denotes_read bs p (m : list Z) a :
  has m p (str_bytes bs ++ a) →
  denotes (mkMQTTString None (zlen bs) (Some (zdrop (p + 2) m))) bs.
Proof.
  intros H. right. split_and!; [done..|]. unfold str_bytes in H.
  rewrite <-app_assoc in H. apply has_app in H as [_ (_ & rest & H)].
  rewrite zlen_int_bytes in H. exists (a ++ rest). cbn. by rewrite H, app_assoc.
Qed.

(** One string of the payload: what the reader returns and what is left. *)
Lemma read_str m s0 p bs a enddata :
  zlen bs < 65536 → has m p (str_bytes bs ++ a) → p + 2 + zlen bs + zlen a ≤ enddata →
  ∃ s, readMQTTLenString m s0 p enddata = Ok (1, s, p + 2 + zlen bs) ∧
    denotes_opt s (Some bs) ∧ has m (p + 2 + zlen bs) a.
Proof.
  intros Hl H He. pose proof (zlen_nonneg a). eexists. split_and!.
  - eapply readMQTTLenString_has; [done|exact H|lia].
  - split; [done|]. by eapply denotes_read.
  - apply has_app in H as [_ H]. rewrite zlen_str_bytes in H.
    by replace (p + 2 + zlen bs) with (p + (zlen bs + 2)) by lia.
Qed.

(** Reading a string of arbitrary memory never leaves [p..enddata]. *)
Lemma readMQTTLenString_safe m s0 p enddata :
  bytes m → 0 ≤ p → enddata ≤ zlen m →
  ∃ rc s p', readMQTTLenString m s0 p enddata = Ok (rc, s, p') ∧
    (rc = 0 ∨ rc = 1 ∧ p + 2 ≤ p' ≤ enddata).
Proof.
  intros Hm Hp He. unfold readMQTTLenString.
  destruct (Z.ltb_spec 1 (enddata - p)); cbn; [|by eexists _, _, _; split; [|left]].
  assert (∀ q, 0 ≤ q < zlen m → ∃ v, rd m q = Ok v ∧ is_u8 v) as Hrd.
  { intros q Hq. destruct (rd_Ok m q Hq) as [v Hv]. exists v. split; [done|].
    by eapply rd_Forall. }
  destruct (Hrd p) as (a & Ha & Hau); [lia|]. destruct (Hrd (p + 1)) as (b & Hb & Hbu); [lia|].
  unfold readInt. rewrite Ha. cbn. rewrite Hb. cbn. unfold is_u8 in *.
  destruct (Z.leb_spec (p + 2 + (256 * a + b)) enddata); cbn; eexists _, _, _;
    (split; [done|]); [right|left; done]. split; [done|]. lia.
Qed.
