(* ===== verification/MqttConnect.v ===== *)
(** MQTTConnectClient.c, MQTTConnectServer.c and MQTTConnect.h: the CONNECT,
    CONNACK, PINGREQ and DISCONNECT packets.

    A serializer takes its buffer and [buflen] and returns its result with the
    buffer it leaves; a deserializer takes what its output parameters hold and
    returns its result with what they hold afterwards. *)
From S2P Require Export MqttWire.

(** Bit fields of the connect flags byte; bit 0 is unused. *)
Record MQTTConnectFlags := mkConnectFlags {
  cf_username : Z; cf_password : Z; cf_willRetain : Z; cf_willQoS : Z;
  cf_will : Z; cf_cleansession : Z }.

Definition connect_flags_all (f : MQTTConnectFlags) : Z :=
  Z.lor (Z.shiftl (Z.land (cf_username f) 1) 7)
  (Z.lor (Z.shiftl (Z.land (cf_password f) 1) 6)
  (Z.lor (Z.shiftl (Z.land (cf_willRetain f) 1) 5)
  (Z.lor (Z.shiftl (Z.land (cf_willQoS f) 3) 3)
  (Z.lor (Z.shiftl (Z.land (cf_will f) 1) 2)
         (Z.shiftl (Z.land (cf_cleansession f) 1) 1))))).

Definition connect_flags_of (b : Z) : MQTTConnectFlags :=
  mkConnectFlags (Z.land (Z.shiftr b 7) 1) (Z.land (Z.shiftr b 6) 1)
    (Z.land (Z.shiftr b 5) 1) (Z.land (Z.shiftr b 3) 3)
    (Z.land (Z.shiftr b 2) 1) (Z.land (Z.shiftr b 1) 1).

(** The connack flags: seven unused bits, then [sessionpresent]. *)
Definition connack_flags_all (sessionpresent : Z) : Z :=
  Z.shiftl (Z.land sessionpresent 1) 7.
Definition connack_sessionpresent (b : Z) : Z := Z.land (Z.shiftr b 7) 1.

Record MQTTPacket_willOptions := mkWill {
  will_struct_id : list Z;
  will_struct_version : Z;
  topicName : MQTTString;
  message : MQTTString;
  retained : Z;
  will_qos : Z }.

Record MQTTPacket_connectData := mkConnectData {
  struct_id : list Z;
  struct_version : Z;
  MQTTVersion : Z;
  clientID : MQTTString;
  keepAliveInterval : Z;
  cleansession : Z;
  willFlag : Z;
  will : MQTTPacket_willOptions;
  username : MQTTString;
  password : MQTTString }.

Definition MQTTPacket_willOptions_initializer : MQTTPacket_willOptions :=
  mkWill (bytes_of_string "MQTW") 0 MQTTString_initializer MQTTString_initializer 0 0.

Definition MQTTPacket_connectData_initializer : MQTTPacket_connectData :=
  mkConnectData (bytes_of_string "MQTC") 0 4 MQTTString_initializer 60 1 0
    MQTTPacket_willOptions_initializer MQTTString_initializer MQTTString_initializer.

(** Assignments to the fields a deserializer sets. *)
Definition set_clientID s d := mkConnectData (struct_id d) (struct_version d)
  (MQTTVersion d) s (keepAliveInterval d) (cleansession d) (willFlag d) (will d)
  (username d) (password d).
Definition set_session cs ka d := mkConnectData (struct_id d) (struct_version d)
  (MQTTVersion d) (clientID d) ka cs (willFlag d) (will d) (username d) (password d).
Definition set_will flag w d := mkConnectData (struct_id d) (struct_version d)
  (MQTTVersion d) (clientID d) (keepAliveInterval d) (cleansession d) flag w
  (username d) (password d).
Definition set_username s d := mkConnectData (struct_id d) (struct_version d)
  (MQTTVersion d) (clientID d) (keepAliveInterval d) (cleansession d) (willFlag d)
  (will d) s (password d).
Definition set_password s d := mkConnectData (struct_id d) (struct_version d)
  (MQTTVersion d) (clientID d) (keepAliveInterval d) (cleansession d) (willFlag d)
  (will d) (username d) s.
Definition will_set_qos_retained q r w := mkWill (will_struct_id w)
  (will_struct_version w) (topicName w) (message w) r q.
Definition will_set_topic s w := mkWill (will_struct_id w) (will_struct_version w)
  s (message w) (retained w) (will_qos w).
Definition will_set_message s w := mkWill (will_struct_id w) (will_struct_version w)
  (topicName w) s (retained w) (will_qos w).

(** The condition [if (flag)] on an integer. *)
Definition truthy (x : Z) : bool := negb (x =? 0).

Definition MQTTSerialize_connectLength (options : MQTTPacket_connectData) : outcome Z :=
  let len := if MQTTVersion options =? 3 then 12
             else if MQTTVersion options =? 4 then 10 else 0 in
  len ← int32 (len + (MQTTstrlen (clientID options) + 2));
  len ← (if truthy (willFlag options)
         then int32 (len + (MQTTstrlen (topicName (will options)) + 2
                            + MQTTstrlen (message (will options)) + 2))
         else Ok len);
  len ← (if supplied (username options)
         then int32 (len + (MQTTstrlen (username options) + 2)) else Ok len);
  if supplied (password options)
  then int32 (len + (MQTTstrlen (password options) + 2)) else Ok len.

Definition connect_flags (options : MQTTPacket_connectData) : MQTTConnectFlags :=
  let w := truthy (willFlag options) in
  mkConnectFlags
    (if supplied (username options) then 1 else 0)
    (if supplied (password options) then 1 else 0)
    (if w then retained (will options) else 0)
    (if w then will_qos (will options) else 0)
    (if w then 1 else 0)
    (cleansession options).

(** The writes of MQTTSerialize_connect, [len] being the remaining length. *)
Definition connect_writer (len : Z) (options : MQTTPacket_connectData) : writer :=
  let flags := connect_flags options in
  writeChar (header_byte (mkHeader CONNECT 0 0 0)) ;;;
  putRemLen len ;;;
  (if MQTTVersion options =? 4
   then writeCString (bytes_of_string "MQTT") ;;; writeChar 4
   else writeCString (bytes_of_string "MQIsdp") ;;; writeChar 3) ;;;
  writeChar (connect_flags_all flags) ;;;
  writeInt (keepAliveInterval options) ;;;
  writeMQTTString (clientID options) ;;;
  (if truthy (willFlag options)
   then writeMQTTString (topicName (will options)) ;;;
        writeMQTTString (message (will options))
   else wskip) ;;;
  (if truthy (cf_username flags) then writeMQTTString (username options) else wskip) ;;;
  (if truthy (cf_password flags) then writeMQTTString (password options) else wskip).

Definition MQTTSerialize_connect (buf : list Z) (buflen : Z)
    (options : MQTTPacket_connectData) : outcome (Z * list Z) :=
  len ← MQTTSerialize_connectLength options;
  plen ← MQTTPacket_len len;
  if buflen <? plen then Ok (MQTTPACKET_BUFFER_TOO_SHORT, buf) else
  '(buf, ptr) ← connect_writer len options (buf, 0);
  Ok (ptr, buf).

Definition MQTTDeserialize_connack (sessionPresent connack_rc : Z) (buf : list Z)
    (buflen : Z) : outcome (Z * Z * Z) :=
  '(b, curdata) ← readChar buf 0;
  if negb (type (header_of_byte b) =? CONNACK) then Ok (0, sessionPresent, connack_rc) else
  '(rc, mylen) ← MQTTPacket_decodeBuf buf curdata;
  let curdata := curdata + rc in
  let enddata := curdata + mylen in
  if enddata - curdata <? 2 then Ok (rc, sessionPresent, connack_rc) else
  '(b, curdata) ← readChar buf curdata;
  let sessionPresent := connack_sessionpresent b in
  '(connack_rc, curdata) ← readChar buf curdata;
  Ok (1, sessionPresent, connack_rc).

Definition MQTTSerialize_zero (buf : list Z) (buflen packettype : Z)
    : outcome (Z * list Z) :=
  if buflen <? 2 then Ok (MQTTPACKET_BUFFER_TOO_SHORT, buf) else
  '(buf, ptr) ←
    (writeChar (header_byte (mkHeader packettype 0 0 0)) ;;; putRemLen 0) (buf, 0);
  Ok (ptr, buf).

Definition MQTTSerialize_disconnect (buf : list Z) (buflen : Z) : outcome (Z * list Z) :=
  MQTTSerialize_zero buf buflen DISCONNECT.

Definition MQTTSerialize_pingreq (buf : list Z) (buflen : Z) : outcome (Z * list Z) :=
  MQTTSerialize_zero buf buflen PINGREQ.

(** * Server side *)

(** [memcmp(a, b, n) == 0] *)
Definition memcmp_eq (a b : list Z) (n : Z) : outcome bool :=
  x ← rd_bytes a 0 n;
  y ← rd_bytes b 0 n;
  Ok (bool_decide (x = y)).

Definition MQTTPacket_checkVersion (protocol : MQTTString) (version : Z) : outcome Z :=
  data ← deref (lenstring_data protocol);
  let len := lenstring_len protocol in
  r3 ← (if version =? 3
        then memcmp_eq data (bytes_of_string "MQIdsp") (Z.min 6 len) else Ok false);
  if (r3 : bool) then Ok 1 else
  r4 ← (if version =? 4
        then memcmp_eq data (bytes_of_string "MQTT") (Z.min 4 len) else Ok false);
  Ok (if (r4 : bool) then 1 else 0).

(** The tail of MQTTDeserialize_connect from the flags byte on, the steps of
    one [goto exit] chain each. *)
Definition deserialize_connect_will (buf : list Z) (enddata : Z)
    (flags : MQTTConnectFlags) (data : MQTTPacket_connectData) (curdata : Z)
    : outcome (bool * MQTTPacket_connectData * Z) :=
  if truthy (cf_will flags) then
    let w := will_set_qos_retained (cf_willQoS flags) (cf_willRetain flags) (will data) in
    '(rc, s, curdata) ← readMQTTLenString buf (topicName w) curdata enddata;
    let w := will_set_topic s w in
    if rc =? 0 then Ok (false, set_will 1 w data, curdata) else
    '(rc, s, curdata) ← readMQTTLenString buf (message w) curdata enddata;
    let w := will_set_message s w in
    Ok (truthy rc, set_will 1 w data, curdata)
  else Ok (true, data, curdata).

Definition deserialize_connect_user (buf : list Z) (enddata : Z)
    (flags : MQTTConnectFlags) (data : MQTTPacket_connectData) (curdata : Z)
    : outcome (bool * MQTTPacket_connectData) :=
  if truthy (cf_username flags) then
    if enddata - curdata <? 3 then Ok (false, data) else
    '(rc, s, curdata) ← readMQTTLenString buf (username data) curdata enddata;
    let data := set_username s data in
    if rc =? 0 then Ok (false, data) else
    if truthy (cf_password flags) then
      if enddata - curdata <? 3 then Ok (false, data) else
      '(rc, s, curdata) ← readMQTTLenString buf (password data) curdata enddata;
      Ok (truthy rc, set_password s data)
    else Ok (true, data)
  else Ok (negb (truthy (cf_password flags)), data).

Definition deserialize_connect_payload (buf : list Z) (enddata : Z)
    (data : MQTTPacket_connectData) (curdata : Z) : outcome (Z * MQTTPacket_connectData) :=
  '(b, curdata) ← readChar buf curdata;
  let flags := connect_flags_of b in
  let data := set_session (cf_cleansession flags) (keepAliveInterval data) data in
  '(ka, curdata) ← readInt buf curdata;
  let data := set_session (cleansession data) (u16 ka) data in
  '(rc, s, curdata) ← readMQTTLenString buf (clientID data) curdata enddata;
  let data := set_clientID s data in
  if rc =? 0 then Ok (0, data) else
  '(ok, data, curdata) ← deserialize_connect_will buf enddata flags data curdata;
  if negb ok then Ok (0, data) else
  '(ok, data) ← deserialize_connect_user buf enddata flags data curdata;
  Ok (if (ok : bool) then 1 else 0, data).

Definition MQTTDeserialize_connect (data : MQTTPacket_connectData) (buf : list Z)
    (len : Z) : outcome (Z * MQTTPacket_connectData) :=
  let enddata := len in
  '(b, curdata) ← readChar buf 0;
  if negb (type (header_of_byte b) =? CONNECT) then Ok (0, data) else
  '(n, mylen) ← MQTTPacket_decodeBuf buf curdata;
  let curdata := curdata + n in
  '(rc, Protocol, curdata) ← readMQTTLenString buf MQTTString_initializer curdata enddata;
  if (rc =? 0) || (enddata - curdata <? 0) then Ok (0, data) else
  '(version, curdata) ← readChar buf curdata;
  ok ← MQTTPacket_checkVersion Protocol version;
  if ok =? 0 then Ok (0, data) else
  deserialize_connect_payload buf enddata data curdata.

Definition MQTTSerialize_connack (buf : list Z) (buflen connack_rc sessionPresent : Z)
    : outcome (Z * list Z) :=
  if buflen <? 2 then Ok (MQTTPACKET_BUFFER_TOO_SHORT, buf) else
  '(buf, ptr) ←
    (writeChar (header_byte (mkHeader CONNACK 0 0 0)) ;;;
     putRemLen 2 ;;;
     writeChar (connack_flags_all sessionPresent) ;;;
     writeChar connack_rc) (buf, 0);
  Ok (ptr, buf).

Arguments connect_flags_all : simpl never.
Arguments connect_flags_of : simpl never.
Arguments connack_flags_all : simpl never.
Arguments connack_sessionpresent : simpl never.

(** * Specification: the CONNECT packet of MQTT 3.1.1, section 3.1 *)

Record connect_packet := ConnectPacket {
  cp_client : list Z;
  cp_keepalive : Z;
  cp_clean : bool;
  cp_will : option (list Z * list Z * Z * bool); (* topic, message, QoS, retain *)
  cp_user : option (list Z);
  cp_pass : option (list Z) }.

Definition opt_str (s : option (list Z)) : list Z := from_option str_bytes [] s.
Definition opt_flag {A} (s : option A) : Z := match s with Some _ => 1 | None => 0 end.
Definition b2z (b : bool) : Z := if b then 1 else 0.

Definition connect_flag_bits (cp : connect_packet) : MQTTConnectFlags :=
  let '(q, r) := match cp_will cp with Some (_, _, q, r) => (q, r) | None => (0, false) end in
  mkConnectFlags (opt_flag (cp_user cp)) (opt_flag (cp_pass cp)) (b2z r) q
    (opt_flag (cp_will cp)) (b2z (cp_clean cp)).

Definition connect_body (name : list Z) (level : Z) (cp : connect_packet) : list Z :=
  str_bytes name ++ [level] ++ [connect_flags_all (connect_flag_bits cp)] ++
  int_bytes (cp_keepalive cp) ++ str_bytes (cp_client cp) ++
  match cp_will cp with
  | Some (t, m, _, _) => str_bytes t ++ str_bytes m
  | None => []
  end ++ opt_str (cp_user cp) ++ opt_str (cp_pass cp).

Definition connect_bytes (name : list Z) (level : Z) (cp : connect_packet) : list Z :=
  let body := connect_body name level cp in
  16 :: remlen_bytes (zlen body) ++ body.

(** The options structure [o] describes the packet [cp]. *)
Record represents (o : MQTTPacket_connectData) (cp : connect_packet) : Prop := {
  rep_client : denotes (clientID o) (cp_client cp);
  rep_keepalive : keepAliveInterval o = cp_keepalive cp;
  rep_clean : cleansession o = b2z (cp_clean cp);
  rep_willFlag : truthy (willFlag o) = bool_decide (is_Some (cp_will cp));
  rep_will : ∀ t m q r, cp_will cp = Some (t, m, q, r) →
    denotes (topicName (will o)) t ∧ denotes (message (will o)) m ∧
    will_qos (will o) = q ∧ retained (will o) = b2z r;
  rep_user : denotes_opt (username o) (cp_user cp);
  rep_pass : denotes_opt (password o) (cp_pass cp) }.

Lemma emits_opt s bs (c : bool) : denotes_opt s bs → c = supplied s →
  emits (if c then writeMQTTString s else wskip) (opt_str bs).
Proof.
  unfold denotes_opt. intros Hd ->. destruct bs as [bs|]; simpl.
  - destruct Hd as [-> Hd]. by apply emits_denotes.
  - rewrite Hd. apply emits_skip.
Qed.

Lemma connect_flags_range f : is_u8 (connect_flags_all f).
Proof.
  unfold connect_flags_all, is_u8. change 256 with (2 ^ 8).
  repeat apply lor_range; try apply field_range; lia.
Qed.

Lemma represents_flags o cp :
  represents o cp → connect_flags o = connect_flag_bits cp.
Proof.
  intros [? ? Hclean Hwf Hw Hu Hp]. unfold connect_flags, connect_flag_bits.
  rewrite Hwf, Hclean.
  assert (∀ s bs, denotes_opt s bs → (if supplied s then 1 else 0) = opt_flag bs) as Ho.
  { intros s [bs|]; simpl; [by intros [-> _]|by intros ->]. }
  rewrite (Ho _ _ Hu), (Ho _ _ Hp).
  destruct (cp_will cp) as [[[[t m] q] r]|]; simpl; [|done].
  destruct (Hw t m q r eq_refl) as (_ & _ & -> & ->). done.
Qed.

Definition protocol_name (version : Z) : list Z :=
  if version =? 4 then bytes_of_string "MQTT" else bytes_of_string "MQIsdp".

Section serialize_connect.
Context (o : MQTTPacket_connectData) (cp : connect_packet).
Context (Hrep : represents o cp).
Context (Hv : MQTTVersion o = 3 ∨ MQTTVersion o = 4).
Let body := connect_body (protocol_name (MQTTVersion o)) (MQTTVersion o) cp.
Context (Hlen : zlen body < 2 ^ 28).

Lemma zlen_connect_body :
  zlen body = (if MQTTVersion o =? 3 then 12 else 10) + (zlen (cp_client cp) + 2)
    + match cp_will cp with Some (t, m, _, _) => zlen t + 2 + zlen m + 2 | None => 0 end
    + match cp_user cp with Some u => zlen u + 2 | None => 0 end
    + match cp_pass cp with Some u => zlen u + 2 | None => 0 end.
Proof.
  unfold body, connect_body, opt_str, protocol_name.
  rewrite !zlen_app, !zlen_str_bytes.
  assert (zlen (if MQTTVersion o =? 4 then bytes_of_string "MQTT" else bytes_of_string "MQIsdp")
    = (if MQTTVersion o =? 3 then 12 else 10) - 6) as ->
    by (destruct Hv as [-> | ->]; done).
  rewrite !zlen_cons, !zlen_nil, zlen_int_bytes.
  destruct (cp_will cp) as [[[[t m] q] r]|], (cp_user cp), (cp_pass cp);
    simpl; autorewrite with zlen; lia.
Qed.

Lemma connectLength_rep : MQTTSerialize_connectLength o = Ok (zlen body).
Proof.
  pose proof zlen_connect_body as Hb. destruct Hrep as [Hc _ _ Hwf Hw Hu Hp].
  unfold MQTTSerialize_connectLength. rewrite (denotes_strlen _ _ Hc), Hwf.
  pose proof (zlen_nonneg (cp_client cp)).
  assert ((if MQTTVersion o =? 3 then 12 else if MQTTVersion o =? 4 then 10 else 0)
    = (if MQTTVersion o =? 3 then 12 else 10)) as -> by (destruct Hv as [-> | ->]; done).
  assert (0 ≤ (if MQTTVersion o =? 3 then 12 else 10)) by (destruct Hv as [-> | ->]; done).
  assert (∀ s bs, denotes_opt s bs →
    match bs with Some u => supplied s = true ∧ MQTTstrlen s = zlen u ∧ 0 ≤ zlen u
             | None => supplied s = false end) as Ho.
  { intros s [bs|]; simpl; [|done]. intros [-> Hd].
    pose proof (zlen_nonneg bs). by rewrite (denotes_strlen _ _ Hd). }
  apply Ho in Hu. apply Ho in Hp.
  destruct (cp_will cp) as [[[[t m] q] r]|], (cp_user cp) as [u|], (cp_pass cp) as [pw|];
    repeat match goal with
    | H : _ ∧ _ |- _ => destruct H
    | H : supplied _ = _ |- _ => rewrite H; clear H
    | H : MQTTstrlen _ = _ |- _ => rewrite H; clear H
    | H : ∀ t m q r, Some _ = Some _ → _ |- _ => specialize (H _ _ _ _ eq_refl)
    | H : denotes _ _ |- _ => rewrite ?(denotes_strlen _ _ H); clear H
    | |- context [zlen ?x] => 
      lazymatch goal with H : 0 ≤ zlen x |- _ => fail | _ => pose proof (zlen_nonneg x) end
    end; simpl in Hb |- *;
    repeat (rewrite int32_Ok by (unfold INT_MIN, INT_MAX; lia); simpl);
    f_equal; lia.
Qed.
End serialize_connect.

Lemma emits_protocol v : v = 3 ∨ v = 4 →
  emits (if v =? 4 then writeCString (bytes_of_string "MQTT") ;;; writeChar 4
         else writeCString (bytes_of_string "MQIsdp") ;;; writeChar 3)
    (str_bytes (protocol_name v) ++ [v]).
Proof.
  intros [-> | ->].
  - exact (emits_seq _ _ _ _ (emits_writeCString _) (emits_writeChar 3 ltac:(done))).
  - exact (emits_seq _ _ _ _ (emits_writeCString _) (emits_writeChar 4 ltac:(done))).
Qed.

Lemma emits_connect o cp len :
  represents o cp → MQTTVersion o = 3 ∨ MQTTVersion o = 4 →
  let body := connect_body (protocol_name (MQTTVersion o)) (MQTTVersion o) cp in
  len = zlen body → zlen body < 2 ^ 28 →
  emits (connect_writer len o)
    (connect_bytes (protocol_name (MQTTVersion o)) (MQTTVersion o) cp).
Proof.
  intros Hrep Hv body -> Hlen. pose proof (zlen_nonneg body).
  unfold connect_writer, connect_bytes. fold body.
  rewrite (represents_flags o cp Hrep).
  eapply (emits_seq_eq _ _ [16]); [apply (emits_writeChar 16); done| |done].
  eapply emits_seq; [apply emits_putRemLen; lia|].
  unfold body, connect_body. rewrite (app_assoc (str_bytes _)).
  eapply emits_seq; [by apply emits_protocol|].
  eapply emits_seq; [apply emits_writeChar, connect_flags_range|].
  eapply emits_seq; [rewrite (rep_keepalive _ _ Hrep); apply emits_writeInt|].
  eapply emits_seq; [apply emits_denotes, Hrep|].
  eapply emits_seq; [|rewrite <-(represents_flags o cp Hrep);
    apply emits_seq; (apply emits_opt; [apply Hrep|]); cbn; by case_match].
  rewrite (rep_willFlag _ _ Hrep).
  destruct (cp_will cp) as [[[[t m] q] r]|] eqn:Hw; cbn; [|apply emits_skip].
  destruct (rep_will _ _ Hrep _ _ _ _ Hw) as (? & ? & _).
  apply emits_seq; by apply emits_denotes.
Qed.

Lemma serialize_connect_lemma o cp buf buflen :
  represents o cp → MQTTVersion o = 3 ∨ MQTTVersion o = 4 →
  let body := connect_body (protocol_name (MQTTVersion o)) (MQTTVersion o) cp in
  let pkt := connect_bytes (protocol_name (MQTTVersion o)) (MQTTVersion o) cp in
  zlen body < 2 ^ 28 →
  ∃ plen, zlen pkt ≤ plen ≤ zlen pkt + 1 ∧
    serialized (MQTTSerialize_connect buf buflen o) buf buflen plen pkt.
Proof.
  intros Hrep Hv body pkt Hlen. unfold MQTTSerialize_connect.
  rewrite (connectLength_rep o cp Hrep Hv Hlen), bind_Ok.
  by apply serialized_lemma; [|apply emits_connect].
Qed.

(** * Reading a CONNECT packet back *)

(** The values fit their fields: strings the two-byte length, the keep-alive 16
    bits, the will QoS two. *)
Definition wf_connect (cp : connect_packet) : Prop :=
  zlen (cp_client cp) < 65536 ∧ is_u16 (cp_keepalive cp) ∧
  match cp_will cp with
  | Some (t, m, q, _) => zlen t < 65536 ∧ zlen m < 65536 ∧ 0 ≤ q < 4
  | None => True
  end ∧
  zlen (default [] (cp_user cp)) < 65536 ∧ zlen (default [] (cp_pass cp)) < 65536.

(** The packets MQTTDeserialize_connect accepts: a password comes with a user
    name, and the credential that ends the packet is not empty. *)
Definition server_accepts (cp : connect_packet) : bool :=
  match cp_user cp, cp_pass cp with
  | None, None => true
  | None, Some _ => false
  | Some u, None => 0 <? zlen u
  | Some _, Some p => 0 <? zlen p
  end.

Lemma connect_flags_roundtrip cp : wf_connect cp →
  connect_flags_of (connect_flags_all (connect_flag_bits cp)) = connect_flag_bits cp.
Proof.
  intros (_ & _ & Hw & _). unfold connect_flag_bits.
  assert (∀ u p r q w c : Z, 0 ≤ u < 2 → 0 ≤ p < 2 → 0 ≤ r < 2 → 0 ≤ q < 4 → 0 ≤ w < 2 →
    0 ≤ c < 2 → connect_flags_of (connect_flags_all (mkConnectFlags u p r q w c))
      = mkConnectFlags u p r q w c) as H.
  { intros u p r q w c ??????.
    assert (u = 0 ∨ u = 1) as [-> | ->] by lia;
    assert (p = 0 ∨ p = 1) as [-> | ->] by lia;
    assert (r = 0 ∨ r = 1) as [-> | ->] by lia;
    assert (w = 0 ∨ w = 1) as [-> | ->] by lia;
    assert (c = 0 ∨ c = 1) as [-> | ->] by lia;
    assert (q = 0 ∨ q = 1 ∨ q = 2 ∨ q = 3) as [-> | [-> | [-> | ->]]] by lia;
      reflexivity. }
  destruct cp as [cl ka clean wl us pw]. cbn in *.
  destruct wl as [[[[t m] q] r]|]; apply H;
    unfold b2z, opt_flag; repeat case_match; lia.
Qed.

Definition will_body (cp : connect_packet) : list Z :=
  match cp_will cp with
  | Some (t, m, _, _) => str_bytes t ++ str_bytes m
  | None => []
  end.

Section deserialize_connect.
Context (m : list Z) (enddata : Z) (cp : connect_packet) (Hwf : wf_connect cp).
Let flags := connect_flag_bits cp.

Lemma deserialize_will_lemma data p a :
  has m p (will_body cp ++ a) → p + zlen (will_body cp ++ a) = enddata →
  ∃ w fl, deserialize_connect_will m enddata flags data p
      = Ok (true, set_will fl w data, p + zlen (will_body cp))
    ∧ (match cp_will cp with
       | Some (t, ms, q, r) => truthy fl = true ∧ denotes (topicName w) t ∧
           denotes (message w) ms ∧ will_qos w = q ∧ retained w = b2z r
       | None => fl = willFlag data ∧ w = will data end).
Proof.
  destruct Hwf as (_ & _ & Hw & _).
  unfold will_body, deserialize_connect_will, flags, connect_flag_bits.
  destruct (cp_will cp) as [[[[t ms] q] r]|]; cbn [cf_will opt_flag truthy Z.eqb negb].
  2:{ intros _ _. exists (will data), (willFlag data). rewrite zlen_nil, Z.add_0_r.
      split; [by destruct data|done]. }
  destruct Hw as (Ht & Hm & Hq). intros H He. autorewrite with zlen in He.
  rewrite <-app_assoc in H.
  destruct (read_str m (topicName (will_set_qos_retained q (b2z r) (will data))) p t
    (str_bytes ms ++ a) enddata Ht H) as (s1 & Hr1 & Hd1 & H1);
    [autorewrite with zlen; lia|].
  destruct (read_str m (message (will_set_topic s1 (will_set_qos_retained q (b2z r)
    (will data)))) _ ms a enddata Hm H1) as (s2 & Hr2 & Hd2 & _); [lia|].
  cbn in *. rewrite Hr1. cbn. rewrite Hr2. cbn. eexists _, _. split.
  - do 2 f_equal. autorewrite with zlen. lia.
  - destruct Hd1 as [_ ?], Hd2 as [_ ?]. by split_and!.
Qed.

Lemma flags_user : truthy (cf_username flags) = bool_decide (is_Some (cp_user cp)).
Proof. unfold flags, connect_flag_bits. by destruct (cp_will cp) as [[[[? ?] ?] ?]|], (cp_user cp). Qed.
Lemma flags_pass : truthy (cf_password flags) = bool_decide (is_Some (cp_pass cp)).
Proof. unfold flags, connect_flag_bits. by destruct (cp_will cp) as [[[[? ?] ?] ?]|], (cp_pass cp). Qed.

Lemma deserialize_user_lemma data p :
  has m p (opt_str (cp_user cp) ++ opt_str (cp_pass cp)) →
  p + zlen (opt_str (cp_user cp) ++ opt_str (cp_pass cp)) = enddata →
  username data = MQTTString_initializer → password data = MQTTString_initializer →
  ∃ u pw, deserialize_connect_user m enddata flags data p
      = Ok (server_accepts cp, set_password pw (set_username u data))
    ∧ (server_accepts cp = true → denotes_opt u (cp_user cp) ∧ denotes_opt pw (cp_pass cp)).
Proof.
  destruct Hwf as (_ & _ & _ & Hu & Hpw). intros H He Hu0 Hp0.
  assert (set_password (password data) (set_username (username data) data) = data) as Hid by (by destruct data).
  unfold deserialize_connect_user, server_accepts. rewrite flags_user, flags_pass.
  destruct (cp_user cp) as [u|]; cbn in *.
  2:{ exists (username data), (password data). rewrite Hid, Hu0, Hp0. by destruct (cp_pass cp). }
  pose proof (zlen_nonneg u). rewrite zlen_app, zlen_str_bytes in He.
  destruct (cp_pass cp) as [pw|]; cbn in *.
  - rewrite zlen_str_bytes in He. pose proof (zlen_nonneg pw). rewrite (proj2 (Z.ltb_ge _ 3)) by lia.
    destruct (read_str m (username data) p u (str_bytes pw) enddata)
      as (s & Hr & Hd & H2); [lia|done|autorewrite with zlen; lia|].
    rewrite Hr. cbn. replace (enddata - (p + (zlen u + 2))) with (zlen pw + 2) by lia.
    destruct (Z.ltb_spec 0 (zlen pw)).
    2:{ rewrite (proj2 (Z.ltb_lt _ 3)) by lia. exists s, (password data). split; [by destruct data|done]. }
    rewrite (proj2 (Z.ltb_ge _ 3)) by lia.
    rewrite <-(app_nil_r (str_bytes pw)) in H2.
    destruct (read_str m (password data) _ pw [] enddata Hpw H2)
      as (s' & Hr' & Hd' & _); [rewrite zlen_nil; lia|].
    rewrite Hr'. by exists s, s'.
  - rewrite zlen_nil in He. destruct (Z.ltb_spec 0 (zlen u)).
    2:{ rewrite (proj2 (Z.ltb_lt _ 3)) by lia. exists (username data), (password data). by rewrite Hid. }
    rewrite (proj2 (Z.ltb_ge _ 3)) by lia.
    destruct (read_str m (username data) p u [] enddata)
      as (s & Hr & Hd & _); [lia|done|autorewrite with zlen; lia|].
    rewrite Hr. cbn. exists s, (password data). rewrite Hp0.
    split; [|done]. destruct data. cbn in *. by subst.
Qed.
End deserialize_connect.

Lemma checkVersion_name v data : v = 3 ∨ v = 4 →
  lenstring_len data = zlen (protocol_name v) →
  (∃ rest, lenstring_data data = Some (protocol_name v ++ rest)) →
  MQTTPacket_checkVersion data v = Ok (if v =? 4 then 1 else 0).
Proof.
  intros Hv Hl (rest & Hd). unfold MQTTPacket_checkVersion. rewrite Hl, Hd. cbn.
  assert (∀ l k, rd_bytes (l ++ k) 0 (zlen l) = Ok l) as Hrd.
  { intros l k. apply rd_bytes_has; [apply has_whole|apply zlen_nonneg]. }
  unfold memcmp_eq.
  destruct Hv as [-> | ->]; cbn [Z.eqb]; unfold protocol_name; cbn [Z.eqb Pos.eqb].
  - change (Z.min 6 _) with (zlen (bytes_of_string "MQIsdp")). by rewrite Hrd.
  - change (Z.min 4 _) with (zlen (bytes_of_string "MQTT")). by rewrite Hrd.
Qed.

Lemma protocol_name_zlen v : v = 3 ∨ v = 4 → 0 ≤ zlen (protocol_name v) < 65536.
Proof. by intros [-> | ->]. Qed.

Lemma wf_body_len v cp : v = 3 ∨ v = 4 → wf_connect cp →
  zlen (connect_body (protocol_name v) v cp) < 2 ^ 28.
Proof.
  intros Hv (Hc & _ & Hw & Hu & Hpw). pose proof (protocol_name_zlen v Hv).
  unfold connect_body, opt_str.
  destruct (cp_will cp) as [[[[t m] q] r]|], (cp_user cp), (cp_pass cp); try done;
    cbn in *; autorewrite with zlen; lia.
Qed.

(** The bytes after the protocol level. *)
Definition connect_payload (cp : connect_packet) : list Z :=
  [connect_flags_all (connect_flag_bits cp)] ++
  int_bytes (cp_keepalive cp) ++ str_bytes (cp_client cp) ++ will_body cp
  ++ opt_str (cp_user cp) ++ opt_str (cp_pass cp).

Lemma deserialize_payload_lemma cp m data p enddata :
  wf_connect cp →
  username data = MQTTString_initializer → password data = MQTTString_initializer →
  willFlag data = 0 →
  has m p (connect_payload cp) → p + zlen (connect_payload cp) = enddata →
  ∃ d, deserialize_connect_payload m enddata data p = Ok (b2z (server_accepts cp), d) ∧
    (server_accepts cp = true → represents d cp).
Proof.
  intros Hwf Hu0 Hp0 Hw0 H He.
  pose proof (zlen_nonneg (will_body cp)).
  pose proof (zlen_nonneg (opt_str (cp_user cp) ++ opt_str (cp_pass cp))).
  unfold connect_payload in *. rewrite !zlen_app in He.
  unfold deserialize_connect_payload. rewrite (readChar_has _ _ _ _ H), bind_Ok.
  rewrite (connect_flags_roundtrip cp Hwf).
  apply has_cons in H as [_ H]. cbn [app] in H.
  pose proof Hwf as (Hc & Hka & _).
  rewrite (readInt_has _ _ _ _ Hka H), bind_Ok.
  apply has_app in H as [_ H]. rewrite zlen_int_bytes in H.
  rewrite zlen_str_bytes, zlen_int_bytes in He. change (zlen [_]) with 1 in He.
  edestruct (read_str m (clientID data) (p + 1 + 2) _ _ enddata Hc H)
    as (s & Hr & Hd & H3); [rewrite !zlen_app; lia|].
  clear H. cbn in Hr |- *. rewrite Hr. cbn.
  edestruct (deserialize_will_lemma m enddata cp Hwf) as (w & fl & Hdw & Hw);
   [exact H3|rewrite !zlen_app in *; lia|].
  rewrite Hdw. cbn.
  apply has_app in H3 as [_ H3].
  match goal with |- context [deserialize_connect_user _ _ _ ?d _] =>
    destruct (deserialize_user_lemma m enddata cp Hwf d _ H3) as (u & pw & Hdu & Hup)
  end; [rewrite !zlen_app in *; lia|done..|].
  rewrite Hdu. cbn. eexists. split; [by destruct (server_accepts cp)|].
  intros [Hu Hpw]%Hup. split; cbn; try done.
  - by destruct Hd.
  - by rewrite u16_id.
  - unfold connect_flag_bits. by destruct (cp_will cp) as [[[[? ?] ?] ?]|].
  - destruct (cp_will cp) as [[[[? ?] ?] ?]|]; destruct Hw as [-> _]; [done|].
    cbn. by rewrite Hw0.
  - intros t ms q r Heq. rewrite Heq in Hw. tauto.
Qed.

(** MQTTDeserialize_connect on the bytes of a packet. *)
Lemma deserialize_connect_lemma v cp m data a :
  v = 3 ∨ v = 4 → wf_connect cp →
  let pkt := connect_bytes (protocol_name v) v cp in
  has m 0 (pkt ++ a) →
  MQTTDeserialize_connect data m (zlen pkt)
  = if v =? 4 then deserialize_connect_payload m (zlen pkt) data
                     (zlen pkt - zlen (connect_payload cp))
    else Ok (0, data).
Proof.
  intros Hv Hwf pkt H. set (body := connect_body (protocol_name v) v cp) in *.
  pose proof (wf_body_len v cp Hv Hwf) as Hbl. fold body in Hbl.
  pose proof (zlen_nonneg body). pose proof (zlen_nonneg (connect_payload cp)).
  pose proof (protocol_name_zlen v Hv) as [Hn0 Hn].
  assert (zlen pkt = 1 + zlen (remlen_bytes (zlen body)) + zlen body) as Hz
    by (unfold pkt, connect_bytes; fold body; autorewrite with zlen; lia).
  assert (body = str_bytes (protocol_name v) ++ v :: connect_payload cp) as Hbody by done.
  assert (zlen body = zlen (protocol_name v) + 2 + (1 + zlen (connect_payload cp))) as Hzb
    by (rewrite Hbody; autorewrite with zlen; lia).
  unfold pkt, connect_bytes in H. fold body in H. rewrite <-app_comm_cons in H.
  unfold MQTTDeserialize_connect. rewrite (readChar_has _ _ _ _ H), bind_Ok.
  change (negb _) with false at 1. cbn [negb].
  apply has_cons in H as [_ H]. rewrite <-app_assoc in H.
  rewrite (decodeBuf_remlen _ _ _ _ (conj (zlen_nonneg body) Hbl) H), bind_Ok.
  apply has_app in H as [_ H]. set (p := 0 + 1 + zlen (remlen_bytes (zlen body))) in *.
  rewrite Hbody, <-app_assoc in H.
  rewrite (readMQTTLenString_has _ _ _ _ _ _ Hn H), bind_Ok by lia.
  destruct (denotes_read _ _ _ _ H) as [[? _]|(_ & Hl & Hd)]; [done|].
  apply has_app in H as [_ H]. rewrite zlen_str_bytes in H.
  rewrite (proj2 (Z.ltb_ge _ 0)) by lia. rewrite <-app_comm_cons in H.
  replace (p + (zlen (protocol_name v) + 2)) with (p + 2 + zlen (protocol_name v)) in H by lia.
  cbn [Z.eqb orb]. rewrite (readChar_has _ _ _ _ H), bind_Ok.
  rewrite (checkVersion_name v _ Hv Hl Hd), bind_Ok.
  destruct Hv as [-> | ->]; [done|]. cbn [Z.eqb Pos.eqb]. f_equal. lia.
Qed.

(** The packet MQTTSerialize_connect wrote, as the reader finds it. *)
Lemma serialize_connect_has o cp buf buflen r buf' :
  represents o cp → wf_connect cp → MQTTVersion o = 3 ∨ MQTTVersion o = 4 →
  let pkt := connect_bytes (protocol_name (MQTTVersion o)) (MQTTVersion o) cp in
  MQTTSerialize_connect buf buflen o = Ok (r, buf') → 0 < r →
  r = zlen pkt ∧ has buf' 0 (pkt ++ []).
Proof.
  intros Hrep Hwf Hv pkt Hser Hr.
  destruct (serialize_connect_lemma o cp buf buflen Hrep Hv (wf_body_len _ _ Hv Hwf))
    as (plen & _ & Hs). by eapply serialized_has.
Qed.

Lemma deserialize_payload_at cp m pkt pre :
  wf_connect cp → pkt = pre ++ connect_payload cp → has m 0 (pkt ++ []) →
  ∃ d, deserialize_connect_payload m (zlen pkt) MQTTPacket_connectData_initializer
         (zlen pkt - zlen (connect_payload cp)) = Ok (b2z (server_accepts cp), d) ∧
    (server_accepts cp = true → represents d cp).
Proof.
  intros Hwf -> H. rewrite app_nil_r in H. apply has_app in H as [_ H].
  apply deserialize_payload_lemma; [done..| |lia].
  rewrite zlen_app. by replace (_ - _) with (0 + zlen pre) by lia.
Qed.

Lemma connect_bytes_payload v cp :
  ∃ pre, connect_bytes (protocol_name v) v cp = pre ++ connect_payload cp.
Proof.
  unfold connect_bytes. set (r := remlen_bytes _).
  exists (16 :: r ++ str_bytes (protocol_name v) ++ [v]).
  unfold connect_body, connect_payload, will_body. by rewrite <-!app_comm_cons, <-!app_assoc.
Qed.

Lemma emits_connack rc sp : is_u8 rc →
  emits (writeChar 32 ;;; putRemLen 2 ;;; writeChar (connack_flags_all sp) ;;; writeChar rc)
    [32; 2; connack_flags_all sp; rc].
Proof.
  intros Hrc. apply emits_short_packet; [done..|].
  eapply (emits_seq _ _ [_] [_]); [|by apply emits_writeChar].
  apply emits_writeChar. unfold connack_flags_all, is_u8.
  apply (field_range 8); lia.
Qed.

(** * Correctness *)

(** MQTTSerialize_connect writes exactly the CONNECT packet of MQTT 3.1.1
    (3.1 with its protocol name) that the options describe, nothing past it,
    whenever [buflen] reaches the packet's length (one more at the boundary
    lengths of MQTTPacket_len); it refuses smaller buffers with
    MQTTPACKET_BUFFER_TOO_SHORT and leaves them unchanged. *)
Theorem MQTTSerialize_connect_spec o cp buf buflen :
  represents o cp → MQTTVersion o = 3 ∨ MQTTVersion o = 4 →
  let pkt := connect_bytes (protocol_name (MQTTVersion o)) (MQTTVersion o) cp in
  zlen (connect_body (protocol_name (MQTTVersion o)) (MQTTVersion o) cp) < 2 ^ 28 →
  buflen ≤ zlen buf →
  ∃ plen, zlen pkt ≤ plen ≤ zlen pkt + 1 ∧
    MQTTSerialize_connect buf buflen o
    = if buflen <? plen then Ok (MQTTPACKET_BUFFER_TOO_SHORT, buf)
      else Ok (zlen pkt, splice buf 0 pkt).
Proof.
  intros Hrep Hv pkt Hlen Hbuf.
  destruct (serialize_connect_lemma o cp buf buflen Hrep Hv Hlen) as (plen & Hp & Hs).
  exists plen. split; [done|]. apply (serialized_in_bounds _ _ _ _ _ Hs); [apply Hp|done].
Qed.

(** Options and packet of the examples: client id [a], will, user name. *)
Definition sample_options (v : Z) : MQTTPacket_connectData :=
  mkConnectData (bytes_of_string "MQTC") 0 v (mkMQTTString (Some [97]) 0 None) 60 1 1
    (mkWill (bytes_of_string "MQTW") 0 (mkMQTTString (Some [116]) 0 None)
       (mkMQTTString None 2 (Some [104; 105; 33])) 1 2)
    (mkMQTTString (Some [117]) 0 None) MQTTString_initializer.
Definition sample_packet : connect_packet :=
  ConnectPacket [97] 60 true (Some ([116], [104; 105], 2, true)) (Some [117]) None.

Lemma sample_represents v : represents (sample_options v) sample_packet.
Proof.
  split; cbn; try done; [by left| |by split; [done|left]].
  intros t m q r [= <- <- <- <-]. split_and!; [by left| |done..].
  right. split_and!; [done..|by exists [33]].
Qed.

Lemma sample_wf : wf_connect sample_packet.
Proof. unfold wf_connect, sample_packet, is_u16. cbn. unfold zlen. cbn. lia. Qed.

Lemma MQTTSerialize_connect_spec_witness :
  let pkt := connect_bytes (protocol_name 4) 4 sample_packet in
  ∃ plen, zlen pkt ≤ plen ≤ zlen pkt + 1 ∧
    MQTTSerialize_connect (replicate 40 0) 40 (sample_options 4)
    = if 40 <? plen then Ok (MQTTPACKET_BUFFER_TOO_SHORT, replicate 40 0)
      else Ok (zlen pkt, splice (replicate 40 0) 0 pkt).
Proof.
  apply (MQTTSerialize_connect_spec (sample_options 4) sample_packet);
    [apply sample_represents|by right|done|done].
Defined.

(** C13: what becomes of every MQTT 3.1.1 CONNECT packet written by
    MQTTSerialize_connect. MQTTDeserialize_connect accepts it and recovers the client
    id, keep-alive, clean-session flag, will and credentials, unless its last
    credential is empty or it has a password and no user name ([server_accepts]): then
    it returns 0. MQTT 3.1.1 allows an empty user name or password. *)
Theorem connect_roundtrip o cp buf buflen r buf' :
  represents o cp → wf_connect cp → MQTTVersion o = 4 →
  MQTTSerialize_connect buf buflen o = Ok (r, buf') → 0 < r →
  ∃ d, MQTTDeserialize_connect MQTTPacket_connectData_initializer buf' r = Ok (b2z (server_accepts cp), d)
    ∧ (server_accepts cp = true → represents d cp).
Proof.
  intros Hrep Hwf Hv Hser Hr.
  destruct (serialize_connect_has o cp buf buflen r buf') as [-> H]; [auto..|].
  rewrite Hv in *. destruct (connect_bytes_payload 4 cp) as [pre Hpre].
  rewrite (deserialize_connect_lemma 4 cp _ _ _ (or_intror eq_refl) Hwf H).
  by eapply deserialize_payload_at.
Qed.

Lemma connect_roundtrip_witness :
  ∃ r buf', MQTTSerialize_connect (replicate 40 0) 40 (sample_options 4) = Ok (r, buf') ∧
  ∃ d, MQTTDeserialize_connect MQTTPacket_connectData_initializer buf' r = Ok (1, d)
    ∧ (server_accepts sample_packet = true → represents d sample_packet).
Proof.
  eexists _, _. split; [vm_compute; reflexivity|].
  eapply (connect_roundtrip (sample_options 4) sample_packet (replicate 40 0) 40);
    [apply sample_represents|apply sample_wf|done|vm_compute; reflexivity|lia].
Defined.

(** An MQTT 3.1 (version 3) CONNECT packet written by MQTTSerialize_connect
    is always refused by MQTTDeserialize_connect, since MQTTPacket_checkVersion
    compares the protocol name with a misspelt constant. *)
Theorem connect_v3_rejected o cp buf buflen r buf' data :
  represents o cp → wf_connect cp → MQTTVersion o = 3 →
  MQTTSerialize_connect buf buflen o = Ok (r, buf') → 0 < r →
  MQTTDeserialize_connect data buf' r = Ok (0, data).
Proof.
  intros Hrep Hwf Hv Hser Hr.
  destruct (serialize_connect_has o cp buf buflen r buf') as [-> H]; [auto..|].
  rewrite Hv in *.
  by rewrite (deserialize_connect_lemma 3 cp _ _ _ (or_introl eq_refl) Hwf H).
Qed.

Lemma connect_v3_rejected_witness :
  ∃ r buf', MQTTSerialize_connect (replicate 40 0) 40 (sample_options 3) = Ok (r, buf') ∧
  MQTTDeserialize_connect MQTTPacket_connectData_initializer buf' r
  = Ok (0, MQTTPacket_connectData_initializer).
Proof.
  eexists _, _. split; [vm_compute; reflexivity|].
  eapply (connect_v3_rejected (sample_options 3) sample_packet (replicate 40 0) 40);
    [apply sample_represents|apply sample_wf|done|vm_compute; reflexivity|lia].
Defined.

(** MQTTSerialize_connack writes four bytes whenever [buflen] is at least
    two, so it overruns a buffer of two or three bytes; with room, the client's
    MQTTDeserialize_connack reads back the return code and the session flag. *)
Theorem MQTTSerialize_connack_spec buf buflen rc sp :
  is_u8 rc → 2 ≤ buflen →
  if zlen buf <? 4 then MQTTSerialize_connack buf buflen rc sp = Ub OutOfBounds
  else ∃ buf', MQTTSerialize_connack buf buflen rc sp = Ok (4, buf') ∧
    ∀ sp0 rc0, MQTTDeserialize_connack sp0 rc0 buf' 4 = Ok (1, Z.land sp 1, rc).
Proof.
  intros Hrc Hbuf. unfold MQTTSerialize_connack.
  rewrite (proj2 (Z.ltb_ge _ 2)) by lia.
  change (header_byte _) with 32.
  rewrite (run_emits _ _ buf (emits_connack rc sp Hrc)). change (zlen [_; _; _; _]) with 4.
  destruct (Z.ltb_spec (zlen buf) 4) as [Hz|Hz].
  { by rewrite (proj2 (Z.leb_gt _ _)) by lia. }
  rewrite (proj2 (Z.leb_le _ _)) by lia. eexists. split; [done|]. intros sp0 rc0.
  assert (has (splice buf 0 [32; 2; connack_flags_all sp; rc]) 0
    [32; 2; connack_flags_all sp; rc]) as H by (by apply has_splice).
  unfold MQTTDeserialize_connack. rewrite (readChar_has _ _ _ _ H), bind_Ok.
  apply has_cons in H as [_ H].
  change (negb _) with false at 1. rewrite (decodeBuf_short _ _ 2 _ ltac:(lia) H), bind_Ok.
  apply has_cons in H as [_ H].
  rewrite (proj2 (Z.ltb_ge _ 2)) by lia.
  rewrite (readChar_has _ _ _ _ H), bind_Ok. apply has_cons in H as [_ H].
  rewrite (readChar_has _ _ _ _ H), bind_Ok. do 3 f_equal.
  unfold connack_sessionpresent, connack_flags_all.
  assert (0 ≤ Z.land sp 1 < 2) by (rewrite (Z.land_ones _ 1) by lia; dlia).
  by assert (Z.land sp 1 = 0 ∨ Z.land sp 1 = 1) as [-> | ->] by lia.
Qed.

Lemma MQTTSerialize_connack_spec_witness :
  MQTTSerialize_connack [0; 0] 2 0 0 = Ub OutOfBounds.
Proof. apply (MQTTSerialize_connack_spec [0; 0] 2 0 0); [done|lia]. Defined.

(** A CONNACK whose remaining length is 0 or 1 carries no return code, yet
    MQTTDeserialize_connack reports success (1) and leaves the caller's session
    flag and return code as they were. *)
Theorem connack_truncated_accepted sp rc m n len :
  0 ≤ n < 2 → has m 0 [32; n] →
  MQTTDeserialize_connack sp rc m len = Ok (1, sp, rc).
Proof.
  intros Hn H. unfold MQTTDeserialize_connack. rewrite (readChar_has _ _ _ _ H), bind_Ok.
  apply has_cons in H as [_ H]. change (negb _) with false at 1.
  rewrite (decodeBuf_short _ _ n [] ltac:(lia) H), bind_Ok.
  by rewrite (proj2 (Z.ltb_lt _ 2)) by lia.
Qed.

Lemma connack_truncated_accepted_witness :
  MQTTDeserialize_connack 0 0 [32; 0] 2 = Ok (1, 0, 0).
Proof. apply (connack_truncated_accepted 0 0 [32; 0] 0 2); [lia|exact (has_whole [32; 0] [])]. Defined.
