(* ===== verification/MqttPublish.v ===== *)
(** MQTTSerializePublish.c and MQTTDeserializePublish.c: the PUBLISH packet and
    the acknowledgements PUBACK, PUBREC, PUBREL and PUBCOMP. *)
From S2P Require Export MqttWire.

Definition MQTTSerialize_publishLength (qos : Z) (topicName : MQTTString)
    (payloadlen : Z) : outcome Z :=
  len ← int32 (0 + (2 + MQTTstrlen topicName + payloadlen));
  if 0 <? qos then int32 (len + 2) else Ok len.

(** The writes of MQTTSerialize_publish; [payload] is the memory the payload
    pointer can read. *)
Definition publish_writer (rem_len dup qos retained packetid : Z)
    (topicName : MQTTString) (payload : list Z) (payloadlen : Z) : writer :=
  writeChar (header_byte (mkHeader PUBLISH dup qos retained)) ;;;
  putRemLen rem_len ;;;
  writeMQTTString topicName ;;;
  (if 0 <? qos then writeInt packetid else wskip) ;;;
  (λ s, bs ← rd_bytes payload 0 payloadlen; wcopy bs s).

Definition MQTTSerialize_publish (buf : list Z) (buflen dup qos retained packetid : Z)
    (topicName : MQTTString) (payload : list Z) (payloadlen : Z) : outcome (Z * list Z) :=
  rem_len ← MQTTSerialize_publishLength qos topicName payloadlen;
  plen ← MQTTPacket_len rem_len;
  if buflen <? plen then Ok (MQTTPACKET_BUFFER_TOO_SHORT, buf) else
  '(buf, ptr) ← publish_writer rem_len dup qos retained packetid topicName payload
                  payloadlen (buf, 0);
  Ok (ptr, buf).

Definition MQTTSerialize_ack (buf : list Z) (buflen packettype dup packetid : Z)
    : outcome (Z * list Z) :=
  if buflen <? 4 then Ok (MQTTPACKET_BUFFER_TOO_SHORT, buf) else
  '(buf, ptr) ←
    (writeChar (header_byte (mkHeader packettype dup 0 0)) ;;;
     putRemLen 2 ;;;
     writeInt packetid) (buf, 0);
  Ok (ptr, buf).

(** The arguments in the order the source passes them: [packetid] is converted
    to MQTTSerialize_ack's unsigned char parameter [dup], and the other way. *)
Definition MQTTSerialize_puback (buf : list Z) (buflen packetid : Z) : outcome (Z * list Z) :=
  MQTTSerialize_ack buf buflen PUBACK (u8 packetid) 0.

Definition MQTTSerialize_pubrel (buf : list Z) (buflen dup packetid : Z)
    : outcome (Z * list Z) :=
  MQTTSerialize_ack buf buflen PUBREL (u8 packetid) (u16 dup).

Definition MQTTSerialize_pubcomp (buf : list Z) (buflen packetid : Z) : outcome (Z * list Z) :=
  MQTTSerialize_ack buf buflen PUBCOMP (u8 packetid) 0.

(** The output parameters of MQTTDeserialize_publish. *)
Record publish_out := mkPublish {
  pub_dup : Z;
  pub_qos : Z;
  pub_retained : Z;
  pub_packetid : Z;
  pub_topicName : MQTTString;
  pub_payload : option (list Z);
  pub_payloadlen : Z }.

Definition MQTTDeserialize_publish (o : publish_out) (buf : list Z) (buflen : Z)
    : outcome (Z * publish_out) :=
  '(b, curdata) ← readChar buf 0;
  let header := header_of_byte b in
  if negb (type header =? PUBLISH) then Ok (0, o) else
  let o := mkPublish (dup header) (qos header) (retain header) (pub_packetid o)
             (pub_topicName o) (pub_payload o) (pub_payloadlen o) in
  '(rc, mylen) ← MQTTPacket_decodeBuf buf curdata;
  let curdata := curdata + rc in
  let enddata := curdata + mylen in
  '(ok, s, curdata) ← readMQTTLenString buf (pub_topicName o) curdata enddata;
  let o := mkPublish (pub_dup o) (pub_qos o) (pub_retained o) (pub_packetid o) s
             (pub_payload o) (pub_payloadlen o) in
  if (ok =? 0) || (enddata - curdata <? 0) then Ok (rc, o) else
  '(packetid, curdata) ←
    (if 0 <? pub_qos o
     then '(n, curdata) ← readInt buf curdata; Ok (u16 n, curdata)
     else Ok (pub_packetid o, curdata));
  Ok (1, mkPublish (pub_dup o) (pub_qos o) (pub_retained o) packetid (pub_topicName o)
           (Some (zdrop curdata buf)) (enddata - curdata)).

(** The result, [*packettype], [*dup] and [*packetid]. *)
Definition MQTTDeserialize_ack (packetid : Z) (buf : list Z) (buflen : Z)
    : outcome (Z * Z * Z * Z) :=
  '(b, curdata) ← readChar buf 0;
  let header := header_of_byte b in
  '(rc, mylen) ← MQTTPacket_decodeBuf buf curdata;
  let curdata := curdata + rc in
  let enddata := curdata + mylen in
  if enddata - curdata <? 2 then Ok (rc, type header, dup header, packetid) else
  '(n, curdata) ← readInt buf curdata;
  Ok (1, type header, dup header, u16 n).

(** * Specification: PUBLISH, MQTT 3.1.1 section 3.3 *)

Definition publish_body (qos packetid : Z) (topic payload : list Z) : list Z :=
  str_bytes topic ++ (if 0 <? qos then int_bytes packetid else []) ++ payload.

Definition publish_bytes (dup qos retained packetid : Z) (topic payload : list Z) : list Z :=
  let body := publish_body qos packetid topic payload in
  header_byte (mkHeader PUBLISH dup qos retained) :: remlen_bytes (zlen body) ++ body.

Lemma zlen_publish_body qos id t p :
  zlen (publish_body qos id t p) = zlen t + 2 + (if 0 <? qos then 2 else 0) + zlen p.
Proof. unfold publish_body. destruct (0 <? qos); autorewrite with zlen; lia. Qed.

Lemma emits_publish dup qos retained id s t pl rest :
  denotes s t → zlen (publish_body qos id t pl) < 2 ^ 28 →
  emits (publish_writer (zlen (publish_body qos id t pl)) dup qos retained id s
           (pl ++ rest) (zlen pl))
    (publish_bytes dup qos retained id t pl).
Proof.
  intros Hs Hlen. unfold publish_writer, publish_bytes.
  eapply (emits_seq_eq _ _ [_]); [apply emits_writeChar, header_byte_range| |done].
  eapply emits_seq; [apply emits_putRemLen; split; [apply zlen_nonneg|lia]|].
  unfold publish_body. eapply emits_seq; [by apply emits_denotes|].
  apply emits_seq; [apply emits_if; auto with emits|].
  eapply emits_ext; [|apply emits_copy]. intros st. cbn.
  rewrite (rd_bytes_has _ _ pl); [done|apply has_whole|apply zlen_nonneg].
Qed.

Lemma publishLength_ok qos id s t pl :
  denotes s t → zlen (publish_body qos id t pl) < 2 ^ 28 →
  MQTTSerialize_publishLength qos s (zlen pl) = Ok (zlen (publish_body qos id t pl)).
Proof.
  intros Hs. rewrite zlen_publish_body. intros Hlen.
  pose proof (zlen_nonneg t). pose proof (zlen_nonneg pl).
  unfold MQTTSerialize_publishLength. rewrite (denotes_strlen _ _ Hs).
  destruct (0 <? qos); rewrite int32_Ok by (unfold INT_MIN, INT_MAX; lia); rewrite bind_Ok;
    rewrite ?int32_Ok by (unfold INT_MIN, INT_MAX; lia); f_equal; lia.
Qed.

Lemma serialize_publish_lemma buf buflen dup qos retained id s t pl rest :
  denotes s t → zlen (publish_body qos id t pl) < 2 ^ 28 →
  let pkt := publish_bytes dup qos retained id t pl in
  ∃ plen, zlen pkt ≤ plen ≤ zlen pkt + 1 ∧
    serialized (MQTTSerialize_publish buf buflen dup qos retained id s (pl ++ rest) (zlen pl))
      buf buflen plen pkt.
Proof.
  intros Hs Hlen pkt. unfold MQTTSerialize_publish.
  rewrite (publishLength_ok _ id _ _ _ Hs Hlen), bind_Ok.
  by apply serialized_lemma; [|apply emits_publish].
Qed.

(** MQTTDeserialize_publish on a header byte, a remaining length and a topic:
    the state it reaches before the packet id. *)
Lemma deserialize_publish_topic o m len h n t a :
  type (header_of_byte h) = PUBLISH → 0 ≤ n < 2 ^ 28 → zlen t < 65536 → zlen t + 2 ≤ n →
  has m 0 ((h :: remlen_bytes n ++ str_bytes t) ++ a) →
  let cur := 1 + zlen (remlen_bytes n) + (zlen t + 2) in
  let q := qos (header_of_byte h) in
  has m cur a ∧ ∃ s, denotes s t ∧
    MQTTDeserialize_publish o m len
    = '(packetid, curdata) ← (if 0 <? q
        then '(i, curdata) ← readInt m cur; Ok (u16 i, curdata)
        else Ok (pub_packetid o, cur));
      Ok (1, mkPublish (dup (header_of_byte h)) q (retain (header_of_byte h)) packetid s
        (Some (zdrop curdata m)) (1 + zlen (remlen_bytes n) + n - curdata)).
Proof.
  intros Hh Hn Ht Hnt H cur q. rewrite <-app_comm_cons, <-app_assoc in H.
  pose proof (zlen_nonneg t).
  unfold MQTTDeserialize_publish. rewrite (readChar_has _ _ _ _ H), bind_Ok, Hh.
  apply has_cons in H as [_ H]. change (negb _) with false at 1.
  rewrite (decodeBuf_remlen _ _ _ _ Hn H), bind_Ok. apply has_app in H as [_ H].
  split.
  - apply has_app in H as [_ H]. by rewrite zlen_str_bytes in H.
  - eexists. split; [by eapply denotes_read|]. cbn [pub_topicName].
    rewrite (readMQTTLenString_has _ _ _ t a) by (done || lia). rewrite bind_Ok.
    rewrite (proj2 (Z.ltb_ge _ 0)) by lia. cbn [orb Z.eqb pub_qos pub_packetid pub_dup
      pub_retained pub_topicName]. fold q.
    by replace (0 + 1 + zlen (remlen_bytes n) + 2 + zlen t) with cur by (subst cur; lia).
Qed.

(** * Correctness *)

(** MQTTSerialize_publish writes exactly the PUBLISH packet of its
    arguments (packet id only for QoS above 0) whenever [buflen] allows it, and
    leaves the buffer alone otherwise; it never writes past [buflen]. *)
Theorem MQTTSerialize_publish_spec buf buflen dup qos retained id s t pl rest :
  denotes s t → zlen (publish_body qos id t pl) < 2 ^ 28 → buflen ≤ zlen buf →
  let pkt := publish_bytes dup qos retained id t pl in
  ∃ plen, zlen pkt ≤ plen ≤ zlen pkt + 1 ∧
    MQTTSerialize_publish buf buflen dup qos retained id s (pl ++ rest) (zlen pl)
    = if buflen <? plen then Ok (MQTTPACKET_BUFFER_TOO_SHORT, buf)
      else Ok (zlen pkt, splice buf 0 pkt).
Proof.
  intros Hs Hlen Hbuf pkt.
  destruct (serialize_publish_lemma buf buflen dup qos retained id s t pl rest Hs Hlen)
    as (plen & Hp & Hser).
  exists plen. split; [done|]. apply (serialized_in_bounds _ _ _ _ _ Hser); [apply Hp|done].
Qed.

Lemma MQTTSerialize_publish_spec_witness :
  let pkt := publish_bytes 0 1 0 7 [116] [1; 2] in
  ∃ plen, zlen pkt ≤ plen ≤ zlen pkt + 1 ∧
    MQTTSerialize_publish (replicate 10 0) 10 0 1 0 7 (mkMQTTString (Some [116]) 0 None)
      ([1; 2] ++ [3]) (zlen [1; 2])
    = if 10 <? plen then Ok (MQTTPACKET_BUFFER_TOO_SHORT, replicate 10 0)
      else Ok (zlen pkt, splice (replicate 10 0) 0 pkt).
Proof. apply MQTTSerialize_publish_spec; [by left|done|done]. Defined.

(** C8: what MQTTSerialize_publish wrote, MQTTDeserialize_publish reads back:
    flags, QoS, topic, payload and, above QoS 0, the packet id. *)
Theorem publish_roundtrip buf buflen dup qos retained id s t pl rest r buf' o :
  denotes s t → zlen t < 65536 → zlen (publish_body qos id t pl) < 2 ^ 28 →
  0 ≤ dup < 2 → 0 ≤ qos < 4 → 0 ≤ retained < 2 → is_u16 id →
  MQTTSerialize_publish buf buflen dup qos retained id s (pl ++ rest) (zlen pl)
    = Ok (r, buf') → 0 < r →
  ∃ s' rest', denotes s' t ∧
    MQTTDeserialize_publish o buf' r
    = Ok (1, mkPublish dup qos retained (if 0 <? qos then id else pub_packetid o) s'
            (Some (pl ++ rest')) (zlen pl)).
Proof.
  intros Hs Ht Hlen Hdup Hqos Hret Hid Hser Hr.
  destruct (serialize_publish_lemma buf buflen dup qos retained id s t pl rest Hs Hlen)
    as (plen & _ & Hs'). destruct (serialized_has _ _ _ _ _ _ _ Hs' Hser Hr) as [-> H].
  rewrite app_nil_r in H. set (n := zlen (publish_body qos id t pl)) in *.
  pose proof (header_of_byte_byte PUBLISH dup qos retained ltac:(done) Hdup Hqos Hret) as Hh.
  set (h := header_byte _) in Hh. pose proof (zlen_publish_body qos id t pl) as Hn.
  fold n in Hn. pose proof (zlen_nonneg t). pose proof (zlen_nonneg pl).
  destruct (deserialize_publish_topic o buf' (zlen (publish_bytes dup qos retained id t pl))
    h n t ((if 0 <? qos then int_bytes id else []) ++ pl)) as (Hcur & s' & Hd & ->);
    [by rewrite Hh|destruct (0 <? qos); lia|done|destruct (0 <? qos); lia| |].
  { revert H. unfold publish_bytes, publish_body. fold h n. clear.
    by rewrite <-app_comm_cons, <-app_assoc. }
  rewrite Hh. cbn [type MqttPacket.qos MqttPacket.dup retain].
  exists s'. destruct (0 <? qos).
  - rewrite (readInt_has _ _ _ _ Hid Hcur), bind_Ok, bind_Ok, u16_id by done.
    apply has_app in Hcur as [_ (_ & rest' & Hrest)]. rewrite zlen_int_bytes in Hrest.
    exists rest'. rewrite Hrest. split; [done|]. do 3 f_equal. lia.
  - rewrite bind_Ok. destruct Hcur as (_ & rest' & Hrest). exists rest'. rewrite Hrest.
    split; [done|]. do 3 f_equal. lia.
Qed.

Lemma publish_roundtrip_witness :
  ∃ r buf', MQTTSerialize_publish (replicate 12 0) 12 1 2 0 513
    (mkMQTTString (Some [116]) 0 None) ([1; 2] ++ []) (zlen [1; 2]) = Ok (r, buf') ∧
  ∃ s' rest', denotes s' [116] ∧
    MQTTDeserialize_publish (mkPublish 0 0 0 0 MQTTString_initializer None 0) buf' r
    = Ok (1, mkPublish 1 2 0 (if 0 <? 2 then 513 else 0) s'
            (Some ([1; 2] ++ rest')) (zlen [1; 2])).
Proof.
  eexists _, _. split; [vm_compute; reflexivity|].
  apply (publish_roundtrip (replicate 12 0) 12 1 2 0 513 (mkMQTTString (Some [116]) 0 None)
    [116] [1; 2] [] 9 _ (mkPublish 0 0 0 0 MQTTString_initializer None 0));
    try done; by left.
Defined.

(** C14: whatever the bytes of the buffer are, a received packet whose declared
    length (plus two bytes, for a packet id missing from it) fits the buffer is
    parsed without any access outside the buffer, and the parser terminates. *)
Theorem publish_safe o m len k n :
  bytes m → 5 ≤ zlen m → MQTTPacket_decodeBuf m 1 = Ok (k, n) → 1 + k + n + 2 ≤ zlen m →
  ∃ rc o', MQTTDeserialize_publish o m len = Ok (rc, o') ∧ 0 ≤ rc ≤ 5.
Proof.
  intros Hm Hl Hk Hn. unfold MQTTDeserialize_publish, readChar.
  destruct (rd_Ok m 0) as [h Hh]; [lia|]. rewrite Hh, !bind_Ok. rewrite Z.add_0_l.
  destruct (negb _); [by eexists _, _|]. rewrite Hk, bind_Ok.
  destruct (decodeBuf_range m 1 k n) as [Hkr Hnr]; [lia..|done|].
  match goal with |- context [readMQTTLenString _ ?s _ _] =>
    destruct (readMQTTLenString_safe m s (1 + k) (1 + k + n) Hm) as (rc & s' & p' & -> & Hp)
  end; [lia..|].
  rewrite bind_Ok. destruct Hp as [-> |[-> Hp]]; [eexists _, _; split; [done|lia]|].
  rewrite (proj2 (Z.ltb_ge _ 0)) by lia. cbn [orb Z.eqb].
  destruct (0 <? _).
  - destruct (rd_Ok m p') as [x Hx]; [lia|]. destruct (rd_Ok m (p' + 1)) as [y Hy]; [lia|].
    unfold readInt. rewrite Hx, bind_Ok, Hy, !bind_Ok. eexists _, _; split; [done|lia].
  - rewrite bind_Ok. eexists _, _; split; [done|lia].
Qed.

Lemma publish_safe_witness :
  ∃ rc o', MQTTDeserialize_publish (mkPublish 0 0 0 0 MQTTString_initializer None 0)
    [50; 3; 0; 9; 1; 0; 0] 7 = Ok (rc, o') ∧ 0 ≤ rc ≤ 5.
Proof.
  apply (publish_safe _ _ _ 1 3);
    [repeat constructor; done|done|vm_compute; reflexivity|done].
Defined.

(** A PUBLISH of QoS above 0 that ends after its topic has no packet id;
    MQTTDeserialize_publish takes the two bytes past the packet for it and
    reports success with a payload length of -2. *)
Theorem publish_missing_packetid o m h t x y len :
  type (header_of_byte h) = PUBLISH → 0 < qos (header_of_byte h) → zlen t < 65536 →
  is_u8 x → is_u8 y →
  has m 0 ((h :: remlen_bytes (zlen t + 2) ++ str_bytes t) ++ [x; y]) →
  ∃ o', MQTTDeserialize_publish o m len = Ok (1, o') ∧ pub_payloadlen o' = -2 ∧
    pub_packetid o' = 256 * x + y.
Proof.
  intros Hh Hq Ht Hx Hy H. pose proof (zlen_nonneg t).
  destruct (deserialize_publish_topic o m len h (zlen t + 2) t [x; y])
    as (Hcur & s & _ & ->); [done|lia|done|lia|done|].
  rewrite (proj2 (Z.ltb_lt 0 _)) by done.
  apply rd_cons in Hcur as [H1 H2]. apply rd_has in H2.
  unfold readInt. rewrite H1, bind_Ok, H2, !bind_Ok.
  eexists. split; [done|]. cbn. split; [lia|]. apply u16_id. unfold is_u16, is_u8 in *. lia.
Qed.

Lemma publish_missing_packetid_witness :
  ∃ o', MQTTDeserialize_publish (mkPublish 0 0 0 0 MQTTString_initializer None 0)
    [50; 3; 0; 1; 116; 1; 2] 5 = Ok (1, o') ∧ pub_payloadlen o' = -2 ∧
    pub_packetid o' = 256 * 1 + 2.
Proof.
  apply (publish_missing_packetid _ _ 50 [116]); [done..|].
  exact (has_whole [50; 3; 0; 1; 116; 1; 2] []).
Defined.

Lemma emits_ack ptype dup id :
  emits (writeChar (header_byte (mkHeader ptype dup 0 0)) ;;; putRemLen 2 ;;; writeInt id)
    (header_byte (mkHeader ptype dup 0 0) :: 2 :: int_bytes id).
Proof. apply emits_short_packet; [apply header_byte_range|done|apply emits_writeInt]. Qed.

Lemma serialize_ack_lemma buf buflen ptype dup id :
  4 ≤ buflen ≤ zlen buf →
  MQTTSerialize_ack buf buflen ptype dup id
  = Ok (4, splice buf 0 (header_byte (mkHeader ptype dup 0 0) :: 2 :: int_bytes id)).
Proof.
  intros Hb. unfold MQTTSerialize_ack. rewrite (proj2 (Z.ltb_ge _ 4)) by lia.
  rewrite (run_emits _ _ buf (emits_ack ptype dup id)).
  change (zlen (_ :: 2 :: int_bytes id)) with 4. by rewrite (proj2 (Z.leb_le _ _)) by lia.
Qed.

Lemma deserialize_ack_lemma buf ptype dup id id0 len :
  0 ≤ ptype < 16 → 0 ≤ dup < 2 → is_u16 id → 4 ≤ zlen buf →
  MQTTDeserialize_ack id0
    (splice buf 0 (header_byte (mkHeader ptype dup 0 0) :: 2 :: int_bytes id)) len
  = Ok (1, ptype, dup, id).
Proof.
  intros Ht Hd Hid Hb. set (h := header_byte _).
  assert (has (splice buf 0 (h :: 2 :: int_bytes id)) 0 (h :: 2 :: int_bytes id)) as H
    by (by apply has_splice).
  unfold MQTTDeserialize_ack. rewrite (readChar_has _ _ _ _ H), bind_Ok.
  apply has_cons in H as [_ H].
  rewrite (decodeBuf_short _ _ 2 _ ltac:(lia) H), bind_Ok.
  apply has_cons in H as [_ H]. rewrite <-(app_nil_r (int_bytes id)) in H at 2.
  rewrite (proj2 (Z.ltb_ge _ 2)) by lia. rewrite (readInt_has _ _ _ _ Hid H), bind_Ok.
  unfold h. by rewrite header_of_byte_byte, u16_id by (done || lia).
Qed.

(** MQTTSerialize_ack writes a four-byte acknowledgement that
    MQTTDeserialize_ack reads back: type, dup flag and packet id. *)
Theorem ack_roundtrip buf buflen ptype dup id id0 :
  4 ≤ buflen ≤ zlen buf → 0 ≤ ptype < 16 → 0 ≤ dup < 2 → is_u16 id →
  ∃ buf', MQTTSerialize_ack buf buflen ptype dup id = Ok (4, buf') ∧
    MQTTDeserialize_ack id0 buf' 4 = Ok (1, ptype, dup, id) ∧
    zdrop 4 buf' = zdrop 4 buf.
Proof.
  intros Hb Ht Hd Hid. eexists. split; [by apply serialize_ack_lemma|].
  split; [apply deserialize_ack_lemma; (done || lia)|].
  rewrite <-(Z.add_0_l 4) at 1. change 4 with (zlen (header_byte (mkHeader ptype dup 0 0)
    :: 2 :: int_bytes id)) at 1. rewrite zdrop_past_splice; [done|lia|].
  change (0 + 4 ≤ zlen buf). lia.
Qed.

Lemma ack_roundtrip_witness :
  ∃ buf', MQTTSerialize_ack (replicate 5 9) 4 PUBREC 1 258 = Ok (4, buf') ∧
    MQTTDeserialize_ack 0 buf' 4 = Ok (1, PUBREC, 1, 258) ∧
    zdrop 4 buf' = zdrop 4 (replicate 5 9).
Proof. apply ack_roundtrip; done. Defined.

(** The acknowledgements sent for a received message do not carry its
    packet id: MQTTSerialize_puback and MQTTSerialize_pubcomp pass the id where
    MQTTSerialize_ack takes the dup flag, so the peer reads packet id 0 and a dup
    flag that is the id's low bit; MQTTSerialize_pubrel exchanges id and dup. *)
Theorem puback_loses_packetid buf buflen id dup id0 :
  4 ≤ buflen ≤ zlen buf → is_u16 id → is_u8 dup →
  (∃ buf', MQTTSerialize_puback buf buflen id = Ok (4, buf') ∧
    MQTTDeserialize_ack id0 buf' 4 = Ok (1, PUBACK, id mod 2, 0)) ∧
  (∃ buf', MQTTSerialize_pubcomp buf buflen id = Ok (4, buf') ∧
    MQTTDeserialize_ack id0 buf' 4 = Ok (1, PUBCOMP, id mod 2, 0)) ∧
  (∃ buf', MQTTSerialize_pubrel buf buflen dup id = Ok (4, buf') ∧
    MQTTDeserialize_ack id0 buf' 4 = Ok (1, PUBREL, id mod 2, dup)).
Proof.
  intros Hb Hid Hdup.
  assert (∀ t i, header_byte (mkHeader t (u8 i) 0 0) = header_byte (mkHeader t (i mod 2) 0 0))
    as Hh.
  { intros t i. unfold header_byte. cbn. do 2 f_equal. f_equal.
    rewrite !(Z.land_ones _ 1) by done. unfold u8. dlia. }
  assert (∀ t i d, 0 ≤ t < 16 → is_u16 i → ∃ buf',
    MQTTSerialize_ack buf buflen t (u8 d) i = Ok (4, buf') ∧
    MQTTDeserialize_ack id0 buf' 4 = Ok (1, t, d mod 2, i)) as Hack.
  { intros t i d Ht Hi. eexists. rewrite serialize_ack_lemma by done. split; [done|].
    rewrite Hh. apply deserialize_ack_lemma; [done|dlia|done|lia]. }
  assert (is_u16 dup) by (unfold is_u8, is_u16 in *; lia).
  unfold MQTTSerialize_pubrel. rewrite u16_id by done. split_and!; by apply Hack.
Qed.

Lemma puback_loses_packetid_witness :
  (∃ buf', MQTTSerialize_puback (replicate 4 0) 4 515 = Ok (4, buf') ∧
    MQTTDeserialize_ack 0 buf' 4 = Ok (1, PUBACK, 1, 0)) ∧
  (∃ buf', MQTTSerialize_pubcomp (replicate 4 0) 4 515 = Ok (4, buf') ∧
    MQTTDeserialize_ack 0 buf' 4 = Ok (1, PUBCOMP, 1, 0)) ∧
  (∃ buf', MQTTSerialize_pubrel (replicate 4 0) 4 0 515 = Ok (4, buf') ∧
    MQTTDeserialize_ack 0 buf' 4 = Ok (1, PUBREL, 1, 0)).
Proof. apply (puback_loses_packetid (replicate 4 0) 4 515 0 0); done. Defined.
