(* ===== verification/MqttSubscribe.v ===== *)
(** MQTTSubscribeClient.c, MQTTSubscribeServer.c, MQTTUnsubscribeClient.c and
    MQTTUnsubscribeServer.c: SUBSCRIBE, SUBACK, UNSUBSCRIBE and UNSUBACK.

    An array argument is the list of its elements; its length is what the caller
    allocated, so an index past it is [Ub OutOfBounds]. *)
From S2P Require Export MqttPublish.

(** * Client side *)

(** The loop of both length functions; [per] is 1 for the requested QoS. *)
Fixpoint filters_length (n : nat) (i len per : Z) (topicFilters : list MQTTString)
    : outcome Z :=
  match n with
  | O => Ok len
  | S n =>
    t ← rd topicFilters i;
    len ← int32 (len + (2 + MQTTstrlen t + per));
    filters_length n (i + 1) len per topicFilters
  end.

Definition MQTTSerialize_subscribeLength (count : Z) (topicFilters : list MQTTString)
    : outcome Z :=
  filters_length (Z.to_nat count) 0 2 1 topicFilters.

Definition MQTTSerialize_unsubscribeLength (count : Z) (topicFilters : list MQTTString)
    : outcome Z :=
  filters_length (Z.to_nat count) 0 2 0 topicFilters.

Fixpoint write_filters (n : nat) (i : Z) (topicFilters : list MQTTString)
    (requestedQoSs : list Z) : writer :=
  match n with
  | O => wskip
  | S n =>
    (λ s, t ← rd topicFilters i; writeMQTTString t s) ;;;
    (λ s, q ← rd requestedQoSs i; writeChar q s) ;;;
    write_filters n (i + 1) topicFilters requestedQoSs
  end.

Definition MQTTSerialize_subscribe (buf : list Z) (buflen dup packetid count : Z)
    (topicFilters : list MQTTString) (requestedQoSs : list Z) : outcome (Z * list Z) :=
  rem_len ← MQTTSerialize_subscribeLength count topicFilters;
  plen ← MQTTPacket_len rem_len;
  if buflen <? plen then Ok (MQTTPACKET_BUFFER_TOO_SHORT, buf) else
  '(buf, ptr) ←
    (writeChar (header_byte (mkHeader SUBSCRIBE dup 1 0)) ;;;
     putRemLen rem_len ;;;
     writeInt packetid ;;;
     write_filters (Z.to_nat count) 0 topicFilters requestedQoSs) (buf, 0);
  Ok (ptr, buf).

Fixpoint write_topics (n : nat) (i : Z) (topicFilters : list MQTTString) : writer :=
  match n with
  | O => wskip
  | S n =>
    (λ s, t ← rd topicFilters i; writeMQTTString t s) ;;;
    write_topics n (i + 1) topicFilters
  end.

Definition MQTTSerialize_unsubscribe (buf : list Z) (buflen dup packetid count : Z)
    (topicFilters : list MQTTString) : outcome (Z * list Z) :=
  rem_len ← MQTTSerialize_unsubscribeLength count topicFilters;
  plen ← MQTTPacket_len rem_len;
  if buflen <? plen then Ok (MQTTPACKET_BUFFER_TOO_SHORT, buf) else
  '(buf, ptr) ←
    (writeChar (header_byte (mkHeader UNSUBSCRIBE dup 1 0)) ;;;
     putRemLen rem_len ;;;
     writeInt packetid ;;;
     write_topics (Z.to_nat count) 0 topicFilters) (buf, 0);
  Ok (ptr, buf).

(** The loop of MQTTDeserialize_suback; one byte a round, so [enddata - curdata]
    rounds are enough. *)
Fixpoint suback_loop (fuel : nat) (buf : list Z) (maxcount curdata enddata count : Z)
    (grantedQoSs : list Z) : outcome (bool * Z * list Z) :=
  if curdata <? enddata then
    match fuel with
    | O => Ub OutOfFuel
    | S fuel =>
      if maxcount <? count then Ok (false, count, grantedQoSs) else
      '(q, curdata) ← readChar buf curdata;
      grantedQoSs ← wr grantedQoSs count q;
      suback_loop fuel buf maxcount curdata enddata (count + 1) grantedQoSs
    end
  else Ok (true, count, grantedQoSs).

(** The result, [*packetid], [*count] and [grantedQoSs]. *)
Definition MQTTDeserialize_suback (packetid maxcount count : Z) (grantedQoSs : list Z)
    (buf : list Z) (buflen : Z) : outcome (Z * Z * Z * list Z) :=
  '(b, curdata) ← readChar buf 0;
  if negb (type (header_of_byte b) =? SUBACK) then Ok (0, packetid, count, grantedQoSs) else
  '(rc, mylen) ← MQTTPacket_decodeBuf buf curdata;
  let curdata := curdata + rc in
  let enddata := curdata + mylen in
  if enddata - curdata <? 2 then Ok (rc, packetid, count, grantedQoSs) else
  '(id, curdata) ← readInt buf curdata;
  '(ok, count, grantedQoSs) ←
    suback_loop (Z.to_nat (enddata - curdata)) buf maxcount curdata enddata 0 grantedQoSs;
  Ok (if (ok : bool) then 1 else -1, u16 id, count, grantedQoSs).

(** The result and [*packetid]. *)
Definition MQTTDeserialize_unsuback (packetid : Z) (buf : list Z) (buflen : Z)
    : outcome (Z * Z) :=
  '(rc, type, dup, packetid) ← MQTTDeserialize_ack packetid buf buflen;
  Ok (if type =? UNSUBACK then 1 else rc, packetid).

(** * Server side *)

(** The loop of MQTTDeserialize_subscribe: whether it ended without [goto exit],
    [*count], the topics and the requested QoS. A round consumes at least three
    bytes of the packet. *)
Fixpoint subscribe_loop (fuel : nat) (buf : list Z) (curdata enddata count : Z)
    (topicFilters : list MQTTString) (requestedQoSs : list Z)
    : outcome (bool * Z * list MQTTString * list Z) :=
  if curdata <? enddata then
    match fuel with
    | O => Ub OutOfFuel
    | S fuel =>
      s ← rd topicFilters count;
      '(ok, s, curdata) ← readMQTTLenString buf s curdata enddata;
      topicFilters ← wr topicFilters count s;
      if ok =? 0 then Ok (false, count, topicFilters, requestedQoSs) else
      if enddata <=? curdata then Ok (false, count, topicFilters, requestedQoSs) else
      '(q, curdata) ← readChar buf curdata;
      requestedQoSs ← wr requestedQoSs count q;
      subscribe_loop fuel buf curdata enddata (count + 1) topicFilters requestedQoSs
    end
  else Ok (true, count, topicFilters, requestedQoSs).

Record subscribe_out := mkSubscribe {
  sub_dup : Z;
  sub_packetid : Z;
  sub_count : Z;
  sub_filters : list MQTTString;
  sub_qoss : list Z }.

Definition MQTTDeserialize_subscribe (maxcount : Z) (o : subscribe_out) (buf : list Z)
    (buflen : Z) : outcome (Z * subscribe_out) :=
  '(b, curdata) ← readChar buf 0;
  if negb (type (header_of_byte b) =? SUBSCRIBE) then Ok (-1, o) else
  let dup := dup (header_of_byte b) in
  '(rc, mylen) ← MQTTPacket_decodeBuf buf curdata;
  let curdata := curdata + rc in
  let enddata := curdata + mylen in
  '(id, curdata) ← readInt buf curdata;
  '(ok, count, filters, qoss) ←
    subscribe_loop (Z.to_nat (enddata - curdata)) buf curdata enddata 0
      (sub_filters o) (sub_qoss o);
  Ok (if (ok : bool) then 1 else rc, mkSubscribe dup (u16 id) count filters qoss).

Fixpoint unsubscribe_loop (fuel : nat) (buf : list Z) (curdata enddata count : Z)
    (topicFilters : list MQTTString) : outcome (bool * Z * list MQTTString) :=
  if curdata <? enddata then
    match fuel with
    | O => Ub OutOfFuel
    | S fuel =>
      s ← rd topicFilters count;
      '(ok, s, curdata) ← readMQTTLenString buf s curdata enddata;
      topicFilters ← wr topicFilters count s;
      if ok =? 0 then Ok (false, count, topicFilters) else
      unsubscribe_loop fuel buf curdata enddata (count + 1) topicFilters
    end
  else Ok (true, count, topicFilters).

(** The result, [*dup], [*packetid], [*count] and [topicFilters]. *)
Definition MQTTDeserialize_unsubscribe (dup0 packetid maxcount count : Z)
    (topicFilters : list MQTTString) (buf : list Z) (len : Z)
    : outcome (Z * Z * Z * Z * list MQTTString) :=
  '(b, curdata) ← readChar buf 0;
  if negb (type (header_of_byte b) =? UNSUBSCRIBE)
  then Ok (0, dup0, packetid, count, topicFilters) else
  '(rc, mylen) ← MQTTPacket_decodeBuf buf curdata;
  let curdata := curdata + rc in
  let enddata := curdata + mylen in
  '(id, curdata) ← readInt buf curdata;
  '(ok, count, filters) ←
    unsubscribe_loop (Z.to_nat (enddata - curdata)) buf curdata enddata 0 topicFilters;
  Ok (if (ok : bool) then 1 else rc, dup (header_of_byte b), u16 id, count, filters).

Fixpoint write_chars (n : nat) (i : Z) (a : list Z) : writer :=
  match n with
  | O => wskip
  | S n => (λ s, q ← rd a i; writeChar q s) ;;; write_chars n (i + 1) a
  end.

Definition MQTTSerialize_suback (buf : list Z) (buflen packetid count : Z)
    (grantedQoSs : list Z) : outcome (Z * list Z) :=
  n ← int32 (2 + count);
  if buflen <? n then Ok (MQTTPACKET_BUFFER_TOO_SHORT, buf) else
  '(buf, ptr) ←
    (writeChar (header_byte (mkHeader SUBACK 0 0 0)) ;;;
     putRemLen n ;;;
     writeInt packetid ;;;
     write_chars (Z.to_nat count) 0 grantedQoSs) (buf, 0);
  Ok (ptr, buf).

Definition MQTTSerialize_unsuback (buf : list Z) (buflen packetid : Z)
    : outcome (Z * list Z) :=
  if buflen <? 2 then Ok (MQTTPACKET_BUFFER_TOO_SHORT, buf) else
  '(buf, ptr) ←
    (writeChar (header_byte (mkHeader UNSUBACK 0 0 0)) ;;;
     putRemLen 2 ;;;
     writeInt packetid) (buf, 0);
  Ok (ptr, buf).

(** * Specification: SUBSCRIBE, MQTT 3.1.1 section 3.8, and its acknowledgement *)

(** A subscription request: a topic filter and its requested QoS. *)
Abbreviation request := (list Z * Z)%type.

Definition request_bytes (r : request) : list Z := str_bytes r.1 ++ [r.2].

Definition requests_bytes (rs : list request) : list Z := concat (request_bytes <$> rs).

Definition subscribe_body (packetid : Z) (rs : list request) : list Z :=
  int_bytes packetid ++ requests_bytes rs.

Definition subscribe_bytes (dup packetid : Z) (rs : list request) : list Z :=
  let body := subscribe_body packetid rs in
  header_byte (mkHeader SUBSCRIBE dup 1 0) :: remlen_bytes (zlen body) ++ body.

(** The arguments describe the requests. *)
Definition requests (fs : list MQTTString) (qs : list Z) (rs : list request) : Prop :=
  Forall3 (λ f q r, denotes f r.1 ∧ q = r.2 ∧ is_u8 q) fs qs rs.

Lemma requests_bytes_cons r rs :
  requests_bytes (r :: rs) = str_bytes r.1 ++ r.2 :: requests_bytes rs.
Proof. unfold requests_bytes, request_bytes. cbn. by rewrite <-app_assoc. Qed.

Lemma zlen_requests_cons r rs :
  zlen (requests_bytes (r :: rs)) = zlen r.1 + 3 + zlen (requests_bytes rs).
Proof. rewrite requests_bytes_cons. autorewrite with zlen. lia. Qed.

Section write_filters.
Context (F : list MQTTString) (Q : list Z).

Lemma emits_filters rs : ∀ fs qs i,
  has F i fs → has Q i qs → requests fs qs rs →
  emits (write_filters (length rs) i F Q) (requests_bytes rs).
Proof.
  induction rs as [|r rs IH]; intros fs qs i HF HQ Hr; [apply emits_skip|].
  cbn [write_filters length].
  inversion Hr as [|f q ? fs' qs' ? (Hd & -> & Hq) Hrs]; subst.
  apply rd_cons in HF as [HF HF']. apply rd_cons in HQ as [HQ HQ'].
  rewrite requests_bytes_cons.
  apply emits_seq; [|apply (emits_seq _ _ [_]); [|by eapply IH]].
  - eapply emits_ext; [|by apply emits_denotes]. intros s. by rewrite HF.
  - eapply emits_ext; [|by apply emits_writeChar]. intros s. by rewrite HQ.
Qed.

Lemma filters_length_ok rs : ∀ fs qs i len,
  has F i fs → requests fs qs rs →
  0 ≤ len → len + zlen (requests_bytes rs) ≤ INT_MAX →
  filters_length (length rs) i len 1 F = Ok (len + zlen (requests_bytes rs)).
Proof.
  induction rs as [|r rs IH]; intros fs qs i len HF Hr Hl Hm; cbn [filters_length length] in *.
  { cbn. by rewrite zlen_nil, Z.add_0_r. }
  inversion Hr as [|f q ? fs' qs' ? (Hd & -> & Hq) Hrs]; subst.
  apply rd_cons in HF as [HF HF']. rewrite HF, bind_Ok.
  rewrite zlen_requests_cons in *. rewrite (denotes_strlen _ _ Hd).
  pose proof (zlen_nonneg r.1). pose proof (zlen_nonneg (requests_bytes rs)).
  rewrite int32_Ok by (unfold INT_MIN, INT_MAX in *; lia). rewrite bind_Ok.
  erewrite IH; [f_equal; lia|done..|lia|lia].
Qed.
End write_filters.

Section serialize_subscribe.
Context (fs : list MQTTString) (qs : list Z) (rs : list request).
Context (Hrs : requests fs qs rs) (F : list MQTTString) (Q : list Z).
Context (HF : has F 0 fs) (HQ : has Q 0 qs).
Context (id : Z) (Hlen : zlen (subscribe_body id rs) < 2 ^ 28).

Lemma serialize_subscribe_lemma buf buflen dup :
  let pkt := subscribe_bytes dup id rs in
  ∃ plen, zlen pkt ≤ plen ≤ zlen pkt + 1 ∧
    serialized (MQTTSerialize_subscribe buf buflen dup id (zlen rs) F Q) buf buflen plen pkt.
Proof.
  intros pkt. unfold MQTTSerialize_subscribe, MQTTSerialize_subscribeLength.
  assert (zlen (subscribe_body id rs) = 2 + zlen (requests_bytes rs)) as Hz
    by (unfold subscribe_body; autorewrite with zlen; lia).
  replace (Z.to_nat (zlen rs)) with (length rs) by (unfold zlen; lia).
  erewrite filters_length_ok, <-Hz, bind_Ok; [|done..|lia|unfold INT_MAX; lia].
  apply serialized_lemma; [done|].
  eapply (emits_seq_eq _ _ [_]); [apply emits_writeChar, header_byte_range| |done].
  eapply emits_seq; [apply emits_putRemLen; split; [apply zlen_nonneg|lia]|].
  unfold subscribe_body. apply emits_seq; [apply emits_writeInt|].
  by eapply emits_filters.
Qed.
End serialize_subscribe.

(** The server's loop on a list of requests: when the arrays have room for all
    of them it stores them all; otherwise it writes past the arrays. *)
Lemma subscribe_loop_lemma m enddata rs : ∀ fuel p c F Q,
  has m p (requests_bytes rs) →
  p + zlen (requests_bytes rs) = enddata →
  zlen (requests_bytes rs) ≤ Z.of_nat fuel →
  Forall (λ r, zlen r.1 < 65536) rs →
  0 ≤ c ≤ zlen F → zlen Q = zlen F →
  if c + zlen rs <=? zlen F
  then ∃ ss, Forall2 denotes ss rs.*1 ∧
    subscribe_loop fuel m p enddata c F Q
    = Ok (true, c + zlen rs, splice F c ss, splice Q c rs.*2)
  else subscribe_loop fuel m p enddata c F Q = Ub OutOfBounds.
Proof.
  induction rs as [|r rs IH]; intros fuel p c F Q H He Hf Hrs Hc HQ.
  { cbn in He. rewrite zlen_nil, Z.add_0_r in *. subst.
    rewrite (proj2 (Z.leb_le _ _)) by lia. exists []. split; [constructor|].
    cbn [fmap list_fmap]. rewrite !splice_nil.
    destruct fuel; cbn [subscribe_loop]; by rewrite Z.ltb_irrefl. }
  apply Forall_cons in Hrs as [Hr Hrs]. rewrite zlen_requests_cons in He, Hf.
  rewrite requests_bytes_cons in H. rewrite zlen_cons.
  pose proof (zlen_nonneg r.1). pose proof (zlen_nonneg rs).
  pose proof (zlen_nonneg (requests_bytes rs)).
  destruct fuel as [|fuel]; [lia|]. cbn [subscribe_loop].
  rewrite (proj2 (Z.ltb_lt p enddata)) by lia.
  destruct (Z.ltb_spec c (zlen F)) as [Hlt|Hge].
  2:{ rewrite (proj2 (Z.leb_gt _ _)) by lia. unfold rd at 1.
      rewrite (proj2 (Z.ltb_ge c 0)) by lia.
      by rewrite lookup_ge_None_2 by (unfold zlen in *; lia). }
  destruct (rd_Ok F c) as [s0 ->]; [lia|]. rewrite bind_Ok.
  destruct (read_str m s0 p _ _ enddata Hr H) as (s & -> & [_ Hd] & Hm);
    [autorewrite with zlen; lia|].
  rewrite bind_Ok, (wr_splice F) by lia.
  rewrite (proj2 (Z.leb_le (c + 1) _)), bind_Ok by lia. cbn [Z.eqb].
  rewrite (proj2 (Z.leb_gt enddata _)) by lia.
  apply rd_cons in Hm as [Hq Hm]. unfold readChar. rewrite Hq, !bind_Ok.
  rewrite (wr_splice Q), (proj2 (Z.leb_le (c + 1) _)), bind_Ok by lia.
  specialize (IH fuel (p + 2 + zlen r.1 + 1) (c + 1) (splice F c [s]) (splice Q c [r.2]) Hm).
  rewrite (zlen_splice F) in IH by (try change (zlen [_]) with 1; lia).
  rewrite (zlen_splice Q) in IH by (try change (zlen [_]) with 1; lia).
  replace (c + 1 + zlen rs) with (c + (1 + zlen rs)) in IH by lia.
  specialize (IH ltac:(lia) ltac:(lia) Hrs ltac:(lia) HQ). revert IH.
  destruct (c + (1 + zlen rs) <=? zlen F) eqn:Hle; [|done].
  intros (ss & Hss & ->).
  exists (s :: ss). split; [by constructor|].
  apply Z.leb_le in Hle. apply Forall2_length in Hss as Hl. rewrite length_fmap in Hl.
  by rewrite (splice_cons F), (splice_cons Q) by (unfold zlen in *; rewrite ?length_fmap; lia).
Qed.

Lemma deserialize_subscribe_lemma dup id rs m maxcount o len :
  0 ≤ dup < 2 → is_u16 id → Forall (λ r, zlen r.1 < 65536) rs →
  zlen (subscribe_body id rs) < 2 ^ 28 → zlen (sub_qoss o) = zlen (sub_filters o) →
  has m 0 (subscribe_bytes dup id rs) →
  if zlen rs <=? zlen (sub_filters o)
  then ∃ ss, Forall2 denotes ss rs.*1 ∧
    MQTTDeserialize_subscribe maxcount o m len
    = Ok (1, mkSubscribe dup id (zlen rs) (splice (sub_filters o) 0 ss)
               (splice (sub_qoss o) 0 rs.*2))
  else MQTTDeserialize_subscribe maxcount o m len = Ub OutOfBounds.
Proof.
  intros Hdup Hid Hrs Hlen HQ H. unfold MQTTDeserialize_subscribe.
  unfold subscribe_bytes in H. rewrite (readChar_has _ _ _ _ H), bind_Ok.
  rewrite header_of_byte_byte by (done || lia). change (negb _) with false at 1 2.
  apply has_cons in H as [_ H].
  assert (zlen (subscribe_body id rs) = 2 + zlen (requests_bytes rs)) as Hz
    by (unfold subscribe_body; autorewrite with zlen; lia).
  pose proof (zlen_nonneg (requests_bytes rs)).
  rewrite (decodeBuf_remlen _ _ _ _ (conj (zlen_nonneg _) Hlen) H), bind_Ok.
  apply has_app in H as [_ H]. set (cur := 0 + 1 + zlen (remlen_bytes _)) in *.
  unfold subscribe_body in H. rewrite (readInt_has _ _ _ _ Hid H), bind_Ok, u16_id by done.
  apply has_app in H as [_ H]. rewrite zlen_int_bytes in H.
  pose proof (subscribe_loop_lemma m (cur + zlen (subscribe_body id rs)) rs
    (Z.to_nat (cur + zlen (subscribe_body id rs) - (cur + 2))) (cur + 2) 0
    (sub_filters o) (sub_qoss o) H ltac:(lia) ltac:(lia) Hrs
    ltac:(split; [done|apply zlen_nonneg]) HQ) as Hloop.
  rewrite Z.add_0_l in Hloop. revert Hloop.
  destruct (zlen rs <=? zlen (sub_filters o)); [|by intros ->].
  intros (ss & Hss & ->). exists ss. by split.
Qed.

(** * Correctness *)

(** MQTTSerialize_subscribe writes exactly the SUBSCRIBE packet of its
    topic filters and requested QoS, in order, when [buflen] allows it, and
    otherwise leaves the buffer alone. *)
Theorem MQTTSerialize_subscribe_spec fs qs rs id buf buflen dup :
  requests fs qs rs → zlen (subscribe_body id rs) < 2 ^ 28 → buflen ≤ zlen buf →
  let pkt := subscribe_bytes dup id rs in
  ∃ plen, zlen pkt ≤ plen ≤ zlen pkt + 1 ∧
    MQTTSerialize_subscribe buf buflen dup id (zlen rs) fs qs
    = if buflen <? plen then Ok (MQTTPACKET_BUFFER_TOO_SHORT, buf)
      else Ok (zlen pkt, splice buf 0 pkt).
Proof.
  intros Hrs Hlen Hbuf pkt.
  destruct (serialize_subscribe_lemma fs qs rs Hrs fs qs) with (id := id) (buf := buf)
    (buflen := buflen) (dup := dup) as (plen & Hp & Hs);
    [rewrite <-(app_nil_r fs) at 1; apply has_whole
    |rewrite <-(app_nil_r qs) at 1; apply has_whole|done|].
  exists plen. split; [done|]. apply (serialized_in_bounds _ _ _ _ _ Hs); [apply Hp|done].
Qed.

(** Two requests, for the examples. *)
Definition sample_requests : list request := [([97], 1); ([98; 99], 2)].
Definition sample_filters : list MQTTString :=
  [mkMQTTString (Some [97]) 0 None; mkMQTTString None 2 (Some [98; 99; 100])].

Lemma sample_requests_ok : requests sample_filters [1; 2] sample_requests.
Proof.
  constructor; [split_and!; [by left|done..]|].
  constructor; [|constructor]. split_and!; [|done..].
  right. split_and!; [done..|by exists [100]].
Qed.

Lemma MQTTSerialize_subscribe_spec_witness :
  let pkt := subscribe_bytes 0 7 sample_requests in
  ∃ plen, zlen pkt ≤ plen ≤ zlen pkt + 1 ∧
    MQTTSerialize_subscribe (replicate 13 0) 13 0 7 (zlen sample_requests) sample_filters [1; 2]
    = if 13 <? plen then Ok (MQTTPACKET_BUFFER_TOO_SHORT, replicate 13 0)
      else Ok (zlen pkt, splice (replicate 13 0) 0 pkt).
Proof. apply MQTTSerialize_subscribe_spec; [apply sample_requests_ok|done|done]. Defined.

(** C15: the server's MQTTDeserialize_subscribe recovers the dup flag, packet
    id, filters and QoS of a packet MQTTSerialize_subscribe wrote when its
    arrays have room for all requests; when they do not it overruns them,
    whatever [maxcount] says. *)
Theorem subscribe_roundtrip fs qs rs id buf buflen dup r buf' maxcount o :
  requests fs qs rs → Forall (λ r, zlen r.1 < 65536) rs →
  zlen (subscribe_body id rs) < 2 ^ 28 → 0 ≤ dup < 2 → is_u16 id →
  zlen (sub_qoss o) = zlen (sub_filters o) →
  MQTTSerialize_subscribe buf buflen dup id (zlen rs) fs qs = Ok (r, buf') → 0 < r →
  if zlen rs <=? zlen (sub_filters o)
  then ∃ ss, Forall2 denotes ss rs.*1 ∧
    MQTTDeserialize_subscribe maxcount o buf' r
    = Ok (1, mkSubscribe dup id (zlen rs) (splice (sub_filters o) 0 ss)
               (splice (sub_qoss o) 0 rs.*2))
  else MQTTDeserialize_subscribe maxcount o buf' r = Ub OutOfBounds.
Proof.
  intros Hrs Hl Hlen Hdup Hid HQ Hser Hr.
  destruct (serialize_subscribe_lemma fs qs rs Hrs fs qs) with (id := id) (buf := buf)
    (buflen := buflen) (dup := dup) as (plen & _ & Hs);
    [rewrite <-(app_nil_r fs) at 1; apply has_whole
    |rewrite <-(app_nil_r qs) at 1; apply has_whole|done|].
  destruct (serialized_has _ _ _ _ _ _ _ Hs Hser Hr) as [-> H]. rewrite app_nil_r in H.
  by apply deserialize_subscribe_lemma.
Qed.

Lemma subscribe_roundtrip_witness :
  ∃ r buf', MQTTSerialize_subscribe (replicate 13 0) 13 0 7 2 sample_filters [1; 2]
    = Ok (r, buf') ∧
  MQTTDeserialize_subscribe 1 (mkSubscribe 0 0 0 [MQTTString_initializer] [0]) buf' r
  = Ub OutOfBounds.
Proof.
  eexists _, _. split; [vm_compute; reflexivity|].
  apply (subscribe_roundtrip sample_filters [1; 2] sample_requests 7 (replicate 13 0) 13 0
    13 _ 1 (mkSubscribe 0 0 0 [MQTTString_initializer] [0]));
    try done; [apply sample_requests_ok|repeat constructor].
Defined.

(** The client's loop over the granted codes [g]: it stores the first
    [maxcount + 1] of them. *)
Lemma suback_loop_lemma m maxcount enddata g : ∀ fuel p c k G,
  has m p g → p + zlen g = enddata → zlen g ≤ Z.of_nat fuel → 0 ≤ c ≤ zlen G →
  k = Z.min (zlen g) (Z.max 0 (maxcount + 1 - c)) →
  suback_loop fuel m maxcount p enddata c G
  = if c + k <=? zlen G then Ok (zlen g =? k, c + k, splice G c (ztake k g))
    else Ub OutOfBounds.
Proof.
  induction g as [|q g IH]; intros fuel p c k G H He Hf Hc Hk.
  { rewrite zlen_nil, Z.add_0_r in *. assert (k = 0) as -> by lia. subst p.
    rewrite Z.add_0_r, (proj2 (Z.leb_le c _)) by lia. cbn [Z.eqb].
    change (ztake 0 []) with (@nil Z). rewrite splice_nil.
    destruct fuel; cbn [suback_loop]; by rewrite Z.ltb_irrefl. }
  pose proof (zlen_nonneg g). rewrite zlen_cons in *.
  destruct fuel as [|fuel]; [lia|]. cbn [suback_loop].
  rewrite (proj2 (Z.ltb_lt p enddata)) by lia. destruct (Z.ltb_spec maxcount c) as [Hmc|Hmc].
  { assert (k = 0) as -> by lia. rewrite Z.add_0_r, (proj2 (Z.leb_le c _)) by lia.
    rewrite (proj2 (Z.eqb_neq _ 0)) by lia.
    change (ztake 0 (q :: g)) with (@nil Z). by rewrite splice_nil. }
  apply rd_cons in H as [Hq H]. unfold readChar. rewrite Hq, !bind_Ok, wr_splice by lia.
  assert (1 ≤ k ≤ 1 + zlen g) by lia.
  destruct (Z.leb_spec (c + 1) (zlen G)) as [Hle|Hgt]; [|by rewrite (proj2 (Z.leb_gt _ _)) by lia].
  assert (zlen (splice G c [q]) = zlen G) as HG by (apply zlen_splice; [lia|done]).
  rewrite bind_Ok, (IH fuel _ _ (k - 1)), HG by (done || lia).
  replace (c + 1 + (k - 1)) with (c + k) by lia.
  replace (zlen g =? k - 1) with (1 + zlen g =? k) by lia.
  assert (ztake k (q :: g) = q :: ztake (k - 1) g) as ->.
  { unfold ztake. by replace (Z.to_nat k) with (S (Z.to_nat (k - 1))) by lia. }
  destruct (Z.leb_spec (c + k) (zlen G)); [|done].
  rewrite splice_cons; [done|lia|]. rewrite zlen_take by lia. lia.
Qed.

Definition suback_bytes (id : Z) (g : list Z) : list Z :=
  144 :: remlen_bytes (2 + zlen g) ++ int_bytes id ++ g.

Lemma emits_chars A g : ∀ i, has A i g → bytes g → emits (write_chars (length g) i A) g.
Proof.
  induction g as [|q g IH]; intros i HA Hg; cbn [write_chars length]; [apply emits_skip|].
  apply rd_cons in HA as [HA HA']. apply Forall_cons in Hg as [Hq Hg].
  apply (emits_seq _ _ [q]); [|by apply IH].
  eapply emits_ext; [|by apply emits_writeChar]. intros s. by rewrite HA.
Qed.

(** MQTTSerialize_suback writes four bytes and the codes where it checked
    for two and the codes: a buffer of exactly the checked size is overrun.
    With room, the packet it writes is the SUBACK packet. *)
Theorem MQTTSerialize_suback_spec buf buflen id g :
  bytes g → zlen g + 2 < 128 → 2 + zlen g ≤ buflen →
  MQTTSerialize_suback buf buflen id (zlen g) g
  = if 4 + zlen g <=? zlen buf
    then Ok (4 + zlen g, splice buf 0 (suback_bytes id g)) else Ub OutOfBounds.
Proof.
  intros Hg Hl Hb. pose proof (zlen_nonneg g). unfold MQTTSerialize_suback.
  rewrite int32_Ok, bind_Ok by (unfold INT_MIN, INT_MAX; lia).
  rewrite (proj2 (Z.ltb_ge _ _)) by lia.
  assert (remlen_bytes (2 + zlen g) = [2 + zlen g]) as Hr.
  { unfold remlen_bytes. by rewrite (proj2 (Z.ltb_lt _ 128)) by lia. }
  assert (zlen (suback_bytes id g) = 4 + zlen g) as Hz
    by (unfold suback_bytes; rewrite Hr; autorewrite with zlen; lia).
  erewrite (run_emits _ (suback_bytes id g)); [by rewrite Hz|].
  unfold suback_bytes. rewrite Hr. apply emits_short_packet; [done|lia|].
  apply emits_seq; [apply emits_writeInt|].
  replace (Z.to_nat (zlen g)) with (length g) by (unfold zlen; lia).
  apply emits_chars; [|done]. rewrite <-(app_nil_r g) at 1. apply has_whole.
Qed.

Lemma MQTTSerialize_suback_spec_witness :
  MQTTSerialize_suback (replicate 3 0) 3 7 (zlen [1]) [1] = Ub OutOfBounds.
Proof. apply (MQTTSerialize_suback_spec (replicate 3 0) 3 7 [1]); [repeat constructor; done|done|done]. Defined.

(** MQTTDeserialize_suback stores up to [maxcount + 1] codes before it
    gives up, so a SUBACK with more codes than an array of [maxcount] elements
    holds makes it write past the array; with at most [maxcount] codes it stores
    them all and returns the packet id. *)
Theorem MQTTDeserialize_suback_spec m id g maxcount id0 c0 G len :
  is_u16 id → 2 + zlen g < 2 ^ 28 → 0 ≤ maxcount → has m 0 (suback_bytes id g) →
  let k := Z.min (zlen g) (maxcount + 1) in
  MQTTDeserialize_suback id0 maxcount c0 G m len
  = if k <=? zlen G
    then Ok (if zlen g =? k then 1 else -1, id, k, splice G 0 (ztake k g))
    else Ub OutOfBounds.
Proof.
  intros Hid Hl Hmc H k. pose proof (zlen_nonneg g). pose proof (zlen_nonneg G).
  unfold MQTTDeserialize_suback. rewrite (readChar_has _ _ _ _ H), bind_Ok.
  apply has_cons in H as [_ H]. change (negb _) with false at 1.
  rewrite (decodeBuf_remlen _ _ (2 + zlen g) _) by (done || lia). rewrite bind_Ok.
  rewrite (proj2 (Z.ltb_ge _ 2)) by lia.
  apply has_app in H as [_ H]. rewrite (readInt_has _ _ _ _ Hid H), bind_Ok.
  apply has_app in H as [_ H]. rewrite zlen_int_bytes in H.
  rewrite (suback_loop_lemma _ _ _ g _ _ _ k), Z.add_0_l by (done || lia).
  destruct (k <=? zlen G); [|done]. rewrite bind_Ok, u16_id by done. done.
Qed.

Lemma MQTTDeserialize_suback_spec_witness :
  MQTTDeserialize_suback 0 1 0 [0] [144; 4; 0; 7; 1; 2] 6 = Ub OutOfBounds.
Proof.
  apply (MQTTDeserialize_suback_spec [144; 4; 0; 7; 1; 2] 7 [1; 2] 1 0 0 [0] 6); try done.
  exact (has_whole [144; 4; 0; 7; 1; 2] []).
Defined.
