(* ===== verification/Words.v ===== *)
(** Words and their bytes in memory: little-endian loads and stores, the byte
    reversal macros REVERSE32 and REVERSE64, rotation and 32-bit addition.
    Shared by the hash, the key derivation and the cipher. *)
From S2P Require Export Memory.

(** The value of little-endian bytes, and the [n] bytes of a value. *)
Fixpoint le_combine (bs : list Z) : Z :=
  match bs with
  | [] => 0
  | b :: bs => b + 256 * le_combine bs
  end.

Fixpoint le_split (n : nat) (x : Z) : list Z :=
  match n with
  | O => []
  | S n => x mod 256 :: le_split n (x / 256)
  end.

Definition be_combine (bs : list Z) : Z := le_combine (reverse bs).
Definition be_split (n : nat) (x : Z) : list Z := reverse (le_split n x).

(** A pointer cast to an array of 32-bit words: the words of a byte object. *)
Fixpoint words_of_bytes (n : nat) (bs : list Z) : list Z :=
  match n with
  | O => []
  | S n => le_combine (take 4 bs) :: words_of_bytes n (drop 4 bs)
  end.

Definition bytes_of_words (ws : list Z) : list Z := concat (le_split 4 <$> ws).

(** REVERSE32 and REVERSE64. *)
Definition rev32 (w : Z) : Z :=
  let tmp := Z.lor (Z.shiftr w 16) (u32 (Z.shiftl w 16)) in
  Z.lor (Z.shiftr (Z.land tmp 4278255360) 8) (u32 (Z.shiftl (Z.land tmp 16711935) 8)).

Definition rev64 (w : Z) : Z :=
  let tmp := Z.lor (Z.shiftr w 32) (u64 (Z.shiftl w 32)) in
  let tmp := Z.lor (Z.shiftr (Z.land tmp 18374966859414961920) 8)
                   (u64 (Z.shiftl (Z.land tmp 71777214294589695) 8)) in
  Z.lor (Z.shiftr (Z.land tmp 18446462603027742720) 16)
        (u64 (Z.shiftl (Z.land tmp 281470681808895) 16)).

Arguments rev32 : simpl never.
Arguments rev64 : simpl never.

(** * Bytes of words *)

Lemma le_combine_range bs : bytes bs → 0 ≤ le_combine bs < 256 ^ zlen bs.
Proof.
  induction 1 as [|b bs Hb _ IH]; [done|]. rewrite zlen_cons.
  pose proof (zlen_nonneg bs). rewrite Z.pow_add_r by lia.
  cbn [le_combine]. unfold is_u8 in Hb. lia.
Qed.

Lemma length_le_split n x : length (le_split n x) = n.
Proof. revert x. induction n as [|n IH]; intros x; cbn; [done|]. by rewrite IH. Qed.

Lemma le_split_bytes n x : bytes (le_split n x).
Proof.
  revert x. induction n as [|n IH]; intros x; cbn; constructor; [|done].
  unfold is_u8. dlia.
Qed.

Lemma le_combine_split n x : le_combine (le_split n x) = x mod 256 ^ Z.of_nat n.
Proof.
  revert x. induction n as [|n IH]; intros x; cbn [le_split le_combine].
  { by rewrite Z.mod_1_r. }
  rewrite IH, Nat2Z.inj_succ, Z.pow_succ_r by lia.
  pose proof (Z.pow_pos_nonneg 256 (Z.of_nat n) ltac:(lia) ltac:(lia)).
  by rewrite (Z.rem_mul_r x 256) by lia.
Qed.

Lemma le_split_combine bs n : bytes bs → length bs = n → le_split n (le_combine bs) = bs.
Proof.
  intros Hbs <-. induction Hbs as [|b bs Hb _ IH]; cbn [le_combine length le_split]; [done|].
  unfold is_u8 in Hb.
  rewrite (Z.mul_comm 256), Z.mod_add, Z.div_add, Z.mod_small, Z.div_small by lia.
  by rewrite Z.add_0_l, IH.
Qed.

Lemma le_split_mod n x : le_split n (x mod 256 ^ Z.of_nat n) = le_split n x.
Proof.
  rewrite <-le_combine_split. apply le_split_combine; [apply le_split_bytes|].
  apply length_le_split.
Qed.

Lemma length_be_split n x : length (be_split n x) = n.
Proof. unfold be_split. by rewrite length_reverse, length_le_split. Qed.

Lemma be_split_bytes n x : bytes (be_split n x).
Proof. unfold be_split. apply Forall_reverse, le_split_bytes. Qed.

Lemma length_words_of_bytes n bs : length (words_of_bytes n bs) = n.
Proof. revert bs. induction n as [|n IH]; intros bs; cbn; [done|]. by rewrite IH. Qed.

Lemma length_bytes_of_words ws : length (bytes_of_words ws) = (4 * length ws)%nat.
Proof.
  unfold bytes_of_words. induction ws as [|w ws IH]; [done|].
  cbn [fmap list_fmap concat]. rewrite length_app, length_le_split, IH. cbn. lia.
Qed.

Lemma bytes_of_words_bytes ws : bytes (bytes_of_words ws).
Proof.
  unfold bytes_of_words. induction ws as [|w ws IH]; [constructor|].
  apply Forall_app. split; [apply le_split_bytes|done].
Qed.

Lemma bytes_of_words_of_bytes n bs :
  bytes bs → length bs = (4 * n)%nat → bytes_of_words (words_of_bytes n bs) = bs.
Proof.
  revert bs. induction n as [|n IH]; intros bs Hbs Hl.
  { by destruct bs. }
  unfold bytes_of_words in *. cbn [words_of_bytes fmap list_fmap concat].
  rewrite IH; [|by apply Forall_drop|rewrite length_drop; lia].
  rewrite le_split_combine; [apply take_drop|by apply Forall_take|].
  rewrite length_take. lia.
Qed.

Lemma words_of_bytes_of_words ws :
  Forall is_u32 ws → words_of_bytes (length ws) (bytes_of_words ws) = ws.
Proof.
  unfold bytes_of_words. induction 1 as [|w ws Hw _ IH]; [done|].
  cbn [length words_of_bytes fmap list_fmap concat].
  rewrite take_app_length', drop_app_length', IH, le_combine_split
    by (by rewrite length_le_split).
  rewrite Z.mod_small; [done|]. exact Hw.
Qed.

Lemma words_of_bytes_u32 n bs : bytes bs → (4 * n ≤ length bs)%nat →
  Forall is_u32 (words_of_bytes n bs).
Proof.
  revert bs. induction n as [|n IH]; intros bs Hbs Hl; cbn; constructor.
  - pose proof (le_combine_range (take 4 bs) ltac:(by apply Forall_take)) as H.
    unfold zlen in H. rewrite length_take, Nat.min_l in H by lia. exact H.
  - apply IH; [by apply Forall_drop|]. rewrite length_drop. lia.
Qed.

(** * Byte reversal *)

Lemma u32_land x : u32 x = Z.land x (Z.ones 32).
Proof. unfold u32. by rewrite Z.land_ones. Qed.
Lemma u64_land x : u64 x = Z.land x (Z.ones 64).
Proof. unfold u64. by rewrite Z.land_ones. Qed.

Lemma u32_lor x y : u32 (Z.lor x y) = Z.lor (u32 x) (u32 y).
Proof. rewrite !u32_land. apply Z.land_lor_distr_l. Qed.
Lemma u64_lor x y : u64 (Z.lor x y) = Z.lor (u64 x) (u64 y).
Proof. rewrite !u64_land. apply Z.land_lor_distr_l. Qed.

Lemma lor_swap a b c d : Z.lor (Z.lor a b) (Z.lor c d) = Z.lor (Z.lor a c) (Z.lor b d).
Proof.
  rewrite <-!Z.lor_assoc. f_equal. rewrite !Z.lor_assoc. f_equal. apply Z.lor_comm.
Qed.

(** Functions of words that act bit by bit commute with [Z.lor]. *)
Definition bitwise (f : Z → Z) : Prop := ∀ x y, f (Z.lor x y) = Z.lor (f x) (f y).

Lemma bitwise_comp f g : bitwise f → bitwise g → bitwise (λ x, f (g x)).
Proof. intros Hf Hg x y. by rewrite Hg, Hf. Qed.
Lemma bitwise_lor f g : bitwise f → bitwise g → bitwise (λ x, Z.lor (f x) (g x)).
Proof. intros Hf Hg x y. by rewrite Hf, Hg, lor_swap. Qed.
Lemma bitwise_shiftr k : bitwise (λ x, Z.shiftr x k).
Proof. intros x y. apply Z.shiftr_lor. Qed.
Lemma bitwise_shiftl k : bitwise (λ x, Z.shiftl x k).
Proof. intros x y. apply Z.shiftl_lor. Qed.
Lemma bitwise_land m : bitwise (λ x, Z.land x m).
Proof. intros x y. apply Z.land_lor_distr_l. Qed.

(** [(x & m) >> k | (x & m') << k], the shape of the reversal steps. *)
Lemma bitwise_swap32 m m' k :
  bitwise (λ x, Z.lor (Z.shiftr (Z.land x m) k) (u32 (Z.shiftl (Z.land x m') k))).
Proof.
  apply bitwise_lor; [apply (bitwise_comp (λ x, Z.shiftr x k)); [apply bitwise_shiftr|apply bitwise_land]|].
  apply (bitwise_comp u32); [intros ??; apply u32_lor|].
  apply (bitwise_comp (λ x, Z.shiftl x k)); [apply bitwise_shiftl|apply bitwise_land].
Qed.
Lemma bitwise_swap64 m m' k :
  bitwise (λ x, Z.lor (Z.shiftr (Z.land x m) k) (u64 (Z.shiftl (Z.land x m') k))).
Proof.
  apply bitwise_lor; [apply (bitwise_comp (λ x, Z.shiftr x k)); [apply bitwise_shiftr|apply bitwise_land]|].
  apply (bitwise_comp u64); [intros ??; apply u64_lor|].
  apply (bitwise_comp (λ x, Z.shiftl x k)); [apply bitwise_shiftl|apply bitwise_land].
Qed.
Lemma bitwise_rot f k : bitwise f →
  bitwise (λ x, Z.lor (Z.shiftr x k) (f (Z.shiftl x k))).
Proof.
  intros Hf. apply bitwise_lor; [apply bitwise_shiftr|].
  apply (bitwise_comp f); [done|apply bitwise_shiftl].
Qed.

Lemma bitwise_rev32 : bitwise rev32.
Proof.
  unfold rev32. cbv zeta.
  apply (bitwise_comp (λ x, Z.lor (Z.shiftr (Z.land x 4278255360) 8)
    (u32 (Z.shiftl (Z.land x 16711935) 8)))); [apply bitwise_swap32|].
  apply bitwise_rot. intros ??; apply u32_lor.
Qed.

Lemma bitwise_rev64 : bitwise rev64.
Proof.
  unfold rev64. cbv zeta.
  apply (bitwise_comp (λ x, Z.lor (Z.shiftr (Z.land x 18446462603027742720) 16)
    (u64 (Z.shiftl (Z.land x 281470681808895) 16)))); [apply bitwise_swap64|].
  apply (bitwise_comp (λ x, Z.lor (Z.shiftr (Z.land x 18374966859414961920) 8)
    (u64 (Z.shiftl (Z.land x 71777214294589695) 8)))); [apply bitwise_swap64|].
  apply bitwise_rot. intros ??; apply u64_lor.
Qed.

Lemma lor_shiftl_add k a b : 0 ≤ k → 0 ≤ a < 2 ^ k → Z.lor a (Z.shiftl b k) = a + b * 2 ^ k.
Proof.
  intros Hk Ha. assert (Z.land a (Z.shiftl b k) = 0) as Hl.
  { apply Z.bits_inj'. intros n Hn. rewrite Z.land_spec, Z.bits_0, Z.shiftl_spec by done.
    destruct (Z.ltb_spec n k).
    - rewrite (Z.testbit_neg_r b) by lia. apply andb_false_r.
    - by rewrite (proj1 (Z.bounded_iff_bits_nonneg k a Hk ltac:(lia)) ltac:(lia) n) by lia. }
  rewrite <-Z.lxor_lor, <-Z.add_nocarry_lxor, Z.shiftl_mul_pow2 by done. done.
Qed.

Lemma le_combine_cons_lor b bs : is_u8 b →
  le_combine (b :: bs) = Z.lor b (Z.shiftl (le_combine bs) 8).
Proof.
  intros Hb. rewrite lor_shiftl_add by (unfold is_u8 in Hb; lia). cbn [le_combine]. lia.
Qed.

Lemma le_combine_app bs cs :
  le_combine (bs ++ cs) = le_combine bs + 256 ^ zlen bs * le_combine cs.
Proof.
  induction bs as [|b bs IH]; cbn [app le_combine]; [change (zlen []) with 0; lia|].
  rewrite IH, zlen_cons, Z.pow_add_r by (pose proof (zlen_nonneg bs); lia). lia.
Qed.

Lemma le_combine_snoc_lor bs b : bytes bs → is_u8 b →
  le_combine (bs ++ [b]) = Z.lor (le_combine bs) (Z.shiftl b (8 * zlen bs)).
Proof.
  intros Hbs Hb. pose proof (zlen_nonneg bs). pose proof (le_combine_range bs Hbs) as H'.
  rewrite le_combine_app. change 256 with (2 ^ 8) in *. rewrite <-Z.pow_mul_r in * by lia.
  rewrite lor_shiftl_add by lia. cbn. lia.
Qed.

(** A bitwise function that moves byte [k] to byte [n - 1 - k] reverses the
    bytes of a word. *)
Lemma reverse_bytes rv n :
  bitwise rv → rv 0 = 0 →
  (∀ k b, 0 ≤ k < n → is_u8 b → rv (Z.shiftl b (8 * k)) = Z.shiftl b (8 * (n - 1 - k))) →
  ∀ bs k, bytes bs → 0 ≤ k → k + zlen bs = n →
  rv (Z.shiftl (le_combine bs) (8 * k)) = le_combine (reverse bs).
Proof.
  intros Hrv H0 Hk bs k Hbs. revert k.
  induction Hbs as [|b bs Hb Hbs IH]; intros k Hk0 Hn.
  { cbn [le_combine]. by rewrite Z.shiftl_0_l, H0. }
  pose proof (zlen_nonneg bs). rewrite zlen_cons in Hn.
  rewrite reverse_cons, le_combine_snoc_lor by (done || by apply Forall_reverse).
  rewrite (le_combine_cons_lor b), Z.shiftl_lor, Hrv, Hk by (done || lia).
  rewrite Z.shiftl_shiftl by lia. replace (8 + 8 * k) with (8 * (k + 1)) by lia.
  rewrite IH, Z.lor_comm by lia. do 2 f_equal. unfold zlen. rewrite length_reverse.
  unfold zlen in Hn. lia.
Qed.

(** Checks a property of every byte at every byte position by evaluation. *)
Lemma forallb_positions (P : Z → Z → bool) n :
  forallb (λ k, forallb (P k) (seqZ 0 256)) (seqZ 0 n) = true →
  ∀ k b, 0 ≤ k < n → is_u8 b → P k b = true.
Proof.
  intros H k b Hk Hb. apply (forallb_seqZ (P k) 256); [|exact Hb].
  revert k Hk. apply (forallb_seqZ (λ k, forallb (P k) (seqZ 0 256))). exact H.
Qed.

Lemma rev32_combine bs : bytes bs → zlen bs = 4 → rev32 (le_combine bs) = be_combine bs.
Proof.
  intros Hbs Hl. rewrite <-(Z.shiftl_0_r (le_combine bs)). change 0 with (8 * 0).
  apply (reverse_bytes rev32 4); [apply bitwise_rev32|done| |done..].
  intros k b Hk Hb. apply Z.eqb_eq. revert k b Hk Hb.
  apply (forallb_positions (λ k b, rev32 (Z.shiftl b (8 * k)) =? Z.shiftl b (8 * (4 - 1 - k)))).
  by vm_compute.
Qed.

Lemma rev64_combine bs : bytes bs → zlen bs = 8 → rev64 (le_combine bs) = be_combine bs.
Proof.
  intros Hbs Hl. rewrite <-(Z.shiftl_0_r (le_combine bs)). change 0 with (8 * 0).
  apply (reverse_bytes rev64 8); [apply bitwise_rev64|done| |done..].
  intros k b Hk Hb. apply Z.eqb_eq. revert k b Hk Hb.
  apply (forallb_positions (λ k b, rev64 (Z.shiftl b (8 * k)) =? Z.shiftl b (8 * (8 - 1 - k)))).
  by vm_compute.
Qed.

(** Storing a reversed word writes its bytes most significant first. *)
Lemma le_split_rev32 w : is_u32 w → le_split 4 (rev32 w) = be_split 4 w.
Proof.
  intros Hw. assert (le_combine (le_split 4 w) = w) as Heq.
  { rewrite le_combine_split. apply Z.mod_small. exact Hw. }
  rewrite <-Heq at 1. rewrite rev32_combine by (apply le_split_bytes || done).
  apply le_split_combine; [apply Forall_reverse, le_split_bytes|done].
Qed.

Lemma le_split_rev64 w : 0 ≤ w < 2 ^ 64 → le_split 8 (rev64 w) = be_split 8 w.
Proof.
  intros Hw. assert (le_combine (le_split 8 w) = w) as Heq.
  { rewrite le_combine_split. apply Z.mod_small. exact Hw. }
  rewrite <-Heq at 1. rewrite rev64_combine by (apply le_split_bytes || done).
  apply le_split_combine; [apply Forall_reverse, le_split_bytes|done].
Qed.

Lemma rev32_u32 w : is_u32 w → is_u32 (rev32 w).
Proof.
  intros Hw. assert (le_combine (le_split 4 w) = w) as Heq.
  { rewrite le_combine_split. apply Z.mod_small. exact Hw. }
  rewrite <-Heq, rev32_combine by (apply le_split_bytes || done).
  apply (le_combine_range (reverse (le_split 4 w))).
  apply Forall_reverse, le_split_bytes.
Qed.
