(* ===== verification/Sha256.v ===== *)
(** RiotSha256.c and DiceSha256.c: the incremental SHA-256 of the RIoT and DICE
    cores. The two files hold the same code; they differ in the names and in
    asserts, which RiotTarget.h defines away.

    The host is little-endian (HOST_IS_LITTLE_ENDIAN) and [size_t] and
    [unsigned int] have 64 and 32 bits. *)
From S2P Require Export Words.

Definition SHA256_BLOCK_LENGTH : Z := 64.
Definition SHA256_DIGEST_LENGTH : Z := 32.
Definition SHA256_SHORT_BLOCK_LENGTH : Z := 56.
Definition HASH_MAGIC_VALUE : Z := 4645590985935642984.

(** The six logical functions, as the macros write them. *)
Definition R (b x : Z) : Z := Z.shiftr x b.
Definition S32 (b x : Z) : Z := Z.lor (Z.shiftr x b) (u32 (Z.shiftl x (32 - b))).
Definition Ch (x y z : Z) : Z := Z.lxor (Z.land x y) (Z.land (u32 (Z.lnot x)) z).
Definition Maj (x y z : Z) : Z :=
  Z.lxor (Z.lxor (Z.land x y) (Z.land x z)) (Z.land y z).
Definition Sigma0_256 (x : Z) : Z := Z.lxor (Z.lxor (S32 2 x) (S32 13 x)) (S32 22 x).
Definition Sigma1_256 (x : Z) : Z := Z.lxor (Z.lxor (S32 6 x) (S32 11 x)) (S32 25 x).
Definition sigma0_256 (x : Z) : Z := Z.lxor (Z.lxor (S32 7 x) (S32 18 x)) (R 3 x).
Definition sigma1_256 (x : Z) : Z := Z.lxor (Z.lxor (S32 17 x) (S32 19 x)) (R 10 x).

Definition K256 : list Z :=
  [
   1116352408; 1899447441; 3049323471; 3921009573; 961987163; 1508970993;
   2453635748; 2870763221; 3624381080; 310598401; 607225278; 1426881987;
   1925078388; 2162078206; 2614888103; 3248222580; 3835390401; 4022224774;
   264347078; 604807628; 770255983; 1249150122; 1555081692; 1996064986;
   2554220882; 2821834349; 2952996808; 3210313671; 3336571891; 3584528711;
   113926993; 338241895; 666307205; 773529912; 1294757372; 1396182291;
   1695183700; 1986661051; 2177026350; 2456956037; 2730485921; 2820302411;
   3259730800; 3345764771; 3516065817; 3600352804; 4094571909; 275423344;
   430227734; 506948616; 659060556; 883997877; 958139571; 1322822218;
   1537002063; 1747873779; 1955562222; 2024104815; 2227730452; 2361852424;
   2428436474; 2756734187; 3204031479; 3329325298].

Definition sha256_initial_hash_value : list Z :=
  [
   1779033703; 3144134277; 1013904242; 2773480762;
   1359893119; 2600822924; 528734635; 1541459225].

Record RIOT_SHA256_CONTEXT := mkSha {
  state : list Z;
  magic : Z;
  bitcount : Z;
  buffer : list Z }.

(** What Init leaves in a context, whatever it held. *)
Definition sha256_init_ctx : RIOT_SHA256_CONTEXT :=
  mkSha sha256_initial_hash_value HASH_MAGIC_VALUE 0 (replicate 64 0).

Definition RIOT_SHA256_Init (context : option RIOT_SHA256_CONTEXT)
    : option RIOT_SHA256_CONTEXT :=
  match context with
  | None => None
  | Some _ => Some sha256_init_ctx
  end.

(** * The compression function *)

(** The registers a to h. *)
Record regs := Regs { ra : Z; rb : Z; rc : Z; rd_ : Z; re : Z; rf : Z; rg : Z; rh : Z }.

Definition sha_round (r : regs) (k w : Z) : regs :=
  let T1 := u32 (rh r + Sigma1_256 (re r) + Ch (re r) (rf r) (rg r) + k + w) in
  let T2 := u32 (Sigma0_256 (ra r) + Maj (ra r) (rb r) (rc r)) in
  Regs (u32 (T1 + T2)) (ra r) (rb r) (rc r) (u32 (rd_ r + T1)) (re r) (rf r) (rg r).

(** The argument [data] of SHA256_Transform: the context's own buffer, which
    the function overwrites while it reads it, or other memory. *)
Inductive block_src :=
| FromBuffer
| FromData (m : list Z) (p : Z).

Definition src_word (src : block_src) (W256 : list Z) (j : Z) : outcome Z :=
  match src with
  | FromBuffer => rd W256 j
  | FromData m p => bs ← rd_bytes m (p + 4 * j) 4; Ok (le_combine bs)
  end.

(** The first loop, [n] rounds from round [j]. *)
Fixpoint transform_copy (n : nat) (j : Z) (src : block_src) (r : regs) (W256 : list Z)
    : outcome (regs * list Z) :=
  match n with
  | O => Ok (r, W256)
  | S n =>
    d ← src_word src W256 j;
    W256 ← wr W256 j (rev32 d);
    k ← rd K256 j;
    w ← rd W256 j;
    transform_copy n (j + 1) src (sha_round r k w) W256
  end.

(** The second loop: the message schedule in a circular buffer. *)
Fixpoint transform_expand (n : nat) (j : Z) (r : regs) (W256 : list Z)
    : outcome (regs * list Z) :=
  match n with
  | O => Ok (r, W256)
  | S n =>
    s0 ← rd W256 (Z.land (j + 1) 15);
    let s0 := sigma0_256 s0 in
    s1 ← rd W256 (Z.land (j + 14) 15);
    let s1 := sigma1_256 s1 in
    w9 ← rd W256 (Z.land (j + 9) 15);
    w0 ← rd W256 (Z.land j 15);
    let w := u32 (w0 + (s1 + w9 + s0)) in
    W256 ← wr W256 (Z.land j 15) w;
    k ← rd K256 j;
    transform_expand n (j + 1) (sha_round r k w) W256
  end.

Definition load_regs (st : list Z) : regs :=
  Regs (st !!! 0%nat) (st !!! 1%nat) (st !!! 2%nat) (st !!! 3%nat)
       (st !!! 4%nat) (st !!! 5%nat) (st !!! 6%nat) (st !!! 7%nat).

Definition add_regs (st : list Z) (r : regs) : list Z :=
  zip_with (λ s x, u32 (s + x)) st [ra r; rb r; rc r; rd_ r; re r; rf r; rg r; rh r].

Definition SHA256_Transform (context : RIOT_SHA256_CONTEXT) (src : block_src)
    : outcome RIOT_SHA256_CONTEXT :=
  let W256 := words_of_bytes 16 (buffer context) in
  '(r, W256) ← transform_copy 16 0 src (load_regs (state context)) W256;
  '(r, W256) ← transform_expand 48 16 r W256;
  Ok (mkSha (add_regs (state context) r) (magic context) (bitcount context)
        (bytes_of_words W256)).

(** * Update and Final *)

Definition set_buffer (b : list Z) (c : RIOT_SHA256_CONTEXT) : RIOT_SHA256_CONTEXT :=
  mkSha (state c) (magic c) (bitcount c) b.

Definition add_bits (n : Z) (c : RIOT_SHA256_CONTEXT) : RIOT_SHA256_CONTEXT :=
  mkSha (state c) (magic c) (u64 (bitcount c + n)) (buffer c).

(** The loop over complete blocks, from [data + p]; a round consumes a block. *)
Fixpoint update_blocks (fuel : nat) (context : RIOT_SHA256_CONTEXT) (data : list Z)
    (p len : Z) : outcome (RIOT_SHA256_CONTEXT * Z * Z) :=
  if SHA256_BLOCK_LENGTH <=? len then
    match fuel with
    | O => Ub OutOfFuel
    | S fuel =>
      context ← SHA256_Transform context (FromData data p);
      let context := add_bits (Z.shiftl SHA256_BLOCK_LENGTH 3) context in
      update_blocks fuel context data (p + SHA256_BLOCK_LENGTH) (len - SHA256_BLOCK_LENGTH)
    end
  else Ok (context, p, len).

(** The end of Update: complete blocks, then the left-overs. *)
Definition update_rest (context : RIOT_SHA256_CONTEXT) (data : list Z) (p len : Z)
    : outcome RIOT_SHA256_CONTEXT :=
  '(context, p, len) ← update_blocks (Z.to_nat len) context data p len;
  if 0 <? len then
    bs ← rd_bytes data p len;
    b ← wr_bytes (buffer context) 0 bs;
    Ok (add_bits (u64 (Z.shiftl len 3)) (set_buffer b context))
  else Ok context.

Definition usedspace_of (context : RIOT_SHA256_CONTEXT) : Z :=
  u32 (Z.shiftr (bitcount context) 3 mod SHA256_BLOCK_LENGTH).

Definition RIOT_SHA256_Update (context : RIOT_SHA256_CONTEXT) (data : list Z) (len : Z)
    : outcome RIOT_SHA256_CONTEXT :=
  if len =? 0 then Ok context else
  let usedspace := usedspace_of context in
  if 0 <? usedspace then
    let freespace := u32 (SHA256_BLOCK_LENGTH - usedspace) in
    if freespace <=? len then
      bs ← rd_bytes data 0 freespace;
      b ← wr_bytes (buffer context) usedspace bs;
      let context := add_bits (u32 (Z.shiftl freespace 3)) (set_buffer b context) in
      context ← SHA256_Transform context FromBuffer;
      update_rest context data freespace (len - freespace)
    else
      bs ← rd_bytes data 0 len;
      b ← wr_bytes (buffer context) usedspace bs;
      Ok (add_bits (u64 (Z.shiftl len 3)) (set_buffer b context))
  else update_rest context data 0 len.

(** [memset(&buffer[p], 0, n)] *)
Definition clear_buffer (p n : Z) (b : list Z) : outcome (list Z) :=
  wr_bytes b p (replicate (Z.to_nat n) 0).

(** The padding of Final: the context before the bit count is stored. *)
Definition final_pad (context : RIOT_SHA256_CONTEXT) (usedspace : Z)
    : outcome RIOT_SHA256_CONTEXT :=
  if 0 <? usedspace then
    b ← wr (buffer context) usedspace 128;
    let usedspace := usedspace + 1 in
    if usedspace <=? SHA256_SHORT_BLOCK_LENGTH then
      b ← clear_buffer usedspace (SHA256_SHORT_BLOCK_LENGTH - usedspace) b;
      Ok (set_buffer b context)
    else
      b ← (if usedspace <? SHA256_BLOCK_LENGTH
           then clear_buffer usedspace (SHA256_BLOCK_LENGTH - usedspace) b else Ok b);
      context ← SHA256_Transform (set_buffer b context) FromBuffer;
      b ← clear_buffer 0 SHA256_SHORT_BLOCK_LENGTH (buffer context);
      Ok (set_buffer b context)
  else
    b ← clear_buffer 0 SHA256_SHORT_BLOCK_LENGTH (buffer context);
    b ← wr b 0 128;
    Ok (set_buffer b context).

(** [*d++ = ...] for the eight reversed state words. *)
Fixpoint store_words (ws : list Z) (d : list Z) (p : Z) : outcome (list Z) :=
  match ws with
  | [] => Ok d
  | w :: ws => d ← wr_bytes d p (le_split 4 w); store_words ws d (p + 4)
  end.

(** All bytes of the context set to 0. *)
Definition sha256_clear_ctx : RIOT_SHA256_CONTEXT :=
  mkSha (replicate 8 0) 0 0 (replicate 64 0).

(** [digest] is the memory the digest pointer can write, or NULL. *)
Definition RIOT_SHA256_Final (context : RIOT_SHA256_CONTEXT) (digest : option (list Z))
    : outcome (RIOT_SHA256_CONTEXT * option (list Z)) :=
  match digest with
  | None => Ok (sha256_clear_ctx, None)
  | Some d =>
    let usedspace := usedspace_of context in
    let context := mkSha (state context) (magic context) (rev64 (bitcount context))
                     (buffer context) in
    context ← final_pad context usedspace;
    b ← wr_bytes (buffer context) SHA256_SHORT_BLOCK_LENGTH (le_split 8 (bitcount context));
    context ← SHA256_Transform (set_buffer b context) FromBuffer;
    d ← store_words (rev32 <$> state context) d 0;
    Ok (sha256_clear_ctx, Some d)
  end.

Definition RIOT_SHA256_Block_ctx (buf : list Z) (bufSize : Z) (digest : option (list Z))
    : outcome (RIOT_SHA256_CONTEXT * option (list Z)) :=
  context ← RIOT_SHA256_Update sha256_init_ctx buf bufSize;
  RIOT_SHA256_Final context digest.

(** The digest left by RIOT_SHA256_Block; its context is a local. *)
Definition RIOT_SHA256_Block (buf : list Z) (bufSize : Z) (digest : option (list Z))
    : outcome (option (list Z)) :=
  '(_, digest) ← RIOT_SHA256_Block_ctx buf bufSize digest;
  Ok digest.

(** * DiceSha256.c *)
Definition DICE_SHA256_Init := RIOT_SHA256_Init.
Definition DICE_SHA256_Transform := SHA256_Transform.
Definition DICE_SHA256_Update := RIOT_SHA256_Update.
Definition DICE_SHA256_Final := RIOT_SHA256_Final.
Definition DiceSHA256Ctx := RIOT_SHA256_Block_ctx.
Definition DiceSHA256 := RIOT_SHA256_Block.

Definition DiceSHA256_2 (buf1 : list Z) (bufSize1 : Z) (buf2 : list Z) (bufSize2 : Z)
    (digest : option (list Z)) : outcome (option (list Z)) :=
  context ← DICE_SHA256_Update sha256_init_ctx buf1 bufSize1;
  context ← DICE_SHA256_Update context buf2 bufSize2;
  '(_, digest) ← DICE_SHA256_Final context digest;
  Ok digest.
