(* ===== verification/Sha256Spec.v ===== *)
(** FIPS 180-4 SHA-256 as a function of the whole message, and the refinement:
    the circular message schedule, the incremental buffering and the padding of
    Sha256.v compute it for every division of the message into updates. *)
From S2P Require Export Sha256.

(** * Specification *)

Module Fips.

(** The message schedule: 48 words appended to the 16 of the block. *)
Definition next_word (l : list Z) : Z :=
  let t := length l in
  u32 (sigma1_256 (l !!! (t - 2)%nat) + l !!! (t - 7)%nat
       + sigma0_256 (l !!! (t - 15)%nat) + l !!! (t - 16)%nat).

Fixpoint extend (n : nat) (l : list Z) : list Z :=
  match n with
  | O => l
  | S n => extend n (l ++ [next_word l])
  end.

Definition rounds (ws : list Z) (r : regs) (ts : list nat) : regs :=
  fold_left (λ r t, sha_round r (K256 !!! t) (ws !!! t)) ts r.

Fixpoint be_words (n : nat) (bs : list Z) : list Z :=
  match n with
  | O => []
  | S n => be_combine (take 4 bs) :: be_words n (drop 4 bs)
  end.

(** The hash value after one 64-byte block. *)
Definition compress (st block : list Z) : list Z :=
  let ws := extend 48 (be_words 16 block) in
  add_regs st (rounds ws (load_regs st) (seq 0 64)).

Fixpoint blocks (n : nat) (st m : list Z) : list Z :=
  match n with
  | O => st
  | S n => blocks n (compress st (take 64 m)) (drop 64 m)
  end.

(** Appends a 1 bit, zeros and the bit length, up to a multiple of 64 bytes. *)
Definition pad (m : list Z) : list Z :=
  m ++ [128] ++ replicate (Z.to_nat ((55 - zlen m) mod 64)) 0 ++ be_split 8 (8 * zlen m).

Definition sha256 (m : list Z) : list Z :=
  let p := pad m in
  concat (be_split 4 <$> blocks (length p / 64) sha256_initial_hash_value p).
End Fips.

(** * The compression function *)

Lemma rd_total (m : list Z) (i : nat) : (i < length m)%nat → rd m (Z.of_nat i) = Ok (m !!! i).
Proof.
  intros Hi. unfold rd. rewrite (proj2 (Z.ltb_ge _ _)), Nat2Z.id by lia.
  destruct (lookup_lt_is_Some_2 m i Hi) as [v Hv].
  by rewrite Hv, (list_lookup_total_correct _ _ _ Hv).
Qed.

Lemma wr_insert {A} (m : list A) (i : nat) v :
  (i < length m)%nat → wr m (Z.of_nat i) v = Ok (<[i := v]> m).
Proof.
  intros Hi. unfold wr, zlen.
  by rewrite (proj2 (Z.leb_le _ _)), (proj2 (Z.ltb_lt _ _)), Nat2Z.id by lia.
Qed.

(** The rounds over words [ws] continue those over their extension. *)
Lemma rounds_app ws r ts us :
  Fips.rounds ws r (ts ++ us) = Fips.rounds ws (Fips.rounds ws r ts) us.
Proof. apply fold_left_app. Qed.

Lemma rounds_ext ws ws' r ts :
  (∀ t, t ∈ ts → ws !!! t = ws' !!! t) → Fips.rounds ws r ts = Fips.rounds ws' r ts.
Proof.
  unfold Fips.rounds. revert r. induction ts as [|t ts IH]; intros r Heq; [done|].
  cbn [fold_left]. rewrite Heq by left. apply IH. intros u Hu. apply Heq. by right.
Qed.

Lemma extend_prefix n : ∀ l, ∃ k, Fips.extend n l = l ++ k.
Proof.
  induction n as [|n IH]; intros l; cbn; [exists []; by rewrite app_nil_r|].
  destruct (IH (l ++ [Fips.next_word l])) as [k ->]. exists (Fips.next_word l :: k).
  by rewrite <-app_assoc.
Qed.

Lemma extend_lookup n l t : (t < length l)%nat → Fips.extend n l !!! t = l !!! t.
Proof.
  intros Ht. destruct (extend_prefix n l) as [k ->]. by apply lookup_total_app_l.
Qed.

(** The copying loop: registers after rounds [j..15], and the block's words. *)
Lemma transform_copy_spec src d : length d = 16%nat → ∀ n (j : nat) r W,
  (n + j = 16)%nat → length W = 16%nat →
  (∀ W', length W' = 16%nat → drop j W' = drop j W → ∀ i, (j ≤ i < 16)%nat →
    src_word src W' (Z.of_nat i) = Ok (d !!! i)) →
  transform_copy n (Z.of_nat j) src r W
  = Ok (Fips.rounds (rev32 <$> d) r (seq j n), take j W ++ (rev32 <$> drop j d)).
Proof.
  intros Hd. induction n as [|n IH]; intros j r W Hj HW Hsrc.
  { cbn. by rewrite take_ge, drop_ge, app_nil_r by lia. }
  cbn [transform_copy seq]. rewrite (Hsrc W) by (done || lia). rewrite bind_Ok.
  rewrite wr_insert, bind_Ok by lia.
  rewrite (rd_total K256), bind_Ok by (change (length K256) with 64%nat; lia).
  rewrite rd_total, bind_Ok by (rewrite length_insert; lia).
  rewrite list_lookup_total_insert_eq by lia.
  replace (Z.of_nat j + 1) with (Z.of_nat (S j)) by lia.
  rewrite IH; [|lia|by rewrite length_insert|].
  - f_equal. f_equal.
    + unfold Fips.rounds. cbn [fold_left]. do 2 f_equal.
      by rewrite (list_lookup_total_fmap rev32 d j) by lia.
    + rewrite (take_S_r _ j (rev32 (d !!! j))) by (by rewrite list_lookup_insert_eq by lia).
      rewrite take_insert_ge, <-app_assoc by lia. f_equal.
      rewrite (drop_S d (d !!! j) j) by (apply list_lookup_lookup_total_lt; lia). done.
  - intros W' HW' Hdrop i Hi.
    assert (∃ x, W' !! j = Some x) as [x Hx] by (apply lookup_lt_is_Some_2; lia).
    rewrite drop_insert_lt in Hdrop by lia.
    assert (W' !! i = W !! i) as Hi'.
    { replace i with (S j + (i - S j))%nat by lia. by rewrite <-!lookup_drop, Hdrop. }
    rewrite <-(Hsrc (<[j := W !!! j]> W')); [|by rewrite length_insert| |lia].
    2:{ rewrite (drop_S (<[j:=W !!! j]> W') (W !!! j) j), drop_insert_lt, Hdrop
          by (lia || by rewrite list_lookup_insert_eq by lia).
        by rewrite <-(drop_S W (W !!! j) j) by (apply list_lookup_lookup_total_lt; lia). }
    destruct src; [|done]. cbn. unfold rd.
    rewrite !(proj2 (Z.ltb_ge _ _)), !Nat2Z.id by lia. by rewrite list_lookup_insert_ne by lia.
Qed.

Lemma land_15 (j c : nat) : Z.land (Z.of_nat j + Z.of_nat c) 15 = Z.of_nat ((j + c) mod 16).
Proof. rewrite (Z.land_ones _ 4) by lia. by rewrite Nat2Z.inj_mod, Nat2Z.inj_add. Qed.

(** Reading the circular buffer at distance [c] ahead of round [j] gives the
    schedule word of round [j - 16 + c]. *)
Definition window (W l : list Z) : Prop :=
  length W = 16%nat ∧ (16 ≤ length l)%nat ∧
  ∀ i, (length l - 16 ≤ i < length l)%nat → W !!! (i mod 16)%nat = l !!! i.

Lemma window_rd W l (c : nat) : window W l → (c < 16)%nat →
  rd W (Z.land (Z.of_nat (length l) + Z.of_nat c) 15) = Ok (l !!! (length l - (16 - c))%nat).
Proof.
  intros (HW & Hl & Hwin) Hc. rewrite land_15.
  rewrite rd_total by (rewrite HW; apply Nat.mod_upper_bound; lia). f_equal.
  rewrite <-Hwin by lia. f_equal.
  replace (length l + c)%nat with (length l - (16 - c) + 1 * 16)%nat by lia.
  by rewrite Nat.Div0.mod_add.
Qed.

Lemma window_step W l x : window W l →
  window (<[(length l mod 16)%nat := x]> W) (l ++ [x]).
Proof.
  intros (HW & Hl & Hwin). pose proof (Nat.mod_upper_bound (length l) 16 ltac:(lia)).
  split_and!; rewrite ?length_insert, ?length_app; cbn [length]; [done|lia|].
  intros i Hi. destruct (decide (i = length l)) as [->|Hne].
  - rewrite list_lookup_total_insert_eq by lia.
    by rewrite lookup_total_app_r, Nat.sub_diag by lia.
  - rewrite list_lookup_total_insert_ne.
    + rewrite lookup_total_app_l by lia. apply Hwin. lia.
    + intros Heq. pose proof (Nat.div_mod_eq i 16). pose proof (Nat.div_mod_eq (length l) 16).
      lia.
Qed.

Lemma transform_expand_spec n : ∀ r W l,
  (n + length l = 64)%nat → window W l →
  ∃ W', transform_expand n (Z.of_nat (length l)) r W
    = Ok (Fips.rounds (Fips.extend n l) r (seq (length l) n), W') ∧ length W' = 16%nat.
Proof.
  induction n as [|n IH]; intros r W l Hn Hw; [exists W; split; [done|apply Hw]|].
  pose proof Hw as (HW & Hl & _). cbn [transform_expand].
  pose proof (window_rd W l 1 Hw ltac:(lia)) as H1.
  pose proof (window_rd W l 14 Hw ltac:(lia)) as H14.
  pose proof (window_rd W l 9 Hw ltac:(lia)) as H9.
  pose proof (window_rd W l 0 Hw ltac:(lia)) as H0.
  change (Z.of_nat 1) with 1 in H1. change (Z.of_nat 14) with 14 in H14.
  change (Z.of_nat 9) with 9 in H9. rewrite Z.add_0_r in H0. cbn [Nat.sub] in *.
  rewrite H1, bind_Ok, H14, bind_Ok, H9, bind_Ok, H0, bind_Ok.
  assert (u32 (l !!! (length l - 16)%nat + (sigma1_256 (l !!! (length l - 2)%nat)
    + l !!! (length l - 7)%nat + sigma0_256 (l !!! (length l - 15)%nat)))
    = Fips.next_word l) as -> by (unfold Fips.next_word; f_equal; lia).
  pose proof (land_15 (length l) 0) as Hland. rewrite Z.add_0_r, Nat.add_0_r in Hland.
  rewrite Hland, wr_insert, bind_Ok by (rewrite HW; apply Nat.mod_upper_bound; lia).
  rewrite (rd_total K256), bind_Ok by (change (length K256) with 64%nat; lia).
  destruct (IH (sha_round r (K256 !!! length l) (Fips.next_word l))
    (<[(length l mod 16)%nat := Fips.next_word l]> W) (l ++ [Fips.next_word l]))
    as (W' & HIH & HW'); [rewrite length_app; cbn; lia|by apply window_step|].
  exists W'. split; [|done]. rewrite length_app in HIH. cbn [length] in HIH.
  replace (Z.of_nat (length l) + 1) with (Z.of_nat (length l + 1)) by lia.
  rewrite HIH. f_equal. f_equal. cbn [seq Fips.extend]. rewrite Nat.add_1_r.
  unfold Fips.rounds. cbn [fold_left]. do 2 f_equal.
  rewrite extend_lookup by (rewrite length_app; cbn; lia).
  by rewrite lookup_total_app_r, Nat.sub_diag by lia.
Qed.

(** The words of a block of memory, as the copying loop converts them. *)
Lemma rev32_words n bs : bytes bs → (4 * n ≤ length bs)%nat →
  rev32 <$> words_of_bytes n bs = Fips.be_words n bs.
Proof.
  revert bs. induction n as [|n IH]; intros bs Hbs Hl; [done|].
  cbn [words_of_bytes Fips.be_words fmap list_fmap]. f_equal.
  - apply rev32_combine; [by apply Forall_take|]. unfold zlen. rewrite length_take. lia.
  - apply IH; [by apply Forall_drop|]. rewrite length_drop. lia.
Qed.

Lemma length_be_words n bs : length (Fips.be_words n bs) = n.
Proof. revert bs. induction n as [|n IH]; intros bs; cbn; [done|]. by rewrite IH. Qed.

Lemma window_initial d : length d = 16%nat → window d d.
Proof.
  intros Hd. split_and!; [done|lia|]. intros i Hi. rewrite Nat.mod_small by lia. done.
Qed.

(** What a source of block [blk] provides. *)
Definition provides (src : block_src) (c : RIOT_SHA256_CONTEXT) (blk : list Z) : Prop :=
  bytes blk ∧ length blk = 64%nat ∧
  match src with
  | FromBuffer => buffer c = blk
  | FromData m p => 0 ≤ p ∧ p + 64 ≤ zlen m ∧ has m p blk
  end.

Lemma words_of_bytes_lookup n : ∀ bs i, (i < n)%nat →
  words_of_bytes n bs !!! i = le_combine (take 4 (drop (4 * i) bs)).
Proof.
  induction n as [|n IH]; intros bs i Hi; [lia|]. destruct i as [|i]; [done|].
  cbn [words_of_bytes]. change ((?x :: ?l) !!! S i) with (l !!! i).
  rewrite IH, drop_drop by lia. do 3 f_equal. lia.
Qed.

Lemma src_word_provides src c blk (j : nat) W' :
  provides src c blk →
  length W' = 16%nat → drop j W' = drop j (words_of_bytes 16 (buffer c)) →
  ∀ i, (j ≤ i < 16)%nat → src_word src W' (Z.of_nat i) = Ok (words_of_bytes 16 blk !!! i).
Proof.
  intros (Hb & Hl & Hsrc) HW Hdrop i Hi. destruct src as [|m p]; cbn [src_word].
  - subst blk. rewrite rd_total by lia. f_equal. rewrite !list_lookup_total_alt. f_equal.
    replace i with (j + (i - j))%nat by lia. by rewrite <-!lookup_drop, Hdrop.
  - destruct Hsrc as (Hp & Hpm & H). rewrite words_of_bytes_lookup by lia.
    assert (has m (p + 4 * Z.of_nat i) (take 4 (drop (4 * i) blk))) as H4.
    { rewrite <-(take_drop (4 * i) blk) in H. apply has_app in H as [_ H].
      rewrite <-(take_drop 4 (drop (4 * i) blk)) in H. apply has_app in H as [H _].
      unfold zlen in H. rewrite length_take, Nat.min_l in H by lia.
      by replace (p + Z.of_nat (4 * i)) with (p + 4 * Z.of_nat i) in H by lia. }
    assert (zlen (take 4 (drop (4 * i) blk)) = 4) as Hz
      by (unfold zlen; rewrite length_take, length_drop; lia).
    pose proof (rd_bytes_has _ _ _ H4 ltac:(lia)) as Hrd. rewrite Hz in Hrd. by rewrite Hrd.
Qed.

Lemma seq_rounds : seq 0 64 = seq 0 16 ++ seq 16 48.
Proof. reflexivity. Qed.

Lemma rounds_split ws ext r ts us :
  (∀ t, t ∈ ts → ext !!! t = ws !!! t) →
  Fips.rounds ext r (ts ++ us) = Fips.rounds ext (Fips.rounds ws r ts) us.
Proof. intros Heq. rewrite rounds_app. by rewrite (rounds_ext ext ws r ts Heq). Qed.

(** The two loops: 16 rounds on the block, 48 on its extension. *)
Lemma compress_split st blk :
  let ws := Fips.be_words 16 blk in
  Fips.compress st blk = add_regs st (Fips.rounds (Fips.extend 48 ws)
    (Fips.rounds ws (load_regs st) (seq 0 16)) (seq 16 48)).
Proof.
  intros ws. unfold Fips.compress. fold ws. rewrite seq_rounds, (rounds_split ws); [reflexivity|].
  intros t Ht. apply extend_lookup. apply elem_of_seq in Ht.
  unfold ws. rewrite length_be_words. lia.
Qed.

Lemma SHA256_Transform_spec c src blk :
  length (state c) = 8%nat → length (buffer c) = 64%nat → provides src c blk →
  ∃ b, SHA256_Transform c src
    = Ok (mkSha (Fips.compress (state c) blk) (magic c) (bitcount c) b)
    ∧ length b = 64%nat ∧ bytes b.
Proof.
  intros Hst Hbuf Hsrc. unfold SHA256_Transform. pose proof Hsrc as (Hb & Hl & _).
  set (d := words_of_bytes 16 blk).
  rewrite (transform_copy_spec src d (length_words_of_bytes _ _) 16 0); [|lia| |].
  2:{ apply length_words_of_bytes. }
  2:{ intros W' HW' Hd i Hi. by eapply (src_word_provides src c blk 0). }
  rewrite bind_Ok, drop_0, take_0. cbn [app]. set (ws := Fips.be_words 16 blk).
  assert (rev32 <$> d = ws) as -> by (apply rev32_words; [done|lia]).
  assert (length ws = 16%nat) as Hws by apply length_be_words.
  destruct (transform_expand_spec 48 (Fips.rounds ws (load_regs (state c)) (seq 0 16))
    ws ws) as (W' & Hexp & HW'); [lia|by apply window_initial|].
  rewrite Hws in Hexp. change (Z.of_nat 16) with 16 in Hexp. rewrite Hexp, bind_Ok.
  rewrite compress_split by done. fold ws.
  exists (bytes_of_words W'). split; [done|].
  split; [by rewrite length_bytes_of_words, HW'|apply bytes_of_words_bytes].
Qed.

(** * Incremental hashing *)

(** The context holds the hash state of message [m]: the complete blocks are
    compressed, the left-over bytes wait at the start of the buffer. *)
Record hashing (c : RIOT_SHA256_CONTEXT) (m : list Z) : Prop := {
  h_bytes : bytes m;
  h_state : state c = Fips.blocks (length m / 64) sha256_initial_hash_value m;
  h_len : length (state c) = 8%nat;
  h_count : bitcount c = u64 (8 * zlen m);
  h_buffer : length (buffer c) = 64%nat ∧ bytes (buffer c);
  h_rest : take (length m mod 64) (buffer c) = drop (64 * (length m / 64)) m }.

Lemma length_compress st blk : length st = 8%nat → length (Fips.compress st blk) = 8%nat.
Proof. intros Hst. unfold Fips.compress, add_regs. rewrite length_zip_with, Hst. done. Qed.

Lemma blocks_app n k st m :
  Fips.blocks (n + k) st m = Fips.blocks k (Fips.blocks n st m) (drop (64 * n) m).
Proof.
  revert st m. induction n as [|n IH]; intros st m; [done|].
  cbn [Nat.add Fips.blocks]. rewrite IH, drop_drop. do 2 f_equal. lia.
Qed.

Lemma blocks_prefix n st m k : (64 * n ≤ length m)%nat →
  Fips.blocks n st (m ++ k) = Fips.blocks n st m.
Proof.
  revert st m. induction n as [|n IH]; intros st m Hm; [done|]. cbn [Fips.blocks].
  rewrite take_app_le, drop_app_le by lia. apply IH. rewrite length_drop. lia.
Qed.

Lemma hashing_init : hashing sha256_init_ctx [].
Proof.
  split; try done. split; [done|]. by apply Forall_replicate.
Qed.

Lemma u64_add_l x y : u64 (u64 x + y) = u64 (x + y).
Proof. unfold u64. apply Z.add_mod_idemp_l. lia. Qed.

(** Compressing the left-over bytes completed to a block by [k]. *)
Lemma hashing_block c m k src c1 :
  hashing c m → bytes k → (length m mod 64 + length k = 64)%nat →
  state c1 = state c → length (buffer c1) = 64%nat →
  provides src c1 (drop (64 * (length m / 64)) m ++ k) →
  ∃ b, SHA256_Transform c1 src
    = Ok (mkSha (Fips.blocks (length (m ++ k) / 64) sha256_initial_hash_value (m ++ k))
            (magic c1) (bitcount c1) b)
    ∧ length b = 64%nat ∧ bytes b.
Proof.
  intros [Hm Hst Hl _ _ _] Hk Hmk Hst1 Hbuf Hsrc.
  destruct (SHA256_Transform_spec c1 src _ ltac:(by rewrite Hst1) Hbuf Hsrc) as (b & -> & Hb).
  exists b. split; [|done]. rewrite Hst1, Hst.
  pose proof (Nat.div_mod_eq (length m) 64).
  assert (length (m ++ k) / 64 = length m / 64 + 1)%nat as ->.
  { rewrite length_app. symmetry. apply (Nat.div_unique _ _ _ 0); lia. }
  rewrite blocks_app, blocks_prefix by lia. cbn [Fips.blocks].
  rewrite drop_app_le by lia. rewrite take_ge; [done|].
  rewrite length_app, length_drop. lia.
Qed.

(** A context in such a state hashes the longer message. *)
Lemma hashing_aligned m st mg n b :
  bytes m → (length m mod 64 = 0)%nat → length st = 8%nat →
  st = Fips.blocks (length m / 64) sha256_initial_hash_value m →
  n = u64 (8 * zlen m) → length b = 64%nat → bytes b → hashing (mkSha st mg n b) m.
Proof.
  intros Hm Hmod Hl Hst Hn Hb Hbb. split; try done. cbn [buffer]. rewrite Hmod.
  symmetry. apply drop_ge. pose proof (Nat.div_mod_eq (length m) 64). lia.
Qed.

Lemma length_blocks n st m : length st = 8%nat → length (Fips.blocks n st m) = 8%nat.
Proof.
  revert st m. induction n as [|n IH]; intros st m Hst; [done|].
  apply IH. by apply length_compress.
Qed.

(** Bytes that do not complete a block are appended to the buffer. *)
Lemma hashing_append c m k b :
  hashing c m → bytes k → (length m mod 64 + length k < 64)%nat →
  wr_bytes (buffer c) (Z.of_nat (length m mod 64)) k = Ok b →
  hashing (add_bits (8 * zlen k) (set_buffer b c)) (m ++ k).
Proof.
  intros [Hm Hst Hl Hc [Hb1 Hb2] Hr] Hk Hmk Hw. rewrite wr_bytes_splice in Hw by lia.
  destruct (Z.leb_spec (Z.of_nat (length m mod 64) + zlen k) (zlen (buffer c))) as [Hle|]; [|done].
  injection Hw as <-. pose proof (Nat.div_mod_eq (length m) 64) as Hdiv.
  assert (length (m ++ k) / 64 = length m / 64)%nat as Hq.
  { rewrite length_app. symmetry. apply (Nat.div_unique _ _ _ (length m mod 64 + length k)); lia. }
  assert (length (m ++ k) mod 64 = length m mod 64 + length k)%nat as Hrem.
  { rewrite length_app. symmetry. apply (Nat.mod_unique _ _ (length m / 64)); lia. }
  split; cbn [state bitcount buffer add_bits set_buffer].
  - by apply Forall_app.
  - rewrite Hq, blocks_prefix by lia. done.
  - done.
  - rewrite Hc, u64_add_l, zlen_app. f_equal. lia.
  - pose proof (zlen_splice (buffer c) (Z.of_nat (length m mod 64)) k ltac:(lia) Hle) as Hz.
    unfold zlen in Hz. split; [lia|]. unfold splice, ztake, zdrop.
    repeat apply Forall_app_2; [by apply Forall_take|done|by apply Forall_drop].
  - rewrite Hq, Hrem, drop_app_le, <-Hr by lia. unfold splice, ztake, zdrop.
    rewrite Nat2Z.id, app_assoc. apply take_app_length'.
    rewrite length_app, length_take. lia.
Qed.

Lemma usedspace_spec c m : hashing c m → usedspace_of c = Z.of_nat (length m mod 64).
Proof.
  intros [_ _ _ Hc _ _]. unfold usedspace_of, SHA256_BLOCK_LENGTH. rewrite Hc.
  rewrite Z.shiftr_div_pow2 by lia. change (2 ^ 3) with 8.
  rewrite Nat2Z.inj_mod. fold (zlen m). unfold u64, u32. change (Z.of_nat 64) with 64.
  pose proof (zlen_nonneg m). dlia.
Qed.

Lemma has_take_64 (m : list Z) p k : has m p k → p ≤ zlen m → 64 ≤ zlen k →
  has m p (take 64 k) ∧ has m (p + 64) (drop 64 k) ∧ length (take 64 k) = 64%nat
  ∧ p + 64 ≤ zlen m ∧ zlen (drop 64 k) = zlen k - 64.
Proof.
  intros H Hp Hk. pose proof (has_bound _ _ _ H Hp).
  assert (length (take 64 k) = 64%nat) as Hl by (rewrite length_take; unfold zlen in *; lia).
  rewrite <-(take_drop 64 k) in H. apply has_app in H as [H1 H2].
  unfold zlen in H2. rewrite Hl in H2. split_and!; [done..|lia|].
  unfold zlen in *. rewrite length_drop. lia.
Qed.

Lemma update_blocks_spec data fuel : ∀ c m p k,
  hashing c m → (length m mod 64 = 0)%nat → bytes k → has data p k → p ≤ zlen data →
  zlen k ≤ Z.of_nat fuel →
  ∃ c' k1 k2, k = k1 ++ k2 ∧ zlen k2 < 64 ∧
    update_blocks fuel c data p (zlen k) = Ok (c', p + zlen k1, zlen k2) ∧
    hashing c' (m ++ k1) ∧ (length (m ++ k1) mod 64 = 0)%nat.
Proof.
  induction fuel as [|fuel IH]; intros c m p k Hc Hm Hk Hd Hp Hf;
    pose proof (zlen_nonneg k); cbn [update_blocks]; unfold SHA256_BLOCK_LENGTH;
    destruct (Z.leb_spec 64 (zlen k)) as [H64|H64]; try lia;
    try (exists c, [], k; rewrite app_nil_r, Z.add_0_r; by split_and!).
  destruct (has_take_64 _ _ _ Hd Hp H64) as (H1 & H2 & Hl & Hpd & Hz).
  pose proof (Nat.div_mod_eq (length m) 64) as Hdiv.
  assert (drop (64 * (length m / 64)) m = []) as Hnil by (apply drop_ge; lia).
  destruct (hashing_block c m (take 64 k) (FromData data p) c Hc) as (b & -> & Hb & Hbb);
    [by apply Forall_take|lia|done|apply Hc| |].
  { rewrite Hnil. cbn [app]. split_and!; [by apply Forall_take|done|apply H1|done|done]. }
  rewrite bind_Ok. set (c1 := add_bits _ _).
  assert (length (m ++ take 64 k) mod 64 = 0)%nat as Hmod.
  { rewrite length_app, Hl, <-(Nat.mul_1_l 64) at 1. by rewrite Nat.Div0.mod_add. }
  assert (hashing c1 (m ++ take 64 k)) as Hc1.
  { apply hashing_aligned; try done.
    - apply Forall_app. split; [apply Hc|by apply Forall_take].
    - by apply length_blocks.
    - cbn [bitcount]. rewrite (h_count _ _ Hc). rewrite u64_add_l, zlen_app. f_equal. unfold zlen at 3. rewrite Hl.
      change (Z.shiftl 64 3) with 512. lia. }
  destruct (IH c1 (m ++ take 64 k) (p + 64) (drop 64 k) Hc1 Hmod) as
    (c' & k1 & k2 & Hk12 & Hk2 & Hu & Hh & Hm'); [by apply Forall_drop|done|lia|lia|].
  rewrite <-Hz, Hu. exists c', (take 64 k ++ k1), k2. split_and!.
  - by rewrite <-app_assoc, <-Hk12, take_drop.
  - done.
  - do 3 f_equal. rewrite zlen_app. unfold zlen at 2. rewrite Hl. lia.
  - by rewrite app_assoc.
  - by rewrite app_assoc.
Qed.

Lemma update_rest_spec c m data p k :
  hashing c m → (length m mod 64 = 0)%nat → bytes k → has data p k → p ≤ zlen data →
  ∃ c', update_rest c data p (zlen k) = Ok c' ∧ hashing c' (m ++ k).
Proof.
  intros Hc Hm Hk Hd Hp. unfold update_rest.
  destruct (update_blocks_spec data (Z.to_nat (zlen k)) c m p k Hc Hm Hk Hd Hp)
    as (c1 & k1 & k2 & -> & Hk2 & -> & Hc1 & Hm1); [pose proof (zlen_nonneg k); lia|].
  rewrite bind_Ok. apply Forall_app in Hk as [Hk1 Hk2b]. pose proof (zlen_nonneg k1).
  rewrite app_assoc. destruct (Z.ltb_spec 0 (zlen k2)) as [Hpos|Hnil].
  2:{ assert (k2 = []) as -> by (destruct k2; [done|rewrite zlen_cons in Hnil;
        pose proof (zlen_nonneg k2); lia]).
      exists c1. by rewrite app_nil_r. }
  apply has_app in Hd as [Hd1 Hd2].
  rewrite rd_bytes_has, bind_Ok by (done || by eapply has_bound).
  pose proof (h_buffer _ _ Hc1) as [Hb1 _].
  assert (∃ b, wr_bytes (buffer c1) 0 k2 = Ok b) as [b Hw].
  { rewrite wr_bytes_splice by lia. rewrite (proj2 (Z.leb_le _ _)); [by eexists|].
    unfold zlen in *. lia. }
  rewrite Hw, bind_Ok. eexists. split; [done|].
  rewrite Z.shiftl_mul_pow2 by lia. change (2 ^ 3) with 8.
  assert (add_bits (u64 (zlen k2 * 8)) (set_buffer b c1)
    = add_bits (8 * zlen k2) (set_buffer b c1)) as ->.
  { unfold add_bits. f_equal. rewrite Z.add_comm, u64_add_l. f_equal. lia. }
  apply hashing_append; [done..| |by rewrite Hm1].
  unfold zlen in *. lia.
Qed.

(** A full buffer: the left-over bytes and [k]. *)
Lemma fill_splice c m k :
  hashing c m → (length m mod 64 + length k = 64)%nat →
  splice (buffer c) (Z.of_nat (length m mod 64)) k = drop (64 * (length m / 64)) m ++ k.
Proof.
  intros Hc Hk. destruct (h_buffer _ _ Hc) as [Hb _].
  unfold splice. rewrite zdrop_all, app_nil_r by (unfold zlen; lia).
  unfold ztake. by rewrite Nat2Z.id, (h_rest _ _ Hc).
Qed.

Lemma fill_buffer c m k :
  hashing c m → (length m mod 64 + length k = 64)%nat →
  wr_bytes (buffer c) (Z.of_nat (length m mod 64)) k
  = Ok (drop (64 * (length m / 64)) m ++ k).
Proof.
  intros Hc Hk. destruct (h_buffer _ _ Hc) as [Hb _].
  rewrite wr_bytes_splice, (proj2 (Z.leb_le _ _)) by (unfold zlen; lia).
  by rewrite fill_splice.
Qed.

Lemma hashing_fill c m k n :
  hashing c m → bytes k → (length m mod 64 + length k = 64)%nat → n = 8 * zlen k →
  ∃ c', SHA256_Transform (add_bits n (set_buffer (drop (64 * (length m / 64)) m ++ k) c))
      FromBuffer = Ok c' ∧ hashing c' (m ++ k) ∧ (length (m ++ k) mod 64 = 0)%nat.
Proof.
  intros Hc Hk Hmk ->. pose proof (Nat.div_mod_eq (length m) 64) as Hdiv.
  assert (length (drop (64 * (length m / 64)) m ++ k) = 64%nat) as Hl
    by (rewrite length_app, length_drop; lia).
  assert (bytes (drop (64 * (length m / 64)) m ++ k)) as Hbb
    by (apply Forall_app; split; [apply Forall_drop, Hc|done]).
  destruct (hashing_block c m k FromBuffer (add_bits (8 * zlen k)
    (set_buffer (drop (64 * (length m / 64)) m ++ k) c)) Hc Hk Hmk)
    as (b & -> & Hb & Hb'); [done|done|by split_and!|].
  assert (length (m ++ k) mod 64 = 0)%nat as Hmod.
  { rewrite length_app. symmetry. apply (Nat.mod_unique _ _ (length m / 64 + 1)); lia. }
  eexists. split; [done|]. split; [|done]. apply hashing_aligned; try done.
  - apply Forall_app. split; [apply Hc|done].
  - by apply length_blocks.
  - cbn [bitcount add_bits set_buffer]. rewrite (h_count _ _ Hc), u64_add_l, zlen_app.
    f_equal. lia.
Qed.

Lemma RIOT_SHA256_Update_spec c m data k :
  hashing c m → bytes k → has data 0 k →
  ∃ c', RIOT_SHA256_Update c data (zlen k) = Ok c' ∧ hashing c' (m ++ k).
Proof.
  intros Hc Hk Hd. unfold RIOT_SHA256_Update.
  destruct (Z.eqb_spec (zlen k) 0) as [Hz|Hz].
  { exists c. by destruct k; [rewrite app_nil_r|]. }
  rewrite (usedspace_spec c m Hc). pose proof (zlen_nonneg data).
  set (u := (length m mod 64)%nat).
  assert (u < 64)%nat as Hu by (apply Nat.mod_upper_bound; lia).
  destruct (Z.ltb_spec 0 (Z.of_nat u)) as [Hu0|Hu0].
  2:{ apply update_rest_spec; [done|lia|done..]. }
  unfold SHA256_BLOCK_LENGTH. rewrite (u32_id (64 - _)) by (unfold is_u32; lia).
  destruct (Z.leb_spec (64 - Z.of_nat u) (zlen k)) as [Hle|Hgt].
  - set (k1 := take (64 - u) k). set (k2 := drop (64 - u) k).
    assert (length k1 = 64 - u)%nat as Hl1
      by (unfold k1, zlen in *; rewrite length_take; lia).
    assert (k = k1 ++ k2) as Hk12 by (symmetry; apply take_drop).
    rewrite Hk12 in Hd, Hk. apply has_app in Hd as [Hd1 Hd2]. apply Forall_app in Hk as [Hk1 Hk2].
    assert (zlen k1 = 64 - Z.of_nat u) as Hz1 by (unfold zlen; lia).
    rewrite <-Hz1, rd_bytes_has, bind_Ok by done.
    unfold u. rewrite fill_buffer, bind_Ok by (done || lia).
    rewrite u32_id by (rewrite Z.shiftl_mul_pow2 by lia; unfold is_u32; lia).
    destruct (hashing_fill c m k1 (Z.shiftl (zlen k1) 3) Hc Hk1) as (c' & -> & Hc' & Hmod);
      [lia|rewrite Z.shiftl_mul_pow2; lia|].
    rewrite bind_Ok. replace (zlen k - zlen k1) with (zlen k2) by (rewrite Hk12, zlen_app; lia).
    rewrite Hk12, app_assoc. apply update_rest_spec; [done..|].
    pose proof (has_bound _ _ _ Hd1 ltac:(lia)). lia.
  - rewrite rd_bytes_has, bind_Ok by done.
    assert (∃ b, wr_bytes (buffer c) (Z.of_nat u) k = Ok b) as [b Hw].
    { destruct (h_buffer _ _ Hc) as [Hb _].
      rewrite wr_bytes_splice, (proj2 (Z.leb_le _ _)) by (unfold zlen in *; lia). by eexists. }
    rewrite Hw, bind_Ok. eexists. split; [done|].
    rewrite Z.shiftl_mul_pow2 by lia. change (2 ^ 3) with 8.
    assert (add_bits (u64 (zlen k * 8)) (set_buffer b c)
      = add_bits (8 * zlen k) (set_buffer b c)) as ->.
    { unfold add_bits. f_equal. rewrite Z.add_comm, u64_add_l. f_equal. lia. }
    apply hashing_append; [done..| |done]. unfold zlen in *. lia.
Qed.

(** * Padding *)

Definition zeros (n : Z) : list Z := replicate (Z.to_nat n) 0.

Lemma zlen_zeros n : 0 ≤ n → zlen (zeros n) = n.
Proof. intros. unfold zeros. rewrite zlen_replicate. lia. Qed.

Lemma zeros_bytes n : bytes (zeros n).
Proof. by apply Forall_replicate. Qed.

(** The buffer after the 1 bit and the zeros, [u] bytes being in use. *)
Lemma pad_buffer b (u n : Z) :
  0 ≤ u → 0 ≤ n → u + 1 + n ≤ zlen b →
  (b ← wr b u 128; clear_buffer (u + 1) n b) = Ok (splice b u (128 :: zeros n)).
Proof.
  intros Hu Hn Hb. unfold clear_buffer. fold (zeros n).
  rewrite wr_splice, (proj2 (Z.leb_le _ _)), bind_Ok by lia.
  assert (zlen (splice b u [128]) = zlen b) as Hz
    by (apply zlen_splice; [lia|change (zlen [128]) with 1; lia]).
  rewrite wr_bytes_splice, zlen_zeros, Hz, (proj2 (Z.leb_le _ _)) by lia.
  by rewrite splice_cons by (rewrite ?zlen_zeros; lia).
Qed.

(** The padding of an empty buffer writes the same bytes in another order. *)
Lemma pad_buffer_0 b : 56 ≤ zlen b →
  (b ← clear_buffer 0 56 b; wr b 0 128) = Ok (splice b 0 (128 :: zeros 55)).
Proof.
  intros Hb. unfold clear_buffer. fold (zeros 56).
  rewrite wr_bytes_splice, zlen_zeros, (proj2 (Z.leb_le _ _)), bind_Ok by lia.
  unfold wr. rewrite zlen_splice by (rewrite ?zlen_zeros; lia).
  rewrite (proj2 (Z.ltb_lt _ _)) by lia. cbn [Z.leb andb].
  unfold splice. change (zlen (zeros 56)) with 56.
  by change (zlen (128 :: zeros 55)) with 56.
Qed.

(** What Final appends: the 1 bit and zeros, then the length. *)
Definition pad_zeros (m : list Z) : Z := (55 - zlen m) mod 64.

Lemma pad_app m : Fips.pad m = m ++ (128 :: zeros (pad_zeros m)) ++ be_split 8 (8 * zlen m).
Proof. done. Qed.

Lemma pad_zeros_spec m (u := (length m mod 64)%nat) :
  pad_zeros m = (if Z.of_nat u <? 56 then 55 - Z.of_nat u else 119 - Z.of_nat u).
Proof.
  unfold pad_zeros, u. unfold zlen.
  pose proof (Nat.div_mod_eq (length m) 64). pose proof (Nat.mod_upper_bound (length m) 64 ltac:(lia)).
  destruct (Z.ltb_spec (Z.of_nat (length m mod 64)) 56); symmetry.
  - apply (Z.mod_unique_pos _ _ (- Z.of_nat (length m / 64))); lia.
  - apply (Z.mod_unique_pos _ _ (- Z.of_nat (length m / 64) - 1)); lia.
Qed.

(** The state once the whole padded message is compressed. *)
Lemma final_blocks c m c1 k x :
  hashing c m → state c1 = state c →
  (length m mod 64 + length k = 56)%nat → length x = 8%nat → bytes k → bytes x →
  buffer c1 = splice (buffer c) (Z.of_nat (length m mod 64)) k →
  ∃ b c2, wr_bytes (buffer c1) 56 x = Ok b ∧
    SHA256_Transform (set_buffer b c1) FromBuffer = Ok c2 ∧
    state c2 = Fips.blocks (length (m ++ k ++ x) / 64) sha256_initial_hash_value (m ++ k ++ x).
Proof.
  intros Hc Hst Hk Hx Hkb Hxb Hbuf. destruct (h_buffer _ _ Hc) as [Hb0 _].
  assert (length m mod 64 + length (k ++ x) = 64)%nat as Hkx by (rewrite length_app; lia).
  pose proof (Nat.div_mod_eq (length m) 64) as Hdiv.
  assert (splice (buffer c1) 56 x = drop (64 * (length m / 64)) m ++ k ++ x) as Hfull.
  { rewrite <-(fill_splice c m (k ++ x) Hc Hkx).
    rewrite Hbuf, <-splice_splice by (unfold zlen; lia).
    f_equal. unfold zlen. lia. }
  assert (length (drop (64 * (length m / 64)) m ++ k ++ x) = 64%nat) as Hl
    by (rewrite !length_app, length_drop in *; lia).
  destruct (hashing_block c m (k ++ x) FromBuffer (set_buffer (splice (buffer c1) 56 x) c1) Hc)
    as (b & Htr & _); [by apply Forall_app|done|done|by cbn [buffer set_buffer]; rewrite Hfull| |].
  { split_and!; [|done|by cbn [buffer set_buffer]; rewrite Hfull].
    apply Forall_app. split; [apply Forall_drop, Hc|by apply Forall_app]. }
  eexists _, _. split; [|split; [exact Htr|done]].
  assert (zlen (buffer c1) = 64) as Hz.
  { rewrite Hbuf, zlen_splice; unfold zlen; lia. }
  rewrite wr_bytes_splice, (proj2 (Z.leb_le _ _)); [done| |lia]. unfold zlen in *. lia.
Qed.

(** A left-over of 56 bytes or more: the 1 bit and zeros fill the block, which
    is compressed; what follows is hashed from an empty buffer. *)
Lemma hashing_pad_block c m c0 :
  hashing c m → (56 ≤ length m mod 64)%nat → state c0 = state c → buffer c0 = buffer c →
  let u := Z.of_nat (length m mod 64) in
  let k := 128 :: zeros (63 - u) in
  ∃ b c1, (b ← wr (buffer c) u 128;
           if u + 1 <? 64 then clear_buffer (u + 1) (64 - (u + 1)) b else Ok b) = Ok b ∧
    SHA256_Transform (set_buffer b c0) FromBuffer = Ok c1 ∧ bitcount c1 = bitcount c0 ∧
    (length (m ++ k) mod 64 = 0)%nat ∧ length (buffer c1) = 64%nat ∧
    hashing (mkSha (state c1) 0 (u64 (8 * zlen (m ++ k))) (buffer c1)) (m ++ k).
Proof.
  intros Hc Hu Hst Hbuf u k. destruct (h_buffer _ _ Hc) as [Hb0 _].
  pose proof (Nat.mod_upper_bound (length m) 64 ltac:(lia)).
  assert (length m mod 64 + length k = 64)%nat as Hk
    by (unfold k, zeros; cbn [length]; rewrite length_replicate; lia).
  assert (bytes k) as Hkb by (constructor; [done|apply zeros_bytes]).
  set (full := drop (64 * (length m / 64)) m ++ k) in *.
  exists full. assert ((b ← wr (buffer c) u 128;
    if u + 1 <? 64 then clear_buffer (u + 1) (64 - (u + 1)) b else Ok b) = Ok full) as ->.
  { unfold full. rewrite <-(fill_splice c m k Hc Hk). fold u.
    assert (zlen (buffer c) = 64) as Hzb by (unfold zlen; lia).
    destruct (Z.ltb_spec (u + 1) 64).
    - replace (64 - (u + 1)) with (63 - u) by lia. apply pad_buffer; lia.
    - assert (u = 63) as Hu63 by lia. unfold k.
      rewrite wr_splice, (proj2 (Z.leb_le _ _)), bind_Ok by lia. by rewrite Hu63. }
  pose proof (Nat.div_mod_eq (length m) 64) as Hdiv.
  assert (length (m ++ k) mod 64 = 0)%nat as Hmod.
  { rewrite length_app. symmetry. apply (Nat.mod_unique _ _ (length m / 64 + 1)); lia. }
  assert (length full = 64%nat) as Hfl
    by (unfold full; rewrite length_app, length_drop; lia).
  destruct (hashing_block c m k FromBuffer (set_buffer full c0) Hc Hkb Hk Hst)
    as (b & -> & Hb & Hbb); [done|split_and!; [|done..]|].
  { apply Forall_app. split; [apply Forall_drop, Hc|done]. }
  eexists. split_and!; try done. apply hashing_aligned; try done.
  - apply Forall_app. split; [apply Hc|done].
  - by apply length_blocks.
Qed.

Lemma pad_length (m : list Z) : bytes (be_split 8 (8 * zlen m)) ∧ length (be_split 8 (8 * zlen m)) = 8%nat.
Proof. split; [apply be_split_bytes|apply length_be_split]. Qed.

(** final_pad when the length still fits the block: no transform. *)
Lemma final_pad_short c0 (u : Z) :
  0 ≤ u < 56 → length (buffer c0) = 64%nat →
  final_pad c0 u = Ok (set_buffer (splice (buffer c0) u (128 :: zeros (55 - u))) c0).
Proof.
  intros Hu Hb. assert (zlen (buffer c0) = 64) as Hz by (unfold zlen; lia).
  unfold final_pad, SHA256_SHORT_BLOCK_LENGTH. destruct (Z.ltb_spec 0 u) as [Hp|Hp].
  - pose proof (pad_buffer (buffer c0) u (55 - u) ltac:(lia) ltac:(lia) ltac:(lia)) as Hpad.
    apply bind_Ok_inv in Hpad as (b & Hw & Hcl).
    rewrite Hw, bind_Ok, (proj2 (Z.leb_le _ 56)) by lia.
    replace (56 - (u + 1)) with (55 - u) by lia. by rewrite Hcl.
  - replace u with 0 by lia. pose proof (pad_buffer_0 (buffer c0) ltac:(lia)) as Hpad.
    apply bind_Ok_inv in Hpad as (b & Hw & Hcl). by rewrite Hw, bind_Ok, Hcl.
Qed.

(** final_pad when it does not: the block is compressed first. *)
Lemma final_pad_long c m c0 (u := Z.of_nat (length m mod 64)) (k := 128 :: zeros (63 - u)) :
  hashing c m → 56 ≤ u → state c0 = state c → buffer c0 = buffer c →
  ∃ c1, final_pad c0 u = Ok (set_buffer (splice (buffer c1) 0 (zeros 56)) c1) ∧
    bitcount c1 = bitcount c0 ∧ (length (m ++ k) mod 64 = 0)%nat ∧
    hashing (mkSha (state c1) 0 (u64 (8 * zlen (m ++ k))) (buffer c1)) (m ++ k).
Proof.
  intros Hc Hu Hst Hbuf.
  destruct (hashing_pad_block c m c0 Hc ltac:(lia) Hst Hbuf)
    as (b & c1 & Hb & Htr & Hbc & Hmod & Hl & Hc1).
  exists c1. split_and!; [|exact Hbc|exact Hmod|exact Hc1].
  apply bind_Ok_inv in Hb as (b1 & Hw & Hcl). fold u in Hw, Hcl.
  assert (zlen (buffer c1) = 64) as Hz by (unfold zlen; lia).
  unfold final_pad, SHA256_SHORT_BLOCK_LENGTH, SHA256_BLOCK_LENGTH.
  rewrite Hbuf, (proj2 (Z.ltb_lt 0 u)), Hw, bind_Ok, (proj2 (Z.leb_gt _ 56)) by lia.
  rewrite Hcl, bind_Ok, Htr, bind_Ok. unfold clear_buffer. fold (zeros 56).
  by rewrite wr_bytes_splice, (proj2 (Z.leb_le _ _)), bind_Ok
    by (rewrite ?zlen_zeros, ?Hz; lia).
Qed.

(** final_pad, the stored bit count and the last transform hash the padding. *)
Lemma final_pad_spec c m c0 (x := be_split 8 (8 * zlen m)) :
  hashing c m → state c0 = state c → buffer c0 = buffer c →
  ∃ c1 b c2, final_pad c0 (Z.of_nat (length m mod 64)) = Ok c1 ∧ bitcount c1 = bitcount c0 ∧
    wr_bytes (buffer c1) 56 x = Ok b ∧ SHA256_Transform (set_buffer b c1) FromBuffer = Ok c2 ∧
    state c2 = Fips.blocks (length (Fips.pad m) / 64) sha256_initial_hash_value (Fips.pad m).
Proof.
  intros Hc Hst Hbuf. destruct (h_buffer _ _ Hc) as [Hb0 _].
  destruct (pad_length m) as [Hxb Hx]. fold x in Hxb, Hx.
  pose proof (pad_zeros_spec m) as Hz. cbv zeta in Hz. rewrite pad_app. fold x.
  set (u := (length m mod 64)%nat) in *.
  assert (u < 64)%nat as Hu by (apply Nat.mod_upper_bound; lia).
  destruct (Z.ltb_spec (Z.of_nat u) 56) as [Hs|Hs]; rewrite Hz.
  - rewrite final_pad_short by (lia || by rewrite Hbuf). rewrite Hbuf.
    destruct (final_blocks c m (set_buffer (splice (buffer c) (Z.of_nat u)
      (128 :: zeros (55 - Z.of_nat u))) c0) (128 :: zeros (55 - Z.of_nat u)) x Hc Hst)
      as (b' & c2 & Hw & Htr & Hst2);
      [|exact Hx|constructor; [done|apply zeros_bytes]|exact Hxb|reflexivity|].
    + fold u. unfold zeros. cbn [length]. rewrite length_replicate. lia.
    + eexists _, b', c2. split_and!; [reflexivity|reflexivity|exact Hw|exact Htr|exact Hst2].
  - destruct (final_pad_long c m c0 Hc Hs Hst Hbuf) as (c1 & Hfp & Hbc & Hmod & Hc1).
    fold u in Hfp, Hmod, Hc1. rewrite Hfp.
    destruct (final_blocks _ _ (set_buffer (splice (buffer c1) 0 (zeros 56)) c1) (zeros 56) x Hc1)
      as (b' & c2 & Hw & Htr2 & Hst2);
      [reflexivity|by rewrite Hmod|exact Hx|apply zeros_bytes|exact Hxb|by rewrite Hmod|].
    eexists _, b', c2. split_and!; [reflexivity|exact Hbc|exact Hw|exact Htr2|].
    rewrite Hst2.
    assert (zeros (119 - Z.of_nat u) = zeros (63 - Z.of_nat u) ++ zeros 56) as ->.
    { unfold zeros. rewrite <-replicate_add. f_equal. lia. }
    rewrite <-!app_assoc. cbn [app]. rewrite <-!app_assoc. reflexivity.
Qed.

(** * The digest *)

Lemma store_words_spec ws : ∀ d p, 0 ≤ p → p + 4 * zlen ws ≤ zlen d →
  store_words ws d p = Ok (splice d p (bytes_of_words ws)).
Proof.
  induction ws as [|w ws IH]; intros d p Hp Hd.
  { cbn. unfold bytes_of_words. cbn. by rewrite splice_nil. }
  rewrite zlen_cons in Hd. pose proof (zlen_nonneg ws). cbn [store_words].
  assert (zlen (le_split 4 w) = 4) as H4 by (unfold zlen; by rewrite length_le_split).
  rewrite wr_bytes_splice, H4, (proj2 (Z.leb_le _ _)), bind_Ok by lia.
  assert (zlen (splice d p (le_split 4 w)) = zlen d) as Hz
    by (apply zlen_splice; lia).
  rewrite IH, <-H4 by lia. unfold bytes_of_words at 2. cbn [fmap list_fmap concat].
  fold (bytes_of_words ws). rewrite splice_splice; [done|done|].
  unfold zlen at 2. rewrite length_bytes_of_words. unfold zlen in *. lia.
Qed.

Lemma blocks_u32 n st m : Forall is_u32 st → Forall is_u32 (Fips.blocks n st m).
Proof.
  revert st m. induction n as [|n IH]; intros st m Hst; [done|]. apply IH.
  unfold Fips.compress, add_regs. generalize (Fips.rounds (Fips.extend 48
    (Fips.be_words 16 (take 64 m))) (load_regs st) (seq 0 64)). intros r.
  generalize [ra r; rb r; rc r; rd_ r; re r; rf r; rg r; rh r]. clear.
  induction st as [|s st IH]; intros [|x l]; constructor; [apply u32_range|apply IH].
Qed.

Lemma bytes_of_rev32 ws : Forall is_u32 ws →
  bytes_of_words (rev32 <$> ws) = concat (be_split 4 <$> ws).
Proof.
  unfold bytes_of_words. induction 1 as [|w ws Hw _ IH]; [done|].
  cbn [fmap list_fmap concat]. by rewrite le_split_rev32, IH.
Qed.

Lemma length_sha256 m : zlen (Fips.sha256 m) = 32.
Proof.
  unfold Fips.sha256. rewrite <-bytes_of_rev32 by (by apply blocks_u32; repeat constructor).
  unfold zlen. rewrite length_bytes_of_words, length_fmap.
  by rewrite length_blocks.
Qed.

Lemma RIOT_SHA256_Final_lemma c m d :
  hashing c m → 8 * zlen m < 2 ^ 64 → 32 ≤ zlen d →
  RIOT_SHA256_Final c (Some d) = Ok (sha256_clear_ctx, Some (splice d 0 (Fips.sha256 m))).
Proof.
  intros Hc Hm Hd. pose proof (zlen_nonneg m). unfold RIOT_SHA256_Final.
  rewrite (usedspace_spec c m Hc).
  destruct (final_pad_spec c m (mkSha (state c) (magic c) (rev64 (bitcount c)) (buffer c)) Hc
    eq_refl eq_refl) as (c1 & b & c2 & -> & Hbc & Hw & Htr & Hst).
  rewrite bind_Ok, Hbc. cbn [bitcount]. unfold SHA256_SHORT_BLOCK_LENGTH.
  rewrite (h_count _ _ Hc), le_split_rev64.
  2:{ unfold u64. apply Z.mod_pos_bound. lia. }
  unfold u64. rewrite Z.mod_small, Hw, bind_Ok, Htr, bind_Ok, Hst by lia.
  set (st := Fips.blocks _ _ (Fips.pad m)).
  assert (length st = 8%nat) as Hl by (by apply length_blocks).
  rewrite store_words_spec, bind_Ok by (unfold zlen in *; rewrite ?length_fmap; lia).
  rewrite bytes_of_rev32; [reflexivity|]. apply blocks_u32. by repeat constructor.
Qed.

(** Any number of updates from a context. *)
Fixpoint update_all (c : RIOT_SHA256_CONTEXT) (ks : list (list Z)) : outcome RIOT_SHA256_CONTEXT :=
  match ks with
  | [] => Ok c
  | k :: ks => c ← RIOT_SHA256_Update c k (zlen k); update_all c ks
  end.

Lemma update_all_spec ks : ∀ c m,
  hashing c m → Forall bytes ks →
  ∃ c', update_all c ks = Ok c' ∧ hashing c' (m ++ concat ks).
Proof.
  induction ks as [|k ks IH]; intros c m Hc Hks; cbn [update_all concat].
  { exists c. by rewrite app_nil_r. }
  apply Forall_cons in Hks as [Hk Hks].
  destruct (RIOT_SHA256_Update_spec c m k k Hc Hk (has_self k)) as (c1 & -> & Hc1).
  rewrite bind_Ok, app_assoc. by apply IH.
Qed.

Lemma RIOT_SHA256_Block_lemma buf k d :
  bytes k → has buf 0 k → 8 * zlen k < 2 ^ 64 → 32 ≤ zlen d →
  RIOT_SHA256_Block_ctx buf (zlen k) (Some d)
  = Ok (sha256_clear_ctx, Some (splice d 0 (Fips.sha256 k))).
Proof.
  intros Hk Hb Hl Hd. unfold RIOT_SHA256_Block_ctx.
  destruct (RIOT_SHA256_Update_spec _ [] buf k hashing_init Hk Hb) as (c & -> & Hc).
  rewrite bind_Ok. by apply RIOT_SHA256_Final_lemma.
Qed.

(** * Correctness *)

(** C16: however a message is divided into RIOT_SHA256_Update calls, the
    digest RIOT_SHA256_Final writes is SHA-256 of the whole message, nothing
    else of the digest memory changes and the context is cleared; no call
    accesses memory outside the context, the data and the digest. *)
Theorem RIOT_SHA256_incremental ks d :
  Forall bytes ks → 8 * zlen (concat ks) < 2 ^ 64 → 32 ≤ zlen d →
  (c ← update_all sha256_init_ctx ks; RIOT_SHA256_Final c (Some d))
  = Ok (sha256_clear_ctx, Some (splice d 0 (Fips.sha256 (concat ks)))).
Proof.
  intros Hks Hl Hd. destruct (update_all_spec ks _ [] hashing_init Hks) as (c & -> & Hc).
  rewrite bind_Ok. by apply RIOT_SHA256_Final_lemma.
Qed.

(** The FIPS 180-4 digest of [abc], with the message in two parts. *)
Lemma RIOT_SHA256_incremental_witness :
  (c ← update_all sha256_init_ctx [[97]; [98; 99]]; RIOT_SHA256_Final c (Some (zeros 33)))
  = Ok (sha256_clear_ctx, Some
     [186; 120; 22; 191; 143; 1; 207; 234; 65; 65; 64; 222; 93; 174; 34; 35;
      176; 3; 97; 163; 150; 23; 122; 156; 180; 16; 255; 97; 242; 0; 21; 173; 0]).
Proof.
  etrans; [apply RIOT_SHA256_incremental; [repeat constructor; done|done|done]|].
  vm_compute; reflexivity.
Defined.

(** The one-shot RIOT_SHA256_Block writes SHA-256 of the first [bufSize]
    bytes of its buffer. *)
Theorem RIOT_SHA256_Block_spec buf k d :
  bytes k → has buf 0 k → 8 * zlen k < 2 ^ 64 → 32 ≤ zlen d →
  RIOT_SHA256_Block buf (zlen k) (Some d) = Ok (Some (splice d 0 (Fips.sha256 k))).
Proof.
  intros. unfold RIOT_SHA256_Block. by rewrite RIOT_SHA256_Block_lemma.
Qed.

Lemma RIOT_SHA256_Block_spec_witness :
  RIOT_SHA256_Block (replicate 100 7) 64 (Some (zeros 32))
  = Ok (Some (splice (zeros 32) 0 (Fips.sha256 (replicate 64 7)))).
Proof.
  apply (RIOT_SHA256_Block_spec (replicate 100 7) (replicate 64 7));
    [by apply Forall_replicate|apply (has_whole (replicate 64 7) (replicate 36 7))|done|done].
Defined.

(** DiceSHA256_2 writes SHA-256 of its two buffers' concatenation. *)
Theorem DiceSHA256_2_spec b1 b2 k1 k2 d :
  bytes k1 → bytes k2 → has b1 0 k1 → has b2 0 k2 →
  8 * (zlen k1 + zlen k2) < 2 ^ 64 → 32 ≤ zlen d →
  DiceSHA256_2 b1 (zlen k1) b2 (zlen k2) (Some d)
  = Ok (Some (splice d 0 (Fips.sha256 (k1 ++ k2)))).
Proof.
  intros Hk1 Hk2 Hb1 Hb2 Hl Hd. unfold DiceSHA256_2, DICE_SHA256_Update, DICE_SHA256_Final.
  destruct (RIOT_SHA256_Update_spec _ [] b1 k1 hashing_init Hk1 Hb1) as (c & -> & Hc).
  rewrite bind_Ok.
  destruct (RIOT_SHA256_Update_spec _ _ b2 k2 Hc Hk2 Hb2) as (c' & -> & Hc').
  rewrite bind_Ok, (RIOT_SHA256_Final_lemma _ _ _ Hc'); [done| |done].
  cbn [app]. by rewrite zlen_app.
Qed.

Lemma DiceSHA256_2_spec_witness :
  DiceSHA256_2 [97; 98] 1 [98; 99] 2 (Some (zeros 32))
  = Ok (Some (splice (zeros 32) 0 (Fips.sha256 ([97] ++ [98; 99])))).
Proof.
  apply (DiceSHA256_2_spec [97; 98] [98; 99] [97] [98; 99]);
    [by repeat constructor|by repeat constructor|apply (has_whole [97] [98])
    |apply has_self|done|done].
Defined.
