(* ===== verification/Hmac.v ===== *)
(** RiotHmac.c: HMAC-SHA256 on top of the incremental hash, and its refinement
    of the RFC 2104 definition. *)
From S2P Require Export Sha256Spec.

Definition HMAC_SHA256_BLOCK_LENGTH : Z := 64.

Record RIOT_HMAC_SHA256_CTX := mkHmac {
  hashCtx : RIOT_SHA256_CONTEXT;
  opad : list Z }.

(** [for (cnt = 0; cnt < n; cnt++) a[cnt] ^= v;] from index [cnt] on. *)
Fixpoint xor_loop (n : nat) (cnt v : Z) (a : list Z) : outcome (list Z) :=
  match n with
  | O => Ok a
  | S n =>
    x ← rd a cnt;
    a ← wr a cnt (Z.lxor x v);
    xor_loop n (cnt + 1) v a
  end.

(** [ctx] is the memory the caller passes, whatever it holds. *)
Definition RIOT_HMAC_SHA256_Init (ctx : RIOT_HMAC_SHA256_CTX) (key : list Z) (keyLen : Z)
    : outcome RIOT_HMAC_SHA256_CTX :=
  '(pad, keyLen) ←
    (if HMAC_SHA256_BLOCK_LENGTH <? keyLen then
      '(_, digest) ← RIOT_SHA256_Block_ctx key keyLen (Some (opad ctx));
      pad ← deref digest;
      Ok (pad, SHA256_DIGEST_LENGTH)
    else
      bs ← rd_bytes key 0 keyLen;
      pad ← wr_bytes (opad ctx) 0 bs;
      Ok (pad, keyLen));
  pad ← xor_loop (Z.to_nat keyLen) 0 54 pad;
  pad ← wr_bytes pad keyLen (replicate (Z.to_nat (64 - keyLen)) 54);
  hash ← RIOT_SHA256_Update sha256_init_ctx pad HMAC_SHA256_BLOCK_LENGTH;
  pad ← xor_loop 64 0 (Z.lxor 92 54) pad;
  Ok (mkHmac hash pad).

Definition RIOT_HMAC_SHA256_Update (ctx : RIOT_HMAC_SHA256_CTX) (data : list Z) (dataLen : Z)
    : outcome RIOT_HMAC_SHA256_CTX :=
  hash ← RIOT_SHA256_Update (hashCtx ctx) data dataLen;
  Ok (mkHmac hash (opad ctx)).

Definition RIOT_HMAC_SHA256_Final (ctx : RIOT_HMAC_SHA256_CTX) (digest : list Z)
    : outcome (RIOT_HMAC_SHA256_CTX * list Z) :=
  '(_, d) ← RIOT_SHA256_Final (hashCtx ctx) (Some digest);
  digest ← deref d;
  hash ← RIOT_SHA256_Update sha256_init_ctx (opad ctx) HMAC_SHA256_BLOCK_LENGTH;
  hash ← RIOT_SHA256_Update hash digest SHA256_DIGEST_LENGTH;
  '(hash, d) ← RIOT_SHA256_Final hash (Some digest);
  digest ← deref d;
  Ok (mkHmac hash (opad ctx), digest).

(** * Specification: RFC 2104 with SHA-256 *)

Definition hmac_key (key : list Z) : list Z :=
  let k := if 64 <? zlen key then Fips.sha256 key else key in
  k ++ replicate (64 - length k) 0.

Definition xor_pad (v : Z) (k : list Z) : list Z := (λ b, Z.lxor b v) <$> k.

Definition hmac (key m : list Z) : list Z :=
  Fips.sha256 (xor_pad 92 (hmac_key key) ++
    Fips.sha256 (xor_pad 54 (hmac_key key) ++ m)).

(** * Lemmas *)

Lemma xor_loop_spec n v : ∀ (c : nat) a, (c + n ≤ length a)%nat →
  xor_loop n (Z.of_nat c) v a
  = Ok (take c a ++ xor_pad v (take n (drop c a)) ++ drop (c + n) a).
Proof.
  induction n as [|n IH]; intros c a Ha; cbn [xor_loop].
  { rewrite Nat.add_0_r. change (xor_pad v (take 0 _)) with (@nil Z).
    by rewrite app_nil_l, take_drop. }
  rewrite rd_total, bind_Ok, wr_insert, bind_Ok by lia.
  replace (Z.of_nat c + 1) with (Z.of_nat (S c)) by lia.
  rewrite IH by (rewrite length_insert; lia). f_equal.
  rewrite (drop_S a (a !!! c) c) by (apply list_lookup_lookup_total_lt; lia).
  rewrite drop_insert_lt, (drop_insert_lt a (S c + n)) by lia.
  rewrite (take_S_r _ c (Z.lxor (a !!! c) v)) by (by rewrite list_lookup_insert_eq by lia).
  rewrite take_insert_ge, <-app_assoc by lia. unfold xor_pad. cbn [take fmap list_fmap app].
  do 4 f_equal. lia.
Qed.

Lemma xor_loop_all v a : xor_loop (length a) 0 v a = Ok (xor_pad v a).
Proof.
  pose proof (xor_loop_spec (length a) v 0 a ltac:(lia)) as H. change (Z.of_nat 0) with 0 in H.
  rewrite H, Nat.add_0_l, drop_0, take_0, app_nil_l. by rewrite take_ge, drop_ge, app_nil_r by lia.
Qed.

Lemma xor_pad_bytes v k : is_u8 v → bytes k → bytes (xor_pad v k).
Proof.
  intros Hv Hk. unfold xor_pad. apply Forall_fmap. eapply Forall_impl; [exact Hk|].
  intros b Hb. unfold compose. apply (lxor_range 8); [lia|exact Hb|exact Hv].
Qed.

Lemma xor_pad_xor_pad v w k : xor_pad w (xor_pad v k) = xor_pad (Z.lxor v w) k.
Proof.
  unfold xor_pad. rewrite <-list_fmap_compose. apply list_fmap_ext. intros i b _. cbn.
  by rewrite Z.lxor_assoc.
Qed.

Lemma length_xor_pad v k : length (xor_pad v k) = length k.
Proof. apply length_fmap. Qed.

Lemma sha256_bytes m : bytes (Fips.sha256 m).
Proof.
  unfold Fips.sha256. rewrite <-bytes_of_rev32 by (apply blocks_u32; by repeat constructor).
  apply bytes_of_words_bytes.
Qed.

Lemma hmac_key_ok key : bytes key → bytes (hmac_key key) ∧ length (hmac_key key) = 64%nat.
Proof.
  intros Hk. unfold hmac_key. split.
  - apply Forall_app. split; [|by apply Forall_replicate].
    destruct (64 <? zlen key); [apply sha256_bytes|done].
  - rewrite length_app, length_replicate. destruct (Z.ltb_spec 64 (zlen key)).
    + pose proof (length_sha256 key). unfold zlen in *. lia.
    + unfold zlen in *. lia.
Qed.

(** The key in the pad buffer, xored with [ipad] and filled up. *)
Lemma pad_fill k pad :
  bytes k → length pad = 64%nat → (length k ≤ 64)%nat → take (length k) pad = k →
  (p ← xor_loop (length k) 0 54 pad;
   wr_bytes p (zlen k) (replicate (Z.to_nat (64 - zlen k)) 54))
  = Ok (xor_pad 54 (k ++ replicate (64 - length k) 0)).
Proof.
  intros Hk Hp Hl Htk. pose proof (xor_loop_spec (length k) 54 0 pad ltac:(lia)) as H.
  change (Z.of_nat 0) with 0 in H. rewrite Nat.add_0_l, drop_0, take_0, app_nil_l in H.
  rewrite H, Htk, bind_Ok.
  rewrite wr_bytes_splice, (proj2 (Z.leb_le _ _)) by
    (rewrite ?zlen_replicate; unfold zlen; rewrite ?length_app, ?length_xor_pad, ?length_drop; lia).
  f_equal. unfold splice.
  rewrite ztake_app_exact by (unfold zlen; by rewrite length_xor_pad).
  rewrite zdrop_all, app_nil_r
    by (rewrite zlen_replicate; unfold zlen; rewrite length_app, length_xor_pad, length_drop; lia).
  unfold xor_pad. rewrite fmap_app, fmap_replicate. f_equal.
  f_equal. unfold zlen. lia.
Qed.

(** The context holds the inner hash of [m] under [key]. *)
Definition hmacing (ctx : RIOT_HMAC_SHA256_CTX) (key m : list Z) : Prop :=
  hashing (hashCtx ctx) (xor_pad 54 (hmac_key key) ++ m) ∧
  opad ctx = xor_pad 92 (hmac_key key).

(** The key as Init leaves it at the start of the pad buffer. *)
Lemma hmac_key_load ctx key kd :
  bytes kd → has key 0 kd → 8 * zlen kd < 2 ^ 64 → length (opad ctx) = 64%nat →
  let k := if 64 <? zlen kd then Fips.sha256 kd else kd in
  ∃ pad, (if HMAC_SHA256_BLOCK_LENGTH <? zlen kd then
      '(_, digest) ← RIOT_SHA256_Block_ctx key (zlen kd) (Some (opad ctx));
      pad ← deref digest;
      Ok (pad, SHA256_DIGEST_LENGTH)
    else
      bs ← rd_bytes key 0 (zlen kd);
      pad ← wr_bytes (opad ctx) 0 bs;
      Ok (pad, zlen kd)) = Ok (pad, zlen k) ∧
    length pad = 64%nat ∧ (length k ≤ 64)%nat ∧ take (length k) pad = k.
Proof.
  intros Hk Hkey Hl Ho k. unfold HMAC_SHA256_BLOCK_LENGTH, SHA256_DIGEST_LENGTH.
  assert (∀ x, zlen x ≤ 64 → wr_bytes (opad ctx) 0 x = Ok (splice (opad ctx) 0 x) ∧
    length (splice (opad ctx) 0 x) = 64%nat ∧ (length x ≤ 64)%nat ∧
    take (length x) (splice (opad ctx) 0 x) = x) as Hx.
  { intros x Hx. pose proof (zlen_nonneg x).
    pose proof (zlen_splice (opad ctx) 0 x ltac:(lia) ltac:(unfold zlen in *; lia)) as Hz.
    split; [|split; [unfold zlen in Hz; lia|split; [unfold zlen in Hx; lia|]]].
    - rewrite wr_bytes_splice, (proj2 (Z.leb_le _ _)); [done| |lia]. unfold zlen in *. lia.
    - change (take (length x) (x ++ zdrop (0 + zlen x) (opad ctx)) = x). apply take_app_length. }
  unfold k. destruct (Z.ltb_spec 64 (zlen kd)) as [Hlt|Hle].
  - pose proof (length_sha256 kd) as Hs. destruct (Hx (Fips.sha256 kd) ltac:(lia)) as (_ & H).
    rewrite RIOT_SHA256_Block_lemma, bind_Ok by (done || unfold zlen; lia).
    eexists. split; [|exact H]. cbn [deref]. by rewrite bind_Ok, Hs.
  - destruct (Hx kd Hle) as (Hw & H).
    rewrite rd_bytes_has, bind_Ok, Hw, bind_Ok by (done || apply zlen_nonneg).
    eexists. split; [done|exact H].
Qed.

Lemma hmac_Init_lemma ctx key kd :
  bytes kd → has key 0 kd → 8 * zlen kd < 2 ^ 64 → length (opad ctx) = 64%nat →
  ∃ ctx', RIOT_HMAC_SHA256_Init ctx key (zlen kd) = Ok ctx' ∧ hmacing ctx' kd [].
Proof.
  intros Hk Hkey Hl Ho. unfold RIOT_HMAC_SHA256_Init.
  destruct (hmac_key_load ctx key kd Hk Hkey Hl Ho) as (pad & -> & Hp & Hkl & Htk).
  rewrite bind_Ok. set (k := if 64 <? zlen kd then Fips.sha256 kd else kd) in *.
  assert (bytes k) as Hkb by (unfold k; destruct (64 <? zlen kd); [apply sha256_bytes|done]).
  destruct (hmac_key_ok kd Hk) as [Hhb Hhl].
  pose proof (pad_fill k pad Hkb Hp Hkl Htk) as Hfill.
  change (k ++ replicate (64 - length k) 0) with (hmac_key kd) in Hfill.
  apply bind_Ok_inv in Hfill as (p & Hx & Hw).
  replace (Z.to_nat (zlen k)) with (length k) by (unfold zlen; lia).
  rewrite Hx, bind_Ok, Hw, bind_Ok.
  set (ip := xor_pad 54 (hmac_key kd)) in *.
  assert (length ip = 64%nat) as Hil by (unfold ip; by rewrite length_xor_pad).
  assert (bytes ip) as Hib by (by apply xor_pad_bytes).
  destruct (RIOT_SHA256_Update_spec sha256_init_ctx [] ip ip hashing_init Hib (has_self ip))
    as (hash & Hu & Hh). unfold HMAC_SHA256_BLOCK_LENGTH.
  replace (zlen ip) with 64 in Hu by (unfold zlen; lia). rewrite Hu, bind_Ok.
  pose proof (xor_loop_all (Z.lxor 92 54) ip) as Hxa. rewrite Hil in Hxa.
  rewrite Hxa, bind_Ok. eexists. split; [done|]. split; cbn [hashCtx opad].
  - by rewrite app_nil_r.
  - unfold ip. by rewrite xor_pad_xor_pad.
Qed.

Lemma hmac_Update_lemma ctx key m data k :
  hmacing ctx key m → bytes k → has data 0 k →
  ∃ ctx', RIOT_HMAC_SHA256_Update ctx data (zlen k) = Ok ctx' ∧ hmacing ctx' key (m ++ k).
Proof.
  intros [Hh Ho] Hk Hd. unfold RIOT_HMAC_SHA256_Update.
  destruct (RIOT_SHA256_Update_spec _ _ _ _ Hh Hk Hd) as (c & -> & Hc).
  rewrite bind_Ok. eexists. split; [done|]. split; [|done]. by rewrite app_assoc.
Qed.

Lemma hmac_Final_lemma ctx key m d :
  hmacing ctx key m → bytes key → 8 * (64 + zlen m) < 2 ^ 64 → 32 ≤ zlen d →
  ∃ ctx', RIOT_HMAC_SHA256_Final ctx d = Ok (ctx', splice d 0 (hmac key m)).
Proof.
  intros [Hh Ho] Hk Hl Hd. unfold RIOT_HMAC_SHA256_Final.
  destruct (hmac_key_ok key Hk) as [Hhb Hhl].
  rewrite (RIOT_SHA256_Final_lemma _ _ _ Hh); [|rewrite zlen_app; unfold zlen in *;
    rewrite length_xor_pad; lia|done].
  rewrite bind_Ok. cbn [deref]. rewrite bind_Ok, Ho.
  set (op := xor_pad 92 (hmac_key key)). set (inner := Fips.sha256 _).
  assert (zlen op = 64) as Hol by (unfold op, zlen; rewrite length_xor_pad; lia).
  pose proof (length_sha256 (xor_pad 54 (hmac_key key) ++ m)) as Hil. fold inner in Hil.
  destruct (RIOT_SHA256_Update_spec sha256_init_ctx [] op op hashing_init
    (xor_pad_bytes 92 _ ltac:(done) Hhb) (has_self op)) as (c1 & Hu1 & Hc1).
  rewrite Hol in Hu1. unfold HMAC_SHA256_BLOCK_LENGTH, SHA256_DIGEST_LENGTH.
  rewrite Hu1, bind_Ok.
  destruct (RIOT_SHA256_Update_spec c1 ([] ++ op) (splice d 0 inner) inner Hc1
    (sha256_bytes _) ltac:(apply has_splice; lia)) as (c2 & Hu2 & Hc2).
  rewrite Hil in Hu2. rewrite Hu2, bind_Ok.
  assert (zlen (splice d 0 inner) = zlen d) as Hz by (apply zlen_splice; lia).
  rewrite (RIOT_SHA256_Final_lemma _ _ _ Hc2); [|rewrite !zlen_app, zlen_nil; lia|lia].
  rewrite bind_Ok. cbn [deref]. rewrite bind_Ok. eexists. do 2 f_equal.
  unfold hmac. fold op inner. cbn [app].
  apply splice_over; [lia|lia|by rewrite Hil, length_sha256].
Qed.

(** * Correctness *)

(** C17: for every key and every message in one update, Init, Update and Final
    write the RFC 2104 HMAC-SHA256 of the message: keys above 64 bytes are
    hashed first, shorter ones padded, and nothing else of the digest memory
    changes. *)
Theorem RIOT_HMAC_SHA256_spec ctx keymem key m d :
  bytes key → has keymem 0 key → bytes m → length (opad ctx) = 64%nat →
  8 * zlen key < 2 ^ 64 → 8 * (64 + zlen m) < 2 ^ 64 → 32 ≤ zlen d →
  ∃ ctx', (c ← RIOT_HMAC_SHA256_Init ctx keymem (zlen key);
           c ← RIOT_HMAC_SHA256_Update c m (zlen m);
           RIOT_HMAC_SHA256_Final c d) = Ok (ctx', splice d 0 (hmac key m)).
Proof.
  intros Hk Hkm Hm Ho Hkl Hml Hd.
  destruct (hmac_Init_lemma ctx keymem key Hk Hkm Hkl Ho) as (c & -> & Hc).
  rewrite bind_Ok.
  destruct (hmac_Update_lemma c key [] m m Hc Hm (has_self m)) as (c1 & -> & Hc1).
  rewrite bind_Ok. by apply hmac_Final_lemma.
Qed.

(** Test case 2 of RFC 4231 (key Jefe). *)
Lemma RIOT_HMAC_SHA256_spec_witness :
  let m := bytes_of_string "what do ya want for nothing?" in
  ∃ ctx', (c ← RIOT_HMAC_SHA256_Init (mkHmac sha256_clear_ctx (zeros 64)) [74; 101; 102; 101] 4;
           c ← RIOT_HMAC_SHA256_Update c m (zlen m);
           RIOT_HMAC_SHA256_Final c (zeros 32))
  = Ok (ctx', [91; 220; 193; 70; 191; 96; 117; 78; 106; 4; 36; 38; 8; 149; 117; 199;
               90; 0; 63; 8; 157; 39; 57; 131; 157; 236; 88; 185; 100; 236; 56; 67]).
Proof.
  intros m.
  destruct (RIOT_HMAC_SHA256_spec (mkHmac sha256_clear_ctx (zeros 64)) [74; 101; 102; 101]
    [74; 101; 102; 101] m (zeros 32)) as (ctx' & H);
    [by repeat constructor|apply has_self|by repeat constructor|done|done|done|done|].
  exists ctx'. etrans; [exact H|]. vm_compute; reflexivity.
Defined.
