(* ===== verification/Kdf.v ===== *)
(** RiotKdf.c: the fixed input and one iteration of the SP800-108 counter-mode
    key derivation. *)
From S2P Require Export Hmac.

(** The macro as it parses: [>>] and [<<] bind tighter than [&]. *)
Definition UINT32_TO_BIGENDIAN (i : Z) : Z :=
  Z.lor (Z.lor (Z.lor (Z.land i (Z.shiftr 4278190080 24))
                      (Z.land i (Z.shiftr 16711680 8)))
               (Z.land i (Z.shiftl 65280 8)))
        (Z.land i (Z.shiftl 255 24)).

(** [memcpy(fixed, p, n); fixed += n;] when the pointer is not NULL. *)
Definition copy_opt (p : option (list Z)) (n : Z) : writer := λ s,
  match p with
  | Some m => bs ← rd_bytes m 0 n; wcopy bs s
  | None => Ok s
  end.

(** The result and the memory of [fixed]; the assert is compiled away, so
    [fixedSize] is not used. *)
Definition RIOT_KDF_FIXED (fixed : list Z) (fixedSize : Z) (label : option (list Z))
    (labelSize : Z) (context : option (list Z)) (contextSize numberOfBits : Z)
    : outcome (Z * list Z) :=
  let total := u64 ((match label with Some _ => labelSize | None => 0 end)
                    + (match context with Some _ => contextSize | None => 0 end) + 5) in
  '(fixed, _) ←
    (copy_opt label labelSize ;;;
     wput 0 ;;;
     copy_opt context contextSize ;;;
     wcopy (le_split 4 (u32 (UINT32_TO_BIGENDIAN numberOfBits)))) (fixed, 0);
  Ok (total, fixed).

(** The memory of [out] and [*counter]; [ctx] is the uninitialised local. *)
Definition RIOT_KDF_SHA256 (ctx : RIOT_HMAC_SHA256_CTX) (out key : list Z) (keySize : Z)
    (counter : option Z) (fixed : list Z) (fixedSize : Z)
    : outcome (list Z * option Z) :=
  let '(ctr, counter) :=
    match counter with
    | Some c => (u32 (c + 1), Some (u32 (c + 1)))
    | None => (1, None)
    end in
  ctx ← RIOT_HMAC_SHA256_Init ctx key keySize;
  let ctr := u32 (UINT32_TO_BIGENDIAN ctr) in
  ctx ← RIOT_HMAC_SHA256_Update ctx (le_split 4 ctr) 4;
  ctx ← RIOT_HMAC_SHA256_Update ctx fixed fixedSize;
  '(_, out) ← RIOT_HMAC_SHA256_Final ctx out;
  Ok (out, counter).

(** * Specification *)

(** SP800-108 fixed input: label, a zero byte, context, the number of bits. *)
Definition kdf_fixed (order : nat → Z → list Z) (label context : option (list Z)) (n : Z)
    : list Z :=
  default [] label ++ [0] ++ default [] context ++ order 4%nat n.

(** One iteration: HMAC of the counter and the fixed input. *)
Definition kdf_iteration (order : nat → Z → list Z) (key : list Z) (ctr : Z) (fixed : list Z)
    : list Z :=
  hmac key (order 4%nat ctr ++ fixed).

(** The macro is the identity on 32-bit values. *)
Lemma UINT32_TO_BIGENDIAN_id i : is_u32 i → UINT32_TO_BIGENDIAN i = i.
Proof.
  intros Hi. unfold UINT32_TO_BIGENDIAN. rewrite <-!Z.land_lor_distr_r.
  change (Z.lor _ _) with (Z.ones 32). rewrite Z.land_ones by lia.
  apply Z.mod_small. exact Hi.
Qed.

Definition opt_has (p : option (list Z)) (bs : option (list Z)) : Prop :=
  match p, bs with
  | Some m, Some b => has m 0 b
  | None, None => True
  | _, _ => False
  end.

Lemma emits_copy_opt p bs : opt_has p bs →
  emits (copy_opt p (zlen (default [] bs))) (default [] bs).
Proof.
  intros H. destruct p as [m|], bs as [b|]; try done; cbn.
  - eapply emits_ext; [|apply emits_copy]. intros s. cbn.
    rewrite (rd_bytes_has m 0 b); [done|done|apply zlen_nonneg].
  - apply emits_skip.
Qed.

(** RIOT_KDF_FIXED writes label, zero byte, context and the bit count with
    its least significant byte first, returns their length, and overruns a
    [fixed] that is shorter than that whatever [fixedSize] says. *)
Lemma RIOT_KDF_FIXED_lemma fixed fixedSize lp label cp context n :
  opt_has lp label → opt_has cp context → is_u32 n →
  zlen (default [] label) + zlen (default [] context) + 5 < 2 ^ 64 →
  let bs := kdf_fixed le_split label context n in
  RIOT_KDF_FIXED fixed fixedSize lp (zlen (default [] label)) cp (zlen (default [] context)) n
  = if zlen bs <=? zlen fixed then Ok (zlen bs, splice fixed 0 bs) else Ub OutOfBounds.
Proof.
  intros Hl Hc Hn Hlen bs. unfold RIOT_KDF_FIXED.
  rewrite UINT32_TO_BIGENDIAN_id, u32_id by done.
  assert (zlen bs = zlen (default [] label) + zlen (default [] context) + 5) as Hz.
  { unfold bs, kdf_fixed. rewrite !zlen_app. change (zlen [0]) with 1.
    change (zlen (le_split 4 n)) with 4. lia. }
  assert (emits (copy_opt lp (zlen (default [] label)) ;;; wput 0 ;;;
    copy_opt cp (zlen (default [] context)) ;;; wcopy (le_split 4 n)) bs) as He.
  { unfold bs, kdf_fixed. repeat apply emits_seq; auto using emits_copy_opt with emits. }
  pose proof (zlen_nonneg fixed). rewrite He, Z.add_0_l by lia.
  destruct (zlen bs <=? zlen fixed); [|done]. rewrite bind_Ok. do 2 f_equal.
  assert (∀ p b, opt_has p b → match p with Some _ => zlen (default [] b) | None => 0 end
    = zlen (default [] b)) as Ho by (by intros [?|] [?|]).
  pose proof (zlen_nonneg (default [] label)). pose proof (zlen_nonneg (default [] context)).
  rewrite Hz, !Ho by done. apply Z.mod_small. lia.
Qed.

Lemma RIOT_KDF_SHA256_lemma ctx out keymem key counter fixedmem fixed :
  length (opad ctx) = 64%nat → bytes key → has keymem 0 key →
  bytes fixed → has fixedmem 0 fixed → 32 ≤ zlen out →
  8 * zlen key < 2 ^ 64 → 8 * (68 + zlen fixed) < 2 ^ 64 →
  let ctr := u32 (default 0 counter + 1) in
  RIOT_KDF_SHA256 ctx out keymem (zlen key) counter fixedmem (zlen fixed)
  = Ok (splice out 0 (kdf_iteration le_split key ctr fixed), (λ _, ctr) <$> counter).
Proof.
  intros Ho Hk Hkm Hf Hfm Hout Hkl Hfl ctr. unfold RIOT_KDF_SHA256.
  assert ((match counter with Some c => (u32 (c + 1), Some (u32 (c + 1))) | None => (1, None) end)
    = (ctr, (λ _, ctr) <$> counter)) as -> by (by destruct counter).
  destruct (hmac_Init_lemma ctx keymem key Hk Hkm Hkl Ho) as (c & -> & Hc). rewrite bind_Ok.
  rewrite UINT32_TO_BIGENDIAN_id, u32_id by apply u32_range.
  destruct (hmac_Update_lemma c key [] (le_split 4 ctr) (le_split 4 ctr) Hc (le_split_bytes _ _)
    (has_self _)) as (c1 & Hu & Hc1). change (zlen (le_split 4 ctr)) with 4 in Hu.
  rewrite Hu, bind_Ok.
  destruct (hmac_Update_lemma c1 key _ fixedmem fixed Hc1 Hf Hfm) as (c2 & -> & Hc2).
  rewrite bind_Ok.
  destruct (hmac_Final_lemma c2 key _ out Hc2 Hk) as (c3 & ->);
    [rewrite !zlen_app; change (zlen (le_split 4 ctr)) with 4; rewrite zlen_nil; lia|done|].
  by rewrite bind_Ok.
Qed.

(** One RIOT_KDF_SHA256 iteration increments the counter (from 0 the first
    one is 1; without counter 1 is used) and writes the HMAC of the counter,
    least significant byte first, and the fixed input. *)
Theorem RIOT_KDF_SHA256_spec ctx out keymem key counter fixedmem fixed :
  length (opad ctx) = 64%nat → bytes key → has keymem 0 key →
  bytes fixed → has fixedmem 0 fixed → 32 ≤ zlen out →
  8 * zlen key < 2 ^ 64 → 8 * (68 + zlen fixed) < 2 ^ 64 →
  let ctr := u32 (default 0 counter + 1) in
  RIOT_KDF_SHA256 ctx out keymem (zlen key) counter fixedmem (zlen fixed)
  = Ok (splice out 0 (kdf_iteration le_split key ctr fixed), (λ _, ctr) <$> counter).
Proof. apply RIOT_KDF_SHA256_lemma. Qed.

Lemma RIOT_KDF_SHA256_spec_witness :
  RIOT_KDF_SHA256 (mkHmac sha256_clear_ctx (zeros 64)) (zeros 32) [1; 2] 2 (Some 0) [9] 1
  = Ok (splice (zeros 32) 0 (kdf_iteration le_split [1; 2] 1 [9]), Some 1).
Proof.
  apply (RIOT_KDF_SHA256_spec _ _ [1; 2] [1; 2] (Some 0) [9] [9]);
    [done|by repeat constructor|apply has_self|by repeat constructor|apply has_self|done|done|done].
Defined.
