(* ===== verification/Base64.v ===== *)
(** RiotBase64.c: the Base64 encoder and decoder of the certificate code. *)
From S2P Require Export Words.

Definition splitInt (intVal bytePos : Z) : Z :=
  Z.land (Z.shiftr intVal (Z.shiftl bytePos 3)) 255.

Definition joinChars (a b c d : Z) : Z :=
  u32 (a + u32 (Z.shiftl b 8) + u32 (Z.shiftl c 16) + u32 (Z.shiftl d 24)).

Definition base64char (Val : Z) : Z :=
  if Val <? 26 then 65 + Val
  else if Val <? 52 then 97 + (Val - 26)
  else if Val <? 62 then 48 + (Val - 52)
  else if Val =? 62 then 43
  else 47.

Definition base64b16 (Val : Z) : outcome Z :=
  let base64b16values :=
    [joinChars 65 69 73 77; joinChars 81 85 89 99;
     joinChars 103 107 111 115; joinChars 119 48 52 56] in
  v ← rd base64b16values (Z.shiftr Val 2);
  Ok (splitInt v (Z.land Val 3)).

Definition base64b8 (Val : Z) : Z := splitInt (joinChars 65 81 103 119) Val.

(** The result and [*Val]. *)
Definition base64toValue (c : Z) : Z * Z :=
  if (65 <=? c) && (c <=? 90) then (0, u8 (c - 65))
  else if (97 <=? c) && (c <=? 122) then (0, u8 (25 + 1 + (c - 97)))
  else if (48 <=? c) && (c <=? 57) then (0, u8 (25 + 1 + 25 + 1 + (c - 48)))
  else if c =? 43 then (0, 62)
  else if c =? 47 then (0, 63)
  else (-1, 0).

Fixpoint strlen (m : list Z) : outcome Z :=
  match m with
  | [] => Ub OutOfBounds
  | c :: m => if c =? 0 then Ok 0 else n ← strlen m; Ok (n + 1)
  end.

(** [length] counts up from [&EncodedString[length]]. *)
Fixpoint base64CharacterCount_from (m : list Z) (length : Z) : outcome Z :=
  match m with
  | [] => Ub OutOfBounds
  | c :: m =>
    if negb ((base64toValue c).1 =? -1)
    then base64CharacterCount_from m (u32 (length + 1)) else Ok length
  end.

Definition base64CharacterCount (EncodedString : list Z) : outcome Z :=
  base64CharacterCount_from EncodedString 0.

Definition Base64DecodedLength (EncodedString : list Z) : outcome Z :=
  length ← strlen EncodedString;
  let length := u32 length in
  if length =? 0 then Ok 0 else
  let result := u32 (length / 4 * 3) in
  c1 ← rd EncodedString (length - 1);
  if c1 =? 61 then
    c2 ← rd EncodedString (length - 2);
    let result := if c2 =? 61 then u32 (result - 1) else result in
    Ok (u32 (result - 1))
  else Ok result.

Definition value_at (Input : list Z) (i : Z) : outcome Z :=
  c ← rd Input i; Ok (base64toValue c).2.

(** The decoding loop from [encodedIndex] on, a round consuming four
    characters, and the code after it. *)
Fixpoint decode_chars (fuel : nat) (Input : list Z) (charsRemaining encodedIndex : Z)
    : writer := λ s,
  if 4 <=? charsRemaining then
    match fuel with
    | O => Ub OutOfFuel
    | S fuel =>
      c1 ← value_at Input encodedIndex;
      c2 ← value_at Input (encodedIndex + 1);
      c3 ← value_at Input (encodedIndex + 2);
      c4 ← value_at Input (encodedIndex + 3);
      (wput (u8 (Z.lor (Z.shiftl c1 2) (Z.shiftr c2 4))) ;;;
       wput (u8 (Z.lor (Z.shiftl (Z.land c2 15) 4) (Z.shiftr c3 2))) ;;;
       wput (u8 (Z.lor (Z.shiftl (Z.land c3 3) 6) c4)) ;;;
       decode_chars fuel Input (charsRemaining - 4) (encodedIndex + 4)) s
    end
  else if charsRemaining =? 3 then
    c1 ← value_at Input encodedIndex;
    c2 ← value_at Input (encodedIndex + 1);
    c3 ← value_at Input (encodedIndex + 2);
    (wput (u8 (Z.lor (Z.shiftl c1 2) (Z.shiftr c2 4))) ;;;
     wput (u8 (Z.lor (Z.shiftl (Z.land c2 15) 4) (Z.shiftr c3 2)))) s
  else if charsRemaining =? 2 then
    c1 ← value_at Input encodedIndex;
    c2 ← value_at Input (encodedIndex + 1);
    wput (u8 (Z.lor (Z.shiftl c1 2) (Z.shiftr c2 4))) s
  else Ok s.

(** The result, the memory of [Output] and [*OutLen]. *)
Definition Base64Decode (Input Output : option (list Z)) (OutLen : option Z)
    : outcome (Z * option (list Z) * option Z) :=
  match Input, Output, OutLen with
  | Some Input, Some output, Some outlen =>
    n ← strlen Input;
    if negb (n mod 4 =? 0) then Ok (-1, Output, OutLen) else
    reqLen ← Base64DecodedLength Input;
    if outlen <? reqLen then Ok (-1, Output, Some reqLen) else
    charsRemaining ← base64CharacterCount Input;
    '(output, _) ← decode_chars (Z.to_nat charsRemaining) Input charsRemaining 0 (output, 0);
    Ok (0, Some output, OutLen)
  | _, _, _ => Ok (-1, Output, OutLen)
  end.

(** The encoding loop from [curPos] on, a round consuming three bytes, and the
    code after it, up to the final NL. *)
Fixpoint encode_bytes (fuel : nat) (Input : list Z) (Length curPos : Z) : writer := λ s,
  if 3 <=? Length - curPos then
    match fuel with
    | O => Ub OutOfFuel
    | S fuel =>
      i0 ← rd Input curPos;
      i1 ← rd Input (curPos + 1);
      i2 ← rd Input (curPos + 2);
      let c1 := base64char (Z.shiftr i0 2) in
      let c2 := base64char (Z.lor (Z.shiftl (Z.land i0 3) 4) (Z.shiftr i1 4)) in
      let c3 := base64char (Z.lor (Z.shiftl (Z.land i1 15) 2) (Z.land (Z.shiftr i2 6) 3)) in
      let c4 := base64char (Z.land i2 63) in
      (wput c1 ;;; wput c2 ;;; wput c3 ;;; wput c4 ;;;
       encode_bytes fuel Input Length (curPos + 3)) s
    end
  else if Length - curPos =? 2 then
    i0 ← rd Input curPos;
    i1 ← rd Input (curPos + 1);
    let c1 := base64char (Z.shiftr i0 2) in
    let c2 := base64char (Z.lor (Z.shiftl (Z.land i0 3) 4) (Z.shiftr i1 4)) in
    c3 ← base64b16 (Z.land i1 15);
    (wput c1 ;;; wput c2 ;;; wput c3 ;;; wput 61 ;;; wput 10) s
  else if Length - curPos =? 1 then
    i0 ← rd Input curPos;
    let c1 := base64char (Z.shiftr i0 2) in
    let c2 := base64b8 (Z.land i0 3) in
    (wput c1 ;;; wput c2 ;;; wput 61 ;;; wput 61 ;;; wput 10) s
  else wput 10 s.

Definition Base64Encode (Input : option (list Z)) (Length : Z) (Output : option (list Z))
    (OutLen : option Z) : outcome (Z * option (list Z) * option Z) :=
  match Input, Output with
  | Some Input, Some output =>
    let reqSize := if Length =? 0 then 0 else u32 (((Length - 1) / 3 + 1) * 4) in
    let reqSize := u32 (reqSize + 1) in
    let short := match OutLen with Some n => n <? reqSize | None => false end in
    if short then Ok (-1, Output, Some reqSize) else
    '(output, _) ← encode_bytes (Z.to_nat Length) Input Length 0 (output, 0);
    Ok (0, Some output, (λ _, reqSize) <$> OutLen)
  | _, _ => Ok (-1, Output, OutLen)
  end.

(** * Specification: RFC 4648, section 4 *)

Definition alphabet : list Z :=
  bytes_of_string "ABCDEFGHIJKLMNOPQRSTUVWXYZabcdefghijklmnopqrstuvwxyz0123456789+/".

Definition sextet (v : Z) : Z := alphabet !!! Z.to_nat v.

(** The characters before the padding, from groups of 24 bits. *)
Fixpoint b64_body (bs : list Z) : list Z :=
  match bs with
  | [] => []
  | [a] => [sextet (a / 4); sextet (a mod 4 * 16)]
  | [a; b] => [sextet (a / 4); sextet (a mod 4 * 16 + b / 16); sextet (b mod 16 * 4)]
  | a :: b :: c :: bs =>
    sextet (a / 4) :: sextet (a mod 4 * 16 + b / 16)
    :: sextet (b mod 16 * 4 + c / 64) :: sextet (c mod 64) :: b64_body bs
  end.

Definition b64_padding (bs : list Z) : list Z :=
  match zlen bs mod 3 with
  | 1 => [61; 61]
  | 2 => [61]
  | _ => []
  end.

Definition b64 (bs : list Z) : list Z := b64_body bs ++ b64_padding bs.

(** * Characters and bits *)

Lemma base64char_sextet v : 0 ≤ v < 64 → base64char v = sextet v.
Proof.
  intros Hv. apply Z.eqb_eq. revert v Hv.
  apply (forallb_seqZ (λ v, base64char v =? sextet v)). by vm_compute.
Qed.

Lemma base64b8_sextet v : 0 ≤ v < 4 → base64b8 v = sextet (v * 16).
Proof.
  intros Hv. apply Z.eqb_eq. revert v Hv.
  apply (forallb_seqZ (λ v, base64b8 v =? sextet (v * 16))). by vm_compute.
Qed.

Lemma base64b16_sextet v : 0 ≤ v < 16 → base64b16 v = Ok (sextet (v * 4)).
Proof.
  intros Hv.
  assert (match base64b16 v with Ok x => x =? sextet (v * 4) | Ub _ => false end = true) as H.
  { revert v Hv. apply forallb_seqZ. by vm_compute. }
  destruct (base64b16 v) as [x|]; [|done]. by apply Z.eqb_eq in H as ->.
Qed.

(** A character of the alphabet decodes to its value and is none of the
    characters that end the text. *)
Lemma base64toValue_sextet v : 0 ≤ v < 64 → base64toValue (sextet v) = (0, v).
Proof.
  intros Hv.
  assert (bool_decide (base64toValue (sextet v) = (0, v)) = true) as H.
  { revert v Hv. apply forallb_seqZ. by vm_compute. }
  by apply bool_decide_eq_true in H.
Qed.

Lemma sextet_nonzero v : 0 ≤ v < 64 → sextet v ≠ 0.
Proof.
  intros Hv. apply Z.eqb_neq. apply negb_true_iff. revert v Hv.
  apply (forallb_seqZ (λ v, negb (sextet v =? 0))). by vm_compute.
Qed.

Lemma land_3 a : Z.land a 3 = a mod 4.
Proof. apply (Z.land_ones a 2). lia. Qed.
Lemma land_mod_16 a : Z.land a 15 = a mod 16.
Proof. apply (Z.land_ones a 4). lia. Qed.
Lemma land_63 a : Z.land a 63 = a mod 64.
Proof. apply (Z.land_ones a 6). lia. Qed.
Lemma shiftr_div a k n : 0 ≤ k → n = 2 ^ k → Z.shiftr a k = a / n.
Proof. intros ? ->. by apply Z.shiftr_div_pow2. Qed.

(** [x << k | y] without overlap. *)
Lemma shiftl_lor_add x y k n : 0 ≤ k → n = 2 ^ k → 0 ≤ y < n → Z.lor (Z.shiftl x k) y = x * n + y.
Proof. intros Hk -> Hy. rewrite Z.lor_comm, lor_shiftl_add by done. lia. Qed.

Ltac b64_bits :=
  rewrite ?land_3, ?land_mod_16, ?land_63, ?(shiftr_div _ 2 4), ?(shiftr_div _ 4 16),
    ?(shiftr_div _ 6 64) by done.

Lemma enc_1 a : Z.shiftr a 2 = a / 4.
Proof. by b64_bits. Qed.
Lemma enc_2 a b : is_u8 b →
  Z.lor (Z.shiftl (Z.land a 3) 4) (Z.shiftr b 4) = a mod 4 * 16 + b / 16.
Proof. intros Hb. b64_bits. unfold is_u8 in Hb. apply shiftl_lor_add; [done..|dlia]. Qed.
Lemma enc_3 b c : is_u8 c →
  Z.lor (Z.shiftl (Z.land b 15) 2) (Z.land (Z.shiftr c 6) 3) = b mod 16 * 4 + c / 64.
Proof.
  intros Hc. b64_bits. unfold is_u8 in Hc. rewrite (Z.mod_small (c / 64)) by dlia.
  apply shiftl_lor_add; [done..|dlia].
Qed.

(** The decoder's bytes from the values of a group. *)
Lemma dec_1 a b : is_u8 a → is_u8 b →
  u8 (Z.lor (Z.shiftl (a / 4) 2) (Z.shiftr (a mod 4 * 16 + b / 16) 4)) = a.
Proof.
  intros Ha Hb. b64_bits. unfold is_u8 in *.
  rewrite (shiftl_lor_add _ _ 2 4) by (done || dlia). unfold u8. dlia.
Qed.
Lemma dec_2 a b c : is_u8 b → is_u8 c →
  u8 (Z.lor (Z.shiftl (Z.land (a mod 4 * 16 + b / 16) 15) 4)
            (Z.shiftr (b mod 16 * 4 + c / 64) 2)) = b.
Proof.
  intros Hb Hc. b64_bits. unfold is_u8 in *.
  rewrite (shiftl_lor_add _ _ 4 16) by (done || dlia). unfold u8. dlia.
Qed.
Lemma dec_3 b c : is_u8 c →
  u8 (Z.lor (Z.shiftl (Z.land (b mod 16 * 4 + c / 64) 3) 6) (c mod 64)) = c.
Proof.
  intros Hc. b64_bits. unfold is_u8 in *.
  rewrite (shiftl_lor_add _ _ 6 64) by (done || dlia). unfold u8. dlia.
Qed.

Lemma b64_cons3 a b c k :
  b64 (a :: b :: c :: k)
  = [sextet (a / 4); sextet (a mod 4 * 16 + b / 16); sextet (b mod 16 * 4 + c / 64);
     sextet (c mod 64)] ++ b64 k.
Proof.
  unfold b64, b64_padding. rewrite !zlen_cons.
  replace (1 + (1 + (1 + zlen k))) with (zlen k + 1 * 3) by lia. by rewrite Z.mod_add.
Qed.

Ltac short_loop := rewrite (proj2 (Z.leb_gt _ _)) by zlen_lia.

(** The bytes left after the loop. *)
Lemma emits_encode_tail Input Length fuel p k :
  has Input p k → bytes k → p + zlen k = Length → zlen k < 3 →
  emits (encode_bytes fuel Input Length p) (b64 k ++ [10]).
Proof.
  intros H Hk He Hl. replace Length with (p + zlen k) by lia. clear He.
  destruct k as [|a [|b [|c k]]]; [| | |zlen_lia].
  - eapply emits_ext; [|apply (emits_put 10)]. intros s.
    destruct fuel; cbn [encode_bytes]; short_loop; by rewrite zlen_nil, Z.add_0_r, Z.sub_diag.
  - apply Forall_cons in Hk as [Ha _]. apply rd_cons in H as [Hr0 _].
    change (b64 [a] ++ [10]) with
      ([sextet (a / 4)] ++ [sextet (a mod 4 * 16)] ++ [61] ++ [61] ++ [10]).
    eapply emits_ext; [|repeat apply emits_seq; apply emits_put]. intros s.
    destruct fuel; cbn [encode_bytes]; short_loop; rewrite zlen_cons, zlen_nil;
      (replace (p + (1 + 0) - p) with 1 by lia); cbn [Z.eqb Pos.eqb]; rewrite Hr0, bind_Ok;
      by rewrite enc_1, base64char_sextet, land_3, base64b8_sextet
        by (unfold is_u8 in *; dlia).
  - apply Forall_cons in Hk as [Ha Hk]. apply Forall_cons in Hk as [Hb _].
    apply rd_cons in H as [Hr0 H]. apply rd_cons in H as [Hr1 _].
    change (b64 [a; b] ++ [10]) with
      ([sextet (a / 4)] ++ [sextet (a mod 4 * 16 + b / 16)] ++ [sextet (b mod 16 * 4)]
       ++ [61] ++ [10]).
    eapply emits_ext; [|repeat apply emits_seq; apply emits_put]. intros s.
    destruct fuel; cbn [encode_bytes]; short_loop; rewrite !zlen_cons, zlen_nil;
      (replace (p + (1 + (1 + 0)) - p) with 2 by lia); cbn [Z.eqb Pos.eqb];
      rewrite Hr0, bind_Ok, Hr1, bind_Ok;
      by rewrite enc_1, enc_2, !base64char_sextet, land_mod_16, base64b16_sextet, bind_Ok
        by (unfold is_u8 in *; dlia).
Qed.

Lemma emits_encode Input Length fuel : ∀ p k,
  has Input p k → bytes k → p + zlen k = Length → zlen k ≤ Z.of_nat fuel →
  emits (encode_bytes fuel Input Length p) (b64 k ++ [10]).
Proof.
  induction fuel as [|fuel IH]; intros p k H Hk He Hf.
  { apply emits_encode_tail; [done..|]. lia. }
  destruct (Z.ltb_spec (zlen k) 3) as [Hs|Hs]; [by apply emits_encode_tail|].
  destruct k as [|a [|b [|c k]]]; try (exfalso; zlen_lia).
  apply Forall_cons in Hk as [Ha Hk]. apply Forall_cons in Hk as [Hb Hk].
  apply Forall_cons in Hk as [Hc Hk]. rewrite !zlen_cons in *.
  apply rd_cons in H as [Hr0 H]. apply rd_cons in H as [Hr1 H]. apply rd_cons in H as [Hr2 H].
  rewrite b64_cons3, <-app_assoc.
  change ([sextet (a / 4); ?x; ?y; ?z] ++ ?l) with
    ([sextet (a / 4)] ++ [x] ++ [y] ++ [z] ++ l).
  eapply emits_ext; [|repeat (apply emits_seq; [apply emits_put|]);
    apply (IH (p + 3) k)]; [|by replace (p + 3) with (p + 1 + 1 + 1) by lia|done|lia|lia].
  intros s. cbn [encode_bytes]. rewrite (proj2 (Z.leb_le 3 _)) by lia.
  replace (p + 2) with (p + 1 + 1) by lia.
  rewrite Hr0, bind_Ok, Hr1, bind_Ok, Hr2, bind_Ok.
  rewrite enc_1, enc_2, enc_3, land_63, !base64char_sextet by (done || unfold is_u8 in *; dlia).
  done.
Qed.

(** * Decoding *)

(** Induction on groups of three bytes. *)
Lemma triple_ind (P : list Z → Prop) :
  P [] → (∀ a, P [a]) → (∀ a b, P [a; b]) → (∀ a b c k, P k → P (a :: b :: c :: k)) →
  ∀ k, P k.
Proof.
  intros H0 H1 H2 H3 k. remember (length k) as n eqn:Hn. revert k Hn.
  induction n as [n IH] using lt_wf_ind. intros k ->.
  destruct k as [|a [|b [|c k]]]; auto. apply H3. apply (IH (length k)); [cbn; lia|done].
Qed.

Definition is_sextet (c : Z) : Prop := ∃ v, 0 ≤ v < 64 ∧ c = sextet v.

Lemma b64_body_sextets k : bytes k → Forall is_sextet (b64_body k).
Proof.
  induction k as [|a|a b|a b c k IH] using triple_ind; intros Hk; cbn [b64_body];
    repeat match goal with H : bytes (_ :: _) |- _ => apply Forall_cons in H as [? H] end;
    unfold is_u8 in *; repeat apply Forall_cons_2; try apply Forall_nil_2;
    try (eexists; split; [|done]; dlia).
  by apply IH.
Qed.

Lemma zlen_b64_body k : zlen (b64_body k) = (4 * zlen k + 2) / 3.
Proof.
  induction k as [|a|a b|a b c k IH] using triple_ind; cbn [b64_body]; try done.
  rewrite !zlen_cons, IH. dlia.
Qed.

Lemma sextet_not c v : is_sextet c → v = 0 ∨ v = 61 → c ≠ v.
Proof.
  intros (x & Hx & ->) Hv.
  assert (negb (sextet x =? 0) && negb (sextet x =? 61) = true) as H.
  { revert x Hx. apply (forallb_seqZ (λ x, negb (sextet x =? 0) && negb (sextet x =? 61))).
    by vm_compute. }
  apply andb_prop in H as [H1 H2]. apply negb_true_iff, Z.eqb_neq in H1, H2.
  by destruct Hv as [-> | ->].
Qed.

Lemma value_at_sextet m p v a : 0 ≤ v < 64 → has m p (sextet v :: a) →
  value_at m p = Ok v ∧ has m (p + 1) a.
Proof.
  intros Hv H. apply rd_cons in H as [Hr H]. split; [|done].
  unfold value_at. rewrite Hr, bind_Ok. by rewrite base64toValue_sextet.
Qed.

Ltac take_value H name :=
  apply value_at_sextet in H as [name H]; [|unfold is_u8 in *; dlia].

Lemma emits_decode m r k : ∀ fuel p,
  bytes k → has m p (b64_body k ++ r) → zlen k ≤ Z.of_nat fuel →
  emits (decode_chars fuel m (zlen (b64_body k)) p) k.
Proof.
  induction k as [|a|a b|a b c k IH] using triple_ind; intros fuel p Hk H Hf;
    repeat match goal with H : bytes (_ :: _) |- _ => apply Forall_cons in H as [? H] end;
    cbn [b64_body app] in *.
  - eapply emits_ext; [|apply emits_skip]. intros s. by destruct fuel.
  - take_value H V1. take_value H V2.
    eapply emits_ext; [|apply emits_put]. intros s.
    pose proof (dec_1 a 0 ltac:(done) ltac:(done)) as D1. rewrite Z.add_0_r in D1.
    destruct fuel; unfold decode_chars; (change (zlen [_; _]) with 2); cbn [Z.leb Z.compare
      Pos.compare Pos.compare_cont Z.eqb Pos.eqb]; by rewrite V1, bind_Ok, V2, bind_Ok, D1.
  - take_value H V1. take_value H V2. take_value H V3.
    eapply emits_ext; [|apply (emits_seq _ _ _ _ (emits_put a) (emits_put b))]. intros s.
    pose proof (dec_1 a b ltac:(done) ltac:(done)) as D1.
    pose proof (dec_2 a b 0 ltac:(done) ltac:(done)) as D2. rewrite Z.add_0_r in D2.
    destruct fuel; unfold decode_chars; (change (zlen [_; _; _]) with 3); cbn [Z.leb Z.compare
      Pos.compare Pos.compare_cont Z.eqb Pos.eqb]; replace (p + 1 + 1) with (p + 2) in V3 by lia;
      by rewrite V1, bind_Ok, V2, bind_Ok, V3, bind_Ok, D1, D2.
  - take_value H V1. take_value H V2. take_value H V3. take_value H V4.
    pose proof (zlen_nonneg k). rewrite !zlen_cons in Hf.
    destruct fuel as [|fuel]; [lia|]. replace (p + 1 + 1 + 1) with (p + 3) in * by lia.
    replace (p + 1 + 1) with (p + 2) in * by lia.
    replace (p + 3 + 1) with (p + 4) in H by lia.
    eapply emits_ext; [|apply (emits_seq _ _ _ _ (emits_put a) (emits_seq _ _ _ _ (emits_put b)
      (emits_seq _ _ _ _ (emits_put c) (IH fuel (p + 4) Hk H ltac:(lia)))))]. intros s.
    cbn [decode_chars]. pose proof (zlen_nonneg (b64_body k)).
    rewrite !zlen_cons, (proj2 (Z.leb_le 4 _)) by lia.
    rewrite V1, bind_Ok, V2, bind_Ok, V3, bind_Ok, V4, bind_Ok, dec_1, dec_2, dec_3 by done.
    by replace (1 + (1 + (1 + (1 + zlen (b64_body k)))) - 4) with (zlen (b64_body k)) by lia.
Qed.

(** * The lengths the decoder computes *)

Lemma strlen_app t r : Forall (λ c, c ≠ 0) t → strlen (t ++ 0 :: r) = Ok (zlen t).
Proof.
  induction 1 as [|c t Hc _ IH]; [done|]. cbn [app strlen].
  rewrite (proj2 (Z.eqb_neq c 0)) by done. rewrite IH, bind_Ok, zlen_cons. f_equal. lia.
Qed.

Lemma count_sextets t c r : (base64toValue c).1 = -1 → ∀ n, 0 ≤ n → n + zlen t < 2 ^ 32 →
  Forall is_sextet t → base64CharacterCount_from (t ++ c :: r) n = Ok (n + zlen t).
Proof.
  intros Hc n Hn Hl Ht. revert n Hn Hl. induction Ht as [|x t (v & Hv & ->) _ IH]; intros n Hn Hl;
    cbn [app base64CharacterCount_from].
  - by rewrite Hc, zlen_nil, Z.add_0_r.
  - rewrite zlen_cons in *. pose proof (zlen_nonneg t).
    rewrite base64toValue_sextet by done. cbn [fst Z.eqb negb].
    rewrite u32_id, IH by (unfold is_u32; lia). f_equal. lia.
Qed.

Lemma b64_nonzero k : bytes k → Forall (λ c, c ≠ 0) (b64 k).
Proof.
  intros Hk. unfold b64. apply Forall_app. split.
  - eapply Forall_impl; [by apply b64_body_sextets|]. intros c Hc. apply sextet_not; auto.
  - unfold b64_padding. repeat case_match; by repeat constructor.
Qed.

Lemma zlen_b64 k : zlen (b64 k) = (zlen k + 2) / 3 * 4.
Proof.
  unfold b64, b64_padding. rewrite zlen_app, zlen_b64_body. pose proof (zlen_nonneg k).
  assert (zlen k mod 3 = 0 ∨ zlen k mod 3 = 1 ∨ zlen k mod 3 = 2) as [E | [E | E]] by dlia;
    rewrite E; rewrite ?zlen_cons, ?zlen_nil; dlia.
Qed.

(** The last character before the padding is one of the alphabet. *)
Lemma b64_body_last k : bytes k → 0 < zlen k →
  ∃ l c, b64_body k = l ++ [c] ∧ c ≠ 61.
Proof.
  intros Hk Hpos. pose proof (zlen_b64_body k) as Hz.
  destruct (exists_last (l := b64_body k)) as (l & c & Hl).
  { intros Hnil. rewrite Hnil, zlen_nil in Hz. dlia. }
  exists l, c. split; [done|]. apply sextet_not; [|by right].
  pose proof (b64_body_sextets k Hk) as Hs. rewrite Hl in Hs.
  apply Forall_app in Hs as [_ Hs]. by apply Forall_cons in Hs as [Hs _].
Qed.

Lemma Base64DecodedLength_b64 k r : bytes k → zlen k < 2 ^ 31 →
  Base64DecodedLength (b64 k ++ 0 :: r) = Ok (zlen k).
Proof.
  intros Hk Hlt. unfold Base64DecodedLength.
  rewrite strlen_app, bind_Ok by (by apply b64_nonzero).
  pose proof (zlen_b64 k) as Hz. pose proof (zlen_b64_body k) as Hzb.
  pose proof (zlen_nonneg k). rewrite u32_id by (unfold is_u32; dlia).
  destruct (Z.eqb_spec (zlen (b64 k)) 0); [f_equal; dlia|].
  destruct (b64_body_last k Hk ltac:(dlia)) as (l & c & Hl & Hc).
  assert (zlen (b64_body k) = zlen l + 1) as Hzl by (rewrite Hl; zlen_lia).
  rewrite (u32_id (zlen (b64 k) / 4 * 3)) by (unfold is_u32; dlia).
  assert (zlen k mod 3 = 0 ∨ zlen k mod 3 = 1 ∨ zlen k mod 3 = 2) as E by dlia.
  rewrite Hz. unfold b64, b64_padding. rewrite Hl, <-!app_assoc. cbn [app].
  destruct E as [E | [E | E]]; rewrite E; cbn [app];
    match goal with |- context [l ++ ?t] => pose proof (has_at l t) as R0 end;
    apply rd_cons in R0 as [R0 R1]; apply rd_cons in R1 as [R1 R2].
  - replace ((zlen k + 2) / 3 * 4 - 1) with (zlen l) by dlia.
    rewrite R0, bind_Ok, (proj2 (Z.eqb_neq c 61)) by done. f_equal. dlia.
  - apply rd_cons in R2 as [R2 _].
    replace ((zlen k + 2) / 3 * 4 - 1) with (zlen l + 1 + 1) by dlia.
    replace ((zlen k + 2) / 3 * 4 - 2) with (zlen l + 1) by dlia.
    rewrite R2, bind_Ok, R1, bind_Ok. cbn [Z.eqb Pos.eqb].
    rewrite (u32_id (_ / 4 * 3 - 1)), u32_id by (unfold is_u32; dlia). f_equal. dlia.
  - replace ((zlen k + 2) / 3 * 4 - 1) with (zlen l + 1) by dlia.
    replace ((zlen k + 2) / 3 * 4 - 2) with (zlen l) by dlia.
    rewrite R1, bind_Ok, R0, bind_Ok. cbn [Z.eqb Pos.eqb].
    rewrite (proj2 (Z.eqb_neq c 61)), u32_id by (done || unfold is_u32; dlia). f_equal. dlia.
Qed.

Lemma decode_lemma k r out outlen :
  bytes k → zlen k < 2 ^ 31 → zlen k ≤ outlen → zlen k ≤ zlen out →
  Base64Decode (Some (b64 k ++ 0 :: r)) (Some out) (Some outlen)
  = Ok (0, Some (splice out 0 k), Some outlen).
Proof.
  intros Hk Hlt Hol Hout. unfold Base64Decode.
  rewrite strlen_app, bind_Ok by (by apply b64_nonzero).
  rewrite zlen_b64, Z.mod_mul by done. cbn [Z.eqb negb].
  rewrite Base64DecodedLength_b64, bind_Ok, (proj2 (Z.ltb_ge _ _)) by done.
  pose proof (zlen_nonneg k). pose proof (zlen_b64_body k) as Hzb.
  unfold base64CharacterCount.
  assert (∃ c r', b64 k ++ 0 :: r = b64_body k ++ c :: r' ∧ (base64toValue c).1 = -1)
    as (c & r' & Heq & Hc).
  { unfold b64, b64_padding. rewrite <-app_assoc.
    assert (zlen k mod 3 = 0 ∨ zlen k mod 3 = 1 ∨ zlen k mod 3 = 2) as [E | [E | E]] by dlia;
      rewrite E; [by exists 0, r|by exists 61, (61 :: 0 :: r)|by exists 61, (0 :: r)]. }
  rewrite Heq, (count_sextets _ c r' Hc 0), bind_Ok, Z.add_0_l
    by (done || dlia || by apply b64_body_sextets).
  rewrite (emits_decode _ (c :: r') k (Z.to_nat (zlen (b64_body k))) 0), Z.add_0_l
    by (done || apply has_self || dlia).
  by rewrite (proj2 (Z.leb_le _ _)), bind_Ok by done.
Qed.

Lemma reqSize_lemma (k : list Z) : zlen k < 2 ^ 31 →
  u32 ((if zlen k =? 0 then 0 else u32 (((zlen k - 1) / 3 + 1) * 4)) + 1) = zlen (b64 k) + 1.
Proof.
  intros Hlt. pose proof (zlen_nonneg k). rewrite (zlen_b64 k).
  destruct (Z.eqb_spec (zlen k) 0) as [->|Hne]; [done|].
  rewrite (u32_id ((_ / 3 + 1) * 4)), u32_id by (unfold is_u32; dlia). dlia.
Qed.

Lemma encode_lemma input k out outlen :
  bytes k → has input 0 k → zlen k < 2 ^ 31 →
  let req := zlen (b64 k) + 1 in
  req ≤ zlen out → match outlen with Some n => req ≤ n | None => True end →
  Base64Encode (Some input) (zlen k) (Some out) outlen
  = Ok (0, Some (splice out 0 (b64 k ++ [10])), (λ _, req) <$> outlen).
Proof.
  intros Hk Hi Hlt req Hout Hol. unfold Base64Encode. pose proof (zlen_nonneg k). pose proof (zlen_nonneg out).
  pose proof (zlen_b64 k) as Hz.
  rewrite (reqSize_lemma k Hlt). fold req.
  assert (match outlen with Some n => n <? req | None => false end = false) as ->.
  { destruct outlen; [|done]. apply Z.ltb_ge. lia. }
  rewrite (emits_encode input (zlen k) _ 0 k), Z.add_0_l by (done || lia).
  rewrite (proj2 (Z.leb_le _ _)), bind_Ok; [done|]. rewrite zlen_app. exact Hout.
Qed.

(** * Correctness *)

(** Base64Encode writes the RFC 4648 encoding of its input followed by a
    newline and sets [*OutLen] to the number of bytes written, padding
    included; with an [*OutLen] that is too small it writes nothing and stores
    the size it needs. *)
Theorem Base64Encode_spec input k out outlen :
  bytes k → has input 0 k → zlen k < 2 ^ 31 →
  let req := zlen (b64 k) + 1 in
  req ≤ zlen out →
  Base64Encode (Some input) (zlen k) (Some out) (Some outlen)
  = if outlen <? req then Ok (-1, Some out, Some req)
    else Ok (0, Some (splice out 0 (b64 k ++ [10])), Some req).
Proof.
  intros Hk Hi Hlt req Hout. destruct (Z.ltb_spec outlen req) as [Hs|Hs].
  - unfold Base64Encode. pose proof (zlen_nonneg k). pose proof (zlen_b64 k) as Hz.
    rewrite (reqSize_lemma k Hlt). fold req. by rewrite (proj2 (Z.ltb_lt _ _)) by lia.
  - by rewrite (encode_lemma input k out (Some outlen)).
Qed.

Lemma Base64Encode_spec_witness :
  Base64Encode (Some [102; 111; 111; 98]) 4 (Some (replicate 10 0)) (Some 9)
  = Ok (0, Some (bytes_of_string "Zm9vYg==" ++ [10; 0]), Some 9).
Proof.
  apply (Base64Encode_spec [102; 111; 111; 98] [102; 111; 111; 98] (replicate 10 0) 9);
    [by repeat constructor|apply has_self|done|done].
Defined.

(** C18: Base64Decode inverts the encoding: on the encoder's characters with a
    terminating NUL it restores every byte, for all three padding cases. *)
Theorem Base64Decode_roundtrip k r out outlen :
  bytes k → zlen k < 2 ^ 31 → zlen k ≤ outlen → zlen k ≤ zlen out →
  Base64Decode (Some (b64 k ++ 0 :: r)) (Some out) (Some outlen)
  = Ok (0, Some (splice out 0 k), Some outlen).
Proof. apply decode_lemma. Qed.

Lemma Base64Decode_roundtrip_witness :
  Base64Decode (Some (b64 [1; 255] ++ 0 :: [])) (Some (replicate 3 0)) (Some 3)
  = Ok (0, Some (splice (replicate 3 0) 0 [1; 255]), Some 3).
Proof. by apply Base64Decode_roundtrip; [repeat constructor| | |]. Defined.

(** The text exactly as Base64Encode leaves it, with its final newline and
    then a NUL, is refused by Base64Decode: the newline counts in the length,
    which has to be a multiple of four. *)
Theorem encoder_output_rejected k r out outlen :
  bytes k →
  Base64Decode (Some ((b64 k ++ [10]) ++ 0 :: r)) (Some out) (Some outlen)
  = Ok (-1, Some out, Some outlen).
Proof.
  intros Hk. unfold Base64Decode. rewrite strlen_app, bind_Ok.
  2:{ apply Forall_app. split; [by apply b64_nonzero|by repeat constructor]. }
  rewrite zlen_app, zlen_b64. change (zlen [10]) with 1.
  by rewrite Z.add_comm, Z.mod_add by done.
Qed.

Lemma encoder_output_rejected_witness :
  Base64Decode (Some ((b64 [1] ++ [10]) ++ 0 :: [])) (Some [0]) (Some 1)
  = Ok (-1, Some [0], Some 1).
Proof. by apply encoder_output_rejected; repeat constructor. Defined.
