(* ===== verification/DerSpec.v ===== *)
(** What the DER builder of RiotDerEnc.c promises: the DER encoding of a tree of
    ASN.1 values (X.690), and that every builder call refines its effect on the
    stack of encodings under construction. *)
From S2P Require Export Der.

(** * DER encodings *)

(** Definite length octets, for contents below 2^16. *)
Definition der_len (n : Z) : list Z :=
  if n <? 128 then [n] else if n <? 256 then [129; n] else [130; n / 256; n mod 256].

Definition tlv (tag : Z) (content : list Z) : list Z :=
  tag :: der_len (zlen content) ++ content.

(** A sub-identifier: base 128, most significant digit first, every byte but
    the last with bit 8 set. *)
Fixpoint base128_high (n : nat) (v : Z) : list Z :=
  match n with
  | O => []
  | S n => if v =? 0 then [] else base128_high n (v / 128) ++ [v mod 128 + 128]
  end.

Definition base128 (v : Z) : list Z := base128_high 4 (v / 128) ++ [v mod 128].

Definition oid_bytes (vs : list Z) : list Z :=
  match vs with
  | [] => []
  | [a] => [a * 40]
  | a :: b :: vs => (a * 40 + b) :: concat (base128 <$> vs)
  end.

(** The shortest two's complement form of an unsigned number given by its
    bytes, most significant first. *)
Fixpoint int_bytes (bs : list Z) : list Z :=
  match bs with
  | [] => [0]
  | b :: bs => if b =? 0 then int_bytes bs
               else if 128 <=? b then 0 :: b :: bs else b :: bs
  end.

Inductive nesting :=
| Sequence
| SetOf
| Explicit (n : Z)
| OctetNest
| BitNest.

#[warnings="-register-all"]
Inductive asn1 :=
| Oid (vs : list Z)
| Utf8String (s : list Z)
| PrintableString (s : list Z)
| UTCTime (s : list Z)
| IntegerBytes (bs : list Z)
| Boolean (b : bool)
| BitString (bs : list Z)
| OctetString (bs : list Z)
| Nested (k : nesting) (l : list asn1).

Definition nesting_tag (k : nesting) : Z :=
  match k with
  | Sequence => 48 | SetOf => 49 | Explicit n => 160 + n | OctetNest => 4 | BitNest => 3
  end.

(** The unused-bits octet of a bit string. *)
Definition nesting_prefix (k : nesting) : list Z :=
  match k with BitNest => [0] | _ => [] end.

Fixpoint encode (t : asn1) : list Z :=
  match t with
  | Oid vs => tlv 6 (oid_bytes vs)
  | Utf8String s => tlv 12 s
  | PrintableString s => tlv 19 s
  | UTCTime s => tlv 23 s
  | IntegerBytes bs => tlv 2 (int_bytes bs)
  | Boolean b => tlv 1 [if b then 255 else 0]
  | BitString bs => tlv 3 (0 :: bs)
  | OctetString bs => tlv 4 bs
  | Nested k l => tlv (nesting_tag k) (nesting_prefix k ++ concat (encode <$> l))
  end.

(** What the builder can take as a leaf. *)
Definition valid_leaf (t : asn1) : Prop :=
  match t with
  | Oid vs =>
    2 ≤ zlen vs < 16 ∧ Forall (λ v, 0 ≤ v < 2 ^ 31) vs ∧
    Forall is_u8 (take 1 (oid_bytes vs)) ∧ zlen (oid_bytes vs) < 128
  | Utf8String s | PrintableString s => zlen s < 127 ∧ Forall (λ c, 0 < c < 256) s
  | UTCTime s => zlen s = 13 ∧ Forall (λ c, 0 < c < 256) s
  | IntegerBytes bs => bytes bs ∧ zlen (int_bytes bs) < 128 ∧ zlen bs < 128 ∧ ¬ Forall (λ b, b = 0) bs
  | BitString bs => zlen bs < 65535
  | OctetString bs => zlen bs < 65536
  | _ => True
  end.

(** * The stack of encodings under construction, innermost first

    [Wrap] puts the finished bytes into an enclosing SEQUENCE, [Top] asserts that
    nothing is open. *)
Inductive dop :=
| Put (bs : list Z)
| Open (tag : Z) (prefix : list Z)
| Close
| Wrap
| Top.

Definition dstep (op : dop) (fs : list (list Z)) : option (list (list Z)) :=
  match op, fs with
  | Put bs, c :: fs => Some ((c ++ bs) :: fs)
  | Open tag pre, c :: fs =>
    if zlen fs <? DER_MAX_NESTED then Some (pre :: (c ++ [tag]) :: fs) else None
  | Close, c :: d :: fs =>
    if zlen c <? 65536 then Some ((d ++ der_len (zlen c) ++ c) :: fs) else None
  | Wrap, [c] => Some [c; [48]]
  | Top, [c] => Some [c]
  | _, _ => None
  end.

Fixpoint dsteps (ops : list dop) (fs : list (list Z)) : option (list (list Z)) :=
  match ops with
  | [] => Some fs
  | op :: ops => fs ← dstep op fs; dsteps ops fs
  end.

(** The builder operations that produce a tree. *)
Fixpoint ops (t : asn1) : list dop :=
  match t with
  | Nested k l => Open (nesting_tag k) (nesting_prefix k) :: concat (ops <$> l) ++ [Close]
  | _ => [Put (encode t)]
  end.

Fixpoint depth (t : asn1) : Z :=
  match t with
  | Nested _ l => 1 + foldr Z.max 0 (depth <$> l)
  | _ => 0
  end.

(** All bytes so far, and where each open encoding starts. *)
Fixpoint fbytes (fs : list (list Z)) : list Z :=
  match fs with
  | [] => []
  | c :: fs => fbytes fs ++ c
  end.

Fixpoint starts (fs : list (list Z)) : list Z :=
  match fs with
  | [] | [_] => []
  | _ :: fs => starts fs ++ [zlen (fbytes fs)]
  end.

(** The context holds the stack [fs] in a buffer of [L] bytes. *)
Record builds (L : Z) (ctx : DERBuilderContext) (fs : list (list Z)) : Prop := {
  builds_Length : Length ctx = L;
  builds_room : L ≤ zlen (Buffer ctx);
  builds_small : L < 2 ^ 31;
  builds_fits : zlen (fbytes fs) ≤ L;
  builds_Position : Position ctx = zlen (fbytes fs);
  builds_Buffer : has (Buffer ctx) 0 (fbytes fs);
  builds_depth : CollectionPos ctx = zlen fs - 1 ∧ 1 ≤ zlen fs ≤ 17;
  builds_stack_size : zlen (CollectionStart ctx) = 16;
  builds_stack : has (CollectionStart ctx) 0 (starts fs) }.

(** The call [f] returns 0 and does [a] whenever 32 bytes are left after it. *)
Definition implements (f : der) (a : list dop) : Prop :=
  ∀ L ctx fs fs', builds L ctx fs → dsteps a fs = Some fs' →
    zlen (fbytes fs') + 32 ≤ L →
    ∃ ctx', f ctx = Ok (0, ctx') ∧ builds L ctx' fs'.

(** The call [g] appends [bs] to the innermost encoding. *)
Definition writes (g : DERBuilderContext → outcome DERBuilderContext) (bs : list Z) : Prop :=
  ∀ L ctx c fs, builds L ctx (c :: fs) → zlen (fbytes (c :: fs)) + zlen bs ≤ L →
    ∃ ctx', g ctx = Ok ctx' ∧ builds L ctx' ((c ++ bs) :: fs).

(** * Context steps *)
Lemma fbytes_snoc c bs fs : fbytes ((c ++ bs) :: fs) = fbytes (c :: fs) ++ bs.
Proof. simpl. by rewrite app_assoc. Qed.

Lemma starts_cons c fs : fs ≠ [] → starts (c :: fs) = starts fs ++ [zlen (fbytes fs)].
Proof. by destruct fs. Qed.

(** The builder after [bs] has been placed at its position. *)
Lemma builds_append L ctx c fs bs :
  builds L ctx (c :: fs) → zlen (fbytes (c :: fs)) + zlen bs ≤ L →
  builds L (set_pos (Position ctx + zlen bs)
             (set_buf (splice (Buffer ctx) (Position ctx) bs) ctx)) ((c ++ bs) :: fs).
Proof.
  intros [] Hle. pose proof (zlen_nonneg (fbytes (c :: fs))). pose proof (zlen_nonneg bs).
  split; cbn [Length Buffer Position CollectionStart CollectionPos set_pos set_buf];
    rewrite ?fbytes_snoc, ?zlen_splice, ?builds_Position0 by lia; try done.
  - rewrite zlen_app. lia.
  - rewrite zlen_app. apply u32_id. unfold is_u32. lia.
  - apply has_extend; [done|lia].
Qed.

Lemma put_writes v : writes (put v) [v].
Proof.
  intros L ctx c fs Hb Hle. change (zlen [v]) with 1 in Hle. pose proof Hb as [].
  pose proof (zlen_nonneg (fbytes (c :: fs))). unfold put.
  rewrite wr_splice, (proj2 (Z.leb_le _ _)), bind_Ok by lia.
  eexists. split; [done|]. apply (builds_append L ctx c fs [v] Hb Hle).
Qed.

Lemma writes_bind f g a b : writes f a → writes g b → writes (λ ctx, f ctx ≫= g) (a ++ b).
Proof.
  intros Hf Hg L ctx c fs Hb Hle. rewrite zlen_app in Hle. pose proof (zlen_nonneg b).
  destruct (Hf L ctx c fs Hb) as (ctx1 & -> & Hb1); [lia|]. rewrite bind_Ok.
  destruct (Hg L ctx1 _ fs Hb1) as (ctx2 & -> & Hb2).
  - rewrite fbytes_snoc, zlen_app. lia.
  - exists ctx2. by rewrite app_assoc.
Qed.

Lemma writes_ext f g a : (∀ ctx, f ctx = g ctx) → writes f a → writes g a.
Proof. intros Heq Hf L ctx c fs. rewrite <-Heq. apply Hf. Qed.

Lemma writes_Ok : writes Ok [].
Proof. intros L ctx c fs Hb _. exists ctx. by rewrite app_nil_r. Qed.

Lemma put_array_writes src bs : ∀ j, has src j bs →
  writes (put_array (length bs) src j) bs.
Proof.
  induction bs as [|b bs IH]; intros j Hs; cbn [put_array length]; [apply writes_Ok|].
  apply rd_cons in Hs as [Hr Hs].
  apply (writes_ext (λ ctx, put b ctx ≫= put_array (length bs) src (j + 1)));
    [intros ctx; by rewrite Hr|].
  apply (writes_bind (put b) _ [b] bs); [apply put_writes|by apply IH].
Qed.

Lemma put_memcpy_writes src bs : has src 0 bs → writes (put_memcpy src (zlen bs)) bs.
Proof.
  intros Hs L ctx c fs Hb Hle. pose proof Hb as []. pose proof (zlen_nonneg (fbytes (c :: fs))).
  unfold put_memcpy. rewrite (rd_bytes_has src 0 bs), bind_Ok by (done || apply zlen_nonneg).
  rewrite wr_bytes_splice, (proj2 (Z.leb_le _ _)), bind_Ok by lia.
  eexists. split; [done|]. by apply builds_append.
Qed.

Lemma zlen_der_len n : 1 ≤ zlen (der_len n) ≤ 3.
Proof. unfold der_len. by repeat case_match. Qed.

Lemma GetIntEncodedNumBytes_len n : n < 65536 → GetIntEncodedNumBytes n = zlen (der_len n).
Proof.
  intros. unfold GetIntEncodedNumBytes, der_len.
  rewrite (proj2 (Z.ltb_lt n 166536)) by lia. simpl. by repeat case_match.
Qed.

Lemma EncodeInt_len n m p : 0 ≤ n < 65536 → 0 ≤ p → p + zlen (der_len n) ≤ zlen m →
  EncodeInt m p n = Ok (0, splice m p (der_len n)).
Proof.
  intros Hn Hp Hle. unfold EncodeInt, der_len in *.
  rewrite (proj2 (Z.ltb_lt n 166536)) by lia. simpl negb. cbv iota.
  destruct (Z.ltb_spec n 128); [|destruct (Z.ltb_spec n 256)].
  - change (zlen [n]) with 1 in Hle. rewrite wr_splice, (proj2 (Z.leb_le _ _)), bind_Ok by lia.
    by rewrite u8_id by (unfold is_u8; lia).
  - change (zlen [129; n]) with 2 in Hle.
    rewrite wr_splice, (proj2 (Z.leb_le _ _)), bind_Ok, u8_id by (unfold is_u8; lia).
    rewrite wr_splice, zlen_splice, (proj2 (Z.leb_le _ _)), bind_Ok by zlen_lia.
    by rewrite splice_cons by zlen_lia.
  - change (zlen [130; n / 256; n mod 256]) with 3 in Hle.
    rewrite Z.quot_div_nonneg, Z.rem_mod_nonneg by lia.
    rewrite (u8_id (n / 256)), (u8_id (n mod 256)) by (unfold is_u8; dlia).
    rewrite wr_splice, (proj2 (Z.leb_le _ _)), bind_Ok by lia.
    rewrite wr_splice, zlen_splice, (proj2 (Z.leb_le _ _)), bind_Ok by zlen_lia.
    rewrite splice_cons by zlen_lia.
    rewrite wr_splice, zlen_splice, (proj2 (Z.leb_le _ _)), bind_Ok by zlen_lia.
    do 2 f_equal. apply (splice_splice m p [130; n / 256] [n mod 256]); zlen_lia.
Qed.

Lemma put_length_writes n : 0 ≤ n < 65536 → writes (put_length n) (der_len n).
Proof.
  intros Hn L ctx c fs Hb Hle. pose proof Hb as []. pose proof (zlen_nonneg (fbytes (c :: fs))).
  unfold put_length. rewrite EncodeInt_len, bind_Ok, GetIntEncodedNumBytes_len by lia.
  eexists. split; [done|]. by apply builds_append.
Qed.

(** * Sequences of calls *)
Lemma dstep_mono op fs fs' : dstep op fs = Some fs' → zlen (fbytes fs) ≤ zlen (fbytes fs').
Proof.
  intros H. destruct op, fs as [|c [|d fs]]; simpl in H; try done;
    repeat case_match; simplify_eq; simpl; zlen_lia.
Qed.

Lemma dsteps_mono a : ∀ fs fs', dsteps a fs = Some fs' → zlen (fbytes fs) ≤ zlen (fbytes fs').
Proof.
  induction a as [|op a IH]; simpl; intros fs fs' H; [by simplify_eq|].
  destruct (dstep op fs) as [fs1|] eqn:E; [|done].
  etrans; [by eapply dstep_mono|by apply IH].
Qed.

Lemma dsteps_app a b fs : dsteps (a ++ b) fs = (dsteps a fs ≫= dsteps b).
Proof.
  revert fs. induction a as [|op a IH]; intros fs; [done|]. simpl.
  destruct (dstep op fs); [apply IH|done].
Qed.

Lemma implements_nil : implements (λ ctx, Ok (0, ctx)) [].
Proof. intros L ctx fs fs' Hb [= <-] _. by exists ctx. Qed.

Lemma implements_CHK f g a b :
  implements f a → implements g b → implements (CHK f g) (a ++ b).
Proof.
  intros Hf Hg L ctx fs fs' Hb Hd Hle. rewrite dsteps_app in Hd.
  destruct (dsteps a fs) as [fs1|] eqn:Ha; [|done]. simpl in Hd.
  pose proof (dsteps_mono _ _ _ Hd).
  destruct (Hf L ctx fs fs1 Hb Ha) as (ctx1 & Hr & Hb1); [lia|].
  unfold CHK. rewrite Hr, bind_Ok. simpl. by apply (Hg L ctx1 fs1).
Qed.

Lemma implements_cons f g op b :
  implements f [op] → implements g b → implements (CHK f g) (op :: b).
Proof. apply (implements_CHK f g [op] b). Qed.

Lemma implements_ext f g a : (∀ ctx, f ctx = g ctx) → implements f a → implements g a.
Proof. intros Heq Hf L ctx fs fs'. rewrite <-Heq. apply Hf. Qed.

Lemma CHECK_SPACE2_room L ctx fs n : builds L ctx fs → zlen (fbytes fs) + 32 ≤ L →
  0 ≤ n < 2 ^ 31 → CHECK_SPACE2 ctx n = false.
Proof.
  intros [] Hle Hn. pose proof (zlen_nonneg (fbytes fs)). unfold CHECK_SPACE2.
  rewrite builds_Position0, builds_Length0.
  rewrite (u32_id (L - _)), u32_id by (unfold is_u32; lia). apply Z.ltb_ge. lia.
Qed.

Lemma CHECK_SPACE_room L ctx fs : builds L ctx fs → zlen (fbytes fs) + 32 ≤ L →
  CHECK_SPACE ctx = false.
Proof.
  intros Hb Hle. rewrite <-(CHECK_SPACE2_room L ctx fs 0 Hb Hle) by done.
  unfold CHECK_SPACE, CHECK_SPACE2. by rewrite Z.add_0_r, (u32_id (u32 _)) by apply u32_range.
Qed.

(** A call that, its checks passed, writes [bs]. *)
Lemma implements_put f g bs :
  (∀ L ctx fs, builds L ctx fs → zlen (fbytes fs) + zlen bs + 32 ≤ L →
     f ctx = (g ctx ≫= λ ctx, Ok (0, ctx))) →
  writes g bs → implements f [Put bs].
Proof.
  intros Hf Hg L ctx fs fs' Hb Hd Hle. destruct fs as [|c fs]; [done|].
  simpl in Hd. injection Hd as <-. rewrite fbytes_snoc, zlen_app in Hle.
  rewrite (Hf L ctx (c :: fs)) by (done || lia).
  destruct (Hg L ctx c fs Hb) as (ctx' & -> & Hb'); [lia|]. by exists ctx'.
Qed.

(** Equality of two runs of the same steps. *)
Ltac same_steps :=
  repeat match goal with
  | |- context [mbind _ ?m] =>
    lazymatch m with context [mbind _ _] => fail | _ => idtac end;
    destruct m; cbn [mbind outcome_bind]; [|done]
  end; try done.

Lemma writes_head_array tag n src bs : has src 0 bs → n = zlen bs → n < 256 →
  writes (λ ctx, ctx ← put tag ctx; ctx ← put (u8 n) ctx; put_array (Z.to_nat n) src 0 ctx)
    (tag :: n :: bs).
Proof.
  intros Hs -> Hn. pose proof (zlen_nonneg bs). apply (writes_bind (put tag) _ [tag] (_ :: _)).
  { apply put_writes. }
  rewrite u8_id by (unfold is_u8; lia).
  apply (writes_bind (put _) _ [_] bs); [apply put_writes|].
  assert (Z.to_nat (zlen bs) = length bs) as -> by (unfold zlen; lia).
  by apply put_array_writes.
Qed.

Lemma tlv_short tag bs : zlen bs < 128 → tlv tag bs = tag :: zlen bs :: bs.
Proof. intros. unfold tlv, der_len. by rewrite (proj2 (Z.ltb_lt _ _)). Qed.

(** [s] and its terminator, in memory. *)
Definition cstring (m s : list Z) : Prop :=
  ∃ r, m = s ++ 0 :: r ∧ Forall (λ c, 0 < c < 256) s.

Lemma strlen_cstring m s : cstring m s → strlen m = Ok (zlen s).
Proof.
  intros (r & -> & Hs). apply strlen_app. eapply Forall_impl; [done|]. simpl. lia.
Qed.

Lemma has_cstring m s : cstring m s → has m 0 s.
Proof. intros (r & -> & _). apply has_whole. Qed.

Lemma implements_UTF8String m s : cstring m s → zlen s < 127 →
  implements (DERAddUTF8String m) [Put (encode (Utf8String s))].
Proof.
  intros Hm Hs. pose proof (zlen_nonneg s). cbn [encode]. rewrite tlv_short by lia.
  eapply implements_put; [|apply (writes_head_array 12 (zlen s) m s); [by apply has_cstring|done|lia]].
  intros L ctx fs Hb Hle. unfold DERAddUTF8String.
  rewrite (strlen_cstring m s Hm), bind_Ok, u32_id by (unfold is_u32; lia).
  rewrite (proj2 (Z.ltb_lt (zlen s) 127)) by lia. cbn [negb].
  rewrite (CHECK_SPACE2_room L ctx fs) by (done || zlen_lia). same_steps.
Qed.

Lemma implements_PrintableString m s : cstring m s → zlen s < 127 →
  implements (DERAddPrintableString m) [Put (encode (PrintableString s))].
Proof.
  intros Hm Hs. pose proof (zlen_nonneg s). cbn [encode]. rewrite tlv_short by lia.
  eapply implements_put; [|apply (writes_head_array 19 (zlen s) m s); [by apply has_cstring|done|lia]].
  intros L ctx fs Hb Hle. unfold DERAddPrintableString.
  rewrite (strlen_cstring m s Hm), bind_Ok, u32_id by (unfold is_u32; lia).
  rewrite (proj2 (Z.ltb_lt (zlen s) 127)) by lia. cbn [negb].
  rewrite (CHECK_SPACE2_room L ctx fs) by (done || zlen_lia). same_steps.
Qed.

Lemma implements_UTCTime m s : cstring m s → zlen s = 13 →
  implements (DERAddUTCTime m) [Put (encode (UTCTime s))].
Proof.
  intros Hm Hs. cbn [encode]. rewrite tlv_short by lia.
  eapply implements_put; [|apply (writes_head_array 23 (zlen s) m s); [by apply has_cstring|done|lia]].
  intros L ctx fs Hb Hle. unfold DERAddUTCTime.
  rewrite (strlen_cstring m s Hm), bind_Ok, Hs. change (u32 13) with 13. cbn [Z.eqb negb].
  rewrite (CHECK_SPACE_room L ctx fs) by (done || zlen_lia). same_steps.
Qed.

Lemma implements_Boolean b : implements (DERAddBoolean b) [Put (encode (Boolean b))].
Proof.
  assert (writes (λ ctx, ctx ← put 1 ctx; ctx ← put 1 ctx; if b then put 255 ctx else put 0 ctx)
    ([1] ++ [1] ++ [if b then 255 else 0])) as Hw.
  { apply (writes_bind (put 1)); [apply put_writes|].
    apply (writes_bind (put 1)); [apply put_writes|]. destruct b; apply put_writes. }
  eapply implements_put; [|exact Hw]. intros L ctx fs Hb Hle. unfold DERAddBoolean.
  rewrite (CHECK_SPACE_room L ctx fs) by (done || zlen_lia). destruct b; same_steps.
Qed.

Lemma implements_BitString src bs : has src 0 bs → zlen bs < 65535 →
  implements (DERAddBitString src (zlen bs)) [Put (encode (BitString bs))].
Proof.
  intros Hs Hn. pose proof (zlen_nonneg bs). cbn [encode]. unfold tlv.
  assert (zlen (0 :: bs) = zlen bs + 1) as Hl by zlen_lia.
  rewrite Hl.
  assert (writes (λ ctx, ctx ← put 3 ctx; ctx ← put_length (zlen bs + 1) ctx; ctx ← put 0 ctx;
    put_memcpy src (zlen bs) ctx) ([3] ++ der_len (zlen bs + 1) ++ [0] ++ bs)) as Hw.
  { apply (writes_bind (put 3)); [apply put_writes|].
    apply (writes_bind (put_length _)); [apply put_length_writes; lia|].
    apply (writes_bind (put 0)); [apply put_writes|by apply put_memcpy_writes]. }
  eapply implements_put; [|exact Hw]. intros L ctx fs Hb Hle. unfold DERAddBitString.
  pose proof (zlen_nonneg (fbytes fs)).
  autorewrite with zlen in Hle. pose proof (zlen_der_len (zlen bs + 1)).
  rewrite (CHECK_SPACE2_room L ctx fs) by (done || lia).
  assert (s32 (zlen bs + 1) = zlen bs + 1) as -> by (unfold s32; dlia). same_steps.
Qed.

Lemma implements_OctetString src bs : has src 0 bs → zlen bs < 65536 →
  implements (DERAddOctetString src (zlen bs)) [Put (encode (OctetString bs))].
Proof.
  intros Hs Hn. pose proof (zlen_nonneg bs). cbn [encode]. unfold tlv.
  assert (writes (λ ctx, ctx ← put 4 ctx; ctx ← put_length (zlen bs) ctx;
    put_memcpy src (zlen bs) ctx) ([4] ++ der_len (zlen bs) ++ bs)) as Hw.
  { apply (writes_bind (put 4)); [apply put_writes|].
    apply (writes_bind (put_length _)); [apply put_length_writes; lia|].
    by apply put_memcpy_writes. }
  eapply implements_put; [|exact Hw]. intros L ctx fs Hb Hle. unfold DERAddOctetString.
  pose proof (zlen_nonneg (fbytes fs)).
  autorewrite with zlen in Hle. pose proof (zlen_der_len (zlen bs)).
  rewrite (CHECK_SPACE2_room L ctx fs) by (done || lia).
  assert (s32 (zlen bs) = zlen bs) as -> by (unfold s32; dlia). same_steps.
Qed.

(** * Integers *)
Lemma leading_zeros_lemma m bs : ∀ j, has m j bs → ¬ Forall (λ b, b = 0) bs →
  ∃ k b rest, 0 ≤ k ∧ leading_zeros (length bs) m j = Ok (j + k) ∧ has m (j + k) (b :: rest) ∧
    zlen bs = k + zlen (b :: rest) ∧ (∀ P, Forall P bs → P b) ∧
    int_bytes bs = if 128 <=? b then 0 :: b :: rest else b :: rest.
Proof.
  induction bs as [|b bs IH]; intros j Hm Hz; [by destruct Hz|].
  pose proof Hm as Hm'. apply rd_cons in Hm' as [Hr Hm']. cbn [leading_zeros length].
  rewrite Hr, bind_Ok. cbn [int_bytes]. destruct (Z.eqb_spec b 0) as [->|Hb]; cbn [negb].
  - destruct (IH (j + 1) Hm') as (k & b & rest & Hk & -> & Hm1 & Hl & HP & Hi).
    { intros H. apply Hz. by constructor. }
    exists (k + 1), b, rest. replace (j + (k + 1)) with (j + 1 + k) by lia.
    split_and!; [lia|done|done|zlen_lia| |done]. intros P HP'. apply HP. by inversion HP'.
  - exists 0, b, bs. rewrite Z.add_0_r. split_and!; try done. intros P HP. by inversion HP.
Qed.

Lemma implements_IntegerFromArray src bs : valid_leaf (IntegerBytes bs) → has src 0 bs →
  implements (DERAddIntegerFromArray src (zlen bs)) [Put (encode (IntegerBytes bs))].
Proof.
  intros (Hbs & Hi & Hn & Hz) Hs. pose proof (zlen_nonneg bs).
  destruct (leading_zeros_lemma src bs 0 Hs Hz) as (k & b & rest & Hk & Hlz & Hm & Hl & HP & He).
  rewrite Z.add_0_l in *. cbn [encode]. rewrite tlv_short by done.
  pose proof (HP _ Hbs) as Hb. simpl in Hb.
  assert (Z.to_nat (zlen bs - k) = length (b :: rest)) as Hnat by (unfold zlen in *; lia).
  assert (writes (λ ctx, ctx ← put 2 ctx;
    ctx ← (if 128 <=? b then ctx ← put (u8 (zlen bs - k + 1)) ctx; put 0 ctx
           else put (u8 (zlen bs - k)) ctx);
    put_array (Z.to_nat (zlen bs - k)) src k ctx) (2 :: zlen (int_bytes bs) :: int_bytes bs)) as Hw.
  { apply (writes_bind (put 2) _ [2] (_ :: _)); [apply put_writes|]. rewrite Hnat.
    rewrite He in *. destruct (128 <=? b).
    - apply (writes_bind (λ ctx, _) _ [_; 0] (b :: rest)); [|by apply put_array_writes].
      apply (writes_bind (put _) _ [_] [0]); [|apply put_writes].
      replace (zlen bs - k + 1) with (zlen (0 :: b :: rest)) by zlen_lia.
      rewrite u8_id by (unfold is_u8; zlen_lia). apply put_writes.
    - apply (writes_bind (put _) _ [_] (b :: rest)); [|by apply put_array_writes].
      replace (zlen bs - k) with (zlen (b :: rest)) by zlen_lia.
      rewrite u8_id by (unfold is_u8; zlen_lia). apply put_writes. }
  eapply implements_put; [|exact Hw]. intros L ctx fs Hb1 Hle. unfold DERAddIntegerFromArray.
  rewrite (proj2 (Z.ltb_lt (zlen bs) 128)) by lia. cbn [negb].
  pose proof (zlen_nonneg (fbytes fs)).
  rewrite (CHECK_SPACE2_room L ctx fs) by (done || zlen_lia).
  assert (Z.to_nat (zlen bs) = length bs) as -> by (unfold zlen; lia).
  rewrite Hlz, bind_Ok, (proj1 (rd_cons _ _ _ _ Hm)), bind_Ok.
  destruct (128 <=? b); same_steps.
Qed.

(** [lwip_htonl] on a little-endian host swaps the bytes. *)
Lemma bitwise_htonl : bitwise lwip_htonl.
Proof.
  assert (∀ f m, bitwise f → bitwise (λ x, f (Z.land x m))) as Hm.
  { intros f m Hf. apply (bitwise_comp f); [done|apply bitwise_land]. }
  assert (∀ f, bitwise f → bitwise (λ x, u32 (f x))) as Hu.
  { intros f Hf x y. by rewrite Hf, u32_lor. }
  unfold lwip_htonl. apply Hu.
  repeat apply bitwise_lor; try apply Hu;
    first [apply (Hm (λ x, Z.shiftl x _)), bitwise_shiftl
          |apply (Hm (λ x, Z.shiftr x _)), bitwise_shiftr].
Qed.

Lemma htonl_combine bs : bytes bs → zlen bs = 4 → lwip_htonl (le_combine bs) = be_combine bs.
Proof.
  intros Hbs Hl. rewrite <-(Z.shiftl_0_r (le_combine bs)). change 0 with (8 * 0).
  apply (reverse_bytes lwip_htonl 4); [apply bitwise_htonl|done| |done..].
  intros k b Hk Hb. apply Z.eqb_eq. revert k b Hk Hb.
  apply (forallb_positions (λ k b, lwip_htonl (Z.shiftl b (8 * k)) =? Z.shiftl b (8 * (4 - 1 - k)))).
  by vm_compute.
Qed.

(** [(uint8_t * )&valx] of a [long] of at least four bytes. *)
Lemma htonl_bytes_spec long_size v : is_u32 v → (4 ≤ long_size)%nat →
  htonl_bytes long_size v = be_split 4 v ++ replicate (long_size - 4) 0.
Proof.
  intros Hv Hl. unfold htonl_bytes. rewrite u32_id by done.
  assert (le_combine (le_split 4 v) = v) as Heq.
  { rewrite le_combine_split. apply Z.mod_small. exact Hv. }
  assert (lwip_htonl v = le_combine (be_split 4 v)) as ->.
  { rewrite <-Heq at 1. by rewrite htonl_combine by (apply le_split_bytes || done). }
  pose proof (length_be_split 4 v) as Hlen. pose proof (be_split_bytes 4 v) as Hb.
  destruct (be_split 4 v) as [|a [|b [|c [|d [|]]]]]; try done. clear Heq Hlen.
  repeat match goal with H : Forall _ (_ :: _) |- _ => inversion_clear H end.
  destruct long_size as [|[|[|[|n]]]]; [lia..|]. unfold is_u8 in *.
  cbn [le_split le_combine app Nat.sub].
  assert (∀ n, le_split n 0 = replicate n 0) as Hz by
    (clear; intros n; induction n as [|n IH]; [done|]; cbn [replicate]; by rewrite <-IH).
  rewrite Nat.sub_0_r. repeat f_equal; [dlia..|]. rewrite <-Hz. f_equal. dlia.
Qed.

Lemma implements_Integer long_size v : 0 < v < 2 ^ 31 → (4 ≤ long_size)%nat →
  implements (DERAddInteger long_size v) [Put (encode (IntegerBytes (be_split 4 v)))].
Proof.
  intros Hv Hl. assert (is_u32 v) as Hu by (unfold is_u32; lia).
  apply (implements_ext (DERAddIntegerFromArray (htonl_bytes long_size v) (zlen (be_split 4 v))));
    [done|].
  apply implements_IntegerFromArray.
  - split_and!; [apply be_split_bytes| |done|].
    + unfold zlen. generalize (length_be_split 4 v). generalize (be_split 4 v).
      clear. intros l Hl. do 5 (destruct l as [|? l]; try done). cbn [int_bytes].
      repeat case_match; done.
    + intros Hz. pose proof (le_combine_split 4 v) as Hs. unfold be_split in Hz.
      apply Forall_reverse in Hz. revert Hs. rewrite reverse_involutive in Hz || idtac.
      assert (∀ l, Forall (λ b, b = 0) l → le_combine l = 0) as Hc.
      { clear. induction 1 as [|b l -> Hl IH]; [done|]. cbn [le_combine]. lia. }
      rewrite Hc by done. rewrite Z.mod_small; [lia|]. exact Hu.
  - rewrite htonl_bytes_spec by done. apply has_whole.
Qed.

Lemma int_bytes_short v : 0 < v < 128 → int_bytes (be_split 4 v) = [v].
Proof.
  intros Hv. assert (be_split 4 v = [0; 0; 0; v]) as ->.
  { apply (inj reverse). change (reverse [0; 0; 0; v]) with [v; 0; 0; 0].
    unfold be_split. rewrite reverse_involutive. cbn [le_split]. repeat f_equal; dlia. }
  cbn [int_bytes Z.eqb]. rewrite (proj2 (Z.eqb_neq v 0)), (proj2 (Z.leb_gt 128 v)) by lia. done.
Qed.

Lemma implements_ShortExplicitInteger long_size v : 0 < v < 127 → (4 ≤ long_size)%nat →
  implements (DERAddShortExplicitInteger long_size v)
    [Put (encode (Nested (Explicit 0) [IntegerBytes (be_split 4 v)]))].
Proof.
  intros Hv Hl L ctx fs fs' Hb Hd Hle. destruct fs as [|c fs]; [done|].
  cbn [dsteps dstep mbind option_bind] in Hd. apply (inj Some) in Hd. subst fs'.
  rewrite fbytes_snoc, zlen_app in Hle.
  assert (encode (Nested (Explicit 0) [IntegerBytes (be_split 4 v)])
    = [160] ++ [3] ++ encode (IntegerBytes (be_split 4 v))) as Henc.
  { change (tlv 160 (tlv 2 (int_bytes (be_split 4 v)) ++ [])
      = [160] ++ [3] ++ tlv 2 (int_bytes (be_split 4 v))).
    by rewrite int_bytes_short by lia. }
  rewrite Henc in Hle |- *. autorewrite with zlen in Hle. unfold DERAddShortExplicitInteger.
  rewrite (proj2 (Z.ltb_lt _ _)) by lia. cbn [negb].
  pose proof (zlen_nonneg (encode (IntegerBytes (be_split 4 v)))).
  destruct (put_writes 160 L ctx c fs Hb) as (ctx1 & -> & Hb1); [zlen_lia|]. rewrite bind_Ok.
  destruct (put_writes 3 L ctx1 _ fs Hb1) as (ctx2 & -> & Hb2).
  { rewrite fbytes_snoc. zlen_lia. }
  rewrite bind_Ok, !app_assoc.
  apply (implements_Integer long_size v ltac:(lia) Hl L ctx2 _ _ Hb2); [done|].
  rewrite !fbytes_snoc. autorewrite with zlen. lia.
Qed.

(** * Object identifiers *)
Lemma oid_count_lemma Values vs : ∀ n j acc, has Values j (vs ++ [-1]) →
  Forall (λ v, 0 ≤ v < 2 ^ 31) vs → (length vs < n)%nat →
  oid_count n Values j acc = Ok (acc + zlen vs).
Proof.
  induction vs as [|v vs IH]; intros n j acc Hv Hr Hn; destruct n as [|n]; try (simpl in Hn; lia).
  - apply rd_cons in Hv as [Hv _]. cbn [oid_count]. rewrite Hv, bind_Ok. cbn.
    by rewrite zlen_nil, Z.add_0_r.
  - apply rd_cons in Hv as [Hv Hv']. inversion Hr; subst. cbn [oid_count].
    rewrite Hv, bind_Ok, (proj2 (Z.ltb_ge v 0)) by lia.
    rewrite (IH n (j + 1)) by (done || (simpl in Hn; lia)). f_equal. zlen_lia.
Qed.

(** Digits in base 128, least significant first. *)
Fixpoint lsd (n : nat) (v : Z) : list Z :=
  match n with
  | O => []
  | S n => v mod 128 :: (if v / 128 =? 0 then [] else lsd n (v / 128))
  end.

Lemma zlen_lsd n : ∀ v, zlen (lsd n v) ≤ Z.of_nat n.
Proof.
  induction n as [|n IH]; intros v; cbn [lsd]; [done|].
  case_match; [zlen_lia|]. specialize (IH (v / 128)). zlen_lia.
Qed.

Lemma lsd_range n : ∀ v, Forall (λ d, 0 ≤ d < 128) (lsd n v).
Proof.
  induction n as [|n IH]; intros v; cbn [lsd]; [done|]. constructor; [dlia|]. by case_match.
Qed.

Lemma oid_digits_lsd n : ∀ digits pos v, 0 ≤ v < 128 ^ Z.of_nat n → 0 ≤ pos → (0 < n)%nat →
  pos + Z.of_nat n ≤ zlen digits →
  oid_digits n digits pos v = Ok (splice digits pos (lsd n v), pos + zlen (lsd n v)).
Proof.
  induction n as [|n IH]; intros digits pos v Hv Hp Hn Hl; [lia|]. cbn [oid_digits lsd].
  rewrite Z.rem_mod_nonneg, Z.quot_div_nonneg, u8_id by (unfold is_u8; dlia).
  rewrite wr_splice, (proj2 (Z.leb_le _ _)), bind_Ok by lia.
  destruct (Z.eqb_spec (v / 128) 0) as [E|E].
  - by rewrite zlen_cons.
  - assert (0 < n)%nat as Hn'.
    { destruct n as [|n']; [|lia]. exfalso. change (128 ^ Z.of_nat 1) with 128 in Hv. dlia. }
    pose proof (zlen_lsd n (v / 128)).
    rewrite IH, splice_cons, zlen_cons; [do 2 f_equal; lia|lia|lia| |lia|done|].
    + rewrite Nat2Z.inj_succ, Z.pow_succ_r in Hv by lia. dlia.
    + rewrite zlen_splice by zlen_lia. lia.
Qed.

(** The bytes of the digits, the least significant one unmarked. *)
Definition marked (ds : list Z) : list Z :=
  match ds with [] => [] | d :: ds => d :: ((λ d, d + 128) <$> ds) end.

Lemma base128_high_lsd n : ∀ v,
  base128_high n v = reverse ((λ d, d + 128) <$> (if v =? 0 then [] else lsd n v)).
Proof.
  induction n as [|n IH]; intros v; cbn [base128_high lsd]; [by case_match|].
  destruct (v =? 0); [done|]. rewrite fmap_cons, reverse_cons. by rewrite <-IH.
Qed.

Lemma base128_lsd v : base128 v = reverse (marked (lsd 5 v)).
Proof.
  unfold base128. cbn [lsd marked]. rewrite reverse_cons, base128_high_lsd. done.
Qed.

Lemma oid_reverse_writes digits ds k : has digits 0 ds → Forall (λ d, 0 ≤ d < 128) ds →
  (k ≤ length ds)%nat → writes (oid_reverse k digits) (reverse (take k (marked ds))).
Proof.
  intros Hd Hr. induction k as [|k IH]; intros Hk; cbn [oid_reverse]; [apply writes_Ok|].
  assert (∃ d, ds !! k = Some d) as [d Hds] by (apply lookup_lt_is_Some_2; lia).
  assert (rd digits (Z.of_nat k) = Ok d) as Hrd.
  { apply (rd_has digits (Z.of_nat k) d (drop (S k) ds)).
    rewrite <-(take_drop_middle ds k d Hds) in Hd. apply has_app in Hd as [_ Hd].
    unfold zlen in Hd. rewrite length_take, Nat.min_l in Hd by lia. exact Hd. }
  set (b := if negb (Z.of_nat k =? 0) then d + 128 else d).
  assert (marked ds !! k = Some b) as Hb.
  { unfold b. destruct ds as [|d0 ds], k as [|k]; try done; simpl in *.
    by rewrite list_lookup_fmap, Hds. }
  assert (is_u8 b) as Hbr.
  { pose proof (Forall_lookup_1 _ _ _ _ Hr Hds) as Hdr. cbv beta in Hdr.
    unfold b, is_u8. case_match; lia. }
  apply (writes_ext (λ ctx, put b ctx ≫= oid_reverse k digits)).
  { intros ctx. rewrite Hrd, bind_Ok. fold b. by rewrite u8_id. }
  rewrite (take_S_r _ _ _ Hb), reverse_app. apply (writes_bind (put b) _ [b]); [apply put_writes|].
  apply IH. lia.
Qed.

Lemma oid_digits_writes digits v : 0 ≤ v < 2 ^ 31 → zlen digits = 5 →
  ∃ digits' k, oid_digits 5 digits 0 v = Ok (digits', k) ∧ zlen digits' = 5 ∧
    writes (oid_reverse (Z.to_nat k) digits') (base128 v).
Proof.
  intros Hv Hd. pose proof (zlen_lsd 5 v). pose proof (zlen_nonneg (lsd 5 v)).
  eexists _, _. split_and!.
  - apply (oid_digits_lsd 5); [change (128 ^ Z.of_nat 5) with 34359738368|..]; lia.
  - rewrite zlen_splice; lia.
  - rewrite base128_lsd, Z.add_0_l.
    assert (marked (lsd 5 v) = take (length (lsd 5 v)) (marked (lsd 5 v))) as Ht.
    { symmetry. apply take_ge. by rewrite <-(length_fmap (λ d, d + 128) (lsd 5 v)). }
    rewrite Ht. unfold zlen. rewrite Nat2Z.id.
    apply oid_reverse_writes; [apply has_splice; lia|apply lsd_range|done].
Qed.

Lemma oid_values_lemma Values vs : ∀ L ctx c fs digits j,
  has Values j vs → Forall (λ v, 0 ≤ v < 2 ^ 31) vs → zlen digits = 5 →
  builds L ctx (c :: fs) →
  zlen (fbytes (c :: fs)) + zlen (concat (base128 <$> vs)) + 32 ≤ L →
  ∃ ctx', oid_values (length vs) Values digits j ctx = Ok (0, ctx') ∧
    builds L ctx' ((c ++ concat (base128 <$> vs)) :: fs).
Proof.
  induction vs as [|v vs IH]; intros L ctx c fs digits j Hv Hr Hd Hb Hle.
  { exists ctx. simpl. by rewrite app_nil_r. }
  apply rd_cons in Hv as [Hv Hv']. inversion Hr; subst. rewrite fmap_cons in *.
  cbn [concat] in *. rewrite zlen_app in Hle. cbn [oid_values length].
  pose proof (zlen_nonneg (concat (base128 <$> vs))).
  destruct (oid_digits_writes digits v) as (digits' & k & Hdig & Hd' & Hw); [done..|].
  rewrite Hv, bind_Ok, Hdig, bind_Ok.
  destruct (Hw L ctx c fs Hb) as (ctx1 & -> & Hb1); [lia|]. rewrite bind_Ok.
  rewrite (CHECK_SPACE_room L ctx1 ((c ++ base128 v) :: fs)) by (done || (rewrite fbytes_snoc; zlen_lia)).
  destruct (IH L ctx1 (c ++ base128 v) fs digits' (j + 1) Hv') as (ctx2 & Hrun & Hb2); try done.
  { rewrite fbytes_snoc, zlen_app. lia. }
  exists ctx2. by rewrite Hrun, app_assoc.
Qed.

(** Filling the length octet that was left open. *)
Lemma builds_patch L ctx c x y v fs :
  builds L ctx ((c ++ [x] ++ y) :: fs) →
  ∃ b, wr (Buffer ctx) (zlen (fbytes (c :: fs))) v = Ok b ∧
       builds L (set_buf b ctx) ((c ++ [v] ++ y) :: fs).
Proof.
  intros []. rewrite fbytes_snoc in *. pose proof (zlen_nonneg (fbytes (c :: fs))).
  eexists. split.
  { rewrite wr_splice, (proj2 (Z.leb_le _ _)) by zlen_lia. done. }
  split; cbn [Length Buffer Position CollectionStart CollectionPos set_buf];
    rewrite ?fbytes_snoc; try done.
  - rewrite zlen_splice; zlen_lia.
  - zlen_lia.
  - zlen_lia.
  - by apply (has_patch _ _ [x]).
Qed.

(** Position one further, over a byte of the buffer. *)
Lemma builds_skip L ctx c fs : builds L ctx (c :: fs) → zlen (fbytes (c :: fs)) + 1 ≤ L →
  ∃ x, builds L (set_pos (Position ctx + 1) ctx) ((c ++ [x]) :: fs).
Proof.
  intros [] Hle. destruct builds_Buffer0 as (_ & r & Hr). rewrite zdrop_0 in Hr.
  pose proof (zlen_nonneg (fbytes (c :: fs))).
  destruct r as [|x r].
  { rewrite app_nil_r in Hr. rewrite Hr in builds_room0. lia. }
  exists x. split; cbn [Length Buffer Position CollectionStart CollectionPos set_pos];
    rewrite ?fbytes_snoc; try done.
  - zlen_lia.
  - rewrite builds_Position0, u32_id; [zlen_lia|unfold is_u32; zlen_lia].
  - split; [done|]. exists r. by rewrite zdrop_0, <-app_assoc.
Qed.

Lemma implements_OID Values vs : valid_leaf (Oid vs) → has Values 0 (vs ++ [-1]) →
  implements (DERAddOID Values) [Put (encode (Oid vs))].
Proof.
  intros (Hn & Hr & Hf & Hl) Hv L ctx fs fs' Hb Hd Hle. destruct fs as [|c fs]; [done|].
  cbn [dsteps dstep mbind option_bind encode] in Hd. apply (inj Some) in Hd. subst fs'.
  rewrite tlv_short in Hle |- * by done. rewrite fbytes_snoc, !zlen_app in Hle.
  destruct vs as [|a [|b vs]]; [zlen_lia..|]. unfold DERAddOID.
  rewrite (oid_count_lemma Values (a :: b :: vs)), bind_Ok, Z.add_0_l; [|done|done|].
  2:{ unfold zlen in Hn. lia. }
  rewrite (proj2 (Z.ltb_lt _ _)) by lia. cbn [negb].
  assert (zlen (a :: b :: vs) = zlen vs + 2) as Hlen by zlen_lia. rewrite Hlen in *.
  pose proof (zlen_nonneg (fbytes (c :: fs))). pose proof (zlen_nonneg vs).
  inversion Hr as [|? ? Ha Hr1]; subst. inversion Hr1 as [|? ? Hb0 Hr2]; subst.
  cbn [oid_bytes] in *. inversion Hf as [|? ? Hh _]; subst. unfold is_u8 in Hh.
  set (vals := concat (base128 <$> vs)) in *. pose proof (zlen_nonneg vals). autorewrite with zlen in *.
  rewrite (CHECK_SPACE_room L ctx (c :: fs)) by (done || lia).
  destruct (put_writes 6 L ctx c fs Hb) as (ctx1 & -> & Hb1); [zlen_lia|]. rewrite bind_Ok.
  destruct (builds_skip L ctx1 _ fs Hb1) as (x & Hb2); [rewrite fbytes_snoc; zlen_lia|].
  apply rd_cons in Hv as [Hr0 Hv]. apply rd_cons in Hv as [Hr1' Hv].
  change (0 + 1 + 1) with 2 in Hv. change (0 + 1) with 1 in Hr1'.
  rewrite (proj2 (Z.eqb_neq _ 1)), Hr1', bind_Ok, Hr0, bind_Ok by lia.
  rewrite int32_Ok, bind_Ok, int32_Ok, bind_Ok, u8_id by (unfold is_u8, INT_MIN, INT_MAX; lia).
  destruct (put_writes (a * 40 + b) L _ _ fs Hb2) as (ctx3 & -> & Hb3).
  { rewrite !fbytes_snoc. zlen_lia. }
  rewrite bind_Ok, (proj2 (Z.leb_le 2 _)) by lia.
  assert (Z.to_nat (zlen vs + 2 - 2) = length vs) as -> by (unfold zlen; lia).
  destruct (oid_values_lemma Values vs L ctx3 _ fs (replicate 5 0) 2
    (proj1 (proj1 (has_app _ _ vs [-1]) Hv)) Hr2 eq_refl Hb3) as (ctx4 & -> & Hb4).
  { rewrite !fbytes_snoc. fold vals. zlen_lia. }
  rewrite bind_Ok. cbn [Z.ltb Z.compare]. fold vals in Hb4. rewrite <-!app_assoc in Hb4.
  rewrite (app_assoc c [6]) in Hb4.
  pose proof (builds_Position _ _ _ Hb4) as Hpos. pose proof (builds_Position _ _ _ Hb1) as Hp1.
  rewrite Hp1. rewrite Hpos.
  destruct (builds_patch L ctx4 (c ++ [6]) x _ (1 + zlen vals) fs Hb4) as (bf & Hwr & Hb5).
  exists (set_buf bf ctx4).
  assert (u8 (zlen (fbytes (((c ++ [6]) ++ [x] ++ [a * 40 + b] ++ vals) :: fs)) - 1
    - zlen (fbytes ((c ++ [6]) :: fs))) = 1 + zlen vals) as ->.
  { rewrite (fbytes_snoc (c ++ [6])). rewrite u8_id; [zlen_lia|unfold is_u8; zlen_lia]. }
  rewrite Hwr, bind_Ok. split; [done|]. by rewrite <-!app_assoc in Hb5.
Qed.

(** * Nesting *)
Lemma zlen_starts c fs : zlen (starts (c :: fs)) = zlen fs.
Proof.
  revert c. induction fs as [|d fs IH]; intros c; [done|].
  rewrite starts_cons, zlen_app, IH by done. zlen_lia.
Qed.

Lemma starts_head c d fs : starts (c :: fs) = starts (d :: fs).
Proof. by destruct fs. Qed.

Lemma push_builds L ctx c fs : builds L ctx (c :: fs) → zlen fs < 16 →
  ∃ ctx', push ctx = Ok ctx' ∧ builds L ctx' ([] :: c :: fs).
Proof.
  intros [] Hd. pose proof (zlen_nonneg (fbytes (c :: fs))). pose proof (zlen_nonneg fs).
  destruct builds_depth0 as [Hcp _].
  assert (CollectionPos ctx = zlen (starts (c :: fs))) as Hp by (rewrite zlen_starts; zlen_lia).
  rewrite zlen_starts in Hp. unfold push.
  assert (s32 (Position ctx) = zlen (fbytes (c :: fs))) as ->
    by (rewrite builds_Position0; unfold s32; dlia).
  rewrite wr_splice, (proj2 (Z.leb_le _ _)), bind_Ok by lia.
  eexists. split; [done|].
  split; cbn [Length Buffer Position CollectionStart CollectionPos set_stack];
    cbn [fbytes]; rewrite ?app_nil_r; try done.
  - zlen_lia.
  - rewrite zlen_splice; zlen_lia.
  - rewrite starts_cons, Hp, <-(zlen_starts c fs) by done.
    apply has_extend; [done|]. rewrite zlen_starts. zlen_lia.
Qed.

(** A call that opens an encoding. *)
Lemma implements_open f tag pre :
  (∀ ctx, CHECK_SPACE ctx = false → CollectionPos ctx < 16 →
    f ctx = (ctx ← put tag ctx; ctx ← push ctx;
             ctx ← match pre with [] => Ok ctx | v :: _ => put v ctx end; Ok (0, ctx))) →
  zlen pre ≤ 1 → implements f [Open tag pre].
Proof.
  intros Hf Hpre L ctx fs fs' Hb Hd Hle. destruct fs as [|c fs]; [done|].
  cbn [dsteps dstep mbind option_bind] in Hd. unfold DER_MAX_NESTED in Hd.
  destruct (Z.ltb_spec (zlen fs) 16) as [Hlt|]; [|done]. apply (inj Some) in Hd. subst fs'.
  cbn [fbytes] in Hle. rewrite !zlen_app in Hle. pose proof (zlen_nonneg pre).
  rewrite Hf; [|apply (CHECK_SPACE_room L ctx (c :: fs)); [done|cbn [fbytes]; zlen_lia]|].
  2:{ rewrite (proj1 (builds_depth _ _ _ Hb)). zlen_lia. }
  destruct (put_writes tag L ctx c fs Hb) as (ctx1 & -> & Hb1); [cbn [fbytes]; zlen_lia|].
  rewrite bind_Ok. destruct (push_builds L ctx1 _ fs Hb1 Hlt) as (ctx2 & -> & Hb2).
  rewrite bind_Ok. destruct pre as [|v [|]]; [by exists ctx2| |zlen_lia].
  destruct (put_writes v L ctx2 _ _ Hb2) as (ctx3 & -> & Hb3); [cbn [fbytes]; zlen_lia|].
  by exists ctx3.
Qed.

Lemma implements_Start b :
  implements (DERStartSequenceOrSet b) [Open (nesting_tag (if b then Sequence else SetOf)) []].
Proof.
  apply implements_open; [|done]. intros ctx Hs Hp. unfold DERStartSequenceOrSet, DER_MAX_NESTED.
  rewrite Hs, (proj2 (Z.ltb_lt _ _)) by done. by destruct b.
Qed.

Lemma implements_StartExplicit n : 0 ≤ n < 32 →
  implements (DERStartExplicit n) [Open (nesting_tag (Explicit n)) []].
Proof.
  intros Hn. apply implements_open; [|done]. intros ctx Hs Hp.
  unfold DERStartExplicit, DER_MAX_NESTED. rewrite Hs, (proj2 (Z.ltb_lt _ _)) by done.
  by rewrite !u8_id by (rewrite ?u8_id; unfold is_u8; lia).
Qed.

Lemma implements_StartOctet : implements DERStartEnvelopingOctetString [Open 4 []].
Proof.
  apply implements_open; [|done]. intros ctx Hs Hp. unfold DERStartEnvelopingOctetString, DER_MAX_NESTED.
  by rewrite Hs, (proj2 (Z.ltb_lt _ _)) by done.
Qed.

Lemma implements_StartBit : implements DERStartEnvelopingBitString [Open 3 [0]].
Proof.
  apply implements_open; [|done]. intros ctx Hs Hp. unfold DERStartEnvelopingBitString, DER_MAX_NESTED.
  by rewrite Hs, (proj2 (Z.ltb_lt _ _)) by done.
Qed.

(** Moving [c] up to make room for [l] before it. *)
Lemma has_insert {A} (m a l c : list A) :
  has m 0 (a ++ c) → zlen a + zlen l + zlen c ≤ zlen m →
  has (splice (splice m (zlen a + zlen l) c) (zlen a) l) 0 (a ++ l ++ c).
Proof.
  intros (_ & r & Hr) Hle. rewrite zdrop_0 in Hr.
  pose proof (zlen_nonneg a). pose proof (zlen_nonneg l). pose proof (zlen_nonneg c).
  set (x := ztake (zlen l) (c ++ r)).
  assert (zlen x = zlen l) as Hx.
  { apply zlen_take. rewrite Hr in Hle. rewrite <-app_assoc, zlen_app in Hle. lia. }
  assert (m = (a ++ x) ++ zdrop (zlen l) (c ++ r)) as Hm.
  { unfold x. by rewrite Hr, <-!app_assoc, ztake_zdrop. }
  apply (has_patch _ a x l c); [|done].
  assert (splice m (zlen a + zlen l) c = ((a ++ x) ++ c) ++ zdrop (zlen a + zlen l + zlen c) m) as ->.
  { unfold splice. rewrite <-!app_assoc, (app_assoc a). f_equal. rewrite Hm.
    apply ztake_app_exact. rewrite zlen_app. lia. }
  rewrite (app_assoc a). apply has_whole.
Qed.

Lemma implements_Pop : implements DERPopNesting [Close].
Proof.
  intros L ctx fs fs' Hb Hd Hle. destruct fs as [|c [|d fs]]; [done..|].
  cbn [dsteps dstep mbind option_bind] in Hd.
  destruct (Z.ltb_spec (zlen c) 65536) as [Hc|]; [|done]. apply (inj Some) in Hd. subst fs'.
  rewrite fbytes_snoc in Hle. unfold DERPopNesting.
  rewrite !zlen_app in Hle. pose proof (zlen_der_len (zlen c)).
  rewrite (CHECK_SPACE_room L ctx (c :: d :: fs)) by (done || (cbn [fbytes] in *; zlen_lia)).
  pose proof Hb as []. destruct builds_depth0 as [Hcp Hdep].
  change (fbytes (c :: d :: fs)) with (fbytes (d :: fs) ++ c) in *.
  set (a := fbytes (d :: fs)) in *. rewrite !zlen_app in *.
  pose proof (zlen_nonneg a). pose proof (zlen_nonneg c). pose proof (zlen_nonneg fs).
  rewrite (proj2 (Z.ltb_lt 0 _)) by zlen_lia. cbn [negb set_stack CollectionStart CollectionPos].
  assert (rd (CollectionStart ctx) (CollectionPos ctx - 1) = Ok (zlen a)) as ->.
  { apply (rd_has _ _ _ []). rewrite starts_cons in builds_stack0 by done.
    apply has_app in builds_stack0 as [_ Hs]. rewrite zlen_starts in Hs.
    replace (CollectionPos ctx - 1) with (0 + zlen fs) by zlen_lia. exact Hs. }
  rewrite bind_Ok. cbn [Position set_stack Buffer]. rewrite builds_Position0.
  assert (s32 (zlen a + zlen c - zlen a) = zlen c) as -> by (unfold s32; dlia).
  rewrite (rd_bytes_has (Buffer ctx) (zlen a) c), bind_Ok by
    (lia || by apply has_app in builds_Buffer0 as [_ ?]).
  rewrite GetIntEncodedNumBytes_len, wr_bytes_splice, (proj2 (Z.leb_le _ _)), bind_Ok by lia.
  rewrite EncodeInt_len, bind_Ok by (try rewrite zlen_splice; lia).
  eexists. split; [done|].
  split; cbn [Length Buffer Position CollectionStart CollectionPos set_stack set_pos set_buf];
    rewrite ?fbytes_snoc; fold a; try done.
  - rewrite !zlen_splice; rewrite ?zlen_splice; lia.
  - rewrite !zlen_app. lia.
  - rewrite !zlen_app, u32_id; [lia|unfold is_u32; lia].
  - apply has_insert; [done|lia].
  - rewrite Hcp. zlen_lia.
  - rewrite starts_cons in builds_stack0 by done.
    apply has_app in builds_stack0 as [Hs _]. by rewrite (starts_head _ d).
Qed.

Lemma implements_Wrap : implements DERTbsToCert [Wrap].
Proof.
  intros L ctx fs fs' Hb Hd Hle. destruct fs as [|c [|d fs]]; [done| |done].
  cbn [dsteps dstep mbind option_bind] in Hd. apply (inj Some) in Hd. subst fs'.
  change (fbytes [c; [48]]) with ([48] ++ c) in Hle. rewrite zlen_app in Hle.
  change (zlen [48]) with 1 in Hle. pose proof (zlen_nonneg c).
  pose proof Hb as []. change (fbytes [c]) with c in *. destruct builds_depth0 as [Hcp _].
  unfold DERTbsToCert. rewrite Hcp. change (zlen [c] - 1) with 0. cbn [Z.eqb negb].
  rewrite (CHECK_SPACE_room L ctx [c]) by (done || (cbn [fbytes app]; lia)).
  rewrite builds_Position0, (rd_bytes_has (Buffer ctx) 0 c), bind_Ok by (done || lia).
  rewrite wr_bytes_splice, (proj2 (Z.leb_le _ _)), bind_Ok by lia.
  cbn [Buffer set_pos set_buf].
  rewrite wr_splice, (proj2 (Z.leb_le _ _)), bind_Ok by (try rewrite zlen_splice; lia).
  cbn [CollectionStart CollectionPos set_pos set_buf]. rewrite Hcp. change (zlen [c] - 1) with 0.
  rewrite wr_splice, (proj2 (Z.leb_le _ _)), bind_Ok by lia.
  eexists. split; [done|].
  split; cbn [Length Buffer Position CollectionStart CollectionPos set_stack set_pos set_buf];
    change (fbytes [c; [48]]) with ([48] ++ c); try done.
  - rewrite !zlen_splice; rewrite ?zlen_splice; change (zlen [48]) with 1; lia.
  - rewrite zlen_app. change (zlen [48]) with 1. lia.
  - rewrite zlen_app, u32_id; [change (zlen [48]) with 1; lia|unfold is_u32; lia].
  - apply (has_insert (Buffer ctx) [] [48] c); [done|rewrite zlen_nil; change (zlen [48]) with 1; lia].
  - rewrite zlen_splice; [done|done|]. change (zlen [1]) with 1. lia.
  - change (starts [c; [48]]) with ([] ++ [1]).
    apply (has_extend (CollectionStart ctx) [] [1]); [by apply has_nil|].
    change (zlen [1]) with 1. change (zlen (@nil Z)) with 0. lia.
Qed.

Lemma DERInitContext_lemma buf L : 0 ≤ L < 2 ^ 31 → L ≤ zlen buf →
  ∃ ctx, DERInitContext buf L = Ok ctx ∧ builds L ctx [[]].
Proof.
  intros HL Hb. unfold DERInitContext.
  assert (zlen (replicate (Z.to_nat L) 0) = L) as Hz by (rewrite zlen_replicate; lia).
  rewrite wr_bytes_splice, Hz, Z.add_0_l, (proj2 (Z.leb_le _ _)), bind_Ok by lia.
  eexists. split; [done|].
  split; cbn [Length Buffer Position CollectionStart CollectionPos]; try done; try lia.
  - rewrite zlen_splice; lia.
  - change (fbytes [[]]) with (@nil Z). rewrite zlen_nil. lia.
  - by apply has_nil.
  - by apply has_nil.
Qed.

(** * Trees *)
Lemma asn1_tree_ind (P : asn1 → Prop) :
  (∀ t, match t with Nested _ _ => False | _ => True end → P t) →
  (∀ k l, Forall P l → P (Nested k l)) → ∀ t, P t.
Proof.
  intros Hleaf Hn. fix IH 1. intros t. destruct t as [| | | | | | | |k l];
    try (by apply Hleaf). apply Hn. induction l as [|t l IHl]; constructor; [apply IH|exact IHl].
Qed.

Lemma depth_nonneg t : 0 ≤ depth t.
Proof. destruct t; cbn [depth]; try lia. induction l; cbn; lia. Qed.

Lemma dsteps_ops t : ∀ c fs, zlen (encode t) < 65536 → zlen fs + depth t ≤ 16 →
  dsteps (ops t) (c :: fs) = Some ((c ++ encode t) :: fs).
Proof.
  induction t as [t Ht|k l IH] using asn1_tree_ind; intros c fs Hl Hd; [by destruct t|].
  cbn [ops dsteps dstep mbind option_bind]. cbn [depth encode] in *. unfold tlv in *.
  assert (∀ l', 0 ≤ foldr Z.max 0 (depth <$> l')) as Hm by (clear; induction l'; cbn; lia).
  pose proof (Hm l). rewrite zlen_cons, !zlen_app in Hl.
  set (p := nesting_prefix k) in *. pose proof (zlen_nonneg p).
  pose proof (zlen_nonneg (der_len (zlen p + zlen (concat (encode <$> l))))).
  unfold DER_MAX_NESTED. rewrite (proj2 (Z.ltb_lt _ _)) by lia.
  cbn [mbind option_bind]. rewrite dsteps_app.
  assert (∀ l' q, Forall (λ t, ∀ c fs, zlen (encode t) < 65536 → zlen fs + depth t ≤ 16 →
      dsteps (ops t) (c :: fs) = Some ((c ++ encode t) :: fs)) l' →
    zlen (concat (encode <$> l')) < 65536 → 1 + zlen fs + foldr Z.max 0 (depth <$> l') ≤ 16 →
    dsteps (concat (ops <$> l')) (q :: (c ++ [nesting_tag k]) :: fs)
    = Some ((q ++ concat (encode <$> l')) :: (c ++ [nesting_tag k]) :: fs)) as Hlist.
  { clear -Hm. induction l' as [|t l' IHl]; intros q Hf Hz Hd; [by rewrite app_nil_r|].
    rewrite !fmap_cons in *. cbn [concat foldr] in *.
    inversion Hf as [|? ? Ht Hf']; subst. rewrite zlen_app in Hz.
    pose proof (zlen_nonneg (encode t)). pose proof (zlen_nonneg (concat (encode <$> l'))).
    pose proof (Hm l'). rewrite dsteps_app, Ht; [|lia|zlen_lia]. cbn [mbind option_bind].
    rewrite IHl by (done || lia). by rewrite app_assoc. }
  rewrite Hlist by (done || lia). cbn [mbind option_bind dsteps dstep]. rewrite !zlen_app.
  rewrite (proj2 (Z.ltb_lt _ _)) by lia. by rewrite <-app_assoc.
Qed.

Lemma dsteps_ops_list l c fs : Forall (λ t, zlen (encode t) < 65536 ∧ zlen fs + depth t ≤ 16) l →
  dsteps (concat (ops <$> l)) (c :: fs) = Some ((c ++ concat (encode <$> l)) :: fs).
Proof.
  intros Hf. revert c. induction Hf as [|t l [Hl Hd] _ IH]; intros c; [by rewrite app_nil_r|].
  rewrite !fmap_cons. cbn [concat]. rewrite dsteps_app, dsteps_ops by done.
  cbn [mbind option_bind]. by rewrite IH, app_assoc.
Qed.

(** A coarser description of the same effect. *)
Lemma implements_weaken f a b : (∀ fs fs', dsteps b fs = Some fs' → dsteps a fs = Some fs') →
  implements f a → implements f b.
Proof. intros Hab Hf L ctx fs fs' Hb Hd. apply (Hf L ctx fs fs'); auto. Qed.

(** The builder calls for a tree, in the order the certificate code makes them. *)
Definition start (k : nesting) : der :=
  match k with
  | Sequence => DERStartSequenceOrSet true
  | SetOf => DERStartSequenceOrSet false
  | Explicit n => DERStartExplicit n
  | OctetNest => DERStartEnvelopingOctetString
  | BitNest => DERStartEnvelopingBitString
  end.

Fixpoint build (t : asn1) : der :=
  match t with
  | Oid vs => DERAddOID (vs ++ [-1])
  | Utf8String s => DERAddUTF8String (s ++ [0])
  | PrintableString s => DERAddPrintableString (s ++ [0])
  | UTCTime s => DERAddUTCTime (s ++ [0])
  | IntegerBytes bs => DERAddIntegerFromArray bs (zlen bs)
  | Boolean b => DERAddBoolean b
  | BitString bs => DERAddBitString bs (zlen bs)
  | OctetString bs => DERAddOctetString bs (zlen bs)
  | Nested k l => CHK (start k) (foldr CHK DERPopNesting (build <$> l))
  end.

Fixpoint valid (t : asn1) : Prop :=
  match t with
  | Nested k l =>
    match k with Explicit n => 0 ≤ n < 32 | _ => True end ∧ foldr and True (valid <$> l)
  | t => valid_leaf t
  end.

Lemma implements_start k : match k with Explicit n => 0 ≤ n < 32 | _ => True end →
  implements (start k) [Open (nesting_tag k) (nesting_prefix k)].
Proof.
  destruct k; intros Hk; [apply (implements_Start true)|apply (implements_Start false)
    |by apply implements_StartExplicit|apply implements_StartOctet|apply implements_StartBit].
Qed.

Lemma cstring_self s : Forall (λ c, 0 < c < 256) s → cstring (s ++ [0]) s.
Proof. intros Hs. by exists []. Qed.

Lemma implements_build t : valid t → implements (build t) (ops t).
Proof.
  induction t as [t Ht|k l IH] using asn1_tree_ind; intros Hv.
  - destruct t as [vs|s|s|s|bs|b|bs|bs|]; try done; cbn [build ops]; cbn [valid] in Hv.
    + apply implements_OID; [done|apply has_self].
    + destruct Hv. by apply implements_UTF8String; [apply cstring_self|].
    + destruct Hv. by apply implements_PrintableString; [apply cstring_self|].
    + destruct Hv. by apply implements_UTCTime; [apply cstring_self|].
    + apply implements_IntegerFromArray; [done|apply has_self].
    + apply implements_Boolean.
    + apply implements_BitString; [apply has_self|done].
    + apply implements_OctetString; [apply has_self|done].
  - cbn [valid] in Hv. destruct Hv as [Hk Hv]. cbn [build ops].
    apply implements_cons; [by apply implements_start|].
    induction IH as [|t l Ht _ IHl]; [apply implements_Pop|].
    cbn in Hv. destruct Hv as [Hv Hvs]. rewrite !fmap_cons. cbn [foldr concat].
    rewrite <-app_assoc. apply implements_CHK; auto.
Qed.

(** * Correctness *)

(** C19: for every ASN.1 tree within the builder's limits (nesting, contents
    below 2^16, 32 bytes of slack), the builder calls made in its order on a
    fresh context all succeed, close every nesting and leave exactly the DER
    encoding of the tree in the buffer. *)
Theorem DER_build_spec buf L t :
  valid t → depth t ≤ 16 → zlen (encode t) < 65536 →
  zlen (encode t) + 32 ≤ L → L < 2 ^ 31 → L ≤ zlen buf →
  ∃ ctx, (ctx ← DERInitContext buf L; build t ctx) = Ok (0, ctx) ∧
    DERGetNestingDepth ctx = 0 ∧ DERGetEncodedLength ctx = zlen (encode t) ∧
    has (Buffer ctx) 0 (encode t).
Proof.
  intros Hv Hd Hs HL HL2 Hb. pose proof (zlen_nonneg (encode t)).
  destruct (DERInitContext_lemma buf L) as (ctx0 & -> & Hb0); [lia|done|]. rewrite bind_Ok.
  destruct (implements_build t Hv L ctx0 [[]] [encode t] Hb0) as (ctx & Hrun & []).
  { by rewrite dsteps_ops. }
  { done. }
  exists ctx. split_and!; [done| | |done].
  - apply builds_depth0.
  - unfold DERGetEncodedLength. rewrite builds_Position0.
    change (fbytes [encode t]) with (encode t). unfold s32. dlia.
Qed.

(** A name with a common name, in 100 bytes. *)
Lemma DER_build_spec_witness :
  let t := Nested Sequence [Nested SetOf [Nested Sequence
             [Oid [2; 5; 4; 3]; Utf8String [82; 73; 111; 84]]]; Boolean true] in
  ∃ ctx, (ctx ← DERInitContext (repeat 7 100) 100; build t ctx) = Ok (0, ctx) ∧
    DERGetNestingDepth ctx = 0 ∧ DERGetEncodedLength ctx = zlen (encode t) ∧
    has (Buffer ctx) 0
      [48; 18; 49; 13; 48; 11; 6; 3; 85; 4; 3; 12; 4; 82; 73; 111; 84; 1; 1; 255].
Proof.
  intros t. apply (DER_build_spec (repeat 7 100) 100 t); unfold t; cbn -[Z.pow]; try done.
  repeat split; try done; repeat constructor; done.
Defined.

(** * PEM *)
Definition pem_label (ty : Z) : string :=
  match ty with
  | 0 => "CERTIFICATE"
  | 1 => "PUBLIC KEY"
  | 2 => "EC PRIVATE KEY"
  | _ => "CERTIFICATE REQUEST"
  end.

Definition pem_begin (ty : Z) : list Z :=
  bytes_of_string ("-----BEGIN " +:+ pem_label ty +:+ "-----") ++ [10].
Definition pem_end (ty : Z) : list Z :=
  bytes_of_string ("-----END " +:+ pem_label ty +:+ "-----") ++ [10].

Definition pem_text (ty : Z) (der : list Z) : list Z :=
  pem_begin ty ++ (b64 der ++ [10]) ++ pem_end ty.

Lemma PEMhf_lookup ty : 0 ≤ ty < 4 → ∃ hf, rd PEMhf ty = Ok hf ∧
  hLen hf = zlen (pem_begin ty) ∧ rd_bytes (header hf) 0 (hLen hf) = Ok (pem_begin ty) ∧
  fLen hf = zlen (pem_end ty) ∧ rd_bytes (footer hf) 0 (fLen hf) = Ok (pem_end ty).
Proof.
  intros Hty. assert (ty = 0 ∨ ty = 1 ∨ ty = 2 ∨ ty = 3) as [-> | [-> | [-> | ->]]] by lia;
    eexists; (split; [reflexivity|]); repeat split; vm_compute; reflexivity.
Qed.

Lemma pem_sizes ty : zlen (pem_begin ty) ≤ 36 ∧ zlen (pem_end ty) ≤ 34.
Proof.
  unfold pem_begin, pem_end, pem_label. do 3 (case_match; try (split; vm_compute; done)).
Qed.

Lemma Base64Length_lemma der : zlen der < 2 ^ 30 → Base64Length (zlen der) = zlen (b64 der) + 1.
Proof.
  intros Hl. pose proof (zlen_nonneg der). rewrite zlen_b64. unfold Base64Length.
  destruct (Z.eqb_spec (zlen der) 0) as [->|]; [done|].
  rewrite (u32_id (_ - 1)), u32_id by (unfold is_u32; dlia). dlia.
Qed.

Lemma DERtoPEM_lemma ctx der ty pem : 0 ≤ ty < 4 → bytes der → zlen der < 2 ^ 30 →
  has (Buffer ctx) 0 der → Position ctx = zlen der → zlen (pem_text ty der) ≤ zlen pem →
  ∀ len, match len with Some n => zlen (pem_text ty der) ≤ n | None => True end →
  DERtoPEM (Some ctx) ty (Some pem) len
  = Ok (0, Some (splice pem 0 (pem_text ty der)), (λ _, zlen (pem_text ty der)) <$> len).
Proof.
  intros Hty Hb Hl Hbuf Hpos Hroom len Hlen. unfold DERtoPEM, LAST_CERT_TYPE.
  rewrite (proj2 (Z.ltb_lt ty 4)) by lia. cbn [negb].
  destruct (PEMhf_lookup ty Hty) as (hf & -> & Hhl & Hh & Hfl & Hf). rewrite bind_Ok, Hpos.
  rewrite Base64Length_lemma by done. pose proof (pem_sizes ty). pose proof (zlen_nonneg (pem_end ty)).
  pose proof (zlen_nonneg (pem_begin ty)). pose proof (zlen_nonneg (b64 der)).
  pose proof (zlen_b64 der) as Hz. pose proof (zlen_nonneg der).
  assert (zlen (pem_text ty der) = zlen (pem_begin ty) + (zlen (b64 der) + 1) + zlen (pem_end ty))
    as Htot by (unfold pem_text; rewrite !zlen_app; change (zlen [10]) with 1; lia).
  rewrite Hhl, Hfl, u32_id in * by (unfold is_u32; dlia).
  assert (zlen (b64 der) + 1 + zlen (pem_begin ty) + zlen (pem_end ty) = zlen (pem_text ty der))
    as -> by lia.
  assert (match len with Some n => n <? zlen (pem_text ty der) | None => false end = false) as ->
    by (destruct len; [apply Z.ltb_ge; lia|done]).
  rewrite Hh, bind_Ok, wr_bytes_splice, (proj2 (Z.leb_le _ _)), bind_Ok by lia.
  set (a := pem_begin ty) in *. set (body := b64 der ++ [10]).
  assert (zlen body = zlen (b64 der) + 1) as Hbody by (unfold body; rewrite zlen_app; done).
  assert (zlen (splice pem 0 a) = zlen pem) as Hsz by (rewrite zlen_splice; lia).
  rewrite (encode_lemma (Buffer ctx) der _ None), bind_Ok; try (done || lia).
  2:{ rewrite zlen_drop; lia. }
  cbn [default fmap option_fmap id]. fold body.
  assert (ztake (zlen a) (splice pem 0 a) ++ splice (zdrop (zlen a) (splice pem 0 a)) 0 body
    = splice pem 0 (a ++ body)) as ->.
  { rewrite <-(splice_splice pem 0 a body), Z.add_0_l by lia. unfold splice at 2 4.
    cbn [ztake]. rewrite zdrop_zdrop by (rewrite ?Z.add_0_l; lia). by rewrite Z.add_0_l. }
  rewrite Hf, bind_Ok, wr_bytes_splice by lia.
  rewrite zlen_splice, (proj2 (Z.leb_le _ _)), bind_Ok by (rewrite ?zlen_app; lia).
  do 4 f_equal. rewrite <-Hbody, <-zlen_app.
  rewrite <-(Z.add_0_l (zlen (a ++ body))), splice_splice by (rewrite ?zlen_app; lia).
  unfold pem_text. by rewrite <-app_assoc.
Qed.

(** DERtoPEM writes the BEGIN line of the type, the Base64 text of the
    encoded bytes on one line and the END line, stores their total length, and
    with a [*Length] that is too small stores the needed length and writes
    nothing. *)
Theorem DERtoPEM_spec ctx der ty pem len : 0 ≤ ty < 4 → bytes der → zlen der < 2 ^ 30 →
  has (Buffer ctx) 0 der → Position ctx = zlen der → zlen (pem_text ty der) ≤ zlen pem →
  DERtoPEM (Some ctx) ty (Some pem) len
  = let text := pem_text ty der in
    if match len with Some n => n <? zlen text | None => false end
    then Ok (-1, Some pem, Some (zlen text))
    else Ok (0, Some (splice pem 0 text), (λ _, zlen text) <$> len).
Proof.
  intros Hty Hb Hl Hbuf Hpos Hroom. cbv zeta.
  destruct (match len with Some n => n <? zlen (pem_text ty der) | None => false end) eqn:E.
  2:{ apply DERtoPEM_lemma; try done. destruct len; [|done]. by apply Z.ltb_ge. }
  destruct len as [n|]; [|done]. apply Z.ltb_lt in E. unfold DERtoPEM, LAST_CERT_TYPE.
  rewrite (proj2 (Z.ltb_lt ty 4)) by lia. cbn [negb].
  destruct (PEMhf_lookup ty Hty) as (hf & -> & Hhl & _ & Hfl & _). rewrite bind_Ok, Hpos.
  rewrite Base64Length_lemma, Hhl, Hfl by done.
  pose proof (pem_sizes ty). pose proof (zlen_nonneg (pem_end ty)).
  pose proof (zlen_nonneg (pem_begin ty)). pose proof (zlen_nonneg (b64 der)).
  pose proof (zlen_b64 der). pose proof (zlen_nonneg der).
  assert (zlen (b64 der) + 1 + zlen (pem_begin ty) + zlen (pem_end ty) = zlen (pem_text ty der))
    as -> by (unfold pem_text; rewrite !zlen_app; change (zlen [10]) with 1; lia).
  rewrite u32_id by (unfold is_u32, pem_text; rewrite !zlen_app; change (zlen [10]) with 1; dlia).
  by rewrite (proj2 (Z.ltb_lt _ _)).
Qed.

Lemma DERtoPEM_spec_witness :
  DERtoPEM (Some (mkDer [48; 0] 2 2 [] 0)) 1 (Some (repeat 0 60)) (Some 57)
  = Ok (0, Some (splice (repeat 0 60) 0 (pem_text 1 [48; 0])), Some 57).
Proof.
  etrans; [apply (DERtoPEM_spec (mkDer [48; 0] 2 2 [] 0) [48; 0] 1 (repeat 0 60) (Some 57));
    [done|by repeat constructor|done|apply has_self|done|done]|].
  vm_compute. reflexivity.
Defined.

(** * Limits of the checks *)

Lemma EncodeInt_short n m p : 0 ≤ n < 65536 → 0 ≤ p → zlen m < p + zlen (der_len n) →
  EncodeInt m p n = Ub OutOfBounds.
Proof.
  intros Hn Hp Hlt. unfold EncodeInt, der_len in *.
  rewrite (proj2 (Z.ltb_lt n 166536)) by lia. cbn [negb].
  destruct (Z.ltb_spec n 128); [|destruct (Z.ltb_spec n 256)]; autorewrite with zlen in Hlt.
  - rewrite wr_splice, (proj2 (Z.leb_gt _ _)) by lia. done.
  - rewrite wr_splice by lia. destruct (Z.leb_spec (p + 1) (zlen m)); [|done].
    rewrite bind_Ok, wr_splice, zlen_splice, (proj2 (Z.leb_gt _ _)) by zlen_lia. done.
  - rewrite wr_splice by lia. destruct (Z.leb_spec (p + 1) (zlen m)); [|done].
    rewrite bind_Ok, wr_splice, zlen_splice by zlen_lia.
    destruct (Z.leb_spec (p + 1 + 1) (zlen m)); [|done].
    rewrite bind_Ok, wr_splice, !zlen_splice, (proj2 (Z.leb_gt _ _))
      by (rewrite ?zlen_splice; zlen_lia). done.
Qed.

(** CHECK_SPACE2 adds the size of the object to the space that is left
    instead of subtracting it, so an octet string that does not fit passes the
    check and is written past the end of the buffer. *)
Theorem DERAddOctetString_overrun L ctx c fs src bs :
  builds L ctx (c :: fs) → zlen (Buffer ctx) = L → has src 0 bs → zlen bs < 65536 →
  32 ≤ L - Position ctx + zlen bs → L - Position ctx < zlen (encode (OctetString bs)) →
  DERAddOctetString src (zlen bs) ctx = Ub OutOfBounds.
Proof.
  intros [] Hm Hs Hn Hpass Hover. pose proof (zlen_nonneg bs). pose proof (zlen_der_len (zlen bs)).
  pose proof (zlen_nonneg (fbytes (c :: fs))). cbn [encode] in Hover. unfold tlv in Hover.
  rewrite zlen_cons, zlen_app in Hover. unfold DERAddOctetString, CHECK_SPACE2.
  rewrite builds_Length0, (u32_id (L - _)), u32_id by (unfold is_u32; lia).
  rewrite (proj2 (Z.ltb_ge _ 32)) by lia. unfold put at 1.
  rewrite wr_splice by lia. change (zlen [4]) with 1.
  destruct (Z.leb_spec (Position ctx + 1) (zlen (Buffer ctx))); [|done]. rewrite !bind_Ok.
  assert (s32 (zlen bs) = zlen bs) as -> by (unfold s32; dlia).
  unfold put_length. cbn [Buffer Position set_pos set_buf].
  assert (zlen (splice (Buffer ctx) (Position ctx) [4]) = L) as Hsz
    by (rewrite zlen_splice; change (zlen [4]) with 1; lia).
  rewrite (u32_id (Position ctx + 1)) by (unfold is_u32; lia).
  destruct (Z.leb_spec (Position ctx + 1 + zlen (der_len (zlen bs))) L).
  - rewrite EncodeInt_len, !bind_Ok, GetIntEncodedNumBytes_len by lia.
    unfold put_memcpy. rewrite (rd_bytes_has src 0 bs), bind_Ok by (done || apply zlen_nonneg).
    cbn [Buffer Position set_pos set_buf]. rewrite u32_id by (unfold is_u32; lia).
    rewrite wr_bytes_splice, zlen_splice, Hsz by lia.
    by rewrite (proj2 (Z.leb_gt _ _)) by lia.
  - rewrite EncodeInt_short by lia. done.
Qed.

Lemma builds_empty m L : 0 ≤ L < 2 ^ 31 → L ≤ zlen m →
  builds L (mkDer m L 0 (replicate 16 (-1)) 0) [[]].
Proof.
  intros. split; try done; try apply has_nil; cbn; try lia; rewrite ?zlen_nil; lia.
Qed.

(** 50 bytes into an empty buffer of 40. *)
Lemma DERAddOctetString_overrun_witness :
  DERAddOctetString (repeat 1 50) 50 (mkDer (repeat 0 40) 40 0 (replicate 16 (-1)) 0)
  = Ub OutOfBounds.
Proof.
  apply (DERAddOctetString_overrun 40 _ [] [] (repeat 1 50) (repeat 1 50));
    [by apply builds_empty|done|apply has_self|done|done|done].
Defined.

(** * Zero

    DERAddInteger of 0 removes all four bytes of the number and then looks at a
    fifth one: outside [valx] where a [long] has four bytes, and where it has
    more the result is an INTEGER without contents octets. *)
Lemma DERAddInteger_zero long_size L ctx fs :
  builds L ctx fs → zlen (fbytes fs) + 32 ≤ L → (4 ≤ long_size)%nat →
  DERAddInteger long_size 0 ctx
  = (v ← rd ([0; 0; 0; 0] ++ replicate (long_size - 4) 0) 4;
     ctx ← put 2 ctx;
     ctx ← (if 128 <=? v then ctx ← put (u8 1) ctx; put 0 ctx else put (u8 0) ctx);
     Ok (0, ctx)).
Proof.
  intros Hb Hle Hl. assert (htonl_bytes long_size 0 = [0; 0; 0; 0] ++ replicate (long_size - 4) 0)
    as Hbytes by by apply htonl_bytes_spec.
  rewrite <-Hbytes. unfold DERAddInteger, DERAddIntegerFromArray.
  rewrite (CHECK_SPACE2_room L ctx fs) by (done || lia).
  assert (leading_zeros (Z.to_nat 4) (htonl_bytes long_size 0) 0 = Ok 4) as ->
    by by rewrite Hbytes. done.
Qed.

Lemma DERAddInteger_zero_long4 L ctx fs :
  builds L ctx fs → zlen (fbytes fs) + 32 ≤ L → DERAddInteger 4 0 ctx = Ub OutOfBounds.
Proof. intros Hb Hle. by rewrite (DERAddInteger_zero 4 L ctx fs). Qed.

Lemma implements_Integer_zero long_size : (5 ≤ long_size)%nat →
  implements (DERAddInteger long_size 0) [Put [2; 0]].
Proof.
  intros Hl. apply (implements_put _ (λ ctx, ctx ← put 2 ctx; put 0 ctx) [2; 0]).
  - intros L ctx fs Hb Hle. rewrite (DERAddInteger_zero long_size L ctx fs) by (done || zlen_lia || lia).
    destruct long_size as [|[|[|[|[|n]]]]]; [lia..|].
    change (rd _ 4) with (@Ok Z 0). rewrite bind_Ok. by rewrite bind_assoc.
  - apply (writes_bind (put 2) _ [2] [0]); apply put_writes.
Qed.
