(* ===== verification/Big.v ===== *)
(** RiotEcc.c, first half: the 288-bit integers [bigval_t] the elliptic curve
    code computes with, and their arithmetic modulo the field prime and the
    group order of P-256.

    A [bigval_t] is the list of its nine words, least significant first; its
    most significant word is signed. The loops over the nine words recurse over
    the lists, in the order of the loop; signed 64-bit arithmetic is checked,
    so an overflow would be [Ub IntOverflow]. A right shift of a negative value
    is arithmetic and a left shift of one multiplies, as the compilers of the
    targets define them. *)
From S2P Require Export Words.

(** * RiotEcc.h *)
Definition BIGLEN : Z := 9.
Definition RIOT_ECC_COORD_BYTES : Z := 32.

Record affine_point := mkPoint { px : list Z; py : list Z; infinity : Z }.
Record ECDSA_sig := mkSig { sig_r : list Z; sig_s : list Z }.

Definition MSW : Z := BIGLEN - 1.

Inductive modulus_val : Type := MOD_MODULUS | MOD_ORDER.

Definition s64 (x : Z) : Z :=
  (x + 9223372036854775808) mod 18446744073709551616 - 9223372036854775808.

Definition int64 (x : Z) : outcome Z :=
  if (-9223372036854775808 <=? x) && (x <? 9223372036854775808)
  then Ok x else Ub IntOverflow.

(** * Constants *)
Definition big_zero : list Z := [0; 0; 0; 0; 0; 0; 0; 0; 0].
Definition big_one : list Z := [1; 0; 0; 0; 0; 0; 0; 0; 0].
Definition affine_infinity : affine_point := mkPoint big_zero big_zero 1.

Definition modulusP : list Z :=
  [4294967295; 4294967295; 4294967295; 0; 0; 0; 1; 4294967295; 0].
Definition curve_b : list Z :=
  [668098635; 1003371582; 3428036854; 1696401072; 1989707452; 3018571093; 2855965671;
   1522939352; 0].
Definition orderP : list Z :=
  [4234356049; 4089039554; 2803342980; 3169254061; 4294967295; 4294967295; 0; 4294967295; 0].

(** The first nine words of [orderDBL]; the others are zero and never read. *)
Definition orderDBL : list Z :=
  [4234356049 - 4294967296; 4089039554 - 4294967296 + 1; 2803342980 - 4294967296 + 1;
   3169254061 - 4294967296 + 1; 4294967295 - 4294967296 + 1; 4294967295 - 4294967296 + 1;
   0 + 1; 4294967295 - 4294967296; 0 + 1].

Definition base_point : affine_point :=
  mkPoint
    [3633889942; 4104206661; 770388896; 1996717441; 1671708914; 4173129445; 3777774151;
     1796723186; 0]
    [935285237; 3417718888; 1798397646; 734933847; 2081398294; 2397563722; 4263149467;
     1340293858; 0] 0.

(** * Tests *)
Definition msw (a : list Z) : Z := s32 (a !!! 8%nat).
Definition big_is_negative (a : list Z) : bool := msw a <? 0.
Definition big_is_odd (a : list Z) : bool := negb (Z.land (a !!! 0%nat) 1 =? 0).

Definition big_is_zero (a : list Z) : bool := forallb (λ w, w =? 0) (take 9 a).
Definition big_is_one (a : list Z) : bool :=
  (a !!! 0%nat =? 1) && forallb (λ w, w =? 0) (take 8 (drop 1 a)).

(** From the word [n - 1] down. *)
Fixpoint cmp_words (n : nat) (a b : list Z) : Z :=
  match n with
  | O => 0
  | S i =>
    if b !!! i <? a !!! i then 1
    else if a !!! i <? b !!! i then -1
    else cmp_words i a b
  end.

Definition big_cmp (a b : list Z) : Z :=
  if msw b <? msw a then 1
  else if msw a <? msw b then -1
  else cmp_words 8 a b.

(** * Linear operations *)

(** The steps RDCSTEP of big_adjustP, [w] being the carry. *)
Fixpoint adjust_words (w : Z) (a adj : list Z) : outcome (list Z) :=
  match a, adj with
  | x :: a, d :: adj =>
    w ← int64 (w + x);
    w ← int64 (w + d);
    tgt ← adjust_words (Z.shiftr w 32) a adj;
    Ok (u32 (s32 w) :: tgt)
  | _, _ => Ok []
  end.

Definition big_adjustP (a : list Z) (k : Z) : outcome (list Z) :=
  if negb (k =? 0) then
    nk ← int64 (- k);
    adjust_words 0 a [nk; 0; 0; k; 0; 0; k; nk; k]
  else Ok a.

Definition big_approx_reduceP (src : list Z) : outcome (list Z) :=
  k ← int64 (- msw src);
  big_adjustP src k.

Fixpoint mpy_words (w k : Z) (a : list Z) : outcome (list Z) :=
  match a with
  | [] => Ok []
  | x :: a =>
    prod ← int64 (k * x);
    w ← int64 (w + prod);
    let t := u32 w in
    w ← int64 (w - t);
    tgt ← mpy_words (Z.shiftr w 32) k a;
    Ok (t :: tgt)
  end.

Definition big_1wd_mpy (a : list Z) (k : Z) : outcome (list Z) := mpy_words 0 k a.

Fixpoint add_words (v : Z) (a b : list Z) : list Z :=
  match a, b with
  | x :: a, y :: b =>
    let v := u64 (u64 (v + x) + y) in
    u32 v :: add_words (Z.shiftr v 32) a b
  | _, _ => []
  end.

Definition big_add (a b : list Z) : list Z := add_words 0 a b.

Definition big_addP (a b : list Z) : outcome (list Z) := big_approx_reduceP (big_add a b).

(** [~b->data[i]] is the complement of an [unsigned int]. *)
Fixpoint sub_words (v : Z) (a b : list Z) : list Z :=
  match a, b with
  | x :: a, y :: b =>
    let v := u64 (u64 (v + x) + (4294967295 - y)) in
    u32 v :: sub_words (Z.shiftr v 32) a b
  | _, _ => []
  end.

Definition big_sub (a b : list Z) : list Z := sub_words 1 a b.

Definition big_subP (a b : list Z) : outcome (list Z) := big_approx_reduceP (big_sub a b).

Fixpoint triple_words (accum : Z) (a : list Z) : list Z :=
  match a with
  | [] => []
  | x :: a =>
    let accum := u64 (u64 (u64 (accum + x) + x) + x) in
    u32 accum :: triple_words (Z.shiftr accum 32) a
  end.

Definition big_triple (a : list Z) : list Z := triple_words 0 a.

(** The words and the bit [shiftval] the next lower word takes over; the most
    significant word comes first. *)
Fixpoint halve_words (a : list Z) : list Z * Z :=
  match a with
  | [] => ([], 0)
  | [x] => ([u32 (Z.shiftr (s32 x) 1)], Z.land x 1)
  | x :: a =>
    let '(tgt, shiftval) := halve_words a in
    (Z.lor (Z.shiftr x 1) (u32 (Z.shiftl shiftval 31)) :: tgt, Z.land x 1)
  end.

Definition big_halve (a : list Z) : list Z := (halve_words a).1.

Definition big_halveP (a : list Z) : outcome (list Z) :=
  if big_is_odd a then t ← big_adjustP a 1; Ok (big_halve t) else Ok (big_halve a).

(** * Multiplication *)

(** (sum, carry) += a * b *)
Definition mpy_accum (acc : Z * Z) (a b : Z) : Z * Z :=
  let '(cumcarry, sum) := acc in
  let product := u64 (a * b) in
  let lsum := u64 (sum + product) in
  (if lsum <? product then cumcarry + 1 else cumcarry, lsum).

(** (sum, carry) += 2 * a * b *)
Definition mpy_accum_dbl (acc : Z * Z) (a b : Z) : Z * Z :=
  let '(cumcarry, sum) := acc in
  let product := u64 (a * b) in
  let lsum := u64 (sum + product) in
  let cumcarry := if lsum <? product then cumcarry + 1 else cumcarry in
  let lsum := u64 (lsum + product) in
  (if lsum <? product then cumcarry + 1 else cumcarry, lsum).

(** The switch of a column: [acc(ap - k, bp + k)] for [k] from [n - 1] down to
    0, the cases falling through; [ap] and [bp] are indices. *)
Fixpoint column_terms (accum : Z * Z → Z → Z → Z * Z) (n : nat) (a b : list Z) (ap bp : Z)
    (acc : Z * Z) : outcome (Z * Z) :=
  match n with
  | O => Ok acc
  | S k =>
    x ← rd a (ap - Z.of_nat k);
    y ← rd b (bp + Z.of_nat k);
    column_terms accum k a b ap bp (accum acc x y)
  end.

(** The number of leading words up to the last one that is not zero. *)
Fixpoint count_words (n : nat) (a : list Z) : Z :=
  match n with
  | O => 0
  | S k => if a !!! k =? 0 then count_words k a else Z.of_nat n
  end.

(** Column [i] of a product and of a square. *)
Definition mul_column (a b : list Z) (a_words b_words i : Z) (acc : Z * Z)
    : outcome (Z * Z) :=
  let maxj := Z.min (b_words - 1) i in
  let minj := Z.max 0 (i - a_words + 1) in
  column_terms mpy_accum (Z.to_nat (maxj - minj + 1)) a b (i - minj) minj acc.

Definition sqr_column (a : list Z) (a_words i : Z) (acc : Z * Z) : outcome (Z * Z) :=
  let maxj := Z.min (a_words - 1) i in
  let maxj := Z.min maxj (Z.shiftr (i - 1) 1) in
  let minj := Z.max 0 (i - a_words + 1) in
  acc ← column_terms mpy_accum_dbl (Z.to_nat (maxj - minj + 1)) a a (i - minj) minj acc;
  if Z.land i 1 =? 0 then
    x ← rd a (maxj + 1);
    Ok (mpy_accum acc x x)
  else Ok acc.

(** The columns from [i] on, [n] of them: the words of [w] they produce and the
    rest of [u_accum]. *)
Fixpoint mul_columns (column : Z → Z * Z → outcome (Z * Z)) (n : nat) (i u_accum : Z)
    : outcome (list Z * Z) :=
  match n with
  | O => Ok ([], u_accum)
  | S n =>
    '(cum_carry, u_accum) ← column i (0, u_accum);
    let w := Z.land u_accum 4294967295 in
    let u_accum := u64 (Z.shiftr u_accum 32 + u64 (Z.shiftl cum_carry 32)) in
    '(ws, u_accum) ← mul_columns column n (i + 1) u_accum;
    Ok (w :: ws, u_accum)
  end.

Fixpoint residual_words (n : nat) (u_accum : Z) : list Z * Z :=
  match n with
  | O => ([], u_accum)
  | S n =>
    let '(ws, u) := residual_words n (Z.shiftr u_accum 32) in
    (Z.land u_accum 4294967295 :: ws, u)
  end.

(** The words of the product of the operands as unsigned numbers; [same] tells
    that the pointers [a] and [b] are equal. *)
Definition mul_words (same : bool) (a b : list Z) : outcome (list Z) :=
  let a_words := count_words 9 a in
  let '(n, column) :=
    if same then (2 * a_words - 1, sqr_column a a_words)
    else let b_words := count_words 9 b in
         (a_words + b_words - 1, mul_column a b a_words b_words) in
  '(ws, u_accum) ← mul_columns column (Z.to_nat n) 0 0;
  let '(ws', u_accum) := residual_words (17 - length ws) u_accum in
  Ok (ws ++ ws' ++ [s64 u_accum]).

(** [w[i + BIGLEN] -= b->data[i]] *)
Fixpoint subtract_words (w b : list Z) : outcome (list Z) :=
  match w, b with
  | x :: w, y :: b =>
    x ← int64 (x - y);
    w ← subtract_words w b;
    Ok (x :: w)
  | _, _ => Ok w
  end.

Definition subtract_high (w b : list Z) : outcome (list Z) :=
  h ← subtract_words (drop 9 w) b;
  Ok (take 9 w ++ h).

Definition sign_correction (w a b : list Z) : outcome (list Z) :=
  w ← (if big_is_negative a then subtract_high w b else Ok w);
  if big_is_negative b then
    w ← subtract_high w a;
    if big_is_negative a then
      v ← rd w 17;
      wr w 17 (s64 (u64 (u64 v + u64 (Z.shiftl 1 32))))
    else Ok w
  else Ok w.

(** * Reduction *)

(** [w[i] += v] and [w[i] -= v]. *)
Definition add_at (w : list Z) (i v : Z) : outcome (list Z) :=
  x ← rd w i;
  x ← int64 (x + v);
  wr w i x.

Definition sub_at (w : list Z) (i v : Z) : outcome (list Z) :=
  x ← rd w i;
  x ← int64 (x - v);
  wr w i x.

(** The loop that folds the words from 17 down to [MSW], [n] rounds left. *)
Fixpoint fold_words (n : nat) (w : list Z) : outcome (list Z) :=
  match n with
  | O => Ok w
  | S k =>
    let i := Z.of_nat k + MSW in
    v ← rd w i;
    w ← (if negb (v =? 0) then
           w ← wr w i 0;
           w ← add_at w (i - 1) v;
           w ← sub_at w (i - 2) v;
           w ← sub_at w (i - 5) v;
           add_at w (i - 8) v
         else Ok w);
    fold_words k w
  end.

(** The conversion to 32-bit words except for the last one. *)
Fixpoint carry_words (w : list Z) (carry : Z) : outcome (list Z) :=
  match w with
  | [] => Ok []
  | [x] => x ← int64 (x + carry); Ok [x]
  | x :: w =>
    x ← int64 (x + carry);
    let carry := Z.shiftr x 32 in
    x ← int64 (x - Z.shiftl carry 32);
    w ← carry_words w carry;
    Ok (x :: w)
  end.

(** The loop over [j] that subtracts [v * orderDBL], [w] being the words from
    [i - MSW] on and [order] the words of [orderDBL] left. *)
Fixpoint subtract_order (w order : list Z) (v carry : Z) : outcome (list Z) :=
  match w with
  | [] => Ok []
  | x :: w =>
    tmp ← match order with
          | o :: _ =>
            p ← int64 (v * o);
            tmp2 ← int64 (- p);
            tmp ← int64 (x + tmp2);
            int64 (tmp + carry)
          | [] => int64 (x + carry)
          end;
    match w with
    | [] => Ok [tmp]
    | _ =>
      let carry := Z.shiftr tmp 32 in
      tmp ← int64 (tmp - Z.shiftl carry 32);
      w ← subtract_order w (drop 1 order) v carry;
      Ok (tmp :: w)
    end
  end.

(** [for (k = 0; w[i] != 0 && k < 3; ++k)], [n] rounds left. *)
Fixpoint clear_word (n : nat) (w : list Z) (i : Z) : outcome (list Z) :=
  match n with
  | O => Ok w
  | S n =>
    v ← rd w i;
    if negb (v =? 0) then
      let j := Z.to_nat (i - MSW) in
      h ← subtract_order (drop j w) orderDBL v 0;
      clear_word n (take j w ++ h) i
    else Ok w
  end.

(** [for (i = 2 * BIGLEN - 1; i >= MSW; --i)], [n] rounds left. *)
Fixpoint clear_words (n : nat) (w : list Z) : outcome (list Z) :=
  match n with
  | O => Ok w
  | S k =>
    w ← clear_word 3 w (Z.of_nat k + MSW);
    clear_words k w
  end.

(** The carry propagation into the first [n] words of the target. *)
Fixpoint collapse (n : nat) (s_accum : Z) (w : list Z) : outcome (list Z) :=
  match n, w with
  | S n, x :: w =>
    s_accum ← int64 (s_accum + x);
    tgt ← collapse n (Z.shiftr s_accum 32) w;
    Ok (u32 s_accum :: tgt)
  | _, _ => Ok []
  end.

Definition big_mpyP_ptr (same : bool) (a b : list Z) (modselect : modulus_val)
    : outcome (list Z) :=
  w ← mul_words same a b;
  w ← sign_correction w a b;
  match modselect with
  | MOD_MODULUS =>
    w ← fold_words 10 w;
    tgt ← collapse 9 0 w;
    big_approx_reduceP tgt
  | MOD_ORDER =>
    w ← carry_words w 0;
    w ← clear_words 10 w;
    tgt ← collapse 9 0 w;
    if negb (msw tgt =? 0) then
      tmp ← big_1wd_mpy orderP (msw tgt);
      Ok (big_sub tgt tmp)
    else Ok tgt
  end.

(** Distinct operands, and the macro big_sqrP. *)
Definition big_mpyP : list Z → list Z → modulus_val → outcome (list Z) := big_mpyP_ptr false.
Definition big_sqrP (a : list Z) : outcome (list Z) := big_mpyP_ptr true a a MOD_MODULUS.

(** * Precise reduction *)
Fixpoint reduce_msw (fuel : nat) (src modulus : list Z) : outcome (list Z) :=
  if negb (msw src =? 0) then
    match fuel with
    | O => Ub OutOfFuel
    | S fuel =>
      src ← (if decide (modulus = modulusP) then
               k ← int64 (- msw src); big_adjustP src k
             else
               tmp ← big_1wd_mpy modulus (msw src); Ok (big_sub src tmp));
      reduce_msw fuel src modulus
    end
  else Ok src.

Fixpoint reduce_above (fuel : nat) (src modulus : list Z) : outcome (list Z) :=
  if 0 <=? big_cmp src modulus then
    match fuel with
    | O => Ub OutOfFuel
    | S fuel => reduce_above fuel (big_sub src modulus) modulus
    end
  else Ok src.

Fixpoint reduce_below (fuel : nat) (src modulus : list Z) : outcome (list Z) :=
  if msw src <? 0 then
    match fuel with
    | O => Ub OutOfFuel
    | S fuel => reduce_below fuel (big_add src modulus) modulus
    end
  else Ok src.

(** Three rounds bring any value into the range of the low words, one more
    subtraction below the modulus; the pointer comparison with [&modulusP] is
    the comparison of the values. *)
Definition big_precise_reduce (a modulus : list Z) : outcome (list Z) :=
  src ← reduce_msw 3 a modulus;
  src ← reduce_above 2 src modulus;
  reduce_below 1 src modulus.

(** * Division *)

(** [while (!big_is_odd(&u))], with the adjustment of [x1]. *)
Fixpoint halve_even (fuel : nat) (u x1 modulus : list Z) : outcome (list Z * list Z) :=
  if negb (big_is_odd u) then
    match fuel with
    | O => Ub OutOfFuel
    | S fuel =>
      let x1 := if big_is_odd x1 then big_add x1 modulus else x1 in
      halve_even fuel (big_halve u) (big_halve x1) modulus
    end
  else Ok (u, x1).

Fixpoint divide_loop (fuel : nat) (u v x1 x2 modulus : list Z)
    : outcome (list Z * list Z * list Z * list Z) :=
  if negb (big_is_one u) && negb (big_is_one v) then
    match fuel with
    | O => Ub OutOfFuel
    | S fuel =>
      '(u, x1) ← halve_even 288 u x1 modulus;
      '(v, x2) ← halve_even 288 v x2 modulus;
      if 0 <=? big_cmp u v
      then divide_loop fuel (big_sub u v) v (big_sub x1 x2) x2 modulus
      else divide_loop fuel u (big_sub v u) x1 (big_sub x2 x1) modulus
    end
  else Ok (u, v, x1, x2).

(** A round halves [u] or [v], so 514 rounds are enough when they are coprime. *)
Definition big_divide (num den modulus : list Z) : outcome (list Z) :=
  '(u, v, x1, x2) ← divide_loop 514 den modulus num big_zero modulus;
  if big_is_one u then big_precise_reduce x1 modulus else big_precise_reduce x2 modulus.

(** * Numbers *)
Definition bigval (v : list Z) : Prop := zlen v = BIGLEN ∧ Forall is_u32 v.
