(* ===== verification/BigSpec.v ===== *)
(** The integers of RiotEcc.c as numbers: the two's complement value of a
    [bigval_t], congruence modulo the field prime and the group order, and that
    every operation of Big.v computes what its comment says, without overflow
    and within its fuel. *)
From S2P Require Export Big.
From Stdlib Require Import Znumtheory.

(** * Congruence *)
Definition cong (m a b : Z) : Prop := (m | a - b).
Notation "a ≡[ m ] b" := (cong m a b) (at level 70, no associativity) : Z_scope.

Section cong.
Context (m : Z).

#[export] Instance cong_equiv : Equivalence (cong m).
Proof.
  unfold cong. split.
  - intros x. rewrite Z.sub_diag. apply Z.divide_0_r.
  - intros x y [q Hq]. exists (- q). lia.
  - intros x y z [q Hq] [r Hr]. exists (q + r). lia.
Qed.

#[export] Instance cong_add : Proper (cong m ==> cong m ==> cong m) Z.add.
Proof. intros a b [q Hq] c d [r Hr]. exists (q + r). lia. Qed.

#[export] Instance cong_sub : Proper (cong m ==> cong m ==> cong m) Z.sub.
Proof. intros a b [q Hq] c d [r Hr]. exists (q - r). lia. Qed.

#[export] Instance cong_opp : Proper (cong m ==> cong m) Z.opp.
Proof. intros a b [q Hq]. exists (- q). lia. Qed.

#[export] Instance cong_mul : Proper (cong m ==> cong m ==> cong m) Z.mul.
Proof. intros a b [q Hq] c d [r Hr]. exists (q * c + b * r). nia. Qed.

Lemma cong_mod_eq a b : m ≠ 0 → a ≡[m] b → a mod m = b mod m.
Proof. intros Hm [q Hq]. replace a with (b + q * m) by lia. by apply Z_mod_plus_full. Qed.

Lemma cong_unique a b : 0 ≤ a < m → 0 ≤ b < m → a ≡[m] b → a = b.
Proof. intros Ha Hb H%cong_mod_eq; [|lia]. by rewrite !Z.mod_small in H. Qed.

Lemma cong_mod a : a mod m ≡[m] a.
Proof.
  destruct (decide (m = 0)) as [->|Hm]; [rewrite Z.mod_0_r; unfold cong; rewrite Z.sub_diag; apply Z.divide_0_r|].
  exists (- (a / m)). pose proof (Z.div_mod a m Hm). lia.
Qed.

Lemma cong_eq a b : a = b → a ≡[m] b.
Proof. by intros ->. Qed.

Lemma cong_multiple a b k : a = b + k * m → a ≡[m] b.
Proof. intros ->. exists k. lia. Qed.
End cong.

#[export] Hint Resolve cong_mod : core.

(** * Words *)
Abbreviation B := 4294967296.

Fixpoint wval (a : list Z) : Z :=
  match a with
  | [] => 0
  | x :: a => x + B * wval a
  end.

Definition Bn (a : list Z) : Z := B ^ zlen a.

Lemma Bn_cons x a : Bn (x :: a) = B * Bn a.
Proof. unfold Bn. rewrite zlen_cons, Z.pow_add_r; [lia|lia|apply zlen_nonneg]. Qed.

Lemma Bn_pos a : 0 < Bn a.
Proof. apply Z.pow_pos_nonneg; [lia|apply zlen_nonneg]. Qed.

Lemma Bn_length a b : length a = length b → Bn a = Bn b.
Proof. unfold Bn, zlen. by intros ->. Qed.

Lemma wval_app a b : wval (a ++ b) = wval a + Bn a * wval b.
Proof.
  induction a as [|x a IH]; [unfold Bn, zlen; cbn; lia|].
  rewrite Bn_cons. cbn [app wval]. rewrite IH. ring.
Qed.

Lemma wval_range a : Forall is_u32 a → 0 ≤ wval a < Bn a.
Proof.
  induction 1 as [|x a Hx _ IH]; [done|]. rewrite Bn_cons. unfold is_u32 in Hx.
  cbn [wval]. lia.
Qed.

(** One step of a carry loop. *)
Lemma carry_step v n r : 0 < n → v mod B + B * ((v / B + r) mod n) = (v + B * r) mod (B * n).
Proof.
  intros Hn. rewrite Z.rem_mul_r by lia.
  assert ((v + B * r) mod B = v mod B) as ->.
  { rewrite Z.mul_comm. apply Z_mod_plus_full. }
  assert ((v + B * r) / B = v / B + r) as ->; [|done].
  rewrite Z.mul_comm. apply Z_div_plus_full. lia.
Qed.

Lemma shiftr_32 v : Z.shiftr v 32 = v / B.
Proof. by rewrite Z.shiftr_div_pow2 by lia. Qed.

Definition holds (a t : list Z) (v : Z) : Prop :=
  length t = length a ∧ Forall is_u32 t ∧ wval t = v mod Bn a.

Lemma holds_nil v : holds [] [] v.
Proof. split_and!; [done|done|]. unfold Bn, zlen. cbn. by rewrite Z.mod_1_r. Qed.

Lemma holds_cons x a t v r : holds a t (v / B + r) → holds (x :: a) (v mod B :: t) (v + B * r).
Proof.
  intros (Hl & Hf & Hw). split_and!; [cbn; by rewrite Hl| |].
  - constructor; [unfold is_u32; dlia|done].
  - cbn [wval]. rewrite Hw, Bn_cons, carry_step; [done|apply Bn_pos].
Qed.

Lemma holds_eq a t v v' : v = v' → holds a t v → holds a t v'.
Proof. by intros ->. Qed.

Lemma add_words_spec a : ∀ b v, length a = length b → Forall is_u32 a → Forall is_u32 b →
  0 ≤ v ≤ 2 → holds a (add_words v a b) (v + wval a + wval b).
Proof.
  induction a as [|x a IH]; intros [|y b] v Hl Ha Hb Hv; try done; [apply holds_nil|].
  inversion_clear Ha as [|?? Hx Ha']. inversion_clear Hb as [|?? Hy Hb']. unfold is_u32 in *.
  cbn [add_words wval].
  assert (u64 (u64 (v + x) + y) = v + x + y) as -> by (unfold u64; dlia).
  rewrite shiftr_32. unfold u32.
  eapply holds_eq; [|apply (holds_cons _ _ _ _ (wval a + wval b))]; [ring|].
  eapply holds_eq; [|apply IH]; [ring|by injection Hl|done|done|dlia].
Qed.

Lemma wval_complement b : Forall is_u32 b →
  wval ((λ y, B - 1 - y) <$> b) = Bn b - 1 - wval b.
Proof.
  induction 1 as [|y b _ _ IH]; [done|]. rewrite Bn_cons. cbn [fmap list_fmap wval].
  change (list_fmap _ _ _ b) with ((λ y, B - 1 - y) <$> b). rewrite IH. ring.
Qed.

Lemma sub_words_add a : ∀ b v, Forall is_u32 b →
  sub_words v a b = add_words v a ((λ y, B - 1 - y) <$> b).
Proof.
  induction a as [|x a IH]; intros [|y b] v Hb; try done. cbn [sub_words add_words fmap list_fmap].
  change (list_fmap _ _ _ b) with ((λ y, B - 1 - y) <$> b).
  apply Forall_cons in Hb as [_ Hb]. by rewrite <-IH by done.
Qed.

Lemma sub_words_spec a b : length a = length b → Forall is_u32 a → Forall is_u32 b →
  holds a (sub_words 1 a b) (wval a - wval b).
Proof.
  intros Hl Ha Hb. rewrite sub_words_add by done.
  destruct (add_words_spec a ((λ y, B - 1 - y) <$> b) 1) as (H1 & H2 & H3);
    [by rewrite length_fmap|done| |lia|].
  { apply Forall_fmap. eapply Forall_impl; [exact Hb|]. intros y. unfold is_u32. cbn. lia. }
  split_and!; [done..|]. rewrite H3, wval_complement, (Bn_length b a) by done.
  replace (1 + wval a + (Bn a - 1 - wval b)) with (wval a - wval b + 1 * Bn a) by ring.
  apply Z_mod_plus_full.
Qed.

Lemma triple_words_spec a : ∀ v, Forall is_u32 a → 0 ≤ v ≤ 3 →
  holds a (triple_words v a) (v + 3 * wval a).
Proof.
  induction a as [|x a IH]; intros v Ha Hv; [apply holds_nil|].
  inversion_clear Ha as [|?? Hx Ha']. unfold is_u32 in *. cbn [triple_words wval].
  assert (u64 (u64 (u64 (v + x) + x) + x) = v + 3 * x) as ->
    by (unfold u64; dlia).
  rewrite shiftr_32. unfold u32.
  eapply holds_eq; [|apply (holds_cons _ _ _ _ (3 * wval a))]; [ring|].
  apply IH; [done|dlia].
Qed.

(** * Signed loops *)
Lemma int64_Ok x : -9223372036854775808 ≤ x < 9223372036854775808 → int64 x = Ok x.
Proof.
  intros ?. unfold int64. by rewrite (proj2 (Z.leb_le _ _)), (proj2 (Z.ltb_lt _ _)) by lia.
Qed.

Ltac i64 := rewrite int64_Ok by lia; rewrite bind_Ok.

Definition within (n : Z) (x : Z) : Prop := - n ≤ x ≤ n.

Lemma u32_s32 w : u32 (s32 w) = w mod B.
Proof. unfold u32, s32. dlia. Qed.

Lemma adjust_words_spec a : ∀ adj w, length a = length adj → Forall is_u32 a →
  Forall (within (2 ^ 62)) adj → within (2 ^ 31) w →
  ∃ t, adjust_words w a adj = Ok t ∧ holds a t (w + wval a + wval adj).
Proof.
  induction a as [|x a IH]; intros [|d adj] w Hl Ha Hd Hw; try done.
  { exists []. split; [done|apply holds_nil]. }
  inversion_clear Ha as [|?? Hx Ha']. inversion_clear Hd as [|?? Hd1 Hd2].
  unfold is_u32, within in *. cbn [adjust_words wval]. i64. i64. rewrite shiftr_32, u32_s32.
  destruct (IH adj ((w + x + d) / B)) as (t & -> & Ht); [by injection Hl|done|done|dlia|].
  eexists. split; [done|]. eapply holds_eq; [|apply (holds_cons _ _ _ _ (wval a + wval adj))];
    [ring|]. eapply holds_eq; [|exact Ht]. ring.
Qed.

Lemma mpy_words_spec k a : -2147483648 ≤ k < 2147483648 → ∀ w, Forall is_u32 a →
  -2147483648 ≤ w < 2147483648 →
  ∃ t, mpy_words w k a = Ok t ∧ holds a t (w + k * wval a).
Proof.
  intros Hk. induction a as [|x a IH]; intros w Ha Hw.
  { exists []. split; [done|apply holds_nil]. }
  inversion_clear Ha as [|?? Hx Ha']. unfold is_u32 in *. cbn [mpy_words wval].
  assert (-2147483648 * 4294967295 ≤ k * x ≤ 2147483647 * 4294967295) as Hp by nia.
  rewrite int64_Ok, bind_Ok by lia. rewrite int64_Ok, bind_Ok by lia.
  unfold u32. rewrite int64_Ok, bind_Ok by dlia.
  assert (Z.shiftr (w + k * x - (w + k * x) mod B) 32 = (w + k * x) / B) as -> by (rewrite shiftr_32; dlia).
  destruct (IH ((w + k * x) / B)) as (t & -> & Ht); [done|dlia|].
  eexists. split; [done|]. eapply holds_eq; [|apply (holds_cons _ _ _ _ (k * wval a))];
    [ring|exact Ht].
Qed.

Lemma collapse_spec n : ∀ w s, (n ≤ length w)%nat → Forall (within (2 ^ 62)) w →
  within (2 ^ 31) s →
  ∃ t, collapse n s w = Ok t ∧ holds (take n w) t (s + wval (take n w)).
Proof.
  induction n as [|n IH]; intros [|x w] s Hn Hw Hs; try (cbn in Hn; lia).
  1, 2: by exists []; split; [done|apply holds_nil].
  inversion_clear Hw as [|?? Hx Hw']. unfold within in *. cbn [collapse take wval]. i64.
  rewrite shiftr_32. unfold u32.
  destruct (IH w ((s + x) / B)) as (t & -> & Ht); [cbn in Hn; lia|done|dlia|].
  eexists. split; [done|]. eapply holds_eq; [|apply (holds_cons _ _ _ _ (wval (take n w)))];
    [ring|exact Ht].
Qed.

(** * Two's complement *)
Definition sval (a : list Z) : Z := (wval a + 2 ^ 287) mod 2 ^ 288 - 2 ^ 287.

Definition ranged (x : Z) : Prop := - 2 ^ 287 ≤ x < 2 ^ 287.

(** [t] is a big integer congruent to [x] modulo 2^288. *)
Definition represents (t : list Z) (x : Z) : Prop := bigval t ∧ wval t = x mod 2 ^ 288.

Lemma Bn_bigval a : bigval a → Bn a = 2 ^ 288.
Proof. intros [Hl _]. unfold Bn. by rewrite Hl. Qed.

Lemma bigval_length a : bigval a → length a = 9%nat.
Proof. intros [Hl _]. unfold zlen, BIGLEN in Hl. lia. Qed.

Lemma bigval_ranged a : bigval a → ranged (sval a).
Proof. intros _. unfold ranged, sval. dlia. Qed.

Lemma represents_sval a : bigval a → represents a (sval a).
Proof.
  intros Ha. split; [done|]. pose proof (wval_range a (proj2 Ha)) as Hw.
  rewrite (Bn_bigval a Ha) in Hw. unfold sval. dlia.
Qed.

Lemma represents_eq t x : represents t x → ranged x → sval t = x.
Proof. intros [_ Hw] Hx. unfold sval, ranged in *. rewrite Hw. dlia. Qed.

Lemma represents_ext t x y : represents t x → x mod 2 ^ 288 = y mod 2 ^ 288 → represents t y.
Proof. intros [Ht Hw] He. split; [done|]. by rewrite Hw. Qed.

Lemma represents_bigval t x : represents t x → bigval t.
Proof. by intros [? _]. Qed.

Lemma holds_represents a t v : bigval a → holds a t v → represents t v.
Proof.
  intros Ha (Hl & Hf & Hw). pose proof (bigval_length a Ha). rewrite (Bn_bigval a Ha) in Hw.
  split; [|done]. split; [unfold zlen, BIGLEN; lia|done].
Qed.

Lemma wval_sval a : bigval a → wval a mod 2 ^ 288 = sval a mod 2 ^ 288.
Proof. intros Ha. destruct (represents_sval a Ha) as [_ ->]. apply Z.mod_mod. lia. Qed.

Ltac mod288 :=
  repeat match goal with H : bigval ?a |- _ =>
    lazymatch goal with _ : wval a mod 2 ^ 288 = _ |- _ => fail | _ => pose proof (wval_sval a H) end
  end.

Lemma big_add_represents a b : bigval a → bigval b → represents (big_add a b) (sval a + sval b).
Proof.
  intros Ha Hb. pose proof (bigval_length a Ha). pose proof (bigval_length b Hb).
  destruct Ha as [Hza Ha'] eqn:E; clear E. destruct Hb as [Hzb Hb'] eqn:E; clear E.
  eapply represents_ext; [apply (holds_represents a); [by split|];
    apply (add_words_spec a b 0); [congruence|done|done|lia]|].
  rewrite Z.add_0_l, Z.add_mod, (Z.add_mod (sval a)), !wval_sval by (done || by split). done.
Qed.

Lemma big_sub_represents a b : bigval a → bigval b → represents (big_sub a b) (sval a - sval b).
Proof.
  intros Ha Hb. pose proof (bigval_length a Ha). pose proof (bigval_length b Hb).
  eapply represents_ext; [apply (holds_represents a); [done|];
    apply (sub_words_spec a b); [congruence|apply Ha|apply Hb]|].
  by rewrite Zminus_mod, (Zminus_mod (sval a)), !wval_sval by done.
Qed.

Lemma big_triple_represents a : bigval a → represents (big_triple a) (3 * sval a).
Proof.
  intros Ha. eapply represents_ext; [apply (holds_represents a); [done|];
    apply (triple_words_spec a 0); [apply Ha|lia]|].
  by rewrite Z.add_0_l, Z.mul_mod, (Z.mul_mod 3 (sval a)), wval_sval by done.
Qed.

Lemma big_1wd_mpy_represents a k : bigval a → -2147483648 ≤ k < 2147483648 →
  ∃ t, big_1wd_mpy a k = Ok t ∧ represents t (k * sval a).
Proof.
  intros Ha Hk. destruct (mpy_words_spec k a Hk 0) as (t & Ht & Hh); [apply Ha|lia|].
  exists t. split; [done|]. eapply represents_ext; [by apply (holds_represents a)|].
  by rewrite Z.add_0_l, Z.mul_mod, (Z.mul_mod k (sval a)), wval_sval by done.
Qed.

(** * The moduli *)
Definition P256 : Z := 2 ^ 256 - 2 ^ 224 + 2 ^ 192 + 2 ^ 96 - 1.
Definition N256 : Z := 115792089210356248762697446949407573529996955224135760342422259061068512044369.

Lemma modulusP_big : bigval modulusP ∧ sval modulusP = P256.
Proof. by repeat first [split | constructor]. Qed.
Lemma orderP_big : bigval orderP ∧ sval orderP = N256.
Proof. by repeat first [split | constructor]. Qed.

Lemma big_adjustP_represents a k : bigval a → within (2 ^ 62) k →
  ∃ t, big_adjustP a k = Ok t ∧ represents t (sval a + k * P256).
Proof.
  intros Ha Hk. unfold big_adjustP. destruct (Z.eqb_spec k 0) as [->|Hk0]; cbn [negb].
  { exists a. split; [done|]. rewrite Z.add_0_r. by apply represents_sval. }
  unfold within in Hk. i64.
  destruct (adjust_words_spec a [- k; 0; 0; k; 0; 0; k; - k; k] 0) as (t & -> & Hh).
  - by rewrite (bigval_length a Ha).
  - apply Ha.
  - repeat constructor; unfold within; lia.
  - unfold within; lia.
  - exists t. split; [done|]. eapply represents_ext; [by apply (holds_represents a)|].
    rewrite Z.add_0_l, Z.add_mod, (Z.add_mod (sval a)), wval_sval by done.
    do 2 f_equal. f_equal. cbn [wval]. unfold P256. lia.
Qed.

(** * The most significant word *)
Lemma bigval_split a : bigval a →
  a = take 8 a ++ [a !!! 8%nat] ∧ Forall is_u32 (take 8 a) ∧ is_u32 (a !!! 8%nat) ∧
  Bn (take 8 a) = 2 ^ 256 ∧ sval a = wval (take 8 a) + 2 ^ 256 * msw a.
Proof.
  intros Ha. pose proof (bigval_length a Ha) as Hl. pose proof (proj2 Ha) as Hf.
  assert (a = take 8 a ++ [a !!! 8%nat]) as Heq by (by do 10 (destruct a as [|? a]; try done)).
  assert (Bn (take 8 a) = 2 ^ 256) as HB.
  { unfold Bn, zlen. rewrite length_take, Hl. done. }
  rewrite Heq in Hf. apply Forall_app in Hf as [Hf Hx]. apply Forall_cons in Hx as [Hx _].
  assert (wval a = wval (take 8 a) + 2 ^ 256 * a !!! 8%nat) as Hwa.
  { transitivity (wval (take 8 a ++ [a !!! 8%nat])); [by rewrite <-Heq|].
    rewrite wval_app, HB. cbn [wval]. ring. }
  split_and!; try done. pose proof (wval_range _ Hf) as Hw. rewrite HB in Hw.
  unfold sval. rewrite Hwa. unfold msw, s32, is_u32 in *.
  set (x := a !!! 8%nat) in *. set (w := wval (take 8 a)) in *. clearbody x w. clear -Hw Hx. dlia.
Qed.

Lemma msw_spec a : bigval a → msw a = sval a / 2 ^ 256 ∧ -2147483648 ≤ msw a < 2147483648 ∧
  wval (take 8 a) = sval a mod 2 ^ 256.
Proof.
  intros Ha. destruct (bigval_split a Ha) as (_ & Hf & Hx & HB & ->).
  pose proof (wval_range _ Hf) as Hw. rewrite HB in Hw.
  assert (-2147483648 ≤ msw a < 2147483648) as Hm by (unfold msw, s32; dlia).
  set (m := msw a) in *. clearbody m. set (w := wval _) in *. clearbody w. clear -Hw Hm.
  split_and!; try done; dlia.
Qed.

Lemma big_is_negative_spec a : bigval a → big_is_negative a = (sval a <? 0).
Proof.
  intros Ha. unfold big_is_negative. destruct (msw_spec a Ha) as (-> & _).
  apply eq_true_iff_eq. rewrite !Z.ltb_lt. dlia.
Qed.

Lemma cmp_words_spec n : ∀ a b, length a = 9%nat → length b = 9%nat → (n ≤ 9)%nat →
  Forall is_u32 a → Forall is_u32 b →
  cmp_words n a b = Z.sgn (wval (take n a) - wval (take n b)).
Proof.
  induction n as [|n IH]; intros a b Hla Hlb Hn Ha Hb; [done|]. cbn [cmp_words].
  destruct (lookup_lt_is_Some_2 a n) as [x Hx]; [lia|].
  destruct (lookup_lt_is_Some_2 b n) as [y Hy]; [lia|].
  rewrite (list_lookup_total_correct _ _ _ Hx), (list_lookup_total_correct _ _ _ Hy).
  rewrite (take_S_r _ _ _ Hx), (take_S_r _ _ _ Hy), !wval_app.
  pose proof (Forall_lookup_1 _ _ _ _ Ha Hx) as Hxr. pose proof (Forall_lookup_1 _ _ _ _ Hb Hy) as Hyr.
  assert (Bn (take n b) = Bn (take n a)) as -> by (apply Bn_length; rewrite !length_take; lia).
  pose proof (wval_range (take n a) (Forall_take _ n _ Ha)) as Hra.
  pose proof (wval_range (take n b) (Forall_take _ n _ Hb)) as Hrb.
  rewrite (Bn_length (take n b) (take n a)) in Hrb by (rewrite !length_take; lia).
  cbn [wval]. unfold is_u32 in *. rewrite IH by (done || lia).
  repeat case_match; symmetry; [apply Z.sgn_pos_iff|apply Z.sgn_neg_iff|f_equal]; nia.
Qed.

Lemma big_cmp_spec a b : bigval a → bigval b → big_cmp a b = Z.sgn (sval a - sval b).
Proof.
  intros Ha Hb. unfold big_cmp.
  rewrite cmp_words_spec by (apply Ha || apply Hb || by apply bigval_length || lia).
  destruct (bigval_split a Ha) as (_ & Hfa & _ & HBa & ->).
  destruct (bigval_split b Hb) as (_ & Hfb & _ & HBb & ->).
  pose proof (wval_range _ Hfa) as Hwa. pose proof (wval_range _ Hfb) as Hwb.
  rewrite HBa in Hwa. rewrite HBb in Hwb.
  set (x := wval (take 8 a)) in *. set (y := wval (take 8 b)) in *.
  set (m := msw a). set (k := msw b). clearbody x y m k. clear -Hwa Hwb.
  repeat case_match; symmetry; [apply Z.sgn_pos_iff|apply Z.sgn_neg_iff|f_equal]; lia.
Qed.

Lemma forallb_wval a : Forall is_u32 a → forallb (λ w, w =? 0) a = (wval a =? 0).
Proof.
  induction 1 as [|x a Hx Ha IH]; [done|]. cbn [forallb wval]. rewrite IH.
  pose proof (wval_range a Ha). unfold is_u32 in Hx.
  apply eq_true_iff_eq. rewrite andb_true_iff, !Z.eqb_eq. lia.
Qed.

Lemma sval_wval a : bigval a → 0 ≤ sval a → wval a = sval a.
Proof.
  intros Ha Hs. destruct (represents_sval a Ha) as [_ ->]. pose proof (bigval_ranged a Ha) as Hr.
  unfold ranged in Hr. apply Z.mod_small. lia.
Qed.

Lemma wval_eq_sval a k : bigval a → 0 ≤ k < 2 ^ 287 → wval a = k ↔ sval a = k.
Proof.
  intros Ha Hk. split.
  - intros <-. apply represents_eq; [|unfold ranged; lia]. split; [done|]. symmetry.
    apply Z.mod_small. lia.
  - intros <-. apply sval_wval; [done|lia].
Qed.

Lemma big_is_zero_spec a : bigval a → big_is_zero a = (sval a =? 0).
Proof.
  intros Ha. unfold big_is_zero. rewrite take_ge by (by rewrite (bigval_length a Ha)).
  rewrite forallb_wval by apply Ha. apply eq_true_iff_eq. rewrite !Z.eqb_eq.
  apply (wval_eq_sval a 0 Ha). split; [done|]. reflexivity.
Qed.

Lemma big_is_one_spec a : bigval a → big_is_one a = (sval a =? 1).
Proof.
  intros Ha. unfold big_is_one. pose proof (bigval_length a Ha) as Hl. pose proof (proj2 Ha) as Hf.
  apply eq_true_iff_eq. rewrite Z.eqb_eq, <-(wval_eq_sval a 1) by (done || lia).
  destruct a as [|x a]; [done|]. apply Forall_cons in Hf as [Hx Hf].
  change (drop 1 (x :: a)) with a. injection Hl as Hl. rewrite take_ge by (by rewrite Hl). rewrite forallb_wval by done.
  rewrite andb_true_iff, !Z.eqb_eq. cbn [wval]. change ((x :: a) !!! 0%nat) with x.
  pose proof (wval_range a Hf). unfold is_u32 in Hx. lia.
Qed.

Lemma big_is_odd_spec a : bigval a → big_is_odd a = Z.odd (sval a).
Proof.
  intros Ha. unfold big_is_odd. change 1 with (Z.ones 1) at 1. rewrite Z.land_ones by lia.
  assert (a !!! 0%nat mod 2 ^ 1 = sval a mod 2) as ->.
  { assert (wval a mod 2 = sval a mod 2) as <-.
    { destruct (represents_sval a Ha) as [_ ->]. dlia. }
    destruct a as [|x a]; [by destruct Ha|]. cbn. dlia. }
  rewrite Zmod_odd. by destruct (Z.odd (sval a)).
Qed.

(** * The product *)

(** Word [i], zero outside of the list. *)
Definition wd (a : list Z) (i : Z) : Z :=
  if i <? 0 then 0 else default 0 (a !! Z.to_nat i).

Fixpoint zsum (n : nat) (f : Z → Z) : Z :=
  match n with
  | O => 0
  | S k => zsum k f + f (Z.of_nat k)
  end.

(** Column [i] of the product. *)
Definition col (a b : list Z) (i : Z) : Z :=
  zsum (Z.to_nat (i + 1)) (λ j, wd a (i - j) * wd b j).

Fixpoint psum (n : nat) (i : Z) (f : Z → Z) : Z :=
  match n with
  | O => 0
  | S n => f i + B * psum n (i + 1) f
  end.

Lemma zsum_app m n f : zsum (m + n) f = zsum m f + zsum n (λ t, f (Z.of_nat m + t)).
Proof.
  induction n as [|n IH]; [by rewrite Nat.add_0_r, Z.add_0_r|].
  rewrite Nat.add_succ_r. cbn [zsum]. rewrite IH, Nat2Z.inj_add. lia.
Qed.

Lemma zsum_ext n f g : (∀ t, 0 ≤ t < Z.of_nat n → f t = g t) → zsum n f = zsum n g.
Proof. intros H. induction n as [|n IH]; [done|]. cbn [zsum]. rewrite IH, H; [done|lia|]. intros. apply H. lia. Qed.

Lemma zsum_zero n f : (∀ t, 0 ≤ t < Z.of_nat n → f t = 0) → zsum n f = 0.
Proof. intros H. induction n as [|n IH]; [done|]. cbn [zsum]. rewrite IH, H; [done|lia|]. intros. apply H. lia. Qed.

(** The terms outside of an interval vanish. *)
Lemma zsum_interval f lo n m : (lo + n ≤ m)%nat →
  (∀ j, 0 ≤ j < Z.of_nat lo → f j = 0) →
  (∀ j, Z.of_nat (lo + n) ≤ j < Z.of_nat m → f j = 0) →
  zsum m f = zsum n (λ t, f (Z.of_nat lo + t)).
Proof.
  intros Hle Hlo Hhi. replace m with (lo + n + (m - (lo + n)))%nat by lia.
  rewrite !zsum_app, (zsum_zero lo) by done. rewrite (zsum_zero (m - _)); [lia|].
  intros t Ht. apply Hhi. lia.
Qed.

Lemma psum_app m n : ∀ i f, psum (m + n) i f = psum m i f + B ^ Z.of_nat m * psum n (i + Z.of_nat m) f.
Proof.
  induction m as [|m IH]; intros i f; [cbn [psum Nat.add]; rewrite Z.add_0_r; lia|].
  cbn [psum Nat.add]. rewrite IH. replace (i + 1 + Z.of_nat m) with (i + Z.of_nat (S m)) by lia.
  rewrite Nat2Z.inj_succ, Z.pow_succ_r by lia. ring.
Qed.

Lemma psum_zero n : ∀ i f, (∀ k, i ≤ k < i + Z.of_nat n → f k = 0) → psum n i f = 0.
Proof.
  induction n as [|n IH]; intros i f H; [done|]. cbn [psum]. rewrite IH, H; [lia|lia|].
  intros. apply H. lia.
Qed.

Lemma wd_range a i : Forall is_u32 a → is_u32 (wd a i).
Proof.
  intros Ha. unfold wd, is_u32. case_match; [lia|]. destruct (a !! Z.to_nat i) eqn:E; cbn; [|lia].
  exact (Forall_lookup_1 _ _ _ _ Ha E).
Qed.

Lemma rd_wd a i : 0 ≤ i < zlen a → rd a i = Ok (wd a i).
Proof.
  intros Hi. destruct (rd_Ok a i Hi) as [v Hv]. rewrite Hv. unfold rd, wd in *.
  destruct (i <? 0); [done|]. by destruct (a !! Z.to_nat i); simplify_eq/=.
Qed.

(** ** Accumulation *)
Definition tot (acc : Z * Z) : Z := acc.1 * 2 ^ 64 + acc.2.

(** [acc'] is [acc] and the term [v], with at most [k] more carries. *)
Definition adds (k v : Z) (acc acc' : Z * Z) : Prop :=
  tot acc' = tot acc + v ∧ 0 ≤ acc'.2 < 2 ^ 64 ∧ acc.1 ≤ acc'.1 ≤ acc.1 + k.

Lemma adds_trans k v k' v' x y z : adds k v x y → adds k' v' y z → adds (k + k') (v + v') x z.
Proof. intros (? & ? & ?) (? & ? & ?). split_and!; lia. Qed.

Lemma adds_weaken k v k' v' x y : adds k v x y → k ≤ k' → v = v' → adds k' v' x y.
Proof. intros (? & ? & ?) ? <-. split_and!; lia. Qed.

Lemma mpy_accum_adds acc a b : is_u32 a → is_u32 b → 0 ≤ acc.2 < 2 ^ 64 →
  adds 1 (a * b) acc (mpy_accum acc a b).
Proof.
  destruct acc as [c u]. unfold is_u32, adds, tot, mpy_accum, u64. cbn [fst snd]. intros Ha Hb Hu.
  assert (0 ≤ a * b ≤ 4294967295 * 4294967295) as Hp by nia.
  rewrite (Z.mod_small (a * b)) by lia. set (p := a * b) in *. clearbody p.
  destruct (Z.ltb_spec ((u + p) mod 18446744073709551616) p); split_and!; dlia.
Qed.

Lemma mpy_accum_dbl_twice acc a b : mpy_accum_dbl acc a b = mpy_accum (mpy_accum acc a b) a b.
Proof. by destruct acc. Qed.

Lemma mpy_accum_dbl_adds acc a b : is_u32 a → is_u32 b → 0 ≤ acc.2 < 2 ^ 64 →
  adds 2 (2 * (a * b)) acc (mpy_accum_dbl acc a b).
Proof.
  intros Ha Hb Hu. rewrite mpy_accum_dbl_twice.
  pose proof (mpy_accum_adds acc a b Ha Hb Hu) as Hs1.
  eapply adds_weaken; [eapply adds_trans; [exact Hs1|apply mpy_accum_adds]|lia|lia]; [done|done|].
  apply Hs1.
Qed.

Lemma column_terms_spec accum k a b ap bp n : Forall is_u32 a → Forall is_u32 b →
  0 ≤ k → (∀ acc x y, is_u32 x → is_u32 y → 0 ≤ acc.2 < 2 ^ 64 → adds k (k * (x * y)) acc (accum acc x y)) →
  (n = O ∨ (Z.of_nat n - 1 ≤ ap < zlen a ∧ 0 ≤ bp ∧ bp + Z.of_nat n ≤ zlen b)) →
  ∀ acc, 0 ≤ acc.2 < 2 ^ 64 →
  ∃ acc', column_terms accum n a b ap bp acc = Ok acc' ∧
    adds (k * Z.of_nat n) (k * zsum n (λ t, wd a (ap - t) * wd b (bp + t))) acc acc'.
Proof.
  intros Ha Hb Hk Hacc. induction n as [|n IH]; intros Hn acc Hu.
  { exists acc. split; [done|]. unfold adds. cbn [zsum]. split_and!; lia. }
  destruct Hn as [?|(? & ? & ?)]; [done|]. cbn [column_terms].
  rewrite !rd_wd, !bind_Ok by lia.
  pose proof (Hacc acc _ _ (wd_range a (ap - Z.of_nat n) Ha) (wd_range b (bp + Z.of_nat n) Hb) Hu) as Hs1.
  destruct (IH ltac:(right; lia) _ (proj1 (proj2 Hs1))) as (acc' & -> & Hs2).
  exists acc'. split; [done|]. eapply adds_weaken; [eapply adds_trans; [exact Hs1|exact Hs2]|lia|].
  cbn [zsum]. ring.
Qed.

Lemma count_words_spec a : bigval a → 0 ≤ count_words 9 a ≤ 9 ∧ ∀ i, count_words 9 a ≤ i → wd a i = 0.
Proof.
  intros Ha. pose proof (bigval_length a Ha) as Hl.
  assert (∀ n, (n ≤ 9)%nat → (∀ i, Z.of_nat n ≤ i → wd a i = 0) →
    0 ≤ count_words n a ≤ Z.of_nat n ∧ ∀ i, count_words n a ≤ i → wd a i = 0) as H.
  { induction n as [|n IH]; intros Hn Hz; cbn [count_words]; [split; [lia|exact Hz]|].
    destruct (Z.eqb_spec (a !!! n) 0) as [E|E]; [|split; [lia|exact Hz]].
    destruct (IH ltac:(lia)) as [? ?]; [|split; [lia|done]].
    intros i Hi. destruct (decide (i = Z.of_nat n)) as [->|]; [|apply Hz; lia].
    unfold wd. rewrite (proj2 (Z.ltb_ge _ _)), Nat2Z.id by lia.
    destruct (a !! n) eqn:El; [|done]. by rewrite (list_lookup_total_correct _ _ _ El) in E. }
  apply (H 9%nat); [done|]. intros i Hi. unfold wd. case_match; [done|].
  rewrite lookup_ge_None_2; [done|lia].
Qed.

(** ** Columns *)
Section columns.
Context (a b : list Z) (Ha : bigval a) (Hb : bigval b).

Lemma mul_column_spec i acc : 0 ≤ i ≤ 16 → 0 ≤ acc.2 < 2 ^ 64 →
  ∃ acc', mul_column a b (count_words 9 a) (count_words 9 b) i acc = Ok acc' ∧
    adds 18 (col a b i) acc acc'.
Proof.
  intros Hi Hu. destruct (count_words_spec a Ha) as [Hra Hza].
  destruct (count_words_spec b Hb) as [Hrb Hzb].
  set (aw := count_words 9 a) in *. set (bw := count_words 9 b) in *. unfold mul_column.
  set (maxj := Z.min (bw - 1) i). set (minj := Z.max 0 (i - aw + 1)).
  destruct Ha as [Hla Hfa], Hb as [Hlb Hfb]. unfold BIGLEN in *.
  destruct (column_terms_spec mpy_accum 1 a b (i - minj) minj (Z.to_nat (maxj - minj + 1)) Hfa Hfb
    ltac:(lia)) with (acc := acc) as (acc' & Hr & Had); [|lia|done|].
  { intros. rewrite Z.mul_1_l. by apply mpy_accum_adds. }
  exists acc'. split; [exact Hr|]. eapply adds_weaken; [exact Had|lia|].
  rewrite Z.mul_1_l. unfold col. destruct (decide (maxj < minj)) as [Hlt|Hge].
  { rewrite (Z2Nat.nonpos (maxj - minj + 1)) by lia. symmetry. apply zsum_zero. intros j Hj.
    destruct (decide (aw ≤ i - j)); [rewrite Hza by done; lia|].
    rewrite (Hzb j) by lia. lia. }
  symmetry. rewrite (zsum_interval _ (Z.to_nat minj) (Z.to_nat (maxj - minj + 1))).
  - apply zsum_ext. intros t Ht. rewrite Z2Nat.id by lia. do 2 f_equal. lia.
  - lia.
  - intros j Hj. rewrite Hza by lia. lia.
  - intros j Hj. rewrite (Hzb j) by lia. lia.
Qed.
End columns.

Ltac evaluate_zsum :=
  repeat match goal with |- context [Z.to_nat ?e] =>
    let n := eval vm_compute in (Z.to_nat e) in change (Z.to_nat e) with n end;
  cbn [zsum];
  repeat match goal with |- context [Z.of_nat ?e] =>
    let n := eval vm_compute in (Z.of_nat e) in change (Z.of_nat e) with n end;
  match goal with |- context [if ?c then _ else _] =>
    let b := eval vm_compute in c in change c with b end;
  repeat match goal with |- context [?i / 2] =>
    let n := eval vm_compute in (i / 2) in change (i / 2) with n end;
  repeat match goal with H : context [?i - ?j] |- _ =>
    let n := eval vm_compute in (i - j) in change (i - j) with n in H end.

(** The terms of a column of a square are symmetric. *)
Lemma zsum_symmetric f i : 0 ≤ i ≤ 16 → (∀ j, f (i - j) = f j) →
  zsum (Z.to_nat (i + 1)) f =
  2 * zsum (Z.to_nat (Z.shiftr (i - 1) 1 + 1)) f + (if Z.land i 1 =? 0 then f (i / 2) else 0).
Proof.
  intros Hi Hf. assert (∀ j k, j + k = i → f j = f k) as H.
  { intros j k Hjk. rewrite <-(Hf k). f_equal. lia. }
  assert (i = 0 ∨ i = 1 ∨ i = 2 ∨ i = 3 ∨ i = 4 ∨ i = 5 ∨ i = 6 ∨ i = 7 ∨ i = 8 ∨ i = 9 ∨ i = 10 ∨
    i = 11 ∨ i = 12 ∨ i = 13 ∨ i = 14 ∨ i = 15 ∨ i = 16) as Hc by lia. clear Hf Hi.
  pose proof (H 0 i) as E0. pose proof (H 1 (i - 1)) as E1. pose proof (H 2 (i - 2)) as E2.
  pose proof (H 3 (i - 3)) as E3. pose proof (H 4 (i - 4)) as E4. pose proof (H 5 (i - 5)) as E5.
  pose proof (H 6 (i - 6)) as E6. pose proof (H 7 (i - 7)) as E7. clear H.
  repeat destruct Hc as [->|Hc]; try subst i;
    specialize (E0 ltac:(lia)); specialize (E1 ltac:(lia)); specialize (E2 ltac:(lia));
    specialize (E3 ltac:(lia)); specialize (E4 ltac:(lia)); specialize (E5 ltac:(lia));
    specialize (E6 ltac:(lia)); specialize (E7 ltac:(lia)); evaluate_zsum; cbv iota; lia.
Qed.

Lemma sqr_column_spec a i acc : bigval a → 0 ≤ i < 2 * count_words 9 a - 1 →
  0 ≤ acc.2 < 2 ^ 64 →
  ∃ acc', sqr_column a (count_words 9 a) i acc = Ok acc' ∧ adds 18 (col a a i) acc acc'.
Proof.
  intros Ha Hi Hu. destruct (count_words_spec a Ha) as [Hra Hza].
  set (aw := count_words 9 a) in *. unfold sqr_column.
  assert (Z.min (Z.min (aw - 1) i) (Z.shiftr (i - 1) 1) = Z.shiftr (i - 1) 1) as ->.
  { rewrite Z.shiftr_div_pow2 by lia. change (2 ^ 1) with 2. dlia. }
  set (maxj := Z.shiftr (i - 1) 1). assert (maxj = (i - 1) / 2) as Hmax by
    (unfold maxj; by rewrite Z.shiftr_div_pow2 by lia).
  set (minj := Z.max 0 (i - aw + 1)). destruct Ha as [Hla Hfa] eqn:E; clear E. unfold BIGLEN in *.
  assert (-1 ≤ maxj ≤ i - 1 ∧ 2 * maxj ≤ i - 1 ∧ maxj < aw - 1 ∧ i - 1 ≤ 2 * maxj + 1) as Hm by dlia.
  destruct (column_terms_spec mpy_accum_dbl 2 a a (i - minj) minj (Z.to_nat (maxj - minj + 1)) Hfa Hfa
    ltac:(lia)) with (acc := acc) as (acc1 & -> & Had); [|lia|done|].
  { intros. by apply mpy_accum_dbl_adds. }
  rewrite bind_Ok. unfold col.
  rewrite zsum_symmetric by (lia || (intros j; replace (i - (i - j)) with j by lia; lia)).
  fold maxj.
  assert (zsum (Z.to_nat (maxj + 1)) (λ j, wd a (i - j) * wd a j) =
    zsum (Z.to_nat (maxj - minj + 1)) (λ t, wd a (i - minj - t) * wd a (minj + t))) as ->.
  { destruct (decide (maxj < minj)).
    - rewrite (Z2Nat.nonpos (maxj - minj + 1)) by lia. apply zsum_zero. intros j Hj.
      rewrite Hza by lia. lia.
    - rewrite (zsum_interval _ (Z.to_nat minj) (Z.to_nat (maxj - minj + 1))).
      + apply zsum_ext. intros t Ht. rewrite Z2Nat.id by lia. do 2 f_equal. lia.
      + lia.
      + intros j Hj. rewrite Hza by lia. lia.
      + intros j Hj. lia. }
  set (s := zsum _ _) in *. destruct (Z.land i 1 =? 0) eqn:Eo.
  - assert (i / 2 = maxj + 1 ∧ i - i / 2 = maxj + 1) as [-> ->].
    { apply Z.eqb_eq in Eo. change 1 with (Z.ones 1) in Eo. rewrite Z.land_ones in Eo by lia.
      change (2 ^ 1) with 2 in Eo. dlia. }
    rewrite rd_wd, bind_Ok by lia. eexists. split; [done|].
    eapply adds_weaken; [eapply adds_trans; [exact Had|apply mpy_accum_adds]|lia|lia];
      [by apply wd_range..|apply Had].
  - exists acc1. split; [done|]. eapply adds_weaken; [exact Had|lia|lia].
Qed.

Lemma mul_columns_spec column f n : ∀ i u, 0 ≤ u < 2 ^ 64 →
  (∀ k acc, i ≤ k < i + Z.of_nat n → 0 ≤ acc.2 < 2 ^ 64 →
     ∃ acc', column k acc = Ok acc' ∧ adds 18 (f k) acc acc') →
  ∃ ws u', mul_columns column n i u = Ok (ws, u') ∧ length ws = n ∧ Forall is_u32 ws ∧
    0 ≤ u' < 2 ^ 64 ∧ wval ws + B ^ Z.of_nat n * u' = u + psum n i f.
Proof.
  induction n as [|n IH]; intros i u Hu Hc.
  { exists [], u. split_and!; try done; [lia|lia|cbn; lia]. }
  cbn [mul_columns]. destruct (Hc i (0, u)) as ([c v] & -> & Hv & Hr & Hn); [lia|done|].
  cbn [fst snd] in *. rewrite bind_Ok. unfold tot in Hv. cbn [fst snd] in Hv.
  change 4294967295 with (Z.ones 32). rewrite Z.land_ones by lia.
  rewrite shiftr_32, Z.shiftl_mul_pow2 by lia.
  assert (u64 (v / B + u64 (c * 2 ^ 32)) = v / B + c * B) as -> by (unfold u64; dlia).
  destruct (IH (i + 1) (v / B + c * B)) as (ws & u' & -> & Hl & Hf & Hu' & Hw); [dlia| |].
  { intros k acc Hk. apply Hc. lia. }
  rewrite bind_Ok. eexists (_ :: ws), u'. split_and!; try done; [by cbn; rewrite Hl| |lia|lia|].
  - constructor; [|done]. unfold is_u32. dlia.
  - cbn [wval psum]. rewrite Nat2Z.inj_succ, Z.pow_succ_r by lia.
    assert (B * wval ws + B * (B ^ Z.of_nat n * u') = B * (v / B + c * B) + B * psum n (i + 1) f)
      as Hw' by (rewrite <-!Z.mul_add_distr_l; by rewrite Hw).
    change (2 ^ 32) with B. pose proof (Z.div_mod v B ltac:(done)). lia.
Qed.

Lemma residual_words_spec n : ∀ u, 0 ≤ u < 2 ^ 64 →
  ∃ ws u', residual_words n u = (ws, u') ∧ length ws = n ∧ Forall is_u32 ws ∧
    0 ≤ u' < 2 ^ 64 ∧ wval ws + B ^ Z.of_nat n * u' = u.
Proof.
  induction n as [|n IH]; intros u Hu.
  { exists [], u. split_and!; try done; [lia|lia|cbn; lia]. }
  cbn [residual_words]. change 4294967295 with (Z.ones 32). rewrite Z.land_ones, shiftr_32 by lia.
  destruct (IH (u / B)) as (ws & u' & -> & Hl & Hf & Hu' & Hw); [dlia|].
  eexists _, u'. split_and!; try done; [by cbn; rewrite Hl| |lia|lia|].
  - constructor; [|done]. unfold is_u32. dlia.
  - cbn [wval]. rewrite Nat2Z.inj_succ, Z.pow_succ_r by lia.
    change (2 ^ 32) with B. pose proof (Z.div_mod u B ltac:(done)). nia.
Qed.

Lemma psum_product a b : bigval a → bigval b → psum 17 0 (col a b) = wval a * wval b.
Proof.
  intros Ha Hb. pose proof (bigval_length a Ha) as Hla. pose proof (bigval_length b Hb) as Hlb.
  do 10 (destruct a as [|? a]; try done). do 10 (destruct b as [|? b]; try done). clear.
  cbn [wval]. cbv [psum col]. 
  repeat match goal with |- context [Z.to_nat ?e] =>
    let n := eval vm_compute in (Z.to_nat e) in change (Z.to_nat e) with n end.
  cbv [zsum].
  repeat match goal with |- context [wd ?l ?i] =>
    let v := eval vm_compute in (wd l i) in change (wd l i) with v end.
  ring.
Qed.

Lemma col_zero a b aw bw i : (∀ j, aw ≤ j → wd a j = 0) → (∀ j, bw ≤ j → wd b j = 0) →
  aw + bw - 1 ≤ i → col a b i = 0.
Proof.
  intros Ha Hb Hi. apply zsum_zero. intros j Hj.
  destruct (decide (bw ≤ j)); [rewrite (Hb j) by done; lia|]. rewrite Ha by lia. lia.
Qed.

(** The double-length product: eighteen words, the last one signed. *)
Lemma mul_words_spec same a b : bigval a → bigval b → (same = true → a = b) →
  ∃ ws t, mul_words same a b = Ok (ws ++ [t]) ∧ length ws = 17%nat ∧ Forall is_u32 ws ∧
    0 ≤ t < 2 ^ 32 ∧ wval (ws ++ [t]) = wval a * wval b.
Proof.
  intros Ha Hb Hs. unfold mul_words.
  destruct (count_words_spec a Ha) as [Hra Hza]. destruct (count_words_spec b Hb) as [Hrb Hzb].
  set (aw := count_words 9 a) in *.
  assert (∃ n column, (if same then (2 * aw - 1, sqr_column a aw)
    else (aw + count_words 9 b - 1, mul_column a b aw (count_words 9 b))) = (n, column) ∧
    n ≤ 17 ∧ (∀ i, n ≤ i → col a b i = 0) ∧
    ∀ k acc, 0 ≤ k < n → 0 ≤ acc.2 < 2 ^ 64 →
      ∃ acc', column k acc = Ok acc' ∧ adds 18 (col a b k) acc acc') as (n & column & -> & Hn & Hz & Hc).
  { destruct same.
    - rewrite <-(Hs eq_refl) in *. exists (2 * aw - 1), (sqr_column a aw). split_and!; [done|lia| |].
      + intros i Hi. apply (col_zero a a aw aw); [done|done|lia].
      + intros k acc Hk Hu. apply sqr_column_spec; [done|lia|done].
    - eexists _, _. split_and!; [done|lia| |].
      + intros i Hi. by apply (col_zero a b aw (count_words 9 b)).
      + intros k acc Hk Hu. apply mul_column_spec; [done|done|lia|done]. }
  destruct (mul_columns_spec column (col a b) (Z.to_nat n) 0 0) as (ws & u & -> & Hl & Hf & Hu & Hw);
    [lia| |].
  { intros k acc Hk. apply Hc. lia. }
  rewrite bind_Ok. rewrite Hl.
  destruct (residual_words_spec (17 - Z.to_nat n) u Hu) as (ws' & u' & -> & Hl' & Hf' & Hu' & Hw').
  assert (Bn ws = B ^ Z.of_nat (Z.to_nat n)) as HB by (unfold Bn, zlen; by rewrite Hl).
  assert (Bn (ws ++ ws') = 2 ^ 544) as HB'.
  { unfold Bn, zlen. rewrite length_app, Hl, Hl'. replace (Z.to_nat n + (17 - Z.to_nat n))%nat with 17%nat by lia. done. }
  assert (wval (ws ++ ws' ++ [u']) = wval a * wval b) as Hval.
  { rewrite wval_app, wval_app, HB. cbn [wval].
    assert (Bn ws' = B ^ Z.of_nat (17 - Z.to_nat n)) as -> by (unfold Bn, zlen; by rewrite Hl').
    replace (u' + B * 0) with u' by ring. rewrite Hw', Hw, Z.add_0_l, <-psum_product by done.
    replace 17%nat with (Z.to_nat n + (17 - Z.to_nat n))%nat by lia.
    rewrite psum_app, (psum_zero (17 - Z.to_nat n)); [ring|]. intros k Hk. apply Hz. lia. }
  assert (0 ≤ u' < 2 ^ 32) as Hu32.
  { pose proof (wval_range a (proj2 Ha)) as H1. pose proof (wval_range b (proj2 Hb)) as H2.
    rewrite Bn_bigval in H1, H2 by done. split; [lia|].
    rewrite app_assoc, wval_app, HB' in Hval. cbn [wval] in Hval.
    pose proof (wval_range (ws ++ ws') (Forall_app_2 _ _ _ Hf Hf')) as H3. 
    assert (wval a * wval b < 2 ^ 288 * 2 ^ 288) by nia. lia. }
  exists (ws ++ ws'), u'. unfold s64. rewrite Z.mod_small by lia.
  replace (u' + 9223372036854775808 - 9223372036854775808) with u' by lia.
  rewrite <-app_assoc. split_and!; try done; [rewrite length_app; lia|by apply Forall_app|lia|lia].
Qed.

(** * Signed double-length numbers *)
Definition neg_part (a : list Z) : Z := if big_is_negative a then 2 ^ 288 else 0.

Lemma sval_neg_part a : bigval a → sval a = wval a - neg_part a.
Proof.
  intros Ha. unfold neg_part. rewrite big_is_negative_spec by done.
  pose proof (wval_range a (proj2 Ha)) as Hw. rewrite Bn_bigval in Hw by done.
  unfold sval. destruct (Z.ltb_spec ((wval a + 2 ^ 287) mod 2 ^ 288 - 2 ^ 287) 0); dlia.
Qed.

Lemma subtract_words_spec m w : ∀ b, length w = length b → Forall is_u32 b →
  Forall (within m) w → m ≤ 2 ^ 40 →
  ∃ w', subtract_words w b = Ok w' ∧ length w' = length w ∧ Forall (within (m + B)) w' ∧
    wval w' = wval w - wval b.
Proof.
  induction w as [|x w IH]; intros [|y b] Hl Hb Hw Hm; try done.
  { exists []. by split_and!. }
  inversion_clear Hb as [|?? Hy Hb']. inversion_clear Hw as [|?? Hx Hw'].
  unfold is_u32, within in *. cbn [subtract_words]. rewrite int64_Ok, bind_Ok by lia.
  destruct (IH b) as (w' & -> & Hl' & Hf' & Hv'); [by injection Hl|done|done|done|].
  exists (x - y :: w'). split_and!; [done|by cbn; rewrite Hl'| |].
  - constructor; [lia|done].
  - cbn [wval]. rewrite Hv'. ring.
Qed.

Lemma subtract_high_spec m w b : length w = 18%nat → bigval b → Forall (within m) w → 0 ≤ m ≤ 2 ^ 40 →
  ∃ w', subtract_high w b = Ok w' ∧ length w' = 18%nat ∧ Forall (within (m + B)) w' ∧
    wval w' = wval w - 2 ^ 288 * wval b.
Proof.
  intros Hl Hb Hw Hm. unfold subtract_high.
  destruct (subtract_words_spec m (drop 9 w) b) as (h & -> & Hlh & Hfh & Hvh);
    [by rewrite length_drop, Hl, (bigval_length b Hb)|apply Hb|by apply Forall_drop|lia|].
  rewrite length_drop, Hl in Hlh. eexists. split_and!; [done| | |].
  - by rewrite length_app, length_take, Hlh, Hl.
  - apply Forall_app. split; [|done]. eapply Forall_impl; [by apply Forall_take|].
    unfold within. intros; lia.
  - assert (Bn (take 9 w) = 2 ^ 288) as HB by (unfold Bn, zlen; by rewrite length_take, Hl).
    rewrite wval_app, Hvh, HB. rewrite <-(take_drop 9 w) at 3. rewrite wval_app, HB. ring.
Qed.

Lemma wval_insert w : ∀ k x y, w !! k = Some y → wval (<[k:=x]> w) = wval w + (x - y) * B ^ Z.of_nat k.
Proof.
  induction w as [|z w IH]; intros [|k] x y Hk; try done; simplify_eq/=; [lia|].
  rewrite (IH k x y Hk), Nat2Z.inj_succ, Z.pow_succ_r by lia. ring.
Qed.

(** A write to a double-length number. *)
Definition updated (w w' : list Z) (i v : Z) : Prop :=
  length w' = 18%nat ∧ wval w' = wval w + v * B ^ i ∧ ∀ j, j ≠ i → wd w' j = wd w j.

Lemma wr_updated w i x : length w = 18%nat → 0 ≤ i < 18 →
  ∃ w', wr w i x = Ok w' ∧ updated w w' i (x - wd w i) ∧ wd w' i = x ∧
    ∀ m, Forall (within m) w → within m x → Forall (within m) w'.
Proof.
  intros Hl Hi. unfold wr, zlen. rewrite Hl, (proj2 (Z.leb_le _ _)), (proj2 (Z.ltb_lt _ _)) by lia.
  cbn [andb]. destruct (lookup_lt_is_Some_2 w (Z.to_nat i)) as [y Hy]; [lia|].
  assert (wd w i = y) as Hwd by (unfold wd; by rewrite (proj2 (Z.ltb_ge _ _)), Hy by lia).
  eexists. split; [done|]. split_and!; [split_and!| |].
  - by rewrite length_insert.
  - rewrite (wval_insert _ _ _ y), Hwd, Z2Nat.id by (done || lia). done.
  - intros j Hj. unfold wd. case_match; [done|]. by rewrite list_lookup_insert_ne by lia.
  - unfold wd. rewrite (proj2 (Z.ltb_ge _ _)), list_lookup_insert_eq by lia. done.
  - intros m Hw Hx. by apply Forall_insert.
Qed.

Lemma wd_within m w i : 0 ≤ m → Forall (within m) w → within m (wd w i).
Proof.
  intros Hm Hw. unfold wd. case_match; [unfold within; lia|].
  destruct (w !! Z.to_nat i) eqn:E; cbn; [|unfold within; lia].
  exact (Forall_lookup_1 _ _ _ _ Hw E).
Qed.

Lemma add_at_spec w i v m n : length w = 18%nat → 0 ≤ i < 18 → Forall (within m) w → within n v →
  0 ≤ m → 0 ≤ n → m + n < 2 ^ 63 →
  ∃ w', add_at w i v = Ok w' ∧ updated w w' i v ∧ Forall (within (m + n)) w'.
Proof.
  intros Hl Hi Hw Hv Hm Hn Hmn. pose proof (wd_within m w i Hm Hw) as Hx. unfold within in *.
  unfold add_at. rewrite rd_wd, bind_Ok by (unfold zlen; lia). rewrite int64_Ok, bind_Ok by lia.
  destruct (wr_updated w i (wd w i + v) Hl Hi) as (w' & -> & Hu & _ & Hf).
  exists w'. split; [done|]. replace v with (wd w i + v - wd w i) at 1 by lia. split; [done|].
  apply Hf; [|unfold within; lia]. eapply Forall_impl; [exact Hw|]. unfold within. intros; lia.
Qed.

Lemma sub_at_add w i v : sub_at w i v = add_at w i (- v).
Proof. unfold sub_at, add_at. destruct (rd w i); [|done]. cbn. by rewrite Z.add_opp_r. Qed.

Lemma Forall_within_weaken m n w : m ≤ n → Forall (within m) w → Forall (within n) w.
Proof. intros ? H. eapply Forall_impl; [exact H|]. unfold within. intros; lia. Qed.

(** The product as a signed number. *)
Lemma sign_correction_spec a b ws t : bigval a → bigval b → length ws = 17%nat →
  Forall is_u32 ws → 0 ≤ t < 2 ^ 32 → wval (ws ++ [t]) = wval a * wval b →
  ∃ w, sign_correction (ws ++ [t]) a b = Ok w ∧ length w = 18%nat ∧
    Forall (within (2 ^ 35)) w ∧ wval w = sval a * sval b.
Proof.
  intros Ha Hb Hl Hf Ht Hw. set (w := ws ++ [t]) in *.
  assert (length w = 18%nat) as Hlw by (unfold w; rewrite length_app, Hl; done).
  assert (Forall (within B) w) as Hfw.
  { apply Forall_app. split; [|constructor; [unfold within; lia|done]].
    eapply Forall_impl; [exact Hf|]. unfold is_u32, within. intros; lia. }
  rewrite (sval_neg_part a), (sval_neg_part b) by done. unfold sign_correction, neg_part.
  assert (∃ w1, (if big_is_negative a then subtract_high w b else Ok w) = Ok w1 ∧ length w1 = 18%nat ∧
    Forall (within (B + B)) w1 ∧ wval w1 = wval w - (if big_is_negative a then 2 ^ 288 else 0) * wval b)
    as (w1 & -> & Hl1 & Hf1 & Hv1).
  { destruct (big_is_negative a).
    - destruct (subtract_high_spec B w b) as (w1 & ? & ? & ? & ?); [done|done|done|lia|].
      exists w1. by split_and!.
    - exists w. split_and!; [done|done| |lia]. by apply (Forall_within_weaken B); [lia|]. }
  rewrite bind_Ok. destruct (big_is_negative b).
  2:{ exists w1. split_and!; [done|done|by eapply Forall_within_weaken; [|done]; lia|]. rewrite Hv1, Hw. ring. }
  destruct (subtract_high_spec (B + B) w1 a) as (w2 & -> & Hl2 & Hf2 & Hv2); [done|done|done|lia|].
  rewrite bind_Ok. destruct (big_is_negative a).
  2:{ exists w2. split_and!; [done|done|by eapply Forall_within_weaken; [|done]; lia|].
      rewrite Hv2, Hv1, Hw. ring. }
  rewrite rd_wd, bind_Ok by (unfold zlen; lia).
  pose proof (wd_within (B + B + B) w2 17 ltac:(lia) Hf2) as Hx. set (x := wd w2 17) in *. unfold within in Hx.
  assert (s64 (u64 (u64 x + u64 (Z.shiftl 1 32))) = x + B) as ->.
  { unfold s64, u64. change (Z.shiftl 1 32) with B. dlia. }
  destruct (wr_updated w2 17 (x + B) Hl2 ltac:(lia)) as (w3 & -> & (Hl3 & Hv3 & _) & _ & Hf3).
  exists w3. split_and!; [done|done| |].
  - apply Hf3; [by eapply Forall_within_weaken; [|done]; lia|unfold within; lia].
  - rewrite Hv3, Hv2, Hv1, Hw. fold x. change (B ^ 17) with (2 ^ 544). ring.
Qed.

(** * Reduction modulo the field prime *)
Definition high_zero (i : Z) (w : list Z) : Prop := ∀ j, i ≤ j → wd w j = 0.

Lemma updated_high i k w w' v : updated w w' k v → k < i → high_zero i w → high_zero i w'.
Proof. intros (_ & _ & Hu) Hk Hz j Hj. rewrite Hu by lia. by apply Hz. Qed.

Lemma wd_lookup w j : 0 ≤ j → wd w j = default 0 (w !! Z.to_nat j).
Proof. intros. unfold wd. by rewrite (proj2 (Z.ltb_ge _ _)) by lia. Qed.

Lemma wd_drop i w j : 0 ≤ j → wd (drop i w) j = wd w (Z.of_nat i + j).
Proof.
  intros Hj. rewrite !wd_lookup, lookup_drop by lia. do 2 f_equal. lia.
Qed.

Lemma wval_zero l : high_zero 0 l → wval l = 0.
Proof.
  induction l as [|x l IH]; intros Hl; [done|]. cbn [wval]. rewrite IH.
  - pose proof (Hl 0 ltac:(lia)) as H0. change (wd (x :: l) 0) with x in H0. lia.
  - intros j Hj. change l with (drop 1 (x :: l)). rewrite wd_drop by done. apply Hl. lia.
Qed.

Lemma wval_high w i : high_zero (Z.of_nat i) w → wval w = wval (take i w).
Proof.
  intros Hz. rewrite <-(take_drop i w) at 1. rewrite wval_app, (wval_zero (drop i w)); [ring|].
  intros j Hj. rewrite wd_drop by done. apply Hz. lia.
Qed.

(** One round of the loop moves word [i] down by the identity
    2^256 = 2^224 - 2^192 - 2^96 + 1 modulo the prime. *)
Lemma fold_words_spec n : ∀ w m, length w = 18%nat → (n ≤ 10)%nat → 0 ≤ m →
  m * 5 ^ Z.of_nat n < 2 ^ 62 → Forall (within m) w → high_zero (Z.of_nat n + 8) w →
  ∃ w', fold_words n w = Ok w' ∧ length w' = 18%nat ∧ high_zero 8 w' ∧
    Forall (within (m * 5 ^ Z.of_nat n)) w' ∧ wval w' ≡[P256] wval w.
Proof.
  induction n as [|n IH]; intros w m Hl Hn Hm Hb Hw Hz.
  { exists w. split_and!; [done|done|done|by rewrite Z.mul_1_r|reflexivity]. }
  rewrite Nat2Z.inj_succ, Z.pow_succ_r in * by lia. cbn [fold_words].
  unfold MSW, BIGLEN. replace (Z.of_nat n + (9 - 1)) with (Z.of_nat n + 8) by lia.
  set (i := Z.of_nat n + 8). rewrite rd_wd, bind_Ok by (unfold zlen; lia). set (v := wd w i).
  pose proof (wd_within m w i Hm Hw) as Hv. fold v in Hv.
  pose proof (Z.pow_pos_nonneg 5 (Z.of_nat n) ltac:(lia) ltac:(lia)) as H5.
  assert (m * 5 < 2 ^ 62) as Hm5 by nia.
  assert (∃ w1, (if negb (v =? 0) then w ← wr w i 0; w ← add_at w (i - 1) v; w ← sub_at w (i - 2) v;
      w ← sub_at w (i - 5) v; add_at w (i - 8) v else Ok w) = Ok w1 ∧
    length w1 = 18%nat ∧ high_zero i w1 ∧ Forall (within (m * 5)) w1 ∧ wval w1 ≡[P256] wval w)
    as (w1 & -> & Hl1 & Hz1 & Hf1 & Hc1).
  { destruct (Z.eqb_spec v 0) as [Hv0|Hv0]; cbn [negb].
    - exists w. split_and!; [done|done| |by apply (Forall_within_weaken m); [lia|]|reflexivity].
      intros j Hj. destruct (decide (j = i)) as [->|]; [exact Hv0|]. apply Hz. lia.
    - assert (within m (- v)) as Hnv by (unfold within in *; lia).
      destruct (wr_updated w i 0 Hl ltac:(lia)) as (a & -> & Ua & Hai & Hfa). rewrite bind_Ok.
      specialize (Hfa m Hw ltac:(unfold within; lia)).
      destruct (add_at_spec a (i - 1) v m m) as (b & -> & Ub & Hfb); [apply Ua|lia|done|done|lia|lia|lia|].
      rewrite bind_Ok, sub_at_add.
      destruct (add_at_spec b (i - 2) (- v) (m + m) m) as (c & -> & Uc & Hfc); [apply Ub|lia|done|done|lia|lia|lia|].
      rewrite bind_Ok, sub_at_add.
      destruct (add_at_spec c (i - 5) (- v) (m + m + m) m) as (d & -> & Ud & Hfd); [apply Uc|lia|done|done|lia|lia|lia|].
      rewrite bind_Ok.
      destruct (add_at_spec d (i - 8) v (m + m + m + m) m) as (e & -> & Ue & Hfe); [apply Ud|lia|done|done|lia|lia|lia|].
      exists e. split_and!; [done|apply Ue| |eapply Forall_within_weaken; [|exact Hfe]; lia|].
      + assert (high_zero i a) as Hza.
        { intros j Hj. destruct (decide (j = i)) as [->|Hne]; [exact Hai|].
          rewrite (proj2 (proj2 Ua)) by done. apply Hz. lia. }
        eapply (updated_high i); [exact Ue|lia|]. eapply (updated_high i); [exact Ud|lia|].
        eapply (updated_high i); [exact Uc|lia|]. eapply (updated_high i); [exact Ub|lia|done].
      + destruct Ua as (_ & Ha & _), Ub as (_ & Hb' & _), Uc as (_ & Hc & _), Ud as (_ & Hd & _), Ue as (_ & He & _).
        rewrite He, Hd, Hc, Hb', Ha. fold v.
        apply (cong_multiple _ _ _ (- v * B ^ (i - 8))). unfold P256.
        replace (B ^ i) with (B ^ (i - 8) * B ^ 8) by (rewrite <-Z.pow_add_r by lia; f_equal; lia).
        replace (B ^ (i - 1)) with (B ^ (i - 8) * B ^ 7) by (rewrite <-Z.pow_add_r by lia; f_equal; lia).
        replace (B ^ (i - 2)) with (B ^ (i - 8) * B ^ 6) by (rewrite <-Z.pow_add_r by lia; f_equal; lia).
        replace (B ^ (i - 5)) with (B ^ (i - 8) * B ^ 3) by (rewrite <-Z.pow_add_r by lia; f_equal; lia).
        change (B ^ 8) with (2 ^ 256). change (B ^ 7) with (2 ^ 224). change (B ^ 6) with (2 ^ 192).
        change (B ^ 3) with (2 ^ 96). ring. }
  rewrite bind_Ok. destruct (IH w1 (m * 5)) as (w' & -> & Hl' & Hz' & Hf' & Hc');
    [done|lia|lia|lia|done|done|].
  exists w'. split_and!; [done|done|done|by replace (m * (5 * 5 ^ Z.of_nat n)) with (m * 5 * 5 ^ Z.of_nat n) by ring|].
  by rewrite Hc'.
Qed.

(** A value that needs no more reduction before the next operation. *)
Definition nearly (t : list Z) : Prop := bigval t ∧ - 2 ^ 252 ≤ sval t < 2 ^ 256 + 2 ^ 252.

Lemma wval_bound w m : 0 ≤ m → Forall (within m) w → within (2 * m * (Bn w - 1)) (wval w * (B - 1)).
Proof.
  intros Hm. induction 1 as [|x w Hx _ IH]; [unfold within, Bn, zlen; cbn; lia|].
  rewrite Bn_cons. cbn [wval]. unfold within in *. nia.
Qed.

Lemma approx_reduce_spec t : bigval t → within (2 ^ 284) (sval t) →
  ∃ r, big_approx_reduceP t = Ok r ∧ nearly r ∧ sval r ≡[P256] sval t.
Proof.
  intros Ht Hs. destruct (msw_spec t Ht) as (Hm & Hmr & _). unfold big_approx_reduceP, within in *. i64.
  destruct (big_adjustP_represents t (- msw t) Ht) as (r & -> & Hr); [unfold within; lia|].
  assert (- 2 ^ 252 ≤ sval t + - msw t * P256 < 2 ^ 256 + 2 ^ 252) as Hb.
  { rewrite Hm. unfold P256. set (x := sval t) in *. clearbody x. clear -Hs. dlia. }
  exists r. split; [done|]. assert (sval r = sval t + - msw t * P256) as He.
  { apply (represents_eq _ _ Hr). unfold ranged. lia. }
  split; [split; [apply Hr|by rewrite He]|]. apply (cong_multiple _ _ _ (- msw t)). exact He.
Qed.

Lemma collapse_value w m : length w = 18%nat → 0 ≤ m → m ≤ 2 ^ 58 + 2 ^ 57 → Forall (within m) w → high_zero 8 w →
  ∃ t, collapse 9 0 w = Ok t ∧ represents t (wval w) ∧ within (2 ^ 284) (wval w).
Proof.
  intros Hl Hm Hm2 Hw Hz.
  destruct (collapse_spec 9 w 0) as (t & Ht & Hh); [lia| |unfold within; lia|].
  { by apply (Forall_within_weaken m); [lia|]. }
  rewrite Z.add_0_l in Hh. rewrite (wval_high w 9) by (intros j Hj; apply Hz; lia).
  assert (length (take 9 w) = 9%nat) as Hl9 by (by rewrite length_take, Hl).
  assert (Bn (take 9 w) = 2 ^ 288) as HB by (unfold Bn, zlen; by rewrite Hl9).
  exists t. split; [done|]. destruct Hh as (Hlt & Hft & Hvt). split.
  - split; [split; [unfold zlen, BIGLEN; lia|done]|by rewrite Hvt, HB].
  - rewrite (wval_high (take 9 w) 8), take_take.
    + pose proof (wval_bound (take (8 `min` 9) w) m Hm (Forall_take _ _ _ Hw)) as Hb.
      assert (Bn (take (8 `min` 9) w) = 2 ^ 256) as HB8 by (unfold Bn, zlen; by rewrite length_take, Hl).
      rewrite HB8 in Hb. set (x := wval _) in *. clearbody x. unfold within in *. clear -Hb Hm Hm2. lia.
    + intros j Hj. pose proof (Hz j ltac:(lia)) as Hj0. rewrite wd_lookup in * by lia.
      destruct (decide (Z.to_nat j < 9)%nat); [by rewrite lookup_take_lt|].
      by rewrite lookup_take_ge by lia.
Qed.

(** The product modulo the field prime, of any two big integers. *)
Lemma big_mpyP_modulus same a b : bigval a → bigval b → (same = true → a = b) →
  ∃ t, big_mpyP_ptr same a b MOD_MODULUS = Ok t ∧ nearly t ∧ sval t ≡[P256] sval a * sval b.
Proof.
  intros Ha Hb Hs. unfold big_mpyP_ptr.
  destruct (mul_words_spec same a b Ha Hb Hs) as (ws & x & -> & Hl & Hf & Hx & Hw). rewrite bind_Ok.
  destruct (sign_correction_spec a b ws x) as (w & -> & Hlw & Hfw & Hvw); [done..|]. rewrite bind_Ok.
  destruct (fold_words_spec 10 w (2 ^ 35)) as (w' & -> & Hl' & Hz' & Hf' & Hc');
    [done|lia|lia|lia|done| |].
  { intros j Hj. unfold wd. case_match; [done|]. rewrite lookup_ge_None_2; [done|lia]. }
  rewrite bind_Ok. destruct (collapse_value w' (2 ^ 35 * 5 ^ 10)) as (t & -> & Hr & Hb'); [done|lia|lia|done|done|].
  rewrite bind_Ok. assert (sval t = wval w') as Ht.
  { apply (represents_eq _ _ Hr). unfold within, ranged in *. lia. }
  destruct (approx_reduce_spec t) as (r & -> & Hn & Hc); [apply Hr|by rewrite Ht|].
  exists r. split_and!; [done|done|]. by rewrite Hc, Ht, Hc', Hvw.
Qed.

(** * Reduction modulo the group order *)
Lemma orderDBL_value : wval orderDBL = N256.
Proof. reflexivity. Qed.

(** Words, of which only the last one is signed. *)
Definition normal (h : list Z) : Prop := ∃ lo t, h = lo ++ [t] ∧ Forall is_u32 lo.

Lemma carry_words_spec w : ∀ c, w ≠ [] → Forall (within (2 ^ 40)) w → within (2 ^ 31) c →
  ∃ w', carry_words w c = Ok w' ∧ length w' = length w ∧ normal w' ∧ wval w' = wval w + c.
Proof.
  induction w as [|x w IH]; intros c Hne Hw Hc; [done|]. clear Hne.
  inversion_clear Hw as [|?? Hx Hw']. unfold within in *.
  destruct w as [|y w].
  - cbn [carry_words]. i64.
    exists [x + c]. split_and!; [done|done|by exists [], (x + c)|cbn; lia].
  - set (w0 := y :: w) in *.
    change (carry_words (x :: w0) c) with (z ← int64 (x + c); t ← int64 (z - Z.shiftl (Z.shiftr z 32) 32);
      r ← carry_words w0 (Z.shiftr z 32); Ok (t :: r)). i64.
    rewrite shiftr_32, Z.shiftl_mul_pow2 by lia. change (2 ^ 32) with B.
    rewrite int64_Ok, bind_Ok by dlia.
    destruct (IH ((x + c) / B)) as (w' & Hr & Hl & (lo & t & -> & Hf) & Hv); [done|done|dlia|].
    rewrite Hr, bind_Ok.
    eexists. split_and!; [done|by cbn; rewrite Hl| |].
    + exists (x + c - (x + c) / B * B :: lo), t. split; [done|]. constructor; [unfold is_u32; dlia|done].
    + cbn [wval]. rewrite Hv. pose proof (Z.div_mod (x + c) B ltac:(done)). lia.
Qed.

Lemma subtract_order_spec v lo : ∀ t od c, (length od ≤ S (length lo))%nat → Forall is_u32 lo →
  within (2 ^ 40) t → Forall (within 1500000000) od → within (2 ^ 32) v → within (2 ^ 31) c →
  ∃ lo' t', subtract_order (lo ++ [t]) od v c = Ok (lo' ++ [t']) ∧ length lo' = length lo ∧
    Forall is_u32 lo' ∧ wval (lo' ++ [t']) = wval (lo ++ [t]) + c - v * wval od.
Proof.
  assert (∀ o, within 1500000000 o → within (2 ^ 32) v → within (2 ^ 32 * 1500000000) (v * o)) as Hmul.
  { unfold within. intros. nia. }
  induction lo as [|x lo IH]; intros t od c Hl Hf Ht Hod Hv Hc; unfold within in *; cbn [app subtract_order].
  - destruct od as [|o [|? ?]]; [| |cbn in Hl; lia].
    + i64. exists [], (t + c). split_and!; [done|done|done|cbn; lia].
    + inversion_clear Hod as [|?? Ho _]. specialize (Hmul o Ho Hv). i64. i64. i64. i64.
      exists [], (t + - (v * o) + c). split_and!; [done|done|done|cbn; lia].
  - inversion_clear Hf as [|?? Hx Hf']. unfold is_u32 in Hx.
    assert (∃ tmp, (match od with o :: _ => p ← int64 (v * o); tmp2 ← int64 (- p); tmp ← int64 (x + tmp2);
        int64 (tmp + c) | [] => int64 (x + c) end) = Ok tmp ∧
      tmp = x + c - v * wval (take 1 od) ∧ within (2 ^ 32 * 1600000000) tmp) as (tmp & -> & Htmp & Hb).
    { destruct od as [|o od].
      - rewrite int64_Ok by lia. eexists. split_and!; [done|cbn; lia|unfold within; lia].
      - inversion_clear Hod as [|?? Ho _]. specialize (Hmul o Ho Hv). i64. i64. i64.
        rewrite int64_Ok by lia. change (take 1 (o :: od)) with [o]. cbn [wval].
        eexists. split_and!; [done|ring|unfold within; lia]. }
    rewrite bind_Ok. unfold within in Hb.
    assert (∃ y l, lo ++ [t] = y :: l) as (y & l & Heq) by (destruct lo; by eexists _, _).
    destruct (IH t (drop 1 od) (tmp / B)) as (lo' & t' & Hr & Hl' & Hf'' & Hv');
      [rewrite length_drop; cbn in Hl; lia|done|done|by apply Forall_drop|done|dlia|].
    rewrite Heq in Hr |- *. rewrite shiftr_32, Z.shiftl_mul_pow2 by lia. change (2 ^ 32) with B.
    rewrite int64_Ok, bind_Ok, Hr, bind_Ok by dlia.
    exists (tmp - tmp / B * B :: lo'), t'. split_and!; [done|by cbn; rewrite Hl'| |].
    + constructor; [unfold is_u32; dlia|done].
    + rewrite Heq in Hv'. cbn [wval] in Hv'. cbn [app wval]. rewrite Hv'.
      assert (wval od = wval (take 1 od) + B * wval (drop 1 od)) as ->
        by (destruct od as [|o od]; [done|change (take 1 (o :: od)) with [o]; change (drop 1 (o :: od)) with od; cbn [wval]; ring]).
      pose proof (Z.div_mod tmp B ltac:(done)). lia.
Qed.

(** The words [h] from [i - MSW] on while word [i] is cleared. *)
Definition top (h : list Z) : Prop :=
  normal h ∧ (9 ≤ length h)%nat ∧
  (length h = 9%nat ∧ within (2 ^ 286) (wval h) ∨ 0 ≤ wval h < 2 ^ 288).

Lemma wval_digits h : normal h → (9 ≤ length h)%nat →
  wval h / 2 ^ 256 = wval (drop 8 h) ∧ wd h 8 = wd (drop 8 h) 0 ∧ normal (drop 8 h).
Proof.
  intros (lo & t & -> & Hf) Hl. rewrite length_app in Hl. cbn in Hl.
  assert (wd (lo ++ [t]) 8 = wd (drop 8 (lo ++ [t])) 0) as Hd by (by rewrite wd_drop).
  rewrite drop_app_le in * by lia.
  assert (Bn (take 8 lo) = 2 ^ 256) as HB.
  { unfold Bn, zlen. rewrite length_take. by replace (8 `min` length lo)%nat with 8%nat by lia. }
  split_and!; [|exact Hd|exists (drop 8 lo), t; split; [done|by apply Forall_drop]].
  rewrite <-(take_drop 8 lo) at 1. rewrite <-app_assoc, wval_app, HB.
  pose proof (wval_range (take 8 lo) (Forall_take _ 8 _ Hf)) as Hr. rewrite HB in Hr.
  rewrite Z.mul_comm, Z.div_add, Z.div_small by lia. lia.
Qed.

Lemma top_digit h : top h → wd h 8 = wval h / 2 ^ 256 ∧ within (2 ^ 32) (wval h / 2 ^ 256).
Proof.
  intros (Hn & Hl & Hv). destruct (wval_digits h Hn Hl) as (Hd & Hw & (lo & t & He & Hf)).
  assert (length (drop 8 h) = (length h - 8)%nat) as Hld by apply length_drop.
  rewrite He in *. rewrite length_app in Hld. cbn in Hld. rewrite Hd, Hw.
  destruct lo as [|x lo].
  - cbn [app wval] in *. split; [change (wd [t] 0) with t; ring|].
    destruct Hv as [[_ Hv]|Hv]; unfold within in *; dlia.
  - destruct Hv as [[Hl9 _]|Hv]; [cbn in Hld; lia|].
    change (wd ((x :: lo) ++ [t]) 0) with x. inversion_clear Hf as [|?? Hx _]. unfold is_u32, within in *.
    cbn [app wval] in *. dlia.
Qed.

(** Subtracting the leading word times the order. *)
Lemma clear_step h : top h →
  ∃ h', subtract_order h orderDBL (wd h 8) 0 = Ok h' ∧ normal h' ∧ length h' = length h ∧
    wval h' = wval h - wval h / 2 ^ 256 * N256.
Proof.
  intros Ht. destruct (top_digit h Ht) as (-> & Hv). destruct Ht as ((lo & t & -> & Hf) & Hl & Hw).
  rewrite length_app in Hl. cbn in Hl.
  assert (within (2 ^ 40) t) as Htb.
  { assert (2 ^ 256 ≤ Bn lo) as HB.
    { unfold Bn, zlen. apply (Z.pow_le_mono_r B 8); lia. }
    pose proof (wval_range lo Hf) as Hr. rewrite wval_app in Hw. cbn [wval] in Hw. unfold within in *.
    assert (- 2 ^ 289 ≤ wval lo + Bn lo * (t + B * 0) ≤ 2 ^ 289) as Hb by lia. nia. }
  destruct (subtract_order_spec (wval (lo ++ [t]) / 2 ^ 256) lo t orderDBL 0)
    as (lo' & t' & -> & Hl' & Hf' & Hv'); [cbn; lia|done|done|repeat constructor; unfold within; lia|done|unfold within; lia|].
  exists (lo' ++ [t']). split_and!; [done|by exists lo', t'|by rewrite !length_app, Hl'|].
  by rewrite Hv', orderDBL_value, Z.add_0_r.
Qed.

Lemma clear_word_spec l h i : top h → Z.of_nat (length l) = i - 8 →
  ∃ h', clear_word 3 (l ++ h) i = Ok (l ++ h') ∧ normal h' ∧ length h' = length h ∧
    0 ≤ wval h' < 2 ^ 256 ∧ wval h' ≡[N256] wval h.
Proof.
  intros Ht Hi. assert (∀ n h, top h → clear_word (S n) (l ++ h) i =
    if wval h / 2 ^ 256 =? 0 then Ok (l ++ h)
    else h' ← subtract_order h orderDBL (wd h 8) 0; clear_word n (l ++ h') i) as Hstep.
  { intros n g Hg. cbn [clear_word]. destruct (top_digit g Hg) as (Hd & _).
    rewrite rd_wd by (destruct Hg as (_ & Hlg & _); unfold zlen; rewrite length_app; lia).
    rewrite bind_Ok. assert (wd (l ++ g) i = wd g 8) as ->.
    { rewrite !wd_lookup, lookup_app_r by lia. do 2 f_equal. lia. }
    unfold MSW, BIGLEN. replace (Z.to_nat (i - (9 - 1))) with (length l) by lia.
    rewrite drop_app_length, take_app_length, Hd.
    by destruct (wval g / 2 ^ 256 =? 0). }
  assert (∀ n g, top g → 0 ≤ wval g < 2 ^ 256 → clear_word (S n) (l ++ g) i = Ok (l ++ g)) as Hdone.
  { intros n g Hg Hr. rewrite Hstep, Z.div_small by done. done. }
  rewrite Hstep by done. destruct (Z.eqb_spec (wval h / 2 ^ 256) 0) as [E|E].
  { exists h. split_and!; [done|apply Ht|done|dlia|dlia|reflexivity]. }
  destruct (clear_step h Ht) as (h1 & -> & Hn1 & Hl1 & Hv1). rewrite bind_Ok.
  set (y := wval h) in *. set (q := y / 2 ^ 256) in *.
  assert (- 2 ^ 255 ≤ wval h1 < 2 ^ 257 - 2 ^ 224) as Hb1.
  { rewrite Hv1. unfold q, N256. destruct Ht as (_ & _ & [[_ Hy]|Hy]); fold y in Hy; unfold within in *;
      clearbody y; clear -Hy; dlia. }
  assert (top h1) as Ht1.
  { split_and!; [done|rewrite Hl1; apply Ht|]. destruct Ht as (_ & Hl & [[Hl9 Hy]|Hy]).
    - left. split; [lia|unfold within; lia].
    - right. fold y in Hy. rewrite Hv1. unfold q, N256. clearbody y; clear -Hy; dlia. }
  rewrite Hstep by done. assert (wval h1 ≡[N256] y) as Hc1 by (apply (cong_multiple _ _ _ (- q)); lia).
  destruct (Z.eqb_spec (wval h1 / 2 ^ 256) 0) as [E1|E1].
  { exists h1. split_and!; [done|done|done|dlia|dlia|done]. }
  destruct (clear_step h1 Ht1) as (h2 & -> & Hn2 & Hl2 & Hv2). rewrite bind_Ok.
  set (z := wval h1) in *. assert (0 ≤ wval h2 < 2 ^ 256) as Hb2.
  { rewrite Hv2. unfold N256. clear -Hb1 E1. clearbody z. dlia. }
  rewrite Hdone; [|split_and!; [done|rewrite Hl2, Hl1; apply Ht|right; lia]|done].
  exists h2. split_and!; [done|done|by rewrite Hl2|lia|lia|].
  rewrite Hv2, <-Hc1. apply (cong_multiple _ _ _ (- (z / 2 ^ 256))). ring.
Qed.

Lemma wval_app_cong m l h h' : wval h' ≡[m] wval h → wval (l ++ h') ≡[m] wval (l ++ h).
Proof. intros H. rewrite !wval_app. by rewrite H. Qed.

Lemma clear_words_spec n : ∀ l h, length l = n → Forall is_u32 l → top h →
  ∃ w, clear_words (S n) (l ++ h) = Ok w ∧ length w = length (l ++ h) ∧ normal w ∧
    0 ≤ wval w < 2 ^ 256 ∧ wval w ≡[N256] wval (l ++ h).
Proof.
  induction n as [|n IH]; intros l h Hl Hf Ht.
  - destruct l; [|done]. cbn [clear_words app].
    destruct (clear_word_spec [] h (Z.of_nat 0 + MSW) Ht) as (h' & Hr & Hn & Hlh & Hb & Hc); [done|].
    cbn [app] in Hr. rewrite Hr, bind_Ok. by exists h'.
  - destruct l as [|x l] using rev_ind; [done|]. clear IHl.
    rewrite length_app in Hl. cbn in Hl. apply Forall_app in Hf as [Hf Hx].
    apply Forall_cons in Hx as [Hx _]. unfold is_u32 in Hx.
    destruct (clear_word_spec (l ++ [x]) h (Z.of_nat (S n) + MSW) Ht) as (h' & Hr & Hn & Hlh & Hb & Hc);
      [unfold MSW, BIGLEN; rewrite length_app; cbn; lia|].
    change (clear_words (S (S n)) ((l ++ [x]) ++ h))
      with (w ← clear_word 3 ((l ++ [x]) ++ h) (Z.of_nat (S n) + MSW); clear_words (S n) w).
    rewrite Hr, bind_Ok, <-!app_assoc. cbn [app].
    destruct Hn as (lo & t & -> & Hlo).
    destruct (IH l (x :: lo ++ [t])) as (w & -> & Hlw & Hnw & Hbw & Hcw); [lia|done| |].
    { split_and!; [exists (x :: lo), t; split; [done|by constructor]| |].
      - destruct Ht as (_ & Hl9 & _). cbn [length]. lia.
      - right. cbn [wval]. lia. }
    exists w. split_and!; [done| |done|lia|lia|].
    + rewrite Hlw, !length_app. cbn [length]. lia.
    + rewrite Hcw. apply wval_app_cong. cbn [wval]. by rewrite Hc.
Qed.

(** The product modulo the group order, of any two big integers. *)
Lemma big_mpyP_order a b : bigval a → bigval b →
  ∃ t, big_mpyP a b MOD_ORDER = Ok t ∧ bigval t ∧ 0 ≤ sval t < 2 ^ 256 ∧
    sval t ≡[N256] sval a * sval b.
Proof.
  intros Ha Hb. unfold big_mpyP, big_mpyP_ptr.
  destruct (mul_words_spec false a b Ha Hb) as (ws & x & -> & Hl & Hf & Hx & Hw); [done|]. rewrite bind_Ok.
  destruct (sign_correction_spec a b ws x) as (w & -> & Hlw & Hfw & Hvw); [done..|]. rewrite bind_Ok.
  destruct (carry_words_spec w 0) as (w1 & -> & Hl1 & Hn1 & Hv1);
    [by destruct w|by apply (Forall_within_weaken (2 ^ 35)); [lia|]|unfold within; lia|]. rewrite bind_Ok.
  pose proof (bigval_ranged a Ha) as Hra. pose proof (bigval_ranged b Hb) as Hrb. unfold ranged in *.
  assert (within (2 ^ 574) (wval w1)) as Hb1 by (unfold within; rewrite Hv1, Hvw; nia).
  destruct Hn1 as (lo & t & -> & Hlo). rewrite length_app in Hl1. cbn in Hl1.
  assert (length lo = 17%nat) as Hlo17 by lia.
  rewrite <-(take_drop 9 lo) in Hb1, Hv1 |- *. rewrite <-app_assoc in *.
  assert (length (take 9 lo) = 9%nat) as Ht9 by (rewrite length_take; lia).
  destruct (clear_words_spec 9 (take 9 lo) (drop 9 lo ++ [t])) as (w2 & -> & Hl2 & Hn2 & Hb2 & Hc2);
    [done|by apply Forall_take| |].
  { split_and!; [exists (drop 9 lo), t; split; [done|by apply Forall_drop]| |left; split].
    - rewrite length_app, length_drop, Hlo17. cbn. lia.
    - rewrite length_app, length_drop, Hlo17. done.
    - rewrite wval_app in Hb1. pose proof (wval_range _ (Forall_take _ 9 _ Hlo)) as Hr.
      assert (Bn (take 9 lo) = 2 ^ 288) as HB by (unfold Bn, zlen; by rewrite Ht9).
      rewrite HB in *. unfold within in *. lia. }
  rewrite bind_Ok. destruct Hn2 as (lo2 & t2 & -> & Hlo2).
  rewrite !length_app, length_drop, Hlo17, Ht9 in Hl2. cbn in Hl2.
  assert (Bn lo2 = 2 ^ 544) as HB2 by (unfold Bn, zlen; by replace (length lo2) with 17%nat by lia).
  assert (wval (lo2 ++ [t2]) = wval lo2 + 2 ^ 544 * t2) as Hv2 by (rewrite wval_app, HB2; cbn; ring).
  pose proof (wval_range lo2 Hlo2) as Hr2. rewrite HB2 in Hr2.
  assert (t2 = 0) as Ht2 by (rewrite Hv2 in Hb2; lia).
  destruct (collapse_spec 9 (lo2 ++ [t2]) 0) as (r & -> & Hlr & Hfr & Hvr);
    [rewrite length_app; cbn; lia| |unfold within; lia|].
  { apply Forall_app. split; [|constructor; [unfold within; lia|done]].
    eapply Forall_impl; [exact Hlo2|]. unfold is_u32, within. intros; lia. }
  rewrite bind_Ok. rewrite length_take, length_app in Hlr. change (length [t2]) with 1%nat in Hlr.
  assert (bigval r) as Hbr by (split; [unfold zlen, BIGLEN; lia|done]).
  assert (sval r = wval (lo2 ++ [t2])) as Hsr.
  { apply represents_eq; [|unfold ranged; lia]. split; [done|]. rewrite Hvr, Z.add_0_l.
    assert (Bn (take 9 (lo2 ++ [t2])) = 2 ^ 288) as -> by
      (unfold Bn, zlen; rewrite length_take, length_app; by replace (length lo2) with 17%nat by lia).
    rewrite <-(take_drop 9 (lo2 ++ [t2])) at 2. rewrite wval_app.
    assert (Bn (take 9 (lo2 ++ [t2])) = 2 ^ 288) as -> by
      (unfold Bn, zlen; rewrite length_take, length_app; by replace (length lo2) with 17%nat by lia).
    by rewrite (Z.mul_comm (2 ^ 288)), Z_mod_plus_full. }
  destruct (msw_spec r Hbr) as (-> & _). rewrite Hsr, Z.div_small by done. cbn [negb].
  exists r. split_and!; [done|done|lia|lia|]. by rewrite Hsr, Hc2, Hv1, Z.add_0_r, Hvw.
Qed.

(** * Precise reduction *)
Definition modulus_of (m : modulus_val) : list Z :=
  match m with MOD_MODULUS => modulusP | MOD_ORDER => orderP end.
Definition mval (m : modulus_val) : Z :=
  match m with MOD_MODULUS => P256 | MOD_ORDER => N256 end.

Lemma modulus_big m : bigval (modulus_of m) ∧ sval (modulus_of m) = mval m.
Proof. destruct m; [exact modulusP_big|exact orderP_big]. Qed.

Lemma mval_range m : 2 ^ 256 - 2 ^ 224 ≤ mval m < 2 ^ 256.
Proof. destruct m; cbn; unfold P256, N256; lia. Qed.

(** One subtraction of the modulus times the most significant word. *)
Lemma reduce_msw_step m src : bigval src →
  ∃ t, (if decide (modulus_of m = modulusP) then
          k ← int64 (- msw src); big_adjustP src k
        else tmp ← big_1wd_mpy (modulus_of m) (msw src); Ok (big_sub src tmp)) = Ok t ∧
    bigval t ∧ sval t = sval src - sval src / 2 ^ 256 * mval m.
Proof.
  intros Hs. destruct (msw_spec src Hs) as (Hm & Hmr & _).
  pose proof (bigval_ranged src Hs) as Hr. unfold ranged in Hr.
  pose proof (mval_range m) as Hmv.
  assert (- 2 ^ 287 ≤ sval src - sval src / 2 ^ 256 * mval m < 2 ^ 287) as Hb.
  { rewrite <-Hm. set (q := msw src) in *. set (x := sval src) in *.
    assert (2 ^ 256 * q ≤ x < 2 ^ 256 * q + 2 ^ 256) as Hx by dlia. clearbody q x. clear Hm. nia. }
  destruct (modulus_big m) as [Hmb Hmv']. case_decide as Hd.
  - assert (mval m = P256) as Hp by (clear -Hd; destruct m; [reflexivity|vm_compute in Hd; discriminate Hd]). i64.
    destruct (big_adjustP_represents src (- msw src) Hs) as (t & Ht & Hrep); [unfold within; lia|].
    exists t. split_and!; [done|apply Hrep|]. rewrite (represents_eq _ _ Hrep), Hm, Hp by (unfold ranged; lia). generalize (sval src), (sval src / 2 ^ 256), P256. clear. intros. ring.
  - destruct (big_1wd_mpy_represents (modulus_of m) (msw src) Hmb) as (t & -> & Ht); [done|]. rewrite bind_Ok.
    pose proof (big_sub_represents src t Hs (proj1 Ht)) as Hrep. eexists. split_and!; [done|apply Hrep|].
    apply (represents_eq _ _ (represents_ext _ _ _ Hrep ltac:(
      rewrite Zminus_mod, <-(wval_sval t (proj1 Ht)), (proj2 Ht), Z.mod_mod, <-Zminus_mod by done;
      rewrite Hmv', Hm; reflexivity))). unfold ranged. lia.
Qed.

Lemma reduce_msw_spec m a : bigval a →
  ∃ t, reduce_msw 3 a (modulus_of m) = Ok t ∧ bigval t ∧ 0 ≤ sval t < 2 ^ 256 ∧ sval t ≡[mval m] sval a.
Proof.
  intros Ha.
  assert (∀ n s, bigval s → 0 ≤ sval s < 2 ^ 256 → reduce_msw n s (modulus_of m) = Ok s) as Hdone.
  { intros n s Hs Hr. destruct (msw_spec s Hs) as (Hm & _). rewrite Z.div_small in Hm by done.
    by destruct n; cbn [reduce_msw]; rewrite Hm. }
  assert (∀ n s, bigval s → (0 ≤ sval s < 2 ^ 256) ∨ ∃ t, reduce_msw (S n) s (modulus_of m) =
    reduce_msw n t (modulus_of m) ∧ bigval t ∧ sval t = sval s - sval s / 2 ^ 256 * mval m) as Hstep.
  { intros n s Hs. destruct (msw_spec s Hs) as (Hm & _). cbn [reduce_msw].
    destruct (Z.eqb_spec (msw s) 0) as [E|E]; cbn [negb]; [left; dlia|right].
    destruct (reduce_msw_step m s Hs) as (t & -> & ? & ?). by exists t. }
  pose proof (mval_range m) as Hmv. pose proof (bigval_ranged a Ha) as Hr. unfold ranged in Hr.
  destruct (Hstep 2%nat a Ha) as [H0|(t & -> & Ht & Hvt)].
  { exists a. rewrite Hdone by done. split_and!; [done|done|lia|lia|reflexivity]. }
  set (x := sval a) in *. set (q := x / 2 ^ 256) in *.
  assert (2 ^ 256 * q ≤ x < 2 ^ 256 * q + 2 ^ 256) as Hq by (unfold q; dlia).
  assert (- 2 ^ 255 ≤ sval t < 2 ^ 256 + 2 ^ 255) as Hbt.
  { rewrite Hvt. assert (- 2147483648 ≤ q < 2147483648) by lia. clearbody q x. nia. }
  assert (sval t ≡[mval m] x) as Hct by (apply (cong_multiple _ _ _ (- q)); lia).
  destruct (Hstep 1%nat t Ht) as [H0|(u & -> & Hu & Hvu)].
  { exists t. rewrite Hdone by done. split_and!; [done|done|lia|lia|done]. }
  assert (0 ≤ sval u < 2 ^ 256 ∨ sval u = sval t) as Hbu.
  { rewrite Hvu. set (y := sval t) in *. clearbody y. clear -Hbt Hmv.
    assert (y / 2 ^ 256 = -1 ∨ y / 2 ^ 256 = 0 ∨ y / 2 ^ 256 = 1) as [E|[E|E]] by dlia; rewrite E; dlia. }
  assert (0 ≤ sval u < 2 ^ 256) as Hbu'.
  { destruct Hbu as [|E]; [done|]. rewrite E in *. set (y := sval t) in *. clearbody y.
    assert (y / 2 ^ 256 = 0) by nia. dlia. }
  exists u. rewrite Hdone by done. split_and!; [done|done|lia|lia|].
  rewrite Hvu, <-Hct. apply (cong_multiple _ _ _ (- (sval t / 2 ^ 256))). ring.
Qed.

(** The result is the residue. *)
Lemma big_precise_reduce_spec m a : bigval a →
  ∃ t, big_precise_reduce a (modulus_of m) = Ok t ∧ bigval t ∧ sval t = sval a mod mval m.
Proof.
  intros Ha. unfold big_precise_reduce. pose proof (mval_range m) as Hmv.
  destruct (reduce_msw_spec m a Ha) as (s & -> & Hs & Hr & Hc). rewrite bind_Ok.
  destruct (modulus_big m) as [Hmb Hmval].
  assert (∃ t, reduce_above 2 s (modulus_of m) = Ok t ∧ bigval t ∧ 0 ≤ sval t < mval m ∧ sval t ≡[mval m] sval s)
    as (t & -> & Ht & Hrt & Hct).
  { assert (∀ n x, bigval x → 0 ≤ sval x < mval m → reduce_above n x (modulus_of m) = Ok x) as Hdone.
    { intros n x Hx Hxr. assert ((0 <=? big_cmp x (modulus_of m)) = false) as E.
      { rewrite big_cmp_spec, Hmval by done. apply Z.leb_gt, Z.sgn_neg_iff. lia. }
      by destruct n; cbn [reduce_above]; rewrite E. }
    cbn [reduce_above]. rewrite big_cmp_spec, Hmval by done.
    destruct (Z.leb_spec 0 (Z.sgn (sval s - mval m))) as [H|H].
    - pose proof (big_sub_represents s (modulus_of m) Hs Hmb) as Hrep. rewrite Hmval in Hrep.
      assert (sval (big_sub s (modulus_of m)) = sval s - mval m) as E
        by (apply (represents_eq _ _ Hrep); unfold ranged; lia).
      exists (big_sub s (modulus_of m)).
      change (reduce_above 1 (big_sub s (modulus_of m)) (modulus_of m) = Ok (big_sub s (modulus_of m)) ∧ 
        bigval (big_sub s (modulus_of m)) ∧ 0 ≤ sval (big_sub s (modulus_of m)) < mval m ∧
        sval (big_sub s (modulus_of m)) ≡[mval m] sval s).
      rewrite Hdone; [|apply Hrep|lia]. split_and!; [done|apply Hrep|lia|lia|].
      apply (cong_multiple _ _ _ (-1)). lia.
    - exists s. split_and!; [done|done|lia|lia|reflexivity]. }
  rewrite bind_Ok. cbn [reduce_below]. destruct (msw_spec t Ht) as (-> & _).
  rewrite Z.div_small by lia. exists t. split_and!; [done|done|].
  apply (cong_unique (mval m)); [lia|apply Z.mod_pos_bound; lia|]. by rewrite Hct, Hc, cong_mod.
Qed.

(** * Halving *)
Lemma P256_eq : P256 = 115792089210356248762697446949407573530086143415290314195533631308867097853951.
Proof. reflexivity. Qed.

Fixpoint signed (a : list Z) : Z :=
  match a with
  | [] => 0
  | [x] => s32 x
  | x :: a => x + B * signed a
  end.

Lemma signed_app lo x : signed (lo ++ [x]) = wval lo + Bn lo * s32 x.
Proof.
  induction lo as [|y lo IH]; [cbn [app signed wval]; unfold Bn, zlen; cbn; lia|].
  rewrite Bn_cons. cbn [app wval]. destruct (lo ++ [x]) as [|z l] eqn:E; [by destruct lo|].
  change (signed (y :: z :: l)) with (y + B * signed (z :: l)). rewrite IH. ring.
Qed.

Lemma sval_signed a : bigval a → sval a = signed a.
Proof.
  intros Ha. destruct (bigval_split a Ha) as (He & _ & _ & HB & ->).
  rewrite He at 3. by rewrite signed_app, HB.
Qed.

Lemma halve_words_spec a : a ≠ [] → Forall is_u32 a →
  ∃ t, halve_words a = (t, signed a mod 2) ∧ length t = length a ∧ Forall is_u32 t ∧
    signed t = signed a / 2.
Proof.
  intros Hne. induction 1 as [|x a Hx Ha IH]; [done|]. clear Hne. unfold is_u32 in Hx.
  assert (∀ y, Z.land y 1 = y mod 2) as Hland.
  { intros y. change 1 with (Z.ones 1). by rewrite Z.land_ones by lia. }
  assert (∀ y, Z.shiftr y 1 = y / 2) as Hsh by (intros y; by rewrite Z.shiftr_div_pow2 by lia).
  destruct a as [|y a].
  - exists [u32 (Z.shiftr (s32 x) 1)]. cbn [halve_words signed]. rewrite Hland, Hsh. split_and!; [|done| |].
    + f_equal. unfold s32. dlia.
    + constructor; [apply u32_range|done].
    + unfold s32, u32. dlia.
  - destruct (IH ltac:(done)) as (t & Ht & Hl & Hf & Hv).
    change (halve_words (x :: y :: a)) with
      (let '(tgt, shiftval) := halve_words (y :: a) in
       (Z.lor (Z.shiftr x 1) (u32 (Z.shiftl shiftval 31)) :: tgt, Z.land x 1)).
    rewrite Ht, Hland, Hsh. change (signed (x :: y :: a)) with (x + B * signed (y :: a)).
    set (s := signed (y :: a)) in *. rewrite Z.shiftl_mul_pow2 by lia.
    assert (u32 (s mod 2 * 2 ^ 31) = s mod 2 * 2 ^ 31) as -> by (unfold u32; dlia).
    assert (Z.lor (x / 2) (s mod 2 * 2 ^ 31) = x / 2 + s mod 2 * 2 ^ 31) as ->.
    { rewrite <-(Z.shiftl_mul_pow2 (s mod 2) 31) at 1 by lia. apply lor_shiftl_add; [lia|dlia]. }
    exists (x / 2 + s mod 2 * 2 ^ 31 :: t). split_and!; [f_equal; dlia|by cbn; rewrite Hl| |].
    + constructor; [unfold is_u32; dlia|done].
    + destruct t as [|z t]; [done|].
      change (signed (x / 2 + s mod 2 * 2 ^ 31 :: z :: t)) with (x / 2 + s mod 2 * 2 ^ 31 + B * signed (z :: t)).
      rewrite Hv. clearbody s. dlia.
Qed.

Lemma big_halve_spec a : bigval a → bigval (big_halve a) ∧ sval (big_halve a) = sval a / 2.
Proof.
  intros Ha. pose proof (bigval_length a Ha) as Hl.
  destruct (halve_words_spec a) as (t & Ht & Hlt & Hft & Hv); [by destruct a|apply Ha|].
  unfold big_halve. rewrite Ht. cbn [fst].
  assert (bigval t) as Hbt by (split; [unfold zlen, BIGLEN; lia|done]).
  split; [done|]. by rewrite !sval_signed.
Qed.

Lemma cong_half m x y : Z.odd m = true → 2 * x ≡[m] 2 * y → x ≡[m] y.
Proof.
  intros Ho [q Hq]. apply Z.odd_spec in Ho as [r Hr]. exists (x - y - r * q). subst m. lia.
Qed.

Lemma mval_odd m : Z.odd (mval m) = true.
Proof. by destruct m. Qed.

Lemma big_halveP_spec a : nearly a →
  ∃ t, big_halveP a = Ok t ∧ nearly t ∧ 2 * sval t ≡[P256] sval a.
Proof.
  intros [Ha Hr]. unfold big_halveP. rewrite big_is_odd_spec by done.
  pose proof (Zmod_odd (sval a)) as Hodd. destruct (Z.odd (sval a)) eqn:E.
  - destruct (big_adjustP_represents a 1 Ha) as (t & -> & Ht); [unfold within; lia|]. rewrite bind_Ok.
    rewrite Z.mul_1_l in Ht. assert (sval t = sval a + P256) as Hst
      by (apply (represents_eq _ _ Ht); unfold ranged, P256; lia).
    destruct (big_halve_spec t (proj1 Ht)) as [Hb Hv]. eexists. split; [done|].
    rewrite Hst in Hv. assert (2 * ((sval a + P256) / 2) = sval a + P256) as H2.
    { pose proof (Z.div_mod (sval a + P256) 2 ltac:(done)) as Hd.
      assert ((sval a + P256) mod 2 = 0) as Hz by (rewrite Z.add_mod, Hodd by done; reflexivity). lia. }
    set (h := (sval a + P256) / 2) in *. clearbody h.
    split; [split; [done|rewrite Hv; rewrite P256_eq in H2; lia]|]. rewrite Hv, H2.
    apply (cong_multiple _ _ _ 1). lia.
  - destruct (big_halve_spec a Ha) as [Hb Hv]. eexists. split; [done|].
    pose proof (Z.div_mod (sval a) 2 ltac:(done)) as Hd.
    split; [split; [done|rewrite Hv; lia]|]. rewrite Hv. apply cong_eq. lia.
Qed.

(** * Division *)
Section divide.
Context (m : modulus_val) (num den : Z).
Let M := mval m.
Let mo := modulus_of m.

(** [x] is [u / den * num], with [|x| ≤ b]. *)
Definition quotient (b : Z) (u x : list Z) : Prop :=
  bigval u ∧ bigval x ∧ within b (sval x) ∧ sval x * den ≡[M] sval u * num.

Lemma halve_step b u x : quotient b u x → b ≤ 2 ^ 285 → 2 ^ 256 ≤ b → sval u mod 2 = 0 →
  quotient ((b + 2 ^ 256) / 2) (big_halve u) (big_halve (if big_is_odd x then big_add x mo else x)) ∧
  sval (big_halve u) = sval u / 2.
Proof.
  intros (Hu & Hx & Hb & Hc) Hb1 Hb2 Heven. pose proof (mval_range m) as Hm. fold M in Hm.
  destruct (modulus_big m) as [Hmb Hmv]. fold mo in Hmb, Hmv. fold M in Hmv.
  rewrite big_is_odd_spec by done. set (y := if Z.odd (sval x) then big_add x mo else x).
  assert (bigval y ∧ sval y mod 2 = 0 ∧ within (b + 2 ^ 256) (sval y) ∧ sval y ≡[M] sval x) as (Hy & Hy2 & Hyb & Hyc).
  { unfold y, within in *. pose proof (Zmod_odd (sval x)) as Hodd.
    pose proof (Zmod_odd M) as HoM. rewrite (mval_odd m : Z.odd M = true) in HoM.
    destruct (Z.odd (sval x)).
    - pose proof (big_add_represents x mo Hx Hmb) as Hr. rewrite Hmv in Hr.
      rewrite (represents_eq _ _ Hr) by (unfold ranged; lia).
      split_and!; [apply Hr|rewrite Z.add_mod, Hodd, HoM by done; reflexivity|lia|lia|].
      apply (cong_multiple _ _ _ 1). lia.
    - split_and!; [done|done|lia|lia|reflexivity]. }
  destruct (big_halve_spec u Hu) as [Hu' Huv]. destruct (big_halve_spec y Hy) as [Hy' Hyv].
  split; [|done]. split_and!; [done|done|rewrite Hyv; unfold within in *; clear -Hyb Hy2; dlia|].
  apply (cong_half M); [apply mval_odd|]. rewrite Hyv, Huv.
  replace (2 * (sval y / 2 * den)) with (2 * (sval y / 2) * den) by ring.
  replace (2 * (sval u / 2 * num)) with (2 * (sval u / 2) * num) by ring.
  assert (2 * (sval y / 2) = sval y) as -> by (pose proof (Z.div_mod (sval y) 2 ltac:(done)); lia).
  assert (2 * (sval u / 2) = sval u) as -> by (pose proof (Z.div_mod (sval u) 2 ltac:(done)); lia).
  by rewrite Hyc.
Qed.

(** The inner loops make [u] odd, and halve it if it was even. *)
Lemma halve_even_spec n : ∀ b u x, quotient b u x → b ≤ 2 ^ 285 → 2 ^ 256 ≤ b →
  0 < sval u < 2 ^ Z.of_nat n →
  ∃ u' x', halve_even n u x mo = Ok (u', x') ∧ Z.odd (sval u') = true ∧ 0 < sval u' ≤ sval u ∧
    (sval u' | sval u) ∧
    (if Z.odd (sval u) then quotient b u' x' else 2 * sval u' ≤ sval u ∧ quotient ((b + 2 ^ 256) / 2) u' x').
Proof.
  induction n as [|n IH]; intros b u x Hq Hb1 Hb2 Hu; [cbn in Hu; lia|]. cbn [halve_even].
  pose proof Hq as (Hub & _). rewrite big_is_odd_spec by done.
  destruct (Z.odd (sval u)) eqn:E; cbn [negb].
  { exists u, x. split_and!; [done|done|lia|lia|done|done]. }
  assert (sval u mod 2 = 0) as Heven by (by rewrite Zmod_odd, E).
  destruct (halve_step b u x Hq Hb1 Hb2 Heven) as [Hq' Hv].
  rewrite Nat2Z.inj_succ, Z.pow_succ_r in Hu by lia.
  pose proof (Z.div_mod (sval u) 2 ltac:(done)) as Hd.
  destruct (IH ((b + 2 ^ 256) / 2) (big_halve u) _ Hq') as (u' & x' & Hr & Ho & Hu' & Hdiv & Hcase);
    [clear -Hb1 Hb2; dlia|clear -Hb2; dlia|lia|].
  exists u', x'. split_and!; [exact Hr|done|lia|lia| |lia|].
  - destruct Hdiv as [k Hk]. exists (2 * k). lia.
  - destruct (Z.odd (sval (big_halve u))); [done|]. destruct Hcase as [_ (? & ? & ? & ?)].
    split_and!; try done. unfold within in *. clear -H1 Hb2. split; dlia.
Qed.

Lemma quotient_weaken b b' u x : quotient b u x → b ≤ b' → quotient b' u x.
Proof. intros (? & ? & ? & ?) ?. split_and!; try done; unfold within in *; lia. Qed.

Lemma quotient_sub b u v x y : quotient b u x → quotient b v y → b ≤ 2 ^ 285 →
  0 ≤ sval v ≤ sval u →
  quotient (2 * b) (big_sub u v) (big_sub x y) ∧ sval (big_sub u v) = sval u - sval v.
Proof.
  intros (Hu & Hx & Hbx & Hcx) (Hv & Hy & Hby & Hcy) Hb Huv.
  pose proof (big_sub_represents u v Hu Hv) as Hr. pose proof (big_sub_represents x y Hx Hy) as Hs.
  pose proof (bigval_ranged u Hu) as Hru. unfold ranged, within in *.
  assert (sval (big_sub u v) = sval u - sval v) as E1 by (apply (represents_eq _ _ Hr); unfold ranged; lia).
  assert (sval (big_sub x y) = sval x - sval y) as E2 by (apply (represents_eq _ _ Hs); unfold ranged; lia).
  split; [|done]. split_and!; [apply Hr|apply Hs|unfold within; lia|].
  rewrite E1, E2, !Z.mul_sub_distr_r. by rewrite Hcx, Hcy.
Qed.

(** The bound of the quotient of an operand that may have been subtracted from. *)
Definition head (b : Z) (u : Z) : Z := if Z.odd u then b else 2 * b.

(** Enough rounds are left. *)
Definition potential (n : nat) (u v : Z) : Prop :=
  u * v < 2 ^ (if Z.odd u && Z.odd v then Z.of_nat n - 1 else Z.of_nat n).

Definition loop_head (n : nat) (b : Z) (u v x1 x2 : list Z) : Prop :=
  quotient (head b (sval u)) u x1 ∧ quotient (head b (sval v)) v x2 ∧
  Z.gcd (sval u) (sval v) = 1 ∧ 0 ≤ sval u < 2 ^ 256 ∧ 0 ≤ sval v < 2 ^ 256 ∧
  (sval u = 1 ∨ sval v = 1 ∨ 0 < sval u ∧ 0 < sval v ∧ potential n (sval u) (sval v)).

Lemma inner_spec b u x1 : quotient (head b (sval u)) u x1 → 0 < sval u < 2 ^ 256 → 2 ^ 256 ≤ b ≤ 2 ^ 284 →
  ∃ u' x', halve_even 288 u x1 mo = Ok (u', x') ∧ Z.odd (sval u') = true ∧ 0 < sval u' ≤ sval u ∧
    (sval u' | sval u) ∧ (Z.odd (sval u) = false → 2 * sval u' ≤ sval u) ∧ quotient (b + 2 ^ 255) u' x'.
Proof.
  intros Hq Hu Hb. destruct (halve_even_spec 288 (head b (sval u)) u x1 Hq) as (u' & x' & Hr & Ho & Hu' & Hd & Hc).
  { unfold head. case_match; lia. }
  { unfold head. case_match; lia. }
  { split; [lia|]. apply Z.lt_trans with (2 ^ 256); [lia|]. apply Z.pow_lt_mono_r; lia. }
  exists u', x'. split_and!; try done; try lia.
  - intros E. rewrite E in Hc. apply Hc.
  - unfold head in Hc. destruct (Z.odd (sval u)); [by eapply quotient_weaken; [exact Hc|lia]|].
    destruct Hc as [_ Hc]. eapply quotient_weaken; [exact Hc|]. clear. dlia.
Qed.

Lemma gcd_sub a b : Z.gcd a b = 1 → Z.gcd (a - b) b = 1.
Proof. intros H. by rewrite Z.gcd_comm, Z.gcd_sub_diag_r, Z.gcd_comm. Qed.

Lemma gcd_self a : 0 < a → Z.gcd a a = 1 → a = 1.
Proof. intros Ha. rewrite Z.gcd_diag. lia. Qed.

Lemma gcd_divisors a b c d : Z.gcd a b = 1 → (c | a) → (d | b) → Z.gcd c d = 1.
Proof.
  intros H Hc Hd. apply Z.divide_1_r_nonneg; [apply Z.gcd_nonneg|]. rewrite <-H.
  apply Z.gcd_greatest; [transitivity c|transitivity d]; try done; [apply Z.gcd_divide_l|apply Z.gcd_divide_r].
Qed.

Lemma divide_loop_spec n : ∀ b u v x1 x2, loop_head n b u v x1 x2 →
  2 ^ 256 ≤ b → b + Z.of_nat n * 2 ^ 255 ≤ 2 ^ 284 →
  ∃ u' v' y1 y2, divide_loop n u v x1 x2 mo = Ok (u', v', y1, y2) ∧
    quotient (2 ^ 285) u' y1 ∧ quotient (2 ^ 285) v' y2 ∧ (sval u' = 1 ∨ sval v' = 1).
Proof.
  induction n as [|n IH]; intros b u v x1 x2 (Hq1 & Hq2 & Hrp & Hu & Hv & Hcase) Hb1 Hb2;
    cbn [divide_loop];
    pose proof Hq1 as (Hbu & _); pose proof Hq2 as (Hbv & _); rewrite !big_is_one_spec by done;
    (destruct (decide (sval u = 1 ∨ sval v = 1)) as [Hone|Hnone];
      [exists u, v, x1, x2; split_and!; [|eapply quotient_weaken; [exact Hq1|unfold head; case_match; lia]
        |eapply quotient_weaken; [exact Hq2|unfold head; case_match; lia]|done];
       assert (negb (sval u =? 1) && negb (sval v =? 1) = false) as -> by
         (apply andb_false_iff; rewrite !negb_false_iff, !Z.eqb_eq; exact Hone); reflexivity|]);
    destruct Hcase as [?|[?|(Hu0 & Hv0 & Hpot)]]; [tauto|tauto| |tauto|tauto|];
    assert (negb (sval u =? 1) && negb (sval v =? 1) = true) as -> by
      (apply andb_true_iff; rewrite !negb_true_iff, !Z.eqb_neq; tauto).
  { exfalso. unfold potential in Hpot. destruct (Z.odd (sval u) && Z.odd (sval v)); cbn in Hpot; nia. }
  rewrite Nat2Z.inj_succ in Hb2.
  destruct (inner_spec b u x1 Hq1) as (u' & y1 & -> & Hou & Hu' & Hdu & Heu & Hqu); [lia|lia|]. rewrite bind_Ok.
  destruct (inner_spec b v x2 Hq2) as (v' & y2 & -> & Hov & Hv' & Hdv & Hev & Hqv); [lia|lia|]. rewrite bind_Ok.
  pose proof (gcd_divisors _ _ _ _ Hrp Hdu Hdv) as Hrp'.
  assert (sval u' * sval v' < 2 ^ Z.of_nat n) as Hp.
  { unfold potential in Hpot. replace (Z.of_nat (S n) - 1) with (Z.of_nat n) in Hpot by lia.
    destruct (Z.odd (sval u)) eqn:E1; [destruct (Z.odd (sval v)) eqn:E2|]; cbn [andb] in Hpot;
      [|specialize (Hev eq_refl)|specialize (Heu eq_refl)];
      [|rewrite Nat2Z.inj_succ, Z.pow_succ_r in Hpot by lia..]; nia. }
  pose proof Hqu as (Hbu' & _). pose proof Hqv as (Hbv' & _). rewrite big_cmp_spec by done.
  destruct (Z.leb_spec 0 (Z.sgn (sval u' - sval v'))) as [Hle|Hlt].
  - destruct (quotient_sub (b + 2 ^ 255) u' v' y1 y2 Hqu Hqv) as [Hqs Hvs]; [lia|lia|].
    assert (Z.odd (sval u' - sval v') = false) as Heven by (by rewrite Z.odd_sub, Hou, Hov).
    apply (IH (b + 2 ^ 255)); [|lia|lia]. unfold loop_head, potential, head. rewrite Hvs, Heven, Hov.
    split_and!; [done|done|by apply gcd_sub|lia|lia|lia|lia|].
    destruct (decide (sval u' = sval v')) as [E|E].
    + right. left. rewrite E in Hrp'. apply gcd_self; [lia|done].
    + right. right. cbn [andb]. split_and!; [lia|lia|nia].
  - destruct (quotient_sub (b + 2 ^ 255) v' u' y2 y1 Hqv Hqu) as [Hqs Hvs]; [lia|lia|].
    assert (Z.odd (sval v' - sval u') = false) as Heven by (by rewrite Z.odd_sub, Hou, Hov).
    apply (IH (b + 2 ^ 255)); [|lia|lia]. unfold loop_head, potential, head. rewrite Hvs, Heven, Hou.
    split_and!; [done|done|rewrite Z.gcd_comm; apply gcd_sub; by rewrite Z.gcd_comm|lia|lia|lia|lia|].
    right. right. cbn [andb]. split_and!; [lia|lia|nia].
Qed.

(** The quotient modulo the prime or the order. *)
Lemma big_divide_spec nu de : bigval nu → bigval de → sval nu = num → sval de = den →
  0 ≤ num < 2 ^ 256 → 0 < den < M → Z.gcd den M = 1 →
  ∃ t, big_divide nu de mo = Ok t ∧ bigval t ∧ 0 ≤ sval t < M ∧ sval t * den ≡[M] num.
Proof.
  intros Hnu Hde Hn Hd Hnum Hden Hrp. pose proof (mval_range m) as Hm. fold M in Hm.
  destruct (modulus_big m) as [Hmb Hmv]. fold mo in Hmb, Hmv. fold M in Hmv.
  assert (bigval big_zero ∧ sval big_zero = 0) as [Hz0 Hz] by (by repeat first [split | constructor]).
  unfold big_divide.
  destruct (divide_loop_spec 514 (2 ^ 256) de mo nu big_zero) as (u & v & y1 & y2 & -> & Hq1 & Hq2 & Hone).
  { unfold loop_head. rewrite Hd, Hmv. split_and!; try lia.
    - eapply (quotient_weaken (2 ^ 256)); [|unfold head; case_match; lia].
      split_and!; [done|done|unfold within; lia|]. rewrite Hn, Hd. apply cong_eq. ring.
    - eapply (quotient_weaken (2 ^ 256)); [|unfold head; case_match; lia].
      split_and!; [done|done|unfold within; lia|]. rewrite Hz, Hmv. apply (cong_multiple _ _ _ (- num)). ring.
    - right. right. split_and!; [lia|lia|]. unfold potential.
      apply Z.lt_le_trans with (2 ^ 512); [change (2 ^ 512) with (2 ^ 256 * 2 ^ 256); nia|].
      apply Z.pow_le_mono_r; [lia|]. case_match; lia. }
  { lia. }
  { lia. }
  rewrite bind_Ok. pose proof Hq1 as (Hbu & Hby1 & _ & Hc1). pose proof Hq2 as (Hbv & Hby2 & _ & Hc2).
  rewrite big_is_one_spec by done.
  assert (∃ y, (if sval u =? 1 then big_precise_reduce y1 mo else big_precise_reduce y2 mo) = big_precise_reduce y mo ∧
    bigval y ∧ sval y * den ≡[M] num) as (y & -> & Hy & Hc).
  { destruct (Z.eqb_spec (sval u) 1) as [E|E].
    - exists y1. split_and!; [done|done|]. by rewrite Hc1, E, Z.mul_1_l.
    - exists y2. split_and!; [done|done|]. destruct Hone as [?|E2]; [done|]. by rewrite Hc2, E2, Z.mul_1_l. }
  destruct (big_precise_reduce_spec m y Hy) as (t & Ht & Hbt & Hvt). exists t. split_and!; [exact Ht|done| | |].
  1, 2: rewrite Hvt; apply Z.mod_pos_bound; fold M; lia.
  rewrite Hvt. fold M. by rewrite cong_mod.
Qed.
End divide.
