(* ===== verification/Primes.v ===== *)
(** The field prime and the group order of P-256 are prime: Pocklington's
    criterion and the certificates of the two numbers.
    RiotEcc.c divides by any element that is not zero and relies on it. *)
From S2P Require Export BigSpec.
From Stdlib Require Import Znumtheory ZmodInv.

Definition product (k : list Z) : Z := foldr Z.mul 1 k.

Lemma cong_pow m a b n : a ≡[m] b → a ^ n ≡[m] b ^ n.
Proof.
  intros H. destruct (decide (0 ≤ n)) as [Hn|]; [|by rewrite !Z.pow_neg_r by lia].
  revert n Hn. apply natlike_ind; [reflexivity|]. intros n Hn IH.
  rewrite !Z.pow_succ_r by done. by rewrite IH, H.
Qed.

Lemma cong_divide m n a b : (m | n) → a ≡[n] b → a ≡[m] b.
Proof. unfold cong. intros. by transitivity n. Qed.

(** A number above 1 is prime or a product. *)
Lemma prime_or_product n : 1 < n → Z.prime n ∨ ∃ d e, 1 < d ∧ 1 < e ∧ n = d * e.
Proof.
  intros Hn. destruct (existsb (λ d, n mod d =? 0) (seqZ 2 (n - 2))) eqn:E.
  - right. apply existsb_exists in E as (d & Hd & Hdn). rewrite <-list_elem_of_In, elem_of_seqZ in Hd.
    apply Z.eqb_eq, Z.mod_divide in Hdn as [e He]; [|lia]. exists d, e. split_and!; [lia|nia|lia].
  - left. split; [done|]. intros d Hd Hdn. apply not_true_iff_false in E. apply E.
    apply existsb_exists. exists d. rewrite <-list_elem_of_In, elem_of_seqZ. split; [lia|].
    apply Z.eqb_eq, Z.mod_divide; [lia|done].
Qed.

(** An element of order [q] modulo a prime [r]. *)
Lemma order_divides r q b : Z.prime r → Z.prime q → b ^ q ≡[r] 1 → ¬ b ≡[r] 1 → (q | r - 1).
Proof.
  intros Hr Hq Hb Hb1. pose proof (Z.prime_ge_2 r Hr). pose proof (Z.prime_ge_2 q Hq).
  destruct (decide ((r - 1) mod q = 0)) as [Hd|Hnd]; [by apply Z.mod_divide in Hd; [|lia]|].
  rewrite Z.mod_divide in Hnd by lia. exfalso. apply Hb1.
  assert (¬ (r | b)) as Hrb.
  { intros Hd. assert (b ≡[r] 0) as Hb0 by (unfold cong; by rewrite Z.sub_0_r).
    rewrite (cong_pow r b 0 q Hb0), Z.pow_0_l in Hb by lia. apply Z.divide_opp_r in Hb.
    apply Z.divide_pos_le in Hb; lia. }
  assert (b ^ (r - 1) ≡[r] 1) as Hf.
  { rewrite <-(cong_mod r (b ^ (r - 1))), ZmodInv.Z.fermat_nz; [reflexivity|done|].
    intros Hb0. apply Hrb, Z.mod_divide; [lia|done]. }
  destruct (Z.gcd_bezout q (r - 1) 1 (Z.coprime_prime_l q (r - 1) Hq Hnd)) as (u & v & Huv).
  set (x := u mod (r - 1) + (r - 1)). assert (0 < x) as Hx.
  { pose proof (Z.mod_pos_bound u (r - 1) ltac:(lia)). lia. }
  assert (∃ k, x * q = 1 + k * (r - 1)) as [k Hk].
  { pose proof (Z.div_mod u (r - 1) ltac:(lia)) as Hd.
    exists (q - v - u / (r - 1) * q). unfold x.
    replace (u mod (r - 1)) with (u - (r - 1) * (u / (r - 1))) by lia. nia. }
  assert (0 ≤ k) as Hk0 by nia.
  assert (b ^ (x * q) ≡[r] 1) as H1.
  { rewrite Z.mul_comm, Z.pow_mul_r by lia. rewrite (cong_pow r _ 1 x Hb), Z.pow_1_l by lia. reflexivity. }
  rewrite Hk, Z.pow_add_r, Z.pow_1_r, Z.mul_comm in H1 by nia.
  rewrite (Z.mul_comm k), Z.pow_mul_r in H1 by lia.
  rewrite (cong_pow r _ 1 k Hf), Z.pow_1_l, Z.mul_1_l in H1 by lia. done.
Qed.

Lemma prime_factor n : 1 < n → ∃ r, Z.prime r ∧ (r | n).
Proof.
  intros Hn. assert (0 ≤ n) as Hp by lia. revert n Hp Hn.
  apply (Z_lt_induction (λ n, 1 < n → ∃ r, Z.prime r ∧ (r | n))). intros n IH Hn.
  destruct (prime_or_product n Hn) as [Hp|(d & e & Hd & He & ->)]; [by exists n|].
  destruct (IH d ltac:(nia) ltac:(lia)) as (r & Hr & Hrd). exists r. split; [done|].
  by apply Z.divide_mul_l.
Qed.

(** A number with no prime factor up to its square root is prime. *)
Lemma prime_sqrt n : 1 < n → (∀ r, Z.prime r → (r | n) → n < r * r) → Z.prime n.
Proof.
  intros Hn H. destruct (prime_or_product n Hn) as [|(d & e & Hd & He & Hde)]; [done|].
  assert (∃ s, 1 < s ∧ (s | n) ∧ s * s ≤ n) as (s & Hs & Hsn & Hss).
  { destruct (decide (d ≤ e)); [exists d|exists e]; (split_and!; [lia| |nia]); [exists e; lia|by exists d]. }
  destruct (prime_factor s Hs) as (r & Hr & Hrs). pose proof (Z.prime_ge_2 r Hr).
  pose proof (H r Hr ltac:(by transitivity s)). apply Z.divide_pos_le in Hrs; [nia|lia].
Qed.

(** Trial division. *)
Definition trial (n : Z) : bool :=
  (1 <? n) && forallb (λ d, negb (n mod d =? 0)) (seqZ 2 (Z.sqrt n - 1)).

Lemma trial_prime n : trial n = true → Z.prime n.
Proof.
  intros [Hn Hf]%andb_true_iff. apply Z.ltb_lt in Hn. apply prime_sqrt; [done|].
  intros r Hr Hrn. pose proof (Z.prime_ge_2 r Hr). destruct (decide (n < r * r)) as [|Hge]; [done|].
  assert (r ≤ Z.sqrt n) by (apply Z.sqrt_le_square; lia).
  rewrite forallb_forall in Hf. specialize (Hf r).
  rewrite <-list_elem_of_In, elem_of_seqZ in Hf. specialize (Hf ltac:(lia)).
  apply negb_true_iff, Z.eqb_neq in Hf. destruct Hf. apply Z.mod_divide; [lia|done].
Qed.

(** Modular exponentiation. *)
Fixpoint powmod (a : Z) (e : positive) (m : Z) : Z :=
  match e with
  | xH => a mod m
  | xO e => let r := powmod a e m in r * r mod m
  | xI e => let r := powmod a e m in (r * r mod m) * a mod m
  end.

Lemma powmod_spec a e m : powmod a e m ≡[m] a ^ Zpos e.
Proof.
  induction e as [e IH|e IH|]; cbn [powmod].
  - rewrite !cong_mod, IH, Pos2Z.inj_xI, Z.pow_add_r, Z.pow_1_r by lia.
    replace (2 * Z.pos e) with (Z.pos e + Z.pos e) by lia. by rewrite Z.pow_add_r by lia.
  - rewrite !cong_mod, IH, Pos2Z.inj_xO.
    replace (2 * Z.pos e) with (Z.pos e + Z.pos e) by lia. by rewrite Z.pow_add_r by lia.
  - by rewrite cong_mod, Z.pow_1_r.
Qed.

(** Pocklington's criterion for [n - 1] divisible by distinct primes whose
    product is above the square root of [n]. *)
Definition certificate (n : Z) (qs : list Z) : bool :=
  (1 <? n) && (powmod 2 (Z.to_pos (n - 1)) n =? 1) && (n <? product qs * product qs) &&
  bool_decide (NoDup qs) &&
  forallb (λ q, ((n - 1) mod q =? 0) && (1 <? (n - 1) / q + 1) &&
                (Z.gcd (powmod 2 (Z.to_pos ((n - 1) / q)) n - 1) n =? 1)) qs.

Lemma product_divides qs k : Forall Z.prime qs → NoDup qs → Forall (λ q, (q | k)) qs → (product qs | k).
Proof.
  induction qs as [|q qs IH]; intros Hp Hn Hd; [apply Z.divide_1_l|].
  apply Forall_cons in Hp as [Hq Hp]. apply Forall_cons in Hd as [Hqk Hd].
  apply NoDup_cons in Hn as [Hni Hn]. destruct (IH Hp Hn Hd) as [e He].
  assert (¬ (q | product qs)) as Hnd.
  { clear -Hq Hp Hni. induction qs as [|x qs IH]; intros Hd.
    - pose proof (Z.prime_ge_2 q Hq). apply Z.divide_pos_le in Hd; cbn in *; lia.
    - apply Forall_cons in Hp as [Hx Hp]. apply not_elem_of_cons in Hni as [Hne Hni].
      apply (Z.divide_prime_mul _ _ q Hq) in Hd as [Hd|Hd]; [|by apply IH].
      destruct Hne. by apply Z.divide_prime_prime. }
  rewrite He in Hqk. apply (Z.divide_prime_mul _ _ q Hq) in Hqk as [[e' He']|?]; [|done].
  exists e'. rewrite He, He'. cbn. unfold product. ring.
Qed.

Lemma pocklington n qs : Forall Z.prime qs → certificate n qs = true → Z.prime n.
Proof.
  intros Hp Hc. unfold certificate in Hc. rewrite !andb_true_iff in Hc.
  destruct Hc as ((((Hn & Hpow) & Hsq) & Hnd) & Hall).
  apply Z.ltb_lt in Hn, Hsq. apply Z.eqb_eq in Hpow. apply bool_decide_eq_true in Hnd.
  pose proof (powmod_spec 2 (Z.to_pos (n - 1)) n) as H1. rewrite Hpow, Z2Pos.id in H1 by lia.
  apply prime_sqrt; [done|]. intros r Hr Hrn. pose proof (Z.prime_ge_2 r Hr).
  assert (product qs | r - 1) as Hdiv.
  { apply product_divides; [done|done|]. rewrite forallb_forall in Hall.
    apply Forall_forall. intros q Hq. rewrite Forall_forall in Hp. specialize (Hp q Hq).
    pose proof (Z.prime_ge_2 q Hp). specialize (Hall q ltac:(by apply list_elem_of_In)).
    rewrite !andb_true_iff in Hall. destruct Hall as ((Hqn & Hq1) & Hgcd).
    apply Z.eqb_eq in Hqn, Hgcd. apply Z.ltb_lt in Hq1.
    set (e := (n - 1) / q) in *. assert (n - 1 = q * e) as He by (unfold e; pose proof (Z.div_mod (n - 1) q ltac:(lia)); lia).
    pose proof (powmod_spec 2 (Z.to_pos e) n) as H2. rewrite Z2Pos.id in H2 by lia.
    apply (order_divides r q (2 ^ e)); [done|done| |].
    - rewrite <-Z.pow_mul_r, Z.mul_comm, <-He by lia. apply (cong_divide r n); [done|]. by symmetry.
    - intros Hcong. assert ((r | powmod 2 (Z.to_pos e) n - 1)) as Hd.
      { change (powmod 2 (Z.to_pos e) n ≡[r] 1). rewrite <-Hcong. by apply (cong_divide r n). }
      assert ((r | 1)) as Hr1 by (rewrite <-Hgcd; by apply Z.gcd_greatest).
      apply Z.divide_pos_le in Hr1; lia. }
  assert (0 ≤ product qs) as Hpos.
  { clear -Hp. induction Hp as [|q qs Hq _ IH]; [done|]. pose proof (Z.prime_ge_2 q Hq).
    change (product (q :: qs)) with (q * product qs). nia. }
  apply Z.divide_pos_le in Hdiv; [nia|lia].
Qed.

Ltac trial := apply trial_prime; vm_compute; reflexivity.
Ltac certify qs :=
  apply (pocklington _ qs); [|vm_compute; reflexivity]; repeat apply Forall_cons_2; try apply Forall_nil_2.

Lemma prime_1 : Z.prime 46076956964474543.
Proof. certify [704251; 78283]; trial. Qed.
Lemma prime_2 : Z.prime 11290956913871.
Proof. certify [66417393611]. certify [3677; 197]; trial. Qed.
Lemma prime_3 : Z.prime 835945042244614951780389953367877943453916927241.
Proof.
  certify [774023187263532362759620327192479577272145303].
  certify [46076956964474543; 11290956913871]; [exact prime_1|exact prime_2].
Qed.
Lemma prime_4 : Z.prime 2624747550333869278416773953.
Proof.
  certify [208150935158385979]. certify [191039911; 3023]; [|trial].
  certify [155317]. trial.
Qed.
Lemma prime_5 : Z.prime 1002328039319.
Proof. certify [3969899]. certify [104471]. trial. Qed.

Lemma P256_prime : Z.prime P256.
Proof. certify [835945042244614951780389953367877943453916927241]. exact prime_3. Qed.

Lemma N256_prime : Z.prime N256.
Proof.
  certify [2624747550333869278416773953; 1002328039319]; [exact prime_4|exact prime_5].
Qed.

Lemma mval_prime m : Z.prime (mval m).
Proof. destruct m; [exact P256_prime|exact N256_prime]. Qed.

Lemma mval_gcd m x : 0 < x < mval m → Z.gcd x (mval m) = 1.
Proof.
  intros Hx. rewrite Z.gcd_comm. apply Z.coprime_prime_small; [apply mval_prime|lia].
Qed.
