(* ===== verification/Ecc.v ===== *)
(** RiotEcc.c, second half: points of P-256, point multiplication, key
    generation, ECDSA and the interface of RiotEcc.h.

    A function whose target may be its operand is modelled by its result: every
    word of an operand is read before the target is written there. The pointers
    of [mpyset] are options, the null pointer being [None]. [fuel] arguments
    bound the rounds of the loops that repeat until a condition holds. *)
From S2P Require Export Kdf Big.

Definition RIOT_SUCCESS : Z := 0.
Definition RIOT_FAILURE : Z := RIOT_SUCCESS + 128.
Definition RIOT_INVALID_PARAMETER : Z := RIOT_FAILURE + 1.
Definition RIOT_ECC_PRIVATE_BYTES : Z := 4 * (BIGLEN - 1).

(** * Jacobian points *)
Record jacobian_point := mkJac { jX : list Z; jY : list Z; jZ : list Z }.

Definition jacobian_infinity : jacobian_point := mkJac big_one big_one big_zero.
Definition jacobian_point_is_infinity (P : jacobian_point) : bool := big_is_zero (jZ P).

Definition toJacobian (a : affine_point) : jacobian_point := mkJac (px a) (py a) big_one.

Definition toAffine (a : jacobian_point) : outcome affine_point :=
  if big_is_zero (jZ a) then Ok affine_infinity else
  zinv ← big_divide big_one (jZ a) modulusP;
  zinvpwr ← big_sqrP zinv;
  x ← big_mpyP (jX a) zinvpwr MOD_MODULUS;
  zinvpwr ← big_mpyP zinvpwr zinv MOD_MODULUS;
  y ← big_mpyP (jY a) zinvpwr MOD_MODULUS;
  x ← big_precise_reduce x modulusP;
  y ← big_precise_reduce y modulusP;
  Ok (mkPoint x y 0).

Definition pointDouble (P : jacobian_point) : outcome jacobian_point :=
  let x1 := jX P in let y1 := jY P in let z1 := jZ P in
  if jacobian_point_is_infinity P then Ok jacobian_infinity else
  t1 ← big_sqrP z1;
  t2 ← big_subP x1 t1;
  t1 ← big_addP x1 t1;
  t2 ← big_mpyP t2 t1 MOD_MODULUS;
  let t2 := big_triple t2 in
  y3 ← big_addP y1 y1;
  z3 ← big_mpyP y3 z1 MOD_MODULUS;
  y3 ← big_sqrP y3;
  t3 ← big_mpyP y3 x1 MOD_MODULUS;
  y3 ← big_sqrP y3;
  y3 ← big_halveP y3;
  x3 ← big_sqrP t2;
  t1 ← big_addP t3 t3;
  x3 ← big_subP x3 t1;
  t1 ← big_subP t3 x3;
  t1 ← big_mpyP t1 t2 MOD_MODULUS;
  y3 ← big_subP t1 y3;
  z3 ← big_precise_reduce z3 modulusP;
  Ok (mkJac x3 y3 z3).

Definition pointAdd (P : jacobian_point) (Q : affine_point) : outcome jacobian_point :=
  let x1 := jX P in let y1 := jY P in let z1 := jZ P in
  let x2 := px Q in let y2 := py Q in
  if negb (infinity Q =? 0) then Ok P else
  if jacobian_point_is_infinity P then Ok (toJacobian Q) else
  t1 ← big_sqrP z1;
  t2 ← big_mpyP t1 z1 MOD_MODULUS;
  t1 ← big_mpyP t1 x2 MOD_MODULUS;
  t2 ← big_mpyP t2 y2 MOD_MODULUS;
  t1 ← big_subP t1 x1;
  t2 ← big_subP t2 y1;
  t1 ← big_precise_reduce t1 modulusP;
  if big_is_zero t1 then
    t2 ← big_precise_reduce t2 modulusP;
    if big_is_zero t2 then pointDouble (toJacobian Q) else Ok jacobian_infinity
  else
  z3 ← big_mpyP z1 t1 MOD_MODULUS;
  z3 ← big_precise_reduce z3 modulusP;
  t3 ← big_sqrP t1;
  t4 ← big_mpyP t3 t1 MOD_MODULUS;
  t3 ← big_mpyP t3 x1 MOD_MODULUS;
  t1 ← big_addP t3 t3;
  x3 ← big_sqrP t2;
  x3 ← big_subP x3 t1;
  x3 ← big_subP x3 t4;
  t3 ← big_subP t3 x3;
  t3 ← big_mpyP t3 t2 MOD_MODULUS;
  t4 ← big_mpyP t4 y1 MOD_MODULUS;
  y3 ← big_subP t3 t4;
  Ok (mkJac x3 y3 z3).

(** * Multiplication *)
Definition big_get_2bits (n : list Z) (i : Z) : outcome Z :=
  w ← rd n (i / 32);
  Ok (Z.land (Z.shiftr w (i mod 32)) 3).

(** The search for the first pair of bits that is not zero, from
    [i = 2 * n - 2] down: the number of pairs from there on. *)
Fixpoint discard_zeros (n : nat) (k : list Z) : outcome nat :=
  match n with
  | O => Ok O
  | S m =>
    b ← big_get_2bits k (2 * Z.of_nat m);
    if negb (b =? 0) then Ok n else discard_zeros m k
  end.

(** The main loop, [n] pairs left. *)
Fixpoint mpy_pairs (n : nat) (k : list Z) (mpyset : list (option affine_point))
    (Q : jacobian_point) : outcome jacobian_point :=
  match n with
  | O => Ok Q
  | S m =>
    mbits ← big_get_2bits k (2 * Z.of_nat m);
    Q ← pointDouble Q;
    Q ← pointDouble Q;
    e ← rd mpyset mbits;
    Q ← match e with Some P => pointAdd Q P | None => Ok Q end;
    mpy_pairs m k mpyset Q
  end.

Definition pointMpyP (k : list Z) (P : affine_point) : outcome affine_point :=
  if big_is_negative k then Ok affine_infinity else
  if big_is_zero k || big_is_negative k then Ok affine_infinity else
  Q ← pointDouble (toJacobian P);
  twoP ← toAffine Q;
  Q ← pointAdd Q P;
  threeP ← toAffine Q;
  n ← discard_zeros 144 k;
  Q ← mpy_pairs n k [None; Some P; Some twoP; Some threeP] jacobian_infinity;
  toAffine Q.

Definition on_curveP (P : affine_point) : outcome bool :=
  if negb (infinity P =? 0) then Ok true else
  product ← big_sqrP (px P);
  sum ← big_mpyP product (px P) MOD_MODULUS;
  let product := big_triple (px P) in
  sum ← big_subP sum product;
  sum ← big_addP sum curve_b;
  product ← big_sqrP (py P);
  sum ← big_subP sum product;
  sum ← big_precise_reduce sum modulusP;
  Ok (big_is_zero sum).

(** * Random numbers and keys *)

(** [for (; len; len--) *buf++ = (uint8_t)len;] and the result. *)
Fixpoint random_bytes (len : nat) : list Z :=
  match len with
  | O => []
  | S n => u8 (Z.of_nat len) :: random_bytes n
  end.

Definition get_random_bytes (len : nat) : Z * list Z := (0, random_bytes len).

Fixpoint big_get_random_n (fuel : nat) (tgt : list Z) (allow_zero : bool)
    : outcome (Z * list Z) :=
  match fuel with
  | O => Ub OutOfFuel
  | S fuel =>
    tgt ← wr tgt (BIGLEN - 1) 0;
    let '(rv, bs) := get_random_bytes (Z.to_nat (4 * (BIGLEN - 1))) in
    m ← wr_bytes (bytes_of_words tgt) 0 bs;
    let tgt := words_of_bytes (Z.to_nat BIGLEN) m in
    if rv <? 0 then Ok (-1, tgt) else
    if (negb allow_zero && big_is_zero tgt) || (0 <=? big_cmp tgt orderP)
    then big_get_random_n fuel tgt allow_zero
    else Ok (0, tgt)
  end.

(** The result, [*P1] and [*k]. *)
Definition ECDH_generate (fuel : nat) (P1 : affine_point) (k : list Z)
    : outcome (Z * affine_point * list Z) :=
  '(rv, k) ← big_get_random_n fuel k false;
  if rv <? 0 then Ok (-1, P1, k) else
  P1 ← pointMpyP k base_point;
  Ok (0, P1, k).

(** The loop of ECDH_derive: [*k]. [fixed] and [ctx] are uninitialised locals,
    of ECDH_derive and of RIOT_KDF_SHA256. *)
Fixpoint derive_loop (fuel : nat) (ctx : RIOT_HMAC_SHA256_CTX) (k src : list Z)
    (label : option (list Z)) (labelSize : Z) (fixed : list Z) (fixedSize : Z)
    : outcome (list Z) :=
  match fuel with
  | O => Ub OutOfFuel
  | S fuel =>
    '(fixedSize, fixed) ← RIOT_KDF_FIXED fixed fixedSize label labelSize None 0
                            (RIOT_ECC_PRIVATE_BYTES * 8);
    '(m, _) ← RIOT_KDF_SHA256 ctx (bytes_of_words k) (bytes_of_words src)
                RIOT_ECC_PRIVATE_BYTES None fixed fixedSize;
    let k := words_of_bytes (Z.to_nat BIGLEN) m in
    if big_is_zero k || (0 <=? big_cmp k orderP)
    then derive_loop fuel ctx k src label labelSize fixed fixedSize
    else Ok k
  end.

(** [*P1] and [*k]. *)
Definition ECDH_derive (fuel : nat) (ctx : RIOT_HMAC_SHA256_CTX) (fixed k src : list Z)
    (label : option (list Z)) (labelSize : Z) : outcome (affine_point * list Z) :=
  let labelSize := if RIOT_ECC_PRIVATE_BYTES <? labelSize then RIOT_ECC_PRIVATE_BYTES
                   else labelSize in
  k ← wr k (BIGLEN - 1) 0;
  k ← derive_loop fuel ctx k src label labelSize fixed (RIOT_ECC_PRIVATE_BYTES + 5);
  P1 ← pointMpyP k base_point;
  Ok (P1, k).

(** The result and [*tgt]. *)
Definition ECDH_derive_pt (tgt : affine_point) (k : list Z) (Q : affine_point)
    : outcome (bool * affine_point) :=
  if negb (infinity Q =? 0) then Ok (false, tgt) else
  if big_is_negative (px Q) then Ok (false, tgt) else
  if 0 <=? big_cmp (px Q) modulusP then Ok (false, tgt) else
  if big_is_negative (py Q) then Ok (false, tgt) else
  if 0 <=? big_cmp (py Q) modulusP then Ok (false, tgt) else
  c ← on_curveP Q;
  if negb c then Ok (false, tgt) else
  tgt ← pointMpyP k Q;
  if negb (infinity tgt =? 0) then Ok (false, tgt) else Ok (true, tgt).

(** * ECDSA *)

(** The result and [*sig]; a round is one pass from the label [startpoint], and
    [k] and [P1] are the uninitialised locals. *)
Fixpoint ECDSA_sign (fuel : nat) (msgdgst privkey : list Z) (P1 : affine_point) (k : list Z)
    (sig : ECDSA_sig) : outcome (Z * ECDSA_sig) :=
  match fuel with
  | O => Ub OutOfFuel
  | S n =>
    '(rv, P1, k) ← ECDH_generate fuel P1 k;
    if negb (rv =? 0) then Ok (rv, sig) else
    r ← big_precise_reduce (px P1) orderP;
    let sig := mkSig r (sig_s sig) in
    if big_is_zero r then ECDSA_sign n msgdgst privkey P1 k sig else
    t ← big_mpyP privkey r MOD_ORDER;
    let t := big_add t msgdgst in
    t ← big_precise_reduce t orderP;
    s ← big_divide t k orderP;
    let sig := mkSig r s in
    if big_is_zero s then ECDSA_sign n msgdgst privkey P1 k sig else
    Ok (0, sig)
  end.

Inductive verify_res_t : Type :=
| V_SUCCESS | V_R_ZERO | V_R_BIG | V_S_ZERO | V_S_BIG | V_INFINITY | V_UNEQUAL.

#[export] Instance verify_res_eq_dec : EqDecision verify_res_t.
Proof. solve_decision. Defined.

Definition ECDSA_verify_inner (msgdgst : list Z) (pubkey : affine_point) (sig : ECDSA_sig)
    : outcome verify_res_t :=
  if big_cmp (sig_r sig) big_one <? 0 then Ok V_R_ZERO else
  if 0 <=? big_cmp (sig_r sig) orderP then Ok V_R_BIG else
  if big_cmp (sig_s sig) big_one <? 0 then Ok V_S_ZERO else
  if 0 <=? big_cmp (sig_s sig) orderP then Ok V_S_BIG else
  w ← big_divide big_one (sig_s sig) orderP;
  u1 ← big_mpyP msgdgst w MOD_ORDER;
  u1 ← big_precise_reduce u1 orderP;
  u2 ← big_mpyP (sig_r sig) w MOD_ORDER;
  u2 ← big_precise_reduce u2 orderP;
  P1 ← pointMpyP u1 base_point;
  P2 ← pointMpyP u2 pubkey;
  XJacobian ← pointAdd (toJacobian P2) P1;
  X ← toAffine XJacobian;
  if negb (infinity X =? 0) then Ok V_INFINITY else
  v ← big_precise_reduce (px X) orderP;
  if negb (big_cmp v (sig_r sig) =? 0) then Ok V_UNEQUAL else
  Ok V_SUCCESS.

Definition ECDSA_verify (msgdgst : list Z) (pubkey : affine_point) (sig : ECDSA_sig)
    : outcome bool :=
  res ← ECDSA_verify_inner msgdgst pubkey sig;
  Ok (bool_decide (res = V_SUCCESS)).

(** * Byte strings *)

(** The loop of BigIntToBigVal, [n] rounds left from [i] on. *)
Fixpoint bytes_to_words (n : nat) (i : Z) (tgt in_ : list Z) (inSize : Z) : outcome (list Z) :=
  match n with
  | O => Ok tgt
  | S n =>
    b ← rd in_ (inSize - 1 - i);
    w ← rd tgt (i / 4);
    tgt ← wr tgt (i / 4) (Z.lor w (u32 (Z.shiftl b (8 * (i mod 4)))));
    bytes_to_words n (i + 1) tgt in_ inSize
  end.

Definition BigIntToBigVal (in_ : list Z) (inSize : Z) : outcome (list Z) :=
  let inSize := Z.min inSize ((BIGLEN - 1) * 4) in
  bytes_to_words (Z.to_nat inSize) 0 big_zero in_ inSize.

(** The loop of BigValToBigInt, [n] rounds left, [i = n - 1]. *)
Fixpoint bigval_loop (n : nat) (src : list Z) : writer := λ s,
  match n with
  | O => Ok s
  | S i =>
    w ← rd src (Z.of_nat i / 4);
    (wput (u8 (Z.shiftr w (8 * (Z.of_nat i mod 4)))) ;;; bigval_loop i src) s
  end.

(** The cursor is left after the bytes written. *)
Definition BigValToBigInt (src : list Z) : writer := bigval_loop 32 src.

(** * RiotEcc.h *)
Definition RIOT_GenerateDHKeyPair (fuel : nat) (publicKey : affine_point) (privateKey : list Z)
    : outcome (Z * affine_point * list Z) :=
  '(rv, publicKey, privateKey) ← ECDH_generate fuel publicKey privateKey;
  Ok (if rv =? 0 then RIOT_SUCCESS else RIOT_FAILURE, publicKey, privateKey).

Definition RIOT_GenerateShareSecret (peerPublicKey : affine_point) (privateKey : list Z)
    (secret : affine_point) : outcome (Z * affine_point) :=
  '(derive_rv, secret) ← ECDH_derive_pt secret privateKey peerPublicKey;
  if negb derive_rv then Ok (RIOT_FAILURE, secret) else
  c ← on_curveP secret;
  if negb c then Ok (RIOT_FAILURE, secret) else Ok (RIOT_SUCCESS, secret).

Definition RIOT_GenerateDSAKeyPair (fuel : nat) (publicKey : affine_point) (privateKey : list Z)
    : outcome (Z * affine_point * list Z) :=
  '(rv, publicKey, privateKey) ← ECDH_generate fuel publicKey privateKey;
  Ok (if rv =? 0 then RIOT_SUCCESS else RIOT_FAILURE, publicKey, privateKey).

Definition RIOT_DeriveDsaKeyPair (fuel : nat) (ctx : RIOT_HMAC_SHA256_CTX) (fixed : list Z)
    (privateKey srcVal : list Z) (label : option (list Z)) (labelSize : Z)
    : outcome (Z * affine_point * list Z) :=
  '(publicKey, privateKey) ← ECDH_derive fuel ctx fixed privateKey srcVal label labelSize;
  Ok (RIOT_SUCCESS, publicKey, privateKey).

Definition RIOT_DSASignDigest (fuel : nat) (digest signingPrivateKey : list Z)
    (P1 : affine_point) (k : list Z) (sig : ECDSA_sig) : outcome (Z * ECDSA_sig) :=
  source ← BigIntToBigVal digest SHA256_DIGEST_LENGTH;
  '(rv, sig) ← ECDSA_sign fuel source signingPrivateKey P1 k sig;
  Ok (if rv =? 0 then RIOT_SUCCESS else RIOT_FAILURE, sig).

Definition RIOT_DSASign (fuel : nat) (buf : list Z) (len : Z) (signingPrivateKey : list Z)
    (digest : list Z) (P1 : affine_point) (k : list Z) (sig : ECDSA_sig)
    : outcome (Z * ECDSA_sig) :=
  o ← RIOT_SHA256_Block buf len (Some digest);
  digest ← deref o;
  RIOT_DSASignDigest fuel digest signingPrivateKey P1 k sig.

Definition RIOT_DSAVerifyDigest (digest : list Z) (sig : ECDSA_sig) (pubKey : affine_point)
    : outcome Z :=
  source ← BigIntToBigVal digest SHA256_DIGEST_LENGTH;
  b ← ECDSA_verify source pubKey sig;
  Ok (if (b : bool) then RIOT_SUCCESS else RIOT_FAILURE).

Definition RIOT_DSAVerify (buf : list Z) (len : Z) (sig : ECDSA_sig) (pubKey : affine_point)
    (digest : list Z) : outcome Z :=
  o ← RIOT_SHA256_Block buf len (Some digest);
  digest ← deref o;
  RIOT_DSAVerifyDigest digest sig pubKey.
