(* ===== verification/EccSpec.v ===== *)
(** The curve code of RiotEcc.c against the affine curve: field elements,
    the chord-and-tangent operations on residues, and that the Jacobian
    operations and the scalar multiplication compute what their mathematical
    descriptions say. *)
From S2P Require Export Primes Ecc.
From Stdlib Require Import ZmodInv.

(** * Programs that return *)
Definition returns {A} (m : outcome A) (Q : A → Prop) : Prop := ∃ r, m = Ok r ∧ Q r.

Section returns.
Context {A C : Type}.

Lemma returns_Ok (a : A) (Q : A → Prop) : Q a → returns (Ok a) Q.
Proof. by exists a. Qed.

Lemma returns_bind (m : outcome A) (f : A → outcome C) (Q : C → Prop) R :
  returns m R → (∀ a, R a → returns (f a) Q) → returns (m ≫= f) Q.
Proof. intros (a & -> & Ha) Hf. exact (Hf a Ha). Qed.

Lemma returns_mono (m : outcome A) (Q R : A → Prop) :
  returns m Q → (∀ a, Q a → R a) → returns m R.
Proof. intros (a & -> & Ha) H. exists a. eauto. Qed.

Lemma returns_det (m : outcome A) (Q : A → Prop) a : returns m Q → m = Ok a → Q a.
Proof. intros (b & -> & Hb) [= ->]. done. Qed.
End returns.

(** * Field elements

    [fe t x] is an approximately reduced big integer for [x] modulo the prime,
    [loose t x] one that may be a few times larger, [exact t x] the number
    [x] itself. *)
Definition fe (t : list Z) (x : Z) : Prop := nearly t ∧ sval t ≡[P256] x.
Definition loose (t : list Z) (x : Z) : Prop :=
  bigval t ∧ within (2 ^ 260) (sval t) ∧ sval t ≡[P256] x.
Definition exact (t : list Z) (x : Z) : Prop := bigval t ∧ sval t = x.

Definition residue (x : Z) : Prop := 0 ≤ x < P256.

Lemma P256_range : 2 ^ 256 - 2 ^ 224 ≤ P256 < 2 ^ 256.
Proof. rewrite P256_eq. lia. Qed.

Lemma residue_mod x : residue (x mod P256).
Proof. apply Z.mod_pos_bound. pose proof P256_range. lia. Qed.

Lemma fe_loose t x : fe t x → loose t x.
Proof. intros [[Hb Hn] Hc]. split_and!; [done| |done]. unfold within. lia. Qed.

Lemma fe_eq t x y : fe t x → x ≡[P256] y → fe t y.
Proof. intros [Hn Hc] H. split; [done|]. by rewrite Hc. Qed.

Lemma loose_eq t x y : loose t x → x ≡[P256] y → loose t y.
Proof. intros (Hb & Hn & Hc) H. split_and!; [done|done|]. by rewrite Hc. Qed.

Lemma exact_fe t x : exact t x → residue x → fe t x.
Proof.
  intros [Hb <-] Hr. pose proof P256_range. unfold residue in Hr.
  split; [split; [done|lia]|done].
Qed.

Lemma nearly_fe t : nearly t → fe t (sval t).
Proof. intros H. by split. Qed.

Lemma fmul a b x y : loose a x → loose b y →
  returns (big_mpyP a b MOD_MODULUS) (λ t, fe t (x * y)).
Proof.
  intros (Ha & _ & Hx) (Hb & _ & Hy). destruct (big_mpyP_modulus false a b) as (t & Ht & Hn & Hc); [done..|].
  exists t. split; [exact Ht|]. split; [done|]. by rewrite Hc, Hx, Hy.
Qed.

Lemma fsqr a x : loose a x → returns (big_sqrP a) (λ t, fe t (x * x)).
Proof.
  intros (Ha & _ & Hx). destruct (big_mpyP_modulus true a a) as (t & Ht & Hn & Hc); [done..|].
  exists t. split; [exact Ht|]. split; [done|]. by rewrite Hc, Hx.
Qed.

Lemma freduce_step t v : represents t v → within (2 ^ 261) v →
  returns (big_approx_reduceP t) (λ t, fe t v).
Proof.
  intros Ht Hv. unfold within in Hv. pose proof (represents_bigval t v Ht) as Hb.
  pose proof (represents_eq t v Ht ltac:(unfold ranged; lia)) as Hs.
  destruct (approx_reduce_spec t Hb) as (r & Hr & Hn & Hc); [unfold within; lia|].
  exists r. split; [done|]. split; [done|]. by rewrite Hc, Hs.
Qed.

Lemma mval_P256 : mval MOD_MODULUS = P256.
Proof. done. Qed.
Lemma mval_N256 : mval MOD_ORDER = N256.
Proof. done. Qed.

Lemma fadd a b x y : loose a x → loose b y → returns (big_addP a b) (λ t, fe t (x + y)).
Proof.
  intros (Ha & Hwa & Hx) (Hb & Hwb & Hy). unfold within in *.
  destruct (freduce_step (big_add a b) (sval a + sval b)) as (t & Ht & Hf);
    [by apply big_add_represents|unfold within; lia|].
  exists t. split; [exact Ht|]. eapply fe_eq; [exact Hf|]. by rewrite Hx, Hy.
Qed.

Lemma fsub a b x y : loose a x → loose b y → returns (big_subP a b) (λ t, fe t (x - y)).
Proof.
  intros (Ha & Hwa & Hx) (Hb & Hwb & Hy). unfold within in *.
  destruct (freduce_step (big_sub a b) (sval a - sval b)) as (t & Ht & Hf);
    [by apply big_sub_represents|unfold within; lia|].
  exists t. split; [exact Ht|]. eapply fe_eq; [exact Hf|]. by rewrite Hx, Hy.
Qed.

Lemma ftriple a x : fe a x → loose (big_triple a) (3 * x).
Proof.
  intros [[Ha Hr] Hx]. pose proof (big_triple_represents a Ha) as Ht.
  pose proof (represents_eq _ _ Ht ltac:(unfold ranged; lia)) as Hs.
  split_and!; [by eapply represents_bigval|unfold within; lia|]. by rewrite Hs, Hx.
Qed.

Lemma fhalve a x : fe a (2 * x) → returns (big_halveP a) (λ t, fe t x).
Proof.
  intros [Ha Hx]. destruct (big_halveP_spec a Ha) as (t & Ht & Hn & Hc). exists t.
  split; [done|]. split; [done|]. apply cong_half; [by rewrite P256_eq|]. by rewrite Hc, Hx.
Qed.

Lemma freduce a x : loose a x → returns (big_precise_reduce a modulusP) (λ t, exact t (x mod P256)).
Proof.
  intros (Ha & _ & Hx). destruct (big_precise_reduce_spec MOD_MODULUS a Ha) as (t & Ht & Hb & Hs).
  exists t. split; [exact Ht|]. split; [done|]. rewrite Hs, mval_P256. apply cong_mod_eq; [|done].
  pose proof P256_range. lia.
Qed.

Create HintDb field.
#[export] Hint Resolve fe_loose ftriple : field.
#[export] Hint Extern 1 (fe _ _) => eassumption : field.
#[export] Hint Extern 1 (loose _ _) => eassumption : field.

(** One operation of a straight-line computation on field elements. *)
Ltac field_op :=
  eapply returns_bind;
  [first [eapply fmul | eapply fsqr | eapply fadd | eapply fsub | eapply freduce];
   eauto with field
  |cbv beta; let t := fresh "t" in let Ht := fresh "Ht" in intros t Ht].

(** * Division in the field *)
Definition inverse (m x : Z) : Z := powmod x (Z.to_pos (m - 2)) m.
Definition finv : Z → Z := inverse P256.

Lemma inverse_spec m x : Z.prime m → 2 < m → x mod m ≠ 0 → x * inverse m x ≡[m] 1.
Proof.
  intros Hp Hm Hx. unfold inverse. rewrite powmod_spec, Z2Pos.id, <-Z.pow_succ_r by lia.
  replace (Z.succ (m - 2)) with (m - 1) by lia.
  by rewrite <-(cong_mod m (x ^ (m - 1))), ZmodInv.Z.fermat_nz.
Qed.

Lemma residue_0 x : residue x → x ≡[P256] 0 ↔ x = 0.
Proof.
  intros Hr. split; [|by intros ->]. intros H. apply (cong_unique P256); [exact Hr| |done].
  pose proof P256_range. lia.
Qed.

Lemma cong_0_mod x : x ≡[P256] 0 ↔ x mod P256 = 0.
Proof. rewrite <-(residue_0 (x mod P256)) by apply residue_mod. by rewrite cong_mod. Qed.

Lemma cong_integral x y : x * y ≡[P256] 0 ↔ x ≡[P256] 0 ∨ y ≡[P256] 0.
Proof.
  unfold cong. rewrite !Z.sub_0_r. split.
  - apply Z.divide_prime_mul. exact P256_prime.
  - intros [H|H]; [by apply Z.divide_mul_l|by apply Z.divide_mul_r].
Qed.

Lemma finv_spec x : ¬ x ≡[P256] 0 → x * finv x ≡[P256] 1.
Proof.
  intros Hx. pose proof P256_range. apply inverse_spec; [exact P256_prime|lia|by rewrite <-cong_0_mod].
Qed.

(** * The curve *)
Abbreviation point := (option (Z * Z)).

(** The third point on the line of slope [l] through points with the abscissas
    [x] and [x'], reflected; [y] belongs to [x]. *)
Definition ec_third (l x y x' : Z) : point :=
  let x3 := (l * l - x - x') mod P256 in Some (x3, (l * (x - x3) - y) mod P256).

Definition ec_double (A : point) : point :=
  match A with
  | None => None
  | Some (x, y) =>
    if y =? 0 then None else ec_third ((3 * x * x - 3) * finv (2 * y)) x y x
  end.

Definition ec_add (A C : point) : point :=
  match A, C with
  | None, _ => C
  | _, None => A
  | Some (x1, y1), Some (x2, y2) =>
    if x1 =? x2 then if y1 =? y2 then ec_double A else None
    else ec_third ((y2 - y1) * finv (x2 - x1)) x1 y1 x2
  end.

Definition ec_neg (A : point) : point :=
  match A with None => None | Some (x, y) => Some (x, - y mod P256) end.

(** The multiples 0 to 3. *)
Definition ec_small (d : Z) (A : point) : point :=
  if d =? 0 then None else if d =? 1 then A
  else if d =? 2 then ec_double A else ec_add (ec_double A) A.

(** Multiplication by [k], [n] digits of base 4. *)
Fixpoint ec_mul_digits (n : nat) (k : Z) (A : point) : point :=
  match n with
  | O => None
  | S n => ec_add (ec_double (ec_double (ec_mul_digits n (k / 4) A))) (ec_small (k mod 4) A)
  end.

Definition ec_mul (k : Z) (A : point) : point := ec_mul_digits 128 k A.

Definition valid (A : point) : Prop :=
  match A with None => True | Some (x, y) => residue x ∧ residue y end.

(** The curve equation. *)
Definition on_curve (A : point) : Prop :=
  match A with
  | None => True
  | Some (x, y) => y * y ≡[P256] x * x * x - 3 * x + sval curve_b
  end.

(** [a] is the point [A], and [J] a Jacobian representation of it. *)
Definition arep (a : affine_point) (A : point) : Prop :=
  match A with
  | None => a = affine_infinity
  | Some (x, y) => infinity a = 0 ∧ exact (px a) x ∧ exact (py a) y ∧ residue x ∧ residue y
  end.

Definition jrep (J : jacobian_point) (A : point) : Prop :=
  ∃ X Y Z, fe (jX J) X ∧ fe (jY J) Y ∧ exact (jZ J) Z ∧ residue Z ∧
    match A with
    | None => Z = 0
    | Some (x, y) => Z ≠ 0 ∧ residue x ∧ residue y ∧
                     X ≡[P256] x * (Z * Z) ∧ Y ≡[P256] y * (Z * Z * Z)
    end.

Lemma exact_const t x : bigval t → sval t = x → exact t x.
Proof. done. Qed.

Lemma big_zero_exact : exact big_zero 0.
Proof. by repeat first [split | constructor]. Qed.
Lemma big_one_exact : exact big_one 1.
Proof. by repeat first [split | constructor]. Qed.

Lemma residue_1 : residue 1.
Proof. pose proof P256_range. unfold residue. lia. Qed.
Lemma residue_zero : residue 0.
Proof. pose proof P256_range. unfold residue. lia. Qed.
#[export] Hint Resolve residue_1 residue_zero residue_mod exact_fe big_zero_exact big_one_exact : field.

Lemma jacobian_infinity_rep : jrep jacobian_infinity None.
Proof. exists 1, 1, 0. split_and!; eauto with field. Qed.

Lemma toJacobian_rep a x y : arep a (Some (x, y)) → jrep (toJacobian a) (Some (x, y)).
Proof.
  intros (_ & Hx & Hy & Hrx & Hry). exists x, y, 1. cbn.
  split_and!; eauto with field; try done; apply cong_eq; ring.
Qed.

Lemma is_infinity_rep J A : jrep J A → jacobian_point_is_infinity J = bool_decide (A = None).
Proof.
  intros (X & Y & Z & _ & _ & [Hb HZ] & _ & HA). unfold jacobian_point_is_infinity.
  rewrite big_is_zero_spec, HZ by done. destruct A as [[x y]|].
  - destruct HA as (H & _). rewrite bool_decide_eq_false_2 by done. by apply Z.eqb_neq.
  - rewrite bool_decide_eq_true_2 by done. by apply Z.eqb_eq.
Qed.

(** * Point operations *)
Lemma cong_not_0 x : residue x → x ≠ 0 → ¬ x ≡[P256] 0.
Proof. intros Hr Hx H. by apply Hx, residue_0. Qed.

(** The slope of the tangent, and of the chord. *)
Lemma tangent_slope x y : residue y → y ≠ 0 →
  (3 * x * x - 3) * finv (2 * y) * (2 * y) ≡[P256] 3 * x * x - 3.
Proof.
  intros Hr Hy. rewrite <-Z.mul_assoc, (Z.mul_comm (finv _)), finv_spec; [apply cong_eq; ring|].
  rewrite cong_integral. intros [H|H]; [|by apply (cong_not_0 y)].
  unfold cong in H. apply Z.divide_pos_le in H; [|lia]. pose proof P256_range. lia.
Qed.

Lemma chord_slope x1 y1 x2 y2 : residue x1 → residue x2 → x1 ≠ x2 →
  (y2 - y1) * finv (x2 - x1) * (x2 - x1) ≡[P256] y2 - y1.
Proof.
  intros H1 H2 Hne. rewrite <-Z.mul_assoc, (Z.mul_comm (finv _)), finv_spec; [apply cong_eq; ring|].
  intros H. apply Hne. apply (cong_unique P256); [done..|]. unfold cong in *.
  apply Z.divide_opp_r in H. by replace (- (x2 - x1 - 0)) with (x1 - x2) in H by lia.
Qed.

(** The coordinates of the double and of the sum. *)
Lemma jacobian_double x y l X Y Z :
  X ≡[P256] x * (Z * Z) → Y ≡[P256] y * (Z * Z * Z) → l * (2 * y) ≡[P256] 3 * x * x - 3 →
  let M := 3 * ((X - Z * Z) * (X + Z * Z)) in
  let S := (Y + Y) * (Y + Y) * X in
  let X3 := M * M - (S + S) in let Z3 := (Y + Y) * Z in
  let Y3 := (S - X3) * M - 8 * (Y * Y * (Y * Y)) in
  let x3 := l * l - x - x in
  X3 ≡[P256] x3 * (Z3 * Z3) ∧ Y3 ≡[P256] (l * (x - x3) - y) * (Z3 * Z3 * Z3).
Proof.
  intros HX HY Hl M S X3 Z3 Y3 x3.
  assert (M ≡[P256] l * (2 * y) * (Z * Z * Z * Z)) as HM.
  { unfold M. rewrite HX, Hl. apply cong_eq. ring. }
  clearbody M. unfold Y3, X3, Z3, S. clear Y3 X3 Z3 S. subst x3.
  rewrite HM, HX, HY. split; apply cong_eq; ring.
Qed.

Lemma jacobian_add x1 y1 x2 y2 l X Y Z :
  X ≡[P256] x1 * (Z * Z) → Y ≡[P256] y1 * (Z * Z * Z) → l * (x2 - x1) ≡[P256] y2 - y1 →
  let H := Z * Z * x2 - X in let R := Z * Z * Z * y2 - Y in
  let X3 := R * R - (H * H * X + H * H * X) - H * H * H in let Z3 := Z * H in
  let Y3 := (H * H * X - X3) * R - H * H * H * Y in
  let x3 := l * l - x1 - x2 in
  X3 ≡[P256] x3 * (Z3 * Z3) ∧ Y3 ≡[P256] (l * (x1 - x3) - y1) * (Z3 * Z3 * Z3).
Proof.
  intros HX HY Hl H R X3 Z3 Y3 x3.
  assert (R ≡[P256] l * (x2 - x1) * (Z * Z * Z)) as HR.
  { unfold R. rewrite HY, Hl. apply cong_eq. ring. }
  clearbody R. unfold Y3, X3, Z3, H. clear Y3 X3 Z3 H. subst x3.
  rewrite HR, HX, HY. split; apply cong_eq; ring.
Qed.

(** The representation of a third point from coordinates like those. *)
Lemma jrep_third J l x y x' X3 Y3 Z3 :
  fe (jX J) X3 → fe (jY J) Y3 → exact (jZ J) (Z3 mod P256) → ¬ Z3 ≡[P256] 0 →
  X3 ≡[P256] (l * l - x - x') * (Z3 * Z3) →
  Y3 ≡[P256] (l * (x - (l * l - x - x')) - y) * (Z3 * Z3 * Z3) →
  jrep J (ec_third l x y x').
Proof.
  intros HX HY HZ Hne Hcx Hcy. exists X3, Y3, (Z3 mod P256). unfold ec_third.
  split_and!; [done|done|done|apply residue_mod|by rewrite <-cong_0_mod|apply residue_mod..| |].
  - by rewrite !cong_mod.
  - by rewrite !cong_mod.
Qed.

Lemma pointDouble_lemma J A : jrep J A → returns (pointDouble J) (λ J', jrep J' (ec_double A)).
Proof.
  intros HJ. unfold pointDouble. rewrite (is_infinity_rep J A HJ).
  destruct A as [[x y]|]; cbn [ec_double]; [|apply returns_Ok, jacobian_infinity_rep].
  rewrite bool_decide_eq_false_2 by done.
  destruct HJ as (X & Y & Z & HX & HY & HZ & HZr & HZ0 & Hx & Hy & Hcx & Hcy).
  pose proof (exact_fe _ _ HZ HZr) as HZf. cbv zeta. do 9 field_op.
  eapply returns_bind; [apply (fhalve _ (8 * (Y * Y * (Y * Y)))); eapply fe_eq; [eassumption|apply cong_eq; ring]|].
  cbv beta. intros y3 Hy3. do 7 field_op. apply returns_Ok.
  destruct (Z.eqb_spec y 0) as [->|Hy0].
  - eexists _, _, _. split_and!; [eassumption|eassumption|eassumption|apply residue_mod|].
    rewrite <-cong_0_mod, Hcy. apply cong_eq. ring.
  - destruct (jacobian_double x y _ X Y Z Hcx Hcy (tangent_slope x y Hy Hy0)) as [HX3 HY3].
    eapply jrep_third; [eassumption|eassumption|eassumption| |exact HX3|exact HY3].
    pose proof (cong_not_0 Z HZr HZ0) as HZn. pose proof (cong_not_0 y Hy Hy0) as Hyn.
    rewrite cong_integral, Hcy. replace (y * (Z * Z * Z) + y * (Z * Z * Z)) with (2 * (y * (Z * (Z * Z)))) by ring.
    rewrite !cong_integral. intros H. destruct_or! H; try contradiction.
    apply (cong_not_0 2); [|done|done]. pose proof P256_range. unfold residue. lia.
Qed.

Lemma exact_mod t x y : exact t (x mod P256) → x ≡[P256] y → residue y → exact t y.
Proof.
  intros [Hb Hs] Hc Hy. split; [done|]. rewrite Hs. apply (cong_unique P256); [apply residue_mod|done|].
  by rewrite cong_mod.
Qed.

Lemma finverse t z : exact t z → residue z → z ≠ 0 →
  returns (big_divide big_one t modulusP) (λ r, ∃ i, fe r i ∧ i * z ≡[P256] 1).
Proof.
  intros [Hb Hs] Hr Hz. unfold residue in Hr. destruct big_one_exact as [Hb1 Hs1].
  destruct (big_divide_spec MOD_MODULUS 1 z big_one t) as (r & Hd & Hbr & Hrr & Hc);
    [done|done|done|done|lia|rewrite mval_P256; lia|apply mval_gcd; rewrite mval_P256; lia|].
  rewrite mval_P256 in *. exists r. split; [exact Hd|]. exists (sval r).
  split; [by apply exact_fe|done].
Qed.

Lemma exact_zero t x : exact t x → big_is_zero t = bool_decide (x = 0).
Proof. intros [Hb <-]. rewrite big_is_zero_spec by done. by case_bool_decide; [apply Z.eqb_eq|apply Z.eqb_neq]. Qed.

Lemma residue_sub_0 x y : residue x → residue y → y - x ≡[P256] 0 → x = y.
Proof.
  intros Hx Hy H. symmetry. apply (cong_unique P256); [done..|]. unfold cong in *. by rewrite Z.sub_0_r in H.
Qed.

Lemma pointAdd_lemma J Q A C : jrep J A → arep Q C →
  returns (pointAdd J Q) (λ J', jrep J' (ec_add A C)).
Proof.
  intros HJ HQ. unfold pointAdd. destruct C as [[x2 y2]|]; cbn [arep] in HQ.
  2: { subst Q. apply returns_Ok. by destruct A as [[]|]. }
  pose proof HQ as (-> & HX2 & HY2 & Hx2 & Hy2). rewrite (is_infinity_rep J A HJ). cbn [Z.eqb negb].
  destruct A as [[x1 y1]|]; [|apply returns_Ok; by apply toJacobian_rep].
  rewrite bool_decide_eq_false_2 by done.
  destruct HJ as (X & Y & Z & HX & HY & HZ & HZr & HZ0 & Hx & Hy & Hcx & Hcy).
  pose proof (exact_fe _ _ HZ HZr) as HZf. pose proof (exact_fe _ _ HX2 Hx2) as HX2f.
  pose proof (exact_fe _ _ HY2 Hy2) as HY2f. cbv zeta.
  pose proof (cong_not_0 Z HZr HZ0) as HZn. do 7 field_op. cbn [ec_add].
  assert (Z * Z * x2 - X ≡[P256] Z * Z * (x2 - x1)) as HH by (rewrite Hcx; apply cong_eq; ring).
  assert (Z * Z * Z * y2 - Y ≡[P256] Z * Z * Z * (y2 - y1)) as HR by (rewrite Hcy; apply cong_eq; ring).
  rewrite (exact_zero _ _ Ht5).
  destruct (Z.eqb_spec x1 x2) as [->|Hne].
  - rewrite bool_decide_eq_true_2 by (rewrite <-cong_0_mod, HH; apply cong_eq; ring).
    field_op. rewrite (exact_zero _ _ Ht6). destruct (Z.eqb_spec y1 y2) as [->|Hne].
    + rewrite bool_decide_eq_true_2 by (rewrite <-cong_0_mod, HR; apply cong_eq; ring).
      apply pointDouble_lemma, toJacobian_rep, HQ.
    + rewrite bool_decide_eq_false_2; [apply returns_Ok, jacobian_infinity_rep|].
      rewrite <-cong_0_mod, HR, !cong_integral. intros H. destruct_or! H; try contradiction.
      by apply Hne, residue_sub_0.
  - assert (¬ Z * Z * x2 - X ≡[P256] 0) as Hn0.
    { rewrite HH, !cong_integral. intros H. destruct_or! H; try contradiction.
      by apply Hne, residue_sub_0. }
    rewrite bool_decide_eq_false_2 by (by rewrite <-cong_0_mod).
    assert (fe t5 (Z * Z * x2 - X)) as HH5 by (eapply fe_eq; [by apply exact_fe, residue_mod|apply cong_mod]).
    pose proof (fe_loose _ _ HH5) as HH5l. clear Ht5.
    do 13 field_op. apply returns_Ok.
    destruct (jacobian_add x1 y1 x2 y2 _ X Y Z Hcx Hcy (chord_slope x1 y1 x2 y2 Hx Hx2 Hne)) as [HX3 HY3].
    eapply jrep_third; [eassumption|eassumption|eassumption| |exact HX3|exact HY3].
    rewrite cong_integral. by intros [?|?].
Qed.

Lemma toAffine_lemma J A : jrep J A → returns (toAffine J) (λ a, arep a A).
Proof.
  intros HJ. unfold toAffine. fold (jacobian_point_is_infinity J). rewrite (is_infinity_rep J A HJ).
  destruct A as [[x y]|]; [|by apply returns_Ok].
  rewrite bool_decide_eq_false_2 by done.
  destruct HJ as (X & Y & Z & HX & HY & HZ & HZr & HZ0 & Hx & Hy & Hcx & Hcy).
  eapply returns_bind; [eapply (finverse (jZ J) Z); done|]. cbv beta. intros zinv (i & Hi & Hc).
  do 6 field_op. apply returns_Ok. cbn [arep infinity px py].
  assert (X * (i * i) ≡[P256] x) as HxE.
  { rewrite Hcx. transitivity (x * (i * Z) * (i * Z)); [apply cong_eq; ring|]. rewrite Hc. apply cong_eq. ring. }
  assert (Y * (i * i * i) ≡[P256] y) as HyE.
  { rewrite Hcy. transitivity (y * (i * Z) * (i * Z) * (i * Z)); [apply cong_eq; ring|].
    rewrite Hc. apply cong_eq. ring. }
  split_and!; [done| | |done|done].
  - eapply exact_mod; [eassumption|done|done].
  - eapply exact_mod; [eassumption|done|done].
Qed.

(** * Scalar multiplication *)
Lemma wval_word k j : bigval k → 0 ≤ j < 9 →
  is_u32 (wd k j) ∧ ∃ h, wval k / 2 ^ (32 * j) = wd k j + B * h.
Proof.
  intros [Hl Hf] Hj. unfold zlen, BIGLEN in Hl.
  destruct (lookup_lt_is_Some_2 k (Z.to_nat j)) as [w Hw]; [lia|].
  assert (wd k j = w) as -> by (rewrite wd_lookup, Hw by lia; done).
  pose proof (take_drop_middle k (Z.to_nat j) w Hw) as Hk.
  assert (Bn (take (Z.to_nat j) k) = 2 ^ (32 * j)) as HB.
  { unfold Bn, zlen. rewrite length_take. rewrite Z.pow_mul_r by lia. change (2 ^ 32) with B. f_equal. lia. }
  pose proof (wval_range (take (Z.to_nat j) k) (Forall_take _ _ _ Hf)) as Hr. rewrite HB in Hr.
  split; [by eapply Forall_lookup_1|]. exists (wval (drop (S (Z.to_nat j)) k)).
  rewrite <-Hk at 1. rewrite wval_app, HB. cbn [wval]. rewrite Z.mul_comm, Z.div_add by lia.
  rewrite Z.div_small by done. lia.
Qed.

Lemma big_get_2bits_spec k m : bigval k → 0 ≤ m < 144 →
  big_get_2bits k (2 * m) = Ok (wval k / 4 ^ m mod 4).
Proof.
  intros Hk Hm. unfold big_get_2bits.
  rewrite rd_wd, bind_Ok by (rewrite (proj1 Hk); unfold BIGLEN; dlia).
  destruct (wval_word k (2 * m / 32) Hk ltac:(dlia)) as [Hw [h Hh]]. f_equal.
  set (j := 2 * m / 32) in *. set (r := 2 * m mod 32).
  assert (2 * m = 32 * j + r ∧ 0 ≤ r ≤ 30) as [H2m Hr] by (subst j r; dlia).
  clearbody j r. change 3 with (Z.ones 2). rewrite Z.land_ones, Z.shiftr_div_pow2 by lia. change (2 ^ 2) with 4.
  assert (4 ^ m = 2 ^ (2 * m)) as -> by (rewrite Z.pow_mul_r by lia; done).
  rewrite H2m, Z.pow_add_r, <-Z.div_div by lia.
  rewrite Hh. replace (B * h) with (h * (4 * 2 ^ (30 - r)) * 2 ^ r).
  - rewrite Z.div_add by lia. replace (h * (4 * 2 ^ (30 - r))) with (h * 2 ^ (30 - r) * 4) by ring.
    by rewrite Z_mod_plus_full.
  - replace B with (4 * (2 ^ (30 - r) * 2 ^ r)) by (rewrite <-Z.pow_add_r by lia; by replace (30 - r + r) with 30 by lia).
    ring.
Qed.

Lemma ec_mul_digits_0 n A : ec_mul_digits n 0 A = None.
Proof. induction n as [|n IH]; [done|]. cbn [ec_mul_digits]. change (0 / 4) with 0. by rewrite IH. Qed.

Lemma ec_mul_digits_more n d A : ∀ k, 0 ≤ k < 4 ^ Z.of_nat n →
  ec_mul_digits (n + d) k A = ec_mul_digits n k A.
Proof.
  induction n as [|n IH]; intros k Hk; [replace k with 0 by (cbn in Hk; lia); apply ec_mul_digits_0|].
  cbn [Nat.add ec_mul_digits]. rewrite IH; [done|].
  rewrite Nat2Z.inj_succ, Z.pow_succ_r in Hk by lia. dlia.
Qed.

(** The multiples 1 to 3 in the array of the loop. *)
Definition multiples (s : list (option affine_point)) (A : point) : Prop :=
  ∃ p1 p2 p3, s = [None; Some p1; Some p2; Some p3] ∧
    arep p1 (ec_small 1 A) ∧ arep p2 (ec_small 2 A) ∧ arep p3 (ec_small 3 A).

Lemma mpyset_add s A Q C d : multiples s A → jrep Q C → 0 ≤ d < 4 →
  returns (e ← rd s d; match e with Some P => pointAdd Q P | None => Ok Q end)
    (λ J, jrep J (ec_add C (ec_small d A))).
Proof.
  intros (p1 & p2 & p3 & -> & H1 & H2 & H3) HQ Hd.
  assert (d = 0 ∨ d = 1 ∨ d = 2 ∨ d = 3) as Hc by lia.
  destruct_or! Hc; subst d; unfold rd; cbn [Z.ltb Z.compare Z.to_nat]; cbn.
  - apply returns_Ok. by destruct C as [[]|].
  - by apply pointAdd_lemma.
  - by apply pointAdd_lemma.
  - by apply pointAdd_lemma.
Qed.

Lemma mpy_pairs_spec k s A : bigval k → multiples s A → ∀ n Q, (n ≤ 144)%nat →
  ∀ h, jrep Q (ec_mul_digits h (wval k / 4 ^ Z.of_nat n) A) →
  returns (mpy_pairs n k s Q) (λ J, jrep J (ec_mul_digits (n + h) (wval k) A)).
Proof.
  intros Hk Hs n. induction n as [|n IH]; intros Q Hn h HQ; cbn [mpy_pairs].
  - apply returns_Ok. by rewrite Z.pow_0_r, Z.div_1_r in HQ.
  - rewrite big_get_2bits_spec, bind_Ok by (done || lia).
    eapply returns_bind; [by apply pointDouble_lemma|]. cbv beta. intros Q1 HQ1.
    eapply returns_bind; [by apply pointDouble_lemma|]. cbv beta. intros Q2 HQ2.
    set (d := wval k / 4 ^ Z.of_nat n mod 4).
    assert (0 ≤ d < 4) as Hd by (unfold d; dlia).
    destruct (mpyset_add s A Q2 _ d Hs HQ2 Hd) as (Q3 & H3 & HQ3).
    destruct (rd s d) as [e|] eqn:He; [|done]. rewrite !bind_Ok in *. rewrite H3, bind_Ok.
    replace (S n + h)%nat with (n + S h)%nat by lia. apply IH; [lia|].
    cbn [ec_mul_digits]. rewrite Z.div_div, <-(Z.mul_comm 4) by lia.
    rewrite Nat2Z.inj_succ, Z.pow_succ_r in HQ3 by lia. exact HQ3.
Qed.

Lemma discard_zeros_spec k : bigval k → ∀ n, (n ≤ 144)%nat → wval k < 4 ^ Z.of_nat n →
  ∃ m, discard_zeros n k = Ok m ∧ (m ≤ n)%nat ∧ wval k < 4 ^ Z.of_nat m.
Proof.
  intros Hk n. induction n as [|n IH]; intros Hn Hv; [by exists O|]. cbn [discard_zeros].
  rewrite big_get_2bits_spec, bind_Ok by (done || lia). case_match eqn:E; [by exists (S n)|].
  destruct IH as (m & Hm & Hmn & Hlt); [lia| |exists m; split_and!; [done|lia|done]].
  apply negb_false_iff, Z.eqb_eq in E. pose proof (wval_range k (proj2 Hk)) as Hr.
  rewrite Nat2Z.inj_succ, Z.pow_succ_r in Hv by lia.
  set (q := 4 ^ Z.of_nat n) in *. assert (0 < q) as Hq by (subst q; lia). clearbody q.
  assert (0 ≤ wval k / q < 4) as Hb by (split; [apply Z.div_pos; lia|apply Z.div_lt_upper_bound; lia]).
  assert (wval k / q = 0) as H0 by dlia. apply Z.div_small_iff in H0; lia.
Qed.

Lemma pointMpyP_lemma k P A : bigval k → arep P A → A ≠ None → 0 ≤ sval k < 2 ^ 256 →
  returns (pointMpyP k P) (λ a, arep a (ec_mul (sval k) A)).
Proof.
  intros Hk HP HA Hr. unfold pointMpyP. destruct A as [[x y]|]; [|done].
  rewrite big_is_negative_spec, big_is_zero_spec by done.
  rewrite (proj2 (Z.ltb_ge (sval k) 0)), orb_false_r by lia.
  destruct (Z.eqb_spec (sval k) 0) as [Hz|Hz].
  { apply returns_Ok. rewrite Hz. unfold ec_mul. by rewrite ec_mul_digits_0. }
  assert (wval k = sval k) as Hw by (apply wval_eq_sval; [done|lia|done]).
  pose proof (toJacobian_rep P x y HP) as HJ.
  eapply returns_bind; [by apply pointDouble_lemma|]. cbv beta. intros Q2 HQ2.
  eapply returns_bind; [by apply toAffine_lemma|]. cbv beta. intros P2 HP2.
  eapply returns_bind; [by apply pointAdd_lemma|]. cbv beta. intros Q3 HQ3.
  eapply returns_bind; [by apply toAffine_lemma|]. cbv beta. intros P3 HP3.
  destruct (discard_zeros_spec k Hk 144) as (n & -> & Hn & Hlt); [lia|rewrite Hw; lia|].
  rewrite bind_Ok. eapply (returns_bind _ _ _ (λ J, jrep J (ec_mul (sval k) (Some (x, y)))));
    [|intros Q HQ; by apply toAffine_lemma].
  assert (ec_mul (sval k) (Some (x, y)) = ec_mul_digits (n + 0) (wval k) (Some (x, y))) as ->.
  { rewrite Hw, Nat.add_0_r. unfold ec_mul. rewrite Hw in Hlt.
    destruct (decide (n ≤ 128)%nat) as [Hle|Hle].
    - replace 128%nat with (n + (128 - n))%nat by lia. apply ec_mul_digits_more. lia.
    - replace n with (128 + (n - 128))%nat by lia. symmetry. apply ec_mul_digits_more. lia. }
  apply mpy_pairs_spec; [done| |lia|].
  - exists P, P2, P3. split_and!; done.
  - cbn [ec_mul_digits]. apply jacobian_infinity_rep.
Qed.

Lemma curve_b_loose : loose curve_b (sval curve_b).
Proof.
  split_and!; [by repeat constructor| |done]. unfold within. by vm_compute.
Qed.

Lemma on_curveP_lemma P A : arep P A →
  returns (on_curveP P) (λ b, b = true ↔ on_curve A).
Proof.
  intros HP. unfold on_curveP. destruct A as [[x y]|]; [|cbn [arep] in HP; subst P; by apply returns_Ok].
  destruct HP as (-> & Hx & Hy & Hrx & Hry). cbn [negb Z.eqb on_curve].
  pose proof (exact_fe _ _ Hx Hrx) as Hfx. pose proof (exact_fe _ _ Hy Hry) as Hfy.
  pose proof curve_b_loose as Hb. cbv zeta. do 7 field_op. apply returns_Ok.
  match goal with H : exact ?t _ |- context [big_is_zero ?t] => rewrite (exact_zero _ _ H) end.
  rewrite bool_decide_eq_true, <-cong_0_mod. unfold cong.
  match goal with |- (_ | ?a) ↔ (_ | ?b) => replace b with (- a) by ring end. by rewrite Z.divide_opp_r.
Qed.

(** The base point. *)
Definition G : point := Some (sval (px base_point), sval (py base_point)).

Lemma G_some : G ≠ None.
Proof. unfold G. intros H. discriminate H. Qed.

Lemma base_point_rep : arep base_point G.
Proof.
  assert (∀ w, bigval w → 0 ≤ sval w < 2 ^ 256 - 2 ^ 224 → exact w (sval w) ∧ residue (sval w)) as H.
  { intros w Hb Hr. split; [by split|]. pose proof P256_range. unfold residue. lia. }
  assert (∀ w, bool_decide (Forall is_u32 w) = true → zlen w = 9 → bigval w) as Hb.
  { intros w Hf Hl. split; [done|by apply bool_decide_eq_true in Hf]. }
  destruct (H (px base_point)) as [? ?]; [by apply Hb; vm_compute|by vm_compute|].
  destruct (H (py base_point)) as [? ?]; [by apply Hb; vm_compute|by vm_compute|].
  unfold G. cbn [arep]. by split_and!.
Qed.

(** * Properties *)

(** C24: dividing by any number that is not zero, modulo the field prime or the
    group order, terminates within its fuel, without overflow, with the reduced
    quotient. *)
Theorem big_divide_terminates m num den x y : exact num x → exact den y →
  0 ≤ x < 2 ^ 256 → 0 < y < mval m →
  returns (big_divide num den (modulus_of m)) (λ t, ∃ q, exact t q ∧ 0 ≤ q < mval m ∧ q * y ≡[mval m] x).
Proof.
  intros [Hn Hx] [Hd Hy] Hxr Hyr.
  destruct (big_divide_spec m x y num den Hn Hd Hx Hy Hxr Hyr (mval_gcd m y Hyr)) as (t & Ht & Hb & Hr).
  exists t. split; [exact Ht|]. exists (sval t). split; [by split|exact Hr].
Qed.

Lemma big_divide_terminates_witness :
  returns (big_divide big_one big_one orderP)
    (λ t, ∃ q, exact t q ∧ 0 ≤ q < mval MOD_ORDER ∧ q * 1 ≡[mval MOD_ORDER] 1).
Proof.
  apply (big_divide_terminates MOD_ORDER); [apply big_one_exact|apply big_one_exact|lia|].
  pose proof (mval_range MOD_ORDER). lia.
Defined.

(** C23: pointDouble, pointAdd and toAffine compute the tangent and chord
    operations of the affine curve on every Jacobian representation of their
    operands, the infinite and equal ones included. *)
Theorem point_operations_spec J Q A C : jrep J A → arep Q C →
  returns (pointDouble J) (λ J', jrep J' (ec_double A)) ∧
  returns (pointAdd J Q) (λ J', jrep J' (ec_add A C)) ∧
  returns (toAffine J) (λ a, arep a A).
Proof.
  intros HJ HQ. split; [by apply pointDouble_lemma|].
  split; [by apply pointAdd_lemma|by apply toAffine_lemma].
Qed.

Lemma point_operations_spec_witness :
  returns (pointDouble jacobian_infinity) (λ J', jrep J' (ec_double None)) ∧
  returns (pointAdd jacobian_infinity affine_infinity) (λ J', jrep J' (ec_add None None)) ∧
  returns (toAffine jacobian_infinity) (λ a, arep a None).
Proof.
  apply (point_operations_spec jacobian_infinity affine_infinity None None);
    [apply jacobian_infinity_rep|reflexivity].
Defined.

(** C5: pointMpyP multiplies a point by a number below 2^256, as the
    double-and-add recursion over the base-4 digits of the number does. *)
Theorem pointMpyP_spec k P A : bigval k → 0 ≤ sval k < 2 ^ 256 → arep P A → A ≠ None →
  returns (pointMpyP k P) (λ a, arep a (ec_mul (sval k) A)).
Proof. intros Hk Hr HP HA. by apply pointMpyP_lemma. Qed.

Lemma pointMpyP_spec_witness :
  returns (pointMpyP big_one base_point) (λ a, arep a (ec_mul (sval big_one) G)).
Proof.
  apply (pointMpyP_spec big_one base_point G); [apply big_one_exact| |apply base_point_rep|apply G_some].
  rewrite (proj2 big_one_exact). lia.
Defined.
