(* ===== verification/EcdsaSpec.v ===== *)
(** Keys and signatures of RiotEcc.c: the "random" numbers, key generation and
    derivation, ECDSA and the byte strings of big integers against their
    descriptions as numbers and points. *)
From S2P Require Export EccSpec.

(** * Ephemeral keys *)

(** The words of the bytes 32 to 1: the number every call of
    [get_random_bytes] gives. *)
Definition K0 : list Z := words_of_bytes 8 (random_bytes 32) ++ [0].

Lemma K0_value : exact K0 (wval K0) ∧ 0 < wval K0 < N256.
Proof.
  assert (bigval K0) as Hb by (split; [done|by apply (bool_decide_unpack _); vm_compute]).
  assert (0 < wval K0 < 2 ^ 256 - 2 ^ 224) as Hr by (by vm_compute).
  pose proof (mval_range MOD_ORDER) as HN. rewrite mval_N256 in HN.
  split; [|lia]. split; [done|]. apply wval_eq_sval; [done|lia|done].
Qed.

Lemma big_get_random_n_lemma n tgt z : length tgt = 9%nat →
  big_get_random_n (S n) tgt z = Ok (0, K0).
Proof.
  intros Hl. do 10 (destruct tgt as [|? tgt]; try done). destruct z; vm_compute; reflexivity.
Qed.

Lemma ECDH_generate_lemma n P1 k : length k = 9%nat →
  returns (ECDH_generate (S n) P1 k) (λ '(rv, P, k'), rv = 0 ∧ k' = K0 ∧ arep P (ec_mul (wval K0) G)).
Proof.
  intros Hl. unfold ECDH_generate. rewrite big_get_random_n_lemma, bind_Ok by done. cbn [Z.ltb Z.compare].
  destruct K0_value as [[Hb Hv] Hr]. pose proof (mval_range MOD_ORDER) as HN. rewrite mval_N256 in HN.
  eapply returns_bind; [apply (pointMpyP_lemma K0 base_point G Hb base_point_rep G_some); rewrite Hv; lia|].
  cbv beta. intros P HP. apply returns_Ok. rewrite Hv in HP. split_and!; [reflexivity|reflexivity|exact HP].
Qed.

(** * ECDSA *)
Definition abscissa (A : point) : Z := match A with None => 0 | Some (x, _) => x end.

Lemma arep_abscissa P A : arep P A → exact (px P) (abscissa A) ∧ residue (abscissa A).
Proof.
  destruct A as [[x y]|]; cbn [arep abscissa]; [by intros (_ & ? & _ & ? & _)|intros ->].
  split; [apply big_zero_exact|apply residue_zero].
Qed.

Lemma N256_range : 2 ^ 256 - 2 ^ 224 ≤ N256 < 2 ^ 256.
Proof. pose proof (mval_range MOD_ORDER) as H. by rewrite mval_N256 in H. Qed.

Lemma oreduce a : bigval a → returns (big_precise_reduce a orderP) (λ t, exact t (sval a mod N256)).
Proof.
  intros Ha. destruct (big_precise_reduce_spec MOD_ORDER a Ha) as (t & Ht & Hb & Hs).
  rewrite mval_N256 in Hs. exists t. split; [exact Ht|by split].
Qed.

Lemma omul a b : bigval a → bigval b → returns (big_mpyP a b MOD_ORDER)
  (λ t, bigval t ∧ 0 ≤ sval t < 2 ^ 256 ∧ sval t ≡[N256] sval a * sval b).
Proof. intros Ha Hb. destruct (big_mpyP_order a b Ha Hb) as (t & Ht & H). by exists t. Qed.

Lemma odivide nu de x y : exact nu x → exact de y → 0 ≤ x < 2 ^ 256 → 0 < y < N256 →
  returns (big_divide nu de orderP) (λ t, ∃ q, exact t q ∧ 0 ≤ q < N256 ∧ q * y ≡[N256] x).
Proof.
  intros [Hn Hx] [Hd Hy] Hxr Hyr.
  destruct (big_divide_spec MOD_ORDER x y nu de) as (t & Ht & Hb & Hr & Hc);
    [exact Hn|exact Hd|exact Hx|exact Hy|exact Hxr|rewrite mval_N256; exact Hyr
    |apply mval_gcd; rewrite mval_N256; exact Hyr|].
  rewrite mval_N256 in *. exists t. split; [exact Ht|]. by exists (sval t).
Qed.

(** The first half of every signature, and a private key from a signature. *)
Definition nonce_x : Z := abscissa (ec_mul (wval K0) G) mod N256.
Lemma nonce_x_eq : nonce_x = abscissa (ec_mul (wval K0) G) mod N256.
Proof. unfold nonce_x. reflexivity. Qed.

Definition recovered_key (z r s : Z) : Z := (s * wval K0 - z) * inverse N256 r mod N256.

Lemma recovered_key_spec z r s d : r mod N256 ≠ 0 → s * wval K0 ≡[N256] z + r * d →
  recovered_key z r s = d mod N256.
Proof.
  intros Hr Hs. pose proof N256_range. unfold recovered_key. apply cong_mod_eq; [lia|]. rewrite Hs.
  pose proof (inverse_spec N256 r N256_prime ltac:(lia) Hr) as Hi.
  generalize dependent (inverse N256 r). intros i Hi.
  replace ((z + r * d - z) * i) with (r * i * d) by ring. rewrite Hi. apply cong_eq. ring.
Qed.

(** One pass from the label [startpoint]. *)
Section round.
Context (n : nat) (A : point) (K : list Z) (kz x : Z).
Context (Hgen : ∀ P1 k, length k = 9%nat →
  returns (ECDH_generate (S n) P1 k) (λ '(rv, P, k'), rv = 0 ∧ k' = K ∧ arep P A)).
Context (HK : exact K kz) (HKr : 0 < kz < N256) (Hx : x = abscissa A mod N256).

Lemma sign_round z d P1 k sig : bigval z → bigval d → 0 ≤ sval z < 2 ^ 256 → length k = 9%nat →
  let e := (sval z + x * sval d) mod N256 in
  if decide (x = 0 ∨ e = 0)
  then ∃ P1' sig', ECDSA_sign (S n) z d P1 k sig = ECDSA_sign n z d P1' K sig'
  else returns (ECDSA_sign (S n) z d P1 k sig) (λ '(rv, sg), rv = 0 ∧ exact (sig_r sg) x ∧
    ∃ s, exact (sig_s sg) s ∧ 0 < s < N256 ∧ s * kz ≡[N256] e).
Proof.
  intros Hz Hd Hzr Hk e. cbn [ECDSA_sign].
  destruct (Hgen P1 k Hk) as ([[rv P] k'] & -> & -> & -> & HP).
  rewrite bind_Ok. cbn [Z.eqb negb]. apply arep_abscissa in HP as [[HPb HPx] _].
  destruct (oreduce (px P) HPb) as (r & -> & Hr). rewrite HPx in Hr. rewrite <-Hx in Hr.
  rewrite bind_Ok, (exact_zero r x Hr). subst e. clear Hx Hgen.
  destruct (bool_decide_reflect (x = 0)) as [H0|H0].
  { rewrite decide_True by (by left). eexists _, _. reflexivity. }
  destruct (omul d r Hd (proj1 Hr)) as (t & -> & Ht & Htr & Htc). rewrite bind_Ok, (proj2 Hr) in *.
  pose proof (big_add_represents t z Ht Hz) as Ha.
  pose proof (represents_eq _ _ Ha ltac:(unfold ranged; lia)) as Hav.
  destruct (oreduce (big_add t z) (represents_bigval _ _ Ha)) as (t' & -> & Ht'). rewrite bind_Ok.
  assert (sval (big_add t z) mod N256 = (sval z + x * sval d) mod N256) as He.
  { pose proof N256_range. apply cong_mod_eq; [lia|]. rewrite Hav, Htc. apply cong_eq. ring. }
  rewrite He in Ht'. set (e := _ mod N256) in *.
  assert (0 ≤ e < N256) as Her by (apply Z.mod_pos_bound; pose proof N256_range; lia). clearbody e.
  pose proof N256_range as HN.
  destruct (odivide t' K e (kz) Ht' HK ltac:(lia) HKr) as (s & -> & q & Hq & Hqr & Hqc).
  rewrite bind_Ok, (exact_zero s q Hq). destruct (bool_decide_reflect (q = 0)) as [Hq0|Hq0].
  - rewrite decide_True; [eexists _, _; reflexivity|]. right. apply (cong_unique N256); [exact Her|lia|].
    rewrite <-Hqc, Hq0. reflexivity.
  - rewrite decide_False; [|intros [Hx0|He0]; [exact (H0 Hx0)|]].
    + apply returns_Ok. split; [reflexivity|]. split; [exact Hr|]. exists q. split_and!; [exact Hq|lia|lia|exact Hqc].
    + apply Hq0. rewrite He0 in Hqc. unfold cong in Hqc. rewrite Z.sub_0_r in Hqc.
      apply Z.divide_prime_mul in Hqc as [Hqc|Hqc]; [| |exact N256_prime].
      * apply (cong_unique N256); [exact Hqr|lia|]. unfold cong. rewrite Z.sub_0_r. exact Hqc.
      * apply Z.divide_pos_le in Hqc; lia.
Qed.
End round.

(** Every pass is the same, so a pass that does not sign is repeated forever. *)
Lemma sign_loop A K kz x : exact K kz → 0 < kz < N256 → x = abscissa A mod N256 →
  (∀ n P1 k, length k = 9%nat →
    returns (ECDH_generate (S n) P1 k) (λ '(rv, P, k'), rv = 0 ∧ k' = K ∧ arep P A)) →
  ∀ z d, bigval z → bigval d → 0 ≤ sval z < 2 ^ 256 →
  x = 0 ∨ (sval z + x * sval d) mod N256 = 0 →
  ∀ n P1 k sig, length k = 9%nat → ECDSA_sign n z d P1 k sig = Ub OutOfFuel.
Proof.
  intros HK HKr Hx Hgen z d Hz Hd Hzr H0 n. induction n as [|n IH]; intros P1 k sig Hk; [done|].
  pose proof (sign_round n A K kz x (Hgen n) HK HKr Hx z d P1 k sig Hz Hd Hzr Hk) as Hr. cbv zeta in Hr.
  rewrite decide_True in Hr by exact H0. destruct Hr as (P1' & sig' & ->). apply IH.
  exact (bigval_length K (proj1 HK)).
Qed.

(** What a call of ECDSA_sign does with a digest [z] and a key [d]. *)
Definition signs (z d : Z) (m : nat → outcome (Z * ECDSA_sig)) : Prop :=
  ((nonce_x = 0 ∨ (z + nonce_x * d) mod N256 = 0) ∧ ∀ n, m n = Ub OutOfFuel) ∨
  (¬ (nonce_x = 0 ∨ (z + nonce_x * d) mod N256 = 0) ∧
   ∀ n, returns (m (S n)) (λ '(rv, sg), rv = 0 ∧ ∃ s,
         exact (sig_r sg) nonce_x ∧ exact (sig_s sg) s ∧ 0 < s < N256 ∧
         s * wval K0 ≡[N256] z + nonce_x * d ∧ recovered_key z nonce_x s = d mod N256)).

Lemma ECDSA_sign_lemma z d P1 k sig : bigval z → bigval d → 0 ≤ sval z < 2 ^ 256 → length k = 9%nat →
  signs (sval z) (sval d) (λ n, ECDSA_sign n z d P1 k sig).
Proof.
  intros Hz Hd Hzr Hk. unfold signs. destruct K0_value as [HK HKr]. pose proof nonce_x_eq as Hx.
  destruct (decide (nonce_x = 0 ∨ (sval z + nonce_x * sval d) mod N256 = 0)) as [H0|H0];
    [left|right]; (split; [exact H0|]); intros n.
  - exact (sign_loop _ K0 _ nonce_x HK HKr Hx (λ n, ECDH_generate_lemma n) z d Hz Hd Hzr H0 n P1 k sig Hk).
  - pose proof (sign_round n _ K0 _ _ (ECDH_generate_lemma n) HK HKr Hx z d P1 k sig Hz Hd Hzr Hk) as Hr.
    cbv zeta in Hr. rewrite decide_False in Hr by exact H0.
    eapply returns_mono; [exact Hr|]. cbv beta. intros [rv sg] (-> & Hrr & s & Hs & Hsr & Hc).
    split; [reflexivity|]. exists s. rewrite cong_mod in Hc.
    split; [exact Hrr|]. split; [exact Hs|]. split; [exact Hsr|]. split; [exact Hc|].
    apply recovered_key_spec; [|exact Hc]. intros Hm. apply H0. left.
    rewrite <-Hm, Hx. symmetry. apply Z.mod_mod. pose proof N256_range. lia.
Qed.

(** * Verification *)

(** The point a verifier computes with: toJacobian does not look at the
    infinity flag, and the coordinates of [affine_infinity] are zero. *)
Definition unflagged (A : point) : point := Some (default (0, 0) A).

Definition ecdsa_check (z : Z) (Q : point) (r s : Z) : verify_res_t :=
  if r <? 1 then V_R_ZERO else if N256 <=? r then V_R_BIG
  else if s <? 1 then V_S_ZERO else if N256 <=? s then V_S_BIG
  else
    let w := inverse N256 s mod N256 in
    match ec_add (unflagged (ec_mul (r * w mod N256) Q)) (ec_mul (z * w mod N256) G) with
    | None => V_INFINITY
    | Some (x, _) => if x mod N256 =? r then V_SUCCESS else V_UNEQUAL
    end.

Lemma toJacobian_unflagged P A : arep P A → jrep (toJacobian P) (unflagged A).
Proof.
  destruct A as [[x y]|]; [apply toJacobian_rep|]. cbn [arep unflagged default]. intros ->.
  apply (toJacobian_rep (mkPoint big_zero big_zero 0) 0 0). cbn [arep].
  split_and!; eauto using big_zero_exact with field.
Qed.

Lemma orderP_exact : exact orderP N256.
Proof. exact orderP_big. Qed.

Lemma big_cmp_below t x b y : exact t x → exact b y → (big_cmp t b <? 0) = (x <? y).
Proof. intros [Ht <-] [Hb <-]. rewrite big_cmp_spec by done. apply eq_true_iff_eq. rewrite !Z.ltb_lt. lia. Qed.

Lemma big_cmp_above t x b y : exact t x → exact b y → (0 <=? big_cmp t b) = (y <=? x).
Proof. intros [Ht <-] [Hb <-]. rewrite big_cmp_spec by done. apply eq_true_iff_eq. rewrite !Z.leb_le. lia. Qed.

Lemma big_cmp_equal t x b y : exact t x → exact b y → (big_cmp t b =? 0) = (x =? y).
Proof. intros [Ht <-] [Hb <-]. rewrite big_cmp_spec by done. apply eq_true_iff_eq. rewrite !Z.eqb_eq. lia. Qed.

Lemma order_inverse w s : 0 < s < N256 → 0 ≤ w < N256 → w * s ≡[N256] 1 →
  w = inverse N256 s mod N256.
Proof.
  intros Hs Hw Hc. pose proof N256_range. pose proof (inverse_spec N256 s N256_prime ltac:(lia)) as Hi.
  rewrite Z.mod_small in Hi by lia. specialize (Hi ltac:(lia)).
  generalize dependent (inverse N256 s). intros i Hi.
  apply (cong_unique N256); [exact Hw|apply Z.mod_pos_bound; lia|]. rewrite cong_mod.
  transitivity (w * (s * i)); [rewrite Hi; apply cong_eq; ring|].
  transitivity (w * s * i); [apply cong_eq; ring|]. rewrite Hc. apply cong_eq. ring.
Qed.

Lemma order_product a b x y : exact a x → exact b y →
  returns (t ← big_mpyP a b MOD_ORDER; big_precise_reduce t orderP) (λ t, exact t (x * y mod N256)).
Proof.
  intros [Ha <-] [Hb <-]. eapply returns_bind; [by apply omul|]. cbv beta. intros t (Ht & Hr & Hc).
  eapply returns_mono; [by apply oreduce|]. cbv beta. intros t' [Ht' Hv]. split; [done|].
  rewrite Hv. apply cong_mod_eq; [|done]. pose proof N256_range. lia.
Qed.

Lemma pointMpyP_order k x P A : exact k x → 0 ≤ x < N256 → arep P A → A ≠ None →
  returns (pointMpyP k P) (λ a, arep a (ec_mul x A)).
Proof.
  intros [Hk Hx] Hr HP HA. rewrite <-Hx. apply pointMpyP_lemma; [exact Hk|exact HP|exact HA|].
  rewrite Hx. pose proof N256_range. lia.
Qed.

Lemma bind_returns {A C D} (m : outcome A) (f : A → outcome C) (g : C → outcome D) (Q : D → Prop) R :
  returns (m ≫= f) R → (∀ c, R c → returns (g c) Q) → returns (m ≫= λ a, f a ≫= g) Q.
Proof. intros H Hg. rewrite <-bind_assoc. by eapply returns_bind. Qed.

Lemma ECDSA_verify_inner_lemma z Q sig A r s : bigval z → arep Q A → A ≠ None →
  exact (sig_r sig) r → exact (sig_s sig) s →
  ECDSA_verify_inner z Q sig = Ok (ecdsa_check (sval z) A r s).
Proof.
  intros Hz HQ HA Hr Hs. unfold ECDSA_verify_inner, ecdsa_check.
  rewrite (big_cmp_below _ _ _ _ Hr big_one_exact), (big_cmp_below _ _ _ _ Hs big_one_exact).
  rewrite (big_cmp_above _ _ _ _ Hr orderP_exact), (big_cmp_above _ _ _ _ Hs orderP_exact).
  destruct (Z.ltb_spec r 1) as [|Hr1]; [reflexivity|]. destruct (Z.leb_spec N256 r) as [|Hr2]; [reflexivity|].
  destruct (Z.ltb_spec s 1) as [|Hs1]; [reflexivity|]. destruct (Z.leb_spec N256 s) as [|Hs2]; [reflexivity|].
  cbv zeta. pose proof N256_range as HN.
  destruct (odivide _ _ 1 s big_one_exact Hs) as (w & -> & wi & Hw & Hwr & Hwc); [lia|lia|].
  rewrite bind_Ok. rewrite <-(order_inverse wi s) by (lia || exact Hwc).
  enough (returns (u1 ← big_mpyP z w MOD_ORDER; u1 ← big_precise_reduce u1 orderP;
    u2 ← big_mpyP (sig_r sig) w MOD_ORDER; u2 ← big_precise_reduce u2 orderP;
    P1 ← pointMpyP u1 base_point; P2 ← pointMpyP u2 Q; XJ ← pointAdd (toJacobian P2) P1;
    X ← toAffine XJ; if negb (infinity X =? 0) then Ok V_INFINITY else
    v ← big_precise_reduce (px X) orderP;
    if negb (big_cmp v (sig_r sig) =? 0) then Ok V_UNEQUAL else Ok V_SUCCESS)
    (λ v, v = match ec_add (unflagged (ec_mul (r * wi mod N256) A)) (ec_mul (sval z * wi mod N256) G) with
    | None => V_INFINITY | Some (x, _) => if x mod N256 =? r then V_SUCCESS else V_UNEQUAL end))
    as (v & Hv & ->) by exact Hv.
  eapply bind_returns; [apply (order_product z w (sval z) wi); [by split|done]|]. intros u1 Hu1.
  eapply bind_returns; [apply (order_product _ w r wi Hr); done|]. intros u2 Hu2.
  assert (∀ x, 0 ≤ x mod N256 < N256) as Hm by (intros; apply Z.mod_pos_bound; lia).
  eapply returns_bind; [apply (pointMpyP_order _ _ _ _ Hu1 (Hm _) base_point_rep G_some)|].
  cbv beta. intros P1 HP1. eapply returns_bind; [apply (pointMpyP_order _ _ _ _ Hu2 (Hm _) HQ HA)|].
  cbv beta. intros P2 HP2. generalize dependent (ec_mul (sval z * wi mod N256) G). intros A1 HP1.
  generalize dependent (ec_mul (r * wi mod N256) A). intros A2 HP2.
  eapply returns_bind; [apply pointAdd_lemma; [by apply toJacobian_unflagged|exact HP1]|].
  cbv beta. intros XJ HXJ. eapply returns_bind; [by apply toAffine_lemma|]. cbv beta. intros X HX.
  destruct (ec_add _ _) as [[x y]|]; cbn [arep] in HX; [|rewrite HX; by apply returns_Ok].
  destruct HX as (-> & [HXb HXv] & _). cbn [Z.eqb negb].
  eapply returns_bind; [by apply oreduce|]. cbv beta. intros v Hv.
  rewrite (big_cmp_equal _ _ _ _ Hv Hr), HXv. destruct (_ =? r); by apply returns_Ok.
Qed.

(** * Byte strings *)
Lemma bytes_to_words_spec m rs n : ∀ i tgt, bytes rs → zlen rs ≤ 32 →
  has m 0 (reverse rs) → 0 ≤ i → i + Z.of_nat n = zlen rs →
  bigval tgt → wval tgt = le_combine (take (Z.to_nat i) rs) →
  ∃ t, bytes_to_words n i tgt m (zlen rs) = Ok t ∧ bigval t ∧ wval t = le_combine rs.
Proof.
  induction n as [|n IH]; intros i tgt Hb Hl Hm Hi Hin Ht Hv; cbn [bytes_to_words].
  - exists tgt. split_and!; [done|done|]. rewrite Hv, take_ge by (unfold zlen in *; lia). done.
  - destruct (lookup_lt_is_Some_2 rs (Z.to_nat i)) as [b Hbi]; [unfold zlen in *; lia|].
    assert (rd m (zlen rs - 1 - i) = Ok b) as ->.
    { rewrite <-(take_drop_middle rs _ _ Hbi), reverse_app, reverse_cons in Hm.
      rewrite <-app_assoc in Hm. apply has_app in Hm as [_ Hm]. apply rd_has in Hm as <-. f_equal.
      unfold zlen in *. rewrite length_reverse, length_drop. lia. }
    pose proof (Forall_lookup_1 _ _ _ _ Hb Hbi) as Hb8.
    assert (0 ≤ i / 4 < 9) as Hj by dlia. pose proof (proj1 Ht) as Htl. unfold BIGLEN in Htl.
    destruct (wval_word tgt (i / 4) Ht Hj) as [Hw [h Hh]].
    rewrite bind_Ok, rd_wd, bind_Ok by lia. set (w := wd tgt (i / 4)) in *.
    set (r := i mod 4). assert (i = 4 * (i / 4) + r ∧ 0 ≤ r < 4) as [Hir Hr] by (unfold r; dlia).
    pose proof (le_combine_range (take (Z.to_nat i) rs) (Forall_take _ _ _ Hb)) as Hc.
    assert (zlen (take (Z.to_nat i) rs) = i) as Hti by (unfold zlen in *; rewrite length_take; lia).
    rewrite Hti, <-Hv in Hc.
    assert (0 ≤ w < 2 ^ (8 * r)) as Hwr.
    { split; [apply Hw|]. assert (wval tgt / 2 ^ (32 * (i / 4)) < 2 ^ (8 * r)) as Hq.
      { apply Z.div_lt_upper_bound; [lia|]. rewrite <-Z.pow_add_r by lia.
        replace (32 * (i / 4) + 8 * r) with (8 * i) by lia. rewrite Z.pow_mul_r by lia. apply Hc. }
      assert (0 ≤ wval tgt / 2 ^ (32 * (i / 4))) as Hq0 by (apply Z.div_pos; lia).
      unfold is_u32 in Hw. assert (0 ≤ h) by (clear -Hq0 Hh Hw; lia). lia. }
    assert (b * 2 ^ (8 * r) + 2 ^ (8 * r) ≤ 2 ^ 32 ∧ 0 ≤ b * 2 ^ (8 * r)) as [Hb1 Hb0].
    { unfold is_u8 in Hb8. assert (2 ^ (8 * r) * 256 ≤ 2 ^ 32); [|nia].
      change 256 with (2 ^ 8). rewrite <-Z.pow_add_r by lia. apply Z.pow_le_mono_r; lia. }
    change (2 ^ 32) with 4294967296 in Hb1. fold r.
    assert (Z.lor w (u32 (Z.shiftl b (8 * r))) = w + b * 2 ^ (8 * r)) as ->.
    { rewrite <-(lor_shiftl_add (8 * r)) by lia. f_equal.
      rewrite Z.shiftl_mul_pow2 by lia. apply u32_id. unfold is_u32. lia. }
    set (w' := w + b * 2 ^ (8 * r)). assert (tgt !! Z.to_nat (i / 4) = Some w) as Hlk.
    { unfold w. rewrite wd_lookup by lia.
      destruct (lookup_lt_is_Some_2 tgt (Z.to_nat (i / 4))) as [x Hx]; [unfold zlen in Htl; lia|].
      by rewrite Hx. }
    unfold wr. rewrite (proj2 (Z.leb_le _ _)), (proj2 (Z.ltb_lt _ _)) by lia. cbn [andb]. rewrite bind_Ok.
    apply IH; [done|done|done|lia|lia| |].
    + split; [unfold zlen in *; by rewrite length_insert|]. apply Forall_insert; [apply Ht|].
      unfold is_u32, w'. lia.
    + rewrite (wval_insert _ _ w' w Hlk), Hv, Z2Nat.id by lia.
      replace (Z.to_nat (i + 1)) with (S (Z.to_nat i)) by lia.
      rewrite (take_S_r _ _ _ Hbi), le_combine_app, Hti. cbn [le_combine].
      unfold w'. replace 256 with (2 ^ 8) by done. replace B with (2 ^ 32) by done.
      rewrite <-!Z.pow_mul_r by lia. replace (8 * i) with (8 * r + 32 * (i / 4)) by lia.
      rewrite Z.pow_add_r by lia. ring.
Qed.

Lemma BigIntToBigVal_lemma m bs : bytes bs → has m 0 bs →
  returns (BigIntToBigVal m (zlen bs)) (λ t, exact t (be_combine (take 32 bs)) ∧ 0 ≤ sval t < 2 ^ 256).
Proof.
  intros Hb Hm. unfold BigIntToBigVal. set (cs := take 32 bs).
  assert (Z.min (zlen bs) ((BIGLEN - 1) * 4) = zlen cs) as ->.
  { unfold zlen, BIGLEN, cs. rewrite length_take. lia. }
  assert (bytes cs) as Hcb by by apply Forall_take.
  assert (zlen cs ≤ 32) as Hcl by (unfold zlen, cs; rewrite length_take; lia).
  assert (zlen (reverse cs) = zlen cs) as Hrl by (unfold zlen; by rewrite length_reverse).
  assert (bigval big_zero) as Hz by apply big_zero_exact.
  destruct (bytes_to_words_spec m (reverse cs) (Z.to_nat (zlen cs)) 0 big_zero) as (t & Ht & Hbt & Hv).
  - by apply Forall_reverse.
  - lia.
  - rewrite reverse_involutive. unfold cs. rewrite <-(take_drop 32 bs) in Hm. by apply has_app in Hm as [? _].
  - lia.
  - rewrite Hrl. pose proof (zlen_nonneg cs). lia.
  - done.
  - done.
  - rewrite Hrl in Ht. exists t. split; [exact Ht|].
    pose proof (le_combine_range (reverse cs) ltac:(by apply Forall_reverse)) as Hr.
    assert (256 ^ zlen (reverse cs) ≤ 2 ^ 256) as Hp.
    { change 256 with (2 ^ 8) at 1. pose proof (zlen_nonneg cs). rewrite <-Z.pow_mul_r by lia.
      apply Z.pow_le_mono_r; lia. }
    assert (sval t = le_combine (reverse cs)) as Hs by (apply wval_eq_sval; [done|lia|done]).
    split; [by split|]. rewrite Hs. lia.
Qed.

(** * Derived keys *)
Lemma words_of_bytes_app n m : ∀ a b, length a = (4 * n)%nat →
  words_of_bytes (n + m) (a ++ b) = words_of_bytes n a ++ words_of_bytes m b.
Proof.
  induction n as [|n IH]; intros a b Hl; [by destruct a|].
  destruct a as [|x [|y [|z [|w a]]]]; cbn [length] in Hl; [lia..|].
  cbn [Nat.add words_of_bytes app take drop]. rewrite !drop_0. f_equal. apply IH. lia.
Qed.

Lemma length_hmac key m : length (hmac key m) = 32%nat.
Proof.
  unfold hmac. pose proof (length_sha256 (xor_pad 92 (hmac_key key) ++
    Fips.sha256 (xor_pad 54 (hmac_key key) ++ m))) as H. unfold zlen in H. lia.
Qed.

(** The key derived from [src]: the output of the key derivation function for
    256 bits, as words. *)
Definition derived (src : list Z) (label : option (list Z)) : list Z :=
  words_of_bytes 8 (kdf_iteration le_split (take 32 (bytes_of_words src)) 1
                      (kdf_fixed le_split label None 256)) ++ [0].

Lemma derived_words src label k : length k = 9%nat → k !! 8%nat = Some 0 →
  let h := kdf_iteration le_split (take 32 (bytes_of_words src)) 1 (kdf_fixed le_split label None 256) in
  words_of_bytes 9 (splice (bytes_of_words k) 0 h) = derived src label.
Proof.
  intros Hl Hk h. assert (length h = 32%nat) as Hh by apply length_hmac.
  assert (splice (bytes_of_words k) 0 h = h ++ [0; 0; 0; 0]) as ->.
  { unfold splice, ztake, zdrop, zlen. rewrite Hh. cbn [Z.add Z.of_nat Z.to_nat]. rewrite take_0. cbn [app]. f_equal.
    do 10 (destruct k as [|? k]; try done). by injection Hk as ->. }
  unfold derived. fold h. change 9%nat with (8 + 1)%nat. by rewrite words_of_bytes_app.
Qed.

Lemma opt_has_take lp label n : opt_has lp label → opt_has lp (take n <$> label).
Proof.
  destruct lp as [m|], label as [b|]; try done. cbn. intros H. rewrite <-(take_drop n b) in H.
  by apply has_app in H as [H _].
Qed.

Lemma derive_round ctx k src lp label fixed fixedSize n :
  bigval src → length (opad ctx) = 64%nat → opt_has lp label → bytes (default [] label) →
  zlen (default [] label) ≤ 32 → 37 ≤ zlen fixed → length k = 9%nat → k !! 8%nat = Some 0 →
  ∃ fixed', 37 ≤ zlen fixed' ∧
  derive_loop (S n) ctx k src lp (zlen (default [] label)) fixed fixedSize
  = if big_is_zero (derived src label) || (0 <=? big_cmp (derived src label) orderP)
    then derive_loop n ctx (derived src label) src lp (zlen (default [] label)) fixed'
           (zlen (default [] label) + 5)
    else Ok (derived src label).
Proof.
  intros Hs Ho Hl Hlb Hll Hf Hk Hk8. cbn [derive_loop].
  set (bs := kdf_fixed le_split label None 256).
  assert (zlen bs = zlen (default [] label) + 5) as Hbs.
  { unfold bs, kdf_fixed. cbn [default]. rewrite !zlen_app. change (zlen [0]) with 1.
    change (zlen (le_split 4 256)) with 4. change (zlen []) with 0. lia. }
  pose proof (RIOT_KDF_FIXED_lemma fixed fixedSize lp label None None 256 Hl I ltac:(done)) as Hfx.
  cbn [default] in Hfx. change (zlen []) with 0 in Hfx. fold bs in Hfx.
  change (RIOT_ECC_PRIVATE_BYTES * 8) with 256.
  rewrite Hfx by lia. rewrite (proj2 (Z.leb_le _ _)), bind_Ok by lia.
  exists (splice fixed 0 bs). split; [rewrite zlen_splice by lia; done|].
  set (key := take 32 (bytes_of_words src)).
  pose proof (bigval_length src Hs) as Hsl.
  assert (length key = 32%nat) as Hkey by (unfold key; rewrite length_take, length_bytes_of_words, Hsl; done).
  assert (bytes key) as Hkb by (unfold key; apply Forall_take, bytes_of_words_bytes).
  pose proof (RIOT_KDF_SHA256_lemma ctx (bytes_of_words k) (bytes_of_words src) key None
    (splice fixed 0 bs) bs Ho Hkb) as Hkdf.
  assert (zlen key = 32) as Hkz by (unfold zlen; lia). rewrite Hkz in Hkdf.
  change RIOT_ECC_PRIVATE_BYTES with 32. rewrite <-Hbs. rewrite Hkdf; clear Hkdf Hfx.
  - rewrite bind_Ok. cbv zeta. change (u32 (default 0 None + 1)) with 1. change (Z.to_nat BIGLEN) with 9%nat.
    unfold key, bs. by rewrite (derived_words src label k Hk Hk8).
  - unfold key. rewrite <-(take_drop 32 (bytes_of_words src)) at 1. apply has_whole.
  - unfold bs, kdf_fixed. cbn [default]. apply Forall_app. split; [done|].
    apply Forall_app. split; [by repeat constructor|apply le_split_bytes].
  - apply has_splice; lia.
  - unfold zlen. rewrite length_bytes_of_words, Hk. lia.
  - done.
  - lia.
Qed.

Lemma derived_exact src label : exact (derived src label) (wval (derived src label)) ∧
  0 ≤ wval (derived src label) < 2 ^ 256 ∧ derived src label !! 8%nat = Some 0.
Proof.
  unfold derived. set (ws := words_of_bytes 8 _).
  assert (length ws = 8%nat) as Hl by apply length_words_of_bytes.
  assert (Forall is_u32 ws) as Hw by (apply words_of_bytes_u32; [apply sha256_bytes|apply Nat.eq_le_incl; symmetry; apply length_hmac]).
  assert (bigval (ws ++ [0])) as Hb.
  { split; [unfold zlen, BIGLEN; rewrite length_app, Hl; done|].
    apply Forall_app. split; [done|by repeat constructor]. }
  pose proof (wval_range ws Hw) as Hr. unfold Bn, zlen in Hr. rewrite Hl in Hr.
  change (B ^ Z.of_nat 8) with (2 ^ 256) in Hr.
  assert (wval (ws ++ [0]) = wval ws) as Hv by (rewrite wval_app; cbn [wval]; lia).
  split_and!; [|lia|lia|by rewrite lookup_app_r, Hl by lia].
  split; [done|]. apply wval_eq_sval; [done|lia|done].
Qed.

(** The key of ECDH_derive is in the range of private keys, or the loop never
    ends: every round derives the same number. *)
Lemma ECDH_derive_lemma ctx k src lp label fixed :
  bigval src → length (opad ctx) = 64%nat → opt_has lp label → bytes (default [] label) →
  37 ≤ zlen fixed → length k = 9%nat →
  let d := derived src (take 32 <$> label) in
  (0 < wval d < N256 ∧ ∀ n, returns (ECDH_derive (S n) ctx fixed k src lp (zlen (default [] label)))
     (λ '(P, k'), k' = d ∧ arep P (ec_mul (wval d) G))) ∨
  (¬ 0 < wval d < N256 ∧
   ∀ n, ECDH_derive n ctx fixed k src lp (zlen (default [] label)) = Ub OutOfFuel).
Proof.
  intros Hs Ho Hl Hlb Hf Hk d.
  set (label' := take 32 <$> label) in *. assert (opt_has lp label') as Hl' by by apply opt_has_take.
  assert (bytes (default [] label')) as Hlb' by (unfold label'; destruct label; [by apply Forall_take|done]).
  assert (zlen (default [] label') = Z.min (zlen (default [] label)) 32) as Hlen.
  { unfold label', zlen. destruct label; cbn; [rewrite length_take; lia|done]. }
  destruct (derived_exact src label') as ([Hdb Hds] & Hdr & Hd8). fold d in Hdb, Hds, Hdr, Hd8.
  pose proof (bigval_length d Hdb) as Hdl. pose proof N256_range as HN.
  assert (big_is_zero d || (0 <=? big_cmp d orderP) = negb (bool_decide (0 < wval d < N256))) as Hz.
  { rewrite (big_cmp_above d _ _ _ (conj Hdb Hds) orderP_exact), (exact_zero d _ (conj Hdb Hds)).
    apply eq_true_iff_eq. rewrite orb_true_iff, bool_decide_eq_true, Z.leb_le, negb_true_iff, bool_decide_eq_false. lia. }
  assert (∀ n k fixed z, length k = 9%nat → k !! 8%nat = Some 0 → 37 ≤ zlen fixed →
    derive_loop n ctx k src lp (zlen (default [] label')) fixed z
    = if decide (0 < wval d < N256) then match n with O => Ub OutOfFuel | S _ => Ok d end else Ub OutOfFuel) as Hloop.
  { clear Hk Hf k fixed. intros n. induction n as [|n IH]; intros k fixed z Hk Hk8 Hf; [by destruct (decide _)|].
    destruct (derive_round ctx k src lp label' fixed z n Hs Ho Hl' Hlb' ltac:(lia) Hf Hk Hk8) as (fixed' & Hf' & ->).
    fold d. rewrite Hz. destruct (decide _) as [Hd|Hd].
    - by rewrite bool_decide_eq_true_2.
    - rewrite bool_decide_eq_false_2 by done. cbn [negb]. by apply IH. }
  assert (∀ n, ECDH_derive n ctx fixed k src lp (zlen (default [] label)) =
    k ← (if decide (0 < wval d < N256) then match n with O => Ub OutOfFuel | S _ => Ok d end else Ub OutOfFuel);
    P1 ← pointMpyP k base_point; Ok (P1, k)) as Hd.
  { intros n. unfold ECDH_derive. change RIOT_ECC_PRIVATE_BYTES with 32.
    assert ((if 32 <? zlen (default [] label) then 32 else zlen (default [] label)) = zlen (default [] label')) as ->.
    { rewrite Hlen. destruct (Z.ltb_spec 32 (zlen (default [] label))); lia. }
    assert (wr k (BIGLEN - 1) 0 = Ok (<[8%nat:=0]> k)) as -> by
      (unfold wr, zlen, BIGLEN; rewrite Hk; done).
    rewrite bind_Ok, Hloop; [done|by rewrite length_insert|by apply list_lookup_insert_eq; lia|done]. }
  destruct (decide _) as [Hdr'|Hdr'] in Hd; [left|right]; (split; [exact Hdr'|]); intros n; rewrite Hd;
    [|reflexivity]. rewrite bind_Ok.
  eapply returns_bind; [apply (pointMpyP_order d _ _ _ (conj Hdb Hds) ltac:(lia) base_point_rep G_some)|].
  cbv beta. intros P HP. apply returns_Ok. split; [reflexivity|exact HP].
Qed.

(** * Signing a digest *)
Lemma RIOT_DSASignDigest_lemma m digest d P1 k sig : bytes digest → zlen digest = 32 →
  has m 0 digest → bigval d → length k = 9%nat →
  signs (be_combine digest) (sval d) (λ n, RIOT_DSASignDigest n m d P1 k sig).
Proof.
  intros Hb Hl Hm Hd Hk. destruct (BigIntToBigVal_lemma m digest Hb Hm) as (z & Hz & [Hzb Hzv] & Hzr).
  rewrite Hl in Hz. rewrite take_ge in Hzv by (unfold zlen in Hl; lia).
  pose proof (ECDSA_sign_lemma z d P1 k sig Hzb Hd Hzr Hk) as Hs. rewrite Hzv in Hs.
  assert (∀ n, RIOT_DSASignDigest n m d P1 k sig =
    '(rv, sig) ← ECDSA_sign n z d P1 k sig; Ok (if rv =? 0 then RIOT_SUCCESS else RIOT_FAILURE, sig)) as He.
  { intros n. unfold RIOT_DSASignDigest. change SHA256_DIGEST_LENGTH with 32. rewrite Hz, bind_Ok. reflexivity. }
  destruct Hs as [[H0 Hs]|[H0 Hs]]; [left|right]; (split; [exact H0|]); intros n; rewrite He;
    specialize (Hs n); cbv beta in Hs; [rewrite Hs; reflexivity|].
  eapply returns_bind; [exact Hs|]. cbv beta. intros [rv sg] (-> & H). apply returns_Ok.
  split; [reflexivity|exact H].
Qed.

(** * Properties *)

(** C6: RIOT_DSASignDigest makes every signature with the same ephemeral key,
    so that one signature determines the private key by public arithmetic; when
    a component of the signature would be zero it repeats forever. *)
Theorem RIOT_DSASignDigest_spec m digest d P1 k sig : bytes digest → zlen digest = 32 →
  has m 0 digest → bigval d → length k = 9%nat →
  signs (be_combine digest) (sval d) (λ n, RIOT_DSASignDigest n m d P1 k sig).
Proof. apply RIOT_DSASignDigest_lemma. Qed.

Lemma RIOT_DSASignDigest_spec_witness :
  signs (be_combine (zeros 32)) (sval big_one)
    (λ n, RIOT_DSASignDigest n (zeros 32) big_one affine_infinity big_zero (mkSig big_zero big_zero)).
Proof.
  apply (RIOT_DSASignDigest_spec (zeros 32) (zeros 32) big_one);
    [by repeat constructor|reflexivity|apply has_self|apply big_one_exact|reflexivity].
Defined.

(** C25: RIOT_DSAVerifyDigest accepts exactly the signatures that satisfy the
    ECDSA equation for the digest, with both components in range. *)
Theorem RIOT_DSAVerifyDigest_spec m digest sig Q A r s : bytes digest → zlen digest = 32 →
  has m 0 digest → arep Q A → A ≠ None → exact (sig_r sig) r → exact (sig_s sig) s →
  RIOT_DSAVerifyDigest m sig Q
  = Ok (if decide (ecdsa_check (be_combine digest) A r s = V_SUCCESS) then RIOT_SUCCESS else RIOT_FAILURE).
Proof.
  intros Hb Hl Hm HQ HA Hr Hs. destruct (BigIntToBigVal_lemma m digest Hb Hm) as (z & Hz & [Hzb Hzv] & _).
  rewrite Hl in Hz. rewrite take_ge in Hzv by (unfold zlen in Hl; lia).
  unfold RIOT_DSAVerifyDigest, ECDSA_verify. change SHA256_DIGEST_LENGTH with 32. rewrite Hz, bind_Ok.
  rewrite (ECDSA_verify_inner_lemma z Q sig A r s Hzb HQ HA Hr Hs), !bind_Ok, Hzv.
  generalize (ecdsa_check (be_combine digest) A r s). intros v. destruct v; reflexivity.
Qed.

Lemma RIOT_DSAVerifyDigest_spec_witness :
  RIOT_DSAVerifyDigest (zeros 32) (mkSig big_zero big_one) base_point
  = Ok (if decide (ecdsa_check (be_combine (zeros 32)) G 0 1 = V_SUCCESS) then RIOT_SUCCESS else RIOT_FAILURE) ∧
  ecdsa_check (be_combine (zeros 32)) G 0 1 = V_R_ZERO.
Proof.
  split; [|reflexivity].
  apply (RIOT_DSAVerifyDigest_spec (zeros 32) (zeros 32) _ base_point G 0 1);
    [by repeat constructor|reflexivity|apply has_self|apply base_point_rep|apply G_some
    |apply big_zero_exact|apply big_one_exact].
Defined.

(** C26: RIOT_DeriveDsaKeyPair gives the key its derivation function outputs when
    that is in the range of private keys, with its public key; otherwise it
    never returns, since every round of its loop derives the same number. *)
Theorem RIOT_DeriveDsaKeyPair_spec ctx k src lp label fixed :
  bigval src → length (opad ctx) = 64%nat → opt_has lp label → bytes (default [] label) →
  37 ≤ zlen fixed → length k = 9%nat →
  let d := derived src (take 32 <$> label) in
  (0 < wval d < N256 ∧
   ∀ n, returns (RIOT_DeriveDsaKeyPair (S n) ctx fixed k src lp (zlen (default [] label)))
     (λ '(rv, P, k'), rv = RIOT_SUCCESS ∧ k' = d ∧ arep P (ec_mul (wval d) G))) ∨
  (¬ 0 < wval d < N256 ∧
   ∀ n, RIOT_DeriveDsaKeyPair n ctx fixed k src lp (zlen (default [] label)) = Ub OutOfFuel).
Proof.
  intros Hs Ho Hl Hlb Hf Hk d.
  pose proof (ECDH_derive_lemma ctx k src lp label fixed Hs Ho Hl Hlb Hf Hk) as H. cbv zeta in H. fold d in H.
  destruct H as [[H0 H]|[H0 H]]; [left|right]; (split; [exact H0|]); intros n;
    unfold RIOT_DeriveDsaKeyPair; specialize (H n); [|rewrite H; reflexivity].
  eapply returns_bind; [exact H|]. cbv beta. intros [P k'] [-> HP]. apply returns_Ok.
  split; [reflexivity|]. split; [reflexivity|exact HP].
Qed.

Lemma RIOT_DeriveDsaKeyPair_spec_witness :
  let d := derived big_one (take 32 <$> Some [73]) in
  (0 < wval d < N256 ∧ ∀ n, returns (RIOT_DeriveDsaKeyPair (S n) (mkHmac sha256_clear_ctx (zeros 64)) (zeros 37) big_zero
                       big_one (Some [73]) 1)
         (λ '(rv, P, k'), rv = RIOT_SUCCESS ∧ k' = d ∧ arep P (ec_mul (wval d) G))) ∨
  (¬ 0 < wval d < N256 ∧ ∀ n, RIOT_DeriveDsaKeyPair n (mkHmac sha256_clear_ctx (zeros 64)) (zeros 37) big_zero
              big_one (Some [73]) 1 = Ub OutOfFuel).
Proof.
  apply (RIOT_DeriveDsaKeyPair_spec (mkHmac sha256_clear_ctx (zeros 64)) big_zero big_one (Some [73]) (Some [73]) (zeros 37));
    [apply big_one_exact|reflexivity|apply has_self|by repeat constructor|done|reflexivity].
Defined.
