(* ===== verification/CurveSpec.v ===== *)
(** Points of the curve: the operations stay on it, the validity checks of
    ECDH, and results of key generation and signing as explicit values. *)
From S2P Require Export EcdsaSpec.

(** * The operations stay on the curve *)
Definition curve_error (x y : Z) : Z := x * x * x - 3 * x + sval curve_b - y * y.

Lemma on_curve_error x y : on_curve (Some (x, y)) ↔ curve_error x y ≡[P256] 0.
Proof.
  unfold on_curve, curve_error. generalize (sval curve_b). intros b. split; intros H.
  - rewrite H. apply cong_eq. ring.
  - unfold cong in *. rewrite Z.sub_0_r in H. apply Z.divide_opp_r in H.
    by replace (y * y - (x * x * x - 3 * x + b)) with (- (x * x * x - 3 * x + b - y * y)) by ring.
Qed.

(** The third intersection of the curve with a tangent or a chord. *)
Lemma tangent_on_curve l x y : let x3 := l * l - x - x in
  curve_error x y ≡[P256] 0 → l * (2 * y) ≡[P256] 3 * x * x - 3 →
  curve_error x3 (l * (x - x3) - y) ≡[P256] 0.
Proof.
  intros x3 Hc Hl. unfold curve_error in *. revert Hc. generalize (sval curve_b). intros b Hc.
  transitivity ((x3 - x) * (3 * x * x - 3 - l * (2 * y)) + (x * x * x - 3 * x + b - y * y));
    [apply cong_eq; unfold x3; ring|].
  rewrite Hc, Hl. apply cong_eq. ring.
Qed.

Lemma chord_on_curve l x1 y1 x2 y2 : let x3 := l * l - x1 - x2 in
  curve_error x1 y1 ≡[P256] 0 → curve_error x2 y2 ≡[P256] 0 → ¬ x2 - x1 ≡[P256] 0 →
  l * (x2 - x1) ≡[P256] y2 - y1 → curve_error x3 (l * (x1 - x3) - y1) ≡[P256] 0.
Proof.
  intros x3 H1 H2 Hne Hl. unfold curve_error in *. revert H1 H2. generalize (sval curve_b). intros b H1 H2.
  enough ((x2 - x1) * (x3 * x3 * x3 - 3 * x3 + b - (l * (x1 - x3) - y1) * (l * (x1 - x3) - y1)) ≡[P256] 0) as H.
  { apply cong_integral in H as [H|H]; [by destruct Hne|exact H]. }
  transitivity ((x2 - x3) * (x1 * x1 * x1 - 3 * x1 + b - y1 * y1) +
    (x3 - x1) * (x2 * x2 * x2 - 3 * x2 + b - (l * (x2 - x1) + y1) * (l * (x2 - x1) + y1)));
    [apply cong_eq; unfold x3; ring|].
  rewrite Hl. replace (y2 - y1 + y1) with y2 by ring. rewrite H1, H2. apply cong_eq. ring.
Qed.

Lemma third_on_curve l x y x' : curve_error (l * l - x - x') (l * (x - (l * l - x - x')) - y) ≡[P256] 0 →
  on_curve (ec_third l x y x').
Proof.
  intros H. unfold ec_third. apply on_curve_error. revert H. unfold curve_error.
  generalize (sval curve_b) (l * l - x - x'). intros b x3 H.
  pose proof (cong_mod P256 (l * (x - x3 mod P256) - y)) as Hy. pose proof (cong_mod P256 x3) as Hx.
  generalize dependent ((l * (x - x3 mod P256) - y) mod P256). generalize dependent (x3 mod P256).
  intros x4 Hx y4 Hy. rewrite Hy, Hx. exact H.
Qed.

Lemma valid_third l x y x' : valid (ec_third l x y x').
Proof. split; apply residue_mod. Qed.

(** A point of the curve with reduced coordinates. *)
Definition curve_point (A : point) : Prop := valid A ∧ on_curve A.

Lemma curve_point_None : curve_point None.
Proof. by split. Qed.

Lemma ec_double_on_curve A : curve_point A → curve_point (ec_double A).
Proof.
  destruct A as [[x y]|]; [|done]. intros [[Hx Hy] Hc]. apply on_curve_error in Hc. cbn [ec_double].
  destruct (Z.eqb_spec y 0) as [->|Hy0]; [apply curve_point_None|].
  split; [apply valid_third|]. apply third_on_curve, tangent_on_curve; [exact Hc|].
  by apply tangent_slope.
Qed.

Lemma ec_add_on_curve A C : curve_point A → curve_point C → curve_point (ec_add A C).
Proof.
  intros HA HC. destruct A as [[x1 y1]|], C as [[x2 y2]|]; [|exact HA|exact HC|exact HA].
  pose proof HA as [[Hx1 _] H1]. pose proof HC as [[Hx2 _] H2]. cbn [ec_add].
  apply on_curve_error in H1, H2. destruct (Z.eqb_spec x1 x2) as [He|Hne].
  - destruct (y1 =? y2); [by apply ec_double_on_curve|apply curve_point_None].
  - split; [apply valid_third|]. eapply third_on_curve, chord_on_curve; [exact H1|exact H2| |].
    + intros H. by apply Hne, residue_sub_0.
    + by apply chord_slope.
Qed.

Lemma ec_small_on_curve d A : curve_point A → curve_point (ec_small d A).
Proof.
  intros HA. unfold ec_small. repeat case_match; try done; [by apply ec_double_on_curve|].
  apply ec_add_on_curve; [by apply ec_double_on_curve|done].
Qed.

Lemma ec_mul_digits_on_curve n A : curve_point A → ∀ k, curve_point (ec_mul_digits n k A).
Proof.
  intros HA. induction n as [|n IH]; intros k; [apply curve_point_None|]. cbn [ec_mul_digits].
  apply ec_add_on_curve; [by do 2 apply ec_double_on_curve|by apply ec_small_on_curve].
Qed.

Lemma ec_mul_on_curve k A : curve_point A → curve_point (ec_mul k A).
Proof. intros HA. by apply ec_mul_digits_on_curve. Qed.

Lemma arep_valid P A : arep P A → valid A.
Proof. destruct A as [[x y]|]; [|done]. by intros (_ & _ & _ & ? & ?). Qed.

Lemma G_on_curve : curve_point G.
Proof.
  split; [apply (arep_valid base_point), base_point_rep|]. apply on_curve_error.
  unfold cong. apply Z.mod_divide; [rewrite P256_eq; lia|]. vm_compute. reflexivity.
Qed.

(** * Canonical big integers and points *)
Fixpoint digits (n : nat) (x : Z) : list Z :=
  match n with
  | O => []
  | S n => x mod B :: digits n (x / B)
  end.

Definition words_of (x : Z) : list Z := digits 9 x.

Definition affine_of (A : point) : affine_point :=
  match A with
  | None => affine_infinity
  | Some (x, y) => mkPoint (words_of x) (words_of y) 0
  end.

Lemma digits_wval a : Forall is_u32 a → digits (length a) (wval a) = a.
Proof.
  induction 1 as [|x a Hx _ IH]; [done|]. cbn [length digits wval]. unfold is_u32 in Hx.
  replace (x + B * wval a) with (wval a * B + x) by ring.
  rewrite Z.div_add_l, Z.add_comm, Z_mod_plus_full, (Z.mod_small x), (Z.div_small x), Z.add_0_r by lia.
  by rewrite IH.
Qed.

Lemma exact_words t x : exact t x → 0 ≤ x < 2 ^ 287 → t = words_of x.
Proof.
  intros [Hb Hs] Hx. apply wval_eq_sval in Hs; [|done|done]. rewrite <-Hs. unfold words_of.
  rewrite <-(bigval_length t Hb). symmetry. apply digits_wval, Hb.
Qed.

Lemma wval_digits_of n : ∀ x, 0 ≤ x < B ^ Z.of_nat n →
  length (digits n x) = n ∧ Forall is_u32 (digits n x) ∧ wval (digits n x) = x.
Proof.
  induction n as [|n IH]; intros x Hx; [split_and!; [done|done|cbn in *; lia]|].
  rewrite Nat2Z.inj_succ, Z.pow_succ_r in Hx by lia.
  destruct (IH (x / B)) as (Hl & Hf & Hw); [split; [apply Z.div_pos; lia|apply Z.div_lt_upper_bound; lia]|].
  cbn [digits length wval]. split_and!; [by rewrite Hl| |rewrite Hw; pose proof (Z.div_mod x B); lia].
  constructor; [|done]. apply Z.mod_pos_bound. lia.
Qed.

Lemma words_of_exact x : 0 ≤ x < 2 ^ 287 → exact (words_of x) x.
Proof.
  intros Hx. destruct (wval_digits_of 9 x) as (Hl & Hf & Hw).
  { change (B ^ Z.of_nat 9) with (2 ^ 288). lia. }
  assert (bigval (words_of x)) as Hb by (split; [unfold zlen, words_of; rewrite Hl; done|done]).
  split; [done|]. by apply wval_eq_sval.
Qed.

Lemma arep_affine_of A : valid A → arep (affine_of A) A.
Proof.
  destruct A as [[x y]|]; [|done]. intros [Hx Hy]. pose proof P256_range as HP.
  cbn [affine_of arep px py infinity].
  split_and!; [done|apply words_of_exact; unfold residue in Hx; lia
    |apply words_of_exact; unfold residue in Hy; lia|exact Hx|exact Hy].
Qed.

Lemma affine_of_arep P A : arep P A → P = affine_of A.
Proof.
  destruct A as [[x y]|]; [|done]. intros (Hi & Hx & Hy & Hrx & Hry). pose proof P256_range.
  unfold residue in *. destruct P as [p q i]. cbn in *. subst i.
  by rewrite (exact_words p x Hx), (exact_words q y Hy) by lia.
Qed.

Lemma bigval_of P A : arep P A → bigval (px P) ∧ bigval (py P).
Proof. destruct A as [[x y]|]; [by intros (_ & [? _] & [? _] & _)|intros ->]. split; apply big_zero_exact. Qed.

(** * Shared secrets *)

(** The point of a peer, if it is acceptable. *)
Definition peer (Q : affine_point) : point :=
  let x := sval (px Q) in let y := sval (py Q) in
  if (infinity Q =? 0) && ((0 <=? x) && (x <? P256)) && ((0 <=? y) && (y <? P256))
     && (curve_error x y mod P256 =? 0)
  then Some (x, y) else None.

Lemma peer_curve_point Q : curve_point (peer Q).
Proof.
  unfold peer. destruct (_ && _) eqn:E; [|apply curve_point_None].
  rewrite !andb_true_iff, Z.eqb_eq, !Z.leb_le, !Z.ltb_lt, Z.eqb_eq in E.
  destruct E as [[[_ Hx] Hy] Hc]. split; [split; assumption|].
  apply on_curve_error, cong_0_mod. exact Hc.
Qed.

Lemma ECDH_derive_pt_lemma tgt k Q : bigval (px Q) → bigval (py Q) → bigval k → 0 ≤ sval k < 2 ^ 256 →
  ECDH_derive_pt tgt k Q =
  match peer Q with
  | None => Ok (false, tgt)
  | Some A => let R := ec_mul (sval k) (Some A) in Ok (bool_decide (R ≠ None), affine_of R)
  end.
Proof.
  intros Hx Hy Hk Hr. unfold ECDH_derive_pt, peer. destruct (infinity Q =? 0) eqn:Hi; [|done].
  assert (∀ t, bigval t → (0 <=? big_cmp t modulusP) = (P256 <=? sval t)) as Hcmp.
  { intros t Ht. apply (big_cmp_above t (sval t) modulusP P256); [by split|]. exact modulusP_big. }
  rewrite !big_is_negative_spec, !Hcmp by done. cbn [negb andb].
  destruct (Z.ltb_spec (sval (px Q)) 0) as [|Hx0].
  { by rewrite (proj2 (Z.leb_gt 0 (sval (px Q)))). }
  rewrite (proj2 (Z.leb_le 0 (sval (px Q)))), (Z.ltb_antisym P256 (sval (px Q))) by done.
  destruct (P256 <=? sval (px Q)) eqn:Hx1; [reflexivity|]. cbn [negb andb].
  destruct (Z.ltb_spec (sval (py Q)) 0) as [|Hy0].
  { by rewrite (proj2 (Z.leb_gt 0 (sval (py Q)))). }
  rewrite (proj2 (Z.leb_le 0 (sval (py Q)))), (Z.ltb_antisym P256 (sval (py Q))) by done.
  destruct (P256 <=? sval (py Q)) eqn:Hy1; [reflexivity|]. cbn [negb andb].
  apply Z.leb_gt in Hx1, Hy1. apply Z.eqb_eq in Hi. set (x := sval (px Q)) in *. set (y := sval (py Q)) in *.
  assert (arep Q (Some (x, y))) as HQ.
  { cbn [arep]. split_and!; [exact Hi|split; [exact Hx|reflexivity]|split; [exact Hy|reflexivity]
      |split; assumption|split; assumption]. }
  destruct (on_curveP_lemma Q _ HQ) as (c & -> & Hc). rewrite bind_Ok.
  rewrite on_curve_error, cong_0_mod, <-Z.eqb_eq in Hc.
  apply eq_true_iff_eq in Hc as ->. destruct (_ =? 0); [|reflexivity]. cbn [negb].
  destruct (pointMpyP_lemma k Q _ Hk HQ ltac:(discriminate) Hr) as (R & -> & HR). rewrite bind_Ok.
  generalize dependent (ec_mul (sval k) (Some (x, y))). intros A HA. cbv zeta.
  rewrite <-(affine_of_arep R A HA). destruct A as [[u v]|]; cbn [arep] in HA.
  - destruct HA as (-> & _). by rewrite bool_decide_eq_true_2.
  - subst R. by rewrite bool_decide_eq_false_2 by tauto.
Qed.

Lemma RIOT_GenerateShareSecret_lemma Q k secret : bigval (px Q) → bigval (py Q) → bigval k →
  0 ≤ sval k < 2 ^ 256 →
  RIOT_GenerateShareSecret Q k secret =
  match peer Q with
  | None => Ok (RIOT_FAILURE, secret)
  | Some A => let R := ec_mul (sval k) (Some A) in
              Ok (if bool_decide (R = None) then RIOT_FAILURE else RIOT_SUCCESS, affine_of R)
  end.
Proof.
  intros Hx Hy Hk Hr. unfold RIOT_GenerateShareSecret. rewrite ECDH_derive_pt_lemma by assumption.
  pose proof (peer_curve_point Q) as HQ. destruct (peer Q) as [A|] eqn:HA; [|reflexivity].
  cbv zeta. rewrite bind_Ok. pose proof (ec_mul_on_curve (sval k) _ HQ) as HR.
  generalize dependent (ec_mul (sval k) (Some A)). intros R [Hv Hc].
  destruct R as [[u v]|]; [|reflexivity].
  rewrite bool_decide_eq_true_2, bool_decide_eq_false_2 by discriminate. cbn [negb].
  assert (arep (affine_of (Some (u, v))) (Some (u, v))) as Ha by by apply arep_affine_of.
  destruct (on_curveP_lemma _ _ Ha) as (c & -> & Hcc). rewrite bind_Ok.
  by rewrite (proj2 Hcc Hc).
Qed.

(** * Keys and signatures as values *)
Lemma derive_key ctx k src lp label fixed n :
  bigval src → length (opad ctx) = 64%nat → opt_has lp label → bytes (default [] label) →
  37 ≤ zlen fixed → length k = 9%nat →
  let d := derived src (take 32 <$> label) in 0 < wval d < N256 →
  RIOT_DeriveDsaKeyPair (S n) ctx fixed k src lp (zlen (default [] label))
  = Ok (RIOT_SUCCESS, affine_of (ec_mul (wval d) G), d).
Proof.
  intros Hs Ho Hl Hlb Hf Hk d Hd.
  pose proof (ECDH_derive_lemma ctx k src lp label fixed Hs Ho Hl Hlb Hf Hk) as H. cbv zeta in H. fold d in H.
  destruct H as [[_ H]|[H _]]; [|contradiction]. destruct (H n) as ([P k'] & Hr & -> & HP).
  unfold RIOT_DeriveDsaKeyPair. rewrite Hr, bind_Ok. by rewrite (affine_of_arep P _ HP).
Qed.

Lemma derive_loops ctx k src lp label fixed n :
  bigval src → length (opad ctx) = 64%nat → opt_has lp label → bytes (default [] label) →
  37 ≤ zlen fixed → length k = 9%nat →
  ¬ 0 < wval (derived src (take 32 <$> label)) < N256 →
  RIOT_DeriveDsaKeyPair n ctx fixed k src lp (zlen (default [] label)) = Ub OutOfFuel.
Proof.
  intros Hs Ho Hl Hlb Hf Hk Hd.
  pose proof (ECDH_derive_lemma ctx k src lp label fixed Hs Ho Hl Hlb Hf Hk) as H. cbv zeta in H.
  destruct H as [[H _]|[_ H]]; [contradiction|]. unfold RIOT_DeriveDsaKeyPair. rewrite (H n). reflexivity.
Qed.

(** No signature of a digest [z] with a key [d]. *)
Definition unsignable (z d : Z) : Prop := nonce_x = 0 ∨ (z + nonce_x * d) mod N256 = 0.

Definition sign_s (z d : Z) : Z := (z + nonce_x * d) * inverse N256 (wval K0) mod N256.
Definition ecdsa_sig (z d : Z) : ECDSA_sig := mkSig (words_of nonce_x) (words_of (sign_s z d)).

Lemma order_quotient s e kz : 0 ≤ s < N256 → 0 < kz < N256 → s * kz ≡[N256] e →
  s = e * inverse N256 kz mod N256.
Proof.
  intros Hs Hk Hc. pose proof N256_range. pose proof (inverse_spec N256 kz N256_prime ltac:(lia)) as Hi.
  rewrite Z.mod_small in Hi by lia. specialize (Hi ltac:(lia)).
  generalize dependent (inverse N256 kz). intros i Hi.
  apply (cong_unique N256); [exact Hs|apply Z.mod_pos_bound; lia|]. rewrite cong_mod, <-Hc.
  transitivity (s * (kz * i)); [rewrite Hi|]; apply cong_eq; ring.
Qed.

Lemma sign_value n m digest d P1 k sig : bytes digest → zlen digest = 32 → has m 0 digest →
  bigval d → length k = 9%nat → let z := be_combine digest in
  ¬ unsignable z (sval d) →
  RIOT_DSASignDigest (S n) m d P1 k sig = Ok (RIOT_SUCCESS, ecdsa_sig z (sval d)) ∧
  0 < nonce_x < N256 ∧ 0 < sign_s z (sval d) < N256.
Proof.
  intros Hb Hl Hm Hd Hk z Hu.
  destruct (RIOT_DSASignDigest_lemma m digest d P1 k sig Hb Hl Hm Hd Hk) as [[H _]|[_ H]]; [contradiction|].
  destruct (H n) as ([rv [r s]] & Hr & -> & q & Hrr & Hss & Hq & Hc & _). cbn [sig_r sig_s] in *.
  fold z in Hc. destruct K0_value as [_ HK]. pose proof N256_range as HN.
  pose proof (order_quotient q _ _ ltac:(lia) HK Hc) as Heq. fold (sign_s z (sval d)) in Heq.
  assert (0 < nonce_x < N256) as Hx.
  { assert (0 ≤ nonce_x < N256) as Hx by (rewrite nonce_x_eq; apply Z.mod_pos_bound; lia).
    assert (nonce_x ≠ 0) by (intros ?; apply Hu; by left). lia. }
  rewrite <-Heq. split; [|split; [exact Hx|exact Hq]]. rewrite Hr. do 2 f_equal.
  unfold ecdsa_sig. f_equal; [apply exact_words; [exact Hrr|]|apply exact_words; [rewrite <-Heq; exact Hss|]]; lia.
Qed.

Lemma sign_loops n m digest d P1 k sig : bytes digest → zlen digest = 32 → has m 0 digest →
  bigval d → length k = 9%nat → unsignable (be_combine digest) (sval d) →
  RIOT_DSASignDigest n m d P1 k sig = Ub OutOfFuel.
Proof.
  intros Hb Hl Hm Hd Hk Hu.
  destruct (RIOT_DSASignDigest_lemma m digest d P1 k sig Hb Hl Hm Hd Hk) as [[_ H]|[H _]]; [exact (H n)|].
  contradiction.
Qed.

(** * Properties *)

(** The result of an operation represents a point of the curve. *)
Definition on_curve_j (J : jacobian_point) : Prop := ∃ C, jrep J C ∧ curve_point C.
Definition on_curve_a (R : affine_point) : Prop := ∃ C, arep R C ∧ curve_point C ∧ on_curveP R = Ok true.

Lemma on_curve_checked R C : arep R C → curve_point C → on_curve_a R.
Proof.
  intros HR HC. exists C. split; [exact HR|]. split; [exact HC|].
  destruct (on_curveP_lemma R C HR) as (b & -> & Hb). by rewrite (proj2 Hb (proj2 HC)).
Qed.

(** C27: being a point of the curve is an invariant of pointDouble and pointAdd,
    whatever the Jacobian coordinates of their operands, of the conversion to affine
    coordinates, and so of pointMpyP; the affine results pass the program's own
    check on_curveP. *)
Theorem pointMpyP_on_curve k P A J Q B C :
  bigval k → 0 ≤ sval k < 2 ^ 256 → arep P A → A ≠ None → curve_point A →
  jrep J B → arep Q C → curve_point B → curve_point C →
  returns (pointDouble J) on_curve_j ∧ returns (pointAdd J Q) on_curve_j ∧
  returns (toAffine J) on_curve_a ∧ returns (pointMpyP k P) on_curve_a.
Proof.
  intros Hk Hr HP HA Hc HJ HQ HB HC. repeat apply conj; (eapply returns_mono; [|cbv beta]).
  - by apply pointDouble_lemma.
  - intros R HR. eexists. split; [exact HR|]. by apply ec_double_on_curve.
  - by apply pointAdd_lemma.
  - intros R HR. eexists. split; [exact HR|]. by apply ec_add_on_curve.
  - by apply toAffine_lemma.
  - intros R HR. exact (on_curve_checked R B HR HB).
  - by apply pointMpyP_lemma.
  - intros R HR. eapply on_curve_checked; [exact HR|]. by apply ec_mul_on_curve.
Qed.

Lemma pointMpyP_on_curve_witness :
  returns (pointDouble jacobian_infinity) on_curve_j ∧ returns (pointAdd jacobian_infinity base_point) on_curve_j ∧
  returns (toAffine jacobian_infinity) on_curve_a ∧ returns (pointMpyP big_one base_point) on_curve_a.
Proof.
  apply (pointMpyP_on_curve big_one base_point G jacobian_infinity base_point None G);
    [apply big_one_exact| |apply base_point_rep|apply G_some|apply G_on_curve|apply jacobian_infinity_rep
    |apply base_point_rep|apply curve_point_None|apply G_on_curve].
  rewrite (proj2 big_one_exact). lia.
Defined.

(** RIOT_GenerateShareSecret accepts exactly the peer keys that are finite
    points of the curve with reduced coordinates and whose multiple is finite,
    and gives that multiple; a rejected peer key leaves the secret alone. *)
Theorem RIOT_GenerateShareSecret_spec Q k secret : bigval (px Q) → bigval (py Q) → bigval k →
  0 ≤ sval k < 2 ^ 256 →
  RIOT_GenerateShareSecret Q k secret =
  match peer Q with
  | None => Ok (RIOT_FAILURE, secret)
  | Some A => let R := ec_mul (sval k) (Some A) in
              Ok (if bool_decide (R = None) then RIOT_FAILURE else RIOT_SUCCESS, affine_of R)
  end.
Proof. apply RIOT_GenerateShareSecret_lemma. Qed.

Lemma RIOT_GenerateShareSecret_spec_witness :
  RIOT_GenerateShareSecret (mkPoint big_zero big_zero 0) big_one affine_infinity
  = Ok (RIOT_FAILURE, affine_infinity).
Proof.
  etrans; [apply (RIOT_GenerateShareSecret_spec (mkPoint big_zero big_zero 0) big_one affine_infinity);
    [apply big_zero_exact|apply big_zero_exact|apply big_one_exact|rewrite (proj2 big_one_exact); lia]|].
  vm_compute. reflexivity.
Defined.
