(* ===== verification/X509.v ===== *)
(** RiotX509Bldr.c: the certificates, keys and requests of the RIoT core, built
    with the DER builder; and the export of public keys of RiotCrypt.c that they
    use.

    The argument [encBuffer] is what the local of that name holds on entry;
    [long_size] is the number of bytes of a [long]. *)
From S2P Require Export Ecc DerSpec.

(** The memory of [b] and [*s]. *)
Definition RiotCrypt_ExportEccPub (a : affine_point) (b : list Z) : outcome (list Z * Z) :=
  '(b, _) ← (wput 4 ;;; BigValToBigInt (px a) ;;; BigValToBigInt (py a)) (b, 0);
  Ok (b, 1 + 2 * RIOT_ECC_COORD_BYTES).

(** * Object identifiers and certificate data *)
Definition riotOID : list Z := [1; 3; 6; 1; 4; 1; 311; 89; 3; 1; -1].
Definition ecdsaWithSHA256OID : list Z := [1; 2; 840; 10045; 4; 3; 2; -1].
Definition ecPublicKeyOID : list Z := [1; 2; 840; 10045; 2; 1; -1].
Definition prime256v1OID : list Z := [1; 2; 840; 10045; 3; 1; 7; -1].
Definition extKeyUsageOID : list Z := [2; 5; 29; 37; -1].
Definition subjectAltNameOID : list Z := [2; 5; 29; 17; -1].
Definition clientAuthOID : list Z := [1; 3; 6; 1; 5; 5; 7; 3; 2; -1].
Definition sha256OID : list Z := [2; 16; 840; 1; 101; 3; 4; 2; 1; -1].
Definition commonNameOID : list Z := [2; 5; 4; 3; -1].
Definition countryNameOID : list Z := [2; 5; 4; 6; -1].
Definition orgNameOID : list Z := [2; 5; 4; 10; -1].
Definition basicConstraintsOID : list Z := [2; 5; 29; 19; -1].

Definition RIOT_X509_SNUM_LEN : Z := 5.

(** The strings are the memory their pointers reach. *)
Record RIOT_X509_TBS_DATA := mkTbs {
  SerialNum : list Z;
  IssuerCommon : list Z;
  IssuerOrg : list Z;
  IssuerCountry : list Z;
  ValidFrom : list Z;
  ValidTo : list Z;
  SubjectCommon : list Z;
  SubjectOrg : list Z;
  SubjectCountry : list Z }.

(** * The builders *)
Notation "f >>> g" := (CHK f g) (at level 60, right associativity).

(** [return 0] and [ASRT(DERGetNestingDepth(ctx) == 0); return 0]. *)
Definition ret0 : der := λ ctx, Ok (0, ctx).
Definition ASRT_closed : der := λ ctx,
  if negb (DERGetNestingDepth ctx =? 0) then Ok (-1, ctx) else Ok (0, ctx).

(** [RiotCrypt_ExportEccPub(pub, encBuffer, &encBufferLen);] and the rest. *)
Definition with_pub (pub : affine_point) (encBuffer : list Z)
    (k : list Z → Z → der) : der := λ ctx,
  '(encBuffer, encBufferLen) ← RiotCrypt_ExportEccPub pub encBuffer;
  k encBuffer encBufferLen ctx.

(** [BigValToBigInt(encBuffer, v);] and the rest. *)
Definition with_big (v encBuffer : list Z) (k : list Z → der) : der := λ ctx,
  '(encBuffer, _) ← BigValToBigInt v (encBuffer, 0);
  k encBuffer ctx.

Section x509.
Context (long_size : nat).

Definition X509AddExtensions (DevIdPub : list Z) (DevIdPubLen : Z) (Fwid : list Z)
    (FwidLen : Z) : der :=
  DERStartExplicit 3 >>>
    DERStartSequenceOrSet true >>>
      DERStartSequenceOrSet true >>>
        DERAddOID extKeyUsageOID >>>
        DERAddBoolean true >>>
        DERStartEnvelopingOctetString >>>
          DERStartSequenceOrSet true >>>
            DERAddOID clientAuthOID >>>
          DERPopNesting >>>
        DERPopNesting >>>
      DERPopNesting >>>
      DERStartSequenceOrSet true >>>
        DERAddOID subjectAltNameOID >>>
        DERAddBoolean true >>>
        DERStartEnvelopingOctetString >>>
          DERStartSequenceOrSet true >>>
            DERStartExplicit 0 >>>
              DERAddOID riotOID >>>
              DERStartSequenceOrSet true >>>
                DERAddInteger long_size 1 >>>
                DERStartSequenceOrSet true >>>
                  DERStartSequenceOrSet true >>>
                    DERAddOID ecPublicKeyOID >>>
                    DERAddOID prime256v1OID >>>
                  DERPopNesting >>>
                  DERAddBitString DevIdPub DevIdPubLen >>>
                DERPopNesting >>>
                DERStartSequenceOrSet true >>>
                  DERAddOID sha256OID >>>
                  DERAddOctetString Fwid FwidLen >>>
                DERPopNesting >>>
              DERPopNesting >>>
            DERPopNesting >>>
          DERPopNesting >>>
        DERPopNesting >>>
      DERPopNesting >>>
    DERPopNesting >>>
  DERPopNesting >>>
  ret0.

Definition X509AddX501Name (CommonName OrgName CountryName : list Z) : der :=
  DERStartSequenceOrSet true >>>
    DERStartSequenceOrSet false >>>
      DERStartSequenceOrSet true >>>
        DERAddOID commonNameOID >>>
        DERAddUTF8String CommonName >>>
      DERPopNesting >>>
    DERPopNesting >>>
    DERStartSequenceOrSet false >>>
      DERStartSequenceOrSet true >>>
        DERAddOID countryNameOID >>>
        DERAddUTF8String CountryName >>>
      DERPopNesting >>>
    DERPopNesting >>>
    DERStartSequenceOrSet false >>>
      DERStartSequenceOrSet true >>>
        DERAddOID orgNameOID >>>
        DERAddUTF8String OrgName >>>
      DERPopNesting >>>
    DERPopNesting >>>
  DERPopNesting >>>
  ret0.

Definition X509GetDeviceCertTBS (encBuffer : list Z) (TbsData : RIOT_X509_TBS_DATA)
    (DevIdKeyPub : affine_point) : der :=
  DERStartSequenceOrSet true >>>
    DERAddShortExplicitInteger long_size 2 >>>
    DERAddIntegerFromArray (SerialNum TbsData) RIOT_X509_SNUM_LEN >>>
    DERStartSequenceOrSet true >>>
      DERAddOID ecdsaWithSHA256OID >>>
    DERPopNesting >>>
    X509AddX501Name (IssuerCommon TbsData) (IssuerOrg TbsData) (IssuerCountry TbsData) >>>
    DERStartSequenceOrSet true >>>
      DERAddUTCTime (ValidFrom TbsData) >>>
      DERAddUTCTime (ValidTo TbsData) >>>
    DERPopNesting >>>
    X509AddX501Name (SubjectCommon TbsData) (SubjectOrg TbsData) (SubjectCountry TbsData) >>>
    DERStartSequenceOrSet true >>>
      DERStartSequenceOrSet true >>>
        DERAddOID ecPublicKeyOID >>>
        DERAddOID prime256v1OID >>>
      DERPopNesting >>>
  with_pub DevIdKeyPub encBuffer (λ encBuffer encBufferLen,
      DERAddBitString encBuffer encBufferLen >>>
    DERPopNesting >>>
    DERStartExplicit 3 >>>
      DERStartSequenceOrSet true >>>
        DERStartSequenceOrSet true >>>
          DERAddOID basicConstraintsOID >>>
          DERStartEnvelopingOctetString >>>
            DERStartSequenceOrSet true >>>
              DERAddBoolean true >>>
              DERAddInteger long_size 2 >>>
            DERPopNesting >>>
          DERPopNesting >>>
        DERPopNesting >>>
      DERPopNesting >>>
    DERPopNesting >>>
  DERPopNesting >>>
  ASRT_closed).

Definition X509MakeDeviceCert (encBuffer : list Z) (TbsSig : ECDSA_sig) : der :=
  let encBufferLen := (BIGLEN - 1) * 4 in
  DERTbsToCert >>>
    DERStartSequenceOrSet true >>>
      DERAddOID ecdsaWithSHA256OID >>>
    DERPopNesting >>>
    DERStartEnvelopingBitString >>>
      DERStartSequenceOrSet true >>>
  with_big (sig_r TbsSig) encBuffer (λ encBuffer,
        DERAddIntegerFromArray encBuffer encBufferLen >>>
  with_big (sig_s TbsSig) encBuffer (λ encBuffer,
        DERAddIntegerFromArray encBuffer encBufferLen >>>
      DERPopNesting >>>
    DERPopNesting >>>
  DERPopNesting >>>
  ASRT_closed)).

Definition X509GetAliasCertTBS (encBuffer : list Z) (TbsData : RIOT_X509_TBS_DATA)
    (AliasKeyPub DevIdKeyPub : affine_point) (Fwid : list Z) (FwidLen : Z) : der :=
  DERStartSequenceOrSet true >>>
    DERAddShortExplicitInteger long_size 2 >>>
    DERAddIntegerFromArray (SerialNum TbsData) RIOT_X509_SNUM_LEN >>>
    DERStartSequenceOrSet true >>>
      DERAddOID ecdsaWithSHA256OID >>>
    DERPopNesting >>>
    X509AddX501Name (IssuerCommon TbsData) (IssuerOrg TbsData) (IssuerCountry TbsData) >>>
    DERStartSequenceOrSet true >>>
      DERAddUTCTime (ValidFrom TbsData) >>>
      DERAddUTCTime (ValidTo TbsData) >>>
    DERPopNesting >>>
    X509AddX501Name (SubjectCommon TbsData) (SubjectOrg TbsData) (SubjectCountry TbsData) >>>
    DERStartSequenceOrSet true >>>
      DERStartSequenceOrSet true >>>
        DERAddOID ecPublicKeyOID >>>
        DERAddOID prime256v1OID >>>
      DERPopNesting >>>
  with_pub AliasKeyPub encBuffer (λ encBuffer encBufferLen,
      DERAddBitString encBuffer encBufferLen >>>
    DERPopNesting >>>
  with_pub DevIdKeyPub encBuffer (λ encBuffer encBufferLen,
    X509AddExtensions encBuffer encBufferLen Fwid FwidLen >>>
  DERPopNesting >>>
  ASRT_closed)).

Definition X509MakeAliasCert (encBuffer : list Z) (TbsSig : ECDSA_sig) : der :=
  let encBufferLen := (BIGLEN - 1) * 4 in
  DERTbsToCert >>>
    DERStartSequenceOrSet true >>>
      DERAddOID ecdsaWithSHA256OID >>>
    DERPopNesting >>>
    DERStartEnvelopingBitString >>>
      DERStartSequenceOrSet true >>>
  with_big (sig_r TbsSig) encBuffer (λ encBuffer,
        DERAddIntegerFromArray encBuffer encBufferLen >>>
  with_big (sig_s TbsSig) encBuffer (λ encBuffer,
        DERAddIntegerFromArray encBuffer encBufferLen >>>
      DERPopNesting >>>
    DERPopNesting >>>
  DERPopNesting >>>
  ASRT_closed)).

Definition X509GetDEREccPub (encBuffer : list Z) (Pub : affine_point) : der :=
  DERStartSequenceOrSet true >>>
    DERStartSequenceOrSet true >>>
      DERAddOID ecPublicKeyOID >>>
      DERAddOID prime256v1OID >>>
    DERPopNesting >>>
  with_pub Pub encBuffer (λ encBuffer encBufferLen,
    DERAddBitString encBuffer encBufferLen >>>
  DERPopNesting >>>
  ASRT_closed).

Definition X509GetDEREcc (encBuffer : list Z) (Pub : affine_point) (Priv : list Z) : der :=
  DERStartSequenceOrSet true >>>
    DERAddInteger long_size 1 >>>
  with_big Priv encBuffer (λ encBuffer,
    DERAddOctetString encBuffer 32 >>>
    DERStartExplicit 0 >>>
      DERAddOID prime256v1OID >>>
    DERPopNesting >>>
    DERStartExplicit 1 >>>
  with_pub Pub encBuffer (λ encBuffer encBufferLen,
      DERAddBitString encBuffer encBufferLen >>>
    DERPopNesting >>>
  DERPopNesting >>>
  ASRT_closed)).

Definition X509GetDERCsrTbs (encBuffer : list Z) (TbsData : RIOT_X509_TBS_DATA)
    (DeviceIDPub : affine_point) : der :=
  DERStartSequenceOrSet true >>>
    DERAddInteger long_size 0 >>>
    X509AddX501Name (IssuerCommon TbsData) (IssuerOrg TbsData) (IssuerCountry TbsData) >>>
    DERStartSequenceOrSet true >>>
      DERStartSequenceOrSet true >>>
        DERAddOID ecPublicKeyOID >>>
        DERAddOID prime256v1OID >>>
      DERPopNesting >>>
  with_pub DeviceIDPub encBuffer (λ encBuffer encBufferLen,
      DERAddBitString encBuffer encBufferLen >>>
    DERPopNesting >>>
  DERStartExplicit 0 >>>
  DERPopNesting >>>
  DERPopNesting >>>
  ASRT_closed).

Definition X509GetDERCsr (encBuffer : list Z) (Signature : ECDSA_sig) : der :=
  let encBufferLen := (BIGLEN - 1) * 4 in
  DERTbsToCert >>>
    DERStartSequenceOrSet true >>>
      DERAddOID ecdsaWithSHA256OID >>>
    DERPopNesting >>>
    DERStartEnvelopingBitString >>>
      DERStartSequenceOrSet true >>>
  with_big (sig_r Signature) encBuffer (λ encBuffer,
        DERAddIntegerFromArray encBuffer encBufferLen >>>
  with_big (sig_s Signature) encBuffer (λ encBuffer,
        DERAddIntegerFromArray encBuffer encBufferLen >>>
      DERPopNesting >>>
    DERPopNesting >>>
  DERPopNesting >>>
  ASRT_closed)).
End x509.

(** * Specification: the certificates as ASN.1 trees *)

(** A number as 32 bytes, most significant first. *)
Definition big_bytes (v : list Z) : list Z := concat (be_split 4 <$> reverse (take 8 v)).

(** The uncompressed point of SEC 1. *)
Definition ecc_point (p : affine_point) : list Z := 4 :: big_bytes (px p) ++ big_bytes (py p).

Definition id_riot : list Z := [1; 3; 6; 1; 4; 1; 311; 89; 3; 1].
Definition id_ecdsa_with_SHA256 : list Z := [1; 2; 840; 10045; 4; 3; 2].
Definition id_ecPublicKey : list Z := [1; 2; 840; 10045; 2; 1].
Definition id_prime256v1 : list Z := [1; 2; 840; 10045; 3; 1; 7].
Definition id_ce_extKeyUsage : list Z := [2; 5; 29; 37].
Definition id_ce_subjectAltName : list Z := [2; 5; 29; 17].
Definition id_ce_basicConstraints : list Z := [2; 5; 29; 19].
Definition id_kp_clientAuth : list Z := [1; 3; 6; 1; 5; 5; 7; 3; 2].
Definition id_sha256 : list Z := [2; 16; 840; 1; 101; 3; 4; 2; 1].
Definition id_at_commonName : list Z := [2; 5; 4; 3].
Definition id_at_countryName : list Z := [2; 5; 4; 6].
Definition id_at_organizationName : list Z := [2; 5; 4; 10].

Definition integer (v : Z) : asn1 := IntegerBytes (be_split 4 v).
Definition algorithm : asn1 := Nested Sequence [Oid id_ecdsa_with_SHA256].

Definition attribute (id s : list Z) : asn1 :=
  Nested SetOf [Nested Sequence [Oid id; Utf8String s]].

Definition x501_name (common org country : list Z) : asn1 :=
  Nested Sequence [attribute id_at_commonName common; attribute id_at_countryName country;
                   attribute id_at_organizationName org].

Definition public_key (point : list Z) : asn1 :=
  Nested Sequence [Nested Sequence [Oid id_ecPublicKey; Oid id_prime256v1]; BitString point].

Definition validity (from to : list Z) : asn1 := Nested Sequence [UTCTime from; UTCTime to].

Definition ca_extensions : asn1 :=
  Nested (Explicit 3) [Nested Sequence [Nested Sequence
    [Oid id_ce_basicConstraints;
     Nested OctetNest [Nested Sequence [Boolean true; integer 2]]]]].

(** The subject alternative name carries the device key and the firmware digest. *)
Definition riot_extensions (point fwid : list Z) : asn1 :=
  Nested (Explicit 3) [Nested Sequence
    [Nested Sequence [Oid id_ce_extKeyUsage; Boolean true;
       Nested OctetNest [Nested Sequence [Oid id_kp_clientAuth]]];
     Nested Sequence [Oid id_ce_subjectAltName; Boolean true;
       Nested OctetNest [Nested Sequence [Nested (Explicit 0)
         [Oid id_riot;
          Nested Sequence [integer 1; public_key point;
            Nested Sequence [Oid id_sha256; OctetString fwid]]]]]]]].

(** [d] gives the contents of the certificate's fields. *)
Definition certificate_head (d : RIOT_X509_TBS_DATA) (point : list Z) : list asn1 :=
  [Nested (Explicit 0) [integer 2]; IntegerBytes (SerialNum d); algorithm;
   x501_name (IssuerCommon d) (IssuerOrg d) (IssuerCountry d);
   validity (ValidFrom d) (ValidTo d);
   x501_name (SubjectCommon d) (SubjectOrg d) (SubjectCountry d); public_key point].

Definition device_tbs (d : RIOT_X509_TBS_DATA) (key : affine_point) : asn1 :=
  Nested Sequence (certificate_head d (ecc_point key) ++ [ca_extensions]).

Definition alias_tbs (d : RIOT_X509_TBS_DATA) (key device : affine_point) (fwid : list Z)
    : asn1 :=
  Nested Sequence (certificate_head d (ecc_point key)
                   ++ [riot_extensions (ecc_point device) fwid]).

Definition signature (sig : ECDSA_sig) : asn1 :=
  Nested BitNest [Nested Sequence
    [IntegerBytes (big_bytes (sig_r sig)); IntegerBytes (big_bytes (sig_s sig))]].

Definition signed (tbs : asn1) (sig : ECDSA_sig) : asn1 :=
  Nested Sequence [tbs; algorithm; signature sig].

(** RFC 5915. *)
Definition private_key (pub : affine_point) (priv : list Z) : asn1 :=
  Nested Sequence [integer 1; OctetString (big_bytes priv);
    Nested (Explicit 0) [Oid id_prime256v1];
    Nested (Explicit 1) [BitString (ecc_point pub)]].

(** * Numbers *)
Lemma bigval_word w m i k rest : rd m i = Ok w → 0 ≤ i → Z.of_nat k = 4 * i →
  emits (bigval_loop k m) rest → emits (bigval_loop (S (S (S (S k)))) m) (be_split 4 w ++ rest).
Proof.
  intros Hr Hi Hki Hk.
  assert (be_split 4 w = [u8 (Z.shiftr w 24); u8 (Z.shiftr w 16); u8 (Z.shiftr w 8); u8 (Z.shiftr w 0)])
    as ->.
  { apply (inj reverse). unfold be_split. rewrite reverse_involutive. cbn [le_split].
    rewrite !Z.shiftr_div_pow2 by lia. unfold u8. cbn [reverse].
    change (reverse _) with [w / 2 ^ 0 mod 256; w / 2 ^ 8 mod 256; w / 2 ^ 16 mod 256; w / 2 ^ 24 mod 256].
    rewrite !Z.div_div by lia. change (2 ^ 0) with 1. by rewrite Z.div_1_r. }
  assert (∀ j, 0 ≤ j < 4 → (4 * i + j) / 4 = i ∧ (4 * i + j) mod 4 = j) as Hj by (intros; dlia).
  assert (∀ n j a, Z.of_nat n = 4 * i + j → 0 ≤ j < 4 → emits (bigval_loop n m) a →
    emits (bigval_loop (S n) m) (u8 (Z.shiftr w (8 * j)) :: a)) as Hstep.
  { intros n j a Hn Hjr He. destruct (Hj j Hjr) as [Hd Hm].
    apply (emits_ext (wput (u8 (Z.shiftr w (8 * j))) ;;; bigval_loop n m)).
    - intros s. cbn [bigval_loop]. by rewrite Hn, Hd, Hm, Hr.
    - by apply (emits_seq (wput _) _ [_] a); [apply emits_put|]. }
  apply (Hstep _ 3); [lia|lia|]. apply (Hstep _ 2); [lia|lia|]. apply (Hstep _ 1); [lia|lia|].
  apply (Hstep _ 0); [lia|lia|]. exact Hk.
Qed.

Lemma emits_BigValToBigInt v : bigval v → emits (BigValToBigInt v) (big_bytes v).
Proof.
  intros [Hl Hv]. unfold BigValToBigInt, big_bytes.
  assert (∀ n, (n ≤ 8)%nat →
    emits (bigval_loop (4 * n) v) (concat (be_split 4 <$> reverse (take n v)))) as H;
    [|by apply (H 8%nat)].
  induction n as [|n IH]; intros Hn; [apply emits_skip|].
  destruct (lookup_lt_is_Some_2 v n) as [w Hw]; [unfold zlen, BIGLEN in Hl; lia|].
  rewrite (take_S_r _ _ _ Hw), reverse_app, fmap_app, concat_app.
  replace (4 * S n)%nat with (S (S (S (S (4 * n))))) by lia.
  change (concat (be_split 4 <$> reverse [w])) with (be_split 4 w ++ []). rewrite app_nil_r.
  apply (bigval_word w v (Z.of_nat n)); [|lia|lia|apply IH; lia].
  unfold rd. by rewrite (proj2 (Z.ltb_ge _ _)), Nat2Z.id, Hw by lia.
Qed.

Lemma zlen_big_bytes v : bigval v → zlen (big_bytes v) = 32.
Proof.
  intros [Hl _]. unfold zlen, BIGLEN in Hl. unfold big_bytes.
  do 9 (destruct v as [|? v]; [simpl in Hl; lia|]). done.
Qed.

Lemma big_bytes_bytes v : bytes (big_bytes v).
Proof.
  unfold big_bytes. apply Forall_concat, Forall_fmap, Forall_true. intros w.
  apply be_split_bytes.
Qed.

Definition point_ok (p : affine_point) : Prop := bigval (px p) ∧ bigval (py p).

Lemma zlen_ecc_point p : point_ok p → zlen (ecc_point p) = 65.
Proof. intros [? ?]. unfold ecc_point. rewrite zlen_cons, zlen_app, !zlen_big_bytes by done. lia. Qed.

(** The export fills the 65 bytes of the buffer whatever they held. *)
Lemma ExportEccPub_lemma p b : point_ok p → zlen b = 65 →
  RiotCrypt_ExportEccPub p b = Ok (ecc_point p, 65).
Proof.
  intros Hp Hb. pose proof (zlen_ecc_point p Hp) as Hz. destruct Hp as [Hx Hy].
  unfold RiotCrypt_ExportEccPub.
  assert (emits (wput 4 ;;; BigValToBigInt (px p) ;;; BigValToBigInt (py p)) (ecc_point p)) as He.
  { apply (emits_seq (wput 4) _ [4]); [apply emits_put|].
    by apply emits_seq; apply emits_BigValToBigInt. }
  rewrite He, Z.add_0_l, Hz, (proj2 (Z.leb_le _ _)), bind_Ok by lia.
  do 2 f_equal. unfold splice. change (ztake 0 b) with (@nil Z).
  rewrite Z.add_0_l, Hz, zdrop_all by lia. by rewrite app_nil_r.
Qed.

(** * The builders refine their trees *)
Definition oid_ok (vs : list Z) : bool :=
  (2 <=? zlen vs) && (zlen vs <? 16) && forallb (λ v, (0 <=? v) && (v <? 2 ^ 31)) vs
  && forallb (λ v, (0 <=? v) && (v <? 256)) (take 1 (oid_bytes vs))
  && (zlen (oid_bytes vs) <? 128).

Lemma implements_oid Values vs : Values = vs ++ [-1] → oid_ok vs = true →
  implements (DERAddOID Values) [Put (encode (Oid vs))].
Proof.
  intros -> Hok. apply implements_OID; [|apply has_self].
  unfold oid_ok in Hok. rewrite !andb_true_iff, !forallb_forall in Hok.
  destruct Hok as [[[[H1 H2] H3] H4] H5]. split_and!; try lia.
  - apply Forall_forall. intros v Hv. apply list_elem_of_In in Hv. specialize (H3 v Hv). lia.
  - apply Forall_forall. intros v Hv. apply list_elem_of_In in Hv. specialize (H4 v Hv).
    unfold is_u8. lia.
Qed.

Lemma implements_octets src n bs : has src 0 bs → n = zlen bs → zlen bs < 65536 →
  implements (DERAddOctetString src n) [Put (encode (OctetString bs))].
Proof. intros ? -> ?. by apply implements_OctetString. Qed.

Lemma implements_bits src n bs : has src 0 bs → n = zlen bs → zlen bs < 65535 →
  implements (DERAddBitString src n) [Put (encode (BitString bs))].
Proof. intros ? -> ?. by apply implements_BitString. Qed.

Lemma implements_integer src n bs : has src 0 bs → n = zlen bs → valid_leaf (IntegerBytes bs) →
  implements (DERAddIntegerFromArray src n) [Put (encode (IntegerBytes bs))].
Proof. intros ? -> ?. by apply implements_IntegerFromArray. Qed.

Lemma implements_ret0 : implements ret0 [].
Proof. apply implements_nil. Qed.

Lemma implements_closed : implements ASRT_closed [Top].
Proof.
  intros L ctx fs fs' Hb Hd _. destruct fs as [|c [|]]; try done. injection Hd as <-.
  exists ctx. unfold ASRT_closed, DERGetNestingDepth.
  by rewrite (proj1 (builds_depth _ _ _ Hb)).
Qed.

Lemma implements_with_pub p b k a : point_ok p → zlen b = 65 →
  implements (k (ecc_point p) 65) a → implements (with_pub p b k) a.
Proof.
  intros Hp Hb. apply implements_ext. intros ctx. unfold with_pub.
  by rewrite ExportEccPub_lemma.
Qed.

Lemma implements_with_big v b k a : bigval v → 32 ≤ zlen b →
  implements (k (splice b 0 (big_bytes v))) a → implements (with_big v b k) a.
Proof.
  intros Hv Hb. apply implements_ext. intros ctx. unfold with_big.
  pose proof (zlen_big_bytes v Hv). rewrite (emits_BigValToBigInt v Hv) by lia.
  by rewrite (proj2 (Z.leb_le _ _)) by lia.
Qed.

(** [d] holds, in memory, the field contents [c]. *)
Record tbs_holds (d c : RIOT_X509_TBS_DATA) : Prop := {
  holds_serial : has (SerialNum d) 0 (SerialNum c);
  holds_serial_len : zlen (SerialNum c) = RIOT_X509_SNUM_LEN;
  holds_serial_ok : valid_leaf (IntegerBytes (SerialNum c));
  holds_issuer_common : cstring (IssuerCommon d) (IssuerCommon c) ∧ zlen (IssuerCommon c) < 127;
  holds_issuer_org : cstring (IssuerOrg d) (IssuerOrg c) ∧ zlen (IssuerOrg c) < 127;
  holds_issuer_country : cstring (IssuerCountry d) (IssuerCountry c) ∧ zlen (IssuerCountry c) < 127;
  holds_from : cstring (ValidFrom d) (ValidFrom c) ∧ zlen (ValidFrom c) = 13;
  holds_to : cstring (ValidTo d) (ValidTo c) ∧ zlen (ValidTo c) = 13;
  holds_subject_common : cstring (SubjectCommon d) (SubjectCommon c) ∧ zlen (SubjectCommon c) < 127;
  holds_subject_org : cstring (SubjectOrg d) (SubjectOrg c) ∧ zlen (SubjectOrg c) < 127;
  holds_subject_country :
    cstring (SubjectCountry d) (SubjectCountry c) ∧ zlen (SubjectCountry c) < 127 }.

Definition der_fits (v : list Z) : Prop := bigval v ∧ ¬ Forall (λ b, b = 0) (big_bytes v).

Lemma valid_big v : der_fits v → valid_leaf (IntegerBytes (big_bytes v)).
Proof.
  intros [Hv Hz]. pose proof (zlen_big_bytes v Hv) as Hl. split_and!; [|rewrite ?Hl..|done].
  - apply big_bytes_bytes.
  - assert (∀ bs, zlen (int_bytes bs) ≤ zlen bs + 1) as Hi.
    { induction bs as [|b bs IH]; cbn [int_bytes]; [done|]. repeat case_match; zlen_lia. }
    specialize (Hi (big_bytes v)). lia.
  - done.
Qed.

Create HintDb der.
#[export] Hint Resolve implements_Boolean implements_Pop implements_StartOctet
  implements_StartBit implements_Wrap : der.
#[export] Hint Extern 1 (implements (DERStartSequenceOrSet ?b) _) =>
  apply (implements_Start b) : der.
#[export] Hint Extern 1 (implements (DERStartExplicit ?n) _) =>
  apply (implements_StartExplicit n); lia : der.
#[export] Hint Extern 1 (implements (DERAddOID _) _) =>
  apply implements_oid; reflexivity : der.
#[export] Hint Extern 1 (implements (DERAddInteger _ _) _) =>
  apply implements_Integer; lia : der.
#[export] Hint Extern 1 (implements (DERAddUTF8String _) _) =>
  apply implements_UTF8String; tauto : der.
#[export] Hint Extern 1 (implements (DERAddUTCTime _) _) =>
  apply implements_UTCTime; tauto : der.

(** One call of a builder against the next operation of its tree. *)
Ltac der_step :=
  first [ apply implements_ret0 | apply implements_closed
        | apply implements_cons; [solve [eauto with der]|] ].

(** Unfolds a tree into the operations that build it. *)
Ltac der_tree :=
  cbn [ops concat fmap list_fmap app nesting_tag nesting_prefix integer algorithm].

Section x509_refinement.
Context (long_size : nat) (Hlong : (4 ≤ long_size)%nat).

Lemma implements_X501Name cm om ym common org country :
  cstring cm common ∧ zlen common < 127 → cstring om org ∧ zlen org < 127 →
  cstring ym country ∧ zlen country < 127 →
  implements (X509AddX501Name cm om ym) (ops (x501_name common org country)).
Proof.
  intros. unfold x501_name, attribute. der_tree. unfold X509AddX501Name. repeat der_step.
Qed.

Lemma implements_Extensions src point fm fwid : has src 0 point → zlen point = 65 →
  has fm 0 fwid → zlen fwid < 65536 →
  implements (X509AddExtensions long_size src 65 fm (zlen fwid)) (ops (riot_extensions point fwid)).
Proof.
  intros Hs Hl Hf Hfl. unfold riot_extensions, public_key. der_tree. unfold X509AddExtensions.
  repeat der_step.
  apply implements_cons; [by apply implements_bits; [|rewrite Hl|lia]|]. repeat der_step.
  apply implements_cons; [by apply implements_octets|]. repeat der_step.
Qed.

Lemma implements_short2 :
  implements (DERAddShortExplicitInteger long_size 2) (ops (Nested (Explicit 0) [integer 2])).
Proof.
  eapply implements_weaken; [|apply (implements_ShortExplicitInteger long_size 2); lia].
  intros [|c fs] fs' H; [done|]. revert H. der_tree.
  cbn [dsteps dstep mbind option_bind]. case_match; [|done].
  cbn [mbind option_bind]. by rewrite <-app_assoc.
Qed.

Lemma implements_head d c point rest ops_rest encBuffer p :
  tbs_holds d c → point_ok p → zlen encBuffer = 65 → point = ecc_point p →
  (∀ encBuffer, zlen encBuffer = 65 → implements (rest encBuffer) ops_rest) →
  implements (
    DERAddShortExplicitInteger long_size 2 >>>
    DERAddIntegerFromArray (SerialNum d) RIOT_X509_SNUM_LEN >>>
    DERStartSequenceOrSet true >>>
      DERAddOID ecdsaWithSHA256OID >>>
    DERPopNesting >>>
    X509AddX501Name (IssuerCommon d) (IssuerOrg d) (IssuerCountry d) >>>
    DERStartSequenceOrSet true >>>
      DERAddUTCTime (ValidFrom d) >>>
      DERAddUTCTime (ValidTo d) >>>
    DERPopNesting >>>
    X509AddX501Name (SubjectCommon d) (SubjectOrg d) (SubjectCountry d) >>>
    DERStartSequenceOrSet true >>>
      DERStartSequenceOrSet true >>>
        DERAddOID ecPublicKeyOID >>>
        DERAddOID prime256v1OID >>>
      DERPopNesting >>>
  with_pub p encBuffer (λ encBuffer encBufferLen,
      DERAddBitString encBuffer encBufferLen >>>
    DERPopNesting >>> rest encBuffer))
  (concat (ops <$> certificate_head c point) ++ ops_rest).
Proof.
  intros [] Hp He -> Hr. unfold certificate_head. rewrite fmap_cons. cbn [concat].
  rewrite <-app_assoc. apply implements_CHK; [apply implements_short2|].
  unfold public_key, validity. der_tree.
  apply implements_cons; [by apply implements_integer|]. repeat der_step.
  rewrite <-app_assoc. apply implements_CHK; [by apply implements_X501Name|]. der_tree.
  repeat der_step. rewrite <-app_assoc. apply implements_CHK; [by apply implements_X501Name|].
  der_tree. repeat der_step. apply implements_with_pub; [done..|].
  pose proof (zlen_ecc_point p Hp) as Hz.
  apply implements_cons; [by apply implements_bits; [apply has_self|rewrite Hz|lia]|].
  repeat der_step. by apply Hr.
Qed.
End x509_refinement.

(** * Whole builders *)

(** The context holds a finished encoding. *)
Definition finished (L : Z) (ctx : DERBuilderContext) (t : asn1) : Prop :=
  builds L ctx [encode t].

Lemma finished_spec L ctx t : finished L ctx t →
  has (Buffer ctx) 0 (encode t) ∧ Position ctx = zlen (encode t) ∧ DERGetNestingDepth ctx = 0.
Proof.
  intros H. split_and!; [apply H|apply H|apply (builds_depth _ _ _ H)].
Qed.

Lemma run_tree f t L buf :
  implements f (ops t ++ [Top]) → depth t ≤ 16 → zlen (encode t) < 65536 →
  zlen (encode t) + 32 ≤ L → L < 2 ^ 31 → L ≤ zlen buf →
  ∃ ctx, (ctx ← DERInitContext buf L; f ctx) = Ok (0, ctx) ∧ finished L ctx t.
Proof.
  intros Hf Hd Hs HL HL2 Hb. pose proof (zlen_nonneg (encode t)).
  destruct (DERInitContext_lemma buf L) as (ctx0 & -> & Hb0); [lia|done|]. rewrite bind_Ok.
  apply (Hf L ctx0 [[]]); [done| |done]. by rewrite dsteps_app, dsteps_ops.
Qed.

Section x509_builders.
Context (long_size : nat) (Hlong : (4 ≤ long_size)%nat).
Context (d c : RIOT_X509_TBS_DATA) (Hd : tbs_holds d c).
Context (encBuffer : list Z) (Henc : zlen encBuffer = 65).

Lemma implements_DeviceCertTBS key : point_ok key →
  implements (X509GetDeviceCertTBS long_size encBuffer d key) (ops (device_tbs c key) ++ [Top]).
Proof.
  intros Hk. unfold device_tbs, X509GetDeviceCertTBS.
  change (ops _ ++ [Top]) with ((Open 48 [] ::
    concat (ops <$> certificate_head c (ecc_point key) ++ [ca_extensions]) ++ [Close]) ++ [Top]).
  rewrite fmap_app, concat_app, <-app_comm_cons, <-!app_assoc. der_step.
  eapply (implements_head long_size Hlong d c _ (λ _, _)); try done.
  intros _ _. unfold ca_extensions. der_tree. repeat der_step.
Qed.

Lemma implements_AliasCertTBS key device fm fwid : point_ok key → point_ok device →
  has fm 0 fwid → zlen fwid < 65536 →
  implements (X509GetAliasCertTBS long_size encBuffer d key device fm (zlen fwid))
    (ops (alias_tbs c key device fwid) ++ [Top]).
Proof.
  intros Hk Hdev Hf Hfl. unfold alias_tbs, X509GetAliasCertTBS.
  change (ops _ ++ [Top]) with ((Open 48 [] :: concat (ops <$> certificate_head c (ecc_point key)
    ++ [riot_extensions (ecc_point device) fwid]) ++ [Close]) ++ [Top]).
  rewrite fmap_app, concat_app, <-app_comm_cons, <-!app_assoc. der_step.
  eapply (implements_head long_size Hlong d c _ (λ encBuffer,
    with_pub device encBuffer (λ encBuffer encBufferLen,
      X509AddExtensions long_size encBuffer encBufferLen fm (zlen fwid) >>>
      DERPopNesting >>> ASRT_closed))); try done.
  - intros e He. apply implements_with_pub; [done..|].
    cbn [fmap list_fmap concat app]. rewrite app_nil_r.
    apply implements_CHK; [|repeat der_step].
    apply implements_Extensions; try done; [apply has_self|by apply zlen_ecc_point].
Qed.
End x509_builders.

Lemma implements_DEREcc long_size encBuffer pub priv : (4 ≤ long_size)%nat →
  zlen encBuffer = 65 → point_ok pub → bigval priv →
  implements (X509GetDEREcc long_size encBuffer pub priv) (ops (private_key pub priv) ++ [Top]).
Proof.
  intros Hl He Hp Hv. unfold private_key. der_tree. unfold X509GetDEREcc. repeat der_step.
  pose proof (zlen_big_bytes priv Hv) as Hz. pose proof (zlen_ecc_point pub Hp) as Hzp.
  apply implements_with_big; [done|lia|].
  apply implements_cons; [apply implements_octets; [apply has_splice; lia|lia|lia]|].
  repeat der_step. apply implements_with_pub; [done|rewrite zlen_splice; lia|].
  apply implements_cons; [by apply implements_bits; [apply has_self|rewrite Hzp|lia]|].
  repeat der_step.
Qed.

Lemma implements_DEREccPub encBuffer pub : zlen encBuffer = 65 → point_ok pub →
  implements (X509GetDEREccPub encBuffer pub) (ops (public_key (ecc_point pub)) ++ [Top]).
Proof.
  intros He Hp. unfold public_key. der_tree. unfold X509GetDEREccPub. repeat der_step.
  pose proof (zlen_ecc_point pub Hp) as Hz. apply implements_with_pub; [done..|].
  apply implements_cons; [by apply implements_bits; [apply has_self|rewrite Hz|lia]|].
  repeat der_step.
Qed.

(** The three functions that add the signature have one body. *)
Lemma implements_Make encBuffer sig : zlen encBuffer = 32 →
  der_fits (sig_r sig) → der_fits (sig_s sig) →
  implements (X509MakeDeviceCert encBuffer sig)
    (Wrap :: concat (ops <$> [algorithm; signature sig]) ++ [Close; Top]).
Proof.
  intros He Hr Hs. unfold signature. der_tree. unfold X509MakeDeviceCert. repeat der_step.
  pose proof (zlen_big_bytes _ (proj1 Hr)) as Hzr. pose proof (zlen_big_bytes _ (proj1 Hs)) as Hzs.
  apply implements_with_big; [by destruct Hr|lia|].
  apply implements_cons; [apply implements_integer; [apply has_splice; lia|rewrite Hzr; done|by apply valid_big]|].
  apply implements_with_big; [by destruct Hs|rewrite zlen_splice; lia|].
  apply implements_cons; [apply implements_integer; [apply has_splice; rewrite ?zlen_splice; lia|rewrite Hzs; done|by apply valid_big]|].
  repeat der_step.
Qed.

Lemma signed_lemma L ctx encBuffer sig tbs : zlen encBuffer = 32 →
  der_fits (sig_r sig) → der_fits (sig_s sig) → finished L ctx tbs →
  zlen (encode (signed tbs sig)) < 65536 → zlen (encode (signed tbs sig)) + 32 ≤ L →
  ∃ ctx', X509MakeDeviceCert encBuffer sig ctx = Ok (0, ctx') ∧ finished L ctx' (signed tbs sig).
Proof.
  intros He Hr Hs Hf Hl HL.
  apply (implements_Make encBuffer sig He Hr Hs L ctx [encode tbs]); [done| |done].
  change (encode (signed tbs sig)) with
    (tlv 48 (encode tbs ++ concat (encode <$> [algorithm; signature sig]))) in *.
  unfold tlv in *. rewrite zlen_cons, zlen_app in Hl.
  set (l := [algorithm; signature sig]) in *.
  pose proof (zlen_nonneg (encode tbs)). pose proof (zlen_der_len (zlen (encode tbs ++ concat (encode <$> l)))).
  cbn [dsteps dstep mbind option_bind]. rewrite dsteps_app, dsteps_ops_list.
  - cbn [dsteps dstep mbind option_bind]. by rewrite (proj2 (Z.ltb_lt _ _)) by lia.
  - assert (zlen (concat (encode <$> l)) < 65536) as Hc by (rewrite zlen_app in *; zlen_lia).
    clear Hl HL.
    unfold l in *. cbn [fmap list_fmap concat] in Hc. rewrite !zlen_app in Hc.
    pose proof (zlen_nonneg (encode algorithm)). pose proof (zlen_nonneg (encode (signature sig))).
    repeat (apply Forall_cons; split; [split; [zlen_lia|vm_compute; done]|]). constructor.
Qed.

Lemma zlen_tlv tag c : zlen (tlv tag c) = 1 + zlen (der_len (zlen c)) + zlen c.
Proof. unfold tlv. zlen_lia. Qed.

Lemma zlen_signed tbs sig : zlen (encode tbs) ≤ zlen (encode (signed tbs sig)).
Proof.
  change (encode (signed tbs sig)) with
    (tlv 48 (encode tbs ++ concat (encode <$> [algorithm; signature sig]))).
  rewrite zlen_tlv. zlen_lia.
Qed.

(** Lengths of the key encodings, whatever the numbers. *)
Lemma zlen_public_key pub : point_ok pub → zlen (encode (public_key (ecc_point pub))) = 91.
Proof.
  intros Hp. pose proof (zlen_ecc_point pub Hp) as Hz. unfold public_key. cbn [encode].
  rewrite !fmap_cons. cbn [concat encode]. rewrite zlen_tlv. cbn [nesting_prefix fmap list_fmap concat app].
  assert (zlen (tlv 3 (0 :: ecc_point pub)) = 68) as Hb by (rewrite zlen_tlv, zlen_cons, Hz; done).
  rewrite !(zlen_app (tlv _ _)), Hb. done.
Qed.

Lemma zlen_private_key pub priv : point_ok pub → bigval priv →
  zlen (encode (private_key pub priv)) = 121.
Proof.
  intros Hp Hv. pose proof (zlen_ecc_point pub Hp) as Hz. pose proof (zlen_big_bytes priv Hv) as Hzp.
  unfold private_key. cbn [encode].
  rewrite !fmap_cons. cbn [concat encode]. rewrite zlen_tlv. cbn [nesting_prefix fmap list_fmap concat app].
  assert (zlen (tlv 3 (0 :: ecc_point pub)) = 68) as Hb by (rewrite zlen_tlv, zlen_cons, Hz; done).
  assert (zlen (tlv 4 (big_bytes priv)) = 34) as Ho by (rewrite zlen_tlv, Hzp; done).
  assert (zlen (tlv (nesting_tag (Explicit 1)) (encode (BitString (ecc_point pub)) ++ [])) = 70) as He
    by (rewrite app_nil_r, zlen_tlv; cbn [encode]; rewrite Hb; done).
  rewrite (zlen_app (encode _)), !(zlen_app (tlv _ _)), Ho, He. done.
Qed.

(** * Correctness *)

(** With room for it, building the device certificate's TBS region and
    adding the signature leaves exactly the DER encoding of the self-signed
    certificate of the given names, validity and key. *)
Theorem X509_device_cert_spec long_size buf L d c key encBuffer sigBuffer sig :
  (4 ≤ long_size)%nat → tbs_holds d c → point_ok key →
  zlen encBuffer = 65 → zlen sigBuffer = 32 → der_fits (sig_r sig) → der_fits (sig_s sig) →
  let tbs := device_tbs c key in let cert := signed tbs sig in
  zlen (encode cert) < 65536 → zlen (encode cert) + 32 ≤ L → L < 2 ^ 31 → L ≤ zlen buf →
  ∃ ctx ctx',
    (ctx ← DERInitContext buf L; X509GetDeviceCertTBS long_size encBuffer d key ctx) = Ok (0, ctx) ∧
    has (Buffer ctx) 0 (encode tbs) ∧ Position ctx = zlen (encode tbs) ∧
    X509MakeDeviceCert sigBuffer sig ctx = Ok (0, ctx') ∧
    has (Buffer ctx') 0 (encode cert) ∧ Position ctx' = zlen (encode cert).
Proof.
  intros Hls Hd Hk He Hsb Hr Hs tbs cert Hc HL HL2 Hbuf.
  pose proof (zlen_signed tbs sig) as Hz. fold cert in Hz.
  destruct (run_tree (X509GetDeviceCertTBS long_size encBuffer d key) tbs L buf) as (ctx & Hrun & Hf);
    [by apply implements_DeviceCertTBS|vm_compute; done|lia|lia|done|done|].
  destruct (signed_lemma L ctx sigBuffer sig tbs) as (ctx' & Hrun' & Hf');
    [assumption..|].
  exists ctx, ctx'. destruct (finished_spec _ _ _ Hf) as (? & ? & _).
  destruct (finished_spec _ _ _ Hf') as (? & ? & _). by split_and!.
Qed.

(** C20: likewise for the alias certificate: it carries the alias key and, in
    the critical subject alternative name, the device key and the SHA-256
    firmware digest. *)
Theorem X509_alias_cert_spec long_size buf L d c key device fm fwid encBuffer sigBuffer sig :
  (4 ≤ long_size)%nat → tbs_holds d c → point_ok key → point_ok device →
  has fm 0 fwid → zlen encBuffer = 65 → zlen sigBuffer = 32 →
  der_fits (sig_r sig) → der_fits (sig_s sig) →
  let tbs := alias_tbs c key device fwid in let cert := signed tbs sig in
  zlen (encode cert) < 65536 → zlen fwid < 65536 →
  zlen (encode cert) + 32 ≤ L → L < 2 ^ 31 → L ≤ zlen buf →
  ∃ ctx ctx',
    (ctx ← DERInitContext buf L;
     X509GetAliasCertTBS long_size encBuffer d key device fm (zlen fwid) ctx) = Ok (0, ctx) ∧
    has (Buffer ctx) 0 (encode tbs) ∧ Position ctx = zlen (encode tbs) ∧
    X509MakeAliasCert sigBuffer sig ctx = Ok (0, ctx') ∧
    has (Buffer ctx') 0 (encode cert) ∧ Position ctx' = zlen (encode cert).
Proof.
  intros Hls Hd Hk Hdev Hfm He Hsb Hr Hs tbs cert Hc Hfw HL HL2 Hbuf.
  pose proof (zlen_signed tbs sig) as Hz. fold cert in Hz.
  destruct (run_tree (X509GetAliasCertTBS long_size encBuffer d key device fm (zlen fwid)) tbs L buf)
    as (ctx & Hrun & Hf); [by apply implements_AliasCertTBS|vm_compute; done|lia|lia|done|done|].
  destruct (signed_lemma L ctx sigBuffer sig tbs) as (ctx' & Hrun' & Hf');
    [assumption..|].
  exists ctx, ctx'. destruct (finished_spec _ _ _ Hf) as (? & ? & _).
  destruct (finished_spec _ _ _ Hf') as (? & ? & _). by split_and!.
Qed.

(** The exported public key is the SubjectPublicKeyInfo of its point, and
    the exported key pair the ECPrivateKey of RFC 5915. *)
Theorem X509_keys_spec long_size buf L pub priv encBuffer :
  (4 ≤ long_size)%nat → point_ok pub → bigval priv → zlen encBuffer = 65 →
  256 ≤ L → L < 2 ^ 31 → L ≤ zlen buf →
  (∃ ctx, (ctx ← DERInitContext buf L; X509GetDEREccPub encBuffer pub ctx) = Ok (0, ctx) ∧
     has (Buffer ctx) 0 (encode (public_key (ecc_point pub))) ∧
     Position ctx = zlen (encode (public_key (ecc_point pub)))) ∧
  (∃ ctx, (ctx ← DERInitContext buf L; X509GetDEREcc long_size encBuffer pub priv ctx) = Ok (0, ctx) ∧
     has (Buffer ctx) 0 (encode (private_key pub priv)) ∧
     Position ctx = zlen (encode (private_key pub priv))).
Proof.
  intros Hls Hp Hv He HL HL2 Hbuf.
  pose proof (zlen_public_key pub Hp) as Hz1. pose proof (zlen_private_key pub priv Hp Hv) as Hz2.
  split.
  - destruct (run_tree (X509GetDEREccPub encBuffer pub) (public_key (ecc_point pub)) L buf)
      as (ctx & Hrun & Hf);
      [by apply implements_DEREccPub|vm_compute; done|lia|lia|done|done|].
    exists ctx. by destruct (finished_spec _ _ _ Hf) as (? & ? & _).
  - destruct (run_tree (X509GetDEREcc long_size encBuffer pub priv) (private_key pub priv) L buf)
      as (ctx & Hrun & Hf);
      [by apply implements_DEREcc|vm_compute; done|lia|lia|done|done|].
    exists ctx. by destruct (finished_spec _ _ _ Hf) as (? & ? & _).
Qed.

(** A concrete certificate. *)
Definition c_str (s : string) : list Z := bytes_of_string s ++ [0].

Definition sample (f : string → list Z) : RIOT_X509_TBS_DATA :=
  mkTbs [14; 13; 12; 11; 10] (f "devkitdice") (f "DEVKIT_TEST") (f "US")
    (f "170101000000Z") (f "370101000000Z") (f "devkitdice") (f "DEVKIT_TEST") (f "US").

Definition sample_key : affine_point := mkPoint (repeat 7 9) (repeat 9 9) 0.
Definition sample_sig : ECDSA_sig := mkSig (repeat 1 9) (repeat 2147483648 9).

Lemma sample_holds : tbs_holds (sample c_str) (sample bytes_of_string).
Proof.
  assert (∀ s, forallb (λ c, (0 <? c) && (c <? 256)) (bytes_of_string s) = true →
    cstring (c_str s) (bytes_of_string s)) as Hc.
  { intros s Hs. apply cstring_self. apply Forall_forall. intros v Hv.
    rewrite forallb_forall in Hs. apply list_elem_of_In in Hv. specialize (Hs v Hv). lia. }
  split; try (split; [by apply Hc|done]); try done; try apply has_self.
  split_and!; try done; [by repeat constructor|]. intros H. by inversion H.
Qed.

Lemma sample_point_ok : point_ok sample_key.
Proof. by repeat constructor. Qed.

Lemma sample_sig_fits : der_fits (sig_r sample_sig) ∧ der_fits (sig_s sample_sig).
Proof.
  repeat split; try (by repeat constructor).
  - intros H. vm_compute in H. repeat (apply Forall_cons in H as [? H]; try done).
  - intros H. vm_compute in H. by apply Forall_cons in H as [? _].
Qed.

Lemma X509_device_cert_spec_witness :
  let tbs := device_tbs (sample bytes_of_string) sample_key in let cert := signed tbs sample_sig in
  ∃ ctx ctx',
    (ctx ← DERInitContext (repeat 0 768) 768;
     X509GetDeviceCertTBS 8 (repeat 0 65) (sample c_str) sample_key ctx) = Ok (0, ctx) ∧
    has (Buffer ctx) 0 (encode tbs) ∧ Position ctx = zlen (encode tbs) ∧
    X509MakeDeviceCert (repeat 0 32) sample_sig ctx = Ok (0, ctx') ∧
    has (Buffer ctx') 0 (encode cert) ∧ Position ctx' = zlen (encode cert).
Proof.
  apply X509_device_cert_spec; [lia|apply sample_holds|apply sample_point_ok|done|done
    |apply sample_sig_fits|apply sample_sig_fits|vm_compute; done..].
Defined.

Lemma X509_alias_cert_spec_witness :
  let tbs := alias_tbs (sample bytes_of_string) sample_key sample_key (repeat 5 32) in
  let cert := signed tbs sample_sig in
  ∃ ctx ctx',
    (ctx ← DERInitContext (repeat 0 768) 768;
     X509GetAliasCertTBS 4 (repeat 0 65) (sample c_str) sample_key sample_key (repeat 5 32) 32 ctx)
      = Ok (0, ctx) ∧
    has (Buffer ctx) 0 (encode tbs) ∧ Position ctx = zlen (encode tbs) ∧
    X509MakeAliasCert (repeat 0 32) sample_sig ctx = Ok (0, ctx') ∧
    has (Buffer ctx') 0 (encode cert) ∧ Position ctx' = zlen (encode cert).
Proof.
  apply (X509_alias_cert_spec 4 (repeat 0 768) 768 (sample c_str) (sample bytes_of_string) sample_key
    sample_key (repeat 5 32) (repeat 5 32));
    [lia|apply sample_holds|apply sample_point_ok|apply sample_point_ok|apply has_self|done|done
    |apply sample_sig_fits|apply sample_sig_fits|vm_compute; done..].
Defined.

Lemma X509_keys_spec_witness :
  (∃ ctx, (ctx ← DERInitContext (repeat 0 768) 768; X509GetDEREccPub (repeat 0 65) sample_key ctx)
     = Ok (0, ctx) ∧
     has (Buffer ctx) 0 (encode (public_key (ecc_point sample_key))) ∧
     Position ctx = zlen (encode (public_key (ecc_point sample_key)))) ∧
  (∃ ctx, (ctx ← DERInitContext (repeat 0 768) 768;
       X509GetDEREcc 8 (repeat 0 65) sample_key (repeat 3 9) ctx) = Ok (0, ctx) ∧
     has (Buffer ctx) 0 (encode (private_key sample_key (repeat 3 9))) ∧
     Position ctx = zlen (encode (private_key sample_key (repeat 3 9)))).
Proof.
  apply X509_keys_spec; [lia|apply sample_point_ok|by repeat constructor|done|done|done|done].
Defined.

(** The request information as the builder leaves it: its version is an INTEGER
    without contents octets. *)
Definition csr_malformed (c : RIOT_X509_TBS_DATA) (key : affine_point) : list Z :=
  tlv 48 ([2; 0] ++ encode (x501_name (IssuerCommon c) (IssuerOrg c) (IssuerCountry c))
          ++ encode (public_key (ecc_point key)) ++ [160; 0]).

(** The certificate request never gets a valid version number: with a
    four-byte [long] building it reads past [valx], and with a longer one the
    version is the malformed INTEGER 02 00. *)
Theorem X509GetDERCsrTbs_version long_size buf L d c key encBuffer :
  (4 ≤ long_size)%nat → tbs_holds d c → point_ok key → zlen encBuffer = 65 →
  zlen (csr_malformed c key) < 65536 → zlen (csr_malformed c key) + 32 ≤ L →
  L < 2 ^ 31 → L ≤ zlen buf →
  let run := (ctx ← DERInitContext buf L; X509GetDERCsrTbs long_size encBuffer d key ctx) in
  match long_size with
  | 4%nat => run = Ub OutOfBounds
  | _ => ∃ ctx, run = Ok (0, ctx) ∧ has (Buffer ctx) 0 (csr_malformed c key) ∧
           Position ctx = zlen (csr_malformed c key)
  end.
Proof.
  intros Hls [] Hk He Hc HL HL2 Hbuf run. pose proof (zlen_nonneg (csr_malformed c key)).
  destruct (DERInitContext_lemma buf L) as (ctx0 & Hi & Hb0); [lia|done|].
  unfold run. rewrite Hi, bind_Ok.
  pose proof (zlen_public_key key Hk) as Hzk.
  unfold csr_malformed in Hc, HL. rewrite zlen_tlv, !zlen_app, Hzk in Hc, HL.
  set (name := encode (x501_name _ _ _)) in *. pose proof (zlen_nonneg name).
  set (dl := zlen (der_len _)) in *. assert (1 ≤ dl ≤ 3) as Hdl by apply zlen_der_len.
  change (zlen [2; 0]) with 2 in *. change (zlen [160; 0]) with 2 in *.
  destruct (decide (long_size = 4%nat)) as [->|Hne].
  - unfold X509GetDERCsrTbs, CHK at 1.
    destruct (implements_Start true L ctx0 [[]] [[]; [48]] Hb0 eq_refl) as (ctx1 & -> & Hb1);
      [change (zlen (fbytes _)) with 1; lia|]. rewrite bind_Ok. cbn [Z.ltb Z.compare]. unfold CHK at 1.
    rewrite (DERAddInteger_zero_long4 L ctx1 _ Hb1); [done|change (zlen (fbytes _)) with 1; lia].
  - set (l := [x501_name (IssuerCommon c) (IssuerOrg c) (IssuerCountry c);
      public_key (ecc_point key); Nested (Explicit 0) []]).
    assert (implements (X509GetDERCsrTbs long_size encBuffer d key)
      ([Open 48 []; Put [2; 0]] ++ concat (ops <$> l) ++ [Close; Top])) as Himp.
    { pose proof (zlen_ecc_point key Hk) as Hz. unfold X509GetDERCsrTbs, l.
      rewrite !fmap_cons. cbn [concat app]. rewrite <-!app_assoc. der_step.
      apply implements_cons; [apply implements_Integer_zero; lia|].
      apply implements_CHK; [by apply implements_X501Name|].
      unfold public_key. der_tree. repeat der_step. apply implements_with_pub; [done..|].
      apply implements_cons; [by apply implements_bits; [apply has_self|rewrite Hz|lia]|].
      repeat der_step. }
    destruct (Himp L ctx0 [[]] [csr_malformed c key] Hb0) as (ctx & Hrun & Hb).
    + assert (concat (encode <$> l) = name ++ encode (public_key (ecc_point key)) ++ [160; 0]) as Hl
        by done.
      cbn [app dsteps dstep mbind option_bind].
      change (zlen (@nil (list Z)) <? DER_MAX_NESTED) with true. cbn [mbind option_bind].
      rewrite dsteps_app, dsteps_ops_list.
      * cbn [mbind option_bind dsteps dstep]. rewrite Hl, (proj2 (Z.ltb_lt _ _)); [done|].
        rewrite !zlen_app, Hzk. change (zlen [2; 0]) with 2. change (zlen [160; 0]) with 2. zlen_lia.
      * repeat (apply Forall_cons; split; [split; [|vm_compute; done]|]); [fold name; lia|lia|done|done].
    + change (fbytes [csr_malformed c key]) with (csr_malformed c key).
      unfold csr_malformed. fold name. rewrite zlen_tlv, !zlen_app, Hzk. fold dl.
      change (zlen [2; 0]) with 2. change (zlen [160; 0]) with 2. lia.
    + assert (∃ ctx, (X509GetDERCsrTbs long_size encBuffer d key ctx0) = Ok (0, ctx) ∧
        has (Buffer ctx) 0 (csr_malformed c key) ∧ Position ctx = zlen (csr_malformed c key))
        by (exists ctx; split_and!; [done|apply Hb|apply Hb]).
      destruct long_size as [|[|[|[|[|n]]]]]; [lia..|done].
Qed.

Lemma X509GetDERCsrTbs_version_witness :
  (ctx ← DERInitContext (repeat 0 768) 768;
   X509GetDERCsrTbs 4 (repeat 0 65) (sample c_str) sample_key ctx) = Ub OutOfBounds.
Proof.
  apply (X509GetDERCsrTbs_version 4 (repeat 0 768) 768 (sample c_str) (sample bytes_of_string)
    sample_key (repeat 0 65)); [lia|apply sample_holds|apply sample_point_ok|vm_compute; done..].
Defined.
