(* ===== verification/Aes.v ===== *)
(** RiotAes128.c and RiotAesTables.c: AES-128 encryption with one table, its key
    schedule, and the CTR and ECB modes (AES_CBC_MODE is off).

    The host is little-endian. A shift of a table byte into the sign bit of an
    [int], as SubBytes does, is taken to give the 32-bit pattern, as the
    compilers of the project do. The input and output of a mode do not overlap. *)
From S2P Require Export Words.

(** * RiotAesTables.c *)
Definition sbox : list Z :=
  [99; 124; 119; 123; 242; 107; 111; 197; 48; 1; 103; 43; 254; 215; 171; 118;
   202; 130; 201; 125; 250; 89; 71; 240; 173; 212; 162; 175; 156; 164; 114; 192;
   183; 253; 147; 38; 54; 63; 247; 204; 52; 165; 229; 241; 113; 216; 49; 21;
   4; 199; 35; 195; 24; 150; 5; 154; 7; 18; 128; 226; 235; 39; 178; 117;
   9; 131; 44; 26; 27; 110; 90; 160; 82; 59; 214; 179; 41; 227; 47; 132;
   83; 209; 0; 237; 32; 252; 177; 91; 106; 203; 190; 57; 74; 76; 88; 207;
   208; 239; 170; 251; 67; 77; 51; 133; 69; 249; 2; 127; 80; 60; 159; 168;
   81; 163; 64; 143; 146; 157; 56; 245; 188; 182; 218; 33; 16; 255; 243; 210;
   205; 12; 19; 236; 95; 151; 68; 23; 196; 167; 126; 61; 100; 93; 25; 115;
   96; 129; 79; 220; 34; 42; 144; 136; 70; 238; 184; 20; 222; 94; 11; 219;
   224; 50; 58; 10; 73; 6; 36; 92; 194; 211; 172; 98; 145; 149; 228; 121;
   231; 200; 55; 109; 141; 213; 78; 169; 108; 86; 244; 234; 101; 122; 174; 8;
   186; 120; 37; 46; 28; 166; 180; 198; 232; 221; 116; 31; 75; 189; 139; 138;
   112; 62; 181; 102; 72; 3; 246; 14; 97; 53; 87; 185; 134; 193; 29; 158;
   225; 248; 152; 17; 105; 217; 142; 148; 155; 30; 135; 233; 206; 85; 40; 223;
   140; 161; 137; 13; 191; 230; 66; 104; 65; 153; 45; 15; 176; 84; 187; 22].

Definition ftable : list Z :=
  [2774754246; 2222750968; 2574743534; 2373680118; 234025727; 3177933782; 2976870366;
   1422247313; 1345335392; 50397442; 2842126286; 2099981142; 436141799; 1658312629;
   3870010189; 2591454956; 1170918031; 2642575903; 1086966153; 2273148410; 368769775;
   3948501426; 3376891790; 200339707; 3970805057; 1742001331; 4255294047; 3937382213;
   3214711843; 4154762323; 2524082916; 1539358875; 3266819957; 486407649; 2928907069;
   1780885068; 1513502316; 1094664062; 49805301; 1338821763; 1546925160; 4104496465;
   887481809; 150073849; 2473685474; 1943591083; 1395732834; 1058346282; 201589768;
   1388824469; 1696801606; 1589887901; 672667696; 2711000631; 251987210; 3046808111;
   151455502; 907153956; 2608889883; 1038279391; 652995533; 1764173646; 3451040383;
   2675275242; 453576978; 2659418909; 1949051992; 773462580; 756751158; 2993581788;
   3998898868; 4221608027; 4132590244; 1295727478; 1641469623; 3467883389; 2066295122;
   1055122397; 1898917726; 2542044179; 4115878822; 1758581177; 0; 753790401;
   1612718144; 536673507; 3367088505; 3982187446; 3194645204; 1187761037; 3653156455;
   1262041458; 3729410708; 3561770136; 3898103984; 1255133061; 1808847035; 720367557;
   3853167183; 385612781; 3309519750; 3612167578; 1429418854; 2491778321; 3477423498;
   284817897; 100794884; 2172616702; 4031795360; 1144798328; 3131023141; 3819481163;
   4082192802; 4272137053; 3225436288; 2324664069; 2912064063; 3164445985; 1211644016;
   83228145; 3753688163; 3249976951; 1977277103; 1663115586; 806359072; 452984805;
   250868733; 1842533055; 1288555905; 336333848; 890442534; 804056259; 3781124030;
   2727843637; 3427026056; 957814574; 1472513171; 4071073621; 2189328124; 1195195770;
   2892260552; 3881655738; 723065138; 2507371494; 2690670784; 2558624025; 3511635870;
   2145180835; 1713513028; 2116692564; 2878378043; 2206763019; 3393603212; 703524551;
   3552098411; 1007948840; 2044649127; 3797835452; 487262998; 1994120109; 1004593371;
   1446130276; 1312438900; 503974420; 3679013266; 168166924; 1814307912; 3831258296;
   1573044895; 1859376061; 4021070915; 2791465668; 2828112185; 2761266481; 937747667;
   2339994098; 854058965; 1137232011; 1496790894; 3077402074; 2358086913; 1691735473;
   3528347292; 3769215305; 3027004632; 4199962284; 133494003; 636152527; 2942657994;
   2390391540; 3920539207; 403179536; 3585784431; 2289596656; 1864705354; 1915629148;
   605822008; 4054230615; 3350508659; 1371981463; 602466507; 2094914977; 2624877800;
   555687742; 3712699286; 3703422305; 2257292045; 2240449039; 2423288032; 1111375484;
   3300242801; 2858837708; 3628615824; 84083462; 32962295; 302911004; 2741068226;
   1597322602; 4183250862; 3501832553; 2441512471; 1489093017; 656219450; 3114180135;
   954327513; 335083755; 3013122091; 856756514; 3144247762; 1893325225; 2307821063;
   2811532339; 3063651117; 572399164; 2458355477; 552200649; 1238290055; 4283782570;
   2015897680; 2061492133; 2408352771; 4171342169; 2156497161; 386731290; 3669999461;
   837215959; 3326231172; 3093850320; 3275833730; 2962856233; 1999449434; 286199582;
   3417354363; 4233385128; 3602627437; 974525996].

Definition Rconst : list Z :=
  [1; 2; 4; 8; 16; 32;
   64; 128; 27; 54; 108; 216].

(** * Macros *)
Definition ROTL8 (x : Z) : Z := Z.lor (u32 (Z.shiftl x 8)) (Z.shiftr x 24).
Definition ROTL16 (x : Z) : Z := Z.lor (u32 (Z.shiftl x 16)) (Z.shiftr x 16).
Definition ROTL24 (x : Z) : Z := Z.lor (u32 (Z.shiftl x 24)) (Z.shiftr x 8).

Definition SHFL8 (x : Z) : Z := u32 (Z.shiftl x 8).
Definition SHFL16 (x : Z) : Z := u32 (Z.shiftl x 16).
Definition SHFL24 (x : Z) : Z := u32 (Z.shiftl x 24).

Definition ROW_0 (x : Z) : Z := u8 x.
Definition ROW_1 (x : Z) : Z := u8 (Z.shiftr x 8).
Definition ROW_2 (x : Z) : Z := u8 (Z.shiftr x 16).
Definition ROW_3 (x : Z) : Z := u8 (Z.shiftr x 24).

(** A table of 256 entries at a [uint8_t] index. *)
Definition at8 (t : list Z) (i : Z) : Z := t !!! Z.to_nat i.

Definition round_column (x0 x1 x2 x3 : Z) : Z :=
  Z.lxor (Z.lxor (Z.lxor (at8 ftable (ROW_0 x0)) (ROTL8 (at8 ftable (ROW_1 x1))))
                 (ROTL16 (at8 ftable (ROW_2 x2))))
         (ROTL24 (at8 ftable (ROW_3 x3))).

Definition lastround_column (x0 x1 x2 x3 : Z) : Z :=
  Z.lxor (Z.lxor (Z.lxor (at8 sbox (ROW_0 x0)) (SHFL8 (at8 sbox (ROW_1 x1))))
                 (SHFL16 (at8 sbox (ROW_2 x2))))
         (SHFL24 (at8 sbox (ROW_3 x3))).

(** The four variables of a round. *)
Record cols := Cols { c0 : Z; c1 : Z; c2 : Z; c3 : Z }.

(** The four columns computed by [column] xored with the next four key words. *)
Definition round_with (column : Z → Z → Z → Z → Z) (x : cols) (key : list Z) (p : Z)
    : outcome cols :=
  k0 ← rd key p;
  k1 ← rd key (p + 1);
  k2 ← rd key (p + 2);
  k3 ← rd key (p + 3);
  let '(Cols x0 x1 x2 x3) := x in
  Ok (Cols (Z.lxor (column x0 x1 x2 x3) k0) (Z.lxor (column x1 x2 x3 x0) k1)
           (Z.lxor (column x2 x3 x0 x1) k2) (Z.lxor (column x3 x0 x1 x2) k3)).

Definition round := round_with round_column.
Definition lastround := round_with lastround_column.

(** [memcpy(u32, u8, 16)] and [memcpy(u8, u32, 16)], from offset [p]. *)
Definition Pack32 (b : list Z) (p : Z) : outcome (list Z) :=
  bs ← rd_bytes b p 16; Ok (words_of_bytes 4 bs).

Definition Unpack32 (b : list Z) (p : Z) (w : list Z) : outcome (list Z) :=
  wr_bytes b p (bytes_of_words w).

Definition SubBytes (a : Z) : Z :=
  Z.lor (Z.lor (Z.lor (at8 sbox (u8 a)) (u32 (Z.shiftl (at8 sbox (u8 (Z.shiftr a 8))) 8)))
               (u32 (Z.shiftl (at8 sbox (u8 (Z.shiftr a 16))) 16)))
        (u32 (Z.shiftl (at8 sbox (u8 (Z.shiftr a 24))) 24)).

Definition ROUNDS : Z := 10.

(** The loop of double rounds, [n] left, the key pointer at [p]. *)
Fixpoint double_rounds (n : nat) (x : cols) (key : list Z) (p : Z) : outcome (cols * Z) :=
  match n with
  | O => Ok (x, p)
  | S n =>
    y ← round x key p;
    x ← round y key (p + 4);
    double_rounds n x key (p + 8)
  end.

Definition EncryptRounds (in_ key : list Z) : outcome (list Z) :=
  i0 ← rd in_ 0; i1 ← rd in_ 1; i2 ← rd in_ 2; i3 ← rd in_ 3;
  k0 ← rd key 0; k1 ← rd key 1; k2 ← rd key 2; k3 ← rd key 3;
  let x := Cols (Z.lxor i0 k0) (Z.lxor i1 k1) (Z.lxor i2 k2) (Z.lxor i3 k3) in
  '(x, p) ← double_rounds 4 x key 4;
  y ← round x key p;
  x ← lastround y key (p + 4);
  Ok [c0 x; c1 x; c2 x; c3 x].

(** * Key schedule *)
Definition AES128_ENCRYPT_SCHEDULE_LEN : Z := 48.

(** The loop of RIOT_AES128_Enable from round [i] on, [fkey] being an index. *)
Fixpoint schedule (n : nat) (i fkey : Z) (m : list Z) : outcome (list Z) :=
  match n with
  | O => Ok m
  | S n =>
    f0 ← rd m fkey;
    f3 ← rd m (fkey + 3);
    rc ← rd Rconst i;
    m ← wr m (fkey + 4) (Z.lxor (Z.lxor f0 (SubBytes (ROTL24 f3))) rc);
    f1 ← rd m (fkey + 1);
    f4 ← rd m (fkey + 4);
    m ← wr m (fkey + 5) (Z.lxor f1 f4);
    f2 ← rd m (fkey + 2);
    f5 ← rd m (fkey + 5);
    m ← wr m (fkey + 6) (Z.lxor f2 f5);
    f3 ← rd m (fkey + 3);
    f6 ← rd m (fkey + 6);
    m ← wr m (fkey + 7) (Z.lxor f3 f6);
    schedule n (i + 1) (fkey + 4) m
  end.

Definition RIOT_AES128_Enable (key aesEncryptKey : list Z) : outcome (list Z) :=
  w ← Pack32 key 0;
  m ← wr_bytes aesEncryptKey 0 w;
  schedule (Z.to_nat (ROUNDS + 1)) 0 0 m.

Definition RIOT_AES128_Disable (aesEncryptionKey : list Z) : outcome (list Z) :=
  wr_bytes aesEncryptionKey 0 (replicate (Z.to_nat AES128_ENCRYPT_SCHEDULE_LEN) 0).

(** * Modes *)

(** [while (n--) *out++ = *p++ ^ *in++], [n] rounds left. *)
Fixpoint xor_bytes (n : nat) (tmp : list Z) (p : Z) (in_ : list Z) (i : Z) : writer := λ s,
  match n with
  | O => Ok s
  | S n =>
    a ← rd tmp p;
    b ← rd in_ i;
    (wput (Z.lxor a b) ;;; xor_bytes n tmp (p + 1) in_ (i + 1)) s
  end.

(** The increment of [counter[3]] byte by byte, the last byte first. *)
Definition increment (pCtr : list Z) : list Z :=
  match pCtr with
  | [b0; b1; b2; b3] =>
    let b3 := u8 (b3 + 1) in
    if b3 =? 0 then
      let b2 := u8 (b2 + 1) in
      if b2 =? 0 then
        let b1 := u8 (b1 + 1) in
        if b1 =? 0 then [u8 (b0 + 1); b1; b2; b3] else [b0; b1; b2; b3]
      else [b0; b1; b2; b3]
    else [b0; b1; b2; b3]
  | _ => pCtr
  end.

(** The loop of RIOT_AES_CTR_128 with [in] at index [i] and [out] as a writer:
    the memory of [out] and the counter. *)
Fixpoint ctr_loop (fuel : nat) (key in_ : list Z) (i len : Z) (counter : list Z) (s : wstate)
    : outcome (list Z * list Z) :=
  if len =? 0 then Ok (s.1, counter) else
  match fuel with
  | O => Ub OutOfFuel
  | S fuel =>
    let n := Z.min len 16 in
    tmp ← EncryptRounds counter key;
    s ← xor_bytes (Z.to_nat n) (bytes_of_words tmp) 0 in_ i s;
    w3 ← rd counter 3;
    counter ← wr counter 3 (le_combine (increment (le_split 4 w3)));
    ctr_loop fuel key in_ (i + n) (len - n) counter s
  end.

(** The memories of [out] and [ctr]. *)
Definition RIOT_AES_CTR_128 (key in_ out : list Z) (len : Z) (ctr : list Z)
    : outcome (list Z * list Z) :=
  counter ← Pack32 ctr 0;
  '(out, counter) ← ctr_loop (Z.to_nat len) key in_ 0 len counter (out, 0);
  ctr ← Unpack32 ctr 0 counter;
  Ok (out, ctr).

Definition AES_BLOCK_SIZE : Z := 16.

(** The loop of RIOT_AES_ECB_128_ENCRYPT with both pointers at [p]; [size] is
    unsigned, so a remainder below 16 wraps around. *)
Fixpoint ecb_loop (fuel : nat) (key in_ : list Z) (p size : Z) (out : list Z)
    : outcome (list Z) :=
  if size =? 0 then Ok out else
  match fuel with
  | O => Ub OutOfFuel
  | S fuel =>
    in32 ← Pack32 in_ p;
    out32 ← EncryptRounds in32 key;
    out ← Unpack32 out p out32;
    ecb_loop fuel key in_ (p + AES_BLOCK_SIZE) (u64 (size - AES_BLOCK_SIZE)) out
  end.

(** A round consumes 16 bytes of [in], so its length bounds the number of rounds. *)
Definition RIOT_AES_ECB_128_ENCRYPT (key in_ out : list Z) (size : Z) : outcome (list Z) :=
  ecb_loop (S (length in_)) key in_ 0 size out.
