(* ===== verification/AesSpec.v ===== *)
(** AES-128 of FIPS 197 on byte matrices, and that RiotAes128.c computes it: the
    S-box and the round table against their definitions in GF(2^8), the key
    schedule, one block, ECB and CTR. *)
From S2P Require Export Aes.

Module Fips197.

(** Multiplication by x modulo x^8 + x^4 + x^3 + x + 1. *)
Definition xtime (b : Z) : Z := if b <? 128 then 2 * b else Z.lxor (2 * b - 256) 27.

Fixpoint gf_mul (n : nat) (a b : Z) : Z :=
  match n with
  | O => 0
  | S n => Z.lxor (if Z.odd b then a else 0) (gf_mul n (xtime a) (b / 2))
  end.

Definition gf_inv (b : Z) : Z :=
  default 0 (List.find (λ y, gf_mul 8 b y =? 1) (seqZ 0 256)).

Definition rotl (k b : Z) : Z := b * 2 ^ k mod 256 + b / 2 ^ (8 - k).

Definition s_box (b : Z) : Z :=
  let i := gf_inv b in
  Z.lxor (Z.lxor (Z.lxor (Z.lxor (Z.lxor i (rotl 1 i)) (rotl 2 i)) (rotl 3 i)) (rotl 4 i)) 99.

(** The state is the list of its four columns. *)
Definition xor_list (a b : list Z) : list Z := zip_with Z.lxor a b.

Definition sub_bytes (st : list (list Z)) : list (list Z) :=
  (λ c : list Z, s_box <$> c) <$> st.

Definition shift_rows (st : list (list Z)) : list (list Z) :=
  (λ j : nat, (λ r : nat, (st !!! ((j + r) mod 4)%nat) !!! r) <$> [0; 1; 2; 3]%nat)
    <$> [0; 1; 2; 3]%nat.

Definition mix_column (c : list Z) : list Z :=
  match c with
  | [a; b; c; d] =>
    let x2 := xtime in let x3 v := Z.lxor (xtime v) v in
    [Z.lxor (Z.lxor (Z.lxor (x2 a) (x3 b)) c) d; Z.lxor (Z.lxor (Z.lxor a (x2 b)) (x3 c)) d;
     Z.lxor (Z.lxor (Z.lxor a b) (x2 c)) (x3 d); Z.lxor (Z.lxor (Z.lxor (x3 a) b) c) (x2 d)]
  | _ => c
  end.

Definition mix_columns (st : list (list Z)) : list (list Z) := mix_column <$> st.

Definition add_round_key (st rk : list (list Z)) : list (list Z) := zip_with xor_list st rk.

Definition aes_round (st rk : list (list Z)) : list (list Z) :=
  add_round_key (mix_columns (shift_rows (sub_bytes st))) rk.

Definition final_round (st rk : list (list Z)) : list (list Z) :=
  add_round_key (shift_rows (sub_bytes st)) rk.

(** Key expansion: [w] grows by one word a step. *)
Definition rcon (i : nat) : list Z := [Nat.iter (i - 1) xtime 1; 0; 0; 0].

Definition rot_word (w : list Z) : list Z :=
  match w with b :: w => w ++ [b] | [] => [] end.

Definition next_word (w : list (list Z)) : list Z :=
  let i := length w in
  let temp := w !!! (i - 1)%nat in
  let temp := if Nat.eqb (i mod 4) 0
              then xor_list (s_box <$> rot_word temp) (rcon (i / 4)) else temp in
  xor_list (w !!! (i - 4)%nat) temp.

Fixpoint expand (n : nat) (w : list (list Z)) : list (list Z) :=
  match n with
  | O => w
  | S n => expand n (w ++ [next_word w])
  end.

(** Sixteen bytes as columns. *)
Fixpoint columns (n : nat) (bs : list Z) : list (list Z) :=
  match n with
  | O => []
  | S n => take 4 bs :: columns n (drop 4 bs)
  end.

(** The round key number [i]. *)
Definition round_key (w : list (list Z)) (i : nat) : list (list Z) := take 4 (drop (4 * i) w).

Fixpoint rounds (n i : nat) (w st : list (list Z)) : list (list Z) :=
  match n with
  | O => st
  | S n => rounds n (S i) w (aes_round st (round_key w i))
  end.

Definition cipher (w : list (list Z)) (block : list Z) : list Z :=
  let st := add_round_key (columns 4 block) (round_key w 0) in
  let st := rounds 9 1 w st in
  concat (final_round st (round_key w 10)).

Definition aes128 (key block : list Z) : list Z :=
  cipher (expand 40 (columns 4 key)) block.

End Fips197.
Import Fips197.

(** FIPS 197, appendix C.1. *)
Example aes128_vector :
  aes128 [0; 1; 2; 3; 4; 5; 6; 7; 8; 9; 10; 11; 12; 13; 14; 15]
    [0; 17; 34; 51; 68; 85; 102; 119; 136; 153; 170; 187; 204; 221; 238; 255]
  = [105; 196; 224; 216; 106; 123; 4; 48; 216; 205; 183; 128; 112; 180; 197; 90].
Proof. vm_compute. reflexivity. Qed.

(** * Tables *)
Lemma sbox_spec b : is_u8 b → at8 sbox b = s_box b.
Proof.
  intros Hb. apply Z.eqb_eq. apply (forallb_seqZ (λ b, at8 sbox b =? s_box b) 256); [|exact Hb].
  vm_compute. reflexivity.
Qed.

Lemma s_box_range b : is_u8 b → is_u8 (s_box b).
Proof.
  intros Hb. rewrite <-sbox_spec by done.
  assert ((λ b, (0 <=? at8 sbox b) && (at8 sbox b <? 256)) b = true) as H.
  { apply (forallb_seqZ (λ b, (0 <=? at8 sbox b) && (at8 sbox b <? 256)) 256); [|exact Hb].
    vm_compute. reflexivity. }
  cbv beta in H. unfold is_u8. lia.
Qed.

Lemma ftable_spec b : is_u8 b →
  at8 ftable b = le_combine [xtime (s_box b); s_box b; s_box b; Z.lxor (xtime (s_box b)) (s_box b)].
Proof.
  intros Hb. rewrite <-sbox_spec by done. apply Z.eqb_eq.
  apply (forallb_seqZ (λ b, at8 ftable b =? le_combine [xtime (at8 sbox b); at8 sbox b;
    at8 sbox b; Z.lxor (xtime (at8 sbox b)) (at8 sbox b)]) 256); [|exact Hb].
  vm_compute. reflexivity.
Qed.

Lemma xtime_range b : is_u8 b → is_u8 (xtime b).
Proof.
  intros Hb. assert ((λ b, (0 <=? xtime b) && (xtime b <? 256)) b = true) as H.
  { apply (forallb_seqZ (λ b, (0 <=? xtime b) && (xtime b <? 256)) 256); [|exact Hb].
    vm_compute. reflexivity. }
  cbv beta in H. unfold is_u8. lia.
Qed.

Lemma lxor_u8 a b : is_u8 a → is_u8 b → is_u8 (Z.lxor a b).
Proof. apply (lxor_range 8). lia. Qed.

#[export] Hint Resolve s_box_range xtime_range lxor_u8 : c_int.

(** * Words as columns *)
Lemma lxor_combine a : ∀ b, length a = length b → bytes a → bytes b →
  Z.lxor (le_combine a) (le_combine b) = le_combine (xor_list a b).
Proof.
  induction a as [|x a IH]; intros [|y b] Hl Ha Hb; try done.
  inversion Ha as [|? ? Hx Ha']; inversion Hb as [|? ? Hy Hb']; subst. simpl in Hl.
  cbn [xor_list zip_with]. fold (xor_list a b).
  rewrite !le_combine_cons_lor by auto with c_int. rewrite <-IH by (done || lia).
  apply Z.bits_inj'. intros n Hn. rewrite !Z.lxor_spec, !Z.lor_spec, Z.lxor_spec.
  destruct (Z.lt_ge_cases n 8).
  - rewrite !Z.shiftl_spec_low by lia. by rewrite !orb_false_r.
  - assert (∀ v, is_u8 v → Z.testbit v n = false) as Hz.
    { intros v Hv. change (is_u8 v) with (0 ≤ v < 2 ^ 8) in Hv.
      by apply (proj1 (Z.bounded_iff_bits_nonneg 8 v ltac:(lia) ltac:(lia))); [lia|]. }
    rewrite !(Hz x), !(Hz y) by done. rewrite !Z.shiftl_spec by lia. cbn [orb xorb].
    by rewrite Z.lxor_spec.
Qed.

Lemma rotl_combine lo hi k :
  bytes lo → bytes hi → zlen lo + zlen hi = 4 → k = 8 * zlen hi →
  Z.lor (u32 (Z.shiftl (le_combine (lo ++ hi)) k)) (Z.shiftr (le_combine (lo ++ hi)) (32 - k))
  = le_combine (hi ++ lo).
Proof.
  intros Hlo Hhi Hl ->. pose proof (le_combine_range lo Hlo) as Rlo.
  pose proof (le_combine_range hi Hhi) as Rhi. rewrite !le_combine_app.
  pose proof (zlen_nonneg lo). pose proof (zlen_nonneg hi).
  set (A := le_combine lo) in *. set (B := le_combine hi) in *.
  replace (32 - 8 * zlen hi) with (8 * zlen lo) by lia.
  assert (256 ^ zlen lo = 2 ^ (8 * zlen lo)) as El by (by rewrite Z.pow_mul_r by lia).
  assert (256 ^ zlen hi = 2 ^ (8 * zlen hi)) as Eh by (by rewrite Z.pow_mul_r by lia).
  rewrite El, Eh in *.
  assert (2 ^ (8 * zlen lo) * 2 ^ (8 * zlen hi) = 4294967296) as Ep.
  { rewrite <-Z.pow_add_r by lia. by replace (8 * zlen lo + 8 * zlen hi) with 32 by lia. }
  set (P := 2 ^ (8 * zlen lo)) in *. set (Q := 2 ^ (8 * zlen hi)) in *.
  assert (Z.shiftr (A + P * B) (8 * zlen lo) = B) as ->.
  { rewrite Z.shiftr_div_pow2 by lia. fold P. symmetry.
    apply (Z.div_unique _ _ _ A); lia. }
  assert (u32 (Z.shiftl (A + P * B) (8 * zlen hi)) = Z.shiftl A (8 * zlen hi)) as ->.
  { rewrite !Z.shiftl_mul_pow2 by lia. fold Q. unfold u32. symmetry.
    apply (Z.mod_unique _ _ B); [|nia]. nia. }
  rewrite Z.lor_comm, lor_shiftl_add by (fold Q; lia). fold Q. lia.
Qed.

(** Bytes given one by one. *)
Ltac u8s := repeat (apply Forall_cons_2; [by auto with c_int|]); apply Forall_nil_2.

(** A column: four bytes. *)
Definition column (c : list Z) : Prop := length c = 4%nat ∧ bytes c.
Definition state_ok (st : list (list Z)) : Prop := length st = 4%nat ∧ Forall column st.

Lemma column_inv c : column c → ∃ a b d e, c = [a; b; d; e] ∧ is_u8 a ∧ is_u8 b ∧ is_u8 d ∧ is_u8 e.
Proof.
  intros [Hl Hb]. do 5 (destruct c as [|? c]; try done).
  repeat match goal with H : Forall _ (_ :: _) |- _ => inversion_clear H end. eauto 10.
Qed.

Lemma column_intro a b c d : is_u8 a → is_u8 b → is_u8 c → is_u8 d → column [a; b; c; d].
Proof. split; [done|]. u8s. Qed.

Lemma column_xor a b : column a → column b → column (xor_list a b).
Proof.
  intros Ha Hb. destruct (column_inv a Ha) as (?&?&?&?&->&?&?&?&?).
  destruct (column_inv b Hb) as (?&?&?&?&->&?&?&?&?). apply column_intro; auto with c_int.
Qed.

Lemma lxor_column a b : column a → column b →
  Z.lxor (le_combine a) (le_combine b) = le_combine (xor_list a b).
Proof. intros [? ?] [? ?]. apply lxor_combine; congruence. Qed.

Section rotations.
Context (a b c d : Z) (Ha : is_u8 a) (Hb : is_u8 b) (Hc : is_u8 c) (Hd : is_u8 d).
Let w : Z := le_combine [a; b; c; d].

Lemma ROTL8_combine : ROTL8 w = le_combine [d; a; b; c].
Proof. apply (rotl_combine [a; b; c] [d] 8); done || u8s. Qed.
Lemma ROTL16_combine : ROTL16 w = le_combine [c; d; a; b].
Proof. apply (rotl_combine [a; b] [c; d] 16); done || u8s. Qed.
Lemma ROTL24_combine : ROTL24 w = le_combine [b; c; d; a].
Proof. apply (rotl_combine [a] [b; c; d] 24); done || u8s. Qed.

Lemma ROW_0_combine : ROW_0 w = a.
Proof. unfold ROW_0, w, u8. cbn [le_combine]. unfold is_u8 in *. dlia. Qed.
Lemma ROW_1_combine : ROW_1 w = b.
Proof.
  unfold ROW_1, w, u8. rewrite Z.shiftr_div_pow2 by lia. change (2 ^ 8) with 256.
  cbn [le_combine]. unfold is_u8 in *. dlia.
Qed.
Lemma ROW_2_combine : ROW_2 w = c.
Proof.
  unfold ROW_2, w, u8. rewrite Z.shiftr_div_pow2 by lia. change (2 ^ 16) with 65536.
  cbn [le_combine]. unfold is_u8 in *. dlia.
Qed.
Lemma ROW_3_combine : ROW_3 w = d.
Proof.
  unfold ROW_3, w, u8. rewrite Z.shiftr_div_pow2 by lia. change (2 ^ 24) with 16777216.
  cbn [le_combine]. unfold is_u8 in *. dlia.
Qed.
End rotations.

Lemma shift_combine a : is_u8 a →
  a = le_combine [a; 0; 0; 0] ∧ SHFL8 a = le_combine [0; a; 0; 0] ∧
  SHFL16 a = le_combine [0; 0; a; 0] ∧ SHFL24 a = le_combine [0; 0; 0; a].
Proof.
  intros Ha. unfold SHFL8, SHFL16, SHFL24. rewrite !Z.shiftl_mul_pow2 by lia.
  unfold is_u8 in Ha. rewrite !u32_id by (unfold is_u32; lia). cbn [le_combine]. lia.
Qed.

(** * Rounds *)

(** The column of a round before the key: row [i] of column [i]. *)
Lemma round_column_spec a b c d : column a → column b → column c → column d →
  round_column (le_combine a) (le_combine b) (le_combine c) (le_combine d)
  = le_combine (mix_column [s_box (a !!! 0%nat); s_box (b !!! 1%nat); s_box (c !!! 2%nat);
                            s_box (d !!! 3%nat)]).
Proof.
  intros Ha Hb Hc Hd. destruct (column_inv a Ha) as (a0&a1&a2&a3&->&?&?&?&?).
  destruct (column_inv b Hb) as (b0&b1&b2&b3&->&?&?&?&?).
  destruct (column_inv c Hc) as (e0&e1&e2&e3&->&?&?&?&?).
  destruct (column_inv d Hd) as (d0&d1&d2&d3&->&?&?&?&?). unfold round_column.
  rewrite ROW_0_combine, ROW_1_combine, ROW_2_combine, ROW_3_combine by done.
  rewrite !ftable_spec by done.
  rewrite ROTL8_combine, ROTL16_combine, ROTL24_combine by auto with c_int.
  rewrite !lxor_column by (repeat apply column_xor; apply column_intro; auto with c_int).
  done.
Qed.

Lemma lastround_column_spec a b c d : column a → column b → column c → column d →
  lastround_column (le_combine a) (le_combine b) (le_combine c) (le_combine d)
  = le_combine [s_box (a !!! 0%nat); s_box (b !!! 1%nat); s_box (c !!! 2%nat); s_box (d !!! 3%nat)].
Proof.
  intros Ha Hb Hc Hd. destruct (column_inv a Ha) as (a0&a1&a2&a3&->&?&?&?&?).
  destruct (column_inv b Hb) as (b0&b1&b2&b3&->&?&?&?&?).
  destruct (column_inv c Hc) as (e0&e1&e2&e3&->&?&?&?&?).
  destruct (column_inv d Hd) as (d0&d1&d2&d3&->&?&?&?&?). unfold lastround_column.
  rewrite ROW_0_combine, ROW_1_combine, ROW_2_combine, ROW_3_combine by done.
  rewrite !sbox_spec by done.
  destruct (shift_combine (s_box a0)) as (E0 & _); [auto with c_int|].
  destruct (shift_combine (s_box b1)) as (_ & E1 & _); [auto with c_int|].
  destruct (shift_combine (s_box e2)) as (_ & _ & E2 & _); [auto with c_int|].
  destruct (shift_combine (s_box d3)) as (_ & _ & _ & E3); [auto with c_int|].
  assert (is_u8 0) as Hz by done.
  rewrite E0, E1, E2, E3.
  rewrite !lxor_column by (repeat apply column_xor; apply column_intro; auto with c_int).
  cbn [xor_list zip_with]. rewrite ?Z.lxor_0_l, ?Z.lxor_0_r. done.
Qed.

(** The variables of a round for a state. *)
Definition cols_of (st : list (list Z)) : cols :=
  Cols (le_combine (st !!! 0%nat)) (le_combine (st !!! 1%nat)) (le_combine (st !!! 2%nat))
       (le_combine (st !!! 3%nat)).

Definition words (st : list (list Z)) : list Z := le_combine <$> st.

Lemma state_inv st : state_ok st → ∃ a b c d, st = [a; b; c; d] ∧
  column a ∧ column b ∧ column c ∧ column d.
Proof.
  intros [Hl Hb]. do 5 (destruct st as [|? st]; try done).
  repeat match goal with H : Forall _ (_ :: _) |- _ => inversion_clear H end. eauto 10.
Qed.

Lemma state_intro a b c d : column a → column b → column c → column d → state_ok [a; b; c; d].
Proof. split; [done|]. by repeat (apply Forall_cons_2; [assumption|]). Qed.

Lemma column_row c r : column c → (r < 4)%nat → is_u8 (c !!! r).
Proof.
  intros Hc Hr. destruct (column_inv c Hc) as (?&?&?&?&->&?&?&?&?).
  by destruct r as [|[|[|[|]]]]; try lia.
Qed.

Lemma column_mix c : column c → column (mix_column c).
Proof.
  intros Hc. destruct (column_inv c Hc) as (?&?&?&?&->&?&?&?&?).
  apply column_intro; auto 10 with c_int.
Qed.

(** The columns of SubBytes and ShiftRows. *)
Lemma shift_sub a b c d : column a → column b → column c → column d →
  let row x i := s_box (x !!! i) in
  shift_rows (sub_bytes [a; b; c; d])
  = [[row a 0%nat; row b 1%nat; row c 2%nat; row d 3%nat];
     [row b 0%nat; row c 1%nat; row d 2%nat; row a 3%nat];
     [row c 0%nat; row d 1%nat; row a 2%nat; row b 3%nat];
     [row d 0%nat; row a 1%nat; row b 2%nat; row c 3%nat]].
Proof.
  intros Ha Hb Hc Hd. destruct (column_inv a Ha) as (?&?&?&?&->&?&?&?&?).
  destruct (column_inv b Hb) as (?&?&?&?&->&?&?&?&?).
  destruct (column_inv c Hc) as (?&?&?&?&->&?&?&?&?).
  by destruct (column_inv d Hd) as (?&?&?&?&->&?&?&?&?).
Qed.

Lemma shift_sub_ok st : state_ok st → state_ok (shift_rows (sub_bytes st)).
Proof.
  intros Hst. destruct (state_inv st Hst) as (a&b&c&d&->&?&?&?&?). rewrite shift_sub by done.
  apply state_intro; apply column_intro; apply s_box_range; apply column_row; done || lia.
Qed.

Lemma mix_columns_ok st : state_ok st → state_ok (mix_columns st).
Proof.
  intros Hst. destruct (state_inv st Hst) as (a&b&c&d&->&?&?&?&?).
  apply state_intro; by apply column_mix.
Qed.

Lemma add_round_key_ok st rk : state_ok st → state_ok rk → state_ok (add_round_key st rk).
Proof.
  intros Hst Hrk. destruct (state_inv st Hst) as (a&b&c&d&->&?&?&?&?).
  destruct (state_inv rk Hrk) as (?&?&?&?&->&?&?&?&?). apply state_intro; by apply column_xor.
Qed.

Lemma aes_round_ok st rk : state_ok st → state_ok rk → state_ok (aes_round st rk).
Proof. intros. by apply add_round_key_ok; [apply mix_columns_ok, shift_sub_ok|]. Qed.

(** One round with any column function that computes the columns of [mid]. *)
Lemma round_with_spec f st mid rk key p :
  state_ok mid → state_ok rk → has key p (words rk) →
  (let '(Cols x0 x1 x2 x3) := cols_of st in
   [f x0 x1 x2 x3; f x1 x2 x3 x0; f x2 x3 x0 x1; f x3 x0 x1 x2] = words mid) →
  round_with f (cols_of st) key p = Ok (cols_of (add_round_key mid rk)).
Proof.
  intros Hmid Hrk Hk Hf. destruct (state_inv mid Hmid) as (a&b&c&d&->&?&?&?&?).
  destruct (state_inv rk Hrk) as (k0&k1&k2&k3&->&?&?&?&?). cbn in Hk.
  apply rd_cons in Hk as [E0 Hk]. apply rd_cons in Hk as [E1 Hk].
  apply rd_cons in Hk as [E2 Hk]. apply rd_cons in Hk as [E3 _].
  replace (p + 1 + 1) with (p + 2) in * by lia. replace (p + 2 + 1) with (p + 3) in E3 by lia.
  unfold round_with. rewrite E0, E1, E2, E3, !bind_Ok. unfold cols_of in *.
  injection Hf as -> -> -> ->. rewrite !lxor_column by done. done.
Qed.

Lemma round_spec st rk key p : state_ok st → state_ok rk → has key p (words rk) →
  round (cols_of st) key p = Ok (cols_of (aes_round st rk)).
Proof.
  intros Hst Hrk Hk. apply round_with_spec; [by apply mix_columns_ok, shift_sub_ok|done|done|].
  destruct (state_inv st Hst) as (a&b&c&d&->&?&?&?&?). rewrite shift_sub by done.
  unfold cols_of. change ([a; b; c; d] !!! 0%nat) with a. change ([a; b; c; d] !!! 1%nat) with b.
  change ([a; b; c; d] !!! 2%nat) with c. change ([a; b; c; d] !!! 3%nat) with d.
  by rewrite !round_column_spec by done.
Qed.

Lemma lastround_spec st rk key p : state_ok st → state_ok rk → has key p (words rk) →
  lastround (cols_of st) key p = Ok (cols_of (final_round st rk)).
Proof.
  intros Hst Hrk Hk. apply round_with_spec; [by apply shift_sub_ok|done|done|].
  destruct (state_inv st Hst) as (a&b&c&d&->&?&?&?&?). rewrite shift_sub by done.
  unfold cols_of. change ([a; b; c; d] !!! 0%nat) with a. change ([a; b; c; d] !!! 1%nat) with b.
  change ([a; b; c; d] !!! 2%nat) with c. change ([a; b; c; d] !!! 3%nat) with d.
  by rewrite !lastround_column_spec by done.
Qed.

(** * A block *)

(** A schedule of eleven round keys. *)
Definition schedule_ok (w : list (list Z)) : Prop := (44 ≤ length w)%nat ∧ Forall column w.

Lemma round_key_ok w i : schedule_ok w → (i ≤ 10)%nat → state_ok (round_key w i).
Proof.
  intros [Hl Hw] Hi. split.
  - unfold round_key. rewrite length_take, length_drop. lia.
  - by apply Forall_take, Forall_drop.
Qed.

Lemma has_round_key w key i : schedule_ok w → (i ≤ 10)%nat → has key 0 (words w) →
  has key (4 * Z.of_nat i) (words (round_key w i)).
Proof.
  intros [Hl _] Hi Hk. unfold words, round_key in *.
  rewrite <-(take_drop (4 * i) w), fmap_app in Hk. apply has_app in Hk as [_ Hk].
  rewrite <-(take_drop 4 (drop (4 * i) w)), fmap_app in Hk. apply has_app in Hk as [Hk _].
  rewrite zlen_fmap in Hk. unfold zlen in Hk. rewrite length_take in Hk.
  replace (0 + Z.of_nat ((4 * i) `min` length w)) with (4 * Z.of_nat i) in Hk by lia. exact Hk.
Qed.

Lemma double_rounds_spec w key n : ∀ i st, schedule_ok w → has key 0 (words w) →
  (i + 2 * n ≤ 10)%nat → state_ok st →
  double_rounds n (cols_of st) key (4 * Z.of_nat i)
  = Ok (cols_of (rounds (2 * n) i w st), 4 * Z.of_nat (i + 2 * n)) ∧
  state_ok (rounds (2 * n) i w st).
Proof.
  induction n as [|n IH]; intros i st Hw Hk Hi Hst.
  { cbn. by rewrite Nat.add_0_r. }
  assert (state_ok (aes_round st (round_key w i))) as Hst1
    by (apply aes_round_ok; [done|apply round_key_ok; done || lia]).
  assert (state_ok (aes_round (aes_round st (round_key w i)) (round_key w (S i)))) as Hst2
    by (apply aes_round_ok; [done|apply round_key_ok; done || lia]).
  replace (2 * S n)%nat with (S (S (2 * n))) by lia. cbn [double_rounds rounds].
  rewrite (round_spec st (round_key w i)), bind_Ok
    by (done || (apply round_key_ok; done || lia) || (apply has_round_key; done || lia)).
  rewrite (round_spec _ (round_key w (S i))), bind_Ok.
  2:{ done. }
  2:{ apply round_key_ok; done || lia. }
  2:{ replace (4 * Z.of_nat i + 4) with (4 * Z.of_nat (S i)) by lia.
      apply has_round_key; done || lia. }
  replace (4 * Z.of_nat i + 8) with (4 * Z.of_nat (S (S i))) by lia.
  destruct (IH (S (S i)) _ Hw Hk ltac:(lia) Hst2) as [-> Hok]. split; [|done].
  do 3 f_equal. lia.
Qed.

Lemma words_cols st : state_ok st →
  [c0 (cols_of st); c1 (cols_of st); c2 (cols_of st); c3 (cols_of st)] = words st.
Proof. intros Hst. by destruct (state_inv st Hst) as (a&b&c&d&->&?&?&?&?). Qed.

Lemma rounds_S n : ∀ i w st,
  rounds (S n) i w st = aes_round (rounds n i w st) (round_key w (n + i)).
Proof.
  induction n as [|n IH]; intros i w st; [done|].
  change (rounds (S (S n)) i w st) with (rounds (S n) (S i) w (aes_round st (round_key w i))).
  rewrite IH. by rewrite Nat.add_succ_r.
Qed.

Lemma EncryptRounds_lemma w key st : schedule_ok w → has key 0 (words w) → state_ok st →
  let r := final_round (rounds 9 1 w (add_round_key st (round_key w 0))) (round_key w 10) in
  EncryptRounds (words st) key = Ok (words r) ∧ state_ok r.
Proof.
  intros Hw Hk Hst r. pose proof (round_key_ok w 0 Hw ltac:(lia)) as Hk0.
  pose proof (has_round_key w key 0 Hw ltac:(lia) Hk) as H0.
  pose proof (add_round_key_ok st _ Hst Hk0) as Hst0.
  destruct (double_rounds_spec w key 4 1 _ Hw Hk ltac:(lia) Hst0) as [Hdr Hst8].
  assert (state_ok (rounds 9 1 w (add_round_key st (round_key w 0)))) as Hst9.
  { rewrite rounds_S. by apply aes_round_ok; [|apply round_key_ok; [done|lia]]. }
  assert (state_ok r) as Hr.
  { apply add_round_key_ok; [by apply shift_sub_ok|apply round_key_ok; [done|lia]]. }
  split; [|done]. subst r. rewrite rounds_S in *. change (8 + 1)%nat with 9%nat in *.
  unfold EncryptRounds.
  destruct (state_inv st Hst) as (a&b&c&d&->&?&?&?&?).
  destruct (state_inv _ Hk0) as (k0&k1&k2&k3&Ek&?&?&?&?). rewrite Ek in *.
  change (4 * Z.of_nat 0) with 0 in H0. cbn in H0.
  apply rd_cons in H0 as [E0 H0]. apply rd_cons in H0 as [E1 H0].
  apply rd_cons in H0 as [E2 H0]. apply rd_cons in H0 as [E3 _].
  change (0 + 1 + 1 + 1) with 3 in E3. change (0 + 1 + 1) with 2 in *. change (0 + 1) with 1 in *.
  pose proof (has_self (words [a; b; c; d])) as Hi. apply rd_cons in Hi as [I0 Hi].
  apply rd_cons in Hi as [I1 Hi]. apply rd_cons in Hi as [I2 Hi]. apply rd_cons in Hi as [I3 _].
  change (0 + 1 + 1 + 1) with 3 in I3. change (0 + 1 + 1) with 2 in I2. change (0 + 1) with 1 in I1.
  change (le_combine <$> [a; b; c; d]) with (words [a; b; c; d]) in *.
  rewrite I0, I1, I2, I3, E0, E1, E2, E3, !bind_Ok, !lxor_column by done.
  change (Cols _ _ _ _) with (cols_of (add_round_key [a; b; c; d] [k0; k1; k2; k3])).
  change (4 * Z.of_nat 1) with 4 in Hdr. rewrite Hdr, bind_Ok.
  change (2 * 4)%nat with 8%nat in *. change (1 + 8)%nat with 9%nat.
  rewrite (round_spec _ (round_key w 9)), bind_Ok; [|exact Hst8|by apply round_key_ok; [|lia]
    |by apply has_round_key; [|lia|]].
  change (4 * Z.of_nat 9 + 4) with (4 * Z.of_nat 10).
  rewrite (lastround_spec _ (round_key w 10)), bind_Ok; [|exact Hst9|by apply round_key_ok; [|lia]
    |by apply has_round_key; [|lia|]].
  by rewrite words_cols.
Qed.

(** * Key schedule *)
Lemma SubBytes_spec c : column c → SubBytes (le_combine c) = le_combine (s_box <$> c).
Proof.
  intros Hc. destruct (column_inv c Hc) as (a&b&d&e&->&Ha&Hb&Hd&He). unfold SubBytes.
  change (u8 (le_combine ?x)) with (ROW_0 (le_combine x)).
  change (u8 (Z.shiftr ?x 8)) with (ROW_1 x). change (u8 (Z.shiftr ?x 16)) with (ROW_2 x).
  change (u8 (Z.shiftr ?x 24)) with (ROW_3 x).
  rewrite ROW_0_combine, ROW_1_combine, ROW_2_combine, ROW_3_combine, !sbox_spec by done.
  pose proof (s_box_range a Ha) as Ra. pose proof (s_box_range b Hb) as Rb.
  pose proof (s_box_range d Hd) as Rd. pose proof (s_box_range e He) as Re.
  cbn [fmap list_fmap]. rewrite !le_combine_cons_lor by u8s || assumption.
  rewrite !Z.shiftl_lor, !Z.shiftl_shiftl by lia. cbn [le_combine Z.add Pos.add].
  change (Z.shiftl 0 _) with 0. rewrite Z.lor_0_r, !Z.lor_assoc.
  assert (∀ v k, is_u8 v → 0 ≤ k ≤ 24 → u32 (Z.shiftl v k) = Z.shiftl v k) as Hu.
  { intros v k Hv Hk. apply u32_id. rewrite Z.shiftl_mul_pow2 by lia. unfold is_u8, is_u32 in *.
    pose proof (Z.pow_le_mono_r 2 k 24 ltac:(lia) ltac:(lia)). pose proof (Z.pow_pos_nonneg 2 k).
    change (2 ^ 24) with 16777216 in *. nia. }
  by rewrite !Hu by (done || lia).
Qed.

Lemma next_word_app pre x m1 m2 y :
  next_word (pre ++ [x; m1; m2; y])
  = xor_list x (if Nat.eqb (length pre mod 4) 0
                then xor_list (s_box <$> rot_word y) (rcon (S (length pre / 4))) else y).
Proof.
  unfold next_word. rewrite length_app. cbn [length].
  replace (length pre + 4 - 1)%nat with (length pre + 3)%nat by lia.
  replace (length pre + 4 - 4)%nat with (length pre + 0)%nat by lia.
  rewrite !lookup_total_app_r by lia. rewrite !Nat.add_sub_swap, Nat.sub_diag by lia.
  cbn [Nat.add lookup_total list_lookup_total].
  replace (length pre + 4)%nat with (length pre + 1 * 4)%nat by lia.
  rewrite Nat.Div0.mod_add, Nat.div_add by lia. by rewrite Nat.add_1_r.
Qed.

(** One round of the schedule: four words. *)
Lemma expand_group pre a b c d i : length pre = (4 * i)%nat →
  let e := xor_list a (xor_list (s_box <$> rot_word d) (rcon (S i))) in
  let f := xor_list b e in let g := xor_list c f in let h := xor_list d g in
  expand 4 (pre ++ [a; b; c; d]) = pre ++ [a; b; c; d; e; f; g; h].
Proof.
  intros Hl e f g h. cbn [expand].
  assert (∀ k, (0 < k < 4)%nat → (Nat.eqb ((4 * i + k) mod 4) 0) = false) as Hm.
  { intros k Hk. apply Nat.eqb_neq. rewrite Nat.mul_comm, Nat.add_comm, Nat.Div0.mod_add.
    rewrite Nat.mod_small; lia. }
  assert (next_word (pre ++ [a; b; c; d]) = e) as ->.
  { rewrite next_word_app, Hl, Nat.mul_comm, Nat.Div0.mod_mul. cbn [Nat.eqb].
    by rewrite Nat.div_mul. }
  assert ((pre ++ [a; b; c; d]) ++ [e] = (pre ++ [a]) ++ [b; c; d; e]) as -> by by rewrite <-!app_assoc.
  assert (next_word ((pre ++ [a]) ++ [b; c; d; e]) = f) as ->
    by (rewrite next_word_app, length_app, Hl, Hm by (simpl; lia); done).
  assert (((pre ++ [a]) ++ [b; c; d; e]) ++ [f] = (pre ++ [a; b]) ++ [c; d; e; f]) as ->
    by by rewrite <-!app_assoc.
  assert (next_word ((pre ++ [a; b]) ++ [c; d; e; f]) = g) as ->
    by (rewrite next_word_app, length_app, Hl, Hm by (simpl; lia); done).
  assert (((pre ++ [a; b]) ++ [c; d; e; f]) ++ [g] = (pre ++ [a; b; c]) ++ [d; e; f; g]) as ->
    by by rewrite <-!app_assoc.
  assert (next_word ((pre ++ [a; b; c]) ++ [d; e; f; g]) = h) as ->
    by (rewrite next_word_app, length_app, Hl, Hm by (simpl; lia); done).
  by rewrite <-!app_assoc.
Qed.

Lemma rd_lookup {A} (m l : list A) k v : has m 0 l → l !! k = Some v → rd m (Z.of_nat k) = Ok v.
Proof.
  intros Hm Hl. rewrite <-(take_drop_middle l k v Hl) in Hm. apply has_app in Hm as [_ Hm].
  apply (rd_has _ _ _ (drop (S k) l)). replace (Z.of_nat k) with (0 + zlen (take k l)); [done|].
  apply lookup_lt_Some in Hl. unfold zlen. rewrite length_take. lia.
Qed.

Lemma wr_extend {A} (m l : list A) v : has m 0 l → zlen l < zlen m →
  ∃ m', wr m (zlen l) v = Ok m' ∧ has m' 0 (l ++ [v]) ∧ zlen m' = zlen m.
Proof.
  intros Hm Hl. pose proof (zlen_nonneg l). rewrite wr_splice, (proj2 (Z.leb_le _ _)) by lia.
  eexists. split; [done|]. split; [apply has_extend; [done|change (zlen [v]) with 1; lia]|].
  rewrite zlen_splice; [done|lia|change (zlen [v]) with 1; lia].
Qed.

Lemma rcon_spec i : (i ≤ 10)%nat → rd Rconst (Z.of_nat i) = Ok (le_combine (rcon (S i))) ∧
  column (rcon (S i)).
Proof.
  intros Hi. do 11 (destruct i as [|i]; [by split; [vm_compute|apply column_intro]|]). lia.
Qed.

Lemma column_sub c : column c → column (s_box <$> rot_word c).
Proof.
  intros Hc. destruct (column_inv c Hc) as (?&?&?&?&->&?&?&?&?). apply column_intro; auto with c_int.
Qed.

Lemma ROTL24_rot c : column c → ROTL24 (le_combine c) = le_combine (rot_word c) ∧ column (rot_word c).
Proof.
  intros Hc. destruct (column_inv c Hc) as (?&?&?&?&->&?&?&?&?).
  rewrite ROTL24_combine by done. split; [done|by apply column_intro].
Qed.

(** The schedule array holds the words [pre ++ r]: reading one of [r] and adding
    one at the end. *)
Section words_array.
Context (pre : list (list Z)) (i : nat) (Hl : length pre = (4 * i)%nat).

Lemma read_prefix_word m r k x : has m 0 (words (pre ++ r)) → r !! k = Some x →
  rd m (4 * Z.of_nat i + Z.of_nat k) = Ok (le_combine x).
Proof.
  intros Hm Hk. replace (4 * Z.of_nat i + Z.of_nat k) with (Z.of_nat (length pre + k)) by lia.
  apply (rd_lookup m (words (pre ++ r))); [done|]. unfold words. rewrite list_lookup_fmap.
  rewrite lookup_app_r by lia. by replace (length pre + k - length pre)%nat with k by lia; rewrite Hk.
Qed.

Lemma add_word m r x : zlen m = 48 → (4 * i + length r < 48)%nat → has m 0 (words (pre ++ r)) →
  ∃ m', wr m (4 * Z.of_nat i + Z.of_nat (length r)) (le_combine x) = Ok m' ∧ zlen m' = 48 ∧
    has m' 0 (words (pre ++ r ++ [x])).
Proof.
  intros Hz Hr Hm. assert (zlen (words (pre ++ r)) = 4 * Z.of_nat i + Z.of_nat (length r)) as Hlen.
  { unfold words. rewrite zlen_fmap, zlen_app. unfold zlen. lia. }
  destruct (wr_extend m _ (le_combine x) Hm) as (m' & Hw & Hm' & Hz'); [lia|].
  exists m'. rewrite <-Hlen. split_and!; [done|lia|]. rewrite app_assoc. unfold words in *.
  by rewrite fmap_app.
Qed.
End words_array.

Lemma schedule_round n i m pre a b c d : length pre = (4 * i)%nat → (i ≤ 10)%nat →
  zlen m = 48 → has m 0 (words (pre ++ [a; b; c; d])) →
  column a → column b → column c → column d →
  ∃ m' e f g h,
    schedule (S n) (Z.of_nat i) (4 * Z.of_nat i) m
    = schedule n (Z.of_nat (S i)) (4 * Z.of_nat (S i)) m' ∧
    expand 4 (pre ++ [a; b; c; d]) = pre ++ [a; b; c; d; e; f; g; h] ∧
    zlen m' = 48 ∧ has m' 0 (words (pre ++ [a; b; c; d; e; f; g; h])) ∧
    column e ∧ column f ∧ column g ∧ column h.
Proof.
  intros Hl Hi Hz Hm Ha Hb Hc Hd. destruct (rcon_spec i Hi) as [Hrc Hrcc].
  pose proof (column_sub d Hd) as Hsub. destruct (ROTL24_rot d Hd) as [Hrot Hrotc].
  set (e := xor_list a (xor_list (s_box <$> rot_word d) (rcon (S i)))).
  assert (column e) as He by (by repeat apply column_xor).
  set (f := xor_list b e). assert (column f) as Hf by (by apply column_xor).
  set (g := xor_list c f). assert (column g) as Hg by (by apply column_xor).
  set (h := xor_list d g). assert (column h) as Hh by (by apply column_xor).
  pose proof (read_prefix_word pre i Hl) as Hrd. pose proof (add_word pre i Hl) as Hwr.
  set (fk := 4 * Z.of_nat i) in *.
  pose proof (Hrd m _ 0%nat a Hm eq_refl) as R0. pose proof (Hrd m _ 3%nat d Hm eq_refl) as R3.
  destruct (Hwr m [a; b; c; d] e Hz ltac:(simpl; lia) Hm) as (m1 & W1 & Hz1 & Hm1).
  pose proof (Hrd m1 _ 1%nat b Hm1 eq_refl) as R1. pose proof (Hrd m1 _ 4%nat e Hm1 eq_refl) as R4.
  destruct (Hwr m1 [a; b; c; d; e] f Hz1 ltac:(simpl; lia) Hm1) as (m2 & W2 & Hz2 & Hm2).
  pose proof (Hrd m2 _ 2%nat c Hm2 eq_refl) as R2. pose proof (Hrd m2 _ 5%nat f Hm2 eq_refl) as R5.
  destruct (Hwr m2 [a; b; c; d; e; f] g Hz2 ltac:(simpl; lia) Hm2) as (m3 & W3 & Hz3 & Hm3).
  pose proof (Hrd m3 _ 3%nat d Hm3 eq_refl) as R3'. pose proof (Hrd m3 _ 6%nat g Hm3 eq_refl) as R6.
  destruct (Hwr m3 [a; b; c; d; e; f; g] h Hz3 ltac:(simpl; lia) Hm3) as (m4 & W4 & Hz4 & Hm4).
  cbn [length app] in *. change (Z.of_nat 0) with 0 in R0. rewrite Z.add_0_r in R0.
  change (Z.of_nat 1) with 1 in *. change (Z.of_nat 2) with 2 in *. change (Z.of_nat 3) with 3 in *.
  change (Z.of_nat 4) with 4 in *. change (Z.of_nat 5) with 5 in *. change (Z.of_nat 6) with 6 in *.
  change (Z.of_nat 7) with 7 in *.
  cbn [schedule]. rewrite R0, bind_Ok, R3, bind_Ok, Hrc, bind_Ok, Hrot, SubBytes_spec by done.
  rewrite !lxor_column by (done || by apply column_xor).
  assert (xor_list (xor_list a (s_box <$> rot_word d)) (rcon (S i)) = e) as ->.
  { unfold e. destruct (column_inv a Ha) as (?&?&?&?&->&_).
    destruct (column_inv _ Hsub) as (?&?&?&?&->&_). destruct (column_inv _ Hrcc) as (?&?&?&?&->&_).
    cbn. by rewrite !Z.lxor_assoc. }
  rewrite W1, bind_Ok, R1, bind_Ok, R4, bind_Ok, lxor_column by done. fold f.
  rewrite W2, bind_Ok, R2, bind_Ok, R5, bind_Ok, lxor_column by done. fold g.
  rewrite W3, bind_Ok, R3', bind_Ok, R6, bind_Ok, lxor_column by done. fold h.
  rewrite W4, bind_Ok. exists m4, e, f, g, h. split_and!; try done.
  - f_equal; unfold fk; lia.
  - apply (expand_group pre a b c d i Hl).
Qed.

Lemma expand_add n k w : expand (n + k) w = expand k (expand n w).
Proof. revert w. induction n as [|n IH]; intros w; [done|]. apply IH. Qed.

Lemma expand_prefix n : ∀ w, ∃ t, expand n w = w ++ t ∧ length t = n.
Proof.
  induction n as [|n IH]; intros w; [exists []; by rewrite app_nil_r|].
  destruct (IH (w ++ [next_word w])) as (t & Ht & Hl). exists (next_word w :: t).
  cbn [expand length]. by rewrite Ht, Hl, <-app_assoc.
Qed.

Lemma schedule_spec n : ∀ i m pre a b c d, (i + n ≤ 11)%nat → length pre = (4 * i)%nat →
  zlen m = 48 → has m 0 (words (pre ++ [a; b; c; d])) → Forall column (pre ++ [a; b; c; d]) →
  ∃ m', schedule n (Z.of_nat i) (4 * Z.of_nat i) m = Ok m' ∧ zlen m' = 48 ∧
    has m' 0 (words (expand (4 * n) (pre ++ [a; b; c; d]))) ∧
    Forall column (expand (4 * n) (pre ++ [a; b; c; d])).
Proof.
  induction n as [|n IH]; intros i m pre a b c d Hi Hl Hz Hm Hc; [by exists m|].
  pose proof Hc as Hcs. apply Forall_app in Hc as [Hpre Hc].
  do 4 (apply Forall_cons in Hc as [? Hc]).
  destruct (schedule_round n i m pre a b c d) as (m1&e&f&g&h&->&He&Hz1&Hm1&?&?&?&?); try done; [lia|].
  replace (4 * S n)%nat with (4 + 4 * n)%nat by lia. rewrite expand_add, He.
  change (pre ++ [a; b; c; d; e; f; g; h]) with (pre ++ [a; b; c; d] ++ [e; f; g; h]) in *.
  rewrite app_assoc in *. apply IH; [lia|rewrite length_app; simpl; lia|done|done|].
  apply Forall_app. split; [done|]. by repeat (apply Forall_cons_2; [assumption|]).
Qed.

Lemma columns_ok k : length k = 16%nat → bytes k → state_ok (columns 4 k).
Proof.
  intros Hl Hb. do 17 (destruct k as [|? k]; try done).
  repeat match goal with H : Forall _ (_ :: _) |- _ => inversion_clear H end.
  apply state_intro; by apply column_intro.
Qed.

Lemma words_of_columns n : ∀ bs, words_of_bytes n bs = words (columns n bs).
Proof. induction n as [|n IH]; intros bs; [done|]. cbn. by rewrite IH. Qed.

Lemma bytes_of_state st : Forall column st → bytes_of_words (words st) = concat st.
Proof.
  induction 1 as [|c st [Hl Hb] _ IH]; [done|].
  change (bytes_of_words (words (c :: st)))
    with (le_split 4 (le_combine c) ++ bytes_of_words (words st)).
  by rewrite IH, (le_split_combine c 4).
Qed.

Lemma concat_columns k : length k = 16%nat → concat (columns 4 k) = k.
Proof. intros Hl. by do 17 (destruct k as [|? k]; try done). Qed.

(** The array [sched] holds the schedule of [key]. *)
Definition scheduled (sched key : list Z) : Prop :=
  let w := expand 40 (columns 4 key) in schedule_ok w ∧ has sched 0 (words w).

Lemma schedule_all m a b c d : zlen m = 48 → has m 0 (words [a; b; c; d]) →
  Forall column [a; b; c; d] →
  ∃ m', schedule 11 0 0 m = Ok m' ∧ zlen m' = 48 ∧
    schedule_ok (expand 40 [a; b; c; d]) ∧ has m' 0 (words (expand 40 [a; b; c; d])).
Proof.
  intros Hz Hm Hc. destruct (schedule_spec 11 0 m [] a b c d) as (s & Hs & Hzs & Hh & Hf);
    [lia|done|done|done|done|].
  change (Z.of_nat 0) with 0 in Hs. rewrite Z.mul_0_r in Hs.
  exists s. rewrite app_nil_l in Hh, Hf. replace (4 * 11)%nat with (40 + 4)%nat in Hh, Hf by lia.
  rewrite expand_add in Hh, Hf. pose proof (expand_prefix 40 [a; b; c; d]) as (t' & Ht' & Hlt).
  generalize dependent (expand 40 [a; b; c; d]). intros w Hh Hf Ht'.
  destruct (expand_prefix 4 w) as (t & Ht & _). rewrite Ht in Hh, Hf.
  unfold words in Hh. rewrite fmap_app in Hh. apply has_app in Hh as [Hh _].
  apply Forall_app in Hf as [Hf _]. split_and!; try done. split; [|done].
  rewrite Ht', length_app, Hlt. simpl. lia.
Qed.

Lemma Enable_lemma keymem key m : has keymem 0 key → zlen key = 16 → bytes key → zlen m = 48 →
  ∃ sched, RIOT_AES128_Enable keymem m = Ok sched ∧ zlen sched = 48 ∧ scheduled sched key.
Proof.
  intros Hk Hz Hb Hm. assert (length key = 16%nat) as Hl by (unfold zlen in Hz; lia).
  unfold RIOT_AES128_Enable, Pack32. rewrite <-Hz, (rd_bytes_has keymem 0 key) by (done || apply zlen_nonneg).
  rewrite !bind_Ok, words_of_columns.
  pose proof (columns_ok key Hl Hb) as Hok. pose proof Hok as [Hcl Hcf].
  destruct (state_inv _ Hok) as (a&b&c&d&Heq&?&?&?&?). unfold scheduled. rewrite Heq in *.
  assert (zlen (words [a; b; c; d]) = 4) as H4 by done.
  rewrite wr_bytes_splice, H4, (proj2 (Z.leb_le (0 + 4) (zlen m))), bind_Ok by lia.
  change (Z.to_nat (ROUNDS + 1)) with 11%nat.
  destruct (schedule_all (splice m 0 (words [a; b; c; d])) a b c d) as (s & Hs & Hzs & Hw & Hh);
    [rewrite zlen_splice; lia|apply has_splice; lia|done|]. by exists s.
Qed.

Lemma EncryptRounds_block sched key block : scheduled sched key → length block = 16%nat →
  bytes block →
  EncryptRounds (words (columns 4 block)) sched = Ok (words (columns 4 (aes128 key block))) ∧
  bytes_of_words (words (columns 4 (aes128 key block))) = aes128 key block ∧
  length (aes128 key block) = 16%nat ∧ bytes (aes128 key block).
Proof.
  intros [Hw Hs] Hl Hb. pose proof (columns_ok block Hl Hb) as Hok.
  destruct (EncryptRounds_lemma _ sched (columns 4 block) Hw Hs Hok) as [-> Hr].
  set (r := final_round _ _) in *. change (aes128 key block) with (concat r).
  destruct (state_inv r Hr) as (a&b&c&d&->&Ha&Hb'&Hc&Hd).
  destruct (column_inv a Ha) as (?&?&?&?&->&?&?&?&?).
  destruct (column_inv b Hb') as (?&?&?&?&->&?&?&?&?).
  destruct (column_inv c Hc) as (?&?&?&?&->&?&?&?&?).
  destruct (column_inv d Hd) as (?&?&?&?&->&?&?&?&?).
  split_and!; [done| |done|cbn [concat app]; u8s].
  rewrite bytes_of_state; [done|]. apply Hr.
Qed.

#[global] Opaque aes128 expand s_box scheduled.

(** * ECB *)
Fixpoint ecb (n : nat) (key data : list Z) : list Z :=
  match n with
  | O => []
  | S n => aes128 key (take 16 data) ++ ecb n key (drop 16 data)
  end.

Lemma Pack32_has m p block rest : has m p (block ++ rest) → p ≤ zlen m → length block = 16%nat →
  Pack32 m p = Ok (words (columns 4 block)).
Proof.
  intros Hm Hp Hl. apply has_app in Hm as [Hm _]. unfold Pack32.
  assert (zlen block = 16) as Hz by (unfold zlen; lia).
  rewrite <-Hz, (rd_bytes_has m p block) by done. by rewrite bind_Ok, words_of_columns.
Qed.

Lemma zlen_ecb sched key n : ∀ data, scheduled sched key → bytes data →
  length data = (16 * n)%nat → zlen (ecb n key data) = 16 * Z.of_nat n.
Proof.
  induction n as [|n IH]; intros data Hs Hb Hl; [done|]. cbn [ecb].
  destruct (EncryptRounds_block sched key (take 16 data) Hs) as (_ & _ & Hla & _);
    [rewrite length_take; lia|by apply Forall_take|].
  rewrite zlen_app, IH; [|exact Hs|by apply Forall_drop|rewrite length_drop; lia].
  unfold zlen. lia.
Qed.

Lemma ecb_loop_spec sched key in_ n : ∀ fuel p data out, scheduled sched key →
  has in_ p data → p ≤ zlen in_ → bytes data → length data = (16 * n)%nat → (n ≤ fuel)%nat →
  zlen data < 2 ^ 64 → p + zlen data ≤ zlen out →
  ecb_loop fuel sched in_ p (zlen data) out = Ok (splice out p (ecb n key data)).
Proof.
  induction n as [|n IH]; intros fuel p data out Hs Hin Hp Hb Hl Hf H64 Hout.
  { destruct data; [|done]. cbn [ecb]. rewrite splice_nil. by destruct fuel. }
  destruct fuel as [|fuel]; [lia|]. cbn [ecb_loop].
  assert (zlen data = 16 * Z.of_nat (S n)) as Hz by (unfold zlen; lia).
  rewrite (proj2 (Z.eqb_neq _ 0)) by lia.
  set (blk := take 16 data). set (rest := drop 16 data).
  assert (data = blk ++ rest) as Heq by (symmetry; apply take_drop).
  assert (length blk = 16%nat) as Hlb by (unfold blk; rewrite length_take; lia).
  assert (length rest = (16 * n)%nat) as Hlr by (unfold rest; rewrite length_drop; lia).
  rewrite Heq in Hin.
  assert (bytes blk) as Hbb by (by apply Forall_take). assert (bytes rest) as Hbr by (by apply Forall_drop).
  rewrite (Pack32_has in_ p blk rest), bind_Ok by (done || lia).
  destruct (EncryptRounds_block sched key blk Hs Hlb Hbb) as (-> & Hbw & Hla & Hba).
  rewrite bind_Ok. unfold Unpack32. rewrite Hbw.
  assert (zlen (aes128 key blk) = 16) as Hza by (unfold zlen; lia).
  apply has_app in Hin as [Hin1 Hin2]. pose proof (proj1 Hin1).
  assert (zlen blk = 16) as Hzb by (unfold zlen; lia). rewrite Hzb in Hin2.
  rewrite wr_bytes_splice, Hza, (proj2 (Z.leb_le _ _)), bind_Ok by lia.
  unfold AES_BLOCK_SIZE. replace (u64 (zlen data - 16)) with (zlen rest).
  2:{ unfold u64. rewrite Z.mod_small; unfold zlen in *; lia. }
  pose proof (has_bound _ _ _ Hin1 Hp) as Hbnd.
  rewrite IH; [|exact Hs|exact Hin2|lia|exact Hbr|exact Hlr|lia|unfold zlen in *; lia
    |rewrite zlen_splice by lia; unfold zlen in *; lia].
  cbn [ecb]. fold blk rest. rewrite <-Hza, splice_splice; [reflexivity|lia|].
  rewrite Hza, (zlen_ecb sched) by assumption. lia.
Qed.

(** * CTR *)

(** The counter block of the next block: the last four bytes, most significant
    first, count up and wrap around. *)
Definition ctr_next (ctr : list Z) : list Z :=
  take 12 ctr ++ be_split 4 (be_combine (drop 12 ctr) + 1).

(** The output and the counter block it ends with; [n] bounds the blocks. *)
Fixpoint ctr_mode (n : nat) (key ctr data : list Z) : list Z * list Z :=
  match n, data with
  | S n, _ :: _ =>
    let '(out, ctr') := ctr_mode n key (ctr_next ctr) (drop 16 data) in
    (xor_list (aes128 key ctr) (take 16 data) ++ out, ctr')
  | _, _ => ([], ctr)
  end.

Lemma increment_spec b : length b = 4%nat → bytes b →
  increment b = be_split 4 (be_combine b + 1).
Proof.
  intros Hl Hb. destruct (column_inv b (conj Hl Hb)) as (b0&b1&b2&b3&->&H0&H1&H2&H3).
  clear Hl Hb. unfold is_u8 in *. unfold increment, be_split, be_combine.
  change (reverse [b0; b1; b2; b3]) with [b3; b2; b1; b0]. cbn [le_combine le_split].
  match goal with |- _ = reverse [?a; ?b; ?c; ?d] => change (reverse [a; b; c; d]) with [d; c; b; a] end.
  assert (∀ x, 0 ≤ x < 256 → u8 (x + 1) = 0 ∧ x = 255 ∨ u8 (x + 1) = x + 1 ∧ x < 255) as Hu
    by (intros x Hx; unfold u8; dlia).
  destruct (Hu b3 H3) as [[E3 ->] | [E3 ?]]; rewrite E3.
  2:{ rewrite (proj2 (Z.eqb_neq _ 0)) by lia. repeat f_equal; dlia. }
  rewrite Z.eqb_refl. destruct (Hu b2 H2) as [[E2 ->] | [E2 ?]]; rewrite E2.
  2:{ rewrite (proj2 (Z.eqb_neq _ 0)) by lia. repeat f_equal; dlia. }
  rewrite Z.eqb_refl. destruct (Hu b1 H1) as [[E1 ->] | [E1 ?]]; rewrite E1.
  2:{ rewrite (proj2 (Z.eqb_neq _ 0)) by lia. repeat f_equal; dlia. }
  rewrite Z.eqb_refl. unfold u8. repeat f_equal; dlia.
Qed.

Definition block (b : list Z) : Prop := length b = 16%nat ∧ bytes b.

Lemma ctr_next_block ctr : block ctr → block (ctr_next ctr).
Proof.
  intros [Hl Hb]. unfold ctr_next. split.
  - rewrite length_app, length_take, length_be_split. lia.
  - apply Forall_app. split; [by apply Forall_take|apply be_split_bytes].
Qed.

(** The counter of the code holds the counter block as words. *)
Lemma counter_step ctr : block ctr →
  ∃ w3, rd (words (columns 4 ctr)) 3 = Ok w3 ∧
    wr (words (columns 4 ctr)) 3 (le_combine (increment (le_split 4 w3)))
    = Ok (words (columns 4 (ctr_next ctr))).
Proof.
  intros [Hl Hb]. exists (le_combine (drop 12 ctr)).
  assert (length (drop 12 ctr) = 4%nat) as Hl4 by (rewrite length_drop; lia).
  assert (bytes (drop 12 ctr)) as Hb4 by (by apply Forall_drop).
  rewrite le_split_combine, increment_spec by done. unfold ctr_next.
  pose proof (length_be_split 4 (be_combine (drop 12 ctr) + 1)) as Hlb.
  set (e := be_split 4 _) in *. clearbody e.
  do 17 (destruct ctr as [|? ctr]; try done).
  do 5 (destruct e as [|? e]; try done).
Qed.

Lemma emits_xor_bytes n : ∀ tmp p in_ i ks data, has tmp p ks → has in_ i data →
  length ks = n → length data = n →
  emits (xor_bytes n tmp p in_ i) (xor_list ks data).
Proof.
  induction n as [|n IH]; intros tmp p in_ i ks data Hk Hd Hlk Hld.
  { destruct ks; [|done]. apply emits_skip. }
  destruct ks as [|k ks], data as [|d data]; try done. simpl in Hlk, Hld.
  apply rd_cons in Hk as [Rk Hk]. apply rd_cons in Hd as [Rd Hd].
  apply (emits_ext (wput (Z.lxor k d) ;;; xor_bytes n tmp (p + 1) in_ (i + 1))).
  { intros s. cbn [xor_bytes]. by rewrite Rk, bind_Ok, Rd, bind_Ok. }
  apply (emits_seq (wput _) _ [_]); [apply emits_put|]. apply IH; [done|done|lia|lia].
Qed.

Lemma xor_list_take ks d : xor_list ks d = xor_list (take (length d) ks) d.
Proof.
  revert d. induction ks as [|k ks IH]; intros [|x d]; try done.
  cbn [length take]. unfold xor_list in *. cbn [zip_with]. by rewrite IH.
Qed.

Lemma length_xor_list ks d : (length d ≤ length ks)%nat → length (xor_list ks d) = length d.
Proof. intros. unfold xor_list. rewrite length_zip_with. lia. Qed.

Lemma xor_list_twice ks : ∀ d, (length d ≤ length ks)%nat → xor_list ks (xor_list ks d) = d.
Proof.
  unfold xor_list. induction ks as [|k ks IH]; intros [|x d] Hle; try done; [simpl in Hle; lia|].
  cbn [zip_with]. rewrite IH by (simpl in Hle; lia).
  by rewrite <-Z.lxor_assoc, Z.lxor_nilpotent, Z.lxor_0_l.
Qed.

Section ctr.
Context (sched key : list Z) (Hs : scheduled sched key).

(** One block of keystream against at most 16 bytes. *)
Lemma block_facts ctr data : block ctr →
  let ks := aes128 key ctr in
  block ks ∧ length (xor_list ks (take 16 data)) = Nat.min 16 (length data).
Proof.
  intros [Hl Hb] ks. destruct (EncryptRounds_block sched key ctr Hs Hl Hb) as (_ & _ & Hlk & Hbk).
  split; [by split|]. rewrite length_xor_list; rewrite length_take; [done|]. fold ks in Hlk. lia.
Qed.

Lemma length_ctr_mode n : ∀ ctr data, block ctr → (length data ≤ n)%nat →
  length (ctr_mode n key ctr data).1 = length data.
Proof.
  induction n as [|n IH]; intros ctr data Hc Hl; destruct data as [|d data]; try done; [simpl in Hl; lia|].
  cbn [ctr_mode]. specialize (IH (ctr_next ctr) (drop 16 (d :: data)) (ctr_next_block ctr Hc)).
  destruct (ctr_mode n key (ctr_next ctr) (drop 16 (d :: data))) as [o c] eqn:E.
  cbn [fst] in *. rewrite length_app, IH by (rewrite length_drop; simpl in *; lia).
  rewrite (proj2 (block_facts ctr (d :: data) Hc)), length_drop. lia.
Qed.

Lemma ctr_loop_spec in_ fuel : ∀ i data ctr out p, block ctr → has in_ i data → i ≤ zlen in_ →
  (length data ≤ fuel)%nat → 0 ≤ p → p + zlen data ≤ zlen out →
  ctr_loop fuel sched in_ i (zlen data) (words (columns 4 ctr)) (out, p)
  = Ok (splice out p (ctr_mode fuel key ctr data).1,
        words (columns 4 (ctr_mode fuel key ctr data).2)).
Proof.
  induction fuel as [|fuel IH]; intros i data ctr out p Hc Hin Hi Hl Hp Hout;
    (destruct data as [|d0 data0]; [cbn [ctr_loop ctr_mode fst snd]; rewrite splice_nil by lia; reflexivity|]); [simpl in Hl; lia|].
  set (data := d0 :: data0) in *.
  assert (0 < zlen data) by (unfold data; zlen_lia). cbn [ctr_loop].
  rewrite (proj2 (Z.eqb_neq _ 0)) by lia.
  destruct (EncryptRounds_block sched key ctr Hs (proj1 Hc) (proj2 Hc)) as (-> & Hbw & Hlk & Hbk).
  rewrite bind_Ok, Hbw. set (ks := aes128 key ctr) in *.
  set (d1 := take 16 data). set (d2 := drop 16 data).
  assert (data = d1 ++ d2) as Heq by (symmetry; apply take_drop).
  assert (zlen d1 = Z.min (zlen data) 16) as Hz1 by (unfold d1, zlen; rewrite length_take; lia).
  assert (zlen d2 = zlen data - zlen d1) as Hz2 by (pose proof (f_equal zlen Heq) as Hz; rewrite zlen_app in Hz; lia).
  pose proof Hin as Hin0. rewrite Heq in Hin. apply has_app in Hin as [Hin1 Hin2].
  pose proof (has_bound _ _ _ Hin1 Hi) as Hbnd.
  assert (emits (xor_bytes (Z.to_nat (Z.min (zlen data) 16)) ks 0 in_ i) (xor_list ks d1)) as He.
  { rewrite <-Hz1, xor_list_take. apply emits_xor_bytes.
    - apply (has_app _ _ _ (drop (length d1) ks)). rewrite take_drop. apply has_self.
    - exact Hin1.
    - rewrite length_take. unfold zlen in *. lia.
    - unfold zlen. lia. }
  assert (zlen (xor_list ks d1) = zlen d1) as Hzx.
  { unfold zlen. rewrite length_xor_list; [done|]. unfold zlen in *. lia. }
  rewrite He, Hzx, (proj2 (Z.leb_le _ _)), bind_Ok by lia.
  destruct (counter_step ctr Hc) as (w3 & Hr & Hw). rewrite Hr, bind_Ok, Hw, bind_Ok.
  rewrite <-Hz1, <-Hz2.
  rewrite IH; [|by apply ctr_next_block|exact Hin2|lia|unfold zlen in *; lia|lia
    |rewrite zlen_splice; lia].
  pose proof (length_ctr_mode fuel (ctr_next ctr) d2 (ctr_next_block ctr Hc)) as Hlm.
  unfold data at 1 2. cbn [ctr_mode]. fold data. fold d1 d2 ks.
  destruct (ctr_mode fuel key (ctr_next ctr) d2) as [o c]. cbn [fst snd] in *.
  rewrite <-Hzx, splice_splice; [reflexivity|lia|]. rewrite Hzx. unfold zlen in *.
  rewrite Hlm; lia.
Qed.

(** Applying the mode twice restores the data. *)
Lemma ctr_mode_involutive n : ∀ ctr data, block ctr → bytes data → (length data ≤ n)%nat →
  (ctr_mode n key ctr (ctr_mode n key ctr data).1).1 = data.
Proof.
  induction n as [|n IH]; intros ctr data Hc Hb Hl;
    (destruct data as [|d0 data0]; [done|]); [simpl in Hl; lia|].
  set (data := d0 :: data0) in *. pose proof (block_facts ctr data Hc) as [[Hlk _] Hx].
  set (ks := aes128 key ctr) in *. set (d1 := take 16 data) in *. set (d2 := drop 16 data).
  specialize (IH (ctr_next ctr) d2 (ctr_next_block ctr Hc)).
  pose proof (length_ctr_mode n (ctr_next ctr) d2 (ctr_next_block ctr Hc)) as Hlm.
  assert (length d2 = length data - 16)%nat as Hl2 by (unfold d2; by rewrite length_drop).
  assert (ctr_mode (S n) key ctr data = (xor_list ks d1 ++ (ctr_mode n key (ctr_next ctr) d2).1,
    (ctr_mode n key (ctr_next ctr) d2).2)) as ->.
  { unfold data at 1. cbn [ctr_mode]. fold data. fold d1 d2 ks. destruct (ctr_mode n key (ctr_next ctr) d2) as [oo cc]. reflexivity. }
  cbn [fst]. set (o := (ctr_mode n key (ctr_next ctr) d2).1) in *.
  assert (take 16 (xor_list ks d1 ++ o) = xor_list ks d1 ∧ drop 16 (xor_list ks d1 ++ o) = o) as [Ht Hdr].
  { destruct (decide (length data ≤ 16)%nat).
    - assert (o = []) as -> by (apply nil_length_inv; rewrite Hlm; lia).
      rewrite app_nil_r, take_ge, drop_ge by lia. split; reflexivity.
    - assert (length (xor_list ks d1) = 16%nat) as H16 by lia.
      rewrite <-H16. split; [apply take_app_length|apply drop_app_length]. }
  assert (xor_list ks d1 ++ o ≠ []) as Hne.
  { intros H%(f_equal length). rewrite length_app, Hx in H. simpl in H. lia. }
  destruct (xor_list ks d1 ++ o) as [|x xs] eqn:E; [by destruct Hne|]. cbn [ctr_mode]. rewrite Ht, Hdr.
  fold ks. assert (xor_list ks (xor_list ks d1) = d1) as ->.
  { apply xor_list_twice. unfold d1. rewrite length_take. lia. }
  destruct (ctr_mode n key (ctr_next ctr) o) as [o2 c2] eqn:E2. cbn [fst] in *.
  rewrite IH by (try (by apply Forall_drop); lia). apply take_drop.
Qed.
End ctr.

Lemma block_columns b : block b → bytes_of_words (words (columns 4 b)) = b.
Proof.
  intros [Hl Hb]. rewrite bytes_of_state; [by apply concat_columns|].
  by apply (proj2 (columns_ok b Hl Hb)).
Qed.

Lemma ctr_mode_block n key : ∀ ctr data, block ctr → block (ctr_mode n key ctr data).2.
Proof.
  induction n as [|n IH]; intros ctr [|d data] Hc; try done. cbn [ctr_mode].
  pose proof (IH (ctr_next ctr) (drop 16 (d :: data)) (ctr_next_block ctr Hc)) as H.
  destruct (ctr_mode n key (ctr_next ctr) (drop 16 (d :: data))) as [o c]. exact H.
Qed.

Lemma CTR_lemma sched key inm data out ctrm ctr rest : scheduled sched key → block ctr →
  ctrm = ctr ++ rest → has inm 0 data → zlen data ≤ zlen out →
  RIOT_AES_CTR_128 sched inm out (zlen data) ctrm
  = Ok (splice out 0 (ctr_mode (length data) key ctr data).1,
        (ctr_mode (length data) key ctr data).2 ++ rest).
Proof.
  intros Hs Hc -> Hin Hout. unfold RIOT_AES_CTR_128.
  rewrite (Pack32_has _ 0 ctr []); [|rewrite app_nil_r; apply has_whole|apply zlen_nonneg|apply Hc].
  rewrite bind_Ok. unfold zlen at 1. rewrite Nat2Z.id.
  rewrite (ctr_loop_spec sched key Hs);
    [|exact Hc|exact Hin|apply zlen_nonneg|lia|lia|rewrite Z.add_0_l; exact Hout].
  rewrite bind_Ok. unfold Unpack32.
  pose proof (ctr_mode_block (length data) key ctr data Hc) as Hc2.
  rewrite (block_columns _ Hc2). set (c2 := (ctr_mode _ _ _ _).2) in *.
  assert (zlen c2 = 16) as Hz2 by (unfold zlen; rewrite (proj1 Hc2); done).
  assert (zlen ctr = 16) as Hz by (unfold zlen; rewrite (proj1 Hc); done).
  rewrite wr_bytes_splice, (proj2 (Z.leb_le _ _)), bind_Ok by zlen_lia.
  do 2 f_equal. unfold splice. rewrite Z.add_0_l, Hz2, <-Hz, zdrop_app_exact by done. done.
Qed.

(** A key in memory and room for its schedule. *)
Definition key_ready (keymem key m : list Z) : Prop :=
  has keymem 0 key ∧ zlen key = 16 ∧ bytes key ∧ zlen m = 48.

(** C21: RIOT_AES128_Enable and then RIOT_AES_ECB_128_ENCRYPT of a buffer of whole
    blocks write the FIPS 197 encryption of every block and nothing else: the
    table-driven rounds on 32-bit words compute SubBytes, ShiftRows, MixColumns
    and AddRoundKey over GF(2^8). *)
Theorem RIOT_AES_ECB_128_ENCRYPT_spec keymem key m n inm data out :
  key_ready keymem key m → has inm 0 data → bytes data → length data = (16 * n)%nat →
  zlen data < 2 ^ 64 → zlen data ≤ zlen out →
  (sched ← RIOT_AES128_Enable keymem m;
   RIOT_AES_ECB_128_ENCRYPT sched inm out (zlen data)) = Ok (splice out 0 (ecb n key data)).
Proof.
  intros (Hk & Hz & Hb & Hm) Hin Hbd Hl H64 Hout.
  destruct (Enable_lemma keymem key m Hk Hz Hb Hm) as (s & -> & _ & Hs). rewrite bind_Ok.
  pose proof (has_bound _ _ _ Hin (zlen_nonneg inm)) as Hbnd.
  apply ecb_loop_spec; [exact Hs|exact Hin|apply zlen_nonneg|exact Hbd|exact Hl| |exact H64|lia].
  unfold zlen in Hbnd. lia.
Qed.

Definition fips_key : list Z := [0; 1; 2; 3; 4; 5; 6; 7; 8; 9; 10; 11; 12; 13; 14; 15].
Definition fips_plain : list Z :=
  [0; 17; 34; 51; 68; 85; 102; 119; 136; 153; 170; 187; 204; 221; 238; 255].
Definition fips_cipher : list Z :=
  [105; 196; 224; 216; 106; 123; 4; 48; 216; 205; 183; 128; 112; 180; 197; 90].

Lemma fips_vector : ecb 1 fips_key fips_plain = fips_cipher.
Proof. vm_compute. reflexivity. Qed.

Lemma fips_ready : key_ready fips_key fips_key (replicate 48 0).
Proof.
  split; [apply has_self|]. split; [done|]. split; [|done].
  apply (bool_decide_unpack _). vm_compute. exact I.
Qed.

Lemma RIOT_AES_ECB_128_ENCRYPT_spec_witness :
  (sched ← RIOT_AES128_Enable fips_key (replicate 48 0);
   RIOT_AES_ECB_128_ENCRYPT sched fips_plain (replicate 16 7) 16) = Ok fips_cipher.
Proof.
  pose proof (RIOT_AES_ECB_128_ENCRYPT_spec fips_key fips_key (replicate 48 0) 1 fips_plain fips_plain
    (replicate 16 7) fips_ready (has_self _) ltac:(apply (bool_decide_unpack _); vm_compute; exact I)
    ltac:(vm_compute; reflexivity) ltac:(vm_compute; reflexivity) ltac:(vm_compute; discriminate)) as H.
  rewrite fips_vector in H. exact H.
Defined.

(** C22: RIOT_AES_CTR_128 writes the exclusive or of the data, of any length, with
    the AES encryptions of the counter block and its successors, the counter
    being the last four bytes, most significant first, modulo 2^32; it stores
    the counter block after the last block used and terminates on every length. *)
Theorem RIOT_AES_CTR_128_spec keymem key m inm data out ctr rest :
  key_ready keymem key m → has inm 0 data → zlen data ≤ zlen out →
  length ctr = 16%nat → bytes ctr →
  (sched ← RIOT_AES128_Enable keymem m;
   RIOT_AES_CTR_128 sched inm out (zlen data) (ctr ++ rest))
  = Ok (splice out 0 (ctr_mode (length data) key ctr data).1,
        (ctr_mode (length data) key ctr data).2 ++ rest).
Proof.
  intros (Hk & Hz & Hb & Hm) Hin Hout Hl Hc.
  destruct (Enable_lemma keymem key m Hk Hz Hb Hm) as (s & -> & _ & Hs). rewrite bind_Ok.
  by apply CTR_lemma.
Qed.

Lemma RIOT_AES_CTR_128_spec_witness :
  (sched ← RIOT_AES128_Enable fips_key (replicate 48 0);
   RIOT_AES_CTR_128 sched [1; 2; 3] (replicate 4 7) 3 (replicate 16 255 ++ [9]))
  = Ok (splice (replicate 4 7) 0 (ctr_mode 3 fips_key (replicate 16 255) [1; 2; 3]).1,
        (ctr_mode 3 fips_key (replicate 16 255) [1; 2; 3]).2 ++ [9]).
Proof.
  exact (RIOT_AES_CTR_128_spec fips_key fips_key (replicate 48 0) [1; 2; 3] [1; 2; 3] (replicate 4 7)
    (replicate 16 255) [9] fips_ready (has_self _) ltac:(vm_compute; discriminate) eq_refl
    ltac:(apply (bool_decide_unpack _); vm_compute; exact I)).
Defined.

Lemma splice_whole (m a : list Z) : zlen a = zlen m → splice m 0 a = a.
Proof.
  intros H. unfold splice. rewrite Z.add_0_l, zdrop_all by lia. by rewrite app_nil_r.
Qed.

(** Decryption is encryption: running RIOT_AES_CTR_128 again on its output
    with the initial counter block restores the data. *)
Theorem RIOT_AES_CTR_128_roundtrip keymem key m data buf1 buf2 ctr :
  key_ready keymem key m → bytes data → zlen buf1 = zlen data → zlen buf2 = zlen data →
  length ctr = 16%nat → bytes ctr →
  (sched ← RIOT_AES128_Enable keymem m;
   '(cipher, _) ← RIOT_AES_CTR_128 sched data buf1 (zlen data) ctr;
   '(plain, _) ← RIOT_AES_CTR_128 sched cipher buf2 (zlen cipher) ctr;
   Ok plain) = Ok data.
Proof.
  intros (Hk & Hz & Hb & Hm) Hbd H1 H2 Hl Hc.
  destruct (Enable_lemma keymem key m Hk Hz Hb Hm) as (s & -> & _ & Hs). rewrite bind_Ok.
  pose proof (length_ctr_mode s key Hs (length data) ctr data (conj Hl Hc) (le_n _)) as Hlo.
  rewrite (CTR_lemma s key data data buf1 ctr ctr []);
    [|exact Hs|by split|by rewrite app_nil_r|apply has_self|lia].
  rewrite bind_Ok. set (o := (ctr_mode (length data) key ctr data).1) in *.
  assert (splice buf1 0 o = o) as -> by (apply splice_whole; unfold zlen in *; rewrite Hlo; lia).
  assert (zlen o = zlen data) as Hzo by (unfold zlen; by rewrite Hlo).
  rewrite (CTR_lemma s key o o buf2 ctr ctr []);
    [|exact Hs|by split|by rewrite app_nil_r|apply has_self|lia].
  rewrite bind_Ok, Hlo. unfold o. rewrite (ctr_mode_involutive s key Hs);
    [|by split|exact Hbd|apply le_n].
  by rewrite splice_whole.
Qed.

Lemma RIOT_AES_CTR_128_roundtrip_witness :
  (sched ← RIOT_AES128_Enable fips_key (replicate 48 0);
   '(cipher, _) ← RIOT_AES_CTR_128 sched [1; 2; 3] (replicate 3 7) 3 (replicate 16 255);
   '(plain, _) ← RIOT_AES_CTR_128 sched cipher (replicate 3 8) (zlen cipher) (replicate 16 255);
   Ok plain) = Ok [1; 2; 3].
Proof.
  exact (RIOT_AES_CTR_128_roundtrip fips_key fips_key (replicate 48 0) [1; 2; 3] (replicate 3 7)
    (replicate 3 8) (replicate 16 255) fips_ready
    ltac:(apply (bool_decide_unpack _); vm_compute; exact I) eq_refl eq_refl eq_refl
    ltac:(apply (bool_decide_unpack _); vm_compute; exact I)).
Defined.
