(* ===== verification/RiotCrypt.v ===== *)
(** RiotCrypt.c: the RIoT cryptography interface on top of the hash, HMAC, key
    derivation, elliptic curve and AES modules, and what each function computes
    for the parameters it accepts.

    A result buffer is the memory its pointer can write; the arguments named
    after locals of the C functions are what those locals hold on entry. *)
From S2P Require Export CurveSpec AesSpec.

Definition RIOT_DIGEST_LENGTH : Z := SHA256_DIGEST_LENGTH.
Definition RIOT_HMAC_LENGTH : Z := RIOT_DIGEST_LENGTH.
Definition RIOT_KEY_LENGTH : Z := RIOT_DIGEST_LENGTH.
Definition RIOT_MAX_KDF_CONTEXT_LENGTH : Z := RIOT_DIGEST_LENGTH.
Definition RIOT_MAX_KDF_LABEL_LENGTH : Z := RIOT_DIGEST_LENGTH.
Definition RIOT_MAX_KDF_FIXED_SIZE : Z :=
  RIOT_MAX_KDF_CONTEXT_LENGTH + RIOT_MAX_KDF_LABEL_LENGTH + 5.

(** [sizeof(bigval_t)] and [sizeof(affine_point_t)]. *)
Definition sizeof_bigval : Z := 4 * BIGLEN.
Definition sizeof_point : Z := 2 * sizeof_bigval + 4.

(** The bytes of a point in memory. *)
Definition point_bytes (P : affine_point) : list Z :=
  bytes_of_words (px P) ++ bytes_of_words (py P) ++ le_split 4 (infinity P).

(** The loop of RiotCrypt_Kdf; [fuel] rounds at most. *)
Fixpoint kdf_loop (fuel : nat) (ctx : RIOT_HMAC_SHA256_CTX) (result source : list Z) (sourceSize : Z)
    (counter : Z) (fixed : list Z) (fixedSize bytesToDerive : Z) : outcome (list Z) :=
  if counter <? bytesToDerive / RIOT_KEY_LENGTH then
    match fuel with
    | O => Ub OutOfFuel
    | S fuel =>
      let p := counter * RIOT_KEY_LENGTH in
      '(out, c) ← RIOT_KDF_SHA256 ctx (zdrop p result) source sourceSize (Some counter) fixed fixedSize;
      counter ← deref c;
      kdf_loop fuel ctx (ztake p result ++ out) source sourceSize counter fixed fixedSize bytesToDerive
    end
  else Ok result.

Definition RiotCrypt_Kdf (ctx : RIOT_HMAC_SHA256_CTX) (fixed result : list Z) (resultSize : Z)
    (source : list Z) (sourceSize : Z) (context : option (list Z)) (contextSize : Z)
    (label : option (list Z)) (labelSize bytesToDerive : Z) : outcome (Z * list Z) :=
  if (RIOT_MAX_KDF_CONTEXT_LENGTH <? contextSize) || (RIOT_MAX_KDF_LABEL_LENGTH <? labelSize)
     || (resultSize <? bytesToDerive) || negb (bytesToDerive mod RIOT_KEY_LENGTH =? 0)
  then Ok (RIOT_INVALID_PARAMETER, result) else
  '(fixedSize, fixed) ← RIOT_KDF_FIXED fixed RIOT_MAX_KDF_FIXED_SIZE context contextSize label labelSize
                          (u32 (bytesToDerive * 8));
  result ← kdf_loop (Z.to_nat (bytesToDerive / RIOT_KEY_LENGTH)) ctx result source sourceSize 0
             fixed fixedSize bytesToDerive;
  Ok (RIOT_SUCCESS, result).

Definition RiotCrypt_Hash (result : list Z) (resultSize : Z) (data : list Z) (dataSize : Z)
    : outcome (Z * list Z) :=
  if resultSize <? RIOT_DIGEST_LENGTH then Ok (RIOT_INVALID_PARAMETER, result) else
  ctx ← RIOT_SHA256_Update sha256_init_ctx data dataSize;
  '(_, d) ← RIOT_SHA256_Final ctx (Some result);
  result ← deref d;
  Ok (RIOT_SUCCESS, result).

Definition RiotCrypt_Hash2 (result : list Z) (resultSize : Z) (data1 : list Z) (data1Size : Z)
    (data2 : list Z) (data2Size : Z) : outcome (Z * list Z) :=
  if resultSize <? RIOT_DIGEST_LENGTH then Ok (RIOT_INVALID_PARAMETER, result) else
  ctx ← RIOT_SHA256_Update sha256_init_ctx data1 data1Size;
  ctx ← RIOT_SHA256_Update ctx data2 data2Size;
  '(_, d) ← RIOT_SHA256_Final ctx (Some result);
  result ← deref d;
  Ok (RIOT_SUCCESS, result).

Definition RiotCrypt_Hmac (ctx : RIOT_HMAC_SHA256_CTX) (result : list Z) (resultCapacity : Z)
    (data : list Z) (dataSize : Z) (key : list Z) (keySize : Z) : outcome (Z * list Z) :=
  if (resultCapacity <? RIOT_HMAC_LENGTH) || negb (keySize =? RIOT_HMAC_LENGTH)
  then Ok (RIOT_INVALID_PARAMETER, result) else
  ctx ← RIOT_HMAC_SHA256_Init ctx key keySize;
  ctx ← RIOT_HMAC_SHA256_Update ctx data dataSize;
  '(_, result) ← RIOT_HMAC_SHA256_Final ctx result;
  Ok (RIOT_SUCCESS, result).

Definition RiotCrypt_Hmac2 (ctx : RIOT_HMAC_SHA256_CTX) (result : list Z) (resultCapacity : Z)
    (data1 : list Z) (data1Size : Z) (data2 : list Z) (data2Size : Z) (key : list Z) (keySize : Z)
    : outcome (Z * list Z) :=
  if (resultCapacity <? RIOT_HMAC_LENGTH) || negb (keySize =? RIOT_HMAC_LENGTH)
  then Ok (RIOT_INVALID_PARAMETER, result) else
  ctx ← RIOT_HMAC_SHA256_Init ctx key keySize;
  ctx ← RIOT_HMAC_SHA256_Update ctx data1 data1Size;
  ctx ← RIOT_HMAC_SHA256_Update ctx data2 data2Size;
  '(_, result) ← RIOT_HMAC_SHA256_Final ctx result;
  Ok (RIOT_SUCCESS, result).

(** The source is read as the words it is in memory, or copied into [srcVal]. *)
Definition RiotCrypt_DeriveEccKey (fuel : nat) (ctx : RIOT_HMAC_SHA256_CTX) (fixed : list Z)
    (publicPart : affine_point) (privatePart srcData : list Z) (srcDataSize : Z)
    (label : option (list Z)) (labelSize : Z) : outcome (Z * affine_point * list Z) :=
  if sizeof_bigval <? srcDataSize then Ok (RIOT_INVALID_PARAMETER, publicPart, privatePart) else
  bs ← rd_bytes srcData 0 srcDataSize;
  srcVal ← wr_bytes (replicate (Z.to_nat sizeof_bigval) 0) 0 bs;
  RIOT_DeriveDsaKeyPair fuel ctx fixed privatePart (words_of_bytes (Z.to_nat BIGLEN) srcVal) label labelSize.

Definition RiotCrypt_Sign (fuel : nat) (digest : list Z) (P1 : affine_point) (k : list Z)
    (sig : ECDSA_sig) (data : list Z) (dataSize : Z) (key : list Z) : outcome (Z * ECDSA_sig) :=
  '(_, digest) ← RiotCrypt_Hash digest RIOT_DIGEST_LENGTH data dataSize;
  RIOT_DSASignDigest fuel digest key P1 k sig.

Definition RiotCrypt_SignDigest (fuel : nat) (P1 : affine_point) (k : list Z) (sig : ECDSA_sig)
    (digest : list Z) (digestSize : Z) (key : list Z) : outcome (Z * ECDSA_sig) :=
  if negb (digestSize =? RIOT_DIGEST_LENGTH) then Ok (RIOT_INVALID_PARAMETER, sig)
  else RIOT_DSASignDigest fuel digest key P1 k sig.

Definition RiotCrypt_Verify (digest data : list Z) (dataSize : Z) (sig : ECDSA_sig) (key : affine_point)
    : outcome Z :=
  '(_, digest) ← RiotCrypt_Hash digest RIOT_DIGEST_LENGTH data dataSize;
  RIOT_DSAVerifyDigest digest sig key.

Definition RiotCrypt_VerifyDigest (digest : list Z) (digestSize : Z) (sig : ECDSA_sig)
    (key : affine_point) : outcome Z :=
  if negb (digestSize =? RIOT_DIGEST_LENGTH) then Ok RIOT_INVALID_PARAMETER
  else RIOT_DSAVerifyDigest digest sig key.

(** The result, [outData] and [key]; [iv] is the second half of [key]. *)
Definition RiotCrypt_SymEncryptDecrypt (aesKey outData : list Z) (outSize : Z) (inData : list Z)
    (inSize : Z) (key : list Z) : outcome (Z * list Z * list Z) :=
  if outSize <? inSize then Ok (RIOT_INVALID_PARAMETER, outData, key) else
  aesKey ← RIOT_AES128_Enable key aesKey;
  '(outData, iv) ← RIOT_AES_CTR_128 aesKey inData outData (u32 inSize) (zdrop 16 key);
  aesKey ← RIOT_AES128_Disable aesKey;
  Ok (RIOT_SUCCESS, outData, ztake 16 key ++ iv).

Definition RIOT_LABEL_EXCHANGE : list Z := bytes_of_string "Exchange" ++ [0].

(** What the locals of the two functions below and of the functions they call
    hold on entry. *)
Record exchange_locals := mkExchange {
  ephPriv : list Z; secret : affine_point; exchKey : list Z;
  kdf_ctx : RIOT_HMAC_SHA256_CTX; kdf_fixed_buf : list Z; aes_key : list Z }.

(** The common rest of the functions: the exchanged key and the cipher. *)
Definition exchange (l : exchange_locals) (result : list Z) (resultCapacity : Z) (data : list Z)
    (dataSize : Z) (secret : affine_point) : outcome (Z * list Z) :=
  '(status, exchKey) ← RiotCrypt_Kdf (kdf_ctx l) (kdf_fixed_buf l) (exchKey l) RIOT_KEY_LENGTH
      (point_bytes secret) sizeof_point None 0 (Some RIOT_LABEL_EXCHANGE)
      (zlen RIOT_LABEL_EXCHANGE - 1) RIOT_KEY_LENGTH;
  if negb (status =? RIOT_SUCCESS) then Ok (status, result) else
  '(status, result, _) ← RiotCrypt_SymEncryptDecrypt (aes_key l) result resultCapacity data dataSize exchKey;
  Ok (status, result).

(** The result, [result] and [*ephKey]. *)
Definition RiotCrypt_EccEncrypt (fuel : nat) (l : exchange_locals) (result : list Z)
    (resultCapacity : Z) (ephKey : affine_point) (data : list Z) (dataSize : Z) (key : affine_point)
    : outcome (Z * list Z * affine_point) :=
  '(status, ephKey, ephPriv) ← RIOT_GenerateDHKeyPair fuel ephKey (ephPriv l);
  if negb (status =? RIOT_SUCCESS) then Ok (status, result, ephKey) else
  '(status, secret) ← RIOT_GenerateShareSecret key ephPriv (secret l);
  if negb (status =? RIOT_SUCCESS) then Ok (status, result, ephKey) else
  '(status, result) ← exchange l result resultCapacity data dataSize secret;
  Ok (status, result, ephKey).

Definition RiotCrypt_EccDecrypt (l : exchange_locals) (result : list Z) (resultCapacity : Z)
    (data : list Z) (dataSize : Z) (ephKey : affine_point) (key : list Z) : outcome (Z * list Z) :=
  '(status, secret) ← RIOT_GenerateShareSecret ephKey key (secret l);
  if negb (status =? RIOT_SUCCESS) then Ok (status, result) else
  exchange l result resultCapacity data dataSize secret.

(** * Hashes *)
Lemma RiotCrypt_Hash_lemma result n data bs : 32 ≤ n → 32 ≤ zlen result → bytes bs → has data 0 bs →
  8 * zlen bs < 2 ^ 64 →
  RiotCrypt_Hash result n data (zlen bs) = Ok (RIOT_SUCCESS, splice result 0 (Fips.sha256 bs)).
Proof.
  intros Hn Hr Hb Hd Hl. unfold RiotCrypt_Hash. change RIOT_DIGEST_LENGTH with 32.
  rewrite (proj2 (Z.ltb_ge _ _)) by lia.
  destruct (RIOT_SHA256_Update_spec _ [] data bs hashing_init Hb Hd) as (c & -> & Hc).
  rewrite bind_Ok. cbn [app] in Hc. by rewrite (RIOT_SHA256_Final_lemma _ _ _ Hc).
Qed.

Lemma RiotCrypt_Hash2_lemma result n data1 bs1 data2 bs2 : 32 ≤ n → 32 ≤ zlen result →
  bytes bs1 → has data1 0 bs1 → bytes bs2 → has data2 0 bs2 → 8 * (zlen bs1 + zlen bs2) < 2 ^ 64 →
  RiotCrypt_Hash2 result n data1 (zlen bs1) data2 (zlen bs2)
  = Ok (RIOT_SUCCESS, splice result 0 (Fips.sha256 (bs1 ++ bs2))).
Proof.
  intros Hn Hr Hb1 Hd1 Hb2 Hd2 Hl. unfold RiotCrypt_Hash2. change RIOT_DIGEST_LENGTH with 32.
  rewrite (proj2 (Z.ltb_ge _ _)) by lia.
  destruct (RIOT_SHA256_Update_spec _ [] data1 bs1 hashing_init Hb1 Hd1) as (c & -> & Hc). rewrite bind_Ok.
  destruct (RIOT_SHA256_Update_spec _ _ data2 bs2 Hc Hb2 Hd2) as (c' & -> & Hc'). rewrite bind_Ok.
  rewrite (RIOT_SHA256_Final_lemma _ _ _ Hc'); [done|rewrite zlen_app; cbn [app] in *; lia|done].
Qed.

(** * Key derivation *)

(** [n] keys, for the counters from [c + 1] on. *)
Fixpoint kdf_keys (n : nat) (c : Z) (key fixed : list Z) : list Z :=
  match n with
  | O => []
  | S n => kdf_iteration le_split key (c + 1) fixed ++ kdf_keys n (c + 1) key fixed
  end.

Lemma length_kdf_keys n : ∀ c key fixed, zlen (kdf_keys n c key fixed) = 32 * Z.of_nat n.
Proof.
  induction n as [|n IH]; intros c key fixed; [done|]. cbn [kdf_keys]. rewrite zlen_app, IH.
  unfold zlen at 1, kdf_iteration. rewrite length_hmac. lia.
Qed.

Lemma kdf_loop_spec ctx source key fixed fixedm n : ∀ fuel c result total,
  length (opad ctx) = 64%nat → bytes key → has source 0 key → bytes fixed → has fixedm 0 fixed →
  8 * zlen key < 2 ^ 64 → 8 * (68 + zlen fixed) < 2 ^ 64 →
  (n ≤ fuel)%nat → 0 ≤ c → c + Z.of_nat n = total / 32 → total < 2 ^ 32 → 0 ≤ total ≤ zlen result →
  kdf_loop fuel ctx result source (zlen key) c fixedm (zlen fixed) total
  = Ok (splice result (32 * c) (kdf_keys n c key fixed)).
Proof.
  induction n as [|n IH]; intros fuel c result total Ho Hk Hs Hf Hfm Hkl Hfl Hn Hc Ht Ht2 Hr.
  - assert ((c <? total / RIOT_KEY_LENGTH) = false) as Hlt by
      (change RIOT_KEY_LENGTH with 32; apply Z.ltb_ge; lia).
    cbn [kdf_keys]. rewrite splice_nil. destruct fuel; cbn [kdf_loop]; by rewrite Hlt.
  - assert ((c <? total / RIOT_KEY_LENGTH) = true) as Hlt by
      (change RIOT_KEY_LENGTH with 32; apply Z.ltb_lt; lia).
    destruct fuel as [|fuel]; [lia|]. cbn [kdf_loop]. rewrite Hlt. change RIOT_KEY_LENGTH with 32.
    assert (32 * (c + 1) ≤ total) as Hroom by dlia.
    rewrite (Z.mul_comm c 32). set (p := 32 * c). pose proof (zlen_nonneg result).
    assert (zlen (zdrop p result) = zlen result - p) as Hz by (rewrite zlen_drop; lia).
    pose proof (RIOT_KDF_SHA256_lemma ctx (zdrop p result) source key (Some c) fixedm fixed Ho Hk Hs Hf Hfm
      ltac:(lia) Hkl Hfl) as Hkdf. cbv zeta in Hkdf. change (default 0 (Some c)) with c in Hkdf.
    rewrite u32_id in Hkdf by (unfold is_u32; lia). rewrite Hkdf, bind_Ok. clear Hkdf.
    cbn [fmap option_fmap option_map deref]. rewrite bind_Ok. set (k := kdf_iteration le_split key (c + 1) fixed).
    assert (zlen k = 32) as Hk32 by (unfold zlen, k, kdf_iteration; by rewrite length_hmac).
    assert (ztake p result ++ splice (zdrop p result) 0 k = splice result p k) as ->.
    { unfold splice. change (ztake 0 (zdrop p result)) with (@nil Z). cbn [app].
      rewrite Z.add_0_l, zdrop_zdrop by lia. done. }
    assert (zlen (splice result p k) = zlen result) as Hzs by (apply zlen_splice; lia).
    rewrite (IH fuel (c + 1) _ total); try done; [|lia..].
    cbn [kdf_keys]. fold k. replace (32 * (c + 1)) with (p + zlen k) by lia.
    rewrite splice_splice; [done|lia|]. rewrite length_kdf_keys, Hk32. dlia.
Qed.

(** The parameters RiotCrypt_Kdf accepts. *)
Definition kdf_accepts (resultSize contextSize labelSize n : Z) : bool :=
  (contextSize <=? 32) && (labelSize <=? 32) && (n <=? resultSize) && (n mod 32 =? 0).

Lemma RiotCrypt_Kdf_lemma ctx fixedm result resultSize source key cp context lp label n :
  length (opad ctx) = 64%nat → 69 ≤ zlen fixedm → bytes key → has source 0 key → 8 * zlen key < 2 ^ 64 →
  opt_has cp context → bytes (default [] context) → opt_has lp label → bytes (default [] label) →
  resultSize ≤ zlen result → 0 ≤ n < 2 ^ 29 →
  RiotCrypt_Kdf ctx fixedm result resultSize source (zlen key) cp (zlen (default [] context))
    lp (zlen (default [] label)) n
  = Ok (if kdf_accepts resultSize (zlen (default [] context)) (zlen (default [] label)) n
        then (RIOT_SUCCESS, splice result 0 (kdf_keys (Z.to_nat (n / 32)) 0 key
               (kdf_fixed le_split context label (8 * n))))
        else (RIOT_INVALID_PARAMETER, result)).
Proof.
  intros Ho Hf Hk Hs Hkl Hc Hcb Hl Hlb Hr Hn. unfold RiotCrypt_Kdf, kdf_accepts.
  change RIOT_MAX_KDF_CONTEXT_LENGTH with 32. change RIOT_MAX_KDF_LABEL_LENGTH with 32.
  change RIOT_KEY_LENGTH with 32. change RIOT_MAX_KDF_FIXED_SIZE with 69.
  set (cx := zlen (default [] context)). set (lx := zlen (default [] label)).
  rewrite (Z.ltb_antisym cx 32), (Z.ltb_antisym lx 32), (Z.ltb_antisym n resultSize).
  destruct (Z.leb_spec cx 32) as [Hcx|]; [|reflexivity]. destruct (Z.leb_spec lx 32) as [Hlx|]; [|reflexivity].
  destruct (Z.leb_spec n resultSize) as [Hnr|]; [|reflexivity]. destruct (n mod 32 =? 0) eqn:Hm; [|reflexivity].
  cbn [negb orb andb]. apply Z.eqb_eq in Hm.
  assert (u32 (n * 8) = 8 * n) as -> by (rewrite u32_id by (unfold is_u32; lia); lia).
  set (bs := kdf_fixed le_split context label (8 * n)).
  assert (zlen bs = cx + lx + 5) as Hbs.
  { unfold bs, kdf_fixed. rewrite !zlen_app. change (zlen [0]) with 1. change (zlen (le_split 4 (8 * n))) with 4.
    unfold cx, lx. lia. }
  pose proof (RIOT_KDF_FIXED_lemma fixedm 69 cp context lp label (8 * n) Hc Hl ltac:(unfold is_u32; lia)
    ltac:(fold cx lx; lia)) as Hfx. cbv zeta in Hfx. fold cx lx bs in Hfx. rewrite Hfx.
  rewrite (proj2 (Z.leb_le _ _)), bind_Ok by lia.
  rewrite (kdf_loop_spec ctx source key bs _ (Z.to_nat (n / 32))); try done.
  - unfold bs, kdf_fixed. apply Forall_app. split; [done|]. apply Forall_app. split; [by repeat constructor|].
    apply Forall_app. split; [done|apply le_split_bytes].
  - apply has_splice; lia.
  - lia.
  - rewrite Z2Nat.id; [lia|]. apply Z.div_pos; lia.
  - lia.
  - lia.
Qed.

(** * Symmetric encryption *)

(** Counter mode under the first half of [key] from the counter in its second
    half: what is written for [data], and what is left of [key]. *)
Definition sym (key data : list Z) : list Z * list Z :=
  let '(out, iv) := ctr_mode (length data) (take 16 key) (drop 16 key) data in
  (out, take 16 key ++ iv).

Definition sym_key (key : list Z) : Prop := length key = 32%nat ∧ bytes key.

Lemma sym_key_halves key : sym_key key → length (take 16 key) = 16%nat ∧ bytes (take 16 key) ∧ block (drop 16 key).
Proof.
  intros [Hl Hb]. split_and!; [rewrite length_take; lia|by apply Forall_take|].
  split; [rewrite length_drop; lia|by apply Forall_drop].
Qed.

Lemma key_scheduled key : length key = 16%nat → bytes key → ∃ s, scheduled s key ∧ zlen s = 48.
Proof.
  intros Hl Hb. destruct (Enable_lemma key key (zeros 48)) as (s & _ & ? & ?);
    [apply has_self|unfold zlen; lia|done|done|by exists s].
Qed.

Lemma sym_fst key data : (sym key data).1 = (ctr_mode (length data) (take 16 key) (drop 16 key) data).1.
Proof. unfold sym. destruct (ctr_mode _ _ _ _). reflexivity. Qed.

Lemma length_sym key data : sym_key key → length (sym key data).1 = length data.
Proof.
  intros Hk. destruct (sym_key_halves key Hk) as (Hl & Hb & Hc).
  destruct (key_scheduled _ Hl Hb) as (s & Hs & _).
  pose proof (length_ctr_mode s _ Hs (length data) (drop 16 key) data Hc (le_n _)) as H.
  rewrite sym_fst. exact H.
Qed.

Lemma sym_involutive key data : sym_key key → bytes data → (sym key (sym key data).1).1 = data.
Proof.
  intros Hk Hd. pose proof (length_sym key data Hk) as Hlen. destruct (sym_key_halves key Hk) as (Hl & Hb & Hc).
  destruct (key_scheduled _ Hl Hb) as (s & Hs & _).
  pose proof (ctr_mode_involutive s _ Hs (length data) (drop 16 key) data Hc Hd (le_n _)) as H.
  rewrite (sym_fst key (sym key data).1), Hlen, sym_fst. exact H.
Qed.

Lemma RiotCrypt_SymEncryptDecrypt_lemma aesKey out n inm data key : zlen aesKey = 48 → sym_key key →
  has inm 0 data → zlen data < 2 ^ 32 → n ≤ zlen out →
  RiotCrypt_SymEncryptDecrypt aesKey out n inm (zlen data) key
  = Ok (if n <? zlen data then (RIOT_INVALID_PARAMETER, out, key)
        else (RIOT_SUCCESS, splice out 0 (sym key data).1, (sym key data).2)).
Proof.
  intros Ha Hk Hin Hl Hn. unfold RiotCrypt_SymEncryptDecrypt. destruct (Z.ltb_spec n (zlen data)); [reflexivity|].
  destruct (sym_key_halves key Hk) as (Hl16 & Hb & Hc).
  destruct (Enable_lemma key (take 16 key) aesKey) as (s & -> & Hsl & Hs);
    [|unfold zlen; lia|done|done|].
  { rewrite <-(take_drop 16 key) at 1. apply has_whole. }
  rewrite bind_Ok, u32_id by (unfold is_u32; pose proof (zlen_nonneg data); lia).
  rewrite (CTR_lemma s (take 16 key) inm data out _ (drop 16 key) [] Hs Hc); [|by rewrite app_nil_r|done|lia].
  rewrite bind_Ok. unfold RIOT_AES128_Disable.
  rewrite wr_bytes_splice, (proj2 (Z.leb_le _ _)), bind_Ok; [|rewrite Hsl; done|lia].
  unfold sym. destruct (ctr_mode _ _ _ _) as [o iv]. cbn [fst snd]. rewrite app_nil_r. reflexivity.
Qed.

(** * Exchanged keys *)

(** The symmetric key both sides derive from a shared point. *)
Definition exchange_key (S : affine_point) : list Z :=
  kdf_iteration le_split (point_bytes S) 1
    (kdf_fixed le_split None (Some (bytes_of_string "Exchange")) 256).

Definition locals_ok (l : exchange_locals) : Prop :=
  length (ephPriv l) = 9%nat ∧ zlen (exchKey l) = 32 ∧ length (opad (kdf_ctx l)) = 64%nat ∧
  69 ≤ zlen (kdf_fixed_buf l) ∧ zlen (aes_key l) = 48.

Lemma exchange_key_ok S : sym_key (exchange_key S).
Proof. split; [apply length_hmac|apply sha256_bytes]. Qed.

Lemma point_bytes_ok S : bigval (px S) → bigval (py S) →
  bytes (point_bytes S) ∧ zlen (point_bytes S) = sizeof_point.
Proof.
  intros Hx Hy. unfold point_bytes. split.
  - apply Forall_app. split; [apply bytes_of_words_bytes|]. apply Forall_app.
    split; [apply bytes_of_words_bytes|apply le_split_bytes].
  - rewrite !zlen_app. unfold zlen at 1 2. rewrite !length_bytes_of_words, !bigval_length by done. done.
Qed.

Lemma exchange_lemma l result n inm data S : locals_ok l → bigval (px S) → bigval (py S) →
  has inm 0 data → zlen data < 2 ^ 32 → n ≤ zlen result →
  exchange l result n inm (zlen data) S
  = Ok (if n <? zlen data then (RIOT_INVALID_PARAMETER, result)
        else (RIOT_SUCCESS, splice result 0 (sym (exchange_key S) data).1)).
Proof.
  intros (_ & Hek & Hop & Hfb & Hak) Hx Hy Hin Hl Hn. destruct (point_bytes_ok S Hx Hy) as [Hpb Hpl].
  unfold exchange. rewrite <-Hpl.
  change (zlen RIOT_LABEL_EXCHANGE - 1) with (zlen (default [] (Some (bytes_of_string "Exchange")))).
  change 0 with (zlen (default [] (@None (list Z)))) at 1.
  rewrite (RiotCrypt_Kdf_lemma (kdf_ctx l) _ (exchKey l) RIOT_KEY_LENGTH (point_bytes S) (point_bytes S)
    None None (Some RIOT_LABEL_EXCHANGE) (Some (bytes_of_string "Exchange")) RIOT_KEY_LENGTH Hop Hfb Hpb (has_self _));
    [|rewrite Hpl; done|done|by constructor|apply has_whole|by repeat constructor
     |rewrite Hek; done|done].
  change (kdf_accepts _ _ _ _) with true. cbv iota. rewrite bind_Ok. cbn [Z.eqb RIOT_SUCCESS negb].
  assert (splice (exchKey l) 0 (kdf_keys (Z.to_nat (RIOT_KEY_LENGTH / 32)) 0 (point_bytes S)
    (kdf_fixed le_split None (Some (bytes_of_string "Exchange")) (8 * RIOT_KEY_LENGTH))) = exchange_key S) as ->.
  { rewrite splice_whole by (rewrite length_kdf_keys, Hek; done).
    change (Z.to_nat (RIOT_KEY_LENGTH / 32)) with 1%nat. cbn [kdf_keys]. by rewrite app_nil_r. }
  rewrite (RiotCrypt_SymEncryptDecrypt_lemma (aes_key l) result n inm data _ Hak (exchange_key_ok S) Hin Hl Hn).
  rewrite bind_Ok. by destruct (n <? zlen data).
Qed.

Lemma exchange_opens l l' buf buf' n S data : locals_ok l → locals_ok l' → bigval (px S) → bigval (py S) →
  bytes data → zlen data < 2 ^ 32 → zlen data ≤ n ≤ zlen buf → zlen data ≤ zlen buf' →
  ('(_, c) ← exchange l buf n data (zlen data) S; exchange l' buf' (zlen buf') c (zlen data) S)
  = Ok (RIOT_SUCCESS, splice buf' 0 data).
Proof.
  intros Hl Hl' Hx Hy Hd Hn Hb Hb'. pose proof (zlen_nonneg data).
  rewrite (exchange_lemma l buf n data data S Hl Hx Hy (has_self _) Hn) by lia.
  rewrite (proj2 (Z.ltb_ge _ _)), bind_Ok by lia. set (c := (sym (exchange_key S) data).1).
  assert (zlen c = zlen data) as Hc by (unfold zlen, c; rewrite length_sym; [done|apply exchange_key_ok]).
  rewrite <-Hc. rewrite (exchange_lemma l' buf' (zlen buf') _ c S Hl' Hx Hy); [|apply has_splice; lia|lia|lia].
  rewrite (proj2 (Z.ltb_ge _ _)) by lia. unfold c. by rewrite sym_involutive by (apply exchange_key_ok || done).
Qed.

(** * Public-key encryption *)
Lemma generate_value n P k : length k = 9%nat →
  RIOT_GenerateDHKeyPair (S n) P k = Ok (RIOT_SUCCESS, affine_of (ec_mul (wval K0) G), K0).
Proof.
  intros Hk. destruct (ECDH_generate_lemma n P k Hk) as ([[rv P'] k'] & Hg & -> & -> & HP).
  unfold RIOT_GenerateDHKeyPair. rewrite Hg, bind_Ok. cbn [Z.eqb].
  generalize dependent (ec_mul (wval K0) G). intros A HA. rewrite (affine_of_arep P' A HA). reflexivity.
Qed.

(** The secret of a message to [Q], which anybody can compute. *)
Definition public_secret (Q : affine_point) : point :=
  match peer Q with None => None | A => ec_mul (wval K0) A end.

Lemma encrypt_lemma n l result cap eph inm data Q : locals_ok l → bigval (px Q) → bigval (py Q) →
  has inm 0 data → zlen data < 2 ^ 32 → cap ≤ zlen result →
  RiotCrypt_EccEncrypt (S n) l result cap eph inm (zlen data) Q
  = Ok (match public_secret Q with
        | None => (RIOT_FAILURE, result)
        | A => if cap <? zlen data then (RIOT_INVALID_PARAMETER, result)
               else (RIOT_SUCCESS, splice result 0 (sym (exchange_key (affine_of A)) data).1)
        end, affine_of (ec_mul (wval K0) G)).
Proof.
  intros Hlk Hx Hy Hin Hl Hn. unfold RiotCrypt_EccEncrypt, public_secret. destruct K0_value as [[HKb HKv] HKr].
  pose proof N256_range as HN. rewrite (generate_value n eph (ephPriv l) (proj1 Hlk)), bind_Ok.
  generalize (affine_of (ec_mul (wval K0) G)). intros E. change (negb (RIOT_SUCCESS =? RIOT_SUCCESS)) with false.
  cbv iota. rewrite (RIOT_GenerateShareSecret_lemma Q K0 (secret l) Hx Hy HKb) by (rewrite HKv; lia).
  rewrite HKv. pose proof (peer_curve_point Q) as HQ. destruct (peer Q) as [A|]; [|reflexivity].
  cbv zeta. rewrite bind_Ok. pose proof (ec_mul_on_curve (wval K0) (Some A) HQ) as [HR _].
  generalize dependent (ec_mul (wval K0) (Some A)). intros R HR.
  destruct R as [[u v]|]; [|reflexivity]. rewrite bool_decide_eq_false_2 by discriminate.
  change (negb (RIOT_SUCCESS =? RIOT_SUCCESS)) with false. cbv iota.
  pose proof (bigval_of _ _ (arep_affine_of _ HR)) as [Hbx Hby].
  rewrite (exchange_lemma l result cap inm data _ Hlk Hbx Hby Hin Hl Hn), bind_Ok. by destruct (cap <? zlen data).
Qed.

Lemma public_secret_big Q : bigval (px (affine_of (public_secret Q))) ∧ bigval (py (affine_of (public_secret Q))).
Proof.
  unfold public_secret. pose proof (peer_curve_point Q) as HQ. destruct (peer Q) as [A|].
  - pose proof (ec_mul_on_curve (wval K0) (Some A) HQ) as [HR _].
    generalize dependent (ec_mul (wval K0) (Some A)). intros R HR. exact (bigval_of _ _ (arep_affine_of R HR)).
  - split; apply big_zero_exact.
Qed.

(** * Keys and signatures *)
Definition key_source (bs : list Z) : list Z := words_of_bytes 9 (bs ++ zeros (36 - zlen bs)).

Lemma DeriveEccKey_unfold n ctx fixed P k srcm bs lp lsz : has srcm 0 bs → zlen bs ≤ 36 →
  RiotCrypt_DeriveEccKey n ctx fixed P k srcm (zlen bs) lp lsz
  = RIOT_DeriveDsaKeyPair n ctx fixed k (key_source bs) lp lsz.
Proof.
  intros Hs Hl. unfold RiotCrypt_DeriveEccKey. change sizeof_bigval with 36.
  rewrite (proj2 (Z.ltb_ge _ _)) by lia. rewrite (rd_bytes_has srcm 0 bs Hs), bind_Ok by apply zlen_nonneg.
  rewrite wr_bytes_splice by lia. change (zlen (replicate (Z.to_nat 36) 0)) with 36.
  rewrite (proj2 (Z.leb_le _ _)), bind_Ok by lia. change (Z.to_nat BIGLEN) with 9%nat. unfold key_source.
  do 2 f_equal. unfold splice. change (ztake 0 (replicate (Z.to_nat 36) 0)) with (@nil Z).
  cbn [app]. f_equal. unfold zdrop, zeros. rewrite drop_replicate. f_equal. unfold zlen in *. lia.
Qed.

Lemma key_source_bigval bs : bytes bs → zlen bs ≤ 36 → bigval (key_source bs).
Proof.
  intros Hb Hl. unfold key_source. split; [unfold zlen; by rewrite length_words_of_bytes|].
  apply words_of_bytes_u32; [apply Forall_app; split; [done|by apply Forall_replicate]|].
  rewrite length_app. unfold zeros, zlen in *. rewrite length_replicate. lia.
Qed.

Lemma sign_digest_memory digest bs : zlen digest = 32 → bytes bs →
  splice digest 0 (Fips.sha256 bs) = Fips.sha256 bs ∧ bytes (Fips.sha256 bs) ∧ zlen (Fips.sha256 bs) = 32.
Proof.
  intros Hd Hb. pose proof (length_sha256 bs). split_and!; [apply splice_whole; lia|apply sha256_bytes|done].
Qed.

(** The digest a message is signed by, as a number. *)
Definition digest_value (bs : list Z) : Z := be_combine (Fips.sha256 bs).

Lemma Sign_unfold n digest P1 k sig datam bs key : zlen digest = 32 → bytes bs → has datam 0 bs →
  8 * zlen bs < 2 ^ 64 →
  RiotCrypt_Sign n digest P1 k sig datam (zlen bs) key
  = RIOT_DSASignDigest n (Fips.sha256 bs) key P1 k sig.
Proof.
  intros Hd Hb Hm Hl. unfold RiotCrypt_Sign.
  rewrite (RiotCrypt_Hash_lemma digest _ datam bs) by (done || lia). rewrite bind_Ok.
  by rewrite (proj1 (sign_digest_memory digest bs Hd Hb)).
Qed.

(** * Properties *)

(** C28: RiotCrypt_Kdf derives whole keys, one per counter value from 1, from
    parameters within its limits, refuses all others without touching the
    result, and always terminates. *)
Theorem RiotCrypt_Kdf_spec ctx fixedm result resultSize source key cp context lp label n :
  length (opad ctx) = 64%nat → 69 ≤ zlen fixedm → bytes key → has source 0 key → 8 * zlen key < 2 ^ 64 →
  opt_has cp context → bytes (default [] context) → opt_has lp label → bytes (default [] label) →
  resultSize ≤ zlen result → 0 ≤ n < 2 ^ 29 →
  RiotCrypt_Kdf ctx fixedm result resultSize source (zlen key) cp (zlen (default [] context))
    lp (zlen (default [] label)) n
  = Ok (if kdf_accepts resultSize (zlen (default [] context)) (zlen (default [] label)) n
        then (RIOT_SUCCESS, splice result 0 (kdf_keys (Z.to_nat (n / 32)) 0 key
               (kdf_fixed le_split context label (8 * n))))
        else (RIOT_INVALID_PARAMETER, result)).
Proof. apply RiotCrypt_Kdf_lemma. Qed.

Definition sample_ctx : RIOT_HMAC_SHA256_CTX := mkHmac sha256_clear_ctx (zeros 64).

Lemma RiotCrypt_Kdf_spec_witness :
  RiotCrypt_Kdf sample_ctx (zeros 69) (zeros 64) 64 [1; 2; 3] 3 None 0 (Some [73; 68]) 2 64
  = Ok (RIOT_SUCCESS, splice (zeros 64) 0 (kdf_keys 2 0 [1; 2; 3] (kdf_fixed le_split None (Some [73; 68]) 512))).
Proof.
  apply (RiotCrypt_Kdf_spec sample_ctx (zeros 69) (zeros 64) 64 [1; 2; 3] [1; 2; 3] None None (Some [73; 68]) (Some [73; 68]) 64);
    [done|done|by repeat constructor|apply has_self|done|done|by constructor|apply has_self|by repeat constructor|done|done].
Defined.

(** C29: a message to a public key is encrypted under a secret that depends only
    on that key, not on chance, so that what RiotCrypt_EccEncrypt writes can be
    opened without any private key; keys off the curve are refused. *)
Theorem RiotCrypt_EccEncrypt_public n l l' result cap eph data buf Q :
  locals_ok l → locals_ok l' → bigval (px Q) → bigval (py Q) → bytes data → zlen data < 2 ^ 32 →
  cap ≤ zlen result → zlen data ≤ zlen buf →
  RiotCrypt_EccEncrypt (S n) l result cap eph data (zlen data) Q
  = Ok (match public_secret Q with
        | None => (RIOT_FAILURE, result)
        | A => if cap <? zlen data then (RIOT_INVALID_PARAMETER, result)
               else (RIOT_SUCCESS, splice result 0 (sym (exchange_key (affine_of A)) data).1)
        end, affine_of (ec_mul (wval K0) G)) ∧
  (zlen data ≤ cap →
   ('(_, c) ← exchange l result cap data (zlen data) (affine_of (public_secret Q));
    exchange l' buf (zlen buf) c (zlen data) (affine_of (public_secret Q)))
   = Ok (RIOT_SUCCESS, splice buf 0 data)).
Proof.
  intros Hl Hl' Hx Hy Hd Hn Hc Hb. split.
  - by apply encrypt_lemma; [| | |apply has_self| |].
  - intros Hcap. destruct (public_secret_big Q) as [Hbx Hby].
    by apply (exchange_opens l l' result buf cap _ data Hl Hl' Hbx Hby Hd Hn).
Qed.

Definition sample_locals : exchange_locals :=
  mkExchange (repeat 0 9) affine_infinity (zeros 32) sample_ctx (zeros 69) (zeros 48).

Lemma sample_locals_ok : locals_ok sample_locals.
Proof. by split_and!. Qed.

Lemma RiotCrypt_EccEncrypt_public_witness :
  ('(_, c) ← exchange sample_locals (zeros 4) 4 [1; 2; 3] 3 (affine_of (public_secret base_point));
   exchange sample_locals (zeros 3) 3 c 3 (affine_of (public_secret base_point)))
  = Ok (RIOT_SUCCESS, splice (zeros 3) 0 [1; 2; 3]).
Proof.
  apply (RiotCrypt_EccEncrypt_public 0 sample_locals sample_locals (zeros 4) 4 affine_infinity [1; 2; 3] (zeros 3) base_point);
    [apply sample_locals_ok|apply sample_locals_ok|apply (bigval_of base_point G), base_point_rep
    |apply (bigval_of base_point G), base_point_rep|by repeat constructor|reflexivity|done|done|done].
Defined.
