(* ===== verification/Dice.v ===== *)
(** DiceCore.c: measuring the RIoT core and deriving the compound device
    identifier from the measurement and the unique device secret.

    The globals of the file are the record [dice_globals]; the pointers of
    [DICE_DATA] are options of what they point to, and a function that writes
    through one returns the new data. *)
From S2P Require Export Hmac.

Definition DICE_DIGEST_LENGTH : Z := 32.
Definition DICE_UDS_LENGTH : Z := 32.
Definition DICE_UDS_TAG : Z := 5456981.
Definition DICE_CMPND_TAG : Z := 1145655361.

Record DICE_UDS := mkUds { uds_tag : Z; uds_bytes : list Z }.
Record DICE_CMPND_ID := mkCdi { cdi_tag : Z; cdi_bytes : list Z }.
Record DICE_DATA := mkDice {
  UDS : option DICE_UDS; CDI : option DICE_CMPND_ID; riotCore : option (list Z); riotSize : Z }.

Record dice_globals := mkDiceGlobals {
  vDigest : list Z; rDigest : list Z; DiceHashCtx : RIOT_SHA256_CONTEXT; DiceData : DICE_DATA }.

(** The result and the memory of [digest]. *)
Definition _DiceMeasure (data : option (list Z)) (dataSize : Z) (digest : option (list Z)) (digestSize : Z)
    : outcome (Z * option (list Z)) :=
  match data, digest with
  | Some d, Some _ =>
    if (dataSize <? 2 * 4) || negb (digestSize =? DICE_DIGEST_LENGTH) then Ok (u32 (-1), digest) else
    digest ← DiceSHA256 d dataSize digest;
    Ok (0, digest)
  | _, _ => Ok (u32 (-1), digest)
  end.

Definition _DiceDeriveCDI (g : dice_globals) (digest : option (list Z)) (digestSize : Z)
    : outcome (Z * dice_globals) :=
  match digest with
  | None => Ok (u32 (-1), g)
  | Some _ =>
    if negb (digestSize =? DICE_DIGEST_LENGTH) then Ok (u32 (-1), g) else
    uds ← deref (UDS (DiceData g));
    v ← DiceSHA256 (uds_bytes uds) DICE_UDS_LENGTH (Some (vDigest g));
    v ← deref v;
    cdi ← deref (CDI (DiceData g));
    c ← DiceSHA256_2 v DICE_DIGEST_LENGTH (rDigest g) DICE_DIGEST_LENGTH (Some (cdi_bytes cdi));
    c ← deref c;
    let d := DiceData g in
    Ok (0, mkDiceGlobals v (rDigest g) (DiceHashCtx g)
             (mkDice (UDS d) (Some (mkCdi (cdi_tag cdi) c)) (riotCore d) (riotSize d)))
  end.

(** The loop of [_BZERO], [n] bytes left from [i] on. *)
Fixpoint bzero_loop (n : nat) (i : Z) (p : list Z) : outcome (list Z) :=
  match n with
  | O => Ok p
  | S n => p ← wr p i 0; bzero_loop n (i + 1) p
  end.

Definition _BZERO (p : list Z) (l : Z) : outcome (list Z) := bzero_loop (Z.to_nat l) 0 p.

(** [_BZERO(&DiceHashCtx, sizeof(DiceHashCtx))]. *)
Definition zero_ctx : RIOT_SHA256_CONTEXT := mkSha (replicate 8 0) 0 0 (replicate 64 0).

Definition DiceCore (g : dice_globals) (DiceDataInput : DICE_DATA) : outcome (Z * dice_globals) :=
  let g := mkDiceGlobals (vDigest g) (rDigest g) (DiceHashCtx g) DiceDataInput in
  '(rv, r) ← _DiceMeasure (riotCore DiceDataInput) (riotSize DiceDataInput) (Some (rDigest g)) DICE_DIGEST_LENGTH;
  r ← deref r;
  let g := mkDiceGlobals (vDigest g) r (DiceHashCtx g) (DiceData g) in
  if negb (rv =? 0) then Ok (-1, g) else
  '(rv, g) ← _DiceDeriveCDI g (Some (rDigest g)) DICE_DIGEST_LENGTH;
  if negb (rv =? 0) then Ok (-1, g) else
  v ← _BZERO (vDigest g) DICE_DIGEST_LENGTH;
  r ← _BZERO (rDigest g) DICE_DIGEST_LENGTH;
  Ok (0, mkDiceGlobals v r zero_ctx (DiceData g)).

(** * What is derived *)

(** The compound device identifier of a device secret and a RIoT core. *)
Definition compound_id (uds core : list Z) : list Z :=
  Fips.sha256 (Fips.sha256 uds ++ Fips.sha256 core).

Definition globals_ok (g : dice_globals) : Prop := zlen (vDigest g) = 32 ∧ zlen (rDigest g) = 32.

Lemma bzero_loop_spec n : ∀ a b, length b = n → bzero_loop n (zlen a) (a ++ b) = Ok (a ++ replicate n 0).
Proof.
  induction n as [|n IH]; intros a b Hl; destruct b as [|x b]; try done.
  cbn [bzero_loop]. rewrite wr_splice by (pose proof (zlen_nonneg a); lia).
  rewrite (proj2 (Z.leb_le _ _)) by (rewrite zlen_app, zlen_cons; pose proof (zlen_nonneg b); lia).
  rewrite bind_Ok.
  assert (splice (a ++ x :: b) (zlen a) [0] = (a ++ [0]) ++ b) as ->.
  { assert (zdrop (zlen a + 1) (a ++ x :: b) = b) as Hz.
    { replace (a ++ x :: b) with ((a ++ [x]) ++ b) by by rewrite <-app_assoc.
      apply zdrop_app_exact. by rewrite zlen_app. }
    unfold splice. change (zlen [0]) with 1. by rewrite ztake_app_exact, Hz, <-app_assoc. }
  replace (zlen a + 1) with (zlen (a ++ [0])) by by rewrite zlen_app.
  rewrite IH by (simpl in Hl; lia). by rewrite <-app_assoc.
Qed.

Lemma BZERO_lemma p : zlen p = 32 → _BZERO p 32 = Ok (zeros 32).
Proof. intros Hp. apply (bzero_loop_spec 32 [] p). unfold zlen in Hp. lia. Qed.

Lemma digest_whole d k : zlen d = 32 → splice d 0 (Fips.sha256 k) = Fips.sha256 k.
Proof.
  intros Hd. unfold splice. rewrite Z.add_0_l, zdrop_all by (rewrite length_sha256; lia).
  change (ztake 0 d) with (@nil Z). by rewrite app_nil_r.
Qed.

Lemma DiceCore_lemma g uds ud cdi core n :
  globals_ok g → uds_bytes uds = ud → zlen ud = 32 → bytes ud → zlen (cdi_bytes cdi) = 32 →
  zlen core = n → bytes core → n < 2 ^ 32 →
  DiceCore g (mkDice (Some uds) (Some cdi) (Some core) n)
  = Ok (if n <? 8 then (-1, mkDiceGlobals (vDigest g) (rDigest g) (DiceHashCtx g)
                              (mkDice (Some uds) (Some cdi) (Some core) n))
        else (0, mkDiceGlobals (zeros 32) (zeros 32) zero_ctx
                   (mkDice (Some uds) (Some (mkCdi (cdi_tag cdi) (compound_id ud core))) (Some core) n))).
Proof.
  intros [Hv Hr] Hud Hul Hub Hcl Hn Hcb Hnl. unfold DiceCore, _DiceMeasure. cbn [riotCore riotSize rDigest vDigest].
  change (2 * 4) with 8. change (negb (DICE_DIGEST_LENGTH =? DICE_DIGEST_LENGTH)) with false.
  rewrite orb_false_r. destruct (n <? 8); [reflexivity|].
  assert (∀ d k, zlen d = 32 → bytes k → zlen k < 2 ^ 32 →
    DiceSHA256 k (zlen k) (Some d) = Ok (Some (Fips.sha256 k))) as Hsha.
  { intros d k Hd Hk Hl. unfold DiceSHA256. rewrite RIOT_SHA256_Block_spec; [by rewrite digest_whole|done|apply has_self|lia|lia]. }
  rewrite <-Hn, (Hsha _ core Hr Hcb) by lia. rewrite !bind_Ok. cbn [deref]. rewrite bind_Ok.
  cbn [Z.eqb negb rDigest vDigest DiceData DiceHashCtx]. unfold _DiceDeriveCDI.
  cbn [Z.eqb negb rDigest vDigest DiceData DiceHashCtx UDS CDI deref riotCore riotSize].
  change (negb (DICE_DIGEST_LENGTH =? DICE_DIGEST_LENGTH)) with false. cbv iota. rewrite bind_Ok, Hud.
  change DICE_UDS_LENGTH with 32. rewrite <-Hul, (Hsha _ ud Hv Hub), bind_Ok by lia. cbn [deref]. rewrite !bind_Ok.
  pose proof (length_sha256 ud) as Hl1. pose proof (length_sha256 core) as Hl2.
  pose proof (DiceSHA256_2_spec (Fips.sha256 ud) (Fips.sha256 core) (Fips.sha256 ud) (Fips.sha256 core)
    (cdi_bytes cdi) (sha256_bytes _) (sha256_bytes _) (has_self _) (has_self _) ltac:(lia) ltac:(lia)) as H2.
  rewrite Hl1, Hl2 in H2. change DICE_DIGEST_LENGTH with 32. rewrite H2, bind_Ok. cbn [deref]. rewrite !bind_Ok.
  cbn [Z.eqb negb vDigest rDigest DiceData riotCore riotSize UDS CDI DiceHashCtx uds_tag cdi_tag].
  rewrite !BZERO_lemma by done. rewrite !bind_Ok. unfold compound_id. by rewrite digest_whole, Hul.
Qed.

(** DiceCore leaves SHA-256(SHA-256(UDS) || SHA-256(RIoT core)) in the
    compound device identifier and wipes its scratch digests; a core of fewer
    than eight bytes is refused with the identifier unchanged. *)
Theorem DiceCore_spec g uds ud cdi core n :
  globals_ok g → uds_bytes uds = ud → zlen ud = 32 → bytes ud → zlen (cdi_bytes cdi) = 32 →
  zlen core = n → bytes core → n < 2 ^ 32 →
  DiceCore g (mkDice (Some uds) (Some cdi) (Some core) n)
  = Ok (if n <? 8 then (-1, mkDiceGlobals (vDigest g) (rDigest g) (DiceHashCtx g)
                              (mkDice (Some uds) (Some cdi) (Some core) n))
        else (0, mkDiceGlobals (zeros 32) (zeros 32) zero_ctx
                   (mkDice (Some uds) (Some (mkCdi (cdi_tag cdi) (compound_id ud core))) (Some core) n))).
Proof. apply DiceCore_lemma. Qed.

Lemma DiceCore_spec_witness :
  DiceCore (mkDiceGlobals (zeros 32) (zeros 32) zero_ctx (mkDice None None None 0))
    (mkDice (Some (mkUds DICE_UDS_TAG (zeros 32))) (Some (mkCdi DICE_CMPND_TAG (zeros 32))) (Some (zeros 8)) 8)
  = Ok (0, mkDiceGlobals (zeros 32) (zeros 32) zero_ctx
             (mkDice (Some (mkUds DICE_UDS_TAG (zeros 32)))
                (Some (mkCdi DICE_CMPND_TAG (compound_id (zeros 32) (zeros 8)))) (Some (zeros 8)) 8)).
Proof.
  apply (DiceCore_spec (mkDiceGlobals (zeros 32) (zeros 32) zero_ctx (mkDice None None None 0))
    (mkUds DICE_UDS_TAG (zeros 32)) (zeros 32) (mkCdi DICE_CMPND_TAG (zeros 32)) (zeros 8) 8);
    [by split|reflexivity|reflexivity|by repeat constructor|reflexivity|reflexivity|by repeat constructor|done].
Defined.
