(* ===== verification/RiotCore.v ===== *)
(** RiotCore.c: from the compound device identifier to the device and alias
    keys and their certificates.

    The file's variables are the record [riot_globals]; the functions return it
    with their result. What the locals of the functions, and of those they
    call, hold on entry is the record [core_locals]. *)
From S2P Require Export RiotCrypt X509 Dice.

Definition DER_MAX_TBS : Z := 768.
Definition DER_MAX_PEM : Z := 1024.
Definition CERT_TYPE : Z := 0.
Definition PUBLICKEY_TYPE : Z := 1.
Definition ECC_PRIVATEKEY_TYPE : Z := 2.
Definition CERT_REQ_TYPE : Z := 3.

Definition RIOT_LABEL_IDENTITY : list Z := bytes_of_string "Identity" ++ [0].
Definition RIOT_LABEL_ALIAS : list Z := bytes_of_string "Alias" ++ [0].
Definition lblSize (a : list Z) : Z := zlen a - 1.

Record riot_globals := mkRiot {
  cDigest : list Z; FWID : list Z; derBuffer : list Z;
  g_DeviceIDPub : list Z; g_AliasKey : list Z; g_AKCert : list Z; g_DICert : list Z;
  g_DeviceIDPubLen : Z; g_AliasKeyLen : Z; g_AKCertLen : Z; g_DICertLen : Z;
  SelfSignedDeviceCert : bool;
  x509AliasTBSData : RIOT_X509_TBS_DATA; x509DeviceTBSData : RIOT_X509_TBS_DATA }.

Definition initial_alias_data : RIOT_X509_TBS_DATA :=
  mkTbs [10; 11; 12; 13; 14] (c_str "devkitdice") (c_str "DEVKIT_TEST") (c_str "US")
    (c_str "170101000000Z") (c_str "370101000000Z")
    (c_str "devkitriotcore") (c_str "DEVKIT_TEST") (c_str "US").
Definition initial_device_data : RIOT_X509_TBS_DATA :=
  mkTbs [14; 13; 12; 11; 10] (c_str "devkitdice") (c_str "DEVKIT_TEST") (c_str "US")
    (c_str "170101000000Z") (c_str "370101000000Z")
    (c_str "devkitdice") (c_str "DEVKIT_TEST") (c_str "US").

(** The variables before main. *)
Definition initial_globals : riot_globals :=
  mkRiot (zeros 33) (zeros 33) (zeros 768) (zeros 1024) (zeros 1024) (zeros 1024) (zeros 1024)
    0 0 0 0 true initial_alias_data initial_device_data.

Section updates.
Context (g : riot_globals).
Definition set_cDigest (v : list Z) : riot_globals :=
  mkRiot v (FWID g) (derBuffer g) (g_DeviceIDPub g) (g_AliasKey g) (g_AKCert g) (g_DICert g)
    (g_DeviceIDPubLen g) (g_AliasKeyLen g) (g_AKCertLen g) (g_DICertLen g)
    (SelfSignedDeviceCert g) (x509AliasTBSData g) (x509DeviceTBSData g).
Definition set_FWID (v : list Z) : riot_globals :=
  mkRiot (cDigest g) v (derBuffer g) (g_DeviceIDPub g) (g_AliasKey g) (g_AKCert g) (g_DICert g)
    (g_DeviceIDPubLen g) (g_AliasKeyLen g) (g_AKCertLen g) (g_DICertLen g)
    (SelfSignedDeviceCert g) (x509AliasTBSData g) (x509DeviceTBSData g).
Definition set_derBuffer (v : list Z) : riot_globals :=
  mkRiot (cDigest g) (FWID g) v (g_DeviceIDPub g) (g_AliasKey g) (g_AKCert g) (g_DICert g)
    (g_DeviceIDPubLen g) (g_AliasKeyLen g) (g_AKCertLen g) (g_DICertLen g)
    (SelfSignedDeviceCert g) (x509AliasTBSData g) (x509DeviceTBSData g).
Definition set_DeviceIDPub (v : list Z) (n : Z) : riot_globals :=
  mkRiot (cDigest g) (FWID g) (derBuffer g) v (g_AliasKey g) (g_AKCert g) (g_DICert g)
    n (g_AliasKeyLen g) (g_AKCertLen g) (g_DICertLen g)
    (SelfSignedDeviceCert g) (x509AliasTBSData g) (x509DeviceTBSData g).
Definition set_AliasKey (v : list Z) (n : Z) : riot_globals :=
  mkRiot (cDigest g) (FWID g) (derBuffer g) (g_DeviceIDPub g) v (g_AKCert g) (g_DICert g)
    (g_DeviceIDPubLen g) n (g_AKCertLen g) (g_DICertLen g)
    (SelfSignedDeviceCert g) (x509AliasTBSData g) (x509DeviceTBSData g).
Definition set_AKCert (v : list Z) (n : Z) : riot_globals :=
  mkRiot (cDigest g) (FWID g) (derBuffer g) (g_DeviceIDPub g) (g_AliasKey g) v (g_DICert g)
    (g_DeviceIDPubLen g) (g_AliasKeyLen g) n (g_DICertLen g)
    (SelfSignedDeviceCert g) (x509AliasTBSData g) (x509DeviceTBSData g).
Definition set_DICert (v : list Z) (n : Z) : riot_globals :=
  mkRiot (cDigest g) (FWID g) (derBuffer g) (g_DeviceIDPub g) (g_AliasKey g) (g_AKCert g) v
    (g_DeviceIDPubLen g) (g_AliasKeyLen g) (g_AKCertLen g) n
    (SelfSignedDeviceCert g) (x509AliasTBSData g) (x509DeviceTBSData g).
(** [x509AliasTBSData.SubjectCommon = v]. *)
Definition set_SubjectCommon (v : list Z) : riot_globals :=
  let d := x509AliasTBSData g in
  mkRiot (cDigest g) (FWID g) (derBuffer g) (g_DeviceIDPub g) (g_AliasKey g) (g_AKCert g) (g_DICert g)
    (g_DeviceIDPubLen g) (g_AliasKeyLen g) (g_AKCertLen g) (g_DICertLen g) (SelfSignedDeviceCert g)
    (mkTbs (SerialNum d) (IssuerCommon d) (IssuerOrg d) (IssuerCountry d) (ValidFrom d) (ValidTo d)
       v (SubjectOrg d) (SubjectCountry d))
    (x509DeviceTBSData g).
End updates.

(** The accessors return the buffer and store its length. *)
Definition RIoTGetDeviceID (g : riot_globals) (len : option Z) : list Z * option Z :=
  (g_DeviceIDPub g, (λ _, g_DeviceIDPubLen g) <$> len).
Definition RIoTGetAliasKey (g : riot_globals) (len : option Z) : list Z * option Z :=
  (g_AliasKey g, (λ _, g_AliasKeyLen g) <$> len).
Definition RIoTGetAliasCert (g : riot_globals) (len : option Z) : list Z * option Z :=
  (g_AKCert g, (λ _, g_AKCertLen g) <$> len).
Definition RIoTGetDeviceCert (g : riot_globals) (len : option Z) : list Z * option Z :=
  (g_DICert g, (λ _, g_DICertLen g) <$> len).

(** The four keys, the locals of RiotStart. *)
Record core_keys := mkKeys {
  deviceIDPub : affine_point; deviceIDPriv : list Z; aliasKeyPub : affine_point; aliasKeyPriv : list Z }.

Record core_locals := mkCore {
  keys0 : core_keys; tbsSig0 : ECDSA_sig;
  hmac0 : RIOT_HMAC_SHA256_CTX; fixed0 : list Z;
  digest0 : list Z; point0 : affine_point; nonce0 : list Z;
  enc65 : list Z; enc32 : list Z }.

Section riot_core.
Context (long_size fuel : nat) (l : core_locals).

(** Keys from the identifier and the firmware. *)
Definition derive_keys (g : riot_globals) (CDI : list Z) (CDILen : Z) (riotFw : list Z) (riotFwSize : Z)
    : outcome (Z * riot_globals * core_keys) :=
  let k := keys0 l in
  '(status, c) ← RiotCrypt_Hash (cDigest g) RIOT_DIGEST_LENGTH CDI CDILen;
  let g := set_cDigest g c in
  if negb (status =? RIOT_SUCCESS) then Ok (status, g, k) else
  '(status, pub, priv) ← RiotCrypt_DeriveEccKey fuel (hmac0 l) (fixed0 l) (deviceIDPub k) (deviceIDPriv k)
      (cDigest g) RIOT_DIGEST_LENGTH (Some RIOT_LABEL_IDENTITY) (lblSize RIOT_LABEL_IDENTITY);
  let k := mkKeys pub priv (aliasKeyPub k) (aliasKeyPriv k) in
  if negb (status =? RIOT_SUCCESS) then Ok (status, g, k) else
  '(status, f) ← RiotCrypt_Hash (FWID g) RIOT_DIGEST_LENGTH riotFw riotFwSize;
  let g := set_FWID g f in
  if negb (status =? RIOT_SUCCESS) then Ok (status, g, k) else
  f ← wr (FWID g) RIOT_DIGEST_LENGTH 0;
  let g := set_FWID g f in
  '(status, c) ← RiotCrypt_Hash2 (cDigest g) RIOT_DIGEST_LENGTH (cDigest g) RIOT_DIGEST_LENGTH
      (FWID g) RIOT_DIGEST_LENGTH;
  let g := set_cDigest g c in
  if negb (status =? RIOT_SUCCESS) then Ok (status, g, k) else
  c ← wr (cDigest g) RIOT_DIGEST_LENGTH 0;
  let g := set_cDigest g c in
  '(status, pub, priv) ← RiotCrypt_DeriveEccKey fuel (hmac0 l) (fixed0 l) (aliasKeyPub k) (aliasKeyPriv k)
      (cDigest g) RIOT_DIGEST_LENGTH (Some RIOT_LABEL_ALIAS) (lblSize RIOT_LABEL_ALIAS);
  let k := mkKeys (deviceIDPub k) (deviceIDPriv k) pub priv in
  if negb (status =? RIOT_SUCCESS) then Ok (status, g, k) else
  c ← wr_bytes (cDigest g) 0 (replicate (Z.to_nat RIOT_DIGEST_LENGTH) 0);
  Ok (RIOT_SUCCESS, set_cDigest g c, k).

(** [length = sizeof(pem); DERtoPEM(&ctx, type, pem, &length)] and
    [pem[length] = 0]: the status, the text's memory and its length. *)
Definition to_pem (ctx : DERBuilderContext) (type : Z) (pem : list Z) : outcome (Z * list Z * Z) :=
  '(status, p, n) ← DERtoPEM (Some ctx) type (Some pem) (Some DER_MAX_PEM);
  p ← deref p;
  n ← deref n;
  if negb (status =? 0) then Ok (status, p, n) else
  p ← wr p n 0;
  Ok (status, p, n).

Definition alias_certificate (g : riot_globals) (k : core_keys) : outcome (Z * riot_globals * ECDSA_sig) :=
  derCtx ← DERInitContext (derBuffer g) DER_MAX_TBS;
  '(status, derCtx) ← X509GetAliasCertTBS long_size (enc65 l) (x509AliasTBSData g) (aliasKeyPub k)
      (deviceIDPub k) (FWID g) RIOT_DIGEST_LENGTH derCtx;
  let g := set_derBuffer g (Buffer derCtx) in
  if negb (status =? 0) then Ok (status, g, tbsSig0 l) else
  '(status, tbsSig) ← RiotCrypt_Sign fuel (digest0 l) (point0 l) (nonce0 l) (tbsSig0 l) (Buffer derCtx)
      (Position derCtx) (deviceIDPriv k);
  if negb (status =? RIOT_SUCCESS) then Ok (status, g, tbsSig) else
  '(status, derCtx) ← X509MakeAliasCert (enc32 l) tbsSig derCtx;
  let g := set_derBuffer g (Buffer derCtx) in
  if negb (status =? 0) then Ok (status, g, tbsSig) else
  '(status, p, n) ← to_pem derCtx CERT_TYPE (g_AKCert g);
  if negb (status =? 0) then Ok (status, set_AKCert g p (g_AKCertLen g), tbsSig) else
  Ok (0, set_FWID (set_AKCert g p n) (replicate (length (FWID g)) 0), tbsSig).

Definition device_id_public (g : riot_globals) (k : core_keys) : outcome (Z * riot_globals) :=
  derCtx ← DERInitContext (derBuffer g) DER_MAX_TBS;
  '(status, derCtx) ← X509GetDEREccPub (enc65 l) (deviceIDPub k) derCtx;
  let g := set_derBuffer g (Buffer derCtx) in
  if negb (status =? 0) then Ok (status, g) else
  '(status, p, n) ← to_pem derCtx PUBLICKEY_TYPE (g_DeviceIDPub g);
  if negb (status =? 0) then Ok (status, set_DeviceIDPub g p (g_DeviceIDPubLen g)) else
  Ok (0, set_DeviceIDPub g p n).

Definition alias_key_pair (g : riot_globals) (k : core_keys) : outcome (Z * riot_globals) :=
  derCtx ← DERInitContext (derBuffer g) DER_MAX_TBS;
  '(status, derCtx) ← X509GetDEREcc long_size (enc65 l) (aliasKeyPub k) (aliasKeyPriv k) derCtx;
  let g := set_derBuffer g (Buffer derCtx) in
  if negb (status =? 0) then Ok (status, g) else
  '(status, p, n) ← to_pem derCtx ECC_PRIVATEKEY_TYPE (g_AliasKey g);
  if negb (status =? 0) then Ok (status, set_AliasKey g p (g_AliasKeyLen g)) else
  Ok (0, set_AliasKey g p n).

(** The certificate, or the request when it is not self-signed. *)
Definition device_certificate (g : riot_globals) (k : core_keys) (tbsSig : ECDSA_sig)
    : outcome (Z * riot_globals) :=
  derCtx ← DERInitContext (derBuffer g) DER_MAX_TBS;
  '(status, derCtx) ←
    (if SelfSignedDeviceCert g
     then X509GetDeviceCertTBS long_size (enc65 l) (x509DeviceTBSData g) (deviceIDPub k) derCtx
     else X509GetDERCsrTbs long_size (enc65 l) (x509AliasTBSData g) (deviceIDPub k) derCtx);
  let g := set_derBuffer g (Buffer derCtx) in
  if negb (status =? 0) then Ok (status, g) else
  '(status, tbsSig) ← RiotCrypt_Sign fuel (digest0 l) (point0 l) (nonce0 l) tbsSig (Buffer derCtx)
      (Position derCtx) (deviceIDPriv k);
  if negb (status =? RIOT_SUCCESS) then Ok (status, g) else
  '(status, derCtx) ←
    (if SelfSignedDeviceCert g then X509MakeDeviceCert (enc32 l) tbsSig derCtx
     else X509GetDERCsr (enc32 l) tbsSig derCtx);
  let g := set_derBuffer g (Buffer derCtx) in
  if negb (status =? 0) then Ok (status, g) else
  let dcType := if SelfSignedDeviceCert g then CERT_TYPE else CERT_REQ_TYPE in
  '(status, p, n) ← to_pem derCtx dcType (g_DICert g);
  if negb (status =? 0) then Ok (status, set_DICert g p (g_DICertLen g)) else
  Ok (0, set_DICert g p n).

Definition RiotStart (g : riot_globals) (CDI : option (list Z)) (CDILen : Z) (RegistrationId riotFw : list Z)
    (riotFwSize : Z) : outcome (Z * riot_globals) :=
  let g := set_SubjectCommon g RegistrationId in
  match CDI with
  | None => Ok (RIOT_INVALID_PARAMETER, g)
  | Some cdi =>
    if negb (CDILen =? RIOT_DIGEST_LENGTH) then Ok (RIOT_INVALID_PARAMETER, g) else
    '(status, g, k) ← derive_keys g cdi CDILen riotFw riotFwSize;
    if negb (status =? RIOT_SUCCESS) then Ok (status, g) else
    '(status, g, tbsSig) ← alias_certificate g k;
    if negb (status =? 0) then Ok (status, g) else
    '(status, g) ← device_id_public g k;
    if negb (status =? 0) then Ok (status, g) else
    '(status, g) ← alias_key_pair g k;
    if negb (status =? 0) then Ok (status, g) else
    '(status, g) ← device_certificate g k tbsSig;
    if negb (status =? 0) then Ok (status, g) else
    Ok (0, g)
  end.
End riot_core.

(** * Sizes of the certificates *)

(** One tree is at most as long as another of the same shape. *)
Inductive shape_le : asn1 → asn1 → Prop :=
| shape_refl t : shape_le t t
| shape_utf8 s s' : zlen s ≤ zlen s' → shape_le (Utf8String s) (Utf8String s')
| shape_utc s s' : zlen s ≤ zlen s' → shape_le (UTCTime s) (UTCTime s')
| shape_int b b' : zlen (int_bytes b) ≤ zlen (int_bytes b') → shape_le (IntegerBytes b) (IntegerBytes b')
| shape_bits b b' : zlen b ≤ zlen b' → shape_le (BitString b) (BitString b')
| shape_octets b b' : zlen b ≤ zlen b' → shape_le (OctetString b) (OctetString b')
| shape_nested k t t' l l' : shape_le t t' → shape_le (Nested k l) (Nested k l') →
    shape_le (Nested k (t :: l)) (Nested k (t' :: l')).

Lemma zlen_tlv_le a b c d : zlen (tlv a c) ≤ zlen (tlv b d) ↔ zlen c ≤ zlen d.
Proof.
  rewrite !zlen_tlv. unfold der_len. repeat case_match; rewrite ?Z.ltb_lt, ?Z.ltb_ge in *; unfold zlen in *; cbn [length] in *; lia.
Qed.

Lemma shape_le_encode t t' : shape_le t t' → zlen (encode t) ≤ zlen (encode t').
Proof.
  induction 1 as [| | | |b b' H|b b' H|k t t' l l' _ IHt _ IHl]; [done| | | | | |]; cbn [encode] in *;
    apply zlen_tlv_le; rewrite ?zlen_cons; try lia.
  apply zlen_tlv_le in IHl. rewrite !fmap_cons. cbn [concat]. rewrite !zlen_app in *. lia.
Qed.

Lemma int_bytes_le bs : zlen (int_bytes bs) ≤ zlen bs + 1.
Proof. induction bs as [|b bs IH]; cbn [int_bytes]; [done|]. repeat case_match; zlen_lia. Qed.

(** The longest values of each field. *)
Definition big_key : affine_point := mkPoint (repeat 0 9) (repeat 0 9) 0.
Definition big_sig : ECDSA_sig := mkSig (repeat 4294967295 9) (repeat 4294967295 9).

Definition alias_data (reg : list Z) : RIOT_X509_TBS_DATA :=
  mkTbs [10; 11; 12; 13; 14] (bytes_of_string "devkitdice") (bytes_of_string "DEVKIT_TEST")
    (bytes_of_string "US") (bytes_of_string "170101000000Z") (bytes_of_string "370101000000Z")
    reg (bytes_of_string "DEVKIT_TEST") (bytes_of_string "US").

Definition device_data : RIOT_X509_TBS_DATA :=
  mkTbs [14; 13; 12; 11; 10] (bytes_of_string "devkitdice") (bytes_of_string "DEVKIT_TEST")
    (bytes_of_string "US") (bytes_of_string "170101000000Z") (bytes_of_string "370101000000Z")
    (bytes_of_string "devkitdice") (bytes_of_string "DEVKIT_TEST") (bytes_of_string "US").

Lemma shape_signature sig : bigval (sig_r sig) → bigval (sig_s sig) →
  shape_le (X509.signature sig) (X509.signature big_sig).
Proof.
  intros Hr Hs. assert (∀ v, bigval v → zlen (int_bytes (big_bytes v)) ≤ 33) as Hb.
  { intros v Hv. pose proof (int_bytes_le (big_bytes v)). rewrite zlen_big_bytes in * by done. lia. }
  unfold X509.signature. repeat (apply shape_nested || apply shape_refl); apply shape_int;
    (etrans; [by apply Hb|vm_compute; done]).
Qed.

Lemma shape_key p : point_ok p → shape_le (public_key (ecc_point p)) (public_key (ecc_point big_key)).
Proof.
  intros Hp. unfold public_key. repeat (apply shape_nested || apply shape_refl). apply shape_bits.
  by rewrite zlen_ecc_point.
Qed.


Lemma zlen_alias_cert reg k d fwid sig : zlen reg < 127 → point_ok k → point_ok d → zlen fwid = 32 →
  bigval (sig_r sig) → bigval (sig_s sig) →
  zlen (encode (signed (alias_tbs (alias_data reg) k d fwid) sig)) ≤ 683.
Proof.
  intros Hr Hk Hd Hf Hs1 Hs2.
  trans (zlen (encode (signed (alias_tbs (alias_data (repeat 0 126)) big_key big_key (repeat 0 32)) big_sig)));
    [|vm_compute; done].
  apply shape_le_encode. unfold signed, alias_tbs, certificate_head, x501_name, attribute, riot_extensions. cbn [app].
  repeat first [by apply shape_signature|by apply shape_key|apply shape_nested|apply shape_refl].
  - apply shape_utf8. change (zlen (SubjectCommon _)) with 126 at 2. cbn [SubjectCommon alias_data]. lia.
  - apply shape_octets. by rewrite Hf.
Qed.

Lemma zlen_device_cert k sig : point_ok k → bigval (sig_r sig) → bigval (sig_s sig) →
  zlen (encode (signed (device_tbs device_data k) sig)) ≤ 383.
Proof.
  intros Hk Hs1 Hs2. trans (zlen (encode (signed (device_tbs device_data big_key) big_sig))); [|vm_compute; done].
  apply shape_le_encode. unfold signed, device_tbs, certificate_head. cbn [app].
  repeat first [by apply shape_signature|by apply shape_key|apply shape_nested|apply shape_refl].
Qed.

Lemma zlen_pem ty der : zlen der < 2 ^ 30 → zlen (pem_text ty der) ≤ 71 + (zlen der + 2) / 3 * 4.
Proof.
  intros Hl. pose proof (pem_sizes ty). unfold pem_text. rewrite !zlen_app, zlen_b64. change (zlen [10]) with 1. lia.
Qed.

(** * Encodings are bytes *)
Fixpoint leaf_bytes (t : asn1) : Prop :=
  match t with
  | Oid vs => bytes (oid_bytes vs)
  | Utf8String s | PrintableString s | UTCTime s => bytes s
  | IntegerBytes bs | BitString bs | OctetString bs => bytes bs
  | Boolean _ => True
  | Nested k l => is_u8 (nesting_tag k) ∧ foldr and True (leaf_bytes <$> l)
  end.

Lemma tlv_bytes tag c : is_u8 tag → bytes c → zlen (tlv tag c) < 65536 → bytes (tlv tag c).
Proof.
  intros Ht Hc Hl. rewrite zlen_tlv in Hl. unfold tlv. apply Forall_cons. split; [done|]. apply Forall_app.
  split; [|done]. pose proof (zlen_nonneg c). pose proof (zlen_der_len (zlen c)). unfold der_len.
  repeat case_match; rewrite ?Z.ltb_lt, ?Z.ltb_ge in *; repeat constructor; dlia.
Qed.

Lemma int_bytes_bytes bs : bytes bs → bytes (int_bytes bs).
Proof.
  induction 1 as [|b bs Hb Hbs IH]; cbn [int_bytes]; [by repeat constructor|].
  repeat case_match; [done|by repeat (apply Forall_cons; split)|by repeat (apply Forall_cons; split)].
Qed.

Lemma leaf_encode_bytes t : leaf_bytes t → zlen (encode t) < 65536 → bytes (encode t).
Proof.
  induction t as [t Ht|k l IH] using asn1_tree_ind; intros Hb Hl.
  - destruct t; try done; cbn [encode leaf_bytes] in *; (apply tlv_bytes; [done| |done]); try done;
      try (by apply int_bytes_bytes); try (by apply Forall_cons; split; [done|]).
    destruct b; by repeat constructor.
  - cbn [encode leaf_bytes] in *. destruct Hb as [Hk Hb]. apply tlv_bytes; [done| |done].
    apply Forall_app. split; [destruct k; by repeat constructor|]. rewrite zlen_tlv in Hl.
    pose proof (zlen_app (nesting_prefix k) (concat (encode <$> l))).
    pose proof (zlen_nonneg (nesting_prefix k)). pose proof (zlen_der_len (zlen (nesting_prefix k ++ concat (encode <$> l)))).
    assert (zlen (concat (encode <$> l)) < 65536) as Hc by lia. clear -IH Hb Hc.
    induction IH as [|t l Ht _ IHl]; [by constructor|]. rewrite fmap_cons in *. cbn [concat] in *.
    rewrite zlen_app in Hc. pose proof (zlen_nonneg (encode t)). pose proof (zlen_nonneg (concat (encode <$> l))).
    destruct Hb as [Hb1 Hb2]. apply Forall_app. split; [apply Ht|apply IHl]; done || lia.
Qed.

Lemma point_leaf p : bytes (ecc_point p).
Proof.
  unfold ecc_point. apply Forall_cons. split; [done|]. apply Forall_app. split; apply big_bytes_bytes.
Qed.

Lemma leaf_signed tbs sig : leaf_bytes tbs → leaf_bytes (signed tbs sig).
Proof.
  intros H. unfold signed, X509.signature, algorithm. cbn [leaf_bytes fmap list_fmap foldr].
  repeat split; try done; try (by repeat constructor); apply big_bytes_bytes.
Qed.

Lemma leaf_alias reg k d fwid : bytes reg → bytes fwid → leaf_bytes (alias_tbs (alias_data reg) k d fwid).
Proof.
  intros Hr Hf. unfold alias_tbs, certificate_head, x501_name, attribute, riot_extensions, public_key, validity.
  cbn [leaf_bytes fmap list_fmap foldr app alias_data SubjectCommon].
  repeat split; try done; try apply point_leaf; by repeat constructor.
Qed.

Lemma leaf_device k : leaf_bytes (device_tbs device_data k).
Proof.
  unfold device_tbs, certificate_head, x501_name, attribute, ca_extensions, public_key, validity.
  cbn [leaf_bytes fmap list_fmap foldr app device_data].
  repeat split; try done; try apply point_leaf; by repeat constructor.
Qed.

Lemma leaf_keys p d : leaf_bytes (public_key (ecc_point p)) ∧ leaf_bytes (private_key p d).
Proof.
  unfold public_key, private_key. cbn [leaf_bytes fmap list_fmap foldr].
  repeat split; try done; try apply point_leaf; try apply big_bytes_bytes; by repeat constructor.
Qed.

(** * Signatures and keys fit the certificate *)
Lemma le_split_zero n : ∀ x, 0 ≤ x < 256 ^ Z.of_nat n → Forall (λ b, b = 0) (le_split n x) → x = 0.
Proof.
  induction n as [|n IH]; intros x Hx H; [cbn in Hx; lia|]. cbn [le_split] in H.
  apply Forall_cons in H as [H0 H]. rewrite Nat2Z.inj_succ, Z.pow_succ_r in Hx by lia.
  apply IH in H; unfold u8 in *; rewrite ?Z.shiftr_div_pow2 in * by lia; dlia.
Qed.

Lemma wval_zeros v : Forall (λ w, w = 0) v → wval v = 0.
Proof. induction 1 as [|w v -> _ IH]; [done|]. cbn [wval]. lia. Qed.

Lemma big_bytes_zero v : bigval v → Forall (λ b, b = 0) (big_bytes v) → wval (take 8 v) = 0.
Proof.
  intros [_ Hv] H. apply wval_zeros. unfold big_bytes in H. apply Forall_concat in H.
  apply Forall_forall. intros w Hw. assert (is_u32 w) as Hu.
  { apply (Forall_take _ 8) in Hv. by eapply Forall_forall in Hv. }
  rewrite Forall_fmap in H. eapply Forall_forall in H; [|by apply elem_of_reverse].
  apply (le_split_zero 4); [exact Hu|]. cbv beta in H. unfold compose, be_split in H. by apply Forall_reverse in H.
Qed.

Lemma take_digits n m x : (n ≤ m)%nat → take n (digits m x) = digits n x.
Proof.
  revert m x. induction n as [|n IH]; intros m x Hm; [done|]. destruct m as [|m]; [lia|]. cbn [digits take].
  by rewrite IH by lia.
Qed.

Lemma words_fit x : 0 < x < N256 → der_fits (words_of x).
Proof.
  intros Hx. pose proof N256_range as HN. destruct (words_of_exact x ltac:(lia)) as [Hb Hs].
  split; [exact Hb|]. intros Hz. apply big_bytes_zero in Hz; [|exact Hb].
  destruct (wval_digits_of 8 x) as (Hl & _ & Hw); [change (B ^ Z.of_nat 8) with (2 ^ 256); lia|].
  unfold words_of in Hz. rewrite take_digits in Hz by lia. lia.
Qed.

Lemma ecdsa_sig_fits z d : 0 < nonce_x < N256 → 0 < sign_s z d < N256 →
  der_fits (sig_r (ecdsa_sig z d)) ∧ der_fits (sig_s (ecdsa_sig z d)).
Proof. intros Hx Hs. split; apply words_fit; assumption. Qed.

Lemma affine_point_ok A : EccSpec.valid A → point_ok (affine_of A).
Proof. intros HA. exact (bigval_of _ _ (arep_affine_of A HA)). Qed.

Lemma public_point_ok k : point_ok (affine_of (ec_mul k G)).
Proof. apply affine_point_ok. exact (proj1 (ec_mul_on_curve k G G_on_curve)). Qed.

(** * What RiotStart is to compute *)
Section core_spec.
Context (cdi fw reg : list Z).

Definition core_id : list Z := Fips.sha256 cdi.
Definition fw_id : list Z := Fips.sha256 fw.
Definition alias_seed : list Z := Fips.sha256 (core_id ++ fw_id).

(** The device key depends on the identifier, the alias key on the firmware too. *)
Definition device_priv : list Z := derived (key_source core_id) (Some (bytes_of_string "Identity")).
Definition alias_priv : list Z := derived (key_source alias_seed) (Some (bytes_of_string "Alias")).
Definition device_pub : affine_point := affine_of (ec_mul (wval device_priv) G).
Definition alias_pub : affine_point := affine_of (ec_mul (wval alias_priv) G).

Definition alias_body : asn1 := alias_tbs (alias_data reg) alias_pub device_pub fw_id.
Definition device_body : asn1 := device_tbs device_data device_pub.

Definition core_sig (t : asn1) : ECDSA_sig := ecdsa_sig (digest_value (encode t)) (wval device_priv).
Definition can_sign (t : asn1) : Prop := ¬ unsignable (digest_value (encode t)) (wval device_priv).

(** The text of a certificate, a public key, a key pair and its terminator. *)
Definition alias_cert_pem : list Z := pem_text CERT_TYPE (encode (signed alias_body (core_sig alias_body))).
Definition device_cert_pem : list Z := pem_text CERT_TYPE (encode (signed device_body (core_sig device_body))).
Definition device_pub_pem : list Z := pem_text PUBLICKEY_TYPE (encode (public_key (ecc_point device_pub))).
Definition alias_key_pem : list Z :=
  pem_text ECC_PRIVATEKEY_TYPE (encode (private_key alias_pub alias_priv)).

Definition all_keys : core_keys := mkKeys device_pub device_priv alias_pub alias_priv.
End core_spec.

Definition core_locals_ok (l : core_locals) : Prop :=
  length (opad (hmac0 l)) = 64%nat ∧ 37 ≤ zlen (fixed0 l) ∧ length (deviceIDPriv (keys0 l)) = 9%nat ∧
  length (aliasKeyPriv (keys0 l)) = 9%nat ∧ zlen (digest0 l) = 32 ∧ length (nonce0 l) = 9%nat ∧
  zlen (enc65 l) = 65 ∧ zlen (enc32 l) = 32.

Lemma derive_cases ctx k src lp label fixed :
  bigval src → length (opad ctx) = 64%nat → opt_has lp label → bytes (default [] label) →
  37 ≤ zlen fixed → length k = 9%nat →
  let d := derived src (take 32 <$> label) in
  (0 < wval d < N256 ∧ ∀ n, RIOT_DeriveDsaKeyPair (S n) ctx fixed k src lp (zlen (default [] label))
     = Ok (RIOT_SUCCESS, affine_of (ec_mul (wval d) G), d)) ∨
  (¬ 0 < wval d < N256 ∧
   ∀ n, RIOT_DeriveDsaKeyPair n ctx fixed k src lp (zlen (default [] label)) = Ub OutOfFuel).
Proof.
  intros Hs Ho Hl Hlb Hf Hk d.
  destruct (ECDH_derive_lemma ctx k src lp label fixed Hs Ho Hl Hlb Hf Hk) as [[H _]|[H _]].
  - left. split; [exact H|]. intros n. exact (derive_key ctx k src lp label fixed n Hs Ho Hl Hlb Hf Hk H).
  - right. split; [exact H|]. intros n. exact (derive_loops ctx k src lp label fixed n Hs Ho Hl Hlb Hf Hk H).
Qed.

Lemma sign_cases m digest d P1 k sig : bytes digest → zlen digest = 32 → has m 0 digest →
  bigval d → length k = 9%nat → let z := be_combine digest in
  (¬ unsignable z (sval d) ∧ (0 < nonce_x < N256 ∧ 0 < sign_s z (sval d) < N256) ∧
   ∀ n, RIOT_DSASignDigest (S n) m d P1 k sig = Ok (RIOT_SUCCESS, ecdsa_sig z (sval d))) ∨
  (unsignable z (sval d) ∧ ∀ n, RIOT_DSASignDigest n m d P1 k sig = Ub OutOfFuel).
Proof.
  intros Hb Hl Hm Hd Hk z.
  destruct (RIOT_DSASignDigest_lemma m digest d P1 k sig Hb Hl Hm Hd Hk) as [[H _]|[H _]].
  - right. split; [exact H|]. intros n. exact (sign_loops n m digest d P1 k sig Hb Hl Hm Hd Hk H).
  - left. pose proof (λ n, sign_value n m digest d P1 k sig Hb Hl Hm Hd Hk H) as Hv. cbv zeta in Hv.
    split; [exact H|]. split; [exact (proj2 (Hv 0%nat))|]. intros n. exact (proj1 (Hv n)).
Qed.

(** The key of a 32-byte seed in memory. *)
Lemma seed_key ctx fixed P k srcm seed label labels : length (opad ctx) = 64%nat → 37 ≤ zlen fixed →
  length k = 9%nat → bytes seed → zlen seed = 32 → has srcm 0 seed →
  bytes label → zlen label ≤ 32 → labels = label ++ [0] → let d := derived (key_source seed) (Some label) in
  (0 < wval d < N256 ∧ ∀ n, RiotCrypt_DeriveEccKey (S n) ctx fixed P k srcm RIOT_DIGEST_LENGTH (Some labels) (lblSize labels)
     = Ok (RIOT_SUCCESS, affine_of (ec_mul (wval d) G), d)) ∨
  (¬ 0 < wval d < N256 ∧
   ∀ n, RiotCrypt_DeriveEccKey n ctx fixed P k srcm RIOT_DIGEST_LENGTH (Some labels) (lblSize labels) = Ub OutOfFuel).
Proof.
  intros Ho Hf Hk Hsb Hsl Hm Hlb Hll -> d. unfold lblSize. rewrite zlen_app. change (zlen [0]) with 1.
  replace (zlen label + 1 - 1) with (zlen (default [] (Some label))) by (change (default [] (Some label)) with label; lia).
  assert (∀ n, RiotCrypt_DeriveEccKey n ctx fixed P k srcm RIOT_DIGEST_LENGTH (Some (label ++ [0])) (zlen (default [] (Some label)))
    = RIOT_DeriveDsaKeyPair n ctx fixed k (key_source seed) (Some (label ++ [0])) (zlen (default [] (Some label)))) as He.
  { intros n. change RIOT_DIGEST_LENGTH with 32. rewrite <-Hsl. apply DeriveEccKey_unfold; [exact Hm|lia]. }
  pose proof (derive_cases ctx k (key_source seed) (Some (label ++ [0])) (Some label) fixed
    (key_source_bigval seed Hsb ltac:(lia)) Ho (has_whole label [0]) Hlb Hf Hk) as H. cbv zeta in H.
  assert (take 32 <$> Some label = Some label) as Ht.
  { cbn [fmap option_fmap option_map]. f_equal. apply take_ge. unfold zlen in Hll. lia. }
  rewrite Ht in H. fold d in H. destruct H as [[H1 H2]|[H1 H2]]; [left|right]; (split; [exact H1|]); intros n;
    rewrite He; exact (H2 n).
Qed.

(** Both derived keys are private keys. *)
Definition keys_in_range (cdi fw : list Z) : Prop :=
  0 < wval (device_priv cdi) < N256 ∧ 0 < wval (alias_priv cdi fw) < N256.

Lemma splice_33 (m h : list Z) : zlen m = 33 → zlen h = 32 → ∃ x, splice m 0 h = h ++ [x].
Proof.
  intros Hm Hh. unfold splice. change (ztake 0 m) with (@nil Z). rewrite Z.add_0_l, Hh. cbn [app].
  assert (zlen (zdrop 32 m) = 1) as Hz by (rewrite zlen_drop; lia).
  destruct (zdrop 32 m) as [|x [|y t]]; unfold zlen in Hz; cbn in Hz; try lia. by exists x.
Qed.

Lemma wr_33 (h : list Z) x : zlen h = 32 → wr (h ++ [x]) 32 0 = Ok (h ++ [0]).
Proof.
  intros Hh. rewrite wr_splice, (proj2 (Z.leb_le _ _)) by (rewrite ?zlen_app, ?Hh; done). f_equal. unfold splice.
  rewrite ztake_app_exact by done. change (zlen [0]) with 1.
  rewrite zdrop_all by (rewrite zlen_app, Hh; done). by rewrite app_nil_r.
Qed.

Lemma zero_33 (h : list Z) : zlen h = 32 → wr_bytes (h ++ [0]) 0 (replicate (Z.to_nat RIOT_DIGEST_LENGTH) 0) = Ok (zeros 33).
Proof.
  intros Hh. change (replicate (Z.to_nat RIOT_DIGEST_LENGTH) 0) with (zeros 32).
  rewrite wr_bytes_splice by lia. rewrite (proj2 (Z.leb_le _ _)) by (rewrite zlen_app, Hh; done).
  f_equal. unfold splice. change (ztake 0 (h ++ [0])) with (@nil Z). change (zlen (zeros 32)) with 32.
  rewrite Z.add_0_l, zdrop_app_exact by done. done.
Qed.

Lemma derive_keys_lemma l g cdim cdi fwm fw : core_locals_ok l → zlen (cDigest g) = 33 → zlen (FWID g) = 33 →
  has cdim 0 cdi → bytes cdi → zlen cdi = 32 → has fwm 0 fw → bytes fw → 8 * zlen fw < 2 ^ 64 →
  (keys_in_range cdi fw ∧ ∀ n, derive_keys (S n) l g cdim 32 fwm (zlen fw)
     = Ok (RIOT_SUCCESS, set_cDigest (set_FWID g (fw_id fw ++ [0])) (zeros 33), all_keys cdi fw)) ∨
  (¬ keys_in_range cdi fw ∧ ∀ n, derive_keys (S n) l g cdim 32 fwm (zlen fw) = Ub OutOfFuel).
Proof.
  intros (Ho & Hfx & Hk1 & Hk2 & _) Hc Hf Hcm Hcb Hcl Hfm Hfb Hfl. unfold keys_in_range, all_keys, device_pub, alias_pub.
  destruct (splice_33 (cDigest g) (core_id cdi)) as [x Hx]; [done|apply length_sha256|].
  destruct (splice_33 (FWID g) (fw_id fw)) as [y Hy]; [done|apply length_sha256|].
  destruct (splice_33 (core_id cdi ++ [x]) (alias_seed cdi fw)) as [z Hz];
    [rewrite zlen_app; unfold core_id; by rewrite length_sha256|apply length_sha256|].
  pose proof (seed_key (hmac0 l) (fixed0 l) (deviceIDPub (keys0 l)) (deviceIDPriv (keys0 l)) (core_id cdi ++ [x])
    (core_id cdi) (bytes_of_string "Identity") RIOT_LABEL_IDENTITY Ho Hfx Hk1 (sha256_bytes _) (length_sha256 _)
    (has_whole _ _) ltac:(by repeat constructor) ltac:(done) eq_refl) as H1.
  pose proof (seed_key (hmac0 l) (fixed0 l) (aliasKeyPub (keys0 l)) (aliasKeyPriv (keys0 l)) (alias_seed cdi fw ++ [0])
    (alias_seed cdi fw) (bytes_of_string "Alias") RIOT_LABEL_ALIAS Ho Hfx Hk2 (sha256_bytes _) (length_sha256 _)
    (has_whole _ _) ltac:(by repeat constructor) ltac:(done) eq_refl) as H2.
  fold (device_priv cdi) in H1. fold (alias_priv cdi fw) in H2. cbv zeta in H1, H2.
  pose proof (RiotCrypt_Hash_lemma (cDigest g) 32 cdim cdi ltac:(lia) ltac:(lia) Hcb Hcm ltac:(lia)) as E1.
  pose proof (RiotCrypt_Hash_lemma (FWID g) 32 fwm fw ltac:(lia) ltac:(lia) Hfb Hfm ltac:(lia)) as E2.
  pose proof (length_sha256 cdi) as L1. pose proof (length_sha256 fw) as L2.
  fold (core_id cdi) in E1, L1. fold (fw_id fw) in E2, L2.
  pose proof (RiotCrypt_Hash2_lemma (core_id cdi ++ [x]) 32 (core_id cdi ++ [x]) (core_id cdi) (fw_id fw ++ [0]) (fw_id fw)
    ltac:(lia) ltac:(rewrite zlen_app, L1; done) (sha256_bytes _) (has_whole _ _) (sha256_bytes _) (has_whole _ _)
    ltac:(rewrite L1, L2; done)) as E3.
  fold (alias_seed cdi fw) in E3. rewrite L1, L2, Hz in E3. rewrite Hcl, Hx in E1. rewrite Hy in E2.
  pose proof (wr_33 _ y L2) as W1. pose proof (wr_33 _ z (length_sha256 (core_id cdi ++ fw_id fw))) as W2.
  pose proof (zero_33 _ (length_sha256 (core_id cdi ++ fw_id fw))) as W3. fold (alias_seed cdi fw) in W2, W3.
  change 32 with RIOT_DIGEST_LENGTH in E1, E2, E3, W1, W2 |- *.
  generalize dependent (affine_of (ec_mul (wval (device_priv cdi)) G)). intros P1 H1.
  generalize dependent (affine_of (ec_mul (wval (alias_priv cdi fw)) G)). intros P2 H2.
  unfold derive_keys. setoid_rewrite E1. cbn [mbind outcome_bind Z.eqb RIOT_SUCCESS negb set_cDigest set_FWID cDigest FWID].
  destruct H1 as [[R1 H1]|[R1 H1]].
  2:{ right. split; [tauto|]. intros n. rewrite (H1 (S n)). reflexivity. }
  destruct H2 as [[R2 H2]|[R2 H2]]; [left|right]; (split; [tauto|]); intros n; rewrite (H1 n);
    cbn [mbind outcome_bind Z.eqb RIOT_SUCCESS negb]; rewrite E2;
    cbn [mbind outcome_bind Z.eqb RIOT_SUCCESS negb set_cDigest set_FWID cDigest FWID];
    rewrite W1; cbn [mbind outcome_bind set_FWID cDigest FWID]; rewrite E3;
    cbn [mbind outcome_bind Z.eqb RIOT_SUCCESS negb set_cDigest cDigest];
    rewrite W2; cbn [mbind outcome_bind set_cDigest cDigest aliasKeyPub aliasKeyPriv deviceIDPub deviceIDPriv].
  - rewrite (H2 n). cbn [mbind outcome_bind Z.eqb RIOT_SUCCESS negb]. rewrite W3. reflexivity.
  - rewrite (H2 (S n)). reflexivity.
Qed.

(** * Certificates *)
Lemma to_pem_lemma ctx t ty pem : finished 768 ctx t → leaf_bytes t → zlen (encode t) ≤ 683 → 0 ≤ ty < 4 →
  zlen pem = 1024 →
  to_pem ctx ty pem = Ok (0, splice pem 0 (pem_text ty (encode t) ++ [0]), zlen (pem_text ty (encode t))).
Proof.
  intros Hf Hb Hl Hty Hp. destruct (finished_spec _ _ _ Hf) as (Hbuf & Hpos & _).
  pose proof (zlen_pem ty (encode t) ltac:(lia)) as Hz. pose proof (zlen_nonneg (pem_text ty (encode t))).
  assert (zlen (pem_text ty (encode t)) < 1024) as Hlt by dlia.
  unfold to_pem. change DER_MAX_PEM with 1024.
  rewrite (DERtoPEM_lemma ctx (encode t) ty pem); [|done|by apply leaf_encode_bytes; [|lia]|lia|done|done|lia|lia].
  cbn [mbind outcome_bind fmap option_fmap option_map deref Z.eqb negb].
  rewrite wr_splice, zlen_splice, (proj2 (Z.leb_le _ _)), bind_Ok by lia.
  by rewrite <-(Z.add_0_l (zlen _)), splice_splice, Z.add_0_l by (rewrite ?zlen_app; change (zlen [0]) with 1; lia).
Qed.

(** Building the tree [t] in the buffer. *)
Lemma run_buffer f t buf : implements f (ops t ++ [DerSpec.Top]) → depth t ≤ 16 → zlen (encode t) ≤ 683 → 768 ≤ zlen buf →
  ∃ ctx0 ctx, DERInitContext buf DER_MAX_TBS = Ok ctx0 ∧ f ctx0 = Ok (0, ctx) ∧ finished 768 ctx t.
Proof.
  intros Hi Hd Hl Hb. destruct (run_tree f t 768 buf) as (ctx & H & Hf); [done|done|lia|lia|done|done|].
  bind_inv H. by exists a, ctx.
Qed.

Lemma finished_room ctx t : finished 768 ctx t → 768 ≤ zlen (Buffer ctx).
Proof. intros Hf. apply (builds_room _ _ _ Hf). Qed.

(** Signing a finished body with the device key and closing the certificate. *)
Lemma sign_body l ctx cdi tbs : core_locals_ok l → finished 768 ctx tbs → leaf_bytes tbs →
  (∀ sig, bigval (sig_r sig) → bigval (sig_s sig) → zlen (encode (signed tbs sig)) ≤ 683) →
  let sig := core_sig cdi tbs in
  (can_sign cdi tbs ∧
   (∀ n sig0, RiotCrypt_Sign (S n) (digest0 l) (point0 l) (nonce0 l) sig0 (Buffer ctx) (Position ctx) (device_priv cdi)
      = Ok (RIOT_SUCCESS, sig)) ∧
   zlen (encode (signed tbs sig)) ≤ 683 ∧
   ∃ ctx', X509MakeDeviceCert (enc32 l) sig ctx = Ok (0, ctx') ∧ finished 768 ctx' (signed tbs sig)) ∨
  (¬ can_sign cdi tbs ∧
   ∀ n sig0, RiotCrypt_Sign n (digest0 l) (point0 l) (nonce0 l) sig0 (Buffer ctx) (Position ctx) (device_priv cdi)
     = Ub OutOfFuel).
Proof.
  intros (_ & _ & _ & _ & Hdg & Hk & _ & He) Hf Hlb Hs. cbv zeta. unfold core_sig, can_sign.
  destruct (finished_spec _ _ _ Hf) as (Hbuf & Hpos & _). rewrite Hpos.
  destruct (derived_exact (key_source (core_id cdi)) (Some (bytes_of_string "Identity"))) as ([Hdb Hds] & _).
  fold (device_priv cdi) in Hdb, Hds.
  assert (zlen (encode tbs) ≤ 683) as Hle.
  { etrans; [apply (zlen_signed tbs (mkSig big_zero big_zero))|]. apply Hs; apply big_zero_exact. }
  assert (bytes (encode tbs)) as Hb by (apply leaf_encode_bytes; [done|lia]).
  assert (∀ n sig0, RiotCrypt_Sign n (digest0 l) (point0 l) (nonce0 l) sig0 (Buffer ctx) (zlen (encode tbs)) (device_priv cdi)
    = RIOT_DSASignDigest n (Fips.sha256 (encode tbs)) (device_priv cdi) (point0 l) (nonce0 l) sig0) as Hsg.
  { intros n sig0. by apply Sign_unfold; [| | |lia]. }
  pose proof (λ sig0, sign_cases (Fips.sha256 (encode tbs)) (Fips.sha256 (encode tbs)) (device_priv cdi) (point0 l) (nonce0 l)
    sig0 (sha256_bytes _) (length_sha256 _) (has_self _) Hdb Hk) as Hc.
  rewrite Hds in Hc. fold (digest_value (encode tbs)) in Hc. cbv zeta in Hc.
  destruct (Hc (mkSig [] [])) as [(Hu & [Hx Hq] & _)|[Hu _]].
  - left. split; [exact Hu|]. destruct (ecdsa_sig_fits _ _ Hx Hq) as [Hr1 Hr2].
    pose proof (Hs _ (proj1 Hr1) (proj1 Hr2)) as Hz. split_and!.
    + intros n sig0. rewrite Hsg. destruct (Hc sig0) as [(_ & _ & H)|[H _]]; [exact (H n)|contradiction].
    + exact Hz.
    + apply (signed_lemma 768 ctx (enc32 l)); [exact He|exact Hr1|exact Hr2|exact Hf|lia|lia].
  - right. split; [tauto|]. intros n sig0. rewrite Hsg. destruct (Hc sig0) as [(H & _)|[_ H]]; [contradiction|exact (H n)].
Qed.

Lemma alias_certificate_lemma long_size l g cdi fw reg : (4 ≤ long_size)%nat → core_locals_ok l →
  768 ≤ zlen (derBuffer g) → zlen (g_AKCert g) = 1024 → FWID g = fw_id fw ++ [0] →
  tbs_holds (x509AliasTBSData g) (alias_data reg) → bytes reg →
  let body := alias_body cdi fw reg in let pem := alias_cert_pem cdi fw reg in
  (can_sign cdi body ∧ ∀ n, ∃ b, 768 ≤ zlen b ∧
     alias_certificate long_size (S n) l g (all_keys cdi fw)
     = Ok (0, set_FWID (set_AKCert (set_derBuffer g b) (splice (g_AKCert g) 0 (pem ++ [0])) (zlen pem)) (zeros 33),
           core_sig cdi body)) ∨
  (¬ can_sign cdi body ∧ ∀ n, alias_certificate long_size n l g (all_keys cdi fw) = Ub OutOfFuel).
Proof.
  intros Hls Hl Hder Hak Hfw Ht Hrb body pem. pose proof Hl as (_ & _ & _ & _ & _ & _ & He65 & _).
  assert (zlen (fw_id fw) = 32) as Hfl by apply length_sha256.
  assert (point_ok (device_pub cdi)) as Hp1 by apply public_point_ok.
  assert (point_ok (alias_pub cdi fw)) as Hp2 by apply public_point_ok.
  assert (∀ sig, bigval (sig_r sig) → bigval (sig_s sig) → zlen (encode (signed body sig)) ≤ 683) as Hsz.
  { intros sig H1 H2. apply zlen_alias_cert; try assumption. apply (holds_subject_common _ _ Ht). }
  assert (zlen (encode body) ≤ 683) as Hle.
  { etrans; [apply (zlen_signed body (mkSig big_zero big_zero))|]. apply Hsz; apply big_zero_exact. }
  destruct (run_buffer (X509GetAliasCertTBS long_size (enc65 l) (x509AliasTBSData g) (alias_pub cdi fw) (device_pub cdi)
    (FWID g) 32) body (derBuffer g)) as (ctx0 & ctx & H0 & H1 & Hf); [|vm_compute; done|done|done|].
  { rewrite <-Hfl. apply implements_AliasCertTBS; try assumption; [rewrite Hfw; apply has_whole|lia]. }
  assert (leaf_bytes body) as Hlb by (apply leaf_alias; [done|apply sha256_bytes]).
  unfold alias_certificate. rewrite H0. cbn [mbind outcome_bind all_keys aliasKeyPub deviceIDPub deviceIDPriv].
  change RIOT_DIGEST_LENGTH with 32. rewrite H1. cbn [mbind outcome_bind Z.eqb negb].
  destruct (sign_body l ctx cdi body Hl Hf Hlb Hsz) as [(Hc & Hs & Hz & ctx' & Hm & Hf')|[Hc Hs]].
  - left. split; [exact Hc|]. intros n. rewrite (Hs n). cbn [mbind outcome_bind Z.eqb negb RIOT_SUCCESS].
    exists (Buffer ctx'). split; [exact (finished_room _ _ Hf')|].
    change (X509MakeAliasCert (enc32 l) (core_sig cdi body) ctx) with (X509MakeDeviceCert (enc32 l) (core_sig cdi body) ctx).
    rewrite Hm. cbn [mbind outcome_bind Z.eqb negb set_derBuffer g_AKCert].
    rewrite (to_pem_lemma ctx' (signed body (core_sig cdi body)) CERT_TYPE (g_AKCert g) Hf' (leaf_signed _ _ Hlb) Hz ltac:(done) Hak).
    cbn [mbind outcome_bind Z.eqb negb]. fold (alias_cert_pem cdi fw reg). fold pem.
    cbn [FWID set_AKCert set_derBuffer]. rewrite Hfw.
    assert (replicate (length (fw_id fw ++ [0])) 0 = zeros 33) as ->; [|reflexivity].
    unfold zeros. f_equal. rewrite length_app. unfold zlen in Hfl. cbn. lia.
  - right. split; [exact Hc|]. intros n. rewrite (Hs n). reflexivity.
Qed.

Lemma device_id_public_lemma l g k : core_locals_ok l → 768 ≤ zlen (derBuffer g) → zlen (g_DeviceIDPub g) = 1024 →
  point_ok (deviceIDPub k) → let pem := pem_text PUBLICKEY_TYPE (encode (public_key (ecc_point (deviceIDPub k)))) in
  ∃ b, 768 ≤ zlen b ∧ device_id_public l g k
  = Ok (0, set_DeviceIDPub (set_derBuffer g b) (splice (g_DeviceIDPub g) 0 (pem ++ [0])) (zlen pem)).
Proof.
  intros (_ & _ & _ & _ & _ & _ & He65 & _) Hder Hb Hp pem. pose proof (zlen_public_key _ Hp) as Hz.
  destruct (run_buffer (X509GetDEREccPub (enc65 l) (deviceIDPub k)) (public_key (ecc_point (deviceIDPub k))) (derBuffer g))
    as (ctx0 & ctx & H0 & H1 & Hf); [by apply implements_DEREccPub|vm_compute; done|lia|done|].
  exists (Buffer ctx). split; [exact (finished_room _ _ Hf)|]. unfold device_id_public.
  rewrite H0. cbn [mbind outcome_bind]. rewrite H1. cbn [mbind outcome_bind Z.eqb negb set_derBuffer g_DeviceIDPub].
  rewrite (to_pem_lemma ctx _ PUBLICKEY_TYPE (g_DeviceIDPub g) Hf (proj1 (leaf_keys _ [])) ltac:(lia) ltac:(done) Hb).
  reflexivity.
Qed.

Lemma alias_key_pair_lemma long_size l g k : (4 ≤ long_size)%nat → core_locals_ok l → 768 ≤ zlen (derBuffer g) →
  zlen (g_AliasKey g) = 1024 → point_ok (aliasKeyPub k) → bigval (aliasKeyPriv k) →
  let pem := pem_text ECC_PRIVATEKEY_TYPE (encode (private_key (aliasKeyPub k) (aliasKeyPriv k))) in
  ∃ b, 768 ≤ zlen b ∧ alias_key_pair long_size l g k
  = Ok (0, set_AliasKey (set_derBuffer g b) (splice (g_AliasKey g) 0 (pem ++ [0])) (zlen pem)).
Proof.
  intros Hls (_ & _ & _ & _ & _ & _ & He65 & _) Hder Hb Hp Hv pem. pose proof (zlen_private_key _ _ Hp Hv) as Hz.
  destruct (run_buffer (X509GetDEREcc long_size (enc65 l) (aliasKeyPub k) (aliasKeyPriv k))
    (private_key (aliasKeyPub k) (aliasKeyPriv k)) (derBuffer g))
    as (ctx0 & ctx & H0 & H1 & Hf); [by apply implements_DEREcc|vm_compute; done|lia|done|].
  exists (Buffer ctx). split; [exact (finished_room _ _ Hf)|]. unfold alias_key_pair.
  rewrite H0. cbn [mbind outcome_bind]. rewrite H1. cbn [mbind outcome_bind Z.eqb negb set_derBuffer g_AliasKey].
  rewrite (to_pem_lemma ctx _ ECC_PRIVATEKEY_TYPE (g_AliasKey g) Hf (proj2 (leaf_keys _ _)) ltac:(lia) ltac:(done) Hb).
  reflexivity.
Qed.

Lemma device_certificate_lemma long_size l g cdi fw sig0 : (4 ≤ long_size)%nat → core_locals_ok l →
  768 ≤ zlen (derBuffer g) → zlen (g_DICert g) = 1024 → SelfSignedDeviceCert g = true →
  tbs_holds (x509DeviceTBSData g) device_data →
  let body := device_body cdi in let pem := device_cert_pem cdi in
  (can_sign cdi body ∧ ∀ n, ∃ b, 768 ≤ zlen b ∧
     device_certificate long_size (S n) l g (all_keys cdi fw) sig0
     = Ok (0, set_DICert (set_derBuffer g b) (splice (g_DICert g) 0 (pem ++ [0])) (zlen pem))) ∨
  (¬ can_sign cdi body ∧ ∀ n, device_certificate long_size n l g (all_keys cdi fw) sig0 = Ub OutOfFuel).
Proof.
  intros Hls Hl Hder Hdi Hself Ht body pem. pose proof Hl as (_ & _ & _ & _ & _ & _ & He65 & _).
  assert (point_ok (device_pub cdi)) as Hp1 by apply public_point_ok.
  assert (∀ sig, bigval (sig_r sig) → bigval (sig_s sig) → zlen (encode (signed body sig)) ≤ 683) as Hsz.
  { intros sig H1 H2. etrans; [by apply zlen_device_cert|done]. }
  assert (zlen (encode body) ≤ 683) as Hle.
  { etrans; [apply (zlen_signed body (mkSig big_zero big_zero))|]. apply Hsz; apply big_zero_exact. }
  destruct (run_buffer (X509GetDeviceCertTBS long_size (enc65 l) (x509DeviceTBSData g) (device_pub cdi))
    body (derBuffer g)) as (ctx0 & ctx & H0 & H1 & Hf); [by apply implements_DeviceCertTBS|vm_compute; done|done|done|].
  assert (leaf_bytes body) as Hlb by apply leaf_device.
  unfold device_certificate. rewrite H0, Hself. cbn [mbind outcome_bind all_keys deviceIDPub deviceIDPriv].
  rewrite H1. cbn [mbind outcome_bind Z.eqb negb].
  destruct (sign_body l ctx cdi body Hl Hf Hlb Hsz) as [(Hc & Hs & Hz & ctx' & Hm & Hf')|[Hc Hs]].
  - left. split; [exact Hc|]. intros n. rewrite (Hs n). cbn [mbind outcome_bind Z.eqb negb RIOT_SUCCESS set_derBuffer SelfSignedDeviceCert].
    exists (Buffer ctx'). split; [exact (finished_room _ _ Hf')|]. rewrite Hself, Hm.
    cbn [mbind outcome_bind Z.eqb negb set_derBuffer g_DICert SelfSignedDeviceCert].
    rewrite (to_pem_lemma ctx' (signed body (core_sig cdi body)) CERT_TYPE (g_DICert g) Hf' (leaf_signed _ _ Hlb) Hz ltac:(done) Hdi).
    reflexivity.
  - right. split; [exact Hc|]. intros n. rewrite (Hs n). reflexivity.
Qed.

(** * The whole core *)
Record core_ok (g : riot_globals) : Prop := {
  core_digest : zlen (cDigest g) = 33 ∧ zlen (FWID g) = 33;
  core_der : 768 ≤ zlen (derBuffer g);
  core_pem : zlen (g_DeviceIDPub g) = 1024 ∧ zlen (g_AliasKey g) = 1024 ∧
             zlen (g_AKCert g) = 1024 ∧ zlen (g_DICert g) = 1024;
  core_self : SelfSignedDeviceCert g = true;
  core_device : x509DeviceTBSData g = initial_device_data;
  core_alias : x509AliasTBSData g = x509AliasTBSData (set_SubjectCommon initial_globals (SubjectCommon (x509AliasTBSData g))) }.

(** The buffers after a start: the texts of the keys and certificates, each
    with its terminator, and their lengths; the digests wiped. *)
Definition started (g : riot_globals) (regm cdi fw reg b : list Z) : riot_globals :=
  mkRiot (zeros 33) (zeros 33) b
    (splice (g_DeviceIDPub g) 0 (device_pub_pem cdi ++ [0])) (splice (g_AliasKey g) 0 (alias_key_pem cdi fw ++ [0]))
    (splice (g_AKCert g) 0 (alias_cert_pem cdi fw reg ++ [0])) (splice (g_DICert g) 0 (device_cert_pem cdi ++ [0]))
    (zlen (device_pub_pem cdi)) (zlen (alias_key_pem cdi fw)) (zlen (alias_cert_pem cdi fw reg))
    (zlen (device_cert_pem cdi)) true (x509AliasTBSData (set_SubjectCommon initial_globals regm)) initial_device_data.

(** The start succeeds for these inputs. *)
Definition startable (cdi fw reg : list Z) : Prop :=
  keys_in_range cdi fw ∧ can_sign cdi (alias_body cdi fw reg) ∧ can_sign cdi (device_body cdi).

Lemma c_str_holds s : forallb (λ c, (0 <? c) && (c <? 256)) (bytes_of_string s) = true →
  cstring (c_str s) (bytes_of_string s).
Proof.
  intros Hs. apply cstring_self, Forall_forall. intros v Hv. rewrite forallb_forall in Hs.
  apply list_elem_of_In in Hv. specialize (Hs v Hv). lia.
Qed.

Lemma data_holds regm reg : cstring regm reg → zlen reg < 127 →
  tbs_holds (x509AliasTBSData (set_SubjectCommon initial_globals regm)) (alias_data reg) ∧
  tbs_holds initial_device_data device_data.
Proof.
  intros Hr Hl. split; (split; try (split; [by apply c_str_holds|done]); try done; try apply has_self;
    split_and!; try done; [by repeat constructor|intros H; by inversion H]).
Qed.

Lemma RiotStart_lemma long_size l g cdim cdi regm reg fwm fw : (4 ≤ long_size)%nat → core_locals_ok l → core_ok g →
  has cdim 0 cdi → bytes cdi → zlen cdi = 32 → has fwm 0 fw → bytes fw → zlen fw < 2 ^ 32 →
  cstring regm reg → zlen reg < 127 →
  (startable cdi fw reg ∧ ∀ n, ∃ b, 768 ≤ zlen b ∧
     RiotStart long_size (S n) l g (Some cdim) 32 regm fwm (zlen fw) = Ok (0, started g regm cdi fw reg b)) ∨
  (¬ startable cdi fw reg ∧ ∀ n, RiotStart long_size (S n) l g (Some cdim) 32 regm fwm (zlen fw) = Ub OutOfFuel).
Proof.
  intros Hls Hl [[Hc Hf] Hder (Hp1 & Hp2 & Hp3 & Hp4) Hself Hdd Had] Hcm Hcb Hcl Hfm Hfb Hfl Hr Hrl.
  destruct (data_holds regm reg Hr Hrl) as [Ht1 Ht2].
  assert (bytes reg) as Hrb.
  { destruct Hr as (t & _ & H). eapply Forall_impl; [exact H|]. unfold is_u8. intros v Hv. cbv beta in Hv. lia. }
  unfold RiotStart. change (negb (32 =? RIOT_DIGEST_LENGTH)) with false. cbv iota zeta.
  set (g0 := set_SubjectCommon g regm).
  assert (x509AliasTBSData g0 = x509AliasTBSData (set_SubjectCommon initial_globals regm)) as Hg0
    by (unfold g0; cbn [set_SubjectCommon x509AliasTBSData]; rewrite Had; reflexivity).
  unfold startable.
  destruct (derive_keys_lemma l g0 cdim cdi fwm fw Hl Hc Hf Hcm Hcb Hcl Hfm Hfb ltac:(lia)) as [[Hk Hd]|[Hk Hd]].
  2:{ right. split; [tauto|]. intros n. by rewrite (Hd n). }
  set (g1 := set_cDigest (set_FWID g0 (fw_id fw ++ [0])) (zeros 33)) in *.
  destruct (alias_certificate_lemma long_size l g1 cdi fw reg Hls Hl Hder Hp3 eq_refl) as [[Ha Hac]|[Ha Hac]];
    [by change (x509AliasTBSData g1) with (x509AliasTBSData g0); rewrite Hg0|exact Hrb| |].
  2:{ right. split; [tauto|]. intros n. rewrite (Hd n). cbn [mbind outcome_bind Z.eqb RIOT_SUCCESS negb].
      rewrite (Hac (S n)). reflexivity. }
  set (pa := alias_cert_pem cdi fw reg) in *. set (p1 := device_pub_pem cdi). set (p2 := alias_key_pem cdi fw).
  set (upd := λ b, set_AliasKey (set_DeviceIDPub (set_derBuffer
    (set_FWID (set_AKCert g1 (splice (g_AKCert g1) 0 (pa ++ [0])) (zlen pa)) (zeros 33)) b)
      (splice (g_DeviceIDPub g) 0 (p1 ++ [0])) (zlen p1)) (splice (g_AliasKey g) 0 (p2 ++ [0])) (zlen p2)).
  assert (∀ b, 768 ≤ zlen b → ∃ h b', 768 ≤ zlen b' ∧
    device_id_public l (set_FWID (set_AKCert (set_derBuffer g1 b) (splice (g_AKCert g1) 0 (pa ++ [0])) (zlen pa)) (zeros 33))
      (all_keys cdi fw) = Ok (0, h) ∧ alias_key_pair long_size l h (all_keys cdi fw) = Ok (0, upd b')) as Hkeys.
  { intros b Hb. destruct (derived_exact (key_source (alias_seed cdi fw)) (Some (bytes_of_string "Alias"))) as ([Hbv _] & _).
    fold (alias_priv cdi fw) in Hbv.
    destruct (device_id_public_lemma l (set_FWID (set_AKCert (set_derBuffer g1 b) (splice (g_AKCert g1) 0 (pa ++ [0])) (zlen pa)) (zeros 33))
      (all_keys cdi fw) Hl Hb Hp1) as (b1 & Hb1 & He); [apply public_point_ok|].
    eexists _. match type of He with _ = Ok (0, ?h) =>
      destruct (alias_key_pair_lemma long_size l h (all_keys cdi fw) Hls Hl Hb1 Hp2) as (b2 & Hb2 & He2);
        [apply public_point_ok|exact Hbv|] end.
    exists b2. split_and!; [exact Hb2|exact He|rewrite He2; reflexivity]. }
  assert (tbs_holds (x509DeviceTBSData g) device_data) as Hdt by (rewrite Hdd; exact Ht2).
  pose proof (λ b (Hb : 768 ≤ zlen b), device_certificate_lemma long_size l (upd b) cdi fw
    (core_sig cdi (alias_body cdi fw reg)) Hls Hl Hb Hp4 Hself Hdt) as Hcert.
  cbv zeta in Hcert. destruct (Hcert (derBuffer g) Hder) as [[Hdc _]|[Hdc _]].
  - left. split; [tauto|]. intros n. rewrite (Hd n). cbn [mbind outcome_bind Z.eqb RIOT_SUCCESS negb].
    destruct (Hac n) as (b & Hb & ->). cbn [mbind outcome_bind Z.eqb negb].
    destruct (Hkeys b Hb) as (h & b' & Hb' & -> & He). cbn [mbind outcome_bind Z.eqb negb]. rewrite He.
    cbn [mbind outcome_bind Z.eqb negb]. destruct (Hcert b' Hb') as [[_ Hx]|[Hx _]]; [|contradiction].
    destruct (Hx n) as (b'' & Hb'' & ->). exists b''. split; [exact Hb''|].
    cbn [mbind outcome_bind Z.eqb negb]. do 2 f_equal. unfold started. rewrite <-Hg0, <-Hdd, <-Hself. reflexivity.
  - right. split; [tauto|]. intros n. rewrite (Hd n). cbn [mbind outcome_bind Z.eqb RIOT_SUCCESS negb].
    destruct (Hac n) as (b & Hb & ->). cbn [mbind outcome_bind Z.eqb negb].
    destruct (Hkeys b Hb) as (h & b' & Hb' & -> & He). cbn [mbind outcome_bind Z.eqb negb]. rewrite He.
    cbn [mbind outcome_bind Z.eqb negb]. destruct (Hcert b' Hb') as [[Hx _]|[_ Hx]]; [contradiction|].
    rewrite (Hx (S n)). reflexivity.
Qed.

(** * Properties *)

(** C7: for every registration identifier the builder can encode, RiotStart
    returns 0 exactly when both derived keys are in range and both certificates
    can be signed, and then the four PEM buffers hold the device key, the alias
    key pair, and the certificates for them signed by the device key, each with
    its terminator and length, and the digests are wiped; otherwise it never
    returns. An identifier of the wrong length is refused. *)
Theorem RiotStart_spec long_size l g cdim cdi regm reg fwm fw : (4 ≤ long_size)%nat → core_locals_ok l → core_ok g →
  has cdim 0 cdi → bytes cdi → zlen cdi = 32 → has fwm 0 fw → bytes fw → zlen fw < 2 ^ 32 →
  cstring regm reg → zlen reg < 127 →
  ((startable cdi fw reg ∧ ∀ n, ∃ b, 768 ≤ zlen b ∧
      RiotStart long_size (S n) l g (Some cdim) 32 regm fwm (zlen fw) = Ok (0, started g regm cdi fw reg b)) ∨
   (¬ startable cdi fw reg ∧ ∀ n, RiotStart long_size (S n) l g (Some cdim) 32 regm fwm (zlen fw) = Ub OutOfFuel)) ∧
  (∀ n CDI m, CDI = None ∨ m ≠ 32 →
     RiotStart long_size n l g CDI m regm fwm (zlen fw) = Ok (RIOT_INVALID_PARAMETER, set_SubjectCommon g regm)).
Proof.
  intros. split; [by apply RiotStart_lemma|]. intros n CDI m [->|Hm]; [reflexivity|]. unfold RiotStart.
  destruct CDI as [c|]; [|reflexivity]. by rewrite (proj2 (Z.eqb_neq m RIOT_DIGEST_LENGTH) Hm).
Qed.

Definition sample_core_locals : core_locals :=
  mkCore (mkKeys affine_infinity (repeat 0 9) affine_infinity (repeat 0 9)) (mkSig [] []) sample_ctx (zeros 37)
    (zeros 32) affine_infinity (repeat 0 9) (zeros 65) (zeros 32).

Lemma initial_core_ok : core_ok initial_globals.
Proof. by split. Qed.

Lemma RiotStart_spec_witness :
  (startable (zeros 32) [1; 2; 3] [65] ∧ ∀ n, ∃ b, 768 ≤ zlen b ∧
     RiotStart 4 (S n) sample_core_locals initial_globals (Some (zeros 32)) 32 [65; 0] [1; 2; 3] 3
     = Ok (0, started initial_globals [65; 0] (zeros 32) [1; 2; 3] [65] b)) ∨
  (¬ startable (zeros 32) [1; 2; 3] [65] ∧ ∀ n,
     RiotStart 4 (S n) sample_core_locals initial_globals (Some (zeros 32)) 32 [65; 0] [1; 2; 3] 3 = Ub OutOfFuel).
Proof.
  apply (RiotStart_spec 4 sample_core_locals initial_globals (zeros 32) (zeros 32) [65; 0] [65] [1; 2; 3] [1; 2; 3]);
    [lia|by split_and!|apply initial_core_ok|apply has_self|by apply Forall_replicate|done|apply has_self
    |by repeat constructor|done|by apply (cstring_self [65]); repeat constructor|done].
Defined.
