(* ===== verification/DiceRiot.v ===== *)
(** DiceRIoT.cpp: the whole start of a device, from the unique device secret to
    the alias certificate handed to the caller.

    [DiceData] of this file and of DiceCore.c are one object of the linked
    program: the field of that name of [dice_globals]. The pointers of DiceData
    point to [DiceUDS] and [DiceCDI]; what DiceCore writes through them is
    stored back. *)
From S2P Require Export RiotCore.

Record device := mkDevice {
  udsBytes : list Z; DiceUDS : DICE_UDS; DiceCDI : DICE_CMPND_ID;
  dice : dice_globals; riot : riot_globals }.

(** The loop of DiceInit, [n] bytes left from [i] on. *)
Fixpoint copy_uds (n : nat) (i : Z) (dst src : list Z) : outcome (list Z) :=
  match n with
  | O => Ok dst
  | S n => v ← rd src i; dst ← wr dst i v; copy_uds n (i + 1) dst src
  end.

Definition DiceInit (d : device) (riotCore : option (list Z)) (riotSize : Z) : outcome (Z * device) :=
  b ← copy_uds (Z.to_nat DICE_UDS_LENGTH) 0 (uds_bytes (DiceUDS d)) (udsBytes d);
  let uds := mkUds (uds_tag (DiceUDS d)) b in
  let d := mkDevice (udsBytes d) uds (DiceCDI d) (dice d) (riot d) in
  if negb (uds_tag uds =? DICE_UDS_TAG) then Ok (-1, d) else
  let cdi := mkCdi DICE_CMPND_TAG (replicate (Z.to_nat DICE_DIGEST_LENGTH) 0) in
  let g := dice d in
  let d := mkDevice (udsBytes d) uds cdi
             (mkDiceGlobals (vDigest g) (rDigest g) (DiceHashCtx g)
                (mkDice (Some uds) (Some cdi) riotCore riotSize)) (riot d) in
  if riotSize =? 0 then Ok (-1, d) else Ok (0, d).

(** The characters strncpy takes from [src]: at most [n], up to a null. *)
Fixpoint strncpy_chars (n : nat) (i : Z) (src : list Z) : outcome (list Z) :=
  match n with
  | O => Ok []
  | S n => c ← rd src i;
           if c =? 0 then Ok [] else cs ← strncpy_chars n (i + 1) src; Ok (c :: cs)
  end.

(** [strncpy(dst, src, n)]: the rest of the [n] characters is null. *)
Definition strncpy (dst src : list Z) (n : Z) : outcome (list Z) :=
  cs ← strncpy_chars (Z.to_nat n) 0 src;
  wr_bytes dst 0 (cs ++ replicate (Z.to_nat n - length cs) 0).

(** The result, the buffer of the caller and the state. *)
Definition DiceRIoTStart (long_size fuel : nat) (l : core_locals) (d : device) (RegistrationId : list Z)
    (riotCore : option (list Z)) (riotSize : Z) (riotFw : list Z) (riotFwSize : Z)
    (aliasCertBuffer : list Z) (aliasCertSize : Z) : outcome (Z * list Z * device) :=
  '(rv, d) ← DiceInit d riotCore riotSize;
  if negb (rv =? 0) then Ok (-1, aliasCertBuffer, d) else
  '(rv, g) ← DiceCore (dice d) (DiceData (dice d));
  cdi ← deref (CDI (DiceData g));
  let d := mkDevice (udsBytes d) (DiceUDS d) cdi g (riot d) in
  if negb (rv =? 0) then Ok (-1, aliasCertBuffer, d) else
  '(rv, r) ← RiotStart long_size fuel l (riot d) (Some (cdi_bytes (DiceCDI d))) (u16 DICE_DIGEST_LENGTH)
      RegistrationId riotFw riotFwSize;
  let d := mkDevice (udsBytes d) (DiceUDS d) (DiceCDI d) (dice d) r in
  if negb (rv =? 0) then Ok (-1, aliasCertBuffer, d) else
  let '(buffer, length) := RIoTGetAliasCert (riot d) (Some 0) in
  length ← deref length;
  if length <? aliasCertSize then
    aliasCertBuffer ← strncpy aliasCertBuffer buffer length;
    Ok (0, aliasCertBuffer, d)
  else Ok (0, aliasCertBuffer, d).

(** * The two copies *)
Lemma copy_uds_lemma bs src : ∀ i dst, 0 ≤ i → has src i bs → i + zlen bs ≤ zlen dst →
  copy_uds (length bs) i dst src = Ok (splice dst i bs).
Proof.
  induction bs as [|v bs IH]; intros i dst Hi Hs Hl; cbn [length copy_uds]; [by rewrite splice_nil|].
  rewrite zlen_cons in Hl. pose proof (zlen_nonneg bs). destruct (rd_cons _ _ _ _ Hs) as [-> Hs'].
  rewrite bind_Ok, wr_splice, (proj2 (Z.leb_le _ _)), bind_Ok by lia.
  rewrite IH; [|lia|done|rewrite zlen_splice; unfold zlen in *; cbn [length]; lia].
  f_equal. apply splice_cons; lia.
Qed.

Lemma strncpy_chars_lemma cs src : Forall (λ c, c ≠ 0) cs → ∀ i, has src i cs →
  strncpy_chars (length cs) i src = Ok cs.
Proof.
  induction 1 as [|c cs Hc _ IH]; intros i Hs; [done|]. cbn [length strncpy_chars].
  destruct (rd_cons _ _ _ _ Hs) as [-> Hs']. rewrite bind_Ok, (proj2 (Z.eqb_neq c 0) Hc), (IH _ Hs'). reflexivity.
Qed.

Lemma strncpy_lemma dst src cs : Forall (λ c, c ≠ 0) cs → has src 0 cs → zlen cs ≤ zlen dst →
  strncpy dst src (zlen cs) = Ok (splice dst 0 cs).
Proof.
  intros Hc Hs Hl. unfold strncpy. assert (Z.to_nat (zlen cs) = length cs) as -> by (unfold zlen; lia).
  rewrite (strncpy_chars_lemma cs src Hc 0 Hs), bind_Ok, Nat.sub_diag. cbn [replicate]. rewrite app_nil_r.
  rewrite wr_bytes_splice by lia. by rewrite (proj2 (Z.leb_le _ _)).
Qed.

(** PEM text has no null. *)
Lemma pem_nonzero ty der : bytes der → Forall (λ c, c ≠ 0) (pem_text ty der).
Proof.
  intros Hb. unfold pem_text. apply Forall_app; split; [|apply Forall_app; split; [apply Forall_app; split|]];
    [|by apply b64_nonzero|by repeat constructor|].
  - unfold pem_begin, pem_label. do 3 (case_match; try (repeat constructor; done)).
  - unfold pem_end, pem_label. do 3 (case_match; try (repeat constructor; done)).
Qed.

Lemma words_of_bigval x : bigval (words_of x).
Proof.
  split; [reflexivity|]. unfold words_of. generalize 9%nat. intros n. revert x.
  induction n as [|n IH]; intros x; cbn [digits]; [constructor|]. apply Forall_cons. split; [|apply IH].
  apply Z.mod_pos_bound. done.
Qed.

(** The alias certificate fits its buffer, whatever the keys. *)
Lemma alias_pem_fits cdi fw reg : bytes reg → zlen reg < 127 →
  zlen (alias_cert_pem cdi fw reg) < 1024 ∧ Forall (λ c, c ≠ 0) (alias_cert_pem cdi fw reg).
Proof.
  intros Hr Hl. unfold alias_cert_pem. set (t := signed _ _).
  assert (zlen (encode t) ≤ 683) as Hz.
  { apply zlen_alias_cert; [done|apply public_point_ok|apply public_point_ok|apply length_sha256
      |apply words_of_bigval|apply words_of_bigval]. }
  split.
  - pose proof (zlen_pem CERT_TYPE (encode t) ltac:(lia)). pose proof (zlen_nonneg (encode t)). dlia.
  - apply pem_nonzero, leaf_encode_bytes; [|lia]. apply leaf_signed, leaf_alias; [done|apply sha256_bytes].
Qed.

(** * The whole start *)
Definition device_ok (d : device) : Prop :=
  uds_tag (DiceUDS d) = DICE_UDS_TAG ∧ zlen (uds_bytes (DiceUDS d)) = 32 ∧
  zlen (udsBytes d) = 32 ∧ bytes (udsBytes d) ∧ globals_ok (dice d) ∧ core_ok (riot d).

Definition uds_set (d : device) : DICE_UDS := mkUds DICE_UDS_TAG (udsBytes d).

(** The state between DiceInit and RiotStart. *)
Definition measured (d : device) (core cdi : list Z) (v r : list Z) (ctx : RIOT_SHA256_CONTEXT) : device :=
  let c := mkCdi DICE_CMPND_TAG cdi in
  mkDevice (udsBytes d) (uds_set d) c
    (mkDiceGlobals v r ctx (mkDice (Some (uds_set d)) (Some c) (Some core) (zlen core))) (riot d).

Lemma DiceInit_lemma d core : device_ok d →
  DiceInit d (Some core) (zlen core)
  = Ok (if zlen core =? 0 then -1 else 0,
        measured d core (zeros 32) (vDigest (dice d)) (rDigest (dice d)) (DiceHashCtx (dice d))).
Proof.
  intros (Ht & Hul & Hbl & _). unfold DiceInit.
  assert (Z.to_nat DICE_UDS_LENGTH = length (udsBytes d)) as -> by (change DICE_UDS_LENGTH with 32; unfold zlen in Hbl; lia).
  rewrite (copy_uds_lemma (udsBytes d) (udsBytes d) 0 (uds_bytes (DiceUDS d)) ltac:(lia) (has_self _) ltac:(lia)).
  rewrite bind_Ok. cbv zeta. cbn [uds_tag]. rewrite Ht. change (negb (DICE_UDS_TAG =? DICE_UDS_TAG)) with false.
  cbv iota. rewrite splice_whole by lia. unfold measured, uds_set. by destruct (zlen core =? 0).
Qed.

Definition device_id (d : device) (core : list Z) : list Z := compound_id (udsBytes d) core.

(** What DiceRIoTStart leaves. *)
Definition launched (d : device) (core regm fw reg b : list Z) : device :=
  let m := measured d core (device_id d core) (zeros 32) (zeros 32) zero_ctx in
  mkDevice (udsBytes m) (DiceUDS m) (DiceCDI m) (dice m) (started (riot d) regm (device_id d core) fw reg b).

Lemma DiceRIoTStart_lemma long_size l d regm reg core fwm fw buf size : (4 ≤ long_size)%nat → core_locals_ok l →
  device_ok d → cstring regm reg → zlen reg < 127 → bytes core → 8 ≤ zlen core < 2 ^ 32 →
  has fwm 0 fw → bytes fw → zlen fw < 2 ^ 32 → size ≤ zlen buf →
  let cdi := device_id d core in let pem := alias_cert_pem cdi fw reg in
  (startable cdi fw reg ∧ ∀ n, ∃ b, 768 ≤ zlen b ∧
     DiceRIoTStart long_size (S n) l d regm (Some core) (zlen core) fwm (zlen fw) buf size
     = Ok (0, if zlen pem <? size then splice buf 0 pem else buf, launched d core regm fw reg b)) ∨
  (¬ startable cdi fw reg ∧ ∀ n,
     DiceRIoTStart long_size (S n) l d regm (Some core) (zlen core) fwm (zlen fw) buf size = Ub OutOfFuel).
Proof.
  intros Hls Hl Hd Hr Hrl Hcb Hcl Hfm Hfb Hfl Hsz cdi pem. pose proof Hd as (_ & _ & Hul & Hub & [Hv Hrd] & Hok).
  assert (zlen cdi = 32) as Hcdi by apply length_sha256.
  assert (∀ n, DiceRIoTStart long_size n l d regm (Some core) (zlen core) fwm (zlen fw) buf size
    = '(rv, r) ← RiotStart long_size n l (riot d) (Some cdi) 32 regm fwm (zlen fw);
      let m := measured d core cdi (zeros 32) (zeros 32) zero_ctx in
      let d' := mkDevice (udsBytes m) (DiceUDS m) (DiceCDI m) (dice m) r in
      if negb (rv =? 0) then Ok (-1, buf, d') else
      if g_AKCertLen r <? size then buf ← strncpy buf (g_AKCert r) (g_AKCertLen r); Ok (0, buf, d')
      else Ok (0, buf, d')) as Hpre.
  { intros n. unfold DiceRIoTStart. rewrite (DiceInit_lemma d core Hd), (proj2 (Z.eqb_neq (zlen core) 0)), bind_Ok by lia.
    change (negb (0 =? 0)) with false. cbv iota. cbn [measured dice DiceData].
    rewrite (DiceCore_lemma _ (uds_set d) (udsBytes d) (mkCdi DICE_CMPND_TAG (zeros 32)) core (zlen core));
      [|by split|done|done|done|done|done|done|lia].
    rewrite (proj2 (Z.ltb_ge _ _)), bind_Ok by lia. reflexivity. }
  destruct (RiotStart_lemma long_size l (riot d) cdi cdi regm reg fwm fw Hls Hl Hok (has_self _) (sha256_bytes _)
    Hcdi Hfm Hfb Hfl Hr Hrl) as [[Hs H]|[Hs H]]; [left|right]; (split; [exact Hs|]); intros n; rewrite Hpre.
  2:{ rewrite (H n). reflexivity. }
  destruct (H n) as (b & Hb & ->). exists b. split; [exact Hb|].
  cbn [mbind outcome_bind Z.eqb negb started g_AKCert g_AKCertLen].
  fold pem. assert (bytes reg) as Hrb.
  { destruct Hr as (t & _ & Hf). eapply Forall_impl; [exact Hf|]. unfold is_u8. intros v Hvv. cbv beta in Hvv. lia. }
  destruct (alias_pem_fits cdi fw reg Hrb Hrl) as [Hpl Hpn]. fold pem in Hpl, Hpn.
  destruct (Z.ltb_spec (zlen pem) size) as [Hlt|]; [|reflexivity].
  destruct (core_pem _ Hok) as (_ & _ & Hak & _).
  rewrite (strncpy_lemma buf _ pem Hpn); [reflexivity| |lia].
  assert (has (splice (g_AKCert (riot d)) 0 (pem ++ [0])) 0 (pem ++ [0])) as Hh
    by (apply has_splice; rewrite ?zlen_app; change (zlen [0]) with 1; lia).
  by apply has_app in Hh as [Hh _].
Qed.

(** * Properties *)

(** C11: DiceRIoTStart runs measurement, key derivation and certification in
    order: with a core of at least eight bytes and derivable, signing keys it
    returns 0 and the caller's buffer, if it is longer than the alias
    certificate, starts with that certificate, without a terminator; a buffer
    that is too small is left alone and the result is still 0. *)
Theorem DiceRIoTStart_spec long_size l d regm reg core fwm fw buf size : (4 ≤ long_size)%nat → core_locals_ok l →
  device_ok d → cstring regm reg → zlen reg < 127 → bytes core → 8 ≤ zlen core < 2 ^ 32 →
  has fwm 0 fw → bytes fw → zlen fw < 2 ^ 32 → size ≤ zlen buf →
  let cdi := device_id d core in let pem := alias_cert_pem cdi fw reg in
  (startable cdi fw reg ∧ ∀ n, ∃ b, 768 ≤ zlen b ∧
     DiceRIoTStart long_size (S n) l d regm (Some core) (zlen core) fwm (zlen fw) buf size
     = Ok (0, if zlen pem <? size then splice buf 0 pem else buf, launched d core regm fw reg b)) ∨
  (¬ startable cdi fw reg ∧ ∀ n,
     DiceRIoTStart long_size (S n) l d regm (Some core) (zlen core) fwm (zlen fw) buf size = Ub OutOfFuel).
Proof. apply DiceRIoTStart_lemma. Qed.

Definition sample_device : device :=
  mkDevice (zeros 32) (mkUds DICE_UDS_TAG (zeros 32)) (mkCdi DICE_CMPND_TAG (zeros 32))
    (mkDiceGlobals (zeros 32) (zeros 32) zero_ctx (mkDice None None None 0)) initial_globals.

Lemma sample_device_ok : device_ok sample_device.
Proof.
  unfold device_ok. cbn [sample_device riot udsBytes]. split_and!; try done; by apply Forall_replicate.
Qed.

Lemma DiceRIoTStart_spec_witness :
  let cdi := device_id sample_device (zeros 8) in let pem := alias_cert_pem cdi [1; 2; 3] [65] in
  (startable cdi [1; 2; 3] [65] ∧ ∀ n, ∃ b, 768 ≤ zlen b ∧
     DiceRIoTStart 4 (S n) sample_core_locals sample_device [65; 0] (Some (zeros 8)) 8 [1; 2; 3] 3 (zeros 1024) 1024
     = Ok (0, if zlen pem <? 1024 then splice (zeros 1024) 0 pem else zeros 1024,
           launched sample_device (zeros 8) [65; 0] [1; 2; 3] [65] b)) ∨
  (¬ startable cdi [1; 2; 3] [65] ∧ ∀ n,
     DiceRIoTStart 4 (S n) sample_core_locals sample_device [65; 0] (Some (zeros 8)) 8 [1; 2; 3] 3 (zeros 1024) 1024
     = Ub OutOfFuel).
Proof.
  apply (DiceRIoTStart_spec 4 sample_core_locals sample_device [65; 0] [65] (zeros 8) [1; 2; 3] [1; 2; 3] (zeros 1024) 1024);
    [lia|by split_and!|apply sample_device_ok|by apply (cstring_self [65]); repeat constructor|done
    |by apply Forall_replicate|done|apply has_self|by repeat constructor|done|done].
Defined.
