(* ===== verification/OtaSha.v ===== *)
(** OTAStaging.cpp, the computations: reading integers, SHA-256 and CRC-16, and
    that they are FIPS 180-4 and the remainder by the CRC polynomial.

    [size_t] and [uint32_t] values are nonnegative; a local array is the list
    of its cells written so far, or a given memory when the code fills it. *)
From S2P Require Export Sha256Spec.

Definition rotateRight (value count : Z) : Z :=
  Z.lor (Z.shiftr value count) (u32 (Z.shiftl value (32 - count))).

Definition readBigEndian32 (m : list Z) (p : Z) : outcome Z :=
  b0 ← rd m p; b1 ← rd m (p + 1); b2 ← rd m (p + 2); b3 ← rd m (p + 3);
  Ok (Z.lor (Z.lor (Z.lor (u32 (Z.shiftl b0 24)) (u32 (Z.shiftl b1 16))) (u32 (Z.shiftl b2 8))) b3).

Definition readLittleEndian32 (m : list Z) (p : Z) : outcome Z :=
  b0 ← rd m p; b1 ← rd m (p + 1); b2 ← rd m (p + 2); b3 ← rd m (p + 3);
  Ok (Z.lor (Z.lor (Z.lor b0 (u32 (Z.shiftl b1 8))) (u32 (Z.shiftl b2 16))) (u32 (Z.shiftl b3 24))).

Definition readLittleEndian16 (m : list Z) (p : Z) : outcome Z :=
  b0 ← rd m p; b1 ← rd m (p + 1);
  Ok (u16 (Z.lor b0 (u16 (Z.shiftl b1 8)))).

(** * SHA-256 *)
Record Sha256Context := mkSha256 {
  sha_state : list Z; bitCount : Z; sha_block : list Z; blockSize : Z }.

Definition sha_constants : list Z :=
  [
   1116352408; 1899447441; 3049323471; 3921009573; 961987163; 1508970993;
   2453635748; 2870763221; 3624381080; 310598401; 607225278; 1426881987;
   1925078388; 2162078206; 2614888103; 3248222580; 3835390401; 4022224774;
   264347078; 604807628; 770255983; 1249150122; 1555081692; 1996064986;
   2554220882; 2821834349; 2952996808; 3210313671; 3336571891; 3584528711;
   113926993; 338241895; 666307205; 773529912; 1294757372; 1396182291;
   1695183700; 1986661051; 2177026350; 2456956037; 2730485921; 2820302411;
   3259730800; 3345764771; 3516065817; 3600352804; 4094571909; 275423344;
   430227734; 506948616; 659060556; 883997877; 958139571; 1322822218;
   1537002063; 1747873779; 1955562222; 2024104815; 2227730452; 2361852424;
   2428436474; 2756734187; 3204031479; 3329325298].

Definition sha_initial : list Z :=
  [1779033703; 3144134277; 1013904242; 2773480762; 1359893119; 2600822924; 528734635; 1541459225].

(** The first loop: [n] words from word [i] on. *)
Fixpoint load_words (n : nat) (i : Z) (block words : list Z) : outcome (list Z) :=
  match n with
  | O => Ok words
  | S n => w ← readBigEndian32 block (i * 4); load_words n (i + 1) block (words ++ [w])
  end.

Fixpoint schedule_words (n : nat) (i : Z) (words : list Z) : outcome (list Z) :=
  match n with
  | O => Ok words
  | S n =>
    w15 ← rd words (i - 15);
    let s0 := Z.lxor (Z.lxor (rotateRight w15 7) (rotateRight w15 18)) (Z.shiftr w15 3) in
    w2 ← rd words (i - 2);
    let s1 := Z.lxor (Z.lxor (rotateRight w2 17) (rotateRight w2 19)) (Z.shiftr w2 10) in
    w16 ← rd words (i - 16);
    w7 ← rd words (i - 7);
    schedule_words n (i + 1) (words ++ [u32 (u32 (u32 (w16 + s0) + w7) + s1)])
  end.

Fixpoint sha_rounds (n : nat) (i : Z) (words : list Z) (r : regs) : outcome regs :=
  match n with
  | O => Ok r
  | S n =>
    let '(Regs a b c d e f g h) := r in
    let sum1 := Z.lxor (Z.lxor (rotateRight e 6) (rotateRight e 11)) (rotateRight e 25) in
    let choice := Z.lxor (Z.land e f) (Z.land (u32 (Z.lnot e)) g) in
    k ← rd sha_constants i;
    w ← rd words i;
    let temp1 := u32 (u32 (u32 (u32 (h + sum1) + choice) + k) + w) in
    let sum0 := Z.lxor (Z.lxor (rotateRight a 2) (rotateRight a 13)) (rotateRight a 22) in
    let majority := Z.lxor (Z.lxor (Z.land a b) (Z.land a c)) (Z.land b c) in
    let temp2 := u32 (sum0 + majority) in
    sha_rounds n (i + 1) words (Regs (u32 (temp1 + temp2)) a b c (u32 (d + temp1)) e f g)
  end.

Definition sha256Transform (context : Sha256Context) (block : list Z) : outcome Sha256Context :=
  words ← load_words 16 0 block [];
  words ← schedule_words 48 16 words;
  r ← sha_rounds 64 0 words (load_regs (sha_state context));
  Ok (mkSha256 (add_regs (sha_state context) r) (bitCount context) (sha_block context) (blockSize context)).

(** [block] is what the member of that name holds before. *)
Definition sha256Init (context : Sha256Context) : Sha256Context :=
  mkSha256 sha_initial 0 (sha_block context) 0.

(** The loop of sha256Update from [data + p] on; [fuel] rounds at most. *)
Fixpoint sha256Update_loop (fuel : nat) (context : Sha256Context) (data : list Z) (p size : Z)
    : outcome Sha256Context :=
  if 0 <? size then
    match fuel with
    | O => Ub OutOfFuel
    | S fuel =>
      let available := 64 - blockSize context in
      let copied := if size <? available then size else available in
      bs ← rd_bytes data p copied;
      b ← wr_bytes (sha_block context) (blockSize context) bs;
      let c := mkSha256 (sha_state context) (u64 (bitCount context + copied * 8)) b
                 (blockSize context + copied) in
      c ← (if blockSize c =? 64 then
             c ← sha256Transform c (sha_block c);
             Ok (mkSha256 (sha_state c) (bitCount c) (sha_block c) 0)
           else Ok c);
      sha256Update_loop fuel c data (p + copied) (size - copied)
    end
  else Ok context.

Definition sha256Update (context : Sha256Context) (data : list Z) (p size : Z) : outcome Sha256Context :=
  sha256Update_loop (Z.to_nat size) context data p size.

(** The stores of the length and of the digest, [n] rounds from [i] on. *)
Fixpoint store_length (n : nat) (i bitCount : Z) (block : list Z) : outcome (list Z) :=
  match n with
  | O => Ok block
  | S n => block ← wr block (63 - i) (u8 (Z.shiftr bitCount (i * 8))); store_length n (i + 1) bitCount block
  end.

Fixpoint store_digest (n : nat) (i : Z) (st digest : list Z) : outcome (list Z) :=
  match n with
  | O => Ok digest
  | S n =>
    w ← rd st i;
    digest ← wr digest (i * 4) (u8 (Z.shiftr w 24));
    digest ← wr digest (i * 4 + 1) (u8 (Z.shiftr w 16));
    digest ← wr digest (i * 4 + 2) (u8 (Z.shiftr w 8));
    digest ← wr digest (i * 4 + 3) (u8 w);
    store_digest n (i + 1) st digest
  end.

Definition set_block (c : Sha256Context) (b : list Z) (n : Z) : Sha256Context :=
  mkSha256 (sha_state c) (bitCount c) b n.

Definition sha256Finish (context : Sha256Context) (digest : list Z) : outcome (Sha256Context * list Z) :=
  let bitCount := bitCount context in
  b ← wr (sha_block context) (blockSize context) 128;
  let c := set_block context b (blockSize context + 1) in
  c ← (if 56 <? blockSize c then
         b ← wr_bytes (sha_block c) (blockSize c) (replicate (Z.to_nat (64 - blockSize c)) 0);
         c ← sha256Transform (set_block c b (blockSize c)) b;
         Ok (set_block c (sha_block c) 0)
       else Ok c);
  b ← wr_bytes (sha_block c) (blockSize c) (replicate (Z.to_nat (56 - blockSize c)) 0);
  b ← store_length 8 0 bitCount b;
  c ← sha256Transform (set_block c b (blockSize c)) b;
  digest ← store_digest 8 0 (sha_state c) digest;
  Ok (c, digest).

(** [context] and [digest] as they are before. *)
Definition sha256 (context : Sha256Context) (data : list Z) (p size : Z) (digest : list Z) : outcome (list Z) :=
  c ← sha256Update (sha256Init context) data p size;
  '(_, digest) ← sha256Finish c digest;
  Ok digest.

(** * CRC-16 *)
Fixpoint crc_bits (n : nat) (crc : Z) : Z :=
  match n with
  | O => crc
  | S n => crc_bits n (if negb (Z.land crc 32768 =? 0) then u16 (Z.lxor (Z.shiftl crc 1) 4129)
                       else u16 (Z.shiftl crc 1))
  end.

Fixpoint crc16_loop (n : nat) (crc : Z) (data : list Z) (p : Z) : outcome Z :=
  match n with
  | O => Ok crc
  | S n => b ← rd data p; crc16_loop n (crc_bits 8 (Z.lxor crc (u16 (Z.shiftl b 8)))) data (p + 1)
  end.

Definition crc16Update (crc : Z) (data : list Z) (p size : Z) : outcome Z :=
  crc16_loop (Z.to_nat size) crc data p.

(** * Integers in memory *)
Lemma u32_plus_l x y : u32 (u32 x + y) = u32 (x + y).
Proof. unfold u32. apply Z.add_mod_idemp_l. lia. Qed.

Lemma u32_sum4 a b c d : u32 (u32 (u32 (a + b) + c) + d) = u32 (a + b + c + d).
Proof. by rewrite u32_plus_l, <-Z.add_assoc, u32_plus_l, Z.add_assoc. Qed.

Lemma u32_sum5 a b c d e : u32 (u32 (u32 (u32 (a + b) + c) + d) + e) = u32 (a + b + c + d + e).
Proof. by rewrite u32_sum4, <-!Z.add_assoc, u32_plus_l, !Z.add_assoc. Qed.

Lemma byte_shift b k : is_u8 b → 0 ≤ k ≤ 24 → u32 (Z.shiftl b k) = Z.shiftl b k.
Proof.
  intros Hb Hk. apply u32_id. unfold is_u8, is_u32 in *. rewrite Z.shiftl_mul_pow2 by lia.
  assert (2 ^ k ≤ 2 ^ 24) by (apply Z.pow_le_mono_r; lia).
  pose proof (Z.pow_pos_nonneg 2 k ltac:(lia) ltac:(lia)). change (2 ^ 24) with 16777216 in *. nia.
Qed.

Lemma list_4 (bs : list Z) : zlen bs = 4 → ∃ a b c d, bs = [a; b; c; d].
Proof.
  intros Hl. unfold zlen in Hl. destruct bs as [|a [|b [|c [|d [|e bs]]]]]; cbn in Hl; try lia. by eexists _, _, _, _.
Qed.

Lemma lor_bytes_be a b c d : is_u8 a → is_u8 b → is_u8 c → is_u8 d →
  Z.lor (Z.lor (Z.lor (Z.shiftl a 24) (Z.shiftl b 16)) (Z.shiftl c 8)) d = be_combine [a; b; c; d].
Proof.
  intros Ha Hb Hc Hd. unfold is_u8 in *. rewrite <-!Z.lor_assoc.
  rewrite (Z.lor_comm (Z.shiftl c 8) d), lor_shiftl_add by (cbn; lia).
  rewrite (Z.lor_comm (Z.shiftl b 16)), lor_shiftl_add by (cbn; lia).
  rewrite (Z.lor_comm (Z.shiftl a 24)), lor_shiftl_add by (cbn; lia).
  unfold be_combine. change (reverse [a; b; c; d]) with [d; c; b; a]. cbn [le_combine]. lia.
Qed.

Lemma be_combine_reverse bs : be_combine (reverse bs) = le_combine bs.
Proof. unfold be_combine. by rewrite reverse_involutive. Qed.

Lemma rd_4 (m : list Z) p a b c d : has m p [a; b; c; d] →
  rd m p = Ok a ∧ rd m (p + 1) = Ok b ∧ rd m (p + 2) = Ok c ∧ rd m (p + 3) = Ok d.
Proof.
  intros H. destruct (rd_cons _ _ _ _ H) as [H0 H']. destruct (rd_cons _ _ _ _ H') as [H1 H'']. 
  destruct (rd_cons _ _ _ _ H'') as [H2 H3]. apply rd_has in H3.
  replace (p + 1 + 1 + 1) with (p + 3) in H3 by lia. replace (p + 1 + 1) with (p + 2) in H2 by lia. done.
Qed.

Lemma readBigEndian32_has m p bs : bytes bs → zlen bs = 4 → has m p bs → readBigEndian32 m p = Ok (be_combine bs).
Proof.
  intros Hb Hl Hm. destruct (list_4 bs Hl) as (a & b & c & d & ->).
  apply Forall_cons in Hb as [Ha Hb]. apply Forall_cons in Hb as [Hb1 Hb]. apply Forall_cons in Hb as [Hc Hb].
  apply Forall_cons in Hb as [Hd _]. destruct (rd_4 _ _ _ _ _ _ Hm) as (H0 & H1 & H2 & H3).
  unfold readBigEndian32. rewrite H0, bind_Ok, H1, bind_Ok, H2, bind_Ok, H3, bind_Ok.
  by rewrite !byte_shift, lor_bytes_be by (done || lia).
Qed.

Lemma readLittleEndian32_has m p bs : bytes bs → zlen bs = 4 → has m p bs → readLittleEndian32 m p = Ok (le_combine bs).
Proof.
  intros Hb Hl Hm. destruct (list_4 bs Hl) as (a & b & c & d & ->).
  apply Forall_cons in Hb as [Ha Hb]. apply Forall_cons in Hb as [Hb1 Hb]. apply Forall_cons in Hb as [Hc Hb].
  apply Forall_cons in Hb as [Hd _]. destruct (rd_4 _ _ _ _ _ _ Hm) as (H0 & H1 & H2 & H3).
  unfold readLittleEndian32. rewrite H0, bind_Ok, H1, bind_Ok, H2, bind_Ok, H3, bind_Ok, !byte_shift by (done || lia).
  rewrite <-be_combine_reverse. change (reverse [a; b; c; d]) with [d; c; b; a]. rewrite <-lor_bytes_be by done.
  f_equal. generalize (Z.shiftl b 8) (Z.shiftl c 16) (Z.shiftl d 24). intros x y z.
  by rewrite (Z.lor_comm _ z), (Z.lor_comm _ y), (Z.lor_comm a x), !Z.lor_assoc.
Qed.

Lemma readLittleEndian16_has m p bs : bytes bs → zlen bs = 2 → has m p bs → readLittleEndian16 m p = Ok (le_combine bs).
Proof.
  intros Hb Hl Hm. unfold zlen in Hl. destruct bs as [|a [|b [|c bs]]]; cbn in Hl; try lia.
  apply Forall_cons in Hb as [Ha Hb]. apply Forall_cons in Hb as [Hb1 _]. destruct (rd_cons _ _ _ _ Hm) as [H0 H']. apply rd_has in H'.
  unfold readLittleEndian16. rewrite H0, bind_Ok, H', bind_Ok. unfold is_u8 in *. f_equal.
  assert (Z.shiftl b 8 = b * 256) as Hs by (rewrite Z.shiftl_mul_pow2 by lia; done).
  rewrite (u16_id (Z.shiftl b 8)) by (unfold is_u16; lia).
  rewrite lor_shiftl_add by (cbn; lia). cbn [le_combine]. rewrite u16_id by (unfold is_u16; cbn; lia). cbn; lia.
Qed.

(** * The compression function *)
Lemma has_take_drop (m : list Z) (j n : nat) : (j + n ≤ length m)%nat → has m (Z.of_nat j) (take n (drop j m)).
Proof.
  intros H. split; [lia|]. unfold zdrop. rewrite Nat2Z.id. exists (drop n (drop j m)). by rewrite take_drop.
Qed.

Lemma load_words_spec block n : bytes block → ∀ j ws, (4 * (j + n) ≤ length block)%nat →
  load_words n (Z.of_nat j) block ws = Ok (ws ++ Fips.be_words n (drop (4 * j) block)).
Proof.
  intros Hb. induction n as [|n IH]; intros j ws Hl; cbn [load_words Fips.be_words]; [by rewrite app_nil_r|].
  assert (length (take 4 (drop (4 * j) block)) = 4%nat) as H4 by (rewrite length_take, length_drop; lia).
  rewrite (readBigEndian32_has block _ (take 4 (drop (4 * j) block))).
  - rewrite bind_Ok. replace (Z.of_nat j + 1) with (Z.of_nat (S j)) by lia. rewrite IH by lia.
    rewrite <-app_assoc, drop_drop. cbn [app].
    by replace (4 * j + 4)%nat with (4 * S j)%nat by lia.
  - by apply Forall_take, Forall_drop.
  - unfold zlen. by rewrite H4.
  - replace (Z.of_nat j * 4) with (Z.of_nat (4 * j)) by lia. apply has_take_drop. lia.
Qed.

Lemma schedule_words_spec n : ∀ l, (16 ≤ length l)%nat →
  schedule_words n (Z.of_nat (length l)) l = Ok (Fips.extend n l).
Proof.
  induction n as [|n IH]; intros l Hl; [done|]. cbn [schedule_words Fips.extend].
  assert (∀ k, (0 < k ≤ 16)%nat → rd l (Z.of_nat (length l) - Z.of_nat k) = Ok (l !!! (length l - k)%nat)) as Hrd.
  { intros k Hk. rewrite <-Nat2Z.inj_sub by lia. apply rd_total. lia. }
  pose proof (Hrd 15%nat ltac:(lia)) as H15. pose proof (Hrd 2%nat ltac:(lia)) as H2.
  pose proof (Hrd 16%nat ltac:(lia)) as H16. pose proof (Hrd 7%nat ltac:(lia)) as H7.
  change (Z.of_nat 15) with 15 in H15. change (Z.of_nat 2) with 2 in H2.
  change (Z.of_nat 16) with 16 in H16. change (Z.of_nat 7) with 7 in H7.
  rewrite H15, bind_Ok, H2, bind_Ok, H16, bind_Ok, H7, bind_Ok.
  set (w := u32 _). assert (w = Fips.next_word l) as ->.
  { unfold w, Fips.next_word, sigma0_256, sigma1_256, S32, R, rotateRight. rewrite u32_sum4. f_equal. lia. }
  replace (Z.of_nat (length l) + 1) with (Z.of_nat (length (l ++ [Fips.next_word l]))) by (rewrite length_app; cbn; lia).
  apply IH. rewrite length_app. cbn. lia.
Qed.

Lemma sha_rounds_spec n : ∀ j ws r, length ws = 64%nat → (j + n ≤ 64)%nat →
  sha_rounds n (Z.of_nat j) ws r = Ok (Fips.rounds ws r (seq j n)).
Proof.
  induction n as [|n IH]; intros j ws r Hw Hj; [done|]. destruct r as [a b c d e f g h]. cbn [sha_rounds].
  rewrite (rd_total sha_constants), bind_Ok, (rd_total ws), bind_Ok by (try change (length sha_constants) with 64%nat; lia).
  replace (Z.of_nat j + 1) with (Z.of_nat (S j)) by lia. rewrite IH by lia.
  unfold Fips.rounds. cbn [seq fold_left]. do 2 f_equal. unfold sha_round. cbn [ra rb rc rd_ re rf rg rh].
  unfold Sigma1_256, Sigma0_256, Ch, Maj, S32, rotateRight. change sha_constants with K256.
  by rewrite (u32_sum5 h).
Qed.

Lemma length_extend n : ∀ l, length (Fips.extend n l) = (length l + n)%nat.
Proof. induction n as [|n IH]; intros l; cbn; [lia|]. rewrite IH, length_app. cbn. lia. Qed.

Lemma sha256Transform_spec c block : bytes block → length block = 64%nat →
  sha256Transform c block
  = Ok (mkSha256 (Fips.compress (sha_state c) block) (bitCount c) (sha_block c) (blockSize c)).
Proof.
  intros Hb Hl. unfold sha256Transform. pose proof (load_words_spec block 16 Hb 0 [] ltac:(lia)) as H.
  change (drop (4 * 0) block) with block in H. change (Z.of_nat 0) with 0 in H. rewrite H, bind_Ok. cbn [app].
  pose proof (length_be_words 16 block) as Hlw.
  pose proof (schedule_words_spec 48 (Fips.be_words 16 block) ltac:(lia)) as Hs. rewrite Hlw in Hs.
  change (Z.of_nat 16) with 16 in Hs. rewrite Hs, bind_Ok.
  pose proof (sha_rounds_spec 64 0 (Fips.extend 48 (Fips.be_words 16 block)) (load_regs (sha_state c))) as Hr.
  rewrite length_extend, Hlw in Hr. change (Z.of_nat 0) with 0 in Hr. rewrite Hr by lia. reflexivity.
Qed.

(** * Hashing in steps *)

(** The context has hashed [m]: its whole blocks are compressed, the rest is in
    the buffer. *)
Definition sha_of (c : Sha256Context) (m : list Z) : Prop :=
  bytes m ∧ bitCount c = u64 (8 * zlen m) ∧
  ∃ n full rest tail, m = full ++ rest ∧ length full = (64 * n)%nat ∧
    sha_state c = Fips.blocks n sha256_initial_hash_value full ∧
    sha_block c = rest ++ tail ∧ blockSize c = zlen rest ∧ zlen rest < 64 ∧ zlen (rest ++ tail) = 64.

Lemma sha_of_init c : zlen (sha_block c) = 64 → sha_of (sha256Init c) [].
Proof. intros Hb. split_and!; [constructor|done|]. by exists 0%nat, [], [], (sha_block c). Qed.

Lemma blocks_full n full rest : length full = (64 * n)%nat → length rest = 64%nat →
  Fips.blocks (S n) sha256_initial_hash_value (full ++ rest)
  = Fips.compress (Fips.blocks n sha256_initial_hash_value full) rest.
Proof.
  intros Hf Hr. rewrite <-Nat.add_1_r, blocks_app, blocks_prefix by lia. cbn [Fips.blocks].
  by rewrite drop_app_length', take_ge by lia.
Qed.

(** One round of the update loop takes [k]. *)
Lemma update_round c m k : sha_of c m → bytes k → 0 < zlen k ≤ 64 - blockSize c →
  ∃ b c', wr_bytes (sha_block c) (blockSize c) k = Ok b ∧
    (let c1 := mkSha256 (sha_state c) (u64 (bitCount c + zlen k * 8)) b (blockSize c + zlen k) in
     if blockSize c1 =? 64 then
       c ← sha256Transform c1 (sha_block c1); Ok (mkSha256 (sha_state c) (bitCount c) (sha_block c) 0)
     else Ok c1) = Ok c' ∧ sha_of c' (m ++ k).
Proof.
  intros (Hm & Hbc & n & full & rest & tail & -> & Hf & Hst & Hb & Hs & Hr & Hl) Hk Hkl.
  rewrite Hs in *. rewrite wr_bytes_splice, Hb, Hl, (proj2 (Z.leb_le _ _)) by (pose proof (zlen_nonneg rest); lia).
  assert (splice (rest ++ tail) (zlen rest) k = (rest ++ k) ++ zdrop (zlen k) tail) as ->.
  { unfold splice. rewrite ztake_app_exact, <-app_assoc by done. do 2 f_equal.
    by rewrite <-zdrop_zdrop, zdrop_app_exact by (done || apply zlen_nonneg). }
  rewrite zlen_app in Hl. assert (u64 (bitCount c + zlen k * 8) = u64 (8 * zlen ((full ++ rest) ++ k))) as Hbc'.
  { rewrite Hbc, u64_add_l, (zlen_app (full ++ rest) k). f_equal. lia. }
  assert (zlen (zdrop (zlen k) tail) = 64 - zlen rest - zlen k) as Hzt by (rewrite zlen_drop; lia).
  cbv zeta. cbn [blockSize sha_block sha_state bitCount].
  destruct (Z.eqb_spec (zlen rest + zlen k) 64) as [He|Hne].
  - assert (zdrop (zlen k) tail = []) as Hnil by (apply nil_length_inv; unfold zlen in *; lia).
    assert (length (rest ++ k) = 64%nat) as H64 by (rewrite length_app; unfold zlen in *; lia).
    rewrite Hnil, app_nil_r. eexists _, _. split; [done|].
    rewrite sha256Transform_spec; [|apply Forall_app; split; [by apply Forall_app in Hm as [_ ?]|done]|done].
    rewrite bind_Ok. split; [done|]. split_and!; [by apply Forall_app|done|].
    exists (S n), (full ++ rest ++ k), [], (rest ++ k). cbn [sha_state sha_block blockSize].
    rewrite app_nil_r, <-app_assoc, Hst, blocks_full by done. split_and!; try done.
    + rewrite !length_app in *. lia.
    + unfold zlen. cbn [app]. rewrite H64. done.
  - eexists _, _. split; [done|]. split; [done|]. split_and!; [by apply Forall_app|done|].
    exists n, full, (rest ++ k), (zdrop (zlen k) tail). cbn [sha_state sha_block blockSize].
    split_and!; try done; [by rewrite app_assoc|by rewrite zlen_app|rewrite zlen_app; lia|rewrite !zlen_app; lia].
Qed.

Lemma sha_of_size c m : sha_of c m → 0 ≤ blockSize c < 64.
Proof. intros (_ & _ & n & full & rest & tail & _ & _ & _ & _ & -> & Hr & _). pose proof (zlen_nonneg rest). lia. Qed.

Lemma update_loop_spec data fuel : ∀ k c m p, sha_of c m → bytes k → has data p k → p + zlen k ≤ zlen data →
  (length k ≤ fuel)%nat →
  ∃ c', sha256Update_loop fuel c data p (zlen k) = Ok c' ∧ sha_of c' (m ++ k).
Proof.
  induction fuel as [|fuel IH]; intros k c m p Hc Hk Hd Hp Hf.
  { destruct k; [|cbn in Hf; lia]. exists c. by rewrite app_nil_r. }
  destruct (decide (k = [])) as [->|Hne]; [exists c; by rewrite app_nil_r|].
  assert (0 < zlen k) as Hpos by (destruct k; [done|rewrite zlen_cons; pose proof (zlen_nonneg k); lia]).
  cbn [sha256Update_loop]. rewrite (proj2 (Z.ltb_lt _ _)) by done. pose proof (sha_of_size c m Hc) as Hs.
  set (n := if zlen k <? 64 - blockSize c then zlen k else 64 - blockSize c).
  assert (0 < n ≤ zlen k ∧ n ≤ 64 - blockSize c) as Hn by (unfold n; destruct (Z.ltb_spec (zlen k) (64 - blockSize c)); lia).
  set (k1 := ztake n k). set (k2 := zdrop n k).
  assert (zlen k1 = n) as H1 by (unfold k1; rewrite zlen_take; lia).
  assert (zlen k2 = zlen k - n) as H2 by (unfold k2; rewrite zlen_drop; lia).
  assert (k = k1 ++ k2) as Hsplit by (unfold k1, k2; by rewrite ztake_zdrop).
  rewrite Hsplit in Hd, Hk. apply has_app in Hd as [Hd1 Hd2]. apply Forall_app in Hk as [Hk1 Hk2].
  pose proof (proj1 Hd1) as Hp0.
  rewrite <-H1. rewrite (rd_bytes_has data p k1 Hd1), bind_Ok by lia.
  destruct (update_round c m k1 Hc Hk1 ltac:(lia)) as (b & c' & -> & Hr & Hc'). rewrite bind_Ok. cbv zeta in Hr |- *.
  rewrite Hr, bind_Ok. rewrite H1 in Hd2 |- *. rewrite <-H2.
  destruct (IH k2 c' (m ++ k1) (p + n) Hc' Hk2 Hd2) as (c'' & He & Hc''); [lia|unfold zlen in *; lia|].
  exists c''. split; [done|]. rewrite Hsplit. by rewrite app_assoc.
Qed.

Lemma sha256Update_spec c m data p k : sha_of c m → bytes k → has data p k → p + zlen k ≤ zlen data →
  ∃ c', sha256Update c data p (zlen k) = Ok c' ∧ sha_of c' (m ++ k).
Proof. intros. apply update_loop_spec; try done. unfold zlen. lia. Qed.

(** * The final block *)
Lemma le_split_snoc n : ∀ x, le_split (S n) x = le_split n x ++ [x / 256 ^ Z.of_nat n mod 256].
Proof.
  induction n as [|n IH]; intros x; [by cbn [le_split app Z.of_nat Z.pow Z.pow_pos]; rewrite Z.div_1_r|].
  change (le_split (S (S n)) x) with (x mod 256 :: le_split (S n) (x / 256)). rewrite IH.
  change (le_split (S n) x) with (x mod 256 :: le_split n (x / 256)). cbn [app]. do 3 f_equal.
  rewrite Z.div_div, Nat2Z.inj_succ, Z.pow_succ_r by lia. done.
Qed.

Lemma be_split_S n x : be_split (S n) x = u8 (Z.shiftr x (8 * Z.of_nat n)) :: be_split n x.
Proof.
  unfold be_split. rewrite le_split_snoc, reverse_app. cbn [reverse app]. 
  change (reverse [?a]) with [a]. cbn [app]. f_equal. unfold u8. rewrite Z.shiftr_div_pow2 by lia.
  do 2 f_equal. rewrite Z.pow_mul_r by lia. done.
Qed.

Lemma be_split_4 w : be_split 4 w = [u8 (Z.shiftr w 24); u8 (Z.shiftr w 16); u8 (Z.shiftr w 8); u8 w].
Proof. rewrite !be_split_S. cbn [Z.of_nat Z.mul]. change (be_split 0 w) with (@nil Z). by rewrite Z.shiftr_0_r. Qed.

Lemma store_length_spec n : ∀ i b x t, length x = 56%nat → length t = n → (n + i = 8)%nat →
  store_length n (Z.of_nat i) b (x ++ t ++ be_split i b) = Ok (x ++ be_split 8 b).
Proof.
  induction n as [|n IH]; intros i b x t Hx Ht Hi.
  { destruct t; [|done]. by replace i with 8%nat by lia. }
  cbn [store_length]. destruct (exists_last (l := t)) as (t' & v & ->); [by destruct t|].
  rewrite length_app in Ht. cbn in Ht.
  replace (63 - Z.of_nat i) with (zlen (x ++ t')) by (unfold zlen; rewrite length_app; lia).
  assert (x ++ (t' ++ [v]) ++ be_split i b = (x ++ t') ++ v :: be_split i b) as -> by by rewrite <-!app_assoc.
  rewrite wr_splice by apply zlen_nonneg.
  rewrite (proj2 (Z.leb_le _ _)) by (rewrite (zlen_app (x ++ t')), zlen_cons; pose proof (zlen_nonneg (be_split i b)); lia).
  rewrite bind_Ok.
  assert (∀ (l : list Z) r u w, splice (l ++ u :: r) (zlen l) [w] = l ++ w :: r) as Hsp.
  { intros l r u w. unfold splice. change (zlen [w]) with 1. rewrite ztake_app_exact by done. do 2 f_equal.
    replace (l ++ u :: r) with ((l ++ [u]) ++ r) by by rewrite <-app_assoc.
    apply zdrop_app_exact. by rewrite zlen_app. }
  rewrite Hsp, <-app_assoc. replace (Z.of_nat i + 1) with (Z.of_nat (S i)) by lia.
  replace (u8 (Z.shiftr b (Z.of_nat i * 8)) :: be_split i b) with (be_split (S i) b)
    by (rewrite be_split_S; do 3 f_equal; lia).
  apply IH; lia.
Qed.

Lemma splice_mid (l r : list Z) a b : zlen a = zlen b → splice (l ++ a ++ r) (zlen l) b = l ++ b ++ r.
Proof.
  intros He. unfold splice. rewrite ztake_app_exact by done. do 2 f_equal.
  rewrite <-zdrop_zdrop, zdrop_app_exact by (done || apply zlen_nonneg). by apply zdrop_app_exact.
Qed.

Lemma store_digest_spec n : ∀ j st l t r, (j + n ≤ length st)%nat → length l = (4 * j)%nat →
  length t = (4 * n)%nat →
  store_digest n (Z.of_nat j) st (l ++ t ++ r) = Ok (l ++ concat (be_split 4 <$> take n (drop j st)) ++ r).
Proof.
  induction n as [|n IH]; intros j st l t r Hj Hl Ht.
  { destruct t; [|done]. done. }
  cbn [store_digest]. rewrite rd_total, bind_Ok by lia. set (w := st !!! j).
  destruct t as [|a0 [|a1 [|a2 [|a3 t]]]]; cbn in Ht; try lia.
  assert (Z.of_nat j * 4 = zlen l) as -> by (unfold zlen; lia).
  assert (∀ v b0 b1 b2 b3 k, 0 ≤ k < 4 → ∀ m, wr (l ++ [b0; b1; b2; b3] ++ m) (zlen l + k) v
    = Ok (l ++ (<[Z.to_nat k := v]> [b0; b1; b2; b3]) ++ m)) as Hw.
  { intros v b0 b1 b2 b3 k Hk m. unfold wr. pose proof (zlen_nonneg l). pose proof (zlen_nonneg m).
    rewrite (proj2 (Z.leb_le _ _)), (proj2 (Z.ltb_lt _ _)) by (rewrite ?zlen_app, ?zlen_cons; change (zlen (@nil Z)) with 0; lia).
    cbn [andb]. f_equal. replace (Z.to_nat (zlen l + k)) with (length l + Z.to_nat k)%nat by (unfold zlen; lia).
    rewrite insert_app_r. f_equal. apply insert_app_l. cbn. lia. }
  assert (l ++ (a0 :: a1 :: a2 :: a3 :: t) ++ r = l ++ [a0; a1; a2; a3] ++ t ++ r) as -> by done.
  rewrite <-(Z.add_0_r (zlen l)) at 1. rewrite (Hw _ a0 a1 a2 a3 0), bind_Ok by lia.
  change (<[Z.to_nat 0 := ?v]> [a0; a1; a2; a3]) with [v; a1; a2; a3].
  rewrite (Hw _ _ a1 a2 a3 1), bind_Ok by lia. change (<[Z.to_nat 1 := ?v]> [?x; a1; a2; a3]) with [x; v; a2; a3].
  rewrite (Hw _ _ _ a2 a3 2), bind_Ok by lia. change (<[Z.to_nat 2 := ?v]> [?x; ?y; a2; a3]) with [x; y; v; a3].
  rewrite (Hw _ _ _ _ a3 3), bind_Ok by lia. change (<[Z.to_nat 3 := ?v]> [?x; ?y; ?z; a3]) with [x; y; z; v].
  rewrite <-be_split_4. replace (Z.of_nat j + 1) with (Z.of_nat (S j)) by lia.
  rewrite (app_assoc l), (IH (S j)); [|lia|rewrite length_app, length_be_split; lia|lia].
  assert (drop j st = w :: drop (S j) st) as Hd.
  { apply drop_S. unfold w. apply list_lookup_lookup_total_lt. lia. }
  rewrite Hd. cbn [take]. rewrite fmap_cons. cbn [concat]. by rewrite <-!app_assoc.
Qed.

(** Blocks of a message whose first [n] are compressed. *)
Lemma blocks_rest n t full tail : length full = (64 * n)%nat →
  Fips.blocks (n + t) sha256_initial_hash_value (full ++ tail)
  = Fips.blocks t (Fips.blocks n sha256_initial_hash_value full) tail.
Proof. intros Hf. by rewrite blocks_app, blocks_prefix, drop_app_length' by lia. Qed.

Lemma pad_shape n full rest : length full = (64 * n)%nat → zlen rest < 64 →
  let z := if zlen rest <? 56 then 55 - zlen rest else 119 - zlen rest in
  Fips.pad (full ++ rest) = full ++ (rest ++ 128 :: zeros z) ++ be_split 8 (8 * zlen (full ++ rest)).
Proof.
  intros Hf Hr z. rewrite pad_app. rewrite <-!app_assoc. do 2 f_equal. f_equal. cbn [app]. f_equal.
  rewrite pad_zeros_spec. 
  assert ((length (full ++ rest) mod 64)%nat = length rest) as ->.
  { rewrite length_app, Hf, Nat.add_comm, Nat.mul_comm, Nat.Div0.mod_add. apply Nat.mod_small. unfold zlen in Hr. lia. }
  done.
Qed.

Lemma wr_at (l r : list Z) a v : wr (l ++ a :: r) (zlen l) v = Ok (l ++ v :: r).
Proof.
  rewrite wr_splice by apply zlen_nonneg.
  rewrite (proj2 (Z.leb_le _ _)) by (rewrite zlen_app, zlen_cons; pose proof (zlen_nonneg r); lia).
  f_equal. by apply (splice_mid l r [a] [v]).
Qed.

Lemma wr_bytes_at (l r : list Z) a b : zlen a = zlen b → wr_bytes (l ++ a ++ r) (zlen l) b = Ok (l ++ b ++ r).
Proof.
  intros He. rewrite wr_bytes_splice by apply zlen_nonneg.
  rewrite (proj2 (Z.leb_le _ _)) by (rewrite !zlen_app; pose proof (zlen_nonneg r); lia).
  f_equal. by apply splice_mid.
Qed.

Lemma split_at (l : list Z) n : 0 ≤ n ≤ zlen l → ∃ a b, l = a ++ b ∧ zlen a = n ∧ zlen b = zlen l - n.
Proof.
  intros Hn. exists (ztake n l), (zdrop n l). split_and!; [by rewrite ztake_zdrop|rewrite zlen_take; lia|rewrite zlen_drop; lia].
Qed.

(** The last block: [x] followed by zeros and the length. *)
Lemma last_block st bc x tail bits : bytes x → zlen x ≤ 56 → zlen tail = 64 - zlen x →
  let blk := x ++ zeros (56 - zlen x) ++ be_split 8 bits in
  ∃ b, wr_bytes (x ++ tail) (zlen x) (replicate (Z.to_nat (56 - zlen x)) 0) = Ok b ∧
    store_length 8 0 bits b = Ok blk ∧
    sha256Transform (mkSha256 st bc blk (zlen x)) blk
    = Ok (mkSha256 (Fips.compress st blk) bc blk (zlen x)).
Proof.
  intros Hx Hl Ht blk. destruct (split_at tail (56 - zlen x)) as (t1 & t2 & -> & H1 & H2); [lia|].
  exists (x ++ zeros (56 - zlen x) ++ t2). split_and!.
  - apply wr_bytes_at. fold (zeros (56 - zlen x)). rewrite zlen_zeros; lia.
  - pose proof (store_length_spec 8 0 bits (x ++ zeros (56 - zlen x)) t2) as Hs.
    change (be_split 0 bits) with (@nil Z) in Hs. rewrite app_nil_r, <-!app_assoc in Hs. apply Hs.
    + rewrite length_app. unfold zeros, zlen in *. rewrite length_replicate. lia.
    + unfold zlen in *. lia.
    + done.
  - rewrite sha256Transform_spec; [done| |]; unfold blk.
    + repeat (apply Forall_app; split); [done|apply zeros_bytes|apply be_split_bytes].
    + rewrite !length_app, length_be_split. unfold zeros, zlen in *. rewrite length_replicate. lia.
Qed.

Lemma u64_be_split x : be_split 8 (u64 x) = be_split 8 x.
Proof. unfold be_split. f_equal. apply (le_split_mod 8 x). Qed.

(** The digest of a message from the blocks of its padding. *)
Lemma digest_lemma n full rest blks t st d : length full = (64 * n)%nat → length blks = (64 * t)%nat →
  Fips.pad (full ++ rest) = full ++ blks →
  st = Fips.blocks t (Fips.blocks n sha256_initial_hash_value full) blks → zlen d = 32 →
  store_digest 8 0 st d = Ok (Fips.sha256 (full ++ rest)).
Proof.
  intros Hf Hb Hp Hst Hd.
  assert (st = Fips.blocks (length (Fips.pad (full ++ rest)) / 64) sha256_initial_hash_value (Fips.pad (full ++ rest))) as Hfull.
  { rewrite Hp, length_app, Hf, Hb. replace (64 * n + 64 * t)%nat with ((n + t) * 64)%nat by lia.
    by rewrite Nat.div_mul, blocks_rest by lia. }
  assert (length st = 8%nat) as Hl by by rewrite Hfull, length_blocks.
  pose proof (store_digest_spec 8 0 st [] d []) as Hsd. change (Z.of_nat 0) with 0 in Hsd.
  cbn [app] in Hsd. rewrite !app_nil_r in Hsd. rewrite Hsd, drop_0, take_ge; [|lia|lia|done|unfold zlen in Hd; lia].
  unfold Fips.sha256. by rewrite Hfull.
Qed.

Lemma sha256Finish_spec c m d : sha_of c m → zlen d = 32 →
  ∃ c', sha256Finish c d = Ok (c', Fips.sha256 m).
Proof.
  intros (Hm & Hbc & n & full & rest & tail & -> & Hf & Hst & Hb & Hs & Hr & Hl) Hd. pose proof (zlen_nonneg rest).
  rewrite zlen_app in Hl. destruct tail as [|t0 tail]; [change (zlen (@nil Z)) with 0 in Hl; lia|].
  rewrite zlen_cons in Hl. apply Forall_app in Hm as [_ Hrb].
  pose proof (pad_shape n full rest Hf Hr) as Hpad. cbv zeta in Hpad.
  assert (be_split 8 (8 * zlen (full ++ rest)) = be_split 8 (bitCount c)) as Hlen by by rewrite Hbc, u64_be_split.
  rewrite Hlen in Hpad. clear Hlen.
  unfold sha256Finish. rewrite Hb, Hs, wr_at, bind_Ok. cbn [blockSize set_block sha_block].
  set (x := rest ++ [128]). assert (zlen x = zlen rest + 1) as Hx by by unfold x; rewrite zlen_app.
  assert (bytes x) as Hxb by (apply Forall_app; split; [done|by repeat constructor]).
  replace (rest ++ 128 :: tail) with (x ++ tail) by (unfold x; by rewrite <-app_assoc). rewrite <-Hx.
  destruct (Z.ltb_spec 56 (zlen x)) as [Hbig|Hsmall].
  - rewrite <-(app_nil_r (x ++ tail)), <-app_assoc. fold (zeros (64 - zlen x)).
    rewrite wr_bytes_at, bind_Ok, !app_nil_r by (rewrite zlen_zeros; lia). set (blk1 := x ++ zeros (64 - zlen x)).
    assert (length blk1 = 64%nat) as Hb1 by (unfold blk1; rewrite length_app; unfold zeros, zlen in *; rewrite length_replicate; lia).
    rewrite sha256Transform_spec; [|by apply Forall_app; split; [|apply zeros_bytes]|done].
    rewrite !bind_Ok. cbn [set_block sha_block blockSize sha_state bitCount].
    set (st1 := Fips.compress (sha_state c) blk1).
    destruct (last_block st1 (bitCount c) [] blk1 (bitCount c) ltac:(constructor) ltac:(done) ltac:(unfold zlen in *; cbn; lia))
      as (b & Hw & Hsl & Ht). cbn [app] in Hw, Hsl, Ht. change (zlen (@nil Z)) with 0 in Hw, Hsl, Ht.
    rewrite Hw, bind_Ok, Hsl, bind_Ok. unfold set_block. cbn [sha_state bitCount]. rewrite Ht, bind_Ok. cbn [sha_state].
    rewrite (digest_lemma n full rest (blk1 ++ zeros 56 ++ be_split 8 (bitCount c)) 2); [rewrite bind_Ok; by eexists|exact Hf| | | |exact Hd].
    + rewrite !length_app, Hb1. done.
    + rewrite Hpad. f_equal. rewrite (proj2 (Z.ltb_ge _ _)) by lia. unfold blk1, x. rewrite <-!app_assoc. cbn [app].
      do 2 f_equal. rewrite app_assoc. f_equal. unfold zeros. rewrite <-replicate_add. f_equal.
      rewrite zlen_app. change (zlen [128]) with 1. lia.
    + cbn [Fips.blocks]. rewrite take_app_length', drop_app_length' by lia. unfold st1. rewrite Hst.
      by rewrite take_ge by done.
  - rewrite bind_Ok. cbn [set_block sha_block blockSize sha_state bitCount].
    destruct (last_block (sha_state c) (bitCount c) x tail (bitCount c) Hxb Hsmall ltac:(lia)) as (b & Hw & Hsl & Ht).
    rewrite Hw, bind_Ok, Hsl, bind_Ok. unfold set_block. cbn [sha_state bitCount]. rewrite Ht, bind_Ok. cbn [sha_state].
    rewrite (digest_lemma n full rest (x ++ zeros (56 - zlen x) ++ be_split 8 (bitCount c)) 1); [rewrite bind_Ok; by eexists|exact Hf| | | |exact Hd].
    + rewrite !length_app, length_be_split. unfold zeros, zlen in *. rewrite length_replicate. lia.
    + rewrite Hpad. f_equal. rewrite (proj2 (Z.ltb_lt _ _)) by lia. unfold x. rewrite <-!app_assoc. cbn [app].
      do 4 f_equal. rewrite zlen_app. change (zlen [128]) with 1. lia.
    + cbn [Fips.blocks]. rewrite take_ge; [by rewrite Hst|]. rewrite !length_app, length_be_split.
      unfold zeros, zlen in *. rewrite length_replicate. lia.
Qed.

Lemma sha256_spec c data p k d : zlen (sha_block c) = 64 → bytes k → has data p k → p + zlen k ≤ zlen data →
  zlen d = 32 → sha256 c data p (zlen k) d = Ok (Fips.sha256 k).
Proof.
  intros Hc Hk Hd Hp Hl. unfold sha256.
  destruct (sha256Update_spec _ [] data p k (sha_of_init c Hc) Hk Hd Hp) as (c' & -> & Hc'). rewrite bind_Ok.
  by destruct (sha256Finish_spec c' _ d Hc' Hl) as (c'' & ->).
Qed.

(** * The CRC as a remainder *)

(** The byte-wise update as a function, and the checksum of a message. *)
Definition crc_byte (c b : Z) : Z := crc_bits 8 (Z.lxor c (u16 (Z.shiftl b 8))).
Definition crc16 (m : list Z) : Z := fold_left crc_byte m 0.

Lemma crc16_loop_spec k data : ∀ c p, has data p k → crc16_loop (length k) c data p = Ok (fold_left crc_byte k c).
Proof.
  induction k as [|b k IH]; intros c p H; [done|]. cbn [length crc16_loop fold_left].
  destruct (rd_cons _ _ _ _ H) as [-> H']. by rewrite bind_Ok, IH.
Qed.

Lemma crc16Update_spec m k data p : has data p k →
  crc16Update (crc16 m) data p (zlen k) = Ok (crc16 (m ++ k)).
Proof.
  intros H. unfold crc16Update. replace (Z.to_nat (zlen k)) with (length k) by (unfold zlen; lia).
  rewrite (crc16_loop_spec k data _ p H). unfold crc16. by rewrite fold_left_app.
Qed.

(** Polynomials over GF(2) as numbers: x^16 + x^12 + x^5 + 1 and its multiples. *)
Definition crc_poly : Z := 69665.
Definition multiple (x : Z) : Prop :=
  ∃ ks : list Z, Forall (λ k, 0 ≤ k) ks ∧ x = foldr (λ k a, Z.lxor (Z.shiftl crc_poly k) a) 0 ks.

Lemma multiple_0 : multiple 0.
Proof. by exists []. Qed.

Lemma multiple_poly : multiple crc_poly.
Proof. exists [0]. split; [by repeat constructor|]. done. Qed.

Lemma multiple_xor x y : multiple x → multiple y → multiple (Z.lxor x y).
Proof.
  intros (k1 & H1 & ->) (k2 & H2 & ->). exists (k1 ++ k2). split; [by apply Forall_app|]. clear H1.
  induction k1 as [|k k1 IH]; [done|]. cbn [foldr app]. by rewrite Z.lxor_assoc, IH.
Qed.

Lemma multiple_shift x n : 0 ≤ n → multiple x → multiple (Z.shiftl x n).
Proof.
  intros Hn (ks & Hk & ->). exists ((λ k, k + n) <$> ks). split.
  - apply Forall_fmap. eapply Forall_impl; [exact Hk|]. intros k Hk0. unfold compose. cbv beta in *. lia.
  - induction Hk as [|k ks Hk _ IH]; [by rewrite Z.shiftl_0_l|]. rewrite fmap_cons. cbn [foldr].
    by rewrite Z.shiftl_lxor, IH, Z.shiftl_shiftl.
Qed.

Lemma crc_bit c : 0 ≤ c < 65536 → 0 ≤ crc_bits 1 c < 65536 ∧ multiple (Z.lxor (Z.shiftl c 1) (crc_bits 1 c)).
Proof.
  set (ok := λ c, (Z.lxor (Z.shiftl c 1) (crc_bits 1 c) =? 0) || (Z.lxor (Z.shiftl c 1) (crc_bits 1 c) =? crc_poly)).
  intros Hc. assert (ok c = true) as Hok.
  { replace c with (256 * (c / 256) + c mod 256) by dlia. assert (0 ≤ c / 256 < 256) as Hh by dlia.
    assert (0 ≤ c mod 256 < 256) as Hl by dlia. revert Hl. generalize (c mod 256). revert Hh. generalize (c / 256).
    intros h Hh l Hl. revert l Hl. apply (forallb_seqZ (λ l, ok (256 * h + l))). revert h Hh.
    apply (forallb_seqZ (λ h, forallb (λ l, ok (256 * h + l)) (seqZ 0 256))). by vm_compute. }
  assert (Z.lxor (Z.shiftl c 1) (crc_bits 1 c) = 0 ∨ Z.lxor (Z.shiftl c 1) (crc_bits 1 c) = crc_poly) as Hx
    by (unfold ok in Hok; lia).
  split; [|destruct Hx as [-> | ->]; [apply multiple_0|apply multiple_poly]].
  cbn [crc_bits]. case_match; apply u16_range.
Qed.

Lemma crc_bits_S n c : crc_bits (S n) c = crc_bits n (crc_bits 1 c).
Proof. done. Qed.

Lemma crc_bits_spec n : ∀ c, 0 ≤ c < 65536 →
  0 ≤ crc_bits n c < 65536 ∧ multiple (Z.lxor (Z.shiftl c (Z.of_nat n)) (crc_bits n c)).
Proof.
  induction n as [|n IH]; intros c Hc.
  { split; [done|]. cbn [crc_bits Z.of_nat]. rewrite Z.shiftl_0_r, Z.lxor_nilpotent. apply multiple_0. }
  rewrite crc_bits_S. destruct (crc_bit c Hc) as [H1 H2]. destruct (IH _ H1) as [H3 H4]. split; [done|].
  pose proof (multiple_xor _ _ (multiple_shift _ (Z.of_nat n) ltac:(lia) H2) H4) as H.
  rewrite Z.shiftl_lxor, Z.shiftl_shiftl in H by lia.
  rewrite Z.lxor_assoc, <-(Z.lxor_assoc (Z.shiftl (crc_bits 1 c) _)), Z.lxor_nilpotent, Z.lxor_0_l in H.
  by replace (Z.of_nat (S n)) with (1 + Z.of_nat n) by lia.
Qed.

Lemma be_combine_snoc m b : be_combine (m ++ [b]) = be_combine m * 256 + b.
Proof. unfold be_combine. rewrite reverse_app. cbn [reverse app]. change (reverse [b]) with [b]. cbn [app le_combine]. lia. Qed.

Lemma crc16_lemma m : bytes m → 0 ≤ crc16 m < 65536 ∧ multiple (Z.lxor (Z.shiftl (be_combine m) 16) (crc16 m)).
Proof.
  unfold crc16. induction m as [|b m IH] using rev_ind; intros Hb.
  { split; [done|]. apply multiple_0. }
  apply Forall_app in Hb as [Hm Hb]. apply Forall_cons in Hb as [Hb _]. destruct (IH Hm) as [Hr Hmul].
  rewrite fold_left_app. cbn [fold_left]. set (c := fold_left crc_byte m 0) in *. unfold crc_byte.
  unfold is_u8 in Hb. assert (Z.shiftl b 8 = b * 256) as Hs by (rewrite Z.shiftl_mul_pow2 by lia; done).
  rewrite u16_id by (unfold is_u16; lia).
  destruct (crc_bits_spec 8 (Z.lxor c (Z.shiftl b 8))) as [H1 H2].
  { apply (lxor_range 16); [lia|done|rewrite Hs; change (2 ^ 16) with 65536; lia]. }
  split; [exact H1|]. rewrite be_combine_snoc.
  pose proof (multiple_xor _ _ (multiple_shift _ 8 ltac:(lia) Hmul) H2) as H.
  assert (be_combine m * 256 + b = Z.lxor (Z.shiftl (be_combine m) 8) b) as ->.
  { rewrite Z.add_comm. change 256 with (2 ^ 8). rewrite <-(lor_shiftl_add 8) by (cbn; lia).
    rewrite Z.lor_comm. apply Z.bits_inj'. intros i Hi. rewrite Z.lor_spec, Z.lxor_spec, Z.shiftl_spec by done.
    destruct (Z.ltb_spec i 8).
    - rewrite (Z.testbit_neg_r _ (i - 8)) by lia. by destruct (Z.testbit b i).
    - assert (Z.testbit b i = false) as ->; [|by destruct (Z.testbit _ _)].
      apply (proj1 (Z.bounded_iff_bits_nonneg 8 b ltac:(lia) ltac:(lia)) ltac:(cbn; lia)). done. }
  change (Z.of_nat 8) with 8 in H. set (w := crc_bits 8 _) in *.
  rewrite !Z.shiftl_lxor, (Z.shiftl_shiftl _ 16 8), (Z.shiftl_shiftl b 8 8) in H by lia.
  rewrite Z.shiftl_lxor, (Z.shiftl_shiftl _ 8 16) by lia.
  change (16 + 8) with 24 in H. change (8 + 8) with 16 in H. change (8 + 16) with 24.
  revert H. generalize (Z.shiftl (be_combine m) 24) (Z.shiftl c 8) (Z.shiftl b 16) w.
  intros x y z v H. replace (Z.lxor (Z.lxor x z) v) with (Z.lxor (Z.lxor x y) (Z.lxor (Z.lxor y z) v)); [exact H|].
  rewrite !Z.lxor_assoc. f_equal. by rewrite <-Z.lxor_assoc, Z.lxor_nilpotent, Z.lxor_0_l.
Qed.

(** * Properties *)

(** One update per chunk. *)
Fixpoint update_chunks (c : Sha256Context) (crc : Z) (ks : list (list Z)) : outcome (Sha256Context * Z) :=
  match ks with
  | [] => Ok (c, crc)
  | k :: ks =>
    c ← sha256Update c k 0 (zlen k);
    crc ← crc16Update crc k 0 (zlen k);
    update_chunks c crc ks
  end.

Lemma update_chunks_spec ks : ∀ c m, sha_of c m → Forall (Forall is_u8) ks →
  ∃ c', update_chunks c (crc16 m) ks = Ok (c', crc16 (m ++ concat ks)) ∧ sha_of c' (m ++ concat ks).
Proof.
  induction ks as [|k ks IH]; intros c m Hc Hk; [exists c; by rewrite app_nil_r|].
  apply Forall_cons in Hk as [Hk Hks]. cbn [update_chunks concat].
  destruct (sha256Update_spec c m k 0 k Hc Hk (has_self k) ltac:(lia)) as (c1 & -> & Hc1).
  rewrite bind_Ok, (crc16Update_spec m k k 0 (has_self k)), bind_Ok.
  destruct (IH c1 (m ++ k) Hc1 Hks) as (c2 & -> & Hc2). exists c2. by rewrite app_assoc.
Qed.

(** C31: for every division of a message into chunks, the staging engine's
    SHA-256 gives the digest of FIPS 180-4 and its CRC the remainder of the
    message, times x^16, by the CRC-16/XMODEM polynomial. *)
Theorem OTA_checksums_spec c ks d : zlen (sha_block c) = 64 → Forall (Forall is_u8) ks → zlen d = 32 →
  ∃ c' c'' crc, update_chunks (sha256Init c) 0 ks = Ok (c', crc) ∧
    sha256Finish c' d = Ok (c'', Fips.sha256 (concat ks)) ∧
    0 ≤ crc < 65536 ∧ multiple (Z.lxor (Z.shiftl (be_combine (concat ks)) 16) crc).
Proof.
  intros Hc Hk Hd. destruct (update_chunks_spec ks _ [] (sha_of_init c Hc) Hk) as (c' & Hu & Hc').
  destruct (sha256Finish_spec c' _ d Hc' Hd) as (c'' & Hf). exists c', c'', (crc16 (concat ks)).
  assert (bytes (concat ks)) as Hb by by apply Forall_concat.
  split; [exact Hu|]. split; [exact Hf|]. by apply crc16_lemma.
Qed.

Lemma OTA_checksums_spec_witness :
  ∃ c' c'' crc, update_chunks (sha256Init (mkSha256 [] 0 (zeros 64) 0)) 0 [[1; 2]; []; [3]] = Ok (c', crc) ∧
    sha256Finish c' (zeros 32) = Ok (c'', Fips.sha256 [1; 2; 3]) ∧
    0 ≤ crc < 65536 ∧ multiple (Z.lxor (Z.shiftl (be_combine [1; 2; 3]) 16) crc).
Proof.
  apply (OTA_checksums_spec (mkSha256 [] 0 (zeros 64) 0) [[1; 2]; []; [3]] (zeros 32));
    [done|by repeat constructor|done].
Defined.
