(* ===== verification/OtaStaging.v ===== *)
(** OTAStaging.cpp: the engine that receives a signed firmware package, stages
    its payload in Flash, verifies it and activates it.

    The variables of the file are the record [ota]. The platform operations and
    the callbacks of the caller act on a world of any type [W]; they are
    arguments, and are assumed not to call the engine. A null pointer is [None].
    Local arrays, which the code fills before it reads them, start as zeros. *)
From S2P Require Export OtaSha.

Definition OTA_PACKAGE_HEADER_SIZE : Z := 320.
Definition OTA_PACKAGE_SIGNATURE_SIZE : Z := 64.
Definition OTA_PACKAGE_PAYLOAD_OFFSET : Z := 384.
Definition OTA_IMAGE_DESCRIPTOR_OFFSET : Z := 512.
Definition OTA_IMAGE_DESCRIPTOR_SIZE : Z := 256.
Definition OTA_SHA256_SIZE : Z := 32.
Definition OTA_STAGING_ERASE_BLOCK_SIZE : Z := 4096.
Definition OTA_STAGING_WRITE_BLOCK_SIZE : Z := 512.
Definition OTA_STAGING_READ_BACK_BLOCK_SIZE : Z := 512.
Definition OTA_STAGING_FLASH_OPERATION_MAX_MS : Z := 2000.
Definition OTA_STAGING_SIGNATURE_MAX_MS : Z := 5000.
Definition OTA_STAGING_ACTIVATION_MAX_MS : Z := 15000.
Definition DescriptorOffset : Z := 64.
Definition VectorSize : Z := 8.
Definition PublicKeyDerSize : Z := 91.
Definition RamStartExclusive : Z := 536871364.
Definition RamEndInclusive : Z := 537133056.
Definition UINT32_MAX : Z := 4294967295.
Definition UINT16_MAX : Z := 65535.

Definition PublicKeyPrefix : list Z :=
  [48; 89; 48; 19; 6; 7; 42; 134; 72; 206; 61; 2; 1; 6; 8; 42; 134; 72; 206; 61; 3; 1; 7; 3; 66; 0; 4].

Inductive OTAStagingState :=
| OTA_STATE_IDLE
| OTA_STATE_RECEIVING
| OTA_STATE_VERIFYING
| OTA_STATE_READY
| OTA_STATE_ACTIVATING
| OTA_STATE_FAILED
| OTA_STATE_CANCELLED
| OTA_STATE_ACTIVATED.

Inductive OTAStagingError :=
| OTA_OK
| OTA_ERROR_INVALID_ARGUMENT
| OTA_ERROR_INVALID_STATE
| OTA_ERROR_BUSY
| OTA_ERROR_PACKAGE_SIZE
| OTA_ERROR_PACKAGE_FORMAT
| OTA_ERROR_UNSUPPORTED
| OTA_ERROR_OVERFLOW
| OTA_ERROR_PARTITION
| OTA_ERROR_IMAGE_BOUNDS
| OTA_ERROR_KEY_FORMAT
| OTA_ERROR_KEY_MISMATCH
| OTA_ERROR_SIGNATURE
| OTA_ERROR_SIGNATURE_TIMEOUT
| OTA_ERROR_ADMISSION_REJECTED
| OTA_ERROR_CANCELLED
| OTA_ERROR_ERASE
| OTA_ERROR_ERASE_TIMEOUT
| OTA_ERROR_WRITE
| OTA_ERROR_SHORT_WRITE
| OTA_ERROR_WRITE_TIMEOUT
| OTA_ERROR_INCOMPLETE
| OTA_ERROR_TRAILING_DATA
| OTA_ERROR_HASH_MISMATCH
| OTA_ERROR_READ_BACK
| OTA_ERROR_READ_BACK_TIMEOUT
| OTA_ERROR_READ_BACK_HASH_MISMATCH
| OTA_ERROR_READ_BACK_CRC_MISMATCH
| OTA_ERROR_DESCRIPTOR_MISMATCH
| OTA_ERROR_VECTOR_TABLE
| OTA_ERROR_ACTIVATION
| OTA_ERROR_ACTIVATION_UNCERTAIN.

#[export] Instance OTAStagingState_eq_dec : EqDecision OTAStagingState.
Proof. solve_decision. Defined.
#[export] Instance OTAStagingError_eq_dec : EqDecision OTAStagingError.
Proof. solve_decision. Defined.

Record OTAStagingMetadata := mkMetadata {
  productId : list Z; boardId : list Z; firmwareVersion : list Z;
  versionMajor : Z; versionMinor : Z; versionPatch : Z; sourceCommit : list Z;
  applicationAddress : Z; applicationCapacity : Z; md_payloadSize : Z; md_sha256 : list Z }.

Record OTAStagedImageInfo := mkInfo {
  sessionGeneration : Z; info_payloadSize : Z; info_crc16 : Z; info_sha256 : list Z;
  info_metadata : OTAStagingMetadata }.

Record OTAStagingStatus := mkStatus {
  st_state : OTAStagingState; lastError : OTAStagingError; packageSize : Z;
  packageReceived : Z; payloadWritten : Z; payloadVerified : Z }.

Record OTAStagingPartition := mkPartition { part_start : Z; part_length : Z }.

Record OTAStagingBootTable := mkBootTable {
  startAddress : Z; bt_length : Z; bt_version : list Z; bt_type : Z; upgradeType : Z;
  bt_crc16 : Z; bt_reserved : list Z }.

#[export] Instance OTAStagingBootTable_eq_dec : EqDecision OTAStagingBootTable.
Proof. solve_decision. Defined.

(** Objects whose bytes are all zero. *)
Definition zero_metadata : OTAStagingMetadata :=
  mkMetadata (zeros 32) (zeros 32) (zeros 32) 0 0 0 (zeros 41) 0 0 0 (zeros 32).
Definition zero_info : OTAStagedImageInfo := mkInfo 0 0 0 (zeros 32) zero_metadata.
Definition zero_boot : OTAStagingBootTable := mkBootTable 0 0 (zeros 8) 0 0 0 (zeros 4).
Definition zero_sha : Sha256Context := mkSha256 (zeros 8) 0 (zeros 64) 0.

(** * Fields of the header *)

(** [value |= data[i]], [n] rounds from [i] on. *)
Fixpoint or_bytes (n : nat) (m : list Z) (i value : Z) : outcome Z :=
  match n with
  | O => Ok value
  | S n => b ← rd m i; or_bytes n m (i + 1) (Z.lor value b)
  end.

Definition allZero (m : list Z) (p size : Z) : outcome bool :=
  value ← or_bytes (Z.to_nat size) m p 0; Ok (value =? 0).

(** The loop of canonicalString: the index of the first null below [terminator + n]. *)
Fixpoint find_null (n : nat) (m : list Z) (p terminator : Z) : outcome Z :=
  match n with
  | O => Ok terminator
  | S n => b ← rd m (p + terminator);
           if negb (b =? 0) then find_null n m p (terminator + 1) else Ok terminator
  end.

(** The result and the contents of [output]. *)
Definition canonicalString (m : list Z) (field size : Z) (output : list Z) : outcome (bool * list Z) :=
  terminator ← find_null (Z.to_nat size) m field 0;
  if (terminator =? 0) || (terminator =? size) then Ok (false, output) else
  z ← allZero m (field + terminator) (size - terminator);
  if negb z then Ok (false, output) else
  bs ← rd_bytes m field size;
  output ← wr_bytes output 0 bs;
  Ok (true, output).

Definition is_digit (c : Z) : bool := (48 <=? c) && (c <=? 57).

(** The do loop: the value and the cursor after the digits, or failure;
    [fuel] digits at most. *)
Fixpoint parse_digits (fuel : nat) (m : list Z) (cursor parsed : Z) : outcome (option (Z * Z)) :=
  match fuel with
  | O => Ub OutOfFuel
  | S fuel =>
    c ← rd m cursor;
    let parsed := u32 (parsed * 10 + (c - 48)) in
    if UINT16_MAX <? parsed then Ok None else
    c ← rd m (cursor + 1);
    if is_digit c then parse_digits fuel m (cursor + 1) parsed else Ok (Some (parsed, cursor + 1))
  end.

(** The value and the cursor after it; [None] is the result false. *)
Definition parseVersionComponent (m : list Z) (cursor separator : Z) : outcome (option (Z * Z)) :=
  c ← rd m cursor;
  if negb (is_digit c) then Ok None else
  d ← (if c =? 48 then d ← rd m (cursor + 1); Ok (is_digit d) else Ok false);
  if d : bool then Ok None else
  r ← parse_digits (length m) m cursor 0;
  match r with
  | None => Ok None
  | Some (parsed, cursor) =>
    c ← rd m cursor;
    if negb (c =? separator) then Ok None else
    Ok (Some (u16 parsed, if negb (separator =? 0) then cursor + 1 else cursor))
  end.

Definition set_version (md : OTAStagingMetadata) (a b c : Z) : OTAStagingMetadata :=
  mkMetadata (productId md) (boardId md) (firmwareVersion md) a b c (sourceCommit md)
    (applicationAddress md) (applicationCapacity md) (md_payloadSize md) (md_sha256 md).

Definition parseVersion (md : OTAStagingMetadata) : outcome (bool * OTAStagingMetadata) :=
  let m := firmwareVersion md in
  r ← parseVersionComponent m 0 46;
  match r with
  | None => Ok (false, md)
  | Some (major, cursor) =>
    let md := set_version md major (versionMinor md) (versionPatch md) in
    r ← parseVersionComponent m cursor 46;
    match r with
    | None => Ok (false, md)
    | Some (minor, cursor) =>
      let md := set_version md major minor (versionPatch md) in
      r ← parseVersionComponent m cursor 0;
      match r with
      | None => Ok (false, md)
      | Some (patch, _) => Ok (true, set_version md major minor patch)
      end
    end
  end.

Fixpoint commit_loop (n : nat) (m : list Z) (i : Z) : outcome bool :=
  match n with
  | O => Ok true
  | S n => c ← rd m i;
           if negb (is_digit c || ((97 <=? c) && (c <=? 102))) then Ok false else commit_loop n m (i + 1)
  end.

Definition validSourceCommit (m : list Z) (source : Z) : outcome bool := commit_loop 40 m source.

Definition validPublicKey (key : option (list Z)) (size : Z) : outcome bool :=
  match key with
  | None => Ok false
  | Some k => if negb (size =? PublicKeyDerSize) then Ok false else
              p ← rd_bytes k 0 (zlen PublicKeyPrefix); Ok (bool_decide (p = PublicKeyPrefix))
  end.

(** * The engine *)
Section engine.
Context {W : Type}.

(** The operations of a platform. A function that writes through a pointer
    takes what the object holds before and returns what it holds after. *)
Record platform_calls := mkCalls {
  getApplicationPartition : OTAStagingPartition → W → Z * OTAStagingPartition * W;
  getOtaPartition : OTAStagingPartition → W → Z * OTAStagingPartition * W;
  eraseOta : Z → Z → W → Z * W;
  writeOta : Z → list Z → W → Z * Z * W;
  readOta : Z → list Z → Z → W → Z * Z * list Z * W;
  timeMs : W → Z * W;
  verifySignature : list Z → Z → list Z → list Z → W → Z * W;
  readBootTable : OTAStagingBootTable → W → Z * OTAStagingBootTable * W;
  writeBootTable : OTAStagingBootTable → W → Z * W;
  readPersistedBootTable : OTAStagingBootTable → W → Z * OTAStagingBootTable * W }.

(** The structure of function pointers: [complete] when none is null. *)
Record OTAStagingPlatformOperations := mkOperations { calls : platform_calls; complete : bool }.

Record Session := mkSession {
  status : OTAStagingStatus;
  expectedPackageSize : Z;
  payloadSize : Z;
  writeOffset : Z;
  header : list Z;
  signature : list Z;
  publicKey : list Z;
  vectors : list Z;
  vectorsSize : Z;
  authenticated : bool;
  erased : bool;
  payloadSha : Sha256Context;
  payloadCrc : Z;
  metadata : OTAStagingMetadata;
  ready : OTAStagedImageInfo;
  admission : option (OTAStagingMetadata → W → Z * W);
  cancellation : option (W → Z * W);
  applicationPartition : OTAStagingPartition;
  otaPartition : OTAStagingPartition }.

Record ota := mkOta {
  session : Session; nextGeneration : Z; platform : option OTAStagingPlatformOperations; world : W }.

Definition set_payloadSize (v : Z) (s : Session) : Session :=
  mkSession (status s) (expectedPackageSize s) (v) (writeOffset s) (header s) (signature s) (publicKey s)
    (vectors s) (vectorsSize s) (authenticated s) (erased s) (payloadSha s) (payloadCrc s) (metadata s)
    (ready s) (admission s) (cancellation s) (applicationPartition s) (otaPartition s).
Definition set_writeOffset (v : Z) (s : Session) : Session :=
  mkSession (status s) (expectedPackageSize s) (payloadSize s) (v) (header s) (signature s) (publicKey s)
    (vectors s) (vectorsSize s) (authenticated s) (erased s) (payloadSha s) (payloadCrc s) (metadata s)
    (ready s) (admission s) (cancellation s) (applicationPartition s) (otaPartition s).
Definition set_header (v : list Z) (s : Session) : Session :=
  mkSession (status s) (expectedPackageSize s) (payloadSize s) (writeOffset s) (v) (signature s) (publicKey s)
    (vectors s) (vectorsSize s) (authenticated s) (erased s) (payloadSha s) (payloadCrc s) (metadata s)
    (ready s) (admission s) (cancellation s) (applicationPartition s) (otaPartition s).
Definition set_signature (v : list Z) (s : Session) : Session :=
  mkSession (status s) (expectedPackageSize s) (payloadSize s) (writeOffset s) (header s) (v) (publicKey s)
    (vectors s) (vectorsSize s) (authenticated s) (erased s) (payloadSha s) (payloadCrc s) (metadata s)
    (ready s) (admission s) (cancellation s) (applicationPartition s) (otaPartition s).
Definition set_authenticated (v : bool) (s : Session) : Session :=
  mkSession (status s) (expectedPackageSize s) (payloadSize s) (writeOffset s) (header s) (signature s)
    (publicKey s) (vectors s) (vectorsSize s) (v) (erased s) (payloadSha s) (payloadCrc s) (metadata s)
    (ready s) (admission s) (cancellation s) (applicationPartition s) (otaPartition s).
Definition set_erased (v : bool) (s : Session) : Session :=
  mkSession (status s) (expectedPackageSize s) (payloadSize s) (writeOffset s) (header s) (signature s)
    (publicKey s) (vectors s) (vectorsSize s) (authenticated s) (v) (payloadSha s) (payloadCrc s)
    (metadata s) (ready s) (admission s) (cancellation s) (applicationPartition s) (otaPartition s).
Definition set_payloadSha (v : Sha256Context) (s : Session) : Session :=
  mkSession (status s) (expectedPackageSize s) (payloadSize s) (writeOffset s) (header s) (signature s)
    (publicKey s) (vectors s) (vectorsSize s) (authenticated s) (erased s) (v) (payloadCrc s) (metadata
    s) (ready s) (admission s) (cancellation s) (applicationPartition s) (otaPartition s).
Definition set_payloadCrc (v : Z) (s : Session) : Session :=
  mkSession (status s) (expectedPackageSize s) (payloadSize s) (writeOffset s) (header s) (signature s)
    (publicKey s) (vectors s) (vectorsSize s) (authenticated s) (erased s) (payloadSha s) (v) (metadata
    s) (ready s) (admission s) (cancellation s) (applicationPartition s) (otaPartition s).
Definition set_metadata (v : OTAStagingMetadata) (s : Session) : Session :=
  mkSession (status s) (expectedPackageSize s) (payloadSize s) (writeOffset s) (header s) (signature s)
    (publicKey s) (vectors s) (vectorsSize s) (authenticated s) (erased s) (payloadSha s) (payloadCrc s)
    (v) (ready s) (admission s) (cancellation s) (applicationPartition s) (otaPartition s).
Definition set_ready (v : OTAStagedImageInfo) (s : Session) : Session :=
  mkSession (status s) (expectedPackageSize s) (payloadSize s) (writeOffset s) (header s) (signature s)
    (publicKey s) (vectors s) (vectorsSize s) (authenticated s) (erased s) (payloadSha s) (payloadCrc s)
    (metadata s) (v) (admission s) (cancellation s) (applicationPartition s) (otaPartition s).
Definition set_status (v : OTAStagingStatus) (s : Session) : Session :=
  mkSession (v) (expectedPackageSize s) (payloadSize s) (writeOffset s) (header s) (signature s) (publicKey s)
    (vectors s) (vectorsSize s) (authenticated s) (erased s) (payloadSha s) (payloadCrc s) (metadata s)
    (ready s) (admission s) (cancellation s) (applicationPartition s) (otaPartition s).
Definition set_vectors (v : list Z) (n : Z) (s : Session) : Session :=
  mkSession (status s) (expectedPackageSize s) (payloadSize s) (writeOffset s) (header s) (signature s)
    (publicKey s) (v) (n) (authenticated s) (erased s) (payloadSha s) (payloadCrc s) (metadata s) (ready
    s) (admission s) (cancellation s) (applicationPartition s) (otaPartition s).

(** [memset(&session, 0, sizeof(session))]. *)
Definition zero_session : Session :=
  mkSession (mkStatus OTA_STATE_IDLE OTA_OK 0 0 0 0) 0 0 0 (zeros 320) (zeros 64) (zeros 91) (zeros 8) 0
    false false zero_sha 0 zero_metadata zero_info None None (mkPartition 0 0) (mkPartition 0 0).

(** A computation on the variables and the world. *)
Definition prog (A : Type) : Type := ota → outcome (A * ota).
#[export] Instance prog_ret : MRet prog := λ A a s, Ok (a, s).
#[export] Instance prog_bind : MBind prog := λ A B f m s, '(a, s) ← m s; f a s.

Definition lift {A} (m : outcome A) : prog A := λ s, a ← m; Ok (a, s).
Definition gets {A} (f : Session → A) : prog A := λ s, Ok (f (session s), s).
Definition modify (f : Session → Session) : prog () := λ s,
  Ok ((), mkOta (f (session s)) (nextGeneration s) (platform s) (world s)).
Definition put_world (w : W) (s : ota) : ota := mkOta (session s) (nextGeneration s) (platform s) w.

(** A call through [platform]. *)
Definition call {A} (f : platform_calls → W → A * W) : prog A := λ s,
  p ← deref (platform s);
  if complete p then let '(a, w) := f (calls p) (world s) in Ok (a, put_world w s) else Ub NullDeref.

Definition set_state (st : OTAStagingState) (s : Session) : Session :=
  let v := status s in
  set_status (mkStatus st (lastError v) (packageSize v) (packageReceived v) (payloadWritten v) (payloadVerified v)) s.
Definition set_lastError (e : OTAStagingError) (s : Session) : Session :=
  let v := status s in
  set_status (mkStatus (st_state v) e (packageSize v) (packageReceived v) (payloadWritten v) (payloadVerified v)) s.
Definition add_received (n : Z) (s : Session) : Session :=
  let v := status s in
  set_status (mkStatus (st_state v) (lastError v) (packageSize v) (packageReceived v + n) (payloadWritten v)
    (payloadVerified v)) s.
Definition add_written (n : Z) (s : Session) : Session :=
  let v := status s in
  set_status (mkStatus (st_state v) (lastError v) (packageSize v) (packageReceived v) (payloadWritten v + n)
    (payloadVerified v)) s.
Definition set_verified (n : Z) (s : Session) : Session :=
  let v := status s in
  set_status (mkStatus (st_state v) (lastError v) (packageSize v) (packageReceived v) (payloadWritten v) n) s.
(** [session.ready.sessionGeneration = 0]. *)
Definition clear_generation (s : Session) : Session :=
  let r := ready s in
  set_ready (mkInfo 0 (info_payloadSize r) (info_crc16 r) (info_sha256 r) (info_metadata r)) s.

Definition cancelled : prog bool := λ s,
  match cancellation (session s) with
  | None => Ok (false, s)
  | Some f => let '(r, w) := f (world s) in Ok (negb (r =? 0), put_world w s)
  end.

Definition fail (error : OTAStagingError) : prog OTAStagingError :=
  _ ← modify (set_lastError error);
  _ ← modify (set_state (if bool_decide (error = OTA_ERROR_CANCELLED) then OTA_STATE_CANCELLED else OTA_STATE_FAILED));
  _ ← modify clear_generation;
  mret error.

Definition elapsedExceeded (started limit : Z) : prog bool :=
  now ← call timeMs; mret (limit <? u32 (now - started)).

(** The admission callback, if there is one, refuses. *)
Definition not_admitted : prog bool := λ s,
  match admission (session s) with
  | None => Ok (false, s)
  | Some f => let '(r, w) := f (metadata (session s)) (world s) in Ok (r =? 0, put_world w s)
  end.

Section with_size.
Context (SIZE_MAX : Z).

(** A [size_t] result. *)
Definition size_t (x : Z) : Z := x mod (SIZE_MAX + 1).

(** ** The header *)

(** The envelope prefix: formats, sizes and bounds. *)
Definition validateEnvelope : prog OTAStagingError :=
  h ← gets header;
  magic ← lift (rd_bytes h 0 8);
  header_size ← lift (readLittleEndian16 h 10);
  signature_size ← lift (readLittleEndian16 h 14);
  z ← lift (allZero h 52 12);
  if negb (bool_decide (magic = bytes_of_string "AZPKG001")) || negb (header_size =? OTA_PACKAGE_HEADER_SIZE)
     || negb (signature_size =? OTA_PACKAGE_SIGNATURE_SIZE) || negb z
  then mret OTA_ERROR_PACKAGE_FORMAT else
  version ← lift (readLittleEndian16 h 8);
  algorithm ← lift (readLittleEndian16 h 12);
  if negb (version =? 1) || negb (algorithm =? 1) then mret OTA_ERROR_UNSUPPORTED else
  size ← lift (readLittleEndian32 h 16);
  _ ← modify (set_payloadSize size);
  op ← gets otaPartition;
  ap ← gets applicationPartition;
  if (size <? OTA_IMAGE_DESCRIPTOR_OFFSET + OTA_IMAGE_DESCRIPTOR_SIZE)
     || (part_length op <? size) || (part_length ap <? size)
  then mret OTA_ERROR_IMAGE_BOUNDS else
  expected ← gets expectedPackageSize;
  if (SIZE_MAX - OTA_PACKAGE_PAYLOAD_OFFSET <? size) || negb (size + OTA_PACKAGE_PAYLOAD_OFFSET =? expected)
  then mret OTA_ERROR_PACKAGE_SIZE else
  mret OTA_OK.

(** The image descriptor and the metadata. *)
Definition validateDescriptor : prog OTAStagingError :=
  h ← gets header;
  let d := DescriptorOffset in
  magic ← lift (rd_bytes h d 8);
  descriptor_size ← lift (readLittleEndian16 h (d + 10));
  z ← lift (allZero h (d + 196) 60);
  if negb (bool_decide (magic = bytes_of_string "AZOTA001")) || negb (descriptor_size =? OTA_IMAGE_DESCRIPTOR_SIZE)
     || negb z
  then mret OTA_ERROR_PACKAGE_FORMAT else
  version ← lift (readLittleEndian16 h (d + 8));
  image_type ← lift (readLittleEndian32 h (d + 12));
  key_type ← lift (readLittleEndian32 h (d + 160));
  if negb (version =? 1) || negb (image_type =? 1) || negb (key_type =? 1) then mret OTA_ERROR_UNSUPPORTED else
  _ ← modify (set_metadata zero_metadata);
  md ← gets metadata;
  '(ok, s) ← lift (canonicalString h (d + 16) 32 (productId md));
  let md := mkMetadata s (boardId md) (firmwareVersion md) (versionMajor md) (versionMinor md) (versionPatch md)
      (sourceCommit md) (applicationAddress md) (applicationCapacity md) (md_payloadSize md) (md_sha256 md) in
  _ ← modify (set_metadata md);
  if negb ok then mret OTA_ERROR_PACKAGE_FORMAT else
  '(ok, s) ← lift (canonicalString h (d + 48) 32 (boardId md));
  let md := mkMetadata (productId md) s (firmwareVersion md) (versionMajor md) (versionMinor md) (versionPatch md)
      (sourceCommit md) (applicationAddress md) (applicationCapacity md) (md_payloadSize md) (md_sha256 md) in
  _ ← modify (set_metadata md);
  if negb ok then mret OTA_ERROR_PACKAGE_FORMAT else
  '(ok, s) ← lift (canonicalString h (d + 80) 32 (firmwareVersion md));
  let md := mkMetadata (productId md) (boardId md) s (versionMajor md) (versionMinor md) (versionPatch md)
      (sourceCommit md) (applicationAddress md) (applicationCapacity md) (md_payloadSize md) (md_sha256 md) in
  _ ← modify (set_metadata md);
  if negb ok then mret OTA_ERROR_PACKAGE_FORMAT else
  ok ← lift (validSourceCommit h (d + 112));
  if negb ok then mret OTA_ERROR_PACKAGE_FORMAT else
  commit ← lift (bs ← rd_bytes h (d + 112) 40; wr_bytes (sourceCommit md) 0 bs);
  address ← lift (readLittleEndian32 h (d + 152));
  capacity ← lift (readLittleEndian32 h (d + 156));
  size ← gets payloadSize;
  digest ← lift (bs ← rd_bytes h 20 OTA_SHA256_SIZE; wr_bytes (md_sha256 md) 0 bs);
  let md := mkMetadata (productId md) (boardId md) (firmwareVersion md) (versionMajor md) (versionMinor md)
      (versionPatch md) commit address capacity size digest in
  '(ok, md) ← lift (parseVersion md);
  _ ← modify (set_metadata md);
  if negb ok then mret OTA_ERROR_PACKAGE_FORMAT else
  op ← gets otaPartition;
  ap ← gets applicationPartition;
  if negb (Z.land address 511 =? 0) || negb (address =? part_start ap) || negb (capacity =? part_length ap)
     || (UINT32_MAX - part_length ap <? part_start ap) || (UINT32_MAX - part_length op <? part_start op)
  then mret OTA_ERROR_IMAGE_BOUNDS else
  mret OTA_OK.

(** The key, the signature and the caller's admission. *)
Definition authenticate : prog OTAStagingError :=
  h ← gets header;
  key ← gets publicKey;
  sig ← gets signature;
  keyId ← lift (sha256 zero_sha key 0 PublicKeyDerSize (zeros 32));
  expected ← lift (rd_bytes h (DescriptorOffset + 164) OTA_SHA256_SIZE);
  if negb (bool_decide (keyId = expected)) then mret OTA_ERROR_KEY_MISMATCH else
  headerDigest ← lift (sha256 zero_sha h 0 OTA_PACKAGE_HEADER_SIZE (zeros 32));
  c ← cancelled;
  if c : bool then mret OTA_ERROR_CANCELLED else
  started ← call timeMs;
  verification ← call (λ p, verifySignature p key PublicKeyDerSize headerDigest sig);
  if verification =? -2 then mret OTA_ERROR_KEY_FORMAT else
  if negb (verification =? 0) then mret OTA_ERROR_SIGNATURE else
  late ← elapsedExceeded started OTA_STAGING_SIGNATURE_MAX_MS;
  if late : bool then mret OTA_ERROR_SIGNATURE_TIMEOUT else
  c ← cancelled;
  if c : bool then mret OTA_ERROR_CANCELLED else
  r ← not_admitted;
  if r : bool then mret OTA_ERROR_ADMISSION_REJECTED else
  _ ← modify (set_authenticated true);
  mret OTA_OK.

(** [f], and [g] if it returns OTA_OK. *)
Definition and_then (f g : prog OTAStagingError) : prog OTAStagingError :=
  e ← f; if bool_decide (e = OTA_OK) then g else mret e.

Definition validateHeader : prog OTAStagingError :=
  and_then validateEnvelope (and_then validateDescriptor authenticate).

(** ** The payload *)
Definition validateVectors : prog OTAStagingError :=
  v ← gets vectors;
  stackPointer ← lift (readLittleEndian32 v 0);
  resetVector ← lift (readLittleEndian32 v 4);
  if negb (Z.land stackPointer 7 =? 0) || (stackPointer <=? RamStartExclusive)
     || (RamEndInclusive <? stackPointer) || (Z.land resetVector 1 =? 0)
  then mret OTA_ERROR_VECTOR_TABLE else
  let resetHandler := Z.land resetVector 4294967294 in
  ap ← gets applicationPartition;
  size ← gets payloadSize;
  if (resetHandler <? part_start ap) || (size <? 2) || (UINT32_MAX - 2 <? resetHandler)
     || (UINT32_MAX - size <? part_start ap) || (part_start ap + size <? resetHandler + 2)
  then mret OTA_ERROR_VECTOR_TABLE else
  mret OTA_OK.

(** Loops take at most [fuel] rounds. *)
Fixpoint erase_loop (fuel : nat) (offset : Z) : prog OTAStagingError :=
  payload ← gets payloadSize;
  if offset <? payload then
    match fuel with
    | O => lift (Ub OutOfFuel)
    | S fuel =>
      c ← cancelled;
      if c : bool then mret OTA_ERROR_CANCELLED else
      let size := payload - offset in
      let size := if OTA_STAGING_ERASE_BLOCK_SIZE <? size then OTA_STAGING_ERASE_BLOCK_SIZE else size in
      started ← call timeMs;
      r ← call (λ p, eraseOta p offset size);
      if negb (r =? 0) then mret OTA_ERROR_ERASE else
      late ← elapsedExceeded started OTA_STAGING_FLASH_OPERATION_MAX_MS;
      if late : bool then mret OTA_ERROR_ERASE_TIMEOUT else
      erase_loop fuel (u32 (offset + size))
    end
  else _ ← modify (set_erased true); mret OTA_OK.

Definition erasePayloadRange : prog OTAStagingError :=
  payload ← gets payloadSize; erase_loop (Z.to_nat payload) 0.

Fixpoint write_loop (fuel : nat) (data : list Z) (p size : Z) : prog OTAStagingError :=
  if 0 <? size then
    match fuel with
    | O => lift (Ub OutOfFuel)
    | S fuel =>
      c ← cancelled;
      if c : bool then mret OTA_ERROR_CANCELLED else
      let blockSize := if size <? OTA_STAGING_WRITE_BLOCK_SIZE then size else OTA_STAGING_WRITE_BLOCK_SIZE in
      start ← gets writeOffset;
      started ← call timeMs;
      bs ← lift (rd_bytes data p blockSize);
      '(r, offset) ← call (λ o, writeOta o start bs);
      _ ← modify (set_writeOffset offset);
      if negb (r =? 0) then mret OTA_ERROR_WRITE else
      if (offset <? start) || negb (offset - start =? blockSize) then mret OTA_ERROR_SHORT_WRITE else
      late ← elapsedExceeded started OTA_STAGING_FLASH_OPERATION_MAX_MS;
      if late : bool then mret OTA_ERROR_WRITE_TIMEOUT else
      sha ← gets payloadSha;
      sha ← lift (sha256Update sha data p blockSize);
      _ ← modify (set_payloadSha sha);
      crc ← gets payloadCrc;
      crc ← lift (crc16Update crc data p blockSize);
      _ ← modify (set_payloadCrc crc);
      _ ← modify (add_written blockSize);
      write_loop fuel data (p + blockSize) (size - blockSize)
    end
  else mret OTA_OK.

Definition writePayload (data : list Z) (p size : Z) : prog OTAStagingError :=
  write_loop (Z.to_nat size) data p size.

Definition acceptPayload (data : list Z) (p size : Z) : prog OTAStagingError :=
  e ← gets erased;
  if negb e then
    n ← gets vectorsSize;
    v ← gets vectors;
    let needed := VectorSize - n in
    let copied := if size <? needed then size else needed in
    v ← lift (bs ← rd_bytes data p copied; wr_bytes v n bs);
    _ ← modify (set_vectors v (n + copied));
    if n + copied <? VectorSize then mret OTA_OK else
    and_then validateVectors (and_then erasePayloadRange
      (and_then (writePayload v 0 VectorSize) (writePayload data (p + copied) (size - copied))))
  else writePayload data p size.

(** ** The interface *)
Context (OTAStagingDefaultPlatform : option OTAStagingPlatformOperations).

Definition initializeStatus (st : OTAStagingState) (s : Session) : Session :=
  set_status (mkStatus st OTA_OK (expectedPackageSize s) 0 0 0) s.

(** The session [OTAStagingBegin] starts with. *)
Definition new_session (packageSize : Z) (key : list Z) (admitted : option (OTAStagingMetadata → W → Z * W))
    (cancel : option (W → Z * W)) (ap op : OTAStagingPartition) : Session :=
  initializeStatus OTA_STATE_RECEIVING
    (mkSession (status zero_session) packageSize 0 0 (zeros 320) (zeros 64) key (zeros 8) 0 false false
       (sha256Init zero_sha) 0 zero_metadata zero_info admitted cancel ap op).

Definition OTAStagingBegin (packageSize : Z) (trustedPublicKeyDer : option (list Z)) (trustedPublicKeyDerSize : Z)
    (admissionCallback : option (OTAStagingMetadata → W → Z * W))
    (cancellationCallback : option (W → Z * W)) : prog OTAStagingError := λ s,
  if bool_decide (st_state (status (session s)) = OTA_STATE_RECEIVING ∨
                  st_state (status (session s)) = OTA_STATE_VERIFYING ∨
                  st_state (status (session s)) = OTA_STATE_ACTIVATING)
  then Ok (OTA_ERROR_BUSY, s) else
  valid ← validPublicKey trustedPublicKeyDer trustedPublicKeyDerSize;
  if negb valid then Ok (OTA_ERROR_KEY_FORMAT, s) else
  if (packageSize <? OTA_PACKAGE_PAYLOAD_OFFSET + 1) || (UINT32_MAX <? packageSize)
  then Ok (OTA_ERROR_PACKAGE_SIZE, s) else
  let selected := match platform s with None => OTAStagingDefaultPlatform | p => p end in
  match selected with
  | None => Ok (OTA_ERROR_PARTITION, s)
  | Some p =>
    if negb (complete p) then Ok (OTA_ERROR_PARTITION, s) else
    let '(r, ap, w) := getApplicationPartition (calls p) (mkPartition 0 0) (world s) in
    if negb (r =? 0) then Ok (OTA_ERROR_PARTITION, put_world w s) else
    let '(r, op, w) := getOtaPartition (calls p) (mkPartition 0 0) w in
    if negb (r =? 0) || (part_length ap =? 0) || (part_length op =? 0)
    then Ok (OTA_ERROR_PARTITION, put_world w s) else
    key ← (k ← deref trustedPublicKeyDer; rd_bytes k 0 PublicKeyDerSize);
    Ok (OTA_OK, mkOta (new_session packageSize key admissionCallback cancellationCallback ap op)
                  (nextGeneration s) (Some p) w)
  end.

(** One round of the loop of OTAStagingWritePackage: the bytes taken, or an error. *)
Definition write_round (data : list Z) (p size : Z) : prog (OTAStagingError + Z) :=
  st ← gets status;
  let offset := packageReceived st in
  if offset <? OTA_PACKAGE_HEADER_SIZE then
    let copied := OTA_PACKAGE_HEADER_SIZE - offset in
    let copied := if size <? copied then size else copied in
    h ← gets header;
    h ← lift (bs ← rd_bytes data p copied; wr_bytes h offset bs);
    _ ← modify (set_header h);
    _ ← modify (add_received copied);
    mret (inr copied)
  else if offset <? OTA_PACKAGE_PAYLOAD_OFFSET then
    let signatureOffset := offset - OTA_PACKAGE_HEADER_SIZE in
    let copied := OTA_PACKAGE_SIGNATURE_SIZE - signatureOffset in
    let copied := if size <? copied then size else copied in
    g ← gets signature;
    g ← lift (bs ← rd_bytes data p copied; wr_bytes g signatureOffset bs);
    _ ← modify (set_signature g);
    _ ← modify (add_received copied);
    if offset + copied =? OTA_PACKAGE_PAYLOAD_OFFSET then
      error ← validateHeader;
      if bool_decide (error = OTA_OK) then mret (inr copied) else mret (inl error)
    else mret (inr copied)
  else
    payload ← gets payloadSize;
    let payloadRemaining := size_t (payload - payloadWritten st) in
    let accepted := if size <? payloadRemaining then size else payloadRemaining in
    error ← acceptPayload data p accepted;
    if bool_decide (error = OTA_OK) then
      _ ← modify (add_received accepted);
      mret (inr accepted)
    else mret (inl error).

Fixpoint write_rounds (fuel : nat) (data : list Z) (p size : Z) : prog OTAStagingError :=
  if 0 <? size then
    match fuel with
    | O => lift (Ub OutOfFuel)
    | S fuel =>
      r ← write_round data p size;
      match r with
      | inl error => fail error
      | inr n => write_rounds fuel data (p + n) (size - n)
      end
    end
  else mret OTA_OK.

Definition OTAStagingWritePackage (data : option (list Z)) (size : Z) : prog OTAStagingError :=
  st ← gets status;
  if negb (bool_decide (st_state st = OTA_STATE_RECEIVING)) then mret OTA_ERROR_INVALID_STATE else
  if (0 <? size) && bool_decide (data = None) then fail OTA_ERROR_INVALID_ARGUMENT else
  expected ← gets expectedPackageSize;
  if size_t (expected - packageReceived st) <? size then fail OTA_ERROR_TRAILING_DATA else
  c ← cancelled;
  if c : bool then fail OTA_ERROR_CANCELLED else
  write_rounds (Z.to_nat size) (default [] data) 0 size.

(** The part of the descriptor in a block read at [offset]. *)
Definition copy_descriptor (descriptor block : list Z) (offset size : Z) : outcome (list Z) :=
  if (offset <=? OTA_IMAGE_DESCRIPTOR_OFFSET) && (OTA_IMAGE_DESCRIPTOR_OFFSET <? offset + size) then
    let start := OTA_IMAGE_DESCRIPTOR_OFFSET - offset in
    let copied := size - start in
    let copied := if OTA_IMAGE_DESCRIPTOR_SIZE <? copied then OTA_IMAGE_DESCRIPTOR_SIZE else copied in
    bs ← rd_bytes block start copied; wr_bytes descriptor 0 bs
  else if (OTA_IMAGE_DESCRIPTOR_OFFSET <? offset)
          && (offset <? OTA_IMAGE_DESCRIPTOR_OFFSET + OTA_IMAGE_DESCRIPTOR_SIZE) then
    let destination := offset - OTA_IMAGE_DESCRIPTOR_OFFSET in
    let copied := if OTA_IMAGE_DESCRIPTOR_SIZE - destination <? size
                  then OTA_IMAGE_DESCRIPTOR_SIZE - destination else size in
    bs ← rd_bytes block 0 copied; wr_bytes descriptor destination bs
  else Ok descriptor.

(** The locals of the read-back loop of OTAStagingFinish. *)
Record read_back := mkReadBack { rb_sha : Sha256Context; rb_crc : Z; rb_block : list Z; rb_descriptor : list Z }.

Fixpoint read_loop (fuel : nat) (offset : Z) (l : read_back) : prog (OTAStagingError + read_back) :=
  payload ← gets payloadSize;
  if offset <? payload then
    match fuel with
    | O => lift (Ub OutOfFuel)
    | S fuel =>
      c ← cancelled;
      if c : bool then mret (inl OTA_ERROR_CANCELLED) else
      let size := payload - offset in
      let size := if OTA_STAGING_READ_BACK_BLOCK_SIZE <? size then OTA_STAGING_READ_BACK_BLOCK_SIZE else size in
      started ← call timeMs;
      '(r, readOffset, block) ← call (λ p, readOta p offset (rb_block l) size);
      if negb (r =? 0) || (readOffset <? offset) || negb (readOffset - offset =? size)
      then mret (inl OTA_ERROR_READ_BACK) else
      late ← elapsedExceeded started OTA_STAGING_FLASH_OPERATION_MAX_MS;
      if late : bool then mret (inl OTA_ERROR_READ_BACK_TIMEOUT) else
      sha ← lift (sha256Update (rb_sha l) block 0 size);
      crc ← lift (crc16Update (rb_crc l) block 0 size);
      descriptor ← lift (copy_descriptor (rb_descriptor l) block offset size);
      let offset := u32 (offset + size) in
      _ ← modify (set_verified offset);
      read_loop fuel offset (mkReadBack sha crc block descriptor)
    end
  else mret (inr l).

(** [nextGeneration++] and its wrap-around past 0. *)
Definition next_generation : prog Z := λ s,
  let n := u32 (nextGeneration s + 1) in
  Ok (nextGeneration s, mkOta (session s) (if n =? 0 then 1 else n) (platform s) (world s)).

(** The comparisons after the read-back, up to the ready image. *)
Definition publish (l : read_back) : prog (OTAStagingError * option OTAStagedImageInfo) :=
  md ← gets metadata;
  '(_, readBackDigest) ← lift (sha256Finish (rb_sha l) (zeros 32));
  if negb (bool_decide (readBackDigest = md_sha256 md))
  then e ← fail OTA_ERROR_READ_BACK_HASH_MISMATCH; mret (e, None) else
  crc ← gets payloadCrc;
  if negb (rb_crc l =? crc) then e ← fail OTA_ERROR_READ_BACK_CRC_MISMATCH; mret (e, None) else
  h ← gets header;
  d ← lift (rd_bytes h DescriptorOffset OTA_IMAGE_DESCRIPTOR_SIZE);
  if negb (bool_decide (rb_descriptor l = d)) then e ← fail OTA_ERROR_DESCRIPTOR_MISMATCH; mret (e, None) else
  size ← gets payloadSize;
  generation ← next_generation;
  let info := mkInfo generation size (rb_crc l) readBackDigest md in
  _ ← modify (set_ready info);
  _ ← modify (set_state OTA_STATE_READY);
  _ ← modify (set_lastError OTA_OK);
  mret (OTA_OK, Some info).

(** [out] tells whether the argument is not null; the result is with what is
    stored through it. *)
Definition OTAStagingFinish (out : bool) : prog (OTAStagingError * option OTAStagedImageInfo) :=
  st ← gets status;
  if negb (bool_decide (st_state st = OTA_STATE_RECEIVING)) then mret (OTA_ERROR_INVALID_STATE, None) else
  if negb out then e ← fail OTA_ERROR_INVALID_ARGUMENT; mret (e, None) else
  expected ← gets expectedPackageSize;
  auth ← gets authenticated;
  size ← gets payloadSize;
  if negb (packageReceived st =? expected) || negb auth || negb (payloadWritten st =? size)
  then e ← fail OTA_ERROR_INCOMPLETE; mret (e, None) else
  c ← cancelled;
  if c : bool then e ← fail OTA_ERROR_CANCELLED; mret (e, None) else
  _ ← modify (set_state OTA_STATE_VERIFYING);
  streaming ← gets payloadSha;
  '(_, streamingDigest) ← lift (sha256Finish streaming (zeros 32));
  md ← gets metadata;
  if negb (bool_decide (streamingDigest = md_sha256 md))
  then e ← fail OTA_ERROR_HASH_MISMATCH; mret (e, None) else
  r ← read_loop (Z.to_nat size) 0 (mkReadBack (sha256Init zero_sha) 0 (zeros 512) (zeros 256));
  match r with
  | inl error => e ← fail error; mret (e, None)
  | inr l => publish l
  end.

(** [writeBootTable] of a table and whether it is read back in time. *)
Definition persist (t : OTAStagingBootTable) : prog bool :=
  started ← call timeMs;
  _ ← call (λ p, writeBootTable p t);
  late_write ← elapsedExceeded started OTA_STAGING_ACTIVATION_MAX_MS;
  started ← call timeMs;
  '(r, persisted) ← call (λ p, readPersistedBootTable p zero_boot);
  late_read ← elapsedExceeded started OTA_STAGING_ACTIVATION_MAX_MS;
  mret (negb late_write && (r =? 0) && negb late_read && bool_decide (persisted = t)).

Definition OTAStagingActivate (generation : Z) (expectedSha256 : option (list Z)) : prog OTAStagingError :=
  st ← gets status;
  if negb (bool_decide (st_state st = OTA_STATE_READY)) then mret OTA_ERROR_INVALID_STATE else
  r ← gets ready;
  match expectedSha256 with
  | None => mret OTA_ERROR_INVALID_ARGUMENT
  | Some m =>
    if (generation =? 0) || negb (generation =? sessionGeneration r) then mret OTA_ERROR_INVALID_ARGUMENT else
    digest ← lift (rd_bytes m 0 OTA_SHA256_SIZE);
    if negb (bool_decide (digest = info_sha256 r)) then mret OTA_ERROR_INVALID_ARGUMENT else
    _ ← modify (set_state OTA_STATE_ACTIVATING);
    _ ← modify clear_generation;
    started ← call timeMs;
    '(rc, previous) ← call (λ p, readBootTable p zero_boot);
    late ← (if rc =? 0 then elapsedExceeded started OTA_STAGING_ACTIVATION_MAX_MS else mret true);
    if late : bool then fail OTA_ERROR_ACTIVATION else
    op ← gets otaPartition;
    size ← gets payloadSize;
    let candidate := mkBootTable (part_start op) size (zeros 8) 65 85 (info_crc16 r) (zeros 4) in
    candidateVerified ← persist candidate;
    if candidateVerified : bool then
      _ ← modify (set_state OTA_STATE_ACTIVATED);
      _ ← modify (set_lastError OTA_OK);
      mret OTA_OK
    else
      restored ← persist previous;
      fail (if restored : bool then OTA_ERROR_ACTIVATION else OTA_ERROR_ACTIVATION_UNCERTAIN)
  end.

Definition OTAStagingAbort : prog OTAStagingError :=
  st ← gets status;
  if negb (bool_decide (st_state st = OTA_STATE_RECEIVING)) && negb (bool_decide (st_state st = OTA_STATE_VERIFYING))
     && negb (bool_decide (st_state st = OTA_STATE_READY))
  then mret OTA_ERROR_INVALID_STATE else
  _ ← modify clear_generation;
  _ ← modify (set_state OTA_STATE_CANCELLED);
  _ ← modify (set_lastError OTA_ERROR_CANCELLED);
  mret OTA_OK.

Definition OTAStagingGetStatus : prog OTAStagingStatus := gets status.
End with_size.

(** The variables before the first call. *)
Definition initial_ota (w : W) : ota := mkOta zero_session 1 None w.
End engine.
Arguments platform_calls W : clear implicits.
Arguments OTAStagingPlatformOperations W : clear implicits.
Arguments Session W : clear implicits.
Arguments ota W : clear implicits.
Arguments prog W A : clear implicits.

(** The values of the enumeration and their names. *)
Definition OTAStagingError_values : list OTAStagingError :=
  [OTA_OK; OTA_ERROR_INVALID_ARGUMENT; OTA_ERROR_INVALID_STATE;
   OTA_ERROR_BUSY; OTA_ERROR_PACKAGE_SIZE; OTA_ERROR_PACKAGE_FORMAT;
   OTA_ERROR_UNSUPPORTED; OTA_ERROR_OVERFLOW; OTA_ERROR_PARTITION;
   OTA_ERROR_IMAGE_BOUNDS; OTA_ERROR_KEY_FORMAT; OTA_ERROR_KEY_MISMATCH;
   OTA_ERROR_SIGNATURE; OTA_ERROR_SIGNATURE_TIMEOUT; OTA_ERROR_ADMISSION_REJECTED;
   OTA_ERROR_CANCELLED; OTA_ERROR_ERASE; OTA_ERROR_ERASE_TIMEOUT;
   OTA_ERROR_WRITE; OTA_ERROR_SHORT_WRITE; OTA_ERROR_WRITE_TIMEOUT;
   OTA_ERROR_INCOMPLETE; OTA_ERROR_TRAILING_DATA; OTA_ERROR_HASH_MISMATCH;
   OTA_ERROR_READ_BACK; OTA_ERROR_READ_BACK_TIMEOUT; OTA_ERROR_READ_BACK_HASH_MISMATCH;
   OTA_ERROR_READ_BACK_CRC_MISMATCH; OTA_ERROR_DESCRIPTOR_MISMATCH; OTA_ERROR_VECTOR_TABLE;
   OTA_ERROR_ACTIVATION; OTA_ERROR_ACTIVATION_UNCERTAIN].

Definition OTAStagingError_names : list (list Z) :=
  [bytes_of_string "OTA_OK";
   bytes_of_string "OTA_ERROR_INVALID_ARGUMENT";
   bytes_of_string "OTA_ERROR_INVALID_STATE";
   bytes_of_string "OTA_ERROR_BUSY";
   bytes_of_string "OTA_ERROR_PACKAGE_SIZE";
   bytes_of_string "OTA_ERROR_PACKAGE_FORMAT";
   bytes_of_string "OTA_ERROR_UNSUPPORTED";
   bytes_of_string "OTA_ERROR_OVERFLOW";
   bytes_of_string "OTA_ERROR_PARTITION";
   bytes_of_string "OTA_ERROR_IMAGE_BOUNDS";
   bytes_of_string "OTA_ERROR_KEY_FORMAT";
   bytes_of_string "OTA_ERROR_KEY_MISMATCH";
   bytes_of_string "OTA_ERROR_SIGNATURE";
   bytes_of_string "OTA_ERROR_SIGNATURE_TIMEOUT";
   bytes_of_string "OTA_ERROR_ADMISSION_REJECTED";
   bytes_of_string "OTA_ERROR_CANCELLED";
   bytes_of_string "OTA_ERROR_ERASE";
   bytes_of_string "OTA_ERROR_ERASE_TIMEOUT";
   bytes_of_string "OTA_ERROR_WRITE";
   bytes_of_string "OTA_ERROR_SHORT_WRITE";
   bytes_of_string "OTA_ERROR_WRITE_TIMEOUT";
   bytes_of_string "OTA_ERROR_INCOMPLETE";
   bytes_of_string "OTA_ERROR_TRAILING_DATA";
   bytes_of_string "OTA_ERROR_HASH_MISMATCH";
   bytes_of_string "OTA_ERROR_READ_BACK";
   bytes_of_string "OTA_ERROR_READ_BACK_TIMEOUT";
   bytes_of_string "OTA_ERROR_READ_BACK_HASH_MISMATCH";
   bytes_of_string "OTA_ERROR_READ_BACK_CRC_MISMATCH";
   bytes_of_string "OTA_ERROR_DESCRIPTOR_MISMATCH";
   bytes_of_string "OTA_ERROR_VECTOR_TABLE";
   bytes_of_string "OTA_ERROR_ACTIVATION";
   bytes_of_string "OTA_ERROR_ACTIVATION_UNCERTAIN"].

(** [index] is the value of the enumeration. *)
Definition OTAStagingErrorName (index : Z) : list Z :=
  if index <? zlen OTAStagingError_names then default [] (OTAStagingError_names !! Z.to_nat index)
  else bytes_of_string "OTA_ERROR_UNKNOWN".
