(* ===== verification/OtaFormat.v ===== *)
(** The format of a signed package, and what the engine's parsers accept.

    The header is described field by field ([valid_envelope], [valid_descriptor]);
    version numbers are three decimal numerals ([version_string]). The result of the
    checks is the error of the first condition that fails ([first_failure],
    [format_checks_result]). The section
    [wp] has the weakest preconditions the rest of the development reasons with. *)
From S2P Require Export OtaStaging.

Lemma readLittleEndian16_field m p : bytes m → 0 ≤ p → p + 2 ≤ zlen m →
  readLittleEndian16 m p = Ok (le_combine (field m p 2)).
Proof.
  intros. apply readLittleEndian16_has; [by apply field_bytes|by rewrite zlen_field by lia|by apply has_field].
Qed.

Lemma readLittleEndian32_field m p : bytes m → 0 ≤ p → p + 4 ≤ zlen m →
  readLittleEndian32 m p = Ok (le_combine (field m p 4)).
Proof.
  intros. apply readLittleEndian32_has; [by apply field_bytes|by rewrite zlen_field by lia|by apply has_field].
Qed.

Lemma or_bytes_spec k m : ∀ p v, bytes k → has m p k → 0 ≤ v →
  ∃ r, or_bytes (length k) m p v = Ok r ∧ (r = 0 ↔ v = 0 ∧ Forall (eq 0) k).
Proof.
  induction k as [|b k IH]; intros p v Hk Hm Hv; cbn [length or_bytes].
  { exists v. split; [done|]. split; [by intros ->|by intros [-> _]]. }
  apply Forall_cons in Hk as [Hb Hk]. destruct (rd_cons _ _ _ _ Hm) as [-> Hm']. rewrite bind_Ok.
  unfold is_u8 in Hb. destruct (IH (p + 1) (Z.lor v b) Hk Hm') as (r & -> & Hr); [apply Z.lor_nonneg; lia|].
  exists r. split; [done|]. rewrite Hr, Z.lor_eq_0_iff, Forall_cons. naive_solver.
Qed.

Lemma zeros_Forall k : Forall (eq 0) k ↔ k = zeros (zlen k).
Proof.
  unfold zeros, zlen. rewrite Nat2Z.id. split.
  - intros H. symmetry. apply replicate_as_elem_of. split; [done|]. intros x Hx. rewrite Forall_forall in H. by rewrite (H x Hx).
  - intros ->. apply Forall_replicate. done.
Qed.

Lemma allZero_spec m p n : bytes m → 0 ≤ p → 0 ≤ n → p + n ≤ zlen m →
  allZero m p n = Ok (bool_decide (field m p n = zeros n)).
Proof.
  intros Hb Hp Hn Hm. unfold allZero. pose proof (zlen_field m p n Hp Hn Hm) as Hl.
  destruct (or_bytes_spec (field m p n) m p 0 (field_bytes _ _ _ Hb) (has_field _ _ _ Hp) ltac:(lia)) as (r & Hr & Hz).
  replace (Z.to_nat n) with (length (field m p n)) by (unfold zlen in Hl; lia). rewrite Hr, bind_Ok. f_equal.
  rewrite zeros_Forall, Hl in Hz. destruct (Z.eqb_spec r 0) as [H|H]; symmetry.
  - apply bool_decide_eq_true. tauto.
  - apply bool_decide_eq_false. tauto.
Qed.

(** ** Null-terminated strings in fields of a fixed size *)
(** [f] is a nonempty string followed by nulls only, at least one. *)
Definition canonical (f s : list Z) : Prop :=
  ∃ k, f = s ++ zeros k ∧ 0 < k ∧ s ≠ [] ∧ Forall (λ b, b ≠ 0) s.

Lemma find_null_spec s m n : ∀ p t c r, has m (p + t) (s ++ c :: r) → Forall (λ b, b ≠ 0) s → c = 0 → 0 ≤ p + t →
  (length s < n)%nat → find_null n m p t = Ok (t + zlen s).
Proof.
  revert n. induction s as [|b s IH]; intros n p t c r Hm Hs Hc Hp Hn; (destruct n as [|n]; [cbn in Hn; lia|]); cbn [find_null].
  - cbn [app] in Hm. apply rd_has in Hm as ->. rewrite bind_Ok, Hc. cbn [Z.eqb negb]. by rewrite zlen_nil, Z.add_0_r.
  - apply Forall_cons in Hs as [Hb Hs]. cbn [app] in Hm. destruct (rd_cons _ _ _ _ Hm) as [-> Hm']. rewrite bind_Ok.
    rewrite (proj2 (Z.eqb_neq _ _)) by done. cbn [negb]. rewrite (IH n p (t + 1) c r); try done.
    + f_equal. rewrite zlen_cons. lia.
    + by rewrite Z.add_assoc.
    + lia.
    + cbn in Hn. lia.
Qed.

Lemma find_null_none s m : ∀ p t, has m (p + t) s → Forall (λ b, b ≠ 0) s → 0 ≤ p + t →
  find_null (length s) m p t = Ok (t + zlen s).
Proof.
  induction s as [|b s IH]; intros p t Hm Hs Hp; cbn [length find_null]; [by rewrite zlen_nil, Z.add_0_r|].
  apply Forall_cons in Hs as [Hb Hs]. destruct (rd_cons _ _ _ _ Hm) as [-> Hm']. rewrite bind_Ok.
  rewrite (proj2 (Z.eqb_neq _ _)) by done. cbn [negb]. rewrite IH; [|by rewrite Z.add_assoc|done|lia].
  f_equal. rewrite zlen_cons. lia.
Qed.

(** A field up to its first null. *)
Lemma split_null (f : list Z) : Forall (λ b, b ≠ 0) f ∨ ∃ s r, f = s ++ 0 :: r ∧ Forall (λ b, b ≠ 0) s.
Proof.
  induction f as [|b f IH]; [by left|]. destruct (decide (b = 0)) as [->|Hb]; [right; by exists [], f|].
  destruct IH as [IH|(s & r & -> & Hs)]; [left; by constructor|]. right. exists (b :: s), r. split; [done|by constructor].
Qed.

Lemma zlen_0_nil {A} (l : list A) : zlen l = 0 → l = [].
Proof. destruct l; [done|]. rewrite zlen_cons. pose proof (zlen_nonneg l). lia. Qed.

Lemma zeros_cons k : 0 < k → zeros k = 0 :: zeros (k - 1).
Proof. intros. unfold zeros. replace (Z.to_nat k) with (S (Z.to_nat (k - 1))) by lia. done. Qed.

Lemma split_null_unique s : ∀ s' r r', s ++ 0 :: r = s' ++ 0 :: r' → Forall (λ b, b ≠ 0) s → Forall (λ b, b ≠ 0) s' →
  s = s' ∧ r = r'.
Proof.
  induction s as [|b s IH]; intros [|b' s'] r r' He Hs Hs'; cbn in He; simplify_eq.
  - done.
  - by apply Forall_cons in Hs' as [? _].
  - by apply Forall_cons in Hs as [? _].
  - apply Forall_cons in Hs as [_ Hs]. apply Forall_cons in Hs' as [_ Hs']. edestruct (IH s' r r') as [-> ->]; done.
Qed.

Lemma canonical_unique f s s' : canonical f s → canonical f s' → s = s'.
Proof.
  intros (k & -> & Hk & _ & Hs) (k' & He & Hk' & _ & Hs'). rewrite (zeros_cons k), (zeros_cons k') in He by done.
  by apply split_null_unique in He as [-> _].
Qed.

Lemma canonicalString_spec m p n o : bytes m → 0 ≤ p → 0 < n → p + n ≤ zlen m → zlen o = n →
  (∃ s, canonical (field m p n) s ∧ canonicalString m p n o = Ok (true, field m p n)) ∨
  ((∀ s, ¬ canonical (field m p n) s) ∧ canonicalString m p n o = Ok (false, o)).
Proof.
  intros Hb Hp Hn Hm Ho. pose proof (zlen_field m p n Hp ltac:(lia) Hm) as Hl.
  pose proof (has_field m p n Hp) as Hf. unfold canonicalString.
  destruct (split_null (field m p n)) as [Hs|(s & r & He & Hs)].
  { right. split.
    { intros s (k & He & Hk & _). rewrite He, zeros_cons in Hs by done. apply Forall_app in Hs as [_ Hs].
      by apply Forall_cons in Hs as [? _]. }
    replace (Z.to_nat n) with (length (field m p n)) by (unfold zlen in Hl; lia).
    rewrite find_null_none; [|by rewrite Z.add_0_r|done|lia]. rewrite bind_Ok, Hl, Z.add_0_l, Z.eqb_refl.
    by rewrite orb_true_r. }
  rewrite He in Hf, Hl. rewrite zlen_app, zlen_cons in Hl. pose proof (zlen_nonneg s). pose proof (zlen_nonneg r).
  rewrite (find_null_spec s m (Z.to_nat n) p 0 0 r); [|by rewrite Z.add_0_r|done|done|lia|unfold zlen in *; lia].
  rewrite bind_Ok, Z.add_0_l. rewrite (proj2 (Z.eqb_neq (zlen s) n)) by lia. rewrite orb_false_r.
  destruct (Z.eqb_spec (zlen s) 0) as [Hs0|Hs0].
  { right. split; [|done]. apply zlen_0_nil in Hs0 as ->. intros s' (k & He' & Hk & Hn' & Hs'). rewrite He in He'.
    destruct s' as [|b s']; [done|]. cbn in He'. simplify_eq. by apply Forall_cons in Hs' as [? _]. }
  apply has_app in Hf as [_ Hr]. rewrite allZero_spec by (done || lia). rewrite bind_Ok.
  replace (field m (p + zlen s) (n - zlen s)) with (0 :: r)
    by (rewrite <-(has_field_eq m (p + zlen s) (0 :: r)) by done; f_equal; rewrite zlen_cons; lia).
  destruct (bool_decide_reflect (0 :: r = zeros (n - zlen s))) as [Hz|Hz]; cbn [negb].
  - left. exists s. split.
    + exists (n - zlen s). rewrite He, Hz. split_and!; [done|lia|by intros ->|done].
    + rewrite rd_bytes_field, bind_Ok by lia. rewrite wr_bytes_splice by lia.
      rewrite zlen_field, (proj2 (Z.leb_le _ _)), bind_Ok by lia. do 2 f_equal.
      unfold splice. rewrite zdrop_all by (rewrite zlen_field by lia; lia).
      change (ztake 0 o) with (@nil Z). by rewrite app_nil_r.
  - right. split; [|done]. intros s' Hc. apply Hz. clear Hz.
    destruct Hc as (k & He' & Hk & Hn' & Hs'). rewrite He, zeros_cons in He' by done.
    apply split_null_unique in He' as [-> ->]; [|done..]. rewrite <-zeros_cons by done. f_equal.
    rewrite zlen_zeros in Hl by lia. lia.
Qed.
(** ** Version numbers *)
Definition digit (c : Z) : Prop := 48 ≤ c ≤ 57.
Definition dec_from (v : Z) (ds : list Z) : Z := fold_left (λ v c, v * 10 + (c - 48)) ds v.

(** [ds] is the decimal numeral of the 16-bit [v], without a superfluous zero. *)
Definition numeral (ds : list Z) (v : Z) : Prop :=
  Forall digit ds ∧ ds ≠ [] ∧ (head ds = Some 48 → ds = [48]) ∧ dec_from 0 ds = v ∧ v ≤ 65535.

Lemma is_digit_true c : is_digit c = true ↔ digit c.
Proof. unfold is_digit, digit. rewrite andb_true_iff, !Z.leb_le. done. Qed.
Lemma is_digit_false c : is_digit c = false ↔ ¬ digit c.
Proof. rewrite <-is_digit_true. by destruct (is_digit c). Qed.

Lemma dec_from_grows ds : ∀ v, 0 ≤ v → Forall digit ds → v ≤ dec_from v ds.
Proof.
  induction ds as [|d ds IH]; intros v Hv Hd; [done|]. apply Forall_cons in Hd as [Hd Hds]. unfold digit in Hd.
  unfold dec_from in *. cbn [fold_left]. etrans; [|apply IH; [lia|done]]. lia.
Qed.

Lemma parse_digits_spec m c ds : ∀ fuel p v d, has m p (d :: ds ++ [c]) → Forall digit (d :: ds) → ¬ digit c →
  0 ≤ v ≤ 65535 → (length ds < fuel)%nat →
  parse_digits fuel m p v
  = Ok (if dec_from v (d :: ds) <=? 65535 then Some (dec_from v (d :: ds), p + zlen (d :: ds)) else None).
Proof.
  induction ds as [|e ds IH]; intros fuel p v d Hm Hd Hc Hv Hf; (destruct fuel as [|fuel]; [cbn in Hf; lia|]);
    cbn [parse_digits]; cbn [app] in Hm; destruct (rd_cons _ _ _ _ Hm) as [-> Hm']; rewrite bind_Ok;
    apply Forall_cons in Hd as [Hd Hds]; unfold digit in Hd; (rewrite u32_id by (unfold is_u32; lia));
    change (dec_from v (d :: ?k)) with (dec_from (v * 10 + (d - 48)) k); set (w := v * 10 + (d - 48)) in *;
    assert (0 ≤ w) by lia; unfold UINT16_MAX; cbv zeta.
  - change (dec_from w []) with w. destruct (Z.ltb_spec 65535 w) as [Hw|Hw]; [by rewrite (proj2 (Z.leb_gt _ _)) by lia|].
    rewrite (proj2 (Z.leb_le _ _)) by lia. apply rd_has in Hm' as ->. rewrite bind_Ok, (proj2 (is_digit_false c)) by done.
    done.
  - pose proof (dec_from_grows (e :: ds) w ltac:(done) Hds) as Hg.
    destruct (Z.ltb_spec 65535 w) as [Hw|Hw]; [by rewrite (proj2 (Z.leb_gt _ _)) by lia|].
    destruct (rd_cons _ _ _ _ Hm') as [-> _]. rewrite bind_Ok.
    apply Forall_cons in Hds as Hds'. destruct Hds' as [He _]. rewrite (proj2 (is_digit_true e)) by done.
    rewrite (IH fuel (p + 1) w e); [|done|done|done|lia|cbn in Hf; lia].
    replace (p + 1 + zlen (e :: ds)) with (p + zlen (d :: e :: ds)) by (rewrite (zlen_cons d); lia). done.
Qed.

(** The run of digits at the cursor. *)
Lemma split_digits (l : list Z) : ∃ ds r, l = ds ++ r ∧ Forall digit ds ∧ ∀ c, head r = Some c → ¬ digit c.
Proof.
  induction l as [|b l (ds & r & -> & Hd & Hr)]; [by exists [], []|].
  destruct (is_digit b) eqn:E.
  - apply is_digit_true in E. exists (b :: ds), r. split_and!; [done|by constructor|done].
  - apply is_digit_false in E. exists [], (b :: ds ++ r). split_and!; [done|done|]. intros c Hc. cbn in Hc. by simplify_eq.
Qed.

(** A component of a version: the digits [ds] end at [c]. *)
Lemma component_spec m p sep ds c : has m p (ds ++ [c]) → 0 ≤ p → p + zlen ds < zlen m → Forall digit ds → ¬ digit c →
  parseVersionComponent m p sep
  = Ok (if bool_decide (ds ≠ [] ∧ (head ds = Some 48 → ds = [48]) ∧ dec_from 0 ds ≤ 65535 ∧ c = sep)
        then Some (dec_from 0 ds, p + zlen ds + (if sep =? 0 then 0 else 1)) else None).
Proof.
  intros Hm Hp Hl Hd Hc. unfold parseVersionComponent. destruct ds as [|d ds].
  { cbn [app] in Hm. apply rd_has in Hm as ->. rewrite bind_Ok, (proj2 (is_digit_false c)) by done. cbn [negb].
    by rewrite bool_decide_eq_false_2 by (by intros [? _]). }
  apply Forall_cons in Hd as Hd'. destruct Hd' as [Hd1 Hds]. 
  pose proof Hm as Hm0. cbn [app] in Hm0. destruct (rd_cons _ _ _ _ Hm0) as [-> Hm'].
  rewrite bind_Ok, (proj2 (is_digit_true d)) by done. cbn [negb].
  set (lead := (if d =? 48 then _ else _) : outcome bool).
  assert (lead = Ok (bool_decide (d = 48 ∧ ds ≠ []))) as ->.
  { unfold lead. destruct (Z.eqb_spec d 48) as [->|Hd48]; [|by rewrite bool_decide_eq_false_2 by (by intros [? _])].
    destruct ds as [|e ds]; cbn [app] in Hm'.
    - apply rd_has in Hm' as ->. rewrite bind_Ok, (proj2 (is_digit_false c)) by done. 
      by rewrite bool_decide_eq_false_2 by (by intros [_ ?]).
    - destruct (rd_cons _ _ _ _ Hm') as [-> _]. apply Forall_cons in Hds as [He _].
      rewrite bind_Ok, (proj2 (is_digit_true e)) by done. by rewrite bool_decide_eq_true_2. }
  rewrite bind_Ok. destruct (bool_decide_reflect (d = 48 ∧ ds ≠ [])) as [[-> Hne]|Hz].
  { rewrite bool_decide_eq_false_2; [done|]. intros (_ & H & _). specialize (H eq_refl). by simplify_eq. }
  assert (head (d :: ds) = Some 48 → d :: ds = [48]) as Hlead.
  { cbn [head]. intros ?. simplify_eq. destruct ds; [done|]. exfalso. by apply Hz. }
  rewrite (parse_digits_spec m c ds (length m) p 0 d) by (try done; try lia; unfold zlen in Hl; cbn in Hl; lia). rewrite bind_Ok.
  pose proof (dec_from_grows (d :: ds) 0 ltac:(lia) Hd) as Hg.
  destruct (Z.leb_spec (dec_from 0 (d :: ds)) 65535) as [Hv|Hv].
  - assert (rd m (p + zlen (d :: ds)) = Ok c) as ->.
    { change (d :: ds ++ [c]) with ((d :: ds) ++ [c]) in Hm. apply has_app in Hm as [_ Hm]. by apply rd_has in Hm. }
    rewrite bind_Ok. destruct (Z.eqb_spec c sep) as [->|Hs]; cbn [negb].
    + rewrite bool_decide_eq_true_2 by done. rewrite u16_id by (unfold is_u16; lia).
      destruct (sep =? 0); cbn [negb]; [|done]. do 3 f_equal. lia.
    + by rewrite bool_decide_eq_false_2 by (by intros (_ & _ & _ & ?)).
  - rewrite bool_decide_eq_false_2 by (intros (_ & _ & ? & _); lia). done.
Qed.

(** One component of a canonical string [s], what follows it in memory being [r]. *)
Lemma component_cases m p sep s r : has m p (s ++ 0 :: r) → 0 ≤ p → p + zlen s < zlen m → Forall (λ b, b ≠ 0) s →
  sep ≠ 0 → ¬ digit sep →
  (∃ ds v s', numeral ds v ∧ s = ds ++ sep :: s' ∧ parseVersionComponent m p sep = Ok (Some (v, p + zlen ds + 1))) ∨
  ((∀ ds v s', numeral ds v → s ≠ ds ++ sep :: s') ∧ parseVersionComponent m p sep = Ok None).
Proof.
  intros Hm Hp Hl Hs H0 Hsep. destruct (split_digits s) as (ds & t & -> & Hd & Ht).
  set (c := default 0 (head t)). rewrite zlen_app in Hl. pose proof (zlen_nonneg t).
  assert (¬ digit c) as Hc. { unfold c. destruct t as [|b t]; cbn; [by intros [? ?]; lia|]. by apply Ht. }
  assert (has m p (ds ++ [c])) as Hmc.
  { rewrite <-app_assoc in Hm. apply has_app in Hm as [H1 H2]. apply has_app. split; [done|]. unfold c.
    destruct t as [|b t]; cbn [app head default] in *; by apply has_cons in H2 as [? _]. }
  rewrite (component_spec m p sep ds c) by (done || lia). rewrite (proj2 (Z.eqb_neq sep 0)) by done.
  destruct (bool_decide_reflect (ds ≠ [] ∧ (head ds = Some 48 → ds = [48]) ∧ dec_from 0 ds ≤ 65535 ∧ c = sep))
    as [(Hne & Hh & Hv & Hcs)|Hn].
  - left. unfold c in Hcs. destruct t as [|b t]; cbn in Hcs; [by subst|]. subst b. by exists ds, (dec_from 0 ds), t.
  - right. split; [|done]. intros ds' v s' (Hd' & Hne & Hh & <- & Hv) He. apply Hn.
    assert (ds = ds' ∧ t = sep :: s') as [-> ->].
    { clear -He Hd Hd' Ht Hsep. revert ds' He Hd'. induction ds as [|d ds IH]; intros [|d' ds'] He Hd'; cbn in He.
      - done.
      - subst t. apply Forall_cons in Hd' as [Hd' _]. by destruct (Ht d' eq_refl).
      - simplify_eq. by apply Forall_cons in Hd as [? _].
      - simplify_eq. apply Forall_cons in Hd as [_ Hd]. apply Forall_cons in Hd' as [_ Hd'].
        edestruct (IH Hd ds') as [-> ->]; done. }
    by split_and!.
Qed.

Lemma last_component_cases m p s r : has m p (s ++ 0 :: r) → 0 ≤ p → p + zlen s < zlen m → Forall (λ b, b ≠ 0) s →
  (∃ v, numeral s v ∧ parseVersionComponent m p 0 = Ok (Some (v, p + zlen s))) ∨
  ((∀ v, ¬ numeral s v) ∧ parseVersionComponent m p 0 = Ok None).
Proof.
  intros Hm Hp Hl Hs. destruct (split_digits s) as (ds & t & -> & Hd & Ht).
  set (c := default 0 (head t)). rewrite zlen_app in Hl. pose proof (zlen_nonneg t).
  assert (¬ digit c) as Hc. { unfold c. destruct t as [|b t]; cbn; [by intros [? ?]; lia|]. by apply Ht. }
  assert (has m p (ds ++ [c])) as Hmc.
  { rewrite <-app_assoc in Hm. apply has_app in Hm as [H1 H2]. apply has_app. split; [done|]. unfold c.
    destruct t as [|b t]; cbn [app head default] in *; by apply has_cons in H2 as [? _]. }
  rewrite (component_spec m p 0 ds c) by (done || lia). cbn [Z.eqb].
  assert (c = 0 ↔ t = []) as Hct.
  { unfold c. destruct t as [|b t]; [done|]. cbn. split; [|done]. intros ->. apply Forall_app in Hs as [_ Hs].
    by apply Forall_cons in Hs as [? _]. }
  destruct (bool_decide_reflect (ds ≠ [] ∧ (head ds = Some 48 → ds = [48]) ∧ dec_from 0 ds ≤ 65535 ∧ c = 0))
    as [(Hne & Hh & Hv & Hcs)|Hn].
  - left. apply Hct in Hcs as ->. exists (dec_from 0 ds). rewrite app_nil_r. split; [done|]. by rewrite Z.add_0_r.
  - right. split; [|done]. intros v (Hd' & Hne & Hh & <- & Hv). apply Hn. apply Forall_app in Hd' as [_ Hdt].
    destruct t as [|b t]; [|apply Forall_cons in Hdt as [Hb _]; by destruct (Ht b eq_refl)].
    rewrite app_nil_r in *. split_and!; [done..|by apply Hct].
Qed.

(** The version string [s] denotes [major.minor.patch]. *)
Definition version_string (s : list Z) (a b c : Z) : Prop :=
  ∃ da db dc, numeral da a ∧ numeral db b ∧ numeral dc c ∧ s = da ++ 46 :: db ++ 46 :: dc.

(** The digits before a separator are determined. *)
Lemma split_digits_unique sep ds : ∀ ds' t t', ¬ digit sep → Forall digit ds → Forall digit ds' →
  ds ++ sep :: t = ds' ++ sep :: t' → ds = ds' ∧ t = t'.
Proof.
  induction ds as [|x ds IH]; intros [|y ds'] t t' Hsep Hd Hd' He; cbn in He; simplify_eq.
  - done.
  - by apply Forall_cons in Hd' as [? _].
  - by apply Forall_cons in Hd as [? _].
  - apply Forall_cons in Hd as [_ Hd]. apply Forall_cons in Hd' as [_ Hd'].
    edestruct (IH ds' t t') as [-> ->]; done.
Qed.

Lemma parseVersion_lemma md s : zlen (firmwareVersion md) = 32 → canonical (firmwareVersion md) s →
  (∃ a b c, version_string s a b c ∧ parseVersion md = Ok (true, set_version md a b c)) ∨
  ((∀ a b c, ¬ version_string s a b c) ∧ ∃ a b c, parseVersion md = Ok (false, set_version md a b c)).
Proof.
  intros Hl (k & He & Hk & Hne & Hs). unfold parseVersion. set (m := firmwareVersion md) in *.
  rewrite (zeros_cons k) in He by done. set (r := zeros (k - 1)) in *.
  assert (has m 0 (s ++ 0 :: r)) as Hm by (rewrite He; apply has_self).
  assert (∀ md, set_version md (versionMajor md) (versionMinor md) (versionPatch md) = md) as Hid by by intros [].
  rewrite He, zlen_app, zlen_cons in Hl. pose proof (zlen_nonneg r).
  assert (zlen m = 32) as Hlm by (rewrite He, zlen_app, zlen_cons; lia).
  assert (¬ digit 46) as H46 by (by intros [? ?]; lia).
  destruct (component_cases m 0 46 s r Hm ltac:(lia) ltac:(lia) Hs ltac:(lia) H46) as [(da & a & s1 & Ha & -> & ->)|[Hn ->]].
  2: { right. split; [|by eexists _, _, _; rewrite bind_Ok, Hid]. intros a b c (da & db & dc & Ha & _ & _ & He'). by eapply Hn. }
  rewrite bind_Ok. rewrite <-app_assoc in Hm. apply has_app in Hm as [_ Hm]. cbn [app] in Hm. apply has_cons in Hm as [_ Hm].
  apply Forall_app in Hs as [_ Hs]. apply Forall_cons in Hs as [_ Hs]. rewrite zlen_app, zlen_cons in Hl.
  pose proof (zlen_nonneg da). pose proof (zlen_nonneg s1).
  destruct (component_cases m (0 + zlen da + 1) 46 s1 r Hm ltac:(lia) ltac:(lia) Hs ltac:(lia) H46)
    as [(db & b & s2 & Hb & -> & ->)|[Hn ->]].
  2: { right. split; [|by eexists _, _, _; rewrite bind_Ok]. intros a' b c (da' & db & dc & Ha' & Hb & _ & He').
       apply split_digits_unique in He' as [_ He']; [|done|apply Ha|apply Ha']. by eapply Hn. }
  rewrite bind_Ok. rewrite <-app_assoc in Hm. apply has_app in Hm as [_ Hm]. cbn [app] in Hm. apply has_cons in Hm as [_ Hm].
  apply Forall_app in Hs as [_ Hs]. apply Forall_cons in Hs as [_ Hs]. rewrite zlen_app, zlen_cons in Hl.
  pose proof (zlen_nonneg db). pose proof (zlen_nonneg s2).
  destruct (last_component_cases m (0 + zlen da + 1 + zlen db + 1) s2 r Hm ltac:(lia) ltac:(lia) Hs) as [(c & Hc & ->)|[Hn ->]];
    rewrite bind_Ok.
  - left. exists a, b, c. split; [by exists da, db, s2|done].
  - right. split; [|by eexists _, _, _]. intros a' b' c' (da' & db' & dc' & Ha' & Hb' & Hc' & He').
    apply split_digits_unique in He' as [_ He']; [|done|apply Ha|apply Ha'].
    apply split_digits_unique in He' as [_ <-]; [|done|apply Hb|apply Hb']. by eapply Hn.
Qed.
(** ** The header of a package *)
Definition le16 (h : list Z) (p : Z) : Z := le_combine (field h p 2).
Definition le32 (h : list Z) (p : Z) : Z := le_combine (field h p 4).
Definition hex_digit (c : Z) : Prop := digit c ∨ 97 ≤ c ≤ 102.

(** The envelope of a package of [expected] bytes for these partitions. *)
Record valid_envelope (h : list Z) (ap op : OTAStagingPartition) (expected : Z) : Prop := {
  ve_magic : field h 0 8 = bytes_of_string "AZPKG001";
  ve_version : le16 h 8 = 1;
  ve_header : le16 h 10 = 320;
  ve_algorithm : le16 h 12 = 1;
  ve_signature : le16 h 14 = 64;
  ve_reserved : field h 52 12 = zeros 12;
  ve_room : 768 ≤ le32 h 16 ≤ part_length op ∧ le32 h 16 ≤ part_length ap;
  ve_size : le32 h 16 + 384 = expected }.

(** The image descriptor, at offset 64, and the metadata it gives. *)
Record valid_descriptor (h : list Z) (ap op : OTAStagingPartition) (md : OTAStagingMetadata) : Prop := {
  vd_magic : field h 64 8 = bytes_of_string "AZOTA001";
  vd_version : le16 h 72 = 1;
  vd_size : le16 h 74 = 256;
  vd_type : le32 h 76 = 1;
  vd_key_type : le32 h 224 = 1;
  vd_reserved : field h 260 60 = zeros 60;
  vd_product : productId md = field h 80 32 ∧ ∃ s, canonical (productId md) s;
  vd_board : boardId md = field h 112 32 ∧ ∃ s, canonical (boardId md) s;
  vd_firmware : firmwareVersion md = field h 144 32 ∧
    ∃ s, canonical (firmwareVersion md) s ∧ version_string s (versionMajor md) (versionMinor md) (versionPatch md);
  vd_commit : sourceCommit md = field h 176 40 ++ [0] ∧ Forall hex_digit (field h 176 40);
  vd_address : applicationAddress md = le32 h 216 ∧ le32 h 216 = part_start ap ∧ le32 h 216 mod 512 = 0;
  vd_capacity : applicationCapacity md = le32 h 220 ∧ le32 h 220 = part_length ap;
  vd_payload : md_payloadSize md = le32 h 16 ∧ md_sha256 md = field h 20 32;
  vd_space : part_start ap + part_length ap ≤ UINT32_MAX ∧ part_start op + part_length op ≤ UINT32_MAX }.

Lemma commit_loop_spec m k : ∀ p, has m p k →
  commit_loop (length k) m p = Ok (bool_decide (Forall hex_digit k)).
Proof.
  induction k as [|c k IH]; intros p Hm; cbn [length commit_loop]; [by rewrite bool_decide_eq_true_2 by constructor|].
  destruct (rd_cons _ _ _ _ Hm) as [-> Hm']. rewrite bind_Ok.
  assert (is_digit c || ((97 <=? c) && (c <=? 102)) = true ↔ hex_digit c) as Hc.
  { unfold hex_digit. rewrite orb_true_iff, is_digit_true, andb_true_iff, !Z.leb_le. done. }
  destruct (is_digit c || _); cbn [negb].
  - rewrite IH by done. f_equal. apply bool_decide_ext. rewrite Forall_cons. intuition.
  - rewrite bool_decide_eq_false_2; [done|]. rewrite Forall_cons. intuition discriminate.
Qed.

(** The results of the checks of the format. *)
Definition format_code (e : OTAStagingError) : bool :=
  match e with
  | OTA_OK | OTA_ERROR_PACKAGE_FORMAT | OTA_ERROR_UNSUPPORTED | OTA_ERROR_IMAGE_BOUNDS | OTA_ERROR_PACKAGE_SIZE => true
  | _ => false
  end.

(** The first condition that fails gives the result. *)
Fixpoint first_failure (l : list (Prop * OTAStagingError)) (e : OTAStagingError) : Prop :=
  match l with
  | [] => e = OTA_OK
  | (P, c) :: l => (¬ P ∧ e = c) ∨ (P ∧ first_failure l e)
  end.

Lemma first_failure_app a b e :
  (first_failure a e ∧ e ≠ OTA_OK) ∨ (first_failure a OTA_OK ∧ first_failure b e) → Forall (λ c, c.2 ≠ OTA_OK) a →
  first_failure (a ++ b) e.
Proof.
  intros H Ha. induction Ha as [|[P c] a Hc Ha IH]; cbn in *; [by destruct H as [[? ?]|[_ ?]]|].
  destruct H as [[[[? ->]|[? ?]] ?]|[[[? <-]|[? ?]] ?]]; [by left|right; auto..|done|right; auto].
Qed.

(** What the format checks require, in their order, with the error of each. *)
Definition envelope_conditions (h : list Z) (ap op : OTAStagingPartition) (expected : Z) : list (Prop * OTAStagingError) := [
  (field h 0 8 = bytes_of_string "AZPKG001" ∧ le16 h 10 = 320 ∧ le16 h 14 = 64 ∧ field h 52 12 = zeros 12, OTA_ERROR_PACKAGE_FORMAT);
  (le16 h 8 = 1 ∧ le16 h 12 = 1, OTA_ERROR_UNSUPPORTED);
  (768 ≤ le32 h 16 ≤ part_length op ∧ le32 h 16 ≤ part_length ap, OTA_ERROR_IMAGE_BOUNDS);
  (le32 h 16 + 384 = expected, OTA_ERROR_PACKAGE_SIZE)].
Definition descriptor_conditions (h : list Z) (ap op : OTAStagingPartition) : list (Prop * OTAStagingError) := [
  (field h 64 8 = bytes_of_string "AZOTA001" ∧ le16 h 74 = 256 ∧ field h 260 60 = zeros 60, OTA_ERROR_PACKAGE_FORMAT);
  (le16 h 72 = 1 ∧ le32 h 76 = 1 ∧ le32 h 224 = 1, OTA_ERROR_UNSUPPORTED);
  ((∃ s, canonical (field h 80 32) s) ∧ (∃ s, canonical (field h 112 32) s) ∧ Forall hex_digit (field h 176 40) ∧
    (∃ s a b c, canonical (field h 144 32) s ∧ version_string s a b c), OTA_ERROR_PACKAGE_FORMAT);
  (le32 h 216 mod 512 = 0 ∧ le32 h 216 = part_start ap ∧ le32 h 220 = part_length ap ∧
    part_start ap + part_length ap ≤ UINT32_MAX ∧ part_start op + part_length op ≤ UINT32_MAX, OTA_ERROR_IMAGE_BOUNDS)].
Definition format_conditions h ap op expected : list (Prop * OTAStagingError) :=
  envelope_conditions h ap op expected ++ descriptor_conditions h ap op.

Lemma first_failure_all l e : Forall (λ c, c.1) l → first_failure l e → e = OTA_OK.
Proof. induction 1 as [|[P c] l HP _ IH]; cbn in *; [done|]. intros [[Hn _]|[_ Hf]]; [done|by apply IH]. Qed.

(** A valid header violates none. *)
Lemma first_failure_valid h ap op expected md e : valid_envelope h ap op expected ∧ valid_descriptor h ap op md →
  first_failure (format_conditions h ap op expected) e → e = OTA_OK.
Proof.
  intros [[] [? ? ? ? ? ? [E1 [s1 C1]] [E2 [s2 C2]] [E3 [s3 [C3 V3]]] [? ?] (? & ? & ?) (? & ?) ? [? ?]]]. apply first_failure_all.
  rewrite E1 in C1. rewrite E2 in C2. rewrite E3 in C3.
  repeat (apply Forall_cons; split; [cbn [fst]; split_and?; first [done|eassumption|idtac]|]); try apply Forall_nil; try tauto;
    [by exists s1|by exists s2|by eexists s3, _, _, _].
Qed.

(** ** Weakest preconditions of the programs of the engine *)
Section wp.
Context {W : Type}.
Implicit Types (s : ota W).

(** [m] is defined on [s] and its result satisfies [Q]. *)
Definition wp {A} (m : prog W A) (Q : A → ota W → Prop) s : Prop :=
  match m s with Ok (a, s) => Q a s | Ub _ => False end.

Definition upd (f : Session W → Session W) s : ota W :=
  mkOta (f (session s)) (nextGeneration s) (platform s) (world s).

Lemma wp_mono {A} (m : prog W A) Q R s : wp m Q s → (∀ a s, Q a s → R a s) → wp m R s.
Proof. unfold wp. destruct (m s) as [[a s']|]; auto. Qed.

Lemma wp_inv {A} (m : prog W A) Q s : wp m Q s → ∃ a s', m s = Ok (a, s') ∧ Q a s'.
Proof. unfold wp. destruct (m s) as [[a s']|]; [|done]. by exists a, s'. Qed.

Lemma wp_run {A} (m : prog W A) Q s a s' : m s = Ok (a, s') → Q a s' → wp m Q s.
Proof. unfold wp. by intros ->. Qed.

Lemma wp_ret {A} (a : A) Q s : Q a s → wp (mret a) Q s.
Proof. done. Qed.

Lemma wp_bind {A B} (m : prog W A) (f : A → prog W B) Q s : wp m (λ a, wp (f a) Q) s → wp (m ≫= f) Q s.
Proof.
  unfold wp. change ((m ≫= f) s) with (m s ≫= λ r, let '(a, s') := r in f a s').
  destruct (m s) as [[a s']|]; [done|done].
Qed.

Lemma wp_bind_inv {A B} (m : prog W A) (f : A → prog W B) Q s : wp (m ≫= f) Q s → wp m (λ a, wp (f a) Q) s.
Proof.
  unfold wp. change ((m ≫= f) s) with (m s ≫= λ r, let '(a, s') := r in f a s').
  destruct (m s) as [[a s']|]; [done|done].
Qed.

Lemma wp_lift {A B} (m : outcome A) a (f : A → prog W B) Q s : m = Ok a → wp (f a) Q s → wp (lift m ≫= f) Q s.
Proof. intros ->. done. Qed.

Lemma wp_gets {A B} (g : Session W → A) (f : A → prog W B) Q s : wp (f (g (session s))) Q s → wp (gets g ≫= f) Q s.
Proof. done. Qed.

Lemma wp_modify {B} (g : Session W → Session W) (f : () → prog W B) Q s :
  wp (f ()) Q (upd g s) → wp (modify g ≫= f) Q s.
Proof. done. Qed.

Lemma wp_if {A} (b : bool) (m n : prog W A) Q s :
  (b = true → wp m Q s) → (b = false → wp n Q s) → wp (if b then m else n) Q s.
Proof. destruct b; auto. Qed.

Lemma wp_true {A} (b : bool) (m n : prog W A) Q s : b = true → wp m Q s → wp (if b then m else n) Q s.
Proof. by intros ->. Qed.
Lemma wp_false {A} (b : bool) (m n : prog W A) Q s : b = false → wp n Q s → wp (if b then m else n) Q s.
Proof. by intros ->. Qed.

Lemma wp_and_then (f g : prog W OTAStagingError) Q s :
  wp f (λ e s, (e ≠ OTA_OK → Q e s) ∧ (e = OTA_OK → wp g Q s)) s → wp (and_then f g) Q s.
Proof.
  intros H. unfold and_then. apply wp_bind. eapply wp_mono; [exact H|]. intros e s' [H1 H2]. cbv beta.
  destruct (bool_decide_reflect (e = OTA_OK)); auto. apply wp_ret. auto.
Qed.

(** ** The checks of the header *)
Context (SIZE_MAX : Z) (h : list Z) (Hl : zlen h = 320) (Hb : bytes h).

Lemma header16 p : 0 ≤ p → p + 2 ≤ 320 → readLittleEndian16 h p = Ok (le16 h p).
Proof using Hl Hb. intros. apply readLittleEndian16_field; [done..|lia]. Qed.
Lemma header32 p : 0 ≤ p → p + 4 ≤ 320 → readLittleEndian32 h p = Ok (le32 h p).
Proof using Hl Hb. intros. apply readLittleEndian32_field; [done..|lia]. Qed.
Lemma header_bytes p n : 0 ≤ p → 0 ≤ n → p + n ≤ 320 → rd_bytes h p n = Ok (field h p n).
Proof using Hl. intros. apply rd_bytes_field; lia. Qed.
Lemma header_zero p n : 0 ≤ p → 0 ≤ n → p + n ≤ 320 → allZero h p n = Ok (bool_decide (field h p n = zeros n)).
Proof using Hl Hb. intros. apply allZero_spec; [done|lia..]. Qed.

Lemma validateEnvelope_sound s : header (session s) = h → expectedPackageSize (session s) ≤ SIZE_MAX →
  let se := session s in
  wp (validateEnvelope SIZE_MAX) (λ e s', format_code e = true ∧ ∃ n, s' = upd (set_payloadSize n) s ∧
    (e = OTA_OK → n = le32 h 16 ∧ valid_envelope h (applicationPartition se) (otaPartition se) (expectedPackageSize se))) s.
Proof using Hl Hb.
  intros Hh Hs se. unfold validateEnvelope. apply wp_gets. rewrite Hh.
  assert (∀ e, format_code e = true → e ≠ OTA_OK → format_code e = true ∧ ∃ n, s = upd (set_payloadSize n) s ∧ (e = OTA_OK → n = le32 h 16 ∧
    valid_envelope h (applicationPartition se) (otaPartition se) (expectedPackageSize se))) as Hid.
  { intros e Hc He. split; [done|]. exists (payloadSize se). split; [|done]. unfold se. by destruct s as [[] ? ? ?]. }
  do 4 (eapply wp_lift; [first [by apply header_bytes | by apply header16 | by apply header_zero]|]).
  apply wp_if; intros E1; [by apply wp_ret, Hid|]. rewrite !orb_false_iff, !negb_false_iff in E1.
  do 2 (eapply wp_lift; [by apply header16|]).
  apply wp_if; intros E2; [by apply wp_ret, Hid|]. rewrite !orb_false_iff, !negb_false_iff in E2.
  eapply wp_lift; [by apply header32|]. apply wp_modify, wp_gets, wp_gets.
  apply wp_if; intros E3; [by apply wp_ret; split; [|eexists]|]. apply wp_gets. rewrite !orb_false_iff, !Z.ltb_ge in E3.
  apply wp_if; intros E4; [by apply wp_ret; split; [|eexists]|]. rewrite orb_false_iff, negb_false_iff in E4.
  apply wp_ret. split; [done|]. eexists. split; [done|]. intros _. split; [done|].
  destruct E1 as [[[E11 E12] E13] E14], E2 as [E21 E22], E3 as [[E31 E32] E33], E4 as [_ E4].
  apply bool_decide_eq_true in E11, E14. apply Z.eqb_eq in E12, E13, E21, E22, E4.
  constructor; try done; cbn in *; unfold OTA_IMAGE_DESCRIPTOR_OFFSET, OTA_IMAGE_DESCRIPTOR_SIZE in *; lia.
Qed.

Lemma validateEnvelope_complete s : header (session s) = h → expectedPackageSize (session s) ≤ SIZE_MAX →
  let se := session s in
  valid_envelope h (applicationPartition se) (otaPartition se) (expectedPackageSize se) →
  validateEnvelope SIZE_MAX s = Ok (OTA_OK, upd (set_payloadSize (le32 h 16)) s).
Proof using Hl Hb.
  intros Hh Hs se [V1 V2 V3 V4 V5 V6 V7 V8].
  enough (wp (validateEnvelope SIZE_MAX) (λ e s', e = OTA_OK ∧ s' = upd (set_payloadSize (le32 h 16)) s) s) as Hw.
  { unfold wp in Hw. destruct (validateEnvelope SIZE_MAX s) as [[e s']|]; [|done]. by destruct Hw as [-> ->]. }
  unfold validateEnvelope. apply wp_gets. rewrite Hh.
  do 4 (eapply wp_lift; [first [by apply header_bytes | by apply header16 | by apply header_zero]|]).
  apply wp_false; [by rewrite bool_decide_eq_true_2, V3, V5, bool_decide_eq_true_2|].
  do 2 (eapply wp_lift; [by apply header16|]). apply wp_false; [by rewrite V2, V4|].
  eapply wp_lift; [by apply header32|]. apply wp_modify, wp_gets, wp_gets.
  apply wp_false.
  { rewrite !orb_false_iff, !Z.ltb_ge. unfold OTA_IMAGE_DESCRIPTOR_OFFSET, OTA_IMAGE_DESCRIPTOR_SIZE. cbn. unfold se in *. lia. }
  apply wp_gets, wp_false; [|by apply wp_ret].
  rewrite orb_false_iff, negb_false_iff, Z.ltb_ge, Z.eqb_eq. unfold OTA_PACKAGE_PAYLOAD_OFFSET. cbn. unfold se in *. lia.
Qed.

Lemma header_copy p n k : 0 ≤ p → 0 ≤ n ≤ k → p + n ≤ 320 →
  (bs ← rd_bytes h p n; wr_bytes (zeros k) 0 bs) = Ok (field h p n ++ zeros (k - n)).
Proof using Hl.
  intros. rewrite header_bytes, bind_Ok by lia. rewrite wr_bytes_splice by lia. rewrite zlen_field by lia.
  rewrite (proj2 (Z.leb_le _ _)) by (rewrite zlen_zeros; lia). f_equal. unfold splice. rewrite zlen_field by lia.
  change (ztake 0 (zeros k)) with (@nil Z). cbn [app]. f_equal. unfold zdrop, zeros.
  rewrite drop_replicate. f_equal. lia.
Qed.

Lemma header_commit : validSourceCommit h (64 + 112) = Ok (bool_decide (Forall hex_digit (field h 176 40))).
Proof using Hl Hb.
  unfold validSourceCommit. rewrite <-(commit_loop_spec h _ 176) by by apply has_field.
  assert (length (field h 176 40) = 40%nat) as ->; [|done].
  pose proof (zlen_field h 176 40 ltac:(lia) ltac:(lia) ltac:(lia)) as H. unfold zlen in H. lia.
Qed.

Lemma validateDescriptor_sound s : header (session s) = h → payloadSize (session s) = le32 h 16 →
  let se := session s in
  wp validateDescriptor (λ e s', format_code e = true ∧ ∃ md, s' = upd (set_metadata md) s ∧
    (e = OTA_OK → valid_descriptor h (applicationPartition se) (otaPartition se) md)) s.
Proof using Hl Hb.
  intros Hh Hp se. unfold validateDescriptor. apply wp_gets. rewrite Hh. unfold DescriptorOffset. cbv zeta.
  assert (∀ s0 e, format_code e = true → (∃ md, s0 = upd (set_metadata md) s) → e ≠ OTA_OK → format_code e = true ∧ ∃ md, s0 = upd (set_metadata md) s ∧
    (e = OTA_OK → valid_descriptor h (applicationPartition se) (otaPartition se) md)) as Hid.
  { intros s0 e Hc (md & ->) He. split; [done|]. by exists md. }
  assert (∃ md, s = upd (set_metadata md) s) as H0.
  { exists (metadata se). unfold se. by destruct s as [[] ? ? ?]. }
  do 3 (eapply wp_lift; [first [by apply header_bytes | by apply header16 | by apply header_zero]|]).
  apply wp_if; intros E1; [by apply wp_ret, Hid|]. rewrite !orb_false_iff, !negb_false_iff in E1.
  do 3 (eapply wp_lift; [first [by apply header16|by apply header32]|]).
  apply wp_if; intros E2; [by apply wp_ret, Hid|]. rewrite !orb_false_iff, !negb_false_iff in E2.
  apply wp_modify, wp_gets.
  destruct (canonicalString_spec h (64 + 16) 32 (zeros 32)) as [(s1 & Hs1 & Hr)|[_ Hr]]; [done|lia|lia|lia|done| |];
    (eapply wp_lift; [exact Hr|]); cbv iota beta; apply wp_modify;
    [apply wp_false; [done|]|apply wp_true; [done|]; apply wp_ret, Hid; [done|by eexists|done]].
  destruct (canonicalString_spec h (64 + 48) 32 (zeros 32)) as [(s2 & Hs2 & Hr2)|[_ Hr2]]; [done|lia|lia|lia|done| |];
    (eapply wp_lift; [exact Hr2|]); cbv iota beta; apply wp_modify;
    [apply wp_false; [done|]|apply wp_true; [done|]; apply wp_ret, Hid; [done|by eexists|done]].
  destruct (canonicalString_spec h (64 + 80) 32 (zeros 32)) as [(s3 & Hs3 & Hr3)|[_ Hr3]]; [done|lia|lia|lia|done| |];
    (eapply wp_lift; [exact Hr3|]); cbv iota beta; apply wp_modify;
    [apply wp_false; [done|]|apply wp_true; [done|]; apply wp_ret, Hid; [done|by eexists|done]].
  eapply wp_lift; [exact header_commit|]. apply wp_if; intros E3; [by apply wp_ret, Hid; [|by eexists|]|].
  apply negb_false_iff, bool_decide_eq_true in E3.
  eapply wp_lift; [by apply header_copy|]. do 2 (eapply wp_lift; [by apply header32|]). apply wp_gets.
  eapply wp_lift; [by apply header_copy|]. cbv beta zeta.
  set (md := mkMetadata _ _ _ _ _ _ _ _ _ _ _).
  destruct (parseVersion_lemma md s3) as [(a & b & c & Hv & Hr4)|(_ & a & b & c & Hr4)];
    [by apply zlen_field; lia|exact Hs3| |]; (eapply wp_lift; [exact Hr4|]); cbv iota beta; apply wp_modify;
    [apply wp_false; [done|]|apply wp_true; [done|]; apply wp_ret, Hid; [done|by eexists|done]].
  apply wp_gets, wp_gets. apply wp_if; intros E4; [by apply wp_ret, Hid; [|by eexists|]|].
  apply wp_ret. split; [done|]. eexists. split; [done|]. intros _.
  apply orb_false_iff in E4 as [E4 E45]. apply orb_false_iff in E4 as [E4 E44]. apply orb_false_iff in E4 as [E4 E43].
  apply orb_false_iff in E4 as [E41 E42]. apply negb_false_iff, Z.eqb_eq in E41, E42, E43. apply Z.ltb_ge in E44, E45.
  cbn [session upd set_metadata applicationPartition otaPartition] in *. fold se in E42, E43, E44, E45.
  destruct E1 as [[E11 E12] E13], E2 as [[E21 E22] E23].
  apply bool_decide_eq_true in E11, E13. apply Z.eqb_eq in E12, E21, E22, E23.
  constructor; try done.
  - split; [reflexivity|by exists s1].
  - split; [reflexivity|by exists s2].
  - split; [reflexivity|by exists s3].
  - split; [reflexivity|]. split; [exact E42|]. rewrite <-E41. symmetry. apply (Z.land_ones _ 9). lia.
  - split; [exact Hp|]. cbn. by rewrite app_nil_r.
  - lia.
Qed.

Lemma validateDescriptor_accepts s md : header (session s) = h →
  let se := session s in
  valid_descriptor h (applicationPartition se) (otaPartition se) md →
  wp validateDescriptor (λ e _, e = OTA_OK) s.
Proof using Hl Hb.
  intros Hh se [V1 V2 V3 V4 V5 V6 [V7 (c1 & V7')] [V8 (c2 & V8')] [V9 (c3 & V9' & V9'')] [_ V10] [_ [V11 V11']] [_ V12] _ [V13 V14]].
  rewrite V7 in V7'. rewrite V8 in V8'. rewrite V9 in V9'.
  unfold validateDescriptor. apply wp_gets. rewrite Hh. unfold DescriptorOffset. cbv zeta.
  do 3 (eapply wp_lift; [first [by apply header_bytes | by apply header16 | by apply header_zero]|]).
  apply wp_false; [change (64 + 10) with 74; change (64 + 196) with 260; by rewrite bool_decide_eq_true_2, V3, bool_decide_eq_true_2|].
  do 3 (eapply wp_lift; [first [by apply header16|by apply header32]|]).
  apply wp_false; [change (64 + 8) with 72; change (64 + 12) with 76; change (64 + 160) with 224; by rewrite V2, V4, V5|]. apply wp_modify, wp_gets.
  destruct (canonicalString_spec h (64 + 16) 32 (zeros 32)) as [(s1 & Hs1 & Hr)|[Hn _]];
    [done|lia|lia|lia|done| |by destruct (Hn _ V7')].
  eapply wp_lift; [exact Hr|]. cbv iota beta. apply wp_modify, wp_false; [done|].
  destruct (canonicalString_spec h (64 + 48) 32 (zeros 32)) as [(s2 & Hs2 & Hr2)|[Hn _]];
    [done|lia|lia|lia|done| |by destruct (Hn _ V8')].
  eapply wp_lift; [exact Hr2|]. cbv iota beta. apply wp_modify, wp_false; [done|].
  destruct (canonicalString_spec h (64 + 80) 32 (zeros 32)) as [(s3 & Hs3 & Hr3)|[Hn _]];
    [done|lia|lia|lia|done| |by destruct (Hn _ V9')].
  eapply wp_lift; [exact Hr3|]. cbv iota beta. apply wp_modify, wp_false; [done|].
  eapply wp_lift; [exact header_commit|]. apply wp_false; [by rewrite bool_decide_eq_true_2|].
  eapply wp_lift; [by apply header_copy|]. do 2 (eapply wp_lift; [by apply header32|]). apply wp_gets.
  eapply wp_lift; [by apply header_copy|]. cbv beta zeta.
  set (md1 := mkMetadata _ _ _ _ _ _ _ _ _ _ _).
  destruct (parseVersion_lemma md1 s3) as [(a & b & c & Hv & Hr4)|(Hn & _)];
    [by apply zlen_field; lia|exact Hs3| |rewrite (canonical_unique _ _ _ Hs3 V9') in Hn; by destruct (Hn _ _ _ V9'')].
  eapply wp_lift; [exact Hr4|]. cbv iota beta. apply wp_modify, wp_false; [done|]. apply wp_gets, wp_gets.
  apply wp_false; [|by apply wp_ret].
  change (64 + 152) with 216. change (64 + 156) with 220.
  cbn [session upd set_metadata applicationPartition otaPartition]. fold se.
  rewrite <-V11, <-V12, !Z.eqb_refl. replace (Z.land (le32 h 216) 511) with 0 by (rewrite (Z.land_ones _ 9); [done|lia]).
  rewrite V11, V12. cbn [Z.eqb negb orb]. apply orb_false_iff. rewrite !Z.ltb_ge. lia.
Qed.

Lemma numeral_value ds v v' : numeral ds v → numeral ds v' → v = v'.
Proof using. intros (_ & _ & _ & <- & _) (_ & _ & _ & <- & _). done. Qed.

Lemma version_string_unique v a b c a' b' c' : version_string v a b c → version_string v a' b' c' →
  a = a' ∧ b = b' ∧ c = c'.
Proof using.
  intros (da & db & dc & Ha & Hb0 & Hc & ->) (da' & db' & dc' & Ha' & Hb' & Hc' & He).
  assert (¬ digit 46) as H46 by (intros [? ?]; lia).
  apply split_digits_unique in He as [<- He]; [|done|apply Ha|apply Ha'].
  apply split_digits_unique in He as [<- <-]; [|done|apply Hb0|apply Hb'].
  split_and!; by eapply numeral_value.
Qed.

Lemma valid_descriptor_unique ap op md md' : valid_descriptor h ap op md → valid_descriptor h ap op md' → md = md'.
Proof using.
  intros [_ _ _ _ _ _ [P1 _] [B1 _] [F1 (s & S1 & V1)] [C1 _] [A1 _] [K1 _] [Z1 D1] _]
         [_ _ _ _ _ _ [P2 _] [B2 _] [F2 (s' & S2 & V2)] [C2 _] [A2 _] [K2 _] [Z2 D2] _].
  rewrite F1 in S1. rewrite F2 in S2. rewrite <-(canonical_unique _ _ _ S1 S2) in V2.
  destruct (version_string_unique _ _ _ _ _ _ _ V1 V2) as (E1 & E2 & E3).
  destruct md, md'; cbn in *. by subst.
Qed.

Lemma validateDescriptor_complete s md : header (session s) = h → payloadSize (session s) = le32 h 16 →
  let se := session s in
  valid_descriptor h (applicationPartition se) (otaPartition se) md →
  validateDescriptor s = Ok (OTA_OK, upd (set_metadata md) s).
Proof using Hl Hb.
  intros Hh Hp se Hv. pose proof (validateDescriptor_sound s Hh Hp) as H1. cbv zeta in H1.
  pose proof (validateDescriptor_accepts s md Hh Hv) as H2. unfold wp in *.
  destruct (validateDescriptor s) as [[e s']|]; [|done]. subst e. destruct H1 as (_ & md' & -> & Hv').
  by rewrite (valid_descriptor_unique _ _ _ _ Hv (Hv' eq_refl)).
Qed.

(** The two parts of the format checks. *)
Definition format_checks : prog W OTAStagingError := and_then (validateEnvelope SIZE_MAX) validateDescriptor.

Lemma format_checks_sound s : header (session s) = h → expectedPackageSize (session s) ≤ SIZE_MAX →
  let se := session s in
  wp format_checks (λ e s', format_code e = true ∧ ∃ n md, s' = upd (set_metadata md) (upd (set_payloadSize n) s) ∧
    (e = OTA_OK → n = le32 h 16 ∧ valid_envelope h (applicationPartition se) (otaPartition se) (expectedPackageSize se) ∧
                  valid_descriptor h (applicationPartition se) (otaPartition se) md)) s.
Proof using Hl Hb.
  intros Hh Hs se. apply wp_and_then. eapply wp_mono; [by apply validateEnvelope_sound|]. cbv beta.
  intros e s' (Hc & n & -> & He). split.
  - intros Hne. split; [done|]. exists n, (metadata se). split; [|done]. unfold se. by destruct s as [[] ? ? ?].
  - intros ->. destruct (He eq_refl) as [-> Hv]. eapply wp_mono; [apply validateDescriptor_sound; done|]. cbv beta.
    intros e s' (Hc' & md & -> & Hd). split; [done|]. exists (le32 h 16), md. split; [done|]. intros ->. split_and!; [done..|exact (Hd eq_refl)].
Qed.

Lemma format_checks_complete s md : header (session s) = h → expectedPackageSize (session s) ≤ SIZE_MAX →
  let se := session s in
  valid_envelope h (applicationPartition se) (otaPartition se) (expectedPackageSize se) →
  valid_descriptor h (applicationPartition se) (otaPartition se) md →
  format_checks s = Ok (OTA_OK, upd (set_metadata md) (upd (set_payloadSize (le32 h 16)) s)).
Proof using Hl Hb.
  intros Hh Hs se Hv Hd. unfold format_checks, and_then.
  change ((validateEnvelope SIZE_MAX ≫= ?f) s) with (validateEnvelope SIZE_MAX s ≫= λ r, let '(a, s') := r in f a s').
  rewrite (validateEnvelope_complete s Hh Hs Hv), bind_Ok. rewrite bool_decide_eq_true_2 by done.
  by apply validateDescriptor_complete.
Qed.
(** Which check failed. *)
Lemma validateEnvelope_result s : header (session s) = h → expectedPackageSize (session s) ≤ SIZE_MAX →
  let se := session s in
  wp (validateEnvelope SIZE_MAX) (λ e _, first_failure
    (envelope_conditions h (applicationPartition se) (otaPartition se) (expectedPackageSize se)) e) s.
Proof using Hl Hb.
  intros Hh Hs se. unfold validateEnvelope. apply wp_gets. rewrite Hh.
  do 4 (eapply wp_lift; [first [by apply header_bytes | by apply header16 | by apply header_zero]|]).
  apply wp_if; intros E1.
  { apply wp_ret. left. split; [|done]. intros (V1 & V2 & V3 & V4). rewrite bool_decide_eq_true_2, V2, V3, bool_decide_eq_true_2 in E1 by done. done. }
  rewrite !orb_false_iff, !negb_false_iff, !Z.eqb_eq, !bool_decide_eq_true in E1.
  do 2 (eapply wp_lift; [by apply header16|]).
  apply wp_if; intros E2.
  { apply wp_ret. right. split; [tauto|]. left. split; [|done]. intros [V1 V2]. by rewrite V1, V2 in E2. }
  rewrite !orb_false_iff, !negb_false_iff, !Z.eqb_eq in E2.
  eapply wp_lift; [by apply header32|]. apply wp_modify, wp_gets, wp_gets.
  unfold OTA_IMAGE_DESCRIPTOR_OFFSET, OTA_IMAGE_DESCRIPTOR_SIZE. cbn [session upd set_payloadSize otaPartition applicationPartition]. fold se.
  apply wp_if; intros E3.
  { apply wp_ret. right. split; [tauto|]. right. split; [tauto|]. left. split; [|done]. rewrite !orb_true_iff, !Z.ltb_lt in E3. lia. }
  rewrite !orb_false_iff, !Z.ltb_ge in E3. apply wp_gets. unfold OTA_PACKAGE_PAYLOAD_OFFSET. cbn [session upd set_payloadSize expectedPackageSize]. fold se.
  unfold se in *. apply wp_if; intros E4; apply wp_ret; right; (split; [tauto|]); right; (split; [tauto|]); right; (split; [lia|]).
  - left. split; [|done]. rewrite orb_true_iff, negb_true_iff, Z.ltb_lt, Z.eqb_neq in E4. lia.
  - right. split; [|done]. rewrite orb_false_iff, negb_false_iff, Z.eqb_eq in E4. tauto.
Qed.

Lemma validateDescriptor_result s : header (session s) = h →
  let se := session s in
  wp validateDescriptor (λ e _, first_failure (descriptor_conditions h (applicationPartition se) (otaPartition se)) e) s.
Proof using Hl Hb.
  intros Hh se. unfold validateDescriptor. apply wp_gets. rewrite Hh. unfold DescriptorOffset. cbv zeta.
  do 3 (eapply wp_lift; [first [by apply header_bytes | by apply header16 | by apply header_zero]|]).
  change (64 + 10) with 74. change (64 + 196) with 260. change (64 + 8) with 72. change (64 + 12) with 76. change (64 + 160) with 224.
  apply wp_if; intros E1.
  { apply wp_ret. left. split; [|done]. intros (V1 & V2 & V3). rewrite bool_decide_eq_true_2, V2, bool_decide_eq_true_2 in E1 by done. done. }
  rewrite !orb_false_iff, !negb_false_iff, !Z.eqb_eq, !bool_decide_eq_true in E1.
  do 3 (eapply wp_lift; [first [by apply header16|by apply header32]|]).
  apply wp_if; intros E2.
  { apply wp_ret. right. split; [tauto|]. left. split; [|done]. intros (V1 & V2 & V3). by rewrite V1, V2, V3 in E2. }
  rewrite !orb_false_iff, !negb_false_iff, !Z.eqb_eq in E2.
  apply wp_modify, wp_gets.
  assert (∀ st : ota W, ¬ ((∃ t, canonical (field h 80 32) t) ∧ (∃ t, canonical (field h 112 32) t) ∧ Forall hex_digit (field h 176 40) ∧
    (∃ t a b c, canonical (field h 144 32) t ∧ version_string t a b c)) →
    wp (mret OTA_ERROR_PACKAGE_FORMAT) (λ e _, first_failure (descriptor_conditions h (applicationPartition se) (otaPartition se)) e) st) as Hbad.
  { intros st Hn. apply wp_ret. right. split; [tauto|]. right. split; [tauto|]. by left. }
  destruct (canonicalString_spec h (64 + 16) 32 (zeros 32)) as [(s1 & Hs1 & Hr)|[Hn Hr]]; [done|lia|lia|lia|done| |];
    (eapply wp_lift; [exact Hr|]); cbv iota beta; apply wp_modify;
    [apply wp_false; [done|]|apply wp_true; [done|]; apply Hbad; intros ((? & Hc) & _); exact (Hn _ Hc)].
  destruct (canonicalString_spec h (64 + 48) 32 (zeros 32)) as [(s2 & Hs2 & Hr2)|[Hn Hr2]]; [done|lia|lia|lia|done| |];
    (eapply wp_lift; [exact Hr2|]); cbv iota beta; apply wp_modify;
    [apply wp_false; [done|]|apply wp_true; [done|]; apply Hbad; intros (_ & (? & Hc) & _); exact (Hn _ Hc)].
  destruct (canonicalString_spec h (64 + 80) 32 (zeros 32)) as [(s3 & Hs3 & Hr3)|[Hn Hr3]]; [done|lia|lia|lia|done| |];
    (eapply wp_lift; [exact Hr3|]); cbv iota beta; apply wp_modify;
    [apply wp_false; [done|]|apply wp_true; [done|]; apply Hbad; intros (_ & _ & _ & ? & ? & ? & ? & Hc & _); exact (Hn _ Hc)].
  eapply wp_lift; [exact header_commit|]. apply wp_if; intros E3.
  { apply Hbad. intros (_ & _ & Hx & _). by rewrite bool_decide_eq_true_2 in E3. }
  apply negb_false_iff, bool_decide_eq_true in E3.
  eapply wp_lift; [by apply header_copy|]. do 2 (eapply wp_lift; [by apply header32|]). apply wp_gets.
  eapply wp_lift; [by apply header_copy|]. cbv beta zeta.
  set (md := mkMetadata _ _ _ _ _ _ _ _ _ _ _).
  destruct (parseVersion_lemma md s3) as [(a & b & c & Hv & Hr4)|(Hn & a & b & c & Hr4)];
    [by apply zlen_field; lia|exact Hs3| |]; (eapply wp_lift; [exact Hr4|]); cbv iota beta; apply wp_modify;
    [apply wp_false; [done|]|apply wp_true; [done|]; apply Hbad].
  2: { intros (_ & _ & _ & s3' & a' & b' & c' & Hs3' & Hv'). rewrite (canonical_unique _ _ _ Hs3' Hs3) in Hv'. by eapply Hn. }
  apply wp_gets, wp_gets. cbn [session upd set_metadata applicationPartition otaPartition]. fold se.
  change (64 + 152) with 216. change (64 + 156) with 220. rewrite (Z.land_ones (le32 h 216) 9 ltac:(done) : Z.land _ 511 = _).
  assert ((∃ t, canonical (field h 80 32) t) ∧ (∃ t, canonical (field h 112 32) t) ∧ Forall hex_digit (field h 176 40) ∧
    (∃ t a b c, canonical (field h 144 32) t ∧ version_string t a b c)) as Htext.
  { split; [by exists s1|]. split; [by exists s2|]. split; [done|]. by exists s3, a, b, c. }
  apply wp_if; intros E4; apply wp_ret; right; (split; [tauto|]); right; (split; [tauto|]); right; (split; [exact Htext|]).
  - left. split; [|done]. change (2 ^ 9) with 512 in E4. intros (V1 & V2 & V3 & V4 & V5). rewrite V1, V2, V3, !Z.eqb_refl in E4. cbn in E4.
    rewrite orb_true_iff, !Z.ltb_lt in E4. lia.
  - right. split; [|done]. change (2 ^ 9) with 512 in E4. rewrite !orb_false_iff, !negb_false_iff, !Z.eqb_eq, !Z.ltb_ge in E4. lia.
Qed.

Lemma format_checks_result s : header (session s) = h → expectedPackageSize (session s) ≤ SIZE_MAX →
  let se := session s in
  wp format_checks (λ e _, first_failure
    (format_conditions h (applicationPartition se) (otaPartition se) (expectedPackageSize se)) e) s.
Proof using Hl Hb.
  intros Hh Hs se. apply wp_and_then.
  pose proof (validateEnvelope_result s Hh Hs) as H1. pose proof (validateEnvelope_sound s Hh Hs) as H2. cbv zeta in H1, H2.
  destruct (wp_inv _ _ _ H1) as (e & s' & E & Hf). unfold wp in H2. rewrite E in H2. destruct H2 as (_ & n & -> & _).
  assert (Forall (λ c, c.2 ≠ OTA_OK) (envelope_conditions h (applicationPartition se) (otaPartition se) (expectedPackageSize se))) as Hne
    by by repeat constructor.
  apply (wp_run _ _ _ e _ E). split.
  - intros He. apply first_failure_app; [by left|done].
  - intros ->. eapply wp_mono; [by apply validateDescriptor_result|]. cbv beta. intros e s' Hd. apply first_failure_app; [by right|done].
Qed.
End wp.

(** ParseVersion accepts a canonical string exactly when it is three decimal
    numerals of 16 bits, without superfluous zeros, separated by dots, and then
    stores their values. *)
Theorem parseVersion_spec md s md' : zlen (firmwareVersion md) = 32 → canonical (firmwareVersion md) s →
  parseVersion md = Ok (true, md') ↔ ∃ a b c, version_string s a b c ∧ md' = set_version md a b c.
Proof.
  intros Hl Hc. destruct (parseVersion_lemma md s Hl Hc) as [(a & b & c & Hv & ->)|[Hn (a & b & c & ->)]].
  - split; [intros [= <-]; by exists a, b, c|]. intros (a' & b' & c' & Hv' & ->).
    by destruct (version_string_unique _ _ _ _ _ _ _ Hv Hv') as (-> & -> & ->).
  - split; [done|]. intros (a' & b' & c' & Hv & _). by destruct (Hn _ _ _ Hv).
Qed.

Definition sample_version : OTAStagingMetadata :=
  mkMetadata [] [] (bytes_of_string "1.20.65535" ++ zeros 22) 0 0 0 [] 0 0 0 [].

Lemma parseVersion_spec_witness :
  parseVersion sample_version = Ok (true, set_version sample_version 1 20 65535) ∧
  ∃ a b c, version_string (bytes_of_string "1.20.65535") a b c ∧
    set_version sample_version 1 20 65535 = set_version sample_version a b c.
Proof.
  assert (parseVersion sample_version = Ok (true, set_version sample_version 1 20 65535)) as H by (vm_compute; reflexivity).
  split; [exact H|]. apply (parseVersion_spec sample_version); [reflexivity| |exact H].
  exists 22. split_and!; [reflexivity|lia|discriminate|]. by repeat constructor.
Defined.

(** C30: the checks of the header that precede the signature accept it exactly
    when it is the header of a package of the expected size for the two
    partitions, and then leave the payload size and the metadata it states;
    they change nothing else, and every read is inside the header. *)
Theorem header_format_spec {W} (SIZE_MAX : Z) (s : ota W) : let h := header (session s) in
  zlen h = 320 → bytes h → expectedPackageSize (session s) ≤ SIZE_MAX →
  let ap := applicationPartition (session s) in let op := otaPartition (session s) in
  ∃ e n md, and_then (validateEnvelope SIZE_MAX) validateDescriptor s
            = Ok (e, upd (set_metadata md) (upd (set_payloadSize n) s)) ∧
    (e = OTA_OK ↔ valid_envelope h ap op (expectedPackageSize (session s)) ∧ ∃ md, valid_descriptor h ap op md) ∧
    (e = OTA_OK → n = le32 h 16 ∧ valid_descriptor h ap op md).
Proof.
  intros h Hl Hb Hs ap op. pose proof (format_checks_sound SIZE_MAX h Hl Hb s eq_refl Hs) as H. cbv zeta in H.
  unfold wp in H. fold (@format_checks W SIZE_MAX).
  destruct (format_checks SIZE_MAX s) as [[e s']|] eqn:E; [|done]. destruct H as (_ & n & md & -> & He).
  exists e, n, md. split; [done|]. split; [split|].
  - intros Ho. destruct (He Ho) as (_ & Hv & Hd). split; [exact Hv|by exists md].
  - intros [Hv (md' & Hd)]. rewrite (format_checks_complete SIZE_MAX h Hl Hb s md' eq_refl Hs Hv Hd) in E. by simplify_eq.
  - intros Ho. by destruct (He Ho) as (-> & _ & Hd).
Qed.

(** A header for a payload of 1000 bytes of digest [digest]. *)
Definition text32 (s : string) : list Z := bytes_of_string s ++ zeros (32 - zlen (bytes_of_string s)).
Definition sample_descriptor (keyId : list Z) : list Z :=
  bytes_of_string "AZOTA001" ++ [1; 0; 0; 1] ++ [1; 0; 0; 0] ++ text32 "product" ++ text32 "board" ++ text32 "1.2.3"
  ++ replicate 40 97 ++ [0; 0; 1; 8] ++ [0; 0; 16; 0] ++ [1; 0; 0; 0] ++ keyId ++ zeros 60.
Definition sample_header (keyId digest : list Z) : list Z :=
  bytes_of_string "AZPKG001" ++ [1; 0; 64; 1; 1; 0; 64; 0] ++ [232; 3; 0; 0] ++ digest ++ zeros 12 ++ sample_descriptor keyId.
Definition sample_application : OTAStagingPartition := mkPartition 134283264 1048576.
Definition sample_ota_partition : OTAStagingPartition := mkPartition 0 1048576.

Definition sample_metadata (digest : list Z) : OTAStagingMetadata :=
  mkMetadata (text32 "product") (text32 "board") (text32 "1.2.3") 1 2 3 (replicate 40 97 ++ [0])
    134283264 1048576 1000 digest.

Lemma canonical_text (s : string) : let b := bytes_of_string s in
  bool_decide (b ≠ [] ∧ zlen b < 32 ∧ Forall (λ c, c ≠ 0) b) = true → canonical (text32 s) b.
Proof.
  intros b H. apply bool_decide_eq_true in H as (Hn & Hl & Hz). exists (32 - zlen b). split_and!; [done|lia|done..].
Qed.

Lemma list_entries (k : list Z) n : zlen k = Z.of_nat n → k = (λ i, k !!! i) <$> seq 0 n.
Proof.
  intros Hl. apply list_eq. intros i. rewrite list_lookup_fmap. unfold zlen in Hl.
  destruct (decide (i < n)%nat) as [Hi|Hi].
  - rewrite lookup_seq_lt by done. cbn. apply list_lookup_lookup_total_lt. lia.
  - rewrite (lookup_ge_None_2 k), (lookup_ge_None_2 (seq 0 n)) by (rewrite ?length_seq; lia). done.
Qed.

Lemma numeral_digit d : digit d → numeral [d] (d - 48).
Proof.
  intros Hd. split; [by constructor|]. unfold digit in Hd. split; [done|]. split; [by intros [= ->]|].
  split; [reflexivity|lia].
Qed.

Section sample.
Context (keyId digest : list Z) (Hk : zlen keyId = 32) (Hd : zlen digest = 32).

Lemma sample_valid : let h := sample_header keyId digest in
  zlen h = 320 ∧ field h 228 32 = keyId ∧
  valid_envelope h sample_application sample_ota_partition 1384 ∧
  valid_descriptor h sample_application sample_ota_partition (sample_metadata digest).
Proof using Hk Hd.
  cbv zeta. rewrite (list_entries keyId 32 Hk), (list_entries digest 32 Hd). split; [reflexivity|].
  split; [reflexivity|]. split.
  - constructor; try reflexivity. change (le32 _ 16) with 1000. cbn. lia.
  - constructor; try reflexivity.
    + split; [reflexivity|]. eexists. by apply canonical_text.
    + split; [reflexivity|]. eexists. by apply canonical_text.
    + split; [reflexivity|]. eexists. split; [by apply canonical_text|]. exists [49], [50], [51].
      split; [apply (numeral_digit 49); unfold digit; lia|]. split; [apply (numeral_digit 50); unfold digit; lia|].
      split; [apply (numeral_digit 51); unfold digit; lia|reflexivity].
    + split; [reflexivity|]. change (field _ 176 40) with (replicate 40 97). apply Forall_replicate. right. lia.
    + split_and!; reflexivity.
    + split_and!; reflexivity.
    + split_and!; reflexivity.
    + unfold UINT32_MAX. cbn. lia.
Qed.

Lemma sample_header_bytes : bytes keyId → bytes digest → bytes (sample_header keyId digest).
Proof using.
  intros. unfold sample_header, sample_descriptor. repeat apply Forall_app_2; try done;
    by apply (bool_decide_eq_true_1 _).
Qed.
End sample.

Definition sample_session : Session () :=
  mkSession (mkStatus OTA_STATE_RECEIVING OTA_OK 1384 384 0 0) 1384 0 0 (sample_header (zeros 32) (zeros 32)) (zeros 64)
    (zeros 91) (zeros 8) 0 false false zero_sha 0 zero_metadata zero_info None None sample_application sample_ota_partition.

Lemma header_format_spec_witness : let s := mkOta sample_session 1 None () in let h := header (session s) in
  ∃ e n md, and_then (validateEnvelope UINT32_MAX) validateDescriptor s
            = Ok (e, upd (set_metadata md) (upd (set_payloadSize n) s)) ∧
    (e = OTA_OK ↔ valid_envelope h sample_application sample_ota_partition 1384 ∧
                  ∃ md, valid_descriptor h sample_application sample_ota_partition md) ∧
    (e = OTA_OK → n = le32 h 16 ∧ valid_descriptor h sample_application sample_ota_partition md).
Proof.
  intros s h. apply (header_format_spec UINT32_MAX s).
  - reflexivity.
  - apply sample_header_bytes; apply zeros_bytes.
  - vm_compute. discriminate.
Defined.
