(* ===== verification/OtaTrace.v ===== *)
(** What the engine may do, as a transition system over the calls it makes.

    An [event] is a call of a platform operation or of a callback with its
    result, or something the caller of the interface sees. [step] says which
    events a session allows: nothing in Flash is touched before the signature of
    the header is verified, the payload is erased, written and read back block by
    block inside the partition, the boot table is only pointed at an image that
    was read back with the signed digest. [traced] makes a platform keep the list
    of its calls, [run] executes one call of the interface. *)
From S2P Require Export OtaFormat.

Inductive event :=
| ApplicationLocated (r : Z) (x : OTAStagingPartition)
| OtaLocated (r : Z) (x : OTAStagingPartition)
| Begun (key : list Z) (size : Z) (ap op : OTAStagingPartition) (admission : bool)
| Offered (bs : list Z)
| Clock (t : Z)
| Cancelled
| Verified (key digest signature : list Z) (r : Z)
| Asked (md : OTAStagingMetadata) (r : Z)
| Erased (offset size r : Z)
| Written (offset : Z) (bs : list Z) (r next : Z)
| Read (offset size r next : Z) (block : list Z)
| BootRead (r : Z) (t : OTAStagingBootTable)
| BootWritten (t : OTAStagingBootTable)
| BootPersisted (r : Z) (t : OTAStagingBootTable)
| Observed (st : OTAStagingState).

(** * The specification *)

(** A session: the arguments of OTAStagingBegin, the partitions the platform
    reported then and the bytes handed over so far. *)
Record package := mkPackage {
  pk_key : list Z; pk_size : Z; pk_ap : OTAStagingPartition; pk_op : OTAStagingPartition;
  pk_admission : bool; pk_received : list Z }.

Definition pk_offer (bs : list Z) (pk : package) : package :=
  mkPackage (pk_key pk) (pk_size pk) (pk_ap pk) (pk_op pk) (pk_admission pk) (pk_received pk ++ bs).

Definition pk_header (pk : package) : list Z := ztake 320 (pk_received pk).
Definition pk_signature (pk : package) : list Z := field (pk_received pk) 320 64.
Definition pk_payload (pk : package) : list Z := zdrop 384 (pk_received pk).
Definition pk_length (pk : package) : Z := le32 (pk_header pk) 16.
Definition pk_digest (pk : package) : list Z := field (pk_header pk) 20 32.

(** The header is well formed, for this package, these partitions and this key. *)
Definition pk_valid (pk : package) (md : OTAStagingMetadata) : Prop :=
  valid_envelope (pk_header pk) (pk_ap pk) (pk_op pk) (pk_size pk) ∧
  valid_descriptor (pk_header pk) (pk_ap pk) (pk_op pk) md.
Definition pk_key_matches (pk : package) : Prop := field (pk_header pk) 228 32 = Fips.sha256 (pk_key pk).

(** The stack pointer and the reset vector of the payload: an aligned address in
    RAM, a Thumb address in the application image. *)
Definition vectors_ok (pk : package) : Prop :=
  let sp := le32 (pk_payload pk) 0 in
  let reset := le32 (pk_payload pk) 4 in
  let handler := reset - 1 in
  sp mod 8 = 0 ∧ RamStartExclusive < sp ≤ RamEndInclusive ∧ reset mod 2 = 1 ∧
  part_start (pk_ap pk) ≤ handler ∧ handler + 2 ≤ part_start (pk_ap pk) + pk_length pk ∧
  part_start (pk_ap pk) + pk_length pk ≤ UINT32_MAX.

Definition pk_complete (pk : package) : Prop :=
  zlen (pk_received pk) = pk_size pk ∧ Fips.sha256 (pk_payload pk) = pk_digest pk.

(** What was read back is the signed payload. *)
Definition read_back_ok (pk : package) (rd : list Z) : Prop :=
  zlen rd = pk_length pk ∧ Fips.sha256 rd = pk_digest pk ∧ crc16 rd = crc16 (pk_payload pk) ∧
  field rd 512 256 = field (pk_header pk) 64 256.

Definition candidate_table (pk : package) (rd : list Z) : OTAStagingBootTable :=
  mkBootTable (part_start (pk_op pk)) (pk_length pk) (zeros 8) 65 85 (crc16 rd) (zeros 4).

Inductive phase :=
| Open
| Signed
| Staging (erased : Z) (written : list Z)
| Checking (rd : list Z)
| Previous (rd : list Z) (previous : OTAStagingBootTable)
| Candidate (candidate previous : OTAStagingBootTable)
| Restore (previous : OTAStagingBootTable)
| Restoring
| Activated
| Stopped.

Abbreviation spec := (option (package * phase)).

(** The phases in which [rd] was read back so far. *)
Definition reading (pk : package) (ph : phase) (rd : list Z) : Prop :=
  ph = Checking rd ∨ (rd = [] ∧ ph = Staging (pk_length pk) (pk_payload pk) ∧ pk_complete pk).

(** The states the caller can observe. *)
Definition observable (σ : spec) (st : OTAStagingState) : Prop :=
  match st with
  | OTA_STATE_IDLE => σ = None
  | OTA_STATE_RECEIVING => ∃ pk ph, σ = Some (pk, ph) ∧ (ph = Open ∨ ∃ e w, ph = Staging e w)
  | OTA_STATE_READY => ∃ pk rd, σ = Some (pk, Checking rd) ∧ read_back_ok pk rd
  | OTA_STATE_ACTIVATED => ∃ pk, σ = Some (pk, Activated)
  | OTA_STATE_FAILED | OTA_STATE_CANCELLED => True
  | OTA_STATE_VERIFYING | OTA_STATE_ACTIVATING => False
  end.

Inductive step : spec → event → spec → Prop :=
| step_application σ r x : step σ (ApplicationLocated r x) σ
| step_ota σ r x : step σ (OtaLocated r x) σ
| step_begun σ key n ap op a :
  zlen key = 91 → field key 0 27 = PublicKeyPrefix → 385 ≤ n ≤ UINT32_MAX → part_length ap ≠ 0 → part_length op ≠ 0 →
  step σ (Begun key n ap op a) (Some (mkPackage key n ap op a [], Open))
| step_offered pk ph bs :
  ph = Open ∨ (∃ e w, ph = Staging e w) → step (Some (pk, ph)) (Offered bs) (Some (pk_offer bs pk, ph))
| step_clock σ t : step σ (Clock t) σ
| step_cancelled pk ph : step (Some (pk, ph)) Cancelled (Some (pk, Stopped))
| step_verified pk md r :
  384 ≤ zlen (pk_received pk) → pk_valid pk md → pk_key_matches pk →
  step (Some (pk, Open)) (Verified (pk_key pk) (Fips.sha256 (pk_header pk)) (pk_signature pk) r)
    (Some (pk, if r =? 0 then (if pk_admission pk then Signed else Staging 0 []) else Stopped))
| step_asked pk md r :
  pk_valid pk md →
  step (Some (pk, Signed)) (Asked md r) (Some (pk, if r =? 0 then Stopped else Staging 0 []))
| step_erased pk e n r :
  0 ≤ e < pk_length pk → n = Z.min 4096 (pk_length pk - e) → 8 ≤ zlen (pk_payload pk) → vectors_ok pk →
  step (Some (pk, Staging e [])) (Erased e n r) (Some (pk, if r =? 0 then Staging (e + n) [] else Stopped))
| step_written pk w bs r next rest :
  pk_payload pk = w ++ bs ++ rest → 0 < zlen bs ≤ 512 → zlen (pk_received pk) ≤ pk_size pk →
  step (Some (pk, Staging (pk_length pk) w)) (Written (zlen w) bs r next)
    (Some (pk, if (r =? 0) && (next =? zlen w + zlen bs) then Staging (pk_length pk) (w ++ bs) else Stopped))
| step_read pk ph rd n r next block :
  reading pk ph rd → zlen rd < pk_length pk → n = Z.min 512 (pk_length pk - zlen rd) → zlen block = n →
  step (Some (pk, ph)) (Read (zlen rd) n r next block)
    (Some (pk, if (r =? 0) && (next =? zlen rd + n) then Checking (rd ++ block) else Stopped))
| step_boot_read pk rd r t :
  read_back_ok pk rd →
  step (Some (pk, Checking rd)) (BootRead r t) (Some (pk, if r =? 0 then Previous rd t else Stopped))
| step_candidate pk rd t :
  step (Some (pk, Previous rd t)) (BootWritten (candidate_table pk rd)) (Some (pk, Candidate (candidate_table pk rd) t))
| step_activated pk c t :
  step (Some (pk, Candidate c t)) (BootPersisted 0 c) (Some (pk, Activated))
| step_refused pk c t r t' :
  step (Some (pk, Candidate c t)) (BootPersisted r t') (Some (pk, Restore t))
| step_restore pk t :
  step (Some (pk, Restore t)) (BootWritten t) (Some (pk, Restoring))
| step_restored pk r t :
  step (Some (pk, Restoring)) (BootPersisted r t) (Some (pk, Stopped))
| step_observed σ st :
  observable σ st → step σ (Observed st) σ.

(** The specification reaches [σ] by the events, the last one first. *)
Inductive accepts : list event → spec → Prop :=
| accepts_nil : accepts [] None
| accepts_cons e tr σ σ' : accepts tr σ → step σ e σ' → accepts (e :: tr) σ'.

(** ** Errors *)

(** Between the times [a] and [b] more than [limit] milliseconds passed. *)
Definition late (a b limit : Z) : Prop := limit < u32 (b - a).

(** The format errors: the error of the first condition the header violates. *)
Definition format_cause (pk : package) (e : OTAStagingError) : Prop :=
  384 ≤ zlen (pk_received pk) ∧
  first_failure (format_conditions (pk_header pk) (pk_ap pk) (pk_op pk) (pk_size pk)) e.

(** The verification of the signature of the header with the key of the session. *)
Definition signature_check (pk : package) (r : Z) : event :=
  Verified (pk_key pk) (Fips.sha256 (pk_header pk)) (pk_signature pk) r.

(** The payload was read back whole: it is [rd]. *)
Definition whole_read (pk : package) (tr : list event) (rd : list Z) : Prop :=
  accepts tr (Some (pk, Checking rd)) ∧ zlen rd = pk_length pk.

(** What an error of the reception or of the verification of a package means. *)
Definition cause (pk : package) (tr : list event) (e : OTAStagingError) : Prop :=
  match e with
  | OTA_ERROR_TRAILING_DATA => pk_size pk < zlen (pk_received pk)
  | OTA_ERROR_CANCELLED => ∃ tr', tr = Cancelled :: tr'
  | OTA_ERROR_PACKAGE_FORMAT | OTA_ERROR_UNSUPPORTED | OTA_ERROR_IMAGE_BOUNDS | OTA_ERROR_PACKAGE_SIZE => format_cause pk e
  | OTA_ERROR_KEY_MISMATCH => 384 ≤ zlen (pk_received pk) ∧ (∃ md, pk_valid pk md) ∧ ¬ pk_key_matches pk
  | OTA_ERROR_KEY_FORMAT => ∃ a tr', tr = signature_check pk (-2) :: Clock a :: tr'
  | OTA_ERROR_SIGNATURE => ∃ r a tr', tr = signature_check pk r :: Clock a :: tr' ∧ r ≠ 0 ∧ r ≠ -2
  | OTA_ERROR_SIGNATURE_TIMEOUT =>
    ∃ b a tr', tr = Clock b :: signature_check pk 0 :: Clock a :: tr' ∧ late a b OTA_STAGING_SIGNATURE_MAX_MS
  | OTA_ERROR_ADMISSION_REJECTED => ∃ md tr', tr = Asked md 0 :: tr' ∧ pk_valid pk md
  | OTA_ERROR_VECTOR_TABLE => 8 ≤ zlen (pk_payload pk) ∧ ¬ vectors_ok pk
  | OTA_ERROR_ERASE => ∃ o n r a tr', tr = Erased o n r :: Clock a :: tr' ∧ r ≠ 0
  | OTA_ERROR_ERASE_TIMEOUT =>
    ∃ b o n a tr', tr = Clock b :: Erased o n 0 :: Clock a :: tr' ∧ late a b OTA_STAGING_FLASH_OPERATION_MAX_MS
  | OTA_ERROR_WRITE => ∃ o bs r next a tr', tr = Written o bs r next :: Clock a :: tr' ∧ r ≠ 0
  | OTA_ERROR_SHORT_WRITE => ∃ o bs next a tr', tr = Written o bs 0 next :: Clock a :: tr' ∧ next ≠ o + zlen bs
  | OTA_ERROR_WRITE_TIMEOUT =>
    ∃ b o bs a tr', tr = Clock b :: Written o bs 0 (o + zlen bs) :: Clock a :: tr' ∧ late a b OTA_STAGING_FLASH_OPERATION_MAX_MS
  | OTA_ERROR_INCOMPLETE => zlen (pk_received pk) ≠ pk_size pk
  | OTA_ERROR_HASH_MISMATCH => zlen (pk_received pk) = pk_size pk ∧ Fips.sha256 (pk_payload pk) ≠ pk_digest pk
  | OTA_ERROR_READ_BACK => ∃ o n r next b a tr', tr = Read o n r next b :: Clock a :: tr' ∧ ¬ (r = 0 ∧ next = o + n)
  | OTA_ERROR_READ_BACK_TIMEOUT =>
    ∃ b o n bs a tr', tr = Clock b :: Read o n 0 (o + n) bs :: Clock a :: tr' ∧ late a b OTA_STAGING_FLASH_OPERATION_MAX_MS
  | OTA_ERROR_READ_BACK_HASH_MISMATCH => ∃ rd, whole_read pk tr rd ∧ Fips.sha256 rd ≠ pk_digest pk
  | OTA_ERROR_READ_BACK_CRC_MISMATCH =>
    ∃ rd, whole_read pk tr rd ∧ Fips.sha256 rd = pk_digest pk ∧ crc16 rd ≠ crc16 (pk_payload pk)
  | OTA_ERROR_DESCRIPTOR_MISMATCH =>
    ∃ rd, whole_read pk tr rd ∧ Fips.sha256 rd = pk_digest pk ∧ crc16 rd = crc16 (pk_payload pk) ∧
      field rd 512 256 ≠ field (pk_header pk) 64 256
  | _ => False
  end.

(** ** Activation *)

(** Writing the boot table [t] and reading it back; [ok] tells whether it was
    read back unchanged, both in time. *)
Definition persisted (t : OTAStagingBootTable) (ok : bool) (evs : list event) : Prop :=
  ∃ c1 c2 c3 c4 r t', evs = [Clock c4; BootPersisted r t'; Clock c3; Clock c2; BootWritten t; Clock c1] ∧
    (ok = true ↔ u32 (c2 - c1) ≤ OTA_STAGING_ACTIVATION_MAX_MS ∧ r = 0 ∧
                 u32 (c4 - c3) ≤ OTA_STAGING_ACTIVATION_MAX_MS ∧ t' = t).

(** The outcomes of the activation of [candidate] and their events. *)
Inductive activation (candidate : OTAStagingBootTable) : OTAStagingError → list event → Prop :=
| activation_unread a r t : r ≠ 0 → activation candidate OTA_ERROR_ACTIVATION [BootRead r t; Clock a]
| activation_read_late a b t : OTA_STAGING_ACTIVATION_MAX_MS < u32 (b - a) →
    activation candidate OTA_ERROR_ACTIVATION [Clock b; BootRead 0 t; Clock a]
| activation_done a b previous evs : persisted candidate true evs →
    activation candidate OTA_OK (evs ++ [Clock b; BootRead 0 previous; Clock a])
| activation_restored a b previous evs evs' ok : persisted candidate false evs → persisted previous ok evs' →
    activation candidate (if ok : bool then OTA_ERROR_ACTIVATION else OTA_ERROR_ACTIVATION_UNCERTAIN)
      (evs' ++ evs ++ [Clock b; BootRead 0 previous; Clock a]).

(** * Execution with a trace *)
Section traced.
Context {W : Type}.

Definition traced_world : Type := W * list event.

Definition logged {A} (ev : A → event) (f : W → A * W) : traced_world → A * traced_world :=
  λ '(w, tr), let '(a, w) := f w in (a, (w, ev a :: tr)).

Definition traced_calls (p : platform_calls W) : platform_calls traced_world := mkCalls
  (λ x, logged (λ '(r, x), ApplicationLocated r x) (getApplicationPartition p x))
  (λ x, logged (λ '(r, x), OtaLocated r x) (getOtaPartition p x))
  (λ o n, logged (λ r, Erased o n r) (eraseOta p o n))
  (λ o bs, logged (λ '(r, next), Written o bs r next) (writeOta p o bs))
  (λ o b n, logged (λ '(r, next, block), Read o n r next (ztake n block)) (readOta p o b n))
  (logged Clock (timeMs p))
  (λ k n d g, logged (Verified k d g) (verifySignature p k n d g))
  (λ t, logged (λ '(r, t), BootRead r t) (readBootTable p t))
  (λ t, logged (λ _, BootWritten t) (writeBootTable p t))
  (λ t, logged (λ '(r, t), BootPersisted r t) (readPersistedBootTable p t)).

Definition traced (o : OTAStagingPlatformOperations W) : OTAStagingPlatformOperations traced_world :=
  mkOperations (traced_calls (calls o)) (complete o).

Definition traced_admission (f : OTAStagingMetadata → W → Z * W) : OTAStagingMetadata → traced_world → Z * traced_world :=
  λ md, logged (Asked md) (f md).
Definition traced_cancellation (f : W → Z * W) : traced_world → Z * traced_world :=
  λ '(w, tr), let '(r, w) := f w in (r, (w, if r =? 0 then tr else Cancelled :: tr)).

Definition log (e : event) : prog traced_world () := λ s,
  let '(w, tr) := world s in Ok ((), put_world (w, e :: tr) s).

(** The calls of the interface. *)
Inductive command :=
| Begin (size : Z) (key : option (list Z)) (key_size : Z)
    (admission : option (OTAStagingMetadata → W → Z * W)) (cancellation : option (W → Z * W))
| Write (data : option (list Z)) (size : Z)
| Finish (out : bool)
| Activate (generation : Z) (sha : option (list Z))
| Abort.

Context (SIZE_MAX : Z) (default_platform : option (OTAStagingPlatformOperations W)).

(** The partitions the platform has just reported. *)
Definition reported (tr : list event) : OTAStagingPartition * OTAStagingPartition :=
  match tr with
  | OtaLocated _ op :: ApplicationLocated _ ap :: _ => (ap, op)
  | _ => (mkPartition 0 0, mkPartition 0 0)
  end.

Definition log_begun (key : list Z) (n : Z) (a : bool) : prog traced_world () := λ s,
  let '(w, tr) := world s in let '(ap, op) := reported tr in
  Ok ((), put_world (w, Begun key n ap op a :: tr) s).

(** One call; the bytes offered to a session and a successful beginning are part
    of the trace, the latter with the arguments of the call and the partitions the
    platform reported. *)
Definition run_call (c : command) : prog traced_world OTAStagingError :=
  match c with
  | Begin n key k a c =>
    e ← OTAStagingBegin (traced <$> default_platform) n key k (traced_admission <$> a) (traced_cancellation <$> c);
    if bool_decide (e = OTA_OK) then
      _ ← log_begun (field (default [] key) 0 91) n (bool_decide (is_Some a)); mret e
    else mret e
  | Write data n =>
    st ← gets status;
    _ ← (if bool_decide (st_state st = OTA_STATE_RECEIVING) then log (Offered (ztake n (default [] data))) else mret ());
    OTAStagingWritePackage SIZE_MAX data n
  | Finish out => '(e, _) ← OTAStagingFinish out; mret e
  | Activate g sha => OTAStagingActivate g sha
  | Abort => OTAStagingAbort
  end.

Definition run (c : command) : prog traced_world OTAStagingError :=
  e ← run_call c; st ← OTAStagingGetStatus; _ ← log (Observed (st_state st)); mret e.

Fixpoint run_all (cs : list command) : prog traced_world (list OTAStagingError) :=
  match cs with
  | [] => mret []
  | c :: cs => e ← run c; es ← run_all cs; mret (e :: es)
  end.

Definition trace (s : ota traced_world) : list event := snd (world s).

(** Arguments a C caller can pass: objects as large as it says. *)
Definition valid_command (c : command) : Prop :=
  match c with
  | Begin n key k _ _ => 0 ≤ n ≤ SIZE_MAX ∧ match key with Some m => k ≤ zlen m ∧ bytes m | None => True end
  | Write data n => 0 ≤ n ≤ SIZE_MAX ∧ match data with Some m => n ≤ zlen m ∧ bytes m | None => True end
  | Activate _ sha => match sha with Some m => 32 ≤ zlen m | None => True end
  | _ => True
  end.

(** A block read has the type of the object it is stored in. *)
Definition well_typed (p : platform_calls W) : Prop :=
  ∀ o b n w r next b' w', readOta p o b n w = (r, next, b', w') → bytes b → zlen b' = zlen b ∧ bytes b'.
End traced.
Arguments traced_world W : clear implicits.
Arguments command W : clear implicits.
