(* ===== verification/OtaSim.v ===== *)
(** The engine of OTAStaging.cpp implements the specification of [OtaTrace]:
    the simulation, operation by operation. *)
From S2P Require Export OtaTrace.

Section sim.
Context {W : Type}.
Implicit Types (w : W) (tr : list event) (pk : package) (ph : phase) (se : Session (traced_world W)).

Context (p : OTAStagingPlatformOperations W) (Hcomplete : complete p = true) (Htyped : well_typed (calls p)).

(** A state with the platform attached. *)
Definition at_ (g : Z) se w tr : ota (traced_world W) := mkOta se g (Some (traced p)) (w, tr).

(** ** Calls *)
Lemma wp_call {A B} (f : platform_calls (traced_world W) → traced_world W → A * traced_world W) (k : A → prog _ B) Q g se w tr :
  (∀ a w' tr', f (traced_calls (calls p)) (w, tr) = (a, (w', tr')) → wp (k a) Q (at_ g se w' tr')) →
  wp (call f ≫= k) Q (at_ g se w tr).
Proof using Hcomplete.
  intros H. unfold wp. change ((call f ≫= k) (at_ g se w tr)) with (call f (at_ g se w tr) ≫= λ r, let '(a, s) := r in k a s).
  unfold call, at_ in *. cbn [platform deref]. rewrite bind_Ok. cbn [traced complete]. rewrite Hcomplete. cbn [calls world].
  destruct (f _ _) as [a [w' tr']] eqn:E. specialize (H a w' tr' eq_refl). exact H.
Qed.

Lemma wp_clock {B} (k : Z → prog _ B) Q g se w tr :
  (∀ t w', wp (k t) Q (at_ g se w' (Clock t :: tr))) → wp (call timeMs ≫= k) Q (at_ g se w tr).
Proof using Hcomplete.
  intros H. apply wp_call. intros a w' tr' E. cbn in E. unfold logged in E. destruct (timeMs _ _). by simplify_eq.
Qed.

Lemma wp_elapsed {B} started limit (k : bool → prog _ B) Q g se w tr :
  (∀ t w', limit < u32 (t - started) → wp (k true) Q (at_ g se w' (Clock t :: tr))) →
  (∀ t w', u32 (t - started) ≤ limit → wp (k false) Q (at_ g se w' (Clock t :: tr))) →
  wp (elapsedExceeded started limit ≫= k) Q (at_ g se w tr).
Proof using Hcomplete.
  intros H1 H2. apply wp_bind. unfold elapsedExceeded. apply wp_clock. intros t w'. apply wp_ret.
  destruct (Z.ltb_spec limit (u32 (t - started))); [by apply H1|by apply H2].
Qed.

Lemma wp_erase {B} o n (k : Z → prog _ B) Q g se w tr :
  (∀ r w', wp (k r) Q (at_ g se w' (Erased o n r :: tr))) → wp (call (λ p, eraseOta p o n) ≫= k) Q (at_ g se w tr).
Proof using Hcomplete.
  intros H. apply wp_call. intros a w' tr' E. cbn in E. unfold logged in E. destruct (eraseOta _ _ _ _). by simplify_eq.
Qed.

Lemma wp_write {B} o bs (k : Z * Z → prog _ B) Q g se w tr :
  (∀ r next w', wp (k (r, next)) Q (at_ g se w' (Written o bs r next :: tr))) →
  wp (call (λ p, writeOta p o bs) ≫= k) Q (at_ g se w tr).
Proof using Hcomplete.
  intros H. apply wp_call. intros a w' tr' E. cbn in E. unfold logged in E. destruct (writeOta _ _ _ _) as [[r n] w1].
  by simplify_eq.
Qed.

Lemma wp_read {B} o b n (k : Z * Z * list Z → prog _ B) Q g se w tr : bytes b →
  (∀ r next b' w', zlen b' = zlen b → bytes b' → wp (k (r, next, b')) Q (at_ g se w' (Read o n r next (ztake n b') :: tr))) →
  wp (call (λ p, readOta p o b n) ≫= k) Q (at_ g se w tr).
Proof using Hcomplete Htyped.
  intros Hb H. apply wp_call. intros a w' tr' E. cbn in E. unfold logged in E.
  destruct (readOta _ _ _ _ _) as [[[r next] b'] w1] eqn:Er. simplify_eq. destruct (Htyped _ _ _ _ _ _ _ _ Er Hb). by apply H.
Qed.

Lemma wp_verify {B} key n d sig (k : Z → prog _ B) Q g se w tr :
  (∀ r w', wp (k r) Q (at_ g se w' (Verified key d sig r :: tr))) →
  wp (call (λ p, verifySignature p key n d sig) ≫= k) Q (at_ g se w tr).
Proof using Hcomplete.
  intros H. apply wp_call. intros a w' tr' E. cbn in E. unfold logged in E. destruct (verifySignature _ _ _ _ _ _). by simplify_eq.
Qed.

Lemma wp_boot_read {B} t (k : Z * OTAStagingBootTable → prog _ B) Q g se w tr :
  (∀ r t' w', wp (k (r, t')) Q (at_ g se w' (BootRead r t' :: tr))) →
  wp (call (λ p, readBootTable p t) ≫= k) Q (at_ g se w tr).
Proof using Hcomplete.
  intros H. apply wp_call. intros a w' tr' E. cbn in E. unfold logged in E. destruct (readBootTable _ _ _) as [[r t'] w1].
  by simplify_eq.
Qed.

Lemma wp_boot_write {B} t (k : Z → prog _ B) Q g se w tr :
  (∀ r w', wp (k r) Q (at_ g se w' (BootWritten t :: tr))) →
  wp (call (λ p, writeBootTable p t) ≫= k) Q (at_ g se w tr).
Proof using Hcomplete.
  intros H. apply wp_call. intros a w' tr' E. cbn in E. unfold logged in E. destruct (writeBootTable _ _ _). by simplify_eq.
Qed.

Lemma wp_boot_persisted {B} t (k : Z * OTAStagingBootTable → prog _ B) Q g se w tr :
  (∀ r t' w', wp (k (r, t')) Q (at_ g se w' (BootPersisted r t' :: tr))) →
  wp (call (λ p, readPersistedBootTable p t) ≫= k) Q (at_ g se w tr).
Proof using Hcomplete.
  intros H. apply wp_call. intros a w' tr' E. cbn in E. unfold logged in E.
  destruct (readPersistedBootTable _ _ _) as [[r t'] w1]. by simplify_eq.
Qed.

(** The callbacks of the session are traced ones. *)
Definition callbacks (adm : bool) se : Prop :=
  (∃ a, admission se = traced_admission <$> a ∧ adm = bool_decide (is_Some a)) ∧
  (∃ c, cancellation se = traced_cancellation <$> c).

Lemma wp_cancelled {B} adm (k : bool → prog _ B) Q g se w tr : callbacks adm se →
  (∀ w', wp (k true) Q (at_ g se w' (Cancelled :: tr))) → (∀ w', wp (k false) Q (at_ g se w' tr)) →
  wp (cancelled ≫= k) Q (at_ g se w tr).
Proof using.
  intros [_ (c & Hc)] H1 H2. apply wp_bind. unfold wp, cancelled. cbn [session at_]. rewrite Hc.
  destruct c as [f|]; cbn [fmap option_fmap option_map]; [|by apply H2].
  unfold traced_cancellation. cbn [world at_]. destruct (f w) as [r w']. 
  destruct (Z.eqb_spec r 0); cbn [negb]; [by apply H2|by apply H1].
Qed.

Lemma wp_not_admitted {B} adm (k : bool → prog _ B) Q g se w tr : callbacks adm se →
  (adm = true → ∀ r w', wp (k (r =? 0)) Q (at_ g se w' (Asked (metadata se) r :: tr))) →
  (adm = false → wp (k false) Q (at_ g se w tr)) →
  wp (not_admitted ≫= k) Q (at_ g se w tr).
Proof using.
  intros [(a & Ha & ->) _] H1 H2. apply wp_bind. unfold wp, not_admitted. cbn [session at_]. rewrite Ha.
  destruct a as [f|]; cbn [fmap option_fmap option_map]; [|by apply H2].
  unfold traced_admission, logged. cbn [world at_]. destruct (f _ w) as [r w']. by apply H1.
Qed.

(** An error of an operation: the specification was respected, and the error
    means what [cause] says. *)
Definition call_failed pk g (e : OTAStagingError) (s : ota (traced_world W)) : Prop :=
  (e ≠ OTA_OK ∧ e ≠ OTA_ERROR_INCOMPLETE) ∧ ∃ se w tr, s = at_ g se w tr ∧ (∃ ph, accepts tr (Some (pk, ph))) ∧ cause pk tr e.

Lemma call_failed_intro pk g e se w tr ph : e ≠ OTA_OK ∧ e ≠ OTA_ERROR_INCOMPLETE → accepts tr (Some (pk, ph)) → cause pk tr e → call_failed pk g e (at_ g se w tr).
Proof using. intros. split; [done|]. exists se, w, tr. by split_and!; [|exists ph|]. Qed.

Lemma accepts_clock tr σ t : accepts tr σ → accepts (Clock t :: tr) σ.
Proof using. intros. eapply accepts_cons; [done|constructor]. Qed.

(** ** Erasing and writing the payload *)
Lemma erase_loop_spec pk adm g se : payloadSize se = pk_length pk → pk_length pk ≤ UINT32_MAX → callbacks adm se →
  vectors_ok pk → 8 ≤ zlen (pk_payload pk) →
  ∀ fuel e w tr, 0 ≤ e ≤ pk_length pk → (Z.to_nat (pk_length pk - e) ≤ fuel)%nat → accepts tr (Some (pk, Staging e [])) →
  wp (erase_loop fuel e)
    (λ r s, call_failed pk g r s ∨ (r = OTA_OK ∧ ∃ w tr, s = at_ g (set_erased true se) w tr ∧
       accepts tr (Some (pk, Staging (pk_length pk) [])))) (at_ g se w tr).
Proof using Hcomplete.
  intros Hp Hmax Hcb Hv H8. induction fuel as [|fuel IH]; intros e w tr He Hf Hacc; cbn [erase_loop]; apply wp_gets;
    cbn [session at_]; rewrite Hp.
  { apply wp_false; [apply Z.ltb_ge; lia|]. apply wp_modify, wp_ret. right. split; [done|]. exists w, tr. split; [done|].
    by replace (pk_length pk) with e by lia. }
  apply wp_if; intros Hlt.
  2: { apply wp_modify, wp_ret. right. split; [done|]. exists w, tr. split; [done|]. apply Z.ltb_ge in Hlt.
       by replace (pk_length pk) with e by lia. }
  apply Z.ltb_lt in Hlt. eapply wp_cancelled; [exact Hcb| |].
  { intros w'. cbv beta iota. apply wp_ret. left. eapply call_failed_intro; [done|by eapply accepts_cons; [done|constructor]|by eexists]. }
  intros w1. cbv beta iota zeta. apply wp_clock. intros t w2.
  unfold OTA_STAGING_ERASE_BLOCK_SIZE. set (n := if 4096 <? pk_length pk - e then _ else _).
  assert (n = Z.min 4096 (pk_length pk - e)) as Hn.
  { unfold n. destruct (Z.ltb_spec 4096 (pk_length pk - e)); lia. }
  clearbody n. apply wp_erase. intros r w3. apply (accepts_clock _ _ t) in Hacc.
  assert (accepts (Erased e n r :: Clock t :: tr) (Some (pk, if r =? 0 then Staging (e + n) [] else Stopped))) as Hacc'.
  { eapply accepts_cons; [exact Hacc|]. apply step_erased; [lia|done..]. }
  apply wp_if; intros Hr.
  { apply wp_ret. left. eapply call_failed_intro; [done|exact Hacc'|]. exists e, n, r, t, tr. split; [done|].
    by apply negb_true_iff, Z.eqb_neq in Hr. }
  apply negb_false_iff, Z.eqb_eq in Hr. subst r. cbn [Z.eqb] in Hacc'. apply wp_elapsed; intros t' w4 Ht; cbv iota.
  { apply wp_ret. left. eapply call_failed_intro; [done|by apply accepts_clock|by exists t', e, n, t, tr]. }
  unfold UINT32_MAX in *. rewrite u32_id by (unfold is_u32; lia). apply IH; [lia|lia|]. by apply accepts_clock.
Qed.

Lemma erasePayloadRange_spec pk adm g se w tr : payloadSize se = pk_length pk → 0 ≤ pk_length pk ≤ UINT32_MAX →
  callbacks adm se → vectors_ok pk → 8 ≤ zlen (pk_payload pk) → accepts tr (Some (pk, Staging 0 [])) →
  wp erasePayloadRange
    (λ r s, call_failed pk g r s ∨ (r = OTA_OK ∧ ∃ w tr, s = at_ g (set_erased true se) w tr ∧
       accepts tr (Some (pk, Staging (pk_length pk) [])))) (at_ g se w tr).
Proof using Hcomplete.
  intros Hp Hmax Hcb Hv H8 Hacc. apply wp_gets. cbn [session at_]. eapply erase_loop_spec; try done; try lia.
Qed.

(** The session after the payload [m] is written. *)
Definition put_payload (sha : Sha256Context) (m : list Z) se : Session (traced_world W) :=
  let v := status se in
  set_status (mkStatus (st_state v) (lastError v) (packageSize v) (packageReceived v) (zlen m) (payloadVerified v))
    (set_payloadCrc (crc16 m) (set_payloadSha sha (set_writeOffset (zlen m) se))).

Lemma write_loop_spec pk adm g se data : callbacks adm se → zlen (pk_received pk) ≤ pk_size pk →
  ∀ fuel k q m sha rest w tr, has data q k → q + zlen k ≤ zlen data → bytes k → sha_of sha m →
  pk_payload pk = m ++ k ++ rest → (length k ≤ fuel)%nat →
  accepts tr (Some (pk, Staging (pk_length pk) m)) →
  wp (write_loop fuel data q (zlen k))
    (λ r s, call_failed pk g r s ∨ (r = OTA_OK ∧ ∃ sha w tr, s = at_ g (put_payload sha (m ++ k) se) w tr ∧ sha_of sha (m ++ k) ∧
       accepts tr (Some (pk, Staging (pk_length pk) (m ++ k))))) (at_ g (put_payload sha m se) w tr).
Proof using Hcomplete.
  intros Hcb Hsz. induction fuel as [|fuel IH]; intros k q m sha rest w tr Hd Hq Hk Hsha Hpay Hf Hacc; cbn [write_loop].
  { assert (k = []) as -> by (destruct k; [done|cbn in Hf; lia]). apply wp_false; [done|]. apply wp_ret. right.
    split; [done|]. exists sha, w, tr. by rewrite app_nil_r. }
  destruct (decide (k = [])) as [->|Hne].
  { apply wp_false; [done|]. apply wp_ret. right. split; [done|]. exists sha, w, tr. by rewrite app_nil_r. }
  assert (0 < zlen k) as Hpos by (destruct k; [done|]; rewrite zlen_cons; pose proof (zlen_nonneg k); lia).
  apply wp_true; [by apply Z.ltb_lt|]. eapply wp_cancelled; [exact Hcb| |].
  { intros w'. cbv beta iota. apply wp_ret. left. eapply call_failed_intro; [done|by eapply accepts_cons; [done|constructor]|by eexists]. }
  intros w1. cbv beta iota zeta. unfold OTA_STAGING_WRITE_BLOCK_SIZE. set (n := if zlen k <? 512 then _ else _).
  assert (0 < n ≤ 512 ∧ n ≤ zlen k) as Hn.
  { unfold n. destruct (Z.ltb_spec (zlen k) 512); lia. }
  clearbody n. apply wp_gets. cbn [session at_ writeOffset put_payload set_status set_payloadCrc set_payloadSha set_writeOffset].
  apply wp_clock. intros t w2. pose proof Hd as (Hq0 & _).
  set (bs := ztake n k). assert (zlen bs = n) as Hbs by (apply zlen_take; lia).
  assert (k = bs ++ zdrop n k) as Hkk by (symmetry; apply ztake_zdrop).
  rewrite Hkk in Hd. apply has_app in Hd as [Hd1 Hd2]. rewrite Hkk in Hk. apply Forall_app in Hk as [Hk1 Hk2].
  eapply wp_lift; [rewrite <-Hbs; apply rd_bytes_has; [done|lia]|]. apply wp_write. intros r next w3. cbv iota beta.
  apply (accepts_clock _ _ t) in Hacc.
  assert (accepts (Written (zlen m) bs r next :: Clock t :: tr)
    (Some (pk, if (r =? 0) && (next =? zlen m + zlen bs) then Staging (pk_length pk) (m ++ bs) else Stopped))) as Hacc'.
  { eapply accepts_cons; [exact Hacc|]. apply (step_written pk m bs r next (zdrop n k ++ rest)); [|lia|done].
    by rewrite Hpay, Hkk at 1; rewrite <-app_assoc. }
  apply wp_modify. apply wp_if; intros Hr.
  { apply wp_ret. left. eapply call_failed_intro; [done|exact Hacc'|]. exists (zlen m), bs, r, next, t, tr. split; [done|].
    by apply negb_true_iff, Z.eqb_neq in Hr. }
  apply negb_false_iff, Z.eqb_eq in Hr. subst r. cbn [Z.eqb andb] in Hacc'.
  apply wp_if; intros Hnx.
  { apply wp_ret. left. eapply call_failed_intro; [done|exact Hacc'|]. exists (zlen m), bs, next, t, tr. split; [done|].
    rewrite orb_true_iff, negb_true_iff, Z.ltb_lt, Z.eqb_neq in Hnx. rewrite Hbs. lia. }
  rewrite orb_false_iff, negb_false_iff, Z.ltb_ge, Z.eqb_eq in Hnx. assert (next = zlen m + zlen bs) as -> by lia.
  rewrite Z.eqb_refl in Hacc'. apply wp_elapsed; intros t' w4 Ht; cbv iota.
  { apply wp_ret. left. eapply call_failed_intro; [done|by apply accepts_clock|by exists t', (zlen m), bs, t, tr]. }
  destruct (sha256Update_spec sha m data q bs Hsha Hk1 Hd1 ltac:(lia)) as (sha' & Hup & Hsha').
  apply wp_gets. eapply wp_lift; [rewrite <-Hbs; exact Hup|]. apply wp_modify, wp_gets.
  cbn [session at_ upd payloadCrc put_payload set_status set_payloadCrc set_payloadSha set_writeOffset].
  eapply wp_lift; [rewrite <-Hbs; by apply crc16Update_spec|]. apply wp_modify, wp_modify.
  replace (zlen k - n) with (zlen (zdrop n k)) by (rewrite zlen_drop; lia).
  match goal with |- wp _ _ ?s => assert (s = at_ g (put_payload sha' (m ++ bs) se) w4 (Clock t' :: Written (zlen m) bs 0 (zlen m + zlen bs) :: Clock t :: tr)) as -> end.
  { unfold at_, upd, put_payload. cbn. rewrite zlen_app, Hbs. reflexivity. }
  replace (m ++ k) with ((m ++ bs) ++ zdrop n k) by (by rewrite <-app_assoc, <-Hkk). apply (IH (zdrop n k) (q + n) (m ++ bs) sha' rest).
  - rewrite <-Hbs at 1. exact Hd2.
  - rewrite zlen_drop; lia.
  - done.
  - done.
  - by rewrite Hpay, Hkk at 1; rewrite <-!app_assoc.
  - unfold zdrop. rewrite length_drop. lia.
  - by apply accepts_clock.
Qed.

(** ** The relation with a session that receives *)
Definition pad (n : Z) (l : list Z) : list Z := l ++ zeros (n - zlen l).

(** What OTAStagingBegin fixes. *)
Record attached pk se : Prop := {
  at_size : expectedPackageSize se = pk_size pk;
  at_range : 385 ≤ pk_size pk ≤ UINT32_MAX;
  at_key : publicKey se = pk_key pk;
  at_key_length : zlen (pk_key pk) = 91;
  at_key_bytes : bytes (pk_key pk);
  at_ap : applicationPartition se = pk_ap pk;
  at_op : otaPartition se = pk_op pk;
  at_callbacks : callbacks (pk_admission pk) se }.

(** [m] is written. *)
Record payload_state (m : list Z) se : Prop := {
  ps_sha : sha_of (payloadSha se) m;
  ps_crc : payloadCrc se = crc16 m;
  ps_offset : writeOffset se = zlen m;
  ps_written : payloadWritten (status se) = zlen m }.

Lemma payload_state_put m se : payload_state m se → se = put_payload (payloadSha se) m se.
Proof using. intros [_ H1 H2 H3]. destruct se as [[] ? ? ? ? ? ? ? ? ? ? ? ? ? ? ? ? ? ?]. unfold put_payload. cbn in *. by subst. Qed.

Lemma put_payload_state sha m se : sha_of sha m → payload_state m (put_payload sha m se).
Proof using. by constructor. Qed.

(** After the header was authenticated: [pay] is the payload received so far. *)
Definition before_erase (pay : list Z) ph se : Prop :=
  erased se = false ∧ ph = Staging 0 [] ∧ payload_state [] se ∧
  zlen pay < 8 ∧ vectorsSize se = zlen pay ∧ vectors se = pad 8 pay.
Definition after_erase pk (pay : list Z) ph se : Prop :=
  erased se = true ∧ ph = Staging (pk_length pk) pay ∧ payload_state pay se ∧ 8 ≤ zlen pay ∧ vectors_ok pk.

Record staged pk (pay : list Z) ph se : Prop := {
  sg_authenticated : authenticated se = true;
  sg_valid : pk_valid pk (metadata se);
  sg_key : pk_key_matches pk;
  sg_size : payloadSize se = pk_length pk;
  sg_payload : before_erase pay ph se ∨ after_erase pk pay ph se }.

Definition fresh se : Prop :=
  authenticated se = false ∧ erased se = false ∧ vectorsSize se = 0 ∧ vectors se = zeros 8 ∧ payload_state [] se.

(** [got] are the bytes of the package processed so far. *)
Record receiving pk (got : list Z) ph se : Prop := {
  rc_attached : attached pk se;
  rc_state : st_state (status se) = OTA_STATE_RECEIVING;
  rc_count : packageReceived (status se) = zlen got;
  rc_bound : zlen got ≤ pk_size pk;
  rc_bytes : bytes got;
  rc_header : header se = pad 320 (ztake 320 got);
  rc_signature : signature se = pad 64 (field got 320 64);
  rc_phase : (zlen got < 384 ∧ ph = Open ∧ fresh se) ∨ (384 ≤ zlen got ∧ staged pk (zdrop 384 got) ph se) }.

(** ** The vector table *)
Lemma land_even x : is_u32 x → Z.land x 4294967294 = x - x mod 2.
Proof using.
  intros Hx. assert (x - x mod 2 = Z.ldiff x (Z.ones 1)) as ->.
  { rewrite Z.ldiff_ones_r by lia. rewrite Z.shiftl_mul_pow2, Z.shiftr_div_pow2 by lia. change (2 ^ 1) with 2. dlia. }
  apply Z.bits_inj'. intros n Hn. rewrite Z.land_spec, Z.ldiff_spec, Z.testbit_ones_nonneg by lia.
  change 4294967294 with (Z.shiftl (Z.ones 31) 1). rewrite Z.shiftl_spec by lia.
  destruct (Z.ltb_spec n 1); cbn [negb].
  - rewrite (Z.testbit_neg_r _ (n - 1)) by lia. by rewrite !andb_false_r.
  - destruct (Z.ltb_spec n 32).
    + rewrite (Z.testbit_ones_nonneg 31) by lia. by rewrite (proj2 (Z.ltb_lt (n - 1) 31)) by lia.
    + rewrite (proj1 (Z.bounded_iff_bits_nonneg 32 x ltac:(lia) (proj1 Hx)) ltac:(unfold is_u32 in Hx; lia) n ltac:(lia)). done.
Qed.

Lemma field_app (v r : list Z) q n : 0 ≤ q → 0 ≤ n → q + n ≤ zlen v → field (v ++ r) q n = field v q n.
Proof using.
  intros Hq Hn Hl. rewrite <-(zlen_field v q n) at 1 by lia. apply has_field_eq.
  destruct (has_field v q n Hq) as [_ (t & Ht)]. split; [done|]. exists (t ++ r). rewrite app_assoc, <-Ht.
  unfold zdrop. apply drop_app_le. unfold zlen in Hl. lia.
Qed.

Lemma le32_range (m : list Z) q : bytes m → 0 ≤ q → q + 4 ≤ zlen m → is_u32 (le32 m q).
Proof using.
  intros. unfold le32, is_u32. pose proof (le_combine_range (field m q 4) ltac:(by apply field_bytes)) as Hr.
  rewrite zlen_field in Hr by lia. exact Hr.
Qed.

Lemma validateVectors_spec pk g se w tr rest : zlen (vectors se) = 8 → bytes (vectors se) →
  pk_payload pk = vectors se ++ rest → applicationPartition se = pk_ap pk → payloadSize se = pk_length pk →
  768 ≤ pk_length pk →
  wp validateVectors (λ e s, s = at_ g se w tr ∧
    (e = OTA_OK ∧ vectors_ok pk ∨ e = OTA_ERROR_VECTOR_TABLE ∧ ¬ vectors_ok pk)) (at_ g se w tr).
Proof using.
  intros Hl Hb Hp Hap Hsz H768. unfold validateVectors. apply wp_gets. cbn [session at_].
  eapply wp_lift; [by apply readLittleEndian32_field; [done|lia|lia]|].
  eapply wp_lift; [by apply readLittleEndian32_field; [done|lia|lia]|].
  fold (le32 (vectors se) 0) (le32 (vectors se) 4). set (sp := le32 (vectors se) 0). set (rs := le32 (vectors se) 4).
  assert (is_u32 sp) as Hsp by (apply le32_range; [done|lia..]).
  assert (is_u32 rs) as Hrs by (apply le32_range; [done|lia..]).
  assert (vectors_ok pk ↔ sp mod 8 = 0 ∧ RamStartExclusive < sp ≤ RamEndInclusive ∧ rs mod 2 = 1 ∧
    part_start (pk_ap pk) ≤ rs - 1 ∧ rs - 1 + 2 ≤ part_start (pk_ap pk) + pk_length pk ∧
    part_start (pk_ap pk) + pk_length pk ≤ UINT32_MAX) as Hiff.
  { assert (le32 (pk_payload pk) 0 = sp ∧ le32 (pk_payload pk) 4 = rs) as [H0 H4].
    { rewrite Hp. unfold le32. rewrite !field_app by lia. done. }
    unfold vectors_ok. cbv zeta. by rewrite H0, H4. }
  change 7 with (Z.ones 3). rewrite Z.land_ones by lia. change (2 ^ 3) with 8.
  assert (Z.land rs 1 = rs mod 2) as -> by (apply (Z.land_ones _ 1); lia). rewrite land_even by done.
  apply wp_if; intros E1.
  { apply wp_ret. split; [done|]. right. split; [done|]. rewrite Hiff.
    rewrite !orb_true_iff, negb_true_iff, Z.eqb_neq, Z.leb_le, Z.ltb_lt, Z.eqb_eq in E1. lia. }
  rewrite !orb_false_iff, negb_false_iff, Z.eqb_eq, Z.leb_gt, Z.ltb_ge, Z.eqb_neq in E1.
  assert (rs mod 2 = 1) as Hr1 by (destruct E1 as [_ ?]; dlia). rewrite Hr1 in *.
  apply wp_gets, wp_gets. cbn [session at_]. rewrite Hap, Hsz. 
  apply wp_if; intros E2; apply wp_ret; (split; [done|]).
  - right. split; [done|]. rewrite Hiff. rewrite !orb_true_iff, !Z.ltb_lt in E2. lia.
  - left. split; [done|]. rewrite Hiff. rewrite !orb_false_iff, !Z.ltb_ge in E2. lia.
Qed.

(** ** A part of the payload *)
Lemma zeros_app a b : 0 ≤ a → 0 ≤ b → zeros (a + b) = zeros a ++ zeros b.
Proof using. intros. unfold zeros. by rewrite Z2Nat.inj_add, replicate_add by lia. Qed.

Lemma pad_extend n l bs : zlen l + zlen bs ≤ n → wr_bytes (pad n l) (zlen l) bs = Ok (pad n (l ++ bs)).
Proof using.
  intros Hl. pose proof (zlen_nonneg l). pose proof (zlen_nonneg bs). unfold pad.
  replace (n - zlen l) with (zlen bs + (n - zlen (l ++ bs))) by (rewrite zlen_app; lia).
  rewrite zeros_app by (rewrite ?zlen_app; lia). rewrite <-app_assoc.
  apply wr_bytes_at. by rewrite zlen_zeros by lia.
Qed.

Lemma pad_full n l : zlen l = n → pad n l = l.
Proof using. intros <-. unfold pad. rewrite Z.sub_diag. apply app_nil_r. Qed.

Lemma zlen_pad n l : zlen l ≤ n → zlen (pad n l) = n.
Proof using. intros. unfold pad. rewrite zlen_app, zlen_zeros by lia. lia. Qed.

Lemma pad_nil n : pad n [] = zeros n.
Proof using. unfold pad. rewrite zlen_nil, Z.sub_0_r. done. Qed.

(** The fields that receiving the payload does not change. *)
Record framed se se' : Prop := {
  fr_state : st_state (status se') = st_state (status se);
  fr_count : packageReceived (status se') = packageReceived (status se);
  fr_size : expectedPackageSize se' = expectedPackageSize se;
  fr_header : header se' = header se;
  fr_signature : signature se' = signature se;
  fr_key : publicKey se' = publicKey se;
  fr_ap : applicationPartition se' = applicationPartition se;
  fr_op : otaPartition se' = otaPartition se;
  fr_admission : admission se' = admission se;
  fr_cancellation : cancellation se' = cancellation se }.

Lemma framed_callbacks adm se se' : framed se se' → callbacks adm se → callbacks adm se'.
Proof using. intros [] [[a Ha] [c Hc]]. split; [exists a|exists c]; congruence. Qed.

Lemma framed_attached pk se se' : framed se se' → attached pk se → attached pk se'.
Proof using.
  intros Hf []. pose proof Hf as []. constructor; try congruence. by eapply framed_callbacks.
Qed.

Lemma valid_length pk md : pk_valid pk md → 385 ≤ pk_size pk ≤ UINT32_MAX →
  768 ≤ pk_length pk ≤ UINT32_MAX ∧ pk_length pk + 384 = pk_size pk.
Proof using. intros [[] _] ?. unfold pk_length, UINT32_MAX in *. lia. Qed.

Lemma writePayload_spec pk adm g se data k q m rest w tr : payload_state m se →
  callbacks adm se → zlen (pk_received pk) ≤ pk_size pk → has data q k → q + zlen k ≤ zlen data → bytes k →
  pk_payload pk = m ++ k ++ rest → accepts tr (Some (pk, Staging (pk_length pk) m)) →
  wp (writePayload data q (zlen k))
    (λ r s, call_failed pk g r s ∨ (r = OTA_OK ∧ ∃ se' w tr, s = at_ g se' w tr ∧ payload_state (m ++ k) se' ∧
       (∃ sha, se' = put_payload sha (m ++ k) se) ∧ accepts tr (Some (pk, Staging (pk_length pk) (m ++ k))))) (at_ g se w tr).
Proof using Hcomplete.
  intros Hm Hcb Hsz Hd Hq Hk Hp Hacc. rewrite (payload_state_put m se Hm). unfold writePayload.
  eapply wp_mono; [eapply write_loop_spec; try done|].
  - apply Hm.
  - unfold zlen. lia.
  - cbv beta. intros r s [H|(-> & sha & w' & tr' & -> & Hs & Ha)]; [by left|]. right. split; [done|].
    eexists _, w', tr'. split; [reflexivity|]. split; [by apply put_payload_state|]. split; [by exists sha|done].
Qed.

Lemma put_payload_framed sha m se : framed se (put_payload sha m se).
Proof using. by constructor. Qed.

Lemma acceptPayload_spec pk g pay ph se data q k rest w tr : attached pk se → staged pk pay ph se →
  pk_payload pk = pay ++ k ++ rest → has data q k → q + zlen k ≤ zlen data → bytes pay → bytes k →
  zlen (pk_received pk) ≤ pk_size pk → accepts tr (Some (pk, ph)) →
  wp (acceptPayload data q (zlen k))
    (λ r s, call_failed pk g r s ∨ (r = OTA_OK ∧ ∃ se' w tr ph', s = at_ g se' w tr ∧ accepts tr (Some (pk, ph')) ∧
       staged pk (pay ++ k) ph' se' ∧ framed se se')) (at_ g se w tr).
Proof using Hcomplete.
  intros Hat Hst Hp Hd Hq Hbp Hbk Hsz Hacc. pose proof Hat as [_ Hrange _ _ _ Hap _ Hcb].
  pose proof Hst as [Hau Hv Hkey Hlen Hpay]. destruct (valid_length pk _ Hv Hrange) as [Hpl _].
  unfold acceptPayload. apply wp_gets. cbn [session at_].
  destruct Hpay as [(He & -> & Hps & H8 & Hn & Hvec)|(He & -> & Hps & H8 & Hok)]; rewrite He; cbn [negb].
  2: { eapply wp_mono; [eapply writePayload_spec; done|]. cbv beta.
       intros r s [H|(-> & se' & w' & tr' & -> & Hps' & (sha & Hse') & Ha)]; [by left|]. right. split; [done|].
       exists se', w', tr', (Staging (pk_length pk) (pay ++ k)). split; [done|]. split; [done|]. subst se'. split; [|by apply put_payload_framed].
       constructor; try done. right. split_and!; [done..| |done]. rewrite zlen_app. pose proof (zlen_nonneg k). lia. }
  apply wp_gets, wp_gets. cbn [session at_]. rewrite Hn, Hvec. unfold VectorSize. cbv zeta.
  set (c := if zlen k <? 8 - zlen pay then _ else _).
  assert (c = Z.min (zlen k) (8 - zlen pay)) as Hc. { unfold c. destruct (Z.ltb_spec (zlen k) (8 - zlen pay)); lia. }
  clearbody c. pose proof (zlen_nonneg k). pose proof (zlen_nonneg pay). pose proof Hd as [Hq0 _].
  set (bs := ztake c k). assert (zlen bs = c) as Hbs by (apply zlen_take; lia).
  assert (k = bs ++ zdrop c k) as Hkk by (symmetry; apply ztake_zdrop). set (k2 := zdrop c k) in *.
  rewrite Hkk in Hd. apply has_app in Hd as [Hd1 Hd2]. rewrite Hkk in Hbk. apply Forall_app in Hbk as [Hk1 Hk2].
  eapply wp_lift.
  { rewrite <-Hbs at 1. rewrite (rd_bytes_has data q bs Hd1) by lia. rewrite bind_Ok. apply pad_extend. rewrite Hbs. lia. }
  apply wp_modify. apply wp_if; intros Hlt.
  { apply Z.ltb_lt in Hlt. apply wp_ret. right. split; [done|].
    assert (k2 = []) as Hk2n by (apply zdrop_all; lia). rewrite Hk2n, app_nil_r in Hkk.
    eexists _, w, tr, (Staging 0 []). split; [reflexivity|]. split; [done|]. rewrite Hkk. split; [|by constructor].
    constructor; try done. left. split; [exact He|]. split; [done|]. split; [by destruct Hps; constructor|].
    rewrite zlen_app. split; [lia|]. split; [cbn; lia|done]. }
  apply Z.ltb_ge in Hlt. set (v8 := pay ++ bs) in *. assert (zlen v8 = 8) as Hv8 by (unfold v8; rewrite zlen_app; lia).
  rewrite (pad_full 8 v8 Hv8). replace (zlen pay + c) with 8 by lia.
  set (se1 := set_vectors v8 8 se). change (upd (set_vectors v8 8) (at_ g se w tr)) with (at_ g se1 w tr).
  assert (pk_payload pk = v8 ++ k2 ++ rest) as Hp8 by (unfold v8; rewrite Hp, Hkk; by rewrite <-!app_assoc).
  assert (bytes v8) as Hbv by (by apply Forall_app).
  assert (8 ≤ zlen (pk_payload pk)) as Hp8l.
  { rewrite Hp8, zlen_app. pose proof (zlen_nonneg (k2 ++ rest)). lia. }
  apply wp_and_then. eapply wp_mono; [apply (validateVectors_spec pk g se1 w tr (k2 ++ rest)); done || lia|]. cbv beta.
  intros e s (-> & [(-> & Hok)|(-> & Hok)]); (split; [intros Hne|intros Heq]); try done.
  2: { left. eapply call_failed_intro; [done|exact Hacc|by split]. }
  assert (callbacks (pk_admission pk) se1) as Hcb1 by exact Hcb.
  apply wp_and_then. eapply wp_mono; [apply (erasePayloadRange_spec pk _ g se1 w tr Hlen ltac:(lia) Hcb1 Hok Hp8l Hacc)|].
  cbv beta. intros e s [Hf|(-> & w2 & tr2 & -> & Hacc2)].
  { split; [intros _; by left|]. intros ->. by destruct Hf as [[? _] _]. }
  split; [done|]. intros _. set (se2 := set_erased true se1).
  assert (payload_state [] se2) as Hps2 by (destruct Hps; by constructor).
  apply wp_and_then. rewrite <-Hv8. eapply wp_mono.
  { apply (writePayload_spec pk (pk_admission pk) g se2 v8 v8 0 [] (k2 ++ rest)); try done; try apply has_self; try lia. }
  cbv beta. cbn [app]. intros e s [Hf|(-> & se3 & w3 & tr3 & -> & Hps3 & (sha3 & Hse3) & Hacc3)].
  { split; [intros _; by left|]. intros ->. by destruct Hf as [[? _] _]. }
  split; [done|]. intros _. replace (zlen k - c) with (zlen k2) by (unfold k2; rewrite zlen_drop; lia).
  assert (callbacks (pk_admission pk) se3) as Hcb3 by (subst se3; exact Hcb).
  eapply wp_mono.
  { apply (writePayload_spec pk (pk_admission pk) g se3 data k2 (q + c) v8 rest w3 tr3); try done.
    - rewrite <-Hbs at 1. exact Hd2.
    - unfold k2. rewrite zlen_drop; lia. }
  cbv beta. intros e s [Hf|(-> & se4 & w4 & tr4 & -> & Hps4 & (sha4 & Hse4) & Hacc4)]; [by left|]. right. split; [done|].
  assert (pay ++ k = v8 ++ k2) as -> by (unfold v8; rewrite Hkk at 1; by rewrite <-app_assoc).
  exists se4, w4, tr4, (Staging (pk_length pk) (v8 ++ k2)). split; [done|]. split; [done|]. subst se4 se3. split; [|by constructor].
  constructor; try done. right. split_and!; [done..| |done]. rewrite zlen_app. pose proof (zlen_nonneg k2). lia.
Qed.

(** ** The header *)
Lemma sha256_all data : bytes data → sha256 zero_sha data 0 (zlen data) (zeros 32) = Ok (Fips.sha256 data).
Proof using. intros. apply (sha256_spec zero_sha data 0 data (zeros 32)); [reflexivity|done|apply has_self|lia|reflexivity]. Qed.

Lemma wp_assoc (f1 f2 f3 : prog (traced_world W) OTAStagingError) Q s :
  wp (and_then (and_then f1 f2) f3) Q s → wp (and_then f1 (and_then f2 f3)) Q s.
Proof using.
  intros H. apply wp_bind_inv, wp_bind_inv in H. apply wp_and_then. eapply wp_mono; [exact H|]. cbv beta.
  intros e s' H'. split.
  - intros Hne. rewrite bool_decide_eq_false_2 in H' by done. unfold wp in H'. cbn in H'. by rewrite bool_decide_eq_false_2 in H'.
  - intros ->. rewrite bool_decide_eq_true_2 in H' by done. by apply wp_bind.
Qed.

Lemma authenticate_spec pk g se w tr : attached pk se → bytes (pk_received pk) → 384 ≤ zlen (pk_received pk) →
  header se = pk_header pk → signature se = pk_signature pk → pk_valid pk (metadata se) →
  accepts tr (Some (pk, Open)) →
  wp authenticate
    (λ e s, call_failed pk g e s ∨ (e = OTA_OK ∧ pk_key_matches pk ∧ ∃ w tr, s = at_ g (set_authenticated true se) w tr ∧
       accepts tr (Some (pk, Staging 0 [])))) (at_ g se w tr).
Proof using Hcomplete.
  intros [_ _ Hkey Hkl Hkb _ _ Hcb] Hb Hl Hh Hs Hv Hacc. unfold authenticate. apply wp_gets, wp_gets, wp_gets.
  cbn [session at_]. rewrite Hh, Hkey, Hs.
  assert (zlen (pk_header pk) = 320) as Hhl by (apply zlen_take; lia).
  assert (bytes (pk_header pk)) as Hhb by (by apply Forall_take).
  eapply wp_lift; [change PublicKeyDerSize with 91; rewrite <-Hkl; by apply sha256_all|].
  eapply wp_lift; [apply rd_bytes_field; unfold DescriptorOffset, OTA_SHA256_SIZE; lia|]. change (field _ _ _) with (field (pk_header pk) 228 32).
  apply wp_if; intros Hm.
  { apply wp_ret. left. eapply call_failed_intro; [done|exact Hacc|]. apply negb_true_iff, bool_decide_eq_false in Hm.
    split; [done|]. split; [by exists (metadata se)|]. intros Hk. by apply Hm. }
  apply negb_false_iff, bool_decide_eq_true in Hm. assert (pk_key_matches pk) as Hkm by (symmetry; exact Hm). clear Hm.
  eapply wp_lift; [change OTA_PACKAGE_HEADER_SIZE with 320; rewrite <-Hhl; by apply sha256_all|].
  eapply wp_cancelled; [exact Hcb| |]; intros w1; cbv beta iota.
  { apply wp_ret. left. eapply call_failed_intro; [done|by eapply accepts_cons; [done|constructor]|by eexists]. }
  apply wp_clock. intros t w2. apply wp_verify. intros r w3. apply (accepts_clock _ _ t) in Hacc.
  pose proof (accepts_cons _ _ _ _ Hacc (step_verified pk _ r Hl Hv Hkm)) as Hacc'.
  apply wp_if; intros H2.
  { apply Z.eqb_eq in H2. subst r. apply wp_ret. left. eapply call_failed_intro; [done|exact Hacc'|]. by exists t, tr. }
  apply wp_if; intros H0.
  { apply wp_ret. left. eapply call_failed_intro; [done|exact Hacc'|]. exists r, t, tr. split; [done|].
    apply negb_true_iff, Z.eqb_neq in H0. by apply Z.eqb_neq in H2. }
  apply negb_false_iff, Z.eqb_eq in H0. subst r. cbn [Z.eqb] in Hacc'.
  apply wp_elapsed; intros t' w4 Ht; cbv iota.
  { apply wp_ret. left. eapply call_failed_intro; [done|by apply accepts_clock|by exists t', t, tr]. }
  apply (accepts_clock _ _ t') in Hacc'.
  eapply wp_cancelled; [exact Hcb| |]; intros w5; cbv beta iota.
  { apply wp_ret. left. eapply call_failed_intro; [done|by eapply accepts_cons; [done|constructor]|by eexists]. }
  eapply wp_not_admitted; [exact Hcb| |]; intros Hadm; rewrite Hadm in Hacc'.
  - intros r w6. pose proof (accepts_cons _ _ _ _ Hacc' (step_asked pk _ r Hv)) as Hacc6. apply wp_if; intros Hr; rewrite Hr in Hacc6.
    + apply wp_ret. left. eapply call_failed_intro; [done|exact Hacc6|]. apply Z.eqb_eq in Hr. subst r. by eexists _, _.
    + apply wp_modify, wp_ret. right. split_and!; [done..|]. by eexists _, _.
  - cbv iota. apply wp_modify, wp_ret. right. split_and!; [done..|]. by eexists _, _.
Qed.

Context (SIZE_MAX : Z) (Hsize : UINT32_MAX ≤ SIZE_MAX).

Lemma validateHeader_spec pk g se w tr : attached pk se → bytes (pk_received pk) → 384 ≤ zlen (pk_received pk) →
  header se = pk_header pk → signature se = pk_signature pk → fresh se → accepts tr (Some (pk, Open)) →
  wp (validateHeader SIZE_MAX)
    (λ e s, call_failed pk g e s ∨ (e = OTA_OK ∧ ∃ se' w tr, s = at_ g se' w tr ∧
       accepts tr (Some (pk, Staging 0 [])) ∧ staged pk [] (Staging 0 []) se' ∧ framed se se')) (at_ g se w tr).
Proof using Hcomplete Hsize.
  intros Hat Hb Hl Hh Hs Hfr Hacc. pose proof Hat as [Hex Hrange _ _ _ Hap Hop _].
  assert (zlen (pk_header pk) = 320) as Hhl by (apply zlen_take; lia).
  assert (bytes (pk_header pk)) as Hhb by (by apply Forall_take).
  assert (expectedPackageSize se ≤ SIZE_MAX) as Hexs by lia.
  unfold validateHeader. apply wp_assoc. fold (@format_checks (traced_world W) SIZE_MAX). apply wp_and_then.
  pose proof (format_checks_sound SIZE_MAX (pk_header pk) Hhl Hhb (at_ g se w tr) Hh Hexs) as H1. cbv zeta in H1.
  pose proof (format_checks_result SIZE_MAX (pk_header pk) Hhl Hhb (at_ g se w tr) Hh Hexs) as H3. cbv zeta in H3.
  cbn [session at_] in H1, H3. rewrite Hex, Hap, Hop in H1, H3.
  destruct (wp_inv _ _ _ H1) as (e & s & E & Hcode & n & md & -> & Hok). apply (wp_run _ _ _ e _ E).
  destruct (decide (e = OTA_OK)) as [->|Hne]; (split; [intros Hx|intros Hx]); try done.
  - destruct (Hok eq_refl) as (-> & Hve & Hvd).
    set (se1 := set_metadata md (set_payloadSize (le32 (pk_header pk) 16) se)). assert (framed se se1) as Hf1 by by constructor.
    eapply wp_mono; [apply (authenticate_spec pk g se1); try done|].
    + by eapply framed_attached.
    + cbv beta. intros e s [Hf|(-> & Hkm & w' & tr' & -> & Hacc')]; [by left|]. right. split; [done|].
      eexists _, w', tr'. split; [reflexivity|]. split; [done|]. split; [|by constructor].
      constructor; try done. left. destruct Hfr as (_ & Her & Hvs & Hvec & Hps). split; [exact Her|]. split; [done|].
      split; [by destruct Hps; constructor|]. rewrite pad_nil. by split.
  - left. split; [split; [done|by destruct e]|]. eexists _, w, tr. split; [reflexivity|]. split; [by exists Open|].
    unfold wp in H3. rewrite E in H3. by destruct e; try done; split.
Qed.

(** ** OTAStagingWritePackage *)
Lemma ztake_app_le {A} n (l k : list A) : 0 ≤ n ≤ zlen l → ztake n (l ++ k) = ztake n l.
Proof using. unfold ztake, zlen. intros. apply take_app_le. lia. Qed.
Lemma zdrop_app_le {A} n (l k : list A) : 0 ≤ n ≤ zlen l → zdrop n (l ++ k) = zdrop n l ++ k.
Proof using. unfold zdrop, zlen. intros. apply drop_app_le. lia. Qed.
Lemma ztake_ge {A} n (l : list A) : zlen l ≤ n → ztake n l = l.
Proof using. unfold ztake, zlen. intros. apply take_ge. lia. Qed.

Lemma field_short (m : list Z) q n : 0 ≤ n → q ≤ zlen m ≤ q + n → 0 ≤ q → field m q n = zdrop q m.
Proof using. intros. unfold field. apply ztake_ge. rewrite zlen_drop; lia. Qed.

Lemma chunk_size (k : list Z) r c : c = (if zlen k <? r then zlen k else r) → c = Z.min (zlen k) r.
Proof using. intros ->. destruct (Z.ltb_spec (zlen k) r); lia. Qed.

Lemma zlen_positive {A} (l : list A) : l ≠ [] → 0 < zlen l.
Proof using. destruct l; [done|]. rewrite zlen_cons. pose proof (zlen_nonneg l). lia. Qed.

(** What a round leaves. *)
Definition round_done pk g got (k : list Z) (r : OTAStagingError + Z) (s : ota (traced_world W)) : Prop :=
  match r with
  | inl e => call_failed pk g e s
  | inr n => 0 < n ≤ zlen k ∧ ∃ se w tr ph, s = at_ g se w tr ∧ accepts tr (Some (pk, ph)) ∧ receiving pk (got ++ ztake n k) ph se
  end.

Section round.
Context (pk : package) (g : Z) (got : list Z) (ph : phase) (se : Session (traced_world W)) (data : list Z) (q : Z) (k : list Z).
Context (w : W) (tr : list event).
Context (Hrc : receiving pk got ph se) (Hall : pk_received pk = got ++ k) (Hk : bytes k) (Hne : k ≠ []).
Context (Hd : has data q k) (Hq : q + zlen k ≤ zlen data) (Hsz : zlen (pk_received pk) ≤ pk_size pk).
Context (Hacc : accepts tr (Some (pk, ph))).

Lemma round_positive : 0 < zlen k.
Proof using Hne. by apply zlen_positive. Qed.

Lemma round_copy c : 0 ≤ c ≤ zlen k → rd_bytes data q c = Ok (ztake c k) ∧ bytes (ztake c k) ∧ zlen (ztake c k) = c.
Proof using Hd Hq Hk.
  intros Hc. assert (zlen (ztake c k) = c) as Hl by (apply zlen_take; lia). split_and!; [|by apply Forall_take|done].
  rewrite <-Hl at 1. apply rd_bytes_has; [|pose proof (zlen_nonneg k); lia].
  rewrite <-(ztake_zdrop c k) in Hd. by apply has_app in Hd as [? _].
Qed.

Lemma round_header : zlen got < 320 → wp (write_round SIZE_MAX data q (zlen k)) (round_done pk g got k) (at_ g se w tr).
Proof using Hrc Hall Hk Hne Hd Hq Hsz Hacc.
  intros Hlt. pose proof round_positive as Hpos. pose proof (zlen_nonneg got) as Hg0. destruct Hrc as [Hat Hst Hct Hbd Hby Hhd Hsg Hph].
  destruct Hph as [(_ & -> & Hfr)|[? _]]; [|lia].
  unfold write_round. apply wp_gets. cbn [session at_]. rewrite Hct. unfold OTA_PACKAGE_HEADER_SIZE, OTA_PACKAGE_PAYLOAD_OFFSET, OTA_PACKAGE_SIGNATURE_SIZE.
  apply wp_true; [by apply Z.ltb_lt|]. cbv zeta. set (c := if zlen k <? 320 - zlen got then _ else _).
  pose proof (chunk_size k (320 - zlen got) c eq_refl) as Hc. clearbody c. apply wp_gets. cbn [session at_].
  destruct (round_copy c ltac:(lia)) as (Hrd & Hcb & Hcl).
  rewrite Hhd, (ztake_ge 320 got) by lia.
  eapply wp_lift; [rewrite Hrd, bind_Ok; apply pad_extend; lia|]. apply wp_modify, wp_modify, wp_ret. split; [lia|].
  eexists _, w, tr, Open. split; [reflexivity|]. split; [done|].
  assert (zlen (got ++ ztake c k) = zlen got + c) as Hl' by (by rewrite zlen_app, Hcl).
  constructor; try done; cbn.
  - by destruct Hat; constructor.
  - by rewrite Hct, Hl'.
  - rewrite Hl'. rewrite Hall, zlen_app in Hsz. lia.
  - by apply Forall_app.
  - rewrite (ztake_ge 320 (got ++ _)) by lia. done.
  - rewrite Hsg. unfold field. by rewrite !zdrop_all by lia.
  - left. split; [lia|]. split; [done|]. destruct Hfr as (? & ? & ? & ? & Hps). split_and!; try done. by destruct Hps; constructor.
Qed.

Lemma round_signature : 320 ≤ zlen got < 384 →
  wp (write_round SIZE_MAX data q (zlen k)) (round_done pk g got k) (at_ g se w tr).
Proof using Hrc Hall Hk Hne Hd Hq Hsz Hacc Hcomplete Hsize.
  intros Hlt. pose proof round_positive as Hpos. destruct Hrc as [Hat Hst Hct Hbd Hby Hhd Hsg Hph].
  destruct Hph as [(_ & -> & Hfr)|[? _]]; [|lia].
  unfold write_round. apply wp_gets. cbn [session at_]. rewrite Hct. unfold OTA_PACKAGE_HEADER_SIZE, OTA_PACKAGE_PAYLOAD_OFFSET, OTA_PACKAGE_SIGNATURE_SIZE.
  apply wp_false; [by apply Z.ltb_ge; lia|]. apply wp_true; [by apply Z.ltb_lt; lia|]. cbv zeta.
  set (c := if zlen k <? 64 - (zlen got - 320) then _ else _).
  pose proof (chunk_size k (64 - (zlen got - 320)) c eq_refl) as Hc. clearbody c. apply wp_gets. cbn [session at_].
  destruct (round_copy c ltac:(lia)) as (Hrd & Hcb & Hcl).
  assert (zlen (got ++ ztake c k) = zlen got + c) as Hl' by (by rewrite zlen_app, Hcl).
  assert (field got 320 64 ++ ztake c k = field (got ++ ztake c k) 320 64) as Hsig.
  { rewrite !field_short by lia. by rewrite zdrop_app_le by lia. }
  assert (zlen (field got 320 64) = zlen got - 320) as Hfl by (rewrite field_short, zlen_drop; lia).
  eapply wp_lift; [rewrite Hrd, bind_Ok, Hsg, <-Hfl, pad_extend by lia; rewrite Hsig; done|]. apply wp_modify, wp_modify.
  set (se1 := add_received c (set_signature (pad 64 (field (got ++ ztake c k) 320 64)) se)).
  match goal with |- wp ?m ?Q _ => change (wp m Q (at_ g se1 w tr)) end.
  assert (∀ ph' se', framed se1 se' → (zlen got + c < 384 ∧ ph' = Open ∧ fresh se' ∨ 384 ≤ zlen got + c ∧ staged pk [] ph' se') →
    receiving pk (got ++ ztake c k) ph' se') as Hnext.
  { intros ph' se' Hf Hcase. pose proof Hf as []. constructor.
    - eapply framed_attached; [exact Hf|]. by destruct Hat; constructor.
    - by rewrite fr_state0.
    - rewrite fr_count0, Hl'. cbn. by rewrite Hct.
    - rewrite Hl'. rewrite Hall, zlen_app in Hsz. lia.
    - by apply Forall_app.
    - rewrite fr_header0, ztake_app_le by lia. exact Hhd.
    - by rewrite fr_signature0.
    - rewrite Hl'. destruct Hcase as [?|[? Hsd]]; [by left|]. right. split; [done|].
      rewrite zdrop_all by lia. done. }
  assert (fresh se1) as Hfr1.
  { destruct Hfr as (? & ? & ? & ? & Hps). split_and!; try done. by destruct Hps; constructor. }
  apply wp_if; intros H384.
  2: { apply wp_ret. apply Z.eqb_neq in H384. split; [lia|]. exists se1, w, tr, Open. split; [done|]. split; [done|].
       apply Hnext; [by constructor|]. left. split; [lia|done]. }
  apply Z.eqb_eq in H384. apply wp_bind.
  assert (pk_received pk = (got ++ ztake c k) ++ zdrop c k) as Hr by (by rewrite <-app_assoc, ztake_zdrop).
  eapply wp_mono; [apply (validateHeader_spec pk g se1 w tr); try done|].
  - by destruct Hat; constructor.
  - rewrite Hall. by apply Forall_app.
  - rewrite Hall, zlen_app. lia.
  - cbn. rewrite Hhd. unfold pk_header. rewrite Hall, ztake_app_le by lia. apply pad_full. apply zlen_take. lia.
  - change (signature se1) with (pad 64 (field (got ++ ztake c k) 320 64)). unfold pk_signature.
    rewrite Hr, (field_app (got ++ ztake c k) (zdrop c k)) by (rewrite ?Hl'; lia). apply pad_full. rewrite zlen_field by (rewrite ?Hl'; lia). done.
  - cbv beta. intros e s [Hf|(-> & se' & w' & tr' & -> & Hacc' & Hsd & Hfm)].
    + rewrite bool_decide_eq_false_2 by apply (proj1 Hf). by apply wp_ret.
    + rewrite bool_decide_eq_true_2 by done. apply wp_ret. split; [lia|]. exists se', w', tr', (Staging 0 []).
      split; [done|]. split; [done|]. apply Hnext; [done|]. right. split; [lia|done].
Qed.

Lemma round_payload : 384 ≤ zlen got → wp (write_round SIZE_MAX data q (zlen k)) (round_done pk g got k) (at_ g se w tr).
Proof using Hrc Hall Hk Hne Hd Hq Hsz Hacc Hcomplete Hsize.
  intros Hge. pose proof round_positive as Hpos. destruct Hrc as [Hat Hst Hct Hbd Hby Hhd Hsg Hph].
  destruct Hph as [(? & _)|[_ Hsd]]; [lia|]. pose proof Hsd as [_ Hv _ Hlen Hpay]. pose proof Hat as [_ Hrange _ _ _ _ _ _].
  destruct (valid_length pk _ Hv Hrange) as [Hpl Hplen].
  assert (zlen (zdrop 384 got) = zlen got - 384) as Hpl' by (apply zlen_drop; lia).
  assert (zlen got + zlen k ≤ pk_size pk) as Htot by (by rewrite Hall, zlen_app in Hsz).
  assert (0 ≤ payloadWritten (status se) ≤ zlen got - 384) as Hwr.
  { destruct Hpay as [(_ & _ & [_ _ _ Hw] & _)|(_ & _ & [_ _ _ Hw] & _)]; rewrite Hw; change (zlen (@nil Z)) with 0; lia. }
  unfold write_round. apply wp_gets. cbn [session at_]. rewrite Hct. unfold OTA_PACKAGE_HEADER_SIZE, OTA_PACKAGE_PAYLOAD_OFFSET.
  do 2 (apply wp_false; [by apply Z.ltb_ge; lia|]). apply wp_gets. cbn [session at_]. rewrite Hlen. cbv zeta.
  set (c := if zlen k <? _ then _ else _). assert (c = zlen k) as ->.
  { unfold c, size_t. rewrite Z.mod_small by (unfold UINT32_MAX in *; lia).
    destruct (Z.ltb_spec (zlen k) (pk_length pk - payloadWritten (status se))); lia. }
  apply wp_bind. eapply wp_mono.
  { apply (acceptPayload_spec pk g (zdrop 384 got) ph se data q k [] w tr); try done.
    - unfold pk_payload. rewrite Hall, app_nil_r. apply zdrop_app_le. lia.
    - by apply Forall_drop. }
  cbv beta. intros e s [Hf|(-> & se' & w' & tr' & ph' & -> & Hacc' & Hsd' & Hfm)].
  { rewrite bool_decide_eq_false_2 by apply (proj1 Hf). by apply wp_ret. }
  rewrite bool_decide_eq_true_2 by done. apply wp_modify, wp_ret. split; [lia|].
  eexists _, w', tr', ph'. split; [reflexivity|]. split; [done|]. rewrite (ztake_ge (zlen k) k) by lia. pose proof Hfm as [].
  constructor; cbn.
  - pose proof (framed_attached _ _ _ Hfm Hat) as []. by constructor.
  - congruence.
  - rewrite zlen_app. congruence.
  - rewrite zlen_app. lia.
  - by apply Forall_app.
  - rewrite ztake_app_le by lia. congruence.
  - rewrite field_app by lia. congruence.
  - right. rewrite zlen_app, zdrop_app_le by lia. split; [lia|]. destruct Hsd' as [? ? ? ? Hp']. constructor; try done.
    destruct Hp' as [(H1 & H2 & Hps & H4)|(H1 & H2 & Hps & H4)]; [left|right];
      (split; [exact H1|]; split; [exact H2|]; split; [by destruct Hps; constructor|exact H4]).
Qed.
Lemma write_round_spec : wp (write_round SIZE_MAX data q (zlen k)) (round_done pk g got k) (at_ g se w tr).
Proof using Hrc Hall Hk Hne Hd Hq Hsz Hacc Hcomplete Hsize.
  destruct (decide (zlen got < 320)); [by apply round_header|].
  destruct (decide (zlen got < 384)); [apply round_signature|apply round_payload]; lia.
Qed.
End round.

(** ** Results of calls of the interface *)

(** What holds between two calls, by the state of the session. *)
Definition ready_for pk (rd : list Z) se : Prop :=
  attached pk se ∧ payloadSize se = pk_length pk ∧ info_crc16 (ready se) = crc16 rd ∧ info_sha256 (ready se) = pk_digest pk.

Definition settled (σ : spec) se : Prop :=
  match st_state (status se) with
  | OTA_STATE_IDLE | OTA_STATE_VERIFYING | OTA_STATE_ACTIVATING => False
  | OTA_STATE_RECEIVING => ∃ pk ph, σ = Some (pk, ph) ∧ receiving pk (pk_received pk) ph se
  | OTA_STATE_READY => ∃ pk rd, σ = Some (pk, Checking rd) ∧ read_back_ok pk rd ∧ ready_for pk rd se
  | OTA_STATE_ACTIVATED => ∃ pk, σ = Some (pk, Activated)
  | OTA_STATE_FAILED | OTA_STATE_CANCELLED => True
  end.

(** The session after [fail]. *)
Definition failed_session (e : OTAStagingError) se : Session (traced_world W) :=
  clear_generation (set_state (if bool_decide (e = OTA_ERROR_CANCELLED) then OTA_STATE_CANCELLED else OTA_STATE_FAILED)
    (set_lastError e se)).

Lemma wp_fail e Q g se w tr : Q e (at_ g (failed_session e se) w tr) → wp (fail e) Q (at_ g se w tr).
Proof using. done. Qed.

Lemma failed_settled e σ se : settled σ (failed_session e se).
Proof using. unfold settled, failed_session. cbn. by destruct (bool_decide _). Qed.

(** An error result and what it means; [null] tells whether an argument was null. *)
Definition refused pk (null : Prop) g e (s : ota (traced_world W)) : Prop :=
  e ≠ OTA_OK ∧ ∃ se w tr ph, s = at_ g (failed_session e se) w tr ∧ accepts tr (Some (pk, ph)) ∧
    (cause pk tr e ∨ e = OTA_ERROR_INVALID_ARGUMENT ∧ null).

Lemma refused_intro pk null g e se w tr ph : e ≠ OTA_OK → accepts tr (Some (pk, ph)) → cause pk tr e →
  refused pk null g e (at_ g (failed_session e se) w tr).
Proof using.
  intros. split; [done|]. eexists _, w, tr, ph. split; [reflexivity|]. split; [done|by left].
Qed.

Lemma refused_weaken pk (null null' : Prop) g e s : (null → null') → refused pk null g e s → refused pk null' g e s.
Proof using.
  intros Hn (Hne & se & w & tr & ph & -> & Ha & Hc). split; [done|]. exists se, w, tr, ph. split; [done|].
  split; [done|]. destruct Hc as [?|[? ?]]; [by left|right; auto].
Qed.

Lemma refused_call_failed pk null g e Q s : call_failed pk g e s →
  (∀ s, refused pk null g e s → e ≠ OTA_ERROR_INCOMPLETE → Q e s) → wp (fail e) Q s.
Proof using.
  intros ([Hne Hni] & se & w & tr & -> & [ph Hacc] & Hc) H. apply wp_fail, H; [|done]. by eapply refused_intro.
Qed.

(** Another chunk does not change what was established about the first ones. *)
Lemma valid_offer pk bs md : 384 ≤ zlen (pk_received pk) → pk_valid pk md → pk_valid (pk_offer bs pk) md.
Proof using.
  intros Hl. unfold pk_valid, pk_header. cbn. by rewrite ztake_app_le by lia.
Qed.

Lemma header_offer pk bs : 384 ≤ zlen (pk_received pk) → pk_header (pk_offer bs pk) = pk_header pk.
Proof using. intros Hl. unfold pk_header. cbn. by rewrite ztake_app_le by lia. Qed.

Lemma vectors_offer pk bs : 392 ≤ zlen (pk_received pk) → vectors_ok pk → vectors_ok (pk_offer bs pk).
Proof using.
  intros Hl. assert (pk_payload (pk_offer bs pk) = pk_payload pk ++ bs) as Hp by (apply zdrop_app_le; lia).
  assert (zlen (pk_payload pk) = zlen (pk_received pk) - 384) by (apply zlen_drop; lia).
  unfold vectors_ok, pk_length. rewrite header_offer, Hp by lia. unfold le32. by rewrite !field_app by lia.
Qed.

Lemma receiving_offer pk bs got ph se : got = pk_received pk → receiving pk got ph se → receiving (pk_offer bs pk) got ph se.
Proof using.
  intros -> [Hat ? ? ? ? ? ? Hph]. constructor; try done; [by destruct Hat|].
  destruct Hph as [Ho|[Hl [? Hv Hk Hs Hp]]]; [by left|]. right. split; [done|].
  assert (zlen (pk_payload pk) = zlen (pk_received pk) - 384) as Hpl by (apply zlen_drop; lia).
  constructor; [done|by apply valid_offer| | |].
  - unfold pk_key_matches. by rewrite header_offer.
  - unfold pk_length. by rewrite header_offer.
  - destruct Hp as [Hb|(? & -> & ? & ? & ?)]; [by left|]. right. unfold after_erase, pk_length. rewrite header_offer by done.
    split_and!; try done. apply vectors_offer; [unfold pk_payload in Hpl; lia|done].
Qed.

(** The loop of OTAStagingWritePackage. *)
Lemma write_rounds_spec pk g data : ∀ fuel k q got ph se w tr, (length k ≤ fuel)%nat →
  receiving pk got ph se → pk_received pk = got ++ k → bytes k → has data q k → q + zlen k ≤ zlen data →
  zlen (pk_received pk) ≤ pk_size pk → accepts tr (Some (pk, ph)) →
  wp (write_rounds SIZE_MAX fuel data q (zlen k))
    (λ e s, (refused pk False g e s ∧ e ≠ OTA_ERROR_INCOMPLETE) ∨ (e = OTA_OK ∧ ∃ se w tr ph, s = at_ g se w tr ∧ accepts tr (Some (pk, ph)) ∧
       receiving pk (pk_received pk) ph se)) (at_ g se w tr).
Proof using Hcomplete Hsize.
  induction fuel as [|fuel IH]; intros k q got ph se w tr Hf Hrc Hall Hk Hd Hq Hsz Hacc; cbn [write_rounds].
  { assert (k = []) as -> by (destruct k; [done|cbn in Hf; lia]). apply wp_false; [done|]. apply wp_ret. right.
    split; [done|]. rewrite app_nil_r in Hall. subst got. by exists se, w, tr, ph. }
  destruct (decide (k = [])) as [->|Hne].
  { apply wp_false; [done|]. apply wp_ret. right.
    split; [done|]. rewrite app_nil_r in Hall. subst got. by exists se, w, tr, ph. }
  apply wp_true; [by apply Z.ltb_lt, zlen_positive|]. apply wp_bind.
  eapply wp_mono; [by apply (write_round_spec pk g got ph se data q k w tr)|]. cbv beta. intros [e|n] s.
  - intros Hfl. eapply refused_call_failed; [exact Hfl|]. intros ? ? ?. by left.
  - intros (Hn & se' & w' & tr' & ph' & -> & Hacc' & Hrc').
    replace (zlen k - n) with (zlen (zdrop n k)) by (rewrite zlen_drop; lia).
    pose proof (ztake_zdrop n k) as Hkk. pose proof Hd as [Hq0 _].
    rewrite <-Hkk in Hd. apply has_app in Hd as [_ Hd2]. rewrite zlen_take in Hd2 by lia.
    apply (IH (zdrop n k) (q + n) (got ++ ztake n k) ph'); try done.
    + unfold zdrop. rewrite length_drop. lia.
    + by rewrite <-app_assoc, Hkk.
    + by apply Forall_drop.
    + rewrite zlen_drop; lia.
Qed.

(** OTAStagingWritePackage on the session that receives [pk]. *)
Lemma write_package_spec pk ph g se w tr m n : receiving pk (pk_received pk) ph se → accepts tr (Some (pk, ph)) →
  0 ≤ n ≤ SIZE_MAX → (∀ d, m = Some d → n ≤ zlen d ∧ bytes d) →
  let bs := ztake n (default [] m) in let pk := pk_offer bs pk in
  wp (OTAStagingWritePackage SIZE_MAX m n)
    (λ e s, (refused pk (m = None ∧ 0 < n) g e s ∧ e ≠ OTA_ERROR_INCOMPLETE) ∨ (e = OTA_OK ∧ ∃ se w tr ph, s = at_ g se w tr ∧ accepts tr (Some (pk, ph)) ∧
       receiving pk (pk_received pk) ph se)) (at_ g se w (Offered bs :: tr)).
Proof using Hcomplete Hsize.
  intros Hrc Hacc Hn Hm bs pk'. pose proof Hrc as [Hat Hst Hct Hbd Hby _ _ Hph]. pose proof Hat as [Hex Hrange _ _ _ _ _ Hcb].
  assert (accepts (Offered bs :: tr) (Some (pk', ph))) as Hacc'.
  { eapply accepts_cons; [exact Hacc|]. apply step_offered. destruct Hph as [(_ & -> & _)|[_ [_ _ _ _ Hp]]]; [by left|].
    right. destruct Hp as [(_ & -> & _)|(_ & -> & _)]; by eexists _, _. }
  apply (receiving_offer pk bs _ ph se eq_refl) in Hrc. fold pk' in Hrc.
  unfold OTAStagingWritePackage. apply wp_gets. cbn [session at_]. rewrite Hst. apply wp_false; [done|].
  apply wp_if; intros Hnull.
  { apply andb_true_iff in Hnull as [H0 H1]. apply Z.ltb_lt in H0. apply bool_decide_eq_true in H1. apply wp_fail. left.
    split; [|done]. split; [done|]. eexists _, w, _, _. split; [reflexivity|]. split; [exact Hacc'|]. by right. }
  assert (zlen bs = n) as Hbs.
  { unfold bs. destruct m as [d|]; [destruct (Hm d eq_refl); apply zlen_take; cbn; lia|].
    rewrite bool_decide_eq_true_2, andb_true_r in Hnull by done. apply Z.ltb_ge in Hnull.
    assert (n = 0) as -> by lia. done. }
  apply wp_gets. cbn [session at_]. rewrite Hex, Hct. unfold size_t. pose proof (zlen_nonneg (pk_received pk)).
  rewrite Z.mod_small by (unfold UINT32_MAX in *; lia).
  apply wp_if; intros Htr.
  { apply wp_fail. left. split; [|done]. eapply refused_intro; [done|exact Hacc'|]. cbn. rewrite zlen_app, Hbs. apply Z.ltb_lt in Htr. lia. }
  apply Z.ltb_ge in Htr. eapply wp_cancelled; [exact Hcb| |]; intros w1; cbv beta iota.
  { apply wp_fail. left. split; [|done]. eapply refused_intro; [done|by eapply accepts_cons; [exact Hacc'|constructor]|by eexists]. }
  rewrite <-Hbs at 2. eapply wp_mono; [eapply (write_rounds_spec pk' g _ _ bs 0 (pk_received pk) ph); try done|].
  - unfold zlen in Hbs. lia.
  - unfold bs. destruct m as [d|]; [destruct (Hm d eq_refl); by apply Forall_take|]. by destruct (Z.to_nat n) eqn:?; unfold ztake; cbn; rewrite take_nil.
  - unfold bs. split; [done|]. exists (zdrop n (default [] m)). by rewrite ztake_zdrop.
  - rewrite Hbs. destruct m as [d|]; [destruct (Hm d eq_refl); cbn; lia|].
    rewrite bool_decide_eq_true_2, andb_true_r in Hnull by done. apply Z.ltb_ge in Hnull.
    change (zlen (default [] None)) with 0. lia.
  - cbn. rewrite zlen_app, Hbs. lia.
  - cbv beta. intros e s [[H' Hi]|H']; [left|by right]. split; [|done]. eapply refused_weaken; [|exact H']. done.
Qed.

(** ** OTAStagingFinish *)
Record read_so_far (rd : list Z) (l : read_back) : Prop := {
  rs_bytes : bytes rd;
  rs_sha : sha_of (rb_sha l) rd;
  rs_crc : rb_crc l = crc16 rd;
  rs_block : zlen (rb_block l) = 512 ∧ bytes (rb_block l);
  rs_length : zlen (rb_descriptor l) = 256;
  rs_descriptor : 512 < zlen rd → rb_descriptor l = field rd 512 256 }.

Lemma copy_descriptor_spec rd l block n len : read_so_far rd l → zlen block = 512 → n = Z.min 512 (len - zlen rd) →
  zlen rd < len → 768 ≤ len → zlen rd mod 512 = 0 →
  ∃ d, copy_descriptor (rb_descriptor l) block (zlen rd) n = Ok d ∧ zlen d = 256 ∧
    (512 < zlen rd + n → d = field (rd ++ ztake n block) 512 256).
Proof using.
  intros [_ _ _ _ Hl Hd] Hb Hn Hlt Hlen Hmod. pose proof (zlen_nonneg rd). unfold copy_descriptor, OTA_IMAGE_DESCRIPTOR_OFFSET, OTA_IMAGE_DESCRIPTOR_SIZE.
  assert (zlen (ztake n block) = n) as Hbn by (apply zlen_take; lia).
  destruct (decide (zlen rd = 0)) as [H0|H0]; [|destruct (decide (zlen rd = 512)) as [H5|H5]].
  - rewrite H0. exists (rb_descriptor l). rewrite (proj2 (Z.ltb_ge 512 (0 + n))) by lia. cbn [Z.leb Z.ltb Z.compare andb].
    split_and!; [done..|]. lia.
  - rewrite H5. rewrite (proj2 (Z.ltb_lt 512 (512 + n))) by lia. cbn [Z.leb Z.compare Pos.compare Pos.compare_cont andb].
    cbv zeta. change (512 - 512) with 0. rewrite Z.sub_0_r.
    assert ((if 256 <? n then 256 else n) = 256) as -> by (destruct (Z.ltb_spec 256 n); lia).
    rewrite rd_bytes_field, bind_Ok by lia. rewrite wr_bytes_splice by lia. rewrite zlen_field by lia.
    rewrite (proj2 (Z.leb_le _ _)) by lia. eexists. split; [reflexivity|]. unfold splice. rewrite zlen_field by lia.
    rewrite zdrop_all, app_nil_r by lia. change (ztake 0 (rb_descriptor l)) with (@nil Z). cbn [app].
    split; [apply zlen_field; lia|]. intros _. unfold field. rewrite zdrop_0.
    rewrite (zdrop_app_exact 512) by done. unfold ztake. rewrite take_take. f_equal. lia.
  - assert (1024 <= zlen rd) by dlia. exists (rb_descriptor l).
    rewrite (proj2 (Z.leb_gt (zlen rd) 512)), (proj2 (Z.ltb_ge (zlen rd) (512 + 256))), andb_false_r by lia. cbn [andb].
    split_and!; [done..|]. intros _. rewrite field_app by lia. apply Hd. lia.
Qed.

Lemma set_verified_id se : se = set_verified (payloadVerified (status se)) se.
Proof using. by destruct se as [[] ? ? ? ? ? ? ? ? ? ? ? ? ? ? ? ? ? ?]. Qed.

Lemma read_loop_spec pk adm g se : payloadSize se = pk_length pk → 768 ≤ pk_length pk ≤ UINT32_MAX → callbacks adm se →
  ∀ fuel rd l v ph w tr, (Z.to_nat (pk_length pk - zlen rd) ≤ fuel)%nat → zlen rd ≤ pk_length pk →
  (zlen rd mod 512 = 0 ∨ zlen rd = pk_length pk) → read_so_far rd l → reading pk ph rd → accepts tr (Some (pk, ph)) →
  wp (read_loop fuel (zlen rd) l)
    (λ r s, match r with
            | inl e => call_failed pk g e s
            | inr l => ∃ v w tr rd, s = at_ g (set_verified v se) w tr ∧ zlen rd = pk_length pk ∧ read_so_far rd l ∧
                         accepts tr (Some (pk, Checking rd))
            end) (at_ g (set_verified v se) w tr).
Proof using Hcomplete Htyped.
  intros Hp Hlen Hcb.
  assert (∀ rd l v ph w tr, zlen rd = pk_length pk → read_so_far rd l → reading pk ph rd → accepts tr (Some (pk, ph)) →
    ∃ v0 w0 tr0 rd0, at_ g (set_verified v se) w tr = at_ g (set_verified v0 se) w0 tr0 ∧ zlen rd0 = pk_length pk ∧ read_so_far rd0 l ∧
                         accepts tr0 (Some (pk, Checking rd0))) as Hend.
  { intros rd l v ph w tr Hz Hl Hr Hacc. exists v, w, tr, rd. split_and!; try done.
    destruct Hr as [->|(-> & _)]; [done|]. rewrite zlen_nil in Hz. lia. }
  induction fuel as [|fuel IH]; intros rd l v ph w tr Hf Hle Hmod Hl Hr Hacc; cbn [read_loop]; apply wp_gets; cbn [session at_];
    change (payloadSize (set_verified v se)) with (payloadSize se); rewrite Hp.
  { apply wp_false; [apply Z.ltb_ge; lia|]. apply wp_ret. eapply Hend; try done. lia. }
  apply wp_if; intros Hlt; [|apply Z.ltb_ge in Hlt; apply wp_ret; eapply Hend; try done; lia].
  apply Z.ltb_lt in Hlt. assert (zlen rd mod 512 = 0) as Hm0 by (destruct Hmod; [done|lia]). clear Hmod.
  assert (callbacks adm (set_verified v se)) as Hcbv by exact Hcb.
  eapply wp_cancelled; [exact Hcbv| |]; intros w1; cbv beta iota zeta.
  { apply wp_ret. eapply call_failed_intro; [done|by eapply accepts_cons; [done|constructor]|by eexists]. }
  apply wp_clock. intros t w2. unfold OTA_STAGING_READ_BACK_BLOCK_SIZE. set (n := if 512 <? pk_length pk - zlen rd then _ else _).
  assert (n = Z.min 512 (pk_length pk - zlen rd)) as Hn.
  { unfold n. destruct (Z.ltb_spec 512 (pk_length pk - zlen rd)); lia. }
  clearbody n. pose proof (zlen_nonneg rd) as Hrd0. pose proof Hl as [Hrb Hrs Hrc [Hbl Hbb] Hdl _].
  apply wp_read; [done|]. intros r next b' w3 Hbl' Hbb'. cbv iota beta. rewrite Hbl in Hbl'.
  assert (zlen (ztake n b') = n) as Hbn by (apply zlen_take; lia).
  assert (bytes (ztake n b')) as Hbnb by (by apply Forall_take).
  assert (has b' 0 (ztake n b')) as Hhas by (split; [done|exists (zdrop n b'); by rewrite ztake_zdrop]).
  apply (accepts_clock _ _ t) in Hacc.
  pose proof (accepts_cons _ _ _ _ Hacc (step_read pk ph rd n r next (ztake n b') Hr Hlt Hn Hbn)) as Hacc'.
  apply wp_if; intros Hbad.
  { apply wp_ret. eapply call_failed_intro; [done|exact Hacc'|]. eexists _, _, _, _, _, _, _. split; [reflexivity|].
    rewrite !orb_true_iff, !negb_true_iff, Z.ltb_lt, !Z.eqb_neq in Hbad. lia. }
  rewrite !orb_false_iff, !negb_false_iff, Z.ltb_ge, !Z.eqb_eq in Hbad. destruct Hbad as [[-> _] Hnx].
  assert (next = zlen rd + n) as -> by lia. rewrite !Z.eqb_refl in Hacc'. cbn [andb] in Hacc'.
  apply wp_elapsed; intros t' w4 Ht; cbv iota.
  { apply wp_ret. eapply call_failed_intro; [done|by apply accepts_clock|by exists t', (zlen rd), n, (ztake n b'), t, tr]. }
  destruct (sha256Update_spec (rb_sha l) rd b' 0 (ztake n b') Hrs Hbnb Hhas ltac:(lia)) as (sha' & Hup & Hsha'). rewrite Hbn in Hup.
  eapply wp_lift; [exact Hup|].
  pose proof (crc16Update_spec rd (ztake n b') b' 0 Hhas) as Hcrc. rewrite Hbn, <-Hrc in Hcrc.
  eapply wp_lift; [exact Hcrc|].
  destruct (copy_descriptor_spec rd l b' n (pk_length pk) Hl Hbl' Hn Hlt ltac:(lia) Hm0) as (d & Hcd & Hdl' & Hd).
  eapply wp_lift; [exact Hcd|]. cbv zeta. apply wp_modify. unfold UINT32_MAX in *. rewrite u32_id by (unfold is_u32; lia).
  assert (zlen (rd ++ ztake n b') = zlen rd + n) as Hl2 by (by rewrite zlen_app, Hbn). rewrite <-Hl2. rewrite <-Hl2 in Hacc', Hd.
  match goal with |- wp ?m ?Q _ => change (wp m Q (at_ g (set_verified (zlen (rd ++ ztake n b')) se) w4
    (Clock t' :: Read (zlen rd) n 0 (zlen (rd ++ ztake n b')) (ztake n b') :: Clock t :: tr))) end.
  apply (IH (rd ++ ztake n b') _ _ (Checking (rd ++ ztake n b'))).
  - lia.
  - lia.
  - rewrite Hl2. destruct (Z.min_spec 512 (pk_length pk - zlen rd)) as [[? Hmin]|[? Hmin]]; [left; rewrite Hn, Hmin; dlia|right; lia].
  - constructor; cbn; try done. by apply Forall_app.
  - by left.
  - by apply accepts_clock.
Qed.

(** What OTAStagingFinish leaves when it publishes an image. *)
Definition published pk (g0 : Z) (e : OTAStagingError) (i : option OTAStagedImageInfo) (s : ota (traced_world W)) : Prop :=
  e = OTA_OK ∧ ∃ g se w tr rd, s = at_ g se w tr ∧ accepts tr (Some (pk, Checking rd)) ∧ read_back_ok pk rd ∧
    st_state (status se) = OTA_STATE_READY ∧ ready_for pk rd se ∧ i = Some (ready se) ∧
    info_payloadSize (ready se) = pk_length pk ∧ pk_valid pk (info_metadata (ready se)) ∧ sessionGeneration (ready se) = g0.

Lemma publish_spec pk g se l rd w tr : attached pk se → header se = pk_header pk → pk_valid pk (metadata se) →
  384 ≤ zlen (pk_received pk) → payloadSize se = pk_length pk → payloadCrc se = crc16 (pk_payload pk) →
  zlen rd = pk_length pk → read_so_far rd l → 768 ≤ pk_length pk → accepts tr (Some (pk, Checking rd)) →
  wp (publish l) (λ r s, refused pk False g r.1 s ∨ published pk g r.1 r.2 s) (at_ g se w tr).
Proof using.
  intros Hat Hh Hv H384 Hp Hc Hrl [Hrb Hrs Hrc _ Hdl Hd] Hlen Hacc. unfold publish. apply wp_gets. cbn [session at_].
  destruct (sha256Finish_spec (rb_sha l) rd (zeros 32) Hrs ltac:(reflexivity)) as (c' & Hfin). 
  eapply wp_lift; [exact Hfin|]. cbv iota beta.
  assert (md_sha256 (metadata se) = pk_digest pk) as Hdig by (destruct Hv as [_ []]; tauto). rewrite Hdig.
  apply wp_if; intros H1.
  { apply wp_bind, wp_fail, wp_ret. left. eapply refused_intro; [done|exact Hacc|]. exists rd. split; [done|].
    by apply negb_true_iff, bool_decide_eq_false in H1. }
  apply negb_false_iff, bool_decide_eq_true in H1. apply wp_gets. cbn [session at_]. rewrite Hc, Hrc.
  apply wp_if; intros H2.
  { apply wp_bind, wp_fail, wp_ret. left. eapply refused_intro; [done|exact Hacc|]. exists rd. split; [done|]. split; [done|].
    by apply negb_true_iff, Z.eqb_neq in H2. }
  apply negb_false_iff, Z.eqb_eq in H2. apply wp_gets. cbn [session at_]. rewrite Hh.
  assert (zlen (pk_header pk) = 320) as Hhl by (apply zlen_take; lia).
  eapply wp_lift; [apply rd_bytes_field; unfold DescriptorOffset, OTA_IMAGE_DESCRIPTOR_SIZE; lia|].
  change (field _ _ _) with (field (pk_header pk) 64 256). rewrite Hd by lia.
  apply wp_if; intros H3.
  { apply wp_bind, wp_fail, wp_ret. left. eapply refused_intro; [done|exact Hacc|]. exists rd. split; [done|]. split; [done|]. split; [done|].
    by apply negb_true_iff, bool_decide_eq_false in H3. }
  apply negb_false_iff, bool_decide_eq_true in H3. apply wp_gets. cbn [session at_].
  apply wp_bind. unfold next_generation, wp at 1. cbv zeta. apply wp_modify, wp_modify, wp_modify, wp_ret. right.
  split; [done|]. eexists _, _, w, tr, rd. split; [reflexivity|]. split; [exact Hacc|]. split; [done|].
  split; [done|]. split; [|done]. split; [by destruct Hat|]. done.
Qed.

Lemma finish_spec pk ph g se out w tr : receiving pk (pk_received pk) ph se → accepts tr (Some (pk, ph)) →
  wp (OTAStagingFinish out) (λ r s, refused pk (out = false) g r.1 s ∨
    (out = true ∧ zlen (pk_received pk) = pk_size pk ∧ published pk g r.1 r.2 s)) (at_ g se w tr).
Proof using Hcomplete Htyped.
  intros Hrc Hacc. pose proof Hrc as [Hat Hst Hct Hbd Hby Hhd Hsg Hph]. pose proof Hat as [Hex Hrange _ _ _ _ _ Hcb].
  unfold OTAStagingFinish. apply wp_gets. cbn [session at_]. rewrite Hst. apply wp_false; [done|].
  destruct out; cbn [negb].
  2: { apply wp_bind, wp_fail, wp_ret. left. split; [done|]. eexists _, w, tr, _. split; [reflexivity|]. split; [exact Hacc|by right]. }
  apply wp_gets, wp_gets, wp_gets. cbn [session at_]. rewrite Hct, Hex.
  apply wp_if; intros Hinc.
  { apply wp_bind, wp_fail, wp_ret. left. eapply refused_intro; [done|exact Hacc|]. cbn. intros Heq.
    rewrite Heq, Z.eqb_refl in Hinc. cbn [negb orb] in Hinc. destruct Hph as [(? & _)|[H384 [Hau Hv _ Hlen Hp]]]; [lia|].
    destruct (valid_length pk _ Hv Hrange) as [Hpl Hpl'].
    assert (zlen (zdrop 384 (pk_received pk)) = pk_length pk) as Hz by (rewrite zlen_drop; lia).
    destruct Hp as [(_ & _ & _ & ? & _)|(_ & _ & [_ _ _ Hw] & _)]; [lia|].
    rewrite Hau, Hlen, Hw, Hz, Z.eqb_refl in Hinc. done. }
  rewrite !orb_false_iff, !negb_false_iff, !Z.eqb_eq in Hinc. destruct Hinc as [[Hrl Hau] Hwr].
  destruct Hph as [(? & _)|[H384 [_ Hv Hkm Hlen Hp]]]; [lia|].
  destruct (valid_length pk _ Hv Hrange) as [Hpl Hpl'].
  assert (zlen (pk_payload pk) = pk_length pk) as Hz by (unfold pk_payload; rewrite zlen_drop; lia).
  fold (pk_payload pk) in Hp. destruct Hp as [(_ & _ & _ & ? & _)|(_ & -> & Hps & _)]; [lia|].
  assert (header se = pk_header pk) as Hh. { rewrite Hhd. apply pad_full, zlen_take. lia. }
  eapply wp_cancelled; [exact Hcb| |]; intros w1; cbv beta iota.
  { apply wp_bind, wp_fail, wp_ret. left. eapply refused_intro; [done|by eapply accepts_cons; [exact Hacc|constructor]|by eexists]. }
  apply wp_modify, wp_gets. cbn [session at_ upd]. set (se1 := set_state OTA_STATE_VERIFYING se).
  match goal with |- wp ?m ?Q _ => change (wp m Q (at_ g se1 w1 tr)) end.
  destruct Hps as [Hsha Hcrc _ _].
  destruct (sha256Finish_spec (payloadSha se1) (pk_payload pk) (zeros 32) Hsha ltac:(reflexivity)) as (c' & Hfin).
  eapply wp_lift; [exact Hfin|]. cbv iota beta. apply wp_gets. cbn [session at_].
  assert (md_sha256 (metadata se1) = pk_digest pk) as -> by (destruct Hv as [_ []]; cbn; tauto).
  apply wp_if; intros H1.
  { apply wp_bind, wp_fail, wp_ret. left. eapply refused_intro; [done|exact Hacc|]. split; [done|].
    by apply negb_true_iff, bool_decide_eq_false in H1. }
  apply negb_false_iff, bool_decide_eq_true in H1.
  assert (attached pk se1) as Hat1 by (by destruct Hat; constructor).
  apply wp_bind. rewrite (set_verified_id se1).
  eapply wp_mono.
  { apply (read_loop_spec pk (pk_admission pk) g se1 Hlen Hpl Hcb (Z.to_nat (payloadSize se)) []
      (mkReadBack (sha256Init zero_sha) 0 (zeros 512) (zeros 256)) (payloadVerified (status se1))
      (Staging (pk_length pk) (pk_payload pk)) w1 tr); try done.
    - change (zlen (@nil Z)) with 0. lia.
    - change (zlen (@nil Z)) with 0. lia.
    - by left.
    - constructor; cbn; try done; [by apply sha_of_init|split; [done|apply zeros_bytes]].
    - right. by split_and!. }
  cbv beta. intros [e|l] s.
  - intros Hf. apply wp_bind. eapply refused_call_failed; [exact Hf|]. intros s' Hr _. apply wp_ret. left. exact Hr.
  - intros (v & w' & tr' & rd & -> & Hrd & Hl & Hacc'). eapply wp_mono; [apply (publish_spec pk g _ l rd); try done|].
    + by destruct Hat1; constructor.
    + lia.
    + cbv beta. intros r s [H'|H']; [left|right; split_and!; [done|lia|done]]. eapply refused_weaken; [|exact H']. done.
Qed.

(** ** OTAStagingActivate *)
Lemma persist_spec t g se w tr :
  wp (persist t) (λ ok s, ∃ w evs, s = at_ g se w (evs ++ tr) ∧ persisted t ok evs) (at_ g se w tr).
Proof using Hcomplete.
  unfold persist. apply wp_clock. intros c1 w1. apply wp_boot_write. intros _ w2.
  apply wp_elapsed; intros c2 w3 H2; apply wp_clock; intros c3 w4; apply wp_boot_persisted; intros r t' w5; cbv beta iota;
    apply wp_elapsed; intros c4 w6 H4; apply wp_ret;
    exists w6, [Clock c4; BootPersisted r t'; Clock c3; Clock c2; BootWritten t; Clock c1]; (split; [reflexivity|]);
    exists c1, c2, c3, c4, r, t'; (split; [done|]);
    rewrite !andb_true_iff, Z.eqb_eq, bool_decide_eq_true; cbn [negb]; intuition (congruence || lia).
Qed.

Lemma accepts_persist t ok evs tr σ σ' σ1 σ2 : persisted t ok evs → accepts tr σ → step σ (BootWritten t) σ' →
  (∀ r t', step σ' (BootPersisted r t') σ1) → step σ' (BootPersisted 0 t) σ2 → accepts (evs ++ tr) (if ok then σ2 else σ1).
Proof using.
  intros (c1 & c2 & c3 & c4 & r & t' & -> & Hok) Ha H1 H2 H3. cbn [app].
  apply accepts_clock. assert (accepts (Clock c3 :: Clock c2 :: BootWritten t :: Clock c1 :: tr) σ') as Ha'.
  { do 2 apply accepts_clock. eapply accepts_cons; [by apply accepts_clock|exact H1]. }
  eapply accepts_cons; [exact Ha'|]. destruct ok; [|done]. destruct (proj1 Hok eq_refl) as (_ & -> & _ & ->). done.
Qed.

(** The state OTAStagingActivate leaves with the result [e]. *)
Definition activate_leaves (e : OTAStagingError) se : Prop :=
  if bool_decide (e = OTA_OK) then st_state (status se) = OTA_STATE_ACTIVATED
  else lastError (status se) = e ∧ st_state (status se) = OTA_STATE_FAILED.

Lemma activate_spec pk rd g se w tr gen sha : accepts tr (Some (pk, Checking rd)) → read_back_ok pk rd → ready_for pk rd se →
  st_state (status se) = OTA_STATE_READY → (∀ m, sha = Some m → 32 ≤ zlen m) →
  wp (OTAStagingActivate gen sha)
    (λ e s,
       (e = OTA_ERROR_INVALID_ARGUMENT ∧ s = at_ g se w tr ∧
        ¬ (gen ≠ 0 ∧ gen = sessionGeneration (ready se) ∧ ∃ m, sha = Some m ∧ field m 0 32 = pk_digest pk)) ∨
       ((gen ≠ 0 ∧ gen = sessionGeneration (ready se) ∧ ∃ m, sha = Some m ∧ field m 0 32 = pk_digest pk) ∧
        ∃ se' w' evs σ, s = at_ g se' w' (evs ++ tr) ∧ accepts (evs ++ tr) σ ∧ settled σ se' ∧
          activation (candidate_table pk rd) e evs ∧ sessionGeneration (ready se') = 0 ∧
          activate_leaves e se'))
    (at_ g se w tr).
Proof using Hcomplete.
  intros Hacc Hok Hrdy Hst Hsha. pose proof Hrdy as (Hat & Hp & Hcrc & Hdig).
  unfold OTAStagingActivate. apply wp_gets. cbn [session at_]. rewrite Hst. apply wp_false; [done|]. apply wp_gets. cbn [session at_].
  destruct sha as [m|]; [|apply wp_ret; left; split_and!; [done..|]; intros (_ & _ & m & ? & _); done].
  specialize (Hsha m eq_refl). apply wp_if; intros Hg.
  { apply wp_ret. left. split_and!; [done..|]. rewrite orb_true_iff, negb_true_iff, Z.eqb_eq, Z.eqb_neq in Hg. intuition congruence. }
  rewrite orb_false_iff, negb_false_iff, Z.eqb_neq, Z.eqb_eq in Hg. destruct Hg as [Hg0 Hg].
  eapply wp_lift; [by apply rd_bytes_field|]. change OTA_SHA256_SIZE with 32. rewrite Hdig.
  apply wp_if; intros Hm.
  { apply wp_ret. left. split_and!; [done..|]. apply negb_true_iff, bool_decide_eq_false in Hm. intros (_ & _ & m' & ? & ?). by simplify_eq. }
  apply negb_false_iff, bool_decide_eq_true in Hm.
  set (se1 := clear_generation (set_state OTA_STATE_ACTIVATING se)).
  apply wp_modify, wp_modify. match goal with |- wp ?m ?Q _ => change (wp m Q (at_ g se1 w tr)) end.
  apply wp_clock. intros a w1. apply wp_boot_read. intros r previous w2. cbv beta iota.
  pose proof (accepts_cons _ _ _ _ (accepts_clock _ _ a Hacc) (step_boot_read pk rd r previous Hok)) as Hacc1.
  assert (∀ e σ evs w', accepts (evs ++ tr) σ → activation (candidate_table pk rd) e evs → e ≠ OTA_OK → e ≠ OTA_ERROR_CANCELLED →
    ∃ se' w0 evs0 σ, at_ g (failed_session e se1) w' (evs ++ tr) = at_ g se' w0 (evs0 ++ tr) ∧ accepts (evs0 ++ tr) σ ∧ settled σ se' ∧
          activation (candidate_table pk rd) e evs0 ∧ sessionGeneration (ready se') = 0 ∧
          activate_leaves e se') as Hfail.
  { intros e σ evs w' Ha Hact H0 Hc. exists (failed_session e se1), w', evs, σ. split_and!; try done; [apply failed_settled|].
    unfold activate_leaves. rewrite (bool_decide_eq_false_2 (e = OTA_OK)) by done. cbn. by rewrite bool_decide_eq_false_2. }
  destruct (Z.eqb_spec r 0) as [->|Hr].
  2: { apply wp_bind, wp_ret. cbv iota. apply wp_fail. right. split; [by split_and!; [..|exists m]|].
       eapply (Hfail _ _ [BootRead r previous; Clock a]); [exact Hacc1|by constructor|done..]. }
  apply wp_elapsed; intros b w3 Hb; cbv iota.
  { apply wp_fail. right. split; [by split_and!; [..|exists m]|].
    eapply (Hfail _ _ [Clock b; BootRead 0 previous; Clock a]); [by apply accepts_clock|by constructor|done..]. }
  apply wp_gets, wp_gets. cbn [session at_ otaPartition payloadSize se1 clear_generation set_state set_ready set_status].
  rewrite (at_op _ _ Hat), Hp, Hcrc. cbv zeta. fold (candidate_table pk rd).
  apply (accepts_clock _ _ b) in Hacc1. cbn [Z.eqb] in Hacc1.
  apply wp_bind. eapply wp_mono; [apply (persist_spec (candidate_table pk rd) g se1)|]. cbv beta. intros ok s (w4 & evs & -> & Hper).
  assert (accepts (evs ++ Clock b :: BootRead 0 previous :: Clock a :: tr) (Some (pk, if ok then Activated else Restore previous))) as Hacc4.
  { pose proof (accepts_persist _ ok evs _ _ _ _ _ Hper Hacc1 (step_candidate pk rd previous) (step_refused pk _ previous)
      (step_activated pk _ previous)) as H. by destruct ok. }
  destruct ok.
  { apply wp_modify, wp_modify, wp_ret. right. split; [by split_and!; [..|exists m]|].
    eexists _, w4, (evs ++ [Clock b; BootRead 0 previous; Clock a]), _. rewrite <-app_assoc. split; [reflexivity|].
    split; [exact Hacc4|]. split; [by exists pk|]. split; [by constructor|done]. }
  apply wp_bind. eapply wp_mono; [apply (persist_spec previous g se1)|]. cbv beta. intros ok s (w5 & evs' & -> & Hper').
  pose proof (accepts_persist _ ok evs' _ _ _ _ _ Hper' Hacc4 (step_restore pk previous) (λ r t, step_restored pk r t)
    (step_restored pk 0 previous)) as Hacc5.
  apply wp_fail. right. split; [by split_and!; [..|exists m]|].
  pose proof (activation_restored (candidate_table pk rd) a b previous evs evs' ok Hper Hper') as Hact.
  replace (evs' ++ evs ++ Clock b :: BootRead 0 previous :: Clock a :: tr)
    with ((evs' ++ evs ++ [Clock b; BootRead 0 previous; Clock a]) ++ tr) in * by (by rewrite <-!app_assoc).
  eapply (Hfail _ _ _ w5 Hacc5); by destruct ok.
Qed.
End sim.

(** * The engine, from its first call on *)
Section engine.
Context {W : Type} (SIZE_MAX : Z) (Hsize : UINT32_MAX ≤ SIZE_MAX).
Context (dp : option (OTAStagingPlatformOperations W)).
Context (Hdp : ∀ p, dp = Some p → well_typed (calls p)).
Implicit Types (s : ota (traced_world W)).

(** Holds between any two calls. *)
Definition inv s : Prop :=
  ∃ σ, accepts (trace s) σ ∧
    ((platform s = None ∧ st_state (status (session s)) = OTA_STATE_IDLE ∧ σ = None) ∨
     ∃ p g se w tr, dp = Some p ∧ complete p = true ∧ s = at_ p g se w tr ∧ settled σ se).

Lemma inv_initial w : inv (initial_ota (w, [])).
Proof using. exists None. split; [constructor|by left]. Qed.

Lemma inv_settled p g se w tr σ : dp = Some p → complete p = true → accepts tr σ → settled σ se → inv (at_ p g se w tr).
Proof using. intros. exists σ. split; [done|]. right. by exists p, g, se, w, tr. Qed.

(** ** OTAStagingBegin *)
Definition key_ok (key : option (list Z)) (k : Z) : Prop :=
  k = 91 ∧ ∃ m, key = Some m ∧ field m 0 27 = PublicKeyPrefix.

Lemma validPublicKey_spec key k : (∀ m, key = Some m → k ≤ zlen m) →
  ∃ b, validPublicKey key k = Ok b ∧ (b = true ↔ key_ok key k).
Proof using.
  intros Hk. destruct key as [m|]; cbn [validPublicKey].
  2: { exists false. split; [done|]. split; [done|]. by intros (_ & m & ? & _). }
  specialize (Hk m eq_refl). unfold PublicKeyDerSize. destruct (Z.eqb_spec k 91) as [->|Hne]; cbn [negb].
  2: { exists false. split; [done|]. split; [done|]. by intros [? _]. }
  change (zlen PublicKeyPrefix) with 27. rewrite rd_bytes_field, bind_Ok by lia. eexists. split; [reflexivity|].
  rewrite bool_decide_eq_true. split; [by intros; split; [|exists m]|]. intros (_ & m' & ? & ?). by simplify_eq.
Qed.

(** Why a call of OTAStagingBegin is refused. *)
Definition begin_cause (n : Z) (key : option (list Z)) (k : Z) s (e : OTAStagingError) : Prop :=
  match e with
  | OTA_ERROR_BUSY => st_state (status (session s)) = OTA_STATE_RECEIVING
  | OTA_ERROR_KEY_FORMAT => ¬ key_ok key k
  | OTA_ERROR_PACKAGE_SIZE => key_ok key k ∧ (n < 385 ∨ UINT32_MAX < n)
  | OTA_ERROR_PARTITION =>
    ∀ p, dp = Some p → complete p = true →
      ∃ r ap w' r' op w'', getApplicationPartition (calls p) (mkPartition 0 0) (fst (world s)) = (r, ap, w') ∧
        (r ≠ 0 ∨ getOtaPartition (calls p) (mkPartition 0 0) w' = (r', op, w'') ∧
                 (r' ≠ 0 ∨ part_length ap = 0 ∨ part_length op = 0))
  | _ => False
  end.

Definition located (e : event) : Prop :=
  match e with ApplicationLocated _ _ | OtaLocated _ _ => True | _ => False end.

(** At most the platform was asked for its partitions. *)
Definition same_session s s' : Prop :=
  session s' = session s ∧ platform s' = platform s ∧ nextGeneration s' = nextGeneration s ∧
  ∃ evs, trace s' = evs ++ trace s ∧ Forall located evs.

Lemma same_session_refl s : same_session s s.
Proof using. split_and!; try done. by exists []. Qed.

Lemma accepts_located evs tr σ : Forall located evs → accepts tr σ → accepts (evs ++ tr) σ.
Proof using.
  intros He Ha. induction He as [|e evs He _ IH]; [done|]. cbn. eapply accepts_cons; [exact IH|].
  destruct e; try done; constructor.
Qed.

Lemma inv_same s s' : inv s → same_session s s' → inv s'.
Proof using.
  intros (σ & Ha & Hc) (H1 & H2 & H3 & evs & H4 & He). exists σ. rewrite H4. split; [by apply accepts_located|].
  destruct Hc as [(Hp & Hs & ->)|(p & g & se & w & tr & Hd & Hcm & -> & Hst)]; [left; by rewrite H1, H2|].
  right. destruct s' as [se' g' pl' [w' tr']]. cbn in H1, H2, H3. subst se' pl' g'. by exists p, g, se, w', tr'.
Qed.

Lemma begin_key m : 91 ≤ zlen m → bytes m → field m 0 27 = PublicKeyPrefix →
  zlen (field m 0 91) = 91 ∧ bytes (field m 0 91) ∧ field (field m 0 91) 0 27 = PublicKeyPrefix.
Proof using.
  intros Hl Hb Hp. split_and!; [apply zlen_field; lia|by apply field_bytes|]. rewrite <-Hp. unfold field. rewrite zdrop_0.
  unfold ztake. rewrite take_take. done.
Qed.

Lemma receiving_new key n ap op a c : zlen key = 91 → bytes key → 385 ≤ n ≤ UINT32_MAX →
  receiving (mkPackage key n ap op (bool_decide (is_Some a)) []) [] Open
    (new_session n key (traced_admission <$> a) (traced_cancellation <$> c) ap op : Session (traced_world W)).
Proof using.
  intros Hk Hb Hn. constructor; try done.
  - constructor; try done. split; [by exists a|by exists c].
  - cbn. change (zlen (@nil Z)) with 0. lia.
  - left. split; [done|]. split; [done|]. split; [done|]. split; [done|]. split; [done|]. split; [done|].
    constructor; try done. by apply (sha_of_init zero_sha).
Qed.

(** The partitions the platform reports. *)
Definition partitions (p : OTAStagingPlatformOperations W) (ap op : OTAStagingPartition) (w w' : W) : Prop :=
  ∃ w1, getApplicationPartition (calls p) (mkPartition 0 0) w = (0, ap, w1) ∧
        getOtaPartition (calls p) (mkPartition 0 0) w1 = (0, op, w').

Lemma begin_spec n key k a c s : inv s → (∀ m, key = Some m → k ≤ zlen m ∧ bytes m) →
  wp (run_call SIZE_MAX dp (Begin n key k a c))
    (λ e s', (e ≠ OTA_OK ∧ begin_cause n key k s e ∧ same_session s s') ∨
             (e = OTA_OK ∧ st_state (status (session s)) ≠ OTA_STATE_RECEIVING ∧ key_ok key k ∧
                ∃ p g w tr ap op m, dp = Some p ∧ complete p = true ∧ key = Some m ∧ partitions p ap op (fst (world s)) w ∧
                s' = at_ p g (new_session n (field m 0 91) (traced_admission <$> a) (traced_cancellation <$> c) ap op) w tr ∧
                accepts tr (Some (mkPackage (field m 0 91) n ap op (bool_decide (is_Some a)) [], Open)) ∧ 385 ≤ n ≤ UINT32_MAX ∧
                zlen (field m 0 91) = 91 ∧ bytes (field m 0 91))) s.
Proof using Hdp.
  intros Hinv Hkey. assert (Hinv' := Hinv). destruct Hinv' as (σ & Hacc & Hcase). cbn [run_call]. apply wp_bind.
  assert (∀ e s', begin_cause n key k s e → same_session s s' → e ≠ OTA_OK →
    wp (if bool_decide (e = OTA_OK) then
      _ ← log_begun (field (default [] key) 0 91) n (bool_decide (is_Some a)); mret e else mret e)
    (λ e s', (e ≠ OTA_OK ∧ begin_cause n key k s e ∧ same_session s s') ∨
             (e = OTA_OK ∧ st_state (status (session s)) ≠ OTA_STATE_RECEIVING ∧ key_ok key k ∧
                ∃ p g w tr ap op m, dp = Some p ∧ complete p = true ∧ key = Some m ∧ partitions p ap op (fst (world s)) w ∧
                s' = at_ p g (new_session n (field m 0 91) (traced_admission <$> a) (traced_cancellation <$> c) ap op) w tr ∧
                accepts tr (Some (mkPackage (field m 0 91) n ap op (bool_decide (is_Some a)) [], Open)) ∧ 385 ≤ n ≤ UINT32_MAX ∧
                zlen (field m 0 91) = 91 ∧ bytes (field m 0 91))) s') as Hno.
  { intros e s' Hc Hs He. rewrite bool_decide_eq_false_2 by done. apply wp_ret. by left. }
  unfold OTAStagingBegin, wp at 1.
  destruct (bool_decide_reflect (st_state (status (session s)) = OTA_STATE_RECEIVING ∨
                  st_state (status (session s)) = OTA_STATE_VERIFYING ∨ st_state (status (session s)) = OTA_STATE_ACTIVATING)) as [Hb|Hb].
  { apply Hno; [|apply same_session_refl|done]. destruct Hb as [?|[Hv|Hv]]; [done|exfalso..].
    all: destruct Hcase as [(_ & Hi & _)|(p & g & se & w & tr & _ & _ & -> & Hst)]; [congruence|].
    all: unfold settled in Hst; cbn in Hv; by rewrite Hv in Hst. }
  destruct (validPublicKey_spec key k) as (b & -> & Hbk); [intros m Hm; by destruct (Hkey m Hm)|]. rewrite bind_Ok.
  destruct b; cbn [negb]; [|apply Hno; [|apply same_session_refl|done]; intros H; by apply Hbk in H].
  destruct (proj1 Hbk eq_refl) as (-> & m & -> & Hpre). destruct (Hkey m eq_refl) as [Hml Hmb].
  destruct ((n <? OTA_PACKAGE_PAYLOAD_OFFSET + 1) || (UINT32_MAX <? n)) eqn:En.
  { apply Hno; [|apply same_session_refl|done]. rewrite orb_true_iff, !Z.ltb_lt in En. cbn. unfold OTA_PACKAGE_PAYLOAD_OFFSET in En.
    split; [by apply Hbk|lia]. }
  rewrite orb_false_iff, !Z.ltb_ge in En. unfold OTA_PACKAGE_PAYLOAD_OFFSET in En.
  assert (match platform s with Some p => Some p | None => traced <$> dp end = traced <$> dp) as Hsel.
  { destruct Hcase as [(-> & _)|(p & g & se & w & tr & -> & _ & -> & _)]; done. }
  replace (match platform s with None => traced <$> dp | p => p end) with (traced <$> dp) by (by rewrite <-Hsel; destruct (platform s)).
  destruct dp as [p|] eqn:Edp; cbn [fmap option_fmap option_map].
  2: { apply Hno; [|apply same_session_refl|done]. intros p' Hp' _. exfalso. congruence. }
  cbn [traced complete calls]. destruct (complete p) eqn:Ec; cbn [negb].
  2: { apply Hno; [|apply same_session_refl|done]. intros p' Hp' ?. exfalso. congruence. }
  destruct (world s) as [w tr] eqn:Ew. cbn [getApplicationPartition traced_calls]. unfold logged at 1.
  destruct (getApplicationPartition (calls p) (mkPartition 0 0) w) as [[r ap] w1] eqn:E1. cbv iota beta.
  destruct (Z.eqb_spec r 0) as [->|Hr]; cbn [negb].
  2: { apply Hno; [| |done].
       - intros p' Hp' _. rewrite Edp in Hp'. simplify_eq. exists r, ap, w1, 0, ap, w1. rewrite Ew. split; [done|by left].
       - unfold same_session, trace. rewrite Ew. split_and!; try done. exists [ApplicationLocated r ap]. split; [done|by repeat constructor]. }
  cbn [getOtaPartition traced_calls]. unfold logged.
  destruct (getOtaPartition (calls p) (mkPartition 0 0) w1) as [[r op] w2] eqn:E2. cbv iota beta.
  destruct (negb (r =? 0) || (part_length ap =? 0) || (part_length op =? 0)) eqn:El.
  { apply Hno; [| |done].
    - intros p' Hp' _. rewrite Edp in Hp'. simplify_eq. exists 0, ap, w1, r, op, w2. rewrite Ew. split; [done|]. right. split; [done|].
      rewrite !orb_true_iff, negb_true_iff, !Z.eqb_eq, Z.eqb_neq in El. tauto.
    - unfold same_session, trace. rewrite Ew. split_and!; try done. exists [OtaLocated r op; ApplicationLocated 0 ap].
      split; [done|by repeat constructor]. }
  rewrite !orb_false_iff, negb_false_iff, !Z.eqb_neq, Z.eqb_eq in El. destruct El as [[-> Ha0] Ho0].
  cbn [deref]. rewrite bind_Ok. rewrite rd_bytes_field, bind_Ok by (unfold PublicKeyDerSize; lia).
  change PublicKeyDerSize with 91. rewrite bool_decide_eq_true_2 by done.
  destruct (begin_key m ltac:(lia) Hmb Hpre) as (Hkl & Hkb & Hkp).
  apply wp_bind. unfold log_begun, wp at 1. cbn [world reported default]. apply wp_ret. right. split; [done|].
  split; [tauto|]. split; [split; [done|by exists m]|].
  eexists p, _, w2, _, ap, op, m. split; [done|]. split; [done|]. split; [done|]. split; [by exists w1|]. split; [reflexivity|].
  split; [|split_and!; [lia|lia|done|done]]. unfold trace in Hacc. rewrite Ew in Hacc.
  eapply accepts_cons; [|by apply step_begun; [| |lia| |]].
  apply (accepts_located [OtaLocated 0 op; ApplicationLocated 0 ap] tr σ); [by repeat constructor|exact Hacc].
Qed.

(** ** Every call keeps the invariant *)

(** The session stopped with the error [e]. *)
Definition stopped_with (e : OTAStagingError) s : Prop :=
  lastError (status (session s)) = e ∧ sessionGeneration (ready (session s)) = 0 ∧
  st_state (status (session s)) = if bool_decide (e = OTA_ERROR_CANCELLED) then OTA_STATE_CANCELLED else OTA_STATE_FAILED.

(** The arguments of OTAStagingActivate are those of the image that is ready. *)
Definition authorized pk (generation : Z) (sha : option (list Z)) s : Prop :=
  generation ≠ 0 ∧ generation = sessionGeneration (ready (session s)) ∧ ∃ m, sha = Some m ∧ field m 0 32 = pk_digest pk.

(** What the error of a call says; [pk] is the package of the session, with the
    bytes the call offers. *)
Definition means s (c : command W) (e : OTAStagingError) s' : Prop :=
  match c with
  | Begin n key k _ _ => begin_cause n key k s e ∧ session s' = session s
  | Write data n =>
    (e = OTA_ERROR_INVALID_STATE ∧ st_state (status (session s)) ≠ OTA_STATE_RECEIVING ∧ s' = s) ∨
    (e = OTA_ERROR_INVALID_ARGUMENT ∧ data = None ∧ 0 < n ∧ stopped_with e s') ∨
    ∃ pk ph ph', accepts (trace s) (Some (pk, ph)) ∧ let pk := pk_offer (ztake n (default [] data)) pk in
      accepts (trace s') (Some (pk, ph')) ∧ cause pk (trace s') e ∧ e ≠ OTA_ERROR_INCOMPLETE ∧ stopped_with e s'
  | Finish out =>
    (e = OTA_ERROR_INVALID_STATE ∧ st_state (status (session s)) ≠ OTA_STATE_RECEIVING ∧ s' = s) ∨
    (e = OTA_ERROR_INVALID_ARGUMENT ∧ out = false ∧ stopped_with e s') ∨
    ∃ pk ph ph', accepts (trace s) (Some (pk, ph)) ∧ accepts (trace s') (Some (pk, ph')) ∧ cause pk (trace s') e ∧ stopped_with e s'
  | Activate generation sha =>
    (e = OTA_ERROR_INVALID_STATE ∧ st_state (status (session s)) ≠ OTA_STATE_READY ∧ s' = s) ∨
    (e = OTA_ERROR_INVALID_ARGUMENT ∧ s' = s ∧ ∃ pk rd, accepts (trace s) (Some (pk, Checking rd)) ∧ ¬ authorized pk generation sha s) ∨
    ∃ pk rd evs, accepts (trace s) (Some (pk, Checking rd)) ∧ authorized pk generation sha s ∧
      trace s' = evs ++ trace s ∧ activation (candidate_table pk rd) e evs ∧ stopped_with e s'
  | Abort =>
    e = OTA_ERROR_INVALID_STATE ∧ st_state (status (session s)) ≠ OTA_STATE_RECEIVING ∧
    st_state (status (session s)) ≠ OTA_STATE_READY ∧ s' = s
  end.

Lemma inv_state s : inv s → st_state (status (session s)) ≠ OTA_STATE_IDLE →
  ∃ p g se w tr σ, dp = Some p ∧ complete p = true ∧ s = at_ p g se w tr ∧ accepts tr σ ∧ settled σ se.
Proof using.
  intros (σ & Ha & [(_ & ? & _)|(p & g & se & w & tr & Hd & Hc & -> & Hs)]) Hn; [done|]. by exists p, g, se, w, tr, σ.
Qed.

(** The image that is published: [generation] is the number OTAStagingActivate
    expects. *)
Definition publishes pk (generation : Z) (i : OTAStagedImageInfo) : Prop :=
  sessionGeneration i = generation ∧ info_payloadSize i = pk_length pk ∧ info_crc16 i = crc16 (pk_payload pk) ∧
  info_sha256 i = pk_digest pk ∧ pk_valid pk (info_metadata i).

(** What a successful call requires and leaves. *)
Definition effect s (c : command W) s' : Prop :=
  let st := st_state (status (session s')) in
  match c with
  | Begin n key k a _ =>
    st_state (status (session s)) ≠ OTA_STATE_RECEIVING ∧ key_ok key k ∧ 385 ≤ n ≤ UINT32_MAX ∧
    st = OTA_STATE_RECEIVING ∧ ∃ p m ap op w', dp = Some p ∧ key = Some m ∧ partitions p ap op (fst (world s)) w' ∧
      accepts (trace s') (Some (mkPackage (field m 0 91) n ap op (bool_decide (is_Some a)) [], Open))
  | Write data n =>
    st_state (status (session s)) = OTA_STATE_RECEIVING ∧ st = OTA_STATE_RECEIVING ∧
    ∃ pk ph ph', accepts (trace s) (Some (pk, ph)) ∧ let pk := pk_offer (ztake n (default [] data)) pk in
      accepts (trace s') (Some (pk, ph')) ∧ packageReceived (status (session s')) = zlen (pk_received pk)
  | Finish out =>
    st_state (status (session s)) = OTA_STATE_RECEIVING ∧ out = true ∧ st = OTA_STATE_READY ∧
    ∃ pk ph rd, accepts (trace s) (Some (pk, ph)) ∧ accepts (trace s') (Some (pk, Checking rd)) ∧ read_back_ok pk rd ∧
      zlen (pk_received pk) = pk_size pk ∧
      OTAStagingFinish out s = Ok ((OTA_OK, Some (ready (session s'))), s') ∧ publishes pk (nextGeneration s) (ready (session s'))
  | Activate generation sha =>
    st_state (status (session s)) = OTA_STATE_READY ∧ st = OTA_STATE_ACTIVATED ∧
    ∃ pk rd evs, accepts (trace s) (Some (pk, Checking rd)) ∧ read_back_ok pk rd ∧ authorized pk generation sha s ∧
      trace s' = evs ++ trace s ∧ activation (candidate_table pk rd) OTA_OK evs
  | Abort =>
    (st_state (status (session s)) = OTA_STATE_RECEIVING ∨ st_state (status (session s)) = OTA_STATE_READY) ∧
    stopped_with OTA_ERROR_CANCELLED s' ∧ trace s' = trace s
  end.

Definition kept s (c : command W) (e : OTAStagingError) s' : Prop :=
  inv s' ∧ (e ≠ OTA_OK → means s c e s') ∧ (e = OTA_OK → effect s c s').

Lemma kept_same s c e : inv s → e ≠ OTA_OK → means s c e s → kept s c e s.
Proof using. by split. Qed.

Lemma run_begin n key k a c s : inv s → valid_command SIZE_MAX (Begin n key k a c) →
  wp (run_call SIZE_MAX dp (Begin n key k a c)) (kept s (Begin n key k a c)) s.
Proof using Hdp.
  intros Hinv [_ Hv]. eapply wp_mono; [apply begin_spec; [done|]|].
  - intros m ->. done.
  - cbv beta. intros e s' [(He & Hc & Hs)|(-> & Hnr & Hk & p & g & w & tr & ap & op & m & Hd & Hcm & -> & Hpt & -> & Ha & Hn & Hl & Hb)].
    + split; [by eapply inv_same|]. split; [|done]. intros _. split; [done|apply Hs].
    + split; [|split; [done|]; intros _; split; [exact Hnr|]; split; [exact Hk|]; split; [exact Hn|]; split; [done|]; by exists p, m, ap, op, w].
      eapply inv_settled; try done. cbn. eexists _, _. split; [reflexivity|]. by apply receiving_new.
Qed.

Lemma settled_receiving σ (se : Session (traced_world W)) : settled σ se → st_state (status se) = OTA_STATE_RECEIVING →
  ∃ pk ph, σ = Some (pk, ph) ∧ receiving pk (pk_received pk) ph se.
Proof using. unfold settled. intros H Hst. by rewrite Hst in H. Qed.

Lemma receiving_settled pk ph (se : Session (traced_world W)) : receiving pk (pk_received pk) ph se → settled (Some (pk, ph)) se.
Proof using. intros H. unfold settled. rewrite (rc_state _ _ _ _ H). by exists pk, ph. Qed.

Lemma refused_inv p pk null g e s' : dp = Some p → complete p = true → refused p pk null g e s' → inv s'.
Proof using. intros Hd Hc (_ & se & w & tr & ph & -> & Ha & _). eapply inv_settled; [done..|]. apply failed_settled. Qed.

Lemma refused_stopped p pk null g e s' : refused p pk null g e s' → stopped_with e s' ∧
  ∃ ph, accepts (trace s') (Some (pk, ph)) ∧ (cause pk (trace s') e ∨ e = OTA_ERROR_INVALID_ARGUMENT ∧ null).
Proof using. intros (_ & se & w & tr & ph & -> & Ha & H). split; [done|]. by exists ph. Qed.

Lemma run_write data n s : inv s → valid_command (W:=W) SIZE_MAX (Write data n) →
  wp (run_call SIZE_MAX dp (Write data n)) (kept s (Write data n)) s.
Proof using Hdp Hsize.
  intros Hinv [Hn Hv]. cbn [run_call]. apply wp_gets.
  destruct (decide (st_state (status (session s)) = OTA_STATE_RECEIVING)) as [Hst|Hst].
  - rewrite bool_decide_eq_true_2 by done. destruct (inv_state s Hinv) as (p & g & se & w & tr & σ & Hd & Hc & -> & Ha & Hs);
      [by rewrite Hst|]. cbn in Hst. destruct (settled_receiving _ _ Hs Hst) as (pk & ph & -> & Hrc).
    apply wp_bind. unfold log, wp at 1. cbn [world at_].
    eapply wp_mono; [apply (write_package_spec p Hc SIZE_MAX Hsize pk ph g se w tr data n); try done|].
    + intros d ->. done.
    + cbv beta. intros e s' [[Hr Hni]|(-> & se' & w' & tr' & ph' & -> & Ha' & Hrc')].
      * split; [by eapply refused_inv|]. split; [|by destruct Hr].
        intros He. destruct (refused_stopped _ _ _ _ _ _ Hr) as (Hsw & ph' & Ha' & [Hcs|[-> [-> ?]]]); right;
          [right; by exists pk, ph, ph'|by left].
      * split; [|split; [done|]; intros _; split; [exact Hst|]; split; [exact (rc_state _ _ _ _ Hrc')|]].
        -- eapply inv_settled; try done. by apply receiving_settled.
        -- exists pk, ph, ph'. split; [exact Ha|]. split; [exact Ha'|]. exact (rc_count _ _ _ _ Hrc').
  - rewrite bool_decide_eq_false_2 by done. unfold OTAStagingWritePackage. apply wp_bind, wp_ret, wp_gets. apply wp_true.
    { by rewrite bool_decide_eq_false_2. }
    apply wp_ret. apply kept_same; [done..|]. by left.
Qed.

Lemma run_finish out s : inv s → wp (run_call SIZE_MAX dp (Finish out)) (kept s (Finish out)) s.
Proof using Hdp Hsize.
  intros Hinv. cbn [run_call]. apply wp_bind.
  destruct (decide (st_state (status (session s)) = OTA_STATE_RECEIVING)) as [Hst|Hst].
  - destruct (inv_state s Hinv) as (p & g & se & w & tr & σ & Hd & Hc & -> & Ha & Hs);
      [by rewrite Hst|]. cbn in Hst. destruct (settled_receiving _ _ Hs Hst) as (pk & ph & -> & Hrc).
    destruct (wp_inv _ _ _ (finish_spec p Hc (Hdp _ Hd) pk ph g se out w tr Hrc Ha)) as ([e i] & s' & E & H).
    apply (wp_run _ _ _ _ _ E). cbn [fst snd] in H. destruct H as [Hr|(Hout & Hz & Hpub)]; apply wp_ret.
    + split; [by eapply refused_inv|]. split; [|by destruct Hr].
      intros He. destruct (refused_stopped _ _ _ _ _ _ Hr) as (Hsw & ph' & Ha' & [Hcs|[He' ->]]); right;
        [right; by exists pk, ph, ph'|by left].
    + destruct Hpub as (-> & g' & se' & w' & tr' & rd & -> & Ha' & Hok & Hst' & Hrdy & -> & Hps & Hpv & Hg).
      split; [eapply inv_settled; try done; unfold settled; rewrite Hst'; by exists pk, rd|]. split; [done|]. intros _.
      split; [exact Hst|]. split; [exact Hout|]. split; [exact Hst'|]. exists pk, ph, rd. split_and!; try done.
      destruct Hrdy as (_ & _ & Hcrc & Hsha). destruct Hok as (_ & _ & Hcr & _). cbn. split_and!; try done. by rewrite Hcrc.
  - unfold OTAStagingFinish. apply wp_gets. apply wp_true; [by rewrite bool_decide_eq_false_2|].
    apply wp_ret, wp_ret. apply kept_same; [done..|]. by left.
Qed.

Lemma run_activate gen sha s : inv s → valid_command (W:=W) SIZE_MAX (Activate gen sha) →
  wp (run_call SIZE_MAX dp (Activate gen sha)) (kept s (Activate gen sha)) s.
Proof using Hdp.
  intros Hinv Hv. cbn [run_call].
  destruct (decide (st_state (status (session s)) = OTA_STATE_READY)) as [Hst|Hst].
  - destruct (inv_state s Hinv) as (p & g & se & w & tr & σ & Hd & Hc & -> & Ha & Hs);
      [by rewrite Hst|]. cbn in Hst. assert (Hs0 := Hs). unfold settled in Hs0. rewrite Hst in Hs0. destruct Hs0 as (pk & rd & -> & Hok & Hrdy).
    eapply wp_mono; [apply (activate_spec p Hc pk rd g se w tr gen sha); try done|].
    + by intros m ->.
    + cbv beta. intros e s' [(-> & -> & Hna)|(Hau & se' & w' & evs & σ & -> & Ha' & Hs' & Hact & Hg & Hst')].
      * split; [done|]. split; [|done]. intros _. right. left. split; [done|]. split; [done|]. by exists pk, rd.
      * split; [by eapply inv_settled|]. split.
        -- intros He. right. right. unfold activate_leaves in Hst'. rewrite bool_decide_eq_false_2 in Hst' by done. destruct Hst' as [Hl Hst'].
           exists pk, rd, evs. split_and!; try done. unfold stopped_with. cbn. split; [done|]. split; [done|].
           rewrite bool_decide_eq_false_2; [done|]. intros ->. inversion Hact. by case_match.
        -- intros ->. split; [exact Hst|]. split; [exact Hst'|]. by exists pk, rd, evs.
  - unfold OTAStagingActivate. apply wp_gets, wp_true; [by rewrite bool_decide_eq_false_2|]. apply wp_ret.
    apply kept_same; [done..|]. by left.
Qed.

Lemma run_abort s : inv s → wp (run_call SIZE_MAX dp Abort) (kept s Abort) s.
Proof using.
  intros Hinv. cbn [run_call]. unfold OTAStagingAbort. apply wp_gets. apply wp_if; intros Hc.
  - apply wp_ret. apply kept_same; [done..|]. rewrite !andb_true_iff, !negb_true_iff, !bool_decide_eq_false in Hc. cbn. tauto.
  - destruct (inv_state s Hinv) as (p & g & se & w & tr & σ & Hd & Hcm & -> & Ha & Hs).
    { intros Hi. cbn in Hi. by rewrite Hi in Hc. }
    apply wp_modify, wp_modify, wp_modify, wp_ret. split; [|split; [done|]; intros _; split; [|done]].
    2: { cbn in Hc |- *. unfold settled in Hs. destruct (st_state (status se)); try done; [by left|by right]. }
    eapply (inv_settled p g (set_lastError OTA_ERROR_CANCELLED (set_state OTA_STATE_CANCELLED (clear_generation se))) w tr σ); done.
Qed.

Lemma run_call_spec c s : inv s → valid_command SIZE_MAX c → wp (run_call SIZE_MAX dp c) (kept s c) s.
Proof using Hdp Hsize.
  intros Hi Hv. destruct c; [by apply run_begin|by apply run_write|by apply run_finish|by apply run_activate|by apply run_abort].
Qed.

(** The state the caller observes is one the specification allows. *)
Lemma inv_observable s : inv s → ∃ σ, accepts (trace s) σ ∧ observable σ (st_state (status (session s))) ∧
  ∀ w, inv (put_world (w, Observed (st_state (status (session s))) :: trace s) s).
Proof using.
  intros (σ & Ha & Hc). exists σ. split; [done|].
  assert (observable σ (st_state (status (session s)))) as Ho.
  { destruct Hc as [(_ & -> & ->)|(p & g & se & w & tr & _ & _ & -> & Hs)]; [done|]. unfold settled in Hs. cbn.
    destruct (st_state (status se)); try done.
    - destruct Hs as (pk & ph & -> & Hrc). exists pk, ph. split; [done|].
      destruct (rc_phase _ _ _ _ Hrc) as [(_ & -> & _)|[_ [_ _ _ _ [(_ & -> & _)|(_ & -> & _)]]]]; [by left|right..]; by eexists _, _.
    - destruct Hs as (pk & rd & -> & Hok & _). by exists pk, rd. }
  split; [done|]. intros w0. exists σ. split; [by eapply accepts_cons; [exact Ha|constructor]|].
  destruct Hc as [(Hp & Hs & ->)|(p & g & se & w & tr & Hd & Hcm & -> & Hst)]; [by left|].
  right. by exists p, g, se, w0, (Observed (st_state (status se)) :: tr).
Qed.

Lemma run_spec c s : inv s → valid_command SIZE_MAX c → wp (run SIZE_MAX dp c) (λ _ s, inv s) s.
Proof using Hdp Hsize.
  intros Hi Hv. unfold run. apply wp_bind. eapply wp_mono; [by apply run_call_spec|]. cbv beta.
  intros e s' [Hi' _]. apply wp_gets, wp_bind. unfold log, wp at 1. destruct (inv_observable s' Hi') as (_ & _ & _ & H).
  unfold trace in H. destruct (world s') as [w tr]. apply wp_ret, H.
Qed.

Lemma run_all_spec cs : ∀ s, inv s → Forall (valid_command SIZE_MAX) cs →
  wp (run_all SIZE_MAX dp cs) (λ es s, inv s ∧ length es = length cs) s.
Proof using Hdp Hsize.
  induction cs as [|c cs IH]; intros s Hi Hv; [by apply wp_ret|]. apply Forall_cons in Hv as [Hc Hv].
  cbn [run_all]. apply wp_bind. eapply wp_mono; [by apply run_spec|]. cbv beta. intros e s' Hi'. apply wp_bind.
  eapply wp_mono; [by apply IH|]. cbv beta. intros es s2 [Hi2 Hl]. apply wp_ret. split; [done|]. cbn. by rewrite Hl.
Qed.
End engine.
