(* ===== verification/OtaComplete.v ===== *)
(** What the engine achieves on a working platform: however a good package is cut
    into chunks, every call on it succeeds ([good_begin], [good_writes],
    [good_finish]). [lawful] says when Flash and the clock of a platform work,
    [content] what Flash then holds in each phase of the specification. *)
From S2P Require Export OtaSim.

Definition erased_flash (n : Z) : list Z := replicate (Z.to_nat n) 255.

(** A platform whose Flash and clock work: [flash] is the contents of the OTA
    partition, [clock] the time in milliseconds. Erasing may touch what follows
    the range (a sector); writing is only granted on erased bytes. *)
Record lawful {W} (p : platform_calls W) (ap op : OTAStagingPartition) (flash : W → list Z) (clock : W → Z) : Prop := {
  lw_size w : part_length op ≤ zlen (flash w);
  lw_application x w : ∃ w', getApplicationPartition p x w = (0, ap, w') ∧ flash w' = flash w ∧ clock w' = clock w;
  lw_ota x w : ∃ w', getOtaPartition p x w = (0, op, w') ∧ flash w' = flash w ∧ clock w' = clock w;
  lw_time w : ∃ w', timeMs p w = (u32 (clock w), w') ∧ flash w' = flash w ∧ clock w' = clock w;
  lw_erase o n w r w' : eraseOta p o n w = (r, w') →
    clock w ≤ clock w' ≤ clock w + OTA_STAGING_FLASH_OPERATION_MAX_MS ∧
    (0 ≤ o → 0 ≤ n → o + n ≤ part_length op →
     r = 0 ∧ ztake o (flash w') = ztake o (flash w) ∧ field (flash w') o n = erased_flash n);
  lw_write o bs w r next w' : writeOta p o bs w = (r, next, w') →
    clock w ≤ clock w' ≤ clock w + OTA_STAGING_FLASH_OPERATION_MAX_MS ∧
    (bytes bs → 0 ≤ o → o + zlen bs ≤ part_length op → field (flash w) o (zlen bs) = erased_flash (zlen bs) →
     r = 0 ∧ next = o + zlen bs ∧ flash w' = splice (flash w) o bs);
  lw_read o b n w r next b' w' : readOta p o b n w = (r, next, b', w') →
    clock w ≤ clock w' ≤ clock w + OTA_STAGING_FLASH_OPERATION_MAX_MS ∧ flash w' = flash w ∧ zlen b' = zlen b ∧
    (0 ≤ o → 0 ≤ n ≤ zlen b → o + n ≤ part_length op → r = 0 ∧ next = o + n ∧ ztake n b' = field (flash w) o n);
  lw_verify k n d g w : let w' := snd (verifySignature p k n d g w) in
    flash w' = flash w ∧ clock w ≤ clock w' ≤ clock w + OTA_STAGING_SIGNATURE_MAX_MS }.

(** Another chunk is appended to what is received; the last package has all of them. *)
Definition part_of (whole pk : package) : Prop := ∃ bs, whole = pk_offer bs pk.

Lemma part_of_header whole pk : part_of whole pk → 384 ≤ zlen (pk_received pk) →
  pk_header pk = pk_header whole ∧ pk_signature pk = pk_signature whole.
Proof.
  intros [bs ->] Hl. split; [by rewrite header_offer|]. unfold pk_signature. cbn. by rewrite field_app by lia.
Qed.

Lemma part_of_same whole pk : part_of whole pk → pk_key whole = pk_key pk ∧ pk_size whole = pk_size pk ∧ pk_ap whole = pk_ap pk ∧
  pk_op whole = pk_op pk ∧ pk_admission whole = pk_admission pk.
Proof. by intros [bs ->]. Qed.

Lemma part_of_payload whole pk : part_of whole pk → 384 ≤ zlen (pk_received pk) →
  ∃ bs, pk_payload whole = pk_payload pk ++ bs.
Proof. intros [bs ->] Hl. exists bs. apply zdrop_app_le. lia. Qed.

Lemma part_of_offer whole pk bs : part_of whole (pk_offer bs pk) → part_of whole pk.
Proof. intros [r ->]. exists (bs ++ r). unfold pk_offer. cbn. by rewrite app_assoc. Qed.

Lemma part_of_complete whole pk : part_of whole pk → zlen (pk_received pk) = zlen (pk_received whole) → pk = whole.
Proof.
  intros [bs ->] Hl. cbn in Hl. rewrite zlen_app in Hl. assert (bs = []) as -> by (apply zlen_0_nil; lia).
  destruct pk. unfold pk_offer. cbn. by rewrite app_nil_r.
Qed.

(** A complete and correct package for a platform that accepts its signature. *)
Record good_package (whole : package) (md : OTAStagingMetadata) : Prop := {
  gp_size : zlen (pk_received whole) = pk_size whole ∧ pk_size whole ≤ UINT32_MAX;
  gp_bytes : bytes (pk_received whole);
  gp_valid : pk_valid whole md;
  gp_key : pk_key_matches whole;
  gp_vectors : vectors_ok whole;
  gp_digest : Fips.sha256 (pk_payload whole) = pk_digest whole;
  gp_descriptor : field (pk_payload whole) 512 256 = field (pk_header whole) 64 256 }.

Section good.
Context {W : Type} (o : OTAStagingPlatformOperations W) (flash : W → list Z) (clock : W → Z).
Context (whole : package) (md : OTAStagingMetadata) (Hgood : good_package whole md).
Context (Hlaw : lawful (calls o) (pk_ap whole) (pk_op whole) flash clock) (Hcomplete : complete o = true).
Context (Hsig : ∀ w, fst (verifySignature (calls o) (pk_key whole) 91 (Fips.sha256 (pk_header whole)) (pk_signature whole) w) = 0).
Context (adm : option (OTAStagingMetadata → W → Z * W)) (canc : option (W → Z * W)).
Context (Hadm : ∀ f w, adm = Some f → fst (f md w) ≠ 0).
Context (Hadmw : ∀ f m w, adm = Some f → flash (snd (f m w)) = flash w ∧ clock (snd (f m w)) = clock w).
Context (Hcanc : ∀ f w, canc = Some f → fst (f w) = 0 ∧ flash (snd (f w)) = flash w ∧ clock (snd (f w)) = clock w).
Implicit Types (w : W) (tr : list event) (pk : package) (ph : phase).

Lemma good_sizes : 768 ≤ pk_length whole ≤ part_length (pk_op whole) ∧ pk_length whole + 384 = pk_size whole ∧
  zlen (pk_payload whole) = pk_length whole ∧ pk_size whole ≤ UINT32_MAX.
Proof using Hgood.
  destruct Hgood as [[Hs Hm] _ Hv _ _ _ _]. destruct Hv as [[] _]. unfold pk_length, pk_payload.
  rewrite zlen_drop by lia. lia.
Qed.

(** What Flash holds in each phase, if the package received so far is a part of
    the good one. *)
Definition content w pk ph : Prop :=
  match ph with
  | Signed => 384 ≤ zlen (pk_received pk)
  | Staging e wr =>
    384 ≤ zlen (pk_received pk) ∧ zlen wr ≤ e ≤ pk_length whole ∧ (∃ r, pk_payload whole = wr ++ r) ∧
    ztake (zlen wr) (flash w) = wr ∧ field (flash w) (zlen wr) (e - zlen wr) = erased_flash (e - zlen wr)
  | Checking rd =>
    pk = whole ∧ ztake (pk_length whole) (flash w) = pk_payload whole ∧ rd = ztake (zlen rd) (pk_payload whole) ∧
    zlen rd ≤ pk_length whole
  | Stopped => False
  | _ => True
  end.

(** The operations the engine times, and what it grants them. *)
Definition time_limit (e : event) : option Z :=
  match e with
  | Verified _ _ _ _ => Some OTA_STAGING_SIGNATURE_MAX_MS
  | Erased _ _ _ | Written _ _ _ _ | Read _ _ _ _ _ => Some OTA_STAGING_FLASH_OPERATION_MAX_MS
  | _ => None
  end.

(** The clock and the last event. *)
Definition timed w tr : Prop :=
  match tr with
  | e :: Clock a :: _ => match time_limit e with Some l => ∃ c, a = u32 c ∧ c ≤ clock w ≤ c + l | None => True end
  | _ => True
  end.
Definition clock_ok w tr : Prop :=
  match tr with
  | Clock b :: tl => b = u32 (clock w) ∧ timed w tl
  | _ => timed w tr
  end.

Definition ok_world w tr : Prop :=
  clock_ok w tr ∧ ∀ pk ph, accepts tr (Some (pk, ph)) → part_of whole pk → content w pk ph.

Lemma not_late w b e a tr l : clock_ok w (Clock b :: e :: Clock a :: tr) → time_limit e = Some l → l < 4294967296 → ¬ late a b l.
Proof using.
  intros [-> Ht] Hlim Hl Hlt. unfold timed in Ht. rewrite Hlim in Ht.
  destruct Ht as (c & -> & Hc). revert Hlt. unfold late, u32. rewrite <-Zminus_mod. rewrite Z.mod_small; lia.
Qed.

(** Nothing but the trace or an untimed event changes. *)
Lemma ok_world_same w w' e tr : ok_world w tr → flash w' = flash w → clock w' = clock w → time_limit e = None →
  (∀ t, e ≠ Clock t) → (∀ pk ph, accepts (e :: tr) (Some (pk, ph)) → part_of whole pk → content w' pk ph) → ok_world w' (e :: tr).
Proof using.
  intros _ _ _ Hn Hc H. split; [|done]. destruct e; try done; try (by destruct (Hc t)); by destruct tr as [|[] ?].
Qed.

Lemma content_flash w w' pk ph : flash w' = flash w → content w pk ph → content w' pk ph.
Proof using. intros Hf. unfold content. by rewrite Hf. Qed.

Lemma ok_world_silent w w' tr : ok_world w tr → flash w' = flash w → clock w' = clock w → ok_world w' tr.
Proof using.
  intros [Hc Hk] Hf Hcl. split.
  - unfold clock_ok, timed in *. by rewrite Hcl.
  - intros pk ph Ha Hp. eapply content_flash; [exact Hf|by apply Hk].
Qed.

Lemma ok_world_clock w w' tr : ok_world w tr → flash w' = flash w → clock w' = clock w → ok_world w' (Clock (u32 (clock w)) :: tr).
Proof using.
  intros [Hc Hk] Hf Hcl. split.
  - cbn. split; [by rewrite Hcl|]. destruct tr as [|e tl]; [done|]. unfold clock_ok in Hc. unfold timed. destruct tl as [|[] tl]; try done.
    destruct (time_limit e) eqn:El; [|done]. destruct e; try done; unfold timed in Hc; cbn in El; simplify_eq; cbn in Hc; by rewrite Hcl.
  - intros pk ph Ha Hp. inversion Ha as [|e0 tr0 σ σ' Ha0 Hs]; subst. inversion Hs; subst. eapply content_flash; [exact Hf|by apply Hk].
Qed.

(** A timed operation. *)
Lemma timed_event w w' e tr l : clock_ok w tr → time_limit e = Some l → clock w ≤ clock w' ≤ clock w + l → clock_ok w' (e :: tr).
Proof using.
  intros Hc Hl Hcl. assert (timed w' (e :: tr)) as Ht.
  { destruct tr as [|[] tl]; try done. cbn in Hc. destruct Hc as [-> _]. unfold timed. rewrite Hl. by exists (clock w). }
  by destruct e.
Qed.

Lemma field_0 (m : list Z) n : field m 0 n = ztake n m.
Proof using. unfold field. by rewrite zdrop_0. Qed.

Lemma field_add (m : list Z) p a b : 0 ≤ p → 0 ≤ a → 0 ≤ b → field m p (a + b) = field m p a ++ field m (p + a) b.
Proof using.
  intros. unfold field. rewrite <-(zdrop_zdrop a p) by lia. unfold ztake, zdrop.
  rewrite Z2Nat.inj_add by lia. set (l := drop (Z.to_nat p) m). rewrite <-(take_drop (Z.to_nat a) (take (Z.to_nat a + Z.to_nat b) l)).
  rewrite take_take, Nat.min_l by lia. f_equal. rewrite <-take_drop_commute. done.
Qed.

Lemma ztake_add (m : list Z) a b : 0 ≤ a → 0 ≤ b → ztake (a + b) m = ztake a m ++ field m a b.
Proof using. intros. rewrite <-!field_0, field_add by lia. done. Qed.

Lemma erased_add a b : 0 ≤ a → 0 ≤ b → erased_flash (a + b) = erased_flash a ++ erased_flash b.
Proof using. intros. unfold erased_flash. by rewrite Z2Nat.inj_add, replicate_add by lia. Qed.

Lemma field_erased_split m p a b : 0 ≤ p → 0 ≤ a → 0 ≤ b → p + a + b ≤ zlen m → field m p (a + b) = erased_flash (a + b) →
  field m p a = erased_flash a ∧ field m (p + a) b = erased_flash b.
Proof using.
  intros Hp Ha Hb Hl H. rewrite field_add, erased_add in H by lia. apply app_inj_1 in H; [done|].
  pose proof (zlen_field m p a ltac:(lia) ltac:(lia) ltac:(lia)) as Hz. unfold zlen in Hz. unfold erased_flash. rewrite length_replicate. lia.
Qed.

Lemma part_length_eq pk : part_of whole pk → 384 ≤ zlen (pk_received pk) → pk_length pk = pk_length whole.
Proof using. intros Hp Hl. unfold pk_length. by destruct (part_of_header whole pk Hp Hl) as [-> _]. Qed.

(** One step of the specification keeps what Flash holds, if the platform did
    what it should. *)
Ltac accepted Ha :=
  let e := fresh "e" in let tr := fresh "tr" in let Hs := fresh "Hs" in
  inversion Ha as [|e tr ? ? Ha0 Hs]; subst; inversion Hs; subst; clear Ha Hs.

Lemma ok_erase w w' tr off n r : ok_world w tr → eraseOta (calls o) off n w = (r, w') → ok_world w' (Erased off n r :: tr).
Proof using Hgood Hlaw.
  intros [Hc Hk] He. destruct (lw_erase _ _ _ _ _ Hlaw _ _ _ _ _ He) as [Hcl Hok]. split; [by eapply timed_event|].
  intros pk ph Ha Hp. accepted Ha. destruct good_sizes as (Hl & _ & _ & _). pose proof (lw_size _ _ _ _ _ Hlaw w') as Hsz.
  destruct (Hk _ _ Ha0 Hp) as (H384 & Hz & _ & _ & Hf). rewrite zlen_nil in *. rewrite (part_length_eq pk Hp H384) in *.
  set (n := Z.min 4096 (pk_length whole - off)) in *. destruct Hok as (-> & Ht & Hf'); [lia..|]. cbn [Z.eqb].
  split; [done|]. rewrite zlen_nil. split; [lia|]. split; [by exists (pk_payload whole)|]. split; [done|].
  rewrite !Z.sub_0_r in *. rewrite field_add, erased_add by lia. rewrite Z.add_0_l, field_0 in *. by rewrite Ht, Hf, Hf'.
Qed.

Lemma ok_write w w' tr off bs r next : ok_world w tr → writeOta (calls o) off bs w = (r, next, w') →
  ok_world w' (Written off bs r next :: tr).
Proof using Hgood Hlaw.
  intros [Hc Hk] He. destruct (lw_write _ _ _ _ _ Hlaw _ _ _ _ _ _ He) as [Hcl Hok]. split; [by eapply timed_event|].
  intros pk ph Ha Hp. accepted Ha. destruct good_sizes as (Hl & _ & Hpl & _). pose proof (lw_size _ _ _ _ _ Hlaw w) as Hsz.
  destruct (Hk _ _ Ha0 Hp) as (H384 & Hz & _ & Hw & Hf). rewrite (part_length_eq pk Hp H384) in *.
  destruct (part_of_payload _ _ Hp H384) as (t & Ht). pose proof (zlen_nonneg w0) as Hw0. pose proof (zlen_nonneg rest). pose proof (zlen_nonneg t).
  match goal with H : pk_payload pk = _ |- _ => rename H into Hpay end.
  assert (zlen w0 + zlen bs ≤ pk_length whole) as Hin.
  { rewrite <-Hpl, Ht, Hpay. rewrite !zlen_app. lia. }
  replace (pk_length whole - zlen w0) with (zlen bs + (pk_length whole - zlen w0 - zlen bs)) in Hf by lia.
  apply field_erased_split in Hf as [Hf1 Hf2]; [|lia..]. assert (bytes bs) as Hbb.
  { assert (bytes (pk_payload whole)) as Hpb by (apply Forall_drop; by destruct Hgood).
    rewrite Ht, Hpay, <-!app_assoc in Hpb. apply Forall_app in Hpb as [_ Hpb]. by apply Forall_app in Hpb as [? _]. }
  destruct Hok as (-> & -> & Hfl); [done|lia|lia|done|].
  rewrite !Z.eqb_refl. cbn [andb]. split; [done|]. rewrite zlen_app. split; [lia|].
  split; [exists (rest ++ t); by rewrite Ht, Hpay, <-!app_assoc|]. rewrite Hfl. split.
  - unfold splice. rewrite Hw, app_assoc. apply ztake_app_exact. by rewrite zlen_app.
  - rewrite Z.sub_add_distr, <-Hf2. unfold field. by rewrite zdrop_past_splice by lia.
Qed.

Lemma ok_read w w' tr off b n r next b' : ok_world w tr → readOta (calls o) off b n w = (r, next, b', w') →
  ok_world w' (Read off n r next (ztake n b') :: tr).
Proof using Hgood Hlaw.
  intros [Hc Hk] He. destruct (lw_read _ _ _ _ _ Hlaw _ _ _ _ _ _ _ _ He) as (Hcl & Hfl & Hbb & Hok). split; [by eapply timed_event|].
  intros pk ph Ha Hp. accepted Ha. destruct good_sizes as (Hl & Hsz & Hpl & _). pose proof (lw_size _ _ _ _ _ Hlaw w) as Hfs.
  pose proof (zlen_nonneg rd) as Hrd0.
  assert (pk = whole ∧ ztake (pk_length whole) (flash w) = pk_payload whole ∧ rd = ztake (zlen rd) (pk_payload whole)) as (-> & Hf & Hrd).
  { match goal with H : reading _ _ _ |- _ => destruct H as [->|(-> & -> & [Hcm _])] end.
    - by destruct (Hk _ _ Ha0 Hp) as (-> & ? & ? & _).
    - destruct (Hk _ _ Ha0 Hp) as (H384 & Hz & _ & Hw & _). destruct (part_of_same _ _ Hp) as (_ & Hsame & _).
      assert (pk = whole) as ->.
      { apply part_of_complete; [done|]. rewrite Hcm, <-Hsame. by destruct Hgood as [[? _] _ _ _ _ _ _]. }
      rewrite Hpl in Hw. done. }
  set (n := Z.min 512 (pk_length whole - zlen rd)) in *.
  destruct Hok as (-> & -> & Hb); [lia| |lia|].
  { match goal with H : zlen (ztake n b') = n |- _ => rename H into Hzb end. split; [lia|].
    pose proof (zlen_nonneg b'). rewrite <-Hbb. destruct (decide (n ≤ zlen b')); [done|]. rewrite ztake_ge in Hzb by lia. lia. }
  rewrite !Z.eqb_refl. cbn [andb]. split; [done|]. rewrite Hfl. split; [done|]. rewrite Hb, zlen_app, zlen_field by lia.
  split; [|lia]. rewrite ztake_add by lia. rewrite <-Hrd. f_equal. rewrite <-Hf. unfold field. unfold ztake, zdrop.
  rewrite !take_drop_commute, take_take. do 2 f_equal. lia.
Qed.

Lemma ok_verify w w' tr key d g r : ok_world w tr → verifySignature (calls o) key 91 d g w = (r, w') →
  ok_world w' (Verified key d g r :: tr).
Proof using Hgood Hlaw Hsig.
  intros [Hc Hk] He. pose proof (lw_verify _ _ _ _ _ Hlaw key 91 d g w) as Hv. rewrite He in Hv. cbn in Hv. destruct Hv as [Hfl Hcl].
  split; [by eapply timed_event|]. intros pk ph Ha Hp. accepted Ha.
  match goal with H : 384 ≤ zlen (pk_received pk) |- _ => rename H into H384 end.
  destruct (part_of_same _ _ Hp) as (Hkey & _). destruct (part_of_header _ _ Hp H384) as [Hh Hs].
  pose proof (Hsig w) as H0. rewrite Hkey, <-Hh, <-Hs, He in H0. cbn in H0. subst r. cbn [Z.eqb].
  destruct (pk_admission pk); [done|]. destruct good_sizes as (Hl & _). split; [done|]. rewrite zlen_nil. split; [lia|].
  split; [by exists (pk_payload whole)|done].
Qed.

Lemma ok_asked w w' tr f m r : ok_world w tr → adm = Some f → f m w = (r, w') → ok_world w' (Asked m r :: tr).
Proof using Hgood Hadm Hadmw.
  intros Hw Ha He. pose proof (Hadm f w Ha) as Hr. destruct (Hadmw f m w Ha) as [Hfl Hcl]. clear Ha. rewrite He in Hfl, Hcl. cbn in Hfl, Hcl.
  eapply ok_world_same; [exact Hw|done..|]. destruct Hw as [_ Hk]. intros pk ph Hacc Hp. accepted Hacc.
  pose proof (Hk _ _ Ha0 Hp) as H384. cbn in H384. destruct (part_of_header _ _ Hp H384) as [Hh _].
  destruct (part_of_same _ _ Hp) as (_ & Hsz & Hap & Hop & _).
  assert (m = md) as ->.
  { destruct Hgood as [_ _ [_ Hd] _ _ _ _]. match goal with H : pk_valid pk m |- _ => destruct H as [_ Hd'] end.
    rewrite Hh, <-Hap, <-Hop in Hd'. by eapply valid_descriptor_unique. }
  rewrite He in Hr. cbn in Hr. rewrite (proj2 (Z.eqb_neq r 0)) by done.
  destruct good_sizes as (Hl & _). split; [done|]. rewrite zlen_nil. split; [lia|]. split; [by exists (pk_payload whole)|done].
Qed.

Lemma ok_offered w tr bs : ok_world w tr → ok_world w (Offered bs :: tr).
Proof using.
  intros Hw. eapply ok_world_same; [exact Hw|done..|]. destruct Hw as [_ Hk]. intros pk ph Ha Hp. accepted Ha.
  pose proof (Hk _ _ Ha0 (part_of_offer _ _ _ Hp)) as H.
  match goal with H : _ ∨ _ |- _ => destruct H as [->|(e & wr & ->)] end; [done|].
  destruct H as (H384 & ?). split; [|done]. cbn. rewrite zlen_app. pose proof (zlen_nonneg bs). lia.
Qed.

Lemma ok_located w tr e : located e → ok_world w tr → ok_world w (e :: tr).
Proof using.
  intros He Hw. eapply ok_world_same; [exact Hw|done|done|by destruct e|by destruct e|]. destruct Hw as [_ Hk].
  intros pk ph Ha Hp. destruct e; try done; accepted Ha; by apply Hk.
Qed.

Lemma ok_begun w tr key n ap op a : ok_world w tr → ok_world w (Begun key n ap op a :: tr).
Proof using. intros Hw. eapply ok_world_same; [exact Hw|done..|]. intros pk ph Ha Hp. by accepted Ha. Qed.

Lemma ok_observed w tr st : ok_world w tr → ok_world w (Observed st :: tr).
Proof using.
  intros Hw. eapply ok_world_same; [exact Hw|done..|]. destruct Hw as [_ Hk]. intros pk ph Ha Hp. accepted Ha. by apply Hk.
Qed.

(** ** Every program of the engine keeps it *)
Definition ok_state (s : ota (traced_world W)) : Prop :=
  ok_world (fst (world s)) (snd (world s)) ∧ platform s = Some (traced o) ∧
  admission (session s) = traced_admission <$> adm ∧ cancellation (session s) = traced_cancellation <$> canc.

Definition pres {A} (m : prog (traced_world W) A) : Prop := ∀ s a s', ok_state s → m s = Ok (a, s') → ok_state s'.

Lemma pres_ret {A} (a : A) : pres (mret a).
Proof using. intros s b s' Hs [= <- <-]. done. Qed.

Lemma pres_bind {A B} (m : prog _ A) (f : A → prog _ B) : pres m → (∀ a, pres (f a)) → pres (m ≫= f).
Proof using.
  intros Hm Hf s b s' Hs H. change ((m ≫= f) s) with (m s ≫= λ r, let '(a, s') := r in f a s') in H.
  destruct (m s) as [[a s1]|] eqn:E; [|done]. rewrite bind_Ok in H. eapply Hf; [|exact H]. by eapply Hm.
Qed.

Lemma pres_lift {A} (m : outcome A) : pres (lift m).
Proof using. intros s b s' Hs H. unfold lift in H. destruct m; [|done]. rewrite bind_Ok in H. by simplify_eq. Qed.

Lemma pres_gets {A} (f : Session (traced_world W) → A) : pres (gets f).
Proof using. intros s b s' Hs [= <- <-]. done. Qed.

Lemma pres_modify f : (∀ se, admission (f se) = admission se ∧ cancellation (f se) = cancellation se) → pres (modify f).
Proof using.
  intros Hf s b s' (Hw & Hp & Ha & Hc) [= <- <-]. destruct (Hf (session s)) as [H1 H2]. unfold ok_state. cbn.
  by rewrite H1, H2.
Qed.

Lemma pres_next : pres next_generation.
Proof using. intros s b s' Hs [= <- <-]. exact Hs. Qed.

Lemma pres_call {A} (f : platform_calls (traced_world W) → traced_world W → A * traced_world W) :
  (∀ w tr a w' tr', ok_world w tr → f (traced_calls (calls o)) (w, tr) = (a, (w', tr')) → ok_world w' tr') → pres (call f).
Proof using Hcomplete.
  intros Hf s b s' (Hw & Hp & Ha & Hc) H. unfold call in H. rewrite Hp in H. cbn [deref] in H. rewrite bind_Ok in H.
  cbn [traced complete calls] in H. rewrite Hcomplete in H. destruct (world s) as [w tr] eqn:Ew. cbn [fst snd] in Hw.
  destruct (f _ _) as [a [w' tr']] eqn:E. simplify_eq. by split_and!; [by eapply Hf|..].
Qed.

Lemma pres_time : pres (call timeMs).
Proof using Hcomplete Hlaw.
  apply pres_call. intros w tr a w' tr' Hw H. cbn in H. unfold logged in H. destruct (lw_time _ _ _ _ _ Hlaw w) as (w1 & E & Hf & Hc).
  rewrite E in H. simplify_eq. by apply ok_world_clock.
Qed.
Lemma pres_erase off n : pres (call (λ p, eraseOta p off n)).
Proof using Hcomplete Hlaw Hgood.
  apply pres_call. intros w tr a w' tr' Hw H. cbn in H. unfold logged in H. destruct (eraseOta _ _ _ _) eqn:E. simplify_eq. by eapply ok_erase.
Qed.
Lemma pres_write off bs : pres (call (λ p, writeOta p off bs)).
Proof using Hcomplete Hlaw Hgood.
  apply pres_call. intros w tr a w' tr' Hw H. cbn in H. unfold logged in H. destruct (writeOta _ _ _ _) as [[r nx] w1] eqn:E.
  simplify_eq. by eapply ok_write.
Qed.
Lemma pres_read off b n : pres (call (λ p, readOta p off b n)).
Proof using Hcomplete Hlaw Hgood.
  apply pres_call. intros w tr a w' tr' Hw H. cbn in H. unfold logged in H.
  destruct (readOta _ _ _ _ _) as [[[r nx] b'] w1] eqn:E. simplify_eq. by eapply ok_read.
Qed.
Lemma pres_verify key d g : pres (call (λ p, verifySignature p key PublicKeyDerSize d g)).
Proof using Hcomplete Hlaw Hgood Hsig.
  apply pres_call. intros w tr a w' tr' Hw H. cbn in H. unfold logged in H. destruct (verifySignature _ _ _ _ _ _) eqn:E.
  simplify_eq. by eapply ok_verify.
Qed.

Lemma option_cases {A} (x : option A) : (∃ a, x = Some a) ∨ x = None.
Proof using. destruct x as [a|]; [left; by exists a|by right]. Qed.

Lemma pres_cancelled : pres cancelled.
Proof using Hcanc.
  intros s b s' (Hw & Hp & Ha & Hc) H. unfold cancelled in H. rewrite Hc in H.
  destruct (option_cases canc) as [[f Ec]|Ec]; rewrite Ec in H; cbn in H.
  - destruct (world s) as [w tr] eqn:Ew. unfold traced_cancellation in H. destruct (Hcanc f w Ec) as (H0 & Hf & Hcl).
    destruct (f w) as [r w']. cbn in H0, Hf, Hcl. subst r. cbn in H. simplify_eq. split_and!; [|done..]. by eapply ok_world_silent.
  - by simplify_eq.
Qed.

Lemma pres_not_admitted : pres not_admitted.
Proof using Hadm Hadmw Hgood.
  intros s b s' (Hw & Hp & Ha & Hc) H. unfold not_admitted in H. rewrite Ha in H.
  destruct (option_cases adm) as [[f Ec]|Ec]; rewrite Ec in H; cbn in H.
  - destruct (world s) as [w tr] eqn:Ew. unfold traced_admission, logged in H. destruct (f (metadata (session s)) w) as [r w'] eqn:E.
    cbn in H. simplify_eq. split_and!; [|done..]. eapply ok_asked; [exact Hw|exact Ec|exact E].
  - by simplify_eq.
Qed.

Lemma pres_elapsed st l : pres (elapsedExceeded st l).
Proof using Hcomplete Hlaw. unfold elapsedExceeded. apply pres_bind; [apply pres_time|]. intros ?. apply pres_ret. Qed.

Lemma pres_fail e : pres (fail e).
Proof using. unfold fail. repeat (apply pres_bind; [by apply pres_modify|]; intros ?). apply pres_ret. Qed.

Ltac pres :=
  repeat match goal with
  | |- pres (_ ≫= _) => apply pres_bind; [|intros ?]
  | |- pres (if ?b then _ else _) => destruct b
  | |- pres (let '(_, _) := ?x in _) => destruct x
  | |- pres (match ?x with inl _ => _ | inr _ => _ end) => destruct x
  | |- pres (mret _) => apply pres_ret
  | |- pres (lift _) => apply pres_lift
  | |- pres (gets _) => apply pres_gets
  | |- pres (modify _) => by apply pres_modify
  | |- pres (call timeMs) => apply pres_time
  | |- pres (call (λ p, eraseOta p _ _)) => apply pres_erase
  | |- pres (call (λ p, writeOta p _ _)) => apply pres_write
  | |- pres (call (λ p, readOta p _ _ _)) => apply pres_read
  | |- pres (call (λ p, verifySignature p _ _ _ _)) => apply pres_verify
  | |- pres cancelled => apply pres_cancelled
  | |- pres not_admitted => apply pres_not_admitted
  | |- pres (elapsedExceeded _ _) => apply pres_elapsed
  | |- pres (fail _) => apply pres_fail
  | |- pres next_generation => apply pres_next
  | |- pres (and_then _ _) => unfold and_then
  | H : ∀ x, pres _ |- pres _ => apply H
  | H : ∀ x y, pres _ |- pres _ => apply H
  end.

Context (SIZE_MAX : Z).

Lemma pres_header : pres (validateHeader SIZE_MAX).
Proof using Hcomplete Hlaw Hgood Hsig Hadm Hadmw Hcanc.
  unfold validateHeader, validateEnvelope, validateDescriptor, authenticate. cbv zeta. pres.
Qed.

Lemma pres_erase_loop fuel : ∀ off, pres (erase_loop fuel off).
Proof using Hcomplete Hlaw Hgood Hcanc. induction fuel as [|fuel IH]; intros off; cbn [erase_loop]; cbv zeta; pres. Qed.

Lemma pres_write_loop fuel data : ∀ q n, pres (write_loop fuel data q n).
Proof using Hcomplete Hlaw Hgood Hcanc. induction fuel as [|fuel IH]; intros q n; cbn [write_loop]; cbv zeta; pres. Qed.

Lemma pres_accept data q n : pres (acceptPayload data q n).
Proof using Hcomplete Hlaw Hgood Hcanc.
  unfold acceptPayload, validateVectors, erasePayloadRange, writePayload. cbv zeta. pres; try apply pres_erase_loop; apply pres_write_loop.
Qed.

Lemma pres_round data q n : pres (write_round SIZE_MAX data q n).
Proof using Hcomplete Hlaw Hgood Hsig Hadm Hadmw Hcanc.
  unfold write_round. cbv zeta. pres; try apply pres_header; apply pres_accept.
Qed.

Lemma pres_rounds fuel data : ∀ q n, pres (write_rounds SIZE_MAX fuel data q n).
Proof using Hcomplete Hlaw Hgood Hsig Hadm Hadmw Hcanc.
  induction fuel as [|fuel IH]; intros q n; cbn [write_rounds]; pres; apply pres_round.
Qed.

Lemma pres_write_package m n : pres (OTAStagingWritePackage SIZE_MAX m n).
Proof using Hcomplete Hlaw Hgood Hsig Hadm Hadmw Hcanc. unfold OTAStagingWritePackage. pres. apply pres_rounds. Qed.

Lemma pres_read_loop fuel : ∀ off l, pres (read_loop fuel off l).
Proof using Hcomplete Hlaw Hgood Hcanc. induction fuel as [|fuel IH]; intros off l; cbn [read_loop]; cbv zeta; pres. Qed.

Lemma pres_finish out : pres (OTAStagingFinish out).
Proof using Hcomplete Hlaw Hgood Hcanc. unfold OTAStagingFinish, publish. cbv zeta. pres; apply pres_read_loop. Qed.

Lemma pres_log e : (∀ w tr, ok_world w tr → ok_world w (e :: tr)) → pres (log e).
Proof using.
  intros He s a s' (Hw & Hp & Ha & Hc) H. unfold log in H. destruct (world s) as [w tr] eqn:Ew. simplify_eq. by split_and!; [apply He|..].
Qed.

Lemma pres_run c : (∃ m n, c = Write m n) ∨ (∃ out, c = Finish out) → pres (run SIZE_MAX (Some o) c).
Proof using Hcomplete Hlaw Hgood Hsig Hadm Hadmw Hcanc.
  intros Hc. unfold run. apply pres_bind; [|intros e; apply pres_bind; [apply pres_gets|]; intros st; apply pres_bind; [|intros; apply pres_ret]].
  - destruct Hc as [(m & n & ->)|(out & ->)]; cbn [run_call].
    + apply pres_bind; [apply pres_gets|]. intros st. apply pres_bind; [|intros; apply pres_write_package].
      destruct (bool_decide _); [apply pres_log; intros; by apply ok_offered|apply pres_ret].
    + apply pres_bind; [apply pres_finish|]. intros [e i]. apply pres_ret.
  - apply pres_log. intros. by apply ok_observed.
Qed.

(** ** No call is refused *)
Fixpoint package_of (tr : list event) : option package :=
  match tr with
  | [] => None
  | Begun key n ap op a :: _ => Some (mkPackage key n ap op a [])
  | Offered bs :: tr => pk_offer bs <$> package_of tr
  | _ :: tr => package_of tr
  end.

Lemma accepts_package tr σ : accepts tr σ → fst <$> σ = package_of tr.
Proof using. induction 1 as [|e tr σ σ' _ IH Hs]; [done|]. inversion Hs; subst; cbn in *; rewrite <-?IH; done. Qed.

Lemma accepts_unique tr pk pk' ph ph' : accepts tr (Some (pk, ph)) → accepts tr (Some (pk', ph')) → pk = pk'.
Proof using. intros H1%accepts_package H2%accepts_package. cbn in *. congruence. Qed.

(** An accepted event that stopped the session contradicts [ok_world]. *)
Lemma not_stopped w tr pk : ok_world w tr → part_of whole pk → ¬ accepts tr (Some (pk, Stopped)).
Proof using. intros [_ Hk] Hp Ha. exact (Hk _ _ Ha Hp). Qed.

Lemma checked w tr pk rd : ok_world w tr → part_of whole pk → accepts tr (Some (pk, Checking rd)) → zlen rd = pk_length pk →
  rd = pk_payload whole ∧ pk = whole.
Proof using Hgood.
  intros [_ Hk] Hp Ha Hl. destruct (Hk _ _ Ha Hp) as (-> & _ & -> & Hle). split; [|done].
  destruct good_sizes as (_ & _ & Hpl & _). rewrite Hl. apply ztake_ge. lia.
Qed.

(** The last event stopped the session: [H] says its result was bad. *)
Ltac stopped Hw Hp Ha :=
  exfalso; apply (not_stopped _ _ _ Hw Hp); inversion Ha as [|? ? ? ? ? Hs]; subst; inversion Hs; subst.

Lemma no_cause w tr pk ph e : ok_world w tr → accepts tr (Some (pk, ph)) → part_of whole pk → cause pk tr e →
  e = OTA_ERROR_INCOMPLETE ∧ zlen (pk_received pk) ≠ pk_size pk.
Proof using Hgood Hlaw Hsig.
  intros Hw Ha Hp Hc. destruct (part_of_same _ _ Hp) as (Hkey & Hsz & Hap & Hop & _). pose proof Hgood as [[Hg1 _] Hgb Hgv Hgk Hgvec Hgd Hgdesc].
  assert (zlen (pk_received pk) ≤ pk_size pk) as Hle.
  { rewrite <-Hsz, <-Hg1. destruct Hp as [bs ->]. cbn. rewrite zlen_app. pose proof (zlen_nonneg bs). lia. }
  assert (384 ≤ zlen (pk_received pk) → pk_valid pk md) as Hvalid.
  { intros Hl. destruct (part_of_header _ _ Hp Hl) as [Hh _]. unfold pk_valid. by rewrite Hh, <-Hsz, <-Hap, <-Hop. }
  destruct Hw as [Hcl Hw']. assert (Hw := conj Hcl Hw' : ok_world w tr).
  assert (format_cause pk e → e = OTA_OK) as Hformat.
  { intros [Hl Hf]. apply (first_failure_valid _ _ _ _ _ _ (Hvalid Hl) Hf). }
  destruct e; cbn [cause] in Hc; try done; try (by specialize (Hformat Hc)).
  - destruct Hc as (a & tr' & ->). stopped Hw Hp Ha. exact Ha.
  - exfalso. destruct Hc as (Hl & _ & Hn). apply Hn. unfold pk_key_matches. destruct (part_of_header _ _ Hp Hl) as [-> _]. by rewrite <-Hkey.
  - destruct Hc as (r & a & tr' & -> & Hr%Z.eqb_neq & _). stopped Hw Hp Ha. by rewrite Hr in Ha.
  - destruct Hc as (b & a & tr' & -> & Hc). by destruct (not_late _ _ _ _ _ _ Hcl eq_refl ltac:(done) Hc).
  - destruct Hc as (m & tr' & -> & _). stopped Hw Hp Ha. exact Ha.
  - destruct Hc as (tr' & ->). stopped Hw Hp Ha. exact Ha.
  - destruct Hc as (off & n & r & a & tr' & -> & Hr%Z.eqb_neq). stopped Hw Hp Ha. by rewrite Hr in Ha.
  - destruct Hc as (b & off & n & a & tr' & -> & Hc). by destruct (not_late _ _ _ _ _ _ Hcl eq_refl ltac:(done) Hc).
  - destruct Hc as (off & bs & r & nx & a & tr' & -> & Hr%Z.eqb_neq). stopped Hw Hp Ha. by rewrite Hr in Ha.
  - destruct Hc as (off & bs & nx & a & tr' & -> & Hr%Z.eqb_neq). stopped Hw Hp Ha. by cbn [Z.eqb andb] in Ha; rewrite Hr in Ha.
  - destruct Hc as (b & off & bs & a & tr' & -> & Hc). by destruct (not_late _ _ _ _ _ _ Hcl eq_refl ltac:(done) Hc).
  - lia.
  - exfalso. destruct Hc as [Hl Hn]. apply Hn. rewrite (part_of_complete whole pk Hp) by (by rewrite Hg1, Hsz). exact Hgd.
  - destruct Hc as (off & n & r & nx & b & a & tr' & -> & Hr). stopped Hw Hp Ha.
    destruct ((r =? 0) && (nx =? zlen rd + Z.min 512 (pk_length pk - zlen rd))) eqn:E; [|exact Ha].
    apply andb_true_iff in E as [E1 E2]. apply Z.eqb_eq in E1, E2. exfalso. by apply Hr.
  - destruct Hc as (b & off & n & bs & a & tr' & -> & Hc). by destruct (not_late _ _ _ _ _ _ Hcl eq_refl ltac:(done) Hc).
  - exfalso. destruct Hc as (rd & [Hrd Hl] & Hn). destruct (checked _ _ _ _ Hw Hp Hrd Hl) as [-> ->]. by apply Hn.
  - exfalso. destruct Hc as (rd & [Hrd Hl] & _ & Hn). destruct (checked _ _ _ _ Hw Hp Hrd Hl) as [-> ->]. by apply Hn.
  - exfalso. destruct Hc as (rd & [Hrd Hl] & _ & _ & Hn). destruct (checked _ _ _ _ Hw Hp Hrd Hl) as [-> ->]. by apply Hn.
  - exfalso. destruct Hc as [Hl Hn]. apply Hn. pose proof (zlen_nonneg (pk_received pk)).
    assert (392 ≤ zlen (pk_received pk)) as Hl'.
    { destruct (decide (384 ≤ zlen (pk_received pk))); [unfold pk_payload in Hl; rewrite zlen_drop in Hl; lia|].
      unfold pk_payload in Hl. rewrite zdrop_all in Hl by lia. change (zlen (@nil Z)) with 0 in Hl. lia. }
    destruct Hp as [bs ->]. revert Hgvec. assert (pk_payload (pk_offer bs pk) = pk_payload pk ++ bs) as Hpp by (apply zdrop_app_le; lia).
    unfold vectors_ok, pk_length. rewrite header_offer, Hpp by lia. unfold le32. by rewrite !field_app by lia.
Qed.

Context (Hsize : UINT32_MAX ≤ SIZE_MAX) (Htyped : well_typed (calls o)).

Lemma run_inv c s : inv (Some o) s → valid_command SIZE_MAX c →
  ∃ e s1 s', run_call SIZE_MAX (Some o) c s = Ok (e, s1) ∧ kept (Some o) s c e s1 ∧ run SIZE_MAX (Some o) c s = Ok (e, s') ∧
    inv (Some o) s' ∧ session s' = session s1 ∧ platform s' = platform s1 ∧ world s' = (fst (world s1), Observed (st_state (status (session s1))) :: trace s1).
Proof using Hsize Htyped.
  intros Hi Hv. assert (∀ p, Some o = Some p → well_typed (calls p)) as Hdp by (by intros p [= <-]).
  pose proof (run_call_spec SIZE_MAX Hsize (Some o) Hdp c s Hi Hv) as H1.
  destruct (wp_inv _ _ _ H1) as (e & s1 & E & Hk). destruct (world s1) as [w tr] eqn:Ew.
  exists e, s1, (put_world (w, Observed (st_state (status (session s1))) :: tr) s1).
  split; [done|]. split; [done|]. split.
  - unfold run. change ((run_call SIZE_MAX (Some o) c ≫= ?k) s) with (run_call SIZE_MAX (Some o) c s ≫= λ r, let '(a, s') := r in k a s').
    rewrite E, bind_Ok. unfold OTAStagingGetStatus, log. cbv [mbind prog_bind outcome_bind gets mret prog_ret]. rewrite Ew. done.
  - destruct (inv_observable (Some o) s1 (proj1 Hk)) as (_ & _ & _ & H). specialize (H w). unfold trace in *. rewrite Ew in *.
    split; [exact H|]. done.
Qed.

Lemma observed_accepts tr st σ : accepts tr σ → observable σ st → accepts (Observed st :: tr) σ.
Proof using. intros H Ho. eapply accepts_cons; [exact H|by constructor]. Qed.

Definition receives pk (s : ota (traced_world W)) : Prop :=
  inv (Some o) s ∧ ok_state s ∧ st_state (status (session s)) = OTA_STATE_RECEIVING ∧ ∃ ph, accepts (trace s) (Some (pk, ph)).

Lemma good_write pk c s : receives pk s → part_of whole (pk_offer c pk) →
  ∃ s', run SIZE_MAX (Some o) (Write (Some c) (zlen c)) s = Ok (OTA_OK, s') ∧ receives (pk_offer c pk) s'.
Proof using Hcomplete Hlaw Hgood Hsig Hadm Hadmw Hcanc Hsize Htyped.
  intros (Hi & Hok & Hst & ph & Ha) Hp. pose proof Hgood as [[Hg1 Hg2] Hgb _ _ _ _ _].
  assert (zlen c ≤ SIZE_MAX ∧ bytes c) as [Hcl Hcb].
  { destruct Hp as [r Hp]. rewrite Hp in Hg1, Hgb. cbn in Hg1, Hgb. rewrite !zlen_app in Hg1. split.
    - rewrite Hp in Hg2. cbn in Hg2. pose proof (zlen_nonneg r). pose proof (zlen_nonneg (pk_received pk)). lia.
    - apply Forall_app in Hgb as [Hgb _]. by apply Forall_app in Hgb as [_ ?]. }
  assert (valid_command (W:=W) SIZE_MAX (Write (Some c) (zlen c))) as Hv by (pose proof (zlen_nonneg c); done).
  destruct (run_inv _ s Hi Hv) as (e & s1 & s' & Hr & (Hi1 & Hm & Hef) & Hrun & Hi' & Hse & Hpl & Hw').
  assert (ok_state s') as Hok'. { eapply pres_run; [left; by exists (Some c), (zlen c)|exact Hok|exact Hrun]. }
  assert (ztake (zlen c) (default [] (Some c)) = c) as Htc by (apply ztake_ge; cbn; lia).
  assert (e = OTA_OK) as ->.
  { destruct (decide (e = OTA_OK)) as [|Hne]; [done|exfalso]. destruct (Hm Hne) as [(_ & ? & _)|[(_ & ? & _)|(pk1 & ph1 & ph' & Ha1 & Ha2 & Hc & Hni & _)]]; [done..|].
    rewrite (accepts_unique _ _ _ _ _ Ha1 Ha) in *. rewrite Htc in *.
    assert (pres (run_call SIZE_MAX (Some o) (Write (Some c) (zlen c)))) as Hpr.
    { cbn [run_call]. apply pres_bind; [apply pres_gets|]. intros st. apply pres_bind; [|intros; apply pres_write_package].
      destruct (bool_decide _); [apply pres_log; intros; by apply ok_offered|apply pres_ret]. }
    destruct (Hpr _ _ _ Hok Hr) as [Hw1 _]. destruct (no_cause _ _ _ _ _ Hw1 Ha2 Hp Hc) as [-> _].
    done. }
  exists s'. split; [done|]. split; [done|]. split; [done|]. destruct (Hef eq_refl) as (_ & Hst1 & pk1 & ph1 & ph' & Ha1 & Ha2 & _).
  rewrite (accepts_unique _ _ _ _ _ Ha1 Ha) in *. rewrite Htc in *. split; [by rewrite Hse|].
  destruct (inv_observable (Some o) s1 Hi1) as (σ & Hσ & Ho & _). assert (Ho' := Ho). rewrite Hst1 in Ho'. destruct Ho' as (pk2 & ph2 & -> & _).
  exists ph2. unfold trace. rewrite Hw'. cbn. rewrite (accepts_unique _ _ _ _ _ Ha2 Hσ) in *. by apply observed_accepts.
Qed.

Lemma good_writes cs : ∀ pk s, receives pk s → part_of whole (pk_offer (concat cs) pk) →
  ∃ s', run_all SIZE_MAX (Some o) ((λ c, Write (Some c) (zlen c)) <$> cs) s = Ok (replicate (length cs) OTA_OK, s') ∧
    receives (pk_offer (concat cs) pk) s'.
Proof using Hcomplete Hlaw Hgood Hsig Hadm Hadmw Hcanc Hsize Htyped.
  induction cs as [|c cs IH]; intros pk s Hr Hp.
  { exists s. split; [done|]. unfold pk_offer. cbn. rewrite app_nil_r. by destruct pk. }
  cbn [concat] in *. assert (pk_offer (c ++ concat cs) pk = pk_offer (concat cs) (pk_offer c pk)) as Hof by (unfold pk_offer; cbn; by rewrite app_assoc).
  rewrite Hof in *. destruct (good_write pk c s Hr (part_of_offer _ _ _ Hp)) as (s1 & H1 & Hr1).
  destruct (IH (pk_offer c pk) s1 Hr1 Hp) as (s2 & H2 & Hr2). exists s2. split; [|done].
  rewrite fmap_cons. cbn [run_all length replicate]. cbv [mbind prog_bind] in *. rewrite H1. cbn [outcome_bind]. cbv [mbind] . rewrite H2. done.
Qed.

Lemma good_finish s : receives whole s →
  ∃ s', run SIZE_MAX (Some o) (Finish true) s = Ok (OTA_OK, s') ∧ inv (Some o) s' ∧
    st_state (status (session s')) = OTA_STATE_READY ∧ ztake (pk_length whole) (flash (fst (world s'))) = pk_payload whole ∧
    ∃ rd, accepts (trace s') (Some (whole, Checking rd)) ∧ read_back_ok whole rd.
Proof using Hcomplete Hlaw Hgood Hsig Hadm Hadmw Hcanc Hsize Htyped.
  intros (Hi & Hok & Hst & ph & Ha). assert (part_of whole whole) as Hpw.
  { exists []. unfold pk_offer. rewrite app_nil_r. by destruct whole. }
  destruct (run_inv (Finish true) s Hi I) as (e & s1 & s' & Hr & (Hi1 & Hm & Hef) & Hrun & Hi' & Hse & Hpl & Hw').
  assert (pres (run_call SIZE_MAX (Some o) (Finish true))) as Hpr.
  { cbn [run_call]. apply pres_bind; [apply pres_finish|]. intros [e0 i]. apply pres_ret. }
  destruct (Hpr _ _ _ Hok Hr) as [Hw1 _].
  assert (e = OTA_OK) as ->.
  { destruct (decide (e = OTA_OK)) as [|Hne]; [done|exfalso]. destruct (Hm Hne) as [(_ & ? & _)|[(_ & ? & _)|(pk1 & ph1 & ph' & Ha1 & Ha2 & Hc & _)]]; [done..|].
    rewrite (accepts_unique _ _ _ _ _ Ha1 Ha) in *. destruct (no_cause _ _ _ _ _ Hw1 Ha2 Hpw Hc) as [_ Hn]. apply Hn. apply Hgood. }
  exists s'. split; [done|]. split; [done|]. destruct (Hef eq_refl) as (_ & _ & Hst1 & pk1 & ph1 & rd & Ha1 & Ha2 & Hrb & _).
  rewrite (accepts_unique _ _ _ _ _ Ha1 Ha) in *. split; [by rewrite Hse|]. rewrite Hw'. cbn [fst].
  destruct Hw1 as [_ Hk]. destruct (Hk _ _ Ha2 Hpw) as (_ & Hf & _). split; [done|]. exists rd. split; [|done].
  unfold trace. rewrite Hw'. apply observed_accepts; [exact Ha2|]. rewrite Hst1. by exists whole, rd.
Qed.

Ltac case_if_first := match goal with |- context [if ?b then _ else _] => destruct b end.

Lemma begin_world n key k s e s' : inv (Some o) s → ok_world (fst (world s)) (trace s) →
  run_call SIZE_MAX (Some o) (Begin n key k adm canc) s = Ok (e, s') → ok_world (fst (world s')) (trace s').
Proof using Hlaw.
  intros Hi Hw H. cbn [run_call] in H.
  change ((OTAStagingBegin ?a ?b ?c ?d ?e ?f ≫= ?k) s) with (OTAStagingBegin a b c d e f s ≫= λ r, let '(x, s') := r in k x s') in H.
  assert (∀ e1 s1, OTAStagingBegin (traced <$> Some o) n key k (traced_admission <$> adm) (traced_cancellation <$> canc) s = Ok (e1, s1) →
    ok_world (fst (world s1)) (trace s1)) as Hb.
  { intros e1 s1. unfold OTAStagingBegin. case_if_first; [intros Heq; by simplify_eq|].
    destruct (validPublicKey key k) as [v|]; [|done]. rewrite bind_Ok. destruct v; cbn [negb]; [|intros Heq; by simplify_eq].
    case_if_first; [intros Heq; by simplify_eq|].
    assert (match platform s with None => traced <$> Some o | p => p end = Some (traced o)) as Hpl.
    { destruct Hi as (σ & _ & [(-> & _)|(p & g & se & w & tr & [= <-] & _ & -> & _)]); done. }
    rewrite Hpl. destruct (complete (traced o)); cbn [negb]; [|intros Heq; by simplify_eq].
    unfold trace in *. destruct (world s) as [w tr] eqn:Ew. cbn [calls traced traced_calls getApplicationPartition getOtaPartition]. unfold logged.
    destruct (lw_application _ _ _ _ _ Hlaw (mkPartition 0 0) w) as (w1 & E1 & Hf1 & Hc1). rewrite E1. cbn [negb Z.eqb].
    destruct (lw_ota _ _ _ _ _ Hlaw (mkPartition 0 0) w1) as (w2 & E2 & Hf2 & Hc2). rewrite E2. cbn [fst snd] in *.
    assert (ok_world w2 (OtaLocated 0 (pk_op whole) :: ApplicationLocated 0 (pk_ap whole) :: tr)) as Hw2.
    { do 2 (apply ok_located; [done|]). eapply ok_world_silent; [by eapply ok_world_silent|done..]. }
    case_if_first; [intros Heq; by simplify_eq|]. destruct (deref key ≫= _) as [kk|]; [|done]. rewrite bind_Ok. intros Heq; by simplify_eq. }
  revert H. destruct (OTAStagingBegin _ _ _ _ _ _ _) as [[e1 s1]|]; [|done]. rewrite bind_Ok. specialize (Hb e1 s1 eq_refl).
  case_if_first; [|cbv [mret prog_ret]; intros Heq; by simplify_eq]. cbv [mbind prog_bind gets outcome_bind]. unfold log_begun.
  unfold trace in *. destruct (world s1) as [w tr]. destruct (reported tr) as [ap op]. cbv [mret prog_ret]. intros Heq. simplify_eq. by apply ok_begun.
Qed.

Lemma run_all_app (dp : option (OTAStagingPlatformOperations W)) cs1 : ∀ cs2 s es s1, run_all SIZE_MAX dp cs1 s = Ok (es, s1) →
  run_all SIZE_MAX dp (cs1 ++ cs2) s = (run_all SIZE_MAX dp cs2 s1 ≫= λ r, let '(es2, s2) := r in Ok (es ++ es2, s2)).
Proof using.
  induction cs1 as [|c cs1 IH]; intros cs2 s es s1 H.
  - cbn in H. cbv [mret prog_ret] in H. simplify_eq. cbn. destruct (run_all SIZE_MAX dp cs2 s1) as [[? ?]|]; done.
  - cbn [run_all app] in *. cbv [mbind prog_bind] in *. destruct (run SIZE_MAX dp c s) as [[e s2]|]; [|done]. cbn [outcome_bind] in *.
    cbv [mbind] in *. destruct (run_all SIZE_MAX dp cs1 s2) as [[es' s3]|] eqn:E; [|done]. cbn [outcome_bind] in *.
    cbv [mret prog_ret] in *. simplify_eq. rewrite (IH cs2 s2 es' s1 E). destruct (run_all SIZE_MAX dp cs2 s1) as [[? ?]|]; done.
Qed.

Lemma good_begin w : zlen (pk_key whole) = 91 → bytes (pk_key whole) → field (pk_key whole) 0 27 = PublicKeyPrefix →
  pk_admission whole = bool_decide (is_Some adm) →
  ∃ s, run SIZE_MAX (Some o) (Begin (pk_size whole) (Some (pk_key whole)) 91 adm canc) (initial_ota (w, [])) = Ok (OTA_OK, s) ∧
    receives (mkPackage (pk_key whole) (pk_size whole) (pk_ap whole) (pk_op whole) (pk_admission whole) []) s.
Proof using Hcomplete Hlaw Hgood Hsig Hadm Hadmw Hcanc Hsize Htyped.
  intros Hkl Hkb Hkp Had. set (s0 := initial_ota (w, [])). pose proof (inv_initial (Some o) w : inv (Some o) s0) as Hi.
  destruct good_sizes as (Hl & Hsz & _ & Hmax).
  assert (∀ m, Some (pk_key whole) = Some m → 91 ≤ zlen m ∧ bytes m) as Hkey by (intros m [= <-]; split; [lia|done]).
  assert (∀ p, Some o = Some p → well_typed (calls p)) as Hdp by (by intros p [= <-]).
  pose proof (begin_spec SIZE_MAX (Some o) Hdp (pk_size whole) (Some (pk_key whole)) 91 adm canc s0 Hi Hkey) as Hb.
  destruct (wp_inv _ _ _ Hb) as (e & s1 & E & [(He & Hc & _)|(-> & _ & _ & p & g & w1 & tr & ap & op & m & Hp & _ & Hm & Hpt & -> & Ha & Hn & _ & Hkb')]).
  { exfalso. destruct e; try done; cbn [begin_cause] in Hc.
    - unfold UINT32_MAX in *. lia.
    - destruct (Hc o eq_refl Hcomplete) as (r & ap & wb & r' & op & wc & H1 & H2). cbn [world s0 initial_ota fst] in H1.
      destruct (lw_application _ _ _ _ _ Hlaw (mkPartition 0 0) w) as (w' & E1 & _). rewrite E1 in H1. simplify_eq.
      destruct H2 as [?|[H2 H3]]; [done|]. destruct (lw_ota _ _ _ _ _ Hlaw (mkPartition 0 0) wb) as (w'' & E2 & _). rewrite E2 in H2.
      simplify_eq. destruct Hgood as [_ _ [[] _] _ _ _ _]. lia.
    - apply Hc. split; [done|]. by exists (pk_key whole). }
  injection Hp as <-. injection Hm as <-.
  assert (ap = pk_ap whole ∧ op = pk_op whole) as [-> ->].
  { destruct Hpt as (w2 & H1 & H2). cbn [s0 initial_ota world fst] in H1. destruct (lw_application _ _ _ _ _ Hlaw (mkPartition 0 0) w) as (w' & E1 & _).
    destruct (lw_ota _ _ _ _ _ Hlaw (mkPartition 0 0) w2) as (w'' & E2 & _). rewrite E1 in H1. rewrite E2 in H2. by simplify_eq. }
  assert (field (pk_key whole) 0 91 = pk_key whole) as Hf by (rewrite <-Hkl; apply field_all). rewrite Hf in *. rewrite <-Had in Ha.
  set (pk0 := mkPackage (pk_key whole) (pk_size whole) (pk_ap whole) (pk_op whole) (pk_admission whole) []) in *.
  set (se := new_session _ _ _ _ _ _) in *. 
  assert (receiving pk0 [] Open se) as Hrc by (unfold pk0; rewrite Had; by apply receiving_new).
  assert (ok_world w1 tr) as Hw1.
  { apply (begin_world _ _ _ _ _ _ Hi) in E; [exact E|]. split; [done|]. intros pk ph Hacc. inversion Hacc. }
  assert (accepts (Observed OTA_STATE_RECEIVING :: tr) (Some (pk0, Open))) as Ha'.
  { apply observed_accepts; [exact Ha|]. exists pk0, Open. split; [done|by left]. }
  exists (at_ o g se w1 (Observed OTA_STATE_RECEIVING :: tr)). split.
  - unfold run. change ((run_call SIZE_MAX (Some o) ?c ≫= ?k) s0) with (run_call SIZE_MAX (Some o) c s0 ≫= λ r, let '(a, s') := r in k a s').
    rewrite E, bind_Ok. done.
  - split; [|split; [|split; [done|by exists Open]]].
    + apply (inv_settled (Some o) o g se w1 _ (Some (pk0, Open))); [done|done|done|]. exists pk0, Open. split; [done|exact Hrc].
    + split; [|done]. by apply ok_observed.
Qed.
End good.
