(* ===== verification/OtaSpec.v ===== *)
(** The theorems about the OTA staging engine: what holds on every platform
    (refinement of the specification, meaning of the errors, what precedes an
    access to Flash and an activation) and what a working platform achieves, with
    a platform in memory and a package on which they are instantiated. *)
From S2P Require Import Hmac.
From S2P Require Export OtaComplete.

(** ** A platform in memory *)

(** The OTA partition is a function of the offset, with the boot table. *)
Definition mem_world : Type := (Z → Z) * OTAStagingBootTable.
Definition mem_update (m : Z → Z) (o : Z) (bs : list Z) : Z → Z :=
  λ i, if (o <=? i) && (i <? o + zlen bs) then bs !!! Z.to_nat (i - o) else m i.

Definition mem_calls (ap op : OTAStagingPartition) : platform_calls mem_world := mkCalls
  (λ _ w, (0, ap, w)) (λ _ w, (0, op, w))
  (λ o n '(m, t), (0, (mem_update m o (erased_flash n), t)))
  (λ o bs '(m, t), (0, o + zlen bs, (mem_update m o bs, t)))
  (λ o b n '(m, t), (0, o + n,
     if (0 <=? n) && (n <=? zlen b) then ((λ i, u8 (m i)) <$> seqZ o n) ++ zdrop n b else b, (m, t)))
  (λ w, (0, w)) (λ _ _ _ _ w, (0, w))
  (λ _ '(m, t), (0, t, (m, t))) (λ t '(m, _), (0, (m, t))) (λ _ '(m, t), (0, t, (m, t))).
Definition mem_platform (ap op : OTAStagingPartition) : OTAStagingPlatformOperations mem_world :=
  mkOperations (mem_calls ap op) true.

Definition mem_flash (op : OTAStagingPartition) (w : mem_world) : list Z :=
  (λ i, u8 (fst w i)) <$> seqZ 0 (part_length op).

Lemma zlen_seqZ a n : 0 ≤ n → zlen (seqZ a n) = n.
Proof. intros. unfold zlen. rewrite length_seqZ. lia. Qed.

Lemma seqZ_split a n m : 0 ≤ n → 0 ≤ m → seqZ a (n + m) = seqZ a n ++ seqZ (a + n) m.
Proof. intros. by rewrite seqZ_app. Qed.

Lemma field_seqZ f L o n : 0 ≤ o → 0 ≤ n → o + n ≤ L → field ((f : Z → Z) <$> seqZ 0 L) o n = f <$> seqZ o n.
Proof.
  intros. replace L with (o + (n + (L - o - n))) by lia. rewrite !seqZ_split, !fmap_app by lia.
  unfold field. rewrite zdrop_app_exact by (rewrite zlen_fmap, zlen_seqZ; lia).
  rewrite ztake_app_exact by (rewrite zlen_fmap, zlen_seqZ; lia). by rewrite Z.add_0_l.
Qed.

Lemma fmap_seqZ_ext (f g : Z → Z) a n : (∀ i, a ≤ i < a + n → f i = g i) → f <$> seqZ a n = g <$> seqZ a n.
Proof. intros H. apply list_fmap_ext. intros i x Hx. apply H. apply list_elem_of_lookup_2, elem_of_seqZ in Hx. lia. Qed.

Lemma mem_update_in m o bs : bytes bs → (λ i, u8 (mem_update m o bs i)) <$> seqZ o (zlen bs) = bs.
Proof.
  intros Hb. apply list_eq. intros i. rewrite list_lookup_fmap. destruct (decide (i < length bs)%nat) as [Hi|Hi].
  - rewrite lookup_seqZ_lt by (unfold zlen; lia). cbn. unfold mem_update.
    rewrite (proj2 (Z.leb_le _ _)), (proj2 (Z.ltb_lt _ _)) by (unfold zlen; lia). cbn [andb].
    replace (Z.to_nat (o + Z.of_nat i - o)) with i by lia. rewrite (list_lookup_lookup_total_lt bs i) by lia.
    f_equal. apply u8_id. rewrite Forall_forall in Hb. apply Hb. by apply list_elem_of_lookup_total_2.
  - rewrite (lookup_ge_None_2 bs), (lookup_ge_None_2 (seqZ _ _)) by (rewrite ?length_seqZ; unfold zlen; lia). done.
Qed.

Lemma mem_update_flash op m t o bs : bytes bs → 0 ≤ o → o + zlen bs ≤ part_length op →
  mem_flash op (mem_update m o bs, t) = splice (mem_flash op (m, t)) o bs.
Proof.
  intros Hb Ho Hl. unfold mem_flash. cbn [fst]. pose proof (zlen_nonneg bs).
  replace (part_length op) with (o + (zlen bs + (part_length op - o - zlen bs))) by lia.
  rewrite !seqZ_split, !fmap_app by lia. rewrite Z.add_0_l, mem_update_in by done.
  set (l := (λ i, u8 (m i)) <$> seqZ 0 o). set (a := (λ i, u8 (m i)) <$> seqZ o (zlen bs)).
  assert (zlen l = o) as Hll by (unfold l; rewrite zlen_fmap, zlen_seqZ; lia).
  assert ((λ i, u8 (mem_update m o bs i)) <$> seqZ 0 o = l) as ->.
  { apply fmap_seqZ_ext. intros i Hi. unfold mem_update. by rewrite (proj2 (Z.leb_gt o i)) by lia. }
  pose proof (splice_mid l ((λ i, u8 (m i)) <$> seqZ (o + zlen bs) (part_length op - o - zlen bs)) a bs) as Hs.
  rewrite Hll in Hs. rewrite Hs by (unfold a; rewrite zlen_fmap, zlen_seqZ; lia).
  do 2 f_equal. apply fmap_seqZ_ext. intros i Hi. unfold mem_update.
  by rewrite (proj2 (Z.ltb_ge i (o + zlen bs))), andb_false_r by lia.
Qed.

Lemma erased_bytes n : bytes (erased_flash n).
Proof. apply Forall_replicate. done. Qed.

Lemma zlen_erased n : 0 ≤ n → zlen (erased_flash n) = n.
Proof. intros. unfold erased_flash. rewrite zlen_replicate. lia. Qed.

Lemma mem_typed ap op : well_typed (mem_calls ap op).
Proof.
  intros o b n [m t] r next b' w' H Hb. cbn in H. simplify_eq.
  destruct ((0 <=? n) && (n <=? zlen b)) eqn:E; [|done]. apply andb_true_iff in E as [E1 E2]. apply Z.leb_le in E1, E2. split.
  - rewrite zlen_app, zlen_fmap, zlen_seqZ, zlen_drop by lia. lia.
  - apply Forall_app. split; [|by apply Forall_drop]. apply Forall_fmap, Forall_true. intros i. apply u8_range.
Qed.


Lemma mem_lawful ap op : 0 ≤ part_length op → lawful (mem_calls ap op) ap op (mem_flash op) (λ _, 0).
Proof.
  intros Hop. assert (∀ w, zlen (mem_flash op w) = part_length op) as Hz.
  { intros w. unfold mem_flash. by rewrite zlen_fmap, zlen_seqZ. }
  constructor.
  - intros w. by rewrite Hz.
  - intros x w. by exists w.
  - intros x w. by exists w.
  - intros w. by exists w.
  - intros o n [m t] r w' H. cbn in H. simplify_eq. split; [done|]. intros Ho Hn Hl. split; [done|].
    pose proof (zlen_erased n Hn) as He. rewrite mem_update_flash by (apply erased_bytes || lia). split.
    + apply ztake_splice; rewrite ?Hz; lia.
    + rewrite <-He at 2. etrans; [|by apply (has_field_eq (splice (mem_flash op (m, t)) o (erased_flash n)) o), has_splice; rewrite ?Hz; lia].
      by rewrite He.
  - intros o bs [m t] r next w' H. cbn in H. simplify_eq. split; [done|]. intros Hb Ho Hl _. split_and!; [done..|].
    by apply mem_update_flash.
  - intros o b n [m t] r next b' w' H. cbn in H. simplify_eq. split; [done|]. split; [done|].
    destruct ((0 <=? n) && (n <=? zlen b)) eqn:E.
    + apply andb_true_iff in E as [E1 E2]. apply Z.leb_le in E1, E2. split.
      { rewrite zlen_app, zlen_fmap, zlen_seqZ, zlen_drop by lia. lia. }
      intros Ho _ Hl. split_and!; [done..|]. rewrite ztake_app_exact by (rewrite zlen_fmap, zlen_seqZ; lia).
      symmetry. by apply field_seqZ.
    + split; [done|]. intros Ho [Hn Hnb] Hl. apply Z.leb_le in Hn, Hnb. by rewrite Hn, Hnb in E.
  - intros k n d g w. done.
Qed.

(** ** A sample package *)

Definition sample_key : list Z := PublicKeyPrefix ++ zeros 64.
Definition sample_payload (keyId : list Z) : list Z :=
  [0; 4; 0; 32] ++ [1; 1; 1; 8] ++ zeros 504 ++ sample_descriptor keyId ++ zeros 232.
Definition sample_package (keyId digest : list Z) : package :=
  mkPackage sample_key 1384 sample_application sample_ota_partition true
    (sample_header keyId digest ++ zeros 64 ++ sample_payload keyId).

Section sample.
Context (keyId digest : list Z) (Hk : zlen keyId = 32) (Hd : zlen digest = 32).

Lemma sample_parts : pk_header (sample_package keyId digest) = sample_header keyId digest ∧
  pk_payload (sample_package keyId digest) = sample_payload keyId ∧ pk_digest (sample_package keyId digest) = digest.
Proof using Hk Hd. rewrite (list_entries keyId 32 Hk), (list_entries digest 32 Hd). split_and!; reflexivity. Qed.

Lemma sample_good : bytes keyId → bytes digest → Fips.sha256 sample_key = keyId → Fips.sha256 (sample_payload keyId) = digest →
  good_package (sample_package keyId digest) (sample_metadata digest).
Proof using Hk Hd.
  intros Hkb Hdb Hkey Hdig. destruct sample_parts as (Hh & Hp & Hg).
  destruct (sample_valid keyId digest Hk Hd) as (_ & Hid & Hv).
  assert (zlen (pk_received (sample_package keyId digest)) = 1384) as Hl.
  { rewrite (list_entries keyId 32 Hk), (list_entries digest 32 Hd). reflexivity. }
  constructor.
  - split; [done|]. unfold UINT32_MAX. cbn. lia.
  - apply Forall_app_2; [by apply sample_header_bytes|]. apply Forall_app_2; [apply zeros_bytes|].
    repeat apply Forall_app_2; try done; by apply (bool_decide_eq_true_1 _).
  - unfold pk_valid. by rewrite Hh.
  - unfold pk_key_matches. by rewrite Hh, Hid, <-Hkey.
  - unfold vectors_ok. rewrite Hp. unfold pk_length. rewrite Hh.
    rewrite (list_entries keyId 32 Hk), (list_entries digest 32 Hd). split_and!; done.
  - by rewrite Hp, Hg.
  - rewrite Hp, Hh. rewrite (list_entries keyId 32 Hk), (list_entries digest 32 Hd). reflexivity.
Qed.
End sample.

(** * What every accepted trace guarantees *)

(** The signature of the package's header was verified with the package's key in [tr]. *)
Definition verified (pk : package) (tr : list event) : Prop :=
  384 ≤ zlen (pk_received pk) ∧ pk_key_matches pk ∧ (∃ md, pk_valid pk md) ∧
  Verified (pk_key pk) (Fips.sha256 (pk_header pk)) (pk_signature pk) 0 ∈ tr.

(** What is known of a session in each phase. *)
Definition known (pk : package) (ph : phase) (tr : list event) : Prop :=
  match ph with
  | Open | Stopped => True
  | Previous rd _ => verified pk tr ∧ read_back_ok pk rd
  | Candidate c _ => verified pk tr ∧ ∃ rd, read_back_ok pk rd ∧ c = candidate_table pk rd
  | Restore t => verified pk tr
  | Activated => verified pk tr ∧ ∃ rd, read_back_ok pk rd ∧ BootPersisted 0 (candidate_table pk rd) ∈ tr
  | _ => verified pk tr
  end.

Lemma verified_later pk tr e : verified pk tr → verified pk (e :: tr).
Proof. intros (? & ? & ? & ?). split_and!; try done. by apply list_elem_of_further. Qed.

Lemma verified_offer pk tr bs : verified pk tr → verified (pk_offer bs pk) tr.
Proof.
  intros (Hl & Hk & (md & Hv) & Hin). assert (pk_header (pk_offer bs pk) = pk_header pk) as Hh by (apply header_offer; lia).
  assert (pk_signature (pk_offer bs pk) = pk_signature pk) as Hs by (unfold pk_signature; cbn; by rewrite field_app by lia).
  pose proof (zlen_nonneg bs). split_and!.
  - cbn. rewrite zlen_app. lia.
  - unfold pk_key_matches. by rewrite Hh.
  - exists md. unfold pk_valid. by rewrite Hh.
  - by rewrite Hh, Hs.
Qed.

Lemma known_later pk ph tr e : known pk ph tr → known pk ph (e :: tr).
Proof.
  destruct ph; cbn; intros; destruct_and?; eauto using verified_later.
  match goal with H : ∃ _, _ |- _ => destruct H as (rd & ? & ?) end. split; [by apply verified_later|].
  exists rd. split; [done|]. by apply list_elem_of_further.
Qed.

Lemma accepts_known tr σ : accepts tr σ → ∀ pk ph, σ = Some (pk, ph) → known pk ph tr.
Proof.
  induction 1 as [|e tr σ σ' Ha IH Hs]; [done|]. intros pk ph ->.
  assert (∀ pk0 ph0, σ = Some (pk0, ph0) → known pk0 ph0 (e :: tr)) as IH' by (intros; apply known_later; by apply IH).
  inversion Hs; subst; try (specialize (IH' _ _ eq_refl); cbn in IH'); try done; eauto;
    repeat match goal with |- context [if ?b then _ else _] => destruct b eqn:?E end; try done; try (by split).
  - match goal with H : _ ∨ _ |- _ => destruct H as [->|(? & ? & ->)] end; [done|]. by apply verified_offer.
  - apply Z.eqb_eq in E. subst r. cbn. unfold verified. split_and!; [done..|by exists md|left].
  - apply Z.eqb_eq in E. subst r. cbn. unfold verified. split_and!; [done..|by exists md|left].
  - match goal with H : reading _ _ _ |- _ => by destruct H as [->|(-> & -> & _)] end.
  - destruct IH' as [? ?]. split; [done|]. by exists rd.
  - split; [apply IH'|]. destruct IH' as (_ & rd & Hr & ->). exists rd. split; [done|left].
  - by destruct IH' as [? _].
Qed.

(** The session of [pk] began with its key, size and partitions. *)
Definition begun (pk : package) (tr : list event) : Prop :=
  Begun (pk_key pk) (pk_size pk) (pk_ap pk) (pk_op pk) (pk_admission pk) ∈ tr.

Lemma accepts_begun tr σ : accepts tr σ → ∀ pk ph, σ = Some (pk, ph) → begun pk tr.
Proof.
  induction 1 as [|e tr σ σ' _ IH Hs]; [done|]. intros pk ph ->. unfold begun in *.
  inversion Hs; subst; try (apply list_elem_of_further; by eapply (IH _ _ eq_refl)). left.
Qed.

Lemma accepts_app tr2 tr1 σ : accepts (tr2 ++ tr1) σ → ∃ σ', accepts tr1 σ'.
Proof.
  revert σ. induction tr2 as [|e tr2 IH]; intros σ H; [by exists σ|]. inversion H; subst. by eapply IH.
Qed.

(** The range of Flash an event touches. *)
Definition flash_range (e : event) : option (Z * Z) :=
  match e with
  | Erased o n _ => Some (o, n)
  | Written o bs _ _ => Some (o, zlen bs)
  | Read o n _ _ _ => Some (o, n)
  | _ => None
  end.

(** * The theorems *)

(** A client makes the calls [cs] from the first on, with results [es]. *)
Definition reaches {W} SIZE_MAX (dp : option (OTAStagingPlatformOperations W)) (cs : list (command W)) (w : W)
    (es : list OTAStagingError) (s : ota (traced_world W)) : Prop :=
  run_all SIZE_MAX dp cs (initial_ota (w, [])) = Ok (es, s).

Section any_platform.
Context {W : Type} (SIZE_MAX : Z) (Hsize : UINT32_MAX ≤ SIZE_MAX).
Context (dp : option (OTAStagingPlatformOperations W)) (Hdp : ∀ p, dp = Some p → well_typed (calls p)).

Lemma run_all_accepts cs w : Forall (valid_command SIZE_MAX) cs →
  ∃ es s σ, reaches SIZE_MAX dp cs w es s ∧ length es = length cs ∧
    inv dp s ∧ accepts (trace s) σ ∧ observable σ (st_state (status (session s))).
Proof using Hsize Hdp.
  intros Hv. destruct (wp_inv _ _ _ (run_all_spec SIZE_MAX Hsize dp Hdp cs _ (inv_initial dp w) Hv)) as (es & s & E & Hi & Hl).
  destruct (inv_observable dp s Hi) as (σ & Ha & Ho & _). by exists es, s, σ.
Qed.
End any_platform.

(** The calls that deliver a package in the chunks [cs]. *)
Definition delivery {W} (whole : package) (adm : option (OTAStagingMetadata → W → Z * W)) (canc : option (W → Z * W))
    (cs : list (list Z)) : list (command W) :=
  Begin (pk_size whole) (Some (pk_key whole)) 91 adm canc :: ((λ c, Write (Some c) (zlen c)) <$> cs) ++ [Finish true].

(** C1: whatever the platform answers and whatever calls a client makes, the
    engine terminates without an access outside its buffers, returns a result for
    every call, and what it did is a trace of the specification [step]; the
    states the client observed on the way are those of the specification. *)
Theorem OTA_engine_refines {W} SIZE_MAX (dp : option (OTAStagingPlatformOperations W)) cs w :
  UINT32_MAX ≤ SIZE_MAX → (∀ p, dp = Some p → well_typed (calls p)) → Forall (valid_command SIZE_MAX) cs →
  ∃ es s σ, reaches SIZE_MAX dp cs w es s ∧ length es = length cs ∧
    accepts (trace s) σ ∧ observable σ (st_state (status (session s))).
Proof.
  intros Hs Hd Hv. destruct (run_all_accepts SIZE_MAX Hs dp Hd cs w Hv) as (es & s & σ & ? & ? & _ & ? & ?). by exists es, s, σ.
Qed.

(** C10: after any calls, a further call either succeeds, and then its state and
    arguments allowed it and it has the effect of its operation ([effect]: the
    session begun with the partitions the platform reports, the bytes received,
    the image published under the next generation, the boot table persisted, the
    cancellation), or it returns an error that says which of its arguments, the
    state, the conditions of the format in their order, the package received so
    far or the last answers of the platform and the callbacks was wrong, and
    leaves the session stopped with that error or unchanged ([means]). In
    particular OTAStagingActivate answers OTA_ERROR_INVALID_ARGUMENT exactly when
    its generation and digest are not those of the image that is ready. *)
Theorem OTA_errors_meaning {W} SIZE_MAX (dp : option (OTAStagingPlatformOperations W)) cs c w :
  UINT32_MAX ≤ SIZE_MAX → (∀ p, dp = Some p → well_typed (calls p)) → Forall (valid_command SIZE_MAX) cs → valid_command SIZE_MAX c →
  ∃ es s e s', reaches SIZE_MAX dp cs w es s ∧ run_call SIZE_MAX dp c s = Ok (e, s') ∧
    (e = OTA_OK → effect dp s c s') ∧ (e ≠ OTA_OK → means dp s c e s').
Proof.
  intros Hs Hd Hv Hc. destruct (run_all_accepts SIZE_MAX Hs dp Hd cs w Hv) as (es & s & σ & E & _ & Hi & _).
  destruct (wp_inv _ _ _ (run_call_spec SIZE_MAX Hs dp Hd c s Hi Hc)) as (e & s' & E' & _ & Hm & He). by exists es, s, e, s'.
Qed.

(** C3: whatever happens, an event that touches Flash lies within the payload of
    the package of the current session (the one the trace so far determines),
    which fits the OTA partition the platform reported when that session began, and
    comes after the signature of that package's header was verified with the key
    OTAStagingBegin was given for it. *)
Theorem OTA_flash_safe {W} SIZE_MAX (dp : option (OTAStagingPlatformOperations W)) cs w :
  UINT32_MAX ≤ SIZE_MAX → (∀ p, dp = Some p → well_typed (calls p)) → Forall (valid_command SIZE_MAX) cs →
  ∃ es s, reaches SIZE_MAX dp cs w es s ∧
    ∀ tr2 e tr1 off n, trace s = tr2 ++ e :: tr1 → flash_range e = Some (off, n) →
      ∃ pk ph, accepts tr1 (Some (pk, ph)) ∧ begun pk tr1 ∧ verified pk tr1 ∧
        0 ≤ off ∧ 0 < n ∧ off + n ≤ pk_length pk ≤ part_length (pk_op pk).
Proof.
  intros Hs Hd Hv. destruct (run_all_accepts SIZE_MAX Hs dp Hd cs w Hv) as (es & s & σ & E & _ & _ & Ha & _).
  exists es, s. split; [done|]. intros tr2 e tr1 off n Ht Hr. rewrite Ht in Ha. apply accepts_app in Ha as (σ1 & Ha).
  inversion Ha as [|e0 tr0 σ0 ? Ha0 Hst]; subst.
  assert (∀ pk, verified pk tr1 → pk_length pk ≤ part_length (pk_op pk)) as Hl.
  { intros pk (_ & _ & (md & [] & _) & _). unfold pk_length. lia. }
  inversion Hst; subst; try done; cbn in Hr; simplify_eq; pose proof (accepts_known _ _ Ha0 _ _ eq_refl) as Hk;
    pose proof (accepts_begun _ _ Ha0 _ _ eq_refl) as Hb; eexists pk, _; (split; [exact Ha0|]); (split; [exact Hb|]).
  - split; [done|]. specialize (Hl _ Hk). lia.
  - assert (Hk' := Hk). destruct Hk' as (H384 & _ & (md & [] & _) & _). split; [done|]. specialize (Hl _ Hk).
    match goal with H : pk_payload pk = _ |- _ => apply (f_equal zlen) in H; rewrite !zlen_app in H; unfold pk_payload in H;
      rewrite zlen_drop in H by lia end.
    pose proof (zlen_nonneg rest). pose proof (zlen_nonneg w0). unfold pk_length in *. lia.
  - assert (verified pk tr1) as Hk' by (match goal with H : reading _ _ _ |- _ => by destruct H as [->|(-> & -> & _)] end).
    split; [done|]. specialize (Hl _ Hk'). pose proof (zlen_nonneg rd). lia.
Qed.

(** C2: whatever happens, a session is only ACTIVATED if the signature of its
    header was verified with the key given to OTAStagingBegin, an image was read
    back from the OTA partition that has the digest of the signed header, and the
    boot table that describes this image was read back after it was written. *)
Theorem OTA_activation_authentic {W} SIZE_MAX (dp : option (OTAStagingPlatformOperations W)) cs w :
  UINT32_MAX ≤ SIZE_MAX → (∀ p, dp = Some p → well_typed (calls p)) → Forall (valid_command SIZE_MAX) cs →
  ∃ es s, reaches SIZE_MAX dp cs w es s ∧
    (st_state (status (session s)) = OTA_STATE_ACTIVATED →
      ∃ pk rd, accepts (trace s) (Some (pk, Activated)) ∧ verified pk (trace s) ∧ read_back_ok pk rd ∧
        BootPersisted 0 (candidate_table pk rd) ∈ trace s).
Proof.
  intros Hs Hd Hv. destruct (run_all_accepts SIZE_MAX Hs dp Hd cs w Hv) as (es & s & σ & E & _ & _ & Ha & Ho).
  exists es, s. split; [done|]. intros Hst. rewrite Hst in Ho. destruct Ho as (pk & ->).
  destruct (accepts_known _ _ Ha _ _ eq_refl) as (Hk & rd & Hr & Hp). by exists pk, rd.
Qed.

(** C9: however a good package is cut into chunks, on a platform whose Flash and
    clock work and that accepts its signature, and with callbacks that admit it
    and do not cancel, every call from OTAStagingBegin to OTAStagingFinish
    returns OTA_OK, the session is ready, and the OTA partition starts with the
    payload. *)
Theorem OTA_staging_complete {W} (o : OTAStagingPlatformOperations W) flash clock whole md adm canc SIZE_MAX cs w :
  good_package whole md → lawful (calls o) (pk_ap whole) (pk_op whole) flash clock → complete o = true → well_typed (calls o) →
  (∀ w, fst (verifySignature (calls o) (pk_key whole) 91 (Fips.sha256 (pk_header whole)) (pk_signature whole) w) = 0) →
  (∀ f w, adm = Some f → fst (f md w) ≠ 0) →
  (∀ f m w, adm = Some f → flash (snd (f m w)) = flash w ∧ clock (snd (f m w)) = clock w) →
  (∀ f w, canc = Some f → fst (f w) = 0 ∧ flash (snd (f w)) = flash w ∧ clock (snd (f w)) = clock w) →
  UINT32_MAX ≤ SIZE_MAX → zlen (pk_key whole) = 91 → bytes (pk_key whole) → field (pk_key whole) 0 27 = PublicKeyPrefix →
  pk_admission whole = bool_decide (is_Some adm) → concat cs = pk_received whole →
  ∃ s, reaches SIZE_MAX (Some o) (delivery whole adm canc cs) w (replicate (2 + length cs) OTA_OK) s ∧
    st_state (status (session s)) = OTA_STATE_READY ∧
    ztake (pk_length whole) (flash (fst (world s))) = pk_payload whole ∧
    ∃ rd, accepts (trace s) (Some (whole, Checking rd)) ∧ read_back_ok whole rd.
Proof.
  intros Hg Hlaw Hc Ht Hsig Ha Haw Hcn HS Hkl Hkb Hkp Had Hcs.
  destruct (good_begin o flash clock whole md Hg Hlaw Hc Hsig adm canc Ha Haw Hcn SIZE_MAX HS Ht w Hkl Hkb Hkp Had) as (s1 & H1 & Hr1).
  set (pk0 := mkPackage _ _ _ _ _ []) in *.
  assert (pk_offer (concat cs) pk0 = whole) as Hof by (rewrite Hcs; unfold pk_offer, pk0; cbn; by destruct whole).
  destruct (good_writes o flash clock whole md Hg Hlaw Hc Hsig adm canc Ha Haw Hcn SIZE_MAX HS Ht cs pk0 s1 Hr1) as (s2 & H2 & Hr2).
  { rewrite Hof. exists []. unfold pk_offer. rewrite app_nil_r. by destruct whole. }
  rewrite Hof in Hr2.
  destruct (good_finish o flash clock whole md Hg Hlaw Hc Hsig adm canc Ha Haw Hcn SIZE_MAX HS Ht s2 Hr2) as (s3 & H3 & _ & Hst & Hf & Hrd).
  exists s3. split; [|by split_and!]. unfold reaches, delivery. cbn [run_all]. cbv [mbind prog_bind]. rewrite H1. cbn [outcome_bind].
  cbv [mbind]. rewrite (run_all_app SIZE_MAX (Some o) _ [Finish true] s1 _ s2 H2). cbn [run_all]. cbv [mbind prog_bind]. rewrite H3. cbn.
  f_equal. f_equal. by rewrite <-replicate_S_end.
Qed.

(** ** Instances on the platform in memory *)

Definition sample_platform : OTAStagingPlatformOperations mem_world := mem_platform sample_application sample_ota_partition.
Definition sample_world : mem_world := (λ _, 0, mkBootTable 0 0 (zeros 8) 0 0 0 (zeros 4)).
Definition sample_whole : package :=
  sample_package (Fips.sha256 sample_key) (Fips.sha256 (sample_payload (Fips.sha256 sample_key))).
Definition sample_admission : option (OTAStagingMetadata → mem_world → Z * mem_world) := Some (λ _ w, (1, w)).
Definition sample_chunks : list (list Z) := [ztake 100 (pk_received sample_whole); zdrop 100 (pk_received sample_whole)].
Definition sample_commands : list (command mem_world) :=
  [Begin 1384 (Some sample_key) 91 None None; Write (Some (zeros 10)) 10; Finish true; Abort].
Definition sample_activate : command mem_world := Activate 1 (Some (zeros 32)).

Lemma sample_key_bytes : bytes sample_key.
Proof. by apply (bool_decide_eq_true_1 _). Qed.

Lemma sample_typed p : Some sample_platform = Some p → well_typed (calls p).
Proof. intros [= <-]. apply mem_typed. Qed.

Lemma sample_command : Forall (valid_command UINT32_MAX) sample_commands.
Proof.
  assert (UINT32_MAX = 4294967295) as E by done. repeat apply Forall_cons_2; cbn; rewrite ?E; try done.
  - split; [lia|]. split; [done|apply sample_key_bytes].
  - split; [lia|]. split; [done|apply zeros_bytes].
Qed.

Lemma sample_whole_good : good_package sample_whole (sample_metadata (Fips.sha256 (sample_payload (Fips.sha256 sample_key)))).
Proof.
  assert (∀ m, zlen (Fips.sha256 m) = 32) as Hl by (intros m; apply length_sha256).
  exact (sample_good _ _ (Hl _) (Hl _) (sha256_bytes _) (sha256_bytes _) eq_refl eq_refl).
Qed.

Lemma OTA_engine_refines_witness :
  ∃ es s σ, reaches UINT32_MAX (Some sample_platform) sample_commands sample_world es s ∧
    length es = length sample_commands ∧ accepts (trace s) σ ∧ observable σ (st_state (status (session s))).
Proof.
  apply (OTA_engine_refines UINT32_MAX (Some sample_platform) sample_commands sample_world);
    [reflexivity|exact sample_typed|exact sample_command].
Defined.

Lemma OTA_errors_meaning_witness :
  ∃ es s e s', reaches UINT32_MAX (Some sample_platform) sample_commands sample_world es s ∧
    run_call UINT32_MAX (Some sample_platform) sample_activate s = Ok (e, s') ∧
    (e = OTA_OK → effect (Some sample_platform) s sample_activate s') ∧ (e ≠ OTA_OK → means (Some sample_platform) s sample_activate e s').
Proof.
  apply (OTA_errors_meaning UINT32_MAX (Some sample_platform) sample_commands sample_activate sample_world);
    [reflexivity|exact sample_typed|exact sample_command|discriminate].
Defined.

Lemma OTA_flash_safe_witness :
  ∃ es s, reaches UINT32_MAX (Some sample_platform) sample_commands sample_world es s ∧
    ∀ tr2 e tr1 off n, trace s = tr2 ++ e :: tr1 → flash_range e = Some (off, n) →
      ∃ pk ph, accepts tr1 (Some (pk, ph)) ∧ begun pk tr1 ∧ verified pk tr1 ∧
        0 ≤ off ∧ 0 < n ∧ off + n ≤ pk_length pk ≤ part_length (pk_op pk).
Proof.
  apply (OTA_flash_safe UINT32_MAX (Some sample_platform) sample_commands sample_world);
    [reflexivity|exact sample_typed|exact sample_command].
Defined.

Lemma OTA_activation_authentic_witness :
  ∃ es s, reaches UINT32_MAX (Some sample_platform) sample_commands sample_world es s ∧
    (st_state (status (session s)) = OTA_STATE_ACTIVATED →
      ∃ pk rd, accepts (trace s) (Some (pk, Activated)) ∧ verified pk (trace s) ∧ read_back_ok pk rd ∧
        BootPersisted 0 (candidate_table pk rd) ∈ trace s).
Proof.
  apply (OTA_activation_authentic UINT32_MAX (Some sample_platform) sample_commands sample_world);
    [reflexivity|exact sample_typed|exact sample_command].
Defined.

Lemma OTA_staging_complete_witness :
  ∃ s, reaches UINT32_MAX (Some sample_platform) (delivery sample_whole sample_admission None sample_chunks) sample_world
         (replicate (2 + length sample_chunks) OTA_OK) s ∧
    st_state (status (session s)) = OTA_STATE_READY ∧
    ztake (pk_length sample_whole) (mem_flash sample_ota_partition (fst (world s))) = pk_payload sample_whole ∧
    ∃ rd, accepts (trace s) (Some (sample_whole, Checking rd)) ∧ read_back_ok sample_whole rd.
Proof.
  apply (OTA_staging_complete sample_platform (mem_flash sample_ota_partition) (λ _, 0) sample_whole
    (sample_metadata (Fips.sha256 (sample_payload (Fips.sha256 sample_key)))) sample_admission None UINT32_MAX sample_chunks sample_world).
  - exact sample_whole_good.
  - apply mem_lawful. cbn. lia.
  - reflexivity.
  - apply mem_typed.
  - intros w. reflexivity.
  - intros f w [= <-]. discriminate.
  - intros f m w [= <-]. by split.
  - intros f w H. discriminate H.
  - reflexivity.
  - reflexivity.
  - exact sample_key_bytes.
  - reflexivity.
  - reflexivity.
  - unfold sample_chunks. cbn [concat]. rewrite app_nil_r. apply take_drop.
Defined.
