(* ===== verification/Float32.v ===== *)
(** Single-precision arithmetic as the sensor code uses it: the IEEE 754
    operations of the Standard Library at 24 bits of mantissa, comparisons, and
    conversions from and to the integers. *)
From Stdlib Require Export SpecFloat.
From S2P Require Export Prelude.

Abbreviation f32 := spec_float.
Definition f32_mul : f32 → f32 → f32 := SFmul 24 128.
Definition f32_div : f32 → f32 → f32 := SFdiv 24 128.
Definition f32_add : f32 → f32 → f32 := SFadd 24 128.

(** The conversion of an integer. *)
Definition f32_of_Z (z : Z) : f32 := binary_normalize 24 128 z 0 false.

(** The integer part of a number; a conversion out of the range of the integer
    type is undefined. *)
Definition f32_trunc (x : f32) : option Z :=
  match x with
  | S754_zero _ => Some 0
  | S754_finite s m e => let n := if 0 <=? e then Z.pos m * 2 ^ e else Z.pos m / 2 ^ (- e) in Some (if s then - n else n)
  | S754_infinity _ | S754_nan => None
  end.
Definition f32_to_int (lo hi : Z) (x : f32) : outcome Z :=
  match f32_trunc x with
  | Some z => if (lo <=? z) && (z <=? hi) then Ok z else Ub IntOverflow
  | None => Ub IntOverflow
  end.

(** The order of the represented numbers; a comparison with NaN is false. *)
Definition f32_num (x : f32) (e0 : Z) : Z :=
  match x with
  | S754_finite s m e => (if s then -1 else 1) * (Z.pos m * 2 ^ (e - e0))
  | _ => 0
  end.
Definition f32_exp (x : f32) : Z := match x with S754_finite _ _ e => e | _ => 0 end.
Definition f32_lt (x y : f32) : bool :=
  match x, y with
  | S754_nan, _ | _, S754_nan => false
  | S754_infinity s, S754_infinity t => s && negb t
  | S754_infinity s, _ => s
  | _, S754_infinity t => negb t
  | _, _ => let e0 := Z.min (f32_exp x) (f32_exp y) in f32_num x e0 <? f32_num y e0
  end.
Definition f32_le (x y : f32) : bool :=
  match x, y with
  | S754_nan, _ | _, S754_nan => false
  | _, _ => negb (f32_lt y x)
  end.

(** * Results that are numbers *)
Definition is_num (x : f32) : Prop := x ≠ S754_nan.
Definition is_finite (x : f32) : Prop := match x with S754_zero _ | S754_finite _ _ _ => True | _ => False end.

Lemma shr_1_nonneg r : 0 ≤ shr_m r → 0 ≤ shr_m (shr_1 r).
Proof. destruct r as [[|[]|] ? ?]; cbn; lia. Qed.

Lemma iter_pos_nonneg p r : 0 ≤ shr_m r → 0 ≤ shr_m (SpecFloat.iter_pos shr_1 p r).
Proof. revert r. induction p; intros r Hr; cbn; auto using shr_1_nonneg. Qed.

Lemma shr_fexp_nonneg m e l : 0 ≤ m → 0 ≤ shr_m (shr_fexp 24 128 m e l).1.
Proof.
  intros Hm. unfold shr_fexp, shr. assert (0 ≤ shr_m (shr_record_of_loc m l)) as Hr by (by destruct l as [|[]]).
  destruct (_ - e); cbn; [done|by apply iter_pos_nonneg|done].
Qed.

Lemma binary_round_aux_num s m e l : 0 ≤ m → is_num (binary_round_aux 24 128 s m e l).
Proof.
  intros Hm. unfold binary_round_aux. pose proof (shr_fexp_nonneg m e l Hm) as H1.
  destruct (shr_fexp 24 128 m e l) as [r e1]. cbn in H1.
  assert (0 ≤ round_nearest_even (shr_m r) (loc_of_shr_record r)) as H2.
  { unfold round_nearest_even. destruct (loc_of_shr_record r) as [|[]]; try lia. destruct (Z.even _); lia. }
  pose proof (shr_fexp_nonneg _ e1 loc_Exact H2) as H3. destruct (shr_fexp _ _ _ e1 loc_Exact) as [r2 e2]. cbn in H3.
  destruct (shr_m r2); [done| |lia]. by destruct (_ <=? _).
Qed.

Lemma binary_normalize_num m e s : is_num (binary_normalize 24 128 m e s).
Proof. destruct m; [done|..]; cbn; unfold binary_round; destruct (shl_align _ _ _); by apply binary_round_aux_num. Qed.

Lemma mul_num x y : is_finite x → is_finite y → is_num (f32_mul x y).
Proof. destruct x, y; try done. intros _ _. by apply binary_round_aux_num. Qed.

Lemma div_num x y : is_num x → (∃ s m e, y = S754_finite s m e) → is_num (f32_div x y).
Proof.
  intros Hx (s & m & e & ->). destruct x as [| | |sx mx ex]; try done. cbn. unfold SFdiv_core_binary.
  set (m' := match _ with Zpos _ => _ | Z0 => _ | Zneg _ => _ end).
  assert (0 ≤ m') as Hm.
  { unfold m'. destruct (_ - _ - _); [lia| |lia]. by apply Z.shiftl_nonneg. }
  pose proof (Z_div_mod m' (Z.pos m) ltac:(lia)) as Hd. destruct (Z.div_eucl m' (Z.pos m)) as [q r].
  apply binary_round_aux_num. nia.
Qed.

Lemma add_num x y : is_num x → is_finite y → is_num (f32_add x y).
Proof.
  destruct x as [[]|[]| |], y as [[]| | |]; try done; intros _ _; apply binary_normalize_num.
Qed.

Lemma mul_const x s m e : is_num x → is_num (f32_mul x (S754_finite s m e)).
Proof. destruct x; try done. intros _. by apply binary_round_aux_num. Qed.

(** A number that is neither below [0] nor above [b] has its integer part in between. *)
Lemma trunc_between x b p k : 0 ≤ k → Z.pos p = b * 2 ^ k → is_num x →
  f32_lt (S754_finite false p (- k)) x = false → f32_lt x (S754_zero false) = false →
  ∃ z, f32_trunc x = Some z ∧ 0 ≤ z ≤ b.
Proof.
  intros Hk Hp Hn Hgt Hlt. assert (0 < 2 ^ k) as H2k by (apply Z.pow_pos_nonneg; lia).
  assert (0 < b) as Hb by nia. destruct x as [s|s| |s m e]; [by exists 0; split; [done|lia]|by destruct s|done|].
  unfold f32_lt, f32_num, f32_exp in Hgt, Hlt. apply Z.ltb_ge in Hgt, Hlt. set (e0 := Z.min (- k) e) in *.
  destruct s.
  { assert (0 < 2 ^ (e - Z.min e 0)) by (apply Z.pow_pos_nonneg; lia). nia. }
  clear Hlt. cbn. eexists. split; [done|]. rewrite Hp, <-Z.mul_assoc, <-Z.pow_add_r in Hgt by lia.
  replace (k + (- k - e0)) with (- e0) in Hgt by lia.
  assert (Z.pos m * 2 ^ (e - e0) ≤ b * 2 ^ (- e0)) as Hle by lia. clear Hgt.
  destruct (Z.leb_spec 0 e).
  - replace (e - e0) with (e + - e0) in Hle by lia. rewrite Z.pow_add_r, Z.mul_assoc in Hle by lia.
    assert (0 < 2 ^ (- e0)) by (apply Z.pow_pos_nonneg; lia). assert (0 < 2 ^ e) by (apply Z.pow_pos_nonneg; lia). nia.
  - assert (0 < 2 ^ (- e)) as He by (apply Z.pow_pos_nonneg; lia). split; [by apply Z.div_pos|].
    apply Z.div_le_upper_bound; [done|]. replace (- e0) with (- e + (e - e0)) in Hle by lia.
    rewrite Z.pow_add_r in Hle by lia. assert (0 < 2 ^ (e - e0)) by (apply Z.pow_pos_nonneg; lia). nia.
Qed.

(** * Conversions of integers of up to 24 bits *)
Lemma digits2_size p : digits2_pos p = Pos.size p.
Proof. by induction p as [p IH|p IH|]; cbn; rewrite ?IH. Qed.

Lemma digits2_shift p k : digits2_pos (Pos.iter xO p k) = (digits2_pos p + k)%positive.
Proof.
  induction k as [|k IH] using Pos.peano_ind; [by rewrite Pos.add_1_r|].
  rewrite Pos.iter_succ. cbn. by rewrite IH, Pos.add_succ_r.
Qed.

Lemma shr_fexp_exact m e : Zdigits2 m = 24 → - 149 ≤ e →
  shr_fexp 24 128 m e loc_Exact = (Build_shr_record m false false, e).
Proof.
  intros Hd He. unfold shr_fexp, fexp, SpecFloat.emin. rewrite Hd, Z.max_l by lia.
  by replace (24 + e - 24 - e) with 0 by lia.
Qed.

Lemma binary_round_aux_exact s m e : Zdigits2 (Z.pos m) = 24 → - 149 ≤ e ≤ 104 →
  binary_round_aux 24 128 s (Z.pos m) e loc_Exact = S754_finite s m e.
Proof.
  intros Hd He. unfold binary_round_aux. rewrite shr_fexp_exact by (done || lia).
  cbn [shr_m loc_of_shr_record round_nearest_even]. rewrite shr_fexp_exact by (done || lia).
  cbn [shr_m]. by rewrite (proj2 (Z.leb_le _ _)) by lia.
Qed.

Lemma digits2_bound p : Z.pos p < 2 ^ 24 → Z.pos (digits2_pos p) ≤ 24.
Proof.
  intros Hp. rewrite digits2_size. pose proof (Pos.size_le p) as Hs.
  destruct (Z.le_gt_cases (Z.pos (Pos.size p)) 24) as [|Hgt]; [done|].
  assert (2 ^ 25 ≤ 2 ^ Z.pos (Pos.size p)) by (apply Z.pow_le_mono_r; lia).
  assert (2 ^ Z.pos (Pos.size p) ≤ Z.pos (xO p)) by (rewrite <-Pos2Z.inj_pow; lia). lia.
Qed.

(** An integer of up to 24 bits is represented exactly, with a full mantissa. *)
Lemma binary_round_small s p : Z.pos p < 2 ^ 24 → ∃ m e, binary_round 24 128 s p 0 = S754_finite s m e ∧
  Z.pos m = Z.pos p * 2 ^ (- e) ∧ Zdigits2 (Z.pos m) = 24 ∧ - 24 ≤ e ≤ 0.
Proof.
  intros Hp. pose proof (digits2_bound p Hp) as Hd.
  unfold binary_round, shl_align. unfold fexp at 1, SpecFloat.emin at 1. rewrite Z.max_l by lia.
  replace (Z.pos (digits2_pos p) + 0 - 24 - 0) with (Z.pos (digits2_pos p) - 24) by lia.
  destruct (Z.pos (digits2_pos p) - 24) as [|k|k] eqn:Ek; [|lia|].
  - exists p, 0. split; [apply binary_round_aux_exact; [cbn; lia|lia]|]. split; [lia|]. split; [cbn; lia|lia].
  - assert (Zdigits2 (Z.pos (Pos.iter xO p k)) = 24) as H24.
    { change (Z.pos (digits2_pos (Pos.iter xO p k)) = 24). rewrite digits2_shift. lia. }
    assert (fexp 24 128 (Z.pos (digits2_pos p) + 0) = Z.neg k) as Hf by (unfold fexp, SpecFloat.emin; lia).
    exists (Pos.iter xO p k), (Z.neg k). rewrite Hf. split; [apply binary_round_aux_exact; [done|lia]|].
    split; [|split; [done|lia]]. change (- Z.neg k) with (Z.pos k). clear.
    induction k as [|k IH] using Pos.peano_ind; [cbn; lia|].
    rewrite Pos.iter_succ, Pos2Z.inj_succ, Z.pow_succ_r by lia. rewrite Pos2Z.inj_xO, IH. lia.
Qed.

Lemma of_Z_exact z : z ≠ 0 → Z.abs z < 2 ^ 24 → ∃ m e, f32_of_Z z = S754_finite (z <? 0) m e ∧
  Z.pos m = Z.abs z * 2 ^ (- e) ∧ Zdigits2 (Z.pos m) = 24 ∧ - 24 ≤ e ≤ 0.
Proof. intros Hz Hb. destruct z as [|p|p]; [done|..]; by apply binary_round_small. Qed.

Lemma of_Z_nonzero z : z ≠ 0 → Z.abs z < 2 ^ 24 → ∃ s m e, f32_of_Z z = S754_finite s m e.
Proof. intros Hz Hb. destruct (of_Z_exact z Hz Hb) as (m & e & -> & _). by eexists _, _, _. Qed.

Lemma of_Z_finite z : Z.abs z < 2 ^ 24 → is_finite (f32_of_Z z).
Proof.
  intros Hb. destruct (decide (z = 0)) as [->|Hz]; [done|]. by destruct (of_Z_nonzero z Hz Hb) as (s & m & e & ->).
Qed.

(** Zero times, over and plus numbers. *)
Lemma mul_zero x : is_finite x → ∃ s, f32_mul (S754_zero false) x = S754_zero s.
Proof. destruct x; try done; intros _; by eexists. Qed.
Lemma div_zero s y : (∃ t m e, y = S754_finite t m e) → ∃ s', f32_div (S754_zero s) y = S754_zero s'.
Proof. intros (t & m & e & ->). by eexists. Qed.
Lemma add_zero s z : Z.abs z < 2 ^ 24 → f32_add (S754_zero s) (f32_of_Z z) = f32_of_Z z ∨ z = 0 ∧ ∃ t, f32_add (S754_zero s) (f32_of_Z z) = S754_zero t.
Proof.
  intros Hb. destruct (decide (z = 0)) as [->|Hz]; [right; split; [done|]; destruct s; by eexists|left].
  destruct (of_Z_nonzero z Hz Hb) as (t & m & e & ->). by destruct s.
Qed.

(** Division of such a number by [2 ^ 12] subtracts 12 from the exponent. *)
Lemma div_4096 s m e : Zdigits2 (Z.pos m) = 24 → - 100 ≤ e ≤ 0 →
  f32_div (S754_finite s m e) (f32_of_Z 4096) = S754_finite s m (e - 12).
Proof.
  intros Hd He. change (f32_of_Z 4096) with (S754_finite false 8388608 (-11)). cbn [f32_div]. unfold f32_div, SFdiv.
  rewrite xorb_false_r. unfold SFdiv_core_binary. rewrite Hd. change (Zdigits2 8388608) with 24.
  unfold fexp at 1 2 3, SpecFloat.emin.
  replace (Z.min (Z.max (24 + e - (24 + -11) - 24) (3 - 128 - 24)) (e - -11)) with (e - 13) by lia.
  replace (e - -11 - (e - 13)) with 24 by lia. rewrite Z.shiftl_mul_pow2 by lia.
  assert (Z.div_eucl (Z.pos m * 2 ^ 24) 8388608 = (Z.pos m~0, 0)) as ->.
  { pose proof (Z_div_mod (Z.pos m * 2 ^ 24) 8388608 ltac:(lia)) as Hx. destruct (Z.div_eucl _ _) as [q r]. f_equal; lia. }
  change (new_location 8388608 0) with loc_Exact. unfold binary_round_aux.
  assert (shr_fexp 24 128 (Z.pos m~0) (e - 13) loc_Exact = (Build_shr_record (Z.pos m) false false, e - 12)) as ->.
  { unfold shr_fexp, fexp, SpecFloat.emin. assert (Zdigits2 (Z.pos m~0) = 25) as -> by (cbn in *; lia).
    replace (Z.max (25 + (e - 13) - 24) (3 - 128 - 24) - (e - 13)) with 1 by lia. cbn. f_equal. lia. }
  cbn [shr_m loc_of_shr_record round_nearest_even]. rewrite shr_fexp_exact by (done || lia). cbn [shr_m].
  by rewrite (proj2 (Z.leb_le _ _)) by lia.
Qed.

(** * Rounding *)
Lemma shr_1_div r : 0 ≤ shr_m r → shr_m (shr_1 r) = shr_m r / 2.
Proof.
  destruct r as [[|[p|p|]|] ? ?]; cbn [shr_m shr_1]; intros Hr; try lia; try done.
  - rewrite (Pos2Z.inj_xI p). dlia.
  - rewrite (Pos2Z.inj_xO p). dlia.
Qed.

Lemma iter_shr_div p r : 0 ≤ shr_m r → shr_m (SpecFloat.iter_pos shr_1 p r) = shr_m r / 2 ^ Z.pos p.
Proof.
  revert r. induction p as [p IH|p IH|]; intros r Hr; cbn [SpecFloat.iter_pos].
  - assert (0 ≤ shr_m (shr_1 r)) as H1 by (by apply shr_1_nonneg).
    rewrite IH, IH, shr_1_div by (try done; by apply iter_pos_nonneg).
    rewrite !Zdiv_Zdiv by (apply Z.pow_nonneg || lia; lia). f_equal.
    rewrite Pos2Z.inj_xI, Z.pow_add_r, Z.pow_mul_r, Z.pow_2_r by lia. 
    replace (2 ^ 2) with (2 * 2) by done. rewrite Z.pow_mul_l. lia.
  - rewrite IH, IH by (try done; by apply iter_pos_nonneg). rewrite Zdiv_Zdiv by (apply Z.pow_nonneg; lia). f_equal.
    rewrite <-Z.pow_add_r by lia. f_equal. lia.
  - by rewrite shr_1_div.
Qed.

Lemma digits2_range p : 2 ^ (Z.pos (digits2_pos p) - 1) ≤ Z.pos p < 2 ^ Z.pos (digits2_pos p).
Proof.
  rewrite digits2_size. pose proof (Pos.size_gt p) as H1. pose proof (Pos.size_le p) as H2.
  assert (Z.pos (2 ^ Pos.size p) = 2 * 2 ^ (Z.pos (Pos.size p) - 1)) as E.
  { rewrite Pos2Z.inj_pow, <-Z.pow_succ_r by lia. f_equal. lia. }
  split; [|rewrite <-Pos2Z.inj_pow; lia]. change (2 ^ Pos.size p <= p~0)%positive in H2. lia.
Qed.

(** Rounding a mantissa of [24 + n] digits keeps the number to a unit of [2 ^ n]. *)
Lemma binary_round_aux_close s m e n : Zdigits2 (Z.pos m) = 24 + n → 0 ≤ n → - 149 ≤ e + n → e + n < 104 →
  ∃ m' e', binary_round_aux 24 128 s (Z.pos m) e loc_Exact = S754_finite s m' e' ∧ e ≤ e' ∧
    Z.abs (Z.pos m' * 2 ^ (e' - e) - Z.pos m) ≤ 2 ^ n.
Proof.
  intros Hd Hn Hlo Hhi. destruct (decide (n = 0)) as [->|Hn0].
  { exists m, e. rewrite binary_round_aux_exact by lia. rewrite Z.sub_diag. split; [done|]. lia. }
  unfold binary_round_aux. unfold shr_fexp at 1. rewrite Hd. unfold fexp, SpecFloat.emin.
  replace (Z.max (24 + n + e - 24) (3 - 128 - 24) - e) with n by lia. destruct n as [|n|]; try lia. cbn [shr].
  pose proof (iter_shr_div n (shr_record_of_loc (Z.pos m) loc_Exact) ltac:(done)) as Hq. cbn [shr_m shr_record_of_loc] in Hq.
  destruct (SpecFloat.iter_pos shr_1 n _) as [q rr ss] eqn:Eq. cbn [shr_m] in Hq. clear Eq.
  pose proof (digits2_range m) as Hr. change (Z.pos (digits2_pos m)) with (Zdigits2 (Z.pos m)) in Hr. rewrite Hd in Hr.
  replace (24 + Z.pos n - 1) with (23 + Z.pos n) in Hr by lia. rewrite !Z.pow_add_r in Hr by lia.
  assert (0 < 2 ^ Z.pos n) as H2n by (by apply Z.pow_pos_nonneg).
  assert (2 ^ 23 ≤ q < 2 ^ 24) as Hqr by (split; subst q; [apply Z.div_le_lower_bound|apply Z.div_lt_upper_bound]; lia).
  pose proof (Z.div_mod (Z.pos m) (2 ^ Z.pos n) ltac:(lia)) as Hdm. rewrite <-Hq in Hdm.
  pose proof (Z.mod_pos_bound (Z.pos m) (2 ^ Z.pos n) H2n) as Hmod.
  cbn [shr_m]. set (q' := round_nearest_even q _).
  assert (q' = q ∨ q' = q + 1) as Hq'.
  { unfold q', round_nearest_even. repeat case_match; lia. }
  destruct (decide (q' = 2 ^ 24)) as [E|E].
  - rewrite E. exists 8388608%positive, (e + Z.pos n + 1). unfold shr_fexp, fexp, SpecFloat.emin. change (Zdigits2 (2 ^ 24)) with 25.
    replace (Z.max (25 + (e + Z.pos n) - 24) (3 - 128 - 24) - (e + Z.pos n)) with 1 by lia. cbn.
    rewrite (proj2 (Z.leb_le _ _)) by lia. split; [done|]. split; [lia|].
    replace (e + Z.pos n + 1 - e) with (1 + Z.pos n) by lia. rewrite Z.pow_add_r by lia. lia.
  - destruct q' as [|p|]; [lia| |lia]. exists p, (e + Z.pos n).
    assert (Zdigits2 (Z.pos p) = 24) as Hp.
    { pose proof (digits2_range p) as Hrp. change (Zdigits2 (Z.pos p)) with (Z.pos (digits2_pos p)).
      destruct (Z.lt_trichotomy (Z.pos (digits2_pos p)) 24) as [Hl|[->|Hl]]; [|done|].
      - assert (2 ^ Z.pos (digits2_pos p) ≤ 2 ^ 23) by (apply Z.pow_le_mono_r; lia). lia.
      - assert (2 ^ 24 ≤ 2 ^ (Z.pos (digits2_pos p) - 1)) by (apply Z.pow_le_mono_r; lia). lia. }
    rewrite shr_fexp_exact by (done || lia). cbn [shr_m]. rewrite (proj2 (Z.leb_le _ _)) by lia.
    split; [done|]. split; [lia|]. replace (e + Z.pos n - e) with (Z.pos n) by lia. lia.
Qed.

(** The product of two nonzero integers is neither zero, infinite nor NaN, and has
    the sign of the product. *)
Lemma mul_nonzero x y : x ≠ 0 → y ≠ 0 → Z.abs x < 2 ^ 24 → Z.abs y < 2 ^ 24 →
  ∃ m e, f32_mul (f32_of_Z x) (f32_of_Z y) = S754_finite (x * y <? 0) m e.
Proof.
  intros Hx Hy Hbx Hby. destruct (of_Z_exact x Hx Hbx) as (mx & ex & -> & _ & Hdx & Hex).
  destruct (of_Z_exact y Hy Hby) as (my & ey & -> & _ & Hdy & Hey). unfold f32_mul, SFmul.
  assert (xorb (x <? 0) (y <? 0) = (x * y <? 0)) as ->.
  { destruct (Z.ltb_spec x 0), (Z.ltb_spec y 0), (Z.ltb_spec (x * y) 0); cbn; try done; nia. }
  pose proof (digits2_range mx) as Hr1. pose proof (digits2_range my) as Hr2. pose proof (digits2_range (mx * my)) as Hr.
  change (Z.pos (digits2_pos mx)) with (Zdigits2 (Z.pos mx)) in Hr1. change (Z.pos (digits2_pos my)) with (Zdigits2 (Z.pos my)) in Hr2.
  rewrite Hdx in Hr1. rewrite Hdy in Hr2. set (d := Z.pos (digits2_pos (mx * my))) in *.
  assert (47 ≤ d ≤ 48) as Hd.
  { split; apply Z.nlt_ge; intros Hlt.
    - assert (2 ^ d ≤ 2 ^ 46) by (apply Z.pow_le_mono_r; lia). nia.
    - assert (2 ^ 48 ≤ 2 ^ (d - 1)) by (apply Z.pow_le_mono_r; lia). nia. }
  destruct (binary_round_aux_close (x * y <? 0) (mx * my) (ex + ey) (d - 24)) as (m & e & -> & _);
    [cbn; fold d; lia|lia..|]. by exists m, e.
Qed.

(** * Products that are cut to integers *)

(** The product with a constant [ms * 2 ^ es] loses less than one part in [2 ^ 23]. *)
Lemma mul_trunc x ms es : x ≠ 0 → Z.abs x ≤ 2 ^ 15 → Zdigits2 (Z.pos ms) = 24 → - 60 ≤ es ≤ 0 →
  let N := Z.abs x * Z.pos ms in let D := 2 ^ (- es) in
  ∃ v, f32_trunc (f32_mul (f32_of_Z x) (S754_finite false ms es)) = Some (Z.sgn x * v) ∧ 0 ≤ v ∧
    2 ^ 23 * (v * D - N) ≤ N ∧ 2 ^ 23 * (N - v * D) < N + 2 ^ 23 * D.
Proof.
  intros Hx Hb Hms Hes N D. destruct (of_Z_exact x Hx ltac:(lia)) as (mx & ex & -> & Hmx & Hdx & Hex).
  unfold f32_mul, SFmul. rewrite xorb_false_r.
  pose proof (digits2_range mx) as Hr1. pose proof (digits2_range ms) as Hr2. pose proof (digits2_range (mx * ms)) as Hr.
  change (Z.pos (digits2_pos mx)) with (Zdigits2 (Z.pos mx)) in Hr1. change (Z.pos (digits2_pos ms)) with (Zdigits2 (Z.pos ms)) in Hr2.
  rewrite Hdx in Hr1. rewrite Hms in Hr2. set (d := Z.pos (digits2_pos (mx * ms))) in *.
  assert (47 ≤ d ≤ 48) as Hd.
  { split; apply Z.nlt_ge; intros Hlt.
    - assert (2 ^ d ≤ 2 ^ 46) by (apply Z.pow_le_mono_r; lia). nia.
    - assert (2 ^ 48 ≤ 2 ^ (d - 1)) by (apply Z.pow_le_mono_r; lia). nia. }
  destruct (binary_round_aux_close (x <? 0) (mx * ms) (ex + es) (d - 24)) as (m' & e' & -> & He' & Hclose); [cbn; fold d; lia|lia..|].
  assert (2 ^ 23 * 2 ^ (d - 24) ≤ Z.pos (mx * ms)) as Hulp by (rewrite <-Z.pow_add_r by lia; replace (23 + (d - 24)) with (d - 1) by lia; lia).
  set (A := Z.pos m' * 2 ^ (e' - (ex + es))) in *. assert (0 < 2 ^ (- (ex + es))) as HE by (apply Z.pow_pos_nonneg; lia).
  exists (A / 2 ^ (- (ex + es))).
  assert ((if 0 <=? e' then Z.pos m' * 2 ^ e' else Z.pos m' / 2 ^ (- e')) = A / 2 ^ (- (ex + es))) as Ev.
  { unfold A. destruct (Z.leb_spec 0 e').
    - replace (e' - (ex + es)) with (e' + - (ex + es)) by lia. rewrite Z.pow_add_r, Z.mul_assoc, Z.div_mul by lia. done.
    - replace (- (ex + es)) with (- e' + (e' - (ex + es))) by lia. rewrite (Z.pow_add_r 2 (- e')) by lia.
      rewrite Z.div_mul_cancel_r; [done|..]; apply Z.pow_nonzero; lia. }
  split; [|split].
  - cbn [f32_trunc]. rewrite Ev. f_equal. destruct (Z.ltb_spec x 0); [rewrite Z.sgn_neg by lia|rewrite Z.sgn_pos by lia]; lia.
  - apply Z.div_pos; [|done]. unfold A. apply Z.mul_nonneg_nonneg; [lia|]. apply Z.pow_nonneg; lia.
  - assert (Z.pos (mx * ms) = N * 2 ^ (- ex)) as EN by (unfold N; rewrite Pos2Z.inj_mul, Hmx; lia).
    assert (2 ^ (- (ex + es)) = 2 ^ (- ex) * D) as EE by (unfold D; rewrite <-Z.pow_add_r by lia; f_equal; lia).
    pose proof (Z.div_mod A (2 ^ (- (ex + es))) ltac:(lia)) as Hdm. pose proof (Z.mod_pos_bound A (2 ^ (- (ex + es))) HE) as Hmod.
    set (v := A / _) in *. assert (0 < 2 ^ (- ex)) as Hx2 by (apply Z.pow_pos_nonneg; lia). rewrite EE in *. rewrite EN in *.
    split; [apply (Z.mul_le_mono_pos_r _ _ (2 ^ (- ex))); [done|lia]|apply (Z.mul_lt_mono_pos_r (2 ^ (- ex))); [done|lia]].
Qed.
