(* ===== verification/SensorBus.v ===== *)
(** The bus the sensor drivers talk to, and what they rely on.

    A driver reaches its device through two functions, a read and a write of
    consecutive registers; [Bus] is their interface (the I2C calls behind them are
    outside the repository). [dev] is a computation of a driver. [Registers] says
    what a device promises: its registers are bytes in [cell]s, [place] tells which
    cell an address reaches, a cell in [stored] keeps what is written to it; the
    bus may fail at any time. *)
From S2P Require Export Memory.

(** [io_read r bs n] stores [n] registers from [r] on over [bs], [io_write r bs]
    writes; both return 0 if they succeed. *)
Class Bus (W : Type) := {
  io_read : Z → list Z → Z → W → Z * list Z * W;
  io_write : Z → list Z → W → Z * W }.

(** A computation on a state. *)
Definition dev (S A : Type) : Type := S → outcome (A * S).
#[export] Instance dev_ret {S} : MRet (dev S) := λ A a s, Ok (a, s).
#[export] Instance dev_bind {S} : MBind (dev S) := λ A B f m s, '(a, s) ← m s; f a s.
Definition checked {S A} (m : outcome A) : dev S A := λ s, a ← m; Ok (a, s).

(** * Weakest preconditions *)
Section dwp.
Context {S : Type}.
Implicit Types (s : S).

(** [m] is defined on [s], and its result and final state satisfy [Q]. *)
Definition dwp {A} (m : dev S A) (Q : A → S → Prop) s : Prop :=
  match m s with Ok (a, s) => Q a s | Ub _ => False end.

Lemma dwp_mono {A} (m : dev S A) Q R s : dwp m Q s → (∀ a s, Q a s → R a s) → dwp m R s.
Proof. unfold dwp. destruct (m s) as [[a s']|]; auto. Qed.

Lemma dwp_inv {A} (m : dev S A) Q s : dwp m Q s → ∃ a s', m s = Ok (a, s') ∧ Q a s'.
Proof. unfold dwp. destruct (m s) as [[a s']|]; [|done]. by exists a, s'. Qed.

Lemma dwp_ret {A} (a : A) Q s : Q a s → dwp (mret a) Q s.
Proof. done. Qed.

Lemma dwp_bind {A B} (m : dev S A) (f : A → dev S B) Q s : dwp m (λ a, dwp (f a) Q) s → dwp (m ≫= f) Q s.
Proof.
  unfold dwp. change ((m ≫= f) s) with (m s ≫= λ r, let '(a, s') := r in f a s').
  by destruct (m s) as [[a s']|].
Qed.

Lemma dwp_checked {A B} (m : outcome A) a (f : A → dev S B) Q s : m = Ok a → dwp (f a) Q s → dwp (checked m ≫= f) Q s.
Proof. by intros ->. Qed.

Lemma dwp_lift {A} (m : outcome A) a Q s : m = Ok a → Q a s → dwp (checked m) Q s.
Proof. by intros ->. Qed.
End dwp.

(** [switch (x) { case c: a; break; ... default: d; }]. *)
Fixpoint switch {A} (x : Z) (cases : list (Z * A)) (d : A) : A :=
  match cases with
  | [] => d
  | (c, a) :: cases => if x =? c then a else switch x cases d
  end.

(** * Devices *)
Section registers.
Context {W : Type} `{Bus W}.

Definition bus_read (r : Z) (bs : list Z) (n : Z) : dev W (Z * list Z) := λ w, Ok (io_read r bs n w).
Definition bus_write (r : Z) (bs : list Z) : dev W Z := λ w, Ok (io_write r bs w).

(** The cells of the addresses from [r] on. *)
Definition touches (place : (Z → Z) → Z → Z) (c : Z → Z) (r n a : Z) : Prop :=
  ∃ i, 0 ≤ i < n ∧ a = place c (r + i).

Class Registers (place : (Z → Z) → Z → Z) (stored : Z → Prop) := {
  cell : W → Z → Z;
  cell_byte w a : is_u8 (cell w a);
  read_law r bs n w rc bs' w' : io_read r bs n w = (rc, bs', w') → zlen bs = n → bytes bs →
    zlen bs' = n ∧ bytes bs' ∧ (∀ a, stored a → cell w' a = cell w a) ∧
    (rc = 0 → ∀ i, 0 ≤ i < n → bs' !! Z.to_nat i = Some (cell w (place (cell w) (r + i))));
  write_law r bs w rc w' : io_write r bs w = (rc, w') → bytes bs →
    (∀ a, stored a → ¬ touches place (cell w) r (zlen bs) a → cell w' a = cell w a) ∧
    (rc = 0 → ∀ i b, bs !! Z.to_nat i = Some b → 0 ≤ i → let a := place (cell w) (r + i) in stored a → cell w' a = b) }.

(** Every stored cell but [a] is as before. *)
Definition unchanged `{Registers place stored} (a : Z) (w w' : W) : Prop :=
  ∀ b, stored b → b ≠ a → cell w' b = cell w b.
Definition same_cells `{Registers place stored} (w w' : W) : Prop :=
  ∀ b, stored b → cell w' b = cell w b.
End registers.

Section same.
Context {W : Type} `{Registers W place stored}.
Implicit Types (w : W).

Lemma same_cells_refl w : same_cells w w.
Proof. by intros b. Qed.
Lemma same_cells_trans w1 w2 w3 : same_cells w1 w2 → same_cells w2 w3 → same_cells w1 w3.
Proof. intros H1 H2 b Hb. by rewrite H2, H1. Qed.
Lemma same_unchanged a w w' : same_cells w w' → unchanged a w w'.
Proof. intros Hs b Hb _. by apply Hs. Qed.
Lemma unchanged_trans a w1 w2 w3 : unchanged a w1 w2 → unchanged a w2 w3 → unchanged a w1 w3.
Proof. intros H1 H2 b Hb Hn. by rewrite H2, H1. Qed.
End same.

(** Lists of bytes, and members of a list that is written out. *)
Ltac byte_list := repeat first [apply Forall_nil; done | apply Forall_cons; split; [by apply u8_range || done|]].

Ltac in_list := repeat first [apply list_elem_of_here | apply list_elem_of_further].

(** * Buses *)
Section buses.
Context (W : Type) `{Bus W}.

(** No read fails; everything fails; nothing answers. *)
Definition reliable : Prop := ∀ r bs n (w : W), (io_read r bs n w).1.1 = 0.
Definition dead : Prop := (∀ r bs n (w : W), (io_read r bs n w).1.1 ≠ 0) ∧ (∀ r bs (w : W), (io_write r bs w).1 ≠ 0).
Definition silent : Prop := dead ∧ ∀ r bs n (w : W), (io_read r bs n w).1.2 = bs.
End buses.

(** A bus without a device. *)
#[export] Instance cut_bus : Bus () := {
  io_read r bs n w := (1, bs, w);
  io_write r bs w := (1, w) }.

#[export] Instance cut_registers place : Registers (W := ()) place (λ _, True).
Proof.
  refine {| cell := λ _ _, 0 |}; [done|..].
  - by intros r bs n w rc bs' w' [= <- <- <-].
  - by intros r bs w rc w' [= <- <-].
Defined.

(** A device whose registers keep everything, on a bus that works; a write that
    would reach a register twice is refused. *)
Record chip (place : (Z → Z) → Z → Z) := Chip { regs : Z → Z }.
Arguments Chip {place} regs.
Arguments regs {place} c.

Section chip.
Context (place : (Z → Z) → Z → Z).
Implicit Types (c : chip place).

Fixpoint store (p : Z → Z) (r : Z) (bs : list Z) (f : Z → Z) : Z → Z :=
  match bs with
  | [] => f
  | b :: bs => store p (r + 1) bs (λ a, if a =? p r then b else f a)
  end.

Definition chip_cell c (a : Z) : Z := u8 (regs c a).

#[export] Instance chip_bus : Bus (chip place) := {
  io_read r bs n c := (0, (λ i, chip_cell c (place (chip_cell c) (r + i))) <$> seqZ 0 n, c);
  io_write r bs c :=
    if bool_decide (NoDup (place (chip_cell c) <$> seqZ r (zlen bs)))
    then (0, Chip (store (place (chip_cell c)) r bs (regs c))) else (1, c) }.

Lemma store_other p r bs f a : a ∉ p <$> seqZ r (zlen bs) → store p r bs f a = f a.
Proof.
  revert r f. induction bs as [|b bs IH]; intros r f Ha; [done|]. cbn. pose proof (zlen_nonneg bs).
  rewrite zlen_cons, seqZ_cons in Ha by lia. cbn in Ha. apply not_elem_of_cons in Ha as [Hr Ha].
  rewrite IH; [by rewrite (proj2 (Z.eqb_neq _ _))|].
  by replace (Z.pred (1 + zlen bs)) with (zlen bs) in Ha by lia.
Qed.

Lemma store_at p r bs f i b : NoDup (p <$> seqZ r (zlen bs)) → 0 ≤ i → bs !! Z.to_nat i = Some b →
  store p r bs f (p (r + i)) = b.
Proof.
  revert r f i. induction bs as [|b' bs IH]; intros r f i Hd Hi Hb; [done|]. cbn. pose proof (zlen_nonneg bs).
  rewrite zlen_cons, seqZ_cons in Hd by lia. cbn in Hd. apply NoDup_cons in Hd as [Hn Hd].
  replace (Z.pred (1 + zlen bs)) with (zlen bs) in * by lia.
  destruct (decide (i = 0)) as [->|Hne].
  - change (Some b' = Some b) in Hb. simplify_eq. rewrite Z.add_0_r, store_other; [by rewrite Z.eqb_refl|done].
  - replace (r + i) with (Z.succ r + (i - 1)) by lia. apply IH; [done|lia|].
    replace (Z.to_nat i) with (S (Z.to_nat (i - 1))) in Hb by lia. done.
Qed.

#[export] Instance chip_registers : Registers (W := chip place) place (λ _, True).
Proof.
  refine {| cell := chip_cell |}.
  - intros w a. apply u8_range.
  - intros r bs n w rc bs' w'. cbn. intros [= <- <- <-] Hz Hb. split; [|split; [|split]].
    + rewrite zlen_fmap. unfold zlen. rewrite length_seqZ. pose proof (zlen_nonneg bs). lia.
    + apply Forall_fmap, Forall_true. intros i. apply u8_range.
    + done.
    + intros _ i Hi. by rewrite list_lookup_fmap, lookup_seqZ_lt, Z.add_0_l, Z2Nat.id by lia.
  - intros r bs w rc w'. cbn. case_bool_decide as Hd; intros [= <- <-] Hb; [|done]. split.
    + intros a _ Ha. unfold chip_cell. cbn. f_equal. apply store_other. intros (x & -> & Hx)%list_elem_of_fmap.
      apply elem_of_seqZ in Hx. apply Ha. exists (x - r). split; [lia|]. f_equal. lia.
    + intros _ i b Hi Hi0 _. unfold chip_cell at 1. cbn. rewrite (store_at _ _ _ _ i b) by done.
      apply u8_id. by apply (Forall_lookup_1 _ _ _ _ Hb Hi).
Defined.
End chip.

(** * Fields of a register *)

(** [old] with the bits of [mask] replaced by [v]. *)
Definition set_bits (mask v old : Z) : Z := Z.lor (Z.land old (Z.lnot mask)) v.

(** [v] has no bit outside [mask]. *)
Definition within (mask v : Z) : Prop := Z.land v (Z.lnot mask) = 0.

#[export] Instance within_dec mask v : Decision (within mask v).
Proof. unfold within. apply _. Defined.

Lemma within_bits mask v i : within mask v → 0 ≤ i → Z.testbit v i = true → Z.testbit mask i = true.
Proof.
  intros Hw Hi Hv. destruct (Z.testbit mask i) eqn:E; [done|]. exfalso.
  assert (Z.testbit (Z.land v (Z.lnot mask)) i = true) as Ht by (by rewrite Z.land_spec, Z.lnot_spec, Hv, E).
  rewrite Hw, Z.bits_0 in Ht. done.
Qed.

Lemma set_bits_read mask v old : within mask v → Z.land (set_bits mask v old) mask = v.
Proof.
  intros Hw. apply Z.bits_inj'. intros i Hi. unfold set_bits.
  rewrite Z.land_spec, Z.lor_spec, Z.land_spec, Z.lnot_spec by done.
  pose proof (within_bits mask v i Hw Hi) as Hv.
  destruct (Z.testbit v i); [rewrite (Hv eq_refl)|]; by destruct (Z.testbit mask i), (Z.testbit old i).
Qed.

Lemma set_bits_other mask v old m : within mask v → Z.land mask m = 0 → Z.land (set_bits mask v old) m = Z.land old m.
Proof.
  intros Hw Hm. apply Z.bits_inj'. intros i Hi. unfold set_bits.
  rewrite !Z.land_spec, Z.lor_spec, Z.land_spec, Z.lnot_spec by done.
  assert (Z.testbit mask i && Z.testbit m i = false) as Hz by (by rewrite <-Z.land_spec, Hm, Z.bits_0).
  pose proof (within_bits mask v i Hw Hi) as Hv. destruct (Z.testbit v i); [rewrite (Hv eq_refl) in Hz |- *|]; revert Hz;
    destruct (Z.testbit mask i), (Z.testbit m i), (Z.testbit old i); cbn; done.
Qed.

Lemma set_bits_byte mask v old : is_u8 old → is_u8 v → is_u8 (set_bits mask v old).
Proof.
  intros Ho Hv. unfold is_u8, set_bits. apply (lor_range 8); [done| |done]. rewrite Z.land_comm. by apply (land_range 8).
Qed.

Lemma land_lnot_byte old mask : is_u8 old → is_u8 (Z.land old (Z.lnot mask)).
Proof. intros Ho. unfold is_u8. rewrite Z.land_comm. by apply (land_range 8). Qed.
