(* ===== verification/Lsm6dslRegs.v ===== *)
(** LSM6DSL_acc_gyro_driver.h: the register addresses, the masks and positions of
    the fields, and the enumerations of their values. An enumeration of C is the
    list of its enumerators. *)
From S2P Require Export SensorBus.

Definition LSM6DSL_ACC_GYRO_I2C_ADDRESS_LOW : Z := 212.
Definition LSM6DSL_ACC_GYRO_I2C_ADDRESS_HIGH : Z := 214.
Definition LSM6DSL_ACC_GYRO_WHO_AM_I : Z := 106.
Definition LSM6DSL_ACC_GYRO_FUNC_CFG_ACCESS : Z := 1.
Definition LSM6DSL_ACC_GYRO_SENSOR_SYNC_TIME : Z := 4.
Definition LSM6DSL_ACC_GYRO_SENSOR_RES_RATIO : Z := 5.
Definition LSM6DSL_ACC_GYRO_FIFO_CTRL1 : Z := 6.
Definition LSM6DSL_ACC_GYRO_FIFO_CTRL2 : Z := 7.
Definition LSM6DSL_ACC_GYRO_FIFO_CTRL3 : Z := 8.
Definition LSM6DSL_ACC_GYRO_FIFO_CTRL4 : Z := 9.
Definition LSM6DSL_ACC_GYRO_FIFO_CTRL5 : Z := 10.
Definition LSM6DSL_ACC_GYRO_DRDY_PULSE_CFG_G : Z := 11.
Definition LSM6DSL_ACC_GYRO_INT1_CTRL : Z := 13.
Definition LSM6DSL_ACC_GYRO_INT2_CTRL : Z := 14.
Definition LSM6DSL_ACC_GYRO_WHO_AM_I_REG : Z := 15.
Definition LSM6DSL_ACC_GYRO_CTRL1_XL : Z := 16.
Definition LSM6DSL_ACC_GYRO_CTRL2_G : Z := 17.
Definition LSM6DSL_ACC_GYRO_CTRL3_C : Z := 18.
Definition LSM6DSL_ACC_GYRO_CTRL4_C : Z := 19.
Definition LSM6DSL_ACC_GYRO_CTRL5_C : Z := 20.
Definition LSM6DSL_ACC_GYRO_CTRL6_G : Z := 21.
Definition LSM6DSL_ACC_GYRO_CTRL7_G : Z := 22.
Definition LSM6DSL_ACC_GYRO_CTRL8_XL : Z := 23.
Definition LSM6DSL_ACC_GYRO_CTRL9_XL : Z := 24.
Definition LSM6DSL_ACC_GYRO_CTRL10_C : Z := 25.
Definition LSM6DSL_ACC_GYRO_MASTER_CONFIG : Z := 26.
Definition LSM6DSL_ACC_GYRO_WAKE_UP_SRC : Z := 27.
Definition LSM6DSL_ACC_GYRO_TAP_SRC : Z := 28.
Definition LSM6DSL_ACC_GYRO_D6D_SRC : Z := 29.
Definition LSM6DSL_ACC_GYRO_STATUS_REG : Z := 30.
Definition LSM6DSL_ACC_GYRO_OUT_TEMP_L : Z := 32.
Definition LSM6DSL_ACC_GYRO_OUT_TEMP_H : Z := 33.
Definition LSM6DSL_ACC_GYRO_OUTX_L_G : Z := 34.
Definition LSM6DSL_ACC_GYRO_OUTX_H_G : Z := 35.
Definition LSM6DSL_ACC_GYRO_OUTY_L_G : Z := 36.
Definition LSM6DSL_ACC_GYRO_OUTY_H_G : Z := 37.
Definition LSM6DSL_ACC_GYRO_OUTZ_L_G : Z := 38.
Definition LSM6DSL_ACC_GYRO_OUTZ_H_G : Z := 39.
Definition LSM6DSL_ACC_GYRO_OUTX_L_XL : Z := 40.
Definition LSM6DSL_ACC_GYRO_OUTX_H_XL : Z := 41.
Definition LSM6DSL_ACC_GYRO_OUTY_L_XL : Z := 42.
Definition LSM6DSL_ACC_GYRO_OUTY_H_XL : Z := 43.
Definition LSM6DSL_ACC_GYRO_OUTZ_L_XL : Z := 44.
Definition LSM6DSL_ACC_GYRO_OUTZ_H_XL : Z := 45.
Definition LSM6DSL_ACC_GYRO_SENSORHUB1_REG : Z := 46.
Definition LSM6DSL_ACC_GYRO_SENSORHUB2_REG : Z := 47.
Definition LSM6DSL_ACC_GYRO_SENSORHUB3_REG : Z := 48.
Definition LSM6DSL_ACC_GYRO_SENSORHUB4_REG : Z := 49.
Definition LSM6DSL_ACC_GYRO_SENSORHUB5_REG : Z := 50.
Definition LSM6DSL_ACC_GYRO_SENSORHUB6_REG : Z := 51.
Definition LSM6DSL_ACC_GYRO_SENSORHUB7_REG : Z := 52.
Definition LSM6DSL_ACC_GYRO_SENSORHUB8_REG : Z := 53.
Definition LSM6DSL_ACC_GYRO_SENSORHUB9_REG : Z := 54.
Definition LSM6DSL_ACC_GYRO_SENSORHUB10_REG : Z := 55.
Definition LSM6DSL_ACC_GYRO_SENSORHUB11_REG : Z := 56.
Definition LSM6DSL_ACC_GYRO_SENSORHUB12_REG : Z := 57.
Definition LSM6DSL_ACC_GYRO_FIFO_STATUS1 : Z := 58.
Definition LSM6DSL_ACC_GYRO_FIFO_STATUS2 : Z := 59.
Definition LSM6DSL_ACC_GYRO_FIFO_STATUS3 : Z := 60.
Definition LSM6DSL_ACC_GYRO_FIFO_STATUS4 : Z := 61.
Definition LSM6DSL_ACC_GYRO_FIFO_DATA_OUT_L : Z := 62.
Definition LSM6DSL_ACC_GYRO_FIFO_DATA_OUT_H : Z := 63.
Definition LSM6DSL_ACC_GYRO_TIMESTAMP0_REG : Z := 64.
Definition LSM6DSL_ACC_GYRO_TIMESTAMP1_REG : Z := 65.
Definition LSM6DSL_ACC_GYRO_TIMESTAMP2_REG : Z := 66.
Definition LSM6DSL_ACC_GYRO_TIMESTAMP_L : Z := 73.
Definition LSM6DSL_ACC_GYRO_TIMESTAMP_H : Z := 74.
Definition LSM6DSL_ACC_GYRO_STEP_COUNTER_L : Z := 75.
Definition LSM6DSL_ACC_GYRO_STEP_COUNTER_H : Z := 76.
Definition LSM6DSL_ACC_GYRO_SENSORHUB13_REG : Z := 77.
Definition LSM6DSL_ACC_GYRO_SENSORHUB14_REG : Z := 78.
Definition LSM6DSL_ACC_GYRO_SENSORHUB15_REG : Z := 79.
Definition LSM6DSL_ACC_GYRO_SENSORHUB16_REG : Z := 80.
Definition LSM6DSL_ACC_GYRO_SENSORHUB17_REG : Z := 81.
Definition LSM6DSL_ACC_GYRO_SENSORHUB18_REG : Z := 82.
Definition LSM6DSL_ACC_GYRO_FUNC_SRC : Z := 83.
Definition LSM6DSL_ACC_GYRO_TAP_CFG1 : Z := 88.
Definition LSM6DSL_ACC_GYRO_TAP_THS_6D : Z := 89.
Definition LSM6DSL_ACC_GYRO_INT_DUR2 : Z := 90.
Definition LSM6DSL_ACC_GYRO_WAKE_UP_THS : Z := 91.
Definition LSM6DSL_ACC_GYRO_WAKE_UP_DUR : Z := 92.
Definition LSM6DSL_ACC_GYRO_FREE_FALL : Z := 93.
Definition LSM6DSL_ACC_GYRO_MD1_CFG : Z := 94.
Definition LSM6DSL_ACC_GYRO_MD2_CFG : Z := 95.
Definition LSM6DSL_ACC_GYRO_OUT_MAG_RAW_X_L : Z := 102.
Definition LSM6DSL_ACC_GYRO_OUT_MAG_RAW_X_H : Z := 103.
Definition LSM6DSL_ACC_GYRO_OUT_MAG_RAW_Y_L : Z := 104.
Definition LSM6DSL_ACC_GYRO_OUT_MAG_RAW_Y_H : Z := 105.
Definition LSM6DSL_ACC_GYRO_OUT_MAG_RAW_Z_L : Z := 106.
Definition LSM6DSL_ACC_GYRO_OUT_MAG_RAW_Z_H : Z := 107.
Definition LSM6DSL_ACC_GYRO_X_OFS_USR : Z := 115.
Definition LSM6DSL_ACC_GYRO_Y_OFS_USR : Z := 116.
Definition LSM6DSL_ACC_GYRO_Z_OFS_USR : Z := 117.
Definition LSM6DSL_ACC_GYRO_SLV0_ADD : Z := 2.
Definition LSM6DSL_ACC_GYRO_SLV0_SUBADD : Z := 3.
Definition LSM6DSL_ACC_GYRO_SLAVE0_CONFIG : Z := 4.
Definition LSM6DSL_ACC_GYRO_SLV1_ADD : Z := 5.
Definition LSM6DSL_ACC_GYRO_SLV1_SUBADD : Z := 6.
Definition LSM6DSL_ACC_GYRO_SLAVE1_CONFIG : Z := 7.
Definition LSM6DSL_ACC_GYRO_SLV2_ADD : Z := 8.
Definition LSM6DSL_ACC_GYRO_SLV2_SUBADD : Z := 9.
Definition LSM6DSL_ACC_GYRO_SLAVE2_CONFIG : Z := 10.
Definition LSM6DSL_ACC_GYRO_SLV3_ADD : Z := 11.
Definition LSM6DSL_ACC_GYRO_SLV3_SUBADD : Z := 12.
Definition LSM6DSL_ACC_GYRO_SLAVE3_CONFIG : Z := 13.
Definition LSM6DSL_ACC_GYRO_DATAWRITE_SRC_MODE_SUB_SLV0 : Z := 14.
Definition LSM6DSL_ACC_GYRO_CONFIG_PEDO_THS_MIN : Z := 15.
Definition LSM6DSL_ACC_GYRO_SM_STEP_THS : Z := 19.
Definition LSM6DSL_ACC_GYRO_PEDO_DEB_REG : Z := 20.
Definition LSM6DSL_ACC_GYRO_STEP_COUNT_DELTA : Z := 21.
Definition LSM6DSL_ACC_GYRO_MAG_SI_XX : Z := 36.
Definition LSM6DSL_ACC_GYRO_MAG_SI_XY : Z := 37.
Definition LSM6DSL_ACC_GYRO_MAG_SI_XZ : Z := 38.
Definition LSM6DSL_ACC_GYRO_MAG_SI_YX : Z := 39.
Definition LSM6DSL_ACC_GYRO_MAG_SI_YY : Z := 40.
Definition LSM6DSL_ACC_GYRO_MAG_SI_YZ : Z := 41.
Definition LSM6DSL_ACC_GYRO_MAG_SI_ZX : Z := 42.
Definition LSM6DSL_ACC_GYRO_MAG_SI_ZY : Z := 43.
Definition LSM6DSL_ACC_GYRO_MAG_SI_ZZ : Z := 44.
Definition LSM6DSL_ACC_GYRO_MAG_OFFX_L : Z := 45.
Definition LSM6DSL_ACC_GYRO_MAG_OFFX_H : Z := 46.
Definition LSM6DSL_ACC_GYRO_MAG_OFFY_L : Z := 47.
Definition LSM6DSL_ACC_GYRO_MAG_OFFY_H : Z := 48.
Definition LSM6DSL_ACC_GYRO_MAG_OFFZ_L : Z := 49.
Definition LSM6DSL_ACC_GYRO_MAG_OFFZ_H : Z := 50.
Definition LSM6DSL_ACC_GYRO_WHO_AM_I_BIT_MASK : Z := 255.
Definition LSM6DSL_ACC_GYRO_WHO_AM_I_BIT_POSITION : Z := 0.
Definition LSM6DSL_ACC_GYRO_BDU_CONTINUOS : Z := 0.
Definition LSM6DSL_ACC_GYRO_BDU_BLOCK_UPDATE : Z := 64.
Definition LSM6DSL_ACC_GYRO_BDU_t : list Z :=
  [LSM6DSL_ACC_GYRO_BDU_CONTINUOS; LSM6DSL_ACC_GYRO_BDU_BLOCK_UPDATE].
Definition LSM6DSL_ACC_GYRO_BDU_MASK : Z := 64.
Definition LSM6DSL_ACC_GYRO_FS_XL_2g : Z := 0.
Definition LSM6DSL_ACC_GYRO_FS_XL_16g : Z := 4.
Definition LSM6DSL_ACC_GYRO_FS_XL_4g : Z := 8.
Definition LSM6DSL_ACC_GYRO_FS_XL_8g : Z := 12.
Definition LSM6DSL_ACC_GYRO_FS_XL_t : list Z :=
  [LSM6DSL_ACC_GYRO_FS_XL_2g; LSM6DSL_ACC_GYRO_FS_XL_16g; LSM6DSL_ACC_GYRO_FS_XL_4g; LSM6DSL_ACC_GYRO_FS_XL_8g].
Definition LSM6DSL_ACC_GYRO_FS_XL_MASK : Z := 12.
Definition LSM6DSL_ACC_GYRO_ODR_XL_POWER_DOWN : Z := 0.
Definition LSM6DSL_ACC_GYRO_ODR_XL_13Hz : Z := 16.
Definition LSM6DSL_ACC_GYRO_ODR_XL_26Hz : Z := 32.
Definition LSM6DSL_ACC_GYRO_ODR_XL_52Hz : Z := 48.
Definition LSM6DSL_ACC_GYRO_ODR_XL_104Hz : Z := 64.
Definition LSM6DSL_ACC_GYRO_ODR_XL_208Hz : Z := 80.
Definition LSM6DSL_ACC_GYRO_ODR_XL_416Hz : Z := 96.
Definition LSM6DSL_ACC_GYRO_ODR_XL_833Hz : Z := 112.
Definition LSM6DSL_ACC_GYRO_ODR_XL_1660Hz : Z := 128.
Definition LSM6DSL_ACC_GYRO_ODR_XL_3330Hz : Z := 144.
Definition LSM6DSL_ACC_GYRO_ODR_XL_6660Hz : Z := 160.
Definition LSM6DSL_ACC_GYRO_ODR_XL_t : list Z :=
  [LSM6DSL_ACC_GYRO_ODR_XL_POWER_DOWN; LSM6DSL_ACC_GYRO_ODR_XL_13Hz; LSM6DSL_ACC_GYRO_ODR_XL_26Hz;
   LSM6DSL_ACC_GYRO_ODR_XL_52Hz; LSM6DSL_ACC_GYRO_ODR_XL_104Hz; LSM6DSL_ACC_GYRO_ODR_XL_208Hz;
   LSM6DSL_ACC_GYRO_ODR_XL_416Hz; LSM6DSL_ACC_GYRO_ODR_XL_833Hz; LSM6DSL_ACC_GYRO_ODR_XL_1660Hz;
   LSM6DSL_ACC_GYRO_ODR_XL_3330Hz; LSM6DSL_ACC_GYRO_ODR_XL_6660Hz].
Definition LSM6DSL_ACC_GYRO_ODR_XL_MASK : Z := 240.
Definition LSM6DSL_ACC_GYRO_FS_G_245dps : Z := 0.
Definition LSM6DSL_ACC_GYRO_FS_G_500dps : Z := 4.
Definition LSM6DSL_ACC_GYRO_FS_G_1000dps : Z := 8.
Definition LSM6DSL_ACC_GYRO_FS_G_2000dps : Z := 12.
Definition LSM6DSL_ACC_GYRO_FS_G_t : list Z :=
  [LSM6DSL_ACC_GYRO_FS_G_245dps; LSM6DSL_ACC_GYRO_FS_G_500dps; LSM6DSL_ACC_GYRO_FS_G_1000dps;
   LSM6DSL_ACC_GYRO_FS_G_2000dps].
Definition LSM6DSL_ACC_GYRO_FS_G_MASK : Z := 12.
Definition LSM6DSL_ACC_GYRO_ODR_G_POWER_DOWN : Z := 0.
Definition LSM6DSL_ACC_GYRO_ODR_G_13Hz : Z := 16.
Definition LSM6DSL_ACC_GYRO_ODR_G_26Hz : Z := 32.
Definition LSM6DSL_ACC_GYRO_ODR_G_52Hz : Z := 48.
Definition LSM6DSL_ACC_GYRO_ODR_G_104Hz : Z := 64.
Definition LSM6DSL_ACC_GYRO_ODR_G_208Hz : Z := 80.
Definition LSM6DSL_ACC_GYRO_ODR_G_416Hz : Z := 96.
Definition LSM6DSL_ACC_GYRO_ODR_G_833Hz : Z := 112.
Definition LSM6DSL_ACC_GYRO_ODR_G_1660Hz : Z := 128.
Definition LSM6DSL_ACC_GYRO_ODR_G_3330Hz : Z := 144.
Definition LSM6DSL_ACC_GYRO_ODR_G_6660Hz : Z := 160.
Definition LSM6DSL_ACC_GYRO_ODR_G_t : list Z :=
  [LSM6DSL_ACC_GYRO_ODR_G_POWER_DOWN; LSM6DSL_ACC_GYRO_ODR_G_13Hz; LSM6DSL_ACC_GYRO_ODR_G_26Hz;
   LSM6DSL_ACC_GYRO_ODR_G_52Hz; LSM6DSL_ACC_GYRO_ODR_G_104Hz; LSM6DSL_ACC_GYRO_ODR_G_208Hz;
   LSM6DSL_ACC_GYRO_ODR_G_416Hz; LSM6DSL_ACC_GYRO_ODR_G_833Hz; LSM6DSL_ACC_GYRO_ODR_G_1660Hz;
   LSM6DSL_ACC_GYRO_ODR_G_3330Hz; LSM6DSL_ACC_GYRO_ODR_G_6660Hz].
Definition LSM6DSL_ACC_GYRO_ODR_G_MASK : Z := 240.
Definition LSM6DSL_ACC_GYRO_BW_SEL_ODR2 : Z := 0.
Definition LSM6DSL_ACC_GYRO_BW_SEL_ODR4 : Z := 2.
Definition LSM6DSL_ACC_GYRO_BW_SEL_t : list Z :=
  [LSM6DSL_ACC_GYRO_BW_SEL_ODR2; LSM6DSL_ACC_GYRO_BW_SEL_ODR4].
Definition LSM6DSL_ACC_GYRO_BW_SEL_MASK : Z := 2.
Definition LSM6DSL_ACC_GYRO_FS_125_DISABLED : Z := 0.
Definition LSM6DSL_ACC_GYRO_FS_125_ENABLED : Z := 2.
Definition LSM6DSL_ACC_GYRO_FS_125_t : list Z :=
  [LSM6DSL_ACC_GYRO_FS_125_DISABLED; LSM6DSL_ACC_GYRO_FS_125_ENABLED].
Definition LSM6DSL_ACC_GYRO_FS_125_MASK : Z := 2.
Definition LSM6DSL_ACC_GYRO_BLE_LSB : Z := 0.
Definition LSM6DSL_ACC_GYRO_BLE_MSB : Z := 2.
Definition LSM6DSL_ACC_GYRO_BLE_t : list Z :=
  [LSM6DSL_ACC_GYRO_BLE_LSB; LSM6DSL_ACC_GYRO_BLE_MSB].
Definition LSM6DSL_ACC_GYRO_BLE_MASK : Z := 2.
Definition LSM6DSL_ACC_GYRO_EMBEDDED_ACCESS_DISABLED : Z := 0.
Definition LSM6DSL_ACC_GYRO_EMBEDDED_ACCESS_ENABLED : Z := 128.
Definition LSM6DSL_ACC_GYRO_EMB_ACC_t : list Z :=
  [LSM6DSL_ACC_GYRO_EMBEDDED_ACCESS_DISABLED; LSM6DSL_ACC_GYRO_EMBEDDED_ACCESS_ENABLED].
Definition LSM6DSL_ACC_GYRO_EMB_ACC_MASK : Z := 128.
Definition LSM6DSL_ACC_GYRO_TPH_MASK : Z := 255.
Definition LSM6DSL_ACC_GYRO_TPH_POSITION : Z := 0.
Definition LSM6DSL_ACC_GYRO_TIM_RATIO_2_11 : Z := 0.
Definition LSM6DSL_ACC_GYRO_TIM_RATIO_2_12 : Z := 1.
Definition LSM6DSL_ACC_GYRO_TIM_RATIO_2_13 : Z := 2.
Definition LSM6DSL_ACC_GYRO_TIM_RATIO_2_14 : Z := 3.
Definition LSM6DSL_ACC_GYRO_SYNC_RES_RATIO_t : list Z :=
  [LSM6DSL_ACC_GYRO_TIM_RATIO_2_11; LSM6DSL_ACC_GYRO_TIM_RATIO_2_12; LSM6DSL_ACC_GYRO_TIM_RATIO_2_13;
   LSM6DSL_ACC_GYRO_TIM_RATIO_2_14].
Definition LSM6DSL_ACC_GYRO_SYNC_RES_RATIO_MASK : Z := 3.
Definition LSM6DSL_ACC_GYRO_WTM_FIFO_CTRL1_MASK : Z := 255.
Definition LSM6DSL_ACC_GYRO_WTM_FIFO_CTRL1_POSITION : Z := 0.
Definition LSM6DSL_ACC_GYRO_WTM_FIFO_CTRL2_MASK : Z := 7.
Definition LSM6DSL_ACC_GYRO_WTM_FIFO_CTRL2_POSITION : Z := 0.
Definition LSM6DSL_ACC_GYRO_FIFO_TEMP_DISABLE : Z := 0.
Definition LSM6DSL_ACC_GYRO_FIFO_TEMP_ENABLE : Z := 8.
Definition LSM6DSL_ACC_GYRO_FIFO_TEMP_t : list Z :=
  [LSM6DSL_ACC_GYRO_FIFO_TEMP_DISABLE; LSM6DSL_ACC_GYRO_FIFO_TEMP_ENABLE].
Definition LSM6DSL_ACC_GYRO_FIFO_TEMP_MASK : Z := 8.
Definition LSM6DSL_ACC_GYRO_TIM_PEDO_FIFO_DRDY_DISABLED : Z := 0.
Definition LSM6DSL_ACC_GYRO_TIM_PEDO_FIFO_DRDY_ENABLED : Z := 64.
Definition LSM6DSL_ACC_GYRO_TIM_PEDO_FIFO_DRDY_t : list Z :=
  [LSM6DSL_ACC_GYRO_TIM_PEDO_FIFO_DRDY_DISABLED; LSM6DSL_ACC_GYRO_TIM_PEDO_FIFO_DRDY_ENABLED].
Definition LSM6DSL_ACC_GYRO_TIM_PEDO_FIFO_DRDY_MASK : Z := 64.
Definition LSM6DSL_ACC_GYRO_TIM_PEDO_FIFO_EN_DISABLED : Z := 0.
Definition LSM6DSL_ACC_GYRO_TIM_PEDO_FIFO_EN_ENABLED : Z := 128.
Definition LSM6DSL_ACC_GYRO_TIM_PEDO_FIFO_EN_t : list Z :=
  [LSM6DSL_ACC_GYRO_TIM_PEDO_FIFO_EN_DISABLED; LSM6DSL_ACC_GYRO_TIM_PEDO_FIFO_EN_ENABLED].
Definition LSM6DSL_ACC_GYRO_TIM_PEDO_FIFO_EN_MASK : Z := 128.
Definition LSM6DSL_ACC_GYRO_DEC_FIFO_XL_DATA_NOT_IN_FIFO : Z := 0.
Definition LSM6DSL_ACC_GYRO_DEC_FIFO_XL_NO_DECIMATION : Z := 1.
Definition LSM6DSL_ACC_GYRO_DEC_FIFO_XL_DECIMATION_BY_2 : Z := 2.
Definition LSM6DSL_ACC_GYRO_DEC_FIFO_XL_DECIMATION_BY_3 : Z := 3.
Definition LSM6DSL_ACC_GYRO_DEC_FIFO_XL_DECIMATION_BY_4 : Z := 4.
Definition LSM6DSL_ACC_GYRO_DEC_FIFO_XL_DECIMATION_BY_8 : Z := 5.
Definition LSM6DSL_ACC_GYRO_DEC_FIFO_XL_DECIMATION_BY_16 : Z := 6.
Definition LSM6DSL_ACC_GYRO_DEC_FIFO_XL_DECIMATION_BY_32 : Z := 7.
Definition LSM6DSL_ACC_GYRO_DEC_FIFO_XL_t : list Z :=
  [LSM6DSL_ACC_GYRO_DEC_FIFO_XL_DATA_NOT_IN_FIFO; LSM6DSL_ACC_GYRO_DEC_FIFO_XL_NO_DECIMATION;
   LSM6DSL_ACC_GYRO_DEC_FIFO_XL_DECIMATION_BY_2; LSM6DSL_ACC_GYRO_DEC_FIFO_XL_DECIMATION_BY_3;
   LSM6DSL_ACC_GYRO_DEC_FIFO_XL_DECIMATION_BY_4; LSM6DSL_ACC_GYRO_DEC_FIFO_XL_DECIMATION_BY_8;
   LSM6DSL_ACC_GYRO_DEC_FIFO_XL_DECIMATION_BY_16; LSM6DSL_ACC_GYRO_DEC_FIFO_XL_DECIMATION_BY_32].
Definition LSM6DSL_ACC_GYRO_DEC_FIFO_XL_MASK : Z := 7.
Definition LSM6DSL_ACC_GYRO_DEC_FIFO_G_DATA_NOT_IN_FIFO : Z := 0.
Definition LSM6DSL_ACC_GYRO_DEC_FIFO_G_NO_DECIMATION : Z := 8.
Definition LSM6DSL_ACC_GYRO_DEC_FIFO_G_DECIMATION_BY_2 : Z := 16.
Definition LSM6DSL_ACC_GYRO_DEC_FIFO_G_DECIMATION_BY_3 : Z := 24.
Definition LSM6DSL_ACC_GYRO_DEC_FIFO_G_DECIMATION_BY_4 : Z := 32.
Definition LSM6DSL_ACC_GYRO_DEC_FIFO_G_DECIMATION_BY_8 : Z := 40.
Definition LSM6DSL_ACC_GYRO_DEC_FIFO_G_DECIMATION_BY_16 : Z := 48.
Definition LSM6DSL_ACC_GYRO_DEC_FIFO_G_DECIMATION_BY_32 : Z := 56.
Definition LSM6DSL_ACC_GYRO_DEC_FIFO_G_t : list Z :=
  [LSM6DSL_ACC_GYRO_DEC_FIFO_G_DATA_NOT_IN_FIFO; LSM6DSL_ACC_GYRO_DEC_FIFO_G_NO_DECIMATION;
   LSM6DSL_ACC_GYRO_DEC_FIFO_G_DECIMATION_BY_2; LSM6DSL_ACC_GYRO_DEC_FIFO_G_DECIMATION_BY_3;
   LSM6DSL_ACC_GYRO_DEC_FIFO_G_DECIMATION_BY_4; LSM6DSL_ACC_GYRO_DEC_FIFO_G_DECIMATION_BY_8;
   LSM6DSL_ACC_GYRO_DEC_FIFO_G_DECIMATION_BY_16; LSM6DSL_ACC_GYRO_DEC_FIFO_G_DECIMATION_BY_32].
Definition LSM6DSL_ACC_GYRO_DEC_FIFO_G_MASK : Z := 56.
Definition LSM6DSL_ACC_GYRO_DEC_FIFO_DS3_DATA_NOT_IN_FIFO : Z := 0.
Definition LSM6DSL_ACC_GYRO_DEC_FIFO_DS3_NO_DECIMATION : Z := 1.
Definition LSM6DSL_ACC_GYRO_DEC_FIFO_DS3_DECIMATION_BY_2 : Z := 2.
Definition LSM6DSL_ACC_GYRO_DEC_FIFO_DS3_DECIMATION_BY_3 : Z := 3.
Definition LSM6DSL_ACC_GYRO_DEC_FIFO_DS3_DECIMATION_BY_4 : Z := 4.
Definition LSM6DSL_ACC_GYRO_DEC_FIFO_DS3_DECIMATION_BY_8 : Z := 5.
Definition LSM6DSL_ACC_GYRO_DEC_FIFO_DS3_DECIMATION_BY_16 : Z := 6.
Definition LSM6DSL_ACC_GYRO_DEC_FIFO_DS3_DECIMATION_BY_32 : Z := 7.
Definition LSM6DSL_ACC_GYRO_DEC_FIFO_DS3_t : list Z :=
  [LSM6DSL_ACC_GYRO_DEC_FIFO_DS3_DATA_NOT_IN_FIFO; LSM6DSL_ACC_GYRO_DEC_FIFO_DS3_NO_DECIMATION;
   LSM6DSL_ACC_GYRO_DEC_FIFO_DS3_DECIMATION_BY_2; LSM6DSL_ACC_GYRO_DEC_FIFO_DS3_DECIMATION_BY_3;
   LSM6DSL_ACC_GYRO_DEC_FIFO_DS3_DECIMATION_BY_4; LSM6DSL_ACC_GYRO_DEC_FIFO_DS3_DECIMATION_BY_8;
   LSM6DSL_ACC_GYRO_DEC_FIFO_DS3_DECIMATION_BY_16; LSM6DSL_ACC_GYRO_DEC_FIFO_DS3_DECIMATION_BY_32].
Definition LSM6DSL_ACC_GYRO_DEC_FIFO_DS3_MASK : Z := 7.
Definition LSM6DSL_ACC_GYRO_DEC_FIFO_DS4_DATA_NOT_IN_FIFO : Z := 0.
Definition LSM6DSL_ACC_GYRO_DEC_FIFO_DS4_NO_DECIMATION : Z := 8.
Definition LSM6DSL_ACC_GYRO_DEC_FIFO_DS4_DECIMATION_BY_2 : Z := 16.
Definition LSM6DSL_ACC_GYRO_DEC_FIFO_DS4_DECIMATION_BY_3 : Z := 24.
Definition LSM6DSL_ACC_GYRO_DEC_FIFO_DS4_DECIMATION_BY_4 : Z := 32.
Definition LSM6DSL_ACC_GYRO_DEC_FIFO_DS4_DECIMATION_BY_8 : Z := 40.
Definition LSM6DSL_ACC_GYRO_DEC_FIFO_DS4_DECIMATION_BY_16 : Z := 48.
Definition LSM6DSL_ACC_GYRO_DEC_FIFO_DS4_DECIMATION_BY_32 : Z := 56.
Definition LSM6DSL_ACC_GYRO_DEC_FIFO_DS4_t : list Z :=
  [LSM6DSL_ACC_GYRO_DEC_FIFO_DS4_DATA_NOT_IN_FIFO; LSM6DSL_ACC_GYRO_DEC_FIFO_DS4_NO_DECIMATION;
   LSM6DSL_ACC_GYRO_DEC_FIFO_DS4_DECIMATION_BY_2; LSM6DSL_ACC_GYRO_DEC_FIFO_DS4_DECIMATION_BY_3;
   LSM6DSL_ACC_GYRO_DEC_FIFO_DS4_DECIMATION_BY_4; LSM6DSL_ACC_GYRO_DEC_FIFO_DS4_DECIMATION_BY_8;
   LSM6DSL_ACC_GYRO_DEC_FIFO_DS4_DECIMATION_BY_16; LSM6DSL_ACC_GYRO_DEC_FIFO_DS4_DECIMATION_BY_32].
Definition LSM6DSL_ACC_GYRO_DEC_FIFO_DS4_MASK : Z := 56.
Definition LSM6DSL_ACC_GYRO_HI_DATA_ONLY_DISABLED : Z := 0.
Definition LSM6DSL_ACC_GYRO_HI_DATA_ONLY_ENABLED : Z := 64.
Definition LSM6DSL_ACC_GYRO_HI_DATA_ONLY_t : list Z :=
  [LSM6DSL_ACC_GYRO_HI_DATA_ONLY_DISABLED; LSM6DSL_ACC_GYRO_HI_DATA_ONLY_ENABLED].
Definition LSM6DSL_ACC_GYRO_HI_DATA_ONLY_MASK : Z := 64.
Definition LSM6DSL_ACC_GYRO_STOP_ON_FTH_DISABLED : Z := 0.
Definition LSM6DSL_ACC_GYRO_STOP_ON_FTH_ENABLED : Z := 128.
Definition LSM6DSL_ACC_GYRO_STOP_ON_FTH_t : list Z :=
  [LSM6DSL_ACC_GYRO_STOP_ON_FTH_DISABLED; LSM6DSL_ACC_GYRO_STOP_ON_FTH_ENABLED].
Definition LSM6DSL_ACC_GYRO_STOP_ON_FTH_MASK : Z := 128.
Definition LSM6DSL_ACC_GYRO_FIFO_MODE_BYPASS : Z := 0.
Definition LSM6DSL_ACC_GYRO_FIFO_MODE_FIFO : Z := 1.
Definition LSM6DSL_ACC_GYRO_FIFO_MODE_STREAM : Z := 2.
Definition LSM6DSL_ACC_GYRO_FIFO_MODE_STF : Z := 3.
Definition LSM6DSL_ACC_GYRO_FIFO_MODE_BTS : Z := 4.
Definition LSM6DSL_ACC_GYRO_FIFO_MODE_DYN_STREAM : Z := 5.
Definition LSM6DSL_ACC_GYRO_FIFO_MODE_DYN_STREAM_2 : Z := 6.
Definition LSM6DSL_ACC_GYRO_FIFO_MODE_BTF : Z := 7.
Definition LSM6DSL_ACC_GYRO_FIFO_MODE_t : list Z :=
  [LSM6DSL_ACC_GYRO_FIFO_MODE_BYPASS; LSM6DSL_ACC_GYRO_FIFO_MODE_FIFO; LSM6DSL_ACC_GYRO_FIFO_MODE_STREAM;
   LSM6DSL_ACC_GYRO_FIFO_MODE_STF; LSM6DSL_ACC_GYRO_FIFO_MODE_BTS; LSM6DSL_ACC_GYRO_FIFO_MODE_DYN_STREAM;
   LSM6DSL_ACC_GYRO_FIFO_MODE_DYN_STREAM_2; LSM6DSL_ACC_GYRO_FIFO_MODE_BTF].
Definition LSM6DSL_ACC_GYRO_FIFO_MODE_MASK : Z := 7.
Definition LSM6DSL_ACC_GYRO_ODR_FIFO_10Hz : Z := 8.
Definition LSM6DSL_ACC_GYRO_ODR_FIFO_25Hz : Z := 16.
Definition LSM6DSL_ACC_GYRO_ODR_FIFO_50Hz : Z := 24.
Definition LSM6DSL_ACC_GYRO_ODR_FIFO_100Hz : Z := 32.
Definition LSM6DSL_ACC_GYRO_ODR_FIFO_200Hz : Z := 40.
Definition LSM6DSL_ACC_GYRO_ODR_FIFO_400Hz : Z := 48.
Definition LSM6DSL_ACC_GYRO_ODR_FIFO_800Hz : Z := 56.
Definition LSM6DSL_ACC_GYRO_ODR_FIFO_1600Hz : Z := 64.
Definition LSM6DSL_ACC_GYRO_ODR_FIFO_3300Hz : Z := 72.
Definition LSM6DSL_ACC_GYRO_ODR_FIFO_6600Hz : Z := 80.
Definition LSM6DSL_ACC_GYRO_ODR_FIFO_13300Hz : Z := 88.
Definition LSM6DSL_ACC_GYRO_ODR_FIFO_t : list Z :=
  [LSM6DSL_ACC_GYRO_ODR_FIFO_10Hz; LSM6DSL_ACC_GYRO_ODR_FIFO_25Hz; LSM6DSL_ACC_GYRO_ODR_FIFO_50Hz;
   LSM6DSL_ACC_GYRO_ODR_FIFO_100Hz; LSM6DSL_ACC_GYRO_ODR_FIFO_200Hz; LSM6DSL_ACC_GYRO_ODR_FIFO_400Hz;
   LSM6DSL_ACC_GYRO_ODR_FIFO_800Hz; LSM6DSL_ACC_GYRO_ODR_FIFO_1600Hz; LSM6DSL_ACC_GYRO_ODR_FIFO_3300Hz;
   LSM6DSL_ACC_GYRO_ODR_FIFO_6600Hz; LSM6DSL_ACC_GYRO_ODR_FIFO_13300Hz].
Definition LSM6DSL_ACC_GYRO_ODR_FIFO_MASK : Z := 120.
Definition LSM6DSL_ACC_GYRO_DRDY_LATCH : Z := 0.
Definition LSM6DSL_ACC_GYRO_DRDY_PULSE : Z := 128.
Definition LSM6DSL_ACC_GYRO_DRDY_PULSE_t : list Z :=
  [LSM6DSL_ACC_GYRO_DRDY_LATCH; LSM6DSL_ACC_GYRO_DRDY_PULSE].
Definition LSM6DSL_ACC_GYRO_DRDY_PULSE_MASK : Z := 128.
Definition LSM6DSL_ACC_GYRO_INT1_DRDY_XL_DISABLED : Z := 0.
Definition LSM6DSL_ACC_GYRO_INT1_DRDY_XL_ENABLED : Z := 1.
Definition LSM6DSL_ACC_GYRO_INT1_DRDY_XL_t : list Z :=
  [LSM6DSL_ACC_GYRO_INT1_DRDY_XL_DISABLED; LSM6DSL_ACC_GYRO_INT1_DRDY_XL_ENABLED].
Definition LSM6DSL_ACC_GYRO_INT1_DRDY_XL_MASK : Z := 1.
Definition LSM6DSL_ACC_GYRO_INT1_DRDY_G_DISABLED : Z := 0.
Definition LSM6DSL_ACC_GYRO_INT1_DRDY_G_ENABLED : Z := 2.
Definition LSM6DSL_ACC_GYRO_INT1_DRDY_G_t : list Z :=
  [LSM6DSL_ACC_GYRO_INT1_DRDY_G_DISABLED; LSM6DSL_ACC_GYRO_INT1_DRDY_G_ENABLED].
Definition LSM6DSL_ACC_GYRO_INT1_DRDY_G_MASK : Z := 2.
Definition LSM6DSL_ACC_GYRO_INT1_BOOT_DISABLED : Z := 0.
Definition LSM6DSL_ACC_GYRO_INT1_BOOT_ENABLED : Z := 4.
Definition LSM6DSL_ACC_GYRO_INT1_BOOT_t : list Z :=
  [LSM6DSL_ACC_GYRO_INT1_BOOT_DISABLED; LSM6DSL_ACC_GYRO_INT1_BOOT_ENABLED].
Definition LSM6DSL_ACC_GYRO_INT1_BOOT_MASK : Z := 4.
Definition LSM6DSL_ACC_GYRO_INT1_FTH_DISABLED : Z := 0.
Definition LSM6DSL_ACC_GYRO_INT1_FTH_ENABLED : Z := 8.
Definition LSM6DSL_ACC_GYRO_INT1_FTH_t : list Z :=
  [LSM6DSL_ACC_GYRO_INT1_FTH_DISABLED; LSM6DSL_ACC_GYRO_INT1_FTH_ENABLED].
Definition LSM6DSL_ACC_GYRO_INT1_FTH_MASK : Z := 8.
Definition LSM6DSL_ACC_GYRO_INT1_OVR_DISABLED : Z := 0.
Definition LSM6DSL_ACC_GYRO_INT1_OVR_ENABLED : Z := 16.
Definition LSM6DSL_ACC_GYRO_INT1_OVR_t : list Z :=
  [LSM6DSL_ACC_GYRO_INT1_OVR_DISABLED; LSM6DSL_ACC_GYRO_INT1_OVR_ENABLED].
Definition LSM6DSL_ACC_GYRO_INT1_OVR_MASK : Z := 16.
Definition LSM6DSL_ACC_GYRO_INT1_FULL_FLAG_DISABLED : Z := 0.
Definition LSM6DSL_ACC_GYRO_INT1_FULL_FLAG_ENABLED : Z := 32.
Definition LSM6DSL_ACC_GYRO_INT1_FULL_FLAG_t : list Z :=
  [LSM6DSL_ACC_GYRO_INT1_FULL_FLAG_DISABLED; LSM6DSL_ACC_GYRO_INT1_FULL_FLAG_ENABLED].
Definition LSM6DSL_ACC_GYRO_INT1_FULL_FLAG_MASK : Z := 32.
Definition LSM6DSL_ACC_GYRO_INT1_SIGN_MOT_DISABLED : Z := 0.
Definition LSM6DSL_ACC_GYRO_INT1_SIGN_MOT_ENABLED : Z := 64.
Definition LSM6DSL_ACC_GYRO_INT1_SIGN_MOT_t : list Z :=
  [LSM6DSL_ACC_GYRO_INT1_SIGN_MOT_DISABLED; LSM6DSL_ACC_GYRO_INT1_SIGN_MOT_ENABLED].
Definition LSM6DSL_ACC_GYRO_INT1_SIGN_MOT_MASK : Z := 64.
Definition LSM6DSL_ACC_GYRO_INT1_PEDO_DISABLED : Z := 0.
Definition LSM6DSL_ACC_GYRO_INT1_PEDO_ENABLED : Z := 128.
Definition LSM6DSL_ACC_GYRO_INT1_PEDO_t : list Z :=
  [LSM6DSL_ACC_GYRO_INT1_PEDO_DISABLED; LSM6DSL_ACC_GYRO_INT1_PEDO_ENABLED].
Definition LSM6DSL_ACC_GYRO_INT1_PEDO_MASK : Z := 128.
Definition LSM6DSL_ACC_GYRO_INT2_DRDY_XL_DISABLED : Z := 0.
Definition LSM6DSL_ACC_GYRO_INT2_DRDY_XL_ENABLED : Z := 1.
Definition LSM6DSL_ACC_GYRO_INT2_DRDY_XL_t : list Z :=
  [LSM6DSL_ACC_GYRO_INT2_DRDY_XL_DISABLED; LSM6DSL_ACC_GYRO_INT2_DRDY_XL_ENABLED].
Definition LSM6DSL_ACC_GYRO_INT2_DRDY_XL_MASK : Z := 1.
Definition LSM6DSL_ACC_GYRO_INT2_DRDY_G_DISABLED : Z := 0.
Definition LSM6DSL_ACC_GYRO_INT2_DRDY_G_ENABLED : Z := 2.
Definition LSM6DSL_ACC_GYRO_INT2_DRDY_G_t : list Z :=
  [LSM6DSL_ACC_GYRO_INT2_DRDY_G_DISABLED; LSM6DSL_ACC_GYRO_INT2_DRDY_G_ENABLED].
Definition LSM6DSL_ACC_GYRO_INT2_DRDY_G_MASK : Z := 2.
Definition LSM6DSL_ACC_GYRO_INT2_DRDY_TEMP_DISABLED : Z := 0.
Definition LSM6DSL_ACC_GYRO_INT2_DRDY_TEMP_ENABLED : Z := 4.
Definition LSM6DSL_ACC_GYRO_INT2_DRDY_TEMP_t : list Z :=
  [LSM6DSL_ACC_GYRO_INT2_DRDY_TEMP_DISABLED; LSM6DSL_ACC_GYRO_INT2_DRDY_TEMP_ENABLED].
Definition LSM6DSL_ACC_GYRO_INT2_DRDY_TEMP_MASK : Z := 4.
Definition LSM6DSL_ACC_GYRO_INT2_FTH_DISABLED : Z := 0.
Definition LSM6DSL_ACC_GYRO_INT2_FTH_ENABLED : Z := 8.
Definition LSM6DSL_ACC_GYRO_INT2_FTH_t : list Z :=
  [LSM6DSL_ACC_GYRO_INT2_FTH_DISABLED; LSM6DSL_ACC_GYRO_INT2_FTH_ENABLED].
Definition LSM6DSL_ACC_GYRO_INT2_FTH_MASK : Z := 8.
Definition LSM6DSL_ACC_GYRO_INT2_OVR_DISABLED : Z := 0.
Definition LSM6DSL_ACC_GYRO_INT2_OVR_ENABLED : Z := 16.
Definition LSM6DSL_ACC_GYRO_INT2_OVR_t : list Z :=
  [LSM6DSL_ACC_GYRO_INT2_OVR_DISABLED; LSM6DSL_ACC_GYRO_INT2_OVR_ENABLED].
Definition LSM6DSL_ACC_GYRO_INT2_OVR_MASK : Z := 16.
Definition LSM6DSL_ACC_GYRO_INT2_FULL_FLAG_DISABLED : Z := 0.
Definition LSM6DSL_ACC_GYRO_INT2_FULL_FLAG_ENABLED : Z := 32.
Definition LSM6DSL_ACC_GYRO_INT2_FULL_FLAG_t : list Z :=
  [LSM6DSL_ACC_GYRO_INT2_FULL_FLAG_DISABLED; LSM6DSL_ACC_GYRO_INT2_FULL_FLAG_ENABLED].
Definition LSM6DSL_ACC_GYRO_INT2_FULL_FLAG_MASK : Z := 32.
Definition LSM6DSL_ACC_GYRO_INT2_STEP_COUNT_OV_DISABLED : Z := 0.
Definition LSM6DSL_ACC_GYRO_INT2_STEP_COUNT_OV_ENABLED : Z := 64.
Definition LSM6DSL_ACC_GYRO_INT2_STEP_COUNT_OV_t : list Z :=
  [LSM6DSL_ACC_GYRO_INT2_STEP_COUNT_OV_DISABLED; LSM6DSL_ACC_GYRO_INT2_STEP_COUNT_OV_ENABLED].
Definition LSM6DSL_ACC_GYRO_INT2_STEP_COUNT_OV_MASK : Z := 64.
Definition LSM6DSL_ACC_GYRO_INT2_STEP_DELTA_DISABLED : Z := 0.
Definition LSM6DSL_ACC_GYRO_INT2_STEP_DELTA_ENABLED : Z := 128.
Definition LSM6DSL_ACC_GYRO_INT2_STEP_DELTA_t : list Z :=
  [LSM6DSL_ACC_GYRO_INT2_STEP_DELTA_DISABLED; LSM6DSL_ACC_GYRO_INT2_STEP_DELTA_ENABLED].
Definition LSM6DSL_ACC_GYRO_INT2_STEP_DELTA_MASK : Z := 128.
Definition LSM6DSL_ACC_GYRO_SW_RESET_NORMAL_MODE : Z := 0.
Definition LSM6DSL_ACC_GYRO_SW_RESET_RESET_DEVICE : Z := 1.
Definition LSM6DSL_ACC_GYRO_SW_RESET_t : list Z :=
  [LSM6DSL_ACC_GYRO_SW_RESET_NORMAL_MODE; LSM6DSL_ACC_GYRO_SW_RESET_RESET_DEVICE].
Definition LSM6DSL_ACC_GYRO_SW_RESET_MASK : Z := 1.
Definition LSM6DSL_ACC_GYRO_IF_INC_DISABLED : Z := 0.
Definition LSM6DSL_ACC_GYRO_IF_INC_ENABLED : Z := 4.
Definition LSM6DSL_ACC_GYRO_IF_INC_t : list Z :=
  [LSM6DSL_ACC_GYRO_IF_INC_DISABLED; LSM6DSL_ACC_GYRO_IF_INC_ENABLED].
Definition LSM6DSL_ACC_GYRO_IF_INC_MASK : Z := 4.
Definition LSM6DSL_ACC_GYRO_SIM_4_WIRE : Z := 0.
Definition LSM6DSL_ACC_GYRO_SIM_3_WIRE : Z := 8.
Definition LSM6DSL_ACC_GYRO_SIM_t : list Z :=
  [LSM6DSL_ACC_GYRO_SIM_4_WIRE; LSM6DSL_ACC_GYRO_SIM_3_WIRE].
Definition LSM6DSL_ACC_GYRO_SIM_MASK : Z := 8.
Definition LSM6DSL_ACC_GYRO_PP_OD_PUSH_PULL : Z := 0.
Definition LSM6DSL_ACC_GYRO_PP_OD_OPEN_DRAIN : Z := 16.
Definition LSM6DSL_ACC_GYRO_PP_OD_t : list Z :=
  [LSM6DSL_ACC_GYRO_PP_OD_PUSH_PULL; LSM6DSL_ACC_GYRO_PP_OD_OPEN_DRAIN].
Definition LSM6DSL_ACC_GYRO_PP_OD_MASK : Z := 16.
Definition LSM6DSL_ACC_GYRO_INT_ACT_LEVEL_ACTIVE_HI : Z := 0.
Definition LSM6DSL_ACC_GYRO_INT_ACT_LEVEL_ACTIVE_LO : Z := 32.
Definition LSM6DSL_ACC_GYRO_INT_ACT_LEVEL_t : list Z :=
  [LSM6DSL_ACC_GYRO_INT_ACT_LEVEL_ACTIVE_HI; LSM6DSL_ACC_GYRO_INT_ACT_LEVEL_ACTIVE_LO].
Definition LSM6DSL_ACC_GYRO_INT_ACT_LEVEL_MASK : Z := 32.
Definition LSM6DSL_ACC_GYRO_BOOT_NORMAL_MODE : Z := 0.
Definition LSM6DSL_ACC_GYRO_BOOT_REBOOT_MODE : Z := 128.
Definition LSM6DSL_ACC_GYRO_BOOT_t : list Z :=
  [LSM6DSL_ACC_GYRO_BOOT_NORMAL_MODE; LSM6DSL_ACC_GYRO_BOOT_REBOOT_MODE].
Definition LSM6DSL_ACC_GYRO_BOOT_MASK : Z := 128.
Definition LSM6DSL_ACC_GYRO_MODE3_LPF1_G_DISABLED : Z := 0.
Definition LSM6DSL_ACC_GYRO_MODE3_LPF1_G_ENABLED : Z := 2.
Definition LSM6DSL_ACC_GYRO_LPF1_SEL_G_t : list Z :=
  [LSM6DSL_ACC_GYRO_MODE3_LPF1_G_DISABLED; LSM6DSL_ACC_GYRO_MODE3_LPF1_G_ENABLED].
Definition LSM6DSL_ACC_GYRO_LPF1_SEL_G_MASK : Z := 2.
Definition LSM6DSL_ACC_GYRO_I2C_DISABLE_I2C_AND_SPI : Z := 0.
Definition LSM6DSL_ACC_GYRO_I2C_DISABLE_SPI_ONLY : Z := 4.
Definition LSM6DSL_ACC_GYRO_I2C_DISABLE_t : list Z :=
  [LSM6DSL_ACC_GYRO_I2C_DISABLE_I2C_AND_SPI; LSM6DSL_ACC_GYRO_I2C_DISABLE_SPI_ONLY].
Definition LSM6DSL_ACC_GYRO_I2C_DISABLE_MASK : Z := 4.
Definition LSM6DSL_ACC_GYRO_DRDY_MSK_DISABLED : Z := 0.
Definition LSM6DSL_ACC_GYRO_DRDY_MSK_ENABLED : Z := 8.
Definition LSM6DSL_ACC_GYRO_DRDY_MSK_t : list Z :=
  [LSM6DSL_ACC_GYRO_DRDY_MSK_DISABLED; LSM6DSL_ACC_GYRO_DRDY_MSK_ENABLED].
Definition LSM6DSL_ACC_GYRO_DRDY_MSK_MASK : Z := 8.
Definition LSM6DSL_ACC_GYRO_INT2_ON_INT1_DISABLED : Z := 0.
Definition LSM6DSL_ACC_GYRO_INT2_ON_INT1_ENABLED : Z := 32.
Definition LSM6DSL_ACC_GYRO_INT2_ON_INT1_t : list Z :=
  [LSM6DSL_ACC_GYRO_INT2_ON_INT1_DISABLED; LSM6DSL_ACC_GYRO_INT2_ON_INT1_ENABLED].
Definition LSM6DSL_ACC_GYRO_INT2_ON_INT1_MASK : Z := 32.
Definition LSM6DSL_ACC_GYRO_SLEEP_G_DISABLED : Z := 0.
Definition LSM6DSL_ACC_GYRO_SLEEP_G_ENABLED : Z := 64.
Definition LSM6DSL_ACC_GYRO_SLEEP_G_t : list Z :=
  [LSM6DSL_ACC_GYRO_SLEEP_G_DISABLED; LSM6DSL_ACC_GYRO_SLEEP_G_ENABLED].
Definition LSM6DSL_ACC_GYRO_SLEEP_G_MASK : Z := 64.
Definition LSM6DSL_ACC_GYRO_ST_XL_NORMAL_MODE : Z := 0.
Definition LSM6DSL_ACC_GYRO_ST_XL_POS_SIGN_TEST : Z := 1.
Definition LSM6DSL_ACC_GYRO_ST_XL_NEG_SIGN_TEST : Z := 2.
Definition LSM6DSL_ACC_GYRO_ST_XL_NA : Z := 3.
Definition LSM6DSL_ACC_GYRO_ST_XL_t : list Z :=
  [LSM6DSL_ACC_GYRO_ST_XL_NORMAL_MODE; LSM6DSL_ACC_GYRO_ST_XL_POS_SIGN_TEST; LSM6DSL_ACC_GYRO_ST_XL_NEG_SIGN_TEST;
   LSM6DSL_ACC_GYRO_ST_XL_NA].
Definition LSM6DSL_ACC_GYRO_ST_XL_MASK : Z := 3.
Definition LSM6DSL_ACC_GYRO_ST_G_NORMAL_MODE : Z := 0.
Definition LSM6DSL_ACC_GYRO_ST_G_POS_SIGN_TEST : Z := 4.
Definition LSM6DSL_ACC_GYRO_ST_G_NA : Z := 8.
Definition LSM6DSL_ACC_GYRO_ST_G_NEG_SIGN_TEST : Z := 12.
Definition LSM6DSL_ACC_GYRO_ST_G_t : list Z :=
  [LSM6DSL_ACC_GYRO_ST_G_NORMAL_MODE; LSM6DSL_ACC_GYRO_ST_G_POS_SIGN_TEST; LSM6DSL_ACC_GYRO_ST_G_NA;
   LSM6DSL_ACC_GYRO_ST_G_NEG_SIGN_TEST].
Definition LSM6DSL_ACC_GYRO_ST_G_MASK : Z := 12.
Definition LSM6DSL_ACC_GYRO_DEN_LOW : Z := 0.
Definition LSM6DSL_ACC_GYRO_DEN_HIGH : Z := 16.
Definition LSM6DSL_ACC_GYRO_DEN_LH_t : list Z :=
  [LSM6DSL_ACC_GYRO_DEN_LOW; LSM6DSL_ACC_GYRO_DEN_HIGH].
Definition LSM6DSL_ACC_GYRO_DEN_LH_MASK : Z := 16.
Definition LSM6DSL_ACC_GYRO_NO_ROUNDING : Z := 0.
Definition LSM6DSL_ACC_GYRO_ACC_ONLY : Z := 32.
Definition LSM6DSL_ACC_GYRO_GYRO_ONLY : Z := 64.
Definition LSM6DSL_ACC_GYRO_ACC_GYRO : Z := 96.
Definition LSM6DSL_ACC_GYRO_SH1_SH6 : Z := 128.
Definition LSM6DSL_ACC_GYRO_ACC_SH1_SH6 : Z := 160.
Definition LSM6DSL_ACC_GYRO_ACC_GYRO_SH1_SH6_SH7_SH12 : Z := 192.
Definition LSM6DSL_ACC_GYRO_ACC_GYRO_SH1_SH6 : Z := 224.
Definition LSM6DSL_ACC_GYRO_ROUNDING_t : list Z :=
  [LSM6DSL_ACC_GYRO_NO_ROUNDING; LSM6DSL_ACC_GYRO_ACC_ONLY; LSM6DSL_ACC_GYRO_GYRO_ONLY; LSM6DSL_ACC_GYRO_ACC_GYRO;
   LSM6DSL_ACC_GYRO_SH1_SH6; LSM6DSL_ACC_GYRO_ACC_SH1_SH6; LSM6DSL_ACC_GYRO_ACC_GYRO_SH1_SH6_SH7_SH12;
   LSM6DSL_ACC_GYRO_ACC_GYRO_SH1_SH6].
Definition LSM6DSL_ACC_GYRO_LSM6DSL_ACC_GYRO_ROUNDING_t_MASK : Z := 224.
Definition LSM6DSL_ACC_GYRO_LP_G_NORMAL : Z := 0.
Definition LSM6DSL_ACC_GYRO_LP_G_NARROW : Z := 1.
Definition LSM6DSL_ACC_GYRO_LP_G_VERY_NARROW : Z := 2.
Definition LSM6DSL_ACC_GYRO_LP_G_WIDE : Z := 3.
Definition LSM6DSL_ACC_GYRO_FTYPE_t : list Z :=
  [LSM6DSL_ACC_GYRO_LP_G_NORMAL; LSM6DSL_ACC_GYRO_LP_G_NARROW; LSM6DSL_ACC_GYRO_LP_G_VERY_NARROW;
   LSM6DSL_ACC_GYRO_LP_G_WIDE].
Definition LSM6DSL_ACC_GYRO_FTYPE_MASK : Z := 3.
Definition LSM6DSL_ACC_GYRO_2Emin10 : Z := 0.
Definition LSM6DSL_ACC_GYRO_2Emin6 : Z := 8.
Definition LSM6DSL_ACC_GYRO_USR_OFF_W_t : list Z :=
  [LSM6DSL_ACC_GYRO_2Emin10; LSM6DSL_ACC_GYRO_2Emin6].
Definition LSM6DSL_ACC_GYRO_USR_OFF_W_MASK : Z := 8.
Definition LSM6DSL_ACC_GYRO_LP_XL_DISABLED : Z := 0.
Definition LSM6DSL_ACC_GYRO_LP_XL_ENABLED : Z := 16.
Definition LSM6DSL_ACC_GYRO_LP_XL_t : list Z :=
  [LSM6DSL_ACC_GYRO_LP_XL_DISABLED; LSM6DSL_ACC_GYRO_LP_XL_ENABLED].
Definition LSM6DSL_ACC_GYRO_LP_XL_MASK : Z := 16.
Definition LSM6DSL_ACC_GYRO_DEN_LVL2_EN_DISABLED : Z := 0.
Definition LSM6DSL_ACC_GYRO_DEN_LVL2_EN_ENABLED : Z := 32.
Definition LSM6DSL_ACC_GYRO_DEN_LVL2_EN_t : list Z :=
  [LSM6DSL_ACC_GYRO_DEN_LVL2_EN_DISABLED; LSM6DSL_ACC_GYRO_DEN_LVL2_EN_ENABLED].
Definition LSM6DSL_ACC_GYRO_DEN_LVL2_EN_MASK : Z := 32.
Definition LSM6DSL_ACC_GYRO_DEN_LVL_EN_DISABLED : Z := 0.
Definition LSM6DSL_ACC_GYRO_DEN_LVL_EN_ENABLED : Z := 64.
Definition LSM6DSL_ACC_GYRO_DEN_LVL_EN_t : list Z :=
  [LSM6DSL_ACC_GYRO_DEN_LVL_EN_DISABLED; LSM6DSL_ACC_GYRO_DEN_LVL_EN_ENABLED].
Definition LSM6DSL_ACC_GYRO_DEN_LVL_EN_MASK : Z := 64.
Definition LSM6DSL_ACC_GYRO_DEN_EDGE_EN_DISABLED : Z := 0.
Definition LSM6DSL_ACC_GYRO_DEN_EDGE_EN_ENABLED : Z := 128.
Definition LSM6DSL_ACC_GYRO_DEN_EDGE_EN_t : list Z :=
  [LSM6DSL_ACC_GYRO_DEN_EDGE_EN_DISABLED; LSM6DSL_ACC_GYRO_DEN_EDGE_EN_ENABLED].
Definition LSM6DSL_ACC_GYRO_DEN_EDGE_EN_MASK : Z := 128.
Definition LSM6DSL_ACC_GYRO_RND_DISABLE : Z := 0.
Definition LSM6DSL_ACC_GYRO_RND_ENABLE : Z := 4.
Definition LSM6DSL_ACC_GYRO_RND_STATUS_t : list Z :=
  [LSM6DSL_ACC_GYRO_RND_DISABLE; LSM6DSL_ACC_GYRO_RND_ENABLE].
Definition LSM6DSL_ACC_GYRO_RND_STATUS_MASK : Z := 4.
Definition LSM6DSL_ACC_GYRO_HPM_G_0Hz016 : Z := 0.
Definition LSM6DSL_ACC_GYRO_HPM_G_0Hz065 : Z := 16.
Definition LSM6DSL_ACC_GYRO_HPM_G_2Hz260 : Z := 32.
Definition LSM6DSL_ACC_GYRO_HPM_G_1Hz04 : Z := 48.
Definition LSM6DSL_ACC_GYRO_HPM_G_t : list Z :=
  [LSM6DSL_ACC_GYRO_HPM_G_0Hz016; LSM6DSL_ACC_GYRO_HPM_G_0Hz065; LSM6DSL_ACC_GYRO_HPM_G_2Hz260;
   LSM6DSL_ACC_GYRO_HPM_G_1Hz04].
Definition LSM6DSL_ACC_GYRO_HPM_G_MASK : Z := 48.
Definition LSM6DSL_ACC_GYRO_HP_EN_DISABLED : Z := 0.
Definition LSM6DSL_ACC_GYRO_HP_EN_ENABLED : Z := 64.
Definition LSM6DSL_ACC_GYRO_HP_EN_t : list Z :=
  [LSM6DSL_ACC_GYRO_HP_EN_DISABLED; LSM6DSL_ACC_GYRO_HP_EN_ENABLED].
Definition LSM6DSL_ACC_GYRO_HP_EN_MASK : Z := 64.
Definition LSM6DSL_ACC_GYRO_LP_EN_DISABLED : Z := 0.
Definition LSM6DSL_ACC_GYRO_LP_EN_ENABLED : Z := 128.
Definition LSM6DSL_ACC_GYRO_LP_EN_t : list Z :=
  [LSM6DSL_ACC_GYRO_LP_EN_DISABLED; LSM6DSL_ACC_GYRO_LP_EN_ENABLED].
Definition LSM6DSL_ACC_GYRO_LP_EN_MASK : Z := 128.
Definition LSM6DSL_ACC_GYRO_ROUNDING_STATUS_DISABLED : Z := 0.
Definition LSM6DSL_ACC_GYRO_ROUNDING_STATUS_ENABLED : Z := 4.
Definition LSM6DSL_ACC_GYRO_ROUNDING_STATUS_t : list Z :=
  [LSM6DSL_ACC_GYRO_ROUNDING_STATUS_DISABLED; LSM6DSL_ACC_GYRO_ROUNDING_STATUS_ENABLED].
Definition LSM6DSL_ACC_GYRO_ROUNDING_STATUS_MASK : Z := 4.
Definition LSM6DSL_ACC_GYRO_HP_G_RST_OFF : Z := 0.
Definition LSM6DSL_ACC_GYRO_HP_G_RST_ON : Z := 8.
Definition LSM6DSL_ACC_GYRO_HP_G_RST_t : list Z :=
  [LSM6DSL_ACC_GYRO_HP_G_RST_OFF; LSM6DSL_ACC_GYRO_HP_G_RST_ON].
Definition LSM6DSL_ACC_GYRO_HP_G_RST_MASK : Z := 8.
Definition LSM6DSL_ACC_GYRO_LOW_PASS_ON_6D_OFF : Z := 0.
Definition LSM6DSL_ACC_GYRO_LOW_PASS_ON_6D_ON : Z := 1.
Definition LSM6DSL_ACC_GYRO_LOW_PASS_ON_6D_t : list Z :=
  [LSM6DSL_ACC_GYRO_LOW_PASS_ON_6D_OFF; LSM6DSL_ACC_GYRO_LOW_PASS_ON_6D_ON].
Definition LSM6DSL_ACC_GYRO_LOW_PASS_ON_6D_MASK : Z := 1.
Definition LSM6DSL_ACC_GYRO_HP_SLOPE_XL_EN : Z := 0.
Definition LSM6DSL_ACC_GYRO_HP_SLOPE_XL_DIS : Z := 4.
Definition LSM6DSL_ACC_GYRO_HP_SLOPE_XL_t : list Z :=
  [LSM6DSL_ACC_GYRO_HP_SLOPE_XL_EN; LSM6DSL_ACC_GYRO_HP_SLOPE_XL_DIS].
Definition LSM6DSL_ACC_GYRO_HP_SLOPE_XL_MASK : Z := 4.
Definition LSM6DSL_ACC_GYRO_IN_ODR_DIV_2 : Z := 0.
Definition LSM6DSL_ACC_GYRO_IN_ODR_DIV_4 : Z := 128.
Definition LSM6DSL_ACC_GYRO_IN_COMP_t : list Z :=
  [LSM6DSL_ACC_GYRO_IN_ODR_DIV_2; LSM6DSL_ACC_GYRO_IN_ODR_DIV_4].
Definition LSM6DSL_ACC_GYRO_IN_COMP_MASK : Z := 128.
Definition LSM6DSL_ACC_GYRO_HP_REF_DISABLE : Z := 0.
Definition LSM6DSL_ACC_GYRO_HP_REF_ENABLE : Z := 16.
Definition LSM6DSL_ACC_GYRO_HP_REF_MODE_t : list Z :=
  [LSM6DSL_ACC_GYRO_HP_REF_DISABLE; LSM6DSL_ACC_GYRO_HP_REF_ENABLE].
Definition LSM6DSL_ACC_GYRO_HP_REF_MODE_MASK : Z := 16.
Definition LSM6DSL_ACC_GYRO_HPCF_XL_DIV4 : Z := 0.
Definition LSM6DSL_ACC_GYRO_HPCF_XL_DIV100 : Z := 32.
Definition LSM6DSL_ACC_GYRO_HPCF_XL_DIV9 : Z := 64.
Definition LSM6DSL_ACC_GYRO_HPCF_XL_DIV400 : Z := 96.
Definition LSM6DSL_ACC_GYRO_HPCF_XL_t : list Z :=
  [LSM6DSL_ACC_GYRO_HPCF_XL_DIV4; LSM6DSL_ACC_GYRO_HPCF_XL_DIV100; LSM6DSL_ACC_GYRO_HPCF_XL_DIV9;
   LSM6DSL_ACC_GYRO_HPCF_XL_DIV400].
Definition LSM6DSL_ACC_GYRO_HPCF_XL_MASK : Z := 96.
Definition LSM6DSL_ACC_GYRO_LPF2_XL_DISABLE : Z := 0.
Definition LSM6DSL_ACC_GYRO_LPF2_XL_ENABLE : Z := 128.
Definition LSM6DSL_ACC_GYRO_LPF2_XL_t : list Z :=
  [LSM6DSL_ACC_GYRO_LPF2_XL_DISABLE; LSM6DSL_ACC_GYRO_LPF2_XL_ENABLE].
Definition LSM6DSL_ACC_GYRO_LPF2_XL_MASK : Z := 128.
Definition LSM6DSL_ACC_GYRO_SOFT_DISABLED : Z := 0.
Definition LSM6DSL_ACC_GYRO_SOFT_ENABLE : Z := 4.
Definition LSM6DSL_ACC_GYRO_SOFT_t : list Z :=
  [LSM6DSL_ACC_GYRO_SOFT_DISABLED; LSM6DSL_ACC_GYRO_SOFT_ENABLE].
Definition LSM6DSL_ACC_GYRO_SOFT_MASK : Z := 4.
Definition LSM6DSL_ACC_GYRO_SIGN_MOTION_EN_DISABLED : Z := 0.
Definition LSM6DSL_ACC_GYRO_SIGN_MOTION_EN_ENABLED : Z := 1.
Definition LSM6DSL_ACC_GYRO_SIGN_MOTION_EN_t : list Z :=
  [LSM6DSL_ACC_GYRO_SIGN_MOTION_EN_DISABLED; LSM6DSL_ACC_GYRO_SIGN_MOTION_EN_ENABLED].
Definition LSM6DSL_ACC_GYRO_SIGN_MOTION_EN_MASK : Z := 1.
Definition LSM6DSL_ACC_GYRO_PEDO_RST_STEP_DISABLED : Z := 0.
Definition LSM6DSL_ACC_GYRO_PEDO_RST_STEP_ENABLED : Z := 2.
Definition LSM6DSL_ACC_GYRO_PEDO_RST_STEP_t : list Z :=
  [LSM6DSL_ACC_GYRO_PEDO_RST_STEP_DISABLED; LSM6DSL_ACC_GYRO_PEDO_RST_STEP_ENABLED].
Definition LSM6DSL_ACC_GYRO_PEDO_RST_STEP_MASK : Z := 2.
Definition LSM6DSL_ACC_GYRO_FUNC_EN_DISABLED : Z := 0.
Definition LSM6DSL_ACC_GYRO_FUNC_EN_ENABLED : Z := 4.
Definition LSM6DSL_ACC_GYRO_FUNC_EN_t : list Z :=
  [LSM6DSL_ACC_GYRO_FUNC_EN_DISABLED; LSM6DSL_ACC_GYRO_FUNC_EN_ENABLED].
Definition LSM6DSL_ACC_GYRO_FUNC_EN_MASK : Z := 4.
Definition LSM6DSL_ACC_GYRO_TILT_DISABLED : Z := 0.
Definition LSM6DSL_ACC_GYRO_TILT_ENABLED : Z := 8.
Definition LSM6DSL_ACC_GYRO_TILT_G_t : list Z :=
  [LSM6DSL_ACC_GYRO_TILT_DISABLED; LSM6DSL_ACC_GYRO_TILT_ENABLED].
Definition LSM6DSL_ACC_GYRO_TILT_MASK : Z := 8.
Definition LSM6DSL_ACC_GYRO_PEDO_DISABLED : Z := 0.
Definition LSM6DSL_ACC_GYRO_PEDO_ENABLED : Z := 16.
Definition LSM6DSL_ACC_GYRO_PEDO_t : list Z :=
  [LSM6DSL_ACC_GYRO_PEDO_DISABLED; LSM6DSL_ACC_GYRO_PEDO_ENABLED].
Definition LSM6DSL_ACC_GYRO_PEDO_MASK : Z := 16.
Definition LSM6DSL_ACC_GYRO_TIMER_DISABLED : Z := 0.
Definition LSM6DSL_ACC_GYRO_TIMER_ENABLED : Z := 32.
Definition LSM6DSL_ACC_GYRO_TIMER_t : list Z :=
  [LSM6DSL_ACC_GYRO_TIMER_DISABLED; LSM6DSL_ACC_GYRO_TIMER_ENABLED].
Definition LSM6DSL_ACC_GYRO_TIMER_MASK : Z := 32.
Definition LSM6DSL_ACC_GYRO_MASTER_ON_DISABLED : Z := 0.
Definition LSM6DSL_ACC_GYRO_MASTER_ON_ENABLED : Z := 1.
Definition LSM6DSL_ACC_GYRO_MASTER_ON_t : list Z :=
  [LSM6DSL_ACC_GYRO_MASTER_ON_DISABLED; LSM6DSL_ACC_GYRO_MASTER_ON_ENABLED].
Definition LSM6DSL_ACC_GYRO_MASTER_ON_MASK : Z := 1.
Definition LSM6DSL_ACC_GYRO_IRON_EN_DISABLED : Z := 0.
Definition LSM6DSL_ACC_GYRO_IRON_EN_ENABLED : Z := 2.
Definition LSM6DSL_ACC_GYRO_IRON_EN_t : list Z :=
  [LSM6DSL_ACC_GYRO_IRON_EN_DISABLED; LSM6DSL_ACC_GYRO_IRON_EN_ENABLED].
Definition LSM6DSL_ACC_GYRO_IRON_EN_MASK : Z := 2.
Definition LSM6DSL_ACC_GYRO_PASS_THRU_MODE_DISABLED : Z := 0.
Definition LSM6DSL_ACC_GYRO_PASS_THRU_MODE_ENABLED : Z := 4.
Definition LSM6DSL_ACC_GYRO_PASS_THRU_MODE_t : list Z :=
  [LSM6DSL_ACC_GYRO_PASS_THRU_MODE_DISABLED; LSM6DSL_ACC_GYRO_PASS_THRU_MODE_ENABLED].
Definition LSM6DSL_ACC_GYRO_PASS_THRU_MODE_MASK : Z := 4.
Definition LSM6DSL_ACC_GYRO_PULL_UP_EN_DISABLED : Z := 0.
Definition LSM6DSL_ACC_GYRO_PULL_UP_EN_ENABLED : Z := 8.
Definition LSM6DSL_ACC_GYRO_PULL_UP_EN_t : list Z :=
  [LSM6DSL_ACC_GYRO_PULL_UP_EN_DISABLED; LSM6DSL_ACC_GYRO_PULL_UP_EN_ENABLED].
Definition LSM6DSL_ACC_GYRO_PULL_UP_EN_MASK : Z := 8.
Definition LSM6DSL_ACC_GYRO_START_CONFIG_XL_G_DRDY : Z := 0.
Definition LSM6DSL_ACC_GYRO_START_CONFIG_EXT_INT2 : Z := 16.
Definition LSM6DSL_ACC_GYRO_START_CONFIG_t : list Z :=
  [LSM6DSL_ACC_GYRO_START_CONFIG_XL_G_DRDY; LSM6DSL_ACC_GYRO_START_CONFIG_EXT_INT2].
Definition LSM6DSL_ACC_GYRO_START_CONFIG_MASK : Z := 16.
Definition LSM6DSL_ACC_GYRO_DATA_VAL_SEL_FIFO_XL_G_DRDY : Z := 0.
Definition LSM6DSL_ACC_GYRO_DATA_VAL_SEL_FIFO_SHUB_DRDY : Z := 64.
Definition LSM6DSL_ACC_GYRO_DATA_VAL_SEL_FIFO_t : list Z :=
  [LSM6DSL_ACC_GYRO_DATA_VAL_SEL_FIFO_XL_G_DRDY; LSM6DSL_ACC_GYRO_DATA_VAL_SEL_FIFO_SHUB_DRDY].
Definition LSM6DSL_ACC_GYRO_DATA_VAL_SEL_FIFO_MASK : Z := 64.
Definition LSM6DSL_ACC_GYRO_DRDY_ON_INT1_DISABLED : Z := 0.
Definition LSM6DSL_ACC_GYRO_DRDY_ON_INT1_ENABLED : Z := 128.
Definition LSM6DSL_ACC_GYRO_DRDY_ON_INT1_t : list Z :=
  [LSM6DSL_ACC_GYRO_DRDY_ON_INT1_DISABLED; LSM6DSL_ACC_GYRO_DRDY_ON_INT1_ENABLED].
Definition LSM6DSL_ACC_GYRO_DRDY_ON_INT1_MASK : Z := 128.
Definition LSM6DSL_ACC_GYRO_Z_WU_NOT_DETECTED : Z := 0.
Definition LSM6DSL_ACC_GYRO_Z_WU_DETECTED : Z := 1.
Definition LSM6DSL_ACC_GYRO_Z_WU_t : list Z :=
  [LSM6DSL_ACC_GYRO_Z_WU_NOT_DETECTED; LSM6DSL_ACC_GYRO_Z_WU_DETECTED].
Definition LSM6DSL_ACC_GYRO_Z_WU_MASK : Z := 1.
Definition LSM6DSL_ACC_GYRO_Y_WU_NOT_DETECTED : Z := 0.
Definition LSM6DSL_ACC_GYRO_Y_WU_DETECTED : Z := 2.
Definition LSM6DSL_ACC_GYRO_Y_WU_t : list Z :=
  [LSM6DSL_ACC_GYRO_Y_WU_NOT_DETECTED; LSM6DSL_ACC_GYRO_Y_WU_DETECTED].
Definition LSM6DSL_ACC_GYRO_Y_WU_MASK : Z := 2.
Definition LSM6DSL_ACC_GYRO_X_WU_NOT_DETECTED : Z := 0.
Definition LSM6DSL_ACC_GYRO_X_WU_DETECTED : Z := 4.
Definition LSM6DSL_ACC_GYRO_X_WU_t : list Z :=
  [LSM6DSL_ACC_GYRO_X_WU_NOT_DETECTED; LSM6DSL_ACC_GYRO_X_WU_DETECTED].
Definition LSM6DSL_ACC_GYRO_X_WU_MASK : Z := 4.
Definition LSM6DSL_ACC_GYRO_WU_EV_STATUS_NOT_DETECTED : Z := 0.
Definition LSM6DSL_ACC_GYRO_WU_EV_STATUS_DETECTED : Z := 8.
Definition LSM6DSL_ACC_GYRO_WU_EV_STATUS_t : list Z :=
  [LSM6DSL_ACC_GYRO_WU_EV_STATUS_NOT_DETECTED; LSM6DSL_ACC_GYRO_WU_EV_STATUS_DETECTED].
Definition LSM6DSL_ACC_GYRO_WU_EV_STATUS_MASK : Z := 8.
Definition LSM6DSL_ACC_GYRO_SLEEP_EV_STATUS_NOT_DETECTED : Z := 0.
Definition LSM6DSL_ACC_GYRO_SLEEP_EV_STATUS_DETECTED : Z := 16.
Definition LSM6DSL_ACC_GYRO_SLEEP_EV_STATUS_t : list Z :=
  [LSM6DSL_ACC_GYRO_SLEEP_EV_STATUS_NOT_DETECTED; LSM6DSL_ACC_GYRO_SLEEP_EV_STATUS_DETECTED].
Definition LSM6DSL_ACC_GYRO_SLEEP_EV_STATUS_MASK : Z := 16.
Definition LSM6DSL_ACC_GYRO_FF_EV_STATUS_NOT_DETECTED : Z := 0.
Definition LSM6DSL_ACC_GYRO_FF_EV_STATUS_DETECTED : Z := 32.
Definition LSM6DSL_ACC_GYRO_FF_EV_STATUS_t : list Z :=
  [LSM6DSL_ACC_GYRO_FF_EV_STATUS_NOT_DETECTED; LSM6DSL_ACC_GYRO_FF_EV_STATUS_DETECTED].
Definition LSM6DSL_ACC_GYRO_FF_EV_STATUS_MASK : Z := 32.
Definition LSM6DSL_ACC_GYRO_Z_TAP_NOT_DETECTED : Z := 0.
Definition LSM6DSL_ACC_GYRO_Z_TAP_DETECTED : Z := 1.
Definition LSM6DSL_ACC_GYRO_Z_TAP_t : list Z :=
  [LSM6DSL_ACC_GYRO_Z_TAP_NOT_DETECTED; LSM6DSL_ACC_GYRO_Z_TAP_DETECTED].
Definition LSM6DSL_ACC_GYRO_Z_TAP_MASK : Z := 1.
Definition LSM6DSL_ACC_GYRO_Y_TAP_NOT_DETECTED : Z := 0.
Definition LSM6DSL_ACC_GYRO_Y_TAP_DETECTED : Z := 2.
Definition LSM6DSL_ACC_GYRO_Y_TAP_t : list Z :=
  [LSM6DSL_ACC_GYRO_Y_TAP_NOT_DETECTED; LSM6DSL_ACC_GYRO_Y_TAP_DETECTED].
Definition LSM6DSL_ACC_GYRO_Y_TAP_MASK : Z := 2.
Definition LSM6DSL_ACC_GYRO_X_TAP_NOT_DETECTED : Z := 0.
Definition LSM6DSL_ACC_GYRO_X_TAP_DETECTED : Z := 4.
Definition LSM6DSL_ACC_GYRO_X_TAP_t : list Z :=
  [LSM6DSL_ACC_GYRO_X_TAP_NOT_DETECTED; LSM6DSL_ACC_GYRO_X_TAP_DETECTED].
Definition LSM6DSL_ACC_GYRO_X_TAP_MASK : Z := 4.
Definition LSM6DSL_ACC_GYRO_TAP_SIGN_POS_SIGN : Z := 0.
Definition LSM6DSL_ACC_GYRO_TAP_SIGN_NEG_SIGN : Z := 8.
Definition LSM6DSL_ACC_GYRO_TAP_SIGN_t : list Z :=
  [LSM6DSL_ACC_GYRO_TAP_SIGN_POS_SIGN; LSM6DSL_ACC_GYRO_TAP_SIGN_NEG_SIGN].
Definition LSM6DSL_ACC_GYRO_TAP_SIGN_MASK : Z := 8.
Definition LSM6DSL_ACC_GYRO_DOUBLE_TAP_EV_STATUS_NOT_DETECTED : Z := 0.
Definition LSM6DSL_ACC_GYRO_DOUBLE_TAP_EV_STATUS_DETECTED : Z := 16.
Definition LSM6DSL_ACC_GYRO_DOUBLE_TAP_EV_STATUS_t : list Z :=
  [LSM6DSL_ACC_GYRO_DOUBLE_TAP_EV_STATUS_NOT_DETECTED; LSM6DSL_ACC_GYRO_DOUBLE_TAP_EV_STATUS_DETECTED].
Definition LSM6DSL_ACC_GYRO_DOUBLE_TAP_EV_STATUS_MASK : Z := 16.
Definition LSM6DSL_ACC_GYRO_SINGLE_TAP_EV_STATUS_NOT_DETECTED : Z := 0.
Definition LSM6DSL_ACC_GYRO_SINGLE_TAP_EV_STATUS_DETECTED : Z := 32.
Definition LSM6DSL_ACC_GYRO_SINGLE_TAP_EV_STATUS_t : list Z :=
  [LSM6DSL_ACC_GYRO_SINGLE_TAP_EV_STATUS_NOT_DETECTED; LSM6DSL_ACC_GYRO_SINGLE_TAP_EV_STATUS_DETECTED].
Definition LSM6DSL_ACC_GYRO_SINGLE_TAP_EV_STATUS_MASK : Z := 32.
Definition LSM6DSL_ACC_GYRO_TAP_EV_STATUS_NOT_DETECTED : Z := 0.
Definition LSM6DSL_ACC_GYRO_TAP_EV_STATUS_DETECTED : Z := 64.
Definition LSM6DSL_ACC_GYRO_TAP_EV_STATUS_t : list Z :=
  [LSM6DSL_ACC_GYRO_TAP_EV_STATUS_NOT_DETECTED; LSM6DSL_ACC_GYRO_TAP_EV_STATUS_DETECTED].
Definition LSM6DSL_ACC_GYRO_TAP_EV_STATUS_MASK : Z := 64.
Definition LSM6DSL_ACC_GYRO_DSD_XL_NOT_DETECTED : Z := 0.
Definition LSM6DSL_ACC_GYRO_DSD_XL_DETECTED : Z := 1.
Definition LSM6DSL_ACC_GYRO_DSD_XL_t : list Z :=
  [LSM6DSL_ACC_GYRO_DSD_XL_NOT_DETECTED; LSM6DSL_ACC_GYRO_DSD_XL_DETECTED].
Definition LSM6DSL_ACC_GYRO_DSD_XL_MASK : Z := 1.
Definition LSM6DSL_ACC_GYRO_DSD_XH_NOT_DETECTED : Z := 0.
Definition LSM6DSL_ACC_GYRO_DSD_XH_DETECTED : Z := 2.
Definition LSM6DSL_ACC_GYRO_DSD_XH_t : list Z :=
  [LSM6DSL_ACC_GYRO_DSD_XH_NOT_DETECTED; LSM6DSL_ACC_GYRO_DSD_XH_DETECTED].
Definition LSM6DSL_ACC_GYRO_DSD_XH_MASK : Z := 2.
Definition LSM6DSL_ACC_GYRO_DSD_YL_NOT_DETECTED : Z := 0.
Definition LSM6DSL_ACC_GYRO_DSD_YL_DETECTED : Z := 4.
Definition LSM6DSL_ACC_GYRO_DSD_YL_t : list Z :=
  [LSM6DSL_ACC_GYRO_DSD_YL_NOT_DETECTED; LSM6DSL_ACC_GYRO_DSD_YL_DETECTED].
Definition LSM6DSL_ACC_GYRO_DSD_YL_MASK : Z := 4.
Definition LSM6DSL_ACC_GYRO_DSD_YH_NOT_DETECTED : Z := 0.
Definition LSM6DSL_ACC_GYRO_DSD_YH_DETECTED : Z := 8.
Definition LSM6DSL_ACC_GYRO_DSD_YH_t : list Z :=
  [LSM6DSL_ACC_GYRO_DSD_YH_NOT_DETECTED; LSM6DSL_ACC_GYRO_DSD_YH_DETECTED].
Definition LSM6DSL_ACC_GYRO_DSD_YH_MASK : Z := 8.
Definition LSM6DSL_ACC_GYRO_DSD_ZL_NOT_DETECTED : Z := 0.
Definition LSM6DSL_ACC_GYRO_DSD_ZL_DETECTED : Z := 16.
Definition LSM6DSL_ACC_GYRO_DSD_ZL_t : list Z :=
  [LSM6DSL_ACC_GYRO_DSD_ZL_NOT_DETECTED; LSM6DSL_ACC_GYRO_DSD_ZL_DETECTED].
Definition LSM6DSL_ACC_GYRO_DSD_ZL_MASK : Z := 16.
Definition LSM6DSL_ACC_GYRO_DSD_ZH_NOT_DETECTED : Z := 0.
Definition LSM6DSL_ACC_GYRO_DSD_ZH_DETECTED : Z := 32.
Definition LSM6DSL_ACC_GYRO_DSD_ZH_t : list Z :=
  [LSM6DSL_ACC_GYRO_DSD_ZH_NOT_DETECTED; LSM6DSL_ACC_GYRO_DSD_ZH_DETECTED].
Definition LSM6DSL_ACC_GYRO_DSD_ZH_MASK : Z := 32.
Definition LSM6DSL_ACC_GYRO_D6D_EV_STATUS_NOT_DETECTED : Z := 0.
Definition LSM6DSL_ACC_GYRO_D6D_EV_STATUS_DETECTED : Z := 64.
Definition LSM6DSL_ACC_GYRO_D6D_EV_STATUS_t : list Z :=
  [LSM6DSL_ACC_GYRO_D6D_EV_STATUS_NOT_DETECTED; LSM6DSL_ACC_GYRO_D6D_EV_STATUS_DETECTED].
Definition LSM6DSL_ACC_GYRO_D6D_EV_STATUS_MASK : Z := 64.
Definition LSM6DSL_ACC_GYRO_XLDA_NO_DATA_AVAIL : Z := 0.
Definition LSM6DSL_ACC_GYRO_XLDA_DATA_AVAIL : Z := 1.
Definition LSM6DSL_ACC_GYRO_XLDA_t : list Z :=
  [LSM6DSL_ACC_GYRO_XLDA_NO_DATA_AVAIL; LSM6DSL_ACC_GYRO_XLDA_DATA_AVAIL].
Definition LSM6DSL_ACC_GYRO_XLDA_MASK : Z := 1.
Definition LSM6DSL_ACC_GYRO_GDA_NO_DATA_AVAIL : Z := 0.
Definition LSM6DSL_ACC_GYRO_GDA_DATA_AVAIL : Z := 2.
Definition LSM6DSL_ACC_GYRO_GDA_t : list Z :=
  [LSM6DSL_ACC_GYRO_GDA_NO_DATA_AVAIL; LSM6DSL_ACC_GYRO_GDA_DATA_AVAIL].
Definition LSM6DSL_ACC_GYRO_GDA_MASK : Z := 2.
Definition LSM6DSL_ACC_GYRO_TDA_NO_DATA_AVAIL : Z := 0.
Definition LSM6DSL_ACC_GYRO_TDA_DATA_AVAIL : Z := 4.
Definition LSM6DSL_ACC_GYRO_TDA_t : list Z :=
  [LSM6DSL_ACC_GYRO_TDA_NO_DATA_AVAIL; LSM6DSL_ACC_GYRO_TDA_DATA_AVAIL].
Definition LSM6DSL_ACC_GYRO_TDA_MASK : Z := 4.
Definition LSM6DSL_ACC_GYRO_DIFF_FIFO_STATUS1_MASK : Z := 255.
Definition LSM6DSL_ACC_GYRO_DIFF_FIFO_STATUS1_POSITION : Z := 0.
Definition LSM6DSL_ACC_GYRO_DIFF_FIFO_STATUS2_MASK : Z := 15.
Definition LSM6DSL_ACC_GYRO_DIFF_FIFO_STATUS2_POSITION : Z := 0.
Definition LSM6DSL_ACC_GYRO_FIFO_EMPTY_FIFO_NOT_EMPTY : Z := 0.
Definition LSM6DSL_ACC_GYRO_FIFO_EMPTY_FIFO_EMPTY : Z := 16.
Definition LSM6DSL_ACC_GYRO_FIFO_EMPTY_t : list Z :=
  [LSM6DSL_ACC_GYRO_FIFO_EMPTY_FIFO_NOT_EMPTY; LSM6DSL_ACC_GYRO_FIFO_EMPTY_FIFO_EMPTY].
Definition LSM6DSL_ACC_GYRO_FIFO_EMPTY_MASK : Z := 16.
Definition LSM6DSL_ACC_GYRO_FIFO_FULL_FIFO_NOT_FULL : Z := 0.
Definition LSM6DSL_ACC_GYRO_FIFO_FULL_FIFO_FULL : Z := 32.
Definition LSM6DSL_ACC_GYRO_FIFO_FULL_t : list Z :=
  [LSM6DSL_ACC_GYRO_FIFO_FULL_FIFO_NOT_FULL; LSM6DSL_ACC_GYRO_FIFO_FULL_FIFO_FULL].
Definition LSM6DSL_ACC_GYRO_FIFO_FULL_MASK : Z := 32.
Definition LSM6DSL_ACC_GYRO_OVERRUN_NO_OVERRUN : Z := 0.
Definition LSM6DSL_ACC_GYRO_OVERRUN_OVERRUN : Z := 64.
Definition LSM6DSL_ACC_GYRO_OVERRUN_t : list Z :=
  [LSM6DSL_ACC_GYRO_OVERRUN_NO_OVERRUN; LSM6DSL_ACC_GYRO_OVERRUN_OVERRUN].
Definition LSM6DSL_ACC_GYRO_OVERRUN_MASK : Z := 64.
Definition LSM6DSL_ACC_GYRO_WTM_BELOW_WTM : Z := 0.
Definition LSM6DSL_ACC_GYRO_WTM_ABOVE_OR_EQUAL_WTM : Z := 128.
Definition LSM6DSL_ACC_GYRO_WTM_t : list Z :=
  [LSM6DSL_ACC_GYRO_WTM_BELOW_WTM; LSM6DSL_ACC_GYRO_WTM_ABOVE_OR_EQUAL_WTM].
Definition LSM6DSL_ACC_GYRO_WTM_MASK : Z := 128.
Definition LSM6DSL_ACC_GYRO_FIFO_STATUS3_PATTERN_MASK : Z := 255.
Definition LSM6DSL_ACC_GYRO_FIFO_STATUS3_PATTERN_POSITION : Z := 0.
Definition LSM6DSL_ACC_GYRO_FIFO_STATUS4_PATTERN_MASK : Z := 3.
Definition LSM6DSL_ACC_GYRO_FIFO_STATUS4_PATTERN_POSITION : Z := 0.
Definition LSM6DSL_ACC_GYRO_SENS_HUB_END_STILL_ONGOING : Z := 0.
Definition LSM6DSL_ACC_GYRO_SENS_HUB_END_OP_COMPLETED : Z := 1.
Definition LSM6DSL_ACC_GYRO_SENS_HUB_END_t : list Z :=
  [LSM6DSL_ACC_GYRO_SENS_HUB_END_STILL_ONGOING; LSM6DSL_ACC_GYRO_SENS_HUB_END_OP_COMPLETED].
Definition LSM6DSL_ACC_GYRO_SENS_HUB_END_MASK : Z := 1.
Definition LSM6DSL_ACC_GYRO_SOFT_IRON_END_NOT_COMPLETED : Z := 0.
Definition LSM6DSL_ACC_GYRO_SOFT_IRON_END_COMPLETED : Z := 2.
Definition LSM6DSL_ACC_GYRO_SOFT_IRON_END_t : list Z :=
  [LSM6DSL_ACC_GYRO_SOFT_IRON_END_NOT_COMPLETED; LSM6DSL_ACC_GYRO_SOFT_IRON_END_COMPLETED].
Definition LSM6DSL_ACC_GYRO_SOFT_IRON_END_MASK : Z := 2.
Definition LSM6DSL_ACC_GYRO_HARD_IRON_NORMAL : Z := 0.
Definition LSM6DSL_ACC_GYRO_HARD_IRON_FAIL : Z := 4.
Definition LSM6DSL_ACC_GYRO_SOFT_HARD_IRON_STAT_t : list Z :=
  [LSM6DSL_ACC_GYRO_HARD_IRON_NORMAL; LSM6DSL_ACC_GYRO_HARD_IRON_FAIL].
Definition LSM6DSL_ACC_GYRO_HARD_IRON_STAT_MASK : Z := 4.
Definition LSM6DSL_ACC_GYRO_PEDO_STEP_IN_RANGE : Z := 0.
Definition LSM6DSL_ACC_GYRO_PEDO_ESTEP_OVERFLOW : Z := 8.
Definition LSM6DSL_ACC_GYRO_STEP_OVERFLOW_t : list Z :=
  [LSM6DSL_ACC_GYRO_PEDO_STEP_IN_RANGE; LSM6DSL_ACC_GYRO_PEDO_ESTEP_OVERFLOW].
Definition LSM6DSL_ACC_GYRO_STEP_OVERFLOW_MASK : Z := 8.
Definition LSM6DSL_ACC_GYRO_PEDO_EV_STATUS_NOT_DETECTED : Z := 0.
Definition LSM6DSL_ACC_GYRO_PEDO_EV_STATUS_DETECTED : Z := 16.
Definition LSM6DSL_ACC_GYRO_PEDO_EV_STATUS_t : list Z :=
  [LSM6DSL_ACC_GYRO_PEDO_EV_STATUS_NOT_DETECTED; LSM6DSL_ACC_GYRO_PEDO_EV_STATUS_DETECTED].
Definition LSM6DSL_ACC_GYRO_PEDO_EV_STATUS_MASK : Z := 16.
Definition LSM6DSL_ACC_GYRO_TILT_EV_STATUS_NOT_DETECTED : Z := 0.
Definition LSM6DSL_ACC_GYRO_TILT_EV_STATUS_DETECTED : Z := 32.
Definition LSM6DSL_ACC_GYRO_TILT_EV_STATUS_t : list Z :=
  [LSM6DSL_ACC_GYRO_TILT_EV_STATUS_NOT_DETECTED; LSM6DSL_ACC_GYRO_TILT_EV_STATUS_DETECTED].
Definition LSM6DSL_ACC_GYRO_TILT_EV_STATUS_MASK : Z := 32.
Definition LSM6DSL_ACC_GYRO_SIGN_MOT_EV_STATUS_NOT_DETECTED : Z := 0.
Definition LSM6DSL_ACC_GYRO_SIGN_MOT_EV_STATUS_DETECTED : Z := 64.
Definition LSM6DSL_ACC_GYRO_SIGN_MOT_EV_STATUS_t : list Z :=
  [LSM6DSL_ACC_GYRO_SIGN_MOT_EV_STATUS_NOT_DETECTED; LSM6DSL_ACC_GYRO_SIGN_MOT_EV_STATUS_DETECTED].
Definition LSM6DSL_ACC_GYRO_SIGN_MOT_EV_STATUS_MASK : Z := 64.
Definition LSM6DSL_ACC_GYRO_NO_STEP_COUNT_IN_DELTA : Z := 0.
Definition LSM6DSL_ACC_GYRO_STEP_COUNT_IN_DELTA : Z := 128.
Definition LSM6DSL_ACC_GYRO_STEP_COUNT_DELTA_t : list Z :=
  [LSM6DSL_ACC_GYRO_NO_STEP_COUNT_IN_DELTA; LSM6DSL_ACC_GYRO_STEP_COUNT_IN_DELTA].
Definition LSM6DSL_ACC_GYRO_STEP_COUNT_DELTA_MASK : Z := 128.
Definition LSM6DSL_ACC_GYRO_LIR_DISABLED : Z := 0.
Definition LSM6DSL_ACC_GYRO_LIR_ENABLED : Z := 1.
Definition LSM6DSL_ACC_GYRO_LIR_t : list Z :=
  [LSM6DSL_ACC_GYRO_LIR_DISABLED; LSM6DSL_ACC_GYRO_LIR_ENABLED].
Definition LSM6DSL_ACC_GYRO_LIR_MASK : Z := 1.
Definition LSM6DSL_ACC_GYRO_TAP_Z_EN_DISABLED : Z := 0.
Definition LSM6DSL_ACC_GYRO_TAP_Z_EN_ENABLED : Z := 2.
Definition LSM6DSL_ACC_GYRO_TAP_Z_EN_t : list Z :=
  [LSM6DSL_ACC_GYRO_TAP_Z_EN_DISABLED; LSM6DSL_ACC_GYRO_TAP_Z_EN_ENABLED].
Definition LSM6DSL_ACC_GYRO_TAP_Z_EN_MASK : Z := 2.
Definition LSM6DSL_ACC_GYRO_TAP_Y_EN_DISABLED : Z := 0.
Definition LSM6DSL_ACC_GYRO_TAP_Y_EN_ENABLED : Z := 4.
Definition LSM6DSL_ACC_GYRO_TAP_Y_EN_t : list Z :=
  [LSM6DSL_ACC_GYRO_TAP_Y_EN_DISABLED; LSM6DSL_ACC_GYRO_TAP_Y_EN_ENABLED].
Definition LSM6DSL_ACC_GYRO_TAP_Y_EN_MASK : Z := 4.
Definition LSM6DSL_ACC_GYRO_TAP_X_EN_DISABLED : Z := 0.
Definition LSM6DSL_ACC_GYRO_TAP_X_EN_ENABLED : Z := 8.
Definition LSM6DSL_ACC_GYRO_TAP_X_EN_t : list Z :=
  [LSM6DSL_ACC_GYRO_TAP_X_EN_DISABLED; LSM6DSL_ACC_GYRO_TAP_X_EN_ENABLED].
Definition LSM6DSL_ACC_GYRO_TAP_X_EN_MASK : Z := 8.
Definition LSM6DSL_ACC_GYRO_SLOPE_FDS_DISABLED : Z := 0.
Definition LSM6DSL_ACC_GYRO_SLOPE_FDS_ENABLED : Z := 16.
Definition LSM6DSL_ACC_GYRO_SLOPE_FDS_t : list Z :=
  [LSM6DSL_ACC_GYRO_SLOPE_FDS_DISABLED; LSM6DSL_ACC_GYRO_SLOPE_FDS_ENABLED].
Definition LSM6DSL_ACC_GYRO_SLOPE_FDS_MASK : Z := 16.
Definition LSM6DSL_ACC_GYRO_BASIC_INT_DISABLED : Z := 0.
Definition LSM6DSL_ACC_GYRO_BASIC_INT_ENABLED : Z := 128.
Definition LSM6DSL_ACC_GYRO_INT_EN_t : list Z :=
  [LSM6DSL_ACC_GYRO_BASIC_INT_DISABLED; LSM6DSL_ACC_GYRO_BASIC_INT_ENABLED].
Definition LSM6DSL_ACC_GYRO_INT_EN_MASK : Z := 128.
Definition LSM6DSL_ACC_GYRO_TAP_THS_MASK : Z := 31.
Definition LSM6DSL_ACC_GYRO_TAP_THS_POSITION : Z := 0.
Definition LSM6DSL_ACC_GYRO_SIXD_THS_80_degree : Z := 0.
Definition LSM6DSL_ACC_GYRO_SIXD_THS_70_degree : Z := 32.
Definition LSM6DSL_ACC_GYRO_SIXD_THS_60_degree : Z := 64.
Definition LSM6DSL_ACC_GYRO_SIXD_THS_50_degree : Z := 96.
Definition LSM6DSL_ACC_GYRO_SIXD_THS_t : list Z :=
  [LSM6DSL_ACC_GYRO_SIXD_THS_80_degree; LSM6DSL_ACC_GYRO_SIXD_THS_70_degree; LSM6DSL_ACC_GYRO_SIXD_THS_60_degree;
   LSM6DSL_ACC_GYRO_SIXD_THS_50_degree].
Definition LSM6DSL_ACC_GYRO_SIXD_THS_MASK : Z := 96.
Definition LSM6DSL_ACC_GYRO_D4D_DIS : Z := 0.
Definition LSM6DSL_ACC_GYRO_D4D_EN : Z := 128.
Definition LSM6DSL_ACC_GYRO_D4D_t : list Z :=
  [LSM6DSL_ACC_GYRO_D4D_DIS; LSM6DSL_ACC_GYRO_D4D_EN].
Definition LSM6DSL_ACC_GYRO_D4D_MASK : Z := 128.
Definition LSM6DSL_ACC_GYRO_SHOCK_MASK : Z := 3.
Definition LSM6DSL_ACC_GYRO_SHOCK_POSITION : Z := 0.
Definition LSM6DSL_ACC_GYRO_QUIET_MASK : Z := 12.
Definition LSM6DSL_ACC_GYRO_QUIET_POSITION : Z := 2.
Definition LSM6DSL_ACC_GYRO_DUR_MASK : Z := 240.
Definition LSM6DSL_ACC_GYRO_DUR_POSITION : Z := 4.
Definition LSM6DSL_ACC_GYRO_WK_THS_MASK : Z := 63.
Definition LSM6DSL_ACC_GYRO_WK_THS_POSITION : Z := 0.
Definition LSM6DSL_ACC_GYRO_SINGLE_DOUBLE_TAP_SINGLE_TAP : Z := 0.
Definition LSM6DSL_ACC_GYRO_SINGLE_DOUBLE_TAP_DOUBLE_TAP : Z := 128.
Definition LSM6DSL_ACC_GYRO_SINGLE_DOUBLE_TAP_t : list Z :=
  [LSM6DSL_ACC_GYRO_SINGLE_DOUBLE_TAP_SINGLE_TAP; LSM6DSL_ACC_GYRO_SINGLE_DOUBLE_TAP_DOUBLE_TAP].
Definition LSM6DSL_ACC_GYRO_SINGLE_DOUBLE_TAP_MASK : Z := 128.
Definition LSM6DSL_ACC_GYRO_SLEEP_DUR_MASK : Z := 15.
Definition LSM6DSL_ACC_GYRO_SLEEP_DUR_POSITION : Z := 0.
Definition LSM6DSL_ACC_GYRO_TIMER_HR_6_4ms : Z := 0.
Definition LSM6DSL_ACC_GYRO_TIMER_HR_25us : Z := 16.
Definition LSM6DSL_ACC_GYRO_TIMER_HR_t : list Z :=
  [LSM6DSL_ACC_GYRO_TIMER_HR_6_4ms; LSM6DSL_ACC_GYRO_TIMER_HR_25us].
Definition LSM6DSL_ACC_GYRO_TIMER_HR_MASK : Z := 16.
Definition LSM6DSL_ACC_GYRO_WAKE_DUR_MASK : Z := 96.
Definition LSM6DSL_ACC_GYRO_WAKE_DUR_POSITION : Z := 5.
Definition LSM6DSL_ACC_GYRO_FF_FREE_FALL_DUR_MASK : Z := 248.
Definition LSM6DSL_ACC_GYRO_FF_FREE_FALL_DUR_POSITION : Z := 3.
Definition LSM6DSL_ACC_GYRO_FF_WAKE_UP_DUR_MASK : Z := 128.
Definition LSM6DSL_ACC_GYRO_FF_WAKE_UP_DUR_POSITION : Z := 7.
Definition LSM6DSL_ACC_GYRO_FF_THS_156mg : Z := 0.
Definition LSM6DSL_ACC_GYRO_FF_THS_219mg : Z := 1.
Definition LSM6DSL_ACC_GYRO_FF_THS_250mg : Z := 2.
Definition LSM6DSL_ACC_GYRO_FF_THS_312mg : Z := 3.
Definition LSM6DSL_ACC_GYRO_FF_THS_344mg : Z := 4.
Definition LSM6DSL_ACC_GYRO_FF_THS_406mg : Z := 5.
Definition LSM6DSL_ACC_GYRO_FF_THS_469mg : Z := 6.
Definition LSM6DSL_ACC_GYRO_FF_THS_500mg : Z := 7.
Definition LSM6DSL_ACC_GYRO_FF_THS_t : list Z :=
  [LSM6DSL_ACC_GYRO_FF_THS_156mg; LSM6DSL_ACC_GYRO_FF_THS_219mg; LSM6DSL_ACC_GYRO_FF_THS_250mg;
   LSM6DSL_ACC_GYRO_FF_THS_312mg; LSM6DSL_ACC_GYRO_FF_THS_344mg; LSM6DSL_ACC_GYRO_FF_THS_406mg;
   LSM6DSL_ACC_GYRO_FF_THS_469mg; LSM6DSL_ACC_GYRO_FF_THS_500mg].
Definition LSM6DSL_ACC_GYRO_FF_THS_MASK : Z := 7.
Definition LSM6DSL_ACC_GYRO_INT1_TIMER_DISABLED : Z := 0.
Definition LSM6DSL_ACC_GYRO_INT1_TIMER_ENABLED : Z := 1.
Definition LSM6DSL_ACC_GYRO_INT1_TIMER_t : list Z :=
  [LSM6DSL_ACC_GYRO_INT1_TIMER_DISABLED; LSM6DSL_ACC_GYRO_INT1_TIMER_ENABLED].
Definition LSM6DSL_ACC_GYRO_INT1_TIMER_MASK : Z := 1.
Definition LSM6DSL_ACC_GYRO_INT1_TILT_DISABLED : Z := 0.
Definition LSM6DSL_ACC_GYRO_INT1_TILT_ENABLED : Z := 2.
Definition LSM6DSL_ACC_GYRO_INT1_TILT_t : list Z :=
  [LSM6DSL_ACC_GYRO_INT1_TILT_DISABLED; LSM6DSL_ACC_GYRO_INT1_TILT_ENABLED].
Definition LSM6DSL_ACC_GYRO_INT1_TILT_MASK : Z := 2.
Definition LSM6DSL_ACC_GYRO_INT1_6D_DISABLED : Z := 0.
Definition LSM6DSL_ACC_GYRO_INT1_6D_ENABLED : Z := 4.
Definition LSM6DSL_ACC_GYRO_INT1_6D_t : list Z :=
  [LSM6DSL_ACC_GYRO_INT1_6D_DISABLED; LSM6DSL_ACC_GYRO_INT1_6D_ENABLED].
Definition LSM6DSL_ACC_GYRO_INT1_6D_MASK : Z := 4.
Definition LSM6DSL_ACC_GYRO_INT1_TAP_DISABLED : Z := 0.
Definition LSM6DSL_ACC_GYRO_INT1_TAP_ENABLED : Z := 8.
Definition LSM6DSL_ACC_GYRO_INT1_TAP_t : list Z :=
  [LSM6DSL_ACC_GYRO_INT1_TAP_DISABLED; LSM6DSL_ACC_GYRO_INT1_TAP_ENABLED].
Definition LSM6DSL_ACC_GYRO_INT1_TAP_MASK : Z := 8.
Definition LSM6DSL_ACC_GYRO_INT1_FF_DISABLED : Z := 0.
Definition LSM6DSL_ACC_GYRO_INT1_FF_ENABLED : Z := 16.
Definition LSM6DSL_ACC_GYRO_INT1_FF_t : list Z :=
  [LSM6DSL_ACC_GYRO_INT1_FF_DISABLED; LSM6DSL_ACC_GYRO_INT1_FF_ENABLED].
Definition LSM6DSL_ACC_GYRO_INT1_FF_MASK : Z := 16.
Definition LSM6DSL_ACC_GYRO_INT1_WU_DISABLED : Z := 0.
Definition LSM6DSL_ACC_GYRO_INT1_WU_ENABLED : Z := 32.
Definition LSM6DSL_ACC_GYRO_INT1_WU_t : list Z :=
  [LSM6DSL_ACC_GYRO_INT1_WU_DISABLED; LSM6DSL_ACC_GYRO_INT1_WU_ENABLED].
Definition LSM6DSL_ACC_GYRO_INT1_WU_MASK : Z := 32.
Definition LSM6DSL_ACC_GYRO_INT1_SINGLE_TAP_DISABLED : Z := 0.
Definition LSM6DSL_ACC_GYRO_INT1_SINGLE_TAP_ENABLED : Z := 64.
Definition LSM6DSL_ACC_GYRO_INT1_SINGLE_TAP_t : list Z :=
  [LSM6DSL_ACC_GYRO_INT1_SINGLE_TAP_DISABLED; LSM6DSL_ACC_GYRO_INT1_SINGLE_TAP_ENABLED].
Definition LSM6DSL_ACC_GYRO_INT1_SINGLE_TAP_MASK : Z := 64.
Definition LSM6DSL_ACC_GYRO_INT1_SLEEP_DISABLED : Z := 0.
Definition LSM6DSL_ACC_GYRO_INT1_SLEEP_ENABLED : Z := 128.
Definition LSM6DSL_ACC_GYRO_INT1_SLEEP_t : list Z :=
  [LSM6DSL_ACC_GYRO_INT1_SLEEP_DISABLED; LSM6DSL_ACC_GYRO_INT1_SLEEP_ENABLED].
Definition LSM6DSL_ACC_GYRO_INT1_SLEEP_MASK : Z := 128.
Definition LSM6DSL_ACC_GYRO_INT2_IRON_DISABLED : Z := 0.
Definition LSM6DSL_ACC_GYRO_INT2_IRON_ENABLED : Z := 1.
Definition LSM6DSL_ACC_GYRO_INT2_IRON_t : list Z :=
  [LSM6DSL_ACC_GYRO_INT2_IRON_DISABLED; LSM6DSL_ACC_GYRO_INT2_IRON_ENABLED].
Definition LSM6DSL_ACC_GYRO_INT2_IRON_MASK : Z := 1.
Definition LSM6DSL_ACC_GYRO_INT2_TILT_DISABLED : Z := 0.
Definition LSM6DSL_ACC_GYRO_INT2_TILT_ENABLED : Z := 2.
Definition LSM6DSL_ACC_GYRO_INT2_TILT_t : list Z :=
  [LSM6DSL_ACC_GYRO_INT2_TILT_DISABLED; LSM6DSL_ACC_GYRO_INT2_TILT_ENABLED].
Definition LSM6DSL_ACC_GYRO_INT2_TILT_MASK : Z := 2.
Definition LSM6DSL_ACC_GYRO_INT2_6D_DISABLED : Z := 0.
Definition LSM6DSL_ACC_GYRO_INT2_6D_ENABLED : Z := 4.
Definition LSM6DSL_ACC_GYRO_INT2_6D_t : list Z :=
  [LSM6DSL_ACC_GYRO_INT2_6D_DISABLED; LSM6DSL_ACC_GYRO_INT2_6D_ENABLED].
Definition LSM6DSL_ACC_GYRO_INT2_6D_MASK : Z := 4.
Definition LSM6DSL_ACC_GYRO_INT2_TAP_DISABLED : Z := 0.
Definition LSM6DSL_ACC_GYRO_INT2_TAP_ENABLED : Z := 8.
Definition LSM6DSL_ACC_GYRO_INT2_TAP_t : list Z :=
  [LSM6DSL_ACC_GYRO_INT2_TAP_DISABLED; LSM6DSL_ACC_GYRO_INT2_TAP_ENABLED].
Definition LSM6DSL_ACC_GYRO_INT2_TAP_MASK : Z := 8.
Definition LSM6DSL_ACC_GYRO_INT2_FF_DISABLED : Z := 0.
Definition LSM6DSL_ACC_GYRO_INT2_FF_ENABLED : Z := 16.
Definition LSM6DSL_ACC_GYRO_INT2_FF_t : list Z :=
  [LSM6DSL_ACC_GYRO_INT2_FF_DISABLED; LSM6DSL_ACC_GYRO_INT2_FF_ENABLED].
Definition LSM6DSL_ACC_GYRO_INT2_FF_MASK : Z := 16.
Definition LSM6DSL_ACC_GYRO_INT2_WU_DISABLED : Z := 0.
Definition LSM6DSL_ACC_GYRO_INT2_WU_ENABLED : Z := 32.
Definition LSM6DSL_ACC_GYRO_INT2_WU_t : list Z :=
  [LSM6DSL_ACC_GYRO_INT2_WU_DISABLED; LSM6DSL_ACC_GYRO_INT2_WU_ENABLED].
Definition LSM6DSL_ACC_GYRO_INT2_WU_MASK : Z := 32.
Definition LSM6DSL_ACC_GYRO_INT2_SINGLE_TAP_DISABLED : Z := 0.
Definition LSM6DSL_ACC_GYRO_INT2_SINGLE_TAP_ENABLED : Z := 64.
Definition LSM6DSL_ACC_GYRO_INT2_SINGLE_TAP_t : list Z :=
  [LSM6DSL_ACC_GYRO_INT2_SINGLE_TAP_DISABLED; LSM6DSL_ACC_GYRO_INT2_SINGLE_TAP_ENABLED].
Definition LSM6DSL_ACC_GYRO_INT2_SINGLE_TAP_MASK : Z := 64.
Definition LSM6DSL_ACC_GYRO_INT2_SLEEP_DISABLED : Z := 0.
Definition LSM6DSL_ACC_GYRO_INT2_SLEEP_ENABLED : Z := 128.
Definition LSM6DSL_ACC_GYRO_INT2_SLEEP_t : list Z :=
  [LSM6DSL_ACC_GYRO_INT2_SLEEP_DISABLED; LSM6DSL_ACC_GYRO_INT2_SLEEP_ENABLED].
Definition LSM6DSL_ACC_GYRO_INT2_SLEEP_MASK : Z := 128.
