(* ===== verification/Lsm6dsl.v ===== *)
(** LSM6DSL_acc_gyro_driver.c: the driver of the accelerometer and gyroscope.

    Most functions have one of a few bodies, which are the combinators [W_field],
    [R_field] (a field of a register), [W_shifted], [R_shifted] (a field moved to
    bit 0), [R_two] (a value spread over two registers) and [read_bytes]. A local
    the device fills is an argument where its first contents can matter. *)
From S2P Require Export Lsm6dslRegs.

Inductive mems_status_t := MEMS_SUCCESS | MEMS_ERROR.

#[export] Instance mems_status_t_eq_dec : EqDecision mems_status_t.
Proof. solve_decision. Defined.

Definition failed (st : mems_status_t) : bool := bool_decide (st = MEMS_ERROR).

(** [value] with its lowest byte replaced, as a store through [(u8_t * )value]. *)
Definition set_byte (value b : Z) : Z := Z.lor (Z.land value (Z.lnot 255)) b.

(** The values put together from their high and low parts. *)
Definition join16 (valueH valueL : Z) : Z := u16 (Z.lor (Z.land (Z.shiftl valueH 8) 65280) valueL).
Definition join6 (valueH valueL : Z) : Z := u8 (Z.lor (Z.land (Z.shiftl valueH 5) 32) valueL).

(** ** Access to the registers *)
Section driver.
Context {W : Type} `{Bus W}.

Definition LSM6DSL_ACC_GYRO_read_reg (Reg : Z) (Data : list Z) (p len : Z) : dev W (mems_status_t * list Z) :=
  bs ← checked (rd_bytes Data p len);
  '(rc, bs) ← bus_read (u8 Reg) bs len;
  Data ← checked (wr_bytes Data p bs);
  mret (if rc =? 0 then MEMS_SUCCESS else MEMS_ERROR, Data).

Definition LSM6DSL_ACC_GYRO_write_reg (Reg : Z) (Data : list Z) (p len : Z) : dev W mems_status_t :=
  bs ← checked (rd_bytes Data p len);
  rc ← bus_write (u8 Reg) bs;
  mret (if rc =? 0 then MEMS_SUCCESS else MEMS_ERROR).

(** One register, read into a variable that holds [value]. *)
Definition read_byte (Reg value : Z) : dev W (mems_status_t * Z) :=
  '(st, m) ← LSM6DSL_ACC_GYRO_read_reg Reg [value] 0 1;
  v ← checked (rd m 0);
  mret (st, v).
Definition write_byte (Reg value : Z) : dev W mems_status_t :=
  LSM6DSL_ACC_GYRO_write_reg Reg [value] 0 1.

Definition W_field (Reg mask newValue : Z) : dev W mems_status_t :=
  '(st, value) ← read_byte Reg 0;
  if failed st then mret MEMS_ERROR else
  let value := u8 (Z.land value (Z.lnot mask)) in
  let value := u8 (Z.lor value newValue) in
  st ← write_byte Reg value;
  if failed st then mret MEMS_ERROR else
  mret MEMS_SUCCESS.

Definition R_field (Reg mask value : Z) : dev W (mems_status_t * Z) :=
  '(st, b) ← read_byte Reg (u8 value);
  let value := set_byte value b in
  if failed st then mret (MEMS_ERROR, value) else
  mret (MEMS_SUCCESS, Z.land value mask).

Definition W_shifted (Reg position mask newValue : Z) : dev W mems_status_t :=
  let newValue := u8 (Z.shiftl newValue position) in
  let newValue := Z.land newValue mask in
  W_field Reg mask newValue.

Definition R_shifted (Reg position mask value : Z) : dev W (mems_status_t * Z) :=
  '(st, value) ← read_byte Reg value;
  if failed st then mret (MEMS_ERROR, value) else
  let value := Z.land value mask in
  mret (MEMS_SUCCESS, Z.shiftr value position).

Definition R_two (RegL positionL maskL RegH positionH maskH : Z) (join : Z → Z → Z) (value : Z) : dev W (mems_status_t * Z) :=
  '(st, valueL) ← R_shifted RegL positionL maskL 0;
  if failed st then mret (MEMS_ERROR, value) else
  '(st, valueH) ← R_shifted RegH positionH maskH 0;
  if failed st then mret (MEMS_ERROR, value) else
  mret (MEMS_SUCCESS, join valueH valueL).

(** The [n] registers from [Reg + k] on, into [buff + p + k]. *)
Fixpoint read_bytes (n : nat) (Reg k : Z) (buff : list Z) (p : Z) : dev W (mems_status_t * list Z) :=
  match n with
  | O => mret (MEMS_SUCCESS, buff)
  | S n =>
    '(st, buff) ← LSM6DSL_ACC_GYRO_read_reg (Reg + k) buff (p + k) 1;
    if failed st then mret (MEMS_ERROR, buff) else
    read_bytes n Reg (u8 (k + 1)) buff p
  end.


(** ** The functions of the driver *)

Definition LSM6DSL_ACC_GYRO_R_WHO_AM_I (value : Z) : dev W (mems_status_t * Z) :=
  R_shifted LSM6DSL_ACC_GYRO_WHO_AM_I_REG LSM6DSL_ACC_GYRO_WHO_AM_I_BIT_POSITION LSM6DSL_ACC_GYRO_WHO_AM_I_BIT_MASK value.
Definition LSM6DSL_ACC_GYRO_W_BDU (newValue : Z) : dev W mems_status_t :=
  W_field LSM6DSL_ACC_GYRO_CTRL3_C LSM6DSL_ACC_GYRO_BDU_MASK newValue.
Definition LSM6DSL_ACC_GYRO_R_BDU (value : Z) : dev W (mems_status_t * Z) :=
  R_field LSM6DSL_ACC_GYRO_CTRL3_C LSM6DSL_ACC_GYRO_BDU_MASK value.
Definition LSM6DSL_ACC_GYRO_W_FS_XL (newValue : Z) : dev W mems_status_t :=
  W_field LSM6DSL_ACC_GYRO_CTRL1_XL LSM6DSL_ACC_GYRO_FS_XL_MASK newValue.
Definition LSM6DSL_ACC_GYRO_R_FS_XL (value : Z) : dev W (mems_status_t * Z) :=
  R_field LSM6DSL_ACC_GYRO_CTRL1_XL LSM6DSL_ACC_GYRO_FS_XL_MASK value.
Definition LSM6DSL_ACC_GYRO_GetRawAccData (buff : list Z) (p : Z) : dev W (mems_status_t * list Z) :=
  read_bytes 6 LSM6DSL_ACC_GYRO_OUTX_L_XL 0 buff p.
Definition LSM6DSL_ACC_GYRO_W_ODR_XL (newValue : Z) : dev W mems_status_t :=
  W_field LSM6DSL_ACC_GYRO_CTRL1_XL LSM6DSL_ACC_GYRO_ODR_XL_MASK newValue.
Definition LSM6DSL_ACC_GYRO_R_ODR_XL (value : Z) : dev W (mems_status_t * Z) :=
  R_field LSM6DSL_ACC_GYRO_CTRL1_XL LSM6DSL_ACC_GYRO_ODR_XL_MASK value.
Definition LSM6DSL_ACC_GYRO_translate_ODR_XL (value odr_hz_val : Z) : mems_status_t * Z :=
  switch value
    [(LSM6DSL_ACC_GYRO_ODR_XL_POWER_DOWN, (MEMS_SUCCESS, 0));
     (LSM6DSL_ACC_GYRO_ODR_XL_13Hz, (MEMS_SUCCESS, 13));
     (LSM6DSL_ACC_GYRO_ODR_XL_26Hz, (MEMS_SUCCESS, 26));
     (LSM6DSL_ACC_GYRO_ODR_XL_52Hz, (MEMS_SUCCESS, 52));
     (LSM6DSL_ACC_GYRO_ODR_XL_104Hz, (MEMS_SUCCESS, 104));
     (LSM6DSL_ACC_GYRO_ODR_XL_208Hz, (MEMS_SUCCESS, 208));
     (LSM6DSL_ACC_GYRO_ODR_XL_416Hz, (MEMS_SUCCESS, 416));
     (LSM6DSL_ACC_GYRO_ODR_XL_833Hz, (MEMS_SUCCESS, 833));
     (LSM6DSL_ACC_GYRO_ODR_XL_1660Hz, (MEMS_SUCCESS, 1660))]
    (MEMS_ERROR, odr_hz_val).
Definition LSM6DSL_ACC_GYRO_W_FS_G (newValue : Z) : dev W mems_status_t :=
  W_field LSM6DSL_ACC_GYRO_CTRL2_G LSM6DSL_ACC_GYRO_FS_G_MASK newValue.
Definition LSM6DSL_ACC_GYRO_R_FS_G (value : Z) : dev W (mems_status_t * Z) :=
  R_field LSM6DSL_ACC_GYRO_CTRL2_G LSM6DSL_ACC_GYRO_FS_G_MASK value.
Definition LSM6DSL_ACC_GYRO_GetRawGyroData (buff : list Z) (p : Z) : dev W (mems_status_t * list Z) :=
  read_bytes 6 LSM6DSL_ACC_GYRO_OUTX_L_G 0 buff p.
Definition LSM6DSL_ACC_GYRO_W_ODR_G (newValue : Z) : dev W mems_status_t :=
  W_field LSM6DSL_ACC_GYRO_CTRL2_G LSM6DSL_ACC_GYRO_ODR_G_MASK newValue.
Definition LSM6DSL_ACC_GYRO_R_ODR_G (value : Z) : dev W (mems_status_t * Z) :=
  R_field LSM6DSL_ACC_GYRO_CTRL2_G LSM6DSL_ACC_GYRO_ODR_G_MASK value.
Definition LSM6DSL_ACC_GYRO_translate_ODR_G (value odr_hz_val : Z) : mems_status_t * Z :=
  switch value
    [(LSM6DSL_ACC_GYRO_ODR_G_POWER_DOWN, (MEMS_SUCCESS, 0));
     (LSM6DSL_ACC_GYRO_ODR_G_13Hz, (MEMS_SUCCESS, 13));
     (LSM6DSL_ACC_GYRO_ODR_G_26Hz, (MEMS_SUCCESS, 26));
     (LSM6DSL_ACC_GYRO_ODR_G_52Hz, (MEMS_SUCCESS, 52));
     (LSM6DSL_ACC_GYRO_ODR_G_104Hz, (MEMS_SUCCESS, 104));
     (LSM6DSL_ACC_GYRO_ODR_G_208Hz, (MEMS_SUCCESS, 208));
     (LSM6DSL_ACC_GYRO_ODR_G_416Hz, (MEMS_SUCCESS, 416));
     (LSM6DSL_ACC_GYRO_ODR_G_833Hz, (MEMS_SUCCESS, 833));
     (LSM6DSL_ACC_GYRO_ODR_G_1660Hz, (MEMS_SUCCESS, 1660))]
    (MEMS_ERROR, odr_hz_val).
Definition LSM6DSL_ACC_GYRO_W_FS_125 (newValue : Z) : dev W mems_status_t :=
  W_field LSM6DSL_ACC_GYRO_CTRL2_G LSM6DSL_ACC_GYRO_FS_125_MASK newValue.
Definition LSM6DSL_ACC_GYRO_R_FS_125 (value : Z) : dev W (mems_status_t * Z) :=
  R_field LSM6DSL_ACC_GYRO_CTRL2_G LSM6DSL_ACC_GYRO_FS_125_MASK value.
Definition LSM6DSL_ACC_GYRO_W_BW_SEL (newValue : Z) : dev W mems_status_t :=
  W_field LSM6DSL_ACC_GYRO_CTRL1_XL LSM6DSL_ACC_GYRO_BW_SEL_MASK newValue.
Definition LSM6DSL_ACC_GYRO_R_BW_SEL (value : Z) : dev W (mems_status_t * Z) :=
  R_field LSM6DSL_ACC_GYRO_CTRL1_XL LSM6DSL_ACC_GYRO_BW_SEL_MASK value.
Definition LSM6DSL_ACC_GYRO_W_BLE (newValue : Z) : dev W mems_status_t :=
  W_field LSM6DSL_ACC_GYRO_CTRL3_C LSM6DSL_ACC_GYRO_BLE_MASK newValue.
Definition LSM6DSL_ACC_GYRO_R_BLE (value : Z) : dev W (mems_status_t * Z) :=
  R_field LSM6DSL_ACC_GYRO_CTRL3_C LSM6DSL_ACC_GYRO_BLE_MASK value.
Definition LSM6DSL_ACC_GYRO_W_EmbeddedAccess (newValue : Z) : dev W mems_status_t :=
  W_field LSM6DSL_ACC_GYRO_FUNC_CFG_ACCESS LSM6DSL_ACC_GYRO_EMB_ACC_MASK newValue.
Definition LSM6DSL_ACC_GYRO_R_EmbeddedAccess (value : Z) : dev W (mems_status_t * Z) :=
  R_field LSM6DSL_ACC_GYRO_FUNC_CFG_ACCESS LSM6DSL_ACC_GYRO_EMB_ACC_MASK value.
Definition LSM6DSL_ACC_GYRO_W_SYNC_RES_RATIO (newValue : Z) : dev W mems_status_t :=
  W_field LSM6DSL_ACC_GYRO_SENSOR_RES_RATIO LSM6DSL_ACC_GYRO_SYNC_RES_RATIO_MASK newValue.
Definition LSM6DSL_ACC_GYRO_R_SYNC_RES_RATIO (value : Z) : dev W (mems_status_t * Z) :=
  R_field LSM6DSL_ACC_GYRO_SENSOR_RES_RATIO LSM6DSL_ACC_GYRO_SYNC_RES_RATIO_MASK value.
Definition LSM6DSL_ACC_GYRO_W_Stamping_Time_Frame (newValue : Z) : dev W mems_status_t :=
  W_shifted LSM6DSL_ACC_GYRO_SENSOR_SYNC_TIME LSM6DSL_ACC_GYRO_TPH_POSITION LSM6DSL_ACC_GYRO_TPH_MASK newValue.
Definition LSM6DSL_ACC_GYRO_R_Stamping_Time_Frame (value : Z) : dev W (mems_status_t * Z) :=
  R_shifted LSM6DSL_ACC_GYRO_SENSOR_SYNC_TIME LSM6DSL_ACC_GYRO_TPH_POSITION LSM6DSL_ACC_GYRO_TPH_MASK value.
Definition LSM6DSL_ACC_GYRO_W_FIFO_Watermark (newValue : Z) : dev W mems_status_t :=
  st ← W_shifted LSM6DSL_ACC_GYRO_FIFO_CTRL1 LSM6DSL_ACC_GYRO_WTM_FIFO_CTRL1_POSITION LSM6DSL_ACC_GYRO_WTM_FIFO_CTRL1_MASK (Z.land newValue 255);
  if failed st then mret MEMS_ERROR else
  W_shifted LSM6DSL_ACC_GYRO_FIFO_CTRL2 LSM6DSL_ACC_GYRO_WTM_FIFO_CTRL2_POSITION LSM6DSL_ACC_GYRO_WTM_FIFO_CTRL2_MASK (Z.land (Z.shiftr newValue 8) 255).
Definition LSM6DSL_ACC_GYRO_R_FIFO_Watermark (value : Z) : dev W (mems_status_t * Z) :=
  R_two LSM6DSL_ACC_GYRO_FIFO_CTRL1 LSM6DSL_ACC_GYRO_WTM_FIFO_CTRL1_POSITION LSM6DSL_ACC_GYRO_WTM_FIFO_CTRL1_MASK
    LSM6DSL_ACC_GYRO_FIFO_CTRL2 LSM6DSL_ACC_GYRO_WTM_FIFO_CTRL2_POSITION LSM6DSL_ACC_GYRO_WTM_FIFO_CTRL2_MASK join16 value.
Definition LSM6DSL_ACC_GYRO_W_FIFO_TEMP (newValue : Z) : dev W mems_status_t :=
  W_field LSM6DSL_ACC_GYRO_FIFO_CTRL2 LSM6DSL_ACC_GYRO_FIFO_TEMP_MASK newValue.
Definition LSM6DSL_ACC_GYRO_R_FIFO_TEMP (value : Z) : dev W (mems_status_t * Z) :=
  R_field LSM6DSL_ACC_GYRO_FIFO_CTRL2 LSM6DSL_ACC_GYRO_FIFO_TEMP_MASK value.
Definition LSM6DSL_ACC_GYRO_W_TIM_PEDO_FIFO_Write_En (newValue : Z) : dev W mems_status_t :=
  W_field LSM6DSL_ACC_GYRO_FIFO_CTRL2 LSM6DSL_ACC_GYRO_TIM_PEDO_FIFO_DRDY_MASK newValue.
Definition LSM6DSL_ACC_GYRO_R_TIM_PEDO_FIFO_Write_En (value : Z) : dev W (mems_status_t * Z) :=
  R_field LSM6DSL_ACC_GYRO_FIFO_CTRL2 LSM6DSL_ACC_GYRO_TIM_PEDO_FIFO_DRDY_MASK value.
Definition LSM6DSL_ACC_GYRO_W_TIM_PEDO_FIFO_En (newValue : Z) : dev W mems_status_t :=
  W_field LSM6DSL_ACC_GYRO_FIFO_CTRL2 LSM6DSL_ACC_GYRO_TIM_PEDO_FIFO_EN_MASK newValue.
Definition LSM6DSL_ACC_GYRO_R_TIM_PEDO_FIFO_En (value : Z) : dev W (mems_status_t * Z) :=
  R_field LSM6DSL_ACC_GYRO_FIFO_CTRL2 LSM6DSL_ACC_GYRO_TIM_PEDO_FIFO_EN_MASK value.
Definition LSM6DSL_ACC_GYRO_W_DEC_FIFO_XL (newValue : Z) : dev W mems_status_t :=
  W_field LSM6DSL_ACC_GYRO_FIFO_CTRL3 LSM6DSL_ACC_GYRO_DEC_FIFO_XL_MASK newValue.
Definition LSM6DSL_ACC_GYRO_W_DEC_FIFO_XL_val (newValue : Z) : dev W mems_status_t :=
  switch newValue
    [(0, _ ← LSM6DSL_ACC_GYRO_W_DEC_FIFO_XL LSM6DSL_ACC_GYRO_DEC_FIFO_XL_DATA_NOT_IN_FIFO; mret MEMS_SUCCESS);
     (1, _ ← LSM6DSL_ACC_GYRO_W_DEC_FIFO_XL LSM6DSL_ACC_GYRO_DEC_FIFO_XL_NO_DECIMATION; mret MEMS_SUCCESS);
     (2, _ ← LSM6DSL_ACC_GYRO_W_DEC_FIFO_XL LSM6DSL_ACC_GYRO_DEC_FIFO_XL_DECIMATION_BY_2; mret MEMS_SUCCESS);
     (3, _ ← LSM6DSL_ACC_GYRO_W_DEC_FIFO_XL LSM6DSL_ACC_GYRO_DEC_FIFO_XL_DECIMATION_BY_3; mret MEMS_SUCCESS);
     (4, _ ← LSM6DSL_ACC_GYRO_W_DEC_FIFO_XL LSM6DSL_ACC_GYRO_DEC_FIFO_XL_DECIMATION_BY_4; mret MEMS_SUCCESS);
     (8, _ ← LSM6DSL_ACC_GYRO_W_DEC_FIFO_XL LSM6DSL_ACC_GYRO_DEC_FIFO_XL_DECIMATION_BY_8; mret MEMS_SUCCESS);
     (16, _ ← LSM6DSL_ACC_GYRO_W_DEC_FIFO_XL LSM6DSL_ACC_GYRO_DEC_FIFO_XL_DECIMATION_BY_16; mret MEMS_SUCCESS);
     (32, _ ← LSM6DSL_ACC_GYRO_W_DEC_FIFO_XL LSM6DSL_ACC_GYRO_DEC_FIFO_XL_DECIMATION_BY_32; mret MEMS_SUCCESS)]
    (mret MEMS_ERROR).
Definition LSM6DSL_ACC_GYRO_R_DEC_FIFO_XL (value : Z) : dev W (mems_status_t * Z) :=
  R_field LSM6DSL_ACC_GYRO_FIFO_CTRL3 LSM6DSL_ACC_GYRO_DEC_FIFO_XL_MASK value.
Definition LSM6DSL_ACC_GYRO_W_DEC_FIFO_G (newValue : Z) : dev W mems_status_t :=
  W_field LSM6DSL_ACC_GYRO_FIFO_CTRL3 LSM6DSL_ACC_GYRO_DEC_FIFO_G_MASK newValue.
Definition LSM6DSL_ACC_GYRO_W_DEC_FIFO_G_val (newValue : Z) : dev W mems_status_t :=
  switch newValue
    [(0, _ ← LSM6DSL_ACC_GYRO_W_DEC_FIFO_G LSM6DSL_ACC_GYRO_DEC_FIFO_G_DATA_NOT_IN_FIFO; mret MEMS_SUCCESS);
     (1, _ ← LSM6DSL_ACC_GYRO_W_DEC_FIFO_G LSM6DSL_ACC_GYRO_DEC_FIFO_G_NO_DECIMATION; mret MEMS_SUCCESS);
     (2, _ ← LSM6DSL_ACC_GYRO_W_DEC_FIFO_G LSM6DSL_ACC_GYRO_DEC_FIFO_G_DECIMATION_BY_2; mret MEMS_SUCCESS);
     (3, _ ← LSM6DSL_ACC_GYRO_W_DEC_FIFO_G LSM6DSL_ACC_GYRO_DEC_FIFO_G_DECIMATION_BY_3; mret MEMS_SUCCESS);
     (4, _ ← LSM6DSL_ACC_GYRO_W_DEC_FIFO_G LSM6DSL_ACC_GYRO_DEC_FIFO_G_DECIMATION_BY_4; mret MEMS_SUCCESS);
     (8, _ ← LSM6DSL_ACC_GYRO_W_DEC_FIFO_G LSM6DSL_ACC_GYRO_DEC_FIFO_G_DECIMATION_BY_8; mret MEMS_SUCCESS);
     (16, _ ← LSM6DSL_ACC_GYRO_W_DEC_FIFO_G LSM6DSL_ACC_GYRO_DEC_FIFO_G_DECIMATION_BY_16; mret MEMS_SUCCESS);
     (32, _ ← LSM6DSL_ACC_GYRO_W_DEC_FIFO_G LSM6DSL_ACC_GYRO_DEC_FIFO_G_DECIMATION_BY_32; mret MEMS_SUCCESS)]
    (mret MEMS_ERROR).
Definition LSM6DSL_ACC_GYRO_R_DEC_FIFO_G (value : Z) : dev W (mems_status_t * Z) :=
  R_field LSM6DSL_ACC_GYRO_FIFO_CTRL3 LSM6DSL_ACC_GYRO_DEC_FIFO_G_MASK value.
Definition LSM6DSL_ACC_GYRO_W_DEC_FIFO_DS3 (newValue : Z) : dev W mems_status_t :=
  W_field LSM6DSL_ACC_GYRO_FIFO_CTRL4 LSM6DSL_ACC_GYRO_DEC_FIFO_DS3_MASK newValue.
Definition LSM6DSL_ACC_GYRO_R_DEC_FIFO_DS3 (value : Z) : dev W (mems_status_t * Z) :=
  R_field LSM6DSL_ACC_GYRO_FIFO_CTRL4 LSM6DSL_ACC_GYRO_DEC_FIFO_DS3_MASK value.
Definition LSM6DSL_ACC_GYRO_W_DEC_FIFO_DS4 (newValue : Z) : dev W mems_status_t :=
  W_field LSM6DSL_ACC_GYRO_FIFO_CTRL4 LSM6DSL_ACC_GYRO_DEC_FIFO_DS4_MASK newValue.
Definition LSM6DSL_ACC_GYRO_R_DEC_FIFO_DS4 (value : Z) : dev W (mems_status_t * Z) :=
  R_field LSM6DSL_ACC_GYRO_FIFO_CTRL4 LSM6DSL_ACC_GYRO_DEC_FIFO_DS4_MASK value.
Definition LSM6DSL_ACC_GYRO_W_HI_DATA_ONLY (newValue : Z) : dev W mems_status_t :=
  W_field LSM6DSL_ACC_GYRO_FIFO_CTRL4 LSM6DSL_ACC_GYRO_HI_DATA_ONLY_MASK newValue.
Definition LSM6DSL_ACC_GYRO_R_HI_DATA_ONLY (value : Z) : dev W (mems_status_t * Z) :=
  R_field LSM6DSL_ACC_GYRO_FIFO_CTRL4 LSM6DSL_ACC_GYRO_HI_DATA_ONLY_MASK value.
Definition LSM6DSL_ACC_GYRO_W_STOP_ON_FTH (newValue : Z) : dev W mems_status_t :=
  W_field LSM6DSL_ACC_GYRO_FIFO_CTRL4 LSM6DSL_ACC_GYRO_STOP_ON_FTH_MASK newValue.
Definition LSM6DSL_ACC_GYRO_R_STOP_ON_FTH (value : Z) : dev W (mems_status_t * Z) :=
  R_field LSM6DSL_ACC_GYRO_FIFO_CTRL4 LSM6DSL_ACC_GYRO_STOP_ON_FTH_MASK value.
Definition LSM6DSL_ACC_GYRO_W_FIFO_MODE (newValue : Z) : dev W mems_status_t :=
  W_field LSM6DSL_ACC_GYRO_FIFO_CTRL5 LSM6DSL_ACC_GYRO_FIFO_MODE_MASK newValue.
Definition LSM6DSL_ACC_GYRO_R_FIFO_MODE (value : Z) : dev W (mems_status_t * Z) :=
  R_field LSM6DSL_ACC_GYRO_FIFO_CTRL5 LSM6DSL_ACC_GYRO_FIFO_MODE_MASK value.
Definition LSM6DSL_ACC_GYRO_W_ODR_FIFO (newValue : Z) : dev W mems_status_t :=
  W_field LSM6DSL_ACC_GYRO_FIFO_CTRL5 LSM6DSL_ACC_GYRO_ODR_FIFO_MASK newValue.
Definition LSM6DSL_ACC_GYRO_R_ODR_FIFO (value : Z) : dev W (mems_status_t * Z) :=
  R_field LSM6DSL_ACC_GYRO_FIFO_CTRL5 LSM6DSL_ACC_GYRO_ODR_FIFO_MASK value.
Definition LSM6DSL_ACC_GYRO_W_DRDY_PULSE (newValue : Z) : dev W mems_status_t :=
  W_field LSM6DSL_ACC_GYRO_DRDY_PULSE_CFG_G LSM6DSL_ACC_GYRO_DRDY_PULSE_MASK newValue.
Definition LSM6DSL_ACC_GYRO_R_DRDY_PULSE (value : Z) : dev W (mems_status_t * Z) :=
  R_field LSM6DSL_ACC_GYRO_DRDY_PULSE_CFG_G LSM6DSL_ACC_GYRO_DRDY_PULSE_MASK value.
Definition LSM6DSL_ACC_GYRO_W_DRDY_XL_on_INT1 (newValue : Z) : dev W mems_status_t :=
  W_field LSM6DSL_ACC_GYRO_INT1_CTRL LSM6DSL_ACC_GYRO_INT1_DRDY_XL_MASK newValue.
Definition LSM6DSL_ACC_GYRO_R_DRDY_XL_on_INT1 (value : Z) : dev W (mems_status_t * Z) :=
  R_field LSM6DSL_ACC_GYRO_INT1_CTRL LSM6DSL_ACC_GYRO_INT1_DRDY_XL_MASK value.
Definition LSM6DSL_ACC_GYRO_W_DRDY_G_on_INT1 (newValue : Z) : dev W mems_status_t :=
  W_field LSM6DSL_ACC_GYRO_INT1_CTRL LSM6DSL_ACC_GYRO_INT1_DRDY_G_MASK newValue.
Definition LSM6DSL_ACC_GYRO_R_DRDY_G_on_INT1 (value : Z) : dev W (mems_status_t * Z) :=
  R_field LSM6DSL_ACC_GYRO_INT1_CTRL LSM6DSL_ACC_GYRO_INT1_DRDY_G_MASK value.
Definition LSM6DSL_ACC_GYRO_W_BOOT_on_INT1 (newValue : Z) : dev W mems_status_t :=
  W_field LSM6DSL_ACC_GYRO_INT1_CTRL LSM6DSL_ACC_GYRO_INT1_BOOT_MASK newValue.
Definition LSM6DSL_ACC_GYRO_R_BOOT_on_INT1 (value : Z) : dev W (mems_status_t * Z) :=
  R_field LSM6DSL_ACC_GYRO_INT1_CTRL LSM6DSL_ACC_GYRO_INT1_BOOT_MASK value.
Definition LSM6DSL_ACC_GYRO_W_FIFO_TSHLD_on_INT1 (newValue : Z) : dev W mems_status_t :=
  W_field LSM6DSL_ACC_GYRO_INT1_CTRL LSM6DSL_ACC_GYRO_INT1_FTH_MASK newValue.
Definition LSM6DSL_ACC_GYRO_R_FIFO_TSHLD_on_INT1 (value : Z) : dev W (mems_status_t * Z) :=
  R_field LSM6DSL_ACC_GYRO_INT1_CTRL LSM6DSL_ACC_GYRO_INT1_FTH_MASK value.
Definition LSM6DSL_ACC_GYRO_W_OVERRUN_on_INT1 (newValue : Z) : dev W mems_status_t :=
  W_field LSM6DSL_ACC_GYRO_INT1_CTRL LSM6DSL_ACC_GYRO_INT1_OVR_MASK newValue.
Definition LSM6DSL_ACC_GYRO_R_OVERRUN_on_INT1 (value : Z) : dev W (mems_status_t * Z) :=
  R_field LSM6DSL_ACC_GYRO_INT1_CTRL LSM6DSL_ACC_GYRO_INT1_OVR_MASK value.
Definition LSM6DSL_ACC_GYRO_W_FULL_FLAG_on_INT1 (newValue : Z) : dev W mems_status_t :=
  W_field LSM6DSL_ACC_GYRO_INT1_CTRL LSM6DSL_ACC_GYRO_INT1_FULL_FLAG_MASK newValue.
Definition LSM6DSL_ACC_GYRO_R_FULL_FLAG_on_INT1 (value : Z) : dev W (mems_status_t * Z) :=
  R_field LSM6DSL_ACC_GYRO_INT1_CTRL LSM6DSL_ACC_GYRO_INT1_FULL_FLAG_MASK value.
Definition LSM6DSL_ACC_GYRO_W_SIGN_MOT_on_INT1 (newValue : Z) : dev W mems_status_t :=
  W_field LSM6DSL_ACC_GYRO_INT1_CTRL LSM6DSL_ACC_GYRO_INT1_SIGN_MOT_MASK newValue.
Definition LSM6DSL_ACC_GYRO_R_SIGN_MOT_on_INT1 (value : Z) : dev W (mems_status_t * Z) :=
  R_field LSM6DSL_ACC_GYRO_INT1_CTRL LSM6DSL_ACC_GYRO_INT1_SIGN_MOT_MASK value.
Definition LSM6DSL_ACC_GYRO_W_STEP_DET_on_INT1 (newValue : Z) : dev W mems_status_t :=
  W_field LSM6DSL_ACC_GYRO_INT1_CTRL LSM6DSL_ACC_GYRO_INT1_PEDO_MASK newValue.
Definition LSM6DSL_ACC_GYRO_R_STEP_DET_on_INT1 (value : Z) : dev W (mems_status_t * Z) :=
  R_field LSM6DSL_ACC_GYRO_INT1_CTRL LSM6DSL_ACC_GYRO_INT1_PEDO_MASK value.
Definition LSM6DSL_ACC_GYRO_W_DRDY_XL_on_INT2 (newValue : Z) : dev W mems_status_t :=
  W_field LSM6DSL_ACC_GYRO_INT2_CTRL LSM6DSL_ACC_GYRO_INT2_DRDY_XL_MASK newValue.
Definition LSM6DSL_ACC_GYRO_R_DRDY_XL_on_INT2 (value : Z) : dev W (mems_status_t * Z) :=
  R_field LSM6DSL_ACC_GYRO_INT2_CTRL LSM6DSL_ACC_GYRO_INT2_DRDY_XL_MASK value.
Definition LSM6DSL_ACC_GYRO_W_DRDY_G_on_INT2 (newValue : Z) : dev W mems_status_t :=
  W_field LSM6DSL_ACC_GYRO_INT2_CTRL LSM6DSL_ACC_GYRO_INT2_DRDY_G_MASK newValue.
Definition LSM6DSL_ACC_GYRO_R_DRDY_G_on_INT2 (value : Z) : dev W (mems_status_t * Z) :=
  R_field LSM6DSL_ACC_GYRO_INT2_CTRL LSM6DSL_ACC_GYRO_INT2_DRDY_G_MASK value.
Definition LSM6DSL_ACC_GYRO_W_DRDY_TEMP_on_INT2 (newValue : Z) : dev W mems_status_t :=
  W_field LSM6DSL_ACC_GYRO_INT2_CTRL LSM6DSL_ACC_GYRO_INT2_DRDY_TEMP_MASK newValue.
Definition LSM6DSL_ACC_GYRO_R_DRDY_TEMP_on_INT2 (value : Z) : dev W (mems_status_t * Z) :=
  R_field LSM6DSL_ACC_GYRO_INT2_CTRL LSM6DSL_ACC_GYRO_INT2_DRDY_TEMP_MASK value.
Definition LSM6DSL_ACC_GYRO_W_FIFO_TSHLD_on_INT2 (newValue : Z) : dev W mems_status_t :=
  W_field LSM6DSL_ACC_GYRO_INT2_CTRL LSM6DSL_ACC_GYRO_INT2_FTH_MASK newValue.
Definition LSM6DSL_ACC_GYRO_R_FIFO_TSHLD_on_INT2 (value : Z) : dev W (mems_status_t * Z) :=
  R_field LSM6DSL_ACC_GYRO_INT2_CTRL LSM6DSL_ACC_GYRO_INT2_FTH_MASK value.
Definition LSM6DSL_ACC_GYRO_W_OVERRUN_on_INT2 (newValue : Z) : dev W mems_status_t :=
  W_field LSM6DSL_ACC_GYRO_INT2_CTRL LSM6DSL_ACC_GYRO_INT2_OVR_MASK newValue.
Definition LSM6DSL_ACC_GYRO_R_OVERRUN_on_INT2 (value : Z) : dev W (mems_status_t * Z) :=
  R_field LSM6DSL_ACC_GYRO_INT2_CTRL LSM6DSL_ACC_GYRO_INT2_OVR_MASK value.
Definition LSM6DSL_ACC_GYRO_W_FULL_FLAG_on_INT2 (newValue : Z) : dev W mems_status_t :=
  W_field LSM6DSL_ACC_GYRO_INT2_CTRL LSM6DSL_ACC_GYRO_INT2_FULL_FLAG_MASK newValue.
Definition LSM6DSL_ACC_GYRO_R_FULL_FLAG_on_INT2 (value : Z) : dev W (mems_status_t * Z) :=
  R_field LSM6DSL_ACC_GYRO_INT2_CTRL LSM6DSL_ACC_GYRO_INT2_FULL_FLAG_MASK value.
Definition LSM6DSL_ACC_GYRO_W_STEP_COUNT_OV_on_INT2 (newValue : Z) : dev W mems_status_t :=
  W_field LSM6DSL_ACC_GYRO_INT2_CTRL LSM6DSL_ACC_GYRO_INT2_STEP_COUNT_OV_MASK newValue.
Definition LSM6DSL_ACC_GYRO_R_STEP_COUNT_OV_on_INT2 (value : Z) : dev W (mems_status_t * Z) :=
  R_field LSM6DSL_ACC_GYRO_INT2_CTRL LSM6DSL_ACC_GYRO_INT2_STEP_COUNT_OV_MASK value.
Definition LSM6DSL_ACC_GYRO_W_STEP_DELTA_on_INT2 (newValue : Z) : dev W mems_status_t :=
  W_field LSM6DSL_ACC_GYRO_INT2_CTRL LSM6DSL_ACC_GYRO_INT2_STEP_DELTA_MASK newValue.
Definition LSM6DSL_ACC_GYRO_R_STEP_DELTA_on_INT2 (value : Z) : dev W (mems_status_t * Z) :=
  R_field LSM6DSL_ACC_GYRO_INT2_CTRL LSM6DSL_ACC_GYRO_INT2_STEP_DELTA_MASK value.
Definition LSM6DSL_ACC_GYRO_W_SW_RESET (newValue : Z) : dev W mems_status_t :=
  W_field LSM6DSL_ACC_GYRO_CTRL3_C LSM6DSL_ACC_GYRO_SW_RESET_MASK newValue.
Definition LSM6DSL_ACC_GYRO_R_SW_RESET (value : Z) : dev W (mems_status_t * Z) :=
  R_field LSM6DSL_ACC_GYRO_CTRL3_C LSM6DSL_ACC_GYRO_SW_RESET_MASK value.
Definition LSM6DSL_ACC_GYRO_W_IF_Addr_Incr (newValue : Z) : dev W mems_status_t :=
  W_field LSM6DSL_ACC_GYRO_CTRL3_C LSM6DSL_ACC_GYRO_IF_INC_MASK newValue.
Definition LSM6DSL_ACC_GYRO_R_IF_Addr_Incr (value : Z) : dev W (mems_status_t * Z) :=
  R_field LSM6DSL_ACC_GYRO_CTRL3_C LSM6DSL_ACC_GYRO_IF_INC_MASK value.
Definition LSM6DSL_ACC_GYRO_W_SPI_Mode (newValue : Z) : dev W mems_status_t :=
  W_field LSM6DSL_ACC_GYRO_CTRL3_C LSM6DSL_ACC_GYRO_SIM_MASK newValue.
Definition LSM6DSL_ACC_GYRO_R_SPI_Mode (value : Z) : dev W (mems_status_t * Z) :=
  R_field LSM6DSL_ACC_GYRO_CTRL3_C LSM6DSL_ACC_GYRO_SIM_MASK value.
Definition LSM6DSL_ACC_GYRO_W_PadSel (newValue : Z) : dev W mems_status_t :=
  W_field LSM6DSL_ACC_GYRO_CTRL3_C LSM6DSL_ACC_GYRO_PP_OD_MASK newValue.
Definition LSM6DSL_ACC_GYRO_R_PadSel (value : Z) : dev W (mems_status_t * Z) :=
  R_field LSM6DSL_ACC_GYRO_CTRL3_C LSM6DSL_ACC_GYRO_PP_OD_MASK value.
Definition LSM6DSL_ACC_GYRO_W_INT_ACT_LEVEL (newValue : Z) : dev W mems_status_t :=
  W_field LSM6DSL_ACC_GYRO_CTRL3_C LSM6DSL_ACC_GYRO_INT_ACT_LEVEL_MASK newValue.
Definition LSM6DSL_ACC_GYRO_R_INT_ACT_LEVEL (value : Z) : dev W (mems_status_t * Z) :=
  R_field LSM6DSL_ACC_GYRO_CTRL3_C LSM6DSL_ACC_GYRO_INT_ACT_LEVEL_MASK value.
Definition LSM6DSL_ACC_GYRO_W_BOOT (newValue : Z) : dev W mems_status_t :=
  W_field LSM6DSL_ACC_GYRO_CTRL3_C LSM6DSL_ACC_GYRO_BOOT_MASK newValue.
Definition LSM6DSL_ACC_GYRO_R_BOOT (value : Z) : dev W (mems_status_t * Z) :=
  R_field LSM6DSL_ACC_GYRO_CTRL3_C LSM6DSL_ACC_GYRO_BOOT_MASK value.
Definition LSM6DSL_ACC_GYRO_W_LPF1_SEL_G (newValue : Z) : dev W mems_status_t :=
  W_field LSM6DSL_ACC_GYRO_CTRL4_C LSM6DSL_ACC_GYRO_LPF1_SEL_G_MASK newValue.
Definition LSM6DSL_ACC_GYRO_R_LPF1_SEL_G (value : Z) : dev W (mems_status_t * Z) :=
  R_field LSM6DSL_ACC_GYRO_CTRL4_C LSM6DSL_ACC_GYRO_LPF1_SEL_G_MASK value.
Definition LSM6DSL_ACC_GYRO_W_I2C_DISABLE (newValue : Z) : dev W mems_status_t :=
  W_field LSM6DSL_ACC_GYRO_CTRL4_C LSM6DSL_ACC_GYRO_I2C_DISABLE_MASK newValue.
Definition LSM6DSL_ACC_GYRO_R_I2C_DISABLE (value : Z) : dev W (mems_status_t * Z) :=
  R_field LSM6DSL_ACC_GYRO_CTRL4_C LSM6DSL_ACC_GYRO_I2C_DISABLE_MASK value.
Definition LSM6DSL_ACC_GYRO_W_DRDY_MSK (newValue : Z) : dev W mems_status_t :=
  W_field LSM6DSL_ACC_GYRO_CTRL4_C LSM6DSL_ACC_GYRO_DRDY_MSK_MASK newValue.
Definition LSM6DSL_ACC_GYRO_R_DRDY_MSK (value : Z) : dev W (mems_status_t * Z) :=
  R_field LSM6DSL_ACC_GYRO_CTRL4_C LSM6DSL_ACC_GYRO_DRDY_MSK_MASK value.
Definition LSM6DSL_ACC_GYRO_W_INT2_ON_INT1 (newValue : Z) : dev W mems_status_t :=
  W_field LSM6DSL_ACC_GYRO_CTRL4_C LSM6DSL_ACC_GYRO_INT2_ON_INT1_MASK newValue.
Definition LSM6DSL_ACC_GYRO_R_INT2_ON_INT1 (value : Z) : dev W (mems_status_t * Z) :=
  R_field LSM6DSL_ACC_GYRO_CTRL4_C LSM6DSL_ACC_GYRO_INT2_ON_INT1_MASK value.
Definition LSM6DSL_ACC_GYRO_W_SleepMode_G (newValue : Z) : dev W mems_status_t :=
  W_field LSM6DSL_ACC_GYRO_CTRL4_C LSM6DSL_ACC_GYRO_SLEEP_G_MASK newValue.
Definition LSM6DSL_ACC_GYRO_R_SleepMode_G (value : Z) : dev W (mems_status_t * Z) :=
  R_field LSM6DSL_ACC_GYRO_CTRL4_C LSM6DSL_ACC_GYRO_SLEEP_G_MASK value.
Definition LSM6DSL_ACC_GYRO_W_SelfTest_XL (newValue : Z) : dev W mems_status_t :=
  W_field LSM6DSL_ACC_GYRO_CTRL5_C LSM6DSL_ACC_GYRO_ST_XL_MASK newValue.
Definition LSM6DSL_ACC_GYRO_R_SelfTest_XL (value : Z) : dev W (mems_status_t * Z) :=
  R_field LSM6DSL_ACC_GYRO_CTRL5_C LSM6DSL_ACC_GYRO_ST_XL_MASK value.
Definition LSM6DSL_ACC_GYRO_W_SelfTest_G (newValue : Z) : dev W mems_status_t :=
  W_field LSM6DSL_ACC_GYRO_CTRL5_C LSM6DSL_ACC_GYRO_ST_G_MASK newValue.
Definition LSM6DSL_ACC_GYRO_R_SelfTest_G (value : Z) : dev W (mems_status_t * Z) :=
  R_field LSM6DSL_ACC_GYRO_CTRL5_C LSM6DSL_ACC_GYRO_ST_G_MASK value.
Definition LSM6DSL_ACC_GYRO_W_DEN_Polarity (newValue : Z) : dev W mems_status_t :=
  W_field LSM6DSL_ACC_GYRO_CTRL5_C LSM6DSL_ACC_GYRO_DEN_LH_MASK newValue.
Definition LSM6DSL_ACC_GYRO_R_DEN_Polarity (value : Z) : dev W (mems_status_t * Z) :=
  R_field LSM6DSL_ACC_GYRO_CTRL5_C LSM6DSL_ACC_GYRO_DEN_LH_MASK value.
Definition LSM6DSL_ACC_GYRO_W_CircularBurstMode (newValue : Z) : dev W mems_status_t :=
  W_field LSM6DSL_ACC_GYRO_CTRL5_C LSM6DSL_ACC_GYRO_LSM6DSL_ACC_GYRO_ROUNDING_t_MASK newValue.
Definition LSM6DSL_ACC_GYRO_R_CircularBurstMode (value : Z) : dev W (mems_status_t * Z) :=
  R_field LSM6DSL_ACC_GYRO_CTRL5_C LSM6DSL_ACC_GYRO_LSM6DSL_ACC_GYRO_ROUNDING_t_MASK value.
Definition LSM6DSL_ACC_GYRO_W_LP_BW_G (newValue : Z) : dev W mems_status_t :=
  W_field LSM6DSL_ACC_GYRO_CTRL6_G LSM6DSL_ACC_GYRO_FTYPE_MASK newValue.
Definition LSM6DSL_ACC_GYRO_R_LP_BW_G (value : Z) : dev W (mems_status_t * Z) :=
  R_field LSM6DSL_ACC_GYRO_CTRL6_G LSM6DSL_ACC_GYRO_FTYPE_MASK value.
Definition LSM6DSL_ACC_GYRO_W_UserOffsetWeight (newValue : Z) : dev W mems_status_t :=
  W_field LSM6DSL_ACC_GYRO_CTRL6_G LSM6DSL_ACC_GYRO_USR_OFF_W_MASK newValue.
Definition LSM6DSL_ACC_GYRO_R_UserOffsetWeight (value : Z) : dev W (mems_status_t * Z) :=
  R_field LSM6DSL_ACC_GYRO_CTRL6_G LSM6DSL_ACC_GYRO_USR_OFF_W_MASK value.
Definition LSM6DSL_ACC_GYRO_W_LowPower_XL (newValue : Z) : dev W mems_status_t :=
  W_field LSM6DSL_ACC_GYRO_CTRL6_G LSM6DSL_ACC_GYRO_LP_XL_MASK newValue.
Definition LSM6DSL_ACC_GYRO_R_LowPower_XL (value : Z) : dev W (mems_status_t * Z) :=
  R_field LSM6DSL_ACC_GYRO_CTRL6_G LSM6DSL_ACC_GYRO_LP_XL_MASK value.
Definition LSM6DSL_ACC_GYRO_W_DEN_LVL2_EN (newValue : Z) : dev W mems_status_t :=
  W_field LSM6DSL_ACC_GYRO_CTRL6_G LSM6DSL_ACC_GYRO_DEN_LVL2_EN_MASK newValue.
Definition LSM6DSL_ACC_GYRO_R_DEN_LVL2_EN (value : Z) : dev W (mems_status_t * Z) :=
  R_field LSM6DSL_ACC_GYRO_CTRL6_G LSM6DSL_ACC_GYRO_DEN_LVL2_EN_MASK value.
Definition LSM6DSL_ACC_GYRO_W_DEN_LVL_EN (newValue : Z) : dev W mems_status_t :=
  W_field LSM6DSL_ACC_GYRO_CTRL6_G LSM6DSL_ACC_GYRO_DEN_LVL_EN_MASK newValue.
Definition LSM6DSL_ACC_GYRO_R_DEN_LVL_EN (value : Z) : dev W (mems_status_t * Z) :=
  R_field LSM6DSL_ACC_GYRO_CTRL6_G LSM6DSL_ACC_GYRO_DEN_LVL_EN_MASK value.
Definition LSM6DSL_ACC_GYRO_W_ExternalTrigger (newValue : Z) : dev W mems_status_t :=
  W_field LSM6DSL_ACC_GYRO_CTRL6_G LSM6DSL_ACC_GYRO_DEN_EDGE_EN_MASK newValue.
Definition LSM6DSL_ACC_GYRO_R_ExternalTrigger (value : Z) : dev W (mems_status_t * Z) :=
  R_field LSM6DSL_ACC_GYRO_CTRL6_G LSM6DSL_ACC_GYRO_DEN_EDGE_EN_MASK value.
Definition LSM6DSL_ACC_GYRO_W_HPM_G (newValue : Z) : dev W mems_status_t :=
  W_field LSM6DSL_ACC_GYRO_CTRL7_G LSM6DSL_ACC_GYRO_HPM_G_MASK newValue.
Definition LSM6DSL_ACC_GYRO_R_HPM_G (value : Z) : dev W (mems_status_t * Z) :=
  R_field LSM6DSL_ACC_GYRO_CTRL7_G LSM6DSL_ACC_GYRO_HPM_G_MASK value.
Definition LSM6DSL_ACC_GYRO_W_RoundingOnStatusRegisters (newValue : Z) : dev W mems_status_t :=
  W_field LSM6DSL_ACC_GYRO_CTRL7_G LSM6DSL_ACC_GYRO_RND_STATUS_MASK newValue.
Definition LSM6DSL_ACC_GYRO_R_RoundingOnStatusRegisters (value : Z) : dev W (mems_status_t * Z) :=
  R_field LSM6DSL_ACC_GYRO_CTRL7_G LSM6DSL_ACC_GYRO_RND_STATUS_MASK value.
Definition LSM6DSL_ACC_GYRO_W_HPFilter_En (newValue : Z) : dev W mems_status_t :=
  W_field LSM6DSL_ACC_GYRO_CTRL7_G LSM6DSL_ACC_GYRO_HP_EN_MASK newValue.
Definition LSM6DSL_ACC_GYRO_R_HPFilter_En (value : Z) : dev W (mems_status_t * Z) :=
  R_field LSM6DSL_ACC_GYRO_CTRL7_G LSM6DSL_ACC_GYRO_HP_EN_MASK value.
Definition LSM6DSL_ACC_GYRO_W_LP_Mode (newValue : Z) : dev W mems_status_t :=
  W_field LSM6DSL_ACC_GYRO_CTRL7_G LSM6DSL_ACC_GYRO_LP_EN_MASK newValue.
Definition LSM6DSL_ACC_GYRO_R_LP_Mode (value : Z) : dev W (mems_status_t * Z) :=
  R_field LSM6DSL_ACC_GYRO_CTRL7_G LSM6DSL_ACC_GYRO_LP_EN_MASK value.
Definition LSM6DSL_ACC_GYRO_W_ROUNDING_STATUS (newValue : Z) : dev W mems_status_t :=
  W_field LSM6DSL_ACC_GYRO_CTRL7_G LSM6DSL_ACC_GYRO_ROUNDING_STATUS_MASK newValue.
Definition LSM6DSL_ACC_GYRO_R_ROUNDING_STATUS (value : Z) : dev W (mems_status_t * Z) :=
  R_field LSM6DSL_ACC_GYRO_CTRL7_G LSM6DSL_ACC_GYRO_ROUNDING_STATUS_MASK value.
Definition LSM6DSL_ACC_GYRO_W_HP_G_RST (newValue : Z) : dev W mems_status_t :=
  W_field LSM6DSL_ACC_GYRO_CTRL7_G LSM6DSL_ACC_GYRO_HP_G_RST_MASK newValue.
Definition LSM6DSL_ACC_GYRO_R_HP_G_RST (value : Z) : dev W (mems_status_t * Z) :=
  R_field LSM6DSL_ACC_GYRO_CTRL7_G LSM6DSL_ACC_GYRO_HP_G_RST_MASK value.
Definition LSM6DSL_ACC_GYRO_W_InComposit (newValue : Z) : dev W mems_status_t :=
  W_field LSM6DSL_ACC_GYRO_CTRL8_XL LSM6DSL_ACC_GYRO_IN_COMP_MASK newValue.
Definition LSM6DSL_ACC_GYRO_R_InComposit (value : Z) : dev W (mems_status_t * Z) :=
  R_field LSM6DSL_ACC_GYRO_CTRL8_XL LSM6DSL_ACC_GYRO_IN_COMP_MASK value.
Definition LSM6DSL_ACC_GYRO_W_HPfilterReference (newValue : Z) : dev W mems_status_t :=
  W_field LSM6DSL_ACC_GYRO_CTRL8_XL LSM6DSL_ACC_GYRO_HP_REF_MODE_MASK newValue.
Definition LSM6DSL_ACC_GYRO_R_HPfilterReference (value : Z) : dev W (mems_status_t * Z) :=
  R_field LSM6DSL_ACC_GYRO_CTRL8_XL LSM6DSL_ACC_GYRO_HP_REF_MODE_MASK value.
Definition LSM6DSL_ACC_GYRO_W_HPCF_XL (newValue : Z) : dev W mems_status_t :=
  W_field LSM6DSL_ACC_GYRO_CTRL8_XL LSM6DSL_ACC_GYRO_HPCF_XL_MASK newValue.
Definition LSM6DSL_ACC_GYRO_R_HPCF_XL (value : Z) : dev W (mems_status_t * Z) :=
  R_field LSM6DSL_ACC_GYRO_CTRL8_XL LSM6DSL_ACC_GYRO_HPCF_XL_MASK value.
Definition LSM6DSL_ACC_GYRO_W_LowPassFiltSel_XL (newValue : Z) : dev W mems_status_t :=
  W_field LSM6DSL_ACC_GYRO_CTRL8_XL LSM6DSL_ACC_GYRO_LPF2_XL_MASK newValue.
Definition LSM6DSL_ACC_GYRO_R_LowPassFiltSel_XL (value : Z) : dev W (mems_status_t * Z) :=
  R_field LSM6DSL_ACC_GYRO_CTRL8_XL LSM6DSL_ACC_GYRO_LPF2_XL_MASK value.
Definition LSM6DSL_ACC_GYRO_W_LOW_PASS_ON_6D (newValue : Z) : dev W mems_status_t :=
  W_field LSM6DSL_ACC_GYRO_CTRL8_XL LSM6DSL_ACC_GYRO_LOW_PASS_ON_6D_MASK newValue.
Definition LSM6DSL_ACC_GYRO_R_LOW_PASS_ON_6D (value : Z) : dev W (mems_status_t * Z) :=
  R_field LSM6DSL_ACC_GYRO_CTRL8_XL LSM6DSL_ACC_GYRO_LOW_PASS_ON_6D_MASK value.
Definition LSM6DSL_ACC_GYRO_W_HP_SLOPE_XL (newValue : Z) : dev W mems_status_t :=
  W_field LSM6DSL_ACC_GYRO_CTRL8_XL LSM6DSL_ACC_GYRO_HP_SLOPE_XL_MASK newValue.
Definition LSM6DSL_ACC_GYRO_R_HP_SLOPE_XL (value : Z) : dev W (mems_status_t * Z) :=
  R_field LSM6DSL_ACC_GYRO_CTRL8_XL LSM6DSL_ACC_GYRO_HP_SLOPE_XL_MASK value.
Definition LSM6DSL_ACC_GYRO_W_SOFT (newValue : Z) : dev W mems_status_t :=
  W_field LSM6DSL_ACC_GYRO_CTRL9_XL LSM6DSL_ACC_GYRO_SOFT_MASK newValue.
Definition LSM6DSL_ACC_GYRO_R_SOFT (value : Z) : dev W (mems_status_t * Z) :=
  R_field LSM6DSL_ACC_GYRO_CTRL9_XL LSM6DSL_ACC_GYRO_SOFT_MASK value.
Definition LSM6DSL_ACC_GYRO_W_SignificantMotion (newValue : Z) : dev W mems_status_t :=
  W_field LSM6DSL_ACC_GYRO_CTRL10_C LSM6DSL_ACC_GYRO_SIGN_MOTION_EN_MASK newValue.
Definition LSM6DSL_ACC_GYRO_R_SignificantMotion (value : Z) : dev W (mems_status_t * Z) :=
  R_field LSM6DSL_ACC_GYRO_CTRL10_C LSM6DSL_ACC_GYRO_SIGN_MOTION_EN_MASK value.
Definition LSM6DSL_ACC_GYRO_W_PedoStepReset (newValue : Z) : dev W mems_status_t :=
  W_field LSM6DSL_ACC_GYRO_CTRL10_C LSM6DSL_ACC_GYRO_PEDO_RST_STEP_MASK newValue.
Definition LSM6DSL_ACC_GYRO_R_PedoStepReset (value : Z) : dev W (mems_status_t * Z) :=
  R_field LSM6DSL_ACC_GYRO_CTRL10_C LSM6DSL_ACC_GYRO_PEDO_RST_STEP_MASK value.
Definition LSM6DSL_ACC_GYRO_W_TILT (newValue : Z) : dev W mems_status_t :=
  W_field LSM6DSL_ACC_GYRO_CTRL10_C LSM6DSL_ACC_GYRO_TILT_MASK newValue.
Definition LSM6DSL_ACC_GYRO_R_TILT (value : Z) : dev W (mems_status_t * Z) :=
  R_field LSM6DSL_ACC_GYRO_CTRL10_C LSM6DSL_ACC_GYRO_TILT_MASK value.
Definition LSM6DSL_ACC_GYRO_W_PEDO (newValue : Z) : dev W mems_status_t :=
  W_field LSM6DSL_ACC_GYRO_CTRL10_C LSM6DSL_ACC_GYRO_PEDO_MASK newValue.
Definition LSM6DSL_ACC_GYRO_R_PEDO (value : Z) : dev W (mems_status_t * Z) :=
  R_field LSM6DSL_ACC_GYRO_CTRL10_C LSM6DSL_ACC_GYRO_PEDO_MASK value.
Definition LSM6DSL_ACC_GYRO_W_TIMER (newValue : Z) : dev W mems_status_t :=
  W_field LSM6DSL_ACC_GYRO_CTRL10_C LSM6DSL_ACC_GYRO_TIMER_MASK newValue.
Definition LSM6DSL_ACC_GYRO_R_TIMER (value : Z) : dev W (mems_status_t * Z) :=
  R_field LSM6DSL_ACC_GYRO_CTRL10_C LSM6DSL_ACC_GYRO_TIMER_MASK value.
Definition LSM6DSL_ACC_GYRO_W_FUNC_EN (newValue : Z) : dev W mems_status_t :=
  W_field LSM6DSL_ACC_GYRO_CTRL10_C LSM6DSL_ACC_GYRO_FUNC_EN_MASK newValue.
Definition LSM6DSL_ACC_GYRO_R_FUNC_EN (value : Z) : dev W (mems_status_t * Z) :=
  R_field LSM6DSL_ACC_GYRO_CTRL10_C LSM6DSL_ACC_GYRO_FUNC_EN_MASK value.
Definition LSM6DSL_ACC_GYRO_W_I2C_MASTER_Enable (newValue : Z) : dev W mems_status_t :=
  W_field LSM6DSL_ACC_GYRO_MASTER_CONFIG LSM6DSL_ACC_GYRO_MASTER_ON_MASK newValue.
Definition LSM6DSL_ACC_GYRO_R_I2C_MASTER_Enable (value : Z) : dev W (mems_status_t * Z) :=
  R_field LSM6DSL_ACC_GYRO_MASTER_CONFIG LSM6DSL_ACC_GYRO_MASTER_ON_MASK value.
Definition LSM6DSL_ACC_GYRO_W_IronCorrection_EN (newValue : Z) : dev W mems_status_t :=
  W_field LSM6DSL_ACC_GYRO_MASTER_CONFIG LSM6DSL_ACC_GYRO_IRON_EN_MASK newValue.
Definition LSM6DSL_ACC_GYRO_R_IronCorrection_EN (value : Z) : dev W (mems_status_t * Z) :=
  R_field LSM6DSL_ACC_GYRO_MASTER_CONFIG LSM6DSL_ACC_GYRO_IRON_EN_MASK value.
Definition LSM6DSL_ACC_GYRO_W_PASS_THRU_MODE (newValue : Z) : dev W mems_status_t :=
  W_field LSM6DSL_ACC_GYRO_MASTER_CONFIG LSM6DSL_ACC_GYRO_PASS_THRU_MODE_MASK newValue.
Definition LSM6DSL_ACC_GYRO_R_PASS_THRU_MODE (value : Z) : dev W (mems_status_t * Z) :=
  R_field LSM6DSL_ACC_GYRO_MASTER_CONFIG LSM6DSL_ACC_GYRO_PASS_THRU_MODE_MASK value.
Definition LSM6DSL_ACC_GYRO_W_PULL_UP_EN (newValue : Z) : dev W mems_status_t :=
  W_field LSM6DSL_ACC_GYRO_MASTER_CONFIG LSM6DSL_ACC_GYRO_PULL_UP_EN_MASK newValue.
Definition LSM6DSL_ACC_GYRO_R_PULL_UP_EN (value : Z) : dev W (mems_status_t * Z) :=
  R_field LSM6DSL_ACC_GYRO_MASTER_CONFIG LSM6DSL_ACC_GYRO_PULL_UP_EN_MASK value.
Definition LSM6DSL_ACC_GYRO_W_SensorHUB_Trigger_Sel (newValue : Z) : dev W mems_status_t :=
  W_field LSM6DSL_ACC_GYRO_MASTER_CONFIG LSM6DSL_ACC_GYRO_START_CONFIG_MASK newValue.
Definition LSM6DSL_ACC_GYRO_R_SensorHUB_Trigger_Sel (value : Z) : dev W (mems_status_t * Z) :=
  R_field LSM6DSL_ACC_GYRO_MASTER_CONFIG LSM6DSL_ACC_GYRO_START_CONFIG_MASK value.
Definition LSM6DSL_ACC_GYRO_W_DATA_VAL_SEL_FIFO (newValue : Z) : dev W mems_status_t :=
  W_field LSM6DSL_ACC_GYRO_MASTER_CONFIG LSM6DSL_ACC_GYRO_DATA_VAL_SEL_FIFO_MASK newValue.
Definition LSM6DSL_ACC_GYRO_R_DATA_VAL_SEL_FIFO (value : Z) : dev W (mems_status_t * Z) :=
  R_field LSM6DSL_ACC_GYRO_MASTER_CONFIG LSM6DSL_ACC_GYRO_DATA_VAL_SEL_FIFO_MASK value.
Definition LSM6DSL_ACC_GYRO_W_DRDY_ON_INT1 (newValue : Z) : dev W mems_status_t :=
  W_field LSM6DSL_ACC_GYRO_MASTER_CONFIG LSM6DSL_ACC_GYRO_DRDY_ON_INT1_MASK newValue.
Definition LSM6DSL_ACC_GYRO_R_DRDY_ON_INT1 (value : Z) : dev W (mems_status_t * Z) :=
  R_field LSM6DSL_ACC_GYRO_MASTER_CONFIG LSM6DSL_ACC_GYRO_DRDY_ON_INT1_MASK value.
Definition LSM6DSL_ACC_GYRO_R_Z_WU (value : Z) : dev W (mems_status_t * Z) :=
  R_field LSM6DSL_ACC_GYRO_WAKE_UP_SRC LSM6DSL_ACC_GYRO_Z_WU_MASK value.
Definition LSM6DSL_ACC_GYRO_R_Y_WU (value : Z) : dev W (mems_status_t * Z) :=
  R_field LSM6DSL_ACC_GYRO_WAKE_UP_SRC LSM6DSL_ACC_GYRO_Y_WU_MASK value.
Definition LSM6DSL_ACC_GYRO_R_X_WU (value : Z) : dev W (mems_status_t * Z) :=
  R_field LSM6DSL_ACC_GYRO_WAKE_UP_SRC LSM6DSL_ACC_GYRO_X_WU_MASK value.
Definition LSM6DSL_ACC_GYRO_R_WU_EV_STATUS (value : Z) : dev W (mems_status_t * Z) :=
  R_field LSM6DSL_ACC_GYRO_WAKE_UP_SRC LSM6DSL_ACC_GYRO_WU_EV_STATUS_MASK value.
Definition LSM6DSL_ACC_GYRO_R_SLEEP_EV_STATUS (value : Z) : dev W (mems_status_t * Z) :=
  R_field LSM6DSL_ACC_GYRO_WAKE_UP_SRC LSM6DSL_ACC_GYRO_SLEEP_EV_STATUS_MASK value.
Definition LSM6DSL_ACC_GYRO_R_FF_EV_STATUS (value : Z) : dev W (mems_status_t * Z) :=
  R_field LSM6DSL_ACC_GYRO_WAKE_UP_SRC LSM6DSL_ACC_GYRO_FF_EV_STATUS_MASK value.
Definition LSM6DSL_ACC_GYRO_R_Z_TAP (value : Z) : dev W (mems_status_t * Z) :=
  R_field LSM6DSL_ACC_GYRO_TAP_SRC LSM6DSL_ACC_GYRO_Z_TAP_MASK value.
Definition LSM6DSL_ACC_GYRO_R_Y_TAP (value : Z) : dev W (mems_status_t * Z) :=
  R_field LSM6DSL_ACC_GYRO_TAP_SRC LSM6DSL_ACC_GYRO_Y_TAP_MASK value.
Definition LSM6DSL_ACC_GYRO_R_X_TAP (value : Z) : dev W (mems_status_t * Z) :=
  R_field LSM6DSL_ACC_GYRO_TAP_SRC LSM6DSL_ACC_GYRO_X_TAP_MASK value.
Definition LSM6DSL_ACC_GYRO_R_TAP_SIGN (value : Z) : dev W (mems_status_t * Z) :=
  R_field LSM6DSL_ACC_GYRO_TAP_SRC LSM6DSL_ACC_GYRO_TAP_SIGN_MASK value.
Definition LSM6DSL_ACC_GYRO_R_DOUBLE_TAP_EV_STATUS (value : Z) : dev W (mems_status_t * Z) :=
  R_field LSM6DSL_ACC_GYRO_TAP_SRC LSM6DSL_ACC_GYRO_DOUBLE_TAP_EV_STATUS_MASK value.
Definition LSM6DSL_ACC_GYRO_R_SINGLE_TAP_EV_STATUS (value : Z) : dev W (mems_status_t * Z) :=
  R_field LSM6DSL_ACC_GYRO_TAP_SRC LSM6DSL_ACC_GYRO_SINGLE_TAP_EV_STATUS_MASK value.
Definition LSM6DSL_ACC_GYRO_R_TAP_EV_STATUS (value : Z) : dev W (mems_status_t * Z) :=
  R_field LSM6DSL_ACC_GYRO_TAP_SRC LSM6DSL_ACC_GYRO_TAP_EV_STATUS_MASK value.
Definition LSM6DSL_ACC_GYRO_R_DSD_XL (value : Z) : dev W (mems_status_t * Z) :=
  R_field LSM6DSL_ACC_GYRO_D6D_SRC LSM6DSL_ACC_GYRO_DSD_XL_MASK value.
Definition LSM6DSL_ACC_GYRO_R_DSD_XH (value : Z) : dev W (mems_status_t * Z) :=
  R_field LSM6DSL_ACC_GYRO_D6D_SRC LSM6DSL_ACC_GYRO_DSD_XH_MASK value.
Definition LSM6DSL_ACC_GYRO_R_DSD_YL (value : Z) : dev W (mems_status_t * Z) :=
  R_field LSM6DSL_ACC_GYRO_D6D_SRC LSM6DSL_ACC_GYRO_DSD_YL_MASK value.
Definition LSM6DSL_ACC_GYRO_R_DSD_YH (value : Z) : dev W (mems_status_t * Z) :=
  R_field LSM6DSL_ACC_GYRO_D6D_SRC LSM6DSL_ACC_GYRO_DSD_YH_MASK value.
Definition LSM6DSL_ACC_GYRO_R_DSD_ZL (value : Z) : dev W (mems_status_t * Z) :=
  R_field LSM6DSL_ACC_GYRO_D6D_SRC LSM6DSL_ACC_GYRO_DSD_ZL_MASK value.
Definition LSM6DSL_ACC_GYRO_R_DSD_ZH (value : Z) : dev W (mems_status_t * Z) :=
  R_field LSM6DSL_ACC_GYRO_D6D_SRC LSM6DSL_ACC_GYRO_DSD_ZH_MASK value.
Definition LSM6DSL_ACC_GYRO_R_D6D_EV_STATUS (value : Z) : dev W (mems_status_t * Z) :=
  R_field LSM6DSL_ACC_GYRO_D6D_SRC LSM6DSL_ACC_GYRO_D6D_EV_STATUS_MASK value.
Definition LSM6DSL_ACC_GYRO_R_XLDA (value : Z) : dev W (mems_status_t * Z) :=
  R_field LSM6DSL_ACC_GYRO_STATUS_REG LSM6DSL_ACC_GYRO_XLDA_MASK value.
Definition LSM6DSL_ACC_GYRO_R_GDA (value : Z) : dev W (mems_status_t * Z) :=
  R_field LSM6DSL_ACC_GYRO_STATUS_REG LSM6DSL_ACC_GYRO_GDA_MASK value.
Definition LSM6DSL_ACC_GYRO_R_TDA (value : Z) : dev W (mems_status_t * Z) :=
  R_field LSM6DSL_ACC_GYRO_STATUS_REG LSM6DSL_ACC_GYRO_TDA_MASK value.
Definition LSM6DSL_ACC_GYRO_R_FIFONumOfEntries (value : Z) : dev W (mems_status_t * Z) :=
  R_two LSM6DSL_ACC_GYRO_FIFO_STATUS1 LSM6DSL_ACC_GYRO_DIFF_FIFO_STATUS1_POSITION LSM6DSL_ACC_GYRO_DIFF_FIFO_STATUS1_MASK
    LSM6DSL_ACC_GYRO_FIFO_STATUS2 LSM6DSL_ACC_GYRO_DIFF_FIFO_STATUS2_POSITION LSM6DSL_ACC_GYRO_DIFF_FIFO_STATUS2_MASK join16 value.
Definition LSM6DSL_ACC_GYRO_R_FIFOEmpty (value : Z) : dev W (mems_status_t * Z) :=
  R_field LSM6DSL_ACC_GYRO_FIFO_STATUS2 LSM6DSL_ACC_GYRO_FIFO_EMPTY_MASK value.
Definition LSM6DSL_ACC_GYRO_R_FIFOFull (value : Z) : dev W (mems_status_t * Z) :=
  R_field LSM6DSL_ACC_GYRO_FIFO_STATUS2 LSM6DSL_ACC_GYRO_FIFO_FULL_MASK value.
Definition LSM6DSL_ACC_GYRO_R_OVERRUN (value : Z) : dev W (mems_status_t * Z) :=
  R_field LSM6DSL_ACC_GYRO_FIFO_STATUS2 LSM6DSL_ACC_GYRO_OVERRUN_MASK value.
Definition LSM6DSL_ACC_GYRO_R_WaterMark (value : Z) : dev W (mems_status_t * Z) :=
  R_field LSM6DSL_ACC_GYRO_FIFO_STATUS2 LSM6DSL_ACC_GYRO_WTM_MASK value.
Definition LSM6DSL_ACC_GYRO_R_FIFOPattern (value : Z) : dev W (mems_status_t * Z) :=
  R_two LSM6DSL_ACC_GYRO_FIFO_STATUS3 LSM6DSL_ACC_GYRO_FIFO_STATUS3_PATTERN_POSITION LSM6DSL_ACC_GYRO_FIFO_STATUS3_PATTERN_MASK
    LSM6DSL_ACC_GYRO_FIFO_STATUS4 LSM6DSL_ACC_GYRO_FIFO_STATUS4_PATTERN_POSITION LSM6DSL_ACC_GYRO_FIFO_STATUS4_PATTERN_MASK join16 value.
Definition LSM6DSL_ACC_GYRO_R_SENS_HUB_END (value : Z) : dev W (mems_status_t * Z) :=
  R_field LSM6DSL_ACC_GYRO_FUNC_SRC LSM6DSL_ACC_GYRO_SENS_HUB_END_MASK value.
Definition LSM6DSL_ACC_GYRO_R_SOFT_IRON_END (value : Z) : dev W (mems_status_t * Z) :=
  R_field LSM6DSL_ACC_GYRO_FUNC_SRC LSM6DSL_ACC_GYRO_SOFT_IRON_END_MASK value.
Definition LSM6DSL_ACC_GYRO_R_HardIron (value : Z) : dev W (mems_status_t * Z) :=
  R_field LSM6DSL_ACC_GYRO_FUNC_SRC LSM6DSL_ACC_GYRO_HARD_IRON_STAT_MASK value.
Definition LSM6DSL_ACC_GYRO_R_STEP_OVERFLOW (value : Z) : dev W (mems_status_t * Z) :=
  R_field LSM6DSL_ACC_GYRO_FUNC_SRC LSM6DSL_ACC_GYRO_STEP_OVERFLOW_MASK value.
Definition LSM6DSL_ACC_GYRO_R_STEP_COUNT_DELTA (value : Z) : dev W (mems_status_t * Z) :=
  R_field LSM6DSL_ACC_GYRO_FUNC_SRC LSM6DSL_ACC_GYRO_STEP_COUNT_DELTA_MASK value.
Definition LSM6DSL_ACC_GYRO_R_PEDO_EV_STATUS (value : Z) : dev W (mems_status_t * Z) :=
  R_field LSM6DSL_ACC_GYRO_FUNC_SRC LSM6DSL_ACC_GYRO_PEDO_EV_STATUS_MASK value.
Definition LSM6DSL_ACC_GYRO_R_TILT_EV_STATUS (value : Z) : dev W (mems_status_t * Z) :=
  R_field LSM6DSL_ACC_GYRO_FUNC_SRC LSM6DSL_ACC_GYRO_TILT_EV_STATUS_MASK value.
Definition LSM6DSL_ACC_GYRO_R_SIGN_MOT_EV_STATUS (value : Z) : dev W (mems_status_t * Z) :=
  R_field LSM6DSL_ACC_GYRO_FUNC_SRC LSM6DSL_ACC_GYRO_SIGN_MOT_EV_STATUS_MASK value.
Definition LSM6DSL_ACC_GYRO_W_LIR (newValue : Z) : dev W mems_status_t :=
  W_field LSM6DSL_ACC_GYRO_TAP_CFG1 LSM6DSL_ACC_GYRO_LIR_MASK newValue.
Definition LSM6DSL_ACC_GYRO_R_LIR (value : Z) : dev W (mems_status_t * Z) :=
  R_field LSM6DSL_ACC_GYRO_TAP_CFG1 LSM6DSL_ACC_GYRO_LIR_MASK value.
Definition LSM6DSL_ACC_GYRO_W_TAP_Z_EN (newValue : Z) : dev W mems_status_t :=
  W_field LSM6DSL_ACC_GYRO_TAP_CFG1 LSM6DSL_ACC_GYRO_TAP_Z_EN_MASK newValue.
Definition LSM6DSL_ACC_GYRO_R_TAP_Z_EN (value : Z) : dev W (mems_status_t * Z) :=
  R_field LSM6DSL_ACC_GYRO_TAP_CFG1 LSM6DSL_ACC_GYRO_TAP_Z_EN_MASK value.
Definition LSM6DSL_ACC_GYRO_W_TAP_Y_EN (newValue : Z) : dev W mems_status_t :=
  W_field LSM6DSL_ACC_GYRO_TAP_CFG1 LSM6DSL_ACC_GYRO_TAP_Y_EN_MASK newValue.
Definition LSM6DSL_ACC_GYRO_R_TAP_Y_EN (value : Z) : dev W (mems_status_t * Z) :=
  R_field LSM6DSL_ACC_GYRO_TAP_CFG1 LSM6DSL_ACC_GYRO_TAP_Y_EN_MASK value.
Definition LSM6DSL_ACC_GYRO_W_TAP_X_EN (newValue : Z) : dev W mems_status_t :=
  W_field LSM6DSL_ACC_GYRO_TAP_CFG1 LSM6DSL_ACC_GYRO_TAP_X_EN_MASK newValue.
Definition LSM6DSL_ACC_GYRO_R_TAP_X_EN (value : Z) : dev W (mems_status_t * Z) :=
  R_field LSM6DSL_ACC_GYRO_TAP_CFG1 LSM6DSL_ACC_GYRO_TAP_X_EN_MASK value.
Definition LSM6DSL_ACC_GYRO_W_SLOPE_FDS (newValue : Z) : dev W mems_status_t :=
  W_field LSM6DSL_ACC_GYRO_TAP_CFG1 LSM6DSL_ACC_GYRO_SLOPE_FDS_MASK newValue.
Definition LSM6DSL_ACC_GYRO_R_SLOPE_FDS (value : Z) : dev W (mems_status_t * Z) :=
  R_field LSM6DSL_ACC_GYRO_TAP_CFG1 LSM6DSL_ACC_GYRO_SLOPE_FDS_MASK value.
Definition LSM6DSL_ACC_GYRO_W_BASIC_INT (newValue : Z) : dev W mems_status_t :=
  W_field LSM6DSL_ACC_GYRO_TAP_CFG1 LSM6DSL_ACC_GYRO_INT_EN_MASK newValue.
Definition LSM6DSL_ACC_GYRO_R_BASIC_INT (value : Z) : dev W (mems_status_t * Z) :=
  R_field LSM6DSL_ACC_GYRO_TAP_CFG1 LSM6DSL_ACC_GYRO_INT_EN_MASK value.
Definition LSM6DSL_ACC_GYRO_W_TAP_THS (newValue : Z) : dev W mems_status_t :=
  W_shifted LSM6DSL_ACC_GYRO_TAP_THS_6D LSM6DSL_ACC_GYRO_TAP_THS_POSITION LSM6DSL_ACC_GYRO_TAP_THS_MASK newValue.
Definition LSM6DSL_ACC_GYRO_R_TAP_THS (value : Z) : dev W (mems_status_t * Z) :=
  R_shifted LSM6DSL_ACC_GYRO_TAP_THS_6D LSM6DSL_ACC_GYRO_TAP_THS_POSITION LSM6DSL_ACC_GYRO_TAP_THS_MASK value.
Definition LSM6DSL_ACC_GYRO_W_SIXD_THS (newValue : Z) : dev W mems_status_t :=
  W_field LSM6DSL_ACC_GYRO_TAP_THS_6D LSM6DSL_ACC_GYRO_SIXD_THS_MASK newValue.
Definition LSM6DSL_ACC_GYRO_R_SIXD_THS (value : Z) : dev W (mems_status_t * Z) :=
  R_field LSM6DSL_ACC_GYRO_TAP_THS_6D LSM6DSL_ACC_GYRO_SIXD_THS_MASK value.
Definition LSM6DSL_ACC_GYRO_W_D4D (newValue : Z) : dev W mems_status_t :=
  W_field LSM6DSL_ACC_GYRO_TAP_THS_6D LSM6DSL_ACC_GYRO_D4D_MASK newValue.
Definition LSM6DSL_ACC_GYRO_R_D4D (value : Z) : dev W (mems_status_t * Z) :=
  R_field LSM6DSL_ACC_GYRO_TAP_THS_6D LSM6DSL_ACC_GYRO_D4D_MASK value.
Definition LSM6DSL_ACC_GYRO_W_SHOCK_Duration (newValue : Z) : dev W mems_status_t :=
  W_shifted LSM6DSL_ACC_GYRO_INT_DUR2 LSM6DSL_ACC_GYRO_SHOCK_POSITION LSM6DSL_ACC_GYRO_SHOCK_MASK newValue.
Definition LSM6DSL_ACC_GYRO_R_SHOCK_Duration (value : Z) : dev W (mems_status_t * Z) :=
  R_shifted LSM6DSL_ACC_GYRO_INT_DUR2 LSM6DSL_ACC_GYRO_SHOCK_POSITION LSM6DSL_ACC_GYRO_SHOCK_MASK value.
Definition LSM6DSL_ACC_GYRO_W_QUIET_Duration (newValue : Z) : dev W mems_status_t :=
  W_shifted LSM6DSL_ACC_GYRO_INT_DUR2 LSM6DSL_ACC_GYRO_QUIET_POSITION LSM6DSL_ACC_GYRO_QUIET_MASK newValue.
Definition LSM6DSL_ACC_GYRO_R_QUIET_Duration (value : Z) : dev W (mems_status_t * Z) :=
  R_shifted LSM6DSL_ACC_GYRO_INT_DUR2 LSM6DSL_ACC_GYRO_QUIET_POSITION LSM6DSL_ACC_GYRO_QUIET_MASK value.
Definition LSM6DSL_ACC_GYRO_W_DUR (newValue : Z) : dev W mems_status_t :=
  W_shifted LSM6DSL_ACC_GYRO_INT_DUR2 LSM6DSL_ACC_GYRO_DUR_POSITION LSM6DSL_ACC_GYRO_DUR_MASK newValue.
Definition LSM6DSL_ACC_GYRO_R_DUR (value : Z) : dev W (mems_status_t * Z) :=
  R_shifted LSM6DSL_ACC_GYRO_INT_DUR2 LSM6DSL_ACC_GYRO_DUR_POSITION LSM6DSL_ACC_GYRO_DUR_MASK value.
Definition LSM6DSL_ACC_GYRO_W_WK_THS (newValue : Z) : dev W mems_status_t :=
  W_shifted LSM6DSL_ACC_GYRO_WAKE_UP_THS LSM6DSL_ACC_GYRO_WK_THS_POSITION LSM6DSL_ACC_GYRO_WK_THS_MASK newValue.
Definition LSM6DSL_ACC_GYRO_R_WK_THS (value : Z) : dev W (mems_status_t * Z) :=
  R_shifted LSM6DSL_ACC_GYRO_WAKE_UP_THS LSM6DSL_ACC_GYRO_WK_THS_POSITION LSM6DSL_ACC_GYRO_WK_THS_MASK value.
Definition LSM6DSL_ACC_GYRO_W_SINGLE_DOUBLE_TAP_EV (newValue : Z) : dev W mems_status_t :=
  W_field LSM6DSL_ACC_GYRO_WAKE_UP_THS LSM6DSL_ACC_GYRO_SINGLE_DOUBLE_TAP_MASK newValue.
Definition LSM6DSL_ACC_GYRO_R_SINGLE_DOUBLE_TAP_EV (value : Z) : dev W (mems_status_t * Z) :=
  R_field LSM6DSL_ACC_GYRO_WAKE_UP_THS LSM6DSL_ACC_GYRO_SINGLE_DOUBLE_TAP_MASK value.
Definition LSM6DSL_ACC_GYRO_W_SLEEP_DUR (newValue : Z) : dev W mems_status_t :=
  W_shifted LSM6DSL_ACC_GYRO_WAKE_UP_DUR LSM6DSL_ACC_GYRO_SLEEP_DUR_POSITION LSM6DSL_ACC_GYRO_SLEEP_DUR_MASK newValue.
Definition LSM6DSL_ACC_GYRO_R_SLEEP_DUR (value : Z) : dev W (mems_status_t * Z) :=
  R_shifted LSM6DSL_ACC_GYRO_WAKE_UP_DUR LSM6DSL_ACC_GYRO_SLEEP_DUR_POSITION LSM6DSL_ACC_GYRO_SLEEP_DUR_MASK value.
Definition LSM6DSL_ACC_GYRO_W_TIMER_HR (newValue : Z) : dev W mems_status_t :=
  W_field LSM6DSL_ACC_GYRO_WAKE_UP_DUR LSM6DSL_ACC_GYRO_TIMER_HR_MASK newValue.
Definition LSM6DSL_ACC_GYRO_R_TIMER_HR (value : Z) : dev W (mems_status_t * Z) :=
  R_field LSM6DSL_ACC_GYRO_WAKE_UP_DUR LSM6DSL_ACC_GYRO_TIMER_HR_MASK value.
Definition LSM6DSL_ACC_GYRO_W_WAKE_DUR (newValue : Z) : dev W mems_status_t :=
  W_shifted LSM6DSL_ACC_GYRO_WAKE_UP_DUR LSM6DSL_ACC_GYRO_WAKE_DUR_POSITION LSM6DSL_ACC_GYRO_WAKE_DUR_MASK newValue.
Definition LSM6DSL_ACC_GYRO_R_WAKE_DUR (value : Z) : dev W (mems_status_t * Z) :=
  R_shifted LSM6DSL_ACC_GYRO_WAKE_UP_DUR LSM6DSL_ACC_GYRO_WAKE_DUR_POSITION LSM6DSL_ACC_GYRO_WAKE_DUR_MASK value.
Definition LSM6DSL_ACC_GYRO_W_FF_THS (newValue : Z) : dev W mems_status_t :=
  W_field LSM6DSL_ACC_GYRO_FREE_FALL LSM6DSL_ACC_GYRO_FF_THS_MASK newValue.
Definition LSM6DSL_ACC_GYRO_R_FF_THS (value : Z) : dev W (mems_status_t * Z) :=
  R_field LSM6DSL_ACC_GYRO_FREE_FALL LSM6DSL_ACC_GYRO_FF_THS_MASK value.
Definition LSM6DSL_ACC_GYRO_W_FF_Duration (newValue : Z) : dev W mems_status_t :=
  st ← W_shifted LSM6DSL_ACC_GYRO_FREE_FALL LSM6DSL_ACC_GYRO_FF_FREE_FALL_DUR_POSITION LSM6DSL_ACC_GYRO_FF_FREE_FALL_DUR_MASK (Z.land newValue 31);
  if failed st then mret MEMS_ERROR else
  W_shifted LSM6DSL_ACC_GYRO_WAKE_UP_DUR LSM6DSL_ACC_GYRO_FF_WAKE_UP_DUR_POSITION LSM6DSL_ACC_GYRO_FF_WAKE_UP_DUR_MASK (Z.land (Z.shiftr newValue 5) 1).
Definition LSM6DSL_ACC_GYRO_R_FF_Duration (value : Z) : dev W (mems_status_t * Z) :=
  R_two LSM6DSL_ACC_GYRO_FREE_FALL LSM6DSL_ACC_GYRO_FF_FREE_FALL_DUR_POSITION LSM6DSL_ACC_GYRO_FF_FREE_FALL_DUR_MASK
    LSM6DSL_ACC_GYRO_WAKE_UP_DUR LSM6DSL_ACC_GYRO_FF_WAKE_UP_DUR_POSITION LSM6DSL_ACC_GYRO_FF_WAKE_UP_DUR_MASK join6 value.
Definition LSM6DSL_ACC_GYRO_W_TimerEvRouteInt1 (newValue : Z) : dev W mems_status_t :=
  W_field LSM6DSL_ACC_GYRO_MD1_CFG LSM6DSL_ACC_GYRO_INT1_TIMER_MASK newValue.
Definition LSM6DSL_ACC_GYRO_R_TimerEvRouteInt1 (value : Z) : dev W (mems_status_t * Z) :=
  R_field LSM6DSL_ACC_GYRO_MD1_CFG LSM6DSL_ACC_GYRO_INT1_TIMER_MASK value.
Definition LSM6DSL_ACC_GYRO_W_TiltEvOnInt1 (newValue : Z) : dev W mems_status_t :=
  W_field LSM6DSL_ACC_GYRO_MD1_CFG LSM6DSL_ACC_GYRO_INT1_TILT_MASK newValue.
Definition LSM6DSL_ACC_GYRO_R_TiltEvOnInt1 (value : Z) : dev W (mems_status_t * Z) :=
  R_field LSM6DSL_ACC_GYRO_MD1_CFG LSM6DSL_ACC_GYRO_INT1_TILT_MASK value.
Definition LSM6DSL_ACC_GYRO_W_6DEvOnInt1 (newValue : Z) : dev W mems_status_t :=
  W_field LSM6DSL_ACC_GYRO_MD1_CFG LSM6DSL_ACC_GYRO_INT1_6D_MASK newValue.
Definition LSM6DSL_ACC_GYRO_R_6DEvOnInt1 (value : Z) : dev W (mems_status_t * Z) :=
  R_field LSM6DSL_ACC_GYRO_MD1_CFG LSM6DSL_ACC_GYRO_INT1_6D_MASK value.
Definition LSM6DSL_ACC_GYRO_W_TapEvOnInt1 (newValue : Z) : dev W mems_status_t :=
  W_field LSM6DSL_ACC_GYRO_MD1_CFG LSM6DSL_ACC_GYRO_INT1_TAP_MASK newValue.
Definition LSM6DSL_ACC_GYRO_R_TapEvOnInt1 (value : Z) : dev W (mems_status_t * Z) :=
  R_field LSM6DSL_ACC_GYRO_MD1_CFG LSM6DSL_ACC_GYRO_INT1_TAP_MASK value.
Definition LSM6DSL_ACC_GYRO_W_FFEvOnInt1 (newValue : Z) : dev W mems_status_t :=
  W_field LSM6DSL_ACC_GYRO_MD1_CFG LSM6DSL_ACC_GYRO_INT1_FF_MASK newValue.
Definition LSM6DSL_ACC_GYRO_R_FFEvOnInt1 (value : Z) : dev W (mems_status_t * Z) :=
  R_field LSM6DSL_ACC_GYRO_MD1_CFG LSM6DSL_ACC_GYRO_INT1_FF_MASK value.
Definition LSM6DSL_ACC_GYRO_W_WUEvOnInt1 (newValue : Z) : dev W mems_status_t :=
  W_field LSM6DSL_ACC_GYRO_MD1_CFG LSM6DSL_ACC_GYRO_INT1_WU_MASK newValue.
Definition LSM6DSL_ACC_GYRO_R_WUEvOnInt1 (value : Z) : dev W (mems_status_t * Z) :=
  R_field LSM6DSL_ACC_GYRO_MD1_CFG LSM6DSL_ACC_GYRO_INT1_WU_MASK value.
Definition LSM6DSL_ACC_GYRO_W_SingleTapOnInt1 (newValue : Z) : dev W mems_status_t :=
  W_field LSM6DSL_ACC_GYRO_MD1_CFG LSM6DSL_ACC_GYRO_INT1_SINGLE_TAP_MASK newValue.
Definition LSM6DSL_ACC_GYRO_R_SingleTapOnInt1 (value : Z) : dev W (mems_status_t * Z) :=
  R_field LSM6DSL_ACC_GYRO_MD1_CFG LSM6DSL_ACC_GYRO_INT1_SINGLE_TAP_MASK value.
Definition LSM6DSL_ACC_GYRO_W_SleepEvOnInt1 (newValue : Z) : dev W mems_status_t :=
  W_field LSM6DSL_ACC_GYRO_MD1_CFG LSM6DSL_ACC_GYRO_INT1_SLEEP_MASK newValue.
Definition LSM6DSL_ACC_GYRO_R_SleepEvOnInt1 (value : Z) : dev W (mems_status_t * Z) :=
  R_field LSM6DSL_ACC_GYRO_MD1_CFG LSM6DSL_ACC_GYRO_INT1_SLEEP_MASK value.
Definition LSM6DSL_ACC_GYRO_W_MagCorrection_Int2 (newValue : Z) : dev W mems_status_t :=
  W_field LSM6DSL_ACC_GYRO_MD2_CFG LSM6DSL_ACC_GYRO_INT2_IRON_MASK newValue.
Definition LSM6DSL_ACC_GYRO_R_MagCorrection_Int2 (value : Z) : dev W (mems_status_t * Z) :=
  R_field LSM6DSL_ACC_GYRO_MD2_CFG LSM6DSL_ACC_GYRO_INT2_IRON_MASK value.
Definition LSM6DSL_ACC_GYRO_W_TiltEvOnInt2 (newValue : Z) : dev W mems_status_t :=
  W_field LSM6DSL_ACC_GYRO_MD2_CFG LSM6DSL_ACC_GYRO_INT2_TILT_MASK newValue.
Definition LSM6DSL_ACC_GYRO_R_TiltEvOnInt2 (value : Z) : dev W (mems_status_t * Z) :=
  R_field LSM6DSL_ACC_GYRO_MD2_CFG LSM6DSL_ACC_GYRO_INT2_TILT_MASK value.
Definition LSM6DSL_ACC_GYRO_W_6DEvOnInt2 (newValue : Z) : dev W mems_status_t :=
  W_field LSM6DSL_ACC_GYRO_MD2_CFG LSM6DSL_ACC_GYRO_INT2_6D_MASK newValue.
Definition LSM6DSL_ACC_GYRO_R_6DEvOnInt2 (value : Z) : dev W (mems_status_t * Z) :=
  R_field LSM6DSL_ACC_GYRO_MD2_CFG LSM6DSL_ACC_GYRO_INT2_6D_MASK value.
Definition LSM6DSL_ACC_GYRO_W_TapEvOnInt2 (newValue : Z) : dev W mems_status_t :=
  W_field LSM6DSL_ACC_GYRO_MD2_CFG LSM6DSL_ACC_GYRO_INT2_TAP_MASK newValue.
Definition LSM6DSL_ACC_GYRO_R_TapEvOnInt2 (value : Z) : dev W (mems_status_t * Z) :=
  R_field LSM6DSL_ACC_GYRO_MD2_CFG LSM6DSL_ACC_GYRO_INT2_TAP_MASK value.
Definition LSM6DSL_ACC_GYRO_W_FFEvOnInt2 (newValue : Z) : dev W mems_status_t :=
  W_field LSM6DSL_ACC_GYRO_MD2_CFG LSM6DSL_ACC_GYRO_INT2_FF_MASK newValue.
Definition LSM6DSL_ACC_GYRO_R_FFEvOnInt2 (value : Z) : dev W (mems_status_t * Z) :=
  R_field LSM6DSL_ACC_GYRO_MD2_CFG LSM6DSL_ACC_GYRO_INT2_FF_MASK value.
Definition LSM6DSL_ACC_GYRO_W_WUEvOnInt2 (newValue : Z) : dev W mems_status_t :=
  W_field LSM6DSL_ACC_GYRO_MD2_CFG LSM6DSL_ACC_GYRO_INT2_WU_MASK newValue.
Definition LSM6DSL_ACC_GYRO_R_WUEvOnInt2 (value : Z) : dev W (mems_status_t * Z) :=
  R_field LSM6DSL_ACC_GYRO_MD2_CFG LSM6DSL_ACC_GYRO_INT2_WU_MASK value.
Definition LSM6DSL_ACC_GYRO_W_SingleTapOnInt2 (newValue : Z) : dev W mems_status_t :=
  W_field LSM6DSL_ACC_GYRO_MD2_CFG LSM6DSL_ACC_GYRO_INT2_SINGLE_TAP_MASK newValue.
Definition LSM6DSL_ACC_GYRO_R_SingleTapOnInt2 (value : Z) : dev W (mems_status_t * Z) :=
  R_field LSM6DSL_ACC_GYRO_MD2_CFG LSM6DSL_ACC_GYRO_INT2_SINGLE_TAP_MASK value.
Definition LSM6DSL_ACC_GYRO_W_SleepEvOnInt2 (newValue : Z) : dev W mems_status_t :=
  W_field LSM6DSL_ACC_GYRO_MD2_CFG LSM6DSL_ACC_GYRO_INT2_SLEEP_MASK newValue.
Definition LSM6DSL_ACC_GYRO_R_SleepEvOnInt2 (value : Z) : dev W (mems_status_t * Z) :=
  R_field LSM6DSL_ACC_GYRO_MD2_CFG LSM6DSL_ACC_GYRO_INT2_SLEEP_MASK value.
Definition LSM6DSL_ACC_GYRO_Get_GetFIFOData (buff : list Z) (p : Z) : dev W (mems_status_t * list Z) :=
  read_bytes 2 LSM6DSL_ACC_GYRO_FIFO_DATA_OUT_L 0 buff p.
Definition LSM6DSL_ACC_GYRO_Get_GetTimestamp (buff : list Z) (p : Z) : dev W (mems_status_t * list Z) :=
  read_bytes 3 LSM6DSL_ACC_GYRO_TIMESTAMP0_REG 0 buff p.
Definition LSM6DSL_ACC_GYRO_Get_GetStepCounter (buff : list Z) (p : Z) : dev W (mems_status_t * list Z) :=
  read_bytes 2 LSM6DSL_ACC_GYRO_STEP_COUNTER_L 0 buff p.

(** Sensitivities in micro-g and in micro-dps per digit. *)
Definition LSM6DSL_ACC_Sensitivity_List : list Z := [61; 122; 244; 488].
Definition LSM6DSL_GYRO_Sensitivity_List : list Z := [4375; 8750; 17500; 35000; 70000].

(** [i16bit[i]] of the union whose bytes are [raw]. *)
Definition i16bit (raw : list Z) (i : Z) : outcome Z :=
  l ← rd raw (2 * i); h ← rd raw (2 * i + 1); Ok (s16 (l + 256 * h)).

(** [(i16bit[i] * sensitivity + 500) / 1000] for the three axes. *)
Definition scaled (raw : list Z) (sensitivity : Z) (buff : list Z) : outcome (list Z) :=
  x ← i16bit raw 0; buff ← wr buff 0 (s32 (Z.quot (x * sensitivity + 500) 1000));
  y ← i16bit raw 1; buff ← wr buff 1 (s32 (Z.quot (y * sensitivity + 500) 1000));
  z ← i16bit raw 2; wr buff 2 (s32 (Z.quot (z * sensitivity + 500) 1000)).

(** The three axes from the FIFO. *)
Definition fifo_axes (raw : list Z) : dev W (list Z) :=
  '(_, raw) ← LSM6DSL_ACC_GYRO_Get_GetFIFOData raw 0;
  '(_, raw) ← LSM6DSL_ACC_GYRO_Get_GetFIFOData raw 2;
  '(_, raw) ← LSM6DSL_ACC_GYRO_Get_GetFIFOData raw 4;
  mret raw.

(** [fs], [raw] and [fs_125] are the uninitialised locals. *)
Definition LSM6DSL_ACC_Get_Acceleration (fs : Z) (raw : list Z) (buff : list Z) (from_fifo : Z)
    : dev W (mems_status_t * list Z) :=
  '(_, fs) ← LSM6DSL_ACC_GYRO_R_FS_XL fs;
  sensitivity ← checked (switch fs
    [(LSM6DSL_ACC_GYRO_FS_XL_2g, rd LSM6DSL_ACC_Sensitivity_List 0);
     (LSM6DSL_ACC_GYRO_FS_XL_4g, rd LSM6DSL_ACC_Sensitivity_List 1);
     (LSM6DSL_ACC_GYRO_FS_XL_8g, rd LSM6DSL_ACC_Sensitivity_List 2);
     (LSM6DSL_ACC_GYRO_FS_XL_16g, rd LSM6DSL_ACC_Sensitivity_List 3)] (Ok 0));
  raw ← (if from_fifo =? 0 then '(_, raw) ← LSM6DSL_ACC_GYRO_GetRawAccData raw 0; mret raw else fifo_axes raw);
  buff ← checked (scaled raw sensitivity buff);
  mret (MEMS_SUCCESS, buff).

Definition LSM6DSL_ACC_Get_AngularRate (fs_125 fs : Z) (raw : list Z) (buff : list Z) (from_fifo : Z)
    : dev W (mems_status_t * list Z) :=
  '(_, fs_125) ← LSM6DSL_ACC_GYRO_R_FS_125 fs_125;
  sensitivity ← (if fs_125 =? LSM6DSL_ACC_GYRO_FS_125_ENABLED then checked (rd LSM6DSL_GYRO_Sensitivity_List 0) else
    '(_, fs) ← LSM6DSL_ACC_GYRO_R_FS_G fs;
    checked (switch fs
      [(LSM6DSL_ACC_GYRO_FS_G_245dps, rd LSM6DSL_GYRO_Sensitivity_List 1);
       (LSM6DSL_ACC_GYRO_FS_G_500dps, rd LSM6DSL_GYRO_Sensitivity_List 2);
       (LSM6DSL_ACC_GYRO_FS_G_1000dps, rd LSM6DSL_GYRO_Sensitivity_List 3);
       (LSM6DSL_ACC_GYRO_FS_G_2000dps, rd LSM6DSL_GYRO_Sensitivity_List 4)] (Ok 0)));
  raw ← (if from_fifo =? 0 then '(_, raw) ← LSM6DSL_ACC_GYRO_GetRawGyroData raw 0; mret raw else fifo_axes raw);
  buff ← checked (scaled raw sensitivity buff);
  mret (MEMS_SUCCESS, buff).

(** ** Embedded functions and the sensor hub *)

(** [value] is the uninitialised local. *)
Definition LSM6DSL_ACC_GYRO_W_PedoThreshold (value newValue : Z) : dev W mems_status_t :=
  _ ← LSM6DSL_ACC_GYRO_W_EmbeddedAccess LSM6DSL_ACC_GYRO_EMBEDDED_ACCESS_ENABLED;
  '(_, value) ← read_byte LSM6DSL_ACC_GYRO_CONFIG_PEDO_THS_MIN value;
  let value := u8 (Z.land value (Z.lnot 31)) in
  let value := u8 (Z.lor value (Z.land newValue 31)) in
  _ ← write_byte LSM6DSL_ACC_GYRO_CONFIG_PEDO_THS_MIN value;
  _ ← LSM6DSL_ACC_GYRO_W_EmbeddedAccess LSM6DSL_ACC_GYRO_EMBEDDED_ACCESS_DISABLED;
  mret MEMS_SUCCESS.

Definition LSM6DSL_ACC_GYRO_SH_init_SI_Matrix (SI_matrix : list Z) : dev W mems_status_t :=
  _ ← LSM6DSL_ACC_GYRO_W_EmbeddedAccess LSM6DSL_ACC_GYRO_EMBEDDED_ACCESS_ENABLED;
  _ ← LSM6DSL_ACC_GYRO_write_reg LSM6DSL_ACC_GYRO_MAG_SI_XX SI_matrix 0 9;
  _ ← LSM6DSL_ACC_GYRO_W_EmbeddedAccess LSM6DSL_ACC_GYRO_EMBEDDED_ACCESS_DISABLED;
  mret MEMS_SUCCESS.

Definition LSM6DSL_ACC_GYRO_SH0_Program (SlvAddr Reg len : Z) : dev W mems_status_t :=
  _ ← LSM6DSL_ACC_GYRO_W_EmbeddedAccess LSM6DSL_ACC_GYRO_EMBEDDED_ACCESS_ENABLED;
  let SlvAddr := u8 (Z.lor SlvAddr 1) in
  _ ← write_byte LSM6DSL_ACC_GYRO_SLV0_ADD SlvAddr;
  _ ← write_byte LSM6DSL_ACC_GYRO_SLV0_SUBADD Reg;
  let sl0_cfg := u8 (Z.land len 7) in
  _ ← write_byte LSM6DSL_ACC_GYRO_SLAVE0_CONFIG sl0_cfg;
  _ ← LSM6DSL_ACC_GYRO_W_EmbeddedAccess LSM6DSL_ACC_GYRO_EMBEDDED_ACCESS_DISABLED;
  _ ← LSM6DSL_ACC_GYRO_W_FUNC_EN LSM6DSL_ACC_GYRO_FUNC_EN_ENABLED;
  _ ← LSM6DSL_ACC_GYRO_W_I2C_MASTER_Enable LSM6DSL_ACC_GYRO_MASTER_ON_ENABLED;
  mret MEMS_SUCCESS.

(** [do { read(&v); } while (v != until);], at most [fuel] rounds. *)
Fixpoint poll (fuel : nat) (read : Z → dev W (mems_status_t * Z)) (v until : Z) : dev W Z :=
  match fuel with
  | O => checked (Ub OutOfFuel)
  | S fuel =>
    '(_, v) ← read v;
    if v =? until then mret v else poll fuel read v until
  end.

(** Waiting for the trigger and for the end of the operation. *)
Definition wait_hub (fuel : nat) : dev W () :=
  '(_, _) ← LSM6DSL_ACC_GYRO_GetRawAccData (replicate 6 0) 0;
  _ ← poll fuel LSM6DSL_ACC_GYRO_R_XLDA LSM6DSL_ACC_GYRO_XLDA_NO_DATA_AVAIL LSM6DSL_ACC_GYRO_XLDA_DATA_AVAIL;
  _ ← poll fuel LSM6DSL_ACC_GYRO_R_SENS_HUB_END LSM6DSL_ACC_GYRO_SENS_HUB_END_STILL_ONGOING
        LSM6DSL_ACC_GYRO_SENS_HUB_END_OP_COMPLETED;
  mret ().

Definition LSM6DSL_ACC_GYRO_SH0_ReadMem (fuel : nat) (SlvAddr Reg : Z) (Bufp : list Z) (len stop : Z)
    : dev W (mems_status_t * list Z) :=
  _ ← LSM6DSL_ACC_GYRO_W_ODR_XL LSM6DSL_ACC_GYRO_ODR_XL_POWER_DOWN;
  _ ← LSM6DSL_ACC_GYRO_SH0_Program SlvAddr Reg len;
  _ ← LSM6DSL_ACC_GYRO_W_ODR_XL LSM6DSL_ACC_GYRO_ODR_XL_104Hz;
  _ ← wait_hub fuel;
  '(_, Bufp) ← LSM6DSL_ACC_GYRO_read_reg LSM6DSL_ACC_GYRO_SENSORHUB1_REG Bufp 0 len;
  _ ← LSM6DSL_ACC_GYRO_W_ODR_XL LSM6DSL_ACC_GYRO_ODR_XL_POWER_DOWN;
  _ ← (if negb (stop =? 0) then
         _ ← LSM6DSL_ACC_GYRO_W_FUNC_EN LSM6DSL_ACC_GYRO_FUNC_EN_DISABLED;
         LSM6DSL_ACC_GYRO_W_I2C_MASTER_Enable LSM6DSL_ACC_GYRO_MASTER_ON_DISABLED
       else mret MEMS_SUCCESS);
  mret (MEMS_SUCCESS, Bufp).

Definition LSM6DSL_ACC_GYRO_SH0_WriteByte (fuel : nat) (SlvAddr Reg Bufp : Z) : dev W mems_status_t :=
  _ ← LSM6DSL_ACC_GYRO_W_EmbeddedAccess LSM6DSL_ACC_GYRO_EMBEDDED_ACCESS_ENABLED;
  _ ← write_byte LSM6DSL_ACC_GYRO_SLV0_ADD SlvAddr;
  _ ← write_byte LSM6DSL_ACC_GYRO_SLV0_SUBADD Reg;
  _ ← write_byte LSM6DSL_ACC_GYRO_DATAWRITE_SRC_MODE_SUB_SLV0 Bufp;
  _ ← LSM6DSL_ACC_GYRO_W_EmbeddedAccess LSM6DSL_ACC_GYRO_EMBEDDED_ACCESS_DISABLED;
  _ ← LSM6DSL_ACC_GYRO_W_FUNC_EN LSM6DSL_ACC_GYRO_FUNC_EN_ENABLED;
  _ ← LSM6DSL_ACC_GYRO_W_I2C_MASTER_Enable LSM6DSL_ACC_GYRO_MASTER_ON_ENABLED;
  _ ← LSM6DSL_ACC_GYRO_W_ODR_XL LSM6DSL_ACC_GYRO_ODR_XL_104Hz;
  _ ← wait_hub fuel;
  _ ← LSM6DSL_ACC_GYRO_W_ODR_XL LSM6DSL_ACC_GYRO_ODR_XL_POWER_DOWN;
  _ ← LSM6DSL_ACC_GYRO_W_FUNC_EN LSM6DSL_ACC_GYRO_FUNC_EN_DISABLED;
  _ ← LSM6DSL_ACC_GYRO_W_I2C_MASTER_Enable LSM6DSL_ACC_GYRO_MASTER_ON_DISABLED;
  mret MEMS_SUCCESS.
End driver.
