(* ===== verification/Lsm6dslSpec.v ===== *)
(** The driver of the LSM6DSL: what its functions do on a device whose registers
    keep their values, and on any bus. *)
From S2P Require Export Lsm6dsl Words.

(** With bit 7 of FUNC_CFG_ACCESS set, every other address reaches the registers
    of the embedded functions. *)
Definition lsm_place (c : Z → Z) (r : Z) : Z :=
  if r =? LSM6DSL_ACC_GYRO_FUNC_CFG_ACCESS then r
  else if Z.testbit (c LSM6DSL_ACC_GYRO_FUNC_CFG_ACCESS) 7 then 256 + r else r.

Lemma lsm_place_ext c c' r : c' LSM6DSL_ACC_GYRO_FUNC_CFG_ACCESS = c LSM6DSL_ACC_GYRO_FUNC_CFG_ACCESS → lsm_place c' r = lsm_place c r.
Proof. intros E. unfold lsm_place. by rewrite E. Qed.

Lemma land_set_byte x b mask : is_u8 mask → Z.land (set_byte x b) mask = Z.land b mask.
Proof.
  intros Hm. apply Z.bits_inj'. intros i Hi. unfold set_byte. rewrite !Z.land_spec, Z.lor_spec, Z.land_spec, Z.lnot_spec by done.
  destruct (decide (i < 8)) as [H8|H8].
  - change 255 with (Z.ones 8). rewrite Z.ones_spec_low by lia. by rewrite andb_false_r.
  - rewrite (proj1 (Z.bounded_iff_bits_nonneg 8 mask ltac:(lia) ltac:(unfold is_u8 in Hm; lia)) ltac:(unfold is_u8 in Hm; lia) i) by lia.
    by rewrite !andb_false_r.
Qed.

Section spec.
Context {W : Type} `{Bus W} (stored : Z → Prop) `{!Registers lsm_place stored}.
Context (Hs1 : stored LSM6DSL_ACC_GYRO_FUNC_CFG_ACCESS).
Implicit Types (w : W) (r a v mask : Z).

(** The cell an address reaches. *)
Definition at_reg w r : Z := lsm_place (cell w) r.

Lemma at_reg_same w w' r : same_cells w w' → at_reg w' r = at_reg w r.
Proof using Hs1. intros Hs. by apply lsm_place_ext, Hs. Qed.

Lemma at_reg_1 w : at_reg w LSM6DSL_ACC_GYRO_FUNC_CFG_ACCESS = LSM6DSL_ACC_GYRO_FUNC_CFG_ACCESS.
Proof using. done. Qed.

Lemma at_reg_not_1 w r : is_u8 r → r ≠ LSM6DSL_ACC_GYRO_FUNC_CFG_ACCESS → at_reg w r ≠ LSM6DSL_ACC_GYRO_FUNC_CFG_ACCESS.
Proof using.
  unfold is_u8, at_reg, lsm_place, LSM6DSL_ACC_GYRO_FUNC_CFG_ACCESS. intros Hr Hn. rewrite (proj2 (Z.eqb_neq r 1)) by done.
  destruct (Z.testbit _ 7); lia.
Qed.

(** Writing a register does not move it. *)
Lemma at_reg_written w w' r : is_u8 r → unchanged (at_reg w r) w w' → at_reg w' r = at_reg w r.
Proof using Hs1.
  intros Hr Hu. destruct (decide (r = LSM6DSL_ACC_GYRO_FUNC_CFG_ACCESS)) as [->|Hn]; [done|].
  pose proof (at_reg_not_1 w r Hr Hn) as Ha.
  apply lsm_place_ext, (Hu _ Hs1). congruence.
Qed.

(** ** Access to the registers *)
Lemma dwp_read_reg r m p n w (Q : mems_status_t * list Z → W → Prop) : is_u8 r → bytes m → 0 ≤ p → 0 ≤ n → p + n ≤ zlen m →
  (∀ st bs w', zlen bs = n → bytes bs → same_cells w w' →
     (st = MEMS_SUCCESS → ∀ i, 0 ≤ i < n → bs !! Z.to_nat i = Some (cell w (at_reg w (r + i)))) →
     (reliable W → st = MEMS_SUCCESS) → Q (st, splice m p bs) w') →
  dwp (LSM6DSL_ACC_GYRO_read_reg r m p n) Q w.
Proof using.
  intros Hr Hm Hp Hn Hl HQ. unfold LSM6DSL_ACC_GYRO_read_reg. eapply dwp_checked; [by apply rd_bytes_field|].
  rewrite u8_id by done. apply dwp_bind. unfold dwp at 1, bus_read.
  destruct (io_read r (field m p n) n w) as [[rc bs] w'] eqn:E.
  destruct (read_law _ _ _ _ _ _ _ E) as (Hz & Hb & Hs & Hv); [by apply zlen_field|by apply field_bytes|].
  eapply dwp_checked; [apply wr_bytes_ok; lia|]. apply dwp_ret.
  assert (reliable W → rc = 0) as Hrel by (intros Hrel; specialize (Hrel r (field m p n) n w); by rewrite E in Hrel).
  destruct (Z.eqb_spec rc 0) as [->|]; apply HQ; try done; [by intros _; apply Hv|by intros Hr0%Hrel].
Qed.

Lemma dwp_read_byte r v w (Q : mems_status_t * Z → W → Prop) : is_u8 r → is_u8 v →
  (∀ st b w', is_u8 b → same_cells w w' → (st = MEMS_SUCCESS → b = cell w (at_reg w r)) →
     (reliable W → st = MEMS_SUCCESS) → Q (st, b) w') →
  dwp (read_byte r v) Q w.
Proof using.
  intros Hr Hv HQ. unfold read_byte. apply dwp_bind. apply dwp_read_reg; [done|by constructor|done..|].
  intros st [|b [|]] w' Hz Hb Hs Hc Hrel; try (exfalso; unfold zlen in Hz; cbn in Hz; lia).
  eapply dwp_checked; [done|]. apply HQ; [by inversion Hb|done| |done]. intros ->.
  specialize (Hc eq_refl 0 ltac:(lia)). rewrite Z.add_0_r in Hc. by inversion Hc.
Qed.

Lemma dwp_write_byte r v w (Q : mems_status_t → W → Prop) : is_u8 r → is_u8 v →
  (∀ st w', unchanged (at_reg w r) w w' → (st = MEMS_SUCCESS → stored (at_reg w r) → cell w' (at_reg w r) = v) → Q st w') →
  dwp (write_byte r v) Q w.
Proof using.
  intros Hr Hv HQ. unfold write_byte, LSM6DSL_ACC_GYRO_write_reg. eapply (dwp_checked _ [v]); [done|].
  rewrite u8_id by done. apply dwp_bind. unfold dwp at 1, bus_write.
  destruct (io_write r [v] w) as [rc w'] eqn:E.
  destruct (write_law _ _ _ _ _ E) as [Ho Hc]; [by constructor|]. cbn beta iota. apply dwp_ret.
  assert (unchanged (at_reg w r) w w').
  { intros b Hb Hn. apply Ho; [done|]. intros (i & Hi & ->). apply Hn. unfold zlen in Hi. cbn in Hi.
    unfold at_reg. do 2 f_equal. lia. }
  destruct (Z.eqb_spec rc 0) as [->|]; apply HQ; try done. intros _ Hst.
  specialize (Hc eq_refl 0 v eq_refl ltac:(lia)). rewrite Z.add_0_r in Hc. by apply Hc.
Qed.

(** ** The fields *)
Lemma dwp_W_field r mask v w (Q : mems_status_t → W → Prop) : is_u8 r → is_u8 v →
  (∀ st w', unchanged (at_reg w r) w w' →
     (st = MEMS_SUCCESS → stored (at_reg w r) → cell w' (at_reg w r) = set_bits mask v (cell w (at_reg w r))) → Q st w') →
  dwp (W_field r mask v) Q w.
Proof using Hs1.
  intros Hr Hv HQ. unfold W_field. apply dwp_bind. apply dwp_read_byte; [done|done|].
  intros [] b w1 Hb Hs Hc _; cbn -[Z.land Z.lor Z.lnot]; [|apply dwp_ret, HQ; [by apply same_unchanged|done]].
  rewrite (Hc eq_refl) in *. clear Hc. rewrite (u8_id (Z.land _ _)) by (by apply land_lnot_byte).
  rewrite u8_id by (by apply set_bits_byte).
  pose proof (at_reg_same w w1 r Hs) as Ha.
  apply dwp_bind. apply dwp_write_byte; [done|by apply set_bits_byte|]. rewrite Ha. intros st w2 Hu Hc.
  assert (unchanged (at_reg w r) w w2) by (eapply unchanged_trans; [by apply same_unchanged|done]).
  destruct st; cbn; apply dwp_ret, HQ; auto; done.
Qed.

Lemma dwp_R_field r mask v w (Q : mems_status_t * Z → W → Prop) : is_u8 r → is_u8 mask →
  (∀ st v' w', same_cells w w' → (st = MEMS_SUCCESS → v' = Z.land (cell w (at_reg w r)) mask) →
     (reliable W → st = MEMS_SUCCESS) → Q (st, v') w') →
  dwp (R_field r mask v) Q w.
Proof using.
  intros Hr Hm HQ. unfold R_field. apply dwp_bind. apply dwp_read_byte; [done|by apply u8_range|].
  intros [] b w1 Hb Hs Hc Hrel; cbn -[Z.land Z.lor Z.lnot set_byte]; apply dwp_ret, HQ; try done. intros _.
  by rewrite land_set_byte, (Hc eq_refl).
Qed.

Lemma dwp_W_shifted r p mask v w (Q : mems_status_t → W → Prop) : is_u8 r → is_u8 mask →
  (∀ st w', unchanged (at_reg w r) w w' →
     (st = MEMS_SUCCESS → stored (at_reg w r) →
      cell w' (at_reg w r) = set_bits mask (Z.land (u8 (Z.shiftl v p)) mask) (cell w (at_reg w r))) → Q st w') →
  dwp (W_shifted r p mask v) Q w.
Proof using Hs1.
  intros Hr Hm HQ. unfold W_shifted. apply dwp_W_field; [done| |done]. by apply (land_range 8).
Qed.

Lemma dwp_R_shifted r p mask v w (Q : mems_status_t * Z → W → Prop) : is_u8 r → is_u8 v →
  (∀ st v' w', same_cells w w' → (st = MEMS_SUCCESS → v' = Z.shiftr (Z.land (cell w (at_reg w r)) mask) p) → Q (st, v') w') →
  dwp (R_shifted r p mask v) Q w.
Proof using.
  intros Hr Hv HQ. unfold R_shifted. apply dwp_bind. apply dwp_read_byte; [done|done|].
  intros [] b w1 Hb Hs Hc _; cbn -[Z.land Z.shiftr]; apply dwp_ret, HQ; try done. intros _. by rewrite (Hc eq_refl).
Qed.

Lemma dwp_R_two rl pl ml rh ph mh join v w (Q : mems_status_t * Z → W → Prop) : is_u8 rl → is_u8 rh →
  (∀ st v' w', same_cells w w' →
     (st = MEMS_SUCCESS → v' = join (Z.shiftr (Z.land (cell w (at_reg w rh)) mh) ph) (Z.shiftr (Z.land (cell w (at_reg w rl)) ml) pl)) →
     stored (at_reg w rh) → Q (st, v') w') →
  stored (at_reg w rh) → dwp (R_two rl pl ml rh ph mh join v) Q w.
Proof using Hs1.
  intros Hl Hh HQ Hst. unfold R_two. apply dwp_bind, dwp_R_shifted; [done..|].
  intros [] lo w1 Hs Hc; cbn -[R_shifted]; [|by apply dwp_ret, HQ]. rewrite (Hc eq_refl). clear Hc.
  apply dwp_bind, dwp_R_shifted; [done..|]. rewrite (at_reg_same w w1 rh Hs), (Hs _ Hst).
  intros [] hi w2 Hs2 Hc; cbn; apply dwp_ret, HQ; try done; try (by eapply same_cells_trans).
  intros _. by rewrite (Hc eq_refl).
Qed.

(** Writing with [f] and reading with [g] gives [v]: the write touches only the
    registers [rs], and if neither it nor the read fails, the read returns [v]. *)
Definition restores (rs : list Z) (f : dev W mems_status_t) (g : dev W (mems_status_t * Z)) v w : Prop :=
  dwp f (λ st w', (∀ b, stored b → b ∉ at_reg w <$> rs → cell w' b = cell w b) ∧
    (st = MEMS_SUCCESS → dwp g (λ res w'', same_cells w' w'' ∧ (res.1 = MEMS_SUCCESS → res.2 = v)) w')) w.

(** ** The functions of the driver *)

(** A field of a register: the functions that write and read it and the values
    its type has. *)
Record accessor := {
  acc_W : Z → dev W mems_status_t; acc_R : Z → dev W (mems_status_t * Z);
  acc_reg : Z; acc_mask : Z; acc_values : list Z }.

Definition accessors : list accessor := [
  {| acc_W := LSM6DSL_ACC_GYRO_W_BDU; acc_R := LSM6DSL_ACC_GYRO_R_BDU;
     acc_reg := LSM6DSL_ACC_GYRO_CTRL3_C; acc_mask := LSM6DSL_ACC_GYRO_BDU_MASK; acc_values := LSM6DSL_ACC_GYRO_BDU_t |};
  {| acc_W := LSM6DSL_ACC_GYRO_W_FS_XL; acc_R := LSM6DSL_ACC_GYRO_R_FS_XL;
     acc_reg := LSM6DSL_ACC_GYRO_CTRL1_XL; acc_mask := LSM6DSL_ACC_GYRO_FS_XL_MASK; acc_values := LSM6DSL_ACC_GYRO_FS_XL_t |};
  {| acc_W := LSM6DSL_ACC_GYRO_W_ODR_XL; acc_R := LSM6DSL_ACC_GYRO_R_ODR_XL;
     acc_reg := LSM6DSL_ACC_GYRO_CTRL1_XL; acc_mask := LSM6DSL_ACC_GYRO_ODR_XL_MASK; acc_values := LSM6DSL_ACC_GYRO_ODR_XL_t |};
  {| acc_W := LSM6DSL_ACC_GYRO_W_FS_G; acc_R := LSM6DSL_ACC_GYRO_R_FS_G;
     acc_reg := LSM6DSL_ACC_GYRO_CTRL2_G; acc_mask := LSM6DSL_ACC_GYRO_FS_G_MASK; acc_values := LSM6DSL_ACC_GYRO_FS_G_t |};
  {| acc_W := LSM6DSL_ACC_GYRO_W_ODR_G; acc_R := LSM6DSL_ACC_GYRO_R_ODR_G;
     acc_reg := LSM6DSL_ACC_GYRO_CTRL2_G; acc_mask := LSM6DSL_ACC_GYRO_ODR_G_MASK; acc_values := LSM6DSL_ACC_GYRO_ODR_G_t |};
  {| acc_W := LSM6DSL_ACC_GYRO_W_FS_125; acc_R := LSM6DSL_ACC_GYRO_R_FS_125;
     acc_reg := LSM6DSL_ACC_GYRO_CTRL2_G; acc_mask := LSM6DSL_ACC_GYRO_FS_125_MASK; acc_values := LSM6DSL_ACC_GYRO_FS_125_t |};
  {| acc_W := LSM6DSL_ACC_GYRO_W_BW_SEL; acc_R := LSM6DSL_ACC_GYRO_R_BW_SEL;
     acc_reg := LSM6DSL_ACC_GYRO_CTRL1_XL; acc_mask := LSM6DSL_ACC_GYRO_BW_SEL_MASK; acc_values := LSM6DSL_ACC_GYRO_BW_SEL_t |};
  {| acc_W := LSM6DSL_ACC_GYRO_W_BLE; acc_R := LSM6DSL_ACC_GYRO_R_BLE;
     acc_reg := LSM6DSL_ACC_GYRO_CTRL3_C; acc_mask := LSM6DSL_ACC_GYRO_BLE_MASK; acc_values := LSM6DSL_ACC_GYRO_BLE_t |};
  {| acc_W := LSM6DSL_ACC_GYRO_W_EmbeddedAccess; acc_R := LSM6DSL_ACC_GYRO_R_EmbeddedAccess;
     acc_reg := LSM6DSL_ACC_GYRO_FUNC_CFG_ACCESS; acc_mask := LSM6DSL_ACC_GYRO_EMB_ACC_MASK; acc_values := LSM6DSL_ACC_GYRO_EMB_ACC_t |};
  {| acc_W := LSM6DSL_ACC_GYRO_W_SYNC_RES_RATIO; acc_R := LSM6DSL_ACC_GYRO_R_SYNC_RES_RATIO;
     acc_reg := LSM6DSL_ACC_GYRO_SENSOR_RES_RATIO; acc_mask := LSM6DSL_ACC_GYRO_SYNC_RES_RATIO_MASK; acc_values := LSM6DSL_ACC_GYRO_SYNC_RES_RATIO_t |};
  {| acc_W := LSM6DSL_ACC_GYRO_W_FIFO_TEMP; acc_R := LSM6DSL_ACC_GYRO_R_FIFO_TEMP;
     acc_reg := LSM6DSL_ACC_GYRO_FIFO_CTRL2; acc_mask := LSM6DSL_ACC_GYRO_FIFO_TEMP_MASK; acc_values := LSM6DSL_ACC_GYRO_FIFO_TEMP_t |};
  {| acc_W := LSM6DSL_ACC_GYRO_W_TIM_PEDO_FIFO_Write_En; acc_R := LSM6DSL_ACC_GYRO_R_TIM_PEDO_FIFO_Write_En;
     acc_reg := LSM6DSL_ACC_GYRO_FIFO_CTRL2; acc_mask := LSM6DSL_ACC_GYRO_TIM_PEDO_FIFO_DRDY_MASK; acc_values := LSM6DSL_ACC_GYRO_TIM_PEDO_FIFO_DRDY_t |};
  {| acc_W := LSM6DSL_ACC_GYRO_W_TIM_PEDO_FIFO_En; acc_R := LSM6DSL_ACC_GYRO_R_TIM_PEDO_FIFO_En;
     acc_reg := LSM6DSL_ACC_GYRO_FIFO_CTRL2; acc_mask := LSM6DSL_ACC_GYRO_TIM_PEDO_FIFO_EN_MASK; acc_values := LSM6DSL_ACC_GYRO_TIM_PEDO_FIFO_EN_t |};
  {| acc_W := LSM6DSL_ACC_GYRO_W_DEC_FIFO_XL; acc_R := LSM6DSL_ACC_GYRO_R_DEC_FIFO_XL;
     acc_reg := LSM6DSL_ACC_GYRO_FIFO_CTRL3; acc_mask := LSM6DSL_ACC_GYRO_DEC_FIFO_XL_MASK; acc_values := LSM6DSL_ACC_GYRO_DEC_FIFO_XL_t |};
  {| acc_W := LSM6DSL_ACC_GYRO_W_DEC_FIFO_G; acc_R := LSM6DSL_ACC_GYRO_R_DEC_FIFO_G;
     acc_reg := LSM6DSL_ACC_GYRO_FIFO_CTRL3; acc_mask := LSM6DSL_ACC_GYRO_DEC_FIFO_G_MASK; acc_values := LSM6DSL_ACC_GYRO_DEC_FIFO_G_t |};
  {| acc_W := LSM6DSL_ACC_GYRO_W_DEC_FIFO_DS3; acc_R := LSM6DSL_ACC_GYRO_R_DEC_FIFO_DS3;
     acc_reg := LSM6DSL_ACC_GYRO_FIFO_CTRL4; acc_mask := LSM6DSL_ACC_GYRO_DEC_FIFO_DS3_MASK; acc_values := LSM6DSL_ACC_GYRO_DEC_FIFO_DS3_t |};
  {| acc_W := LSM6DSL_ACC_GYRO_W_DEC_FIFO_DS4; acc_R := LSM6DSL_ACC_GYRO_R_DEC_FIFO_DS4;
     acc_reg := LSM6DSL_ACC_GYRO_FIFO_CTRL4; acc_mask := LSM6DSL_ACC_GYRO_DEC_FIFO_DS4_MASK; acc_values := LSM6DSL_ACC_GYRO_DEC_FIFO_DS4_t |};
  {| acc_W := LSM6DSL_ACC_GYRO_W_HI_DATA_ONLY; acc_R := LSM6DSL_ACC_GYRO_R_HI_DATA_ONLY;
     acc_reg := LSM6DSL_ACC_GYRO_FIFO_CTRL4; acc_mask := LSM6DSL_ACC_GYRO_HI_DATA_ONLY_MASK; acc_values := LSM6DSL_ACC_GYRO_HI_DATA_ONLY_t |};
  {| acc_W := LSM6DSL_ACC_GYRO_W_STOP_ON_FTH; acc_R := LSM6DSL_ACC_GYRO_R_STOP_ON_FTH;
     acc_reg := LSM6DSL_ACC_GYRO_FIFO_CTRL4; acc_mask := LSM6DSL_ACC_GYRO_STOP_ON_FTH_MASK; acc_values := LSM6DSL_ACC_GYRO_STOP_ON_FTH_t |};
  {| acc_W := LSM6DSL_ACC_GYRO_W_FIFO_MODE; acc_R := LSM6DSL_ACC_GYRO_R_FIFO_MODE;
     acc_reg := LSM6DSL_ACC_GYRO_FIFO_CTRL5; acc_mask := LSM6DSL_ACC_GYRO_FIFO_MODE_MASK; acc_values := LSM6DSL_ACC_GYRO_FIFO_MODE_t |};
  {| acc_W := LSM6DSL_ACC_GYRO_W_ODR_FIFO; acc_R := LSM6DSL_ACC_GYRO_R_ODR_FIFO;
     acc_reg := LSM6DSL_ACC_GYRO_FIFO_CTRL5; acc_mask := LSM6DSL_ACC_GYRO_ODR_FIFO_MASK; acc_values := LSM6DSL_ACC_GYRO_ODR_FIFO_t |};
  {| acc_W := LSM6DSL_ACC_GYRO_W_DRDY_PULSE; acc_R := LSM6DSL_ACC_GYRO_R_DRDY_PULSE;
     acc_reg := LSM6DSL_ACC_GYRO_DRDY_PULSE_CFG_G; acc_mask := LSM6DSL_ACC_GYRO_DRDY_PULSE_MASK; acc_values := LSM6DSL_ACC_GYRO_DRDY_PULSE_t |};
  {| acc_W := LSM6DSL_ACC_GYRO_W_DRDY_XL_on_INT1; acc_R := LSM6DSL_ACC_GYRO_R_DRDY_XL_on_INT1;
     acc_reg := LSM6DSL_ACC_GYRO_INT1_CTRL; acc_mask := LSM6DSL_ACC_GYRO_INT1_DRDY_XL_MASK; acc_values := LSM6DSL_ACC_GYRO_INT1_DRDY_XL_t |};
  {| acc_W := LSM6DSL_ACC_GYRO_W_DRDY_G_on_INT1; acc_R := LSM6DSL_ACC_GYRO_R_DRDY_G_on_INT1;
     acc_reg := LSM6DSL_ACC_GYRO_INT1_CTRL; acc_mask := LSM6DSL_ACC_GYRO_INT1_DRDY_G_MASK; acc_values := LSM6DSL_ACC_GYRO_INT1_DRDY_G_t |};
  {| acc_W := LSM6DSL_ACC_GYRO_W_BOOT_on_INT1; acc_R := LSM6DSL_ACC_GYRO_R_BOOT_on_INT1;
     acc_reg := LSM6DSL_ACC_GYRO_INT1_CTRL; acc_mask := LSM6DSL_ACC_GYRO_INT1_BOOT_MASK; acc_values := LSM6DSL_ACC_GYRO_INT1_BOOT_t |};
  {| acc_W := LSM6DSL_ACC_GYRO_W_FIFO_TSHLD_on_INT1; acc_R := LSM6DSL_ACC_GYRO_R_FIFO_TSHLD_on_INT1;
     acc_reg := LSM6DSL_ACC_GYRO_INT1_CTRL; acc_mask := LSM6DSL_ACC_GYRO_INT1_FTH_MASK; acc_values := LSM6DSL_ACC_GYRO_INT1_FTH_t |};
  {| acc_W := LSM6DSL_ACC_GYRO_W_OVERRUN_on_INT1; acc_R := LSM6DSL_ACC_GYRO_R_OVERRUN_on_INT1;
     acc_reg := LSM6DSL_ACC_GYRO_INT1_CTRL; acc_mask := LSM6DSL_ACC_GYRO_INT1_OVR_MASK; acc_values := LSM6DSL_ACC_GYRO_INT1_OVR_t |};
  {| acc_W := LSM6DSL_ACC_GYRO_W_FULL_FLAG_on_INT1; acc_R := LSM6DSL_ACC_GYRO_R_FULL_FLAG_on_INT1;
     acc_reg := LSM6DSL_ACC_GYRO_INT1_CTRL; acc_mask := LSM6DSL_ACC_GYRO_INT1_FULL_FLAG_MASK; acc_values := LSM6DSL_ACC_GYRO_INT1_FULL_FLAG_t |};
  {| acc_W := LSM6DSL_ACC_GYRO_W_SIGN_MOT_on_INT1; acc_R := LSM6DSL_ACC_GYRO_R_SIGN_MOT_on_INT1;
     acc_reg := LSM6DSL_ACC_GYRO_INT1_CTRL; acc_mask := LSM6DSL_ACC_GYRO_INT1_SIGN_MOT_MASK; acc_values := LSM6DSL_ACC_GYRO_INT1_SIGN_MOT_t |};
  {| acc_W := LSM6DSL_ACC_GYRO_W_STEP_DET_on_INT1; acc_R := LSM6DSL_ACC_GYRO_R_STEP_DET_on_INT1;
     acc_reg := LSM6DSL_ACC_GYRO_INT1_CTRL; acc_mask := LSM6DSL_ACC_GYRO_INT1_PEDO_MASK; acc_values := LSM6DSL_ACC_GYRO_INT1_PEDO_t |};
  {| acc_W := LSM6DSL_ACC_GYRO_W_DRDY_XL_on_INT2; acc_R := LSM6DSL_ACC_GYRO_R_DRDY_XL_on_INT2;
     acc_reg := LSM6DSL_ACC_GYRO_INT2_CTRL; acc_mask := LSM6DSL_ACC_GYRO_INT2_DRDY_XL_MASK; acc_values := LSM6DSL_ACC_GYRO_INT2_DRDY_XL_t |};
  {| acc_W := LSM6DSL_ACC_GYRO_W_DRDY_G_on_INT2; acc_R := LSM6DSL_ACC_GYRO_R_DRDY_G_on_INT2;
     acc_reg := LSM6DSL_ACC_GYRO_INT2_CTRL; acc_mask := LSM6DSL_ACC_GYRO_INT2_DRDY_G_MASK; acc_values := LSM6DSL_ACC_GYRO_INT2_DRDY_G_t |};
  {| acc_W := LSM6DSL_ACC_GYRO_W_DRDY_TEMP_on_INT2; acc_R := LSM6DSL_ACC_GYRO_R_DRDY_TEMP_on_INT2;
     acc_reg := LSM6DSL_ACC_GYRO_INT2_CTRL; acc_mask := LSM6DSL_ACC_GYRO_INT2_DRDY_TEMP_MASK; acc_values := LSM6DSL_ACC_GYRO_INT2_DRDY_TEMP_t |};
  {| acc_W := LSM6DSL_ACC_GYRO_W_FIFO_TSHLD_on_INT2; acc_R := LSM6DSL_ACC_GYRO_R_FIFO_TSHLD_on_INT2;
     acc_reg := LSM6DSL_ACC_GYRO_INT2_CTRL; acc_mask := LSM6DSL_ACC_GYRO_INT2_FTH_MASK; acc_values := LSM6DSL_ACC_GYRO_INT2_FTH_t |};
  {| acc_W := LSM6DSL_ACC_GYRO_W_OVERRUN_on_INT2; acc_R := LSM6DSL_ACC_GYRO_R_OVERRUN_on_INT2;
     acc_reg := LSM6DSL_ACC_GYRO_INT2_CTRL; acc_mask := LSM6DSL_ACC_GYRO_INT2_OVR_MASK; acc_values := LSM6DSL_ACC_GYRO_INT2_OVR_t |};
  {| acc_W := LSM6DSL_ACC_GYRO_W_FULL_FLAG_on_INT2; acc_R := LSM6DSL_ACC_GYRO_R_FULL_FLAG_on_INT2;
     acc_reg := LSM6DSL_ACC_GYRO_INT2_CTRL; acc_mask := LSM6DSL_ACC_GYRO_INT2_FULL_FLAG_MASK; acc_values := LSM6DSL_ACC_GYRO_INT2_FULL_FLAG_t |};
  {| acc_W := LSM6DSL_ACC_GYRO_W_STEP_COUNT_OV_on_INT2; acc_R := LSM6DSL_ACC_GYRO_R_STEP_COUNT_OV_on_INT2;
     acc_reg := LSM6DSL_ACC_GYRO_INT2_CTRL; acc_mask := LSM6DSL_ACC_GYRO_INT2_STEP_COUNT_OV_MASK; acc_values := LSM6DSL_ACC_GYRO_INT2_STEP_COUNT_OV_t |};
  {| acc_W := LSM6DSL_ACC_GYRO_W_STEP_DELTA_on_INT2; acc_R := LSM6DSL_ACC_GYRO_R_STEP_DELTA_on_INT2;
     acc_reg := LSM6DSL_ACC_GYRO_INT2_CTRL; acc_mask := LSM6DSL_ACC_GYRO_INT2_STEP_DELTA_MASK; acc_values := LSM6DSL_ACC_GYRO_INT2_STEP_DELTA_t |};
  {| acc_W := LSM6DSL_ACC_GYRO_W_SW_RESET; acc_R := LSM6DSL_ACC_GYRO_R_SW_RESET;
     acc_reg := LSM6DSL_ACC_GYRO_CTRL3_C; acc_mask := LSM6DSL_ACC_GYRO_SW_RESET_MASK; acc_values := LSM6DSL_ACC_GYRO_SW_RESET_t |};
  {| acc_W := LSM6DSL_ACC_GYRO_W_IF_Addr_Incr; acc_R := LSM6DSL_ACC_GYRO_R_IF_Addr_Incr;
     acc_reg := LSM6DSL_ACC_GYRO_CTRL3_C; acc_mask := LSM6DSL_ACC_GYRO_IF_INC_MASK; acc_values := LSM6DSL_ACC_GYRO_IF_INC_t |};
  {| acc_W := LSM6DSL_ACC_GYRO_W_SPI_Mode; acc_R := LSM6DSL_ACC_GYRO_R_SPI_Mode;
     acc_reg := LSM6DSL_ACC_GYRO_CTRL3_C; acc_mask := LSM6DSL_ACC_GYRO_SIM_MASK; acc_values := LSM6DSL_ACC_GYRO_SIM_t |};
  {| acc_W := LSM6DSL_ACC_GYRO_W_PadSel; acc_R := LSM6DSL_ACC_GYRO_R_PadSel;
     acc_reg := LSM6DSL_ACC_GYRO_CTRL3_C; acc_mask := LSM6DSL_ACC_GYRO_PP_OD_MASK; acc_values := LSM6DSL_ACC_GYRO_PP_OD_t |};
  {| acc_W := LSM6DSL_ACC_GYRO_W_INT_ACT_LEVEL; acc_R := LSM6DSL_ACC_GYRO_R_INT_ACT_LEVEL;
     acc_reg := LSM6DSL_ACC_GYRO_CTRL3_C; acc_mask := LSM6DSL_ACC_GYRO_INT_ACT_LEVEL_MASK; acc_values := LSM6DSL_ACC_GYRO_INT_ACT_LEVEL_t |};
  {| acc_W := LSM6DSL_ACC_GYRO_W_BOOT; acc_R := LSM6DSL_ACC_GYRO_R_BOOT;
     acc_reg := LSM6DSL_ACC_GYRO_CTRL3_C; acc_mask := LSM6DSL_ACC_GYRO_BOOT_MASK; acc_values := LSM6DSL_ACC_GYRO_BOOT_t |};
  {| acc_W := LSM6DSL_ACC_GYRO_W_LPF1_SEL_G; acc_R := LSM6DSL_ACC_GYRO_R_LPF1_SEL_G;
     acc_reg := LSM6DSL_ACC_GYRO_CTRL4_C; acc_mask := LSM6DSL_ACC_GYRO_LPF1_SEL_G_MASK; acc_values := LSM6DSL_ACC_GYRO_LPF1_SEL_G_t |};
  {| acc_W := LSM6DSL_ACC_GYRO_W_I2C_DISABLE; acc_R := LSM6DSL_ACC_GYRO_R_I2C_DISABLE;
     acc_reg := LSM6DSL_ACC_GYRO_CTRL4_C; acc_mask := LSM6DSL_ACC_GYRO_I2C_DISABLE_MASK; acc_values := LSM6DSL_ACC_GYRO_I2C_DISABLE_t |};
  {| acc_W := LSM6DSL_ACC_GYRO_W_DRDY_MSK; acc_R := LSM6DSL_ACC_GYRO_R_DRDY_MSK;
     acc_reg := LSM6DSL_ACC_GYRO_CTRL4_C; acc_mask := LSM6DSL_ACC_GYRO_DRDY_MSK_MASK; acc_values := LSM6DSL_ACC_GYRO_DRDY_MSK_t |};
  {| acc_W := LSM6DSL_ACC_GYRO_W_INT2_ON_INT1; acc_R := LSM6DSL_ACC_GYRO_R_INT2_ON_INT1;
     acc_reg := LSM6DSL_ACC_GYRO_CTRL4_C; acc_mask := LSM6DSL_ACC_GYRO_INT2_ON_INT1_MASK; acc_values := LSM6DSL_ACC_GYRO_INT2_ON_INT1_t |};
  {| acc_W := LSM6DSL_ACC_GYRO_W_SleepMode_G; acc_R := LSM6DSL_ACC_GYRO_R_SleepMode_G;
     acc_reg := LSM6DSL_ACC_GYRO_CTRL4_C; acc_mask := LSM6DSL_ACC_GYRO_SLEEP_G_MASK; acc_values := LSM6DSL_ACC_GYRO_SLEEP_G_t |};
  {| acc_W := LSM6DSL_ACC_GYRO_W_SelfTest_XL; acc_R := LSM6DSL_ACC_GYRO_R_SelfTest_XL;
     acc_reg := LSM6DSL_ACC_GYRO_CTRL5_C; acc_mask := LSM6DSL_ACC_GYRO_ST_XL_MASK; acc_values := LSM6DSL_ACC_GYRO_ST_XL_t |};
  {| acc_W := LSM6DSL_ACC_GYRO_W_SelfTest_G; acc_R := LSM6DSL_ACC_GYRO_R_SelfTest_G;
     acc_reg := LSM6DSL_ACC_GYRO_CTRL5_C; acc_mask := LSM6DSL_ACC_GYRO_ST_G_MASK; acc_values := LSM6DSL_ACC_GYRO_ST_G_t |};
  {| acc_W := LSM6DSL_ACC_GYRO_W_DEN_Polarity; acc_R := LSM6DSL_ACC_GYRO_R_DEN_Polarity;
     acc_reg := LSM6DSL_ACC_GYRO_CTRL5_C; acc_mask := LSM6DSL_ACC_GYRO_DEN_LH_MASK; acc_values := LSM6DSL_ACC_GYRO_DEN_LH_t |};
  {| acc_W := LSM6DSL_ACC_GYRO_W_CircularBurstMode; acc_R := LSM6DSL_ACC_GYRO_R_CircularBurstMode;
     acc_reg := LSM6DSL_ACC_GYRO_CTRL5_C; acc_mask := LSM6DSL_ACC_GYRO_LSM6DSL_ACC_GYRO_ROUNDING_t_MASK; acc_values := LSM6DSL_ACC_GYRO_ROUNDING_t |};
  {| acc_W := LSM6DSL_ACC_GYRO_W_LP_BW_G; acc_R := LSM6DSL_ACC_GYRO_R_LP_BW_G;
     acc_reg := LSM6DSL_ACC_GYRO_CTRL6_G; acc_mask := LSM6DSL_ACC_GYRO_FTYPE_MASK; acc_values := LSM6DSL_ACC_GYRO_FTYPE_t |};
  {| acc_W := LSM6DSL_ACC_GYRO_W_UserOffsetWeight; acc_R := LSM6DSL_ACC_GYRO_R_UserOffsetWeight;
     acc_reg := LSM6DSL_ACC_GYRO_CTRL6_G; acc_mask := LSM6DSL_ACC_GYRO_USR_OFF_W_MASK; acc_values := LSM6DSL_ACC_GYRO_USR_OFF_W_t |};
  {| acc_W := LSM6DSL_ACC_GYRO_W_LowPower_XL; acc_R := LSM6DSL_ACC_GYRO_R_LowPower_XL;
     acc_reg := LSM6DSL_ACC_GYRO_CTRL6_G; acc_mask := LSM6DSL_ACC_GYRO_LP_XL_MASK; acc_values := LSM6DSL_ACC_GYRO_LP_XL_t |};
  {| acc_W := LSM6DSL_ACC_GYRO_W_DEN_LVL2_EN; acc_R := LSM6DSL_ACC_GYRO_R_DEN_LVL2_EN;
     acc_reg := LSM6DSL_ACC_GYRO_CTRL6_G; acc_mask := LSM6DSL_ACC_GYRO_DEN_LVL2_EN_MASK; acc_values := LSM6DSL_ACC_GYRO_DEN_LVL2_EN_t |};
  {| acc_W := LSM6DSL_ACC_GYRO_W_DEN_LVL_EN; acc_R := LSM6DSL_ACC_GYRO_R_DEN_LVL_EN;
     acc_reg := LSM6DSL_ACC_GYRO_CTRL6_G; acc_mask := LSM6DSL_ACC_GYRO_DEN_LVL_EN_MASK; acc_values := LSM6DSL_ACC_GYRO_DEN_LVL_EN_t |};
  {| acc_W := LSM6DSL_ACC_GYRO_W_ExternalTrigger; acc_R := LSM6DSL_ACC_GYRO_R_ExternalTrigger;
     acc_reg := LSM6DSL_ACC_GYRO_CTRL6_G; acc_mask := LSM6DSL_ACC_GYRO_DEN_EDGE_EN_MASK; acc_values := LSM6DSL_ACC_GYRO_DEN_EDGE_EN_t |};
  {| acc_W := LSM6DSL_ACC_GYRO_W_HPM_G; acc_R := LSM6DSL_ACC_GYRO_R_HPM_G;
     acc_reg := LSM6DSL_ACC_GYRO_CTRL7_G; acc_mask := LSM6DSL_ACC_GYRO_HPM_G_MASK; acc_values := LSM6DSL_ACC_GYRO_HPM_G_t |};
  {| acc_W := LSM6DSL_ACC_GYRO_W_RoundingOnStatusRegisters; acc_R := LSM6DSL_ACC_GYRO_R_RoundingOnStatusRegisters;
     acc_reg := LSM6DSL_ACC_GYRO_CTRL7_G; acc_mask := LSM6DSL_ACC_GYRO_RND_STATUS_MASK; acc_values := LSM6DSL_ACC_GYRO_RND_STATUS_t |};
  {| acc_W := LSM6DSL_ACC_GYRO_W_HPFilter_En; acc_R := LSM6DSL_ACC_GYRO_R_HPFilter_En;
     acc_reg := LSM6DSL_ACC_GYRO_CTRL7_G; acc_mask := LSM6DSL_ACC_GYRO_HP_EN_MASK; acc_values := LSM6DSL_ACC_GYRO_HP_EN_t |};
  {| acc_W := LSM6DSL_ACC_GYRO_W_LP_Mode; acc_R := LSM6DSL_ACC_GYRO_R_LP_Mode;
     acc_reg := LSM6DSL_ACC_GYRO_CTRL7_G; acc_mask := LSM6DSL_ACC_GYRO_LP_EN_MASK; acc_values := LSM6DSL_ACC_GYRO_LP_EN_t |};
  {| acc_W := LSM6DSL_ACC_GYRO_W_ROUNDING_STATUS; acc_R := LSM6DSL_ACC_GYRO_R_ROUNDING_STATUS;
     acc_reg := LSM6DSL_ACC_GYRO_CTRL7_G; acc_mask := LSM6DSL_ACC_GYRO_ROUNDING_STATUS_MASK; acc_values := LSM6DSL_ACC_GYRO_ROUNDING_STATUS_t |};
  {| acc_W := LSM6DSL_ACC_GYRO_W_HP_G_RST; acc_R := LSM6DSL_ACC_GYRO_R_HP_G_RST;
     acc_reg := LSM6DSL_ACC_GYRO_CTRL7_G; acc_mask := LSM6DSL_ACC_GYRO_HP_G_RST_MASK; acc_values := LSM6DSL_ACC_GYRO_HP_G_RST_t |};
  {| acc_W := LSM6DSL_ACC_GYRO_W_InComposit; acc_R := LSM6DSL_ACC_GYRO_R_InComposit;
     acc_reg := LSM6DSL_ACC_GYRO_CTRL8_XL; acc_mask := LSM6DSL_ACC_GYRO_IN_COMP_MASK; acc_values := LSM6DSL_ACC_GYRO_IN_COMP_t |};
  {| acc_W := LSM6DSL_ACC_GYRO_W_HPfilterReference; acc_R := LSM6DSL_ACC_GYRO_R_HPfilterReference;
     acc_reg := LSM6DSL_ACC_GYRO_CTRL8_XL; acc_mask := LSM6DSL_ACC_GYRO_HP_REF_MODE_MASK; acc_values := LSM6DSL_ACC_GYRO_HP_REF_MODE_t |};
  {| acc_W := LSM6DSL_ACC_GYRO_W_HPCF_XL; acc_R := LSM6DSL_ACC_GYRO_R_HPCF_XL;
     acc_reg := LSM6DSL_ACC_GYRO_CTRL8_XL; acc_mask := LSM6DSL_ACC_GYRO_HPCF_XL_MASK; acc_values := LSM6DSL_ACC_GYRO_HPCF_XL_t |};
  {| acc_W := LSM6DSL_ACC_GYRO_W_LowPassFiltSel_XL; acc_R := LSM6DSL_ACC_GYRO_R_LowPassFiltSel_XL;
     acc_reg := LSM6DSL_ACC_GYRO_CTRL8_XL; acc_mask := LSM6DSL_ACC_GYRO_LPF2_XL_MASK; acc_values := LSM6DSL_ACC_GYRO_LPF2_XL_t |};
  {| acc_W := LSM6DSL_ACC_GYRO_W_LOW_PASS_ON_6D; acc_R := LSM6DSL_ACC_GYRO_R_LOW_PASS_ON_6D;
     acc_reg := LSM6DSL_ACC_GYRO_CTRL8_XL; acc_mask := LSM6DSL_ACC_GYRO_LOW_PASS_ON_6D_MASK; acc_values := LSM6DSL_ACC_GYRO_LOW_PASS_ON_6D_t |};
  {| acc_W := LSM6DSL_ACC_GYRO_W_HP_SLOPE_XL; acc_R := LSM6DSL_ACC_GYRO_R_HP_SLOPE_XL;
     acc_reg := LSM6DSL_ACC_GYRO_CTRL8_XL; acc_mask := LSM6DSL_ACC_GYRO_HP_SLOPE_XL_MASK; acc_values := LSM6DSL_ACC_GYRO_HP_SLOPE_XL_t |};
  {| acc_W := LSM6DSL_ACC_GYRO_W_SOFT; acc_R := LSM6DSL_ACC_GYRO_R_SOFT;
     acc_reg := LSM6DSL_ACC_GYRO_CTRL9_XL; acc_mask := LSM6DSL_ACC_GYRO_SOFT_MASK; acc_values := LSM6DSL_ACC_GYRO_SOFT_t |};
  {| acc_W := LSM6DSL_ACC_GYRO_W_SignificantMotion; acc_R := LSM6DSL_ACC_GYRO_R_SignificantMotion;
     acc_reg := LSM6DSL_ACC_GYRO_CTRL10_C; acc_mask := LSM6DSL_ACC_GYRO_SIGN_MOTION_EN_MASK; acc_values := LSM6DSL_ACC_GYRO_SIGN_MOTION_EN_t |};
  {| acc_W := LSM6DSL_ACC_GYRO_W_PedoStepReset; acc_R := LSM6DSL_ACC_GYRO_R_PedoStepReset;
     acc_reg := LSM6DSL_ACC_GYRO_CTRL10_C; acc_mask := LSM6DSL_ACC_GYRO_PEDO_RST_STEP_MASK; acc_values := LSM6DSL_ACC_GYRO_PEDO_RST_STEP_t |};
  {| acc_W := LSM6DSL_ACC_GYRO_W_TILT; acc_R := LSM6DSL_ACC_GYRO_R_TILT;
     acc_reg := LSM6DSL_ACC_GYRO_CTRL10_C; acc_mask := LSM6DSL_ACC_GYRO_TILT_MASK; acc_values := LSM6DSL_ACC_GYRO_TILT_G_t |};
  {| acc_W := LSM6DSL_ACC_GYRO_W_PEDO; acc_R := LSM6DSL_ACC_GYRO_R_PEDO;
     acc_reg := LSM6DSL_ACC_GYRO_CTRL10_C; acc_mask := LSM6DSL_ACC_GYRO_PEDO_MASK; acc_values := LSM6DSL_ACC_GYRO_PEDO_t |};
  {| acc_W := LSM6DSL_ACC_GYRO_W_TIMER; acc_R := LSM6DSL_ACC_GYRO_R_TIMER;
     acc_reg := LSM6DSL_ACC_GYRO_CTRL10_C; acc_mask := LSM6DSL_ACC_GYRO_TIMER_MASK; acc_values := LSM6DSL_ACC_GYRO_TIMER_t |};
  {| acc_W := LSM6DSL_ACC_GYRO_W_FUNC_EN; acc_R := LSM6DSL_ACC_GYRO_R_FUNC_EN;
     acc_reg := LSM6DSL_ACC_GYRO_CTRL10_C; acc_mask := LSM6DSL_ACC_GYRO_FUNC_EN_MASK; acc_values := LSM6DSL_ACC_GYRO_FUNC_EN_t |};
  {| acc_W := LSM6DSL_ACC_GYRO_W_I2C_MASTER_Enable; acc_R := LSM6DSL_ACC_GYRO_R_I2C_MASTER_Enable;
     acc_reg := LSM6DSL_ACC_GYRO_MASTER_CONFIG; acc_mask := LSM6DSL_ACC_GYRO_MASTER_ON_MASK; acc_values := LSM6DSL_ACC_GYRO_MASTER_ON_t |};
  {| acc_W := LSM6DSL_ACC_GYRO_W_IronCorrection_EN; acc_R := LSM6DSL_ACC_GYRO_R_IronCorrection_EN;
     acc_reg := LSM6DSL_ACC_GYRO_MASTER_CONFIG; acc_mask := LSM6DSL_ACC_GYRO_IRON_EN_MASK; acc_values := LSM6DSL_ACC_GYRO_IRON_EN_t |};
  {| acc_W := LSM6DSL_ACC_GYRO_W_PASS_THRU_MODE; acc_R := LSM6DSL_ACC_GYRO_R_PASS_THRU_MODE;
     acc_reg := LSM6DSL_ACC_GYRO_MASTER_CONFIG; acc_mask := LSM6DSL_ACC_GYRO_PASS_THRU_MODE_MASK; acc_values := LSM6DSL_ACC_GYRO_PASS_THRU_MODE_t |};
  {| acc_W := LSM6DSL_ACC_GYRO_W_PULL_UP_EN; acc_R := LSM6DSL_ACC_GYRO_R_PULL_UP_EN;
     acc_reg := LSM6DSL_ACC_GYRO_MASTER_CONFIG; acc_mask := LSM6DSL_ACC_GYRO_PULL_UP_EN_MASK; acc_values := LSM6DSL_ACC_GYRO_PULL_UP_EN_t |};
  {| acc_W := LSM6DSL_ACC_GYRO_W_SensorHUB_Trigger_Sel; acc_R := LSM6DSL_ACC_GYRO_R_SensorHUB_Trigger_Sel;
     acc_reg := LSM6DSL_ACC_GYRO_MASTER_CONFIG; acc_mask := LSM6DSL_ACC_GYRO_START_CONFIG_MASK; acc_values := LSM6DSL_ACC_GYRO_START_CONFIG_t |};
  {| acc_W := LSM6DSL_ACC_GYRO_W_DATA_VAL_SEL_FIFO; acc_R := LSM6DSL_ACC_GYRO_R_DATA_VAL_SEL_FIFO;
     acc_reg := LSM6DSL_ACC_GYRO_MASTER_CONFIG; acc_mask := LSM6DSL_ACC_GYRO_DATA_VAL_SEL_FIFO_MASK; acc_values := LSM6DSL_ACC_GYRO_DATA_VAL_SEL_FIFO_t |};
  {| acc_W := LSM6DSL_ACC_GYRO_W_DRDY_ON_INT1; acc_R := LSM6DSL_ACC_GYRO_R_DRDY_ON_INT1;
     acc_reg := LSM6DSL_ACC_GYRO_MASTER_CONFIG; acc_mask := LSM6DSL_ACC_GYRO_DRDY_ON_INT1_MASK; acc_values := LSM6DSL_ACC_GYRO_DRDY_ON_INT1_t |};
  {| acc_W := LSM6DSL_ACC_GYRO_W_LIR; acc_R := LSM6DSL_ACC_GYRO_R_LIR;
     acc_reg := LSM6DSL_ACC_GYRO_TAP_CFG1; acc_mask := LSM6DSL_ACC_GYRO_LIR_MASK; acc_values := LSM6DSL_ACC_GYRO_LIR_t |};
  {| acc_W := LSM6DSL_ACC_GYRO_W_TAP_Z_EN; acc_R := LSM6DSL_ACC_GYRO_R_TAP_Z_EN;
     acc_reg := LSM6DSL_ACC_GYRO_TAP_CFG1; acc_mask := LSM6DSL_ACC_GYRO_TAP_Z_EN_MASK; acc_values := LSM6DSL_ACC_GYRO_TAP_Z_EN_t |};
  {| acc_W := LSM6DSL_ACC_GYRO_W_TAP_Y_EN; acc_R := LSM6DSL_ACC_GYRO_R_TAP_Y_EN;
     acc_reg := LSM6DSL_ACC_GYRO_TAP_CFG1; acc_mask := LSM6DSL_ACC_GYRO_TAP_Y_EN_MASK; acc_values := LSM6DSL_ACC_GYRO_TAP_Y_EN_t |};
  {| acc_W := LSM6DSL_ACC_GYRO_W_TAP_X_EN; acc_R := LSM6DSL_ACC_GYRO_R_TAP_X_EN;
     acc_reg := LSM6DSL_ACC_GYRO_TAP_CFG1; acc_mask := LSM6DSL_ACC_GYRO_TAP_X_EN_MASK; acc_values := LSM6DSL_ACC_GYRO_TAP_X_EN_t |};
  {| acc_W := LSM6DSL_ACC_GYRO_W_SLOPE_FDS; acc_R := LSM6DSL_ACC_GYRO_R_SLOPE_FDS;
     acc_reg := LSM6DSL_ACC_GYRO_TAP_CFG1; acc_mask := LSM6DSL_ACC_GYRO_SLOPE_FDS_MASK; acc_values := LSM6DSL_ACC_GYRO_SLOPE_FDS_t |};
  {| acc_W := LSM6DSL_ACC_GYRO_W_BASIC_INT; acc_R := LSM6DSL_ACC_GYRO_R_BASIC_INT;
     acc_reg := LSM6DSL_ACC_GYRO_TAP_CFG1; acc_mask := LSM6DSL_ACC_GYRO_INT_EN_MASK; acc_values := LSM6DSL_ACC_GYRO_INT_EN_t |};
  {| acc_W := LSM6DSL_ACC_GYRO_W_SIXD_THS; acc_R := LSM6DSL_ACC_GYRO_R_SIXD_THS;
     acc_reg := LSM6DSL_ACC_GYRO_TAP_THS_6D; acc_mask := LSM6DSL_ACC_GYRO_SIXD_THS_MASK; acc_values := LSM6DSL_ACC_GYRO_SIXD_THS_t |};
  {| acc_W := LSM6DSL_ACC_GYRO_W_D4D; acc_R := LSM6DSL_ACC_GYRO_R_D4D;
     acc_reg := LSM6DSL_ACC_GYRO_TAP_THS_6D; acc_mask := LSM6DSL_ACC_GYRO_D4D_MASK; acc_values := LSM6DSL_ACC_GYRO_D4D_t |};
  {| acc_W := LSM6DSL_ACC_GYRO_W_SINGLE_DOUBLE_TAP_EV; acc_R := LSM6DSL_ACC_GYRO_R_SINGLE_DOUBLE_TAP_EV;
     acc_reg := LSM6DSL_ACC_GYRO_WAKE_UP_THS; acc_mask := LSM6DSL_ACC_GYRO_SINGLE_DOUBLE_TAP_MASK; acc_values := LSM6DSL_ACC_GYRO_SINGLE_DOUBLE_TAP_t |};
  {| acc_W := LSM6DSL_ACC_GYRO_W_TIMER_HR; acc_R := LSM6DSL_ACC_GYRO_R_TIMER_HR;
     acc_reg := LSM6DSL_ACC_GYRO_WAKE_UP_DUR; acc_mask := LSM6DSL_ACC_GYRO_TIMER_HR_MASK; acc_values := LSM6DSL_ACC_GYRO_TIMER_HR_t |};
  {| acc_W := LSM6DSL_ACC_GYRO_W_FF_THS; acc_R := LSM6DSL_ACC_GYRO_R_FF_THS;
     acc_reg := LSM6DSL_ACC_GYRO_FREE_FALL; acc_mask := LSM6DSL_ACC_GYRO_FF_THS_MASK; acc_values := LSM6DSL_ACC_GYRO_FF_THS_t |};
  {| acc_W := LSM6DSL_ACC_GYRO_W_TimerEvRouteInt1; acc_R := LSM6DSL_ACC_GYRO_R_TimerEvRouteInt1;
     acc_reg := LSM6DSL_ACC_GYRO_MD1_CFG; acc_mask := LSM6DSL_ACC_GYRO_INT1_TIMER_MASK; acc_values := LSM6DSL_ACC_GYRO_INT1_TIMER_t |};
  {| acc_W := LSM6DSL_ACC_GYRO_W_TiltEvOnInt1; acc_R := LSM6DSL_ACC_GYRO_R_TiltEvOnInt1;
     acc_reg := LSM6DSL_ACC_GYRO_MD1_CFG; acc_mask := LSM6DSL_ACC_GYRO_INT1_TILT_MASK; acc_values := LSM6DSL_ACC_GYRO_INT1_TILT_t |};
  {| acc_W := LSM6DSL_ACC_GYRO_W_6DEvOnInt1; acc_R := LSM6DSL_ACC_GYRO_R_6DEvOnInt1;
     acc_reg := LSM6DSL_ACC_GYRO_MD1_CFG; acc_mask := LSM6DSL_ACC_GYRO_INT1_6D_MASK; acc_values := LSM6DSL_ACC_GYRO_INT1_6D_t |};
  {| acc_W := LSM6DSL_ACC_GYRO_W_TapEvOnInt1; acc_R := LSM6DSL_ACC_GYRO_R_TapEvOnInt1;
     acc_reg := LSM6DSL_ACC_GYRO_MD1_CFG; acc_mask := LSM6DSL_ACC_GYRO_INT1_TAP_MASK; acc_values := LSM6DSL_ACC_GYRO_INT1_TAP_t |};
  {| acc_W := LSM6DSL_ACC_GYRO_W_FFEvOnInt1; acc_R := LSM6DSL_ACC_GYRO_R_FFEvOnInt1;
     acc_reg := LSM6DSL_ACC_GYRO_MD1_CFG; acc_mask := LSM6DSL_ACC_GYRO_INT1_FF_MASK; acc_values := LSM6DSL_ACC_GYRO_INT1_FF_t |};
  {| acc_W := LSM6DSL_ACC_GYRO_W_WUEvOnInt1; acc_R := LSM6DSL_ACC_GYRO_R_WUEvOnInt1;
     acc_reg := LSM6DSL_ACC_GYRO_MD1_CFG; acc_mask := LSM6DSL_ACC_GYRO_INT1_WU_MASK; acc_values := LSM6DSL_ACC_GYRO_INT1_WU_t |};
  {| acc_W := LSM6DSL_ACC_GYRO_W_SingleTapOnInt1; acc_R := LSM6DSL_ACC_GYRO_R_SingleTapOnInt1;
     acc_reg := LSM6DSL_ACC_GYRO_MD1_CFG; acc_mask := LSM6DSL_ACC_GYRO_INT1_SINGLE_TAP_MASK; acc_values := LSM6DSL_ACC_GYRO_INT1_SINGLE_TAP_t |};
  {| acc_W := LSM6DSL_ACC_GYRO_W_SleepEvOnInt1; acc_R := LSM6DSL_ACC_GYRO_R_SleepEvOnInt1;
     acc_reg := LSM6DSL_ACC_GYRO_MD1_CFG; acc_mask := LSM6DSL_ACC_GYRO_INT1_SLEEP_MASK; acc_values := LSM6DSL_ACC_GYRO_INT1_SLEEP_t |};
  {| acc_W := LSM6DSL_ACC_GYRO_W_MagCorrection_Int2; acc_R := LSM6DSL_ACC_GYRO_R_MagCorrection_Int2;
     acc_reg := LSM6DSL_ACC_GYRO_MD2_CFG; acc_mask := LSM6DSL_ACC_GYRO_INT2_IRON_MASK; acc_values := LSM6DSL_ACC_GYRO_INT2_IRON_t |};
  {| acc_W := LSM6DSL_ACC_GYRO_W_TiltEvOnInt2; acc_R := LSM6DSL_ACC_GYRO_R_TiltEvOnInt2;
     acc_reg := LSM6DSL_ACC_GYRO_MD2_CFG; acc_mask := LSM6DSL_ACC_GYRO_INT2_TILT_MASK; acc_values := LSM6DSL_ACC_GYRO_INT2_TILT_t |};
  {| acc_W := LSM6DSL_ACC_GYRO_W_6DEvOnInt2; acc_R := LSM6DSL_ACC_GYRO_R_6DEvOnInt2;
     acc_reg := LSM6DSL_ACC_GYRO_MD2_CFG; acc_mask := LSM6DSL_ACC_GYRO_INT2_6D_MASK; acc_values := LSM6DSL_ACC_GYRO_INT2_6D_t |};
  {| acc_W := LSM6DSL_ACC_GYRO_W_TapEvOnInt2; acc_R := LSM6DSL_ACC_GYRO_R_TapEvOnInt2;
     acc_reg := LSM6DSL_ACC_GYRO_MD2_CFG; acc_mask := LSM6DSL_ACC_GYRO_INT2_TAP_MASK; acc_values := LSM6DSL_ACC_GYRO_INT2_TAP_t |};
  {| acc_W := LSM6DSL_ACC_GYRO_W_FFEvOnInt2; acc_R := LSM6DSL_ACC_GYRO_R_FFEvOnInt2;
     acc_reg := LSM6DSL_ACC_GYRO_MD2_CFG; acc_mask := LSM6DSL_ACC_GYRO_INT2_FF_MASK; acc_values := LSM6DSL_ACC_GYRO_INT2_FF_t |};
  {| acc_W := LSM6DSL_ACC_GYRO_W_WUEvOnInt2; acc_R := LSM6DSL_ACC_GYRO_R_WUEvOnInt2;
     acc_reg := LSM6DSL_ACC_GYRO_MD2_CFG; acc_mask := LSM6DSL_ACC_GYRO_INT2_WU_MASK; acc_values := LSM6DSL_ACC_GYRO_INT2_WU_t |};
  {| acc_W := LSM6DSL_ACC_GYRO_W_SingleTapOnInt2; acc_R := LSM6DSL_ACC_GYRO_R_SingleTapOnInt2;
     acc_reg := LSM6DSL_ACC_GYRO_MD2_CFG; acc_mask := LSM6DSL_ACC_GYRO_INT2_SINGLE_TAP_MASK; acc_values := LSM6DSL_ACC_GYRO_INT2_SINGLE_TAP_t |};
  {| acc_W := LSM6DSL_ACC_GYRO_W_SleepEvOnInt2; acc_R := LSM6DSL_ACC_GYRO_R_SleepEvOnInt2;
     acc_reg := LSM6DSL_ACC_GYRO_MD2_CFG; acc_mask := LSM6DSL_ACC_GYRO_INT2_SLEEP_MASK; acc_values := LSM6DSL_ACC_GYRO_INT2_SLEEP_t |}].

(** A field that is moved to bit 0: its position and width. *)
Record packed := {
  pk_W : Z → dev W mems_status_t; pk_R : Z → dev W (mems_status_t * Z);
  pk_reg : Z; pk_position : Z; pk_mask : Z; pk_width : Z }.

Definition packed_fields : list packed := [
  {| pk_W := LSM6DSL_ACC_GYRO_W_Stamping_Time_Frame; pk_R := LSM6DSL_ACC_GYRO_R_Stamping_Time_Frame;
     pk_reg := LSM6DSL_ACC_GYRO_SENSOR_SYNC_TIME; pk_position := LSM6DSL_ACC_GYRO_TPH_POSITION; pk_mask := LSM6DSL_ACC_GYRO_TPH_MASK; pk_width := 8 |};
  {| pk_W := LSM6DSL_ACC_GYRO_W_TAP_THS; pk_R := LSM6DSL_ACC_GYRO_R_TAP_THS;
     pk_reg := LSM6DSL_ACC_GYRO_TAP_THS_6D; pk_position := LSM6DSL_ACC_GYRO_TAP_THS_POSITION; pk_mask := LSM6DSL_ACC_GYRO_TAP_THS_MASK; pk_width := 5 |};
  {| pk_W := LSM6DSL_ACC_GYRO_W_SHOCK_Duration; pk_R := LSM6DSL_ACC_GYRO_R_SHOCK_Duration;
     pk_reg := LSM6DSL_ACC_GYRO_INT_DUR2; pk_position := LSM6DSL_ACC_GYRO_SHOCK_POSITION; pk_mask := LSM6DSL_ACC_GYRO_SHOCK_MASK; pk_width := 2 |};
  {| pk_W := LSM6DSL_ACC_GYRO_W_QUIET_Duration; pk_R := LSM6DSL_ACC_GYRO_R_QUIET_Duration;
     pk_reg := LSM6DSL_ACC_GYRO_INT_DUR2; pk_position := LSM6DSL_ACC_GYRO_QUIET_POSITION; pk_mask := LSM6DSL_ACC_GYRO_QUIET_MASK; pk_width := 2 |};
  {| pk_W := LSM6DSL_ACC_GYRO_W_DUR; pk_R := LSM6DSL_ACC_GYRO_R_DUR;
     pk_reg := LSM6DSL_ACC_GYRO_INT_DUR2; pk_position := LSM6DSL_ACC_GYRO_DUR_POSITION; pk_mask := LSM6DSL_ACC_GYRO_DUR_MASK; pk_width := 4 |};
  {| pk_W := LSM6DSL_ACC_GYRO_W_WK_THS; pk_R := LSM6DSL_ACC_GYRO_R_WK_THS;
     pk_reg := LSM6DSL_ACC_GYRO_WAKE_UP_THS; pk_position := LSM6DSL_ACC_GYRO_WK_THS_POSITION; pk_mask := LSM6DSL_ACC_GYRO_WK_THS_MASK; pk_width := 6 |};
  {| pk_W := LSM6DSL_ACC_GYRO_W_SLEEP_DUR; pk_R := LSM6DSL_ACC_GYRO_R_SLEEP_DUR;
     pk_reg := LSM6DSL_ACC_GYRO_WAKE_UP_DUR; pk_position := LSM6DSL_ACC_GYRO_SLEEP_DUR_POSITION; pk_mask := LSM6DSL_ACC_GYRO_SLEEP_DUR_MASK; pk_width := 4 |};
  {| pk_W := LSM6DSL_ACC_GYRO_W_WAKE_DUR; pk_R := LSM6DSL_ACC_GYRO_R_WAKE_DUR;
     pk_reg := LSM6DSL_ACC_GYRO_WAKE_UP_DUR; pk_position := LSM6DSL_ACC_GYRO_WAKE_DUR_POSITION; pk_mask := LSM6DSL_ACC_GYRO_WAKE_DUR_MASK; pk_width := 2 |}].

Lemma accessors_are : Forall (λ f, is_u8 (acc_reg f) ∧ is_u8 (acc_mask f) ∧
  Forall (λ v, is_u8 v ∧ within (acc_mask f) v) (acc_values f) ∧
  acc_W f = W_field (acc_reg f) (acc_mask f) ∧ acc_R f = R_field (acc_reg f) (acc_mask f)) accessors.
Proof using. unfold is_u8. repeat constructor; by vm_compute. Qed.

Lemma packed_are : Forall (λ f, is_u8 (pk_reg f) ∧ is_u8 (pk_mask f) ∧ 0 ≤ pk_position f ∧ 0 ≤ pk_width f ∧
  pk_position f + pk_width f ≤ 8 ∧ pk_mask f = Z.shiftl (Z.ones (pk_width f)) (pk_position f) ∧
  pk_W f = W_shifted (pk_reg f) (pk_position f) (pk_mask f) ∧
  pk_R f = R_shifted (pk_reg f) (pk_position f) (pk_mask f)) packed_fields.
Proof using. unfold is_u8. repeat constructor; by vm_compute. Qed.

Lemma packed_value p n v old : 0 ≤ p → 0 ≤ n → p + n ≤ 8 → let mask := Z.shiftl (Z.ones n) p in
  Z.shiftr (Z.land (set_bits mask (Z.land (u8 (Z.shiftl v p)) mask) old) mask) p = v `mod` 2 ^ n.
Proof using.
  intros Hp Hn H8 mask. rewrite set_bits_read.
  - apply Z.bits_inj'. intros i Hi. unfold mask. rewrite <-Z.land_ones by done.
    rewrite Z.shiftr_spec, !Z.land_spec, Z.shiftl_spec by lia. replace (i + p - p) with i by lia.
    destruct (decide (i < n)) as [Hin|Hin].
    + rewrite Z.ones_spec_low by lia. rewrite !andb_true_r. unfold u8.
      rewrite <-(Z.land_ones _ 8), Z.land_spec, Z.ones_spec_low, andb_true_r, Z.shiftl_spec by lia. f_equal. lia.
    + rewrite Z.ones_spec_high by lia. by rewrite !andb_false_r.
  - unfold within. rewrite <-Z.land_assoc, Z.land_lnot_diag. apply Z.land_0_r.
Qed.

Lemma restores_packed r p n v junk w : is_u8 r → is_u8 junk → 0 ≤ p → 0 ≤ n → p + n ≤ 8 → stored (at_reg w r) →
  let mask := Z.shiftl (Z.ones n) p in is_u8 mask →
  restores [r] (W_shifted r p mask v) (R_shifted r p mask junk) (v `mod` 2 ^ n) w.
Proof using Hs1.
  intros Hr Hj Hp Hn H8 Hst mask Hm. apply dwp_W_shifted; [done|done|]. intros st w' Hu Hc. split.
  - intros b Hb Hnot. apply Hu; [done|]. intros ->. apply Hnot. by left.
  - intros ->. apply dwp_R_shifted; [done|done|]. rewrite (at_reg_written w w' r Hr Hu).
    intros st v' w'' Hs Hv. split; [done|]. cbn. intros Hok. rewrite (Hv Hok), (Hc eq_refl Hst). by apply packed_value.
Qed.

(** C32: for each of the 112 fields of the driver and each value of its type, on a device
    that keeps its registers: the write function changes no other register, and if
    it succeeds, the register holds the value in the bits of the field and its old
    contents elsewhere, and the read function, if it succeeds, returns the value. *)
Theorem LSM6DSL_fields_roundtrip f v junk w : f ∈ accessors → v ∈ acc_values f → stored (at_reg w (acc_reg f)) →
  restores [acc_reg f] (acc_W f v) (acc_R f junk) v w ∧
  dwp (acc_W f v) (λ st w', let a := at_reg w (acc_reg f) in
    st = MEMS_SUCCESS → cell w' a = set_bits (acc_mask f) v (cell w a)) w.
Proof using Hs1.
  intros Hf Hv Hst. pose proof (proj1 (Forall_forall _ _) accessors_are f Hf) as (Hr & Hm & Hvs & -> & ->).
  destruct (proj1 (Forall_forall _ _) Hvs v Hv) as [Hv8 Hin]. split; [|apply dwp_W_field; by auto].
  apply dwp_W_field; [done|done|]. intros st w' Hu Hc. split.
  - intros b Hb Hnot. apply Hu; [done|]. intros ->. apply Hnot. by left.
  - intros ->. apply dwp_R_field; [done|done|]. rewrite (at_reg_written w w' _ Hr Hu).
    intros st v' w'' Hs Hv' _. split; [done|]. cbn. intros Hok. rewrite (Hv' Hok), (Hc eq_refl Hst). by apply set_bits_read.
Qed.

Lemma at_reg_inj w r q : is_u8 r → is_u8 q → at_reg w r = at_reg w q → r = q.
Proof using.
  unfold at_reg, lsm_place, is_u8. destruct (Z.testbit _ 7), (Z.eqb_spec r LSM6DSL_ACC_GYRO_FUNC_CFG_ACCESS),
    (Z.eqb_spec q LSM6DSL_ACC_GYRO_FUNC_CFG_ACCESS); subst; unfold LSM6DSL_ACC_GYRO_FUNC_CFG_ACCESS; lia.
Qed.

(** A write elsewhere than to FUNC_CFG_ACCESS moves no register. *)
Lemma at_reg_unchanged a w w' r : a ≠ LSM6DSL_ACC_GYRO_FUNC_CFG_ACCESS → unchanged a w w' → at_reg w' r = at_reg w r.
Proof using Hs1. intros Hn Hu. apply lsm_place_ext, (Hu _ Hs1). congruence. Qed.

(** A value in two registers: written one after the other, and read back. *)
Lemma restores_two rl pl nl rh ph nh x y join v junk w :
  is_u8 rl → is_u8 rh → rl ≠ rh → rl ≠ LSM6DSL_ACC_GYRO_FUNC_CFG_ACCESS → rh ≠ LSM6DSL_ACC_GYRO_FUNC_CFG_ACCESS →
  0 ≤ pl → 0 ≤ nl → pl + nl ≤ 8 → 0 ≤ ph → 0 ≤ nh → ph + nh ≤ 8 →
  stored (at_reg w rl) → stored (at_reg w rh) →
  let ml := Z.shiftl (Z.ones nl) pl in let mh := Z.shiftl (Z.ones nh) ph in is_u8 ml → is_u8 mh →
  join (y `mod` 2 ^ nh) (x `mod` 2 ^ nl) = v →
  restores [rl; rh]
    (st ← W_shifted rl pl ml x; if failed st then mret MEMS_ERROR else W_shifted rh ph mh y)
    (R_two rl pl ml rh ph mh join junk) v w.
Proof using Hs1.
  intros Hrl Hrh Hne Hnl Hnh ? ? ? ? ? ? Hsl Hsh ml mh Hml Hmh Hj. unfold restores.
  pose proof (λ E, Hne (at_reg_inj w rl rh Hrl Hrh E)) as Hna.
  pose proof (at_reg_not_1 w rl Hrl Hnl) as Hl1. pose proof (at_reg_not_1 w rh Hrh Hnh) as Hh1.
  apply dwp_bind, dwp_W_shifted; [done|done|]. intros st w1 Hu1 Hc1.
  destruct st; cbn -[W_shifted R_two];
    [|apply dwp_ret; split; [|done]; intros b Hb Hnot; apply Hu1; [done|]; intros ->; apply Hnot; by left].
  specialize (Hc1 eq_refl Hsl). apply dwp_W_shifted; [done|done|].
  rewrite (at_reg_unchanged _ _ _ rh Hl1 Hu1). intros st w2 Hu2 Hc2. split.
  { intros b Hb Hnot. rewrite (Hu2 b Hb), (Hu1 b Hb); [done|intros ->; apply Hnot; by left|intros ->; apply Hnot; right; by left]. }
  intros ->. specialize (Hc2 eq_refl Hsh).
  assert (∀ r, at_reg w2 r = at_reg w r) as E2.
  { intros r. by rewrite (at_reg_unchanged _ _ _ r Hh1 Hu2), (at_reg_unchanged _ _ _ r Hl1 Hu1). }
  apply dwp_R_two; [done|done| |by rewrite E2]. intros st v' w3 Hs Hv _. split; [done|]. cbn. intros Hok.
  rewrite (Hv Hok), !E2, Hc2, (Hu2 _ Hsl), Hc1 by congruence. unfold ml, mh. by rewrite !packed_value by done.
Qed.

Lemma join_watermark v : join16 (Z.land (Z.shiftr v 8) 255 `mod` 2 ^ 3) (Z.land v 255 `mod` 2 ^ 8) = v `mod` 2 ^ 11.
Proof using.
  change 255 with (Z.ones 8). rewrite !Z.land_ones, Z.shiftr_div_pow2 by lia.
  set (h := ((v / 2 ^ 8) `mod` 2 ^ 8) `mod` 2 ^ 3). set (l := (v `mod` 2 ^ 8) `mod` 2 ^ 8). unfold join16.
  assert (0 ≤ l < 2 ^ 8) by dlia. assert (0 ≤ h < 8) by dlia.
  change 65280 with (Z.shiftl (Z.ones 8) 8). rewrite <-Z.shiftl_land, Z.land_ones, (Z.mod_small h) by lia.
  rewrite Z.lor_comm, lor_shiftl_add by lia. unfold u16, h, l. dlia.
Qed.

Lemma join_ff v : join6 (Z.land (Z.shiftr v 5) 1 `mod` 2 ^ 1) (Z.land v 31 `mod` 2 ^ 5) = v `mod` 2 ^ 6.
Proof using.
  change (Z.land (Z.shiftr v 5) 1) with (Z.land (Z.shiftr v 5) (Z.ones 1)). change 31 with (Z.ones 5).
  rewrite !Z.land_ones, Z.shiftr_div_pow2 by lia.
  set (h := ((v / 2 ^ 5) `mod` 2 ^ 1) `mod` 2 ^ 1). set (l := (v `mod` 2 ^ 5) `mod` 2 ^ 5). unfold join6.
  assert (0 ≤ l < 2 ^ 5) by dlia. assert (0 ≤ h < 2) by dlia.
  change 32 with (Z.shiftl (Z.ones 1) 5). rewrite <-Z.shiftl_land, Z.land_ones, (Z.mod_small h) by lia.
  rewrite Z.lor_comm, lor_shiftl_add by lia. unfold u8, h, l. dlia.
Qed.

(** The fields that hold a number: what is written is read back modulo the
    field's width, for the eight fields of one register, and for the FIFO watermark
    (11 bits) and the free-fall duration (6 bits), which two registers share; no
    other register changes. *)
Theorem LSM6DSL_packed_roundtrip f v junk w : is_u8 junk →
  (f ∈ packed_fields → stored (at_reg w (pk_reg f)) →
     restores [pk_reg f] (pk_W f v) (pk_R f junk) (v `mod` 2 ^ pk_width f) w) ∧
  (stored (at_reg w LSM6DSL_ACC_GYRO_FIFO_CTRL1) → stored (at_reg w LSM6DSL_ACC_GYRO_FIFO_CTRL2) → 
     restores [LSM6DSL_ACC_GYRO_FIFO_CTRL1; LSM6DSL_ACC_GYRO_FIFO_CTRL2]
       (LSM6DSL_ACC_GYRO_W_FIFO_Watermark v) (LSM6DSL_ACC_GYRO_R_FIFO_Watermark junk) (v `mod` 2 ^ 11) w) ∧
  (stored (at_reg w LSM6DSL_ACC_GYRO_FREE_FALL) → stored (at_reg w LSM6DSL_ACC_GYRO_WAKE_UP_DUR) → 
     restores [LSM6DSL_ACC_GYRO_FREE_FALL; LSM6DSL_ACC_GYRO_WAKE_UP_DUR]
       (LSM6DSL_ACC_GYRO_W_FF_Duration v) (LSM6DSL_ACC_GYRO_R_FF_Duration junk) (v `mod` 2 ^ 6) w).
Proof using Hs1.
  intros Hj. split; [|split].
  - intros Hf Hst. pose proof (proj1 (Forall_forall _ _) packed_are f Hf) as (Hr & Hm & ? & ? & ? & E & -> & ->).
    rewrite E in *. by apply restores_packed.
  - intros H1 H2. apply (restores_two _ 0 8 _ 0 3); try done. apply join_watermark.
  - intros H1 H2. apply (restores_two _ 3 5 _ 7 1); try done. apply join_ff.
Qed.

(** ** The measurements *)

Lemma splice_insert (m : list Z) p v : 0 ≤ p → p + 1 ≤ zlen m → splice m p [v] = <[Z.to_nat p := v]> m.
Proof using.
  intros Hp Hl. pose proof (wr_splice m p v Hp) as E. rewrite (proj2 (Z.leb_le _ _) Hl) in E. unfold wr in E.
  rewrite (proj2 (Z.leb_le _ _) Hp), (proj2 (Z.ltb_lt _ _)) in E by lia. by inversion E.
Qed.

(** What [read_bytes] leaves in [buff]: as many bytes as before, and those it read. *)
Lemma dwp_read_bytes n r k m p w (Q : mems_status_t * list Z → W → Prop) :
  0 < r → 0 ≤ k → r + k + Z.of_nat n ≤ 256 → bytes m → 0 ≤ p → p + k + Z.of_nat n ≤ zlen m →
  (∀ st m' w', zlen m' = zlen m → bytes m' → same_cells w w' →
     (st = MEMS_SUCCESS → (∀ i, k ≤ i < k + Z.of_nat n → stored (at_reg w (r + i))) → ∀ j, 0 ≤ j → m' !! Z.to_nat j =
        if decide (p + k ≤ j < p + k + Z.of_nat n) then Some (cell w (at_reg w (r + (j - p)))) else m !! Z.to_nat j) →
     (reliable W → st = MEMS_SUCCESS) → Q (st, m') w') →
  dwp (read_bytes n r k m p) Q w.
Proof using Hs1.
  intros Hr. revert k m w Q. induction n as [|n IH]; intros k m w Q Hk Hb Hm Hp Hl HQ; cbn [read_bytes].
  { apply dwp_ret, HQ; try done. intros _ _ j Hj. by rewrite decide_False by lia. }
  apply dwp_bind, dwp_read_reg; [unfold is_u8; lia|done|lia..|].
  intros st [|b [|]] w1 Hz Hb1 Hs Hc Hrel; try (exfalso; unfold zlen in Hz; cbn in Hz; lia).
  assert (zlen (splice m (p + k) [b]) = zlen m) as Hzl by (apply zlen_splice; rewrite ?Hz; lia).
  assert (bytes (splice m (p + k) [b])) as Hbs.
  { unfold splice. repeat apply Forall_app_2; [by apply Forall_take|done|by apply Forall_drop]. }
  destruct st; cbn [failed]; cbn -[read_bytes]; [|by apply dwp_ret, HQ; [..|intros Hx%Hrel]].
  specialize (Hc eq_refl 0 ltac:(lia)). change ([b] !! Z.to_nat 0) with (Some b) in Hc. assert (b = cell w (at_reg w (r + k))) as Hbv by (rewrite Z.add_0_r in Hc; congruence). clear Hc.
  rewrite u8_id by (unfold is_u8; lia). apply IH; [lia|lia|done|lia|lia|].
  intros st m' w' Hz' Hb' Hs' Hc' Hrel'. apply HQ; [by rewrite Hz'|done|by eapply same_cells_trans| |done].
  intros Hok Hst j Hj.
  rewrite (Hc' Hok (λ i Hi, eq_rect_r stored (Hst i ltac:(lia)) (at_reg_same _ _ _ Hs)) j Hj), !(at_reg_same _ _ _ Hs).
  destruct (decide (p + (k + 1) ≤ j < p + (k + 1) + Z.of_nat n)).
  - rewrite decide_True by lia. rewrite Hs; [done|]. apply Hst. lia.
  - rewrite splice_insert by lia. destruct (decide (j = p + k)) as [->|].
    + rewrite decide_True, list_lookup_insert_eq by (unfold zlen in *; lia). subst b. do 3 f_equal. lia.
    + rewrite decide_False by lia. apply list_lookup_insert_ne. lia.
Qed.

(** The [i]-th axis of six raw bytes, and a measurement in milli-units. *)
Definition raw_axis (raw : list Z) (i : nat) : Z := s16 (nth (2 * i) raw 0 + 256 * nth (2 * i + 1) raw 0).
Definition milli (s x : Z) : Z := Z.quot (x * s + 500) 1000.

Lemma raw_axis_range raw i : - 32768 ≤ raw_axis raw i ≤ 32767.
Proof using. unfold raw_axis, s16. dlia. Qed.

Lemma milli_bound s x : 0 ≤ s → - 32768 ≤ x ≤ 32767 → Z.abs (milli s x) ≤ (32768 * s + 500) / 1000.
Proof using.
  intros Hs Hx. unfold milli. rewrite <-Z.quot_abs, Z.quot_div_nonneg by lia. apply Z.div_le_mono; [done|]. nia.
Qed.

(** The measurement is the product to the nearest thousandth if it is positive. *)
Lemma milli_error s x : 0 ≤ s → - 500 ≤ x * s → - 500 ≤ x * s - 1000 * milli s x < 500.
Proof using. intros Hs Hx. unfold milli. rewrite Z.quot_div_nonneg by lia. dlia. Qed.

Lemma scaled_spec raw s buff : zlen raw = 6 → zlen buff = 3 → 0 ≤ s ≤ 70000 →
  scaled raw s buff = Ok ((λ i, milli s (raw_axis raw i)) <$> [0; 1; 2]%nat).
Proof using.
  intros Hr Hb Hs. destruct raw as [|r0 [|r1 [|r2 [|r3 [|r4 [|r5 [|]]]]]]]; unfold zlen in Hr; cbn in Hr; try lia.
  destruct buff as [|b0 [|b1 [|b2 [|]]]]; unfold zlen in Hb; cbn in Hb; try lia.
  assert (∀ x, - 32768 ≤ x ≤ 32767 → s32 (Z.quot (x * s + 500) 1000) = milli s x) as Hid.
  { intros x Hx. pose proof (milli_bound s x ltac:(lia) Hx) as Hm. unfold milli in *. 
    assert ((32768 * s + 500) / 1000 ≤ 2293760) by dlia. unfold s32. dlia. }
  pose proof (raw_axis_range [r0; r1; r2; r3; r4; r5]) as Hax.
  change (Ok [s32 (Z.quot (raw_axis [r0; r1; r2; r3; r4; r5] 0 * s + 500) 1000);
    s32 (Z.quot (raw_axis [r0; r1; r2; r3; r4; r5] 1 * s + 500) 1000);
    s32 (Z.quot (raw_axis [r0; r1; r2; r3; r4; r5] 2 * s + 500) 1000)] =
    Ok [milli s (raw_axis [r0; r1; r2; r3; r4; r5] 0); milli s (raw_axis [r0; r1; r2; r3; r4; r5] 1);
        milli s (raw_axis [r0; r1; r2; r3; r4; r5] 2)]).
  by rewrite !Hid.
Qed.

Lemma land_12_cases c : Z.land c 12 ∈ [0; 4; 8; 12].
Proof using.
  assert (Z.land c 12 = Z.land (c `mod` 16) 12) as ->.
  { change 16 with (2 ^ 4). rewrite <-Z.land_ones, <-Z.land_assoc by done. done. }
  assert (c `mod` 16 ∈ seqZ 0 16) as Hin by (apply elem_of_seqZ; dlia).
  revert Hin. generalize (c `mod` 16). apply Forall_forall. vm_compute. repeat constructor; set_solver.
Qed.

(** The full scale an encoded field selects, in g and in degrees per second. *)
Definition xl_range (fs : Z) : Z := switch fs
  [(LSM6DSL_ACC_GYRO_FS_XL_2g, 2); (LSM6DSL_ACC_GYRO_FS_XL_4g, 4);
   (LSM6DSL_ACC_GYRO_FS_XL_8g, 8); (LSM6DSL_ACC_GYRO_FS_XL_16g, 16)] 0.
Definition g_range (fs : Z) : Z := switch fs
  [(LSM6DSL_ACC_GYRO_FS_G_245dps, 250); (LSM6DSL_ACC_GYRO_FS_G_500dps, 500);
   (LSM6DSL_ACC_GYRO_FS_G_1000dps, 1000); (LSM6DSL_ACC_GYRO_FS_G_2000dps, 2000)] 0.

(** The six registers from [r] on, as three 16-bit values. *)
Definition axes (w : W) (r : Z) : list Z :=
  (λ i, s16 (cell w (at_reg w (r + 2 * i)) + 256 * cell w (at_reg w (r + (2 * i + 1))))) <$> [0; 1; 2].

(** What a measurement from the registers [r] to [r + 5] gives: three values
    within [bound], and if no read fails, the axes scaled by [s]. *)
Definition measured (r bound s : Z) (w : W) (res : mems_status_t * list Z) (w' : W) : Prop :=
  res.1 = MEMS_SUCCESS ∧ zlen res.2 = 3 ∧ Forall (λ v, Z.abs v ≤ bound) res.2 ∧ same_cells w w' ∧
  (reliable W → (∀ i, 0 ≤ i < 6 → stored (at_reg w (r + i))) → res.2 = milli s <$> axes w r).

Lemma switch_case {A} x (cases : list (Z * A)) d (P : A → Prop) :
  P d → Forall (λ c, P c.2) cases → P (switch x cases d).
Proof using. intros Hd. induction 1 as [|[c a] cases]; cbn; [done|]. by destruct (x =? c). Qed.

Lemma dwp_measure r m buff w w0 s bound s0 : 0 < r → r + 6 ≤ 256 → zlen m = 6 → bytes m → zlen buff = 3 → 0 ≤ s ≤ 70000 →
  (32768 * s + 500) / 1000 ≤ bound → same_cells w0 w → (reliable W → s = s0) →
  dwp (raw ← ('(_, raw) ← read_bytes 6 r 0 m 0; mret raw); buff ← checked (scaled raw s buff); mret (MEMS_SUCCESS, buff))
    (measured r bound s0 w0) w.
Proof using Hs1.
  intros Hr H6 Hz Hb Hz3 Hs Hbd Hw Hs0. apply dwp_bind, dwp_bind, dwp_read_bytes; [done|done|lia|done|done|lia|].
  intros st raw w1 Hzr Hbr Hw1 Hc Hrel. apply dwp_ret. eapply dwp_checked; [apply scaled_spec; [lia|done|done]|].
  apply dwp_ret. split; [done|split; [done|split; [|split]]].
  - apply Forall_fmap, Forall_true. intros i. cbn. etrans; [|exact Hbd]. apply milli_bound; [lia|]. apply raw_axis_range.
  - by eapply same_cells_trans.
  - intros Hok Hst. specialize (Hs0 Hok). subst s0. cbn [snd].
    assert (∀ i, 0 ≤ i < 6 → nth (Z.to_nat i) raw 0 = cell w0 (at_reg w0 (r + i))) as Hn.
    { intros i Hi. apply nth_lookup_Some. rewrite (Hc (Hrel Hok)); [|..|lia].
      - rewrite decide_True by lia. rewrite Z.sub_0_r, (at_reg_same _ _ _ Hw), Hw; [done|]. by apply Hst.
      - intros k Hk. rewrite (at_reg_same _ _ _ Hw). apply Hst. lia. }
    unfold axes, raw_axis. cbn [fmap list_fmap]. cbn [Nat.mul Nat.add].
    rewrite <-!Hn by lia. done.
Qed.

(** C33: a measurement always returns MEMS_SUCCESS and three values within the
    range of the largest full scale, whatever the bus does, without overflow; if no read fails, they are
    the signed 16-bit axes of the device in mg (mdps), scaled by the sensitivity of
    the selected full scale: 61 micro-g per 2 g, 35 micro-dps per dps. *)
Theorem LSM6DSL_measurements fs fs_125 raw buff w : zlen raw = 6 → bytes raw → zlen buff = 3 →
  stored (at_reg w LSM6DSL_ACC_GYRO_CTRL2_G) →
  dwp (LSM6DSL_ACC_Get_Acceleration fs raw buff 0)
    (measured LSM6DSL_ACC_GYRO_OUTX_L_XL 15991
      (61 * xl_range (Z.land (cell w (at_reg w LSM6DSL_ACC_GYRO_CTRL1_XL)) 12) / 2) w) w ∧
  dwp (LSM6DSL_ACC_Get_AngularRate fs_125 fs raw buff 0)
    (measured LSM6DSL_ACC_GYRO_OUTX_L_G 2293760
      (35 * let c := cell w (at_reg w LSM6DSL_ACC_GYRO_CTRL2_G) in
            if Z.land c 2 =? 2 then 125 else g_range (Z.land c 12)) w) w.
Proof using Hs1.
  intros Hz Hb Hz3 Hst. split.
  - unfold LSM6DSL_ACC_Get_Acceleration. apply dwp_bind, dwp_R_field; [done|done|]. intros st fs' w1 Hs Hv Hrel.
    eapply (dwp_checked _ (switch fs' [(0, 61); (8, 122); (12, 244); (4, 488)] 0)).
    { cbn [switch]. unfold LSM6DSL_ACC_GYRO_FS_XL_2g, LSM6DSL_ACC_GYRO_FS_XL_4g, LSM6DSL_ACC_GYRO_FS_XL_8g, LSM6DSL_ACC_GYRO_FS_XL_16g.
      by repeat case_match. }
    apply dwp_measure; try done.
    + apply (switch_case _ _ _ (λ s, 0 ≤ s ≤ 70000)); [done|]. repeat constructor; by vm_compute.
    + apply (switch_case _ _ _ (λ s, (32768 * s + 500) / 1000 ≤ 15991)); [done|]. repeat constructor; by vm_compute.
    + intros Hok. rewrite (Hv (Hrel Hok)). change LSM6DSL_ACC_GYRO_FS_XL_MASK with 12.
      pose proof (land_12_cases (cell w (at_reg w LSM6DSL_ACC_GYRO_CTRL1_XL))) as Hc. revert Hc.
      generalize (Z.land (cell w (at_reg w LSM6DSL_ACC_GYRO_CTRL1_XL)) 12). apply Forall_forall. by repeat constructor.
  - unfold LSM6DSL_ACC_Get_AngularRate. apply dwp_bind, dwp_R_field; [done|done|]. intros st fs_125' w1 Hs Hv Hrel.
    unfold LSM6DSL_ACC_GYRO_FS_125_ENABLED. destruct (Z.eqb_spec fs_125' 2) as [E|E].
    + eapply dwp_checked; [done|]. apply dwp_measure; try done. intros Hok.
      specialize (Hv (Hrel Hok)). change LSM6DSL_ACC_GYRO_FS_125_MASK with 2 in Hv. cbv zeta. by rewrite <-Hv, E.
    + apply dwp_bind, dwp_bind, dwp_R_field; [done|done|]. intros st2 fs' w2 Hs2 Hv2 Hrel2.
      eapply (dwp_lift _ (switch fs' [(0, 8750); (4, 17500); (8, 35000); (12, 70000)] 0)).
      { cbn [switch]. unfold LSM6DSL_ACC_GYRO_FS_G_245dps, LSM6DSL_ACC_GYRO_FS_G_500dps, LSM6DSL_ACC_GYRO_FS_G_1000dps, LSM6DSL_ACC_GYRO_FS_G_2000dps.
        by repeat case_match. }
      apply dwp_measure; try done.
      * apply (switch_case _ _ _ (λ s, 0 ≤ s ≤ 70000)); [done|]. repeat constructor; by vm_compute.
      * apply (switch_case _ _ _ (λ s, (32768 * s + 500) / 1000 ≤ 2293760)); [done|]. repeat constructor; by vm_compute.
      * by eapply same_cells_trans.
      * intros Hok. specialize (Hv (Hrel Hok)). change LSM6DSL_ACC_GYRO_FS_125_MASK with 2 in Hv. cbv zeta. rewrite <-Hv.
        rewrite (proj2 (Z.eqb_neq _ _) E), (Hv2 (Hrel2 Hok)). change LSM6DSL_ACC_GYRO_FS_G_MASK with 12.
        rewrite (at_reg_same _ _ _ Hs), (Hs _ Hst).
        pose proof (land_12_cases (cell w (at_reg w LSM6DSL_ACC_GYRO_CTRL2_G))) as Hc. revert Hc.
        generalize (Z.land (cell w (at_reg w LSM6DSL_ACC_GYRO_CTRL2_G)) 12). apply Forall_forall. by repeat constructor.
Qed.

(** ** Independence of the fields *)








(** ** A bus that fails *)
Lemma read_reg_dead r m p n w (Q : mems_status_t * list Z → W → Prop) : dead W → bytes m → 0 ≤ p → 0 ≤ n → p + n ≤ zlen m →
  (∀ m' w', zlen m' = zlen m → bytes m' → same_cells w w' → Q (MEMS_ERROR, m') w') →
  dwp (LSM6DSL_ACC_GYRO_read_reg r m p n) Q w.
Proof using.
  intros [Hd _] Hm Hp Hn Hl HQ. unfold LSM6DSL_ACC_GYRO_read_reg. eapply dwp_checked; [by apply rd_bytes_field|].
  apply dwp_bind. unfold dwp at 1, bus_read. pose proof (Hd (u8 r) (field m p n) n w) as Hrc.
  destruct (io_read (u8 r) (field m p n) n w) as [[rc bs] w'] eqn:E. cbn in Hrc.
  destruct (read_law _ _ _ _ _ _ _ E) as (Hz & Hb & Hs & Hv); [by apply zlen_field|by apply field_bytes|].
  eapply dwp_checked; [apply wr_bytes_ok; lia|]. apply dwp_ret. rewrite (proj2 (Z.eqb_neq _ _) Hrc).
  apply HQ; [apply zlen_splice; lia| |done].
  unfold splice. repeat apply Forall_app_2; [by apply Forall_take|done|by apply Forall_drop].
Qed.

Lemma read_byte_dead r v w (Q : mems_status_t * Z → W → Prop) : dead W → is_u8 v →
  (∀ b w', same_cells w w' → Q (MEMS_ERROR, b) w') → dwp (read_byte r v) Q w.
Proof using.
  intros Hd Hv HQ. unfold read_byte. apply dwp_bind, read_reg_dead; [done|by constructor|done..|].
  intros [|b [|]] w' Hz Hb Hs; try (exfalso; unfold zlen in Hz; cbn in Hz; lia).
  eapply dwp_checked; [done|]. by apply HQ.
Qed.

(** A function that returns [MEMS_SUCCESS] whatever the bus does. *)
Definition always_succeeds (f : dev W mems_status_t) : Prop := ∀ w, dwp f (λ st _, st = MEMS_SUCCESS) w.

Lemma ignored (f g : dev W mems_status_t) w (Q : mems_status_t → W → Prop) :
  dwp f (λ _ _, True) w → (∀ w', dwp g Q w') → dwp (_ ← f; g) Q w.
Proof using. intros Hf Hg. apply dwp_bind. eapply dwp_mono; [exact Hf|]. intros a s _. apply Hg. Qed.

Lemma W_field_returns r mask v w : is_u8 r → is_u8 v → dwp (W_field r mask v) (λ _ _, True) w.
Proof using Hs1 Registers0. intros. by apply dwp_W_field. Qed.
Lemma write_byte_returns r v w : is_u8 r → is_u8 v → dwp (write_byte r v) (λ _ _, True) w.
Proof using Registers0. intros. by apply dwp_write_byte. Qed.
Lemma write_reg_returns r m p n w : 0 ≤ p → 0 ≤ n → p + n ≤ zlen m → dwp (LSM6DSL_ACC_GYRO_write_reg r m p n) (λ _ _, True) w.
Proof using.
  intros. unfold LSM6DSL_ACC_GYRO_write_reg. eapply dwp_checked; [by apply rd_bytes_field|].
  apply dwp_bind. unfold dwp at 1, bus_write. by destruct (io_write _ _ _).
Qed.

(** Errors of the bus: with a bus that fails, every function of the 112 fields
    returns MEMS_ERROR and changes nothing; but the functions that set the FIFO
    decimation from a number, the pedometer threshold, the soft-iron matrix and the
    sensor hub return MEMS_SUCCESS whatever the bus does. *)
Theorem LSM6DSL_bus_errors :
  (dead W → Forall (λ f, ∀ v w,
     dwp (acc_W f v) (λ st w', st = MEMS_ERROR ∧ same_cells w w') w ∧
     dwp (acc_R f v) (λ res w', res.1 = MEMS_ERROR ∧ same_cells w w') w) accessors) ∧
  (∀ v, v ∈ [0; 1; 2; 3; 4; 8; 16; 32] →
     always_succeeds (LSM6DSL_ACC_GYRO_W_DEC_FIFO_G_val v) ∧ always_succeeds (LSM6DSL_ACC_GYRO_W_DEC_FIFO_XL_val v)) ∧
  (∀ junk v, is_u8 junk → always_succeeds (LSM6DSL_ACC_GYRO_W_PedoThreshold junk v)) ∧
  (∀ m, 9 ≤ zlen m → always_succeeds (LSM6DSL_ACC_GYRO_SH_init_SI_Matrix m)) ∧
  (∀ a r n, is_u8 a → is_u8 r → always_succeeds (LSM6DSL_ACC_GYRO_SH0_Program a r n)).
Proof using Hs1.
  split; [|split; [|split; [|split]]].
  - intros Hd. eapply Forall_impl; [apply accessors_are|]. intros f (Hr & Hm & Hv & -> & ->) v w. split.
    + apply dwp_bind, read_byte_dead; [done|done|]. intros b w' Hs. by apply dwp_ret.
    + apply dwp_bind, read_byte_dead; [done|by apply u8_range|]. intros b w' Hs. by apply dwp_ret.
  - apply Forall_forall. repeat constructor; intros w; cbn -[W_field]; apply ignored; try done; by apply W_field_returns.
  - intros junk v Hj w. apply ignored; [by apply W_field_returns|]. intros w1.
    apply dwp_bind, dwp_read_byte; [done|done|]. intros st b w2 Hb _ _ _.
    assert (is_u8 (u8 (Z.lor (u8 (Z.land b (Z.lnot 31))) (Z.land v 31)))) by apply u8_range.
    apply ignored; [by apply write_byte_returns|]. intros w3. apply ignored; [by apply W_field_returns|]. intros w4. by apply dwp_ret.
  - intros m Hm w. apply ignored; [by apply W_field_returns|]. intros w1.
    apply ignored; [by apply write_reg_returns|]. intros w2. apply ignored; [by apply W_field_returns|]. intros w3. by apply dwp_ret.
  - intros a r n Ha Hr w. apply ignored; [by apply W_field_returns|]. intros w1.
    apply ignored; [by apply write_byte_returns, u8_range|]. intros w2.
    apply ignored; [by apply write_byte_returns|]. intros w3.
    apply ignored; [by apply write_byte_returns, u8_range|]. intros w4.
    do 3 (apply ignored; [by apply W_field_returns|]; intros ?). by apply dwp_ret.
Qed.

(** ** Waiting for the sensor hub *)

Lemma R_field_silent r mask w : silent W → ∃ w', R_field r mask 0 w = Ok (MEMS_ERROR, 0, w').
Proof using.
  intros [[Hd _] Hs]. exists (io_read (u8 r) [0] 1 w).2.
  specialize (Hd (u8 r) [0] 1 w). specialize (Hs (u8 r) [0] 1 w).
  unfold R_field, read_byte, LSM6DSL_ACC_GYRO_read_reg, bus_read.
  unfold mbind, mret, dev_bind, dev_ret, checked. cbn.
  change (rd_bytes [u8 0] 0 1) with (Ok [0]). cbn.
  destruct (io_read (u8 r) [0] 1 w) as [[rc bs] w']. cbn in Hd, Hs. subst bs.
  change (wr_bytes [u8 0] 0 [0]) with (Ok [0]). cbn. change (rd [0] 0) with (Ok 0). cbn. by rewrite (proj2 (Z.eqb_neq _ _) Hd).
Qed.

Lemma poll_silent fuel r mask until w : silent W → until ≠ 0 → poll fuel (R_field r mask) 0 until w = Ub OutOfFuel.
Proof using.
  intros Hs Hu. revert w. induction fuel as [|fuel IH]; intros w; [done|]. cbn [poll].
  destruct (R_field_silent r mask w Hs) as [w' E].
  change ((R_field r mask 0 w ≫= λ '(a, s), (λ '(_, v), if v =? until then mret v else poll fuel (R_field r mask) v until) a s) = Ub OutOfFuel).
  rewrite E. cbn -[Z.eqb poll]. rewrite (proj2 (Z.eqb_neq 0 until)) by congruence. apply IH.
Qed.

Lemma poll_ready fuel r mask v until w (Q : Z → W → Prop) : reliable W → is_u8 r → is_u8 mask →
  Z.land (cell w (at_reg w r)) mask = until → (∀ w', same_cells w w' → Q until w') →
  dwp (poll (S fuel) (R_field r mask) v until) Q w.
Proof using.
  intros Hrel Hr Hm Hc HQ. cbn [poll]. apply dwp_bind, dwp_R_field; [done|done|]. intros st v' w' Hs Hv Hok.
  rewrite (Hv (Hok Hrel)), Hc, Z.eqb_refl. by apply dwp_ret, HQ.
Qed.

(** C35: the loop that waits for the sensor hub has no limit: if the device does not
    answer it never returns, however long it runs; if reads succeed and both flags
    are set it returns after one round. *)
Theorem LSM6DSL_hub_wait fuel w :
  (silent W → wait_hub fuel w = Ub OutOfFuel) ∧
  (reliable W → (0 < fuel)%nat →
   stored (at_reg w LSM6DSL_ACC_GYRO_STATUS_REG) → stored (at_reg w LSM6DSL_ACC_GYRO_FUNC_SRC) →
   Z.land (cell w (at_reg w LSM6DSL_ACC_GYRO_STATUS_REG)) LSM6DSL_ACC_GYRO_XLDA_MASK = LSM6DSL_ACC_GYRO_XLDA_DATA_AVAIL →
   Z.land (cell w (at_reg w LSM6DSL_ACC_GYRO_FUNC_SRC)) LSM6DSL_ACC_GYRO_SENS_HUB_END_MASK =
     LSM6DSL_ACC_GYRO_SENS_HUB_END_OP_COMPLETED →
   dwp (wait_hub fuel) (λ _ w', same_cells w w') w).
Proof using Hs1.
  split.
  - intros Hs. unfold wait_hub.
    assert (dwp (LSM6DSL_ACC_GYRO_GetRawAccData (replicate 6 0) 0) (λ _ _, True) w) as Hr.
    { apply dwp_read_bytes; try done. by repeat constructor. }
    apply dwp_inv in Hr as ([st m] & w1 & E & _). unfold mbind at 1, dev_bind at 1. rewrite E. cbn [mbind outcome_bind].
    change LSM6DSL_ACC_GYRO_R_XLDA with (R_field (W:=W) LSM6DSL_ACC_GYRO_STATUS_REG LSM6DSL_ACC_GYRO_XLDA_MASK).
    unfold mbind at 1, dev_bind at 1. unfold LSM6DSL_ACC_GYRO_XLDA_NO_DATA_AVAIL. by rewrite poll_silent.
  - intros Hrel Hf Hs2 Hs3 Hx He. destruct fuel as [|fuel]; [lia|].
    apply dwp_bind, dwp_read_bytes; try done; [by repeat constructor|]. intros st m w1 _ _ Hw1 _ _.
    apply dwp_bind. apply poll_ready; [done|done|done|by rewrite (at_reg_same _ _ _ Hw1), (Hw1 _ Hs2)|]. intros w2 Hw2.
    assert (same_cells w w2) as Hw by (by eapply same_cells_trans).
    apply dwp_bind. apply poll_ready; [done|done|done|by rewrite (at_reg_same _ _ _ Hw), (Hw _ Hs3)|]. intros w3 Hw3.
    apply dwp_ret. by eapply same_cells_trans.
Qed.
End spec.

(** * A device *)
(** Data is ready and the hub is done; the full scale is 8 g. *)
Definition chip0 : chip lsm_place := Chip (λ a, if a =? LSM6DSL_ACC_GYRO_CTRL1_XL then 12 else 1).

Lemma LSM6DSL_fields_roundtrip_witness : ∃ f, f ∈ accessors (W := chip lsm_place) ∧
  restores (λ _, True) [acc_reg f] (acc_W f 64) (acc_R f 0) 64 chip0.
Proof.
  eexists. split; [by left|]. apply (LSM6DSL_fields_roundtrip (λ _, True)); [done|by left|by right; left|done].
Defined.


Lemma LSM6DSL_packed_roundtrip_witness : ∃ v, v = 952 ∧
  restores (λ _, True) [LSM6DSL_ACC_GYRO_FIFO_CTRL1; LSM6DSL_ACC_GYRO_FIFO_CTRL2]
    (LSM6DSL_ACC_GYRO_W_FIFO_Watermark 3000) (LSM6DSL_ACC_GYRO_R_FIFO_Watermark 0) v chip0.
Proof.
  eexists. split; [|refine (proj1 (proj2 (LSM6DSL_packed_roundtrip (W := chip lsm_place) (λ _, True) I
    {| pk_W := λ _, mret MEMS_SUCCESS; pk_R := λ _, mret (MEMS_SUCCESS, 0); pk_reg := 0; pk_position := 0; pk_mask := 0; pk_width := 0 |}
    3000 0 chip0 _)) I I)]; by vm_compute.
Defined.

Lemma LSM6DSL_measurements_witness : reliable (chip lsm_place) ∧ ∃ s, s = 244 ∧
  dwp (LSM6DSL_ACC_Get_Acceleration 0 [0; 0; 0; 0; 0; 0] [0; 0; 0] 0)
    (measured (λ _, True) LSM6DSL_ACC_GYRO_OUTX_L_XL 15991 s chip0) chip0.
Proof.
  split; [done|]. eexists. split; [|
  refine (proj1 (LSM6DSL_measurements (W := chip lsm_place) (λ _, True) I 0 0 [0; 0; 0; 0; 0; 0] [0; 0; 0] chip0 eq_refl _ eq_refl I))];
  [by vm_compute|by repeat constructor].
Defined.

Lemma LSM6DSL_bus_errors_witness :
  Forall (λ f, dwp (acc_W f 0) (λ st _, st = MEMS_ERROR) ()) (accessors (W := ())) ∧
  always_succeeds (W := chip lsm_place) (LSM6DSL_ACC_GYRO_W_PedoThreshold 0 5).
Proof.
  split.
  - eapply Forall_impl; [by apply (proj1 (LSM6DSL_bus_errors (W := ()) (λ _, True) I))|]. intros f Hf. cbn beta.
    eapply dwp_mono; [apply (proj1 (Hf 0 ()))|]. by intros a s [? _].
  - by apply (proj1 (proj2 (proj2 (LSM6DSL_bus_errors (W := chip lsm_place) (λ _, True) I)))).
Defined.

Lemma LSM6DSL_hub_wait_witness :
  wait_hub 1000 () = Ub OutOfFuel ∧ dwp (wait_hub 1) (λ _ w', same_cells chip0 w') chip0.
Proof.
  split.
  - by apply (proj1 (LSM6DSL_hub_wait (W := ()) (λ _, True) I 1000 ())).
  - by apply (proj2 (LSM6DSL_hub_wait (W := chip lsm_place) (λ _, True) I 1 chip0)); [|lia|..].
Defined.
