(* ===== verification/Lsm6dslSensor.v ===== *)
(** LSM6DSLSensor.cpp: the class of the accelerometer and gyroscope over its driver.

    A method is a computation on the object and the world behind the bus; what it
    stores through a pointer is part of its result. [local] is what an uninitialised
    local variable holds. *)
From S2P Require Export Lsm6dsl Float32.

(** [(float)x] of a decimal constant [n / d], which is a [double] first. *)
Definition to_f32 (x : spec_float) : f32 :=
  match x with S754_finite s m e => binary_normalize 24 128 (cond_Zopp s (Z.pos m)) e s | _ => x end.
Definition dlit (n d : Z) : f32 :=
  to_f32 (SFdiv 53 1024 (binary_normalize 53 1024 n 0 false) (binary_normalize 53 1024 d 0 false)).

(** A literal such as [13.0f]. *)
Definition lit (z : Z) : f32 := f32_of_Z z.

Definition LSM6DSL_ACC_SENSITIVITY_FOR_FS_2G : f32 := dlit 61 1000.
Definition LSM6DSL_ACC_SENSITIVITY_FOR_FS_4G : f32 := dlit 122 1000.
Definition LSM6DSL_ACC_SENSITIVITY_FOR_FS_8G : f32 := dlit 244 1000.
Definition LSM6DSL_ACC_SENSITIVITY_FOR_FS_16G : f32 := dlit 488 1000.
Definition LSM6DSL_GYRO_SENSITIVITY_FOR_FS_125DPS : f32 := dlit 4375 1000.
Definition LSM6DSL_GYRO_SENSITIVITY_FOR_FS_245DPS : f32 := dlit 8750 1000.
Definition LSM6DSL_GYRO_SENSITIVITY_FOR_FS_500DPS : f32 := dlit 17500 1000.
Definition LSM6DSL_GYRO_SENSITIVITY_FOR_FS_1000DPS : f32 := dlit 35000 1000.
Definition LSM6DSL_GYRO_SENSITIVITY_FOR_FS_2000DPS : f32 := dlit 70000 1000.
Definition LSM6DSL_PEDOMETER_THRESHOLD_LOW : Z := 0.
Definition LSM6DSL_PEDOMETER_THRESHOLD_MID_LOW : Z := 7.
Definition LSM6DSL_PEDOMETER_THRESHOLD_MID : Z := 15.
Definition LSM6DSL_PEDOMETER_THRESHOLD_MID_HIGH : Z := 23.
Definition LSM6DSL_PEDOMETER_THRESHOLD_HIGH : Z := 31.
Definition LSM6DSL_WAKE_UP_THRESHOLD_LOW : Z := 1.
Definition LSM6DSL_WAKE_UP_THRESHOLD_MID_LOW : Z := 15.
Definition LSM6DSL_WAKE_UP_THRESHOLD_MID : Z := 31.
Definition LSM6DSL_WAKE_UP_THRESHOLD_MID_HIGH : Z := 47.
Definition LSM6DSL_WAKE_UP_THRESHOLD_HIGH : Z := 63.
Definition LSM6DSL_TAP_THRESHOLD_LOW : Z := 1.
Definition LSM6DSL_TAP_THRESHOLD_MID_LOW : Z := 8.
Definition LSM6DSL_TAP_THRESHOLD_MID : Z := 16.
Definition LSM6DSL_TAP_THRESHOLD_MID_HIGH : Z := 24.
Definition LSM6DSL_TAP_THRESHOLD_HIGH : Z := 31.
Definition LSM6DSL_TAP_SHOCK_TIME_LOW : Z := 0.
Definition LSM6DSL_TAP_SHOCK_TIME_MID_LOW : Z := 1.
Definition LSM6DSL_TAP_SHOCK_TIME_MID_HIGH : Z := 2.
Definition LSM6DSL_TAP_SHOCK_TIME_HIGH : Z := 3.
Definition LSM6DSL_TAP_QUIET_TIME_LOW : Z := 0.
Definition LSM6DSL_TAP_QUIET_TIME_MID_LOW : Z := 1.
Definition LSM6DSL_TAP_QUIET_TIME_MID_HIGH : Z := 2.
Definition LSM6DSL_TAP_QUIET_TIME_HIGH : Z := 3.
Definition LSM6DSL_TAP_DURATION_TIME_LOW : Z := 0.
Definition LSM6DSL_TAP_DURATION_TIME_MID_LOW : Z := 4.
Definition LSM6DSL_TAP_DURATION_TIME_MID : Z := 8.
Definition LSM6DSL_TAP_DURATION_TIME_MID_HIGH : Z := 12.
Definition LSM6DSL_TAP_DURATION_TIME_HIGH : Z := 15.

(** [LSM6DSL_Interrupt_Pin_t]. *)
Definition LSM6DSL_INT1_PIN : Z := 0.
Definition LSM6DSL_INT2_PIN : Z := 1.

Record LSM6DSL_Event_Status_t := {
  FreeFallStatus : Z; TapStatus : Z; DoubleTapStatus : Z; WakeUpStatus : Z;
  StepStatus : Z; TiltStatus : Z; D6DOrientationStatus : Z }.

(** The members of the object that change. *)
Record LSM6DSLSensor := { _x_is_enabled : Z; _x_last_odr : f32; _g_is_enabled : Z; _g_last_odr : f32 }.

Definition set_x_is_enabled (b : Z) (this : LSM6DSLSensor) : LSM6DSLSensor :=
  {| _x_is_enabled := b; _x_last_odr := _x_last_odr this; _g_is_enabled := _g_is_enabled this; _g_last_odr := _g_last_odr this |}.
Definition set_x_last_odr (o : f32) (this : LSM6DSLSensor) : LSM6DSLSensor :=
  {| _x_is_enabled := _x_is_enabled this; _x_last_odr := o; _g_is_enabled := _g_is_enabled this; _g_last_odr := _g_last_odr this |}.
Definition set_g_is_enabled (b : Z) (this : LSM6DSLSensor) : LSM6DSLSensor :=
  {| _x_is_enabled := _x_is_enabled this; _x_last_odr := _x_last_odr this; _g_is_enabled := b; _g_last_odr := _g_last_odr this |}.
Definition set_g_last_odr (o : f32) (this : LSM6DSLSensor) : LSM6DSLSensor :=
  {| _x_is_enabled := _x_is_enabled this; _x_last_odr := _x_last_odr this; _g_is_enabled := _g_is_enabled this; _g_last_odr := o |}.

(** [x <= c1 ? a1 : x <= c2 ? a2 : ... : d]. *)
Fixpoint up_to {A} (x : f32) (cases : list (f32 * A)) (d : A) : A :=
  match cases with
  | [] => d
  | (c, a) :: cases => if f32_le x c then a else up_to x cases d
  end.

(** One axis of a measurement from its two bytes, and in mg or mdps. *)
Definition axis_raw (regValue : list Z) (i : Z) : outcome Z :=
  h ← rd regValue (2 * i + 1); l ← rd regValue (2 * i); Ok (s16 (Z.shiftl h 8 + l)).
Definition axis_value (dataRaw : list Z) (sensitivity : f32) (i : Z) : outcome Z :=
  x ← rd dataRaw i; f32_to_int (- 2147483648) 2147483647 (f32_mul (f32_of_Z x) sensitivity).
Definition three_axes (axis : Z → outcome Z) (pData : list Z) : outcome (list Z) :=
  x ← axis 0; pData ← wr pData 0 x; y ← axis 1; pData ← wr pData 1 y; z ← axis 2; wr pData 2 z.

(** [if (mask & value) ... status = 1]. *)
Definition event_flag (routed source : bool) : Z := if routed then if source then 1 else 0 else 0.
Definition bits_set (value mask : Z) : bool := negb (Z.land value mask =? 0).

Section class.
Context {W : Type} `{Bus W} (local : Z).

Definition meth (A : Type) : Type := dev (LSM6DSLSensor * W) A.
Definition this : meth LSM6DSLSensor := λ s, Ok (s.1, s).
Definition update (f : LSM6DSLSensor → LSM6DSLSensor) : meth () := λ s, Ok ((), (f s.1, s.2)).
Definition drive {A} (m : dev W A) : meth A := λ s, '(a, w) ← m s.2; Ok (a, (s.1, w)).

(** 1 if a function of the driver returns MEMS_ERROR. *)
Definition driver (m : dev W mems_status_t) : meth Z := st ← drive m; mret (if failed st then 1 else 0).

(** [if (m == 1) { return 1; } k]. *)
Definition guarded (m : meth Z) (k : meth Z) : meth Z := r ← m; if r =? 1 then mret 1 else k.
Notation "m '!>' k" := (guarded m k) (at level 90, right associativity).

(** A value the driver reads, translated; [d] if it is none of [cases]. *)
Definition inquire {A} (read : dev W (mems_status_t * Z)) (cases : list (Z * A)) (d old : A) : meth (Z * A) :=
  '(st, v) ← drive read;
  if failed st then mret (1, old) else
  mret (switch v ((λ c, (c.1, (0, c.2))) <$> cases) (1, d)).

Definition readReg (reg data : Z) : meth (Z * Z) :=
  '(st, data) ← drive (read_byte reg data);
  mret (if failed st then 1 else 0, data).
Definition writeReg (reg data : Z) : meth Z := driver (write_byte reg data).

(** ** Identification, rates and full scales *)

Definition readId (id : option Z) : meth (Z * option Z) :=
  match id with
  | None => mret (1, None)
  | Some id =>
    '(st, id) ← drive (LSM6DSL_ACC_GYRO_R_WHO_AM_I id);
    mret (if failed st then 1 else 0, Some id)
  end.

Definition getXOdr (odr : f32) : meth (Z * f32) :=
  inquire (LSM6DSL_ACC_GYRO_R_ODR_XL local)
    [(LSM6DSL_ACC_GYRO_ODR_XL_POWER_DOWN, lit 0);
     (LSM6DSL_ACC_GYRO_ODR_XL_13Hz, lit 13);
     (LSM6DSL_ACC_GYRO_ODR_XL_26Hz, lit 26);
     (LSM6DSL_ACC_GYRO_ODR_XL_52Hz, lit 52);
     (LSM6DSL_ACC_GYRO_ODR_XL_104Hz, lit 104);
     (LSM6DSL_ACC_GYRO_ODR_XL_208Hz, lit 208);
     (LSM6DSL_ACC_GYRO_ODR_XL_416Hz, lit 416);
     (LSM6DSL_ACC_GYRO_ODR_XL_833Hz, lit 833);
     (LSM6DSL_ACC_GYRO_ODR_XL_1660Hz, lit 1660);
     (LSM6DSL_ACC_GYRO_ODR_XL_3330Hz, lit 3330);
     (LSM6DSL_ACC_GYRO_ODR_XL_6660Hz, lit 6660)] (lit (-1)) odr.
Definition setXOdrWhenEnabled (odr : f32) : meth Z :=
  let new_odr := up_to odr
    [(lit 13, LSM6DSL_ACC_GYRO_ODR_XL_13Hz);
     (lit 26, LSM6DSL_ACC_GYRO_ODR_XL_26Hz);
     (lit 52, LSM6DSL_ACC_GYRO_ODR_XL_52Hz);
     (lit 104, LSM6DSL_ACC_GYRO_ODR_XL_104Hz);
     (lit 208, LSM6DSL_ACC_GYRO_ODR_XL_208Hz);
     (lit 416, LSM6DSL_ACC_GYRO_ODR_XL_416Hz);
     (lit 833, LSM6DSL_ACC_GYRO_ODR_XL_833Hz);
     (lit 1660, LSM6DSL_ACC_GYRO_ODR_XL_1660Hz);
     (lit 3330, LSM6DSL_ACC_GYRO_ODR_XL_3330Hz)] LSM6DSL_ACC_GYRO_ODR_XL_6660Hz in
  driver (LSM6DSL_ACC_GYRO_W_ODR_XL new_odr) !>
  mret 0.
Definition setXOdrWhenDisabled (odr : f32) : meth Z :=
  _ ← update (set_x_last_odr (up_to odr
    [(lit 13, lit 13); (lit 26, lit 26); (lit 52, lit 52); (lit 104, lit 104); (lit 208, lit 208); (lit 416, lit 416); (lit 833, lit 833); (lit 1660, lit 1660); (lit 3330, lit 3330)] (lit 6660)));
  mret 0.
Definition setXOdr (odr : f32) : meth Z :=
  t ← this;
  if _x_is_enabled t =? 1 then setXOdrWhenEnabled odr !> mret 0
  else setXOdrWhenDisabled odr !> mret 0.

Definition getGOdr (odr : f32) : meth (Z * f32) :=
  inquire (LSM6DSL_ACC_GYRO_R_ODR_G local)
    [(LSM6DSL_ACC_GYRO_ODR_G_POWER_DOWN, lit 0);
     (LSM6DSL_ACC_GYRO_ODR_G_13Hz, lit 13);
     (LSM6DSL_ACC_GYRO_ODR_G_26Hz, lit 26);
     (LSM6DSL_ACC_GYRO_ODR_G_52Hz, lit 52);
     (LSM6DSL_ACC_GYRO_ODR_G_104Hz, lit 104);
     (LSM6DSL_ACC_GYRO_ODR_G_208Hz, lit 208);
     (LSM6DSL_ACC_GYRO_ODR_G_416Hz, lit 416);
     (LSM6DSL_ACC_GYRO_ODR_G_833Hz, lit 833);
     (LSM6DSL_ACC_GYRO_ODR_G_1660Hz, lit 1660);
     (LSM6DSL_ACC_GYRO_ODR_G_3330Hz, lit 3330);
     (LSM6DSL_ACC_GYRO_ODR_G_6660Hz, lit 6660)] (lit (-1)) odr.
Definition setGOdrWhenEnabled (odr : f32) : meth Z :=
  let new_odr := up_to odr
    [(lit 13, LSM6DSL_ACC_GYRO_ODR_G_13Hz);
     (lit 26, LSM6DSL_ACC_GYRO_ODR_G_26Hz);
     (lit 52, LSM6DSL_ACC_GYRO_ODR_G_52Hz);
     (lit 104, LSM6DSL_ACC_GYRO_ODR_G_104Hz);
     (lit 208, LSM6DSL_ACC_GYRO_ODR_G_208Hz);
     (lit 416, LSM6DSL_ACC_GYRO_ODR_G_416Hz);
     (lit 833, LSM6DSL_ACC_GYRO_ODR_G_833Hz);
     (lit 1660, LSM6DSL_ACC_GYRO_ODR_G_1660Hz);
     (lit 3330, LSM6DSL_ACC_GYRO_ODR_G_3330Hz)] LSM6DSL_ACC_GYRO_ODR_G_6660Hz in
  driver (LSM6DSL_ACC_GYRO_W_ODR_G new_odr) !>
  mret 0.
Definition setGOdrWhenDisabled (odr : f32) : meth Z :=
  _ ← update (set_g_last_odr (up_to odr
    [(lit 13, lit 13); (lit 26, lit 26); (lit 52, lit 52); (lit 104, lit 104); (lit 208, lit 208); (lit 416, lit 416); (lit 833, lit 833); (lit 1660, lit 1660); (lit 3330, lit 3330)] (lit 6660)));
  mret 0.
Definition setGOdr (odr : f32) : meth Z :=
  t ← this;
  if _g_is_enabled t =? 1 then setGOdrWhenEnabled odr !> mret 0
  else setGOdrWhenDisabled odr !> mret 0.

Definition getXFullScale (fullScale : f32) : meth (Z * f32) :=
  inquire (LSM6DSL_ACC_GYRO_R_FS_XL local)
    [(LSM6DSL_ACC_GYRO_FS_XL_2g, lit 2);
     (LSM6DSL_ACC_GYRO_FS_XL_4g, lit 4);
     (LSM6DSL_ACC_GYRO_FS_XL_8g, lit 8);
     (LSM6DSL_ACC_GYRO_FS_XL_16g, lit 16)] (lit (-1)) fullScale.
Definition getGFullScale (fullScale : f32) : meth (Z * f32) :=
  '(st, fs_125) ← drive (LSM6DSL_ACC_GYRO_R_FS_125 local);
  if failed st then mret (1, fullScale) else
  '(st, fs_low_level) ← drive (LSM6DSL_ACC_GYRO_R_FS_G local);
  if failed st then mret (1, fullScale) else
  if fs_125 =? LSM6DSL_ACC_GYRO_FS_125_ENABLED then mret (0, lit 125) else
  mret (switch fs_low_level ((λ c, (c.1, (0, c.2))) <$>
    [(LSM6DSL_ACC_GYRO_FS_G_245dps, lit 245);
     (LSM6DSL_ACC_GYRO_FS_G_500dps, lit 500);
     (LSM6DSL_ACC_GYRO_FS_G_1000dps, lit 1000);
     (LSM6DSL_ACC_GYRO_FS_G_2000dps, lit 2000)]) (1, lit (-1))).
Definition setXFullScale (fullScale : f32) : meth Z :=
  let new_fs := up_to fullScale
    [(lit 2, LSM6DSL_ACC_GYRO_FS_XL_2g);
     (lit 4, LSM6DSL_ACC_GYRO_FS_XL_4g);
     (lit 8, LSM6DSL_ACC_GYRO_FS_XL_8g)] LSM6DSL_ACC_GYRO_FS_XL_16g in
  driver (LSM6DSL_ACC_GYRO_W_FS_XL new_fs) !>
  mret 0.
Definition setGFullScale (fullScale : f32) : meth Z :=
  if f32_le fullScale (lit 125) then
    driver (LSM6DSL_ACC_GYRO_W_FS_125 LSM6DSL_ACC_GYRO_FS_125_ENABLED) !>
    mret 0
  else
  let new_fs := up_to fullScale
    [(lit 245, LSM6DSL_ACC_GYRO_FS_G_245dps);
     (lit 500, LSM6DSL_ACC_GYRO_FS_G_500dps);
     (lit 1000, LSM6DSL_ACC_GYRO_FS_G_1000dps)] LSM6DSL_ACC_GYRO_FS_G_2000dps in
  driver (LSM6DSL_ACC_GYRO_W_FS_125 LSM6DSL_ACC_GYRO_FS_125_DISABLED) !>
  driver (LSM6DSL_ACC_GYRO_W_FS_G new_fs) !>
  mret 0.

Definition getXSensitivity (pfData : f32) : meth (Z * f32) :=
  inquire (LSM6DSL_ACC_GYRO_R_FS_XL local)
    [(LSM6DSL_ACC_GYRO_FS_XL_2g, LSM6DSL_ACC_SENSITIVITY_FOR_FS_2G);
     (LSM6DSL_ACC_GYRO_FS_XL_4g, LSM6DSL_ACC_SENSITIVITY_FOR_FS_4G);
     (LSM6DSL_ACC_GYRO_FS_XL_8g, LSM6DSL_ACC_SENSITIVITY_FOR_FS_8G);
     (LSM6DSL_ACC_GYRO_FS_XL_16g, LSM6DSL_ACC_SENSITIVITY_FOR_FS_16G)] (lit (-1)) pfData.
Definition getGSensitivity (pfData : f32) : meth (Z * f32) :=
  '(st, fullScale125) ← drive (LSM6DSL_ACC_GYRO_R_FS_125 local);
  if failed st then mret (1, pfData) else
  if fullScale125 =? LSM6DSL_ACC_GYRO_FS_125_ENABLED then mret (0, LSM6DSL_GYRO_SENSITIVITY_FOR_FS_125DPS) else
  inquire (LSM6DSL_ACC_GYRO_R_FS_G local)
    [(LSM6DSL_ACC_GYRO_FS_G_245dps, LSM6DSL_GYRO_SENSITIVITY_FOR_FS_245DPS);
     (LSM6DSL_ACC_GYRO_FS_G_500dps, LSM6DSL_GYRO_SENSITIVITY_FOR_FS_500DPS);
     (LSM6DSL_ACC_GYRO_FS_G_1000dps, LSM6DSL_GYRO_SENSITIVITY_FOR_FS_1000DPS);
     (LSM6DSL_ACC_GYRO_FS_G_2000dps, LSM6DSL_GYRO_SENSITIVITY_FOR_FS_2000DPS)] (lit (-1)) pfData.

(** ** Start, enable and disable *)

Definition sensor_init : meth Z :=
  driver (LSM6DSL_ACC_GYRO_W_IF_Addr_Incr LSM6DSL_ACC_GYRO_IF_INC_ENABLED) !>
  driver (LSM6DSL_ACC_GYRO_W_BDU LSM6DSL_ACC_GYRO_BDU_BLOCK_UPDATE) !>
  driver (LSM6DSL_ACC_GYRO_W_FIFO_MODE LSM6DSL_ACC_GYRO_FIFO_MODE_BYPASS) !>
  driver (LSM6DSL_ACC_GYRO_W_ODR_XL LSM6DSL_ACC_GYRO_ODR_XL_POWER_DOWN) !>
  setXFullScale (lit 2) !>
  driver (LSM6DSL_ACC_GYRO_W_ODR_G LSM6DSL_ACC_GYRO_ODR_G_POWER_DOWN) !>
  setGFullScale (lit 2000) !>
  _ ← update (set_x_last_odr (lit 104));
  _ ← update (set_x_is_enabled 0);
  _ ← update (set_g_last_odr (lit 104));
  _ ← update (set_g_is_enabled 0);
  mret 0.
Definition enableAccelerator : meth Z :=
  t ← this;
  if _x_is_enabled t =? 1 then mret 0 else
  setXOdrWhenEnabled (_x_last_odr t) !>
  _ ← update (set_x_is_enabled 1);
  mret 0.
Definition disableAccelerator : meth Z :=
  t ← this;
  if _x_is_enabled t =? 0 then mret 0 else
  '(r, odr) ← getXOdr (_x_last_odr t);
  _ ← update (set_x_last_odr odr);
  if r =? 1 then mret 1 else
  driver (LSM6DSL_ACC_GYRO_W_ODR_XL LSM6DSL_ACC_GYRO_ODR_XL_POWER_DOWN) !>
  _ ← update (set_x_is_enabled 0);
  mret 0.
Definition enableGyroscope : meth Z :=
  t ← this;
  if _g_is_enabled t =? 1 then mret 0 else
  setGOdrWhenEnabled (_g_last_odr t) !>
  _ ← update (set_g_is_enabled 1);
  mret 0.
Definition disableGyroscope : meth Z :=
  t ← this;
  if _g_is_enabled t =? 0 then mret 0 else
  '(r, odr) ← getGOdr (_g_last_odr t);
  _ ← update (set_g_last_odr odr);
  if r =? 1 then mret 1 else
  driver (LSM6DSL_ACC_GYRO_W_ODR_G LSM6DSL_ACC_GYRO_ODR_G_POWER_DOWN) !>
  _ ← update (set_g_is_enabled 0);
  mret 0.

(** ** Measurements *)

Definition getXAxesRaw (pData : list Z) : meth (Z * list Z) :=
  '(st, regValue) ← drive (LSM6DSL_ACC_GYRO_GetRawAccData [0; 0; 0; 0; 0; 0] 0);
  if failed st then mret (1, pData) else
  pData ← checked (three_axes (axis_raw regValue) pData);
  mret (0, pData).
Definition getXAxes (pData : list Z) : meth (Z * list Z) :=
  '(r, dataRaw) ← getXAxesRaw [local; local; local];
  if r =? 1 then mret (1, pData) else
  '(r, sensitivity) ← getXSensitivity (lit 0);
  if r =? 1 then mret (1, pData) else
  pData ← checked (three_axes (axis_value dataRaw sensitivity) pData);
  mret (0, pData).
Definition getGAxesRaw (pData : list Z) : meth (Z * list Z) :=
  '(st, regValue) ← drive (LSM6DSL_ACC_GYRO_GetRawGyroData [0; 0; 0; 0; 0; 0] 0);
  if failed st then mret (1, pData) else
  pData ← checked (three_axes (axis_raw regValue) pData);
  mret (0, pData).
Definition getGAxes (pData : list Z) : meth (Z * list Z) :=
  '(r, dataRaw) ← getGAxesRaw [local; local; local];
  if r =? 1 then mret (1, pData) else
  '(r, sensitivity) ← getGSensitivity (lit 0);
  if r =? 1 then mret (1, pData) else
  pData ← checked (three_axes (axis_value dataRaw sensitivity) pData);
  mret (0, pData).

(** ** Events *)

Definition setTapThreshold (thr : Z) : meth Z :=
  driver (LSM6DSL_ACC_GYRO_W_TAP_THS thr) !>
  mret 0.
Definition setTapShockTime (time : Z) : meth Z :=
  driver (LSM6DSL_ACC_GYRO_W_SHOCK_Duration time) !>
  mret 0.
Definition setTapQuietTime (time : Z) : meth Z :=
  driver (LSM6DSL_ACC_GYRO_W_QUIET_Duration time) !>
  mret 0.
Definition setTapDurationTime (time : Z) : meth Z :=
  driver (LSM6DSL_ACC_GYRO_W_DUR time) !>
  mret 0.
Definition setPedometerThreshold (thr : Z) : meth Z :=
  driver (LSM6DSL_ACC_GYRO_W_PedoThreshold (u8 local) thr) !>
  mret 0.
Definition setWakeUpThreshold (thr : Z) : meth Z :=
  driver (LSM6DSL_ACC_GYRO_W_WK_THS thr) !>
  mret 0.
Definition setFreeFallThreshold (thr : Z) : meth Z :=
  driver (LSM6DSL_ACC_GYRO_W_FF_THS thr) !>
  mret 0.
Definition enableFreeFallDetection (pin : Z) : meth Z :=
  setXOdr (lit 416) !>
  driver (LSM6DSL_ACC_GYRO_W_FS_XL LSM6DSL_ACC_GYRO_FS_XL_2g) !>
  driver (LSM6DSL_ACC_GYRO_W_FF_Duration 6) !>
  driver (LSM6DSL_ACC_GYRO_W_WAKE_DUR 0) !>
  driver (LSM6DSL_ACC_GYRO_W_TIMER_HR LSM6DSL_ACC_GYRO_TIMER_HR_6_4ms) !>
  driver (LSM6DSL_ACC_GYRO_W_SLEEP_DUR 0) !>
  driver (LSM6DSL_ACC_GYRO_W_FF_THS LSM6DSL_ACC_GYRO_FF_THS_312mg) !>
  driver (LSM6DSL_ACC_GYRO_W_BASIC_INT LSM6DSL_ACC_GYRO_BASIC_INT_ENABLED) !>
  switch pin
    [(LSM6DSL_INT1_PIN, driver (LSM6DSL_ACC_GYRO_W_FFEvOnInt1 LSM6DSL_ACC_GYRO_INT1_FF_ENABLED) !> mret 0);
     (LSM6DSL_INT2_PIN, driver (LSM6DSL_ACC_GYRO_W_FFEvOnInt2 LSM6DSL_ACC_GYRO_INT2_FF_ENABLED) !> mret 0)] (mret 1).
Definition disableFreeFallDetection : meth Z :=
  driver (LSM6DSL_ACC_GYRO_W_FFEvOnInt1 LSM6DSL_ACC_GYRO_INT1_FF_DISABLED) !>
  driver (LSM6DSL_ACC_GYRO_W_FFEvOnInt2 LSM6DSL_ACC_GYRO_INT2_FF_DISABLED) !>
  driver (LSM6DSL_ACC_GYRO_W_BASIC_INT LSM6DSL_ACC_GYRO_BASIC_INT_DISABLED) !>
  driver (LSM6DSL_ACC_GYRO_W_FF_Duration 0) !>
  driver (LSM6DSL_ACC_GYRO_W_FF_THS LSM6DSL_ACC_GYRO_FF_THS_156mg) !>
  mret 0.
Definition enablePedometer : meth Z :=
  setXOdr (lit 26) !>
  setXFullScale (lit 2) !>
  setPedometerThreshold LSM6DSL_PEDOMETER_THRESHOLD_MID_HIGH !>
  driver (LSM6DSL_ACC_GYRO_W_FUNC_EN LSM6DSL_ACC_GYRO_FUNC_EN_ENABLED) !>
  driver (LSM6DSL_ACC_GYRO_W_PEDO LSM6DSL_ACC_GYRO_PEDO_ENABLED) !>
  driver (LSM6DSL_ACC_GYRO_W_STEP_DET_on_INT1 LSM6DSL_ACC_GYRO_INT1_PEDO_ENABLED) !>
  mret 0.
Definition disablePedometer : meth Z :=
  driver (LSM6DSL_ACC_GYRO_W_STEP_DET_on_INT1 LSM6DSL_ACC_GYRO_INT1_PEDO_DISABLED) !>
  driver (LSM6DSL_ACC_GYRO_W_PEDO LSM6DSL_ACC_GYRO_PEDO_DISABLED) !>
  driver (LSM6DSL_ACC_GYRO_W_FUNC_EN LSM6DSL_ACC_GYRO_FUNC_EN_DISABLED) !>
  setPedometerThreshold 0 !>
  mret 0.
Definition enableTiltDetection (pin : Z) : meth Z :=
  setXOdr (lit 26) !>
  setXFullScale (lit 2) !>
  driver (LSM6DSL_ACC_GYRO_W_FUNC_EN LSM6DSL_ACC_GYRO_FUNC_EN_ENABLED) !>
  driver (LSM6DSL_ACC_GYRO_W_TILT LSM6DSL_ACC_GYRO_TILT_ENABLED) !>
  switch pin
    [(LSM6DSL_INT1_PIN, driver (LSM6DSL_ACC_GYRO_W_TiltEvOnInt1 LSM6DSL_ACC_GYRO_INT1_TILT_ENABLED) !> mret 0);
     (LSM6DSL_INT2_PIN, driver (LSM6DSL_ACC_GYRO_W_TiltEvOnInt2 LSM6DSL_ACC_GYRO_INT2_TILT_ENABLED) !> mret 0)] (mret 1).
Definition disableTiltDetection : meth Z :=
  driver (LSM6DSL_ACC_GYRO_W_TiltEvOnInt1 LSM6DSL_ACC_GYRO_INT1_TILT_DISABLED) !>
  driver (LSM6DSL_ACC_GYRO_W_TiltEvOnInt2 LSM6DSL_ACC_GYRO_INT2_TILT_DISABLED) !>
  driver (LSM6DSL_ACC_GYRO_W_TILT LSM6DSL_ACC_GYRO_TILT_DISABLED) !>
  driver (LSM6DSL_ACC_GYRO_W_FUNC_EN LSM6DSL_ACC_GYRO_FUNC_EN_DISABLED) !>
  mret 0.
Definition enableWakeUpDetection (pin : Z) : meth Z :=
  setXOdr (lit 416) !>
  setXFullScale (lit 2) !>
  driver (LSM6DSL_ACC_GYRO_W_WAKE_DUR 0) !>
  driver (LSM6DSL_ACC_GYRO_W_WK_THS 2) !>
  driver (LSM6DSL_ACC_GYRO_W_BASIC_INT LSM6DSL_ACC_GYRO_BASIC_INT_ENABLED) !>
  switch pin
    [(LSM6DSL_INT1_PIN, driver (LSM6DSL_ACC_GYRO_W_WUEvOnInt1 LSM6DSL_ACC_GYRO_INT1_WU_ENABLED) !> mret 0);
     (LSM6DSL_INT2_PIN, driver (LSM6DSL_ACC_GYRO_W_WUEvOnInt2 LSM6DSL_ACC_GYRO_INT2_WU_ENABLED) !> mret 0)] (mret 1).
Definition disableWakeUpDetection : meth Z :=
  driver (LSM6DSL_ACC_GYRO_W_WUEvOnInt1 LSM6DSL_ACC_GYRO_INT1_WU_DISABLED) !>
  driver (LSM6DSL_ACC_GYRO_W_WUEvOnInt2 LSM6DSL_ACC_GYRO_INT2_WU_DISABLED) !>
  driver (LSM6DSL_ACC_GYRO_W_BASIC_INT LSM6DSL_ACC_GYRO_BASIC_INT_DISABLED) !>
  driver (LSM6DSL_ACC_GYRO_W_WAKE_DUR 0) !>
  driver (LSM6DSL_ACC_GYRO_W_WK_THS 0) !>
  mret 0.
Definition enableSingleTapDetection (pin : Z) : meth Z :=
  setXOdr (lit 416) !>
  setXFullScale (lit 2) !>
  driver (LSM6DSL_ACC_GYRO_W_TAP_X_EN LSM6DSL_ACC_GYRO_TAP_X_EN_ENABLED) !>
  driver (LSM6DSL_ACC_GYRO_W_TAP_Y_EN LSM6DSL_ACC_GYRO_TAP_Y_EN_ENABLED) !>
  driver (LSM6DSL_ACC_GYRO_W_TAP_Z_EN LSM6DSL_ACC_GYRO_TAP_Z_EN_ENABLED) !>
  setTapThreshold LSM6DSL_TAP_THRESHOLD_MID_LOW !>
  setTapShockTime LSM6DSL_TAP_SHOCK_TIME_MID_HIGH !>
  setTapQuietTime LSM6DSL_TAP_QUIET_TIME_MID_LOW !>
  driver (LSM6DSL_ACC_GYRO_W_BASIC_INT LSM6DSL_ACC_GYRO_BASIC_INT_ENABLED) !>
  switch pin
    [(LSM6DSL_INT1_PIN, driver (LSM6DSL_ACC_GYRO_W_SingleTapOnInt1 LSM6DSL_ACC_GYRO_INT1_SINGLE_TAP_ENABLED) !> mret 0);
     (LSM6DSL_INT2_PIN, driver (LSM6DSL_ACC_GYRO_W_SingleTapOnInt2 LSM6DSL_ACC_GYRO_INT2_SINGLE_TAP_ENABLED) !> mret 0)] (mret 1).
Definition disableSingleTapDetection : meth Z :=
  driver (LSM6DSL_ACC_GYRO_W_SingleTapOnInt1 LSM6DSL_ACC_GYRO_INT1_SINGLE_TAP_DISABLED) !>
  driver (LSM6DSL_ACC_GYRO_W_SingleTapOnInt2 LSM6DSL_ACC_GYRO_INT2_SINGLE_TAP_DISABLED) !>
  driver (LSM6DSL_ACC_GYRO_W_BASIC_INT LSM6DSL_ACC_GYRO_BASIC_INT_DISABLED) !>
  setTapThreshold 0 !>
  setTapShockTime 0 !>
  setTapQuietTime 0 !>
  driver (LSM6DSL_ACC_GYRO_W_TAP_Z_EN LSM6DSL_ACC_GYRO_TAP_Z_EN_DISABLED) !>
  driver (LSM6DSL_ACC_GYRO_W_TAP_Y_EN LSM6DSL_ACC_GYRO_TAP_Y_EN_DISABLED) !>
  driver (LSM6DSL_ACC_GYRO_W_TAP_X_EN LSM6DSL_ACC_GYRO_TAP_X_EN_DISABLED) !>
  mret 0.
Definition enableDoubleTapDetection (pin : Z) : meth Z :=
  setXOdr (lit 416) !>
  setXFullScale (lit 2) !>
  driver (LSM6DSL_ACC_GYRO_W_TAP_X_EN LSM6DSL_ACC_GYRO_TAP_X_EN_ENABLED) !>
  driver (LSM6DSL_ACC_GYRO_W_TAP_Y_EN LSM6DSL_ACC_GYRO_TAP_Y_EN_ENABLED) !>
  driver (LSM6DSL_ACC_GYRO_W_TAP_Z_EN LSM6DSL_ACC_GYRO_TAP_Z_EN_ENABLED) !>
  setTapThreshold LSM6DSL_TAP_THRESHOLD_MID_LOW !>
  setTapShockTime LSM6DSL_TAP_SHOCK_TIME_HIGH !>
  setTapQuietTime LSM6DSL_TAP_QUIET_TIME_HIGH !>
  setTapDurationTime LSM6DSL_TAP_DURATION_TIME_MID !>
  driver (LSM6DSL_ACC_GYRO_W_SINGLE_DOUBLE_TAP_EV LSM6DSL_ACC_GYRO_SINGLE_DOUBLE_TAP_DOUBLE_TAP) !>
  driver (LSM6DSL_ACC_GYRO_W_BASIC_INT LSM6DSL_ACC_GYRO_BASIC_INT_ENABLED) !>
  switch pin
    [(LSM6DSL_INT1_PIN, driver (LSM6DSL_ACC_GYRO_W_TapEvOnInt1 LSM6DSL_ACC_GYRO_INT1_TAP_ENABLED) !> mret 0);
     (LSM6DSL_INT2_PIN, driver (LSM6DSL_ACC_GYRO_W_TapEvOnInt2 LSM6DSL_ACC_GYRO_INT2_TAP_ENABLED) !> mret 0)] (mret 1).
Definition disableDoubleTapDetection : meth Z :=
  driver (LSM6DSL_ACC_GYRO_W_TapEvOnInt1 LSM6DSL_ACC_GYRO_INT1_TAP_DISABLED) !>
  driver (LSM6DSL_ACC_GYRO_W_TapEvOnInt2 LSM6DSL_ACC_GYRO_INT2_TAP_DISABLED) !>
  driver (LSM6DSL_ACC_GYRO_W_BASIC_INT LSM6DSL_ACC_GYRO_BASIC_INT_DISABLED) !>
  setTapThreshold 0 !>
  setTapShockTime 0 !>
  setTapQuietTime 0 !>
  setTapDurationTime 0 !>
  driver (LSM6DSL_ACC_GYRO_W_SINGLE_DOUBLE_TAP_EV LSM6DSL_ACC_GYRO_SINGLE_DOUBLE_TAP_SINGLE_TAP) !>
  driver (LSM6DSL_ACC_GYRO_W_TAP_Z_EN LSM6DSL_ACC_GYRO_TAP_Z_EN_DISABLED) !>
  driver (LSM6DSL_ACC_GYRO_W_TAP_Y_EN LSM6DSL_ACC_GYRO_TAP_Y_EN_DISABLED) !>
  driver (LSM6DSL_ACC_GYRO_W_TAP_X_EN LSM6DSL_ACC_GYRO_TAP_X_EN_DISABLED) !>
  mret 0.
Definition enable6dOrientation (pin : Z) : meth Z :=
  setXOdr (lit 416) !>
  setXFullScale (lit 2) !>
  driver (LSM6DSL_ACC_GYRO_W_SIXD_THS LSM6DSL_ACC_GYRO_SIXD_THS_60_degree) !>
  driver (LSM6DSL_ACC_GYRO_W_BASIC_INT LSM6DSL_ACC_GYRO_BASIC_INT_ENABLED) !>
  switch pin
    [(LSM6DSL_INT1_PIN, driver (LSM6DSL_ACC_GYRO_W_6DEvOnInt1 LSM6DSL_ACC_GYRO_INT1_6D_ENABLED) !> mret 0);
     (LSM6DSL_INT2_PIN, driver (LSM6DSL_ACC_GYRO_W_6DEvOnInt2 LSM6DSL_ACC_GYRO_INT2_6D_ENABLED) !> mret 0)] (mret 1).
Definition disable6dOrientation : meth Z :=
  driver (LSM6DSL_ACC_GYRO_W_6DEvOnInt1 LSM6DSL_ACC_GYRO_INT1_6D_DISABLED) !>
  driver (LSM6DSL_ACC_GYRO_W_6DEvOnInt2 LSM6DSL_ACC_GYRO_INT2_6D_DISABLED) !>
  driver (LSM6DSL_ACC_GYRO_W_BASIC_INT LSM6DSL_ACC_GYRO_BASIC_INT_DISABLED) !>
  driver (LSM6DSL_ACC_GYRO_W_SIXD_THS LSM6DSL_ACC_GYRO_SIXD_THS_80_degree) !>
  mret 0.
(** The bytes of [*step_count]: two of them are written. *)
Definition getStepCounter (step_count : list Z) : meth (Z * list Z) :=
  '(st, step_count) ← drive (LSM6DSL_ACC_GYRO_Get_GetStepCounter step_count 0);
  mret (if failed st then 1 else 0, step_count).
Definition resetStepCounter : meth Z :=
  driver (LSM6DSL_ACC_GYRO_W_PedoStepReset LSM6DSL_ACC_GYRO_PEDO_RST_STEP_ENABLED) !>
  driver (LSM6DSL_ACC_GYRO_W_PedoStepReset LSM6DSL_ACC_GYRO_PEDO_RST_STEP_DISABLED) !>
  mret 0.
Definition get6dOrientationXL (v : Z) : meth (Z * Z) :=
  '(st, raw) ← drive (LSM6DSL_ACC_GYRO_R_DSD_XL local);
  if failed st then mret (1, v) else
  mret (switch raw
    [(LSM6DSL_ACC_GYRO_DSD_XL_DETECTED, (0, 1)); (LSM6DSL_ACC_GYRO_DSD_XL_NOT_DETECTED, (0, 0))] (1, v)).
Definition get6dOrientationXH (v : Z) : meth (Z * Z) :=
  '(st, raw) ← drive (LSM6DSL_ACC_GYRO_R_DSD_XH local);
  if failed st then mret (1, v) else
  mret (switch raw
    [(LSM6DSL_ACC_GYRO_DSD_XH_DETECTED, (0, 1)); (LSM6DSL_ACC_GYRO_DSD_XH_NOT_DETECTED, (0, 0))] (1, v)).
Definition get6dOrientationYL (v : Z) : meth (Z * Z) :=
  '(st, raw) ← drive (LSM6DSL_ACC_GYRO_R_DSD_YL local);
  if failed st then mret (1, v) else
  mret (switch raw
    [(LSM6DSL_ACC_GYRO_DSD_YL_DETECTED, (0, 1)); (LSM6DSL_ACC_GYRO_DSD_YL_NOT_DETECTED, (0, 0))] (1, v)).
Definition get6dOrientationYH (v : Z) : meth (Z * Z) :=
  '(st, raw) ← drive (LSM6DSL_ACC_GYRO_R_DSD_YH local);
  if failed st then mret (1, v) else
  mret (switch raw
    [(LSM6DSL_ACC_GYRO_DSD_YH_DETECTED, (0, 1)); (LSM6DSL_ACC_GYRO_DSD_YH_NOT_DETECTED, (0, 0))] (1, v)).
Definition get6dOrientationZL (v : Z) : meth (Z * Z) :=
  '(st, raw) ← drive (LSM6DSL_ACC_GYRO_R_DSD_ZL local);
  if failed st then mret (1, v) else
  mret (switch raw
    [(LSM6DSL_ACC_GYRO_DSD_ZL_DETECTED, (0, 1)); (LSM6DSL_ACC_GYRO_DSD_ZL_NOT_DETECTED, (0, 0))] (1, v)).
Definition get6dOrientationZH (v : Z) : meth (Z * Z) :=
  '(st, raw) ← drive (LSM6DSL_ACC_GYRO_R_DSD_ZH local);
  if failed st then mret (1, v) else
  mret (switch raw
    [(LSM6DSL_ACC_GYRO_DSD_ZH_DETECTED, (0, 1)); (LSM6DSL_ACC_GYRO_DSD_ZH_NOT_DETECTED, (0, 0))] (1, v)).

Definition no_event : LSM6DSL_Event_Status_t := {|
  FreeFallStatus := 0; TapStatus := 0; DoubleTapStatus := 0; WakeUpStatus := 0;
  StepStatus := 0; TiltStatus := 0; D6DOrientationStatus := 0 |}.

Definition getEventStatus : meth (Z * LSM6DSL_Event_Status_t) :=
  '(r, Wake_Up_Src) ← readReg LSM6DSL_ACC_GYRO_WAKE_UP_SRC 0;
  if negb (r =? 0) then mret (1, no_event) else
  '(r, Tap_Src) ← readReg LSM6DSL_ACC_GYRO_TAP_SRC 0;
  if negb (r =? 0) then mret (1, no_event) else
  '(r, D6D_Src) ← readReg LSM6DSL_ACC_GYRO_D6D_SRC 0;
  if negb (r =? 0) then mret (1, no_event) else
  '(r, Func_Src) ← readReg LSM6DSL_ACC_GYRO_FUNC_SRC 0;
  if negb (r =? 0) then mret (1, no_event) else
  '(r, Md1_Cfg) ← readReg LSM6DSL_ACC_GYRO_MD1_CFG 0;
  if negb (r =? 0) then mret (1, no_event) else
  '(r, Md2_Cfg) ← readReg LSM6DSL_ACC_GYRO_MD2_CFG 0;
  if negb (r =? 0) then mret (1, no_event) else
  '(r, Int1_Ctrl) ← readReg LSM6DSL_ACC_GYRO_INT1_CTRL 0;
  if negb (r =? 0) then mret (1, no_event) else
  mret (0, {|
    FreeFallStatus := event_flag (bits_set Md1_Cfg LSM6DSL_ACC_GYRO_INT1_FF_MASK || bits_set Md2_Cfg LSM6DSL_ACC_GYRO_INT2_FF_MASK) (bits_set Wake_Up_Src LSM6DSL_ACC_GYRO_FF_EV_STATUS_MASK);
    WakeUpStatus := event_flag (bits_set Md1_Cfg LSM6DSL_ACC_GYRO_INT1_WU_MASK || bits_set Md2_Cfg LSM6DSL_ACC_GYRO_INT2_WU_MASK) (bits_set Wake_Up_Src LSM6DSL_ACC_GYRO_WU_EV_STATUS_MASK);
    TapStatus := event_flag (bits_set Md1_Cfg LSM6DSL_ACC_GYRO_INT1_SINGLE_TAP_MASK || bits_set Md2_Cfg LSM6DSL_ACC_GYRO_INT2_SINGLE_TAP_MASK) (bits_set Tap_Src LSM6DSL_ACC_GYRO_SINGLE_TAP_EV_STATUS_MASK);
    DoubleTapStatus := event_flag (bits_set Md1_Cfg LSM6DSL_ACC_GYRO_INT1_TAP_MASK || bits_set Md2_Cfg LSM6DSL_ACC_GYRO_INT2_TAP_MASK) (bits_set Tap_Src LSM6DSL_ACC_GYRO_DOUBLE_TAP_EV_STATUS_MASK);
    D6DOrientationStatus := event_flag (bits_set Md1_Cfg LSM6DSL_ACC_GYRO_INT1_6D_MASK || bits_set Md2_Cfg LSM6DSL_ACC_GYRO_INT2_6D_MASK) (bits_set D6D_Src LSM6DSL_ACC_GYRO_D6D_EV_STATUS_MASK);
    StepStatus := event_flag (bits_set Int1_Ctrl LSM6DSL_ACC_GYRO_INT1_PEDO_MASK) (bits_set Func_Src LSM6DSL_ACC_GYRO_PEDO_EV_STATUS_MASK);
    TiltStatus := event_flag (bits_set Md1_Cfg LSM6DSL_ACC_GYRO_INT1_TILT_MASK || bits_set Md2_Cfg LSM6DSL_ACC_GYRO_INT2_TILT_MASK) (bits_set Func_Src LSM6DSL_ACC_GYRO_TILT_EV_STATUS_MASK) |}).
End class.
