(* ===== verification/SensorMachine.v ===== *)
(** The abstract machine of the class LSM6DSLSensor: what its caller sees of the two
    sensors and of the event detection, what each call does to it ([spec_step]), and
    which object and registers represent it. *)
From S2P Require Export Lsm6dslSensor Lsm6dslSpec.

(** * The abstract machine *)

Definition rates : list Z := [13; 26; 52; 104; 208; 416; 833; 1660; 3330; 6660].

(** A sensor: is it on, its rate in Hz, and its full scale in g or in degrees per
    second. *)
Record half := { on : bool; rate : Z; scale : Z }.

Inductive detector := FreeFall | WakeUp | SingleTap | DoubleTap | SixD | Tilt.

(** What is switched on: the routing of the events of a detector to a pin, that of
    the steps to pin 1, all interrupts, and all embedded functions. *)
Inductive flag := Int1 (d : detector) | Int2 (d : detector) | StepInt1 | Interrupts | Functions.

#[export] Instance detector_eq_dec : EqDecision detector.
Proof. solve_decision. Defined.
#[export] Instance flag_eq_dec : EqDecision flag.
Proof. solve_decision. Defined.

Record machine := { xl : half; gy : half; flags : flag → bool }.

Definition set_flag (fl : flag) (b : bool) (fs : flag → bool) : flag → bool := λ fl', if decide (fl' = fl) then b else fs fl'.
Definition with_xl (f : half → half) (a : machine) : machine := {| xl := f (xl a); gy := gy a; flags := flags a |}.
Definition with_gy (f : half → half) (a : machine) : machine := {| xl := xl a; gy := f (gy a); flags := flags a |}.
Definition with_flag (fl : flag) (b : bool) (a : machine) : machine := {| xl := xl a; gy := gy a; flags := set_flag fl b (flags a) |}.
Definition turn (b : bool) (h : half) : half := {| on := b; rate := rate h; scale := scale h |}.
Definition with_rate (r : Z) (h : half) : half := {| on := on h; rate := r; scale := scale h |}.
Definition with_scale (s : Z) (h : half) : half := {| on := on h; rate := rate h; scale := s |}.

(** The lowest rate and full scale that are enough for [x]. *)
Definition next_rate (x : f32) : Z :=
  up_to x [(lit 13, 13); (lit 26, 26); (lit 52, 52); (lit 104, 104); (lit 208, 208); (lit 416, 416); (lit 833, 833);
           (lit 1660, 1660); (lit 3330, 3330)] 6660.
Definition next_xl_scale (x : f32) : Z := up_to x [(lit 2, 2); (lit 4, 4); (lit 8, 8)] 16.
Definition next_g_scale (x : f32) : Z := up_to x [(lit 125, 125); (lit 245, 245); (lit 500, 500); (lit 1000, 1000)] 2000.

(** The calls. *)
Inductive op :=
  | Init
  | EnableX | DisableX | SetXOdr (x : f32) | GetXOdr (old : f32) | SetXFullScale (x : f32) | GetXFullScale (old : f32)
  | EnableG | DisableG | SetGOdr (x : f32) | GetGOdr (old : f32) | SetGFullScale (x : f32) | GetGFullScale (old : f32)
  | EnableDetection (d : detector) (pin : Z) | DisableDetection (d : detector)
  | EnablePedometer | DisablePedometer | ResetStepCounter
  | SetTapThreshold (v : Z) | SetTapShockTime (v : Z) | SetTapQuietTime (v : Z) | SetTapDurationTime (v : Z)
  | SetPedometerThreshold (v : Z) | SetWakeUpThreshold (v : Z) | SetFreeFallThreshold (v : Z).

(** The rate a detector asks for, and the master switch it needs. *)
Definition detector_rate (d : detector) : Z := match d with Tilt => 26 | _ => 416 end.
Definition master (d : detector) : flag := match d with Tilt => Functions | _ => Interrupts end.
Definition detect_at (r : Z) (a : machine) : machine := with_xl (λ h, with_scale 2 (with_rate r h)) a.

(** What a call returns, what it reads, and what it changes. *)
Definition spec_step (o : op) (a : machine) : (Z * option f32) * machine :=
  let done a := ((0, None), a) in
  match o with
  | Init => done {| xl := {| on := false; rate := 104; scale := 2 |}; gy := {| on := false; rate := 104; scale := 2000 |}; flags := flags a |}
  | EnableX => done (with_xl (turn true) a)
  | DisableX => done (with_xl (turn false) a)
  | SetXOdr x => done (with_xl (with_rate (next_rate x)) a)
  | GetXOdr _ => ((0, Some (lit (if on (xl a) then rate (xl a) else 0))), a)
  | SetXFullScale x => done (with_xl (with_scale (next_xl_scale x)) a)
  | GetXFullScale _ => ((0, Some (lit (scale (xl a)))), a)
  | EnableG => done (with_gy (turn true) a)
  | DisableG => done (with_gy (turn false) a)
  | SetGOdr x => done (with_gy (with_rate (next_rate x)) a)
  | GetGOdr _ => ((0, Some (lit (if on (gy a) then rate (gy a) else 0))), a)
  | SetGFullScale x => done (with_gy (with_scale (next_g_scale x)) a)
  | GetGFullScale _ => ((0, Some (lit (scale (gy a)))), a)
  | EnableDetection d pin =>
    let a := with_flag (master d) true (detect_at (detector_rate d) a) in
    if decide (pin = LSM6DSL_INT1_PIN) then done (with_flag (Int1 d) true a)
    else if decide (pin = LSM6DSL_INT2_PIN) then done (with_flag (Int2 d) true a)
    else ((1, None), a)
  | DisableDetection d => done (with_flag (master d) false (with_flag (Int2 d) false (with_flag (Int1 d) false a)))
  | EnablePedometer => done (with_flag StepInt1 true (with_flag Functions true (detect_at 26 a)))
  | DisablePedometer => done (with_flag Functions false (with_flag StepInt1 false a))
  | _ => done a
  end.

Fixpoint spec_run (os : list op) (a : machine) : list (Z * option f32) * machine :=
  match os with
  | [] => ([], a)
  | o :: os => let '(r, a) := spec_step o a in let '(rs, a) := spec_run os a in (r :: rs, a)
  end.

(** * The calls of the class *)
Section calls.
Context {W : Type} `{Bus W} (local : Z).

Definition plain (m : meth Z) : meth (W := W) (Z * option f32) := r ← m; mret (r, None).
Definition reads_float (m : meth (Z * f32)) : meth (W := W) (Z * option f32) := '(r, x) ← m; mret (r, Some x).

Definition enable (d : detector) : Z → meth Z :=
  match d with
  | FreeFall => enableFreeFallDetection | WakeUp => enableWakeUpDetection | SingleTap => enableSingleTapDetection
  | DoubleTap => enableDoubleTapDetection | SixD => enable6dOrientation | Tilt => enableTiltDetection
  end.
Definition disable (d : detector) : meth Z :=
  match d with
  | FreeFall => disableFreeFallDetection | WakeUp => disableWakeUpDetection | SingleTap => disableSingleTapDetection
  | DoubleTap => disableDoubleTapDetection | SixD => disable6dOrientation | Tilt => disableTiltDetection
  end.

Definition perform (o : op) : meth (Z * option f32) :=
  match o with
  | Init => plain sensor_init
  | EnableX => plain enableAccelerator
  | DisableX => plain (disableAccelerator local)
  | SetXOdr x => plain (setXOdr x)
  | GetXOdr old => reads_float (getXOdr local old)
  | SetXFullScale x => plain (setXFullScale x)
  | GetXFullScale old => reads_float (getXFullScale local old)
  | EnableG => plain enableGyroscope
  | DisableG => plain (disableGyroscope local)
  | SetGOdr x => plain (setGOdr x)
  | GetGOdr old => reads_float (getGOdr local old)
  | SetGFullScale x => plain (setGFullScale x)
  | GetGFullScale old => reads_float (getGFullScale local old)
  | EnableDetection d pin => plain (enable d pin)
  | DisableDetection d => plain (disable d)
  | EnablePedometer => plain (enablePedometer local)
  | DisablePedometer => plain (disablePedometer local)
  | ResetStepCounter => plain resetStepCounter
  | SetTapThreshold v => plain (setTapThreshold v)
  | SetTapShockTime v => plain (setTapShockTime v)
  | SetTapQuietTime v => plain (setTapQuietTime v)
  | SetTapDurationTime v => plain (setTapDurationTime v)
  | SetPedometerThreshold v => plain (setPedometerThreshold local v)
  | SetWakeUpThreshold v => plain (setWakeUpThreshold v)
  | SetFreeFallThreshold v => plain (setFreeFallThreshold v)
  end.

Fixpoint run (os : list op) : meth (list (Z * option f32)) :=
  match os with
  | [] => mret []
  | o :: os => r ← perform o; rs ← run os; mret (r :: rs)
  end.
End calls.

(** * How the registers represent a machine *)

Definition flag_field (fl : flag) : Z * Z :=
  match fl with
  | Int1 d => (LSM6DSL_ACC_GYRO_MD1_CFG, match d with
      | FreeFall => LSM6DSL_ACC_GYRO_INT1_FF_MASK | WakeUp => LSM6DSL_ACC_GYRO_INT1_WU_MASK
      | SingleTap => LSM6DSL_ACC_GYRO_INT1_SINGLE_TAP_MASK | DoubleTap => LSM6DSL_ACC_GYRO_INT1_TAP_MASK
      | SixD => LSM6DSL_ACC_GYRO_INT1_6D_MASK | Tilt => LSM6DSL_ACC_GYRO_INT1_TILT_MASK end)
  | Int2 d => (LSM6DSL_ACC_GYRO_MD2_CFG, match d with
      | FreeFall => LSM6DSL_ACC_GYRO_INT2_FF_MASK | WakeUp => LSM6DSL_ACC_GYRO_INT2_WU_MASK
      | SingleTap => LSM6DSL_ACC_GYRO_INT2_SINGLE_TAP_MASK | DoubleTap => LSM6DSL_ACC_GYRO_INT2_TAP_MASK
      | SixD => LSM6DSL_ACC_GYRO_INT2_6D_MASK | Tilt => LSM6DSL_ACC_GYRO_INT2_TILT_MASK end)
  | StepInt1 => (LSM6DSL_ACC_GYRO_INT1_CTRL, LSM6DSL_ACC_GYRO_INT1_PEDO_MASK)
  | Interrupts => (LSM6DSL_ACC_GYRO_TAP_CFG1, LSM6DSL_ACC_GYRO_INT_EN_MASK)
  | Functions => (LSM6DSL_ACC_GYRO_CTRL10_C, LSM6DSL_ACC_GYRO_FUNC_EN_MASK)
  end.

Definition all_detectors : list detector := [FreeFall; WakeUp; SingleTap; DoubleTap; SixD; Tilt].
Definition all_flags : list flag := (Int1 <$> all_detectors) ++ (Int2 <$> all_detectors) ++ [StepInt1; Interrupts; Functions].

Definition odr_xl : Z * Z := (LSM6DSL_ACC_GYRO_CTRL1_XL, LSM6DSL_ACC_GYRO_ODR_XL_MASK).
Definition fs_xl : Z * Z := (LSM6DSL_ACC_GYRO_CTRL1_XL, LSM6DSL_ACC_GYRO_FS_XL_MASK).
Definition odr_g : Z * Z := (LSM6DSL_ACC_GYRO_CTRL2_G, LSM6DSL_ACC_GYRO_ODR_G_MASK).
Definition fs_125 : Z * Z := (LSM6DSL_ACC_GYRO_CTRL2_G, LSM6DSL_ACC_GYRO_FS_125_MASK).
Definition fs_g : Z * Z := (LSM6DSL_ACC_GYRO_CTRL2_G, LSM6DSL_ACC_GYRO_FS_G_MASK).

(** The fields a machine is about. *)
Definition watched : list (Z * Z) := [odr_xl; fs_xl; odr_g; fs_125; fs_g] ++ (flag_field <$> all_flags).

Definition rate_code (r : Z) : Z :=
  switch r [(13, 16); (26, 32); (52, 48); (104, 64); (208, 80); (416, 96); (833, 112); (1660, 128); (3330, 144); (6660, 160)] 0.
Definition xl_code (s : Z) : Z := switch s [(2, 0); (4, 8); (8, 12); (16, 4)] 0.
Definition g_code (s : Z) : Z := switch s [(245, 0); (500, 4); (1000, 8); (2000, 12)] 0.

(** A sensor that is off keeps its rate in the object, one that is on in its register. *)
Definition half_is (h : half) (enabled : Z) (last : f32) (odr : Z) : Prop :=
  rate h ∈ rates ∧ if on h then enabled = 1 ∧ odr = rate_code (rate h) else enabled = 0 ∧ odr = 0 ∧ last = lit (rate h).
Definition xl_scale_is (s fs : Z) : Prop := s ∈ [2; 4; 8; 16] ∧ fs = xl_code s.
Definition g_scale_is (s f125 fs : Z) : Prop :=
  s = 125 ∧ f125 = LSM6DSL_ACC_GYRO_FS_125_ENABLED ∨ s ∈ [245; 500; 1000; 2000] ∧ f125 = 0 ∧ fs = g_code s.

Definition is_machine (a : machine) (t : LSM6DSLSensor) (g : Z * Z → Z) : Prop :=
  half_is (xl a) (_x_is_enabled t) (_x_last_odr t) (g odr_xl) ∧ xl_scale_is (scale (xl a)) (g fs_xl) ∧
  half_is (gy a) (_g_is_enabled t) (_g_last_odr t) (g odr_g) ∧ g_scale_is (scale (gy a)) (g fs_125) (g fs_g) ∧
  ∀ fl, g (flag_field fl) = if flags a fl then (flag_field fl).2 else 0.

(** [r] and [mask] share no bits with the fields of a machine but for a whole field. *)
Definition separate (r mask : Z) : bool :=
  forallb (λ p, negb (p.1 =? r) || (p.2 =? mask) || (Z.land mask p.2 =? 0)) watched.
Definition touched (r : Z) : bool := existsb (λ p, p.1 =? r) watched.

(** [g] with the field [p] set to [v]. *)
Definition put_field (p : Z * Z) (v : Z) (g : Z * Z → Z) : Z * Z → Z := λ q, if decide (q = p) then v else g q.

Lemma put_same p v g : put_field p v g p = v.
Proof. unfold put_field. by rewrite decide_True. Qed.
Lemma put_other p q v g : q ≠ p → put_field p v g q = g q.
Proof. intros Hn. unfold put_field. by rewrite decide_False. Qed.

Lemma flag_field_inj fl fl' : flag_field fl = flag_field fl' → fl = fl'.
Proof. by destruct fl as [[]|[]| | |], fl' as [[]|[]| | |]. Qed.

Lemma flag_watched fl : flag_field fl ∈ watched.
Proof. destruct fl as [[]|[]| | |]; unfold watched; in_list. Qed.

Lemma is_machine_ext a t g g' : is_machine a t g → (∀ p, p ∈ watched → g' p = g p) → is_machine a t g'.
Proof.
  intros (H1 & H2 & H3 & H4 & H5) Hg. unfold is_machine. rewrite !Hg by (unfold watched; in_list).
  split_and!; try done. intros fl. rewrite Hg; [done|]. apply flag_watched.
Qed.

Definition sensor_fields : list (Z * Z) := [odr_xl; fs_xl; odr_g; fs_125; fs_g].

Lemma flag_field_ne p fl : p ∈ sensor_fields → flag_field fl ≠ p.
Proof. intros Hp. revert p Hp. apply Forall_forall. destruct fl as [[]|[]| | |]; by repeat constructor. Qed.

Lemma is_machine_flag a t g fl (b : bool) : is_machine a t g →
  is_machine (with_flag fl b a) t (put_field (flag_field fl) (if b then (flag_field fl).2 else 0) g).
Proof.
  intros (H1 & H2 & H3 & H4 & H5).
  unfold is_machine, put_field. rewrite !decide_False by (intros E; symmetry in E; revert E; apply flag_field_ne; unfold sensor_fields; in_list).
  cbn [xl gy flags with_flag]. split_and!; try done. intros fl'. unfold set_flag. destruct (decide (fl' = fl)) as [->|Hf].
  - by rewrite decide_True.
  - rewrite decide_False; [done|]. by intros E%flag_field_inj.
Qed.

Lemma flags_put p v a t g : is_machine a t g → p ∈ sensor_fields →
  ∀ fl, put_field p v g (flag_field fl) = if flags a fl then (flag_field fl).2 else 0.
Proof.
  intros (_ & _ & _ & _ & Hf) Hp fl. unfold put_field. rewrite decide_False; [done|]. by apply flag_field_ne.
Qed.

Lemma up_to_in {A} x (l : list (f32 * A)) d : up_to x l d ∈ d :: (snd <$> l).
Proof.
  induction l as [|[c y] l IH]; [by left|]. cbn [up_to]. destruct (f32_le x c); [in_list|].
  apply elem_of_cons in IH as [->|Hin]; [by left|]. right. by right.
Qed.
