(* ===== verification/SensorSpec.v ===== *)
(** The methods of the class LSM6DSLSensor implement the machine of SensorMachine.v
    on every bus that works, and what the event status and the measured axes then are. *)
From S2P Require Export SensorMachine.

(** Every write of a single register succeeds. *)
Definition writable (W : Type) `{Bus W} : Prop := ∀ r b (w : W), (io_write r [b] w).1 = 0.

Section working.
Context {W : Type} `{Bus W} (stored : Z → Prop) `{!Registers lsm_place stored} (local : Z).
Context (Hs1 : stored LSM6DSL_ACC_GYRO_FUNC_CFG_ACCESS) (Hst : ∀ r m, (r, m) ∈ watched → stored r).
Context (Hrel : reliable W) (Hwr : writable W).
Local Abbreviation at_reg := (Lsm6dslSpec.at_reg stored).
Implicit Types (w : W) (t : LSM6DSLSensor) (a : machine) (g : Z * Z → Z).

(** The registers of the sensors, not those of the embedded functions, are selected. *)
Definition basic w : Prop := Z.testbit (cell w LSM6DSL_ACC_GYRO_FUNC_CFG_ACCESS) 7 = false.
Definition field_of w (p : Z * Z) : Z := Z.land (cell w p.1) p.2.

Definition represents a (s : LSM6DSLSensor * W) : Prop := basic s.2 ∧ is_machine a s.1 (field_of s.2).

Lemma basic_at w r : basic w → at_reg w r = r.
Proof using. unfold basic, Lsm6dslSpec.at_reg, lsm_place. intros ->. by case_match. Qed.

(** ** The driver on such a bus *)
Lemma dwp_write_ok r v w (Q : mems_status_t → W → Prop) : is_u8 r → is_u8 v →
  (∀ w', unchanged (at_reg w r) w w' → (stored (at_reg w r) → cell w' (at_reg w r) = v) → Q MEMS_SUCCESS w') →
  dwp (write_byte r v) Q w.
Proof using Hwr.
  intros Hr Hv HQ. assert (dwp (write_byte r v) (λ st _, st = MEMS_SUCCESS) w) as Hok.
  { unfold write_byte, LSM6DSL_ACC_GYRO_write_reg. eapply (dwp_checked _ [v]); [done|]. apply dwp_bind.
    unfold dwp at 1, bus_write. pose proof (Hwr (u8 r) v w) as E. destruct (io_write _ _ w) as [rc w']. cbn in E. subst rc. by apply dwp_ret. }
  apply dwp_inv in Hok as (st & w' & E & ->).
  assert (dwp (write_byte r v) (λ st w', unchanged (at_reg w r) w w' ∧ (st = MEMS_SUCCESS → stored (at_reg w r) → cell w' (at_reg w r) = v)) w) as Hd
    by (apply (dwp_write_byte stored); auto).
  unfold dwp in *. rewrite E in *. destruct Hd as [Hu Hc]. apply HQ; auto.
Qed.

Lemma dwp_W_ok r mask v w (Q : mems_status_t → W → Prop) : is_u8 r →
  (∀ w', unchanged (at_reg w r) w w' →
     (is_u8 v → stored (at_reg w r) → cell w' (at_reg w r) = set_bits mask v (cell w (at_reg w r))) → Q MEMS_SUCCESS w') →
  dwp (W_field r mask v) Q w.
Proof using Hs1 Hrel Hwr.
  intros Hr HQ. unfold W_field. apply dwp_bind, (dwp_read_byte stored); [done|done|].
  intros st b w1 Hb Hs Hc Hok. specialize (Hok Hrel). subst st. cbn -[Z.land Z.lor Z.lnot]. rewrite (Hc eq_refl). clear Hc b Hb.
  rewrite (u8_id (Z.land _ _)) by (by apply land_lnot_byte, cell_byte).
  apply dwp_bind, dwp_write_ok; [done|apply u8_range|]. rewrite (at_reg_same stored Hs1 _ _ r Hs). intros w2 Hu Hc.
  cbn. apply dwp_ret, HQ; [eapply unchanged_trans; [by apply same_unchanged|done]|].
  intros Hv Hsr. rewrite (Hc Hsr). unfold set_bits. apply u8_id. apply set_bits_byte; [apply cell_byte|done].
Qed.

Lemma dwp_R_ok r mask junk w (Q : mems_status_t * Z → W → Prop) : is_u8 r → is_u8 mask → basic w →
  (∀ w', same_cells w w' → Q (MEMS_SUCCESS, field_of w (r, mask)) w') → dwp (R_field r mask junk) Q w.
Proof using Hrel.
  intros Hr Hm Hb HQ. apply (dwp_R_field stored); [done|done|]. intros st v w' Hs Hv Hok. specialize (Hok Hrel). subst st.
  rewrite (Hv eq_refl), (basic_at _ _ Hb). by apply HQ.
Qed.

(** Writing a field of a machine, or one that is none. *)
Lemma dwp_set_field r mask v w (Q : mems_status_t → W → Prop) :
  basic w → is_u8 r → r ≠ LSM6DSL_ACC_GYRO_FUNC_CFG_ACCESS → separate r mask = true →
  (touched r = true → is_u8 v ∧ within mask v) →
  (∀ w', basic w' → (∀ p, p ∈ watched → field_of w' p = put_field (r, mask) v (field_of w) p) → Q MEMS_SUCCESS w') →
  dwp (W_field r mask v) Q w.
Proof using Hs1 Hst Hrel Hwr.
  intros Hb Hr Hn Hsep Hv HQ. apply dwp_W_ok; [done|]. rewrite (basic_at _ _ Hb). intros w' Hu Hc. apply HQ.
  { unfold basic. rewrite Hu; done. }
  intros [r' m'] Hp. unfold field_of, put_field. cbn [fst snd]. destruct (decide (r' = r)) as [->|Hne].
  - assert (touched r = true) as Ht by (apply existsb_exists; exists (r, m'); split; [by apply list_elem_of_In|apply Z.eqb_refl]).
    destruct (Hv Ht) as [Hv8 Hw]. rewrite (Hc Hv8 (Hst _ _ Hp)).
    unfold separate in Hsep. rewrite forallb_forall in Hsep. specialize (Hsep (r, m') (proj1 (list_elem_of_In _ _) Hp)).
    cbn [fst snd] in Hsep. rewrite Z.eqb_refl in Hsep. cbn [negb orb] in Hsep.
    destruct (decide ((r, m') = (r, mask))) as [[= ->]|Hm]; [by apply set_bits_read|].
    apply orb_true_iff in Hsep as [->%Z.eqb_eq|Hd%Z.eqb_eq]; [done|]. by apply set_bits_other.
  - rewrite decide_False by congruence. rewrite Hu; [done|by eapply Hst|done].
Qed.

(** ** Methods that take one machine to another *)

(** From an object and registers that represent [a], [m] returns [r] and leaves
    what represents [a']. *)
Definition takes (m : meth Z) (r : Z) a a' : Prop :=
  ∀ s, represents a s → dwp m (λ r' s', r' = r ∧ represents a' s') s.

Lemma dwp_drive {A} (m : dev W A) (Q : A → LSM6DSLSensor * W → Prop) t w :
  dwp m (λ x w', Q x (t, w')) w → dwp (drive m) Q (t, w).
Proof using. unfold dwp, drive. cbn. by destruct (m w) as [[x w']|]. Qed.

Lemma dwp_update f {B} (k : () → meth B) (Q : B → LSM6DSLSensor * W → Prop) t w :
  dwp (k ()) Q (f t, w) → dwp (update f ≫= k) Q (t, w).
Proof using. done. Qed.

Lemma dwp_this {B} (k : LSM6DSLSensor → meth B) (Q : B → LSM6DSLSensor * W → Prop) t w :
  dwp (k t) Q (t, w) → dwp (this ≫= k) Q (t, w).
Proof using. done. Qed.

Lemma takes_ret r a : takes (mret r) r a a.
Proof using. intros s Hs. by apply dwp_ret. Qed.

Lemma takes_guarded m k r a b c : takes m 0 a b → takes k r b c → takes (guarded m k) r a c.
Proof using.
  intros Hm Hk s Hs. unfold guarded. apply dwp_bind. eapply dwp_mono; [by apply Hm|].
  intros r' s' [-> Hs']. by apply Hk.
Qed.

Lemma takes_field r mask v a a' : is_u8 r → r ≠ LSM6DSL_ACC_GYRO_FUNC_CFG_ACCESS → separate r mask = true →
  (touched r = true → is_u8 v ∧ within mask v) →
  (∀ t g, is_machine a t g → is_machine a' t (put_field (r, mask) v g)) →
  takes (driver (W_field r mask v)) 0 a a'.
Proof using Hs1 Hst Hrel Hwr.
  intros Hr Hn Hsep Hv Ha [t w] [Hb Hm]. unfold driver. apply dwp_bind, dwp_drive.
  apply dwp_set_field; [done..|]. intros w' Hb' Hf. apply dwp_ret. split; [done|]. split; [done|].
  eapply is_machine_ext; [by apply Ha|done].
Qed.

Lemma takes_other r mask v a : is_u8 r → r ≠ LSM6DSL_ACC_GYRO_FUNC_CFG_ACCESS → separate r mask = true →
  (touched r = true → is_u8 v ∧ within mask v) → (r, mask) ∉ watched →
  takes (driver (W_field r mask v)) 0 a a.
Proof using Hs1 Hst Hrel Hwr.
  intros Hr Hn Hsep Hv Hp. apply takes_field; [done..|]. intros t g Hm. eapply is_machine_ext; [done|].
  intros p Hw. unfold put_field. rewrite decide_False; [done|]. by intros ->.
Qed.

Lemma takes_flag fl (b : bool) a :
  takes (driver (W_field (flag_field fl).1 (flag_field fl).2 (if b then (flag_field fl).2 else 0))) 0 a (with_flag fl b a).
Proof using Hs1 Hst Hrel Hwr.
  apply takes_field; [by destruct fl as [[]|[]| | |]..| |].
  - intros _. by destruct fl as [[]|[]| | |], b.
  - intros t g Hm. rewrite <-surjective_pairing. by apply is_machine_flag.
Qed.

(** ** Rates and full scales *)

Lemma next_rate_in x : next_rate x ∈ rates.
Proof using.
  unfold next_rate. match goal with |- up_to ?x ?l ?d ∈ _ => generalize (up_to_in x l d); generalize (up_to x l d) end.
  apply Forall_forall. repeat constructor; unfold rates; in_list.
Qed.

Lemma rate_code_ok r : r ∈ rates → is_u8 (rate_code r) ∧ within LSM6DSL_ACC_GYRO_ODR_XL_MASK (rate_code r) ∧ next_rate (lit r) = r.
Proof using. revert r. apply Forall_forall. repeat constructor; by vm_compute. Qed.

Lemma dwp_set_then r mask v k t w (Q : Z → LSM6DSLSensor * W → Prop) :
  basic w → is_u8 r → r ≠ LSM6DSL_ACC_GYRO_FUNC_CFG_ACCESS → separate r mask = true →
  (touched r = true → is_u8 v ∧ within mask v) →
  (∀ w', basic w' → (∀ p, p ∈ watched → field_of w' p = put_field (r, mask) v (field_of w) p) → dwp k Q (t, w')) →
  dwp (guarded (driver (W_field r mask v)) k) Q (t, w).
Proof using Hs1 Hst Hrel Hwr.
  intros Hb Hr Hn Hsep Hv HQ. unfold guarded, driver. apply dwp_bind, dwp_bind, dwp_drive.
  apply dwp_set_field; [done..|]. intros w' Hb' Hf. apply dwp_ret. cbn. by apply HQ.
Qed.

(** The two halves are set in the same way. *)
Lemma dwp_setXOdrWhenEnabled x t w (Q : Z → LSM6DSLSensor * W → Prop) : basic w →
  (∀ w', basic w' → (∀ p, p ∈ watched → field_of w' p = put_field odr_xl (rate_code (next_rate x)) (field_of w) p) → Q 0 (t, w')) →
  dwp (setXOdrWhenEnabled x) Q (t, w).
Proof using Hs1 Hst Hrel Hwr.
  intros Hb HQ. unfold setXOdrWhenEnabled.
  match goal with |- context [up_to ?y ?l ?d] => assert (up_to y l d = rate_code (next_rate x)) as -> end.
  { unfold next_rate. cbn [up_to]. repeat (destruct (f32_le x _); [done|]). done. }
  apply dwp_set_then; [done..| |].
  - intros _. destruct (rate_code_ok _ (next_rate_in x)) as (? & ? & _). by split.
  - intros w' Hb' Hf. apply dwp_ret. by apply HQ.
Qed.

Lemma dwp_setGOdrWhenEnabled x t w (Q : Z → LSM6DSLSensor * W → Prop) : basic w →
  (∀ w', basic w' → (∀ p, p ∈ watched → field_of w' p = put_field odr_g (rate_code (next_rate x)) (field_of w) p) → Q 0 (t, w')) →
  dwp (setGOdrWhenEnabled x) Q (t, w).
Proof using Hs1 Hst Hrel Hwr.
  intros Hb HQ. unfold setGOdrWhenEnabled.
  match goal with |- context [up_to ?y ?l ?d] => assert (up_to y l d = rate_code (next_rate x)) as -> end.
  { unfold next_rate. cbn [up_to]. repeat (destruct (f32_le x _); [done|]). done. }
  apply dwp_set_then; [done..| |].
  - intros _. destruct (rate_code_ok _ (next_rate_in x)) as (? & ? & _). by split.
  - intros w' Hb' Hf. apply dwp_ret. by apply HQ.
Qed.

Lemma last_rate x : up_to x [(lit 13, lit 13); (lit 26, lit 26); (lit 52, lit 52); (lit 104, lit 104); (lit 208, lit 208);
  (lit 416, lit 416); (lit 833, lit 833); (lit 1660, lit 1660); (lit 3330, lit 3330)] (lit 6660) = lit (next_rate x).
Proof using. unfold next_rate. cbn [up_to]. repeat (destruct (f32_le x _); [done|]). done. Qed.

Ltac parts := cbn [on rate scale xl gy flags with_xl with_gy with_flag with_rate with_scale turn
  set_x_is_enabled set_x_last_odr set_g_is_enabled set_g_last_odr _x_is_enabled _x_last_odr _g_is_enabled _g_last_odr fst snd].

(** Reading the fields of [put_field], and the parts of a machine that are as before. *)
Ltac fields := rewrite ?put_same, ?put_other by done.
Ltac same_machine := split_and!;
  first [done | by apply next_rate_in | intros fl; eapply flags_put; [eassumption|unfold sensor_fields; in_list] | idtac].

(** The machine after a write of a field, or of the object: the parts that have changed are left. *)
Ltac written := apply dwp_ret; split; [done|]; split; [done|]; (eapply is_machine_ext; [|eassumption]); unfold is_machine; fields; parts; same_machine.
Ltac in_object := repeat apply dwp_ret; split; [done|]; split; [done|]; unfold is_machine; parts; same_machine.
Ltac is_half Eon := split; parts; [by apply next_rate_in || done|]; by rewrite ?Eon.
Ltac state Hb Hm H1 H2 H3 H4 H5 := intros [t w] [Hb Hm]; cbn [fst snd] in Hb, Hm; pose proof Hm as (H1 & H2 & H3 & H4 & H5); apply dwp_this.

Lemma takes_setXOdr x a : takes (setXOdr x) 0 a (with_xl (with_rate (next_rate x)) a).
Proof using Hs1 Hst Hrel Hwr.
  state Hb Hm H1 H2 H3 H4 H5. destruct H1 as [Hr Hx]. unfold guarded. destruct (on (xl a)) eqn:Eon.
  - destruct Hx as [E Hx]. rewrite E, Z.eqb_refl. apply dwp_bind, dwp_setXOdrWhenEnabled; [done|]. intros w' Hb' Hf. written; is_half Eon.
  - destruct Hx as (E & Hx & Hl). rewrite E. cbn [Z.eqb]. unfold setXOdrWhenDisabled. rewrite last_rate. apply dwp_bind, dwp_update. in_object; is_half Eon.
Qed.

Lemma takes_setGOdr x a : takes (setGOdr x) 0 a (with_gy (with_rate (next_rate x)) a).
Proof using Hs1 Hst Hrel Hwr.
  state Hb Hm H1 H2 H3 H4 H5. destruct H3 as [Hr Hx]. unfold guarded. destruct (on (gy a)) eqn:Eon.
  - destruct Hx as [E Hx]. rewrite E, Z.eqb_refl. apply dwp_bind, dwp_setGOdrWhenEnabled; [done|]. intros w' Hb' Hf. written; is_half Eon.
  - destruct Hx as (E & Hx & Hl). rewrite E. cbn [Z.eqb]. unfold setGOdrWhenDisabled. rewrite last_rate. apply dwp_bind, dwp_update. in_object; is_half Eon.
Qed.

Lemma takes_enableAccelerator a : takes enableAccelerator 0 a (with_xl (turn true) a).
Proof using Hs1 Hst Hrel Hwr.
  state Hb Hm H1 H2 H3 H4 H5. destruct H1 as [Hr Hx]. destruct (on (xl a)) eqn:Eon.
  - destruct Hx as [E Hx]. rewrite E, Z.eqb_refl. in_object; is_half Eon.
  - destruct Hx as (E & Hx & Hl). rewrite E. cbn [Z.eqb]. unfold guarded. apply dwp_bind, dwp_setXOdrWhenEnabled; [done|].
    rewrite Hl, (proj2 (proj2 (rate_code_ok _ Hr))). intros w' Hb' Hf. apply dwp_update. written; is_half Eon.
Qed.

Lemma takes_enableGyroscope a : takes enableGyroscope 0 a (with_gy (turn true) a).
Proof using Hs1 Hst Hrel Hwr.
  state Hb Hm H1 H2 H3 H4 H5. destruct H3 as [Hr Hx]. destruct (on (gy a)) eqn:Eon.
  - destruct Hx as [E Hx]. rewrite E, Z.eqb_refl. in_object; is_half Eon.
  - destruct Hx as (E & Hx & Hl). rewrite E. cbn [Z.eqb]. unfold guarded. apply dwp_bind, dwp_setGOdrWhenEnabled; [done|].
    rewrite Hl, (proj2 (proj2 (rate_code_ok _ Hr))). intros w' Hb' Hf. apply dwp_update. written; is_half Eon.
Qed.

(** ** Reading *)

Lemma represents_same a t w w' : same_cells w w' → represents a (t, w) → represents a (t, w').
Proof using Hs1 Hst.
  intros Hs [Hb Hm]. cbn [fst snd] in *. split; cbn [fst snd]; [unfold basic in *; by rewrite (Hs _ Hs1)|].
  eapply is_machine_ext; [done|]. intros [r m] Hp. unfold field_of. cbn. rewrite Hs; [done|]. by eapply Hst.
Qed.

Lemma dwp_inquire_ok {A} r mask (cases : list (Z * A)) d old t w (Q : Z * A → LSM6DSLSensor * W → Prop) :
  basic w → is_u8 r → is_u8 mask →
  (∀ w', same_cells w w' → Q (switch (field_of w (r, mask)) ((λ c, (c.1, (0, c.2))) <$> cases) (1, d)) (t, w')) →
  dwp (inquire (R_field r mask local) cases d old) Q (t, w).
Proof using Hrel.
  intros Hb Hr Hm HQ. unfold inquire. apply dwp_bind, dwp_drive, dwp_R_ok; [done..|]. intros w' Hs.
  cbn [failed]. apply dwp_ret. by apply HQ.
Qed.

(** The tables of the rates, and what a half shows in them. *)
Definition odr_table : list (Z * f32) :=
  [(0, lit 0); (16, lit 13); (32, lit 26); (48, lit 52); (64, lit 104); (80, lit 208); (96, lit 416); (112, lit 833);
   (128, lit 1660); (144, lit 3330); (160, lit 6660)].

Lemma odr_shown h enabled last odr : half_is h enabled last odr →
  switch odr ((λ c, (c.1, (0, c.2))) <$> odr_table) (1, lit (-1)) = (0, lit (if on h then rate h else 0)).
Proof using.
  intros [Hr Hx]. destruct (on h); [destruct Hx as [_ ->]|by destruct Hx as (_ & -> & _)].
  revert Hr. generalize (rate h). apply Forall_forall. by repeat constructor.
Qed.

Lemma dwp_getXOdr old a t w (Q : Z * f32 → LSM6DSLSensor * W → Prop) : represents a (t, w) →
  (∀ w', represents a (t, w') → Q (0, lit (if on (xl a) then rate (xl a) else 0)) (t, w')) → dwp (getXOdr local old) Q (t, w).
Proof using Hs1 Hst Hrel.
  intros Hs HQ. pose proof Hs as [Hb (H1 & _)]. cbn [fst snd] in *. apply dwp_inquire_ok; [done..|]. intros w' Hw.
  change [(LSM6DSL_ACC_GYRO_ODR_XL_POWER_DOWN, lit 0); _; _; _; _; _; _; _; _; _; _] with odr_table.
  change (field_of w _) with (field_of w odr_xl). rewrite (odr_shown _ _ _ _ H1). by apply HQ, (represents_same _ _ w).
Qed.

Lemma dwp_getGOdr old a t w (Q : Z * f32 → LSM6DSLSensor * W → Prop) : represents a (t, w) →
  (∀ w', represents a (t, w') → Q (0, lit (if on (gy a) then rate (gy a) else 0)) (t, w')) → dwp (getGOdr local old) Q (t, w).
Proof using Hs1 Hst Hrel.
  intros Hs HQ. pose proof Hs as [Hb (_ & _ & H3 & _)]. cbn [fst snd] in *. apply dwp_inquire_ok; [done..|]. intros w' Hw.
  change [(LSM6DSL_ACC_GYRO_ODR_G_POWER_DOWN, lit 0); _; _; _; _; _; _; _; _; _; _] with odr_table.
  change (field_of w _) with (field_of w odr_g). rewrite (odr_shown _ _ _ _ H3). by apply HQ, (represents_same _ _ w).
Qed.

Lemma takes_disableAccelerator a : takes (disableAccelerator local) 0 a (with_xl (turn false) a).
Proof using Hs1 Hst Hrel Hwr.
  state Hb Hm H1 H2 H3 H4 H5. destruct H1 as [Hr Hx]. destruct (on (xl a)) eqn:Eon.
  - destruct Hx as [E Hx]. rewrite E. cbn [Z.eqb]. apply dwp_bind, (dwp_getXOdr _ a); [done|]. clear Hb Hm Hx H2 H3 H4 H5.
    intros w' [Hb Hm]. cbn [fst snd] in Hb, Hm. pose proof Hm as (_ & H2 & H3 & H4 & H5). rewrite Eon. apply dwp_update. cbn [Z.eqb].
    apply dwp_set_then; [done..|]. intros w2 Hb2 Hf. apply dwp_update. written; is_half Eon.
  - destruct Hx as (E & Hx & Hl). rewrite E. cbn [Z.eqb]. in_object; is_half Eon.
Qed.

Lemma takes_disableGyroscope a : takes (disableGyroscope local) 0 a (with_gy (turn false) a).
Proof using Hs1 Hst Hrel Hwr.
  state Hb Hm H1 H2 H3 H4 H5. destruct H3 as [Hr Hx]. destruct (on (gy a)) eqn:Eon.
  - destruct Hx as [E Hx]. rewrite E. cbn [Z.eqb]. apply dwp_bind, (dwp_getGOdr _ a); [done|]. clear Hb Hm Hx H1 H2 H4 H5.
    intros w' [Hb Hm]. cbn [fst snd] in Hb, Hm. pose proof Hm as (H1 & H2 & _ & H4 & H5). rewrite Eon. apply dwp_update. cbn [Z.eqb].
    apply dwp_set_then; [done..|]. intros w2 Hb2 Hf. apply dwp_update. written; is_half Eon.
  - destruct Hx as (E & Hx & Hl). rewrite E. cbn [Z.eqb]. in_object; is_half Eon.
Qed.

(** ** Sequences of writes *)

Definition shows g w : Prop := basic w ∧ ∀ p, p ∈ watched → field_of w p = g p.

Lemma dwp_shows r mask v k t w g (Q : Z → LSM6DSLSensor * W → Prop) :
  shows g w → is_u8 r → r ≠ LSM6DSL_ACC_GYRO_FUNC_CFG_ACCESS → separate r mask = true →
  (touched r = true → is_u8 v ∧ within mask v) →
  (∀ w', shows (put_field (r, mask) v g) w' → dwp k Q (t, w')) →
  dwp (guarded (driver (W_field r mask v)) k) Q (t, w).
Proof using Hs1 Hst Hrel Hwr.
  intros [Hb Hg] Hr Hn Hsep Hv HQ. apply dwp_set_then; [done..|]. intros w' Hb' Hf. apply HQ. split; [done|].
  intros p Hp. rewrite (Hf p Hp). unfold put_field. destruct (decide _); [done|]. by apply Hg.
Qed.

Lemma shows_machine a t w g : shows g w → is_machine a t g → represents a (t, w).
Proof using. intros [Hb Hg] Hm. split; [done|]. by eapply is_machine_ext. Qed.

(** The side conditions at a concrete register. *)
Ltac untouched := let H := fresh in intros H; vm_compute in H; discriminate H.
Ltac concrete := first [done | untouched | intros _; by vm_compute | refine (bool_decide_unpack _ _); by vm_compute].

Lemma next_xl_scale_in x : next_xl_scale x ∈ [2; 4; 8; 16].
Proof using.
  unfold next_xl_scale. match goal with |- up_to ?x ?l ?d ∈ _ => generalize (up_to_in x l d); generalize (up_to x l d) end.
  apply Forall_forall. repeat constructor; in_list.
Qed.

Lemma takes_setXFullScale x a : takes (setXFullScale x) 0 a (with_xl (with_scale (next_xl_scale x)) a).
Proof using Hs1 Hst Hrel Hwr.
  intros [t w] [Hb Hm]. cbn [fst snd] in Hb, Hm. unfold setXFullScale.
  match goal with |- context [up_to ?y ?l ?d] => assert (up_to y l d = xl_code (next_xl_scale x)) as -> end.
  { unfold next_xl_scale. cbn [up_to]. repeat (destruct (f32_le x _); [done|]). done. }
  pose proof (next_xl_scale_in x) as Hin. apply dwp_set_then; [done..| |].
  - intros _. revert Hin. generalize (next_xl_scale x). apply Forall_forall. by repeat constructor.
  - intros w' Hb' Hf. pose proof Hm as (H1 & H2 & H3 & H4 & H5). written.
Qed.

Lemma next_g_scale_in x : f32_le x (lit 125) = false → next_g_scale x ∈ [245; 500; 1000; 2000].
Proof using.
  intros E. unfold next_g_scale. cbn [up_to]. rewrite E. clear E. repeat (destruct (f32_le x _); [in_list|]). in_list.
Qed.

Lemma takes_setGFullScale x a : takes (setGFullScale x) 0 a (with_gy (with_scale (next_g_scale x)) a).
Proof using Hs1 Hst Hrel Hwr.
  intros [t w] [Hb Hm]. cbn [fst snd] in Hb, Hm. pose proof Hm as (H1 & H2 & H3 & H4 & H5). unfold setGFullScale.
  assert (shows (field_of w) w) as Hw by done. destruct (f32_le x (lit 125)) eqn:E.
  - eapply dwp_shows; [exact Hw|concrete..|]. intros w' Hw'. apply dwp_ret. split; [done|]. eapply shows_machine; [done|].
    unfold is_machine. fields. parts. same_machine. left. unfold next_g_scale. cbn [up_to]. by rewrite E.
  - match goal with |- context [up_to ?y ?l ?d] => assert (up_to y l d = g_code (next_g_scale x)) as -> end.
    { unfold next_g_scale. cbn [up_to]. rewrite E. clear E. repeat (destruct (f32_le x _); [done|]). done. }
    pose proof (next_g_scale_in x E) as Hin. eapply dwp_shows; [exact Hw|concrete..|]. intros w1 Hw1.
    eapply dwp_shows; [exact Hw1|done..| |].
    + intros _. revert Hin. generalize (next_g_scale x). apply Forall_forall. by repeat constructor.
    + intros w2 Hw2. apply dwp_ret. split; [done|]. eapply shows_machine; [done|]. unfold is_machine. fields. parts. same_machine.
      * right. done.
      * intros fl. rewrite !put_other by (by apply flag_field_ne; unfold sensor_fields; in_list). done.
Qed.

(** ** The detectors *)

Lemma dwp_other r mask v g w (Q : mems_status_t → W → Prop) : shows g w → is_u8 r → r ≠ LSM6DSL_ACC_GYRO_FUNC_CFG_ACCESS →
  separate r mask = true → (touched r = true → is_u8 v ∧ within mask v) → (r, mask) ∉ watched →
  (∀ w', shows g w' → Q MEMS_SUCCESS w') → dwp (W_field r mask v) Q w.
Proof using Hs1 Hst Hrel Hwr.
  intros [Hb Hg] Hr Hn Hsep Hv Hp HQ. apply dwp_set_field; [done..|]. intros w' Hb' Hf. apply HQ. split; [done|].
  intros p Hw. rewrite (Hf p Hw), put_other; [by apply Hg|]. by intros ->.
Qed.

Lemma takes_driver (m : dev W mems_status_t) a :
  (∀ t w, represents a (t, w) → dwp m (λ st w', st = MEMS_SUCCESS ∧ represents a (t, w')) w) → takes (driver m) 0 a a.
Proof using.
  intros Hm [t w] Hs. unfold driver. apply dwp_bind, dwp_drive. eapply dwp_mono; [by apply Hm|].
  intros st w' [-> Hs']. by apply dwp_ret.
Qed.

Lemma takes_FF_Duration v a : takes (driver (LSM6DSL_ACC_GYRO_W_FF_Duration v)) 0 a a.
Proof using Hs1 Hst Hrel Hwr.
  apply takes_driver. intros t w [Hb Hm]. unfold LSM6DSL_ACC_GYRO_W_FF_Duration, W_shifted.
  apply dwp_bind, (dwp_other _ _ _ (field_of w)); [done|concrete..|]. intros w1 Hw1. cbn [failed].
  apply (dwp_other _ _ _ (field_of w)); [done|concrete..|]. intros w2 Hw2. split; [done|]. by eapply shows_machine.
Qed.

Lemma lsm_place_embedded (c : Z → Z) r : Z.testbit (c LSM6DSL_ACC_GYRO_FUNC_CFG_ACCESS) 7 = true →
  r ≠ LSM6DSL_ACC_GYRO_FUNC_CFG_ACCESS → lsm_place c r = 256 + r.
Proof using. intros E Hr. unfold lsm_place. by rewrite (proj2 (Z.eqb_neq _ _) Hr), E. Qed.

Lemma watched_byte p : p ∈ watched → p.1 < 256 ∧ p.1 ≠ LSM6DSL_ACC_GYRO_FUNC_CFG_ACCESS.
Proof using. revert p. apply Forall_forall. by repeat constructor. Qed.

(** The threshold of the pedometer is set in the registers of the embedded functions. *)
Lemma takes_PedoThreshold v a : takes (driver (LSM6DSL_ACC_GYRO_W_PedoThreshold (u8 local) v)) 0 a a.
Proof using Hs1 Hst Hrel Hwr.
  apply takes_driver. intros t w [Hb Hm]. cbn [fst snd] in Hb, Hm. unfold LSM6DSL_ACC_GYRO_W_PedoThreshold.
  apply dwp_bind, dwp_W_ok; [done|]. rewrite (basic_at _ _ Hb). intros w1 Hu1 Hc1. specialize (Hc1 ltac:(done) Hs1).
  assert (at_reg w1 LSM6DSL_ACC_GYRO_CONFIG_PEDO_THS_MIN = 271) as Hat.
  { apply lsm_place_embedded; [|done]. rewrite Hc1. unfold set_bits. rewrite Z.lor_spec. by rewrite orb_true_r. }
  apply dwp_bind, (dwp_read_byte stored); [done|apply u8_range|]. intros st b w2 Hb2 Hs2 _ _.
  apply dwp_bind, dwp_write_ok; [done|apply u8_range|]. rewrite (at_reg_same stored Hs1 _ _ _ Hs2), Hat. intros w3 Hu3 _.
  apply dwp_bind, dwp_W_ok; [done|].
  change (at_reg w3 LSM6DSL_ACC_GYRO_FUNC_CFG_ACCESS) with LSM6DSL_ACC_GYRO_FUNC_CFG_ACCESS. intros w4 Hu4 Hc4.
  specialize (Hc4 ltac:(done) Hs1). apply dwp_ret. split; [done|]. split; cbn [fst snd].
  - unfold basic. rewrite Hc4. unfold set_bits. by rewrite Z.lor_spec, Z.land_spec, andb_false_r.
  - eapply is_machine_ext; [done|]. intros [r m] Hp. destruct (watched_byte _ Hp) as [H256 Hn]. cbn [fst] in *. unfold field_of. cbn [fst snd].
    pose proof (Hst _ _ Hp) as Hr. rewrite (Hu4 _ Hr Hn), (Hu3 _ Hr), (Hs2 _ Hr), (Hu1 _ Hr Hn); [done|]. lia.
Qed.


Lemma takes_FS_XL_2g a : takes (driver (LSM6DSL_ACC_GYRO_W_FS_XL LSM6DSL_ACC_GYRO_FS_XL_2g)) 0 a (with_xl (with_scale 2) a).
Proof using Hs1 Hst Hrel Hwr.
  apply takes_field; [done..|]. intros t g Hm. pose proof Hm as (H1 & H2 & H3 & H4 & H5). unfold is_machine. fields. parts. same_machine.
  split; [in_list|done].
Qed.

Lemma takes_one (m : dev W mems_status_t) a a' : takes (driver m) 0 a a' → takes (guarded (driver m) (mret 0)) 0 a a'.
Proof using. intros Hm. eapply takes_guarded; [done|]. apply takes_ret. Qed.

(** One call of a detector's methods, and all of them. *)
Ltac call d := first
  [ apply takes_setXOdr | apply takes_setXFullScale | apply takes_FS_XL_2g | apply takes_FF_Duration
  | apply takes_PedoThreshold | apply takes_one, takes_PedoThreshold
  | apply (takes_flag (Int1 d) true) | apply (takes_flag (Int2 d) true)
  | apply (takes_flag (Int1 d) false) | apply (takes_flag (Int2 d) false)
  | apply (takes_flag Interrupts true) | apply (takes_flag Interrupts false)
  | apply (takes_flag Functions true) | apply (takes_flag Functions false)
  | apply (takes_flag StepInt1 true) | apply (takes_flag StepInt1 false)
  | apply takes_other; concrete | apply takes_one, takes_other; concrete ].
Ltac calls d := repeat (eapply takes_guarded; [call d|]); apply takes_ret.


Lemma takes_enable d pin a : takes (enable d pin) (spec_step (EnableDetection d pin) a).1.1 a (spec_step (EnableDetection d pin) a).2.
Proof using Hs1 Hst Hrel Hwr.
  destruct (decide (pin = LSM6DSL_INT1_PIN)) as [->|H1]; [|destruct (decide (pin = LSM6DSL_INT2_PIN)) as [->|H2]].
  1, 2: destruct d; [calls FreeFall|calls WakeUp|calls SingleTap|calls DoubleTap|calls SixD|calls Tilt].
  unfold spec_step. rewrite (decide_False (P := pin = LSM6DSL_INT1_PIN)), (decide_False (P := pin = LSM6DSL_INT2_PIN)) by done.
  assert (∀ x y z : meth (W := W) Z, switch pin [(LSM6DSL_INT1_PIN, x); (LSM6DSL_INT2_PIN, y)] z = z) as Hsw.
  { intros. cbn [switch]. by rewrite (proj2 (Z.eqb_neq _ _) H1), (proj2 (Z.eqb_neq _ _) H2). }
  destruct d; cbn [enable]; unfold enableFreeFallDetection, enableWakeUpDetection, enableSingleTapDetection, enableDoubleTapDetection,
    enable6dOrientation, enableTiltDetection; rewrite Hsw; calls FreeFall.
Qed.

Lemma takes_disable d a : takes (disable d) 0 a (spec_step (DisableDetection d) a).2.
Proof using Hs1 Hst Hrel Hwr.
  destruct d; [calls FreeFall|calls WakeUp|calls SingleTap|calls DoubleTap|calls SixD|calls Tilt].
Qed.

Lemma takes_enablePedometer a : takes (enablePedometer local) 0 a (spec_step EnablePedometer a).2.
Proof using Hs1 Hst Hrel Hwr. unfold enablePedometer. calls FreeFall. Qed.
Lemma takes_disablePedometer a : takes (disablePedometer local) 0 a (spec_step DisablePedometer a).2.
Proof using Hs1 Hst Hrel Hwr. unfold disablePedometer. calls FreeFall. Qed.
Lemma takes_resetStepCounter a : takes resetStepCounter 0 a a.
Proof using Hs1 Hst Hrel Hwr. unfold resetStepCounter. calls FreeFall. Qed.

(** ** The start, and the refinement *)

(** The flags as they stand in the registers. *)
Definition flags_at w : flag → bool := λ fl, negb (field_of w (flag_field fl) =? 0).

Lemma flag_power fl : ∃ k, 0 ≤ k ∧ (flag_field fl).2 = 2 ^ k.
Proof using. destruct fl as [[]|[]| | |]; (by exists 4) || (by exists 5) || (by exists 6) || (by exists 3) || (by exists 2) || (by exists 1) || by exists 7. Qed.

Lemma flags_at_spec w fl : field_of w (flag_field fl) = if flags_at w fl then (flag_field fl).2 else 0.
Proof using.
  unfold flags_at, field_of. destruct (flag_power fl) as (k & Hk & ->). generalize (cell w (flag_field fl).1). intros c.
  destruct (Z.testbit c k) eqn:E.
  - assert (Z.land c (2 ^ k) = 2 ^ k) as ->.
    { apply Z.bits_inj'. intros i Hi. rewrite Z.land_spec, Z.pow2_bits_eqb by done. destruct (Z.eqb_spec k i) as [->|]; by rewrite ?E, ?andb_false_r. }
    rewrite (proj2 (Z.eqb_neq _ _)); [done|]. apply Z.pow_nonzero; lia.
  - assert (Z.land c (2 ^ k) = 0) as ->; [|done].
    apply Z.bits_inj'. intros i Hi. rewrite Z.land_spec, Z.pow2_bits_eqb, Z.bits_0 by done. destruct (Z.eqb_spec k i) as [->|]; by rewrite ?E, ?andb_false_r.
Qed.

(** The machine of a device that has just been started. *)
Definition started w : machine :=
  {| xl := {| on := false; rate := 104; scale := 2 |}; gy := {| on := false; rate := 104; scale := 2000 |}; flags := flags_at w |}.

Lemma dwp_sensor_init t w : basic w → dwp sensor_init (λ r s', r = 0 ∧ represents (started w) s') (t, w).
Proof using Hs1 Hst Hrel Hwr.
  intros Hb. assert (shows (field_of w) w) as Hw by done. unfold sensor_init.
  eapply dwp_shows; [exact Hw|concrete..|]. clear Hw. intros w1 Hw1.
  eapply dwp_shows; [exact Hw1|concrete..|]. clear w1 Hw1. intros w1 Hw1.
  eapply dwp_shows; [exact Hw1|concrete..|]. clear w1 Hw1. intros w1 Hw1.
  eapply dwp_shows; [exact Hw1|concrete..|]. clear w1 Hw1. intros w1 Hw1.
  unfold guarded at 1. apply dwp_bind. eapply dwp_shows; [exact Hw1|concrete..|]. clear w1 Hw1. intros w1 Hw1. apply dwp_ret. cbn [Z.eqb].
  eapply dwp_shows; [exact Hw1|concrete..|]. clear w1 Hw1. intros w1 Hw1.
  unfold guarded at 1. apply dwp_bind. change (setGFullScale (lit 2000)) with
    (guarded (driver (W:=W) (LSM6DSL_ACC_GYRO_W_FS_125 LSM6DSL_ACC_GYRO_FS_125_DISABLED))
      (guarded (driver (LSM6DSL_ACC_GYRO_W_FS_G LSM6DSL_ACC_GYRO_FS_G_2000dps)) (mret 0))).
  eapply dwp_shows; [exact Hw1|concrete..|]. clear w1 Hw1. intros w1 Hw1.
  eapply dwp_shows; [exact Hw1|concrete..|]. clear w1 Hw1. intros w1 Hw1. apply dwp_ret. cbn [Z.eqb].
  repeat apply dwp_update. apply dwp_ret. split; [done|]. eapply shows_machine; [done|].
  unfold is_machine. split_and!; [split; [unfold rates; in_list|done]|split; [in_list|done]|split; [unfold rates; in_list|done]| |].
  - right. split; [in_list|done].
  - intros fl. cbn [flags started]. rewrite <-flags_at_spec. by destruct fl as [[]|[]| | |].
Qed.

Lemma dwp_getXFullScale old a t w (Q : Z * f32 → LSM6DSLSensor * W → Prop) : represents a (t, w) →
  (∀ w', represents a (t, w') → Q (0, lit (scale (xl a))) (t, w')) → dwp (getXFullScale local old) Q (t, w).
Proof using Hs1 Hst Hrel.
  intros Hs HQ. pose proof Hs as [Hb (_ & [Hin Hfs] & _)]. cbn [fst snd] in *. apply dwp_inquire_ok; [done..|]. intros w' Hw.
  change (field_of w _) with (field_of w fs_xl). rewrite Hfs.
  match goal with |- Q ?r _ => assert (r = (0, lit (scale (xl a)))) as -> end; [|by apply HQ, (represents_same _ _ w)].
  revert Hin. generalize (scale (xl a)). apply Forall_forall. by repeat constructor.
Qed.

Lemma dwp_getGFullScale old a t w (Q : Z * f32 → LSM6DSLSensor * W → Prop) : represents a (t, w) →
  (∀ w', represents a (t, w') → Q (0, lit (scale (gy a))) (t, w')) → dwp (getGFullScale local old) Q (t, w).
Proof using Hs1 Hst Hrel.
  intros Hs HQ. pose proof Hs as [Hb _]. cbn [fst snd] in *. unfold getGFullScale.
  apply dwp_bind, dwp_drive, dwp_R_ok; [done..|]. intros w1 Hw1. cbn [failed].
  assert (represents a (t, w1)) as Hs' by (by apply (represents_same _ _ w)). pose proof Hs' as [Hb1 (_ & _ & _ & Hg & _)]. cbn [fst snd] in *.
  apply dwp_bind, dwp_drive, dwp_R_ok; [done..|]. intros w2 Hw2. cbn [failed].
  assert (represents a (t, w2)) as Hs2 by (by apply (represents_same _ _ w1)).
  change (field_of w (LSM6DSL_ACC_GYRO_CTRL2_G, LSM6DSL_ACC_GYRO_FS_125_MASK)) with (field_of w fs_125).
  change (field_of w1 _) with (field_of w1 fs_g).
  assert (field_of w fs_125 = field_of w1 fs_125) as ->.
  { unfold field_of. rewrite Hw1; [done|]. eapply (Hst _ fs_125.2). unfold watched. in_list. }
  destruct Hg as [[E ->]|(Hin & -> & ->)]; [rewrite E in HQ; by apply dwp_ret, HQ|]. cbn [Z.eqb]. apply dwp_ret.
  match goal with |- Q ?r _ => assert (r = (0, lit (scale (gy a)))) as -> end; [|by apply HQ].
  revert Hin. generalize (scale (gy a)). apply Forall_forall. by repeat constructor.
Qed.

Lemma represents_same_flags a a' s : represents a s → xl a' = xl a → gy a' = gy a → (∀ fl, flags a' fl = flags a fl) → represents a' s.
Proof using.
  intros [Hb Hm] Hx Hg Hf. split; [done|]. unfold is_machine in *. rewrite Hx, Hg. destruct Hm as (? & ? & ? & ? & Hm). split_and!; try done.
  intros fl. by rewrite Hm, Hf.
Qed.

Lemma dwp_plain (m : meth Z) r a a' s : takes m r a a' → represents a s →
  dwp (plain m) (λ x s', x = (r, None) ∧ represents a' s') s.
Proof using. intros Hm Hs. unfold plain. apply dwp_bind. eapply dwp_mono; [by apply Hm|]. intros x s' [-> Hs']. by apply dwp_ret. Qed.

Lemma dwp_reads_float (m : meth (Z * f32)) x a t w : represents a (t, w) →
  (∀ Q : Z * f32 → LSM6DSLSensor * W → Prop, (∀ w', represents a (t, w') → Q (0, x) (t, w')) → dwp m Q (t, w)) →
  dwp (reads_float m) (λ r s', r = (0, Some x) ∧ represents a s') (t, w).
Proof using. intros Hs Hm. unfold reads_float. apply dwp_bind, Hm. intros w' Hs'. by apply dwp_ret. Qed.

Lemma perform_init a s : represents a s → dwp (plain sensor_init) (λ r s', r = (0, None) ∧ represents (spec_step Init a).2 s') s.
Proof using Hs1 Hst Hrel Hwr.
  destruct s as [t w]. intros [Hb (_ & _ & _ & _ & Hf)]. cbn [fst snd] in *. unfold plain. apply dwp_bind. eapply dwp_mono; [by apply dwp_sensor_init|].
  intros r s' [-> Hr]. apply dwp_ret. split; [done|]. eapply represents_same_flags; [done..|]. intros fl. cbn.
  unfold flags_at. rewrite Hf. destruct (flag_power fl) as (k & Hk & ->). destruct (flags a fl); [|done].
  symmetry. apply negb_true_iff, Z.eqb_neq, Z.pow_nonzero; lia.
Qed.

(** Every call implements its specification. *)
Lemma perform_spec o a s : represents a s → dwp (perform local o) (λ r s', r = (spec_step o a).1 ∧ represents (spec_step o a).2 s') s.
Proof using Hs1 Hst Hrel Hwr.
  intros Hs. destruct o; cbn [perform];
    try (apply (dwp_plain _ 0 a); [apply takes_one; first [apply takes_PedoThreshold | apply takes_other; concrete]|exact Hs]).
  - by apply perform_init.
  - by apply (dwp_plain _ 0 a), Hs; apply takes_enableAccelerator.
  - by apply (dwp_plain _ 0 a), Hs; apply takes_disableAccelerator.
  - by apply (dwp_plain _ 0 a), Hs; apply takes_setXOdr.
  - destruct s as [t w]. apply dwp_reads_float; [done|]. intros Q HQ. by apply (dwp_getXOdr _ a).
  - by apply (dwp_plain _ 0 a), Hs; apply takes_setXFullScale.
  - destruct s as [t w]. apply dwp_reads_float; [done|]. intros Q HQ. by apply (dwp_getXFullScale _ a).
  - by apply (dwp_plain _ 0 a), Hs; apply takes_enableGyroscope.
  - by apply (dwp_plain _ 0 a), Hs; apply takes_disableGyroscope.
  - by apply (dwp_plain _ 0 a), Hs; apply takes_setGOdr.
  - destruct s as [t w]. apply dwp_reads_float; [done|]. intros Q HQ. by apply (dwp_getGOdr _ a).
  - by apply (dwp_plain _ 0 a), Hs; apply takes_setGFullScale.
  - destruct s as [t w]. apply dwp_reads_float; [done|]. intros Q HQ. by apply (dwp_getGFullScale _ a).
  - eapply dwp_mono; [by apply (dwp_plain _ _ a _ _ (takes_enable d pin a))|]. intros r s' [-> Hr]. split; [|done].
    unfold spec_step. by repeat case_decide.
  - by apply (dwp_plain _ 0 a), Hs; apply takes_disable.
  - by apply (dwp_plain _ 0 a), Hs; apply takes_enablePedometer.
  - by apply (dwp_plain _ 0 a), Hs; apply takes_disablePedometer.
  - by apply (dwp_plain _ 0 a), Hs; apply takes_resetStepCounter.
Qed.

Lemma run_machine os a s : represents a s → dwp (run local os) (λ rs s', rs = (spec_run os a).1 ∧ represents (spec_run os a).2 s') s.
Proof using Hs1 Hst Hrel Hwr.
  revert a s. induction os as [|o os IH]; intros a s Hs; cbn [run spec_run]; [by apply dwp_ret|].
  apply dwp_bind. eapply dwp_mono; [by apply (perform_spec o a)|]. intros r s1 [-> Hs'].
  destruct (spec_step o a) as [r a1]. cbn [fst snd] in *. apply dwp_bind. eapply dwp_mono; [by apply (IH a1)|].
  intros rs s2 [-> Hs2]. destruct (spec_run os a1) as [rs a2]. by apply dwp_ret.
Qed.

(** From any object and registers, once started. *)
Lemma start_run os t w : basic w →
  dwp (run local (Init :: os)) (λ rs s', rs = (spec_run (Init :: os) (started w)).1 ∧
    represents (spec_run (Init :: os) (started w)).2 s') (t, w).
Proof using Hs1 Hst Hrel Hwr.
  intros Hb. cbn [run]. apply dwp_bind. unfold perform, plain. apply dwp_bind. eapply dwp_mono; [by apply dwp_sensor_init|].
  intros r s1 [-> Hs]. apply dwp_ret, dwp_bind. eapply dwp_mono; [by apply run_machine|]. intros rs s2 [-> Hs2]. cbn [spec_run spec_step].
  change {| xl := _; gy := _; flags := flags (started w) |} with (started w).
  destruct (spec_run os (started w)) as [rs a]. by apply dwp_ret.
Qed.

(** C4: on a bus that works, from any object and any registers of which those of the
    sensors are selected, every sequence of calls after init terminates and returns what
    the abstract machine says, and the object and the registers represent its state:
    rates and full scales are the lowest ones that are enough, a sensor that is off
    remembers its rate and gets it back when it is enabled, a detector sets rate, scale,
    its pin and its master switch, a wrong pin is reported after all the rest has been
    set, and disabling any detector turns the interrupts of all of them off. *)
Theorem LSM6DSLSensor_refines os t w : basic w →
  dwp (run local (Init :: os)) (λ rs s', rs = (spec_run (Init :: os) (started w)).1 ∧
    represents (spec_run (Init :: os) (started w)).2 s') (t, w).
Proof using Hs1 Hst Hrel Hwr. apply start_run. Qed.

(** ** Events *)

(** An event: of a detector, or a step. *)
Definition event_bit (e : option detector) (st : LSM6DSL_Event_Status_t) : Z :=
  match e with
  | Some FreeFall => FreeFallStatus st | Some WakeUp => WakeUpStatus st | Some SingleTap => TapStatus st
  | Some DoubleTap => DoubleTapStatus st | Some SixD => D6DOrientationStatus st | Some Tilt => TiltStatus st
  | None => StepStatus st
  end.
Definition event_source (e : option detector) : Z * Z :=
  match e with
  | Some FreeFall => (LSM6DSL_ACC_GYRO_WAKE_UP_SRC, LSM6DSL_ACC_GYRO_FF_EV_STATUS_MASK)
  | Some WakeUp => (LSM6DSL_ACC_GYRO_WAKE_UP_SRC, LSM6DSL_ACC_GYRO_WU_EV_STATUS_MASK)
  | Some SingleTap => (LSM6DSL_ACC_GYRO_TAP_SRC, LSM6DSL_ACC_GYRO_SINGLE_TAP_EV_STATUS_MASK)
  | Some DoubleTap => (LSM6DSL_ACC_GYRO_TAP_SRC, LSM6DSL_ACC_GYRO_DOUBLE_TAP_EV_STATUS_MASK)
  | Some SixD => (LSM6DSL_ACC_GYRO_D6D_SRC, LSM6DSL_ACC_GYRO_D6D_EV_STATUS_MASK)
  | Some Tilt => (LSM6DSL_ACC_GYRO_FUNC_SRC, LSM6DSL_ACC_GYRO_TILT_EV_STATUS_MASK)
  | None => (LSM6DSL_ACC_GYRO_FUNC_SRC, LSM6DSL_ACC_GYRO_PEDO_EV_STATUS_MASK)
  end.
Definition routed (a : machine) (e : option detector) : bool :=
  match e with Some d => flags a (Int1 d) || flags a (Int2 d) | None => flags a StepInt1 end.

(** What [getEventStatus] reports: [src] is what the source registers held when they were read. *)
Definition reports a (res : Z * LSM6DSL_Event_Status_t) w : Prop :=
  res.1 = 0 ∧ ∃ src : Z → Z, (∀ r, stored r → src r = cell w r) ∧
  ∀ e, event_bit e res.2 = if routed a e && bits_set (src (event_source e).1) (event_source e).2 then 1 else 0.

Lemma dwp_readReg r data a t w (Q : Z * Z → LSM6DSLSensor * W → Prop) : is_u8 r → is_u8 data → represents a (t, w) →
  (∀ b w', same_cells w w' → b = cell w r → represents a (t, w') → Q (0, b) (t, w')) → dwp (readReg r data) Q (t, w).
Proof using Hs1 Hst Hrel.
  intros Hr Hd Hs HQ. unfold readReg. apply dwp_bind, dwp_drive, (dwp_read_byte stored); [done..|].
  intros st b w' _ Hw Hb Hok. specialize (Hok Hrel). subst st. cbn [failed]. apply dwp_ret.
  pose proof Hs as [Hbas _]. apply HQ; [done| |by apply (represents_same _ _ w)]. rewrite (Hb eq_refl). f_equal. by apply basic_at.
Qed.

Lemma has_flag a t w fl : represents a (t, w) → bits_set (cell w (flag_field fl).1) (flag_field fl).2 = flags a fl.
Proof using.
  intros [_ (_ & _ & _ & _ & Hf)]. specialize (Hf fl). cbn [snd] in Hf. unfold bits_set. change (Z.land _ _) with (field_of w (flag_field fl)).
  rewrite Hf. destruct (flag_power fl) as (k & Hk & ->). destruct (flags a fl); [|done]. apply negb_true_iff, Z.eqb_neq, Z.pow_nonzero; lia.
Qed.

Lemma dwp_getEventStatus a t w : represents a (t, w) →
  dwp getEventStatus (λ res s', reports a res s'.2 ∧ represents a s') (t, w).
Proof using Hs1 Hst Hrel.
  intros Hs. unfold getEventStatus.
  apply dwp_bind, (dwp_readReg _ _ a); [done..|]. intros b1 w1 Hw1 E1 Hr1. cbn [negb Z.eqb].
  apply dwp_bind, (dwp_readReg _ _ a); [done..|]. intros b2 w2 Hw2 E2 Hr2. cbn [negb Z.eqb].
  apply dwp_bind, (dwp_readReg _ _ a); [done..|]. intros b3 w3 Hw3 E3 Hr3. cbn [negb Z.eqb].
  apply dwp_bind, (dwp_readReg _ _ a); [done..|]. intros b4 w4 Hw4 E4 Hr4. cbn [negb Z.eqb].
  apply dwp_bind, (dwp_readReg _ _ a); [done..|]. intros b5 w5 Hw5 -> Hr5. cbn [negb Z.eqb].
  apply dwp_bind, (dwp_readReg _ _ a); [done..|]. intros b6 w6 Hw6 -> Hr6. cbn [negb Z.eqb].
  apply dwp_bind, (dwp_readReg _ _ a); [done..|]. intros b7 w7 Hw7 -> Hr7. cbn [negb Z.eqb]. apply dwp_ret. split; [|done]. split; [done|].
  exists (λ r, switch r [(LSM6DSL_ACC_GYRO_WAKE_UP_SRC, b1); (LSM6DSL_ACC_GYRO_TAP_SRC, b2); (LSM6DSL_ACC_GYRO_D6D_SRC, b3); (LSM6DSL_ACC_GYRO_FUNC_SRC, b4)] (cell w7 r)).
  split.
  - intros r Hr. cbn [snd switch]. rewrite Hw7, Hw6, Hw5, Hw4 by done.
    repeat match goal with |- context [r =? ?c] => destruct (Z.eqb_spec r c) as [->|] end; subst; by rewrite ?Hw4, ?Hw3, ?Hw2, ?Hw1.
  - assert (∀ b c, event_flag b c = if b && c then 1 else 0) as Hev by (by intros [] []).
    intros [[]|]; cbn [event_bit FreeFallStatus WakeUpStatus TapStatus DoubleTapStatus D6DOrientationStatus TiltStatus StepStatus snd];
      rewrite Hev; cbn [routed];
      first [ match goal with |- context [flags a (Int1 ?d)] =>
                by rewrite <-(has_flag a t w4 (Int1 d)), <-(has_flag a t w5 (Int2 d)) by done end
            | by rewrite <-(has_flag a t w6 StepInt1) by done ].
Qed.

(** C36: after every sequence of calls, getEventStatus reports exactly the events whose
    source bit was set in the device when it was read and whose detection is routed to
    a pin by the calls so far (steps only to pin 1); the sensors are left as they were. *)
Theorem LSM6DSLSensor_events os t w : basic w →
  dwp (_ ← run local (Init :: os); getEventStatus) (λ res s',
    let a := (spec_run (Init :: os) (started w)).2 in reports a res s'.2 ∧ represents a s') (t, w).
Proof using Hs1 Hst Hrel Hwr.
  intros Hb. apply dwp_bind. eapply dwp_mono; [by apply start_run|]. intros rs [t' w'] [_ Hs]. by apply dwp_getEventStatus.
Qed.

(** ** Measurements *)

(** [v] is [x] times [k / 1000], cut to an integer towards zero, up to a relative
    error of [2 ^ -22] before the cut. *)
Definition axis_close (k x v : Z) : Prop :=
  v = Z.sgn x * Z.abs v ∧ 2 ^ 22 * (1000 * Z.abs v) ≤ (2 ^ 22 + 1) * (k * Z.abs x) ∧
  (2 ^ 22 - 1) * (k * Z.abs x) < 2 ^ 22 * (1000 * (Z.abs v + 1)).

(** [s] is [k / 1000] up to a relative error of [2 ^ -24]. *)
Definition is_sensitivity (k : Z) (s : f32) : Prop :=
  ∃ ms es, s = S754_finite false ms es ∧ Zdigits2 (Z.pos ms) = 24 ∧ - 60 ≤ es ≤ 0 ∧
    2 ^ 24 * Z.abs (1000 * Z.pos ms - k * 2 ^ (- es)) ≤ k * 2 ^ (- es).

Lemma axis_product k s x : is_sensitivity k s → 0 < k ≤ 70000 → - 32768 ≤ x ≤ 32767 →
  ∃ v, f32_to_int (- 2147483648) 2147483647 (f32_mul (f32_of_Z x) s) = Ok v ∧ axis_close k x v.
Proof using.
  intros (ms & es & -> & Hms & Hes & Hk) Hk0 Hx. destruct (decide (x = 0)) as [->|Hx0].
  { exists 0. split; [done|]. unfold axis_close. cbn. lia. }
  destruct (mul_trunc x ms es Hx0 ltac:(lia) Hms Hes) as (v & Ev & Hv & Hup & Hlo). unfold f32_to_int. rewrite Ev. clear Ev.
  set (D := 2 ^ (- es)) in *. assert (0 < D) as HD by (apply Z.pow_pos_nonneg; lia).
  assert (Z.abs (Z.sgn x * v) = v) as Eabs by (rewrite Z.abs_mul; destruct (Z.sgn_spec x) as [[? ->]|[[? ->]|[? ->]]]; lia).
  assert (axis_close k x (Z.sgn x * v)) as Hc.
  { unfold axis_close. rewrite Eabs. split; [done|].
    assert (2 ^ 24 * Z.abs (Z.abs x * (1000 * Z.pos ms) - Z.abs x * (k * D)) ≤ Z.abs x * (k * D)) as Hk'.
    { rewrite <-Z.mul_sub_distr_l, Z.abs_mul, Z.abs_eq by lia. nia. }
    replace (Z.abs x * (1000 * Z.pos ms)) with (1000 * (Z.abs x * Z.pos ms)) in Hk' by lia.
    set (N := Z.abs x * Z.pos ms) in *. set (X := Z.abs x * (k * D)) in *. set (Y := v * D) in *.
    split; apply Z.nlt_ge || apply Z.nle_gt; intros Hn.
    - apply (Z.mul_lt_mono_pos_r D) in Hn; [|done]. 
      assert ((2 ^ 22 + 1) * X < 2 ^ 22 * (1000 * Y)) by (unfold X, Y; lia). lia.
    - apply (Z.mul_le_mono_pos_r _ _ D) in Hn; [|done].
      assert (2 ^ 22 * (1000 * (Y + D)) ≤ (2 ^ 22 - 1) * X) by (unfold X, Y; lia). lia. }
  exists (Z.sgn x * v). split; [|done].
  assert (k * Z.abs x ≤ 70000 * 32768) as Hb by nia. destruct Hc as (_ & Hc & _). rewrite Eabs in Hc.
  assert (- v ≤ Z.sgn x * v ≤ v) as Hs by (destruct (Z.sgn_spec x) as [[? ->]|[[? ->]|[? ->]]]; lia).
  rewrite (proj2 (Z.leb_le _ _)), (proj2 (Z.leb_le _ _)) by lia. done.
Qed.

Lemma axes_product k s raw pData : is_sensitivity k s → 0 < k ≤ 70000 → length raw = 3%nat → Forall (λ x, - 32768 ≤ x ≤ 32767) raw →
  zlen pData = 3 → ∃ vs, three_axes (axis_value raw s) pData = Ok vs ∧ Forall2 (axis_close k) raw vs.
Proof using.
  intros Hs Hk Hl Hr Hz. destruct raw as [|x0 [|x1 [|x2 [|]]]]; try done. destruct pData as [|p0 [|p1 [|p2 [|]]]]; unfold zlen in Hz; cbn in Hz; try lia.
  apply Forall_cons in Hr as [H0 Hr]. apply Forall_cons in Hr as [H1 Hr]. apply Forall_cons in Hr as [H2 _].
  destruct (axis_product k s x0 Hs Hk H0) as (v0 & E0 & C0). destruct (axis_product k s x1 Hs Hk H1) as (v1 & E1 & C1).
  destruct (axis_product k s x2 Hs Hk H2) as (v2 & E2 & C2). exists [v0; v1; v2]. split; [|by apply Forall2_cons, conj, Forall2_cons, conj, Forall2_cons, conj, Forall2_nil].
  unfold three_axes, axis_value.
  change (rd [x0; x1; x2] 0) with (Ok x0 : outcome Z). change (rd [x0; x1; x2] 1) with (Ok x1 : outcome Z). change (rd [x0; x1; x2] 2) with (Ok x2 : outcome Z).
  change (Ok x0 ≫= ?f) with (f x0). change (Ok x1 ≫= ?f) with (f x1). change (Ok x2 ≫= ?f) with (f x2). cbv beta.
  rewrite E0, E1, E2. done.
Qed.

Lemma raw_axes regValue pData : zlen regValue = 6 → bytes regValue → zlen pData = 3 →
  three_axes (axis_raw regValue) pData = Ok (raw_axis regValue <$> [0; 1; 2]%nat).
Proof using.
  intros Hr Hb Hz. destruct regValue as [|r0 [|r1 [|r2 [|r3 [|r4 [|r5 [|]]]]]]]; unfold zlen in Hr; cbn in Hr; try lia.
  destruct pData as [|p0 [|p1 [|p2 [|]]]]; unfold zlen in Hz; cbn in Hz; try lia.
  assert (∀ h l, s16 (Z.shiftl h 8 + l) = s16 (l + 256 * h)) as E.
  { intros h l. rewrite Z.shiftl_mul_pow2 by done. f_equal. lia. }
  change (three_axes _ _) with (Ok [s16 (Z.shiftl r1 8 + r0); s16 (Z.shiftl r3 8 + r2); s16 (Z.shiftl r5 8 + r4)] : outcome (list Z)).
  by rewrite !E.
Qed.

(** What a method that reads the axes from [r] on gives, in thousandths of [k]. *)
Definition axes_read (r k : Z) (res : Z * list Z) w : Prop :=
  res.1 = 0 ∧ ∃ raw, length raw = 3%nat ∧ Forall (λ x, - 32768 ≤ x ≤ 32767) raw ∧ Forall2 (axis_close k) raw res.2 ∧
    ((∀ i, 0 ≤ i < 6 → stored (r + i)) → raw = axes stored w r).

Lemma dwp_raw r pData a t w (Q : Z * list Z → LSM6DSLSensor * W → Prop) :
  represents a (t, w) → 0 < r → r + 6 ≤ 256 → zlen pData = 3 →
  (∀ raw w', represents a (t, w') → length raw = 3%nat → Forall (λ x, - 32768 ≤ x ≤ 32767) raw →
     ((∀ i, 0 ≤ i < 6 → stored (r + i)) → raw = axes stored w' r) → Q (0, raw) (t, w')) →
  dwp ('(st, regValue) ← drive (read_bytes 6 r 0 [0; 0; 0; 0; 0; 0] 0);
       if failed st then mret (1, pData) else pData ← checked (three_axes (axis_raw regValue) pData); mret (0, pData)) Q (t, w).
Proof using Hs1 Hst Hrel.
  intros Hs Hr Hr6 Hz HQ. apply dwp_bind, dwp_drive, (dwp_read_bytes stored Hs1); [done|done|lia|by repeat constructor|done|done|].
  intros st m' w' Hzm Hbm Hw Hc Hok. specialize (Hok Hrel). subst st. cbn [failed].
  eapply dwp_checked; [by apply raw_axes|]. apply dwp_ret, HQ; [by apply (represents_same _ _ w)|done| |].
  - apply Forall_fmap, Forall_true. intros i. apply raw_axis_range.
  - intros Hsto. pose proof Hs as [Hb _]. cbn [snd] in Hb.
    assert (∀ i, 0 ≤ i < 6 → nth (Z.to_nat i) m' 0 = cell w' (at_reg w' (r + i))) as Hn.
    { intros i Hi. rewrite (at_reg_same stored Hs1 _ _ _ Hw), (basic_at _ _ Hb), Hw by (by apply Hsto).
      apply nth_lookup_Some. rewrite Hc; [|done| |lia].
      - rewrite decide_True by lia. by rewrite Z.sub_0_r, (basic_at _ _ Hb).
      - intros j Hj. rewrite (basic_at _ _ Hb). by apply Hsto. }
    unfold axes, raw_axis. cbn [fmap list_fmap Nat.mul Nat.add]. by rewrite <-!Hn by lia.
Qed.

Definition xl_micro (s : Z) : Z := 61 * s / 2.
Definition g_micro (s : Z) : Z := if s =? 245 then 8750 else 35 * s.

Ltac sensitivity := eexists _, _; split; [vm_compute; reflexivity|]; split; [done|]; split; [done|]; by vm_compute.

Lemma xl_sensitivities : Forall (λ s, 0 < xl_micro s ≤ 70000 ∧ ∃ x, is_sensitivity (xl_micro s) x ∧
  switch (xl_code s) ((λ c, (c.1, (0, c.2))) <$>
    [(LSM6DSL_ACC_GYRO_FS_XL_2g, LSM6DSL_ACC_SENSITIVITY_FOR_FS_2G); (LSM6DSL_ACC_GYRO_FS_XL_4g, LSM6DSL_ACC_SENSITIVITY_FOR_FS_4G);
     (LSM6DSL_ACC_GYRO_FS_XL_8g, LSM6DSL_ACC_SENSITIVITY_FOR_FS_8G); (LSM6DSL_ACC_GYRO_FS_XL_16g, LSM6DSL_ACC_SENSITIVITY_FOR_FS_16G)])
    (1, lit (-1)) = (0, x)) [2; 4; 8; 16].
Proof using. repeat constructor; try done; (eexists; split; [|reflexivity]; sensitivity). Qed.

Lemma g_sensitivities : Forall (λ s, 0 < g_micro s ≤ 70000 ∧ ∃ x, is_sensitivity (g_micro s) x ∧
  switch (g_code s) ((λ c, (c.1, (0, c.2))) <$>
    [(LSM6DSL_ACC_GYRO_FS_G_245dps, LSM6DSL_GYRO_SENSITIVITY_FOR_FS_245DPS); (LSM6DSL_ACC_GYRO_FS_G_500dps, LSM6DSL_GYRO_SENSITIVITY_FOR_FS_500DPS);
     (LSM6DSL_ACC_GYRO_FS_G_1000dps, LSM6DSL_GYRO_SENSITIVITY_FOR_FS_1000DPS); (LSM6DSL_ACC_GYRO_FS_G_2000dps, LSM6DSL_GYRO_SENSITIVITY_FOR_FS_2000DPS)])
    (1, lit (-1)) = (0, x)) [245; 500; 1000; 2000].
Proof using. repeat constructor; try done; (eexists; split; [|reflexivity]; sensitivity). Qed.

Lemma sensitivity_125 : is_sensitivity (g_micro 125) LSM6DSL_GYRO_SENSITIVITY_FOR_FS_125DPS.
Proof using. sensitivity. Qed.

Lemma dwp_getXSensitivity old a t w (Q : Z * f32 → LSM6DSLSensor * W → Prop) : represents a (t, w) →
  (∀ x w', represents a (t, w') → same_cells w w' → is_sensitivity (xl_micro (scale (xl a))) x → 0 < xl_micro (scale (xl a)) ≤ 70000 → Q (0, x) (t, w')) →
  dwp (getXSensitivity local old) Q (t, w).
Proof using Hs1 Hst Hrel.
  intros Hs HQ. pose proof Hs as [Hb (_ & [Hin Hfs] & _)]. cbn [fst snd] in *. apply dwp_inquire_ok; [done..|]. intros w' Hw.
  change (field_of w _) with (field_of w fs_xl). rewrite Hfs.
  destruct (proj1 (Forall_forall _ _) xl_sensitivities _ Hin) as (Hk & x & Hx & ->). apply HQ; [by apply (represents_same _ _ w)|done..].
Qed.

Lemma dwp_getGSensitivity old a t w (Q : Z * f32 → LSM6DSLSensor * W → Prop) : represents a (t, w) →
  (∀ x w', represents a (t, w') → same_cells w w' → is_sensitivity (g_micro (scale (gy a))) x → 0 < g_micro (scale (gy a)) ≤ 70000 → Q (0, x) (t, w')) →
  dwp (getGSensitivity local old) Q (t, w).
Proof using Hs1 Hst Hrel.
  intros Hs HQ. pose proof Hs as [Hb (_ & _ & _ & Hg & _)]. cbn [fst snd] in *. unfold getGSensitivity.
  apply dwp_bind, dwp_drive, dwp_R_ok; [done..|]. intros w1 Hw1. cbn [failed].
  assert (represents a (t, w1)) as Hs' by (by apply (represents_same _ _ w)). pose proof Hs' as [Hb1 (_ & _ & _ & Hg1 & _)]. cbn [fst snd] in *.
  change (field_of w (LSM6DSL_ACC_GYRO_CTRL2_G, LSM6DSL_ACC_GYRO_FS_125_MASK)) with (field_of w fs_125).
  assert (field_of w fs_125 = field_of w1 fs_125) as ->.
  { unfold field_of. rewrite Hw1; [done|]. eapply (Hst _ fs_125.2). unfold watched. in_list. }
  destruct Hg1 as [[E ->]|(Hin & -> & Hfs)].
  - apply dwp_ret, HQ; [done|done|rewrite E; apply sensitivity_125|by rewrite E].
  - cbn [Z.eqb]. apply dwp_inquire_ok; [done..|]. intros w2 Hw2. change (field_of w1 _) with (field_of w1 fs_g). rewrite Hfs.
    destruct (proj1 (Forall_forall _ _) g_sensitivities _ Hin) as (Hk & x & Hx & ->).
    apply HQ; [by apply (represents_same _ _ w1)|by eapply same_cells_trans|done..].
Qed.

(** The product, after the axes and the sensitivity were read. *)
Lemma axes_done r k x raw pData a t w w0 :
  same_cells w0 w → represents a (t, w) → is_sensitivity k x → 0 < k ≤ 70000 → length raw = 3%nat → Forall (λ x, - 32768 ≤ x ≤ 32767) raw →
  ((∀ i, 0 ≤ i < 6 → stored (r + i)) → raw = axes stored w0 r) → zlen pData = 3 →
  dwp (pData ← checked (three_axes (axis_value raw x) pData); mret (0, pData)) (λ res s', axes_read r k res s'.2 ∧ represents a s') (t, w).
Proof using Hs1.
  intros Hw Hs Hx Hk Hl Hr Hsto Hz. destruct (axes_product k x raw pData Hx Hk Hl Hr Hz) as (vs & E & Hvs).
  eapply dwp_checked; [exact E|]. apply dwp_ret. split; [|done]. split; [done|]. exists raw. split_and!; try done.
  intros Hi. rewrite Hsto by done. unfold axes. pose proof Hs as [Hb _]. cbn [snd] in Hb. cbn [snd].
  assert (∀ i, at_reg w0 i = i ∧ at_reg w i = i) as Hat by (intros i; rewrite <-(at_reg_same stored Hs1 _ _ i Hw), (basic_at _ _ Hb); done).
  cbn [fmap list_fmap]. rewrite !(proj1 (Hat _)), !(proj2 (Hat _)). rewrite !Hw by (apply Hi; lia). done.
Qed.

(** C37: after every sequence of calls, getXAxes and getGAxes succeed, without an
    undefined conversion, with the axes the device shows times the sensitivity of the
    full scale the calls have selected, in mg and mdps, cut towards zero, with a relative
    error of less than 2^-22 from the single-precision arithmetic. *)
Theorem LSM6DSLSensor_axes os pData t w : basic w → zlen pData = 3 →
  let a := (spec_run (Init :: os) (started w)).2 in
  dwp (_ ← run local (Init :: os); getXAxes local pData) (λ res s',
    axes_read LSM6DSL_ACC_GYRO_OUTX_L_XL (xl_micro (scale (xl a))) res s'.2 ∧ represents a s') (t, w) ∧
  dwp (_ ← run local (Init :: os); getGAxes local pData) (λ res s',
    axes_read LSM6DSL_ACC_GYRO_OUTX_L_G (g_micro (scale (gy a))) res s'.2 ∧ represents a s') (t, w).
Proof using Hs1 Hst Hrel Hwr.
  intros Hb Hz a. split; apply dwp_bind; (eapply dwp_mono; [by apply start_run|]); intros rs [t' w'] [_ Hs]; fold a in Hs.
  - unfold getXAxes, getXAxesRaw. apply dwp_bind, (dwp_raw _ _ a); [done..|]. intros raw w1 Hs1' Hl Hr Hsto. cbn [Z.eqb].
    apply dwp_bind, (dwp_getXSensitivity _ a); [done|]. intros x w2 Hs2 Hw2 Hx Hk. cbn [Z.eqb]. by apply (axes_done _ _ _ _ _ _ _ _ w1).
  - unfold getGAxes, getGAxesRaw. apply dwp_bind, (dwp_raw _ _ a); [done..|]. intros raw w1 Hs1' Hl Hr Hsto. cbn [Z.eqb].
    apply dwp_bind, (dwp_getGSensitivity _ a); [done|]. intros x w2 Hs2 Hw2 Hx Hk. cbn [Z.eqb]. by apply (axes_done _ _ _ _ _ _ _ _ w1).
Qed.
End working.

(** * A device *)

Lemma chip_writable place : writable (chip place).
Proof. intros r b w. cbn. by rewrite bool_decide_true by (repeat constructor; set_solver). Qed.

(** An object before [init], and a device that stands still and signals a wake-up. *)
Definition fresh : LSM6DSLSensor := {| _x_is_enabled := 85; _x_last_odr := S754_nan; _g_is_enabled := 85; _g_last_odr := S754_nan |}.
Definition waking : chip lsm_place := Chip (λ a,
  if a =? LSM6DSL_ACC_GYRO_WAKE_UP_SRC then 8 else if a =? LSM6DSL_ACC_GYRO_OUTX_H_XL then 64 else 0).

Lemma LSM6DSLSensor_refines_witness : ∃ rs, rs = [(0, None); (0, None); (0, None); (0, None); (0, None); (0, Some (lit 416))] ∧
  dwp (run 7 [Init; EnableX; SetXOdr (lit 400); DisableX; EnableX; GetXOdr (lit 0)]) (λ rs' s', rs' = rs ∧
    represents (λ _, True) (spec_run [Init; EnableX; SetXOdr (lit 400); DisableX; EnableX; GetXOdr (lit 0)] (started (λ _, True) waking)).2 s') (fresh, waking).
Proof.
  eexists. split; [|refine (LSM6DSLSensor_refines (W := chip lsm_place) (λ _, True) 7 I (λ _ _ _, I) _ (chip_writable _)
    [EnableX; SetXOdr (lit 400); DisableX; EnableX; GetXOdr (lit 0)] fresh waking _)]; [by vm_compute|done|done].
Defined.

Lemma LSM6DSLSensor_events_witness : ∃ a, flags a (Int2 WakeUp) = true ∧ flags a (Int1 WakeUp) = false ∧
  dwp (_ ← run 7 [Init; EnableDetection WakeUp 1]; getEventStatus) (λ res s', reports (λ _, True) a res s'.2 ∧ represents (λ _, True) a s') (fresh, waking).
Proof.
  eexists. split; [|split; [|refine (LSM6DSLSensor_events (W := chip lsm_place) (λ _, True) 7 I (λ _ _ _, I) _ (chip_writable _)
    [EnableDetection WakeUp 1] fresh waking _)]]; done.
Defined.

Lemma LSM6DSLSensor_axes_witness : ∃ k, k = 61 ∧
  dwp (_ ← run 7 [Init; EnableX]; getXAxes 7 [0; 0; 0]) (λ res s', axes_read (λ _, True) LSM6DSL_ACC_GYRO_OUTX_L_XL k res s'.2 ∧
    represents (λ _, True) (spec_run [Init; EnableX] (started (λ _, True) waking)).2 s') (fresh, waking).
Proof.
  eexists. split; [|refine (proj1 (LSM6DSLSensor_axes (W := chip lsm_place) (λ _, True) 7 I (λ _ _ _, I) _ (chip_writable _)
    [EnableX] [0; 0; 0] fresh waking _ _))]; done.
Defined.
