(* ===== verification/Hts221.v ===== *)
(** HTS221_driver.c and HTS221Sensor.cpp: the humidity and temperature sensor.

    The functions that change bits of one register are [modify_reg] of what they
    do to its contents, those that return bits of one are [inspect_reg]. Parameter
    checks loop forever when they fail. A local that the device fills is only used
    after a read that succeeded, so its first contents do not matter. *)
From S2P Require Export SensorBus Float32.

(** ** HTS221_driver.h *)
Definition HTS221_DISABLE : Z := 0.
Definition HTS221_ENABLE : Z := 1.
Definition HTS221_RESET : Z := 0.
Definition HTS221_SET : Z := 1.
Definition HTS221_AVGH_4 : Z := 0.
Definition HTS221_AVGH_8 : Z := 1.
Definition HTS221_AVGH_16 : Z := 2.
Definition HTS221_AVGH_32 : Z := 3.
Definition HTS221_AVGH_64 : Z := 4.
Definition HTS221_AVGH_128 : Z := 5.
Definition HTS221_AVGH_256 : Z := 6.
Definition HTS221_AVGH_512 : Z := 7.
Definition HTS221_AVGT_2 : Z := 0.
Definition HTS221_AVGT_4 : Z := 8.
Definition HTS221_AVGT_8 : Z := 16.
Definition HTS221_AVGT_16 : Z := 24.
Definition HTS221_AVGT_32 : Z := 32.
Definition HTS221_AVGT_64 : Z := 40.
Definition HTS221_AVGT_128 : Z := 48.
Definition HTS221_AVGT_256 : Z := 56.
Definition HTS221_ODR_ONE_SHOT : Z := 0.
Definition HTS221_ODR_1HZ : Z := 1.
Definition HTS221_ODR_7HZ : Z := 2.
Definition HTS221_ODR_12_5HZ : Z := 3.
Definition HTS221_PUSHPULL : Z := 0.
Definition HTS221_OPENDRAIN : Z := 64.
Definition HTS221_HIGH_LVL : Z := 0.
Definition HTS221_LOW_LVL : Z := 128.
Definition HTS221_I2C_ADDRESS : Z := 190.
Definition HTS221_DRIVER_VERSION_MAJOR : Z := 1.
Definition HTS221_DRIVER_VERSION_MINOR : Z := 1.
Definition HTS221_DRIVER_VERSION_POINT : Z := 0.
Definition HTS221_WHO_AM_I_REG : Z := 15.
Definition HTS221_WHO_AM_I_VAL : Z := 188.
Definition HTS221_AV_CONF_REG : Z := 16.
Definition HTS221_AVGT_BIT : Z := 3.
Definition HTS221_AVGH_BIT : Z := 0.
Definition HTS221_AVGH_MASK : Z := 7.
Definition HTS221_AVGT_MASK : Z := 56.
Definition HTS221_CTRL_REG1 : Z := 32.
Definition HTS221_PD_BIT : Z := 7.
Definition HTS221_BDU_BIT : Z := 2.
Definition HTS221_ODR_BIT : Z := 0.
Definition HTS221_PD_MASK : Z := 128.
Definition HTS221_BDU_MASK : Z := 4.
Definition HTS221_ODR_MASK : Z := 3.
Definition HTS221_CTRL_REG2 : Z := 33.
Definition HTS221_BOOT_BIT : Z := 7.
Definition HTS221_HEATHER_BIT : Z := 1.
Definition HTS221_ONESHOT_BIT : Z := 0.
Definition HTS221_BOOT_MASK : Z := 128.
Definition HTS221_HEATHER_MASK : Z := 2.
Definition HTS221_ONE_SHOT_MASK : Z := 1.
Definition HTS221_CTRL_REG3 : Z := 34.
Definition HTS221_DRDY_H_L_BIT : Z := 7.
Definition HTS221_PP_OD_BIT : Z := 6.
Definition HTS221_DRDY_BIT : Z := 2.
Definition HTS221_DRDY_H_L_MASK : Z := 128.
Definition HTS221_PP_OD_MASK : Z := 64.
Definition HTS221_DRDY_MASK : Z := 4.
Definition HTS221_STATUS_REG : Z := 39.
Definition HTS221_H_DA_BIT : Z := 1.
Definition HTS221_T_DA_BIT : Z := 0.
Definition HTS221_HDA_MASK : Z := 2.
Definition HTS221_TDA_MASK : Z := 1.
Definition HTS221_HR_OUT_L_REG : Z := 40.
Definition HTS221_HR_OUT_H_REG : Z := 41.
Definition HTS221_TEMP_OUT_L_REG : Z := 42.
Definition HTS221_TEMP_OUT_H_REG : Z := 43.
Definition HTS221_H0_RH_X2 : Z := 48.
Definition HTS221_H1_RH_X2 : Z := 49.
Definition HTS221_T0_DEGC_X8 : Z := 50.
Definition HTS221_T1_DEGC_X8 : Z := 51.
Definition HTS221_T0_T1_DEGC_H2 : Z := 53.
Definition HTS221_H0_T0_OUT_L : Z := 54.
Definition HTS221_H0_T0_OUT_H : Z := 55.
Definition HTS221_H1_T0_OUT_L : Z := 58.
Definition HTS221_H1_T0_OUT_H : Z := 59.
Definition HTS221_T0_OUT_L : Z := 60.
Definition HTS221_T0_OUT_H : Z := 61.
Definition HTS221_T1_OUT_L : Z := 62.
Definition HTS221_T1_OUT_H : Z := 63.
Definition IS_HTS221_State (x : Z) : bool := existsb (Z.eqb x) [HTS221_ENABLE; HTS221_DISABLE].
Definition IS_HTS221_BitStatus (x : Z) : bool := existsb (Z.eqb x) [HTS221_RESET; HTS221_SET].
Definition IS_HTS221_AVGH (x : Z) : bool := existsb (Z.eqb x) [HTS221_AVGH_4; HTS221_AVGH_8; HTS221_AVGH_16; HTS221_AVGH_32; HTS221_AVGH_64; HTS221_AVGH_128; HTS221_AVGH_256; HTS221_AVGH_512].
Definition IS_HTS221_AVGT (x : Z) : bool := existsb (Z.eqb x) [HTS221_AVGT_2; HTS221_AVGT_4; HTS221_AVGT_8; HTS221_AVGT_16; HTS221_AVGT_32; HTS221_AVGT_64; HTS221_AVGT_128; HTS221_AVGT_256].
Definition IS_HTS221_ODR (x : Z) : bool := existsb (Z.eqb x) [HTS221_ODR_ONE_SHOT; HTS221_ODR_1HZ; HTS221_ODR_7HZ; HTS221_ODR_12_5HZ].
Definition IS_HTS221_OutputType (x : Z) : bool := existsb (Z.eqb x) [HTS221_PUSHPULL; HTS221_OPENDRAIN].
Definition IS_HTS221_DrdyLevelType (x : Z) : bool := existsb (Z.eqb x) [HTS221_HIGH_LVL; HTS221_LOW_LVL].

Inductive HTS221_Error_et := HTS221_OK | HTS221_ERROR.

#[export] Instance HTS221_Error_et_eq_dec : EqDecision HTS221_Error_et.
Proof. solve_decision. Defined.

Definition hts_failed (err : HTS221_Error_et) : bool := bool_decide (err = HTS221_ERROR).

Record HTS221_DriverVersion_st := { Major : Z; Minor : Z; Point : Z }.

Record HTS221_Init_st := {
  avg_h : Z; avg_t : Z; odr : Z; bdu_status : Z; heater_status : Z;
  irq_level : Z; irq_output_type : Z; irq_enable : Z }.

(** [tmp &= ~mask] and [tmp |= v] on a byte. *)
Definition clear (tmp mask : Z) : Z := u8 (Z.land tmp (Z.lnot mask)).
Definition or_into (tmp v : Z) : Z := u8 (Z.lor tmp v).

(** The 16 bits of two bytes. *)
Definition word16 (lo hi : Z) : Z := s16 (Z.lor (u16 (Z.shiftl hi 8)) lo).

(** [assert_failed] prints a message and loops forever. *)
Definition HTS221_assert_param (expr : bool) : outcome () := if expr then Ok () else Ub OutOfFuel.

Definition f32_0 : f32 := f32_of_Z 0.
Definition f32_1 : f32 := f32_of_Z 1.
Definition f32_7 : f32 := f32_of_Z 7.
Definition f32_10 : f32 := f32_of_Z 10.
Definition f32_1000 : f32 := f32_of_Z 1000.
Definition f32_12_5 : f32 := f32_div (f32_of_Z 25) (f32_of_Z 2).

(** The interpolations of HTS221_Get_Humidity and HTS221_Get_Temperature. *)
Definition interpolate (y0 y1 x0 x1 x : Z) : f32 :=
  let tmp_f := f32_add (f32_div (f32_mul (f32_of_Z (x - x0)) (f32_of_Z (y1 - y0))) (f32_of_Z (x1 - x0))) (f32_of_Z y0) in
  f32_mul tmp_f f32_10.

Definition humidity_value (H0_rh H1_rh H0_T0_out H1_T0_out H_T_out : Z) : outcome Z :=
  let tmp_f := interpolate H0_rh H1_rh H0_T0_out H1_T0_out H_T_out in
  if f32_lt f32_1000 tmp_f then Ok 1000
  else if f32_lt tmp_f f32_0 then Ok 0
  else f32_to_int 0 65535 tmp_f.

Definition temperature_value (T0_degC T1_degC T0_out T1_out T_out : Z) : outcome Z :=
  f32_to_int (- 32768) 32767 (interpolate T0_degC T1_degC T0_out T1_out T_out).

(** ** The driver *)
Section driver.
Context {W : Type} `{Bus W}.

Definition HTS221_read_reg (RegAddr NumByteToRead : Z) (Data : list Z) : dev W (HTS221_Error_et * list Z) :=
  let RegAddr := if 1 <? NumByteToRead then u8 (Z.lor RegAddr 128) else RegAddr in
  bs ← checked (rd_bytes Data 0 NumByteToRead);
  '(rc, bs) ← bus_read RegAddr bs NumByteToRead;
  Data ← checked (wr_bytes Data 0 bs);
  mret (if negb (rc =? 0) then HTS221_ERROR else HTS221_OK, Data).

Definition HTS221_write_reg (RegAddr NumByteToWrite : Z) (Data : list Z) : dev W HTS221_Error_et :=
  let RegAddr := if 1 <? NumByteToWrite then u8 (Z.lor RegAddr 128) else RegAddr in
  bs ← checked (rd_bytes Data 0 NumByteToWrite);
  rc ← bus_write RegAddr bs;
  mret (if negb (rc =? 0) then HTS221_ERROR else HTS221_OK).

(** A register read, changed and written back, as most functions do; and a
    register read into a result. *)
Definition modify_reg (Reg : Z) (f : Z → Z) : dev W HTS221_Error_et :=
  '(err, tmp) ← HTS221_read_reg Reg 1 [0];
  if hts_failed err then mret HTS221_ERROR else
  tmp ← checked (rd tmp 0);
  err ← HTS221_write_reg Reg 1 [f tmp];
  if hts_failed err then mret HTS221_ERROR else
  mret HTS221_OK.

Definition inspect_reg {A} (Reg : Z) (f : Z → A) (value : A) : dev W (HTS221_Error_et * A) :=
  '(err, tmp) ← HTS221_read_reg Reg 1 [0];
  if hts_failed err then mret (HTS221_ERROR, value) else
  tmp ← checked (rd tmp 0);
  mret (HTS221_OK, f tmp).

Definition HTS221_Get_DriverVersion : HTS221_Error_et * HTS221_DriverVersion_st :=
  (HTS221_OK, {| Major := HTS221_DRIVER_VERSION_MAJOR; Minor := HTS221_DRIVER_VERSION_MINOR; Point := HTS221_DRIVER_VERSION_POINT |}).

Definition HTS221_Get_DeviceID (deviceid : Z) : dev W (HTS221_Error_et * Z) :=
  '(err, d) ← HTS221_read_reg HTS221_WHO_AM_I_REG 1 [deviceid];
  deviceid ← checked (rd d 0);
  if hts_failed err then mret (HTS221_ERROR, deviceid) else
  mret (HTS221_OK, deviceid).

Definition HTS221_Set_InitConfig (pxInit : HTS221_Init_st) : dev W HTS221_Error_et :=
  _ ← checked (HTS221_assert_param (IS_HTS221_AVGH (avg_h pxInit)));
  _ ← checked (HTS221_assert_param (IS_HTS221_AVGT (avg_t pxInit)));
  _ ← checked (HTS221_assert_param (IS_HTS221_ODR (odr pxInit)));
  _ ← checked (HTS221_assert_param (IS_HTS221_State (bdu_status pxInit)));
  _ ← checked (HTS221_assert_param (IS_HTS221_State (heater_status pxInit)));
  _ ← checked (HTS221_assert_param (IS_HTS221_DrdyLevelType (irq_level pxInit)));
  _ ← checked (HTS221_assert_param (IS_HTS221_OutputType (irq_output_type pxInit)));
  _ ← checked (HTS221_assert_param (IS_HTS221_State (irq_enable pxInit)));
  '(err, buffer) ← HTS221_read_reg HTS221_AV_CONF_REG 1 [0; 0; 0];
  if hts_failed err then mret HTS221_ERROR else
  b0 ← checked (rd buffer 0);
  let b0 := clear b0 (Z.lor HTS221_AVGH_MASK HTS221_AVGT_MASK) in
  let b0 := or_into b0 (avg_h pxInit) in
  let b0 := or_into b0 (avg_t pxInit) in
  err ← HTS221_write_reg HTS221_AV_CONF_REG 1 [b0];
  if hts_failed err then mret HTS221_ERROR else
  '(err, buffer) ← HTS221_read_reg HTS221_CTRL_REG1 3 [b0; 0; 0];
  if hts_failed err then mret HTS221_ERROR else
  b0 ← checked (rd buffer 0);
  b1 ← checked (rd buffer 1);
  b2 ← checked (rd buffer 2);
  let b0 := clear b0 (Z.lor HTS221_BDU_MASK HTS221_ODR_MASK) in
  let b0 := or_into b0 (odr pxInit) in
  let b0 := or_into b0 (Z.shiftl (bdu_status pxInit) HTS221_BDU_BIT) in
  let b1 := clear b1 HTS221_HEATHER_BIT in
  let b1 := or_into b1 (Z.shiftl (heater_status pxInit) HTS221_HEATHER_BIT) in
  let b2 := clear b2 (Z.lor (Z.lor HTS221_DRDY_H_L_MASK HTS221_PP_OD_MASK) HTS221_DRDY_MASK) in
  let b2 := or_into b2 (Z.shiftl (irq_level pxInit) HTS221_DRDY_H_L_BIT) in
  let b2 := or_into b2 (irq_output_type pxInit) in
  let b2 := or_into b2 (Z.shiftl (irq_enable pxInit) HTS221_DRDY_BIT) in
  err ← HTS221_write_reg HTS221_CTRL_REG1 3 [b0; b1; b2];
  if hts_failed err then mret HTS221_ERROR else
  mret HTS221_OK.

Definition HTS221_Get_InitConfig (pxInit : HTS221_Init_st) : dev W (HTS221_Error_et * HTS221_Init_st) :=
  '(err, buffer) ← HTS221_read_reg HTS221_AV_CONF_REG 1 [0; 0; 0];
  if hts_failed err then mret (HTS221_ERROR, pxInit) else
  b0 ← checked (rd buffer 0);
  let avg_h := Z.land b0 HTS221_AVGH_MASK in
  let avg_t := Z.land b0 HTS221_AVGT_MASK in
  let pxInit := {| avg_h := avg_h; avg_t := avg_t; odr := odr pxInit; bdu_status := bdu_status pxInit;
    heater_status := heater_status pxInit; irq_level := irq_level pxInit;
    irq_output_type := irq_output_type pxInit; irq_enable := irq_enable pxInit |} in
  '(err, buffer) ← HTS221_read_reg HTS221_CTRL_REG1 3 buffer;
  if hts_failed err then mret (HTS221_ERROR, pxInit) else
  b0 ← checked (rd buffer 0);
  b1 ← checked (rd buffer 1);
  b2 ← checked (rd buffer 2);
  mret (HTS221_OK, {| avg_h := avg_h; avg_t := avg_t;
    odr := Z.land b0 HTS221_ODR_MASK;
    bdu_status := Z.shiftr (Z.land b0 HTS221_BDU_MASK) HTS221_BDU_BIT;
    heater_status := Z.shiftr (Z.land b1 HTS221_HEATHER_MASK) HTS221_HEATHER_BIT;
    irq_level := Z.land b2 HTS221_DRDY_H_L_MASK;
    irq_output_type := Z.land b2 HTS221_PP_OD_MASK;
    irq_enable := Z.shiftr (Z.land b2 HTS221_DRDY_MASK) HTS221_DRDY_BIT |}).

Definition HTS221_DeInit : dev W HTS221_Error_et :=
  '(err, buffer) ← HTS221_read_reg HTS221_CTRL_REG1 2 [0; 0; 0; 0];
  if hts_failed err then mret HTS221_ERROR else
  b0 ← checked (rd buffer 0);
  b1 ← checked (rd buffer 1);
  let b0 := or_into b0 (Z.shiftl 1 HTS221_PD_BIT) in
  let b1 := or_into b1 (Z.shiftl 1 HTS221_BOOT_BIT) in
  err ← HTS221_write_reg HTS221_CTRL_REG1 2 [b0; b1];
  if hts_failed err then mret HTS221_ERROR else
  '(err, _) ← HTS221_read_reg HTS221_HR_OUT_L_REG 4 [b0; b1; 0; 0];
  if hts_failed err then mret HTS221_ERROR else
  mret HTS221_OK.

(** Two registers as a 16-bit value. *)
Definition read_word (Reg : Z) : dev W (HTS221_Error_et * Z) :=
  '(err, buffer) ← HTS221_read_reg Reg 2 [0; 0];
  if hts_failed err then mret (HTS221_ERROR, 0) else
  lo ← checked (rd buffer 0);
  hi ← checked (rd buffer 1);
  mret (HTS221_OK, word16 lo hi).

Definition HTS221_Get_RawMeasurement (humidity temperature : Z) : dev W (HTS221_Error_et * Z * Z) :=
  '(err, buffer) ← HTS221_read_reg HTS221_HR_OUT_L_REG 4 [0; 0; 0; 0];
  if hts_failed err then mret (HTS221_ERROR, humidity, temperature) else
  b0 ← checked (rd buffer 0);
  b1 ← checked (rd buffer 1);
  b2 ← checked (rd buffer 2);
  b3 ← checked (rd buffer 3);
  mret (HTS221_OK, word16 b0 b1, word16 b2 b3).

Definition HTS221_Get_Humidity (value : Z) : dev W (HTS221_Error_et * Z) :=
  '(err, buffer) ← HTS221_read_reg HTS221_H0_RH_X2 2 [0; 0];
  if hts_failed err then mret (HTS221_ERROR, value) else
  b0 ← checked (rd buffer 0);
  b1 ← checked (rd buffer 1);
  let H0_rh := Z.shiftr b0 1 in
  let H1_rh := Z.shiftr b1 1 in
  '(err, H0_T0_out) ← read_word HTS221_H0_T0_OUT_L;
  if hts_failed err then mret (HTS221_ERROR, value) else
  '(err, H1_T0_out) ← read_word HTS221_H1_T0_OUT_L;
  if hts_failed err then mret (HTS221_ERROR, value) else
  '(err, H_T_out) ← read_word HTS221_HR_OUT_L_REG;
  if hts_failed err then mret (HTS221_ERROR, value) else
  value ← checked (humidity_value H0_rh H1_rh H0_T0_out H1_T0_out H_T_out);
  mret (HTS221_OK, value).

Definition HTS221_Get_HumidityRaw (value : Z) : dev W (HTS221_Error_et * Z) :=
  '(err, v) ← read_word HTS221_HR_OUT_L_REG;
  if hts_failed err then mret (HTS221_ERROR, value) else mret (HTS221_OK, v).

Definition HTS221_Get_Temperature (value : Z) : dev W (HTS221_Error_et * Z) :=
  '(err, buffer) ← HTS221_read_reg HTS221_T0_DEGC_X8 2 [0; 0; 0; 0];
  if hts_failed err then mret (HTS221_ERROR, value) else
  '(err, tmp) ← HTS221_read_reg HTS221_T0_T1_DEGC_H2 1 [0];
  if hts_failed err then mret (HTS221_ERROR, value) else
  b0 ← checked (rd buffer 0);
  b1 ← checked (rd buffer 1);
  tmp ← checked (rd tmp 0);
  let T0_degC_x8_u16 := s16 (Z.lor (Z.shiftl (Z.land tmp 3) 8) b0) in
  let T1_degC_x8_u16 := s16 (Z.lor (Z.shiftl (Z.land tmp 12) 6) b1) in
  let T0_degC := Z.shiftr T0_degC_x8_u16 3 in
  let T1_degC := Z.shiftr T1_degC_x8_u16 3 in
  '(err, buffer) ← HTS221_read_reg HTS221_T0_OUT_L 4 buffer;
  if hts_failed err then mret (HTS221_ERROR, value) else
  b0 ← checked (rd buffer 0);
  b1 ← checked (rd buffer 1);
  b2 ← checked (rd buffer 2);
  b3 ← checked (rd buffer 3);
  let T0_out := word16 b0 b1 in
  let T1_out := word16 b2 b3 in
  '(err, T_out) ← read_word HTS221_TEMP_OUT_L_REG;
  if hts_failed err then mret (HTS221_ERROR, value) else
  value ← checked (temperature_value T0_degC T1_degC T0_out T1_out T_out);
  mret (HTS221_OK, value).

Definition HTS221_Get_TemperatureRaw (value : Z) : dev W (HTS221_Error_et * Z) :=
  '(err, v) ← read_word HTS221_TEMP_OUT_L_REG;
  if hts_failed err then mret (HTS221_ERROR, value) else mret (HTS221_OK, v).

Definition HTS221_Get_Measurement (humidity temperature : Z) : dev W (HTS221_Error_et * Z * Z) :=
  '(err, temperature) ← HTS221_Get_Temperature temperature;
  if hts_failed err then mret (HTS221_ERROR, humidity, temperature) else
  '(err, humidity) ← HTS221_Get_Humidity humidity;
  if hts_failed err then mret (HTS221_ERROR, humidity, temperature) else
  mret (HTS221_OK, humidity, temperature).

Definition HTS221_Get_DataStatus (humidity temperature : Z) : dev W (HTS221_Error_et * (Z * Z)) :=
  inspect_reg HTS221_STATUS_REG
    (λ tmp, (Z.shiftr (Z.land tmp HTS221_HDA_MASK) HTS221_H_DA_BIT, Z.land tmp HTS221_TDA_MASK)) (humidity, temperature).

Definition HTS221_Activate : dev W HTS221_Error_et :=
  modify_reg HTS221_CTRL_REG1 (λ tmp, or_into tmp HTS221_PD_MASK).

Definition HTS221_DeActivate : dev W HTS221_Error_et :=
  modify_reg HTS221_CTRL_REG1 (λ tmp, clear tmp HTS221_PD_MASK).

Definition HTS221_IsMeasurementCompleted (Is_Measurement_Completed : Z) : dev W (HTS221_Error_et * Z) :=
  inspect_reg HTS221_STATUS_REG
    (λ tmp, if Z.land tmp (Z.lor HTS221_HDA_MASK HTS221_TDA_MASK) =? Z.lor HTS221_HDA_MASK HTS221_TDA_MASK
            then HTS221_SET else HTS221_RESET) Is_Measurement_Completed.

Definition HTS221_Set_AvgHT (avgh avgt : Z) : dev W HTS221_Error_et :=
  _ ← checked (HTS221_assert_param (IS_HTS221_AVGH avgh));
  _ ← checked (HTS221_assert_param (IS_HTS221_AVGT avgt));
  modify_reg HTS221_AV_CONF_REG
    (λ tmp, or_into (or_into (clear tmp (Z.lor HTS221_AVGH_MASK HTS221_AVGT_MASK)) avgh) avgt).

Definition HTS221_Get_AvgHT (avgh avgt : Z) : dev W (HTS221_Error_et * (Z * Z)) :=
  inspect_reg HTS221_AV_CONF_REG (λ tmp, (Z.land tmp HTS221_AVGH_MASK, Z.land tmp HTS221_AVGT_MASK)) (avgh, avgt).

Definition HTS221_Set_AvgH (avgh : Z) : dev W HTS221_Error_et :=
  _ ← checked (HTS221_assert_param (IS_HTS221_AVGH avgh));
  modify_reg HTS221_AV_CONF_REG (λ tmp, or_into (clear tmp HTS221_AVGH_MASK) avgh).

Definition HTS221_Set_AvgT (avgt : Z) : dev W HTS221_Error_et :=
  _ ← checked (HTS221_assert_param (IS_HTS221_AVGT avgt));
  modify_reg HTS221_AV_CONF_REG (λ tmp, or_into (clear tmp HTS221_AVGT_MASK) avgt).

Definition HTS221_Set_BduMode (status : Z) : dev W HTS221_Error_et :=
  _ ← checked (HTS221_assert_param (IS_HTS221_State status));
  modify_reg HTS221_CTRL_REG1 (λ tmp, or_into (clear tmp HTS221_BDU_MASK) (Z.shiftl status HTS221_BDU_BIT)).

Definition HTS221_Get_BduMode (status : Z) : dev W (HTS221_Error_et * Z) :=
  inspect_reg HTS221_CTRL_REG1 (λ tmp, Z.shiftr (Z.land tmp HTS221_BDU_MASK) HTS221_BDU_BIT) status.

Definition HTS221_Set_PowerDownMode (status : Z) : dev W HTS221_Error_et :=
  _ ← checked (HTS221_assert_param (IS_HTS221_BitStatus status));
  modify_reg HTS221_CTRL_REG1 (λ tmp, or_into (clear tmp HTS221_PD_MASK) (Z.shiftl status HTS221_PD_BIT)).

Definition HTS221_Get_PowerDownMode (status : Z) : dev W (HTS221_Error_et * Z) :=
  inspect_reg HTS221_CTRL_REG1 (λ tmp, Z.shiftr (Z.land tmp HTS221_PD_MASK) HTS221_PD_BIT) status.

Definition HTS221_Set_Odr (odr : Z) : dev W HTS221_Error_et :=
  _ ← checked (HTS221_assert_param (IS_HTS221_ODR odr));
  modify_reg HTS221_CTRL_REG1 (λ tmp, or_into (clear tmp HTS221_ODR_MASK) odr).

Definition HTS221_Get_Odr (odr : Z) : dev W (HTS221_Error_et * Z) :=
  inspect_reg HTS221_CTRL_REG1 (λ tmp, Z.land tmp HTS221_ODR_MASK) odr.

Definition HTS221_Set_HeaterState (status : Z) : dev W HTS221_Error_et :=
  _ ← checked (HTS221_assert_param (IS_HTS221_State status));
  modify_reg HTS221_CTRL_REG2 (λ tmp, or_into (clear tmp HTS221_HEATHER_MASK) (Z.shiftl status HTS221_HEATHER_BIT)).

Definition HTS221_Get_HeaterState (status : Z) : dev W (HTS221_Error_et * Z) :=
  inspect_reg HTS221_CTRL_REG2 (λ tmp, Z.shiftr (Z.land tmp HTS221_HEATHER_MASK) HTS221_HEATHER_BIT) status.

Definition HTS221_Set_IrqActiveLevel (value : Z) : dev W HTS221_Error_et :=
  _ ← checked (HTS221_assert_param (IS_HTS221_DrdyLevelType value));
  modify_reg HTS221_CTRL_REG3 (λ tmp, or_into (clear tmp HTS221_DRDY_H_L_MASK) value).

Definition HTS221_Get_IrqActiveLevel (value : Z) : dev W (HTS221_Error_et * Z) :=
  inspect_reg HTS221_CTRL_REG3 (λ tmp, Z.land tmp HTS221_DRDY_H_L_MASK) value.

Definition HTS221_Set_IrqOutputType (value : Z) : dev W HTS221_Error_et :=
  _ ← checked (HTS221_assert_param (IS_HTS221_OutputType value));
  modify_reg HTS221_CTRL_REG3 (λ tmp, or_into (clear tmp HTS221_PP_OD_MASK) value).

Definition HTS221_Get_IrqOutputType (value : Z) : dev W (HTS221_Error_et * Z) :=
  inspect_reg HTS221_CTRL_REG3 (λ tmp, Z.land tmp HTS221_PP_OD_MASK) value.

Definition HTS221_Set_IrqEnable (status : Z) : dev W HTS221_Error_et :=
  _ ← checked (HTS221_assert_param (IS_HTS221_State status));
  modify_reg HTS221_CTRL_REG3 (λ tmp, or_into (clear tmp HTS221_DRDY_MASK) (Z.shiftl status HTS221_DRDY_BIT)).

Definition HTS221_Get_IrqEnable (status : Z) : dev W (HTS221_Error_et * Z) :=
  inspect_reg HTS221_CTRL_REG3 (λ tmp, Z.shiftr (Z.land tmp HTS221_DRDY_MASK) HTS221_DRDY_BIT) status.

Definition HTS221_MemoryBoot : dev W HTS221_Error_et :=
  modify_reg HTS221_CTRL_REG2 (λ tmp, or_into tmp HTS221_BOOT_MASK).

Definition HTS221_StartOneShotMeasurement : dev W HTS221_Error_et :=
  modify_reg HTS221_CTRL_REG2 (λ tmp, or_into tmp HTS221_ONE_SHOT_MASK).

(** ** HTS221Sensor.cpp: the class over the driver *)
Definition hts_getOdr (value : f32) : dev W (Z * f32) :=
  '(err, odr_low_level) ← HTS221_Get_Odr 0;
  if hts_failed err then mret (1, value) else
  mret (switch odr_low_level
    [(HTS221_ODR_ONE_SHOT, (0, f32_0)); (HTS221_ODR_1HZ, (0, f32_1));
     (HTS221_ODR_7HZ, (0, f32_7)); (HTS221_ODR_12_5HZ, (0, f32_12_5))] (1, f32_of_Z (-1))).

Definition hts_setOdr (value : f32) : dev W Z :=
  let new_odr := if f32_le value f32_1 then HTS221_ODR_1HZ
    else if f32_le value f32_7 then HTS221_ODR_7HZ else HTS221_ODR_12_5HZ in
  err ← HTS221_Set_Odr new_odr;
  if hts_failed err then mret 1 else mret 0.

Definition hts_init : dev W Z :=
  err ← HTS221_DeActivate;
  if hts_failed err then mret 1 else
  err ← HTS221_Set_BduMode HTS221_ENABLE;
  if hts_failed err then mret 1 else
  r ← hts_setOdr f32_1;
  if r =? 1 then mret 1 else mret 0.

Definition hts_enable : dev W Z :=
  err ← HTS221_Activate;
  if hts_failed err then mret 1 else mret 0.

Definition hts_disable : dev W Z :=
  err ← HTS221_DeActivate;
  if hts_failed err then mret 1 else mret 0.

(** [None] is the null pointer. *)
Definition hts_readId (id : option Z) : dev W (Z * option Z) :=
  match id with
  | None => mret (1, None)
  | Some id =>
    '(err, id) ← HTS221_Get_DeviceID id;
    if hts_failed err then mret (1, Some id) else mret (0, Some id)
  end.

Definition hts_readReg (reg data : Z) : dev W (Z * Z) :=
  '(err, d) ← HTS221_read_reg reg 1 [data];
  data ← checked (rd d 0);
  if hts_failed err then mret (1, data) else mret (0, data).

Definition hts_writeReg (reg data : Z) : dev W Z :=
  err ← HTS221_write_reg reg 1 [data];
  if hts_failed err then mret 1 else mret 0.

Definition hts_reset : dev W Z :=
  '(r, tmpreg) ← hts_readReg HTS221_CTRL_REG2 0;
  if negb (r =? 0) then mret 1 else
  let tmpreg := or_into tmpreg (Z.shiftl 1 HTS221_BOOT_BIT) in
  r ← hts_writeReg HTS221_CTRL_REG2 tmpreg;
  if negb (r =? 0) then mret 1 else mret 0.

Definition hts_getHumidity (pfData : f32) : dev W (Z * f32) :=
  '(err, uint16data) ← HTS221_Get_Humidity 0;
  if hts_failed err then mret (1, pfData) else
  mret (0, f32_div (f32_of_Z uint16data) f32_10).

Definition hts_getTemperature (pfData : f32) : dev W (Z * f32) :=
  '(err, int16data) ← HTS221_Get_Temperature 0;
  if hts_failed err then mret (1, pfData) else
  mret (0, f32_div (f32_of_Z int16data) f32_10).
End driver.
