(* ===== verification/Hts221Spec.v ===== *)
(** The humidity and temperature sensor: what the driver does on a device whose
    registers keep their values, and what the interpolations compute. *)
From S2P Require Export Hts221 Words.

(** Bit 7 of an address asks for consecutive registers; the driver sets it
    whenever it reads or writes more than one. *)
Definition hts_place (_ : Z → Z) (r : Z) : Z := r mod 128.

Definition start (r n : Z) : Z := if 1 <? n then u8 (Z.lor r 128) else r.

Lemma start_place c r n i : 0 ≤ r → r + n ≤ 128 → 0 ≤ i < n → hts_place c (start r n + i) = r + i.
Proof.
  intros Hr Hn Hi. unfold hts_place, start. destruct (Z.ltb_spec 1 n).
  - change 128 with (Z.shiftl 1 7) at 1. rewrite lor_shiftl_add by lia. unfold u8. dlia.
  - apply Z.mod_small. lia.
Qed.

Section spec.
Context {W : Type} `{Bus W} (stored : Z → Prop) `{!Registers hts_place stored}.
Implicit Types (w : W) (r n v mask : Z).

(** The contents of the [n] registers from [r] on. *)
Definition cells w r n : list Z := (λ i, cell w (r + i)) <$> seqZ 0 n.

Lemma cells_bytes w r n : bytes (cells w r n).
Proof using. apply Forall_fmap, Forall_true. intros i. apply cell_byte. Qed.

Lemma dwp_bus_read r n bs w (Q : Z * list Z → W → Prop) : 0 ≤ r → 1 ≤ n → r + n ≤ 128 → zlen bs = n → bytes bs →
  (∀ rc w' bs', rc ≠ 0 → ¬ reliable W → same_cells w w' → zlen bs' = n → bytes bs' → Q (rc, bs') w') →
  (∀ w', same_cells w w' → Q (0, cells w r n) w') →
  dwp (bus_read (start r n) bs n) Q w.
Proof using.
  intros Hr H1 Hn Hl Hm HE HQ. unfold dwp, bus_read.
  destruct (io_read (start r n) bs n w) as [[rc bs'] w'] eqn:E.
  destruct (read_law _ _ _ _ _ _ _ E Hl Hm) as (Hz & Hb & Hs & Hv).
  destruct (decide (rc = 0)) as [->|Hrc].
  - assert (bs' = cells w r n) as ->; [|by apply HQ].
    apply list_eq_same_length with (length bs'); [|done|].
    { unfold cells. rewrite length_fmap, length_seqZ. unfold zlen in Hz. lia. }
    intros i x y Hi Hx Hy. unfold cells in Hy. rewrite list_lookup_fmap in Hy. unfold zlen in Hz.
    specialize (Hv eq_refl (Z.of_nat i) ltac:(lia)). rewrite Nat2Z.id, start_place in Hv by lia.
    rewrite lookup_seqZ_lt, Z.add_0_l in Hy by lia. cbn [fmap option_fmap option_map] in Hy. congruence.
  - apply HE; [done| |done..]. intros Hrel. specialize (Hrel (start r n) bs n w). by rewrite E in Hrel.
Qed.

Lemma dwp_hts_read r n m w (Q : HTS221_Error_et * list Z → W → Prop) :
  0 ≤ r → 1 ≤ n → r + n ≤ 128 → n ≤ zlen m → bytes m →
  (∀ w' m', ¬ reliable W → same_cells w w' → zlen m' = zlen m → bytes m' → Q (HTS221_ERROR, m') w') →
  (∀ w', same_cells w w' → Q (HTS221_OK, cells w r n ++ zdrop n m) w') →
  dwp (HTS221_read_reg r n m) Q w.
Proof using.
  intros Hr H1 Hn Hl Hm HE HQ. unfold HTS221_read_reg. fold (start r n).
  eapply dwp_checked; [by apply rd_bytes_field; lia|].
  apply dwp_bind, dwp_bus_read; [done..|apply zlen_field; lia|by apply field_bytes| |].
  - intros rc w' bs' Hrc Hrel Hs Hz Hb. eapply dwp_checked; [apply wr_bytes_ok; lia|]. apply dwp_ret.
    rewrite (proj2 (Z.eqb_neq _ _) Hrc). apply HE; [done|done|apply zlen_splice; lia|].
    unfold splice. repeat apply Forall_app_2; [by apply Forall_take|done|by apply Forall_drop].
  - intros w' Hs. assert (zlen (cells w r n) = n) as Hz by (unfold cells; rewrite zlen_fmap; unfold zlen; rewrite length_seqZ; lia).
    eapply dwp_checked; [apply wr_bytes_ok; lia|]. apply dwp_ret.
    assert (splice m 0 (cells w r n) = cells w r n ++ zdrop n m) as -> by (unfold splice; rewrite Z.add_0_l, Hz; reflexivity).
    by apply HQ.
Qed.

(** The registers outside [r ... r + n - 1] are as before. *)
Definition others r n w w' : Prop := ∀ b, stored b → ¬ r ≤ b < r + n → cell w' b = cell w b.

Lemma dwp_hts_write r bs w (Q : HTS221_Error_et → W → Prop) :
  0 ≤ r → 1 ≤ zlen bs → r + zlen bs ≤ 128 → bytes bs →
  (∀ w', others r (zlen bs) w w' → Q HTS221_ERROR w') →
  (∀ w', others r (zlen bs) w w' → (∀ i b, 0 ≤ i → bs !! Z.to_nat i = Some b → stored (r + i) → cell w' (r + i) = b) → Q HTS221_OK w') →
  dwp (HTS221_write_reg r (zlen bs) bs) Q w.
Proof using.
  intros Hr H1 Hn Hb HE HQ. unfold HTS221_write_reg. fold (start r (zlen bs)).
  eapply dwp_checked; [apply rd_bytes_field; lia|]. rewrite field_all. apply dwp_bind. unfold dwp at 1, bus_write.
  destruct (io_write (start r (zlen bs)) bs w) as [rc w'] eqn:E.
  destruct (write_law _ _ _ _ _ E Hb) as [Ho Hc].
  assert (others r (zlen bs) w w') as Hot.
  { intros b Hst Hn'. apply Ho; [done|]. intros (i & Hi & ->). rewrite start_place in Hn' by lia. lia. }
  apply dwp_ret. destruct (Z.eqb_spec rc 0) as [->|]; cbn [negb]; [|by apply HE].
  apply HQ; [done|]. intros i b Hi Hl Hst. specialize (Hc eq_refl i b Hl Hi). cbv zeta in Hc.
  assert (i < zlen bs) by (apply lookup_lt_Some in Hl; unfold zlen; lia).
  rewrite start_place in Hc by lia. by apply Hc.
Qed.

(** ** The configuration *)
Lemma existsb_cases (P : Z → bool) l v : existsb (Z.eqb v) l = true → forallb P l = true → P v = true.
Proof using.
  intros (x & Hx & ->%Z.eqb_eq)%existsb_exists HP. rewrite forallb_forall in HP. by apply HP.
Qed.

Lemma or_into_land y a m : is_u8 y → Z.land (or_into y a) m = Z.lor (Z.land y m) (Z.land (u8 a) m).
Proof using.
  intros Hy. unfold or_into. assert (u8 (Z.lor y a) = Z.lor y (u8 a)) as ->.
  { rewrite <-(u8_id y Hy) at 2. unfold u8. change 256 with (2 ^ 8). rewrite <-!Z.land_ones by done. apply Z.land_lor_distr_l. }
  apply Z.land_lor_distr_l.
Qed.

Lemma clear_land x M m : is_u8 x → Z.land (clear x M) m = Z.land x (Z.land (Z.lnot M) m).
Proof using. intros Hx. unfold clear. by rewrite u8_id, Z.land_assoc by (by apply land_lnot_byte). Qed.

(** The registers a configuration is written to, from their old contents. *)
Definition av_conf (c : HTS221_Init_st) (x : Z) : Z :=
  or_into (or_into (clear x (Z.lor HTS221_AVGH_MASK HTS221_AVGT_MASK)) (avg_h c)) (avg_t c).
Definition ctrl1 (c : HTS221_Init_st) (x : Z) : Z :=
  or_into (or_into (clear x (Z.lor HTS221_BDU_MASK HTS221_ODR_MASK)) (odr c)) (Z.shiftl (bdu_status c) HTS221_BDU_BIT).
Definition ctrl2 (c : HTS221_Init_st) (x : Z) : Z :=
  or_into (clear x HTS221_HEATHER_BIT) (Z.shiftl (heater_status c) HTS221_HEATHER_BIT).
Definition ctrl3 (c : HTS221_Init_st) (x : Z) : Z :=
  or_into (or_into (or_into (clear x (Z.lor (Z.lor HTS221_DRDY_H_L_MASK HTS221_PP_OD_MASK) HTS221_DRDY_MASK))
    (Z.shiftl (irq_level c) HTS221_DRDY_H_L_BIT)) (irq_output_type c)) (Z.shiftl (irq_enable c) HTS221_DRDY_BIT).

(** The parameters that pass the checks. *)
Definition config_ok (c : HTS221_Init_st) : Prop :=
  IS_HTS221_AVGH (avg_h c) = true ∧ IS_HTS221_AVGT (avg_t c) = true ∧ IS_HTS221_ODR (odr c) = true ∧
  IS_HTS221_State (bdu_status c) = true ∧ IS_HTS221_State (heater_status c) = true ∧
  IS_HTS221_DrdyLevelType (irq_level c) = true ∧ IS_HTS221_OutputType (irq_output_type c) = true ∧
  IS_HTS221_State (irq_enable c) = true.

(** What is read back of a configuration: the heater stays on if it was, and the
    level of the interrupt is always high. *)
Definition kept_config (c : HTS221_Init_st) (old2 : Z) : HTS221_Init_st := {|
  avg_h := avg_h c; avg_t := avg_t c; odr := odr c; bdu_status := bdu_status c;
  heater_status := Z.lor (heater_status c) (Z.shiftr (Z.land old2 HTS221_HEATHER_MASK) HTS221_HEATHER_BIT);
  irq_level := HTS221_HIGH_LVL; irq_output_type := irq_output_type c; irq_enable := irq_enable c |}.

(** The configuration the registers hold. *)
Definition config_of (av r1 r2 r3 : Z) : HTS221_Init_st := {|
  avg_h := Z.land av HTS221_AVGH_MASK; avg_t := Z.land av HTS221_AVGT_MASK;
  odr := Z.land r1 HTS221_ODR_MASK; bdu_status := Z.shiftr (Z.land r1 HTS221_BDU_MASK) HTS221_BDU_BIT;
  heater_status := Z.shiftr (Z.land r2 HTS221_HEATHER_MASK) HTS221_HEATHER_BIT;
  irq_level := Z.land r3 HTS221_DRDY_H_L_MASK; irq_output_type := Z.land r3 HTS221_PP_OD_MASK;
  irq_enable := Z.shiftr (Z.land r3 HTS221_DRDY_MASK) HTS221_DRDY_BIT |}.

(** The bits of a byte that was changed by [or_into] and [clear]. *)
Ltac changed_bits :=
  unfold av_conf, ctrl1, ctrl2, ctrl3; rewrite ?or_into_land, clear_land by (done || apply u8_range || apply cell_byte);
  match goal with |- context [Z.land ?x (Z.land (Z.lnot ?M) ?m)] =>
    let c := eval vm_compute in (Z.land (Z.lnot M) m) in change (Z.land (Z.lnot M) m) with c end;
  rewrite ?Z.land_0_r, ?Z.lor_0_l.

(** Rewrites with an equation that holds for every value of an enumeration. *)
Ltac by_values P H :=
  let E := fresh in pose proof (existsb_cases P _ _ H eq_refl) as E; cbv beta in E; apply Z.eqb_eq in E; rewrite E; clear E.

Lemma config_written c av r1 r2 r3 : config_ok c → is_u8 av → is_u8 r1 → is_u8 r2 → is_u8 r3 →
  config_of (av_conf c av) (ctrl1 c r1) (ctrl2 c r2) (ctrl3 c r3) = kept_config c r2.
Proof using.
  intros (H1 & H2 & H3 & H4 & H5 & H6 & H7 & H8) Hav Hr1 Hr2 Hr3. unfold config_of, kept_config. f_equal.
  - changed_bits. by_values (λ v, Z.land (u8 v) HTS221_AVGH_MASK =? v) H1.
    by_values (λ v, Z.land (u8 v) HTS221_AVGH_MASK =? 0) H2. apply Z.lor_0_r.
  - changed_bits. by_values (λ v, Z.land (u8 v) HTS221_AVGT_MASK =? 0) H1.
    by_values (λ v, Z.land (u8 v) HTS221_AVGT_MASK =? v) H2. apply Z.lor_0_l.
  - changed_bits. by_values (λ v, Z.land (u8 v) HTS221_ODR_MASK =? v) H3.
    by_values (λ v, Z.land (u8 (Z.shiftl v HTS221_BDU_BIT)) HTS221_ODR_MASK =? 0) H4. apply Z.lor_0_r.
  - changed_bits. by_values (λ v, Z.land (u8 v) HTS221_BDU_MASK =? 0) H3.
    by_values (λ v, Z.shiftr (Z.lor 0 (Z.land (u8 (Z.shiftl v HTS221_BDU_BIT)) HTS221_BDU_MASK)) HTS221_BDU_BIT =? v) H4. done.
  - changed_bits. rewrite Z.shiftr_lor, Z.lor_comm. change 2 with HTS221_HEATHER_MASK. f_equal.
    by_values (λ v, Z.shiftr (Z.land (u8 (Z.shiftl v HTS221_HEATHER_BIT)) HTS221_HEATHER_MASK) HTS221_HEATHER_BIT =? v) H5. done.
  - changed_bits. by_values (λ v, Z.land (u8 (Z.shiftl v HTS221_DRDY_H_L_BIT)) HTS221_DRDY_H_L_MASK =? 0) H6.
    by_values (λ v, Z.land (u8 v) HTS221_DRDY_H_L_MASK =? 0) H7.
    by_values (λ v, Z.land (u8 (Z.shiftl v HTS221_DRDY_BIT)) HTS221_DRDY_H_L_MASK =? 0) H8. done.
  - changed_bits. by_values (λ v, Z.land (u8 (Z.shiftl v HTS221_DRDY_H_L_BIT)) HTS221_PP_OD_MASK =? 0) H6.
    by_values (λ v, Z.land (u8 v) HTS221_PP_OD_MASK =? v) H7.
    by_values (λ v, Z.land (u8 (Z.shiftl v HTS221_DRDY_BIT)) HTS221_PP_OD_MASK =? 0) H8. by rewrite Z.lor_0_r, Z.lor_0_l.
  - changed_bits. by_values (λ v, Z.land (u8 (Z.shiftl v HTS221_DRDY_H_L_BIT)) HTS221_DRDY_MASK =? 0) H6.
    by_values (λ v, Z.land (u8 v) HTS221_DRDY_MASK =? 0) H7.
    by_values (λ v, Z.shiftr (Z.lor (Z.lor 0 0) (Z.land (u8 (Z.shiftl v HTS221_DRDY_BIT)) HTS221_DRDY_MASK)) HTS221_DRDY_BIT =? v) H8. done.
Qed.

Lemma get_config junk w : stored HTS221_CTRL_REG1 → stored HTS221_CTRL_REG2 → stored HTS221_CTRL_REG3 →
  dwp (HTS221_Get_InitConfig junk) (λ res w', same_cells w w' ∧ (res.1 = HTS221_OK →
    res.2 = config_of (cell w HTS221_AV_CONF_REG) (cell w (HTS221_CTRL_REG1 + 0)) (cell w (HTS221_CTRL_REG1 + 1)) (cell w (HTS221_CTRL_REG1 + 2)))) w.
Proof using.
  intros Hs1 Hs2 Hs3. unfold HTS221_Get_InitConfig.
  apply dwp_bind, dwp_hts_read; [done..|byte_list| |]; cbn [hts_failed]; [by intros|].
  intros w1 Hw1. cbn -[Z.land Z.shiftr]. eapply (dwp_checked _ (cell w HTS221_AV_CONF_REG)); [done|].
  apply dwp_bind, dwp_hts_read; [done..|apply Forall_app_2; [apply cells_bytes|by byte_list]| |]; cbn [hts_failed].
  { intros w2 m' _ Hw2 _ _. apply dwp_ret. split; [by eapply same_cells_trans|done]. }
  intros w2 Hw2. cbn -[Z.land Z.shiftr].
  eapply (dwp_checked _ (cell w1 (HTS221_CTRL_REG1 + 0))); [done|].
  eapply (dwp_checked _ (cell w1 (HTS221_CTRL_REG1 + 1))); [done|].
  eapply (dwp_checked _ (cell w1 (HTS221_CTRL_REG1 + 2))); [done|].
  rewrite (Hw1 (HTS221_CTRL_REG1 + 0)), (Hw1 (HTS221_CTRL_REG1 + 1)), (Hw1 (HTS221_CTRL_REG1 + 2)) by done.
  apply dwp_ret. split; [by eapply same_cells_trans|done].
Qed.

Ltac reg_lia := unfold HTS221_AV_CONF_REG, HTS221_CTRL_REG1, HTS221_CTRL_REG2, HTS221_CTRL_REG3 in *; lia.

Definition config_registers : list Z := [HTS221_AV_CONF_REG; HTS221_CTRL_REG1; HTS221_CTRL_REG2; HTS221_CTRL_REG3].

Lemma not_config b : b ∉ config_registers → ¬ 16 ≤ b < 17 ∧ ¬ 32 ≤ b < 35.
Proof using.
  unfold config_registers, HTS221_AV_CONF_REG, HTS221_CTRL_REG1, HTS221_CTRL_REG2, HTS221_CTRL_REG3.
  rewrite !not_elem_of_cons. lia.
Qed.

(** C38: whatever the bus does, HTS221_Set_InitConfig changes nothing outside its
    four configuration registers; and when it reports success a conversion in
    progress has been cancelled (ONE_SHOT is clear), and HTS221_Get_InitConfig, which
    changes no register, gives back the configuration that was set except for two
    parameters: the heater stays on where it was on before, and the interrupt level
    is high whatever was asked for. *)
Theorem HTS221_InitConfig_spec c junk w : config_ok c →
  stored HTS221_AV_CONF_REG → stored HTS221_CTRL_REG1 → stored HTS221_CTRL_REG2 → stored HTS221_CTRL_REG3 →
  dwp (HTS221_Set_InitConfig c) (λ err w',
    (∀ b, stored b → b ∉ config_registers → cell w' b = cell w b) ∧
    (err = HTS221_OK →
      Z.land (cell w' HTS221_CTRL_REG2) HTS221_ONE_SHOT_MASK = 0 ∧
      dwp (HTS221_Get_InitConfig junk) (λ res w'', same_cells w' w'' ∧
        (res.1 = HTS221_OK → res.2 = kept_config c (cell w HTS221_CTRL_REG2))) w')) w.
Proof using.
  intros Hc Hsa Hs1 Hs2 Hs3. pose proof Hc as (H1 & H2 & H3 & H4 & H5 & H6 & H7 & H8). unfold HTS221_Set_InitConfig.
  rewrite H1, H2, H3, H4, H5, H6, H7, H8. do 8 (eapply dwp_checked; [done|]).
  apply dwp_bind, dwp_hts_read; [done..|byte_list| |]; cbn [hts_failed].
  { intros w1 m' _ Hw1 _ _. apply dwp_ret. split; [|done]. intros b Hb _. by apply Hw1. }
  intros w1 Hw1. cbn -[Z.land Z.lor or_into clear]. eapply (dwp_checked _ (cell w HTS221_AV_CONF_REG)); [done|].
  set (x0 := cell w HTS221_AV_CONF_REG). fold (av_conf c x0).
  apply dwp_bind, (dwp_hts_write _ [av_conf c _]); [done|done|done|byte_list|..].
  { intros w2 Ho. apply dwp_ret. split; [|done]. intros b Hb Hn. rewrite Ho, Hw1; [done|done|done|]. by apply not_config. }
  intros w2 Ho Hav. assert (∀ b, stored b → ¬ 16 ≤ b < 17 → cell w2 b = cell w1 b) as Ho2 by done. clear Ho. specialize (Hav 0 _ ltac:(lia) eq_refl). rewrite Z.add_0_r in Hav. specialize (Hav Hsa).
  apply dwp_bind, dwp_hts_read; [done..|byte_list| |]; cbn [hts_failed].
  { intros w3 m' _ Hw3 _ _. apply dwp_ret. split; [|done]. intros b Hb Hn.
    rewrite Hw3, Ho2, Hw1; [done|done|done| |done]. by apply not_config. }
  intros w3 Hw3. cbn -[Z.land Z.lor or_into clear].
  eapply (dwp_checked _ (cell w2 HTS221_CTRL_REG1)); [done|].
  eapply (dwp_checked _ (cell w2 HTS221_CTRL_REG2)); [done|].
  eapply (dwp_checked _ (cell w2 HTS221_CTRL_REG3)); [done|].
  rewrite (Ho2 _ Hs1), (Ho2 _ Hs2), (Ho2 _ Hs3), (Hw1 _ Hs1), (Hw1 _ Hs2), (Hw1 _ Hs3) by reg_lia.
  set (x1 := cell w HTS221_CTRL_REG1). set (x2 := cell w HTS221_CTRL_REG2). set (x3 := cell w HTS221_CTRL_REG3).
  fold (ctrl1 c x1) (ctrl2 c x2) (ctrl3 c x3).
  apply dwp_bind, (dwp_hts_write _ [ctrl1 c x1; ctrl2 c x2; ctrl3 c x3]); [done|done|done|byte_list|..].
  { intros w4 Ho. apply dwp_ret. split; [|done]. intros b Hb Hn. apply not_config in Hn as [Hn1 Hn2].
    rewrite Ho, Hw3, Ho2, Hw1; done. }
  intros w4 Ho Hcells. pose proof (Hcells 0 _ ltac:(lia) eq_refl Hs1) as E1. pose proof (Hcells 1 _ ltac:(lia) eq_refl Hs2) as E2.
  pose proof (Hcells 2 _ ltac:(lia) eq_refl Hs3) as E3. clear Hcells.
  assert (cell w4 HTS221_AV_CONF_REG = av_conf c x0) as E0.
  { rewrite (Ho _ Hsa), (Hw3 _ Hsa); [done|]. change (zlen _) with 3. reg_lia. }
  apply dwp_ret. split.
  { intros b Hb Hn. apply not_config in Hn as [Hn1 Hn2]. rewrite Ho, Hw3, Ho2, Hw1; done. }
  intros _. split.
  { change (cell w4 HTS221_CTRL_REG2) with (cell w4 (HTS221_CTRL_REG1 + 1)). rewrite E2. changed_bits.
    by_values (λ v, Z.land (u8 (Z.shiftl v HTS221_HEATHER_BIT)) HTS221_ONE_SHOT_MASK =? 0) H5. done. }
  rewrite <-(config_written c x0 x1 x2 x3 Hc), <-E0, <-E1, <-E2, <-E3 by apply cell_byte.
  apply get_config; done.
Qed.

(** ** The interpolations *)
Lemma f32_1000_eq : f32_1000 = S754_finite false 16384000 (-14).
Proof using. by vm_compute. Qed.

Lemma interpolate_num y0 y1 x0 x1 x : x0 ≠ x1 → Z.abs (x - x0) < 2 ^ 24 → Z.abs (y1 - y0) < 2 ^ 24 → Z.abs (x1 - x0) < 2 ^ 24 →
  Z.abs y0 < 2 ^ 24 → is_num (interpolate y0 y1 x0 x1 x).
Proof using.
  intros Hne Hx Hy Hd H0. unfold interpolate. apply mul_const, add_num; [|by apply of_Z_finite].
  apply div_num; [|apply of_Z_nonzero; lia]. apply mul_num; by apply of_Z_finite.
Qed.

(** At the calibration point the interpolation is the calibration value. *)
Lemma interpolate_at y0 y1 x0 x1 : x0 ≠ x1 → Z.abs (y1 - y0) < 2 ^ 24 → Z.abs (x1 - x0) < 2 ^ 24 → Z.abs y0 < 2 ^ 24 →
  interpolate y0 y1 x0 x1 x0 = f32_mul (f32_of_Z y0) f32_10 ∨ y0 = 0 ∧ ∃ s, interpolate y0 y1 x0 x1 x0 = S754_zero s.
Proof using.
  intros Hne Hy Hd H0. unfold interpolate. rewrite Z.sub_diag. change (f32_of_Z 0) with (S754_zero false).
  destruct (mul_zero (f32_of_Z (y1 - y0))) as [s1 ->]; [by apply of_Z_finite|].
  destruct (div_zero s1 (f32_of_Z (x1 - x0))) as [s2 ->]; [apply of_Z_nonzero; lia|].
  destruct (add_zero s2 y0 H0) as [->|[-> [t ->]]]; [by left|right; split; [done|]; by eexists].
Qed.

Lemma humidity_at y : 0 ≤ y < 128 → ∃ v, v = Z.min 1000 (10 * y) ∧
  (let tmp_f := f32_mul (f32_of_Z y) f32_10 in
   if f32_lt f32_1000 tmp_f then Ok 1000 else if f32_lt tmp_f f32_0 then Ok 0 else f32_to_int 0 65535 tmp_f) = Ok v.
Proof using.
  intros Hy. exists (Z.min 1000 (10 * y)). split; [done|].
  pose proof (forallb_seqZ (λ y, match (let tmp_f := f32_mul (f32_of_Z y) f32_10 in
   if f32_lt f32_1000 tmp_f then Ok 1000 else if f32_lt tmp_f f32_0 then Ok 0 else f32_to_int 0 65535 tmp_f)
   with Ok v => v =? Z.min 1000 (10 * y) | Ub _ => false end) 128 ltac:(by vm_compute) y Hy) as H1.
  cbv beta zeta in H1 |- *. destruct (if f32_lt _ _ then _ else _); [|done]. by apply Z.eqb_eq in H1 as ->.
Qed.

Lemma humidity_value_spec y0 y1 x0 x1 x : 0 ≤ y0 < 128 → 0 ≤ y1 < 128 → - 32768 ≤ x0 < 32768 → - 32768 ≤ x1 < 32768 →
  - 32768 ≤ x < 32768 → x0 ≠ x1 →
  ∃ v, humidity_value y0 y1 x0 x1 x = Ok v ∧ 0 ≤ v ≤ 1000 ∧ (x = x0 → v = Z.min 1000 (10 * y0)).
Proof using.
  intros H0 H1 Hx0 Hx1 Hx Hne. unfold humidity_value. set (t := interpolate y0 y1 x0 x1 x).
  assert (is_num t) as Hnum by (apply interpolate_num; lia).
  assert (∃ v, (if f32_lt f32_1000 t then Ok 1000 else if f32_lt t f32_0 then Ok 0 else f32_to_int 0 65535 t) = Ok v ∧ 0 ≤ v ≤ 1000)
    as (v & Ev & Hv).
  { destruct (f32_lt f32_1000 t) eqn:E1; [exists 1000; split; [done|lia]|].
    destruct (f32_lt t f32_0) eqn:E2; [exists 0; split; [done|lia]|].
    destruct (trunc_between t 1000 16384000 14) as (z & Ez & Hz); [done|done|done|done|done|].
    exists z. split; [|done]. unfold f32_to_int. rewrite Ez. by rewrite !(proj2 (Z.leb_le _ _)) by lia. }
  exists v. split; [done|split; [done|]]. intros ->.
  destruct (interpolate_at y0 y1 x0 x1) as [E|[-> [s E]]]; [done|lia..| |].
  - subst t. rewrite E in Ev. destruct (humidity_at y0 H0) as (v' & -> & E'). cbv zeta in E'. congruence.
  - subst t. rewrite E in Ev. destruct s; vm_compute in Ev; by inversion Ev.
Qed.

(** Two calibration points of the same output: the line through them is vertical.
    The quotient is infinite to the one side and minus infinite to the other, and has
    no value at the output of the points, nor if the two humidities are equal too. *)
Definition vertical_humidity (y0 y1 x0 x : Z) : outcome Z :=
  if (x =? x0) || (y1 =? y0) then Ub IntOverflow else if 0 <? (x - x0) * (y1 - y0) then Ok 1000 else Ok 0.

Lemma humidity_value_vertical y0 y1 x0 x : 0 ≤ y0 < 128 → 0 ≤ y1 < 128 → - 32768 ≤ x0 < 32768 → - 32768 ≤ x < 32768 →
  humidity_value y0 y1 x0 x0 x = vertical_humidity y0 y1 x0 x.
Proof using.
  intros H0 H1 Hx0 Hx. unfold humidity_value, interpolate, vertical_humidity. rewrite Z.sub_diag. change (f32_of_Z 0) with (S754_zero false).
  destruct (Z.eqb_spec x x0) as [->|Hx']; cbn [orb].
  { rewrite Z.sub_diag. change (f32_of_Z 0) with (S754_zero false).
    destruct (mul_zero (f32_of_Z (y1 - y0))) as [s ->]; [apply of_Z_finite; lia|]. done. }
  destruct (Z.eqb_spec y1 y0) as [->|Hy].
  { rewrite Z.sub_diag. change (f32_of_Z 0) with (S754_zero false).
    destruct (of_Z_nonzero (x - x0)) as (s & m & e & ->); [lia|lia|]. done. }
  destruct (mul_nonzero (x - x0) (y1 - y0)) as (m & e & ->); [lia..|].
  pose proof (of_Z_finite y0 ltac:(lia)) as Hf. cbn [f32_div SFdiv]. rewrite xorb_false_r.
  destruct (Z.ltb_spec ((x - x0) * (y1 - y0)) 0).
  - rewrite (proj2 (Z.ltb_ge 0 _)) by lia. by destruct (f32_of_Z y0).
  - rewrite (proj2 (Z.ltb_lt 0 _)) by nia. by destruct (f32_of_Z y0).
Qed.

Lemma dwp_read_word r w (Q : HTS221_Error_et * Z → W → Prop) : 0 ≤ r → r + 2 ≤ 128 →
  (∀ w', ¬ reliable W → same_cells w w' → Q (HTS221_ERROR, 0) w') →
  (∀ w', same_cells w w' → Q (HTS221_OK, word16 (cell w r) (cell w (r + 1))) w') → dwp (read_word r) Q w.
Proof using.
  intros Hr H2 HE HQ. unfold read_word. apply dwp_bind, dwp_hts_read; [done..|byte_list| |]; cbn [hts_failed].
  { intros w1 m' Hrel Hw1 _ _. by apply dwp_ret, HE. }
  intros w1 Hw1. cbn -[word16 Z.add]. eapply (dwp_checked _ (cell w (r + 0))); [done|]. rewrite Z.add_0_r.
  eapply (dwp_checked _ (cell w (r + 1))); [done|]. by apply dwp_ret, HQ.
Qed.

Lemma word16_range lo hi : - 32768 ≤ word16 lo hi < 32768.
Proof using. unfold word16, s16. generalize (Z.lor (u16 (Z.shiftl hi 8)) lo). intros z. dlia. Qed.

Lemma half_byte w a : 0 ≤ Z.shiftr (cell w a) 1 < 128.
Proof using.
  pose proof (cell_byte w a) as Hb. rewrite Z.shiftr_div_pow2 by done. revert Hb. generalize (cell w a). intros z Hz. unfold is_u8 in Hz. dlia.
Qed.

(** The word two registers hold. *)
Definition word_at w r : Z := word16 (cell w r) (cell w (r + 1)).

Definition calibration_registers : list Z :=
  [HTS221_H0_RH_X2; HTS221_H0_T0_OUT_L; HTS221_H0_T0_OUT_H; HTS221_H1_T0_OUT_L; HTS221_H1_T0_OUT_H].

Lemma dwp_Get_Humidity value w (Q : HTS221_Error_et * Z → W → Prop) : (∀ r, r ∈ calibration_registers → stored r) →
  (∀ w', ¬ reliable W → same_cells w w' → Q (HTS221_ERROR, value) w') →
  (∀ w' x, same_cells w w' → - 32768 ≤ x < 32768 →
     (stored HTS221_HR_OUT_L_REG → stored HTS221_HR_OUT_H_REG → x = word_at w HTS221_HR_OUT_L_REG) →
     dwp (v ← checked (humidity_value (Z.shiftr (cell w HTS221_H0_RH_X2) 1) (Z.shiftr (cell w (HTS221_H0_RH_X2 + 1)) 1)
       (word_at w HTS221_H0_T0_OUT_L) (word_at w HTS221_H1_T0_OUT_L) x); mret (HTS221_OK, v)) Q w') →
  dwp (HTS221_Get_Humidity value) Q w.
Proof using.
  intros Hst HE HQ. unfold HTS221_Get_Humidity.
  assert (∀ w', same_cells w w' → word_at w' HTS221_H0_T0_OUT_L = word_at w HTS221_H0_T0_OUT_L ∧
    word_at w' HTS221_H1_T0_OUT_L = word_at w HTS221_H1_T0_OUT_L) as Hcal.
  { intros w' Hw'. unfold word_at. rewrite !Hw'; [done|..]; apply Hst; in_list. }
  apply dwp_bind, dwp_hts_read; [done..|byte_list| |]; cbn [hts_failed].
  { intros w1 m' Hrel Hw1 _ _. by apply dwp_ret, HE. }
  intros w1 Hw1. cbn -[word16 Z.shiftr humidity_value].
  eapply (dwp_checked _ (cell w HTS221_H0_RH_X2)); [done|]. eapply (dwp_checked _ (cell w (HTS221_H0_RH_X2 + 1))); [done|].
  apply dwp_bind, dwp_read_word; [done|done| |]; cbn [hts_failed].
  { intros w2 Hrel Hw2. apply dwp_ret, HE; [done|]. by eapply same_cells_trans. }
  intros w2 Hw2. pose proof (same_cells_trans _ _ _ Hw1 Hw2) as Hw02. cbn -[word16 Z.shiftr humidity_value].
  apply dwp_bind, dwp_read_word; [done|done| |]; cbn [hts_failed].
  { intros w3 Hrel Hw3. apply dwp_ret, HE; [done|]. by eapply same_cells_trans. }
  intros w3 Hw3. pose proof (same_cells_trans _ _ _ Hw02 Hw3) as Hw03. cbn -[word16 Z.shiftr humidity_value].
  apply dwp_bind, dwp_read_word; [done|done| |]; cbn [hts_failed].
  { intros w4 Hrel Hw4. apply dwp_ret, HE; [done|]. by eapply same_cells_trans. }
  intros w4 Hw4. cbn -[word16 Z.shiftr humidity_value].
  change (word16 (cell w1 ?a) _) with (word_at w1 a). change (word16 (cell w2 ?a) _) with (word_at w2 a).
  rewrite (proj1 (Hcal w1 Hw1)), (proj2 (Hcal w2 Hw02)).
  apply HQ; [by eapply same_cells_trans|apply word16_range|]. intros Hl Hh. unfold word_at.
  change (HTS221_HR_OUT_L_REG + 1) with HTS221_HR_OUT_H_REG. by rewrite (Hw03 _ Hl), (Hw03 _ Hh).
Qed.

(** C39: with two calibration points of distinct outputs, HTS221_Get_Humidity
    changes no register, reports success on a bus that works, and stores only
    humidities between 0 and 1000 (tenths of a percent), whatever the device measured
    and calibrated; at the first calibration point it is ten times the calibrated
    humidity (cut to a whole percent, and at most 1000), and a failure stores nothing.
    With two points of the same output it divides by zero: the result is 1000 or 0,
    by the side of the measurement, but for a measurement at that output, or if the
    two humidities are equal as well, the value converted to an integer is not a
    number, which is undefined behaviour. *)
Theorem HTS221_Get_Humidity_spec value w : (∀ r, r ∈ calibration_registers → stored r) →
  let x0 := word_at w HTS221_H0_T0_OUT_L in let x1 := word_at w HTS221_H1_T0_OUT_L in
  let y0 := Z.shiftr (cell w HTS221_H0_RH_X2) 1 in let y1 := Z.shiftr (cell w HTS221_H1_RH_X2) 1 in
  (x0 ≠ x1 →
   dwp (HTS221_Get_Humidity value) (λ res w', same_cells w w' ∧ (reliable W → res.1 = HTS221_OK) ∧
     (res.1 = HTS221_ERROR → res.2 = value) ∧
     (res.1 = HTS221_OK → 0 ≤ res.2 ≤ 1000 ∧
       (stored HTS221_HR_OUT_L_REG → stored HTS221_HR_OUT_H_REG → word_at w HTS221_HR_OUT_L_REG = x0 →
        res.2 = Z.min 1000 (10 * y0)))) w) ∧
  (∀ x, - 32768 ≤ x < 32768 → humidity_value y0 y1 x0 x0 x = vertical_humidity y0 y1 x0 x) ∧
  (x0 = x1 → y0 ≠ y1 → stored HTS221_HR_OUT_L_REG → stored HTS221_HR_OUT_H_REG → word_at w HTS221_HR_OUT_L_REG ≠ x0 →
   dwp (HTS221_Get_Humidity value) (λ res w', same_cells w w' ∧ (reliable W → res.1 = HTS221_OK) ∧
     (res.1 = HTS221_OK → Ok res.2 = vertical_humidity y0 y1 x0 (word_at w HTS221_HR_OUT_L_REG))) w).
Proof using.
  intros Hst x0 x1 y0 y1. pose proof (half_byte w HTS221_H0_RH_X2 : 0 ≤ y0 < 128) as Hy0.
  pose proof (half_byte w HTS221_H1_RH_X2 : 0 ≤ y1 < 128) as Hy1. split; [|split].
  - intros Hne. apply dwp_Get_Humidity; [done|by intros; split_and!|]. intros w' x Hw' Hx Hcell.
    destruct (humidity_value_spec y0 y1 x0 x1 x) as (v & Ev & Hv & Hat);
      [exact Hy0|exact Hy1|apply word16_range|apply word16_range|exact Hx|exact Hne|].
    eapply dwp_checked; [exact Ev|]. apply dwp_ret. split_and!; try done. intros _. split; [done|].
    intros Hl Hh Hx0. apply Hat. by rewrite Hcell.
  - intros x Hx. apply humidity_value_vertical; [exact Hy0|exact Hy1|apply word16_range|exact Hx].
  - intros He Hny Hl Hh Hm. apply dwp_Get_Humidity; [done|by intros; split_and!|]. intros w' x Hw' Hx Hcell.
    specialize (Hcell Hl Hh). subst x. fold x0 x1. rewrite <-He.
    pose proof (humidity_value_vertical y0 y1 x0 (word_at w HTS221_HR_OUT_L_REG) Hy0 Hy1 (word16_range _ _) Hx) as Ev.
    assert (∃ v, vertical_humidity y0 y1 x0 (word_at w HTS221_HR_OUT_L_REG) = Ok v) as (v & Ev').
    { unfold vertical_humidity. rewrite (proj2 (Z.eqb_neq _ _) Hm), (proj2 (Z.eqb_neq y1 y0)) by congruence. cbn [orb].
      case_match; by eexists. }
    rewrite Ev' in Ev. eapply dwp_checked; [exact Ev|]. apply dwp_ret. by split_and!.
Qed.
End spec.

(** ** A device *)

(** The interrupt level is low and the heater is off; the calibration is 20 % at
    100 and 60 % at 900, and the humidity output is 100. *)
Definition hts_chip : chip hts_place := Chip (λ a,
  if a =? HTS221_H0_RH_X2 then 40 else if a =? HTS221_H1_RH_X2 then 120 else
  if a =? HTS221_H0_T0_OUT_L then 100 else if a =? HTS221_H1_T0_OUT_L then 132 else if a =? HTS221_H1_T0_OUT_H then 3 else
  if a =? HTS221_HR_OUT_L_REG then 100 else 0).

Definition low_config : HTS221_Init_st := {|
  avg_h := HTS221_AVGH_32; avg_t := HTS221_AVGT_16; odr := HTS221_ODR_7HZ; bdu_status := HTS221_ENABLE;
  heater_status := HTS221_DISABLE; irq_level := HTS221_LOW_LVL; irq_output_type := HTS221_OPENDRAIN;
  irq_enable := HTS221_ENABLE |}.

Lemma HTS221_InitConfig_spec_witness :
  dwp (HTS221_Set_InitConfig low_config) (λ err w',
    (∀ b, True → b ∉ config_registers → cell w' b = cell hts_chip b) ∧
    (err = HTS221_OK → Z.land (cell w' HTS221_CTRL_REG2) HTS221_ONE_SHOT_MASK = 0 ∧
      dwp (HTS221_Get_InitConfig low_config) (λ res w'', same_cells w' w'' ∧
        (res.1 = HTS221_OK → res.2 = kept_config low_config (cell hts_chip HTS221_CTRL_REG2))) w')) hts_chip.
Proof. by apply (HTS221_InitConfig_spec (W := chip hts_place) (λ _, True)). Defined.

Lemma HTS221_Get_Humidity_spec_witness : word_at (λ _, True) hts_chip HTS221_H1_T0_OUT_L = 900 ∧
  dwp (HTS221_Get_Humidity 0) (λ res _, res = (HTS221_OK, 200)) hts_chip.
Proof.
  split; [by vm_compute|].
  eapply dwp_mono; [apply (proj1 (HTS221_Get_Humidity_spec (W := chip hts_place) (λ _, True) 0 hts_chip (λ _ _, I)));
    by vm_compute|].
  intros [err v] w (_ & Hok & _ & Hv). cbn in *. rewrite (Hok (λ _ _ _ _, eq_refl)) in *. f_equal.
  destruct (Hv eq_refl) as [_ ->]; [done|done|by vm_compute|by vm_compute].
Defined.
