(* ===== verification/Lps22hb.v ===== *)
(** LPS22HB_driver.c and LPS22HBSensor.cpp: the pressure sensor.

    The MiCO calls that start and stop the I2C bus are parameters. The wait for a
    conversion is a loop with fuel. *)
From S2P Require Export Hts221.

(** ** LPS22HB_driver.h *)
Definition LPS22HB_REF_P_XL_ADDR : Z := 21.
Definition LPS22HB_REF_P_L_ADDR : Z := 22.
Definition LPS22HB_REF_P_H_ADDR : Z := 23.
Definition LPS22HB_WHO_AM_I_ADDR : Z := 15.
Definition LPS22HB_RES_CONF_ADDR : Z := 26.
Definition LPS22HB_CTRL_REG1_ADDR : Z := 16.
Definition LPS22HB_CTRL_REG2_ADDR : Z := 17.
Definition LPS22HB_CTRL_REG3_ADDR : Z := 18.
Definition LPS22HB_INT_SOURCE_REG_ADDR : Z := 37.
Definition LPS22HB_THS_P_LOW_REG_ADDR : Z := 22.
Definition LPS22HB_THS_P_HIGH_REG_ADDR : Z := 23.
Definition LPS22HB_STATUS_REG_ADDR : Z := 39.
Definition LPS22HB_PRESS_POUT_XL_ADDR : Z := 40.
Definition LPS22HB_PRESS_OUT_L_ADDR : Z := 41.
Definition LPS22HB_PRESS_OUT_H_ADDR : Z := 42.
Definition LPS22HB_TEMP_OUT_L_ADDR : Z := 43.
Definition LPS22HB_TEMP_OUT_H_ADDR : Z := 44.
Definition LPS22HB_CTRL_FIFO_ADDR : Z := 20.
Definition LPS22HB_STATUS_FIFO_ADDR : Z := 38.
Definition LPS22HB_RPDS_TRIM_L_ADDR : Z := 24.
Definition LPS22HB_RPDS_TRIM_H_ADDR : Z := 25.
Definition LPS22HB_I2C_MULTIPLEBYTE_CMD : Z := 128.
Definition LPS22HB_ADDRESS_LOW : Z := 184.
Definition LPS22HB_ADDRESS_HIGH : Z := 186.
Definition I_AM_LPS22HB : Z := 189.
Definition LPS22HB_MODE_POWERDOWN : Z := 0.
Definition LPS22HB_MODE_ACTIVE : Z := 128.
Definition LPS22HB_MODE_MASK : Z := 128.
Definition LPS22HB_ODR_ONE_SHOT : Z := 0.
Definition LPS22HB_ODR_1Hz : Z := 16.
Definition LPS22HB_ODR_7Hz : Z := 32.
Definition LPS22HB_ODR_12_5Hz : Z := 48.
Definition LPS22HB_ODR_25Hz : Z := 64.
Definition LPS22HB_ODR_MASK : Z := 112.
Definition LPS22HB_DIFF_DISABLE : Z := 0.
Definition LPS22HB_DIFF_ENABLE : Z := 8.
Definition LPS22HB_DIFF_EN_MASK : Z := 8.
Definition LPS22HB_BDU_CONT : Z := 0.
Definition LPS22HB_BDU_READ : Z := 4.
Definition LPS22HB_BDU_MASK : Z := 4.
Definition LPS22HB_SPI_SIM_4W : Z := 0.
Definition LPS22HB_SPI_SIM_3W : Z := 1.
Definition LPS22HB_SPI_SIM_MASK : Z := 1.
Definition LPS22HB_NORMAL_MODE : Z := 0.
Definition LPS22HB_RESET_MEMORY : Z := 128.
Definition LPS22HB_RESET_MEMORY_MASK : Z := 128.
Definition LPS22HB_P_RES_AVG_8 : Z := 0.
Definition LPS22HB_P_RES_AVG_32 : Z := 1.
Definition LPS22HB_P_RES_AVG_128 : Z := 2.
Definition LPS22HB_P_RES_AVG_512 : Z := 3.
Definition LPS22HB_P_RES_MASK : Z := 3.
Definition LPS22HB_ONE_SHOT_START : Z := 1.
Definition LPS22HB_ONE_SHOT_MASK : Z := 1.
Definition LPS22HB_T_RES_AVG_8 : Z := 0.
Definition LPS22HB_T_RES_AVG_16 : Z := 4.
Definition LPS22HB_T_RES_AVG_32 : Z := 8.
Definition LPS22HB_T_RES_AVG_64 : Z := 12.
Definition LPS22HB_T_RES_MASK : Z := 12.
Definition LPS22HB_SA0_LOW : Z := 0.
Definition LPS22HB_SA0_HIGH : Z := 1.

Inductive PRESSURE_StatusTypeDef := PRESSURE_OK | PRESSURE_ERROR | PRESSURE_TIMEOUT | PRESSURE_NOT_IMPLEMENTED.

#[export] Instance PRESSURE_StatusTypeDef_eq_dec : EqDecision PRESSURE_StatusTypeDef.
Proof. solve_decision. Defined.

Definition lps_failed (st : PRESSURE_StatusTypeDef) : bool := bool_decide (st ≠ PRESSURE_OK).

Record PRESSURE_InitTypeDef := {
  OutputDataRate : Z; PressureResolution : Z; TemperatureResolution : Z;
  DiffEnable : Z; BlockDataUpdate : Z; SPIMode : Z }.

Definition f32_4096 : f32 := f32_of_Z 4096.
Definition f32_100 : f32 := f32_of_Z 100.

(** ** The driver *)
Section driver.
Context {W : Type} `{Bus W}.

(** The MiCO calls that start the bus and look for the device, and that stop it. *)
Context (MicoI2cStart : dev W bool) (MicoI2cFinalize : dev W bool).

(** The result of the bus is compared with PRESSURE_OK, which is 0. *)
Definition LPS22HB_io_read (ReadAddr : Z) (pBuffer : list Z) (n : Z) : dev W (PRESSURE_StatusTypeDef * list Z) :=
  '(rc, bs) ← bus_read ReadAddr pBuffer n;
  mret (if rc =? 0 then PRESSURE_OK else PRESSURE_ERROR, bs).

Definition LPS22HB_io_write (WriteAddr : Z) (pBuffer : list Z) : dev W PRESSURE_StatusTypeDef :=
  rc ← bus_write WriteAddr pBuffer;
  mret (if rc =? 0 then PRESSURE_OK else PRESSURE_ERROR).

(** One register, read into a variable that holds [tmp]. *)
Definition lps_read (ReadAddr tmp : Z) : dev W (PRESSURE_StatusTypeDef * Z) :=
  '(st, bs) ← LPS22HB_io_read ReadAddr [tmp] 1;
  tmp ← checked (rd bs 0);
  mret (st, tmp).

Definition LPS22HB_IO_Init : dev W PRESSURE_StatusTypeDef :=
  found ← MicoI2cStart;
  if found : bool then mret PRESSURE_OK else mret PRESSURE_ERROR.

Definition LPS22HB_PowerOn : dev W PRESSURE_StatusTypeDef :=
  '(st, tmpreg) ← lps_read LPS22HB_CTRL_REG1_ADDR 0;
  if lps_failed st then mret PRESSURE_ERROR else
  let tmpreg := or_into tmpreg LPS22HB_MODE_ACTIVE in
  st ← LPS22HB_io_write LPS22HB_CTRL_REG1_ADDR [tmpreg];
  if lps_failed st then mret PRESSURE_ERROR else
  mret PRESSURE_OK.

Definition LPS22HB_PowerOff : dev W PRESSURE_StatusTypeDef :=
  '(st, tmpreg) ← lps_read LPS22HB_CTRL_REG1_ADDR 0;
  if lps_failed st then mret PRESSURE_ERROR else
  let tmpreg := clear tmpreg LPS22HB_MODE_ACTIVE in
  st ← LPS22HB_io_write LPS22HB_CTRL_REG1_ADDR [tmpreg];
  if lps_failed st then mret PRESSURE_ERROR else
  mret PRESSURE_OK.

Definition LPS22HB_Init (cfg : PRESSURE_InitTypeDef) : dev W PRESSURE_StatusTypeDef :=
  st ← LPS22HB_IO_Init;
  if lps_failed st then mret PRESSURE_ERROR else
  st ← LPS22HB_PowerOn;
  if lps_failed st then mret PRESSURE_ERROR else
  '(st, tmp1) ← lps_read LPS22HB_CTRL_REG1_ADDR 0;
  if lps_failed st then mret PRESSURE_ERROR else
  let tmp1 := or_into (clear tmp1 LPS22HB_ODR_MASK) (OutputDataRate cfg) in
  let tmp1 := or_into (clear tmp1 LPS22HB_DIFF_EN_MASK) (DiffEnable cfg) in
  let tmp1 := or_into (clear tmp1 LPS22HB_BDU_MASK) (BlockDataUpdate cfg) in
  let tmp1 := or_into (clear tmp1 LPS22HB_SPI_SIM_MASK) (SPIMode cfg) in
  st ← LPS22HB_io_write LPS22HB_CTRL_REG1_ADDR [tmp1];
  if lps_failed st then mret PRESSURE_ERROR else
  '(st, tmp1) ← lps_read LPS22HB_RES_CONF_ADDR tmp1;
  if lps_failed st then mret PRESSURE_ERROR else
  let tmp1 := or_into (clear tmp1 LPS22HB_P_RES_MASK) (PressureResolution cfg) in
  let tmp1 := or_into (clear tmp1 LPS22HB_T_RES_MASK) (TemperatureResolution cfg) in
  st ← LPS22HB_io_write LPS22HB_RES_CONF_ADDR [tmp1];
  if lps_failed st then mret PRESSURE_ERROR else
  mret PRESSURE_OK.

(** [None] is the null pointer. *)
Definition LPS22HB_ReadID (p_id : option Z) : dev W (PRESSURE_StatusTypeDef * option Z) :=
  match p_id with
  | None => mret (PRESSURE_ERROR, None)
  | Some id => '(st, id) ← lps_read LPS22HB_WHO_AM_I_ADDR id; mret (st, Some id)
  end.

Definition LPS22HB_RebootCmd : dev W PRESSURE_StatusTypeDef :=
  '(st, tmpreg) ← lps_read LPS22HB_CTRL_REG2_ADDR 0;
  if lps_failed st then mret PRESSURE_ERROR else
  let tmpreg := or_into tmpreg LPS22HB_RESET_MEMORY in
  st ← LPS22HB_io_write LPS22HB_CTRL_REG2_ADDR [tmpreg];
  if lps_failed st then mret PRESSURE_ERROR else
  mret PRESSURE_OK.

(** [do { ... } while (!(tmp && 0x01))]: until a status that is not 0. *)
Fixpoint wait_status (fuel : nat) (tmp : Z) : dev W PRESSURE_StatusTypeDef :=
  match fuel with
  | O => checked (Ub OutOfFuel)
  | S fuel =>
    '(st, tmp) ← lps_read LPS22HB_STATUS_REG_ADDR tmp;
    if lps_failed st then mret PRESSURE_ERROR else
    if negb (tmp =? 0) then mret PRESSURE_OK else wait_status fuel tmp
  end.

(** In one-shot mode a conversion is started and waited for. *)
Definition one_shot (fuel : nat) : dev W PRESSURE_StatusTypeDef :=
  '(st, tmp) ← lps_read LPS22HB_CTRL_REG1_ADDR 0;
  if lps_failed st then mret PRESSURE_ERROR else
  let tmp := Z.land tmp LPS22HB_ODR_MASK in
  if tmp =? 0 then
    '(st, tmp) ← lps_read LPS22HB_CTRL_REG2_ADDR tmp;
    if lps_failed st then mret PRESSURE_ERROR else
    let tmp := or_into (clear tmp LPS22HB_ONE_SHOT_MASK) LPS22HB_ONE_SHOT_START in
    st ← LPS22HB_io_write LPS22HB_CTRL_REG2_ADDR [tmp];
    if lps_failed st then mret PRESSURE_ERROR else
    wait_status fuel tmp
  else mret PRESSURE_OK.

(** The 24 bits of [buffer], sign-extended to 32. *)
Definition raw24 (buffer : list Z) : outcome Z :=
  b0 ← rd buffer 0; b1 ← rd buffer 1; b2 ← rd buffer 2;
  let tempVal := u32 (Z.lor (Z.lor (Z.lor 0 (Z.shiftl b0 0)) (Z.shiftl b1 8)) (Z.shiftl b2 16)) in
  Ok (if negb (Z.land tempVal 8388608 =? 0) then Z.lor tempVal 4278190080 else tempVal).

Definition LPS22HB_I2C_ReadRawPressure (fuel : nat) (raw_press : Z) : dev W (PRESSURE_StatusTypeDef * Z) :=
  st ← one_shot fuel;
  if lps_failed st then mret (PRESSURE_ERROR, raw_press) else
  '(st, buffer) ← LPS22HB_io_read (Z.lor LPS22HB_PRESS_POUT_XL_ADDR LPS22HB_I2C_MULTIPLEBYTE_CMD) [0; 0; 0] 3;
  if lps_failed st then mret (PRESSURE_ERROR, raw_press) else
  raw_press ← checked (raw24 buffer);
  mret (PRESSURE_OK, raw_press).

Definition LPS22HB_GetPressure (fuel : nat) (pfData : f32) : dev W (PRESSURE_StatusTypeDef * f32) :=
  st ← one_shot fuel;
  if lps_failed st then mret (PRESSURE_ERROR, pfData) else
  '(st, raw_press) ← LPS22HB_I2C_ReadRawPressure fuel 0;
  if lps_failed st then mret (PRESSURE_ERROR, pfData) else
  mret (PRESSURE_OK, f32_div (f32_of_Z raw_press) f32_4096).

Definition LPS22HB_I2C_ReadRawTemperature (raw_data : Z) : dev W (PRESSURE_StatusTypeDef * Z) :=
  '(st, lo) ← lps_read LPS22HB_TEMP_OUT_L_ADDR 0;
  if lps_failed st then mret (PRESSURE_ERROR, raw_data) else
  '(st, hi) ← lps_read LPS22HB_TEMP_OUT_H_ADDR 0;
  if lps_failed st then mret (PRESSURE_ERROR, raw_data) else
  mret (PRESSURE_OK, s16 (u16 (Z.shiftl hi 8 + lo))).

Definition LPS22HB_GetTemperature (fuel : nat) (pfData : f32) : dev W (PRESSURE_StatusTypeDef * f32) :=
  st ← one_shot fuel;
  if lps_failed st then mret (PRESSURE_ERROR, pfData) else
  '(st, raw_data) ← LPS22HB_I2C_ReadRawTemperature 0;
  if lps_failed st then mret (PRESSURE_ERROR, pfData) else
  mret (PRESSURE_OK, f32_div (f32_of_Z raw_data) f32_100).

(** The configuration of the board. *)
Definition default_config : PRESSURE_InitTypeDef := {|
  OutputDataRate := LPS22HB_ODR_ONE_SHOT; PressureResolution := LPS22HB_P_RES_AVG_32;
  TemperatureResolution := LPS22HB_T_RES_AVG_32; DiffEnable := LPS22HB_DIFF_ENABLE;
  BlockDataUpdate := LPS22HB_BDU_READ; SPIMode := LPS22HB_SPI_SIM_4W |}.

Definition lps22hb_sensor_init : dev W Z :=
  st ← LPS22HB_Init default_config;
  mret (if lps_failed st then -1 else 0).

Definition lps22hb_sensor_deinit : dev W Z :=
  st ← LPS22HB_PowerOff;
  if lps_failed st then mret (-1) else
  ok ← MicoI2cFinalize;
  mret (if ok : bool then 0 else -1).

(** ** LPS22HBSensor.cpp: the class over the driver *)
Definition lps_init : dev W Z := _ ← lps22hb_sensor_init; mret 0.
Definition lps_deInit : dev W Z := _ ← lps22hb_sensor_deinit; mret 0.

Definition lps_readId (id : option Z) : dev W (Z * option Z) :=
  match id with
  | None => mret (1, None)
  | Some v =>
    '(st, id) ← LPS22HB_ReadID (Some v);
    mret (if lps_failed st then 1 else 0, id)
  end.

Definition lps_getPressure (fuel : nat) (pfData : f32) : dev W (Z * f32) :=
  '(st, pfData) ← LPS22HB_GetPressure fuel pfData;
  mret (if lps_failed st then 1 else 0, pfData).

Definition lps_getTemperature (fuel : nat) (pfData : f32) : dev W (Z * f32) :=
  '(st, pfData) ← LPS22HB_GetTemperature fuel pfData;
  mret (if lps_failed st then 1 else 0, pfData).
End driver.
