(* ===== verification/Lps22hbSpec.v ===== *)
(** The pressure sensor: the value a measurement returns. *)
From S2P Require Export Lps22hb Hts221Spec.

Section spec.
Context {W : Type} `{Bus W} (stored : Z → Prop) `{!Registers hts_place stored}.
Implicit Types (w : W) (r n v : Z).

Lemma dwp_lps_read r v w (Q : PRESSURE_StatusTypeDef * Z → W → Prop) : 0 ≤ r < 128 → is_u8 v →
  (∀ w' v', ¬ reliable W → same_cells w w' → Q (PRESSURE_ERROR, v') w') →
  (∀ w', same_cells w w' → Q (PRESSURE_OK, cell w r) w') → dwp (lps_read r v) Q w.
Proof using.
  intros Hr Hv HE HQ. unfold lps_read, LPS22HB_io_read. change r with (start r 1) at 1.
  apply dwp_bind, dwp_bind, (dwp_bus_read stored r 1); [lia|done|lia|done|by repeat constructor; apply Hv| |].
  - intros rc w' bs' Hrc Hrel Hs Hz Hb. apply dwp_ret. rewrite (proj2 (Z.eqb_neq _ _) Hrc).
    destruct bs' as [|b bs']; [done|]. eapply dwp_checked; [done|]. by apply dwp_ret, HE.
  - intros w' Hs. apply dwp_ret. eapply (dwp_checked _ (cell w (r + 0))); [done|]. rewrite Z.add_0_r. by apply dwp_ret, HQ.
Qed.

(** In a continuous mode no conversion is started. *)
Definition continuous w : Prop := Z.land (cell w LPS22HB_CTRL_REG1_ADDR) LPS22HB_ODR_MASK ≠ 0.

Lemma dwp_one_shot fuel w (Q : PRESSURE_StatusTypeDef → W → Prop) : reliable W → continuous w →
  (∀ w', same_cells w w' → Q PRESSURE_OK w') → dwp (one_shot fuel) Q w.
Proof using.
  intros Hrel Hc HQ. unfold one_shot. apply dwp_bind, dwp_lps_read; [done|done|by intros|]. intros w' Hs. cbn -[Z.land].
  rewrite (proj2 (Z.eqb_neq _ _) Hc). by apply dwp_ret, HQ.
Qed.

(** The 24-bit output registers, and the number they stand for. *)
Definition pressure_raw w : Z :=
  cell w LPS22HB_PRESS_POUT_XL_ADDR + 256 * cell w LPS22HB_PRESS_OUT_L_ADDR + 65536 * cell w LPS22HB_PRESS_OUT_H_ADDR.

Lemma land_bit_23 p : 0 ≤ p < 2 ^ 24 → negb (Z.land p 8388608 =? 0) = negb (p <? 2 ^ 23).
Proof using.
  intros Hp. change 8388608 with (2 ^ 23). f_equal. destruct (Z.ltb_spec p (2 ^ 23)).
  - apply Z.eqb_eq, Z.bits_inj'. intros n Hn. rewrite Z.land_spec, Z.bits_0, Z.pow2_bits_eqb by lia.
    destruct (Z.eqb_spec 23 n) as [<-|]; [|by rewrite andb_false_r].
    rewrite (proj1 (Z.bounded_iff_bits_nonneg 23 p ltac:(lia) ltac:(lia)) ltac:(lia) 23) by lia. done.
  - apply Z.eqb_neq. intros E. assert (Z.testbit (Z.land p (2 ^ 23)) 23 = false) as Ht by (rewrite E; apply Z.bits_0).
    rewrite Z.land_spec, Z.pow2_bits_eqb, Z.eqb_refl, andb_true_r in Ht by lia. apply Z.testbit_false in Ht; [|lia].
    dlia.
Qed.

Lemma raw24_spec b0 b1 b2 l : is_u8 b0 → is_u8 b1 → is_u8 b2 → let p := b0 + 256 * b1 + 65536 * b2 in
  raw24 (b0 :: b1 :: b2 :: l) = Ok (if p <? 2 ^ 23 then p else p + (2 ^ 32 - 2 ^ 24)).
Proof using.
  intros H0 H1 H2 p. unfold is_u8 in *. unfold raw24.
  change (rd (b0 :: b1 :: b2 :: l) 0) with (Ok b0). change (rd (b0 :: b1 :: b2 :: l) 1) with (Ok b1).
  change (rd (b0 :: b1 :: b2 :: l) 2) with (Ok b2). cbn [mbind outcome_bind].
  rewrite Z.lor_0_l, Z.shiftl_0_r, (lor_shiftl_add 8), (lor_shiftl_add 16) by lia.
  replace (b0 + b1 * 2 ^ 8 + b2 * 2 ^ 16) with p by lia. rewrite (u32_id p) by (unfold is_u32; lia).
  change 4278190080 with (Z.shiftl 255 24). rewrite lor_shiftl_add by lia. rewrite land_bit_23 by lia.
  by destruct (p <? 2 ^ 23).
Qed.

Lemma div_value p : 0 < p < 2 ^ 24 →
  ∃ m e, f32_div (f32_of_Z p) f32_4096 = S754_finite false m (e - 12) ∧ - 24 ≤ e ≤ 0 ∧ Z.pos m = p * 2 ^ (- e).
Proof using.
  intros Hp. destruct p as [|p|p]; [lia| |lia]. destruct (of_Z_exact (Z.pos p)) as (m & e & -> & Hm & Hd & He); [done|lia|].
  exists m, e. split; [|done]. apply div_4096; [done|lia].
Qed.

(** C40: on a bus that works and with a device that measures continuously,
    LPS22HB_GetPressure returns and changes no register; a positive 24-bit output p is
    stored as exactly p / 4096 hPa, without a rounding error, and a negative one as the
    float nearest to its 32-bit two's complement image taken as an unsigned number,
    divided by 4096: about a million hPa. *)
Theorem LPS22HB_GetPressure_spec fuel junk w : reliable W → continuous w →
  (∀ r, r ∈ [LPS22HB_CTRL_REG1_ADDR; LPS22HB_PRESS_POUT_XL_ADDR; LPS22HB_PRESS_OUT_L_ADDR; LPS22HB_PRESS_OUT_H_ADDR] → stored r) →
  let p := pressure_raw w in
  dwp (LPS22HB_GetPressure fuel junk) (λ res w', same_cells w w' ∧ res.1 = PRESSURE_OK ∧
    (0 < p < 2 ^ 23 → ∃ m e, res.2 = S754_finite false m (e - 12) ∧ - 24 ≤ e ≤ 0 ∧ Z.pos m = p * 2 ^ (- e)) ∧
    (2 ^ 23 ≤ p → res.2 = f32_div (f32_of_Z (p - 2 ^ 24 + 2 ^ 32)) f32_4096)) w.
Proof using.
  intros Hrel Hc Hst p. assert (∀ w', same_cells w w' → continuous w') as Hc'.
  { intros w' Hs. unfold continuous. rewrite Hs; [done|]. apply Hst. in_list. }
  unfold LPS22HB_GetPressure. apply dwp_bind, dwp_one_shot; [done|done|]. intros w1 Hw1. cbn [lps_failed].
  unfold LPS22HB_I2C_ReadRawPressure. apply dwp_bind, dwp_bind, dwp_one_shot; [done|by apply Hc'|]. intros w2 Hw2.
  pose proof (same_cells_trans _ _ _ Hw1 Hw2) as Hw02. cbn -[raw24 f32_div f32_of_Z f32_4096].
  unfold LPS22HB_io_read. apply dwp_bind, dwp_bind.
  change (Z.lor LPS22HB_PRESS_POUT_XL_ADDR LPS22HB_I2C_MULTIPLEBYTE_CMD) with (start LPS22HB_PRESS_POUT_XL_ADDR 3).
  apply (dwp_bus_read stored); [done..|by repeat constructor|by intros|]. intros w3 Hw3. apply dwp_ret. cbn -[raw24 f32_div f32_of_Z f32_4096].
  eapply dwp_checked; [by apply raw24_spec; apply cell_byte|]. apply dwp_ret. cbn -[f32_div f32_of_Z f32_4096 Z.pow].
  apply dwp_ret. split; [by eapply same_cells_trans|]. split; [done|]. cbn [fst snd].
  assert (cell w2 LPS22HB_PRESS_POUT_XL_ADDR + 256 * cell w2 LPS22HB_PRESS_OUT_L_ADDR + 65536 * cell w2 LPS22HB_PRESS_OUT_H_ADDR = p) as Hp.
  { unfold p, pressure_raw. rewrite !Hw02; [done|..]; apply Hst; in_list. }
  change (cell w2 (LPS22HB_PRESS_POUT_XL_ADDR + (Z.of_nat 0 + 0)) + 256 * cell w2 (LPS22HB_PRESS_POUT_XL_ADDR + (Z.of_nat 1 + 0)) + 65536 * cell w2 (LPS22HB_PRESS_POUT_XL_ADDR + (Z.of_nat 2 + 0)) = p) in Hp.
  rewrite Hp. split; intros Hr.
  - rewrite (proj2 (Z.ltb_lt _ _)) by lia. apply div_value. lia.
  - rewrite (proj2 (Z.ltb_ge _ _)) by lia. do 2 f_equal. lia.
Qed.
End spec.

(** A device that measures continuously and has 1000 hPa in its registers. *)
Definition lps_chip : chip hts_place := Chip (λ a,
  if a =? LPS22HB_CTRL_REG1_ADDR then 16 else if a =? LPS22HB_PRESS_OUT_L_ADDR then 128 else
  if a =? LPS22HB_PRESS_OUT_H_ADDR then 62 else 0).

Lemma LPS22HB_GetPressure_spec_witness : pressure_raw (λ _, True) lps_chip = 1000 * 4096 ∧
  dwp (LPS22HB_GetPressure 0 f32_0) (λ res _, res.1 = PRESSURE_OK) lps_chip.
Proof.
  split; [by vm_compute|].
  eapply dwp_mono; [apply (LPS22HB_GetPressure_spec (W := chip hts_place) (λ _, True) 0 f32_0 lps_chip); by vm_compute|].
  by intros res w (_ & ? & _).
Defined.
